(* ===== verification/_CoqProject ===== *)
-Q . S2P
Prelude.v
Errors.v
Types.v
Runtime.v
Toy.v
Ics24.v
Cpi.v
AccessManager.v
AccessManagerSpec.v
Keyed.v
Histories.v
Chunking.v
Router.v
ChunkingSpec.v
RouterSpec.v
RouterProps.v
RouterExample.v
GmpTypes.v
Gmp.v
GmpSpec.v
GmpProps.v
Ift.v
IftSpec.v
IftReplay.v
IftProps.v
Deployment.v
TokenExample.v
Attestation.v
AttestationSpec.v
AttestationProps.v
AttestationState.v
LightClients.v
AttestationExample.v
TreeHash.v
TreeHashSpec.v
TreeHashRef.v
EthTypes.v
EthTrie.v
EthLC.v
EthWasm.v
EthMerkle.v
EthVerify.v
EthWasmSpec.v
EthHistory.v
EthExample.v
BorshHeader.v
BorshHeaderSpec.v
TmLightClient.v
TmLightClientSpec.v
Tendermint.v
TendermintSpec.v
TendermintProps.v
TendermintState.v
TendermintClient.v
TendermintStep.v
TendermintUpload.v
TendermintExample.v
