(* ===== verification/Prelude.v ===== *)
(** * Verification of the Rust programs of [solidity-ibc-eureka]

    The repository implements IBC v2 between Ethereum, Cosmos chains and
    Solana.  This development models its Rust programs as executable
    definitions and proves what makes them correct.

    ** The programs and how they interact

    On Solana ([src/programs/solana]) the router ([ics26-router]) keeps the
    packet protocol: applications send packets through it, relayers submit
    received packets, acknowledgements and timeouts, and it asks the light
    client of the packet's client for each proof before it calls the
    application.  Light clients are separate programs: the attestation client
    ([attestation]) trusts a quorum of signatures, the Tendermint client
    ([ics07-tendermint]) verifies the headers of a Cosmos chain with
    [src/packages/tendermint-light-client] and ICS-23 proofs against them.  The
    GMP program
    ([ics27-gmp]) is an application that carries calls, and the token program
    ([ift]) is a client of GMP that bridges fungible tokens.  The access
    manager ([access-manager]) holds the roles that all of them check.

    On Cosmos chains, an Ethereum light client runs as a Wasm contract
    ([src/ibc-solidity/programs/cw-ics08-wasm-eth]) around the packages in
    [src/packages/ethereum]: the light-client protocol, the trie proofs and the
    tree hash.

    ** Files, Solana part

    - [Prelude]: bytes, fixed-width integers, results, list lemmas.
    - [Errors], [Types]: error enums, accounts, messages, events.
    - [Runtime]: the ledger ([World]), the call frame ([CallCtx]), the monad [M]
      of instructions, the account operations behind Anchor's attributes, and
      calls between programs.  [Platform] is the code outside the repository
      (hashes, address derivation, rent, the called programs), [PlatformOk]
      what the theorems rely on.  [Toy]: an executable platform.
    - [Ics24], [Cpi]: [packages/solana-ibc-types/src/ics24.rs] and [cpi.rs].
    - [AccessManager], [AccessManagerSpec]: [programs/access-manager].
    - [Keyed], [Histories]: what the specifications of the programs share,
      named accounts, transitions, reachable states and their induction
      principles.
    - [Chunking], [Router], [ChunkingSpec], [RouterSpec], [RouterProps],
      [RouterExample]: [programs/ics26-router].
    - [GmpTypes], [Gmp], [GmpSpec], [GmpProps]: [programs/ics27-gmp],
      [packages/solana-ibc-gmp-types], [packages/solana-ibc-proto] and
      [src/packages/constrained_types].
    - [Ift], [IftSpec], [IftReplay], [IftProps]: [programs/ift].
    - [Deployment], [TokenExample]: the router, GMP and the token program
      running together, and a history on them.
    - [Attestation], [AttestationSpec], [AttestationProps], [AttestationState],
      [AttestationExample]: [programs/attestation].  [LightClients]: the
      interface between the router and its light clients.
    - [BorshHeader], [BorshHeaderSpec]: [packages/solana-ibc-borsh-header] and
      the conversions of the Tendermint program ([conversions.rs]).
    - [TmLightClient], [TmLightClientSpec]: [src/packages/tendermint-light-client],
      around the class [TendermintLib] for tendermint-rs, ibc-rs and ICS-23.
    - [Tendermint], [TendermintSpec], [TendermintProps], [TendermintState],
      [TendermintClient], [TendermintStep], [TendermintUpload],
      [TendermintExample]:
      [programs/ics07-tendermint].

    ** Files, Ethereum part

    - [TreeHash], [TreeHashSpec], [TreeHashRef]: [packages/ethereum/tree_hash].
    - [EthTypes]: [packages/ethereum/types].  [EthTrie]: [trie-db].
    - [EthLC], [EthMerkle], [EthVerify]: [packages/ethereum/light-client].
    - [EthWasm], [EthWasmSpec], [EthHistory], [EthExample]: the Wasm contract.

    ** How code becomes definitions

    One definition per instruction, named after the Rust function, with the
    Anchor constraints in the order in which the framework checks them: loads
    and signers in field order, created accounts, the other constraints, then
    the handler, and at the end the stores and closes of the mutable accounts.
    An instruction is a function [World -> result Error (A * World)]; an error
    commits nothing.  A program's entry point ([exec_router], [exec_gmp], ...)
    dispatches on its instruction type.  Integers are [Z] within the range of
    their type, with checked and saturating operations written out.

    The account of a program is named by a key ([RouterKey], [GmpKey],
    [IftKey], ...), a specification is an inductive relation between an
    instruction with its accounts and arguments, the conditions it needs, the
    changes it makes and the log entries it leaves, and a refinement theorem
    shows that every successful instruction does what the relation says for
    it.  A reachable state is one that the program's instructions and
    anything that other programs may do have produced from an empty program;
    the protocol theorems hold in all of them.  Claims about several programs
    are about states reachable for each.

    ** What the theorems show

    - Contracts of the instructions: what each instruction of a program does
      with its own accounts and arguments, and that it changes nothing else
      ([router_instructions_refine_spec]; [ift_instructions_refine_spec], with
      the relation [i_trans]; [tm_instructions_refine_spec], with [t_spec],
      which covers the uploaded chunks and the recorded signatures;
      [am_instructions_refine_spec], with [am_spec], over an abstract registry
      of a set of role holders, a whitelist and a map of pending handovers).
    - Packets: a packet is settled once ([packets_settled_once]) and delivered
      once ([packets_delivered_once]), receipts and acknowledgements are final,
      and with the attestation client each delivery and timeout rests on a
      quorum ([delivered_packets_attested],
      [timed_out_packets_attested_missing]).
    - Commitments and paths: [ics24_paths_injective],
      [packet_commitment_binding].  Hash functions are parameters without a
      law but their length; where a claim needs injectivity, it exhibits the
      collision as the other case.
    - Calls: a recorded result is the settlement of the packet that carried
      the call ([gmp_results_truthful]), stays ([gmp_results_final]), is
      recorded with the settlement ([settled_calls_recorded]), and a received
      call is signed by the account of its sender only
      ([gmp_executes_as_sender]).  The router's callbacks for a call succeed
      while the program runs, the relayer pays the rent of a free result
      account and the client identifiers fit its space
      ([gmp_callbacks_go_through]).
    - Tokens: transfers end once ([ift_transfers_settled_once]), for the reason
      the light client proved ([ift_outcomes_justified]); every mint is
      accounted for and within the daily limit ([ift_mints_accounted],
      [daily_mint_bounded]); the state is the replay of the events
      ([ift_state_replays]).
    - Authority: registries, bridges, limits, pause switches and upgrade
      authorities change only as the roles allow ([am_changes_authorized],
      [router_changes_authorized], [ift_changes_authorized]).
    - Attestations: [verify_attestation_iff_quorum],
      [consensus_states_attested], [frozen_iff_conflicting_quorums],
      [membership_iff_attested], [non_membership_iff_attested].
    - Tendermint: every consensus state descends by verified headers from one
      of the first ([tm_states_trusted]) and is final ([tm_states_final]), the
      client freezes on evidence only ([tm_freezes_on_evidence]), accounts of
      pre-verified signatures tell the truth
      ([pre_verified_signatures_genuine]) and the Solana variant of the
      verification, which skips predicates and reads those accounts, agrees
      with the standard one ([solana_variant_agrees]); with this client the
      router delivers and times out only what an ICS-23 proof shows
      ([delivered_packets_proved], [timed_out_packets_proved_missing]).  The
      header codec: [direct_decoder_agrees], [header_codec_roundtrip],
      [uploaded_header_read].
    - Ethereum: a verified header carries the signatures of a supermajority of
      the trusted committee ([verify_header_sound]), committees rotate, the
      store is well formed, and accepted proofs are sound under the BLS and
      trie assumptions stated there ([accepted_proofs_sound]); the three Merkle
      routines compute the same tree ([merkle_routines_agree]).

    ** Bounds and fuel

    [parse_packed_accounts] recurses with the length of its input as fuel, each
    step consumes 34 bytes; the tree-hash loops recurse on the depth or on the
    number of levels, and [hasher_ignores_cuts] shows that they return for
    every input that fits the tree.  Sequences, limits and amounts are u64:
    [is_u64] is the type of the Rust parameter, not an assumption on its value.

    ** Not modelled

    The code of the Solana runtime, Anchor, the token programs, SHA-256,
    Keccak, BLS, Ed25519, secp256k1, the Patricia trie, tendermint-rs, ibc-rs,
    ICS-23, and the derived Borsh, protobuf, ABI, JSON and base58 codecs is not
    in the repository: it is a parameter.  The proof API, the SP1 programs, the operator
    tools and the relayer utilities are network services and command-line
    tools.  Macros and the generated SDK produce code rather than behave.  Test
    programs, the Solidity contracts and the generated bindings are outside the
    Rust sources that run in production. *)

From Stdlib Require Import ZArith Lia.
From Stdlib.Strings Require Import Byte.
From stdpp Require Import base countable numbers strings sorting gmap list.

#[local] Open Scope Z_scope.

(** ** Bytes *)

Abbreviation bytes := (list byte).

#[export] Instance byte_eq_decision : EqDecision byte.
Proof.
  intros x y. destruct (Byte.eqb x y) eqn:E.
  - left. by apply Byte.byte_dec_bl.
  - right. intros ->. by rewrite (Byte.byte_dec_lb eq_refl) in E.
Defined.

#[export] Program Instance byte_countable : Countable byte :=
  inj_countable Byte.to_N Byte.of_N _.
Next Obligation. apply Byte.of_to_N. Qed.

(** The bytes of a string literal: [b"..."] in the Rust source. *)
Definition bs (s : string) : bytes := String.list_byte_of_string s.
Arguments bs s%_string_scope.

(** The value of a byte, and the [as u8] cast. *)
Definition byte_to_Z (b : byte) : Z := Z.of_N (Byte.to_N b).
Definition byte_of_Z (z : Z) : byte := default x00 (Byte.of_N (Z.to_N (z mod 256))).

Lemma byte_to_Z_range b : 0 <= byte_to_Z b < 256.
Proof. unfold byte_to_Z. pose proof (Byte.to_N_bounded b). lia. Qed.

Lemma byte_to_of_Z z : byte_to_Z (byte_of_Z z) = z mod 256.
Proof.
  unfold byte_of_Z, byte_to_Z.
  pose proof (Z.mod_pos_bound z 256 ltac:(lia)) as Hb.
  destruct (Byte.of_N (Z.to_N (z mod 256))) as [b|] eqn:E; simpl.
  - apply Byte.to_of_N in E. lia.
  - apply Byte.of_N_None_iff in E. lia.
Qed.

Lemma byte_of_to_Z b : byte_of_Z (byte_to_Z b) = b.
Proof.
  unfold byte_of_Z, byte_to_Z. pose proof (Byte.to_N_bounded b).
  rewrite Z.mod_small by lia. rewrite N2Z.id. by rewrite Byte.of_to_N.
Qed.

Lemma byte_of_Z_inj x y :
  0 <= x < 256 -> 0 <= y < 256 -> byte_of_Z x = byte_of_Z y -> x = y.
Proof.
  intros Hx Hy E. apply (f_equal byte_to_Z) in E.
  rewrite !byte_to_of_Z, !Z.mod_small in E; lia.
Qed.

(** ** Fixed-width integers *)

Definition u8_max : Z := 2 ^ 8 - 1.
Definition u64_max : Z := 2 ^ 64 - 1.
Definition is_u8 (z : Z) : Prop := 0 <= z <= u8_max.
Definition is_u64 (z : Z) : Prop := 0 <= z <= u64_max.

(** [u64::checked_add], [u64::checked_mul], [u64::saturating_sub]. *)
Definition u64_checked_add (x y : Z) : option Z :=
  if Z.leb (x + y) u64_max then Some (x + y) else None.
Definition u64_checked_mul (x y : Z) : option Z :=
  if Z.leb (x * y) u64_max then Some (x * y) else None.
Definition u64_saturating_sub (x y : Z) : Z := Z.max 0 (x - y).

Lemma u64_checked_add_Some x y z : u64_checked_add x y = Some z -> z = x + y /\ z <= u64_max.
Proof. unfold u64_checked_add. destruct (Z.leb_spec (x + y) u64_max); naive_solver. Qed.

(** [u64::try_from] on an [i64]. *)
Definition u64_try_from_i64 (x : Z) : option Z :=
  if Z.leb 0 x then Some x else None.

(** [to_le_bytes], [to_be_bytes] and [from_le_bytes] of an [n]-byte integer. *)
Fixpoint to_le (n : nat) (z : Z) : bytes :=
  match n with
  | O => []
  | S n => byte_of_Z z :: to_le n (z / 256)
  end.

Fixpoint of_le (l : bytes) : Z :=
  match l with
  | [] => 0
  | b :: l => byte_to_Z b + 256 * of_le l
  end.

Definition u64_to_le_bytes (z : Z) : bytes := to_le 8 z.
Definition u64_to_be_bytes (z : Z) : bytes := reverse (to_le 8 z).
Definition u64_from_le_bytes (l : bytes) : Z := of_le l.

Lemma length_to_le n z : length (to_le n z) = n.
Proof. revert z. induction n; intros; simpl; auto. Qed.

Lemma of_to_le n z : of_le (to_le n z) = z mod 256 ^ (Z.of_nat n).
Proof.
  revert z. induction n as [|n IH]; intros z.
  { simpl. by rewrite Z.mod_1_r. }
  rewrite Nat2Z.inj_succ, Z.pow_succ_r by lia.
  simpl. rewrite IH, byte_to_of_Z.
  rewrite (Z.rem_mul_r z 256 (256 ^ Z.of_nat n)) by (pose proof (Z.pow_pos_nonneg 256 (Z.of_nat n)); lia).
  lia.
Qed.

Lemma u64_le_roundtrip z : is_u64 z -> u64_from_le_bytes (u64_to_le_bytes z) = z.
Proof.
  unfold is_u64, u64_max, u64_from_le_bytes, u64_to_le_bytes. intros H.
  rewrite of_to_le. apply Z.mod_small. simpl. lia.
Qed.

Lemma to_of_le l : to_le (length l) (of_le l) = l.
Proof.
  induction l as [|b l IH]; [done|]. simpl. pose proof (byte_to_Z_range b).
  rewrite Z.add_comm, Z.mul_comm, Z.div_add_l, Z.div_small, Z.add_0_r, IH by lia. f_equal.
  rewrite <- (byte_of_to_Z b) at 2. unfold byte_of_Z. by rewrite Z.add_comm, Z.mod_add by lia.
Qed.

(** A value outside the type is written as the one it wraps to. *)
Lemma u64_to_le_bytes_wrap z : exists z', is_u64 z' /\ u64_to_le_bytes z' = u64_to_le_bytes z.
Proof.
  exists (z mod 256 ^ 8). split.
  - unfold is_u64, u64_max. pose proof (Z.mod_pos_bound z (256 ^ 8)). lia.
  - unfold u64_to_le_bytes. change (256 ^ 8) with (256 ^ Z.of_nat 8). rewrite <- (of_to_le 8 z).
    pose proof (to_of_le (to_le 8 z)) as E. by rewrite length_to_le in E.
Qed.

Lemma u64_to_le_bytes_inj x y :
  is_u64 x -> is_u64 y -> u64_to_le_bytes x = u64_to_le_bytes y -> x = y.
Proof.
  intros Hx Hy E. rewrite <- (u64_le_roundtrip x), <- (u64_le_roundtrip y) by done.
  by rewrite E.
Qed.

Lemma u64_to_be_bytes_inj x y :
  is_u64 x -> is_u64 y -> u64_to_be_bytes x = u64_to_be_bytes y -> x = y.
Proof.
  intros Hx Hy E. apply (inj reverse) in E. by apply u64_to_le_bytes_inj.
Qed.

Lemma length_u64_to_le_bytes z : length (u64_to_le_bytes z) = 8%nat.
Proof. apply length_to_le. Qed.

Lemma length_u64_to_be_bytes z : length (u64_to_be_bytes z) = 8%nat.
Proof. unfold u64_to_be_bytes. rewrite length_reverse. apply length_to_le. Qed.

(** Borsh writes a string or a byte vector after its length as a [u32]. *)
Definition borsh_bytes (s : bytes) : bytes := to_le 4 (Z.of_nat (length s)) ++ s.

(** Lengths of encodings. *)
Create HintDb lengths.
#[export] Hint Rewrite @length_app @length_take @length_drop @length_replicate length_to_le
  length_u64_to_le_bytes length_u64_to_be_bytes : lengths.


(** Two byte strings that agree after concatenation with parts of known
    length agree part by part. *)
Lemma app_inj_len_l {A} (l1 l2 k1 k2 : list A) :
  length l1 = length l2 -> l1 ++ k1 = l2 ++ k2 -> l1 = l2 /\ k1 = k2.
Proof. intros. by apply app_inj_1. Qed.

Lemma app_inj_len_r {A} (l1 l2 k1 k2 : list A) :
  length k1 = length k2 -> l1 ++ k1 = l2 ++ k2 -> l1 = l2 /\ k1 = k2.
Proof. intros. by apply app_inj_2. Qed.

(** ** Fallible computations

    [result E A] is Rust's [Result<A, E>]; [?] is the bind. *)

Inductive result (E A : Type) : Type :=
| Ok (a : A)
| Err (e : E).
Arguments Ok {E A} a.
Arguments Err {E A} e.

#[export] Instance result_ret {E} : MRet (result E) := fun A a => Ok a.
#[export] Instance result_bind {E} : MBind (result E) := fun A B f m =>
  match m with Ok a => f a | Err e => Err e end.

Definition ok_or {E A} (o : option A) (e : E) : result E A :=
  match o with Some a => Ok a | None => Err e end.

Definition map_err {E F A} (f : E -> F) (r : result E A) : result F A :=
  match r with Ok a => Ok a | Err e => Err (f e) end.

Definition require_r {E} (b : bool) (e : E) : result E unit :=
  if b then Ok () else Err e.

Definition is_ok {E A} (r : result E A) : bool :=
  match r with Ok _ => true | Err _ => false end.

Lemma result_ret_bind {E A B} (x : A) (f : A -> result E B) : (Ok x ≫= f) = f x.
Proof. done. Qed.

Lemma result_bind_ok {E A B} (m : result E A) (f : A -> result E B) b :
  m ≫= f = Ok b <-> exists a, m = Ok a /\ f a = Ok b.
Proof.
  split; [|by intros (a & -> & H)].
  destruct m as [a|e]; simpl; [eauto|discriminate].
Qed.

Lemma ok_or_ok {E A} (o : option A) (e : E) a : ok_or o e = Ok a <-> o = Some a.
Proof. destruct o; simpl; split; congruence. Qed.

Lemma map_err_ok {E F A} (f : E -> F) (r : result E A) a :
  map_err f r = Ok a <-> r = Ok a.
Proof. destruct r; simpl; split; congruence. Qed.

Lemma require_r_ok {E} b (e : E) u : require_r b e = Ok u <-> b = true.
Proof. destruct b, u; simpl; split; congruence. Qed.

(** ** Lists as Rust vectors *)

(** [Vec::swap_remove]: the element at [i] is replaced by the last one. *)
Definition swap_remove {A} (i : nat) (l : list A) : list A :=
  match last l with
  | None => []
  | Some x =>
      if decide (S i = length l) then removelast l else <[i := x]> (removelast l)
  end.

(** [iter().position(p)]; [iter().find(p)] is [List.find]. *)
Definition position {A} (p : A -> bool) (l : list A) : option nat :=
  fst <$> list_find (fun x => Is_true (p x)) l.

(** [slice.contains(x)]. *)
Definition contains {A} `{EqDecision A} (x : A) (l : list A) : bool :=
  bool_decide (x ∈ l).

Lemma swap_remove_perm {A} i (l : list A) x :
  l !! i = Some x -> l ≡ₚ x :: swap_remove i l.
Proof.
  unfold swap_remove.
  destruct l as [|y l _] using rev_ind; [done|].
  intros Hi. rewrite last_snoc, removelast_last.
  case_decide as Hd.
  - rewrite length_app in Hd. simpl in Hd.
    assert (i = length l) as -> by lia.
    rewrite lookup_app_r, Nat.sub_diag in Hi by lia. simplify_eq/=.
    symmetry. apply Permutation_cons_append.
  - assert (i < length l)%nat as Hlt.
    { apply lookup_lt_Some in Hi. rewrite length_app in Hi, Hd. simpl in *. lia. }
    rewrite lookup_app_l in Hi by done.
    rewrite <- (take_drop_middle l i x Hi) at 1.
    rewrite (insert_take_drop l i y) by done.
    rewrite <- app_assoc. simpl.
    rewrite <- Permutation_middle. constructor.
    rewrite <- (Permutation_cons_append (drop (S i) l)).
    done.
Qed.

Lemma position_Some {A} (p : A -> bool) l i :
  position p l = Some i ->
  exists x, l !! i = Some x /\ p x = true /\
            forall j y, (j < i)%nat -> l !! j = Some y -> p y = false.
Proof.
  unfold position. rewrite fmap_Some. intros ([j x] & Hf & ->).
  apply list_find_Some in Hf as (Hl & Hp & Hmin).
  exists x. split; [done|]. split; [by apply Is_true_true|].
  intros j' y Hlt Hy. specialize (Hmin j' y Hy Hlt).
  destruct (p y); [by destruct Hmin|done].
Qed.

Lemma position_None {A} (p : A -> bool) l :
  position p l = None <-> Forall (fun x => p x = false) l.
Proof.
  unfold position. rewrite fmap_None, list_find_None.
  apply Forall_proper; [|done]. intros x. destruct (p x); simpl; naive_solver.
Qed.

Lemma contains_spec {A} `{EqDecision A} (x : A) l : contains x l = true <-> x ∈ l.
Proof. apply bool_decide_eq_true. Qed.

Lemma contains_false {A} `{EqDecision A} (x : A) l : contains x l = false <-> x ∉ l.
Proof. apply bool_decide_eq_false. Qed.

Lemma alter_middle {A} (f : A -> A) l1 x l2 :
  alter f (length l1) (l1 ++ x :: l2) = l1 ++ f x :: l2.
Proof. induction l1 as [|y l1 IH]; simpl; [done|by f_equal]. Qed.

Lemma insert_middle {A} (y : A) l1 x l2 :
  <[length l1 := y]> (l1 ++ x :: l2) = l1 ++ y :: l2.
Proof. induction l1 as [|z l1 IH]; simpl; [done|by f_equal]. Qed.

(** The element that [position] finds splits the list. *)
Lemma position_split {A} (p : A -> bool) l i :
  position p l = Some i ->
  exists l1 x l2, l = l1 ++ x :: l2 /\ i = length l1 /\ p x = true /\
                  Forall (fun y => p y = false) l1.
Proof.
  intros (x & Hx & Hp & Hb)%position_Some.
  exists (take i l), x, (drop (S i) l). rewrite length_take_le by (apply lookup_lt_Some in Hx; lia).
  split_and!; [by rewrite take_drop_middle|done|done|].
  apply Forall_lookup_2. intros j y Hj.
  apply lookup_take_Some in Hj as [Hj ?]. eauto.
Qed.

Lemma find_position {A} (p : A -> bool) l :
  List.find p l = position p l ≫= fun i => l !! i.
Proof.
  unfold position. induction l as [|x l IH]; simpl; [done|].
  destruct (p x) eqn:E.
  - destruct (decide (Is_true true)) as [|n]; [done|]. by destruct (n I).
  - destruct (decide (Is_true false)) as [[]|]. rewrite IH.
    by destruct (list_find _ l) as [[]|].
Qed.

(** How many elements satisfy a test. *)
Definition count {A} (f : A -> bool) (l : list A) : nat :=
  foldr (fun x n => (Nat.b2n (f x) + n)%nat) 0%nat l.

Lemma count_app {A} (f : A -> bool) l1 l2 :
  count f (l1 ++ l2) = (count f l1 + count f l2)%nat.
Proof. induction l1; simpl; lia. Qed.

#[export] Instance count_perm {A} (f : A -> bool) : Proper ((≡ₚ) ==> (=)) (count f).
Proof. intros l1 l2 E. induction E; simpl; lia. Qed.

Lemma count_zero {A} (f : A -> bool) l : count f l = 0%nat <-> Forall (fun x => f x = false) l.
Proof.
  induction l as [|x l IH]; simpl; [split; [constructor|done]|].
  rewrite Forall_cons, <- IH. destruct (f x); simpl; [|naive_solver].
  split; [lia|naive_solver].
Qed.

Lemma count_pos {A} (f : A -> bool) l : (0 < count f l)%nat -> exists x, x ∈ l /\ f x = true.
Proof.
  induction l as [|x l IH]; simpl; [lia|]. destruct (f x) eqn:E; simpl.
  - exists x. set_solver.
  - intros H. destruct (IH H) as (y & Hy & ?). exists y. set_solver.
Qed.

(** A prefix of an extended list is a prefix of the list, or contains it. *)
Lemma prefix_app_cases {A} (p l1 l2 : list A) :
  p `prefix_of` l1 ++ l2 ->
  p `prefix_of` l1 \/ exists q, p = l1 ++ q /\ q `prefix_of` l2.
Proof.
  intros [k E]. destruct (app_eq_inv _ _ _ _ E) as [(q & -> & ->)|(q & -> & ->)].
  - left. by exists q.
  - right. exists q. split; [done|]. by exists k.
Qed.

(** ** Sorting and deduplication

    [Vec::sort]/[sort_unstable] on byte strings (lexicographic order) and
    [Vec::dedup], which drops repetitions of the preceding element. *)

Fixpoint bytes_leb (x y : bytes) : bool :=
  match x, y with
  | [], _ => true
  | _ :: _, [] => false
  | a :: x, b :: y =>
      if Z.ltb (byte_to_Z a) (byte_to_Z b) then true
      else if Z.ltb (byte_to_Z b) (byte_to_Z a) then false
      else bytes_leb x y
  end.
Definition bytes_le (x y : bytes) : Prop := bytes_leb x y = true.
#[export] Instance bytes_le_dec x y : Decision (bytes_le x y).
Proof. unfold bytes_le. apply _. Defined.

Definition sort_bytes (l : list bytes) : list bytes := merge_sort bytes_le l.

Fixpoint dedup {A} `{EqDecision A} (l : list A) : list A :=
  match l with
  | [] => []
  | x :: l' =>
      match l' with
      | [] => [x]
      | y :: _ => if bool_decide (x = y) then dedup l' else x :: dedup l'
      end
  end.

Lemma byte_to_Z_inj a b : byte_to_Z a = byte_to_Z b -> a = b.
Proof. intros E. by rewrite <- (byte_of_to_Z a), <- (byte_of_to_Z b), E. Qed.

#[export] Instance bytes_le_total : Total bytes_le.
Proof.
  intros x. unfold bytes_le. induction x as [|a x IH]; intros [|b y]; simpl; auto.
  destruct (Z.ltb_spec (byte_to_Z a) (byte_to_Z b)); auto.
  destruct (Z.ltb_spec (byte_to_Z b) (byte_to_Z a)); auto.
Qed.

#[export] Instance bytes_le_antisymm : AntiSymm eq bytes_le.
Proof.
  intros x. unfold bytes_le. induction x as [|a x IH]; intros [|b y]; simpl; auto; try done.
  destruct (Z.ltb_spec (byte_to_Z a) (byte_to_Z b));
    destruct (Z.ltb_spec (byte_to_Z b) (byte_to_Z a)); try done; try lia.
  intros. f_equal; [apply byte_to_Z_inj; lia|by apply IH].
Qed.

#[export] Instance bytes_le_trans : Transitive bytes_le.
Proof.
  intros x. unfold bytes_le. induction x as [|a x IH]; intros [|b y] [|c z]; simpl; auto; try done.
  destruct (Z.ltb_spec (byte_to_Z a) (byte_to_Z b)), (Z.ltb_spec (byte_to_Z b) (byte_to_Z a)),
    (Z.ltb_spec (byte_to_Z b) (byte_to_Z c)), (Z.ltb_spec (byte_to_Z c) (byte_to_Z b)),
    (Z.ltb_spec (byte_to_Z a) (byte_to_Z c)), (Z.ltb_spec (byte_to_Z c) (byte_to_Z a));
    try done; try lia. apply IH.
Qed.

Lemma sort_bytes_perm l : sort_bytes l ≡ₚ l.
Proof. apply merge_sort_Permutation. Qed.

Lemma length_dedup_le {A} `{EqDecision A} (l : list A) : (length (dedup l) <= length l)%nat.
Proof.
  induction l as [|x [|y l] IH]; [done..|].
  change (dedup (x :: y :: l)) with
    (if bool_decide (x = y) then dedup (y :: l) else x :: dedup (y :: l)).
  case_bool_decide; simpl in *; lia.
Qed.

(** On a sorted vector [dedup] keeps the length exactly when nothing repeats. *)
Lemma dedup_sorted_length (l : list bytes) :
  StronglySorted bytes_le l -> length (dedup l) = length l <-> NoDup l.
Proof.
  induction l as [|x [|y l] IH]; intros Hs.
  - split; [constructor|done].
  - split; [intros _; apply NoDup_singleton|done].
  - change (dedup (x :: y :: l)) with
      (if bool_decide (x = y) then dedup (y :: l) else x :: dedup (y :: l)).
    apply StronglySorted_inv in Hs as [Hs Hx]. specialize (IH Hs). case_bool_decide as E.
    + subst y. split.
      * intros Hl. pose proof (length_dedup_le (x :: l)). simpl in *. lia.
      * rewrite NoDup_cons. set_solver.
    + rewrite NoDup_cons. split.
      * intros Hl. simpl in Hl. split; [|apply IH; simpl in *; lia].
        intros Hin. apply E. apply (anti_symm bytes_le).
        -- by apply Forall_cons in Hx as [? _].
        -- apply StronglySorted_inv in Hs as [_ Hy]. rewrite Forall_forall in Hy.
           apply list_elem_of_In in Hin. inversion Hin as [|Hin']; [done|].
           apply Hy. by apply list_elem_of_In.
      * intros [_ Hnd]. apply IH in Hnd. simpl in *. lia.
Qed.

Lemma sort_dedup_length (l : list bytes) :
  length (dedup (sort_bytes l)) = length l <-> NoDup l.
Proof.
  rewrite <- (sort_bytes_perm l) at 2 3. apply dedup_sorted_length.
  apply (StronglySorted_merge_sort _).
Qed.

Lemma dedup_sorted_id (l : list bytes) :
  StronglySorted bytes_le l -> NoDup l -> dedup l = l.
Proof.
  induction l as [|x [|y l] IH]; intros Hs Hnd; [done..|].
  change (dedup (x :: y :: l)) with
    (if bool_decide (x = y) then dedup (y :: l) else x :: dedup (y :: l)).
  apply NoDup_cons in Hnd as [Hx Hnd]. rewrite bool_decide_eq_false_2 by set_solver.
  f_equal. apply IH; [|done]. by apply StronglySorted_inv in Hs as [? _].
Qed.

Lemma dedup_sort_NoDup (l : list bytes) : NoDup l -> dedup (sort_bytes l) = sort_bytes l.
Proof.
  intros Hnd. apply dedup_sorted_id; [apply (StronglySorted_merge_sort _)|].
  by rewrite sort_bytes_perm.
Qed.

(** ** Sums of integers over a list *)

Definition zsum {A} (f : A -> Z) (l : list A) : Z := foldr (fun x acc => f x + acc) 0 l.

Lemma zsum_cons {A} (f : A -> Z) x l : zsum f (x :: l) = f x + zsum f l.
Proof. done. Qed.

Lemma zsum_snoc {A} (f : A -> Z) l x : zsum f (l ++ [x]) = zsum f l + f x.
Proof. induction l as [|y l IH]; simpl; [lia|]. unfold zsum in *. simpl. lia. Qed.

Lemma zsum_ext {A} (f g : A -> Z) l : (forall x, x ∈ l -> f x = g x) -> zsum f l = zsum g l.
Proof.
  induction l as [|x l IH]; intros E; [done|]. rewrite !zsum_cons, E, IH; [done| |].
  - intros y Hy. apply E. by apply list_elem_of_further.
  - apply list_elem_of_here.
Qed.

(** Changing one entry of a duplicate-free list changes the sum by as much. *)
Lemma zsum_change {A} (f g : A -> Z) l k :
  NoDup l -> k ∈ l -> (forall x, x <> k -> g x = f x) -> zsum g l = zsum f l + (g k - f k).
Proof.
  induction l as [|x l IH]; intros Hnd Hk E; [by apply not_elem_of_nil in Hk|].
  apply NoDup_cons in Hnd as [Hx Hnd]. rewrite !zsum_cons.
  apply elem_of_cons in Hk as [->|Hk].
  - rewrite (zsum_ext g f l); [lia|]. intros y Hy. apply E. by intros ->.
  - rewrite IH by done. rewrite (E x); [lia|]. by intros ->.
Qed.

(** ** Histories *)

(** A history property of an extended log: the old entries, and the new. *)
Lemma history_app {A} (P : list A -> A -> Prop) l l' :
  (forall l1 e l2, l = l1 ++ e :: l2 -> P l1 e) ->
  (forall l1 e l2, l' = l1 ++ e :: l2 -> P (l ++ l1) e) ->
  forall l1 e l2, l ++ l' = l1 ++ e :: l2 -> P l1 e.
Proof.
  intros Hl Hl' l1 e l2 E. apply app_eq_app in E as (k & [[-> Hk]|[-> Hk]]).
  - destruct k as [|e' k]; simpl in Hk; simplify_eq.
    + rewrite app_nil_r in *. specialize (Hl' [] e l2 eq_refl). by rewrite app_nil_r in Hl'.
    + by eapply Hl.
  - by eapply Hl'.
Qed.
