(* ===== verification/Errors.v ===== *)
(** * Error values

    The [#[error_code]] enums of the Solana programs, with the source's
    constructors, and the sum of them that an instruction returns.  The Anchor
    framework's and the Solana runtime's own errors are the constructors of
    [AnchorErr.AnchorError] that the modelled instructions can return. *)

From S2P Require Import Prelude.
From stdpp Require Import prelude.

(** [CpiValidationError] of [packages/solana-ibc-types/src/cpi.rs]. *)
Module CpiErr.
Inductive CpiValidationError : Set :=
| InvalidSysvar
| DirectCallNotAllowed
| UnauthorizedCaller
| NestedCpiNotAllowed.
#[global] Instance CpiValidationError_eq_dec : EqDecision CpiValidationError.
Proof. solve_decision. Defined.
End CpiErr.

(** [Ics24Error] of [packages/solana-ibc-types/src/ics24.rs]. *)
Module Ics24Err.
Inductive Ics24Error : Set :=
| NoAcknowledgements
| EmptyMerklePrefix
| PacketSerializationError.
#[global] Instance Ics24Error_eq_dec : EqDecision Ics24Error.
Proof. solve_decision. Defined.
End Ics24Err.

(** [IbcAppError] of [packages/solana-ibc-types/src/ibc_app.rs]. *)
Module IbcAppErr.
Inductive IbcAppError : Set :=
| InvalidAppResponse.
#[global] Instance IbcAppError_eq_dec : EqDecision IbcAppError.
Proof. solve_decision. Defined.
End IbcAppErr.

(** [AccessManagerError] of [programs/access-manager/src/errors.rs]. *)
Module AccessManagerErr.
Inductive AccessManagerError : Set :=
| Unauthorized
| InvalidRoleId
| CannotRemoveLastAdmin
| RoleNotGranted
| InvalidSysenv
| SignerRequired
| CpiNotAllowed
| ProgramMismatch
| ZeroAccount
| DuplicateWhitelistedProgram
| UnauthorizedDeployer
| AuthorityMismatch
| PendingTransferAlreadyExists
| NoPendingTransfer
| SelfTransfer
| TooManyPendingTransfers
| NoPendingAccessManagerTransfer
| PendingAccessManagerTransferAlreadyExists
| InvalidProposedAccessManager
| AccessManagerSelfTransfer.
#[global] Instance AccessManagerError_eq_dec : EqDecision AccessManagerError.
Proof. solve_decision. Defined.
End AccessManagerErr.

(** [RouterError] of [programs/ics26-router/src/errors.rs]. *)
Module RouterErr.
Inductive RouterError : Set :=
| UnauthorizedSender
| UnauthorizedRole
| InvalidPortIdentifier
| InvalidTimeoutTimestamp
| InvalidTimeoutDuration
| InvalidCounterparty
| PacketCommitmentMismatch
| PacketReceiptMismatch
| MultiPayloadPacketNotSupported
| AsyncAcknowledgementNotSupported
| UniversalErrorAcknowledgement
| FailedCallback
| NoAcknowledgements
| InvalidMerklePrefix
| ClientNotFound
| UnauthorizedAuthority
| InvalidClientId
| InvalidLightClientProgram
| InvalidCounterpartyInfo
| ClientAlreadyExists
| ClientNotActive
| InvalidCounterpartyClient
| ClientMismatch
| ArithmeticOverflow
| InvalidAppResponse
| IbcAppNotFound
| ChunkDataTooLarge
| InvalidChunkAccount
| InvalidChunkCount
| InvalidChunkCommitment
| InvalidPayloadCount
| UnsupportedVersion
| InvalidMigrationParams
| PortIdentifierMismatch
| MixedDeliveryModes
| InvalidSysvar
| DirectCallNotAllowed
| InvalidAccountOwner
| PacketSerializationError
| ClientFrozen
| AppProgramNotExecutable
| InvalidAccessManager
| RouterPaused
| RouterNotPaused
| ZeroPacketSequence
| UnauthorizedDeployer.
#[global] Instance RouterError_eq_dec : EqDecision RouterError.
Proof. solve_decision. Defined.
End RouterErr.

(** [ErrorCode] of [programs/attestation/src/error.rs]. *)
Module AttestationErr.
Inductive AttestationErrorCode : Set :=
| FrozenClientState
| NoAttestors
| BadQuorum
| InvalidHeight
| InvalidTimestamp
| InvalidState
| HeightMismatch
| InvalidProof
| InvalidSignature
| UnknownSigner
| ThresholdNotMet
| DuplicateSigner
| InvalidAttestationData
| NotMember
| CommitmentMismatch
| ZeroCommitment
| NonZeroCommitment
| EmptyValue
| InvalidPathLength
| UnauthorizedRole
| SerializationError
| ArithmeticOverflow
| EmptyAttestation
| EmptySignatures
| Misbehaviour
| ConsensusTimestampNotFound
| InvalidAccessManager
| UnauthorizedDeployer.
#[global] Instance AttestationErrorCode_eq_dec : EqDecision AttestationErrorCode.
Proof. solve_decision. Defined.
End AttestationErr.

(** [ErrorCode] of [programs/ics07-tendermint/src/error.rs]. *)
Module TendermintErr.
Inductive TendermintErrorCode : Set :=
| ClientFrozen
| ClientAlreadyFrozen
| InvalidChainId
| InvalidTrustLevel
| InvalidPeriods
| InvalidMaxClockDrift
| InvalidHeight
| HeightMismatch
| InvalidHeader
| InvalidProof
| UpdateClientFailed
| InvalidMisbehaviour
| MisbehaviourConflictingState
| MisbehaviourNonIncreasingTime
| MisbehaviourCheckFailed
| MembershipVerificationFailed
| MembershipEmptyValue
| NonMembershipVerificationFailed
| InvalidValue
| NonZeroDelay
| ConsensusStateNotFound
| InvalidChunkCount
| InvalidChunkAccount
| ChunkDataTooLarge
| UnauthorizedRole
| InvalidNumberOfAccounts
| InvalidAccountData
| SerializationError
| AccountValidationFailed
| InvalidAccountOwner
| ArithmeticOverflow
| ConversionError
| InvalidAccessManager
| UnauthorizedDeployer.
#[global] Instance TendermintErrorCode_eq_dec : EqDecision TendermintErrorCode.
Proof. solve_decision. Defined.
End TendermintErr.

(** [GMPError] of [programs/ics27-gmp/src/errors.rs]. *)
Module GmpErr.
Inductive GMPError : Set :=
| AppPaused
| InvalidRouter
| EmptyPayload
| InvalidTimeout
| TimeoutTooLong
| TimeoutTooSoon
| UnauthorizedSender
| WrongCounterpartyClient
| InvalidSalt
| TargetNotExecutable
| InsufficientAccounts
| AccountCountMismatch
| AccountKeyMismatch
| InsufficientAccountPermissions
| UnexpectedSigner
| ExecutionTooExpensive
| GMPAccountPDAMismatch
| UnauthorizedAdmin
| InvalidPacketData
| UnauthorizedRouter
| DirectCallNotAllowed
| InvalidPortId
| InvalidClientId
| InvalidSender
| InvalidMemo
| InvalidSolanaPayload
| AccountAlreadyExists
| PacketDataParseError
| PacketDataValidationFailed
| TargetExecutionFailed
| InvalidAcknowledgement
| ComputeBudgetExceeded
| TooManyAccounts
| InvalidProgramId
| InvalidAccountKey
| InvalidRouterCall
| InsufficientFunds
| InvalidVersion
| InvalidPort
| InvalidEncoding
| SequenceParseError
| DecodeError
| ResultAccountPDAMismatch
| InvalidAbiEncoding
| InvalidLightClientProgram
| InvalidAccountOwner
| InvalidAccessManager
| UnauthorizedDeployer.
#[global] Instance GMPError_eq_dec : EqDecision GMPError.
Proof. solve_decision. Defined.
End GmpErr.

(** [IFTError] of [programs/ift/src/errors.rs]. *)
Module IftErr.
Inductive IFTError : Set :=
| EmptyClientId
| EmptyCounterpartyAddress
| EmptyReceiver
| ZeroAmount
| BridgeNotFound
| InvalidBridge
| BridgeNotActive
| InvalidReceiver
| TimeoutInPast
| TimeoutTooLong
| PendingTransferNotFound
| TokenAccountOwnerMismatch
| GmpCallFailed
| InvalidClientIdLength
| InvalidCounterpartyAddressLength
| CosmosEmptyCounterpartyDenom
| InvalidCounterpartyDenomLength
| CosmosEmptyTypeUrl
| InvalidCosmosTypeUrlLength
| CosmosEmptyIcaAddress
| InvalidCosmosIcaAddressLength
| InvalidCosmosIcaAddress
| InvalidGmpAccount
| InvalidPendingTransfer
| GmpResultClientMismatch
| GmpResultSequenceMismatch
| GmpResultSenderMismatch
| MintAuthorityNotSet
| InvalidMintAuthority
| MintRateLimitExceeded
| AppPaused
| UnauthorizedAdmin
| CpiNotAllowed
| TokenProgramMismatch
| ArithmeticOverflow
| NoPendingAdmin
| UnauthorizedPendingAdmin
| InvalidProposedAdmin
| SelfProposal
| PendingAdminAlreadyExists
| UnauthorizedDeployer.
#[global] Instance IFTError_eq_dec : EqDecision IFTError.
Proof. solve_decision. Defined.
End IftErr.

(** Errors of the framework and of the runtime. *)
Module AnchorErr.
Inductive AnchorError : Set :=
| AccountNotInitialized
| AccountOwnedByWrongProgram
| AccountDiscriminatorNotFound
| AccountDiscriminatorMismatch
| AccountNotSigner
| AccountSysvarMismatch
| InvalidProgramId
| InvalidProgramExecutable
| ConstraintMut
| ConstraintSeeds
| ConstraintOwner
| ConstraintAddress
| ConstraintExecutable
| ConstraintSpace
| ConstraintRentExempt
| ConstraintClose
| ConstraintTokenMint
| ConstraintTokenOwner
| ConstraintAssociatedTokenTokenProgram
| AccountNotAssociatedTokenAccount
| RequireEqViolated
| AccountDidNotSerialize
| AccountAlreadyInUse
| InsufficientFunds
| ReadonlyDataModified
| ExternalAccountDataModified
| PrivilegeEscalation
| ReentrancyNotAllowed
| AccountBorrowFailed
| Panicked.
#[global] Instance AnchorError_eq_dec : EqDecision AnchorError.
Proof. solve_decision. Defined.
End AnchorErr.

(** [anchor_lang::error::Error]: what an instruction fails with. *)
Inductive Error : Set :=
| ECpi (e : CpiErr.CpiValidationError)
| EIcs24 (e : Ics24Err.Ics24Error)
| EIbcApp (e : IbcAppErr.IbcAppError)
| EAccessManager (e : AccessManagerErr.AccessManagerError)
| ERouter (e : RouterErr.RouterError)
| EAttestation (e : AttestationErr.AttestationErrorCode)
| ETendermint (e : TendermintErr.TendermintErrorCode)
| EGmp (e : GmpErr.GMPError)
| EIft (e : IftErr.IFTError)
| EAnchor (e : AnchorErr.AnchorError)
| EProgram (code : N).

#[global] Instance Error_eq_dec : EqDecision Error.
Proof. solve_decision. Defined.

Coercion ECpi : CpiErr.CpiValidationError >-> Error.
Coercion EIcs24 : Ics24Err.Ics24Error >-> Error.
Coercion EIbcApp : IbcAppErr.IbcAppError >-> Error.
Coercion EAccessManager : AccessManagerErr.AccessManagerError >-> Error.
Coercion ERouter : RouterErr.RouterError >-> Error.
Coercion ETendermint : TendermintErr.TendermintErrorCode >-> Error.
Coercion EAttestation : AttestationErr.AttestationErrorCode >-> Error.
Coercion EGmp : GmpErr.GMPError >-> Error.
Coercion EIft : IftErr.IFTError >-> Error.
Coercion EAnchor : AnchorErr.AnchorError >-> Error.
