(* ===== verification/Types.v ===== *)
(** * Data of the Solana programs

    The account, message, event and instruction types of
    [packages/solana-ibc-types], [packages/ics25-handler],
    [packages/solana-ibc-constants] and of the [state.rs]/[types.rs] files of
    the programs.  A Rust [String] is its UTF-8 bytes, a [Pubkey] its 32 bytes,
    an integer a [Z] in the range of its type; the reserved padding fields of
    the accounts carry no behaviour and are left out. *)

From S2P Require Import Prelude.
From Stdlib Require Import ZArith.
From Stdlib.Strings Require Import Byte.
From stdpp Require Import prelude.

#[local] Open Scope Z_scope.

(** ** Public keys *)

Abbreviation Pubkey := (list byte).

Definition pubkey_of_Z (z : Z) : Pubkey := reverse (to_le 32 z).

(** [Pubkey::default()]. *)
Definition Pubkey_default : Pubkey := replicate 32 x00.

(** [declare_id!] of the programs, and the runtime's own program ids. *)
Definition ROUTER_ID : Pubkey :=
  pubkey_of_Z 0xd63acac6aba194bdd013259fa32cb468a6a9703364ff0ca7ee9ee6478df03ccd.
Definition ACCESS_MANAGER_ID : Pubkey :=
  pubkey_of_Z 0x36668eef409623b83a37af3ef6c843feebb7be8d42bd513062543b2492d108aa.
Definition ATTESTATION_ID : Pubkey :=
  pubkey_of_Z 0xd05647d84b8aa0591a46b92754e6180d624d8764c677a58eb45db85e6ed1e4bb.
Definition GMP_ID : Pubkey :=
  pubkey_of_Z 0x2528427b8b005b212c37b4b0fd5e477130e261dbd4ef22db32f048c16540e519.
Definition IFT_ID : Pubkey :=
  pubkey_of_Z 0xb84f41f3a62f4a018f54a5494fdf323f96dba0ee5a7afc0d967418f9fe9d891a.
Definition TENDERMINT_ID : Pubkey :=
  pubkey_of_Z 0xfa206eca520ca6bf0a8f5eed96d3950378d06b55715ae644a3fdf44d840908ec.
Definition ED25519_PROGRAM_ID : Pubkey :=
  pubkey_of_Z 0x037d46d67c93fbbe12f9428f838d40ff0570744927f48a64fcca704480000000.
Definition SYSTEM_PROGRAM_ID : Pubkey := replicate 32 x00.
Definition SPL_TOKEN_PROGRAM_ID : Pubkey :=
  pubkey_of_Z 0x06ddf6e1d765a193d9cbe146ceeb79ac1cb485ed5f5b37913a8cf5857eff00a9.
Definition TOKEN_2022_PROGRAM_ID : Pubkey :=
  pubkey_of_Z 0x06ddf6e1ee758fde18425dbce46ccddab61afc4d83b90d27febdf928d8a18bfc.
Definition ASSOCIATED_TOKEN_PROGRAM_ID : Pubkey :=
  pubkey_of_Z 0x8c97258f4e2489f1bb3d1029148e0d830b5a1399daff1084048e7bd8dbe9f859.
Definition INSTRUCTIONS_SYSVAR_ID : Pubkey :=
  pubkey_of_Z 0x06a7d517187bd16635dad40455fdc2c0c124c68f215675a5dbbacb5f08000000.
Definition RENT_SYSVAR_ID : Pubkey :=
  pubkey_of_Z 0x06a7d517192c5c51218cc94c3d4af17f58daee089ba1fd44e3dbd98a00000000.
Definition CLOCK_SYSVAR_ID : Pubkey :=
  pubkey_of_Z 0x06a7d51718c774c928566398691d5eb68b5eb8a39b4b6d5c73555b2100000000.
Definition BPF_LOADER_UPGRADEABLE_ID : Pubkey :=
  pubkey_of_Z 0x02a8f6914e88a1b0e210153ef763ae2b00c2b93d16c124d2c0537a1004800000.

(** ** [packages/solana-ibc-constants] *)

Definition UNIVERSAL_ERROR_ACK : bytes :=
  pubkey_of_Z 0x4774d4a575993f963b1c06573736617a457abef8589178db8d10c94b4ab511ab.
Definition IBC_VERSION : byte := x02.
Definition CHUNK_DATA_SIZE : Z := 900.
Definition MAX_CLIENT_ID_LENGTH : Z := 32.

Definition ADMIN_ROLE : Z := 0.
Definition PUBLIC_ROLE : Z := u64_max.
Definition RELAYER_ROLE : Z := 1.
Definition PAUSER_ROLE : Z := 2.
Definition UNPAUSER_ROLE : Z := 3.
Definition ID_CUSTOMIZER_ROLE : Z := 6.

(** ** [packages/solana-ibc-types/src/app_msgs.rs] and [router.rs] *)

Record Payload := mkPayload {
  pl_source_port : bytes;
  pl_dest_port : bytes;
  pl_version : bytes;
  pl_encoding : bytes;
  pl_value : bytes }.

Record Packet := mkPacket {
  pkt_sequence : Z;
  pkt_source_client : bytes;
  pkt_dest_client : bytes;
  pkt_timeout_timestamp : Z;
  pkt_payloads : list Payload }.

Inductive Delivery :=
| Inline (data : bytes)
| Chunked (total_chunks : Z).

Definition total_chunks (d : Delivery) : Z :=
  match d with
  | Inline _ => 0
  | Chunked n => n
  end.

Record MsgPayload := mkMsgPayload {
  mpl_source_port : bytes;
  mpl_dest_port : bytes;
  mpl_version : bytes;
  mpl_encoding : bytes;
  mpl_data : Delivery }.

Record MsgProof := mkMsgProof {
  mpr_height : Z;
  mpr_data : Delivery }.

Record MsgPacket := mkMsgPacket {
  mpk_sequence : Z;
  mpk_source_client : bytes;
  mpk_dest_client : bytes;
  mpk_timeout_timestamp : Z;
  mpk_payloads : list MsgPayload }.

Record MsgSendPacket := mkMsgSendPacket {
  msp_source_client : bytes;
  msp_sequence : Z;
  msp_timeout_timestamp : Z;
  msp_payload : Payload }.

Record MsgRecvPacket := mkMsgRecvPacket {
  mrp_packet : MsgPacket;
  mrp_proof : MsgProof }.

Record MsgAckPacket := mkMsgAckPacket {
  map_packet : MsgPacket;
  map_acknowledgement : bytes;
  map_proof : MsgProof }.

Record MsgTimeoutPacket := mkMsgTimeoutPacket {
  mtp_packet : MsgPacket;
  mtp_proof : MsgProof }.

Record MsgUploadChunk := mkMsgUploadChunk {
  muc_client_id : bytes;
  muc_sequence : Z;
  muc_payload_index : Z;
  muc_chunk_index : Z;
  muc_chunk_data : bytes }.

Record MsgCleanupChunks := mkMsgCleanupChunks {
  mcc_client_id : bytes;
  mcc_sequence : Z;
  mcc_payload_chunks : list Z;
  mcc_total_proof_chunks : Z }.

Record OnRecvPacketMsg := mkOnRecvPacketMsg {
  orp_source_client : bytes;
  orp_dest_client : bytes;
  orp_sequence : Z;
  orp_payload : Payload;
  orp_relayer : Pubkey }.

Record OnAcknowledgementPacketMsg := mkOnAcknowledgementPacketMsg {
  oap_source_client : bytes;
  oap_dest_client : bytes;
  oap_sequence : Z;
  oap_payload : Payload;
  oap_acknowledgement : bytes;
  oap_relayer : Pubkey }.

Record OnTimeoutPacketMsg := mkOnTimeoutPacketMsg {
  otp_source_client : bytes;
  otp_dest_client : bytes;
  otp_sequence : Z;
  otp_payload : Payload;
  otp_relayer : Pubkey }.

(** ** [packages/ics25-handler/src/lib.rs] *)

Record MembershipMsg := mkMembershipMsg {
  mm_height : Z;
  mm_proof : bytes;
  mm_path : list bytes;
  mm_value : bytes }.

Record NonMembershipMsg := mkNonMembershipMsg {
  nm_height : Z;
  nm_proof : bytes;
  nm_path : list bytes }.

Inductive ClientStatus := Active | Frozen | Expired.

#[export] Instance ClientStatus_eq_dec : EqDecision ClientStatus.
Proof. solve_decision. Defined.

(** [impl From<ClientStatus> for u8] and [impl TryFrom<u8> for ClientStatus]. *)
Definition ClientStatus_to_u8 (s : ClientStatus) : byte :=
  match s with Active => x00 | Frozen => x01 | Expired => x02 end.
Definition ClientStatus_try_from (b : byte) : option ClientStatus :=
  match b with
  | x00 => Some Active
  | x01 => Some Frozen
  | x02 => Some Expired
  | _ => None
  end.

(** ** [programs/access-manager/src/types.rs] and [state.rs] *)

Record RoleData := mkRoleData {
  rd_role_id : Z;
  rd_members : list Pubkey }.

Record PendingAuthorityTransfer := mkPendingAuthorityTransfer {
  pat_target_program : Pubkey;
  pat_new_authority : Pubkey }.

Record AccessManager := mkAccessManager {
  am_roles : list RoleData;
  am_whitelisted_programs : list Pubkey;
  am_pending_authority_transfers : list PendingAuthorityTransfer }.

Record AccessManagerState := mkAccessManagerState {
  ams_access_manager : Pubkey;
  ams_pending_access_manager : option Pubkey }.

(** ** [programs/ics26-router/src/state.rs] *)

Inductive AccountVersion := V1.

Record CounterpartyInfo := mkCounterpartyInfo {
  ci_client_id : bytes;
  ci_merkle_prefix : list bytes }.

Record RouterState := mkRouterState {
  rs_version : AccountVersion;
  rs_am_state : AccessManagerState;
  rs_paused : bool }.

Record IBCApp := mkIBCApp {
  app_version : AccountVersion;
  app_port_id : bytes;
  app_program_id : Pubkey }.

Record Client := mkClient {
  cl_version : AccountVersion;
  cl_client_id : bytes;
  cl_client_program_id : Pubkey;
  cl_counterparty_info : CounterpartyInfo;
  cl_active : bool }.

Record PayloadChunk := mkPayloadChunk {
  pch_client_id : bytes;
  pch_sequence : Z;
  pch_payload_index : Z;
  pch_chunk_index : Z;
  pch_chunk_data : bytes }.

Record ProofChunk := mkProofChunk {
  prc_client_id : bytes;
  prc_sequence : Z;
  prc_chunk_index : Z;
  prc_chunk_data : bytes }.

(** ** [programs/attestation/src/types.rs] and [state.rs] *)

Record AttClientState := mkAttClientState {
  acs_version : AccountVersion;
  acs_attestor_addresses : list bytes;
  acs_min_required_sigs : Z;
  acs_latest_height : Z;
  acs_is_frozen : bool }.

Record AttAppState := mkAttAppState {
  aas_version : AccountVersion;
  aas_am_state : AccessManagerState }.

Record ConsensusStateStore := mkConsensusStateStore {
  css_height : Z;
  css_timestamp : Z }.

(** ** [programs/ics07-tendermint/src/types.rs] and [state.rs] *)

Record IbcHeight := mkIbcHeight {
  ih_revision_number : Z;
  ih_revision_height : Z }.

Record TmClientState := mkTmClientState {
  tcs_chain_id : bytes;
  tcs_trust_level_numerator : Z;
  tcs_trust_level_denominator : Z;
  tcs_trusting_period : Z;
  tcs_unbonding_period : Z;
  tcs_max_clock_drift : Z;
  tcs_frozen_height : IbcHeight;
  tcs_latest_height : IbcHeight }.

Record TmAppState := mkTmAppState {
  tas_am_state : AccessManagerState }.

Record TmConsensusState := mkTmConsensusState {
  tmc_timestamp : Z;
  tmc_root : bytes;
  tmc_next_validators_hash : bytes }.

Record TmConsensusStateStore := mkTmConsensusStateStore {
  tss_height : Z;
  tss_consensus_state : TmConsensusState }.

Record HeaderChunk := mkHeaderChunk {
  hch_submitter : Pubkey;
  hch_chunk_data : bytes }.

Record MisbehaviourChunk := mkMisbehaviourChunk {
  mch_chunk_data : bytes }.

Record SignatureVerification := mkSignatureVerification {
  sgv_is_valid : bool;
  sgv_submitter : Pubkey }.

#[export] Instance TmConsensusState_eq_dec : EqDecision TmConsensusState.
Proof. solve_decision. Defined.

(** ** [programs/ics27-gmp/src/state.rs] and [packages/solana-ibc-gmp-types] *)

Record GMPAppState := mkGMPAppState {
  gas_version : AccountVersion;
  gas_paused : bool;
  gas_bump : Z;
  gas_am_state : AccessManagerState }.

Record SendCallMsg := mkSendCallMsg {
  scm_source_client : bytes;
  scm_sequence : Z;
  scm_timeout_timestamp : Z;
  scm_receiver : bytes;
  scm_salt : bytes;
  scm_payload : bytes;
  scm_memo : bytes;
  scm_encoding : bytes }.

Inductive CallResultStatus :=
| CallAcknowledgement (commitment : bytes)
| CallTimeout.

Record GMPCallResultAccount := mkGMPCallResultAccount {
  gcr_version : AccountVersion;
  gcr_sender : Pubkey;
  gcr_sequence : Z;
  gcr_source_client : bytes;
  gcr_dest_client : bytes;
  gcr_status : CallResultStatus;
  gcr_result_timestamp : Z;
  gcr_bump : Z }.

(** ** [programs/ift/src/state.rs] *)

Inductive ChainOptions :=
| Evm
| Cosmos (denom type_url ica_address : bytes)
| Solana (ift_program_id counterparty_mint : Pubkey) (counterparty_client_id : bytes).

Inductive CreateTokenParams :=
| SplToken (decimals : Z)
| Token2022 (decimals : Z) (name symbol uri : bytes).

Record IFTAppState := mkIFTAppState {
  ias_version : AccountVersion;
  ias_bump : Z;
  ias_admin : Pubkey;
  ias_paused : bool;
  ias_pending_admin : option Pubkey }.

Record IFTAppMintState := mkIFTAppMintState {
  ims_version : AccountVersion;
  ims_bump : Z;
  ims_mint : Pubkey;
  ims_mint_authority_bump : Z;
  ims_daily_mint_limit : Z;
  ims_rate_limit_day : Z;
  ims_rate_limit_daily_usage : Z }.

Record IFTBridge := mkIFTBridge {
  ib_version : AccountVersion;
  ib_bump : Z;
  ib_mint : Pubkey;
  ib_client_id : bytes;
  ib_counterparty_ift_address : bytes;
  ib_chain_options : ChainOptions;
  ib_active : bool }.

Record PendingTransfer := mkPendingTransfer {
  pt_version : AccountVersion;
  pt_bump : Z;
  pt_mint : Pubkey;
  pt_client_id : bytes;
  pt_sequence : Z;
  pt_sender : Pubkey;
  pt_amount : Z;
  pt_timestamp : Z }.

Record RegisterIFTBridgeMsg := mkRegisterIFTBridgeMsg {
  rbm_client_id : bytes;
  rbm_counterparty_ift_address : bytes;
  rbm_chain_options : ChainOptions }.

Record IFTTransferMsg := mkIFTTransferMsg {
  itm_client_id : bytes;
  itm_receiver : bytes;
  itm_amount : Z;
  itm_timeout_timestamp : Z;
  itm_sequence : Z }.

Record IFTMintMsg := mkIFTMintMsg {
  imm_receiver : Pubkey;
  imm_amount : Z }.

(** [RefundReason] of [events.rs]. *)
Inductive RefundReason := RefundTimeout | RefundFailed.

(** The fields of SPL mints and token accounts that the program reads
    ([anchor_spl::token_interface::{Mint, TokenAccount}]). *)
Record MintAccount := mkMintAccount {
  mi_mint_authority : option Pubkey;
  mi_supply : Z;
  mi_decimals : Z }.

Record TokenAccount := mkTokenAccount {
  ta_mint : Pubkey;
  ta_owner : Pubkey;
  ta_amount : Z }.

(** ** Account data

    The data of an account, decoded by its Anchor discriminator.  [DZeroed] is
    a buffer of zero bytes: an account just created by the system program, or
    one that [data.fill(0)] wiped. *)
Inductive AccountData :=
| DZeroed
| DRouterState (s : RouterState)
| DIBCApp (s : IBCApp)
| DClient (s : Client)
| DCommitment (value : bytes)
| DPayloadChunk (s : PayloadChunk)
| DProofChunk (s : ProofChunk)
| DAccessManager (s : AccessManager)
| DAttClientState (s : AttClientState)
| DAttAppState (s : AttAppState)
| DConsensusStateStore (s : ConsensusStateStore)
| DTmClientState (s : TmClientState)
| DTmAppState (s : TmAppState)
| DTmConsensusStateStore (s : TmConsensusStateStore)
| DHeaderChunk (s : HeaderChunk)
| DMisbehaviourChunk (s : MisbehaviourChunk)
| DSignatureVerification (s : SignatureVerification)
| DGMPAppState (s : GMPAppState)
| DGMPCallResult (s : GMPCallResultAccount)
| DIFTAppState (s : IFTAppState)
| DIFTAppMintState (s : IFTAppMintState)
| DIFTBridge (s : IFTBridge)
| DPendingTransfer (s : PendingTransfer)
| DMint (s : MintAccount)
| DTokenAccount (s : TokenAccount)
| DProgramData (upgrade_authority_address : option Pubkey)
| DOther (raw : bytes).

(** Borsh sizes of the account types, and the [INIT_SPACE] that
    [#[derive(InitSpace)]] computes from the [#[max_len]] attributes. *)
Definition vec_u8_size (l : bytes) : Z := 4 + Z.of_nat (length l).
Definition sum_sizes {A} (f : A -> Z) (l : list A) : Z := foldr (fun x acc => f x + acc) 0 l.
Definition vec_size {A} (f : A -> Z) (l : list A) : Z := 4 + sum_sizes f l.
Definition option_pubkey_size (o : option Pubkey) : Z :=
  match o with None => 1 | Some _ => 33 end.

Definition AccessManagerState_size (s : AccessManagerState) : Z :=
  32 + option_pubkey_size (ams_pending_access_manager s).
Definition CounterpartyInfo_size (c : CounterpartyInfo) : Z :=
  vec_u8_size (ci_client_id c) + vec_size vec_u8_size (ci_merkle_prefix c).
Definition AccessManager_size (s : AccessManager) : Z :=
  vec_size (fun r => 8 + vec_size (fun _ => 32) (rd_members r)) (am_roles s) +
  vec_size (fun _ => 32) (am_whitelisted_programs s) +
  vec_size (fun _ => 64) (am_pending_authority_transfers s).

Definition RouterState_INIT_SPACE : Z := 1 + (32 + 33) + 1 + 256.
Definition IBCApp_INIT_SPACE : Z := 1 + (4 + 128) + 32 + 256.
Definition Client_INIT_SPACE : Z :=
  1 + (4 + 32) + 32 + ((4 + 32) + (4 + 8 * (4 + 128))) + 1 + 256.
Definition Commitment_INIT_SPACE : Z := 32.
Definition PayloadChunk_INIT_SPACE : Z := (4 + 32) + 8 + 1 + 1 + (4 + CHUNK_DATA_SIZE).
Definition ProofChunk_INIT_SPACE : Z := (4 + 32) + 8 + 1 + (4 + CHUNK_DATA_SIZE).
Definition AccessManager_INIT_SPACE : Z :=
  (4 + 16 * (8 + (4 + 16 * 32))) + (4 + 8 * 32) + (4 + 16 * 64).
Definition AttClientState_INIT_SPACE : Z := 1 + (4 + 20 * 20) + 1 + 8 + 1.
Definition AttAppState_INIT_SPACE : Z := 1 + (32 + 33) + 256.
Definition ConsensusStateStore_INIT_SPACE : Z := 8 + 8.
Definition TmClientState_INIT_SPACE : Z := (4 + 64) + 5 * 8 + 2 * 16.
Definition TmAppState_INIT_SPACE : Z := (32 + 33) + 256.
Definition TmConsensusStateStore_INIT_SPACE : Z := 8 + (8 + 32 + 32).
Definition HeaderChunk_INIT_SPACE : Z := 32 + (4 + CHUNK_DATA_SIZE).
Definition MisbehaviourChunk_INIT_SPACE : Z := 4 + CHUNK_DATA_SIZE.
Definition SignatureVerification_INIT_SPACE : Z := 1 + 32.
Definition GMPAppState_INIT_SPACE : Z := 1 + 1 + 1 + (32 + 33) + 256.
Definition GMPCallResultAccount_INIT_SPACE : Z :=
  1 + 32 + 8 + (4 + 32) + (4 + 32) + (1 + 32) + 8 + 1.
Definition ChainOptions_INIT_SPACE : Z := 1 + 3 * (4 + 128).
Definition IFTAppState_INIT_SPACE : Z := 1 + 1 + 32 + 1 + 33 + 128.
Definition IFTAppMintState_INIT_SPACE : Z := 1 + 1 + 32 + 1 + 8 + 8 + 8 + 128.
Definition IFTBridge_INIT_SPACE : Z :=
  1 + 1 + 32 + (4 + 32) + (4 + 128) + ChainOptions_INIT_SPACE + 1 + 64.
Definition PendingTransfer_INIT_SPACE : Z := 1 + 1 + 32 + (4 + 32) + 8 + 32 + 8 + 8 + 32.

Definition CallResultStatus_size (s : CallResultStatus) : Z :=
  match s with CallAcknowledgement _ => 33 | CallTimeout => 1 end.
Definition ChainOptions_size (o : ChainOptions) : Z :=
  match o with
  | Evm => 1
  | Cosmos d t i => 1 + vec_u8_size d + vec_u8_size t + vec_u8_size i
  | Solana _ _ c => 1 + 32 + 32 + vec_u8_size c
  end.

Definition data_size (d : AccountData) : Z :=
  match d with
  | DZeroed => 0
  | DRouterState s => 1 + AccessManagerState_size (rs_am_state s) + 1 + 256
  | DIBCApp s => 1 + vec_u8_size (app_port_id s) + 32 + 256
  | DClient s =>
      1 + vec_u8_size (cl_client_id s) + 32 + CounterpartyInfo_size (cl_counterparty_info s) + 1 + 256
  | DCommitment _ => 32
  | DPayloadChunk s => vec_u8_size (pch_client_id s) + 8 + 1 + 1 + vec_u8_size (pch_chunk_data s)
  | DProofChunk s => vec_u8_size (prc_client_id s) + 8 + 1 + vec_u8_size (prc_chunk_data s)
  | DAccessManager s => AccessManager_size s
  | DAttClientState s => 1 + vec_size (fun _ => 20) (acs_attestor_addresses s) + 1 + 8 + 1
  | DAttAppState s => 1 + AccessManagerState_size (aas_am_state s) + 256
  | DConsensusStateStore _ => 16
  | DTmClientState s => vec_u8_size (tcs_chain_id s) + 5 * 8 + 2 * 16
  | DTmAppState s => AccessManagerState_size (tas_am_state s) + 256
  | DTmConsensusStateStore _ => 8 + (8 + 32 + 32)
  | DHeaderChunk s => 32 + vec_u8_size (hch_chunk_data s)
  | DMisbehaviourChunk s => vec_u8_size (mch_chunk_data s)
  | DSignatureVerification _ => 1 + 32
  | DGMPAppState s => 1 + 1 + 1 + AccessManagerState_size (gas_am_state s) + 256
  | DGMPCallResult s =>
      1 + 32 + 8 + vec_u8_size (gcr_source_client s) + vec_u8_size (gcr_dest_client s) +
      CallResultStatus_size (gcr_status s) + 8 + 1
  | DIFTAppState s => 1 + 1 + 32 + 1 + option_pubkey_size (ias_pending_admin s) + 128
  | DIFTAppMintState _ => 1 + 1 + 32 + 1 + 8 + 8 + 8 + 128
  | DIFTBridge s =>
      1 + 1 + 32 + vec_u8_size (ib_client_id s) + vec_u8_size (ib_counterparty_ift_address s) +
      ChainOptions_size (ib_chain_options s) + 1 + 64
  | DPendingTransfer s => 1 + 1 + 32 + vec_u8_size (pt_client_id s) + 8 + 32 + 8 + 8 + 32
  | DMint _ | DTokenAccount _ => 0
  | DProgramData _ => 0
  | DOther raw => Z.of_nat (length raw)
  end.

(** Discriminator-checked decoding ([AccountDeserialize::try_deserialize]). *)
Definition as_RouterState (d : AccountData) := match d with DRouterState s => Some s | _ => None end.
Definition as_IBCApp (d : AccountData) := match d with DIBCApp s => Some s | _ => None end.
Definition as_Client (d : AccountData) := match d with DClient s => Some s | _ => None end.
Definition as_Commitment (d : AccountData) := match d with DCommitment v => Some v | _ => None end.
Definition as_PayloadChunk (d : AccountData) := match d with DPayloadChunk s => Some s | _ => None end.
Definition as_ProofChunk (d : AccountData) := match d with DProofChunk s => Some s | _ => None end.
Definition as_AccessManager (d : AccountData) := match d with DAccessManager s => Some s | _ => None end.
Definition as_AttClientState (d : AccountData) := match d with DAttClientState s => Some s | _ => None end.
Definition as_AttAppState (d : AccountData) := match d with DAttAppState s => Some s | _ => None end.
Definition as_ConsensusStateStore (d : AccountData) := match d with DConsensusStateStore s => Some s | _ => None end.
Definition as_TmClientState (d : AccountData) := match d with DTmClientState s => Some s | _ => None end.
Definition as_TmAppState (d : AccountData) := match d with DTmAppState s => Some s | _ => None end.
Definition as_TmConsensusStateStore (d : AccountData) := match d with DTmConsensusStateStore s => Some s | _ => None end.
Definition as_HeaderChunk (d : AccountData) := match d with DHeaderChunk s => Some s | _ => None end.
Definition as_MisbehaviourChunk (d : AccountData) := match d with DMisbehaviourChunk s => Some s | _ => None end.
Definition as_SignatureVerification (d : AccountData) := match d with DSignatureVerification s => Some s | _ => None end.
Definition as_GMPAppState (d : AccountData) := match d with DGMPAppState s => Some s | _ => None end.
Definition as_GMPCallResult (d : AccountData) := match d with DGMPCallResult s => Some s | _ => None end.
Definition as_IFTAppState (d : AccountData) := match d with DIFTAppState s => Some s | _ => None end.
Definition as_IFTAppMintState (d : AccountData) := match d with DIFTAppMintState s => Some s | _ => None end.
Definition as_IFTBridge (d : AccountData) := match d with DIFTBridge s => Some s | _ => None end.
Definition as_PendingTransfer (d : AccountData) := match d with DPendingTransfer s => Some s | _ => None end.
Definition as_Mint (d : AccountData) := match d with DMint s => Some s | _ => None end.
Definition as_TokenAccount (d : AccountData) := match d with DTokenAccount s => Some s | _ => None end.
Definition as_ProgramData (d : AccountData) := match d with DProgramData s => Some s | _ => None end.

Lemma as_RouterState_Some d x : as_RouterState d = Some x <-> d = DRouterState x.
Proof. destruct d; naive_solver. Qed.
Lemma as_IBCApp_Some d x : as_IBCApp d = Some x <-> d = DIBCApp x.
Proof. destruct d; naive_solver. Qed.
Lemma as_Client_Some d x : as_Client d = Some x <-> d = DClient x.
Proof. destruct d; naive_solver. Qed.
Lemma as_Commitment_Some d x : as_Commitment d = Some x <-> d = DCommitment x.
Proof. destruct d; naive_solver. Qed.
Lemma as_PayloadChunk_Some d x : as_PayloadChunk d = Some x <-> d = DPayloadChunk x.
Proof. destruct d; naive_solver. Qed.
Lemma as_ProofChunk_Some d x : as_ProofChunk d = Some x <-> d = DProofChunk x.
Proof. destruct d; naive_solver. Qed.
Lemma as_AccessManager_Some d x : as_AccessManager d = Some x <-> d = DAccessManager x.
Proof. destruct d; naive_solver. Qed.
Lemma as_AttClientState_Some d x : as_AttClientState d = Some x <-> d = DAttClientState x.
Proof. destruct d; naive_solver. Qed.
Lemma as_AttAppState_Some d x : as_AttAppState d = Some x <-> d = DAttAppState x.
Proof. destruct d; naive_solver. Qed.
Lemma as_ConsensusStateStore_Some d x : as_ConsensusStateStore d = Some x <-> d = DConsensusStateStore x.
Proof. destruct d; naive_solver. Qed.
Lemma as_TmClientState_Some d x : as_TmClientState d = Some x <-> d = DTmClientState x.
Proof. destruct d; naive_solver. Qed.
Lemma as_TmAppState_Some d x : as_TmAppState d = Some x <-> d = DTmAppState x.
Proof. destruct d; naive_solver. Qed.
Lemma as_TmConsensusStateStore_Some d x : as_TmConsensusStateStore d = Some x <-> d = DTmConsensusStateStore x.
Proof. destruct d; naive_solver. Qed.
Lemma as_HeaderChunk_Some d x : as_HeaderChunk d = Some x <-> d = DHeaderChunk x.
Proof. destruct d; naive_solver. Qed.
Lemma as_MisbehaviourChunk_Some d x : as_MisbehaviourChunk d = Some x <-> d = DMisbehaviourChunk x.
Proof. destruct d; naive_solver. Qed.
Lemma as_SignatureVerification_Some d x : as_SignatureVerification d = Some x <-> d = DSignatureVerification x.
Proof. destruct d; naive_solver. Qed.
Lemma as_GMPAppState_Some d x : as_GMPAppState d = Some x <-> d = DGMPAppState x.
Proof. destruct d; naive_solver. Qed.
Lemma as_GMPCallResult_Some d x : as_GMPCallResult d = Some x <-> d = DGMPCallResult x.
Proof. destruct d; naive_solver. Qed.
Lemma as_IFTAppState_Some d x : as_IFTAppState d = Some x <-> d = DIFTAppState x.
Proof. destruct d; naive_solver. Qed.
Lemma as_IFTAppMintState_Some d x : as_IFTAppMintState d = Some x <-> d = DIFTAppMintState x.
Proof. destruct d; naive_solver. Qed.
Lemma as_IFTBridge_Some d x : as_IFTBridge d = Some x <-> d = DIFTBridge x.
Proof. destruct d; naive_solver. Qed.
Lemma as_PendingTransfer_Some d x : as_PendingTransfer d = Some x <-> d = DPendingTransfer x.
Proof. destruct d; naive_solver. Qed.
Lemma as_Mint_Some d x : as_Mint d = Some x <-> d = DMint x.
Proof. destruct d; naive_solver. Qed.
Lemma as_TokenAccount_Some d x : as_TokenAccount d = Some x <-> d = DTokenAccount x.
Proof. destruct d; naive_solver. Qed.
Lemma as_ProgramData_Some d x : as_ProgramData d = Some x <-> d = DProgramData x.
Proof. destruct d; naive_solver. Qed.

(** ** Cross-program instructions

    What the modelled programs ask another program to do; on the wire an
    8-byte discriminator followed by the Borsh encoding of the argument. *)
Inductive CpiIx :=
| IxVerifyMembership (msg : MembershipMsg)
| IxVerifyNonMembership (msg : NonMembershipMsg)
| IxClientStatus
| IxOnRecvPacket (msg : OnRecvPacketMsg)
| IxOnAcknowledgementPacket (msg : OnAcknowledgementPacketMsg)
| IxOnTimeoutPacket (msg : OnTimeoutPacketMsg)
| IxAcceptUpgradeAuthorityTransfer (target_program : Pubkey)
| IxLoaderSetUpgradeAuthority (program current_authority new_authority : Pubkey)
| IxLoaderUpgrade (program buffer authority spill : Pubkey)
| IxSendPacket (msg : MsgSendPacket)
| IxSendCallCpi (msg : SendCallMsg)
| IxMintTo (mint to authority : Pubkey) (amount : Z)
| IxBurn (from mint authority : Pubkey) (amount : Z)
| IxSetMintAuthority (mint current_authority : Pubkey) (new_authority : option Pubkey)
| IxInitializeMint2 (mint mint_authority : Pubkey) (decimals : Z)
| IxMetadataPointerInitialize (mint authority metadata_address : Pubkey)
| IxTokenMetadataInitialize (mint update_authority mint_authority : Pubkey) (name symbol uri : bytes)
| IxCreateAssociatedTokenAccount (account owner mint : Pubkey)
| IxRaw (data : bytes).

Record AccountMeta := mkAccountMeta {
  meta_pubkey : Pubkey;
  meta_is_signer : bool;
  meta_is_writable : bool }.

(** ** Events ([events.rs] of the programs) *)
Inductive Event :=
(* ics26-router *)
| SendPacketEvent (client_id : bytes) (sequence : Z) (packet : Packet) (timeout_timestamp : Z)
| WriteAcknowledgementEvent (client_id : bytes) (sequence : Z) (packet : Packet)
    (acknowledgements : list bytes)
| AckPacketEvent (client_id : bytes) (sequence : Z) (packet : Packet)
    (acknowledgement : list bytes)
| TimeoutPacketEvent (client_id : bytes) (sequence : Z) (packet : Packet)
| ClientAddedEvent (client : Client)
| ClientUpdatedEvent (client : Client)
| IBCAppAdded (port_id : bytes) (app_program_id : Pubkey)
| NoopEvent
| RouterPausedEvent
| RouterUnpausedEvent
(* access-manager *)
| RoleGrantedEvent (role_id : Z) (account granted_by : Pubkey)
| RoleRevokedEvent (role_id : Z) (account revoked_by : Pubkey)
| ProgramUpgradedEvent (program authority : Pubkey) (timestamp : Z)
| WhitelistedProgramsUpdatedEvent (old_programs new_programs : list Pubkey) (updated_by : Pubkey)
| UpgradeAuthorityTransferProposedEvent
    (program current_authority proposed_authority proposed_by : Pubkey)
| UpgradeAuthorityTransferredEvent (program old_authority new_authority accepted_by : Pubkey)
| UpgradeAuthorityTransferCancelledEvent (program cancelled_authority cancelled_by : Pubkey)
| UpgradeAuthorityClaimedEvent (program source_access_manager new_authority : Pubkey)
| AccessManagerTransferProposed (current_access_manager proposed_access_manager : Pubkey)
| AccessManagerTransferAccepted (old_access_manager new_access_manager : Pubkey)
| AccessManagerTransferCancelled (access_manager cancelled_access_manager : Pubkey)
(* attestation *)
| MisbehaviourDetected (height existing_timestamp conflicting_timestamp : Z)
(* ics27-gmp *)
| GMPAppInitialized (router_program : Pubkey) (port_id : bytes) (timestamp : Z)
| GMPCallSent (sequence : Z) (sender : Pubkey) (receiver client_id salt : bytes)
    (payload_size timeout_timestamp : Z)
| GMPAppPaused (admin : Pubkey) (timestamp : Z)
| GMPAppUnpaused (admin : Pubkey) (timestamp : Z)
| GMPCallAcknowledgment (source_client : bytes) (sequence : Z) (sender result_pda : Pubkey)
    (timestamp : Z)
| GMPCallTimeout (source_client : bytes) (sequence : Z) (sender result_pda : Pubkey)
    (timestamp : Z)
(* ift *)
| IFTInitialized (admin : Pubkey) (timestamp : Z)
| SplTokenCreated (mint : Pubkey) (params : CreateTokenParams) (timestamp : Z)
| IFTBridgeRegistered (mint : Pubkey) (client_id counterparty_ift_address : bytes)
    (chain_options : ChainOptions) (timestamp : Z)
| IFTBridgeRemoved (mint : Pubkey) (client_id : bytes) (timestamp : Z)
| IFTTransferInitiated (mint : Pubkey) (client_id : bytes) (sequence : Z) (sender : Pubkey)
    (receiver : bytes) (amount timeout_timestamp : Z)
| IFTMintReceived (mint : Pubkey) (client_id : bytes) (receiver : Pubkey) (amount : Z)
    (gmp_account : Pubkey) (timestamp : Z)
| IFTTransferCompleted (mint : Pubkey) (client_id : bytes) (sequence : Z) (sender : Pubkey)
    (amount timestamp : Z)
| IFTTransferRefunded (mint : Pubkey) (client_id : bytes) (sequence : Z) (sender : Pubkey)
    (amount : Z) (reason : RefundReason) (timestamp : Z)
| MintAuthorityRevoked (mint new_authority : Pubkey) (timestamp : Z)
| MintRateLimitUpdated (mint : Pubkey) (daily_mint_limit timestamp : Z)
| TokenPausedUpdated (paused : bool) (timestamp : Z)
| ExistingTokenInitialized (mint : Pubkey) (decimals : Z) (previous_authority : Pubkey)
    (timestamp : Z)
| AdminProposed (current_admin proposed_admin : Pubkey) (timestamp : Z)
| AdminProposalCancelled (admin cancelled_admin : Pubkey) (timestamp : Z)
| AdminAccepted (previous_admin new_admin : Pubkey) (timestamp : Z)
| AdminMintExecuted (mint receiver : Pubkey) (amount : Z) (admin : Pubkey) (timestamp : Z).

#[global] Opaque ROUTER_ID ACCESS_MANAGER_ID ATTESTATION_ID GMP_ID IFT_ID SPL_TOKEN_PROGRAM_ID
  TOKEN_2022_PROGRAM_ID ASSOCIATED_TOKEN_PROGRAM_ID INSTRUCTIONS_SYSVAR_ID
  RENT_SYSVAR_ID CLOCK_SYSVAR_ID
  BPF_LOADER_UPGRADEABLE_ID UNIVERSAL_ERROR_ACK.
