(* ===== verification/Runtime.v ===== *)
(** * The Solana runtime and the Anchor account layer

    The state every instruction runs on: the accounts, the lamports, the clock,
    the return data and the program log ([World]); the call frame of the
    running program ([CallCtx]); a state-and-error monad [M] in which the
    instruction handlers are written; and the account operations behind
    Anchor's [#[account(...)]] attributes.

    The code of the runtime, of the hash functions, of the Borsh codec and of
    the programs called through CPI is outside the repository: it is the
    parameter [Platform], and [PlatformOk] states what the handlers rely on. *)

From S2P Require Import Prelude Errors Types.
From Stdlib Require Import ZArith Lia.
From stdpp Require Import base gmap list.

#[local] Open Scope Z_scope.

(** ** State *)

Record Account := mkAccount {
  acc_owner : Pubkey;
  acc_data : AccountData;
  acc_space : Z;
  acc_executable : bool }.

Definition with_data (a : Account) (d : AccountData) : Account :=
  mkAccount (acc_owner a) d (acc_space a) (acc_executable a).

(** The program log: events ([emit!]) and cross-program calls, oldest first. *)
Inductive LogEntry :=
| LEvent (program : Pubkey) (e : Event)
| LInvoke (caller callee : Pubkey) (ix : CpiIx).

(** A key outside [w_accts] is an account of the system program with no data;
    a key outside [w_lamports] has no lamports. *)
Record World := mkWorld {
  w_accts : gmap Pubkey Account;
  w_lamports : gmap Pubkey N;
  w_clock : Z;
  w_return_data : option (Pubkey * bytes);
  w_log : list LogEntry }.

(** The frame of the running instruction: the programs on the call stack,
    outermost first, and the privileges its accounts carry. *)
Record CallCtx := mkCallCtx {
  cx_stack : list Pubkey;
  cx_signers : gset Pubkey;
  cx_writable : gset Pubkey }.

Definition set_accts (w : World) (m : gmap Pubkey Account) : World :=
  mkWorld m (w_lamports w) (w_clock w) (w_return_data w) (w_log w).
Definition set_lamports (w : World) (m : gmap Pubkey N) : World :=
  mkWorld (w_accts w) m (w_clock w) (w_return_data w) (w_log w).
Definition set_return (w : World) (r : option (Pubkey * bytes)) : World :=
  mkWorld (w_accts w) (w_lamports w) (w_clock w) r (w_log w).
Definition add_log (w : World) (e : LogEntry) : World :=
  mkWorld (w_accts w) (w_lamports w) (w_clock w) (w_return_data w) (w_log w ++ [e]).

Definition lam (w : World) (k : Pubkey) : Z := Z.of_N (default 0%N (w_lamports w !! k)).
Definition set_lam (w : World) (k : Pubkey) (z : Z) : World :=
  set_lamports w (<[k := Z.to_N z]> (w_lamports w)).
Definition owner_of (w : World) (k : Pubkey) : Pubkey :=
  match w_accts w !! k with Some a => acc_owner a | None => SYSTEM_PROGRAM_ID end.
Definition is_executable (w : World) (k : Pubkey) : bool :=
  match w_accts w !! k with Some a => acc_executable a | None => false end.

(** ** The platform *)

Class Platform := {
  sha256 : bytes -> bytes;
  keccak256 : bytes -> bytes;
  borsh_packet : Packet -> option bytes;
  borsh_decode_vec_u8 : bytes -> option bytes;
  find_program_address : list bytes -> Pubkey -> Pubkey * Z;
  rent_minimum_balance : Z -> Z;
  process_instruction :
    CallCtx -> Pubkey -> list AccountMeta -> CpiIx -> World -> result Error World }.

(** The address part of [Pubkey::find_program_address]. *)
Definition pda_key `{Platform} (seeds : list bytes) (program : Pubkey) : Pubkey :=
  fst (find_program_address seeds program).

Definition is_pda `{Platform} (program k : Pubkey) : Prop :=
  exists seeds, k = pda_key seeds program.

(** The accounts of a program that only the program itself can change: those
    it owns, and the addresses derived from it (no one else can sign for
    them, so no one else can create them). *)
Definition protected `{Platform} (program : Pubkey) (w : World) (k : Pubkey) : Prop :=
  is_pda program k \/ exists a, w_accts w !! k = Some a /\ acc_owner a = program.

Definition logged_by (program : Pubkey) (e : LogEntry) : Prop :=
  match e with
  | LEvent p _ => p = program
  | LInvoke p _ _ => p = program
  end.

(** [frame P w w']: code other than [P]'s ran from [w] to [w']. *)
Definition frame `{Platform} (program : Pubkey) (w w' : World) : Prop :=
  (forall k, protected program w k -> w_accts w' !! k = w_accts w !! k) /\
  (forall k, protected program w k -> lam w k <= lam w' k) /\
  (exists l, w_log w' = w_log w ++ l /\ Forall (fun e => ~ logged_by program e) l).

(** The same for code that was handed the signature of the addresses in [S]:
    of those, only the ones that [P] owns are still safe. *)
Definition guarded `{Platform} (S : gset Pubkey) (program : Pubkey) (w : World) (k : Pubkey) : Prop :=
  (is_pda program k /\ k ∉ S) \/ exists a, w_accts w !! k = Some a /\ acc_owner a = program.

Definition frame_but `{Platform} (S : gset Pubkey) (program : Pubkey) (w w' : World) : Prop :=
  (forall k, guarded S program w k -> w_accts w' !! k = w_accts w !! k) /\
  (forall k, guarded S program w k -> lam w k <= lam w' k) /\
  (exists l, w_log w' = w_log w ++ l /\ Forall (fun e => ~ logged_by program e) l).

(** What the handlers rely on: digests of 32 bytes; program addresses that
    collide only when the concatenated seeds and the program agree; a positive
    rent; and that a called program leaves its callers' accounts alone (only
    the owner writes an account, only the owner of an address derived from it
    signs for it, and re-entrance is refused) and sees the same clock. *)
Class PlatformOk `{Platform} : Prop := {
  sha256_length x : length (sha256 x) = 32%nat;
  keccak256_length x : length (keccak256 x) = 32%nat;
  pda_inj s1 p1 s2 p2 :
    pda_key s1 p1 = pda_key s2 p2 -> concat s1 = concat s2 /\ p1 = p2;
  rent_pos n : 0 < rent_minimum_balance n;
  process_frame cx prog metas ix w w' p :
    process_instruction cx prog metas ix w = Ok w' ->
    p ∈ cx_stack cx -> p <> prog -> frame_but (cx_signers cx) p w w';
  process_clock cx prog metas ix w w' :
    process_instruction cx prog metas ix w = Ok w' -> w_clock w' = w_clock w }.

(** ** The instruction monad *)

Definition M (A : Type) : Type := World -> result Error (A * World).

#[export] Instance M_ret : MRet M := fun A a w => Ok (a, w).
#[export] Instance M_bind : MBind M := fun A B f m w =>
  match m w with
  | Ok (a, w') => f a w'
  | Err e => Err e
  end.

Definition fail {A} (e : Error) : M A := fun _ => Err e.
Definition get_world : M World := fun w => Ok (w, w).
Definition put_world (w : World) : M unit := fun _ => Ok ((), w).

(** [require!(b, e)]. *)
Definition require (b : bool) (e : Error) : M unit :=
  fun w => if b then Ok ((), w) else Err e.

(** [r?] on a value computed without touching the state. *)
Definition lift {A} (r : result Error A) : M A :=
  fun w => match r with Ok a => Ok (a, w) | Err e => Err e end.

(** A transaction: on an error nothing is committed. *)
Definition run_tx {A} (m : M A) (w : World) : World :=
  match m w with
  | Ok (_, w') => w'
  | Err _ => w
  end.

(** A run that succeeds, from its evaluation. *)
Lemma run_tx_Ok (m : M unit) w : is_ok (m w) = true -> m w = Ok ((), run_tx m w).
Proof. unfold run_tx. by destruct (m w) as [[[] w']|]. Qed.

Lemma bind_Ok {A B} (m : M A) (f : A -> M B) w b w2 :
  (m ≫= f) w = Ok (b, w2) <-> exists a w1, m w = Ok (a, w1) /\ f a w1 = Ok (b, w2).
Proof.
  unfold mbind, M_bind. split.
  - destruct (m w) as [[a w1]|e] eqn:E; [eauto|discriminate].
  - by intros (a & w1 & -> & H).
Qed.

Lemma require_Ok b e w u w' : require b e w = Ok (u, w') <-> b = true /\ w' = w.
Proof.
  unfold require. destruct b; split.
  - intros; by simplify_eq.
  - intros [_ ->]. by destruct u.
  - discriminate.
  - by intros [? _].
Qed.

Lemma lift_Ok {A} (r : result Error A) w a w' :
  lift r w = Ok (a, w') <-> r = Ok a /\ w' = w.
Proof.
  unfold lift. destruct r; split.
  - intros; by simplify_eq.
  - by intros [[= ->] ->].
  - discriminate.
  - by intros [? _].
Qed.

Lemma ret_Ok {A} (a b : A) w w' : mret (M:=M) a w = Ok (b, w') <-> b = a /\ w' = w.
Proof. unfold mret, M_ret. split; [by intros [= -> ->]|by intros [-> ->]]. Qed.

Lemma fail_Ok {A} e w (a : A) w' : fail e w = Ok (a, w') <-> False.
Proof. by split. Qed.

Lemma get_world_Ok w a w' : get_world w = Ok (a, w') <-> a = w /\ w' = w.
Proof. unfold get_world. split; [by intros [= -> ->]|by intros [-> ->]]. Qed.

Lemma put_world_Ok v w a w' : put_world v w = Ok (a, w') <-> w' = v.
Proof. unfold put_world. destruct a. split; [by intros [= ->]|by intros ->]. Qed.

(** ** Account operations *)

Section Accounts.
Context `{Platform}.

(** [Signer<'info>]. *)
Definition signer (cx : CallCtx) (k : Pubkey) : M unit :=
  require (bool_decide (k ∈ cx_signers cx)) AnchorErr.AccountNotSigner.

(** [#[account(mut)]]. *)
Definition writable (cx : CallCtx) (k : Pubkey) : M unit :=
  require (bool_decide (k ∈ cx_writable cx)) AnchorErr.ConstraintMut.

(** [#[account(address = a @ e)]]. *)
Definition address_is (k a : Pubkey) (e : Error) : M unit :=
  require (bool_decide (k = a)) e.

(** [Program<'info, System>]. *)
Definition system_program (k : Pubkey) : M unit :=
  address_is k SYSTEM_PROGRAM_ID AnchorErr.InvalidProgramId.

(** The instructions sysvar's address constraint. *)
Definition instructions_sysvar (k : Pubkey) : M unit :=
  address_is k INSTRUCTIONS_SYSVAR_ID AnchorErr.ConstraintAddress.

(** [#[account(owner = o @ e)]] on an [AccountInfo]. *)
Definition owner_is (k o : Pubkey) (e : Error) : M unit := fun w =>
  require (bool_decide (owner_of w k = o)) e w.

(** [find_program_address] refuses a seed of more than 32 bytes and more than
    16 seeds (the bump included) by aborting. *)
Definition seeds_ok (seeds : list bytes) : bool :=
  bool_decide (Forall (fun s => (length s <= 32)%nat) seeds) && (length seeds <=? 15)%nat.

Definition derive_pda (seeds : list bytes) (program : Pubkey) : M Pubkey :=
  _ ← require (seeds_ok seeds) AnchorErr.Panicked;
  mret (pda_key seeds program).

(** [#[account(seeds = [...], bump, seeds::program = p)]]. *)
Definition seeds_are (k : Pubkey) (seeds : list bytes) (program : Pubkey) : M unit :=
  p ← derive_pda seeds program;
  require (bool_decide (k = p)) AnchorErr.ConstraintSeeds.

(** [AccountDeserialize::try_deserialize] on the data of an [AccountInfo]. *)
Definition try_deserialize {A} (proj : AccountData -> option A) (k : Pubkey) : M A := fun w =>
  match w_accts w !! k with
  | None => Err (EAnchor AnchorErr.AccountDiscriminatorNotFound)
  | Some a =>
      match proj (acc_data a) with
      | Some x => Ok (x, w)
      | None => Err (EAnchor AnchorErr.AccountDiscriminatorMismatch)
      end
  end.

(** [Account<'info, T>]: an initialized account of the program, of type [T]. *)
Definition load_account {A} (program : Pubkey) (proj : AccountData -> option A)
    (k : Pubkey) : M A := fun w =>
  match w_accts w !! k with
  | None =>
      if Z.eqb (lam w k) 0 then Err (EAnchor AnchorErr.AccountNotInitialized)
      else Err (EAnchor AnchorErr.AccountOwnedByWrongProgram)
  | Some a =>
      if bool_decide (acc_owner a = program) then try_deserialize proj k w
      else Err (EAnchor AnchorErr.AccountOwnedByWrongProgram)
  end.

(** [exit()] of a mutable [Account<'info, T>]: the owner writes the data after
    the discriminator, if it fits the account. *)
Definition store_account (program k : Pubkey) (d : AccountData) : M unit := fun w =>
  match w_accts w !! k with
  | Some a =>
      if negb (bool_decide (acc_owner a = program))
      then Err (EAnchor AnchorErr.ExternalAccountDataModified)
      else if Z.ltb (acc_space a) (8 + data_size d)
      then Err (EAnchor AnchorErr.AccountDidNotSerialize)
      else Ok ((), set_accts w (<[k := with_data a d]> (w_accts w)))
  | None => Err (EAnchor AnchorErr.ExternalAccountDataModified)
  end.

(** [system_program::transfer]; the payer must be a plain wallet. *)
Definition system_transfer (from to : Pubkey) (amount : Z) : M unit := fun w =>
  if Z.eqb amount 0 then Ok ((), w)
  else if negb (bool_decide (w_accts w !! from = None)) then Err (EAnchor AnchorErr.ExternalAccountDataModified)
  else if Z.ltb (lam w from) amount then Err (EAnchor AnchorErr.InsufficientFunds)
  else let w1 := set_lam w from (lam w from - amount) in
       Ok ((), set_lam w1 to (lam w1 to + amount)).

(** [#[account(init, payer, space, seeds)]]: the account must still belong to
    the system program; the payer tops it up to rent exemption and it becomes
    a zeroed account of the program. *)
Definition init_account (cx : CallCtx) (program k payer : Pubkey) (space : Z) : M unit :=
  _ ← writable cx k;
  w ← get_world;
  _ ← require (bool_decide (w_accts w !! k = None)) AnchorErr.AccountAlreadyInUse;
  let rent := rent_minimum_balance space in
  let missing := if Z.eqb (lam w k) 0 then rent
                 else u64_saturating_sub (Z.max rent 1) (lam w k) in
  _ ← system_transfer payer k missing;
  w ← get_world;
  put_world (set_accts w (<[k := mkAccount program DZeroed space false]> (w_accts w))).

(** [#[account(init_if_needed, ...)]]: an account that exists must have the
    right owner, discriminator, size and rent; a fresh one decodes to [fresh]. *)
Definition init_if_needed {A} (cx : CallCtx) (program : Pubkey)
    (proj : AccountData -> option A) (fresh : A) (k payer : Pubkey) (space : Z) : M A :=
  w ← get_world;
  match w_accts w !! k with
  | None => _ ← init_account cx program k payer space; mret fresh
  | Some a =>
      x ← load_account program proj k;
      _ ← require (Z.eqb (acc_space a) space) AnchorErr.ConstraintSpace;
      _ ← require (Z.leb (rent_minimum_balance space) (lam w k)) AnchorErr.ConstraintRentExempt;
      _ ← writable cx k;
      mret x
  end.

(** [data.fill(0)] on an account's buffer. *)
Definition fill_zero (cx : CallCtx) (program k : Pubkey) : M unit := fun w =>
  match w_accts w !! k with
  | Some a =>
      if negb (bool_decide (acc_owner a = program))
      then Err (EAnchor AnchorErr.ExternalAccountDataModified)
      else if negb (bool_decide (k ∈ cx_writable cx))
      then Err (EAnchor AnchorErr.ReadonlyDataModified)
      else Ok ((), set_accts w (<[k := with_data a DZeroed]> (w_accts w)))
  | None => Err (EAnchor AnchorErr.ExternalAccountDataModified)
  end.

(** [Clock::get()?.unix_timestamp]. *)
Definition clock_unix_timestamp : M Z := fun w => Ok (w_clock w, w).

(** Closing an account by hand: its data is zeroed and its lamports go to the
    recipient; the two lamport cells cannot be borrowed from one account. *)
Definition drain_account (cx : CallCtx) (program : Pubkey) (overflow : Error)
    (account recipient : Pubkey) : M unit :=
  _ ← fill_zero cx program account;
  _ ← require (negb (bool_decide (account = recipient))) AnchorErr.AccountBorrowFailed;
  w ← get_world;
  total ← lift (ok_or (u64_checked_add (lam w recipient) (lam w account)) overflow);
  put_world (set_lam (set_lam w recipient total) account 0).

(** [emit!]. *)
Definition emit (program : Pubkey) (e : Event) : M unit := fun w =>
  Ok ((), add_log w (LEvent program e)).

(** [get_return_data] and [set_return_data]. *)
Definition get_return_data : M (option (Pubkey * bytes)) := fun w => Ok (w_return_data w, w).
Definition set_return_data (program : Pubkey) (data : bytes) : M unit := fun w =>
  Ok ((), set_return w (Some (program, data))).

(** [invoke_signed]: the callee's accounts may carry no privilege that the
    caller does not have or derive; a program already on the stack can only
    call itself; the return data is cleared. *)
Definition metas_allowed (cx : CallCtx) (pdas : list Pubkey) (metas : list AccountMeta) : bool :=
  forallb (fun m =>
    (negb (meta_is_signer m) ||
       bool_decide (meta_pubkey m ∈ cx_signers cx) || contains (meta_pubkey m) pdas) &&
    (negb (meta_is_writable m) || bool_decide (meta_pubkey m ∈ cx_writable cx))) metas.

Definition callee_ctx (cx : CallCtx) (prog : Pubkey) (metas : list AccountMeta) : CallCtx :=
  mkCallCtx (cx_stack cx ++ [prog])
    (list_to_set (meta_pubkey <$> filter (fun m => meta_is_signer m = true) metas))
    (list_to_set (meta_pubkey <$> filter (fun m => meta_is_writable m = true) metas)).

Definition invoke_signed (cx : CallCtx) (caller prog : Pubkey) (metas : list AccountMeta)
    (ix : CpiIx) (pdas : list Pubkey) : M unit := fun w =>
  if negb (metas_allowed cx pdas metas) then Err (EAnchor AnchorErr.PrivilegeEscalation)
  else if bool_decide (prog ∈ cx_stack cx) && negb (bool_decide (prog = caller))
  then Err (EAnchor AnchorErr.ReentrancyNotAllowed)
  else
    let w1 := set_return (add_log w (LInvoke caller prog ix)) None in
    match process_instruction (callee_ctx cx prog metas) prog metas ix w1 with
    | Ok w2 => Ok ((), w2)
    | Err e => Err e
    end.

Definition invoke (cx : CallCtx) (caller prog : Pubkey) (metas : list AccountMeta)
    (ix : CpiIx) : M unit := invoke_signed cx caller prog metas ix [].

End Accounts.

(** ** Inversion of successful runs *)

Section AccountLemmas.
Context `{Platform}.

Lemma signer_Ok cx k w u w' : signer cx k w = Ok (u, w') <-> k ∈ cx_signers cx /\ w' = w.
Proof. unfold signer. by rewrite require_Ok, bool_decide_eq_true. Qed.

Lemma writable_Ok cx k w u w' : writable cx k w = Ok (u, w') <-> k ∈ cx_writable cx /\ w' = w.
Proof. unfold writable. by rewrite require_Ok, bool_decide_eq_true. Qed.

Lemma address_is_Ok k a e w u w' : address_is k a e w = Ok (u, w') <-> k = a /\ w' = w.
Proof. unfold address_is. by rewrite require_Ok, bool_decide_eq_true. Qed.

Lemma system_program_Ok k w u w' :
  system_program k w = Ok (u, w') <-> k = SYSTEM_PROGRAM_ID /\ w' = w.
Proof. apply address_is_Ok. Qed.

Lemma instructions_sysvar_Ok k w u w' :
  instructions_sysvar k w = Ok (u, w') <-> k = INSTRUCTIONS_SYSVAR_ID /\ w' = w.
Proof. apply address_is_Ok. Qed.

Lemma owner_is_Ok k o e w u w' : owner_is k o e w = Ok (u, w') <-> owner_of w k = o /\ w' = w.
Proof. unfold owner_is. by rewrite require_Ok, bool_decide_eq_true. Qed.

Lemma derive_pda_Ok seeds p w a w' :
  derive_pda seeds p w = Ok (a, w') <->
  seeds_ok seeds = true /\ a = pda_key seeds p /\ w' = w.
Proof.
  unfold derive_pda. rewrite bind_Ok. split.
  - intros (? & ? & [? ->]%require_Ok & [-> ->]%ret_Ok). done.
  - intros (? & -> & ->). exists (), w. by rewrite require_Ok, ret_Ok.
Qed.

Lemma seeds_are_Ok k seeds p w u w' :
  seeds_are k seeds p w = Ok (u, w') <->
  seeds_ok seeds = true /\ k = pda_key seeds p /\ w' = w.
Proof.
  unfold seeds_are. rewrite bind_Ok. split.
  - intros (? & ? & (? & -> & ->)%derive_pda_Ok & [Hk ->]%require_Ok).
    by apply bool_decide_eq_true in Hk.
  - intros (? & -> & ->). exists (pda_key seeds p), w.
    rewrite derive_pda_Ok, require_Ok, bool_decide_eq_true. done.
Qed.

Lemma try_deserialize_Ok {A} (proj : AccountData -> option A) k w x w' :
  try_deserialize proj k w = Ok (x, w') <->
  w' = w /\ exists a, w_accts w !! k = Some a /\ proj (acc_data a) = Some x.
Proof.
  unfold try_deserialize. destruct (w_accts w !! k) as [a|].
  - destruct (proj (acc_data a)) eqn:E; naive_solver.
  - naive_solver.
Qed.

Lemma load_account_Ok {A} program (proj : AccountData -> option A) k w x w' :
  load_account program proj k w = Ok (x, w') <->
  w' = w /\ exists a, w_accts w !! k = Some a /\ acc_owner a = program /\
                      proj (acc_data a) = Some x.
Proof.
  unfold load_account. destruct (w_accts w !! k) as [a|] eqn:E.
  - case_bool_decide as Ho; [rewrite try_deserialize_Ok|]; naive_solver.
  - split; [by destruct (lam w k =? 0)|naive_solver].
Qed.

Lemma store_account_Ok program k d w u w' :
  store_account program k d w = Ok (u, w') <->
  exists a, w_accts w !! k = Some a /\ acc_owner a = program /\
    8 + data_size d <= acc_space a /\
    w' = set_accts w (<[k := with_data a d]> (w_accts w)).
Proof.
  unfold store_account. destruct u. destruct (w_accts w !! k) as [a|]; [|naive_solver].
  case_bool_decide; simpl; [|naive_solver].
  destruct (Z.ltb_spec (acc_space a) (8 + data_size d)); naive_solver lia.
Qed.

Lemma clock_Ok w t w' : clock_unix_timestamp w = Ok (t, w') <-> t = w_clock w /\ w' = w.
Proof. unfold clock_unix_timestamp. naive_solver. Qed.

Lemma emit_Ok p e w u w' : emit p e w = Ok (u, w') <-> w' = add_log w (LEvent p e).
Proof. unfold emit. destruct u. naive_solver. Qed.

Lemma get_return_data_Ok w r w' : get_return_data w = Ok (r, w') <-> r = w_return_data w /\ w' = w.
Proof. unfold get_return_data. naive_solver. Qed.

Lemma set_return_data_Ok p d w u w' :
  set_return_data p d w = Ok (u, w') <-> w' = set_return w (Some (p, d)).
Proof. unfold set_return_data. destruct u. naive_solver. Qed.

Lemma lam_nonneg w k : 0 <= lam w k.
Proof. unfold lam. lia. Qed.

Lemma lam_set_lam w k z k' :
  0 <= z -> lam (set_lam w k z) k' = if decide (k = k') then z else lam w k'.
Proof.
  intros Hz. unfold lam, set_lam. simpl. rewrite lookup_insert. case_decide; [simpl; lia|done].
Qed.

(** A transfer moves lamports and nothing else, and never out of a program's
    account. *)
Lemma system_transfer_Ok from to amount w u w' :
  0 <= amount -> system_transfer from to amount w = Ok (u, w') ->
  (amount <> 0 -> w_accts w !! from = None /\ amount <= lam w from) /\
  w_accts w' = w_accts w /\ w_clock w' = w_clock w /\
  w_return_data w' = w_return_data w /\ w_log w' = w_log w /\
  forall k, lam w' k = lam w k - (if decide (from = k) then amount else 0)
                              + (if decide (to = k) then amount else 0).
Proof.
  intros Hpos. unfold system_transfer. destruct (Z.eqb_spec amount 0) as [->|].
  { intros [= <- <-]. split_and!; try done. intros k. repeat case_decide; lia. }
  case_bool_decide; simpl; [|discriminate].
  destruct (Z.ltb_spec (lam w from) amount); [discriminate|].
  intros [= <- <-]. split_and!; try done. intros k.
  rewrite !lam_set_lam by (rewrite ?lam_set_lam by lia; pose proof (lam_nonneg w to);
    repeat case_decide; lia).
  repeat case_decide; subst; congruence || lia.
Qed.

Lemma init_account_Ok `{!PlatformOk} cx program k payer space w u w' :
  init_account cx program k payer space w = Ok (u, w') ->
  k ∈ cx_writable cx /\ w_accts w !! k = None /\
  w_accts w' = <[k := mkAccount program DZeroed space false]> (w_accts w) /\
  w_clock w' = w_clock w /\ w_return_data w' = w_return_data w /\ w_log w' = w_log w /\
  (forall k', is_Some (w_accts w !! k') -> lam w k' <= lam w' k') /\ 0 < lam w' k.
Proof.
  unfold init_account. intros Hrun.
  apply bind_Ok in Hrun as (? & ? & [Hw ->]%writable_Ok & Hrun).
  apply bind_Ok in Hrun as (? & ? & [-> ->]%get_world_Ok & Hrun).
  apply bind_Ok in Hrun as (? & ? & [Hn ->]%require_Ok & Hrun).
  apply bind_Ok in Hrun as (? & w1 & Ht & Hrun).
  apply bind_Ok in Hrun as (? & ? & [-> ->]%get_world_Ok & ->%put_world_Ok).
  apply bool_decide_eq_true in Hn. pose proof (rent_pos space).
  apply system_transfer_Ok in Ht as (Hf & Ha & Hc & Hr & Hl & Hlam);
    [|unfold u64_saturating_sub; destruct (lam w k =? 0); lia].
  unfold u64_saturating_sub in *.
  match type of Hlam with forall k0, _ = _ - (if _ then ?m else 0) + _ => set (missing := m) in * end.
  assert (0 <= missing /\ (lam w k = 0 -> 0 < missing) /\
    (lam w k <> 0 -> 0 < lam w k + missing)) as (? & ? & ?)
    by (subst missing; destruct (Z.eqb_spec (lam w k) 0); lia). clearbody missing.
  split_and!; simpl; try congruence.
  - intros k' [a Hk']. change (lam w k' <= lam w1 k'). rewrite Hlam.
    destruct (decide (missing = 0)) as [->|Hm]; [repeat case_decide; lia|].
    destruct (Hf Hm) as [? _]. repeat case_decide; subst; congruence || lia.
  - change (0 < lam w1 k). rewrite Hlam.
    destruct (decide (missing = 0)) as [E|Hm]; [rewrite E in *|destruct (Hf Hm) as [_ ?]];
      repeat case_decide; subst; done || lia.
Qed.

Lemma init_if_needed_Ok `{!PlatformOk} {A} cx program (proj : AccountData -> option A) fresh k payer space w x w' :
  init_if_needed cx program proj fresh k payer space w = Ok (x, w') ->
  k ∈ cx_writable cx /\
  ((w_accts w !! k = None /\ x = fresh /\ init_account cx program k payer space w = Ok ((), w')) \/
   (w' = w /\ 0 < lam w k /\ exists a, w_accts w !! k = Some a /\ acc_owner a = program /\
                        acc_space a = space /\ proj (acc_data a) = Some x)).
Proof.
  unfold init_if_needed. intros Hrun.
  apply bind_Ok in Hrun as (? & ? & [-> ->]%get_world_Ok & Hrun).
  destruct (w_accts w !! k) as [a|] eqn:Hn.
  - apply bind_Ok in Hrun as (? & ? & (-> & a' & E & Ho & D)%load_account_Ok & Hrun).
    apply bind_Ok in Hrun as (? & ? & [Hs%Z.eqb_eq ->]%require_Ok & Hrun).
    apply bind_Ok in Hrun as (? & ? & [Hl%Z.leb_le ->]%require_Ok & Hrun).
    apply bind_Ok in Hrun as (? & ? & [Hw ->]%writable_Ok & [-> ->]%ret_Ok).
    pose proof (rent_pos space). split; [done|]. right. split_and!; [done|lia|].
    exists a'. simplify_eq. done.
  - apply bind_Ok in Hrun as ([] & w1 & Hi & [-> ->]%ret_Ok).
    pose proof Hi as (? & _)%init_account_Ok. naive_solver.
Qed.

Lemma init_if_needed_accts `{!PlatformOk} {A} cx program (proj : AccountData -> option A) fresh k payer space w x w' k' :
  init_if_needed cx program proj fresh k payer space w = Ok (x, w') -> k' <> k ->
  w_accts w' !! k' = w_accts w !! k'.
Proof.
  intros Hi Hne. apply init_if_needed_Ok in Hi as [_ [(_ & _ & Hi)|(-> & _)]]; [|done].
  apply init_account_Ok in Hi as (_ & _ & E & _). rewrite E. by apply lookup_insert_ne.
Qed.

Lemma fill_zero_Ok cx program k w u w' :
  fill_zero cx program k w = Ok (u, w') <->
  exists a, w_accts w !! k = Some a /\ acc_owner a = program /\ k ∈ cx_writable cx /\
    w' = set_accts w (<[k := with_data a DZeroed]> (w_accts w)).
Proof.
  unfold fill_zero. destruct u. destruct (w_accts w !! k) as [a|]; [|naive_solver].
  do 2 (case_bool_decide; simpl; [|naive_solver]). naive_solver.
Qed.

End AccountLemmas.

(** ** Frames *)

Section Frames.
Context `{Platform}.

Lemma protected_frame p w w' k : frame p w w' -> protected p w k -> protected p w' k.
Proof.
  intros (Ha & _ & _) Hk. destruct Hk as [Hk|(a & Hl & Ho)]; [by left|].
  right. exists a. rewrite Ha by (right; eauto). done.
Qed.

#[export] Instance frame_refl p : Reflexive (frame p).
Proof.
  intros w. split_and!; try done. exists []. by rewrite app_nil_r.
Qed.

#[export] Instance frame_trans p : Transitive (frame p).
Proof.
  intros w1 w2 w3 F1 F2. pose proof F1 as (A1 & L1 & l1 & E1 & N1).
  pose proof F2 as (A2 & L2 & l2 & E2 & N2). split_and!.
  - intros k Hk. rewrite A2 by (by eapply protected_frame). by apply A1.
  - intros k Hk. etrans; [by apply L1|]. apply L2. by eapply protected_frame.
  - exists (l1 ++ l2). rewrite E2, E1, app_assoc. split; [done|].
    by apply Forall_app_2.
Qed.

(** What happens between two instructions of [p]: other programs run, and the
    runtime deletes accounts without lamports. *)
Definition others (p : Pubkey) (w w' : World) : Prop :=
  frame p w w' \/ exists k, lam w k <= 0 /\ w' = set_accts w (delete k (w_accts w)).

(** The entries a program left in the log itself. *)
#[export] Instance logged_by_dec p e : Decision (logged_by p e).
Proof. destruct e; unfold logged_by; apply _. Defined.

Definition own_log (p : Pubkey) (w : World) : list LogEntry := filter (logged_by p) (w_log w).

Lemma frame_but_own_log S p w w' : frame_but S p w w' -> own_log p w' = own_log p w.
Proof.
  intros (_ & _ & l & E & Hl). unfold own_log. rewrite E, filter_app.
  assert (filter (logged_by p) l = []) as ->; [|apply app_nil_r].
  clear E. induction Hl as [|x l Hx Hl IH]; [done|]. rewrite filter_cons_False by exact Hx. exact IH.
Qed.

Lemma frame_own_log p w w' : frame p w w' -> own_log p w' = own_log p w.
Proof.
  intros F. apply (frame_but_own_log ∅). destruct F as (Ha & Hl & Hlog).
  assert (forall k, guarded ∅ p w k -> protected p w k) as Hg.
  { intros k [[Hk _]|Hk]; [by left|by right]. }
  split_and!; auto.
Qed.

Lemma others_own_log p w w' : others p w w' -> own_log p w' = own_log p w.
Proof. intros [F|(k & _ & ->)]; [by apply frame_own_log|done]. Qed.

(** A funded account of [p] survives. *)
Lemma others_keep p w w' k :
  others p w w' -> protected p w k -> 0 < lam w k ->
  w_accts w' !! k = w_accts w !! k /\ 0 < lam w' k.
Proof.
  intros [(Ha & Hl & _)|(k' & Hk' & ->)] Hp Hpos.
  - split; [by apply Ha|]. specialize (Hl k Hp). lia.
  - split; [|done]. simpl. rewrite lookup_delete_ne; [done|]. intros ->. lia.
Qed.

(** An address of [p] without an account stays free. *)
Lemma others_keep_None p w w' k :
  others p w w' -> protected p w k -> w_accts w !! k = None -> w_accts w' !! k = None.
Proof.
  intros [(Ha & _)|(k' & _ & ->)] Hp Hn; [by rewrite Ha|].
  simpl. rewrite lookup_delete. by case_decide.
Qed.

Lemma own_log_add p w e :
  own_log p (add_log w e) = own_log p w ++ (if decide (logged_by p e) then [e] else []).
Proof. unfold own_log. simpl. rewrite filter_app, filter_cons, filter_nil. done. Qed.

Lemma pda_key_is_pda seeds p : is_pda p (pda_key seeds p).
Proof. by exists seeds. Qed.

Lemma frame_but_frame S p w w' :
  (forall k, k ∈ S -> ~ is_pda p k) -> frame_but S p w w' -> frame p w w'.
Proof.
  intros HS (Ha & Hl & Hlog).
  assert (forall k, protected p w k -> guarded S p w k) as Hg.
  { intros k [Hk|Hk]; [left|by right]. split; [done|]. intros ?. by eapply HS. }
  split_and!; auto.
Qed.

(** The running program: the last of the stack.  A derived address that signs
    belongs to another program of the stack, since only a program can sign for
    the addresses derived from it. *)
Definition running (cx : CallCtx) (self : Pubkey) : Prop :=
  last (cx_stack cx) = Some self /\
  forall k p, k ∈ cx_signers cx -> is_pda p k -> p ∈ cx_stack cx /\ p <> self.

Lemma running_last cx self : running cx self -> last (cx_stack cx) = Some self.
Proof. by intros []. Qed.

Lemma running_in_stack cx self : running cx self -> self ∈ cx_stack cx.
Proof. intros [(l & ->)%last_Some _]. set_solver. Qed.

Lemma invoke_signed_metas cx caller prog metas ix pdas w u w' :
  invoke_signed cx caller prog metas ix pdas w = Ok (u, w') -> metas_allowed cx pdas metas = true.
Proof. unfold invoke_signed. by destruct (metas_allowed cx pdas metas). Qed.

(** A call to another program keeps the caller's accounts, except the
    addresses whose signature it hands over. *)
Lemma invoke_signed_Ok `{!PlatformOk} cx caller prog metas ix pdas w u w' :
  invoke_signed cx caller prog metas ix pdas w = Ok (u, w') ->
  running cx caller -> caller <> prog ->
  metas_allowed cx pdas metas = true /\ (prog ∉ cx_stack cx) /\
  process_instruction (callee_ctx cx prog metas) prog metas ix
    (set_return (add_log w (LInvoke caller prog ix)) None) = Ok w' /\
  frame_but (list_to_set pdas) caller (set_return (add_log w (LInvoke caller prog ix)) None) w'.
Proof.
  unfold invoke_signed. intros Hrun Hcx Hne.
  destruct (metas_allowed cx pdas metas) eqn:Hm; [|discriminate]. simpl in Hrun.
  rewrite (bool_decide_eq_false_2 (prog = caller)) in Hrun by congruence. simpl in Hrun.
  case_bool_decide as Hst; [discriminate|]. simpl in Hrun.
  destruct (process_instruction _ _ _ _ _) as [w2|] eqn:Hp; [|discriminate].
  injection Hrun as _ <-. split_and!; [done..|].
  apply running_in_stack in Hcx as Hin. pose proof Hp as Hf.
  apply (process_frame _ _ _ _ _ _ caller) in Hf as (Ha & Hl & Hlog); [|simpl; set_solver|done].
  assert (forall k, guarded (list_to_set pdas) caller (set_return (add_log w (LInvoke caller prog ix)) None) k ->
    guarded (cx_signers (callee_ctx cx prog metas)) caller
      (set_return (add_log w (LInvoke caller prog ix)) None) k) as Hg.
  { intros k [[Hk Hn]|Hk]; [left|by right]. split; [done|]. simpl. intros Hs.
    apply elem_of_list_to_set, list_elem_of_fmap in Hs as (m & -> & [Hsg Hm']%list_elem_of_filter).
    unfold metas_allowed in Hm. rewrite forallb_forall in Hm.
    apply list_elem_of_In in Hm'. specialize (Hm m Hm').
    rewrite Hsg in Hm. simpl in Hm. apply andb_true_iff in Hm as [Hm _].
    apply orb_true_iff in Hm as [Hm|Hm].
    - apply bool_decide_eq_true in Hm. by eapply (proj2 Hcx) in Hk as [_ ?].
    - apply contains_spec in Hm. apply Hn. by apply elem_of_list_to_set. }
  split_and!; auto.
Qed.

(** The callee's context, when the caller signs for its own addresses. *)
Lemma running_callee cx caller prog metas ix pdas w u w' `{!PlatformOk} :
  invoke_signed cx caller prog metas ix pdas w = Ok (u, w') ->
  running cx caller -> caller <> prog -> Forall (is_pda caller) pdas ->
  running (callee_ctx cx prog metas) prog.
Proof.
  intros Hi Hrun Hne Hp. apply invoke_signed_Ok in Hi as (Hm & Hst & _); [|done..].
  split; [simpl; apply last_snoc|]. intros k p Hk Hpda. simpl in *.
  apply elem_of_list_to_set, list_elem_of_fmap in Hk as (m & -> & [Hsg Hm']%list_elem_of_filter).
  unfold metas_allowed in Hm. rewrite forallb_forall in Hm. apply list_elem_of_In in Hm'.
  specialize (Hm m Hm'). rewrite Hsg in Hm. simpl in Hm. apply andb_true_iff in Hm as [Hm _].
  assert (p ∈ cx_stack cx) as Hin.
  { apply orb_true_iff in Hm as [Hm|Hm].
    - apply bool_decide_eq_true in Hm. by eapply (proj2 Hrun).
    - apply contains_spec in Hm. rewrite Forall_forall in Hp. destruct (Hp _ Hm) as [s1 E1], Hpda as [s2 E2].
      rewrite E1 in E2. apply pda_inj in E2 as [_ <-]. by apply running_in_stack. }
  split; [apply elem_of_app; by left|]. intros ->. done.
Qed.

(** A call that hands over no signature of the caller. *)
Lemma invoke_Ok `{!PlatformOk} cx caller prog metas ix w u w' :
  invoke cx caller prog metas ix w = Ok (u, w') -> running cx caller -> caller <> prog ->
  metas_allowed cx [] metas = true /\ (prog ∉ cx_stack cx) /\
  frame caller (set_return (add_log w (LInvoke caller prog ix)) None) w'.
Proof.
  intros Hi Hrun Hne. apply invoke_signed_Ok in Hi as (? & ? & _ & F); [|done..].
  split_and!; [done..|]. eapply frame_but_frame; [|exact F]. intros k Hk. simpl in Hk. set_solver.
Qed.

End Frames.

#[export] Hint Extern 0 (last (cx_stack _) = Some _) =>
  match goal with H : running _ _ |- _ => exact (running_last _ _ H) end : core.
#[export] Hint Extern 0 (_ ∈ cx_stack _) =>
  match goal with H : running _ _ |- _ => exact (running_in_stack _ _ H) end : core.

(** ** Automation

    [minv] inverts a successful run of a handler step by step. *)
Ltac minv_step :=
  match goal with
  | H : @mbind M _ _ _ _ _ ?w = Ok _ |- _ =>
      let a := fresh "a" in let w1 := fresh "w" in let Hm := fresh "Hm" in
      apply bind_Ok in H as (a & w1 & Hm & H); cbv beta zeta in H
  | H : @mret M _ _ _ _ = Ok _ |- _ => apply ret_Ok in H as [? ?]; subst
  | H : require _ _ _ = Ok _ |- _ => apply require_Ok in H as [H ?]; subst
  | H : lift _ _ = Ok _ |- _ => apply lift_Ok in H as [H ?]; subst
  | H : fail _ _ = Ok _ |- _ => exfalso; apply fail_Ok in H; exact H
  | H : get_world _ = Ok _ |- _ => apply get_world_Ok in H as [? ?]; subst
  | H : put_world _ _ = Ok _ |- _ => apply put_world_Ok in H; subst
  | H : signer _ _ _ = Ok _ |- _ => apply signer_Ok in H as [H ?]; subst
  | H : writable _ _ _ = Ok _ |- _ => apply writable_Ok in H as [H ?]; subst
  | H : address_is _ _ _ _ = Ok _ |- _ => apply address_is_Ok in H as [H ?]; subst
  | H : system_program _ _ = Ok _ |- _ => apply system_program_Ok in H as [H ?]; subst
  | H : instructions_sysvar _ _ = Ok _ |- _ => apply instructions_sysvar_Ok in H as [H ?]; subst
  | H : owner_is _ _ _ _ = Ok _ |- _ => apply owner_is_Ok in H as [H ?]; subst
  | H : derive_pda _ _ _ = Ok _ |- _ => apply derive_pda_Ok in H as (? & ? & ?); subst
  | H : seeds_are _ _ _ _ = Ok _ |- _ =>
      let Hs := fresh "Hs" in apply seeds_are_Ok in H as (Hs & H & ?); subst
  | H : try_deserialize _ _ _ = Ok _ |- _ =>
      let acc := fresh "acc" in let Hl := fresh "Hl" in
      apply try_deserialize_Ok in H as (? & acc & Hl & H); subst
  | H : load_account _ _ _ _ = Ok _ |- _ =>
      let acc := fresh "acc" in let Hl := fresh "Hl" in let Ho := fresh "Ho" in
      apply load_account_Ok in H as (? & acc & Hl & Ho & H); subst
  | H : clock_unix_timestamp _ = Ok _ |- _ => apply clock_Ok in H as [? ?]; subst
  | H : emit _ _ _ = Ok _ |- _ => apply emit_Ok in H; subst
  | H : get_return_data _ = Ok _ |- _ => apply get_return_data_Ok in H as [? ?]; subst
  | H : set_return_data _ _ _ = Ok _ |- _ => apply set_return_data_Ok in H; subst
  | H : bool_decide _ = true |- _ => apply bool_decide_eq_true in H
  | H : negb _ = true |- _ => apply negb_true_iff in H
  | H : _ && _ = true |- _ => apply andb_true_iff in H as [H ?]
  | u : () |- _ => destruct u
  end.
Ltac minv := repeat minv_step.

(** Runs the first operation of a monadic term in the goal, leaving what it
    needs as goals. *)
Ltac mrun_op :=
  lazymatch goal with
  | |- require _ _ _ = _ => apply require_Ok; split; [|reflexivity]
  | |- lift _ _ = _ => apply lift_Ok; split; [|reflexivity]
  | |- signer _ _ _ = _ => apply signer_Ok; split; [|reflexivity]
  | |- writable _ _ _ = _ => apply writable_Ok; split; [|reflexivity]
  | |- seeds_are _ _ _ _ = _ => apply seeds_are_Ok; split_and!; [| |reflexivity]
  | |- load_account _ _ _ _ = _ => apply load_account_Ok; split; [reflexivity|]
  end.
Ltac mrun := apply bind_Ok; first [exists tt; eexists|eexists _, _]; split; [mrun_op|cbv beta zeta].

Section Drain.
Context `{Platform}.

(** The account is zeroed and its lamports are the recipient's. *)
Lemma drain_account_Ok cx program overflow k recipient w u w' :
  drain_account cx program overflow k recipient w = Ok (u, w') ->
  k <> recipient /\ k ∈ cx_writable cx /\ w_log w' = w_log w /\ w_clock w' = w_clock w /\
  (exists a, w_accts w !! k = Some a /\ acc_owner a = program /\
     w_accts w' = <[k := with_data a DZeroed]> (w_accts w)) /\
  forall k', lam w' k' = if decide (k' = k) then 0
                         else if decide (k' = recipient) then lam w recipient + lam w k else lam w k'.
Proof.
  unfold drain_account. intros Hr. minv.
  apply fill_zero_Ok in Hm as (a & Ha & Ho & Hw & ->).
  apply bool_decide_eq_false in Hm0. apply ok_or_ok, u64_checked_add_Some in Hm2 as [-> _].
  split_and!; try done; [eauto|].
  intros k'. pose proof (lam_nonneg w recipient). pose proof (lam_nonneg w k).
  change (lam (set_lam (set_lam w recipient (lam w recipient + lam w k)) k 0) k' =
    if decide (k' = k) then 0 else if decide (k' = recipient) then lam w recipient + lam w k
    else lam w k').
  rewrite !lam_set_lam by lia. repeat case_decide; subst; done.
Qed.

End Drain.
