(* ===== verification/Toy.v ===== *)
(** * A concrete platform

    An executable instance of [Platform] on which the hypotheses of the
    theorems are checked to be satisfiable: digests that pad or truncate, an
    injective address derivation, a constant rent, and callees given by an
    arbitrary function that respects frames. *)

From S2P Require Import Prelude Errors Types Runtime.
From Stdlib Require Import ZArith Lia.
From Stdlib.Strings Require Import Byte.
From stdpp Require Import base gmap list.

#[local] Open Scope Z_scope.

Definition toy_digest (x : bytes) : bytes := take 32 (x ++ replicate 32 x00).

Definition toy_pda (seeds : list bytes) (program : Pubkey) : Pubkey :=
  xfd :: flat_map (fun b => [x00; b]) (concat seeds) ++ [x01] ++ program.

(** The program a derived address belongs to. *)
Fixpoint toy_tail (k : bytes) : option Pubkey :=
  match k with
  | x00 :: _ :: k => toy_tail k
  | x01 :: p => Some p
  | _ => None
  end.
Definition toy_program_of (k : Pubkey) : option Pubkey :=
  match k with xfd :: k => toy_tail k | _ => None end.

(** Length-prefixed bytes stand for the Borsh encoding of a packet. *)
Definition toy_borsh_packet (p : Packet) : option bytes :=
  Some (u64_to_le_bytes (pkt_sequence p) ++ pkt_source_client p ++ pkt_dest_client p).

Definition toy_platform
    (callee : CallCtx -> Pubkey -> list AccountMeta -> CpiIx -> World -> result Error World)
    : Platform := {|
  sha256 := toy_digest;
  keccak256 := toy_digest;
  borsh_packet := toy_borsh_packet;
  borsh_decode_vec_u8 := fun b => Some b;
  find_program_address := fun s p => (toy_pda s p, 255);
  rent_minimum_balance := fun _ => 1000;
  process_instruction := callee |}.

Lemma toy_digest_length x : length (toy_digest x) = 32%nat.
Proof. unfold toy_digest. rewrite length_take, length_app, length_replicate. lia. Qed.

Lemma toy_pda_inj s1 p1 s2 p2 :
  toy_pda s1 p1 = toy_pda s2 p2 -> concat s1 = concat s2 /\ p1 = p2.
Proof.
  unfold toy_pda. intros E. injection E as E. revert E.
  generalize (concat s1) as a, (concat s2) as b.
  induction a as [|x a IH]; intros [|y b]; simpl; intros E; try discriminate.
  - by injection E as ->.
  - injection E as -> E. destruct (IH b E) as [-> ->]. done.
Qed.

Lemma toy_program_of_pda s p : toy_program_of (toy_pda s p) = Some p.
Proof. unfold toy_pda. simpl. induction (concat s) as [|x l IH]; [done|exact IH]. Qed.

(** A context in which the program runs: the derived addresses that sign
    belong to other programs of the stack. *)
Definition toy_ctx_ok (cx : CallCtx) (self : Pubkey) : bool :=
  bool_decide (last (cx_stack cx) = Some self) &&
  forallb (fun k => match toy_program_of k with
                    | Some p => contains p (cx_stack cx) && negb (bool_decide (p = self))
                    | None => true
                    end) (elements (cx_signers cx)).

Lemma toy_running
    (callee : CallCtx -> Pubkey -> list AccountMeta -> CpiIx -> World -> result Error World)
    (cx : CallCtx) (self : Pubkey) :
  toy_ctx_ok cx self = true -> @running (toy_platform callee) cx self.
Proof.
  unfold toy_ctx_ok. intros [Hl%bool_decide_eq_true HS]%andb_true_iff. split; [done|].
  intros k p Hk [seeds E]. rewrite forallb_forall in HS. specialize (HS k).
  rewrite <- list_elem_of_In, elem_of_elements in HS. specialize (HS Hk).
  rewrite E in HS. unfold pda_key in HS. simpl in HS.
  change (toy_tail _) with (toy_program_of (toy_pda seeds p)) in HS.
  rewrite toy_program_of_pda in HS. apply andb_true_iff in HS as [Hc Hn].
  apply contains_spec in Hc. by apply negb_true_iff, bool_decide_eq_false in Hn.
Qed.

Lemma toy_platform_ok callee :
  (forall (cx : CallCtx) prog metas ix w w' p,
     callee cx prog metas ix w = Ok w' -> p ∈ cx_stack cx -> p <> prog ->
     @frame_but (toy_platform callee) (cx_signers cx) p w w') ->
  (forall (cx : CallCtx) prog metas ix w w',
     callee cx prog metas ix w = Ok w' -> w_clock w' = w_clock w) ->
  @PlatformOk (toy_platform callee).
Proof.
  intros Hf Hc. constructor; simpl.
  - apply toy_digest_length.
  - apply toy_digest_length.
  - apply toy_pda_inj.
  - done.
  - apply Hf.
  - apply Hc.
Qed.

(** Callees that only write the return data. *)
Definition answering (answer : Pubkey -> CpiIx -> option bytes)
    (cx : CallCtx) (prog : Pubkey) (metas : list AccountMeta) (ix : CpiIx) (w : World)
    : result Error World :=
  match answer prog ix with
  | Some data => Ok (set_return w (Some (prog, data)))
  | None => Err (EProgram 0)
  end.

Lemma answering_ok answer : @PlatformOk (toy_platform (answering answer)).
Proof.
  apply toy_platform_ok; unfold answering.
  - intros cx prog metas ix w w' p Hr _ _.
    destruct (answer prog ix); [|done]. injection Hr as <-. split_and!; try done.
    exists []. by rewrite app_nil_r.
  - intros cx prog metas ix w w' Hr. destruct (answer prog ix); [|done]. by injection Hr as <-.
Qed.

(** The platform on which no callee exists. *)
Definition silent_platform : Platform := toy_platform (answering (fun _ _ => None)).

Lemma silent_platform_ok : @PlatformOk silent_platform.
Proof. apply answering_ok. Qed.

(** The derived addresses of a program end with its identifier: a ledger
    without such a key has no account there. *)
Definition ends_with (p k : bytes) : bool := bool_decide (drop (length k - length p) k = p).

Lemma toy_no_accounts (p : Pubkey) (seeds : list bytes) (w : World) :
  forallb (fun x => negb (ends_with p (fst x))) (map_to_list (w_accts w)) = true ->
  w_accts w !! toy_pda seeds p = None.
Proof.
  intros Hb. destruct (w_accts w !! toy_pda seeds p) as [a|] eqn:E; [|done]. exfalso.
  apply elem_of_map_to_list, list_elem_of_In in E.
  pose proof (proj1 (forallb_forall _ _) Hb _ E) as Hn. apply negb_true_iff, bool_decide_eq_false in Hn.
  apply Hn. change (fst (toy_pda seeds p, a)) with (toy_pda seeds p).
  unfold toy_pda. rewrite app_comm_cons, app_assoc. by rewrite length_app, Nat.add_sub, drop_app_length.
Qed.
