(* ===== verification/Ics24.v ===== *)
(** * ICS-24 commitment paths and hashes

    [packages/solana-ibc-types/src/ics24.rs]: the provable paths of a packet's
    commitment, receipt and acknowledgement, and the hashes stored under them.
    The theorems show that a path determines what it is the path of, and that
    a commitment determines what it commits to, up to an explicit collision of
    the hash function. *)

From S2P Require Import Prelude Errors Types Runtime Toy.
From Stdlib Require Import ZArith Lia.
From Stdlib.Strings Require Import Byte.
From stdpp Require Import base strings sets list.

#[local] Open Scope Z_scope.

Section Ics24.
Context `{Platform}.

(** [solana_sha256_hasher::hashv]: the hash of the concatenation. *)
Definition sha256v (parts : list bytes) : bytes := sha256 (concat parts).

Definition packet_commitment_path (client_id : bytes) (sequence : Z) : bytes :=
  client_id ++ [x01] ++ u64_to_be_bytes sequence.

Definition packet_acknowledgement_commitment_path (client_id : bytes) (sequence : Z) : bytes :=
  client_id ++ [x03] ++ u64_to_be_bytes sequence.

Definition packet_receipt_commitment_path (client_id : bytes) (sequence : Z) : bytes :=
  client_id ++ [x02] ++ u64_to_be_bytes sequence.

Definition packet_commitment_key (client_id : bytes) (sequence : Z) : bytes :=
  keccak256 (packet_commitment_path client_id sequence).

Definition packet_acknowledgement_commitment_key (client_id : bytes) (sequence : Z) : bytes :=
  keccak256 (packet_acknowledgement_commitment_path client_id sequence).

Definition packet_receipt_commitment_key (client_id : bytes) (sequence : Z) : bytes :=
  keccak256 (packet_receipt_commitment_path client_id sequence).

Definition hash_payload (payload : Payload) : bytes :=
  sha256 (sha256 (pl_source_port payload) ++
          sha256 (pl_dest_port payload) ++
          sha256 (pl_version payload) ++
          sha256 (pl_encoding payload) ++
          sha256 (pl_value payload)).

Definition packet_commitment_bytes32 (packet : Packet) : bytes :=
  let app_bytes := concat (hash_payload <$> pkt_payloads packet) in
  let dest_client_hash := sha256 (pkt_dest_client packet) in
  let timeout_hash := sha256 (u64_to_be_bytes (pkt_timeout_timestamp packet)) in
  let app_hash := sha256 app_bytes in
  sha256v [[IBC_VERSION]; dest_client_hash; timeout_hash; app_hash].

Definition packet_acknowledgement_commitment_bytes32 (acks : list bytes)
    : result Ics24Err.Ics24Error bytes :=
  if bool_decide (acks = []) then Err Ics24Err.NoAcknowledgements
  else
    let ack_bytes := concat (sha256 <$> acks) in
    Ok (sha256v [[IBC_VERSION]; ack_bytes]).

Definition packet_receipt_commitment_bytes32 (packet : Packet)
    : result Ics24Err.Ics24Error bytes :=
  packet_bytes ← ok_or (borsh_packet packet) Ics24Err.PacketSerializationError;
  Ok (keccak256 packet_bytes).

Definition prefixed_path (merkle_prefix : list bytes) (path : bytes)
    : result Ics24Err.Ics24Error (list bytes) :=
  if bool_decide (merkle_prefix = []) then Err Ics24Err.EmptyMerklePrefix
  else
    let last_idx := (length merkle_prefix - 1)%nat in
    Ok (alter (fun e => e ++ path) last_idx merkle_prefix).

(** ** Collisions

    The strings that are hashed on the way to a commitment; two of them with
    the same digest, one from each side, are a collision that the computation
    itself exhibits. *)

Definition collides (h : bytes -> bytes) (xs ys : list bytes) : Prop :=
  Exists (fun x => Exists (fun y => x <> y /\ h x = h y) ys) xs.

Lemma inj_or_collides h xs ys :
  collides h xs ys \/ (forall x y, x ∈ xs -> y ∈ ys -> h x = h y -> x = y).
Proof.
  destruct (decide (collides h xs ys)) as [|Hn]; [by left|right].
  intros x y Hx Hy E. destruct (decide (x = y)); [done|]. exfalso. apply Hn.
  apply Exists_exists. exists x. split; [done|]. apply Exists_exists. by exists y.
Qed.

Definition payload_digests (p : Payload) : bytes :=
  sha256 (pl_source_port p) ++ sha256 (pl_dest_port p) ++ sha256 (pl_version p) ++
  sha256 (pl_encoding p) ++ sha256 (pl_value p).
Definition payload_preimages (p : Payload) : list bytes :=
  [payload_digests p; pl_source_port p; pl_dest_port p; pl_version p; pl_encoding p; pl_value p].
Definition commitment_preimages (p : Packet) : list bytes :=
  let app_bytes := concat (hash_payload <$> pkt_payloads p) in
  let timeout := u64_to_be_bytes (pkt_timeout_timestamp p) in
  [[IBC_VERSION] ++ sha256 (pkt_dest_client p) ++ sha256 timeout ++ sha256 app_bytes;
   pkt_dest_client p; timeout; app_bytes] ++ (pkt_payloads p ≫= payload_preimages).
Definition acknowledgement_preimages (acks : list bytes) : list bytes :=
  ([IBC_VERSION] ++ concat (sha256 <$> acks)) :: acks.

(** Splits an equation between concatenations of digests. *)
Ltac split_digests :=
  repeat match goal with
  | E : sha256 _ ++ _ = sha256 _ ++ _ |- _ =>
      apply app_inj_len_l in E as [? E]; [|by rewrite !sha256_length]
  end.

Lemma hash_payload_inj `{!PlatformOk} p q :
  (forall x y, x ∈ payload_preimages p -> y ∈ payload_preimages q ->
     sha256 x = sha256 y -> x = y) ->
  hash_payload p = hash_payload q -> p = q.
Proof.
  intros Hinj E. apply Hinj in E; [|left..]. unfold payload_preimages in Hinj.
  split_digests. destruct p, q; simpl in *. f_equal; apply Hinj; (done || set_solver).
Qed.

(** Concatenated digests of fixed length decode. *)
Lemma digests_inj {A} (f : A -> bytes) l k :
  (forall x, length (f x) = 32%nat) ->
  (forall x y, x ∈ l -> y ∈ k -> f x = f y -> x = y) ->
  concat (f <$> l) = concat (f <$> k) -> l = k.
Proof.
  intros Hlen. revert k. induction l as [|x l IH]; intros [|y k] Hf E; simpl in *.
  - done.
  - apply (f_equal length) in E. rewrite length_app, Hlen in E. simpl in E. lia.
  - apply (f_equal length) in E. rewrite length_app, Hlen in E. simpl in E. lia.
  - apply app_inj_len_l in E as [E1 E2]; [|by rewrite !Hlen].
    f_equal; [apply Hf; [left..|done]|]. apply IH; [|done]. intros. apply Hf; [by right..|done].
Qed.

(** ** Paths *)

Lemma path_inj c c' k k' s s' :
  is_u64 s -> is_u64 s' ->
  c ++ [k] ++ u64_to_be_bytes s = c' ++ [k'] ++ u64_to_be_bytes s' ->
  c = c' /\ k = k' /\ s = s'.
Proof.
  intros Hs Hs' E. rewrite !(assoc_L (++)) in E.
  apply app_inj_len_r in E as [E Eb]; [|by autorewrite with lengths].
  apply u64_to_be_bytes_inj in Eb; [|done..].
  apply app_inj_len_r in E as [-> [= ->]]; done.
Qed.

(** Two commitment paths agree only when they are the paths of the same
    kind of commitment, the same client and the same sequence. *)
Theorem ics24_paths_injective c c' s s' (Hs : is_u64 s) (Hs' : is_u64 s') :
  (packet_commitment_path c s = packet_commitment_path c' s' -> c = c' /\ s = s') /\
  (packet_receipt_commitment_path c s = packet_receipt_commitment_path c' s' -> c = c' /\ s = s') /\
  (packet_acknowledgement_commitment_path c s = packet_acknowledgement_commitment_path c' s' ->
     c = c' /\ s = s') /\
  packet_commitment_path c s <> packet_receipt_commitment_path c' s' /\
  packet_commitment_path c s <> packet_acknowledgement_commitment_path c' s' /\
  packet_receipt_commitment_path c s <> packet_acknowledgement_commitment_path c' s'.
Proof.
  unfold packet_commitment_path, packet_receipt_commitment_path,
    packet_acknowledgement_commitment_path.
  split_and!; intros E; apply path_inj in E; naive_solver.
Qed.

Lemma prefixed_path_Ok prefix path r :
  prefixed_path prefix path = Ok r <->
  exists init lst, prefix = init ++ [lst] /\ r = init ++ [lst ++ path].
Proof.
  unfold prefixed_path. case_bool_decide as Hp.
  { split; [done|]. intros (init & lst & E & _). by destruct init; subst. }
  destruct prefix as [|lst init _] using rev_ind; [done|]. split.
  - intros [= <-]. exists init, lst. split; [done|].
    rewrite length_app. simpl. rewrite Nat.add_sub.
    rewrite alter_app_r_alt by done. by rewrite Nat.sub_diag.
  - intros (i & l & E & ->). apply app_inj_2 in E as [-> [= ->]]; [|done].
    f_equal. rewrite length_app. simpl. rewrite Nat.add_sub.
    rewrite alter_app_r_alt by done. by rewrite Nat.sub_diag.
Qed.

(** What equal commitments have in common. *)
Lemma packet_commitment_inj `{!PlatformOk} p q :
  packet_commitment_bytes32 p = packet_commitment_bytes32 q ->
  (pkt_dest_client p = pkt_dest_client q /\
   u64_to_be_bytes (pkt_timeout_timestamp p) = u64_to_be_bytes (pkt_timeout_timestamp q) /\
   pkt_payloads p = pkt_payloads q) \/
  collides sha256 (commitment_preimages p) (commitment_preimages q).
Proof.
  destruct (inj_or_collides sha256 (commitment_preimages p) (commitment_preimages q))
    as [|Hinj]; [by right|]. unfold packet_commitment_bytes32, sha256v. simpl. rewrite !app_nil_r.
  intros E. left. apply Hinj in E; [|left..]. injection E as E. split_digests.
  unfold commitment_preimages in Hinj.
  split_and!; [apply Hinj; (done || set_solver)|apply Hinj; (done || set_solver)|].
  apply (digests_inj hash_payload); [intros; apply sha256_length| |apply Hinj; (done || set_solver)].
  intros x y Hx Hy. apply hash_payload_inj. intros u v Hu Hv. apply Hinj; apply elem_of_app; right;
    apply list_elem_of_bind; eauto.
Qed.

(** C38: a packet commitment binds the destination client, the timeout and
    every payload: packets with equal commitments agree on all three, or two
    different strings among those hashed for the two packets have the same
    SHA-256 digest. *)
Theorem packet_commitment_binding `{!PlatformOk} p q
    (Hp : is_u64 (pkt_timeout_timestamp p)) (Hq : is_u64 (pkt_timeout_timestamp q)) :
  packet_commitment_bytes32 p = packet_commitment_bytes32 q ->
  (pkt_dest_client p = pkt_dest_client q /\
   pkt_timeout_timestamp p = pkt_timeout_timestamp q /\
   pkt_payloads p = pkt_payloads q) \/
  collides sha256 (commitment_preimages p) (commitment_preimages q).
Proof.
  intros [(? & E & ?)|]%packet_commitment_inj; [left|by right]. apply u64_to_be_bytes_inj in E; done.
Qed.

Lemma acknowledgement_commitment_inj `{!PlatformOk} acks acks' h :
  packet_acknowledgement_commitment_bytes32 acks = Ok h ->
  packet_acknowledgement_commitment_bytes32 acks' = Ok h ->
  acks = acks' \/ collides sha256 (acknowledgement_preimages acks) (acknowledgement_preimages acks').
Proof.
  unfold packet_acknowledgement_commitment_bytes32, sha256v. simpl. rewrite !app_nil_r.
  do 2 (case_bool_decide; [done|]). intros [= <-] [= E]. symmetry in E.
  destruct (inj_or_collides sha256 (acknowledgement_preimages acks)
    (acknowledgement_preimages acks')) as [|Hinj]; [by right|left].
  unfold acknowledgement_preimages in Hinj. apply Hinj in E; [|left..]. injection E as E.
  apply (digests_inj sha256); [apply sha256_length| |done].
  intros x y Hx Hy. apply Hinj; by right.
Qed.

(** An acknowledgement commitment binds the list of acknowledgements, or
    two different strings among those hashed for the two lists have the same
    SHA-256 digest; committing to no acknowledgement is refused. *)
Theorem acknowledgement_commitment_binding `{!PlatformOk} :
  packet_acknowledgement_commitment_bytes32 [] = Err Ics24Err.NoAcknowledgements /\
  forall acks acks' h,
    packet_acknowledgement_commitment_bytes32 acks = Ok h ->
    packet_acknowledgement_commitment_bytes32 acks' = Ok h ->
    acks = acks' \/ collides sha256 (acknowledgement_preimages acks) (acknowledgement_preimages acks').
Proof. split; [done|]. intros acks acks' h. apply acknowledgement_commitment_inj. Qed.

End Ics24.

(** ** Witnesses *)

Lemma ics24_paths_injective_witness :
  packet_commitment_path (bs "07-tendermint-0") 5 <>
  packet_receipt_commitment_path (bs "07-tendermint-0") 5.
Proof.
  apply (ics24_paths_injective (bs "07-tendermint-0") (bs "07-tendermint-0") 5 5); done.
Defined.

Definition sample_payload (v : bytes) : Payload :=
  mkPayload (bs "transfer") (bs "transfer") (bs "ics20-1") (bs "json") v.
Definition sample_packet (timeout : Z) (v : bytes) : Packet :=
  mkPacket 1 (bs "solana-0") (bs "cosmos-0") timeout [sample_payload v].

(** On the concrete platform a trailing zero byte does not change the digest,
    and the theorem points at the collision. *)
Lemma packet_commitment_binding_witness :
  let p := sample_packet 1000 [x01] in let q := sample_packet 1000 [x01; x00] in
  collides (@sha256 silent_platform) (@commitment_preimages silent_platform p)
    (@commitment_preimages silent_platform q).
Proof.
  intros p q. destruct (@packet_commitment_binding silent_platform silent_platform_ok p q)
    as [(_ & _ & E)|C]; [done|done|by vm_compute|discriminate E|exact C].
Defined.

Lemma acknowledgement_commitment_binding_witness :
  @packet_acknowledgement_commitment_bytes32 silent_platform [] =
  Err Ics24Err.NoAcknowledgements.
Proof. exact (proj1 (@acknowledgement_commitment_binding silent_platform silent_platform_ok)). Defined.
