(* ===== verification/Cpi.v ===== *)
(** * Caller validation

    [packages/solana-ibc-types/src/cpi.rs]: which program called the running
    instruction.  The instructions sysvar only shows the outermost instruction
    of the call stack; the theorem shows that, with the stack-height tests,
    each check pins down the whole stack and so the direct caller. *)

From S2P Require Import Prelude Errors Types Runtime.
From Stdlib Require Import ZArith Lia.
From stdpp Require Import base list.

#[local] Open Scope Z_scope.

Definition TRANSACTION_LEVEL_STACK_HEIGHT : Z := 1.
Definition SINGLE_LEVEL_CPI_STACK_HEIGHT : Z := TRANSACTION_LEVEL_STACK_HEIGHT + 1.

(** [get_stack_height()]. *)
Definition checked_stack_height (cx : CallCtx) : Z := Z.of_nat (length (cx_stack cx)).

Definition is_cpi (cx : CallCtx) : bool :=
  Z.ltb TRANSACTION_LEVEL_STACK_HEIGHT (checked_stack_height cx).

Definition reject_nested_cpi (cx : CallCtx) : result CpiErr.CpiValidationError unit :=
  if Z.ltb SINGLE_LEVEL_CPI_STACK_HEIGHT (checked_stack_height cx)
  then Err CpiErr.NestedCpiNotAllowed
  else Ok ().

Definition reject_direct_calls (cx : CallCtx) : result CpiErr.CpiValidationError unit :=
  if negb (is_cpi cx) then Err CpiErr.DirectCallNotAllowed else Ok ().

Definition validate_instruction_sysvar (instruction_sysvar : Pubkey)
    : result CpiErr.CpiValidationError unit :=
  if negb (bool_decide (instruction_sysvar = INSTRUCTIONS_SYSVAR_ID))
  then Err CpiErr.InvalidSysvar
  else Ok ().

(** [get_instruction_relative(0, ..)?.program_id]: the outermost program. *)
Definition current_ix_program_id (cx : CallCtx) : result CpiErr.CpiValidationError Pubkey :=
  ok_or (head (cx_stack cx)) CpiErr.InvalidSysvar.

Definition validate_cpi_caller (cx : CallCtx)
    (instruction_sysvar authorized_program self_program_id : Pubkey)
    : result CpiErr.CpiValidationError unit :=
  _ ← reject_nested_cpi cx;
  _ ← validate_instruction_sysvar instruction_sysvar;
  program_id ← current_ix_program_id cx;
  if bool_decide (program_id = self_program_id) then Err CpiErr.DirectCallNotAllowed
  else if negb (bool_decide (program_id = authorized_program)) then Err CpiErr.UnauthorizedCaller
  else Ok ().

Definition require_direct_call_or_whitelisted_caller (cx : CallCtx)
    (instruction_sysvar : Pubkey) (whitelisted_programs : list Pubkey)
    (self_program_id : Pubkey) : result CpiErr.CpiValidationError unit :=
  _ ← reject_nested_cpi cx;
  _ ← validate_instruction_sysvar instruction_sysvar;
  program_id ← current_ix_program_id cx;
  if bool_decide (program_id = self_program_id) then Ok ()
  else if contains program_id whitelisted_programs then Ok ()
  else Err CpiErr.UnauthorizedCaller.

Definition reject_cpi (cx : CallCtx) (instruction_sysvar self_program_id : Pubkey)
    : result CpiErr.CpiValidationError unit :=
  if is_cpi cx then Err CpiErr.UnauthorizedCaller
  else require_direct_call_or_whitelisted_caller cx instruction_sysvar [] self_program_id.

(** ** The call stacks each check accepts *)

Lemma reject_nested_cpi_Ok cx u :
  reject_nested_cpi cx = Ok u <-> (length (cx_stack cx) <= 2)%nat.
Proof.
  unfold reject_nested_cpi, checked_stack_height, SINGLE_LEVEL_CPI_STACK_HEIGHT,
    TRANSACTION_LEVEL_STACK_HEIGHT. destruct u.
  destruct (Z.ltb_spec (1 + 1) (Z.of_nat (length (cx_stack cx)))); split; (done || lia).
Qed.

Lemma validate_instruction_sysvar_Ok k u :
  validate_instruction_sysvar k = Ok u <-> k = INSTRUCTIONS_SYSVAR_ID.
Proof.
  unfold validate_instruction_sysvar. destruct u. case_bool_decide; naive_solver.
Qed.

(** A stack of at most two programs that ends with [self]. *)
Lemma short_stack (st : list Pubkey) self p :
  (length st <= 2)%nat -> last st = Some self -> head st = Some p ->
  (st = [self] /\ p = self) \/ st = [p; self].
Proof. destruct st as [|x [|y [|]]]; simpl; intros; simplify_eq; (lia || auto). Qed.

Lemma direct_or_whitelisted_Ok cx sysvar wl self u :
  last (cx_stack cx) = Some self ->
  require_direct_call_or_whitelisted_caller cx sysvar wl self = Ok u <->
  sysvar = INSTRUCTIONS_SYSVAR_ID /\
  (cx_stack cx = [self] \/ exists p, cx_stack cx = [p; self] /\ (p = self \/ p ∈ wl)).
Proof.
  intros Hself. unfold require_direct_call_or_whitelisted_caller, current_ix_program_id.
  rewrite !result_bind_ok. setoid_rewrite result_bind_ok. setoid_rewrite result_bind_ok.
  setoid_rewrite reject_nested_cpi_Ok. setoid_rewrite validate_instruction_sysvar_Ok.
  setoid_rewrite ok_or_ok. destruct u. split.
  - intros (? & Hlen & ? & Hsys & p & Hh & Hr). split; [done|].
    destruct (short_stack _ _ _ Hlen Hself Hh) as [[-> ->]|E]; [by left|].
    right. exists p. split; [done|]. revert Hr. case_bool_decide; [by left|].
    destruct (contains p wl) eqn:Hc; [|done]. apply contains_spec in Hc. by right.
  - intros (-> & [E|(p & E & Hp)]); rewrite E; simpl; exists (); (split; [lia|]); exists ();
      (split; [done|]).
    + exists self. by rewrite bool_decide_eq_true_2.
    + exists p. split; [done|]. case_bool_decide; [done|].
      destruct Hp as [|Hp]; [done|]. apply contains_spec in Hp. by rewrite Hp.
Qed.

Lemma is_cpi_false cx : is_cpi cx = false <-> (length (cx_stack cx) <= 1)%nat.
Proof.
  unfold is_cpi, checked_stack_height, TRANSACTION_LEVEL_STACK_HEIGHT.
  rewrite Z.ltb_ge. lia.
Qed.

Lemma reject_cpi_Ok cx sysvar self u :
  last (cx_stack cx) = Some self ->
  reject_cpi cx sysvar self = Ok u <->
  sysvar = INSTRUCTIONS_SYSVAR_ID /\ cx_stack cx = [self].
Proof.
  intros Hself. unfold reject_cpi. destruct (is_cpi cx) eqn:Hc.
  - split; [done|]. intros [_ E].
    assert (is_cpi cx = false) by (apply is_cpi_false; rewrite E; simpl; lia). congruence.
  - rewrite direct_or_whitelisted_Ok by done. apply is_cpi_false in Hc.
    split; intros [-> Hst]; split; auto.
    destruct Hst as [|(p & E & _)]; [done|]. rewrite E in Hc. simpl in Hc. lia.
Qed.

Lemma validate_cpi_caller_Ok cx sysvar authorized self u :
  last (cx_stack cx) = Some self ->
  validate_cpi_caller cx sysvar authorized self = Ok u <->
  sysvar = INSTRUCTIONS_SYSVAR_ID /\ authorized <> self /\ cx_stack cx = [authorized; self].
Proof.
  intros Hself. destruct u. unfold validate_cpi_caller, current_ix_program_id.
  rewrite !result_bind_ok. setoid_rewrite result_bind_ok. setoid_rewrite result_bind_ok.
  setoid_rewrite reject_nested_cpi_Ok. setoid_rewrite validate_instruction_sysvar_Ok.
  setoid_rewrite ok_or_ok. split.
  - intros (? & Hlen & ? & Hsys & p & Hh & Hr). revert Hr.
    case_bool_decide as Hps; [done|]. case_bool_decide as Hpa; [|done]. intros _. subst p.
    destruct (short_stack _ _ _ Hlen Hself Hh) as [[? ?]|E]; done.
  - intros (-> & Hne & E). rewrite E. simpl. exists (). split; [lia|]. exists (). split; [done|].
    exists authorized. split; [done|].
    by rewrite bool_decide_eq_false_2, bool_decide_eq_true_2.
Qed.

(** In a program whose frame is on top of the call stack, each caller
    check accepts exactly the stacks it is meant for: [validate_cpi_caller] a
    direct call from the authorized program, the whitelist check a top-level
    call or a direct call from a whitelisted program (or the program itself),
    and [reject_cpi] a top-level call. *)
Theorem caller_checks_identify_caller cx sysvar self (Hself : last (cx_stack cx) = Some self) :
  (forall authorized, validate_cpi_caller cx sysvar authorized self = Ok () <->
     sysvar = INSTRUCTIONS_SYSVAR_ID /\ authorized <> self /\ cx_stack cx = [authorized; self]) /\
  (forall wl, require_direct_call_or_whitelisted_caller cx sysvar wl self = Ok () <->
     sysvar = INSTRUCTIONS_SYSVAR_ID /\
     (cx_stack cx = [self] \/ exists p, cx_stack cx = [p; self] /\ (p = self \/ p ∈ wl))) /\
  (reject_cpi cx sysvar self = Ok () <->
     sysvar = INSTRUCTIONS_SYSVAR_ID /\ cx_stack cx = [self]).
Proof.
  split_and!; intros; [by apply validate_cpi_caller_Ok|by apply direct_or_whitelisted_Ok|by apply reject_cpi_Ok].
Qed.

Lemma caller_checks_identify_caller_witness :
  reject_cpi (mkCallCtx [ROUTER_ID] ∅ ∅) INSTRUCTIONS_SYSVAR_ID ROUTER_ID = Ok ().
Proof.
  apply (caller_checks_identify_caller (mkCallCtx [ROUTER_ID] ∅ ∅) INSTRUCTIONS_SYSVAR_ID ROUTER_ID);
    [reflexivity|]. split; reflexivity.
Defined.
