(* ===== verification/AccessManager.v ===== *)
(** * The access manager

    [programs/access-manager]: the registry of roles shared by the Solana
    programs ([state.rs]), the authorization helpers the other programs call
    ([helpers/role_checks.rs]), the two-step migration of a program to another
    access manager ([helpers/access_manager_transfer.rs]) and the program's
    instructions.  The theorems: the registry is always well formed and never
    loses its last admin, roles behave as a set of (role, member) pairs, every
    change of the registry is authorized, and both two-step handovers only
    complete with the consent of both sides. *)

From S2P Require Import Prelude Errors Types Runtime Cpi.
From Stdlib Require Import ZArith Lia.
From stdpp Require Import base strings gmap list.

#[local] Open Scope Z_scope.

(** ** [state.rs] *)

Definition AccessManager_SEED : bytes := bs "access_manager".
Definition UPGRADE_AUTHORITY_SEED : bytes := bs "upgrade_authority".
Definition MAX_PENDING_TRANSFERS : nat := 16.

(** [AccessManagerState::new]. *)
Definition AccessManagerState_new (access_manager : Pubkey) : AccessManagerState :=
  mkAccessManagerState access_manager None.

Definition has_role_id (role_id : Z) (r : RoleData) : bool := Z.eqb (rd_role_id r) role_id.

Definition has_role (am : AccessManager) (role_id : Z) (account : Pubkey) : bool :=
  if Z.eqb role_id PUBLIC_ROLE then true
  else match find (has_role_id role_id) (am_roles am) with
       | Some r => contains account (rd_members r)
       | None => false
       end.

Definition set_roles (am : AccessManager) (roles : list RoleData) : AccessManager :=
  mkAccessManager roles (am_whitelisted_programs am) (am_pending_authority_transfers am).
Definition set_pending (am : AccessManager) (p : list PendingAuthorityTransfer) : AccessManager :=
  mkAccessManager (am_roles am) (am_whitelisted_programs am) p.

(** [AccessManager::grant_role]. *)
Definition AccessManager_grant_role (am : AccessManager) (role_id : Z) (account : Pubkey)
    : AccessManager :=
  match position (has_role_id role_id) (am_roles am) with
  | Some i =>
      set_roles am (alter (fun role =>
        if contains account (rd_members role) then role
        else mkRoleData (rd_role_id role) (rd_members role ++ [account])) i (am_roles am))
  | None => set_roles am (am_roles am ++ [mkRoleData role_id [account]])
  end.

Definition is_last_admin (am : AccessManager) (account : Pubkey) : bool :=
  match find (has_role_id ADMIN_ROLE) (am_roles am) with
  | Some r => bool_decide (length (rd_members r) = 1%nat) && contains account (rd_members r)
  | None => false
  end.

(** [AccessManager::revoke_role]. *)
Definition AccessManager_revoke_role (am : AccessManager) (role_id : Z) (account : Pubkey)
    : result Error AccessManager :=
  if Z.eqb role_id ADMIN_ROLE && is_last_admin am account
  then Err (EAccessManager AccessManagerErr.CannotRemoveLastAdmin)
  else
    i ← ok_or (position (has_role_id role_id) (am_roles am))
          (EAccessManager AccessManagerErr.RoleNotGranted);
    role ← ok_or (am_roles am !! i) (EAccessManager AccessManagerErr.RoleNotGranted);
    pos ← ok_or (position (fun m => bool_decide (m = account)) (rd_members role))
          (EAccessManager AccessManagerErr.RoleNotGranted);
    Ok (set_roles am (<[i := mkRoleData (rd_role_id role) (swap_remove pos (rd_members role))]>
                        (am_roles am))).

Section AccessManager.
Context `{Platform}.

(** [AccessManager::upgrade_authority_pda]. *)
Definition upgrade_authority_pda (target_program program_id : Pubkey) : Pubkey :=
  pda_key [UPGRADE_AUTHORITY_SEED; target_program] program_id.

(** ** [helpers/role_checks.rs] *)

Definition deserialize_access_manager (account : Pubkey) : M AccessManager :=
  try_deserialize as_AccessManager account.

Definition require_role_with_whitelist_inner (cx : CallCtx) (am : AccessManager) (role_id : Z)
    (signer_account instructions_sysvar program_id : Pubkey) : M unit :=
  _ ← require (bool_decide (signer_account ∈ cx_signers cx)) AccessManagerErr.SignerRequired;
  _ ← lift (map_err (fun _ => EAccessManager AccessManagerErr.CpiNotAllowed)
        (require_direct_call_or_whitelisted_caller cx instructions_sysvar
           (am_whitelisted_programs am) program_id));
  require (has_role am role_id signer_account) AccessManagerErr.Unauthorized.

Definition require_admin (cx : CallCtx)
    (access_manager_account signer_account instructions_sysvar program_id : Pubkey) : M unit :=
  am ← deserialize_access_manager access_manager_account;
  require_role_with_whitelist_inner cx am ADMIN_ROLE signer_account instructions_sysvar program_id.

Definition require_role (cx : CallCtx) (access_manager_account : Pubkey) (role_id : Z)
    (signer_account instructions_sysvar program_id : Pubkey) : M unit :=
  _ ← require (bool_decide (signer_account ∈ cx_signers cx)) AccessManagerErr.SignerRequired;
  _ ← lift (map_err (fun _ => EAccessManager AccessManagerErr.CpiNotAllowed)
        (reject_cpi cx instructions_sysvar program_id));
  am ← deserialize_access_manager access_manager_account;
  require (has_role am role_id signer_account) AccessManagerErr.Unauthorized.

Definition require_role_with_whitelist (cx : CallCtx) (access_manager_account : Pubkey)
    (role_id : Z) (signer_account instructions_sysvar program_id : Pubkey) : M unit :=
  am ← deserialize_access_manager access_manager_account;
  require_role_with_whitelist_inner cx am role_id signer_account instructions_sysvar program_id.

(** ** [helpers/access_manager_transfer.rs]

    [program_id] is the program that embeds the state: it is checked against
    the caller and its events are logged under its name. *)

Definition propose_transfer (cx : CallCtx) (self : AccessManagerState)
    (new_access_manager access_manager_account admin instructions_sysvar program_id : Pubkey)
    : M AccessManagerState :=
  _ ← require_admin cx access_manager_account admin instructions_sysvar program_id;
  _ ← require (negb (bool_decide (new_access_manager = Pubkey_default)))
        AccessManagerErr.InvalidProposedAccessManager;
  _ ← require (negb (bool_decide (new_access_manager = ams_access_manager self)))
        AccessManagerErr.AccessManagerSelfTransfer;
  _ ← require (bool_decide (ams_pending_access_manager self = None))
        AccessManagerErr.PendingAccessManagerTransferAlreadyExists;
  _ ← emit program_id
        (AccessManagerTransferProposed (ams_access_manager self) new_access_manager);
  mret (mkAccessManagerState (ams_access_manager self) (Some new_access_manager)).

Definition accept_transfer (cx : CallCtx) (self : AccessManagerState)
    (new_access_manager_account admin instructions_sysvar program_id : Pubkey)
    : M AccessManagerState :=
  _ ← require_admin cx new_access_manager_account admin instructions_sysvar program_id;
  pending_am_program ← lift (ok_or (ams_pending_access_manager self)
        (EAccessManager AccessManagerErr.NoPendingAccessManagerTransfer));
  _ ← emit program_id
        (AccessManagerTransferAccepted (ams_access_manager self) pending_am_program);
  mret (mkAccessManagerState pending_am_program None).

Definition cancel_transfer (cx : CallCtx) (self : AccessManagerState)
    (access_manager_account admin instructions_sysvar program_id : Pubkey)
    : M AccessManagerState :=
  _ ← require_admin cx access_manager_account admin instructions_sysvar program_id;
  pending ← lift (ok_or (ams_pending_access_manager self)
        (EAccessManager AccessManagerErr.NoPendingAccessManagerTransfer));
  _ ← emit program_id (AccessManagerTransferCancelled (ams_access_manager self) pending);
  mret (mkAccessManagerState (ams_access_manager self) None).

(** ** Instructions *)

(** [#[derive(Accounts)]] of the admin instructions: the registry (mutable)
    and the signing admin. *)
Record AdminAccounts := mkAdminAccounts {
  aa_access_manager : Pubkey;
  aa_admin : Pubkey;
  aa_instructions_sysvar : Pubkey }.

Definition admin_accounts (cx : CallCtx) (acc : AdminAccounts) : M AccessManager :=
  am ← load_account ACCESS_MANAGER_ID as_AccessManager (aa_access_manager acc);
  _ ← signer cx (aa_admin acc);
  _ ← seeds_are (aa_access_manager acc) [AccessManager_SEED] ACCESS_MANAGER_ID;
  _ ← writable cx (aa_access_manager acc);
  _ ← instructions_sysvar (aa_instructions_sysvar acc);
  mret am.

Definition grant_role (cx : CallCtx) (acc : AdminAccounts) (role_id : Z) (account : Pubkey) : M unit :=
  am ← admin_accounts cx acc;
  _ ← require_admin cx (aa_access_manager acc) (aa_admin acc) (aa_instructions_sysvar acc)
        ACCESS_MANAGER_ID;
  _ ← require (negb (bool_decide (account = Pubkey_default))) AccessManagerErr.ZeroAccount;
  _ ← require (negb (Z.eqb role_id PUBLIC_ROLE)) AccessManagerErr.InvalidRoleId;
  let am' := AccessManager_grant_role am role_id account in
  _ ← emit ACCESS_MANAGER_ID (RoleGrantedEvent role_id account (aa_admin acc));
  store_account ACCESS_MANAGER_ID (aa_access_manager acc) (DAccessManager am').

Definition revoke_role (cx : CallCtx) (acc : AdminAccounts) (role_id : Z) (account : Pubkey) : M unit :=
  am ← admin_accounts cx acc;
  _ ← require_admin cx (aa_access_manager acc) (aa_admin acc) (aa_instructions_sysvar acc)
        ACCESS_MANAGER_ID;
  _ ← require (negb (Z.eqb role_id PUBLIC_ROLE)) AccessManagerErr.InvalidRoleId;
  am' ← lift (AccessManager_revoke_role am role_id account);
  _ ← emit ACCESS_MANAGER_ID (RoleRevokedEvent role_id account (aa_admin acc));
  store_account ACCESS_MANAGER_ID (aa_access_manager acc) (DAccessManager am').

(** [From<CpiValidationError> for AccessManagerError]. *)
Definition AccessManagerError_from (e : CpiErr.CpiValidationError) : AccessManagerErr.AccessManagerError :=
  match e with
  | CpiErr.InvalidSysvar => AccessManagerErr.InvalidSysenv
  | CpiErr.UnauthorizedCaller
  | CpiErr.DirectCallNotAllowed
  | CpiErr.NestedCpiNotAllowed => AccessManagerErr.CpiNotAllowed
  end.

(** Here [aa_admin] is the caller who renounces. *)
Definition renounce_role (cx : CallCtx) (acc : AdminAccounts) (role_id : Z) : M unit :=
  am ← admin_accounts cx acc;
  _ ← lift (map_err (fun e => EAccessManager (AccessManagerError_from e))
        (require_direct_call_or_whitelisted_caller cx (aa_instructions_sysvar acc)
           (am_whitelisted_programs am) ACCESS_MANAGER_ID));
  _ ← require (negb (Z.eqb role_id PUBLIC_ROLE)) AccessManagerErr.InvalidRoleId;
  _ ← require (has_role am role_id (aa_admin acc)) AccessManagerErr.Unauthorized;
  am' ← lift (AccessManager_revoke_role am role_id (aa_admin acc));
  _ ← emit ACCESS_MANAGER_ID (RoleRevokedEvent role_id (aa_admin acc) (aa_admin acc));
  store_account ACCESS_MANAGER_ID (aa_access_manager acc) (DAccessManager am').

Definition set_whitelisted_programs (cx : CallCtx) (acc : AdminAccounts)
    (whitelisted_programs : list Pubkey) : M unit :=
  am ← admin_accounts cx acc;
  _ ← require_admin cx (aa_access_manager acc) (aa_admin acc) (aa_instructions_sysvar acc)
        ACCESS_MANAGER_ID;
  let deduped := dedup (sort_bytes whitelisted_programs) in
  _ ← require (bool_decide (length deduped = length whitelisted_programs))
        AccessManagerErr.DuplicateWhitelistedProgram;
  let am' := mkAccessManager (am_roles am) whitelisted_programs (am_pending_authority_transfers am) in
  _ ← emit ACCESS_MANAGER_ID
        (WhitelistedProgramsUpdatedEvent (am_whitelisted_programs am) whitelisted_programs (aa_admin acc));
  store_account ACCESS_MANAGER_ID (aa_access_manager acc) (DAccessManager am').

Definition is_transfer_of (target_program : Pubkey) (p : PendingAuthorityTransfer) : bool :=
  bool_decide (pat_target_program p = target_program).

Definition propose_upgrade_authority_transfer (cx : CallCtx) (acc : AdminAccounts)
    (target_program new_authority : Pubkey) : M unit :=
  am ← admin_accounts cx acc;
  _ ← require_admin cx (aa_access_manager acc) (aa_admin acc) (aa_instructions_sysvar acc)
        ACCESS_MANAGER_ID;
  _ ← require (negb (bool_decide (new_authority = Pubkey_default))) AccessManagerErr.ZeroAccount;
  pda ← derive_pda [UPGRADE_AUTHORITY_SEED; target_program] ACCESS_MANAGER_ID;
  _ ← require (negb (bool_decide (new_authority = pda))) AccessManagerErr.SelfTransfer;
  _ ← require (length (am_pending_authority_transfers am) <? MAX_PENDING_TRANSFERS)%nat
        AccessManagerErr.TooManyPendingTransfers;
  _ ← require (negb (existsb (is_transfer_of target_program) (am_pending_authority_transfers am)))
        AccessManagerErr.PendingTransferAlreadyExists;
  let am' := set_pending am (am_pending_authority_transfers am ++
               [mkPendingAuthorityTransfer target_program new_authority]) in
  _ ← emit ACCESS_MANAGER_ID
        (UpgradeAuthorityTransferProposedEvent target_program pda new_authority (aa_admin acc));
  store_account ACCESS_MANAGER_ID (aa_access_manager acc) (DAccessManager am').

Definition cancel_upgrade_authority_transfer (cx : CallCtx) (acc : AdminAccounts)
    (target_program : Pubkey) : M unit :=
  am ← admin_accounts cx acc;
  _ ← require_admin cx (aa_access_manager acc) (aa_admin acc) (aa_instructions_sysvar acc)
        ACCESS_MANAGER_ID;
  let pending := am_pending_authority_transfers am in
  idx ← lift (ok_or (position (is_transfer_of target_program) pending)
        (EAccessManager AccessManagerErr.NoPendingTransfer));
  cancelled ← lift (ok_or (pending !! idx) (EAnchor AnchorErr.Panicked));
  let am' := set_pending am (swap_remove idx pending) in
  _ ← emit ACCESS_MANAGER_ID
        (UpgradeAuthorityTransferCancelledEvent target_program (pat_new_authority cancelled) (aa_admin acc));
  store_account ACCESS_MANAGER_ID (aa_access_manager acc) (DAccessManager am').

(** [AcceptUpgradeAuthorityTransfer]. *)
Record AcceptAuthorityAccounts := mkAcceptAuthorityAccounts {
  ac_access_manager : Pubkey;
  ac_program_data : Pubkey;
  ac_upgrade_authority : Pubkey;
  ac_new_authority : Pubkey;
  ac_bpf_loader_upgradeable : Pubkey }.

Definition accept_upgrade_authority_transfer (cx : CallCtx) (acc : AcceptAuthorityAccounts)
    (target_program : Pubkey) : M unit :=
  am ← load_account ACCESS_MANAGER_ID as_AccessManager (ac_access_manager acc);
  _ ← signer cx (ac_new_authority acc);
  _ ← seeds_are (ac_access_manager acc) [AccessManager_SEED] ACCESS_MANAGER_ID;
  _ ← writable cx (ac_access_manager acc);
  _ ← seeds_are (ac_program_data acc) [target_program] BPF_LOADER_UPGRADEABLE_ID;
  _ ← writable cx (ac_program_data acc);
  _ ← seeds_are (ac_upgrade_authority acc) [UPGRADE_AUTHORITY_SEED; target_program] ACCESS_MANAGER_ID;
  _ ← address_is (ac_bpf_loader_upgradeable acc) BPF_LOADER_UPGRADEABLE_ID AnchorErr.ConstraintAddress;
  let pending := am_pending_authority_transfers am in
  idx ← lift (ok_or (position (is_transfer_of target_program) pending)
        (EAccessManager AccessManagerErr.NoPendingTransfer));
  transfer ← lift (ok_or (pending !! idx) (EAnchor AnchorErr.Panicked));
  _ ← require (bool_decide (pat_new_authority transfer = ac_new_authority acc))
        AccessManagerErr.AuthorityMismatch;
  _ ← invoke_signed cx ACCESS_MANAGER_ID BPF_LOADER_UPGRADEABLE_ID
        [mkAccountMeta (ac_program_data acc) false true;
         mkAccountMeta (ac_upgrade_authority acc) true false;
         mkAccountMeta (ac_new_authority acc) false false]
        (IxLoaderSetUpgradeAuthority target_program (ac_upgrade_authority acc) (ac_new_authority acc))
        [ac_upgrade_authority acc];
  let am' := set_pending am (swap_remove idx pending) in
  _ ← emit ACCESS_MANAGER_ID
        (UpgradeAuthorityTransferredEvent target_program (ac_upgrade_authority acc)
           (ac_new_authority acc) (ac_new_authority acc));
  store_account ACCESS_MANAGER_ID (ac_access_manager acc) (DAccessManager am').

(** [ClaimUpgradeAuthority] (the registry is read only). *)
Record ClaimAccounts := mkClaimAccounts {
  ca_new_upgrade_authority : Pubkey;
  ca_source_access_manager_state : Pubkey;
  ca_target_program_data : Pubkey;
  ca_source_upgrade_authority : Pubkey;
  ca_source_access_manager_program : Pubkey;
  ca_bpf_loader_upgradeable : Pubkey;
  ca_am_state : Pubkey;
  ca_admin : Pubkey;
  ca_instructions_sysvar : Pubkey }.

(** [cpi::accept_upgrade_authority_transfer] and its account metas. *)
Definition accept_metas (acc : ClaimAccounts) : list AccountMeta :=
  [mkAccountMeta (ca_source_access_manager_state acc) false true;
   mkAccountMeta (ca_target_program_data acc) false true;
   mkAccountMeta (ca_source_upgrade_authority acc) false false;
   mkAccountMeta (ca_new_upgrade_authority acc) true false;
   mkAccountMeta (ca_bpf_loader_upgradeable acc) false false].

Definition claim_upgrade_authority (cx : CallCtx) (acc : ClaimAccounts) (target_program : Pubkey)
    : M unit :=
  _ ← load_account ACCESS_MANAGER_ID as_AccessManager (ca_am_state acc);
  _ ← signer cx (ca_admin acc);
  _ ← seeds_are (ca_new_upgrade_authority acc) [UPGRADE_AUTHORITY_SEED; target_program] ACCESS_MANAGER_ID;
  _ ← seeds_are (ca_source_access_manager_state acc) [AccessManager_SEED]
        (ca_source_access_manager_program acc);
  _ ← writable cx (ca_source_access_manager_state acc);
  _ ← seeds_are (ca_target_program_data acc) [target_program] BPF_LOADER_UPGRADEABLE_ID;
  _ ← writable cx (ca_target_program_data acc);
  _ ← seeds_are (ca_source_upgrade_authority acc) [UPGRADE_AUTHORITY_SEED; target_program]
        (ca_source_access_manager_program acc);
  w ← get_world;
  _ ← require (is_executable w (ca_source_access_manager_program acc)) AnchorErr.ConstraintExecutable;
  _ ← address_is (ca_bpf_loader_upgradeable acc) BPF_LOADER_UPGRADEABLE_ID AnchorErr.ConstraintAddress;
  _ ← seeds_are (ca_am_state acc) [AccessManager_SEED] ACCESS_MANAGER_ID;
  _ ← instructions_sysvar (ca_instructions_sysvar acc);
  _ ← require_admin cx (ca_am_state acc) (ca_admin acc) (ca_instructions_sysvar acc) ACCESS_MANAGER_ID;
  _ ← invoke_signed cx ACCESS_MANAGER_ID (ca_source_access_manager_program acc) (accept_metas acc)
        (IxAcceptUpgradeAuthorityTransfer target_program) [ca_new_upgrade_authority acc];
  emit ACCESS_MANAGER_ID
    (UpgradeAuthorityClaimedEvent target_program (ca_source_access_manager_program acc)
       (ca_new_upgrade_authority acc)).

(** [UpgradeProgram] (the registry is read only). *)
Record UpgradeAccounts := mkUpgradeAccounts {
  ua_access_manager : Pubkey;
  ua_program : Pubkey;
  ua_program_data : Pubkey;
  ua_buffer : Pubkey;
  ua_upgrade_authority : Pubkey;
  ua_spill : Pubkey;
  ua_authority : Pubkey;
  ua_instructions_sysvar : Pubkey;
  ua_bpf_loader_upgradeable : Pubkey;
  ua_rent : Pubkey;
  ua_clock : Pubkey }.

Definition upgrade_program (cx : CallCtx) (acc : UpgradeAccounts) (target_program : Pubkey) : M unit :=
  _ ← load_account ACCESS_MANAGER_ID as_AccessManager (ua_access_manager acc);
  _ ← signer cx (ua_authority acc);
  _ ← address_is (ua_rent acc) RENT_SYSVAR_ID AnchorErr.AccountSysvarMismatch;
  _ ← address_is (ua_clock acc) CLOCK_SYSVAR_ID AnchorErr.AccountSysvarMismatch;
  _ ← seeds_are (ua_access_manager acc) [AccessManager_SEED] ACCESS_MANAGER_ID;
  _ ← writable cx (ua_program acc);
  _ ← require (bool_decide (ua_program acc = target_program)) AccessManagerErr.ProgramMismatch;
  _ ← owner_is (ua_program acc) BPF_LOADER_UPGRADEABLE_ID AnchorErr.ConstraintOwner;
  w ← get_world;
  _ ← require (is_executable w (ua_program acc)) AnchorErr.ConstraintExecutable;
  _ ← seeds_are (ua_program_data acc) [ua_program acc] BPF_LOADER_UPGRADEABLE_ID;
  _ ← writable cx (ua_program_data acc);
  _ ← writable cx (ua_buffer acc);
  _ ← owner_is (ua_buffer acc) BPF_LOADER_UPGRADEABLE_ID AnchorErr.ConstraintOwner;
  _ ← seeds_are (ua_upgrade_authority acc) [UPGRADE_AUTHORITY_SEED; target_program] ACCESS_MANAGER_ID;
  _ ← writable cx (ua_upgrade_authority acc);
  _ ← writable cx (ua_spill acc);
  _ ← instructions_sysvar (ua_instructions_sysvar acc);
  _ ← address_is (ua_bpf_loader_upgradeable acc) BPF_LOADER_UPGRADEABLE_ID AnchorErr.ConstraintAddress;
  _ ← require_admin cx (ua_access_manager acc) (ua_authority acc) (ua_instructions_sysvar acc)
        ACCESS_MANAGER_ID;
  _ ← invoke_signed cx ACCESS_MANAGER_ID BPF_LOADER_UPGRADEABLE_ID
        [mkAccountMeta (ua_program_data acc) false true;
         mkAccountMeta (ua_program acc) false true;
         mkAccountMeta (ua_buffer acc) false true;
         mkAccountMeta (ua_spill acc) false true;
         mkAccountMeta (ua_rent acc) false false;
         mkAccountMeta (ua_clock acc) false false;
         mkAccountMeta (ua_upgrade_authority acc) true false]
        (IxLoaderUpgrade (ua_program acc) (ua_buffer acc) (ua_upgrade_authority acc) (ua_spill acc))
        [ua_upgrade_authority acc];
  now ← clock_unix_timestamp;
  emit ACCESS_MANAGER_ID (ProgramUpgradedEvent target_program (ua_authority acc) now).

(** [Initialize]. *)
Record AmInitializeAccounts := mkAmInitializeAccounts {
  ai_access_manager : Pubkey;
  ai_payer : Pubkey;
  ai_system_program : Pubkey;
  ai_instructions_sysvar : Pubkey;
  ai_program_data : Pubkey;
  ai_authority : Pubkey }.

Definition am_initialize (cx : CallCtx) (acc : AmInitializeAccounts) (admin : Pubkey) : M unit :=
  _ ← signer cx (ai_payer acc);
  _ ← system_program (ai_system_program acc);
  program_data ← load_account BPF_LOADER_UPGRADEABLE_ID as_ProgramData (ai_program_data acc);
  _ ← signer cx (ai_authority acc);
  _ ← seeds_are (ai_access_manager acc) [AccessManager_SEED] ACCESS_MANAGER_ID;
  _ ← init_account cx ACCESS_MANAGER_ID (ai_access_manager acc) (ai_payer acc)
        (8 + AccessManager_INIT_SPACE);
  _ ← writable cx (ai_payer acc);
  _ ← instructions_sysvar (ai_instructions_sysvar acc);
  _ ← seeds_are (ai_program_data acc) [ACCESS_MANAGER_ID] BPF_LOADER_UPGRADEABLE_ID;
  _ ← require (bool_decide (program_data = Some (ai_authority acc)))
        AccessManagerErr.UnauthorizedDeployer;
  _ ← lift (map_err (fun e => EAccessManager (AccessManagerError_from e))
        (reject_cpi cx (ai_instructions_sysvar acc) ACCESS_MANAGER_ID));
  let am := mkAccessManager [] [] [] in
  let am' := AccessManager_grant_role am ADMIN_ROLE admin in
  store_account ACCESS_MANAGER_ID (ai_access_manager acc) (DAccessManager am').

(** ** [lib.rs]: the entry point *)

Inductive AmIx :=
| AmInitialize (acc : AmInitializeAccounts) (admin : Pubkey)
| AmGrantRole (acc : AdminAccounts) (role_id : Z) (account : Pubkey)
| AmRevokeRole (acc : AdminAccounts) (role_id : Z) (account : Pubkey)
| AmRenounceRole (acc : AdminAccounts) (role_id : Z)
| AmUpgradeProgram (acc : UpgradeAccounts) (target_program : Pubkey)
| AmProposeUpgradeAuthorityTransfer (acc : AdminAccounts) (target_program new_authority : Pubkey)
| AmAcceptUpgradeAuthorityTransfer (acc : AcceptAuthorityAccounts) (target_program : Pubkey)
| AmCancelUpgradeAuthorityTransfer (acc : AdminAccounts) (target_program : Pubkey)
| AmSetWhitelistedPrograms (acc : AdminAccounts) (whitelisted_programs : list Pubkey)
| AmClaimUpgradeAuthority (acc : ClaimAccounts) (target_program : Pubkey).

Definition exec_am (cx : CallCtx) (ix : AmIx) : M unit :=
  match ix with
  | AmInitialize acc admin => am_initialize cx acc admin
  | AmGrantRole acc r a => grant_role cx acc r a
  | AmRevokeRole acc r a => revoke_role cx acc r a
  | AmRenounceRole acc r => renounce_role cx acc r
  | AmUpgradeProgram acc t => upgrade_program cx acc t
  | AmProposeUpgradeAuthorityTransfer acc t n => propose_upgrade_authority_transfer cx acc t n
  | AmAcceptUpgradeAuthorityTransfer acc t => accept_upgrade_authority_transfer cx acc t
  | AmCancelUpgradeAuthorityTransfer acc t => cancel_upgrade_authority_transfer cx acc t
  | AmSetWhitelistedPrograms acc l => set_whitelisted_programs cx acc l
  | AmClaimUpgradeAuthority acc t => claim_upgrade_authority cx acc t
  end.

End AccessManager.
