(* ===== verification/AccessManagerSpec.v ===== *)
(** * Theorems on the access manager

    The transitions of the registry account, one per instruction with its own
    accounts and arguments ([am_trans]), each with the consent it needs and the
    log entries it leaves.  Every instruction performs its transition; the
    invariants are proved on the transitions and hold in every reachable state,
    whatever the other programs do in between.  On top of them, the abstract
    specification ([am_spec]): a registry of a set of (role, member) pairs, a
    whitelist and a map of pending handovers, and what each instruction does to
    it. *)

From S2P Require Import Prelude Errors Types Runtime Toy Cpi AccessManager.
From Stdlib Require Import ZArith Lia.
From Stdlib.Strings Require Import Byte.
From stdpp Require Import base strings gmap fin_maps list.

#[local] Open Scope Z_scope.

(** ** Roles as a set of pairs *)

Definition role_pairs (r : RoleData) : list (Z * Pubkey) := pair (rd_role_id r) <$> rd_members r.

Definition role_set (am : AccessManager) : gset (Z * Pubkey) :=
  list_to_set (am_roles am ≫= role_pairs).

(** The shape of the role table: one entry per role, no member twice, no
    entry for the public role. *)
Definition roles_wf (l : list RoleData) : Prop :=
  NoDup (rd_role_id <$> l) /\
  Forall (fun r => NoDup (rd_members r) /\ rd_role_id r <> PUBLIC_ROLE) l.

Lemma elem_of_role_set am r a :
  (r, a) ∈ role_set am <-> exists d, d ∈ am_roles am /\ rd_role_id d = r /\ a ∈ rd_members d.
Proof.
  unfold role_set, role_pairs. rewrite elem_of_list_to_set, list_elem_of_bind.
  setoid_rewrite list_elem_of_fmap. naive_solver.
Qed.

Lemma has_role_id_true r d : has_role_id r d = true <-> rd_role_id d = r.
Proof. unfold has_role_id. by rewrite Z.eqb_eq. Qed.

Lemma has_role_id_false r d : has_role_id r d = false <-> rd_role_id d <> r.
Proof. unfold has_role_id. by rewrite Z.eqb_neq. Qed.

Lemma roles_wf_split l1 d l2 :
  roles_wf (l1 ++ d :: l2) <->
  roles_wf (l1 ++ l2) /\ NoDup (rd_members d) /\ rd_role_id d <> PUBLIC_ROLE /\
  (rd_role_id d ∉ rd_role_id <$> (l1 ++ l2)).
Proof.
  unfold roles_wf. assert (l1 ++ d :: l2 ≡ₚ d :: (l1 ++ l2)) as -> by (symmetry; apply Permutation_middle).
  rewrite fmap_cons, NoDup_cons, Forall_cons. naive_solver.
Qed.

Lemma not_elem_of_other_role l1 l2 d r a :
  (r ∉ rd_role_id <$> (l1 ++ l2)) -> rd_role_id d = r -> a ∈ rd_members d ->
  ~ (d ∈ l1 \/ d ∈ l2).
Proof.
  intros Hn <- Ha Hd. apply Hn, list_elem_of_fmap. exists d. by rewrite elem_of_app.
Qed.

(** The table around the entry of role [r], or without one. *)
Lemma role_cases l r :
  roles_wf l ->
  (position (has_role_id r) l = None /\ r ∉ rd_role_id <$> l) \/
  (exists l1 d l2, l = l1 ++ d :: l2 /\ position (has_role_id r) l = Some (length l1) /\
     rd_role_id d = r /\ NoDup (rd_members d) /\ (r ∉ rd_role_id <$> (l1 ++ l2))).
Proof.
  intros Hwf. destruct (position (has_role_id r) l) as [i|] eqn:E.
  - right. destruct (position_split _ _ _ E) as (l1 & d & l2 & -> & -> & Hd & _).
    apply has_role_id_true in Hd. apply roles_wf_split in Hwf as (? & ? & ? & ?).
    exists l1, d, l2. rewrite Hd in *. done.
  - left. split; [done|]. apply position_None in E.
    intros (d & -> & Hd)%list_elem_of_fmap. rewrite Forall_forall in E.
    specialize (E d Hd). by apply has_role_id_false in E.
Qed.

Lemma has_role_spec am r a :
  roles_wf (am_roles am) ->
  has_role am r a = true <-> r = PUBLIC_ROLE \/ (r, a) ∈ role_set am.
Proof.
  intros Hwf. unfold has_role. destruct (Z.eqb_spec r PUBLIC_ROLE) as [|Hr]; [naive_solver|].
  rewrite find_position, elem_of_role_set.
  destruct (role_cases _ r Hwf) as [[-> Hn]|(l1 & d & l2 & E & -> & Hd & _ & Hn)]; simpl.
  - split; [done|]. intros [|(d & Hd & <- & _)]; [done|].
    exfalso. apply Hn. by apply list_elem_of_fmap_2.
  - rewrite E, list_lookup_middle, contains_spec by done. split.
    + intros Ha. right. exists d. set_solver.
    + intros [|(d' & Hd' & Hr' & Ha)]; [done|].
      apply elem_of_app in Hd' as Hin. rewrite elem_of_cons in Hin.
      destruct Hin as [Hin|[->|Hin]]; [|done|];
        edestruct not_elem_of_other_role; eauto.
Qed.

Lemma role_set_middle am l1 d l2 :
  am_roles am = l1 ++ d :: l2 ->
  role_set am = list_to_set (role_pairs d) ∪ list_to_set ((l1 ++ l2) ≫= role_pairs).
Proof.
  intros E. unfold role_set. rewrite E, !bind_app, bind_cons, !list_to_set_app_L. set_solver.
Qed.

Lemma elem_of_role_pairs r a d :
  (r, a) ∈ role_pairs d <-> rd_role_id d = r /\ a ∈ rd_members d.
Proof. unfold role_pairs. rewrite list_elem_of_fmap. naive_solver. Qed.

Lemma elem_of_pairs_list r a l :
  (r, a) ∈ l ≫= role_pairs <-> exists d, d ∈ l /\ rd_role_id d = r /\ a ∈ rd_members d.
Proof.
  rewrite list_elem_of_bind. setoid_rewrite elem_of_role_pairs. naive_solver.
Qed.

Lemma role_set_grant am r a :
  roles_wf (am_roles am) ->
  role_set (AccessManager_grant_role am r a) = {[(r, a)]} ∪ role_set am.
Proof.
  intros Hwf. unfold AccessManager_grant_role.
  destruct (role_cases _ r Hwf) as [[-> Hn]|(l1 & d & l2 & E & -> & Hd & _ & Hn)].
  - unfold role_set. simpl. rewrite bind_app, list_to_set_app_L. simpl.
    unfold role_pairs at 2. simpl. set_solver.
  - rewrite (role_set_middle am l1 d l2) by done. rewrite E, alter_middle.
    destruct (contains a (rd_members d)) eqn:Hc.
    + rewrite (role_set_middle _ l1 d l2) by done.
      apply contains_spec in Hc. apply set_eq. intros [r' a'].
      rewrite !elem_of_union, !elem_of_list_to_set, elem_of_singleton, !elem_of_role_pairs.
      naive_solver.
    + erewrite (role_set_middle _ l1 _ l2) by done.
      apply set_eq. intros [r' a'].
      rewrite !elem_of_union, !elem_of_list_to_set, elem_of_singleton, !elem_of_role_pairs.
      simpl. rewrite elem_of_app, list_elem_of_singleton. naive_solver.
Qed.

Lemma roles_wf_grant am r a :
  roles_wf (am_roles am) -> r <> PUBLIC_ROLE ->
  roles_wf (am_roles (AccessManager_grant_role am r a)).
Proof.
  intros Hwf Hr. unfold AccessManager_grant_role.
  destruct (role_cases _ r Hwf) as [[-> Hn]|(l1 & d & l2 & E & -> & Hd & Hnd & Hn)].
  - simpl. apply roles_wf_split. rewrite app_nil_r. simpl. split_and!; [done| |done|done].
    apply NoDup_singleton.
  - simpl. rewrite E, alter_middle. rewrite E in Hwf.
    destruct (contains a (rd_members d)) eqn:Hc; [done|].
    apply contains_false in Hc. apply roles_wf_split in Hwf as (? & ? & ? & ?).
    apply roles_wf_split. simpl. split_and!; [done| |done|done].
    apply NoDup_app. split_and!; [done| |apply NoDup_singleton]. set_solver.
Qed.

(** The members of role [r] are those of its entry. *)
Lemma role_set_at l1 d l2 am r a :
  am_roles am = l1 ++ d :: l2 -> rd_role_id d = r -> (r ∉ rd_role_id <$> (l1 ++ l2)) ->
  (r, a) ∈ role_set am <-> a ∈ rd_members d.
Proof.
  intros E Hd Hn. rewrite (role_set_middle _ _ _ _ E), elem_of_union, !elem_of_list_to_set.
  rewrite elem_of_role_pairs, elem_of_pairs_list. split; [|naive_solver].
  intros [[_ ?]|(d' & Hd' & Hr & _)]; [done|].
  exfalso. apply Hn. rewrite <- Hr. by apply list_elem_of_fmap_2.
Qed.

Lemma is_last_admin_spec am a :
  roles_wf (am_roles am) ->
  is_last_admin am a = true <->
  (ADMIN_ROLE, a) ∈ role_set am /\ forall b, (ADMIN_ROLE, b) ∈ role_set am -> b = a.
Proof.
  intros Hwf. unfold is_last_admin. rewrite find_position.
  destruct (role_cases _ ADMIN_ROLE Hwf) as [[-> Hn]|(l1 & d & l2 & E & -> & Hd & Hnd & Hn)]; simpl.
  - split; [done|]. intros [(d & Hd & Hr & _)%elem_of_role_set _].
    exfalso. apply Hn. rewrite <- Hr. by apply list_elem_of_fmap_2.
  - rewrite E, list_lookup_middle by done.
    setoid_rewrite (role_set_at l1 d l2 am ADMIN_ROLE); [|done..].
    rewrite andb_true_iff, bool_decide_eq_true, contains_spec.
    destruct (rd_members d) as [|x [|y l]]; simpl.
    + set_solver.
    + set_solver.
    + split; [by intros []|]. intros [Ha Hall]. exfalso.
      apply NoDup_cons in Hnd as [Hx _]. apply Hx.
      rewrite (Hall x), (Hall y) by set_solver. set_solver.
Qed.

Lemma is_last_admin_false am a :
  roles_wf (am_roles am) ->
  is_last_admin am a = false <->
  ((ADMIN_ROLE, a) ∈ role_set am -> exists b, b <> a /\ (ADMIN_ROLE, b) ∈ role_set am).
Proof.
  intros Hwf. rewrite <- not_true_iff_false, is_last_admin_spec by done. split; [|naive_solver].
  intros Hn Ha.
  destruct (set_choose_or_empty (filter (fun x => x.1 = ADMIN_ROLE /\ x.2 <> a) (role_set am)))
    as [[[r b] Hb]|He].
  - apply elem_of_filter in Hb as [[Hr Hb] Hin]. simpl in *. subst. eauto.
  - exfalso. apply Hn. split; [done|]. intros b Hb. destruct (decide (b = a)); [done|].
    exfalso. apply (not_elem_of_empty (C:=gset (Z * Pubkey)) (ADMIN_ROLE, b)).
    rewrite <- He, elem_of_filter. done.
Qed.

Lemma roles_wf_remove_member l1 d l2 m :
  roles_wf (l1 ++ d :: l2) -> (exists x, rd_members d ≡ₚ x :: m) ->
  roles_wf (l1 ++ mkRoleData (rd_role_id d) m :: l2).
Proof.
  intros Hwf [x Hm]. apply roles_wf_split in Hwf as (? & Hnd & ? & ?).
  apply roles_wf_split. simpl. split_and!; try done.
  rewrite Hm in Hnd. by apply NoDup_cons in Hnd as [_ ?].
Qed.

(** [revoke_role] on the set of pairs: it succeeds exactly when the pair is
    there and is not the last admin, and then removes it. *)
Lemma revoke_role_Ok am r a am' :
  roles_wf (am_roles am) ->
  AccessManager_revoke_role am r a = Ok am' ->
  roles_wf (am_roles am') /\ (r, a) ∈ role_set am /\
  role_set am' = role_set am ∖ {[(r, a)]} /\
  am' = set_roles am (am_roles am') /\
  (r = ADMIN_ROLE -> is_last_admin am a = false).
Proof.
  intros Hwf. unfold AccessManager_revoke_role.
  destruct (_ && _) eqn:Hl; [done|]. rewrite result_bind_ok.
  setoid_rewrite result_bind_ok. setoid_rewrite result_bind_ok. setoid_rewrite ok_or_ok.
  intros (i & Hi & d & Hd & pos & Hpos & [= <-]).
  destruct (role_cases _ r Hwf) as [[? _]|(l1 & d' & l2 & E & Hi' & Hr & Hnd & Hn)]; [congruence|].
  assert (i = length l1) as -> by congruence.
  rewrite E, list_lookup_middle in Hd by done. injection Hd as <-.
  apply position_Some in Hpos as (x & Hx & Hxa & _).
  apply bool_decide_eq_true in Hxa as ->.
  apply swap_remove_perm in Hx as Hperm. revert Hperm.
  generalize (swap_remove pos (rd_members d')) as m. intros m Hperm.
  simpl. rewrite E, insert_middle. rewrite E in Hwf. split_and!.
  - apply roles_wf_remove_member; eauto.
  - apply (role_set_at l1 d' l2); [done..|]. rewrite Hperm. set_solver.
  - erewrite (role_set_middle (set_roles _ _) l1 _ l2), (role_set_middle am l1 d' l2) by done.
    apply set_eq. intros [r' a'].
    rewrite elem_of_difference, !elem_of_union, !elem_of_list_to_set, elem_of_singleton.
    rewrite !elem_of_role_pairs. simpl. rewrite Hperm, elem_of_cons.
    rewrite Hperm in Hnd. apply NoDup_cons in Hnd as [Hna _].
    split.
    + intros [[? ?]|Hp]; [naive_solver|]. split; [by right|]. intros [= -> ->].
      apply elem_of_pairs_list in Hp as (d & Hd & <- & _). apply Hn. by apply list_elem_of_fmap_2.
    + naive_solver.
  - done.
  - intros ->. by rewrite Z.eqb_refl in Hl.
Qed.

Lemma revoke_role_succeeds am r a :
  roles_wf (am_roles am) -> (r, a) ∈ role_set am ->
  (r = ADMIN_ROLE -> is_last_admin am a = false) ->
  is_ok (AccessManager_revoke_role am r a) = true.
Proof.
  intros Hwf Hra Hla. unfold AccessManager_revoke_role.
  replace (Z.eqb r ADMIN_ROLE && is_last_admin am a) with false
    by (destruct (Z.eqb_spec r ADMIN_ROLE); [by rewrite Hla|done]).
  destruct (role_cases _ r Hwf) as [[_ Hn]|(l1 & d & l2 & E & -> & Hr & _ & Hn)].
  { apply elem_of_role_set in Hra as (d & Hd & <- & _). exfalso. apply Hn. by apply list_elem_of_fmap_2. }
  simpl. rewrite E, list_lookup_middle by done. simpl.
  destruct (position _ _) as [p|] eqn:Hp; [done|].
  apply (role_set_at l1 d l2) in Hra; [|done..].
  apply position_None in Hp. rewrite Forall_forall in Hp. specialize (Hp a Hra).
  by apply bool_decide_eq_false in Hp.
Qed.

(** The role table implements a set of (role, member) pairs: on a table
    without duplicates [has_role] is membership (the public role is
    everyone's), [grant_role] adds the pair, [revoke_role] succeeds exactly on
    a granted pair that is not the last admin and removes that pair only, and
    the table stays without duplicates. *)
Theorem role_table_refines_set am r a (Hwf : roles_wf (am_roles am)) (Hr : r <> PUBLIC_ROLE) :
  (has_role am r a = true <-> (r, a) ∈ role_set am) /\
  role_set (AccessManager_grant_role am r a) = {[(r, a)]} ∪ role_set am /\
  roles_wf (am_roles (AccessManager_grant_role am r a)) /\
  (is_ok (AccessManager_revoke_role am r a) = true <->
     (r, a) ∈ role_set am /\
     (r = ADMIN_ROLE -> exists b, b <> a /\ (ADMIN_ROLE, b) ∈ role_set am)) /\
  (forall am', AccessManager_revoke_role am r a = Ok am' ->
     roles_wf (am_roles am') /\ role_set am' = role_set am ∖ {[(r, a)]}).
Proof.
  pose proof (is_last_admin_false am a Hwf) as Hlast.
  split_and!.
  - rewrite has_role_spec by done. naive_solver.
  - by apply role_set_grant.
  - by apply roles_wf_grant.
  - split.
    + destruct (AccessManager_revoke_role am r a) as [am'|] eqn:E; [|done].
      apply revoke_role_Ok in E as (_ & Hin & _ & _ & Hla); [|done]. naive_solver.
    + intros [Hin Hex]. apply revoke_role_succeeds; [done..|]. naive_solver.
  - intros am' E. apply revoke_role_Ok in E; naive_solver.
Qed.

(** ** The registry's life as transitions *)

(** Called at the top level, or directly by a program of the whitelist. *)
Definition called_from (cx : CallCtx) (whitelist : list Pubkey) (self : Pubkey) : Prop :=
  cx_stack cx = [self] \/ exists p, cx_stack cx = [p; self] /\ (p = self \/ p ∈ whitelist).

Definition authorized (cx : CallCtx) (am : AccessManager) (role_id : Z) (s self : Pubkey) : Prop :=
  s ∈ cx_signers cx /\ called_from cx (am_whitelisted_programs am) self /\
  has_role am role_id s = true.

Section Spec.
Context `{Platform}.

Definition AM_KEY : Pubkey := pda_key [AccessManager_SEED] ACCESS_MANAGER_ID.

Definition upgrade_authority_of (w : World) (program authority : Pubkey) : Prop :=
  exists a, w_accts w !! pda_key [program] BPF_LOADER_UPGRADEABLE_ID = Some a /\
            acc_data a = DProgramData (Some authority).

(** What an instruction does to the stored registry, with the instruction's own
    accounts and arguments. *)
Inductive am_trans (cx : CallCtx) (w : World)
    : AmIx -> option AccessManager -> AccessManager -> list LogEntry -> Prop :=
| T_initialize acc admin :
    cx_stack cx = [ACCESS_MANAGER_ID] -> ai_authority acc ∈ cx_signers cx ->
    upgrade_authority_of w ACCESS_MANAGER_ID (ai_authority acc) ->
    am_trans cx w (AmInitialize acc admin) None
      (AccessManager_grant_role (mkAccessManager [] [] []) ADMIN_ROLE admin) []
| T_grant am acc r a :
    authorized cx am ADMIN_ROLE (aa_admin acc) ACCESS_MANAGER_ID ->
    a <> Pubkey_default -> r <> PUBLIC_ROLE ->
    am_trans cx w (AmGrantRole acc r a) (Some am) (AccessManager_grant_role am r a)
      [LEvent ACCESS_MANAGER_ID (RoleGrantedEvent r a (aa_admin acc))]
| T_revoke am am' acc r a :
    authorized cx am ADMIN_ROLE (aa_admin acc) ACCESS_MANAGER_ID ->
    r <> PUBLIC_ROLE -> AccessManager_revoke_role am r a = Ok am' ->
    am_trans cx w (AmRevokeRole acc r a) (Some am) am'
      [LEvent ACCESS_MANAGER_ID (RoleRevokedEvent r a (aa_admin acc))]
| T_renounce am am' acc r :
    authorized cx am r (aa_admin acc) ACCESS_MANAGER_ID ->
    r <> PUBLIC_ROLE -> AccessManager_revoke_role am r (aa_admin acc) = Ok am' ->
    am_trans cx w (AmRenounceRole acc r) (Some am) am'
      [LEvent ACCESS_MANAGER_ID (RoleRevokedEvent r (aa_admin acc) (aa_admin acc))]
| T_whitelist am acc l :
    authorized cx am ADMIN_ROLE (aa_admin acc) ACCESS_MANAGER_ID -> NoDup l ->
    am_trans cx w (AmSetWhitelistedPrograms acc l) (Some am)
      (mkAccessManager (am_roles am) l (am_pending_authority_transfers am))
      [LEvent ACCESS_MANAGER_ID
         (WhitelistedProgramsUpdatedEvent (am_whitelisted_programs am) l (aa_admin acc))]
| T_propose am acc t n :
    authorized cx am ADMIN_ROLE (aa_admin acc) ACCESS_MANAGER_ID ->
    n <> Pubkey_default -> n <> upgrade_authority_pda t ACCESS_MANAGER_ID ->
    (length (am_pending_authority_transfers am) < MAX_PENDING_TRANSFERS)%nat ->
    t ∉ pat_target_program <$> am_pending_authority_transfers am ->
    am_trans cx w (AmProposeUpgradeAuthorityTransfer acc t n) (Some am)
      (set_pending am (am_pending_authority_transfers am ++ [mkPendingAuthorityTransfer t n]))
      [LEvent ACCESS_MANAGER_ID (UpgradeAuthorityTransferProposedEvent t
         (upgrade_authority_pda t ACCESS_MANAGER_ID) n (aa_admin acc))]
| T_cancel am acc t n pending :
    authorized cx am ADMIN_ROLE (aa_admin acc) ACCESS_MANAGER_ID ->
    am_pending_authority_transfers am ≡ₚ mkPendingAuthorityTransfer t n :: pending ->
    am_trans cx w (AmCancelUpgradeAuthorityTransfer acc t) (Some am) (set_pending am pending)
      [LEvent ACCESS_MANAGER_ID (UpgradeAuthorityTransferCancelledEvent t n (aa_admin acc))]
| T_accept am acc t pending :
    ac_new_authority acc ∈ cx_signers cx ->
    am_pending_authority_transfers am ≡ₚ
      mkPendingAuthorityTransfer t (ac_new_authority acc) :: pending ->
    am_trans cx w (AmAcceptUpgradeAuthorityTransfer acc t) (Some am) (set_pending am pending)
      [LInvoke ACCESS_MANAGER_ID BPF_LOADER_UPGRADEABLE_ID
         (IxLoaderSetUpgradeAuthority t (upgrade_authority_pda t ACCESS_MANAGER_ID)
            (ac_new_authority acc));
       LEvent ACCESS_MANAGER_ID (UpgradeAuthorityTransferredEvent t
         (upgrade_authority_pda t ACCESS_MANAGER_ID) (ac_new_authority acc) (ac_new_authority acc))]
| T_upgrade am acc t :
    authorized cx am ADMIN_ROLE (ua_authority acc) ACCESS_MANAGER_ID ->
    owner_of w t = BPF_LOADER_UPGRADEABLE_ID -> is_executable w t = true ->
    owner_of w (ua_buffer acc) = BPF_LOADER_UPGRADEABLE_ID ->
    am_trans cx w (AmUpgradeProgram acc t) (Some am) am
      [LInvoke ACCESS_MANAGER_ID BPF_LOADER_UPGRADEABLE_ID
         (IxLoaderUpgrade t (ua_buffer acc) (upgrade_authority_pda t ACCESS_MANAGER_ID) (ua_spill acc));
       LEvent ACCESS_MANAGER_ID (ProgramUpgradedEvent t (ua_authority acc) (w_clock w))]
| T_claim am acc t :
    authorized cx am ADMIN_ROLE (ca_admin acc) ACCESS_MANAGER_ID ->
    ca_source_access_manager_program acc <> ACCESS_MANAGER_ID ->
    am_trans cx w (AmClaimUpgradeAuthority acc t) (Some am) am
      [LInvoke ACCESS_MANAGER_ID (ca_source_access_manager_program acc)
         (IxAcceptUpgradeAuthorityTransfer t);
       LEvent ACCESS_MANAGER_ID (UpgradeAuthorityClaimedEvent t (ca_source_access_manager_program acc)
         (upgrade_authority_pda t ACCESS_MANAGER_ID))].

(** The invariant of the registry. *)
Record am_wf (am : AccessManager) : Prop := {
  wf_roles : roles_wf (am_roles am);
  wf_admin : exists b, (ADMIN_ROLE, b) ∈ role_set am;
  wf_whitelist : NoDup (am_whitelisted_programs am);
  wf_targets : NoDup (pat_target_program <$> am_pending_authority_transfers am);
  wf_count : (length (am_pending_authority_transfers am) <= MAX_PENDING_TRANSFERS)%nat;
  wf_pending : Forall (fun p => pat_new_authority p <> Pubkey_default /\
      pat_new_authority p <> upgrade_authority_pda (pat_target_program p) ACCESS_MANAGER_ID)
    (am_pending_authority_transfers am) }.

Lemma am_wf_pending_sub am p pending :
  am_wf am -> am_pending_authority_transfers am ≡ₚ p :: pending -> am_wf (set_pending am pending).
Proof.
  intros [Hr Ha Hw Ht Hc Hp] E. rewrite E in Ht, Hc, Hp.
  rewrite fmap_cons, NoDup_cons in Ht. rewrite Forall_cons in Hp. simpl in Hc.
  destruct Ht as [_ Ht], Hp as [_ Hp]. constructor; simpl; (done || lia).
Qed.

Lemma am_wf_revoke am r a am' :
  am_wf am -> AccessManager_revoke_role am r a = Ok am' -> am_wf am'.
Proof.
  intros [Hro Hadm ? ? ? ?] (Hro' & Hin & Hset & -> & Hla)%revoke_role_Ok; [|done].
  constructor; simpl; try done.
  change (role_set (set_roles am (am_roles am'))) with (role_set am'). rewrite Hset.
  assert (exists b, (r = ADMIN_ROLE -> b <> a) /\ (ADMIN_ROLE, b) ∈ role_set am) as (b & Hb & ?).
  { destruct (decide (r = ADMIN_ROLE)) as [->|Hne]; [|destruct Hadm as [b ?]; by exists b].
    apply is_last_admin_false in Hla; [|done..]. destruct Hla as (b & ? & ?). by exists b. }
  exists b. apply elem_of_difference. split; [done|]. intros [= <- <-]%elem_of_singleton. by apply Hb.
Qed.

(** Every transition keeps the invariant. *)
Lemma am_trans_wf cx w ix o am' l :
  (forall am, o = Some am -> am_wf am) -> am_trans cx w ix o am' l -> am_wf am'.
Proof.
  intros Hwf Ht. destruct Ht as
    [acc admin|am acc r a Hau Ha Hr|am am' acc r a Hau Hr Hrev|am am' acc r Hau Hr Hrev|am acc wl Hau Hnd
    |am acc t n Hau Hn Hs Hlen Hnew|am acc t n p Hau E|am acc t p Hn E|am|am];
    [|specialize (Hwf am eq_refl)..]; try done; try by eapply am_wf_pending_sub.
  - constructor; simpl; try apply NoDup_nil_2; try done; [|by exists admin; set_solver|lia].
    split; [apply NoDup_singleton|]. repeat constructor; set_solver.
  - destruct Hwf as [Hro [b Hb] ? ? ? ?].
    constructor; try (by unfold AccessManager_grant_role; destruct (position _ _)).
    + by apply roles_wf_grant.
    + exists b. rewrite role_set_grant by done. by apply elem_of_union_r.
  - by eapply am_wf_revoke.
  - by eapply am_wf_revoke.
  - destruct Hwf. by constructor.
  - destruct Hwf. constructor; simpl; try done.
    + rewrite fmap_app. apply NoDup_app. split_and!; [done| |apply NoDup_singleton]. set_solver.
    + rewrite length_app. simpl. lia.
    + apply Forall_app_2; [done|]. by repeat constructor.
Qed.

(** ** The instructions refine the transitions *)

Definition registry (w : World) (o : option AccessManager) : Prop :=
  match o with
  | None => w_accts w !! AM_KEY = None
  | Some am => exists a, w_accts w !! AM_KEY = Some a /\ acc_owner a = ACCESS_MANAGER_ID /\
                         acc_data a = DAccessManager am
  end.

(** The accounts of the program other than the upgrade authorities, for which
    it signs calls. *)
Definition kept (w : World) (k : Pubkey) : Prop :=
  protected ACCESS_MANAGER_ID w k /\ forall t, k <> upgrade_authority_pda t ACCESS_MANAGER_ID.

Definition am_refines (cx : CallCtx) (ix : AmIx) (w w' : World) : Prop :=
  exists o am' l, am_trans cx w ix o am' l /\ registry w o /\ registry w' (Some am') /\
    own_log ACCESS_MANAGER_ID w' = own_log ACCESS_MANAGER_ID w ++ l /\
    (o = None \/ 0 < lam w AM_KEY -> 0 < lam w' AM_KEY) /\
    forall k, kept w k -> k <> AM_KEY -> w_accts w' !! k = w_accts w !! k.

(** The entry point of the program, reached by a call. *)
Class AmDeployed : Prop :=
  am_entry cx metas t w w' k1 k2 k3 k4 k5 :
    process_instruction cx ACCESS_MANAGER_ID metas (IxAcceptUpgradeAuthorityTransfer t) w = Ok w' ->
    meta_pubkey <$> metas = [k1; k2; k3; k4; k5] ->
    accept_upgrade_authority_transfer cx (mkAcceptAuthorityAccounts k1 k2 k3 k4 k5) t w = Ok ((), w').

Context `{!PlatformOk}.

Lemma AM_KEY_protected w : protected ACCESS_MANAGER_ID w AM_KEY.
Proof. left. apply pda_key_is_pda. Qed.

Lemma AM_KEY_kept w : kept w AM_KEY.
Proof. split; [apply AM_KEY_protected|]. by intros t [E _]%pda_inj. Qed.

Lemma kept_guarded w t k :
  kept w k -> guarded (list_to_set [upgrade_authority_pda t ACCESS_MANAGER_ID]) ACCESS_MANAGER_ID w k.
Proof. intros [[Hk|Hk] Hn]; [left|by right]. split; [done|]. specialize (Hn t). set_solver. Qed.

Lemma am_not_loader : ACCESS_MANAGER_ID <> BPF_LOADER_UPGRADEABLE_ID.
Proof. by vm_compute. Qed.

Lemma refine_store cx ix w w1 w' am am' l u :
  registry w (Some am) -> am_trans cx w ix (Some am) am' l ->
  own_log ACCESS_MANAGER_ID w1 = own_log ACCESS_MANAGER_ID w ++ l ->
  (forall k, kept w k -> w_accts w1 !! k = w_accts w !! k /\ lam w k <= lam w1 k) ->
  store_account ACCESS_MANAGER_ID AM_KEY (DAccessManager am') w1 = Ok (u, w') ->
  am_refines cx ix w w'.
Proof.
  intros Hreg Ht Hlog Hsame (a & Ha & Ho & _ & ->)%store_account_Ok.
  exists (Some am), am', l. split_and!; [done|done| |done| |].
  - exists (with_data a (DAccessManager am')). simpl. by rewrite lookup_insert_eq.
  - intros [|Hpos]; [done|]. destruct (Hsame AM_KEY (AM_KEY_kept w)) as [_ Hle].
    change (0 < lam w1 AM_KEY). lia.
  - intros k Hk Hne. simpl. rewrite lookup_insert_ne by done. by apply Hsame.
Qed.

Lemma registry_intro w a am :
  w_accts w !! AM_KEY = Some a -> acc_owner a = ACCESS_MANAGER_ID ->
  as_AccessManager (acc_data a) = Some am -> registry w (Some am).
Proof. intros. exists a. destruct (acc_data a); naive_solver. Qed.

Lemma registry_det w am am' : registry w (Some am) -> registry w (Some am') -> am = am'.
Proof. intros (a & E & _ & D) (a' & E' & _ & D'). congruence. Qed.

Lemma inner_Ok cx am r s sysvar self w u w' :
  last (cx_stack cx) = Some self ->
  require_role_with_whitelist_inner cx am r s sysvar self w = Ok (u, w') <->
  authorized cx am r s self /\ sysvar = INSTRUCTIONS_SYSVAR_ID /\ w' = w.
Proof.
  intros Hrun. unfold require_role_with_whitelist_inner, authorized, called_from. split.
  - intros Hr. minv. apply map_err_ok in Hm0. apply direct_or_whitelisted_Ok in Hm0; [|done].
    naive_solver.
  - intros ((Hs & Hc & Hh) & Hsys & ->). destruct u. apply bind_Ok. exists (), w.
    rewrite require_Ok, bool_decide_eq_true. split; [done|]. apply bind_Ok. exists (), w.
    rewrite lift_Ok, map_err_ok, direct_or_whitelisted_Ok, require_Ok by done. done.
Qed.

Lemma require_admin_Ok cx k s sysvar self w u w' :
  last (cx_stack cx) = Some self -> require_admin cx k s sysvar self w = Ok (u, w') ->
  w' = w /\ exists a am, w_accts w !! k = Some a /\ as_AccessManager (acc_data a) = Some am /\
    authorized cx am ADMIN_ROLE s self.
Proof.
  intros Hrun. unfold require_admin, deserialize_access_manager. intros Hr. minv.
  apply inner_Ok in Hr as (? & _ & ->); [|done]. naive_solver.
Qed.

Lemma admin_accounts_Ok cx acc w am w' :
  admin_accounts cx acc w = Ok (am, w') ->
  w' = w /\ registry w (Some am) /\ aa_access_manager acc = AM_KEY /\ aa_admin acc ∈ cx_signers cx /\
  aa_instructions_sysvar acc = INSTRUCTIONS_SYSVAR_ID.
Proof.
  unfold admin_accounts. intros Hr. minv. split_and!; try done.
  eapply registry_intro; [|done|done]. unfold AM_KEY. by rewrite <- Hm1.
Qed.

(** The opening of the admin instructions. *)
Lemma admin_opening cx acc (k : AccessManager -> M unit) w u w' :
  running cx ACCESS_MANAGER_ID ->
  (am ← admin_accounts cx acc;
   _ ← require_admin cx (aa_access_manager acc) (aa_admin acc) (aa_instructions_sysvar acc)
         ACCESS_MANAGER_ID;
   k am) w = Ok (u, w') ->
  exists am, registry w (Some am) /\ aa_access_manager acc = AM_KEY /\
    authorized cx am ADMIN_ROLE (aa_admin acc) ACCESS_MANAGER_ID /\ k am w = Ok (u, w').
Proof.
  intros Hrun Hr. minv. apply admin_accounts_Ok in Hm as (-> & Hreg & Hk & _ & _).
  apply require_admin_Ok in Hm0 as (-> & a1 & am1 & E & D & Hau); [|done].
  exists a. split_and!; try done. destruct Hreg as (a' & E' & _ & D').
  rewrite Hk, E' in E. injection E as <-. rewrite D' in D. by injection D as ->.
Qed.

Lemma own_log_event p w e : own_log p (add_log w (LEvent p e)) = own_log p w ++ [LEvent p e].
Proof. by rewrite own_log_add, decide_True. Qed.

(** Closes the goal of an instruction that only logs [e] and stores. *)
Ltac refine_admin_store :=
  match goal with
  | Hk : aa_access_manager ?acc = AM_KEY, Hreg : registry ?w (Some ?am),
    Hs : store_account _ (aa_access_manager ?acc) _ _ = Ok _ |- _ =>
      rewrite Hk in Hs; eapply refine_store;
      [exact Hreg| |apply own_log_event|by split|exact Hs]
  end.

Lemma grant_role_refines cx acc r a w u w' :
  running cx ACCESS_MANAGER_ID -> grant_role cx acc r a w = Ok (u, w') ->
  am_refines cx (AmGrantRole acc r a) w w'.
Proof.
  intros Hrun (am & Hreg & Hk & Hau & Hr)%admin_opening; [|done]. minv.
  refine_admin_store. apply T_grant; [done| |].
  - by apply bool_decide_eq_false in Hm.
  - by apply Z.eqb_neq in Hm0.
Qed.

Lemma revoke_role_refines cx acc r a w u w' :
  running cx ACCESS_MANAGER_ID -> revoke_role cx acc r a w = Ok (u, w') ->
  am_refines cx (AmRevokeRole acc r a) w w'.
Proof.
  intros Hrun (am & Hreg & Hk & Hau & Hr)%admin_opening; [|done]. minv.
  refine_admin_store. apply T_revoke; [done| |done]. by apply Z.eqb_neq in Hm.
Qed.

Lemma renounce_role_refines cx acc r w u w' :
  running cx ACCESS_MANAGER_ID -> renounce_role cx acc r w = Ok (u, w') ->
  am_refines cx (AmRenounceRole acc r) w w'.
Proof.
  intros Hrun Hr. unfold renounce_role in Hr. minv.
  apply admin_accounts_Ok in Hm as (-> & Hreg & Hk & Hs & _).
  apply map_err_ok, direct_or_whitelisted_Ok in Hm0 as [_ Hc]; [|done].
  refine_admin_store. apply T_renounce; [done| |done]. by apply Z.eqb_neq in Hm1.
Qed.

Lemma set_whitelisted_programs_refines cx acc l w u w' :
  running cx ACCESS_MANAGER_ID ->
  set_whitelisted_programs cx acc l w = Ok (u, w') ->
  am_refines cx (AmSetWhitelistedPrograms acc l) w w'.
Proof.
  intros Hrun (am & Hreg & Hk & Hau & Hr)%admin_opening; [|done]. cbv zeta in Hr. minv.
  refine_admin_store. apply T_whitelist; [done|]. by apply sort_dedup_length.
Qed.

Lemma is_transfer_of_position t l i :
  position (is_transfer_of t) l = Some i ->
  exists p, l !! i = Some p /\ pat_target_program p = t /\ l ≡ₚ p :: swap_remove i l.
Proof.
  intros (p & Hp & Ht & _)%position_Some. apply bool_decide_eq_true in Ht.
  exists p. split_and!; [done..|]. by apply swap_remove_perm.
Qed.

Lemma propose_refines cx acc t n w u w' :
  running cx ACCESS_MANAGER_ID ->
  propose_upgrade_authority_transfer cx acc t n w = Ok (u, w') ->
  am_refines cx (AmProposeUpgradeAuthorityTransfer acc t n) w w'.
Proof.
  intros Hrun (am & Hreg & Hk & Hau & Hr)%admin_opening; [|done]. minv.
  refine_admin_store. apply T_propose; [done|..].
  - by apply bool_decide_eq_false in Hm.
  - by apply bool_decide_eq_false in Hm1.
  - by apply Nat.ltb_lt in Hm2.
  - apply not_true_iff_false in Hm3. contradict Hm3.
    apply list_elem_of_fmap in Hm3 as (p & -> & Hp). apply existsb_exists.
    exists p. apply list_elem_of_In in Hp. split; [done|]. by apply bool_decide_eq_true.
Qed.

Lemma cancel_refines cx acc t w u w' :
  running cx ACCESS_MANAGER_ID ->
  cancel_upgrade_authority_transfer cx acc t w = Ok (u, w') ->
  am_refines cx (AmCancelUpgradeAuthorityTransfer acc t) w w'.
Proof.
  intros Hrun (am & Hreg & Hk & Hau & Hr)%admin_opening; [|done]. cbv zeta in Hr. minv.
  apply ok_or_ok in Hm, Hm0. apply is_transfer_of_position in Hm as (p & Hp & Ht & Hperm).
  rewrite Hp in Hm0. injection Hm0 as <-.
  refine_admin_store. apply T_cancel; [done|]. rewrite Hperm at 1. by destruct p; simplify_eq/=.
Qed.

Lemma own_log_invoke_but S p q ix w w2 :
  frame_but S p (set_return (add_log w (LInvoke p q ix)) None) w2 ->
  own_log p w2 = own_log p w ++ [LInvoke p q ix] /\
  forall k, guarded S p w k -> w_accts w2 !! k = w_accts w !! k /\ lam w k <= lam w2 k.
Proof.
  intros F. split; [|intros k Hk; split; by apply F].
  rewrite (frame_but_own_log _ _ _ _ F).
  change (own_log p (add_log w (LInvoke p q ix)) = own_log p w ++ [LInvoke p q ix]).
  by rewrite own_log_add, decide_True.
Qed.

Lemma own_log_invoke p q ix w w2 :
  frame p (set_return (add_log w (LInvoke p q ix)) None) w2 ->
  own_log p w2 = own_log p w ++ [LInvoke p q ix] /\
  forall k, protected p w k -> w_accts w2 !! k = w_accts w !! k /\ lam w k <= lam w2 k.
Proof.
  intros F. split; [|intros k Hk; split; by apply F].
  rewrite (frame_own_log _ _ _ F).
  change (own_log p (add_log w (LInvoke p q ix)) = own_log p w ++ [LInvoke p q ix]).
  by rewrite own_log_add, decide_True.
Qed.

Lemma accept_Ok cx acc t w u w' :
  accept_upgrade_authority_transfer cx acc t w = Ok (u, w') ->
  exists am idx w1, registry w (Some am) /\ ac_new_authority acc ∈ cx_signers cx /\
    am_pending_authority_transfers am ≡ₚ
      mkPendingAuthorityTransfer t (ac_new_authority acc) ::
      swap_remove idx (am_pending_authority_transfers am) /\
    (running cx ACCESS_MANAGER_ID ->
     frame_but (list_to_set [upgrade_authority_pda t ACCESS_MANAGER_ID]) ACCESS_MANAGER_ID
      (set_return (add_log w (LInvoke ACCESS_MANAGER_ID BPF_LOADER_UPGRADEABLE_ID
         (IxLoaderSetUpgradeAuthority t (upgrade_authority_pda t ACCESS_MANAGER_ID)
            (ac_new_authority acc)))) None) w1) /\
    store_account ACCESS_MANAGER_ID AM_KEY
      (DAccessManager (set_pending am (swap_remove idx (am_pending_authority_transfers am))))
      (add_log w1 (LEvent ACCESS_MANAGER_ID (UpgradeAuthorityTransferredEvent t
         (upgrade_authority_pda t ACCESS_MANAGER_ID) (ac_new_authority acc)
         (ac_new_authority acc)))) = Ok (u, w').
Proof.
  unfold accept_upgrade_authority_transfer. intros Hr. minv.
  apply ok_or_ok in Hm7, Hm8. apply is_transfer_of_position in Hm7 as (p & Hp & Ht & Hperm).
  rewrite Hp in Hm8. injection Hm8 as <-.
  eexists a, _, _. unfold AM_KEY, upgrade_authority_pda. rewrite <- Hm1, <- Hm5.
  split_and!; [|done| | |exact Hr].
  - eapply registry_intro; [|done|done]. unfold AM_KEY. by rewrite <- Hm1.
  - rewrite Hperm at 1. destruct p; simplify_eq/=. done.
  - intros Hrun. apply invoke_signed_Ok in Hm10 as (_ & _ & _ & F); [|done|apply am_not_loader].
    exact F.
Qed.

Lemma accept_refines cx acc t w u w' :
  running cx ACCESS_MANAGER_ID ->
  accept_upgrade_authority_transfer cx acc t w = Ok (u, w') ->
  am_refines cx (AmAcceptUpgradeAuthorityTransfer acc t) w w'.
Proof.
  intros Hrun (am & idx & w1 & Hreg & Hn & Hperm & F & Hs)%accept_Ok.
  apply own_log_invoke_but in F as [Hlog Hsame]; [|done].
  eapply refine_store; [exact Hreg|by apply T_accept, Hperm| | |exact Hs];
    [|intros k Hk; by apply Hsame, kept_guarded].
  by rewrite own_log_event, Hlog, <- app_assoc.
Qed.

(** An instruction that keeps the registry: a call and an event. *)
Lemma refine_call cx i w w1 am q ix e t :
  registry w (Some am) ->
  am_trans cx w i (Some am) am [LInvoke ACCESS_MANAGER_ID q ix; LEvent ACCESS_MANAGER_ID e] ->
  frame_but (list_to_set [upgrade_authority_pda t ACCESS_MANAGER_ID]) ACCESS_MANAGER_ID
    (set_return (add_log w (LInvoke ACCESS_MANAGER_ID q ix)) None) w1 ->
  am_refines cx i w (add_log w1 (LEvent ACCESS_MANAGER_ID e)).
Proof.
  intros Hreg Ht F. apply own_log_invoke_but in F as [Hlog Hsame'].
  assert (forall k, kept w k -> w_accts w1 !! k = w_accts w !! k /\ lam w k <= lam w1 k) as Hsame
    by (intros k Hk; by apply Hsame', kept_guarded).
  destruct (Hsame AM_KEY (AM_KEY_kept w)) as [Hacc Hle].
  eexists _, _, _. split_and!; [exact Ht|exact Hreg| | | |].
  - destruct Hreg as (a & E & Ho & D). exists a. split; [|done]. simpl. by rewrite Hacc.
  - by rewrite own_log_event, Hlog, <- app_assoc.
  - intros [|Hpos]; [done|]. change (0 < lam w1 AM_KEY). lia.
  - intros k Hk _. by apply Hsame.
Qed.

(** The registry an instruction reads and the one [require_admin] reads. *)
Lemma registry_admin cx w k a0 am s sysvar u w' :
  running cx ACCESS_MANAGER_ID -> k = AM_KEY ->
  w_accts w !! k = Some a0 -> acc_owner a0 = ACCESS_MANAGER_ID ->
  as_AccessManager (acc_data a0) = Some am ->
  require_admin cx k s sysvar ACCESS_MANAGER_ID w = Ok (u, w') ->
  w' = w /\ registry w (Some am) /\ authorized cx am ADMIN_ROLE s ACCESS_MANAGER_ID.
Proof.
  intros Hrun -> E Ho D (-> & a1 & am1 & E1 & D1 & Hau)%require_admin_Ok; [|done].
  split_and!; [done|by apply (registry_intro _ a0)|]. congruence.
Qed.

Lemma upgrade_program_refines cx acc t w u w' :
  running cx ACCESS_MANAGER_ID -> upgrade_program cx acc t w = Ok (u, w') ->
  am_refines cx (AmUpgradeProgram acc t) w w'.
Proof.
  intros Hrun. unfold upgrade_program. intros Hr. minv.
  match goal with H : require_admin _ _ _ _ _ _ = Ok _ |- _ =>
    eapply registry_admin in H as (-> & Hreg & Hau); [|done..] end.
  match goal with H : invoke_signed _ _ _ _ _ _ _ = Ok _ |- _ =>
    apply invoke_signed_Ok in H as (_ & _ & Hp & F); [|done|apply am_not_loader] end.
  apply process_clock in Hp. simpl in Hp. rewrite Hp.
  eapply (refine_call _ _ _ _ _ _ _ _ t); [exact Hreg| |].
  2: { simpl in F |- *. match goal with H : ua_upgrade_authority acc = _ |- _ => rewrite H in F at 1 end. exact F. }
  repeat match goal with
  | H : ua_upgrade_authority acc = _ |- _ => rewrite H; clear H
  | H : ua_program acc = _ |- _ => rewrite H in *; clear H
  end. by apply T_upgrade.
Qed.

(** A claim from the program's own upgrade authority is refused: a pending
    transfer never names it. *)
Lemma self_claim_refused `{!AmDeployed} cx acc t am w w1 :
  registry w (Some am) -> am_wf am ->
  ca_new_upgrade_authority acc = upgrade_authority_pda t ACCESS_MANAGER_ID ->
  process_instruction (callee_ctx cx ACCESS_MANAGER_ID (accept_metas acc)) ACCESS_MANAGER_ID
    (accept_metas acc) (IxAcceptUpgradeAuthorityTransfer t) w = Ok w1 -> False.
Proof.
  intros Hreg Hwf Hn Hp. eapply am_entry in Hp; [|reflexivity].
  apply accept_Ok in Hp as (am' & idx & w2 & Hreg' & _ & Hperm & _).
  pose proof (registry_det _ _ _ Hreg Hreg') as <-.
  pose proof (wf_pending _ Hwf) as Hpend. rewrite Hperm, Forall_cons in Hpend. simpl in Hpend.
  naive_solver.
Qed.

Lemma claim_refines `{!AmDeployed} cx acc t w u w' :
  running cx ACCESS_MANAGER_ID -> (forall am, registry w (Some am) -> am_wf am) ->
  claim_upgrade_authority cx acc t w = Ok (u, w') ->
  am_refines cx (AmClaimUpgradeAuthority acc t) w w'.
Proof.
  intros Hrun Hwf. unfold claim_upgrade_authority. intros Hr. minv.
  match goal with H : require_admin _ _ _ _ _ _ = Ok _ |- _ =>
    eapply registry_admin in H as (-> & Hreg & Hau); [|done..] end.
  destruct (decide (ca_source_access_manager_program acc = ACCESS_MANAGER_ID)) as [Hself|Hne].
  - exfalso. match goal with H : invoke_signed _ _ _ _ _ _ _ = Ok _ |- _ =>
      unfold invoke_signed in H; rewrite Hself in H;
      destruct (metas_allowed _ _ _); [|discriminate]; simpl in H;
      rewrite (bool_decide_eq_true_2 (ACCESS_MANAGER_ID = ACCESS_MANAGER_ID)), andb_false_r in H
        by done;
      destruct (process_instruction _ _ _ _ _) eqn:Hp in H; [|discriminate] end.
    by eapply self_claim_refused in Hp; [|exact Hreg|by apply Hwf|].
  - match goal with H : invoke_signed _ _ _ _ _ _ _ = Ok _ |- _ =>
      apply invoke_signed_Ok in H as (_ & _ & _ & F); [|done|congruence] end.
    match goal with H : ca_new_upgrade_authority acc = _ |- _ => rewrite H in *; clear H end.
    eapply (refine_call _ _ _ _ _ _ _ _ t); [exact Hreg| |exact F]. by eapply T_claim.
Qed.

Lemma am_initialize_refines cx acc admin w u w' :
  running cx ACCESS_MANAGER_ID -> am_initialize cx acc admin w = Ok (u, w') ->
  am_refines cx (AmInitialize acc admin) w w'.
Proof.
  intros Hrun. unfold am_initialize. intros Hr. minv.
  match goal with H : init_account _ _ _ _ _ _ = Ok _ |- _ =>
    apply init_account_Ok in H as (_ & Hnone & Hacc & _ & _ & Hlog & _ & Hpos) end.
  match goal with H : map_err _ (reject_cpi _ _ _) = Ok _ |- _ =>
    apply map_err_ok, reject_cpi_Ok in H as [_ Hst]; [|done] end.
  assert (ai_access_manager acc = AM_KEY) as Hk by done.
  apply store_account_Ok in Hr as (a & Ha & Hao & _ & ->).
  eexists None, _, []. rewrite Hk in *. split_and!.
  - eapply T_initialize; [done|eassumption|]. eexists. split; [|].
    + match goal with H : ai_program_data acc = _ |- _ => rewrite <- H end. exact Hl.
    + match goal with H : as_ProgramData _ = Some _ |- _ => revert H end.
      by destruct (acc_data acc0); intros; simplify_eq/=.
  - done.
  - eexists. simpl. by rewrite lookup_insert_eq.
  - unfold own_log. simpl. by rewrite Hlog, app_nil_r.
  - intros _. exact Hpos.
  - intros k _ Hne. simpl. by rewrite lookup_insert_ne, Hacc, lookup_insert_ne.
Qed.

Lemma exec_am_refines `{!AmDeployed} cx ix w u w' :
  running cx ACCESS_MANAGER_ID -> (forall am, registry w (Some am) -> am_wf am) ->
  exec_am cx ix w = Ok (u, w') -> am_refines cx ix w w'.
Proof.
  intros Hrun Hwf. destruct ix; simpl.
  - by apply am_initialize_refines.
  - by apply grant_role_refines.
  - by apply revoke_role_refines.
  - by apply renounce_role_refines.
  - by apply upgrade_program_refines.
  - by apply propose_refines.
  - by apply accept_refines.
  - by apply cancel_refines.
  - by apply set_whitelisted_programs_refines.
  - by apply claim_refines.
Qed.

(** ** Reachable states *)

(** From a ledger without the registry, by instructions of the program
    interleaved with anything the other programs do. *)
Inductive am_reachable : World -> Prop :=
| am_start w : registry w None -> own_log ACCESS_MANAGER_ID w = [] -> am_reachable w
| am_other w w' : am_reachable w -> others ACCESS_MANAGER_ID w w' -> am_reachable w'
| am_instruction w cx ix w' :
    am_reachable w -> running cx ACCESS_MANAGER_ID -> exec_am cx ix w = Ok ((), w') ->
    am_reachable w'.

(** Proposals of a handover of [t] to [n] in the log, and their settlements:
    the authority was set, or the proposal cancelled. *)
Definition is_proposal (t n : Pubkey) (e : LogEntry) : bool :=
  match e with
  | LEvent _ (UpgradeAuthorityTransferProposedEvent t' _ n' _) => bool_decide (t' = t /\ n' = n)
  | _ => false
  end.
Definition is_settlement (t n : Pubkey) (e : LogEntry) : bool :=
  match e with
  | LInvoke _ _ (IxLoaderSetUpgradeAuthority t' _ n') => bool_decide (t' = t /\ n' = n)
  | LEvent _ (UpgradeAuthorityTransferCancelledEvent t' n' _) => bool_decide (t' = t /\ n' = n)
  | _ => false
  end.
Definition is_pending (t n : Pubkey) (p : PendingAuthorityTransfer) : bool :=
  bool_decide (pat_target_program p = t /\ pat_new_authority p = n).

Definition pendings (o : option AccessManager) : list PendingAuthorityTransfer :=
  match o with Some am => am_pending_authority_transfers am | None => [] end.

Lemma revoke_role_keeps am r a am' :
  AccessManager_revoke_role am r a = Ok am' ->
  am_pending_authority_transfers am' = am_pending_authority_transfers am.
Proof.
  unfold AccessManager_revoke_role. destruct (_ && _); [done|].
  rewrite result_bind_ok. setoid_rewrite result_bind_ok. setoid_rewrite result_bind_ok.
  by intros (? & _ & ? & _ & ? & _ & [= <-]).
Qed.

Lemma am_trans_counts cx w ix o am' l t n :
  am_trans cx w ix o am' l ->
  (count (is_proposal t n) l + count (is_pending t n) (pendings o) =
   count (is_settlement t n) l + count (is_pending t n) (am_pending_authority_transfers am'))%nat /\
  forall p, p `prefix_of` l ->
    (count (is_settlement t n) p <= count (is_proposal t n) p + count (is_pending t n) (pendings o))%nat.
Proof.
  assert (forall t0 n0, is_pending t n (mkPendingAuthorityTransfer t0 n0) =
    bool_decide (t0 = t /\ n0 = n)) as Hmk by done.
  assert (forall (e : LogEntry) p, p `prefix_of` [e] -> p = [] \/ p = [e]) as H1.
  { intros e [|x [|]] [k E]; simplify_eq/=; auto. }
  assert (forall (e e' : LogEntry) p, p `prefix_of` [e; e'] -> p = [] \/ p = [e] \/ p = [e; e']) as H2.
  { intros e e' [|x [|y [|]]] [k E]; simplify_eq/=; auto. }
  intros Ht. destruct Ht as
    [acc admin|am acc r a|am am' acc r a _ _ Hrev|am am' acc r _ _ Hrev|am acc wl
    |am acc t0 n0|am acc t0 n0 q Hau E|am acc t0 q Hn E|am|am]; simpl.
  - split; [done|]. intros p ->%prefix_nil_inv. done.
  - split; [by unfold AccessManager_grant_role; destruct (position _ _)|].
    intros p [-> | ->]%H1; simpl; lia.
  - rewrite (revoke_role_keeps _ _ _ _ Hrev). split; [done|]. intros p [-> | ->]%H1; simpl; lia.
  - rewrite (revoke_role_keeps _ _ _ _ Hrev). split; [done|]. intros p [-> | ->]%H1; simpl; lia.
  - split; [done|]. intros p [-> | ->]%H1; simpl; lia.
  - rewrite count_app. simpl. rewrite Hmk. split; [lia|]. intros p [-> | ->]%H1; simpl; lia.
  - split; [rewrite E; simpl; rewrite Hmk; lia|].
    intros p [-> | ->]%H1; rewrite E; simpl; rewrite Hmk; lia.
  - split; [rewrite E; simpl; rewrite Hmk; lia|].
    intros p [-> |[-> | ->]]%H2; rewrite E; simpl; rewrite Hmk; lia.
  - split; [done|]. intros p [-> |[-> | ->]]%H2; simpl; lia.
  - split; [done|]. intros p [-> |[-> | ->]]%H2; simpl; lia.
Qed.

Definition am_inv (w : World) : Prop :=
  exists o, registry w o /\ (forall am, o = Some am -> am_wf am /\ 0 < lam w AM_KEY) /\
    (forall t n, (count (is_settlement t n) (own_log ACCESS_MANAGER_ID w) +
                  count (is_pending t n) (pendings o) =
                  count (is_proposal t n) (own_log ACCESS_MANAGER_ID w))%nat) /\
    (forall t n p, p `prefix_of` own_log ACCESS_MANAGER_ID w ->
       (count (is_settlement t n) p <= count (is_proposal t n) p)%nat).

Lemma registry_others w w' o :
  registry w o -> (forall am, o = Some am -> 0 < lam w AM_KEY) ->
  others ACCESS_MANAGER_ID w w' ->
  registry w' o /\ (forall am, o = Some am -> 0 < lam w' AM_KEY).
Proof.
  intros Hreg Hpos Ho. destruct o as [am|].
  - destruct (others_keep _ _ _ AM_KEY Ho (AM_KEY_protected w) (Hpos am eq_refl)) as [E Hl].
    split; [|by intros]. simpl. by rewrite E.
  - split; [|done]. by eapply others_keep_None; [|apply AM_KEY_protected|].
Qed.

Lemma registry_det_opt w o am : registry w o -> registry w (Some am) -> o = Some am.
Proof.
  intros Ho Ha. destruct o as [am'|]; [f_equal; by eapply registry_det|].
  destruct Ha as (a & E & _). simpl in Ho. congruence.
Qed.

Lemma am_inv_refines cx ix w w' : am_inv w -> am_refines cx ix w w' -> am_inv w'.
Proof.
  intros (o & Ho & Hwf & Hc & Hp) (o' & am' & l & Ht & Ho' & Hreg & Hlog & Hpos & _).
  assert (o' = o) as ->.
  { destruct o' as [am|]; [by symmetry; eapply registry_det_opt|].
    destruct o as [am|]; [|done]. by apply (registry_det_opt w None am). }
  exists (Some am'). rewrite Hlog. split_and!; [done| | |].
  - intros am [= <-]. split.
    + eapply am_trans_wf; [|done]. intros. by apply Hwf.
    + apply Hpos. destruct o as [am|]; [right|by left]. by apply (Hwf am).
  - intros t n. destruct (am_trans_counts _ _ _ _ _ _ t n Ht) as [E _].
    specialize (Hc t n). rewrite !count_app. simpl. lia.
  - intros t n p [Hq|(q & -> & Hq)]%prefix_app_cases; [by apply Hp|].
    destruct (am_trans_counts _ _ _ _ _ _ t n Ht) as [_ Hle]. specialize (Hle q Hq).
    specialize (Hc t n). rewrite !count_app. lia.
Qed.

Lemma am_reachable_inv `{!AmDeployed} w : am_reachable w -> am_inv w.
Proof.
  induction 1 as [w Hn Hl|w w' _ (o & Ho & Hwf & Hc & Hp) F|w cx ix w' _ IH Hrun Hx].
  - exists None. rewrite Hl. split_and!; try done. by intros t n p ->%prefix_nil_inv.
  - exists o. rewrite (others_own_log _ _ _ F).
    edestruct registry_others as [Hreg Hl]; [exact Ho|by intros; eapply Hwf|exact F|].
    split_and!; try done. intros am E. split; [by apply Hwf|by eapply Hl].
  - eapply am_inv_refines; [done|]. eapply exec_am_refines; [done| |done].
    intros am Ham. destruct IH as (o & Ho & Hwf & _). apply Hwf. by eapply registry_det_opt.
Qed.

(** ** The abstract registry *)

(** What the program promises, without the tables it keeps: who holds which
    role, which programs may call through, and which handovers are pending. *)
Record Registry := mkRegistry {
  reg_roles : gset (Z * Pubkey);
  reg_whitelist : list Pubkey;
  reg_pending : gmap Pubkey Pubkey }.

Definition pending_pair (p : PendingAuthorityTransfer) : Pubkey * Pubkey :=
  (pat_target_program p, pat_new_authority p).

Definition abstraction (am : AccessManager) : Registry :=
  mkRegistry (role_set am) (am_whitelisted_programs am)
    (list_to_map (pending_pair <$> am_pending_authority_transfers am)).

(** The abstract registry of a ledger, if there is one. *)
Definition holds_registry (w : World) (o : option Registry) : Prop :=
  exists c, registry w c /\ o = abstraction <$> c.

(** [s] signed and holds role [r], at the top level or through a whitelisted
    program. *)
Definition acts_as (cx : CallCtx) (g : Registry) (r : Z) (s : Pubkey) : Prop :=
  s ∈ cx_signers cx /\ called_from cx (reg_whitelist g) ACCESS_MANAGER_ID /\ (r, s) ∈ reg_roles g.

(** The pair can go: it is there, and it is not the last admin. *)
Definition removable (g : Registry) (r : Z) (a : Pubkey) : Prop :=
  (r, a) ∈ reg_roles g /\ (r = ADMIN_ROLE -> exists b, b <> a /\ (ADMIN_ROLE, b) ∈ reg_roles g).

Definition with_roles (g : Registry) (R : gset (Z * Pubkey)) : Registry :=
  mkRegistry R (reg_whitelist g) (reg_pending g).
Definition with_pending (g : Registry) (P : gmap Pubkey Pubkey) : Registry :=
  mkRegistry (reg_roles g) (reg_whitelist g) P.

(** What each instruction does to the registry it finds: the consent it needs,
    the registry it leaves and its log entries, all with its own arguments. *)
Inductive am_spec (cx : CallCtx) (w : World)
    : AmIx -> option Registry -> Registry -> list LogEntry -> Prop :=
| S_initialize acc admin :
    cx_stack cx = [ACCESS_MANAGER_ID] -> ai_authority acc ∈ cx_signers cx ->
    upgrade_authority_of w ACCESS_MANAGER_ID (ai_authority acc) ->
    am_spec cx w (AmInitialize acc admin) None (mkRegistry {[(ADMIN_ROLE, admin)]} [] ∅) []
| S_grant g acc r a :
    acts_as cx g ADMIN_ROLE (aa_admin acc) -> a <> Pubkey_default -> r <> PUBLIC_ROLE ->
    am_spec cx w (AmGrantRole acc r a) (Some g) (with_roles g ({[(r, a)]} ∪ reg_roles g))
      [LEvent ACCESS_MANAGER_ID (RoleGrantedEvent r a (aa_admin acc))]
| S_revoke g acc r a :
    acts_as cx g ADMIN_ROLE (aa_admin acc) -> r <> PUBLIC_ROLE -> removable g r a ->
    am_spec cx w (AmRevokeRole acc r a) (Some g) (with_roles g (reg_roles g ∖ {[(r, a)]}))
      [LEvent ACCESS_MANAGER_ID (RoleRevokedEvent r a (aa_admin acc))]
| S_renounce g acc r :
    acts_as cx g r (aa_admin acc) -> r <> PUBLIC_ROLE -> removable g r (aa_admin acc) ->
    am_spec cx w (AmRenounceRole acc r) (Some g) (with_roles g (reg_roles g ∖ {[(r, aa_admin acc)]}))
      [LEvent ACCESS_MANAGER_ID (RoleRevokedEvent r (aa_admin acc) (aa_admin acc))]
| S_whitelist g acc l :
    acts_as cx g ADMIN_ROLE (aa_admin acc) -> NoDup l ->
    am_spec cx w (AmSetWhitelistedPrograms acc l) (Some g) (mkRegistry (reg_roles g) l (reg_pending g))
      [LEvent ACCESS_MANAGER_ID (WhitelistedProgramsUpdatedEvent (reg_whitelist g) l (aa_admin acc))]
| S_propose g acc t n :
    acts_as cx g ADMIN_ROLE (aa_admin acc) ->
    n <> Pubkey_default -> n <> upgrade_authority_pda t ACCESS_MANAGER_ID ->
    reg_pending g !! t = None -> (size (reg_pending g) < 16)%nat ->
    am_spec cx w (AmProposeUpgradeAuthorityTransfer acc t n) (Some g)
      (with_pending g (<[t := n]> (reg_pending g)))
      [LEvent ACCESS_MANAGER_ID (UpgradeAuthorityTransferProposedEvent t
         (upgrade_authority_pda t ACCESS_MANAGER_ID) n (aa_admin acc))]
| S_cancel g acc t n :
    acts_as cx g ADMIN_ROLE (aa_admin acc) -> reg_pending g !! t = Some n ->
    am_spec cx w (AmCancelUpgradeAuthorityTransfer acc t) (Some g)
      (with_pending g (delete t (reg_pending g)))
      [LEvent ACCESS_MANAGER_ID (UpgradeAuthorityTransferCancelledEvent t n (aa_admin acc))]
| S_accept g acc t :
    ac_new_authority acc ∈ cx_signers cx -> reg_pending g !! t = Some (ac_new_authority acc) ->
    am_spec cx w (AmAcceptUpgradeAuthorityTransfer acc t) (Some g)
      (with_pending g (delete t (reg_pending g)))
      [LInvoke ACCESS_MANAGER_ID BPF_LOADER_UPGRADEABLE_ID
         (IxLoaderSetUpgradeAuthority t (upgrade_authority_pda t ACCESS_MANAGER_ID)
            (ac_new_authority acc));
       LEvent ACCESS_MANAGER_ID (UpgradeAuthorityTransferredEvent t
         (upgrade_authority_pda t ACCESS_MANAGER_ID) (ac_new_authority acc) (ac_new_authority acc))]
| S_upgrade g acc t :
    acts_as cx g ADMIN_ROLE (ua_authority acc) ->
    owner_of w t = BPF_LOADER_UPGRADEABLE_ID -> is_executable w t = true ->
    owner_of w (ua_buffer acc) = BPF_LOADER_UPGRADEABLE_ID ->
    am_spec cx w (AmUpgradeProgram acc t) (Some g) g
      [LInvoke ACCESS_MANAGER_ID BPF_LOADER_UPGRADEABLE_ID
         (IxLoaderUpgrade t (ua_buffer acc) (upgrade_authority_pda t ACCESS_MANAGER_ID) (ua_spill acc));
       LEvent ACCESS_MANAGER_ID (ProgramUpgradedEvent t (ua_authority acc) (w_clock w))]
| S_claim g acc t :
    acts_as cx g ADMIN_ROLE (ca_admin acc) ->
    ca_source_access_manager_program acc <> ACCESS_MANAGER_ID ->
    am_spec cx w (AmClaimUpgradeAuthority acc t) (Some g) g
      [LInvoke ACCESS_MANAGER_ID (ca_source_access_manager_program acc)
         (IxAcceptUpgradeAuthorityTransfer t);
       LEvent ACCESS_MANAGER_ID (UpgradeAuthorityClaimedEvent t (ca_source_access_manager_program acc)
         (upgrade_authority_pda t ACCESS_MANAGER_ID))].

Lemma acts_as_intro cx am r s :
  roles_wf (am_roles am) -> r <> PUBLIC_ROLE -> authorized cx am r s ACCESS_MANAGER_ID ->
  acts_as cx (abstraction am) r s.
Proof. intros Hwf Hr (? & ? & [|?]%has_role_spec); [|done..]. by split_and!. Qed.

Lemma abstraction_grant am r a :
  roles_wf (am_roles am) ->
  abstraction (AccessManager_grant_role am r a) =
    with_roles (abstraction am) ({[(r, a)]} ∪ reg_roles (abstraction am)).
Proof.
  intros Hwf. unfold abstraction, with_roles. simpl. rewrite role_set_grant by done.
  unfold AccessManager_grant_role. by destruct (position _ _).
Qed.

Lemma abstraction_revoke am r a am' :
  roles_wf (am_roles am) -> AccessManager_revoke_role am r a = Ok am' ->
  removable (abstraction am) r a /\
  abstraction am' = with_roles (abstraction am) (reg_roles (abstraction am) ∖ {[(r, a)]}).
Proof.
  intros Hwf (_ & Hin & Hset & E & Hla)%revoke_role_Ok; [|done]. split.
  - split; [done|]. intros ->. apply is_last_admin_false in Hla; [|done..]. eauto.
  - unfold abstraction, with_roles. simpl. rewrite Hset. by rewrite E.
Qed.

Lemma pending_targets l : (pending_pair <$> l).*1 = pat_target_program <$> l.
Proof. by rewrite <- list_fmap_compose. Qed.

(** A pending transfer taken out of the list. *)
Lemma abstraction_settle am t n rest :
  NoDup (pat_target_program <$> am_pending_authority_transfers am) ->
  am_pending_authority_transfers am ≡ₚ mkPendingAuthorityTransfer t n :: rest ->
  reg_pending (abstraction am) !! t = Some n /\
  abstraction (set_pending am rest) =
    with_pending (abstraction am) (delete t (reg_pending (abstraction am))).
Proof.
  intros Hnd E. assert (reg_pending (abstraction am) =
    <[t := n]> (list_to_map (pending_pair <$> rest))) as Hp.
  { unfold abstraction. cbn [reg_pending].
    change (<[t := n]> (list_to_map (pending_pair <$> rest)) : gmap Pubkey Pubkey)
      with (list_to_map (pending_pair <$> (mkPendingAuthorityTransfer t n :: rest)) : gmap Pubkey Pubkey).
    apply list_to_map_proper; [by rewrite pending_targets|by rewrite E]. }
  rewrite E, fmap_cons, NoDup_cons in Hnd. destruct Hnd as [Hn _]. simpl in Hn.
  rewrite Hp, lookup_insert_eq. split; [done|]. unfold with_pending, abstraction. simpl.
  rewrite delete_insert_id; [done|]. apply not_elem_of_list_to_map_1. by rewrite pending_targets.
Qed.

(** A new one at its end. *)
Lemma abstraction_propose am t n :
  NoDup (pat_target_program <$> am_pending_authority_transfers am) ->
  t ∉ pat_target_program <$> am_pending_authority_transfers am ->
  (length (am_pending_authority_transfers am) < MAX_PENDING_TRANSFERS)%nat ->
  reg_pending (abstraction am) !! t = None /\ (size (reg_pending (abstraction am)) < 16)%nat /\
  abstraction (set_pending am (am_pending_authority_transfers am ++ [mkPendingAuthorityTransfer t n])) =
    with_pending (abstraction am) (<[t := n]> (reg_pending (abstraction am))).
Proof.
  intros Hnd Hn Hlen. split_and!.
  - apply not_elem_of_list_to_map_1. by rewrite pending_targets.
  - cbn [reg_pending abstraction]. rewrite map_size_list_to_map by (by rewrite pending_targets).
    by rewrite length_fmap.
  - unfold with_pending, abstraction. simpl. f_equal. rewrite fmap_app.
    change (pending_pair <$> [mkPendingAuthorityTransfer t n]) with [(t, n)].
    by rewrite list_to_map_snoc by (by rewrite pending_targets).
Qed.

Lemma admin_not_public : ADMIN_ROLE <> PUBLIC_ROLE.
Proof. done. Qed.

(** The stored registry implements the abstract one. *)
Lemma am_trans_spec cx w ix o am' l :
  (forall am, o = Some am -> am_wf am) -> am_trans cx w ix o am' l ->
  am_spec cx w ix (abstraction <$> o) (abstraction am') l.
Proof.
  intros Hwf Ht. destruct Ht as
    [acc admin|am acc r a Hau Ha Hr|am am' acc r a Hau Hr Hrev|am am' acc r Hau Hr Hrev|am acc wl Hau Hnd
    |am acc t n Hau Hn Hs Hlen Hnew|am acc t n p Hau E|am acc t p Hn E|am acc t Hau|am acc t Hau];
    [|destruct (Hwf am eq_refl) as [Hro _ _ Htg _ _]..];
    try (apply acts_as_intro in Hau; [|done..]); simpl.
  - assert (abstraction (AccessManager_grant_role (mkAccessManager [] [] []) ADMIN_ROLE admin) =
      mkRegistry {[(ADMIN_ROLE, admin)]} [] ∅) as ->; [|by apply S_initialize].
    rewrite abstraction_grant by (split; constructor). unfold with_roles. simpl. f_equal.
    unfold role_set. simpl. by rewrite (right_id_L ∅ (∪)).
  - rewrite abstraction_grant by done. by apply S_grant.
  - apply abstraction_revoke in Hrev as [? ->]; [|done]. by apply S_revoke.
  - apply abstraction_revoke in Hrev as [? ->]; [|done]. by apply S_renounce.
  - by apply (S_whitelist _ _ (abstraction am)).
  - destruct (abstraction_propose am t n Htg Hnew Hlen) as (? & ? & ->). by apply S_propose.
  - destruct (abstraction_settle am t n p Htg E) as [? ->]. by apply S_cancel.
  - destruct (abstraction_settle am t _ p Htg E) as [? ->]. by apply S_accept.
  - by apply S_upgrade.
  - by apply S_claim.
Qed.

(** C19: the access manager implements the abstract registry.  In a reachable
    state, an instruction that succeeds does to the abstract registry (the set
    of role holders, the whitelist and the map of pending handovers) what the
    specification says for that instruction and its own accounts and
    arguments: the account it names signed and holds the role it needs (or is
    the pending authority), granting adds exactly the pair, revoking and
    renouncing remove exactly the pair and never the last admin, a proposal
    adds its target and a cancellation or acceptance removes it; it adds
    exactly the specified log entries, and touches no other account of the
    program (the upgrade authorities, which sign its calls to the loader and
    to another manager, apart). *)
Theorem am_instructions_refine_spec `{!AmDeployed} cx ix w w'
    (Hreach : am_reachable w) (Hrun : running cx ACCESS_MANAGER_ID)
    (Hexec : exec_am cx ix w = Ok ((), w')) :
  exists o g' l, am_spec cx w ix o g' l /\ holds_registry w o /\ holds_registry w' (Some g') /\
    own_log ACCESS_MANAGER_ID w' = own_log ACCESS_MANAGER_ID w ++ l /\
    forall k, kept w k -> k <> AM_KEY -> w_accts w' !! k = w_accts w !! k.
Proof.
  apply am_reachable_inv in Hreach as (o & Ho & Hwf & _).
  assert (forall am, registry w (Some am) -> am_wf am) as Hall
    by (intros am Ham; apply Hwf; by eapply registry_det_opt).
  eapply exec_am_refines in Hexec as (o' & am' & l & Ht & Hreg & Hreg' & Hlog & _ & Hsame); [|done..].
  exists (abstraction <$> o'), (abstraction am'), l. split_and!; [|by exists o'|by exists (Some am')|done|done].
  apply am_trans_spec; [|done]. intros am ->. by apply Hall.
Qed.

(** In every reachable state the registry, once created, is well formed:
    it has an admin (the last one can never be removed), one entry per role
    and no duplicate member, no duplicate whitelist entry, and at most sixteen
    pending authority transfers, for different programs, none of them to the
    zero key or back to the program's own authority. *)
Theorem am_registry_always_wf `{!AmDeployed} w (Hreach : am_reachable w) :
  registry w None \/
  exists am, registry w (Some am) /\ (exists admin, has_role am ADMIN_ROLE admin = true) /\
    roles_wf (am_roles am) /\ NoDup (am_whitelisted_programs am) /\
    NoDup (pat_target_program <$> am_pending_authority_transfers am) /\
    (length (am_pending_authority_transfers am) <= MAX_PENDING_TRANSFERS)%nat /\
    Forall (fun p => pat_new_authority p <> Pubkey_default /\
      pat_new_authority p <> upgrade_authority_pda (pat_target_program p) ACCESS_MANAGER_ID)
      (am_pending_authority_transfers am).
Proof.
  apply am_reachable_inv in Hreach as ([am|] & Ho & Hwf & _); [|by left].
  right. exists am. destruct (Hwf am eq_refl) as [[? [b Hb] ? ? ? ?] _]. split_and!; try done.
  exists b. apply has_role_spec; auto.
Qed.

(** At any point of any history, the handovers of an upgrade authority
    that were executed or cancelled are at most the ones that were proposed:
    the loader is asked to give the authority over [t] to [n] only after an
    admin proposed exactly that, once per proposal. *)
Theorem upgrade_authority_handover_proposed `{!AmDeployed} w t n p
    (Hreach : am_reachable w) (Hp : p `prefix_of` own_log ACCESS_MANAGER_ID w) :
  (count (is_settlement t n) p <= count (is_proposal t n) p)%nat.
Proof. apply am_reachable_inv in Hreach as (o & _ & _ & _ & Hle). by apply Hle. Qed.

(** Who can change the registry.  In one instruction, a role is only
    added, the whitelist only changed and a transfer only proposed by an
    admin who signed; a role is only removed by such an admin or by its
    holder; a pending transfer only disappears by an admin or by the new
    authority it names; and an admin always acts at the top level or directly
    through a whitelisted program. *)
Theorem am_changes_authorized `{!AmDeployed} cx ix w w' am am'
    (Hreach : am_reachable w) (Hrun : running cx ACCESS_MANAGER_ID)
    (Hexec : exec_am cx ix w = Ok ((), w'))
    (Hpre : registry w (Some am)) (Hpost : registry w' (Some am')) :
  let by_admin := exists s, authorized cx am ADMIN_ROLE s ACCESS_MANAGER_ID in
  (forall x, x ∈ role_set am' -> x ∉ role_set am -> by_admin) /\
  (forall r a, (r, a) ∈ role_set am -> (r, a) ∉ role_set am' ->
     by_admin \/ authorized cx am r a ACCESS_MANAGER_ID) /\
  (am_whitelisted_programs am' <> am_whitelisted_programs am -> by_admin) /\
  (forall p, p ∈ am_pending_authority_transfers am' ->
     p ∉ am_pending_authority_transfers am -> by_admin) /\
  (forall p, p ∈ am_pending_authority_transfers am ->
     p ∉ am_pending_authority_transfers am' ->
     by_admin \/ pat_new_authority p ∈ cx_signers cx).
Proof.
  intros by_admin. apply am_reachable_inv in Hreach as (o & Ho & Hwf & _).
  assert (o = Some am) as -> by by eapply registry_det_opt.
  apply exec_am_refines in Hexec as (o & am1 & l & Ht & Ho' & Hreg & _); [|done|].
  2: { intros am0 Ham. apply Hwf. by eapply registry_det_opt. }
  pose proof (registry_det_opt _ _ _ Ho' Hpre) as ->.
  pose proof (registry_det _ _ _ Hreg Hpost) as ->.
  destruct (Hwf am eq_refl) as [Hwf' _]. clear Hwf. rename Hwf' into Hwf.
  remember (Some am) as o eqn:E.
  destruct Ht as
    [|am0 acc r a Hau|am0 am' acc r a Hau Hr Hrev|am0 am' acc r Hau Hr Hrev|am0 acc wl Hau|am0 acc t n Hau
    |am0 acc t n p Hau|am0 acc t p Hn Hperm|am0|am0]; simplify_eq;
    try (by split_and!); try (assert by_admin by (by eexists); by split_and!; auto).
  - apply revoke_role_Ok in Hrev as (_ & _ & Hset & -> & _); [|by apply Hwf].
    change (role_set (set_roles am (am_roles am'))) with (role_set am') in *. rewrite Hset.
    split_and!; try done; [by intros x [? _]%elem_of_difference ?|].
    intros r0 a0 Hin Hn. right. destruct (decide ((r0, a0) = (r, aa_admin acc))) as [[= -> ->]|Hne]; [done|].
    exfalso. by apply Hn, elem_of_difference; rewrite elem_of_singleton.
  - split_and!; try by intros.
    + intros q Hq Hn'. exfalso. apply Hn'. rewrite Hperm. by right.
    + intros q Hq Hn'. rewrite Hperm, elem_of_cons in Hq. destruct Hq as [->|]; by auto.
Qed.

End Spec.

(** ** A concrete history

    A platform on which the loader accepts every call, and the history of a
    registry: its creation, the proposal of a handover and its acceptance. *)
Module AmExample.

Definition loader_answers (prog : Pubkey) (ix : CpiIx) : option bytes :=
  if bool_decide (prog = BPF_LOADER_UPGRADEABLE_ID) then Some [] else None.

#[local] Instance platform : Platform := toy_platform (answering loader_answers).
#[local] Instance platform_ok : PlatformOk := answering_ok loader_answers.

#[local] Instance deployed : AmDeployed.
Proof. intros cx metas t w w' k1 k2 k3 k4 k5 Hp. by vm_compute in Hp. Qed.

Definition admin : Pubkey := pubkey_of_Z 1.
Definition deployer : Pubkey := pubkey_of_Z 2.
Definition heir : Pubkey := pubkey_of_Z 3.
Definition target : Pubkey := pubkey_of_Z 4.
Definition upgrade_authority : Pubkey := upgrade_authority_pda target ACCESS_MANAGER_ID.
Definition program_data : Pubkey := pda_key [target] BPF_LOADER_UPGRADEABLE_ID.
Definition own_program_data : Pubkey := pda_key [ACCESS_MANAGER_ID] BPF_LOADER_UPGRADEABLE_ID.

Definition w0 : World := mkWorld
  {[own_program_data := mkAccount BPF_LOADER_UPGRADEABLE_ID (DProgramData (Some deployer)) 100 false]}
  {[deployer := 1000000%N]} 1700000000 None [].

Definition cx : CallCtx := mkCallCtx [ACCESS_MANAGER_ID]
  {[admin; deployer; heir]} {[AM_KEY; deployer; program_data]}.

Definition admin_accs : AdminAccounts := mkAdminAccounts AM_KEY admin INSTRUCTIONS_SYSVAR_ID.
Definition ix1 : AmIx := AmInitialize (mkAmInitializeAccounts AM_KEY deployer SYSTEM_PROGRAM_ID
  INSTRUCTIONS_SYSVAR_ID own_program_data deployer) admin.
Definition ix2 : AmIx := AmProposeUpgradeAuthorityTransfer admin_accs target heir.
Definition ix3 : AmIx := AmAcceptUpgradeAuthorityTransfer
  (mkAcceptAuthorityAccounts AM_KEY program_data upgrade_authority heir BPF_LOADER_UPGRADEABLE_ID) target.

Definition w1 : World := run_tx (exec_am cx ix1) w0.
Definition w2 : World := run_tx (exec_am cx ix2) w1.
Definition w3 : World := run_tx (exec_am cx ix3) w2.

(** The registry stored in a ledger. *)
Definition stored (w : World) : AccessManager :=
  match w_accts w !! AM_KEY with
  | Some (mkAccount _ (DAccessManager am) _ _) => am
  | _ => mkAccessManager [] [] []
  end.
Definition stored_ok (w : World) : bool :=
  match w_accts w !! AM_KEY with
  | Some (mkAccount o (DAccessManager am) _ _) => bool_decide (o = ACCESS_MANAGER_ID)
  | _ => false
  end.

Lemma stored_registry w : stored_ok w = true -> registry w (Some (stored w)).
Proof.
  unfold stored_ok, stored. simpl. destruct (w_accts w !! AM_KEY) as [[o [] sp x]|]; try done.
  intros Ho%bool_decide_eq_true. eauto.
Qed.

Lemma am_runs : running cx ACCESS_MANAGER_ID.
Proof. apply toy_running. by vm_compute. Qed.

Lemma w2_reachable : am_reachable w2.
Proof.
  apply am_instruction with w1 cx ix2; [|exact am_runs|by apply run_tx_Ok; vm_compute].
  apply am_instruction with w0 cx ix1; [|exact am_runs|by apply run_tx_Ok; vm_compute].
  apply am_start; by vm_compute.
Qed.

Lemma accept_runs : exec_am cx ix3 w2 = Ok ((), w3).
Proof. apply run_tx_Ok. by vm_compute. Qed.

Lemma w3_reachable : am_reachable w3.
Proof. exact (am_instruction w2 cx ix3 w3 w2_reachable am_runs accept_runs). Qed.

Lemma role_table_refines_set_witness :
  has_role (stored w3) ADMIN_ROLE admin = true /\
  ((ADMIN_ROLE, admin) ∈ role_set (stored w3)) /\
  AccessManager_revoke_role (stored w3) ADMIN_ROLE admin =
    Err (EAccessManager AccessManagerErr.CannotRemoveLastAdmin).
Proof.
  assert (roles_wf (am_roles (stored w3))) as Hwf.
  { change (am_roles (stored w3)) with [mkRoleData ADMIN_ROLE [admin]].
    split; [apply NoDup_singleton|]. repeat constructor; [set_solver|done]. }
  assert (has_role (stored w3) ADMIN_ROLE admin = true) as Hr by by vm_compute.
  split_and!; [exact Hr| |by vm_compute].
  exact (proj1 (proj1 (role_table_refines_set (stored w3) ADMIN_ROLE admin Hwf ltac:(done))) Hr).
Defined.

Lemma am_instructions_refine_spec_witness :
  exists o g' l, am_spec cx w2 ix3 o g' l /\ holds_registry w2 o /\ holds_registry w3 (Some g') /\
    own_log ACCESS_MANAGER_ID w3 = own_log ACCESS_MANAGER_ID w2 ++ l.
Proof.
  destruct (am_instructions_refine_spec cx ix3 w2 w3 w2_reachable am_runs accept_runs)
    as (o & g' & l & Ht & Ho & Hreg & Hlog & _).
  exists o, g', l. exact (conj Ht (conj Ho (conj Hreg Hlog))).
Defined.

Lemma am_registry_always_wf_witness :
  exists am, registry w3 (Some am) /\ exists a, has_role am ADMIN_ROLE a = true.
Proof.
  destruct (am_registry_always_wf w3 w3_reachable) as [Hn|(am & Hreg & Ha & _)].
  - exfalso. by vm_compute in Hn.
  - exact (ex_intro _ am (conj Hreg Ha)).
Defined.

Lemma upgrade_authority_handover_proposed_witness :
  count (is_settlement target heir) (own_log ACCESS_MANAGER_ID w3) = 1%nat /\
  (1 <= count (is_proposal target heir) (own_log ACCESS_MANAGER_ID w3))%nat.
Proof.
  assert (count (is_settlement target heir) (own_log ACCESS_MANAGER_ID w3) = 1%nat) as E
    by by vm_compute.
  split; [exact E|]. rewrite <- E.
  exact (upgrade_authority_handover_proposed w3 target heir _ w3_reachable (reflexivity _)).
Defined.

Lemma am_changes_authorized_witness :
  am_pending_authority_transfers (stored w2) = [mkPendingAuthorityTransfer target heir] /\
  am_pending_authority_transfers (stored w3) = [] /\ (heir ∈ cx_signers cx) /\
  (forall p, p ∈ am_pending_authority_transfers (stored w2) ->
     p ∉ am_pending_authority_transfers (stored w3) ->
     (exists s, authorized cx (stored w2) ADMIN_ROLE s ACCESS_MANAGER_ID) \/
     pat_new_authority p ∈ cx_signers cx).
Proof.
  split; [by vm_compute|]. split; [by vm_compute|]. split; [set_solver|].
  exact (proj2 (proj2 (proj2 (proj2 (am_changes_authorized cx ix3 w2 w3 _ _ w2_reachable am_runs
    accept_runs (stored_registry w2 ltac:(by vm_compute))
    (stored_registry w3 ltac:(by vm_compute))))))).
Defined.

End AmExample.
