(* ===== verification/Keyed.v ===== *)
(** * Programs with named accounts

    What the specifications of the programs share.  A program keeps its state
    in accounts at derived addresses; a specification names them by keys
    ([addr] maps a key to its address, [typed] says which keys are possible)
    and describes an instruction by the keys it changes and by the log entries
    it leaves ([evol_at]).  [reach_at] closes a program's steps under anything
    the other programs do, and [reach_at_induct] is the induction principle
    for its invariants. *)

From S2P Require Import Prelude Errors Types Runtime Cpi AccessManager AccessManagerSpec.
From Stdlib Require Import ZArith Lia.
From stdpp Require Import prelude gmap list.

#[local] Open Scope Z_scope.

(** An account of [program] holding [d]. *)
Definition held (program : Pubkey) (w : World) (k : Pubkey) (d : AccountData) : Prop :=
  exists a, w_accts w !! k = Some a /\ acc_owner a = program /\ acc_data a = d.

Definition funded (w : World) (k : Pubkey) : Prop := w_accts w !! k = None \/ 0 < lam w k.

(** The accounts of programs other than [program] are those of [w]. *)
Definition foreign_to (program : Pubkey) (w w' : World) : Prop :=
  forall k a, w_accts w !! k = Some a -> acc_owner a <> program -> w_accts w' !! k = Some a.

#[export] Instance foreign_to_refl p : Reflexive (foreign_to p).
Proof. by intros w k a. Qed.
#[export] Instance foreign_to_trans p : Transitive (foreign_to p).
Proof. intros w1 w2 w3 H1 H2 k a Hk Ho. apply H2; [by apply H1|done]. Qed.

(** The program's addresses are derived from it, and different keys have
    different addresses. *)
Class KeysOk `{Platform} {Key : Type} (program : Pubkey) (addr : Key -> Pubkey) (typed : Key -> Prop)
    : Prop := {
  addr_pda K : is_pda program (addr K);
  addr_inj K K' : typed K -> typed K' -> addr K = addr K' -> K = K' }.

(** ** What a step leaves alone *)

Section Keyed.
Context `{Platform} {Key : Type} `{EqDecision Key}.
Context {program : Pubkey} {addr : Key -> Pubkey} {typed : Key -> Prop}.

(** From [w] to [w'] the program added [l] to the log, only the keys [ks] may
    have changed, and no account lost its rent. *)
Record evol_at (ks : list Key) (l : list LogEntry) (w w' : World) : Prop := {
  ev_log : own_log program w' = own_log program w ++ l;
  ev_same K : typed K -> K ∉ ks -> w_accts w' !! addr K = w_accts w !! addr K;
  ev_funded K : typed K -> funded w (addr K) -> funded w' (addr K);
  ev_grow : w_log w `prefix_of` w_log w' }.

Lemma evol_refl w : evol_at [] [] w w.
Proof. constructor; [by rewrite app_nil_r|done|done|done]. Qed.

Lemma evol_trans ks1 l1 ks2 l2 w w1 w2 :
  evol_at ks1 l1 w w1 -> evol_at ks2 l2 w1 w2 -> evol_at (ks1 ++ ks2) (l1 ++ l2) w w2.
Proof.
  intros [L1 S1 F1 G1] [L2 S2 F2 G2]. constructor.
  - by rewrite L2, L1, app_assoc.
  - intros K HK Hn. rewrite not_elem_of_app in Hn. rewrite S2, S1; naive_solver.
  - auto.
  - by etrans.
Qed.

Lemma evol_weaken ks ks' l w w' : ks ⊆ ks' -> evol_at ks l w w' -> evol_at ks' l w w'.
Proof. intros Hsub [L S F G]. constructor; [done| |done|done]. intros K HK Hn. apply S; set_solver. Qed.

Lemma evol_log_entry e w : evol_at [] [LEvent program e] w (add_log w (LEvent program e)).
Proof. constructor; [apply own_log_event|done|done|by eexists]. Qed.

Lemma evol_set_return r w : evol_at [] [] w (set_return w r).
Proof. constructor; [by rewrite app_nil_r|done|done|done]. Qed.

Context `{!KeysOk program addr typed}.

Lemma addr_protected K w : protected program w (addr K).
Proof. left. apply (addr_pda (typed := typed)). Qed.

Lemma evol_frame w w' : frame program w w' -> evol_at [] [] w w'.
Proof.
  intros F. pose proof F as (Ha & Hl & Hg). constructor; [| | |destruct Hg as (m & -> & _); by eexists].
  - by rewrite (frame_own_log _ _ _ F), app_nil_r.
  - intros K _ _. apply Ha, addr_protected.
  - intros K _ [Hn|Hp]; [left; by rewrite Ha by apply addr_protected|right].
    specialize (Hl _ (addr_protected K w)). lia.
Qed.

Context `{!PlatformOk}.

Lemma evol_store K d w u w' :
  typed K -> store_account program (addr K) d w = Ok (u, w') ->
  evol_at [K] [] w w' /\ held program w' (addr K) d /\ foreign_to program w w'.
Proof.
  intros HK (a & Ha & Ho & _ & ->)%store_account_Ok. split_and!.
  - constructor; simpl; [| | |done].
    + by rewrite app_nil_r.
    + intros K' HK' Hn. rewrite lookup_insert_ne; [done|].
      intros E%(addr_inj (typed := typed)); [set_solver|done..].
    + intros K' HK' [Hn|Hp]; [|by right].
      destruct (decide (addr K = addr K')) as [E|E]; [congruence|]. left. simpl.
      by rewrite lookup_insert_ne.
  - exists (with_data a d). simpl. by rewrite lookup_insert_eq.
  - intros k a' Hk Hne. simpl. rewrite lookup_insert_ne; [done|]. intros <-. congruence.
Qed.

Lemma evol_init cx K payer sp w u w' :
  typed K -> init_account cx program (addr K) payer sp w = Ok (u, w') ->
  evol_at [K] [] w w' /\ w_accts w !! addr K = None /\
  w_accts w' !! addr K = Some (mkAccount program DZeroed sp false) /\ 0 < lam w' (addr K) /\
  foreign_to program w w' /\ w_clock w' = w_clock w /\
  (forall k, k <> addr K -> w_accts w' !! k = w_accts w !! k).
Proof.
  intros HK (_ & Hn & Hacc & Hck & _ & Hlog & Hlam & Hpos)%init_account_Ok. split_and!; try done.
  - constructor; [| | |by rewrite Hlog].
    + unfold own_log. by rewrite Hlog, app_nil_r.
    + intros K' HK' Hne. rewrite Hacc, lookup_insert_ne; [done|].
      intros E%(addr_inj (typed := typed)); [set_solver|done..].
    + intros K' HK' Hf. destruct (decide (addr K = addr K')) as [E|E]; [rewrite <- E; by right|].
      destruct (w_accts w !! addr K') as [a|] eqn:Ha.
      * right. destruct Hf as [|Hf]; [congruence|].
        specialize (Hlam (addr K') (mk_is_Some _ _ Ha)). lia.
      * left. by rewrite Hacc, lookup_insert_ne.
  - by rewrite Hacc, lookup_insert_eq.
  - intros k a Hk _. rewrite Hacc, lookup_insert_ne; [done|]. congruence.
  - intros k Hk. by rewrite Hacc, lookup_insert_ne.
Qed.

(** What happens at addresses that are no key's. *)
Lemma evol_aside w w' :
  w_log w' = w_log w -> (forall K, typed K -> w_accts w' !! addr K = w_accts w !! addr K) ->
  (forall K, typed K -> funded w (addr K) -> funded w' (addr K)) -> evol_at [] [] w w'.
Proof.
  intros Hlog Hsame Hf. constructor; [|intros K HK _; by apply Hsame|done|by rewrite Hlog].
  unfold own_log. by rewrite Hlog, app_nil_r.
Qed.

Lemma evol_init_aside cx k payer sp w u w' :
  (forall K, typed K -> k <> addr K) -> init_account cx program k payer sp w = Ok (u, w') ->
  evol_at [] [] w w'.
Proof.
  intros Hk (_ & _ & Hacc & _ & _ & Hlog & Hlam & _)%init_account_Ok.
  assert (forall K, typed K -> w_accts w' !! addr K = w_accts w !! addr K) as Hsame.
  { intros K HK. rewrite Hacc, lookup_insert_ne; [done|]. by apply Hk. }
  apply evol_aside; [done|done|]. intros K HK Hf. destruct (w_accts w !! addr K) as [a|] eqn:Ha.
  - right. destruct Hf as [|Hf]; [congruence|]. specialize (Hlam (addr K) (mk_is_Some _ _ Ha)). lia.
  - left. by rewrite Hsame.
Qed.

Lemma evol_init_if_needed_aside {A} cx (proj : AccountData -> option A) fresh k payer sp w x w' :
  (forall K, typed K -> k <> addr K) -> init_if_needed cx program proj fresh k payer sp w = Ok (x, w') ->
  evol_at [] [] w w'.
Proof.
  intros Hk [_ [(_ & _ & Hi)|(-> & _)]]%init_if_needed_Ok; [|apply evol_refl]. by eapply evol_init_aside.
Qed.

Lemma evol_store_aside k d w u w' :
  (forall K, typed K -> k <> addr K) -> store_account program k d w = Ok (u, w') -> evol_at [] [] w w'.
Proof.
  intros Hk (a & Ha & _ & _ & ->)%store_account_Ok.
  apply evol_aside; [done|..]; intros K HK; unfold funded; simpl; by rewrite lookup_insert_ne by (by apply Hk).
Qed.

Lemma evol_drain_aside cx overflow k recipient w u w' :
  (forall K, typed K -> k <> addr K) -> drain_account cx program overflow k recipient w = Ok (u, w') ->
  evol_at [] [] w w'.
Proof.
  intros Hk (_ & _ & Hlog & _ & (a & _ & _ & Hacc) & Hlam)%drain_account_Ok.
  assert (forall K, typed K -> w_accts w' !! addr K = w_accts w !! addr K) as Hsame.
  { intros K HK. rewrite Hacc, lookup_insert_ne; [done|]. by apply Hk. }
  apply evol_aside; [done|done|]. intros K HK [Hn|Hp]; [left; by rewrite Hsame|right].
  rewrite Hlam, decide_False by (intros E; by apply (Hk K)). pose proof (lam_nonneg w k).
  case_decide; [subst; lia|done].
Qed.

(** [init_if_needed]: the stored value, or the fresh one when the account was
    just created. *)
Lemma evol_init_if_needed {A} cx (proj : AccountData -> option A) (D : A -> AccountData) fresh K
    payer sp w v w' :
  (forall d x, proj d = Some x <-> d = D x) -> typed K ->
  init_if_needed cx program proj fresh (addr K) payer sp w = Ok (v, w') ->
  evol_at [K] [] w w' /\ foreign_to program w w' /\ w_clock w' = w_clock w /\
  (forall k, k <> addr K -> w_accts w' !! k = w_accts w !! k) /\ owner_of w' (addr K) = program /\
  ((w_accts w !! addr K = None /\ v = fresh) \/ held program w (addr K) (D v)).
Proof.
  intros Hproj HK [_ [(Hn & -> & Hi)|(-> & Hpos & a & Ha & Ho & _ & E)]]%init_if_needed_Ok.
  - apply evol_init in Hi as (? & ? & E & ? & ? & ? & ?); [|done]. split_and!; auto.
    unfold owner_of. by rewrite E.
  - split_and!; try done.
    + constructor; [by rewrite app_nil_r|done|done|done].
    + unfold owner_of. by rewrite Ha.
    + right. exists a. apply Hproj in E. done.
Qed.

(** A call to another program, under the signature of [pdas]; of the
    program's accounts, only ones it owns may sign. *)
Lemma evol_invoke_signed cx prog metas ix pdas w u w' :
  running cx program -> prog <> program ->
  (forall K, typed K -> addr K ∈ pdas -> exists d, held program w (addr K) d) ->
  invoke_signed cx program prog metas ix pdas w = Ok (u, w') ->
  evol_at [] [LInvoke program prog ix] w w'.
Proof.
  intros Hrun Hne Hown Hi. apply invoke_signed_Ok in Hi as (_ & _ & _ & F); [|done|congruence].
  pose proof F as (_ & _ & m & Hm & _). apply own_log_invoke_but in F as [Hlog Hsame].
  assert (forall K, typed K -> guarded (list_to_set pdas) program w (addr K)) as Hg.
  { intros K HK. destruct (decide (addr K ∈ pdas)) as [Hin|Hin].
    - destruct (Hown K HK Hin) as (d & a & Ha & Ho & _). right. by exists a.
    - left. split; [apply (addr_pda (typed := typed))|]. by rewrite elem_of_list_to_set. }
  constructor; [done| | |].
  - intros K HK _. by apply Hsame, Hg.
  - intros K HK Hf. destruct (Hsame _ (Hg K HK)) as [E Hle].
    destruct Hf as [Hn|Hp']; [left; by rewrite E|right; lia].
  - rewrite Hm. simpl. rewrite <- (assoc_L (++)). by eexists.
Qed.

Lemma evol_invoke cx prog metas ix w u w' :
  running cx program -> prog <> program -> invoke cx program prog metas ix w = Ok (u, w') ->
  evol_at [] [LInvoke program prog ix] w w'.
Proof. intros Hrun Hne Hi. eapply evol_invoke_signed; [done|done| |exact Hi]. by intros K _ ?%not_elem_of_nil. Qed.

(** ** Histories *)

(** The accounts of the program, by key. *)
Definition view_at (w : World) (K : Key) : option Account := w_accts w !! addr K.

(** The account at [K] after a step: one of the changes, or what it was. *)
Lemma view_at_step w w' (ch : list (Key * AccountData)) l K :
  evol_at (fst <$> ch) l w w' -> (forall K d, (K, d) ∈ ch -> held program w' (addr K) d) -> typed K ->
  (exists d a, (K, d) ∈ ch /\ view_at w' K = Some a /\ acc_owner a = program /\ acc_data a = d) \/
  ((K ∉ (fst <$> ch)) /\ view_at w' K = view_at w K).
Proof.
  intros Hev Hst HK. destruct (decide (K ∈ (fst <$> ch))) as [Hin|Hin].
  - left. apply list_elem_of_fmap in Hin as ([K' d] & -> & Hin). simpl in *.
    destruct (Hst K' d Hin) as (a & Ha & Ho & Hd). by exists d, a.
  - right. split; [done|]. by apply (ev_same _ _ _ _ Hev).
Qed.

(** The value a list of changes gives to [K], and the values of the accounts
    after a step. *)
Definition changed (ch : list (Key * AccountData)) (K : Key) : option AccountData :=
  snd <$> List.find (fun x => bool_decide (x.1 = K)) ch.

Lemma changed_other ch K : K ∉ (fst <$> ch) -> changed ch K = None.
Proof.
  intros Hn. unfold changed. destruct (List.find _ ch) as [[K' d]|] eqn:E; [|done].
  apply List.find_some in E as [Hin E%bool_decide_eq_true]. exfalso. apply Hn.
  apply list_elem_of_fmap. exists (K', d). split; [done|]. by apply list_elem_of_In.
Qed.

Lemma changed_head K d ch : changed ((K, d) :: ch) K = Some d.
Proof. unfold changed. simpl. by rewrite bool_decide_eq_true_2. Qed.

Lemma changed_tail K K' d ch : K' <> K -> changed ((K', d) :: ch) K = changed ch K.
Proof. intros Hne. unfold changed. simpl. by rewrite bool_decide_eq_false_2. Qed.

Definition data_of (v : Key -> option Account) (K : Key) : option AccountData := acc_data <$> v K.

Lemma data_of_step w w' (ch : list (Key * AccountData)) l K :
  evol_at (fst <$> ch) l w w' -> (forall K d, (K, d) ∈ ch -> held program w' (addr K) d) -> typed K ->
  data_of (view_at w') K =
  match changed ch K with Some d => Some d | None => data_of (view_at w) K end.
Proof.
  intros Hev Hst HK. unfold changed. destruct (List.find _ ch) as [[K' d]|] eqn:E; simpl.
  - apply List.find_some in E as [Hin E%bool_decide_eq_true]. simpl in E. subst K'.
    apply list_elem_of_In in Hin. destruct (Hst K d Hin) as (a & Ha & _ & Hd).
    unfold data_of, view_at. rewrite Ha. simpl. by rewrite Hd.
  - unfold data_of, view_at. rewrite (ev_same _ _ _ _ Hev); [done|done|].
    intros ([K' d] & -> & Hin)%list_elem_of_fmap.
    apply list_elem_of_In, (List.find_none _ _ E) in Hin. by rewrite bool_decide_eq_true_2 in Hin.
Qed.

Lemma data_of_held w K d : held program w (addr K) d -> data_of (view_at w) K = Some d.
Proof. intros (a & Ha & _ & <-). unfold data_of, view_at. by rewrite Ha. Qed.

Lemma data_of_None w K : w_accts w !! addr K = None -> data_of (view_at w) K = None.
Proof. intros E. unfold data_of, view_at. by rewrite E. Qed.

(** One step of the program: a transition [trans] that holds in [w], on the
    keys and with the log it names. *)
Definition steps_by (trans : World -> list (Key * AccountData) -> list LogEntry -> Prop)
    (w w' : World) : Prop :=
  exists ch l, trans w ch l /\ evol_at (fst <$> ch) l w w' /\
    (forall K d, (K, d) ∈ ch -> held program w' (addr K) d) /\ Forall (fun x => typed (fst x)) ch.

(** The stores at the end of an instruction: one or two accounts. *)
Lemma steps_store1 trans w w1 w' K d ks l u :
  typed K -> trans w [(K, d)] l -> evol_at ks l w w1 -> ks ⊆ [K] ->
  store_account program (addr K) d w1 = Ok (u, w') -> steps_by trans w w'.
Proof.
  intros HK Ht Hev Hsub Hs. apply evol_store in Hs as (Hev2 & Hst & _); [|done].
  exists [(K, d)], l. split_and!; [done| | |by repeat constructor].
  - destruct Hev as [L S F G], Hev2 as [L2 S2 F2 G2]. constructor; simpl; [| | |by etrans].
    + by rewrite L2, L, app_nil_r.
    + intros K' HK' Hn. rewrite S2, S; [done|done| |done|done]. set_solver.
    + auto.
  - intros K' d' Hin. apply list_elem_of_singleton in Hin. by injection Hin as -> ->.
Qed.

Lemma steps_store2 trans w w1 w2 w' K1 d1 K2 d2 l u1 u2 :
  typed K1 -> typed K2 -> K1 <> K2 ->
  trans w [(K1, d1); (K2, d2)] l -> evol_at [K1; K2] l w w1 ->
  store_account program (addr K1) d1 w1 = Ok (u1, w2) ->
  store_account program (addr K2) d2 w2 = Ok (u2, w') -> steps_by trans w w'.
Proof.
  intros HK1 HK2 Hne Ht Hev Hs1 Hs2.
  apply evol_store in Hs1 as (Hev1 & (a & Ha & Ho & Hd) & _); [|done].
  apply evol_store in Hs2 as (Hev2 & Hst2 & _); [|done].
  exists [(K1, d1); (K2, d2)], l. split_and!; [done| | |by repeat constructor].
  - pose proof (evol_trans _ _ _ _ _ _ _ Hev (evol_trans _ _ _ _ _ _ _ Hev1 Hev2)) as E.
    destruct E as [L S F G]. rewrite app_nil_r in L. constructor; [done| |done|done].
    intros K HK Hn. apply S; [done|]. simpl in *. set_solver.
  - intros K d [[= -> ->]|[[= -> ->]|[]%not_elem_of_nil]%elem_of_cons]%elem_of_cons; [|done].
    exists a. rewrite (ev_same _ _ _ _ Hev2); [done|done|set_solver].
Qed.

Lemma steps_store3 trans w w1 w2 w3 w' K1 d1 K2 d2 K3 d3 l u1 u2 u3 :
  typed K1 -> typed K2 -> typed K3 -> NoDup [K1; K2; K3] ->
  trans w [(K1, d1); (K2, d2); (K3, d3)] l -> evol_at [K1; K2; K3] l w w1 ->
  store_account program (addr K1) d1 w1 = Ok (u1, w2) ->
  store_account program (addr K2) d2 w2 = Ok (u2, w3) ->
  store_account program (addr K3) d3 w3 = Ok (u3, w') -> steps_by trans w w'.
Proof.
  intros HK1 HK2 HK3 [Hn1 [Hn2 _]%NoDup_cons]%NoDup_cons Ht Hev Hs1 Hs2 Hs3.
  apply evol_store in Hs1 as (Hev1 & (a1 & Ha1 & Ho1 & Hd1) & _); [|done].
  apply evol_store in Hs2 as (Hev2 & (a2 & Ha2 & Ho2 & Hd2) & _); [|done].
  apply evol_store in Hs3 as (Hev3 & Hst3 & _); [|done].
  assert (w_accts w' !! addr K2 = w_accts w3 !! addr K2) as E2 by (apply (ev_same _ _ _ _ Hev3); [done|set_solver]).
  assert (w_accts w' !! addr K1 = w_accts w2 !! addr K1) as E1.
  { rewrite (ev_same _ _ _ _ Hev3), (ev_same _ _ _ _ Hev2); [done|done|set_solver|done|set_solver]. }
  exists [(K1, d1); (K2, d2); (K3, d3)], l. split_and!; [done| | |by repeat constructor].
  - pose proof (evol_trans _ _ _ _ _ _ _ (evol_trans _ _ _ _ _ _ _ Hev Hev1)
      (evol_trans _ _ _ _ _ _ _ Hev2 Hev3)) as E. rewrite !app_nil_r in E.
    eapply evol_weaken; [|exact E]. set_solver.
  - intros K d [[= -> ->]|[[= -> ->]|[[= -> ->]|[]%not_elem_of_nil]%elem_of_cons]%elem_of_cons]%elem_of_cons;
      [exists a1; by rewrite E1|exists a2; by rewrite E2|done].
Qed.

(** A loaded account at a checked address. *)
Lemma held_intro {A} w k a (proj : AccountData -> option A) (D : A -> AccountData) x K :
  (forall d y, proj d = Some y <-> d = D y) ->
  w_accts w !! k = Some a -> acc_owner a = program -> proj (acc_data a) = Some x ->
  k = addr K -> held program w (addr K) (D x).
Proof. intros Hp Hl Ho Hd ->. exists a. apply Hp in Hd. done. Qed.

Inductive reach_at (step : World -> World -> Prop) : World -> Prop :=
| reach_start w :
    (forall K, typed K -> w_accts w !! addr K = None) -> own_log program w = [] ->
    reach_at step w
| reach_other w w' : reach_at step w -> others program w w' -> reach_at step w'
| reach_step w w' : reach_at step w -> step w w' -> reach_at step w'.

(** An invariant of the program's accounts and log: it holds of the empty
    program, does not depend on impossible keys, and every transition keeps
    it. *)
Lemma reach_at_induct (step : World -> World -> Prop)
    (trans : World -> list (Key * AccountData) -> list LogEntry -> Prop)
    (P : (Key -> option Account) -> list LogEntry -> Prop) :
  (forall w w', step w w' -> steps_by trans w w') ->
  (forall v v' l, (forall K, typed K -> v K = v' K) -> P v l -> P v' l) ->
  P (fun _ => None) [] ->
  (forall w w' ch l,
     P (view_at w) (own_log program w) -> (forall K, typed K -> funded w (addr K)) ->
     trans w ch l -> evol_at (fst <$> ch) l w w' ->
     (forall K d, (K, d) ∈ ch -> held program w' (addr K) d) -> Forall (fun x => typed (fst x)) ch ->
     P (view_at w') (own_log program w')) ->
  forall w, reach_at step w ->
    P (view_at w) (own_log program w) /\ forall K, typed K -> funded w (addr K).
Proof.
  intros Href Hext Hinit Hstep.
  induction 1 as [w Hn Hl|w w' _ [IH Hf] Ho|w w' _ [IH Hf] Hx].
  - rewrite Hl. split; [|intros K HK; left; by apply Hn].
    eapply Hext; [|exact Hinit]. intros K HK. symmetry. by apply Hn.
  - assert (forall K, typed K -> view_at w K = view_at w' K /\ funded w' (addr K)) as Hk.
    { intros K HK. destruct (Hf K HK) as [Hnone|Hpos].
      - pose proof (others_keep_None _ _ _ _ Ho (addr_protected K w) Hnone) as E.
        split; [unfold view_at; congruence|by left].
      - destruct (others_keep _ _ _ _ Ho (addr_protected K w) Hpos) as [E ?].
        split; [done|by right]. }
    rewrite (others_own_log _ _ _ Ho). split; [|intros K HK; by apply Hk].
    eapply Hext; [|exact IH]. intros K HK. by apply Hk.
  - apply Href in Hx as (ch & l & Ht & Hev & Hst & Hch).
    split; [by eapply Hstep|]. intros K HK. by apply (ev_funded _ _ _ _ Hev), Hf.
Qed.

End Keyed.

Arguments evol_at {_} program addr typed ks l w w'.
Arguments view_at {_} addr w K.
Arguments steps_by {_} program addr typed trans w w'.
Arguments reach_at {_ _} program addr typed step w.

(** ** Roles *)

Section Roles.
Context `{Platform}.

(** The signer holds a role of the access manager at [program]. *)
Definition role_at (w : World) (program : Pubkey) (role_id : Z) (s : Pubkey) : Prop :=
  exists a am, w_accts w !! pda_key [AccessManager_SEED] program = Some a /\
    acc_data a = DAccessManager am /\ has_role am role_id s = true.

(** [require_role] in a top-level instruction of [self], with the access
    manager [manager]. *)
Definition holder_of (self : Pubkey) (cx : CallCtx) (w : World) (manager : Pubkey) (role_id : Z)
    (s : Pubkey) : Prop :=
  cx_stack cx = [self] /\ s ∈ cx_signers cx /\ role_at w manager role_id s.

(** [require_admin] in [self] against the access manager [manager]. *)
Definition admin_at (self : Pubkey) (cx : CallCtx) (w : World) (manager s : Pubkey) : Prop :=
  exists a am, w_accts w !! pda_key [AccessManager_SEED] manager = Some a /\
    acc_data a = DAccessManager am /\ authorized cx am ADMIN_ROLE s self.

Lemma require_role_Ok cx k r s sysvar self w u w' :
  last (cx_stack cx) = Some self -> require_role cx k r s sysvar self w = Ok (u, w') ->
  w' = w /\ s ∈ cx_signers cx /\ cx_stack cx = [self] /\ exists a am, w_accts w !! k = Some a /\
    acc_data a = DAccessManager am /\ has_role am r s = true.
Proof.
  intros Hrun. unfold require_role, deserialize_access_manager. intros Hr. minv.
  apply map_err_ok, reject_cpi_Ok in Hm0 as [_ Hst]; [|done].
  apply as_AccessManager_Some in Hm1. eauto 10.
Qed.

Lemma holder_at_intro self cx w k manager r s sysvar u w' :
  last (cx_stack cx) = Some self -> k = pda_key [AccessManager_SEED] manager ->
  require_role cx k r s sysvar self w = Ok (u, w') -> w' = w /\ holder_of self cx w manager r s.
Proof.
  intros Hrun -> Hr. apply require_role_Ok in Hr as (-> & Hs & Hst & a & am & Ha & Hd & Hr); [|done].
  split; [done|]. split_and!; [done..|]. by exists a, am.
Qed.

Lemma admin_at_intro self cx w k manager s sysvar u w' :
  last (cx_stack cx) = Some self -> k = pda_key [AccessManager_SEED] manager ->
  require_admin cx k s sysvar self w = Ok (u, w') -> w' = w /\ admin_at self cx w manager s.
Proof.
  intros Hrun -> (-> & a & am & Ha & Hd%as_AccessManager_Some & Hau)%require_admin_Ok; [|done].
  split; [done|]. by exists a, am.
Qed.

(** A program address of [self] with a longer seed is not an access manager:
    changing it keeps the roles. *)
Lemma holder_at_same self cx w w1 manager r s k :
  k <> pda_key [AccessManager_SEED] manager ->
  (forall k', k' <> k -> w_accts w1 !! k' = w_accts w !! k') ->
  holder_of self cx w1 manager r s -> holder_of self cx w manager r s.
Proof.
  intros Hne Hsame (Hst & Hs & a & am & Ha & Hd & Hr). split_and!; [done..|].
  exists a, am. rewrite <- Hsame; [done|]. by intros <-.
Qed.

End Roles.
