(* ===== verification/Histories.v ===== *)
(** * Histories of programs that close accounts

    [Keyed.v] describes programs whose accounts, once created, stay.  Here a
    step may also close accounts ([close_account]; a change is the new value
    or its absence), transitions may speak of the ledger before and after the
    step, and invariants may speak of the whole log, the entries of the other
    programs included: [history_induct] is the induction principle for them. *)

From S2P Require Import Prelude Errors Types Runtime Cpi AccessManager AccessManagerSpec Keyed.
From Stdlib Require Import ZArith Lia.
From stdpp Require Import prelude gmap list.

#[local] Open Scope Z_scope.

(** [#[account(close = destination)]]: the lamports go to the destination and
    the account returns to the system program, empty. *)
Definition close_account (program k destination : Pubkey) : M unit := fun w =>
  match w_accts w !! k with
  | Some a =>
      if negb (bool_decide (acc_owner a = program))
      then Err (EAnchor AnchorErr.ExternalAccountDataModified)
      else if Z.ltb u64_max (lam w destination + lam w k) then Err (EAnchor AnchorErr.Panicked)
      else Ok ((), set_accts (set_lam (set_lam w destination (lam w destination + lam w k)) k 0)
                     (delete k (w_accts w)))
  | None => Err (EAnchor AnchorErr.ExternalAccountDataModified)
  end.

Lemma close_account_Ok program k dest w u w' :
  close_account program k dest w = Ok (u, w') ->
  (exists a, w_accts w !! k = Some a /\ acc_owner a = program) /\
  w' = set_accts (set_lam (set_lam w dest (lam w dest + lam w k)) k 0) (delete k (w_accts w)).
Proof.
  unfold close_account. destruct (w_accts w !! k) as [a|]; [|done].
  case_bool_decide; [|done]. simpl. destruct (Z.ltb _ _); [done|]. intros [= _ <-]. eauto.
Qed.

Section Histories.
Context `{Platform} {Key : Type} `{EqDecision Key}.
Context {program : Pubkey} {addr : Key -> Pubkey} {typed : Key -> Prop}.
Context `{!KeysOk program addr typed} `{!PlatformOk}.

(** What a step leaves at a key. *)
Definition left_at (w : World) (K : Key) (o : option AccountData) : Prop :=
  match o with
  | Some d => held program w (addr K) d
  | None => w_accts w !! addr K = None
  end.

Definition value_at (w : World) (K : Key) : option AccountData := acc_data <$> w_accts w !! addr K.

Lemma value_at_left w K o : left_at w K o -> value_at w K = o.
Proof.
  unfold value_at. destruct o as [d|]; simpl; [|by intros ->]. by intros (a & -> & _ & <-).
Qed.

Lemma left_evol ks l w w' K o :
  evol_at program addr typed ks l w w' -> typed K -> K ∉ ks -> left_at w K o -> left_at w' K o.
Proof.
  intros Hev HK Hn. unfold left_at, held. by rewrite (ev_same _ _ _ _ Hev) by done.
Qed.

Lemma value_at_evol ks l w w' K :
  evol_at program addr typed ks l w w' -> typed K -> K ∉ ks -> value_at w' K = value_at w K.
Proof. intros Hev HK Hn. unfold value_at. by rewrite (ev_same _ _ _ _ Hev) by done. Qed.

Lemma evol_close K dest w u w' :
  typed K -> close_account program (addr K) dest w = Ok (u, w') ->
  evol_at program addr typed [K] [] w w' /\ left_at w' K None /\ exists d, held program w (addr K) d.
Proof.
  intros HK ((a & Ha & Ho) & ->)%close_account_Ok. split_and!; [|simpl; apply lookup_delete_eq|by exists (acc_data a), a].
  constructor; [by rewrite app_nil_r| | |done].
  - intros K' HK' Hn. simpl. rewrite lookup_delete_ne; [done|].
    intros E%(addr_inj (typed := typed)); [set_solver|done..].
  - intros K' HK' Hf. unfold funded. simpl. destruct (decide (addr K = addr K')) as [E|E].
    { left. rewrite E. apply lookup_delete_eq. }
    destruct Hf as [Hn|Hp]; [left; by rewrite lookup_delete_ne|right].
    pose proof (lam_nonneg w (addr K)). pose proof (lam_nonneg w dest).
    change (0 < lam (set_lam (set_lam w dest (lam w dest + lam w (addr K))) (addr K) 0) (addr K')).
    rewrite !lam_set_lam by lia. rewrite decide_False by done. case_decide; [subst; lia|done].
Qed.

(** One step of the program. *)
Definition steps_to (trans : World -> World -> list (Key * option AccountData) -> list LogEntry -> Prop)
    (w w' : World) : Prop :=
  exists ch l, trans w w' ch l /\ evol_at program addr typed (fst <$> ch) l w w' /\
    (forall K o, (K, o) ∈ ch -> left_at w' K o) /\ Forall (fun x => typed (fst x)) ch.

Lemma steps_intro trans w w' ks l ch :
  trans w w' ch l -> evol_at program addr typed ks l w w' -> ks ⊆ (fst <$> ch) ->
  Forall (fun x => typed (fst x) /\ left_at w' (fst x) (snd x)) ch -> steps_to trans w w'.
Proof.
  intros Ht Hev Hks Hch. rewrite Forall_forall in Hch. exists ch, l. split_and!; [done| | |].
  - by eapply evol_weaken.
  - intros K o Hin. by apply (Hch (K, o)).
  - apply Forall_forall. intros x Hx. by apply Hch.
Qed.

Lemma reach_funded (step : World -> World -> Prop) trans w :
  (forall w w', step w w' -> steps_to trans w w') ->
  reach_at program addr typed step w -> forall K, typed K -> funded w (addr K).
Proof.
  intros Href. induction 1 as [w Hn Hl|w w' _ IH Ho|w w' _ IH Hx]; intros K HK.
  - left. by apply Hn.
  - destruct (IH K HK) as [Hnone|Hpos].
    + left. eapply others_keep_None; [done|by apply (addr_protected (typed := typed))|done].
    + right. by eapply others_keep; [done|by apply (addr_protected (typed := typed))|].
  - apply Href in Hx as (ch & l & _ & Hev & _). by apply (ev_funded _ _ _ _ Hev), IH.
Qed.

Lemma others_log w w' :
  others program w w' ->
  exists l, w_log w' = w_log w ++ l /\ Forall (fun e => ~ logged_by program e) l.
Proof. intros [(_ & _ & Hl)|(k & _ & ->)]; [done|]. exists []. by rewrite app_nil_r. Qed.

Lemma own_log_nil w : own_log program w = [] -> Forall (fun e => ~ logged_by program e) (w_log w).
Proof.
  unfold own_log. induction (w_log w) as [|e l IH]; [done|]. rewrite filter_cons.
  case_decide; [done|]. intros ?. constructor; auto.
Qed.

(** An invariant of the program's data and of the whole log: others may add
    to the log, and every transition keeps it. *)
Lemma history_induct (step : World -> World -> Prop) trans
    (P : (Key -> option AccountData) -> list LogEntry -> Prop) :
  (forall w w', step w w' -> steps_to trans w w') ->
  (forall v v' lg, (forall K, typed K -> v K = v' K) -> P v lg -> P v' lg) ->
  (forall v lg l, P v lg -> Forall (fun e => ~ logged_by program e) l -> P v (lg ++ l)) ->
  P (fun _ => None) [] ->
  (forall w w' ch l,
     P (value_at w) (w_log w) -> (forall K, typed K -> funded w (addr K)) ->
     trans w w' ch l -> evol_at program addr typed (fst <$> ch) l w w' ->
     (forall K o, (K, o) ∈ ch -> left_at w' K o) -> Forall (fun x => typed (fst x)) ch ->
     P (value_at w') (w_log w')) ->
  forall w, reach_at program addr typed step w -> P (value_at w) (w_log w).
Proof.
  intros Href Hext Happ Hinit Hstep.
  induction 1 as [w Hn Hl|w w' Hr IH Ho|w w' Hr IH Hx].
  - eapply Hext; [|apply (Happ _ [] (w_log w) Hinit), own_log_nil, Hl].
    intros K HK. unfold value_at. by rewrite Hn.
  - pose proof (others_log _ _ Ho) as (l & -> & Hl). apply Happ; [|done].
    eapply Hext; [|exact IH]. intros K HK. unfold value_at.
    destruct (reach_funded _ _ _ Href Hr K HK) as [Hnone|Hpos].
    + by rewrite Hnone, (others_keep_None _ _ _ _ Ho (addr_protected (typed := typed) K w) Hnone).
    + by destruct (others_keep _ _ _ _ Ho (addr_protected (typed := typed) K w) Hpos) as [-> _].
  - pose proof (reach_funded _ _ _ Href Hr) as Hf.
    apply Href in Hx as (ch & l & Ht & Hev & Hst & Hch). by eapply Hstep.
Qed.

(** The log after a step: what it was, then new entries, of which [l] are the
    program's own. *)
Lemma evol_log ks l w w' :
  evol_at program addr typed ks l w w' ->
  exists m, w_log w' = w_log w ++ m /\ filter (logged_by program) m = l.
Proof.
  intros [L _ _ [m Hm]]. exists m. split; [done|]. unfold own_log in L.
  rewrite Hm, filter_app in L. by apply (inj (app _)) in L.
Qed.

End Histories.

Arguments left_at {_} program addr w K o.
Arguments value_at {_} addr w K.
Arguments steps_to {_} program addr typed trans w w'.
