(* ===== verification/Chunking.v ===== *)
(** * Packets in chunks

    [programs/ics26-router/src/utils]: identifier validation, the single
    payload rule, and the assembly of packets and proofs from chunk accounts
    ([chunking.rs]).  An account passed to an instruction is its key; what the
    source reads through the [AccountInfo] is read from the ledger.  The
    theorems are in [ChunkingSpec.v]. *)

From S2P Require Import Prelude Errors Types Runtime.
From Stdlib Require Import ZArith Lia.
From Stdlib.Strings Require Import Byte.
From stdpp Require Import base strings gmap list.

#[local] Open Scope Z_scope.

(** ** Seeds of the router's accounts ([state.rs]) *)

Definition RouterState_SEED : bytes := Eval vm_compute in bs "router_state".
Definition IBCApp_SEED : bytes := Eval vm_compute in bs "ibc_app".
Definition Client_SEED : bytes := Eval vm_compute in bs "client".
Definition PACKET_COMMITMENT_SEED : bytes := Eval vm_compute in bs "packet_commitment".
Definition PACKET_RECEIPT_SEED : bytes := Eval vm_compute in bs "packet_receipt".
Definition PACKET_ACK_SEED : bytes := Eval vm_compute in bs "packet_ack".
Definition PayloadChunk_SEED : bytes := Eval vm_compute in bs "payload_chunk".
Definition ProofChunk_SEED : bytes := Eval vm_compute in bs "proof_chunk".
Definition IBCAppState_SEED : bytes := Eval vm_compute in bs "app_state".

Definition payload_chunk_seeds (submitter : Pubkey) (client_id : bytes)
    (sequence payload_index chunk_index : Z) : list bytes :=
  [PayloadChunk_SEED; submitter; client_id; u64_to_le_bytes sequence;
   [byte_of_Z payload_index]; [byte_of_Z chunk_index]].

Definition proof_chunk_seeds (submitter : Pubkey) (client_id : bytes)
    (sequence chunk_index : Z) : list bytes :=
  [ProofChunk_SEED; submitter; client_id; u64_to_le_bytes sequence; [byte_of_Z chunk_index]].

(** ** [utils/validation.rs] *)

Definition CLIENT_ID_PREFIX : bytes := bs "client-".
Definition CHANNEL_ID_PREFIX : bytes := bs "channel-".

Definition starts_with (id prefix : bytes) : bool :=
  bool_decide (take (length prefix) id = prefix).

Definition in_range (lo hi c : byte) : bool :=
  Z.leb (byte_to_Z lo) (byte_to_Z c) && Z.leb (byte_to_Z c) (byte_to_Z hi).

Definition identifier_char (c : byte) : bool :=
  in_range "a" "z" c || in_range "0" "9" c || in_range "A" "Z" c ||
  contains c ["."%byte; "_"%byte; "+"%byte; "-"%byte; "#"%byte; "["%byte; "]"%byte; "<"%byte;
              ">"%byte].

Definition validate_custom_ibc_identifier (id : bytes) (min_len max_len : nat) : bool :=
  let len := length id in
  if (len <? min_len)%nat || (max_len <? len)%nat then false
  else if starts_with id CLIENT_ID_PREFIX || starts_with id CHANNEL_ID_PREFIX then false
  else forallb identifier_char id.

(** ** [utils/packet.rs] *)

Definition get_single_payload (packet : Packet) : result Error Payload :=
  match pkt_payloads packet with
  | [payload] => Ok payload
  | _ => Err (ERouter RouterErr.InvalidPayloadCount)
  end.

(** ** [utils/chunking.rs] *)

Definition is_inline (d : Delivery) : bool :=
  match d with Inline _ => true | Chunked _ => false end.

(** [payloads.windows(2).all(..)]. *)
Fixpoint uniform_delivery (l : list MsgPayload) : bool :=
  match l with
  | p :: (q :: _) as rest =>
      Bool.eqb (is_inline (mpl_data p)) (is_inline (mpl_data q)) && uniform_delivery rest
  | _ => true
  end.

Definition validate_uniform_delivery (payloads : list MsgPayload) : result Error unit :=
  require_r (uniform_delivery payloads) (ERouter RouterErr.MixedDeliveryModes).

Definition total_payload_chunks (payloads : list MsgPayload) : result Error nat :=
  _ ← validate_uniform_delivery payloads;
  Ok (foldr (fun p n => (Z.to_nat (total_chunks (mpl_data p)) + n)%nat) 0%nat payloads).

Definition filter_app_remaining_accounts (remaining_accounts : list Pubkey)
    (total_payload_chunks : nat) (proof_total_chunks : Z) : list Pubkey :=
  let total_chunk_accounts := (total_payload_chunks + Z.to_nat proof_total_chunks)%nat in
  if (total_chunk_accounts <? length remaining_accounts)%nat
  then drop total_chunk_accounts remaining_accounts
  else [].

(** [&accounts[start..start + n]]. *)
Definition slice (l : list Pubkey) (start n : nat) : result Error (list Pubkey) :=
  if (start + n <=? length l)%nat then Ok (take n (drop start l))
  else Err (EAnchor AnchorErr.Panicked).

Section Chunking.
Context `{Platform}.

Definition payload_chunk_key (submitter : Pubkey) (client_id : bytes)
    (sequence payload_index chunk_index : Z) : Pubkey :=
  pda_key (payload_chunk_seeds submitter client_id sequence payload_index chunk_index) ROUTER_ID.
Definition proof_chunk_key (submitter : Pubkey) (client_id : bytes)
    (sequence chunk_index : Z) : Pubkey :=
  pda_key (proof_chunk_seeds submitter client_id sequence chunk_index) ROUTER_ID.

(** [require_keys_eq!(chunk_account.key(), expected_pda)] and the owner test. *)
Definition check_chunk_account (k : Pubkey) (expected_seeds : list bytes) : M unit :=
  expected_pda ← derive_pda expected_seeds ROUTER_ID;
  _ ← require (bool_decide (k = expected_pda)) RouterErr.InvalidChunkAccount;
  owner_is k ROUTER_ID RouterErr.InvalidAccountOwner.

(** The body of the loop that collects chunk [i] of a payload. *)
Definition read_payload_chunk (remaining_accounts : list Pubkey) (submitter : Pubkey)
    (client_id : bytes) (sequence payload_index : Z) (start_index i : nat) : M bytes :=
  k ← lift (ok_or (remaining_accounts !! (start_index + i)%nat)
        (ERouter RouterErr.InvalidChunkCount));
  _ ← check_chunk_account k
        (payload_chunk_seeds submitter client_id sequence payload_index (Z.of_nat i));
  chunk ← try_deserialize as_PayloadChunk k;
  _ ← require (bool_decide (pch_client_id chunk = client_id)) AnchorErr.RequireEqViolated;
  _ ← require (Z.eqb (pch_sequence chunk) sequence) AnchorErr.RequireEqViolated;
  _ ← require (Z.eqb (pch_payload_index chunk) payload_index) AnchorErr.RequireEqViolated;
  _ ← require (Z.eqb (pch_chunk_index chunk) (Z.of_nat i)) AnchorErr.RequireEqViolated;
  mret (pch_chunk_data chunk).

(** [for i in 0..n]: chunks [i], ..., [i + n - 1] in order. *)
Fixpoint collect (read : nat -> M bytes) (n i : nat) : M bytes :=
  match n with
  | O => mret []
  | S n =>
      data ← read i;
      rest ← collect read n (S i);
      mret (data ++ rest)
  end.

(** [for (i, chunk_account) in accounts.iter().enumerate()]. *)
Fixpoint wipe_chunks (cx : CallCtx) (seeds_at : Z -> list bytes) (accounts : list Pubkey) (i : nat)
    : M unit :=
  match accounts with
  | [] => mret ()
  | k :: accounts =>
      _ ← check_chunk_account k (seeds_at (Z.of_nat i));
      _ ← fill_zero cx ROUTER_ID k;
      wipe_chunks cx seeds_at accounts (S i)
  end.

Definition cleanup_payload_chunks (cx : CallCtx) (chunk_accounts : list Pubkey)
    (submitter : Pubkey) (client_id : bytes) (sequence payload_index total_chunks : Z) : M unit :=
  _ ← require (Z.leb (Z.of_nat (length chunk_accounts)) 255) RouterErr.InvalidChunkCount;
  _ ← require (Z.eqb total_chunks (Z.of_nat (length chunk_accounts))) RouterErr.InvalidChunkCount;
  wipe_chunks cx (payload_chunk_seeds submitter client_id sequence payload_index) chunk_accounts 0.

Definition cleanup_proof_chunks (cx : CallCtx) (chunk_accounts : list Pubkey)
    (submitter : Pubkey) (client_id : bytes) (sequence : Z) : M unit :=
  wipe_chunks cx (proof_chunk_seeds submitter client_id sequence) chunk_accounts 0.

Definition assemble_single_payload_chunks (cx : CallCtx) (remaining_accounts : list Pubkey)
    (submitter : Pubkey) (client_id : bytes) (sequence payload_index total_chunks : Z)
    (start_index : nat) : M bytes :=
  let n := Z.to_nat total_chunks in
  payload_data ← collect (read_payload_chunk remaining_accounts submitter client_id sequence
                            payload_index start_index) n 0;
  chunk_accounts ← lift (slice remaining_accounts start_index n);
  _ ← cleanup_payload_chunks cx chunk_accounts
        submitter client_id sequence payload_index total_chunks;
  mret payload_data.

(** The loop over the payloads; [payload_index as u8] wraps. *)
Fixpoint assemble_payloads_from (cx : CallCtx) (remaining_accounts : list Pubkey)
    (submitter : Pubkey) (client_id : bytes) (sequence : Z) (payloads : list MsgPayload)
    (payload_index account_offset : nat) : M (list bytes) :=
  match payloads with
  | [] => mret []
  | payload :: payloads =>
      match mpl_data payload with
      | Inline _ => fail RouterErr.MixedDeliveryModes
      | Chunked total_chunks =>
          payload_data ← assemble_single_payload_chunks cx remaining_accounts submitter client_id
            sequence (Z.of_nat payload_index mod 256) total_chunks account_offset;
          rest ← assemble_payloads_from cx remaining_accounts submitter client_id sequence payloads
            (S payload_index) (account_offset + Z.to_nat total_chunks);
          mret (payload_data :: rest)
      end
  end.

Definition assemble_multiple_payloads (cx : CallCtx) (remaining_accounts : list Pubkey)
    (submitter : Pubkey) (client_id : bytes) (sequence : Z) (payloads : list MsgPayload)
    : M (list bytes) :=
  assemble_payloads_from cx remaining_accounts submitter client_id sequence payloads 0 0.

Definition read_proof_chunk (remaining_accounts : list Pubkey) (submitter : Pubkey)
    (client_id : bytes) (sequence : Z) (start_index i : nat) : M bytes :=
  k ← lift (ok_or (remaining_accounts !! (start_index + i)%nat)
        (ERouter RouterErr.InvalidChunkCount));
  _ ← check_chunk_account k (proof_chunk_seeds submitter client_id sequence (Z.of_nat i));
  chunk ← try_deserialize as_ProofChunk k;
  _ ← require (bool_decide (prc_client_id chunk = client_id)) AnchorErr.RequireEqViolated;
  _ ← require (Z.eqb (prc_sequence chunk) sequence) AnchorErr.RequireEqViolated;
  _ ← require (Z.eqb (prc_chunk_index chunk) (Z.of_nat i)) AnchorErr.RequireEqViolated;
  mret (prc_chunk_data chunk).

Definition assemble_proof_chunks (cx : CallCtx) (remaining_accounts : list Pubkey)
    (submitter : Pubkey) (client_id : bytes) (sequence : Z) (delivery : Delivery)
    (start_index : nat) : M bytes :=
  match delivery with
  | Inline data => mret data
  | Chunked total_chunks =>
      let n := Z.to_nat total_chunks in
      proof_data ← collect (read_proof_chunk remaining_accounts submitter client_id sequence
                              start_index) n 0;
      chunk_accounts ← lift (slice remaining_accounts start_index n);
      _ ← cleanup_proof_chunks cx chunk_accounts submitter client_id sequence;
      mret proof_data
  end.

Definition payload_with (payload : MsgPayload) (data : bytes) : Payload :=
  mkPayload (mpl_source_port payload) (mpl_dest_port payload) (mpl_version payload)
    (mpl_encoding payload) data.

(** [unreachable!()] on a chunked payload. *)
Definition inline_data (d : Delivery) : result Error bytes :=
  match d with
  | Inline data => Ok data
  | Chunked _ => Err (EAnchor AnchorErr.Panicked)
  end.

Fixpoint inline_payloads (payloads : list MsgPayload) : result Error (list Payload) :=
  match payloads with
  | [] => Ok []
  | p :: payloads =>
      data ← inline_data (mpl_data p);
      rest ← inline_payloads payloads;
      Ok (payload_with p data :: rest)
  end.

Definition validate_and_reconstruct_packet (cx : CallCtx) (msg_packet : MsgPacket)
    (remaining_accounts : list Pubkey) (submitter : Pubkey) (client_id : bytes) : M Packet :=
  let msg_payloads := mpk_payloads msg_packet in
  _ ← require (negb (bool_decide (length msg_payloads = 0%nat))) RouterErr.InvalidPayloadCount;
  _ ← lift (validate_uniform_delivery msg_payloads);
  payloads ←
    match msg_payloads with
    | p :: _ =>
        if is_inline (mpl_data p) then lift (inline_payloads msg_payloads)
        else
          payload_data_vec ← assemble_multiple_payloads cx remaining_accounts submitter client_id
            (mpk_sequence msg_packet) msg_payloads;
          mret (zip_with payload_with msg_payloads payload_data_vec)
    | [] => mret []
    end;
  mret (mkPacket (mpk_sequence msg_packet) (mpk_source_client msg_packet)
          (mpk_dest_client msg_packet) (mpk_timeout_timestamp msg_packet) payloads).

End Chunking.
