(* ===== verification/Router.v ===== *)
(** * The ICS26 router

    [programs/ics26-router]: the registries of light clients and IBC
    applications, the packet flow (send, receive, acknowledge, time out), the
    calls to light clients ([router_cpi/light_client_cpi.rs]) and to
    applications ([packages/solana-ibc-types/src/ibc_app.rs]), the chunk
    accounts, the pause switch and the migration of the access manager.  One
    definition per instruction; [exec_router] is the entry point.  The theorems
    are in [RouterSpec.v]. *)

From S2P Require Import Prelude Errors Types Runtime Ics24 Cpi AccessManager Chunking.
From Stdlib Require Import ZArith Lia.
From Stdlib.Strings Require Import Byte.
From stdpp Require Import base gmap list.

#[local] Open Scope Z_scope.

Definition MIN_CLIENT_ID_LENGTH : nat := 4.
Definition MIN_PORT_ID_LENGTH : nat := 2.
Definition MAX_PORT_ID_LENGTH : nat := 128.
Definition MAX_TIMEOUT_DURATION : Z := 86400.

(** [Commitment::EMPTY]. *)
Definition Commitment_EMPTY : bytes := replicate 32 x00.

Definition ANCHOR_DISCRIMINATOR_SIZE : nat := 8.

Section Router.
Context `{Platform}.

(** ** [router_cpi/light_client_cpi.rs] *)

Record LcAccounts := mkLcAccounts {
  lc_light_client_program : Pubkey;
  lc_client_state : Pubkey;
  lc_consensus_state : Pubkey }.

Definition validate_client (client : Client) (light_client_program : Pubkey) : M unit :=
  _ ← require (bool_decide (light_client_program = cl_client_program_id client))
        RouterErr.InvalidLightClientProgram;
  require (cl_active client) RouterErr.ClientNotActive.

Definition invoke_instruction (cx : CallCtx) (client : Client) (lc : LcAccounts) (ix : CpiIx)
    : M unit :=
  _ ← owner_is (lc_client_state lc) (cl_client_program_id client) RouterErr.InvalidAccountOwner;
  invoke cx ROUTER_ID (cl_client_program_id client)
    [mkAccountMeta (lc_client_state lc) false false;
     mkAccountMeta (lc_consensus_state lc) false false] ix.

Definition lc_verify_membership (cx : CallCtx) (client : Client) (lc : LcAccounts)
    (msg : MembershipMsg) : M unit :=
  _ ← validate_client client (lc_light_client_program lc);
  invoke_instruction cx client lc (IxVerifyMembership msg).

(** The return data, which must come from the light client. *)
Definition lc_return_data (client : Client) : M bytes :=
  r ← get_return_data;
  r ← lift (ok_or r (ERouter RouterErr.InvalidAppResponse));
  _ ← require (bool_decide (fst r = cl_client_program_id client))
        RouterErr.InvalidLightClientProgram;
  mret (snd r).

Definition lc_client_status (cx : CallCtx) (client : Client) (lc : LcAccounts) : M ClientStatus :=
  _ ← validate_client client (lc_light_client_program lc);
  _ ← invoke_instruction cx client lc IxClientStatus;
  data ← lc_return_data client;
  b ← lift (ok_or (head data) (ERouter RouterErr.InvalidAppResponse));
  lift (ok_or (ClientStatus_try_from b) (ERouter RouterErr.InvalidAppResponse)).

Definition get_timestamp_from_return_data (client : Client) : M Z :=
  data ← lc_return_data client;
  _ ← require (ANCHOR_DISCRIMINATOR_SIZE <=? length data)%nat RouterErr.InvalidAppResponse;
  mret (u64_from_le_bytes (take ANCHOR_DISCRIMINATOR_SIZE data)).

Definition lc_verify_non_membership (cx : CallCtx) (client : Client) (lc : LcAccounts)
    (msg : NonMembershipMsg) : M Z :=
  _ ← validate_client client (lc_light_client_program lc);
  _ ← invoke_instruction cx client lc (IxVerifyNonMembership msg);
  get_timestamp_from_return_data client.

(** ** [ibc_app.rs]: callbacks of the applications *)

(** [to_account_metas] of the callbacks, then the remaining accounts. *)
Definition app_metas (cx : CallCtx) (app_state sysvar payer system_program : Pubkey)
    (remaining_accounts : list Pubkey) : list AccountMeta :=
  [mkAccountMeta app_state false true;
   mkAccountMeta sysvar false false;
   mkAccountMeta payer true true;
   mkAccountMeta system_program false false] ++
  ((fun k => mkAccountMeta k (bool_decide (k ∈ cx_signers cx)) (bool_decide (k ∈ cx_writable cx)))
     <$> remaining_accounts).

Definition invoke_ibc_app (cx : CallCtx) (program : Pubkey) (metas : list AccountMeta) (ix : CpiIx)
    : M unit := invoke cx ROUTER_ID program metas ix.

Definition on_recv_packet (cx : CallCtx) (program : Pubkey) (metas : list AccountMeta)
    (msg : OnRecvPacketMsg) : M bytes :=
  _ ← invoke_ibc_app cx program metas (IxOnRecvPacket msg);
  r ← get_return_data;
  match r with
  | Some (program_id, data) =>
      if bool_decide (program_id = program)
      then lift (ok_or (borsh_decode_vec_u8 data) (EIbcApp IbcAppErr.InvalidAppResponse))
      else fail IbcAppErr.InvalidAppResponse
  | None => fail IbcAppErr.InvalidAppResponse
  end.

Definition on_acknowledgement_packet (cx : CallCtx) (program : Pubkey) (metas : list AccountMeta)
    (msg : OnAcknowledgementPacketMsg) : M unit :=
  invoke_ibc_app cx program metas (IxOnAcknowledgementPacket msg).

Definition on_timeout_packet (cx : CallCtx) (program : Pubkey) (metas : list AccountMeta)
    (msg : OnTimeoutPacketMsg) : M unit :=
  invoke_ibc_app cx program metas (IxOnTimeoutPacket msg).

(** [match .. { Err(_) => unreachable!() }]: the transaction aborts. *)
Definition or_unreachable {A} (m : M A) : M A := fun w =>
  match m w with
  | Ok r => Ok r
  | Err _ => Err (EAnchor AnchorErr.Panicked)
  end.

(** ** Shared account constraints *)

(** The access manager's account of the program the router trusts. *)
Definition access_manager_is (k : Pubkey) (rs : RouterState) : M unit :=
  seeds_are k [AccessManager_SEED] (ams_access_manager (rs_am_state rs)).

Definition lc_accounts_ok (client : Client) (lc : LcAccounts) : M unit :=
  _ ← address_is (lc_light_client_program lc) (cl_client_program_id client)
        RouterErr.InvalidLightClientProgram;
  _ ← owner_is (lc_client_state lc) (lc_light_client_program lc) RouterErr.InvalidAccountOwner;
  owner_is (lc_consensus_state lc) (lc_light_client_program lc) RouterErr.InvalidAccountOwner.

Definition current_timestamp : M Z :=
  t ← clock_unix_timestamp;
  lift (ok_or (u64_try_from_i64 t) (ERouter RouterErr.ArithmeticOverflow)).

(** [msg.packet.payloads[0]] in a seed: out of range it panics. *)
Definition first_payload (p : MsgPacket) : M MsgPayload :=
  lift (ok_or (head (mpk_payloads p)) (EAnchor AnchorErr.Panicked)).

(** ** [instructions/initialize.rs] *)

Record RInitializeAccounts := mkRInitializeAccounts {
  ri_router_state : Pubkey;
  ri_payer : Pubkey;
  ri_system_program : Pubkey;
  ri_program_data : Pubkey;
  ri_authority : Pubkey }.

Definition initialize (cx : CallCtx) (acc : RInitializeAccounts) (access_manager : Pubkey) : M unit :=
  _ ← signer cx (ri_payer acc);
  _ ← system_program (ri_system_program acc);
  program_data ← load_account BPF_LOADER_UPGRADEABLE_ID as_ProgramData (ri_program_data acc);
  _ ← signer cx (ri_authority acc);
  _ ← seeds_are (ri_router_state acc) [RouterState_SEED] ROUTER_ID;
  _ ← init_account cx ROUTER_ID (ri_router_state acc) (ri_payer acc) (8 + RouterState_INIT_SPACE);
  _ ← writable cx (ri_payer acc);
  _ ← seeds_are (ri_program_data acc) [ROUTER_ID] BPF_LOADER_UPGRADEABLE_ID;
  _ ← require (bool_decide (program_data = Some (ri_authority acc))) RouterErr.UnauthorizedDeployer;
  _ ← require (negb (bool_decide (access_manager = Pubkey_default))) RouterErr.InvalidAccessManager;
  store_account ROUTER_ID (ri_router_state acc)
    (DRouterState (mkRouterState V1 (AccessManagerState_new access_manager) false)).

(** ** [instructions/pause.rs] and [unpause.rs] *)

Record PauseAccounts := mkPauseAccounts {
  pa_router_state : Pubkey;
  pa_access_manager : Pubkey;
  pa_authority : Pubkey;
  pa_instructions_sysvar : Pubkey }.

Definition pause (cx : CallCtx) (acc : PauseAccounts) : M unit :=
  rs ← load_account ROUTER_ID as_RouterState (pa_router_state acc);
  _ ← signer cx (pa_authority acc);
  _ ← seeds_are (pa_router_state acc) [RouterState_SEED] ROUTER_ID;
  _ ← writable cx (pa_router_state acc);
  _ ← require (negb (rs_paused rs)) RouterErr.RouterPaused;
  _ ← access_manager_is (pa_access_manager acc) rs;
  _ ← instructions_sysvar (pa_instructions_sysvar acc);
  _ ← require_role cx (pa_access_manager acc) PAUSER_ROLE (pa_authority acc)
        (pa_instructions_sysvar acc) ROUTER_ID;
  _ ← emit ROUTER_ID RouterPausedEvent;
  store_account ROUTER_ID (pa_router_state acc)
    (DRouterState (mkRouterState (rs_version rs) (rs_am_state rs) true)).

Definition unpause (cx : CallCtx) (acc : PauseAccounts) : M unit :=
  rs ← load_account ROUTER_ID as_RouterState (pa_router_state acc);
  _ ← signer cx (pa_authority acc);
  _ ← seeds_are (pa_router_state acc) [RouterState_SEED] ROUTER_ID;
  _ ← writable cx (pa_router_state acc);
  _ ← require (rs_paused rs) RouterErr.RouterNotPaused;
  _ ← access_manager_is (pa_access_manager acc) rs;
  _ ← instructions_sysvar (pa_instructions_sysvar acc);
  _ ← require_role cx (pa_access_manager acc) UNPAUSER_ROLE (pa_authority acc)
        (pa_instructions_sysvar acc) ROUTER_ID;
  _ ← emit ROUTER_ID RouterUnpausedEvent;
  store_account ROUTER_ID (pa_router_state acc)
    (DRouterState (mkRouterState (rs_version rs) (rs_am_state rs) false)).

(** ** [instructions/access_manager_transfer.rs] *)

Definition with_am_state (rs : RouterState) (s : AccessManagerState) : RouterState :=
  mkRouterState (rs_version rs) s (rs_paused rs).

Definition propose_access_manager_transfer (cx : CallCtx) (acc : PauseAccounts)
    (new_access_manager : Pubkey) : M unit :=
  rs ← load_account ROUTER_ID as_RouterState (pa_router_state acc);
  _ ← signer cx (pa_authority acc);
  _ ← seeds_are (pa_router_state acc) [RouterState_SEED] ROUTER_ID;
  _ ← writable cx (pa_router_state acc);
  _ ← access_manager_is (pa_access_manager acc) rs;
  _ ← instructions_sysvar (pa_instructions_sysvar acc);
  s ← propose_transfer cx (rs_am_state rs) new_access_manager (pa_access_manager acc)
        (pa_authority acc) (pa_instructions_sysvar acc) ROUTER_ID;
  store_account ROUTER_ID (pa_router_state acc) (DRouterState (with_am_state rs s)).

(** [pa_access_manager] is the account of the proposed access manager. *)
Definition accept_access_manager_transfer (cx : CallCtx) (acc : PauseAccounts) : M unit :=
  rs ← load_account ROUTER_ID as_RouterState (pa_router_state acc);
  _ ← signer cx (pa_authority acc);
  _ ← seeds_are (pa_router_state acc) [RouterState_SEED] ROUTER_ID;
  _ ← writable cx (pa_router_state acc);
  pending ← lift (ok_or (ams_pending_access_manager (rs_am_state rs))
        (EAccessManager AccessManagerErr.NoPendingAccessManagerTransfer));
  _ ← seeds_are (pa_access_manager acc) [AccessManager_SEED] pending;
  _ ← instructions_sysvar (pa_instructions_sysvar acc);
  s ← accept_transfer cx (rs_am_state rs) (pa_access_manager acc) (pa_authority acc)
        (pa_instructions_sysvar acc) ROUTER_ID;
  store_account ROUTER_ID (pa_router_state acc) (DRouterState (with_am_state rs s)).

Definition cancel_access_manager_transfer (cx : CallCtx) (acc : PauseAccounts) : M unit :=
  rs ← load_account ROUTER_ID as_RouterState (pa_router_state acc);
  _ ← signer cx (pa_authority acc);
  _ ← seeds_are (pa_router_state acc) [RouterState_SEED] ROUTER_ID;
  _ ← writable cx (pa_router_state acc);
  _ ← access_manager_is (pa_access_manager acc) rs;
  _ ← instructions_sysvar (pa_instructions_sysvar acc);
  s ← cancel_transfer cx (rs_am_state rs) (pa_access_manager acc) (pa_authority acc)
        (pa_instructions_sysvar acc) ROUTER_ID;
  store_account ROUTER_ID (pa_router_state acc) (DRouterState (with_am_state rs s)).

(** ** [instructions/add_ibc_app.rs] *)

Record AddIbcAppAccounts := mkAddIbcAppAccounts {
  ad_router_state : Pubkey;
  ad_access_manager : Pubkey;
  ad_ibc_app : Pubkey;
  ad_app_program : Pubkey;
  ad_payer : Pubkey;
  ad_authority : Pubkey;
  ad_system_program : Pubkey;
  ad_instructions_sysvar : Pubkey }.

Definition add_ibc_app (cx : CallCtx) (acc : AddIbcAppAccounts) (port_id : bytes) : M unit :=
  rs ← load_account ROUTER_ID as_RouterState (ad_router_state acc);
  _ ← signer cx (ad_payer acc);
  _ ← signer cx (ad_authority acc);
  _ ← system_program (ad_system_program acc);
  _ ← seeds_are (ad_ibc_app acc) [IBCApp_SEED; port_id] ROUTER_ID;
  _ ← init_account cx ROUTER_ID (ad_ibc_app acc) (ad_payer acc) (8 + IBCApp_INIT_SPACE);
  _ ← seeds_are (ad_router_state acc) [RouterState_SEED] ROUTER_ID;
  _ ← access_manager_is (ad_access_manager acc) rs;
  w ← get_world;
  _ ← require (is_executable w (ad_app_program acc)) RouterErr.AppProgramNotExecutable;
  _ ← writable cx (ad_payer acc);
  _ ← instructions_sysvar (ad_instructions_sysvar acc);
  _ ← require_role cx (ad_access_manager acc) ID_CUSTOMIZER_ROLE (ad_authority acc)
        (ad_instructions_sysvar acc) ROUTER_ID;
  _ ← require (validate_custom_ibc_identifier port_id MIN_PORT_ID_LENGTH MAX_PORT_ID_LENGTH)
        RouterErr.InvalidPortIdentifier;
  _ ← emit ROUTER_ID (IBCAppAdded port_id (ad_app_program acc));
  store_account ROUTER_ID (ad_ibc_app acc) (DIBCApp (mkIBCApp V1 port_id (ad_app_program acc))).

(** ** [instructions/client.rs] *)

Record AddClientAccounts := mkAddClientAccounts {
  adc_authority : Pubkey;
  adc_router_state : Pubkey;
  adc_am : Pubkey;
  adc_client : Pubkey;
  adc_light_client_program : Pubkey;
  adc_system_program : Pubkey;
  adc_instructions_sysvar : Pubkey }.

Definition add_client (cx : CallCtx) (acc : AddClientAccounts) (client_id : bytes)
    (counterparty_info : CounterpartyInfo) : M unit :=
  _ ← signer cx (adc_authority acc);
  rs ← load_account ROUTER_ID as_RouterState (adc_router_state acc);
  _ ← system_program (adc_system_program acc);
  _ ← seeds_are (adc_client acc) [Client_SEED; client_id] ROUTER_ID;
  _ ← init_account cx ROUTER_ID (adc_client acc) (adc_authority acc) (8 + Client_INIT_SPACE);
  _ ← writable cx (adc_authority acc);
  _ ← seeds_are (adc_router_state acc) [RouterState_SEED] ROUTER_ID;
  _ ← access_manager_is (adc_am acc) rs;
  _ ← instructions_sysvar (adc_instructions_sysvar acc);
  _ ← require_role cx (adc_am acc) ID_CUSTOMIZER_ROLE (adc_authority acc)
        (adc_instructions_sysvar acc) ROUTER_ID;
  _ ← require (validate_custom_ibc_identifier client_id MIN_CLIENT_ID_LENGTH
                 (Z.to_nat MAX_CLIENT_ID_LENGTH)) RouterErr.InvalidClientId;
  _ ← require (negb (bool_decide (ci_merkle_prefix counterparty_info = [])))
        RouterErr.InvalidCounterpartyInfo;
  let client := mkClient V1 client_id (adc_light_client_program acc) counterparty_info true in
  _ ← emit ROUTER_ID (ClientAddedEvent client);
  store_account ROUTER_ID (adc_client acc) (DClient client).

Record MigrateClientParams := mkMigrateClientParams {
  mcp_client_program_id : option Pubkey;
  mcp_counterparty_info : option CounterpartyInfo;
  mcp_active : option bool }.

(** [MigrateClient] has no light client nor system program account. *)
Record MigrateClientAccounts := mkMigrateClientAccounts {
  mc_authority : Pubkey;
  mc_router_state : Pubkey;
  mc_access_manager : Pubkey;
  mc_client : Pubkey;
  mc_instructions_sysvar : Pubkey }.

Definition is_some {A} (o : option A) : bool := match o with Some _ => true | None => false end.

(** The update of the client's fields. *)
Definition migrated (client : Client) (params : MigrateClientParams) : result Error Client :=
  let program := default (cl_client_program_id client) (mcp_client_program_id params) in
  info ← match mcp_counterparty_info params with
         | Some info =>
             _ ← require_r (negb (bool_decide (ci_merkle_prefix info = [])))
                   (ERouter RouterErr.InvalidCounterpartyInfo);
             Ok info
         | None => Ok (cl_counterparty_info client)
         end;
  Ok (mkClient (cl_version client) (cl_client_id client) program info
        (default (cl_active client) (mcp_active params))).

Definition migrate_client (cx : CallCtx) (acc : MigrateClientAccounts) (client_id : bytes)
    (params : MigrateClientParams) : M unit :=
  _ ← signer cx (mc_authority acc);
  rs ← load_account ROUTER_ID as_RouterState (mc_router_state acc);
  client ← load_account ROUTER_ID as_Client (mc_client acc);
  _ ← writable cx (mc_authority acc);
  _ ← seeds_are (mc_router_state acc) [RouterState_SEED] ROUTER_ID;
  _ ← access_manager_is (mc_access_manager acc) rs;
  _ ← seeds_are (mc_client acc) [Client_SEED; client_id] ROUTER_ID;
  _ ← writable cx (mc_client acc);
  _ ← instructions_sysvar (mc_instructions_sysvar acc);
  _ ← require (bool_decide (cl_client_id client = client_id)) RouterErr.ClientMismatch;
  _ ← require_admin cx (mc_access_manager acc) (mc_authority acc) (mc_instructions_sysvar acc)
        ROUTER_ID;
  _ ← require (is_some (mcp_client_program_id params) || is_some (mcp_counterparty_info params) ||
               is_some (mcp_active params)) RouterErr.InvalidMigrationParams;
  client' ← lift (migrated client params);
  _ ← emit ROUTER_ID (ClientUpdatedEvent client');
  store_account ROUTER_ID (mc_client acc) (DClient client').

(** ** [instructions/send_packet.rs] *)

Definition commitment_seeds (seed client_id : bytes) (sequence : Z) : list bytes :=
  [seed; client_id; u64_to_le_bytes sequence].

Record SendAccounts := mkSendAccounts {
  se_router_state : Pubkey;
  se_ibc_app : Pubkey;
  se_packet_commitment : Pubkey;
  se_app_signer : Pubkey;
  se_payer : Pubkey;
  se_system_program : Pubkey;
  se_client : Pubkey;
  se_lc : LcAccounts }.

Definition send_packet (cx : CallCtx) (acc : SendAccounts) (msg : MsgSendPacket) : M unit :=
  rs ← load_account ROUTER_ID as_RouterState (se_router_state acc);
  app ← load_account ROUTER_ID as_IBCApp (se_ibc_app acc);
  _ ← signer cx (se_app_signer acc);
  _ ← signer cx (se_payer acc);
  _ ← system_program (se_system_program acc);
  client ← load_account ROUTER_ID as_Client (se_client acc);
  _ ← seeds_are (se_packet_commitment acc)
        (commitment_seeds PACKET_COMMITMENT_SEED (msp_source_client msg) (msp_sequence msg)) ROUTER_ID;
  _ ← init_account cx ROUTER_ID (se_packet_commitment acc) (se_payer acc)
        (8 + Commitment_INIT_SPACE);
  _ ← seeds_are (se_router_state acc) [RouterState_SEED] ROUTER_ID;
  _ ← require (negb (rs_paused rs)) RouterErr.RouterPaused;
  _ ← seeds_are (se_ibc_app acc) [IBCApp_SEED; pl_source_port (msp_payload msg)] ROUTER_ID;
  _ ← require (bool_decide (app_port_id app = pl_source_port (msp_payload msg)))
        RouterErr.PortIdentifierMismatch;
  _ ← seeds_are (se_app_signer acc) [IBCAppState_SEED] (app_program_id app);
  _ ← writable cx (se_payer acc);
  _ ← seeds_are (se_client acc) [Client_SEED; msp_source_client msg] ROUTER_ID;
  _ ← require (cl_active client) RouterErr.ClientNotActive;
  _ ← lc_accounts_ok client (se_lc acc);
  status ← lc_client_status cx client (se_lc acc);
  _ ← require (bool_decide (status = Active)) RouterErr.ClientNotActive;
  now ← current_timestamp;
  _ ← require (Z.ltb now (msp_timeout_timestamp msg)) RouterErr.InvalidTimeoutTimestamp;
  _ ← require (Z.leb (msp_timeout_timestamp msg - now) MAX_TIMEOUT_DURATION)
        RouterErr.InvalidTimeoutDuration;
  _ ← require (Z.ltb 0 (msp_sequence msg)) RouterErr.ZeroPacketSequence;
  let packet := mkPacket (msp_sequence msg) (msp_source_client msg)
                  (ci_client_id (cl_counterparty_info client)) (msp_timeout_timestamp msg)
                  [msp_payload msg] in
  let commitment := packet_commitment_bytes32 packet in
  _ ← emit ROUTER_ID (SendPacketEvent (msp_source_client msg) (msp_sequence msg) packet
                        (msp_timeout_timestamp msg));
  _ ← set_return_data ROUTER_ID (u64_to_le_bytes (msp_sequence msg));
  store_account ROUTER_ID (se_packet_commitment acc) (DCommitment commitment).

(** ** Accounts of [recv_packet], [ack_packet] and [timeout_packet] *)

Record PacketAccounts := mkPacketAccounts {
  pk_router_state : Pubkey;
  pk_access_manager : Pubkey;
  pk_ibc_app : Pubkey;
  pk_packet_receipt : Pubkey;      (* recv_packet *)
  pk_packet_ack : Pubkey;          (* recv_packet *)
  pk_packet_commitment : Pubkey;   (* ack_packet and timeout_packet *)
  pk_ibc_app_program : Pubkey;
  pk_ibc_app_state : Pubkey;
  pk_relayer : Pubkey;
  pk_system_program : Pubkey;
  pk_instructions_sysvar : Pubkey;
  pk_client : Pubkey;
  pk_lc : LcAccounts;
  pk_remaining : list Pubkey }.

(** The constraints the three handlers share, in field order: the accounts
    before the commitments, and the accounts after them. *)
Definition packet_front (acc : PacketAccounts) (rs : RouterState) (port : MsgPayload -> bytes)
    (p : MsgPacket) : M unit :=
  _ ← seeds_are (pk_router_state acc) [RouterState_SEED] ROUTER_ID;
  _ ← require (negb (rs_paused rs)) RouterErr.RouterPaused;
  _ ← access_manager_is (pk_access_manager acc) rs;
  payload ← first_payload p;
  seeds_are (pk_ibc_app acc) [IBCApp_SEED; port payload] ROUTER_ID.

Definition packet_back (cx : CallCtx) (acc : PacketAccounts) (app : IBCApp) (client : Client)
    (client_id : bytes) : M unit :=
  _ ← address_is (pk_ibc_app_program acc) (app_program_id app) RouterErr.IbcAppNotFound;
  _ ← writable cx (pk_ibc_app_state acc);
  _ ← owner_is (pk_ibc_app_state acc) (app_program_id app) RouterErr.InvalidAccountOwner;
  _ ← writable cx (pk_relayer acc);
  _ ← instructions_sysvar (pk_instructions_sysvar acc);
  _ ← seeds_are (pk_client acc) [Client_SEED; client_id] ROUTER_ID;
  _ ← require (cl_active client) RouterErr.ClientNotActive;
  lc_accounts_ok client (pk_lc acc).

Definition callback_metas (cx : CallCtx) (acc : PacketAccounts) (payload_chunks : nat)
    (proof_data : Delivery) : list AccountMeta :=
  app_metas cx (pk_ibc_app_state acc) (pk_instructions_sysvar acc) (pk_relayer acc)
    (pk_system_program acc)
    (filter_app_remaining_accounts (pk_remaining acc) payload_chunks (total_chunks proof_data)).

(** [?] on a result of [ics24]. *)
Definition lift24 {A} (r : result Ics24Err.Ics24Error A) : M A := lift (map_err EIcs24 r).

(** ** [instructions/recv_packet.rs] *)

(** The handler's body: the values of [packet_receipt] and [packet_ack] when
    it returns. *)
Definition recv_packet_body (cx : CallCtx) (acc : PacketAccounts) (client : Client)
    (msg : MsgRecvPacket) (packet_receipt packet_ack : bytes) : M (bytes * bytes) :=
  let mp := mrp_packet msg in
  _ ← require_role cx (pk_access_manager acc) RELAYER_ROLE (pk_relayer acc)
        (pk_instructions_sysvar acc) ROUTER_ID;
  _ ← require (bool_decide (mpk_source_client mp = ci_client_id (cl_counterparty_info client)))
        RouterErr.InvalidCounterpartyClient;
  _ ← require (bool_decide (mpk_dest_client mp = cl_client_id client)) RouterErr.ClientMismatch;
  now ← current_timestamp;
  _ ← require (Z.ltb now (mpk_timeout_timestamp mp)) RouterErr.InvalidTimeoutTimestamp;
  packet ← validate_and_reconstruct_packet cx mp (pk_remaining acc) (pk_relayer acc)
             (mpk_dest_client mp);
  payload ← lift (get_single_payload packet);
  payload_chunks ← lift (total_payload_chunks (mpk_payloads mp));
  proof_data ← assemble_proof_chunks cx (pk_remaining acc) (pk_relayer acc) (mpk_dest_client mp)
                 (mpk_sequence mp) (mpr_data (mrp_proof msg)) payload_chunks;
  let commitment_path := packet_commitment_path (pkt_source_client packet) (pkt_sequence packet) in
  let expected_commitment := packet_commitment_bytes32 packet in
  path ← lift24 (prefixed_path (ci_merkle_prefix (cl_counterparty_info client)) commitment_path);
  _ ← lc_verify_membership cx client (pk_lc acc)
        (mkMembershipMsg (mpr_height (mrp_proof msg)) proof_data path expected_commitment);
  receipt_commitment ← lift24 (packet_receipt_commitment_bytes32 packet);
  if negb (bool_decide (packet_receipt = Commitment_EMPTY)) then
    if bool_decide (packet_receipt = receipt_commitment) then
      _ ← emit ROUTER_ID NoopEvent;
      mret (packet_receipt, packet_ack)
    else fail RouterErr.PacketReceiptMismatch
  else
    ack ← or_unreachable (on_recv_packet cx (pk_ibc_app_program acc)
            (callback_metas cx acc payload_chunks (mpr_data (mrp_proof msg)))
            (mkOnRecvPacketMsg (pkt_source_client packet) (pkt_dest_client packet)
               (pkt_sequence packet) payload (pk_relayer acc)));
    _ ← require (negb (bool_decide (ack = []))) RouterErr.AsyncAcknowledgementNotSupported;
    _ ← require (negb (bool_decide (ack = UNIVERSAL_ERROR_ACK)))
          RouterErr.UniversalErrorAcknowledgement;
    ack_commitment ← lift24 (packet_acknowledgement_commitment_bytes32 [ack]);
    _ ← emit ROUTER_ID (WriteAcknowledgementEvent (pkt_dest_client packet) (pkt_sequence packet)
                          packet [ack]);
    mret (receipt_commitment, ack_commitment).

Definition recv_packet (cx : CallCtx) (acc : PacketAccounts) (msg : MsgRecvPacket) : M unit :=
  let mp := mrp_packet msg in
  rs ← load_account ROUTER_ID as_RouterState (pk_router_state acc);
  app ← load_account ROUTER_ID as_IBCApp (pk_ibc_app acc);
  _ ← signer cx (pk_relayer acc);
  _ ← system_program (pk_system_program acc);
  client ← load_account ROUTER_ID as_Client (pk_client acc);
  _ ← seeds_are (pk_packet_receipt acc)
        (commitment_seeds PACKET_RECEIPT_SEED (mpk_dest_client mp) (mpk_sequence mp)) ROUTER_ID;
  packet_receipt ← init_if_needed cx ROUTER_ID as_Commitment Commitment_EMPTY
                     (pk_packet_receipt acc) (pk_relayer acc) (8 + Commitment_INIT_SPACE);
  _ ← seeds_are (pk_packet_ack acc)
        (commitment_seeds PACKET_ACK_SEED (mpk_dest_client mp) (mpk_sequence mp)) ROUTER_ID;
  packet_ack ← init_if_needed cx ROUTER_ID as_Commitment Commitment_EMPTY
                 (pk_packet_ack acc) (pk_relayer acc) (8 + Commitment_INIT_SPACE);
  _ ← packet_front acc rs mpl_dest_port mp;
  _ ← packet_back cx acc app client (mpk_dest_client mp);
  values ← recv_packet_body cx acc client msg packet_receipt packet_ack;
  _ ← store_account ROUTER_ID (pk_packet_receipt acc) (DCommitment (fst values));
  store_account ROUTER_ID (pk_packet_ack acc) (DCommitment (snd values)).

(** ** [instructions/ack_packet.rs] and [timeout_packet.rs] *)

(** The accounts of the two handlers; the packet's commitment is loaded, not
    created. *)
Definition settle_accounts (cx : CallCtx) (acc : PacketAccounts) (mp : MsgPacket)
    : M (Client * bytes) :=
  rs ← load_account ROUTER_ID as_RouterState (pk_router_state acc);
  app ← load_account ROUTER_ID as_IBCApp (pk_ibc_app acc);
  packet_commitment ← load_account ROUTER_ID as_Commitment (pk_packet_commitment acc);
  _ ← signer cx (pk_relayer acc);
  _ ← system_program (pk_system_program acc);
  client ← load_account ROUTER_ID as_Client (pk_client acc);
  _ ← packet_front acc rs mpl_source_port mp;
  _ ← seeds_are (pk_packet_commitment acc)
        (commitment_seeds PACKET_COMMITMENT_SEED (mpk_source_client mp) (mpk_sequence mp)) ROUTER_ID;
  _ ← writable cx (pk_packet_commitment acc);
  _ ← packet_back cx acc app client (mpk_source_client mp);
  mret (client, packet_commitment).

(** The common opening of the two handlers: role, clients, packet and proof. *)
Definition settle_open (cx : CallCtx) (acc : PacketAccounts) (client : Client) (mp : MsgPacket)
    (proof : MsgProof) : M (Packet * Payload * nat * bytes) :=
  _ ← require_role cx (pk_access_manager acc) RELAYER_ROLE (pk_relayer acc)
        (pk_instructions_sysvar acc) ROUTER_ID;
  _ ← require (bool_decide (mpk_source_client mp = cl_client_id client)) RouterErr.ClientMismatch;
  _ ← require (bool_decide (mpk_dest_client mp = ci_client_id (cl_counterparty_info client)))
        RouterErr.InvalidCounterpartyClient;
  packet ← validate_and_reconstruct_packet cx mp (pk_remaining acc) (pk_relayer acc)
             (mpk_source_client mp);
  payload ← lift (get_single_payload packet);
  payload_chunks ← lift (total_payload_chunks (mpk_payloads mp));
  proof_data ← assemble_proof_chunks cx (pk_remaining acc) (pk_relayer acc) (mpk_source_client mp)
                 (mpk_sequence mp) (mpr_data proof) payload_chunks;
  mret (packet, payload, payload_chunks, proof_data).

Definition ack_packet (cx : CallCtx) (acc : PacketAccounts) (msg : MsgAckPacket) : M unit :=
  let mp := map_packet msg in
  cc ← settle_accounts cx acc mp;
  let '(client, packet_commitment) := cc in
  o ← settle_open cx acc client mp (map_proof msg);
  let '(packet, payload, payload_chunks, proof_data) := o in
  let ack_path := packet_acknowledgement_commitment_path (pkt_dest_client packet)
                    (pkt_sequence packet) in
  ack_commitment ← lift24 (packet_acknowledgement_commitment_bytes32 [map_acknowledgement msg]);
  path ← lift24 (prefixed_path (ci_merkle_prefix (cl_counterparty_info client)) ack_path);
  _ ← lc_verify_membership cx client (pk_lc acc)
        (mkMembershipMsg (mpr_height (map_proof msg)) proof_data path ack_commitment);
  let expected_commitment := packet_commitment_bytes32 packet in
  _ ← require (bool_decide (packet_commitment = expected_commitment))
        RouterErr.PacketCommitmentMismatch;
  _ ← on_acknowledgement_packet cx (pk_ibc_app_program acc)
        (callback_metas cx acc payload_chunks (mpr_data (map_proof msg)))
        (mkOnAcknowledgementPacketMsg (pkt_source_client packet) (pkt_dest_client packet)
           (pkt_sequence packet) payload (map_acknowledgement msg) (pk_relayer acc));
  _ ← emit ROUTER_ID (AckPacketEvent (pkt_source_client packet) (pkt_sequence packet) packet
                        [map_acknowledgement msg]);
  store_account ROUTER_ID (pk_packet_commitment acc) (DCommitment Commitment_EMPTY).

Definition timeout_packet (cx : CallCtx) (acc : PacketAccounts) (msg : MsgTimeoutPacket) : M unit :=
  let mp := mtp_packet msg in
  cc ← settle_accounts cx acc mp;
  let '(client, packet_commitment) := cc in
  o ← settle_open cx acc client mp (mtp_proof msg);
  let '(packet, payload, payload_chunks, proof_data) := o in
  let receipt_path := packet_receipt_commitment_path (pkt_dest_client packet)
                        (pkt_sequence packet) in
  path ← lift24 (prefixed_path (ci_merkle_prefix (cl_counterparty_info client)) receipt_path);
  counterparty_timestamp_secs ← lc_verify_non_membership cx client (pk_lc acc)
        (mkNonMembershipMsg (mpr_height (mtp_proof msg)) proof_data path);
  _ ← require (Z.leb (pkt_timeout_timestamp packet) counterparty_timestamp_secs)
        RouterErr.InvalidTimeoutTimestamp;
  let expected_commitment := packet_commitment_bytes32 packet in
  _ ← require (bool_decide (packet_commitment = expected_commitment))
        RouterErr.PacketCommitmentMismatch;
  _ ← on_timeout_packet cx (pk_ibc_app_program acc)
        (callback_metas cx acc payload_chunks (mpr_data (mtp_proof msg)))
        (mkOnTimeoutPacketMsg (pkt_source_client packet) (pkt_dest_client packet)
           (pkt_sequence packet) payload (pk_relayer acc));
  _ ← emit ROUTER_ID (TimeoutPacketEvent (pkt_source_client packet) (pkt_sequence packet) packet);
  store_account ROUTER_ID (pk_packet_commitment acc) (DCommitment Commitment_EMPTY).

(** ** [instructions/upload_payload_chunk.rs] and [upload_proof_chunk.rs] *)

Record UploadAccounts := mkUploadAccounts {
  up_router_state : Pubkey;
  up_access_manager : Pubkey;
  up_chunk : Pubkey;
  up_relayer : Pubkey;
  up_system_program : Pubkey;
  up_instructions_sysvar : Pubkey }.

(** What the two instructions share: [proj], [fresh], [seeds] and [space] are
    those of the chunk account, [data] the account after the handler. *)
Definition upload_chunk {A} (cx : CallCtx) (acc : UploadAccounts) (proj : AccountData -> option A)
    (fresh : A) (seeds : list bytes) (space : Z) (chunk_data : bytes) (data : AccountData) : M unit :=
  rs ← load_account ROUTER_ID as_RouterState (up_router_state acc);
  _ ← signer cx (up_relayer acc);
  _ ← system_program (up_system_program acc);
  _ ← seeds_are (up_chunk acc) seeds ROUTER_ID;
  _ ← init_if_needed cx ROUTER_ID proj fresh (up_chunk acc) (up_relayer acc) space;
  _ ← seeds_are (up_router_state acc) [RouterState_SEED] ROUTER_ID;
  _ ← access_manager_is (up_access_manager acc) rs;
  _ ← writable cx (up_relayer acc);
  _ ← instructions_sysvar (up_instructions_sysvar acc);
  _ ← require_role cx (up_access_manager acc) RELAYER_ROLE (up_relayer acc)
        (up_instructions_sysvar acc) ROUTER_ID;
  _ ← require (Z.leb (Z.of_nat (length chunk_data)) CHUNK_DATA_SIZE) RouterErr.ChunkDataTooLarge;
  store_account ROUTER_ID (up_chunk acc) data.

Definition upload_payload_chunk (cx : CallCtx) (acc : UploadAccounts) (msg : MsgUploadChunk) : M unit :=
  upload_chunk cx acc as_PayloadChunk (mkPayloadChunk [] 0 0 0 [])
    (payload_chunk_seeds (up_relayer acc) (muc_client_id msg) (muc_sequence msg)
       (muc_payload_index msg) (muc_chunk_index msg))
    (8 + PayloadChunk_INIT_SPACE) (muc_chunk_data msg)
    (DPayloadChunk (mkPayloadChunk (muc_client_id msg) (muc_sequence msg) (muc_payload_index msg)
       (muc_chunk_index msg) (muc_chunk_data msg))).

Definition upload_proof_chunk (cx : CallCtx) (acc : UploadAccounts) (msg : MsgUploadChunk) : M unit :=
  upload_chunk cx acc as_ProofChunk (mkProofChunk [] 0 0 [])
    (proof_chunk_seeds (up_relayer acc) (muc_client_id msg) (muc_sequence msg) (muc_chunk_index msg))
    (8 + ProofChunk_INIT_SPACE) (muc_chunk_data msg)
    (DProofChunk (mkProofChunk (muc_client_id msg) (muc_sequence msg) (muc_chunk_index msg)
       (muc_chunk_data msg))).

(** ** [instructions/cleanup_chunks.rs] *)

Record CleanupAccounts := mkCleanupAccounts {
  cu_router_state : Pubkey;
  cu_access_manager : Pubkey;
  cu_relayer : Pubkey;
  cu_instructions_sysvar : Pubkey;
  cu_remaining : list Pubkey }.

(** The lamports of the chunk go to the relayer; the same account cannot be
    borrowed twice. *)
Definition cleanup_single_chunk (cx : CallCtx) (chunk_account relayer : Pubkey) : M unit :=
  drain_account cx ROUTER_ID RouterErr.ArithmeticOverflow chunk_account relayer.

(** The chunks with the given seeds, at the positions from [chunk_index]. *)
Fixpoint cleanup_from (cx : CallCtx) (remaining : list Pubkey) (relayer : Pubkey)
    (seeds : list (list bytes)) (chunk_index : nat) : M unit :=
  match seeds with
  | [] => mret ()
  | s :: seeds =>
      k ← lift (ok_or (remaining !! chunk_index) (ERouter RouterErr.InvalidChunkCount));
      _ ← check_chunk_account k s;
      _ ← cleanup_single_chunk cx k relayer;
      cleanup_from cx remaining relayer seeds (S chunk_index)
  end.

(** The seeds in the order of the two loops; [payload_idx as u8] wraps. *)
Definition cleanup_seeds (relayer : Pubkey) (msg : MsgCleanupChunks) : list (list bytes) :=
  concat (imap (fun payload_idx total =>
     (fun i => payload_chunk_seeds relayer (mcc_client_id msg) (mcc_sequence msg)
                 (Z.of_nat payload_idx mod 256) (Z.of_nat i)) <$> seq 0 (Z.to_nat total))
     (mcc_payload_chunks msg)) ++
  ((fun i => proof_chunk_seeds relayer (mcc_client_id msg) (mcc_sequence msg) (Z.of_nat i))
     <$> seq 0 (Z.to_nat (mcc_total_proof_chunks msg))).

Definition cleanup_chunks (cx : CallCtx) (acc : CleanupAccounts) (msg : MsgCleanupChunks) : M unit :=
  rs ← load_account ROUTER_ID as_RouterState (cu_router_state acc);
  _ ← signer cx (cu_relayer acc);
  _ ← seeds_are (cu_router_state acc) [RouterState_SEED] ROUTER_ID;
  _ ← access_manager_is (cu_access_manager acc) rs;
  _ ← writable cx (cu_relayer acc);
  _ ← instructions_sysvar (cu_instructions_sysvar acc);
  _ ← require_role cx (cu_access_manager acc) RELAYER_ROLE (cu_relayer acc)
        (cu_instructions_sysvar acc) ROUTER_ID;
  cleanup_from cx (cu_remaining acc) (cu_relayer acc) (cleanup_seeds (cu_relayer acc) msg) 0.

(** ** [lib.rs]: the entry point *)

Inductive RouterIx :=
| RInitialize (acc : RInitializeAccounts) (access_manager : Pubkey)
| RAddIbcApp (acc : AddIbcAppAccounts) (port_id : bytes)
| RSendPacket (acc : SendAccounts) (msg : MsgSendPacket)
| RRecvPacket (acc : PacketAccounts) (msg : MsgRecvPacket)
| RAckPacket (acc : PacketAccounts) (msg : MsgAckPacket)
| RTimeoutPacket (acc : PacketAccounts) (msg : MsgTimeoutPacket)
| RAddClient (acc : AddClientAccounts) (client_id : bytes) (info : CounterpartyInfo)
| RMigrateClient (acc : MigrateClientAccounts) (client_id : bytes) (params : MigrateClientParams)
| RUploadPayloadChunk (acc : UploadAccounts) (msg : MsgUploadChunk)
| RUploadProofChunk (acc : UploadAccounts) (msg : MsgUploadChunk)
| RCleanupChunks (acc : CleanupAccounts) (msg : MsgCleanupChunks)
| RProposeAccessManagerTransfer (acc : PauseAccounts) (new_access_manager : Pubkey)
| RAcceptAccessManagerTransfer (acc : PauseAccounts)
| RCancelAccessManagerTransfer (acc : PauseAccounts)
| RPause (acc : PauseAccounts)
| RUnpause (acc : PauseAccounts).

Definition exec_router (cx : CallCtx) (ix : RouterIx) : M unit :=
  match ix with
  | RInitialize acc am => initialize cx acc am
  | RAddIbcApp acc port => add_ibc_app cx acc port
  | RSendPacket acc msg => send_packet cx acc msg
  | RRecvPacket acc msg => recv_packet cx acc msg
  | RAckPacket acc msg => ack_packet cx acc msg
  | RTimeoutPacket acc msg => timeout_packet cx acc msg
  | RAddClient acc id info => add_client cx acc id info
  | RMigrateClient acc id params => migrate_client cx acc id params
  | RUploadPayloadChunk acc msg => upload_payload_chunk cx acc msg
  | RUploadProofChunk acc msg => upload_proof_chunk cx acc msg
  | RCleanupChunks acc msg => cleanup_chunks cx acc msg
  | RProposeAccessManagerTransfer acc am => propose_access_manager_transfer cx acc am
  | RAcceptAccessManagerTransfer acc => accept_access_manager_transfer cx acc
  | RCancelAccessManagerTransfer acc => cancel_access_manager_transfer cx acc
  | RPause acc => pause cx acc
  | RUnpause acc => unpause cx acc
  end.

End Router.
