(* ===== verification/ChunkingSpec.v ===== *)
(** * Theorems on chunked packets

    The assembly of a payload or a proof returns the concatenation of the
    chunks its submitter uploaded, in order, and wipes exactly those accounts;
    uploading the chunks of a payload and assembling it is the identity. *)

From S2P Require Import Prelude Errors Types Runtime Toy Ics24 Cpi AccessManager AccessManagerSpec Keyed.
From S2P Require Import Chunking Router.
From Stdlib Require Import ZArith Lia.
From Stdlib.Strings Require Import Byte.
From stdpp Require Import base strings gmap list.

#[local] Open Scope Z_scope.

(** An account of the router holding [d]. *)
Notation holds := (held ROUTER_ID).

(** From [w] to [w'] only the accounts of [ks] were wiped. *)
Definition wiped (w : World) (ks : list Pubkey) (w' : World) : Prop :=
  w_lamports w' = w_lamports w /\ w_clock w' = w_clock w /\ w_return_data w' = w_return_data w /\
  w_log w' = w_log w /\
  (forall k, k ∉ ks -> w_accts w' !! k = w_accts w !! k) /\
  (forall k, k ∈ ks -> holds w' k DZeroed /\ owner_of w k = ROUTER_ID).

Lemma wiped_nil w : wiped w [] w.
Proof. split_and!; (done || set_solver). Qed.

Lemma access_manager_is_Ok `{Platform} k rs w u w' :
  access_manager_is k rs w = Ok (u, w') <->
  seeds_ok [AccessManager_SEED] = true /\
  k = pda_key [AccessManager_SEED] (ams_access_manager (rs_am_state rs)) /\ w' = w.
Proof. apply seeds_are_Ok. Qed.

Lemma current_timestamp_Ok `{Platform} w t w' :
  current_timestamp w = Ok (t, w') <-> u64_try_from_i64 (w_clock w) = Some t /\ w' = w.
Proof.
  unfold current_timestamp. split.
  - intros Hr. minv. by apply ok_or_ok in Hr.
  - intros [E ->]. apply bind_Ok. exists (w_clock w), w. split; [done|].
    by rewrite lift_Ok, ok_or_ok.
Qed.

Lemma lc_accounts_ok_Ok `{Platform} client lc w u w' :
  lc_accounts_ok client lc w = Ok (u, w') ->
  w' = w /\ lc_light_client_program lc = cl_client_program_id client /\
  owner_of w (lc_client_state lc) = cl_client_program_id client /\
  owner_of w (lc_consensus_state lc) = cl_client_program_id client.
Proof. unfold lc_accounts_ok. intros Hr. minv. split_and!; congruence. Qed.

(** Inversion of the router's handlers. *)
Ltac rinv_step :=
  match goal with
  | H : access_manager_is _ _ _ = Ok _ |- _ =>
      let Hs := fresh "Hs" in apply access_manager_is_Ok in H as (Hs & H & ?); subst
  | H : current_timestamp _ = Ok _ |- _ => apply current_timestamp_Ok in H as [H ?]; subst
  | H : lc_accounts_ok _ _ _ = Ok _ |- _ =>
      apply lc_accounts_ok_Ok in H as (? & H & ? & ?); subst
  end.
Ltac rinv := repeat (minv_step || rinv_step).

Section ChunkingSpec.
Context `{Platform}.

Lemma check_chunk_account_Ok k seeds w u w' :
  check_chunk_account k seeds w = Ok (u, w') <->
  seeds_ok seeds = true /\ k = pda_key seeds ROUTER_ID /\ owner_of w k = ROUTER_ID /\ w' = w.
Proof.
  unfold check_chunk_account. split.
  - intros Hr. minv. done.
  - intros (Hs & -> & Ho & ->). apply bind_Ok. exists (pda_key seeds ROUTER_ID), w.
    rewrite derive_pda_Ok. split; [done|]. apply bind_Ok. exists (), w.
    rewrite require_Ok, owner_is_Ok, bool_decide_eq_true. done.
Qed.

Lemma owner_of_router w k :
  owner_of w k = ROUTER_ID <-> exists a, w_accts w !! k = Some a /\ acc_owner a = ROUTER_ID.
Proof.
  unfold owner_of. destruct (w_accts w !! k) as [a|]; [naive_solver|].
  split; [by vm_compute|naive_solver].
Qed.

Lemma read_payload_chunk_Ok ra sub c s pi start i w d w' :
  read_payload_chunk ra sub c s pi start i w = Ok (d, w') <->
  w' = w /\ seeds_ok (payload_chunk_seeds sub c s pi (Z.of_nat i)) = true /\
  ra !! (start + i)%nat = Some (payload_chunk_key sub c s pi (Z.of_nat i)) /\
  holds w (payload_chunk_key sub c s pi (Z.of_nat i))
    (DPayloadChunk (mkPayloadChunk c s pi (Z.of_nat i) d)).
Proof.
  unfold read_payload_chunk, payload_chunk_key, held. split.
  - intros Hr. minv. apply ok_or_ok in Hm.
    apply check_chunk_account_Ok in Hm0 as (Hs & -> & Ho & ->).
    apply owner_of_router in Ho as (acc' & Hl' & Ho). rewrite Hl in Hl'. injection Hl' as <-.
    apply Z.eqb_eq in Hm3, Hm4, Hm5.
    split_and!; [done..|]. exists acc. split_and!; [done..|].
    match goal with E : as_PayloadChunk _ = Some ?x |- _ =>
      apply as_PayloadChunk_Some in E as ->; destruct x; by simplify_eq/= end.
  - intros (-> & Hs & Hk & a & Hl & Ho & D).
    apply bind_Ok. eexists _, w. rewrite lift_Ok, ok_or_ok. split; [split; [exact Hk|done]|].
    apply bind_Ok. exists (), w. rewrite check_chunk_account_Ok. split.
    { split_and!; [done..| |done]. apply owner_of_router. eauto. }
    apply bind_Ok. eexists _, w. rewrite try_deserialize_Ok.
    split; [split; [done|]; exists a; split; [exact Hl|by rewrite D]|]. simpl.
    repeat (apply bind_Ok; exists (), w; rewrite require_Ok; split;
      [split; [by (rewrite bool_decide_eq_true || rewrite Z.eqb_eq)|done]|]).
    by apply ret_Ok.
Qed.

Lemma read_proof_chunk_Ok ra sub c s start i w d w' :
  read_proof_chunk ra sub c s start i w = Ok (d, w') <->
  w' = w /\ seeds_ok (proof_chunk_seeds sub c s (Z.of_nat i)) = true /\
  ra !! (start + i)%nat = Some (proof_chunk_key sub c s (Z.of_nat i)) /\
  holds w (proof_chunk_key sub c s (Z.of_nat i)) (DProofChunk (mkProofChunk c s (Z.of_nat i) d)).
Proof.
  unfold read_proof_chunk, proof_chunk_key, held. split.
  - intros Hr. minv. apply ok_or_ok in Hm.
    apply check_chunk_account_Ok in Hm0 as (Hs & -> & Ho & ->).
    apply owner_of_router in Ho as (acc' & Hl' & Ho). rewrite Hl in Hl'. injection Hl' as <-.
    apply Z.eqb_eq in Hm3, Hm4.
    split_and!; [done..|]. exists acc. split_and!; [done..|].
    match goal with E : as_ProofChunk _ = Some ?x |- _ =>
      apply as_ProofChunk_Some in E as ->; destruct x; by simplify_eq/= end.
  - intros (-> & Hs & Hk & a & Hl & Ho & D).
    apply bind_Ok. eexists _, w. rewrite lift_Ok, ok_or_ok. split; [split; [exact Hk|done]|].
    apply bind_Ok. exists (), w. rewrite check_chunk_account_Ok. split.
    { split_and!; [done..| |done]. apply owner_of_router. eauto. }
    apply bind_Ok. eexists _, w. rewrite try_deserialize_Ok.
    split; [split; [done|]; exists a; split; [exact Hl|by rewrite D]|]. simpl.
    repeat (apply bind_Ok; exists (), w; rewrite require_Ok; split;
      [split; [by (rewrite bool_decide_eq_true || rewrite Z.eqb_eq)|done]|]).
    by apply ret_Ok.
Qed.

(** A collecting loop over read-only steps. *)
Lemma collect_Ok (read : nat -> M bytes) n i w d w' :
  (forall j x v v', read j v = Ok (x, v') -> v' = v) ->
  collect read n i w = Ok (d, w') <->
  w' = w /\ exists ds, length ds = n /\ d = concat ds /\
    forall j x, ds !! j = Some x -> read (i + j)%nat w = Ok (x, w).
Proof.
  intros Hro. revert i d w'. induction n as [|n IH]; intros i d w'; simpl.
  - rewrite ret_Ok. split; [|by intros (-> & [|] & ? & -> & _)].
    intros [-> ->]. split; [done|]. by exists [].
  - split.
    + intros (x & w1 & Hx & Hr)%bind_Ok. apply bind_Ok in Hr as (rest & w2 & Hc & [-> ->]%ret_Ok).
      pose proof (Hro _ _ _ _ Hx) as ->.
      apply IH in Hc as (-> & ds & Hlen & -> & Hds). split; [done|]. exists (x :: ds). split_and!; simpl; auto.
      intros [|j] y; simpl; intros E; [injection E as <-; by rewrite Nat.add_0_r|].
      rewrite <- Nat.add_succ_comm. by apply Hds.
    + intros (-> & [|x ds] & Hlen & -> & Hds); [done|]. simpl in Hlen.
      apply bind_Ok. exists x, w. split; [by rewrite <- (Nat.add_0_r i); apply Hds|].
      apply bind_Ok. exists (concat ds), w. split; [|by apply ret_Ok].
      apply IH. split; [done|]. exists ds. split_and!; auto.
      intros j y E. rewrite Nat.add_succ_comm. by apply Hds.
Qed.

(** The wiping loop. *)
Lemma wipe_chunks_Ok cx seeds_at ks i w u w' :
  wipe_chunks cx seeds_at ks i w = Ok (u, w') ->
  wiped w ks w' /\
  forall j k, ks !! j = Some k -> k = pda_key (seeds_at (Z.of_nat (i + j))) ROUTER_ID.
Proof.
  revert i w. induction ks as [|k ks IH]; intros i w Hr; simpl in Hr.
  - minv. split; [apply wiped_nil|done].
  - minv. apply check_chunk_account_Ok in Hm as (_ & Hk & _ & ->).
    apply fill_zero_Ok in Hm0 as (a & Ha & Ho & _ & ->).
    apply IH in Hr as ((E1 & E2 & E3 & E4 & Hsame & Hz) & Hks). simpl in *.
    split; [split_and!; try done|].
    + intros k' Hk'. rewrite Hsame by set_solver. apply lookup_insert_ne. set_solver.
    + intros k' Hk'. destruct (decide (k' ∈ ks)) as [Hin|Hin].
      * destruct (Hz k' Hin) as [? Hown]. split; [done|]. revert Hown. unfold owner_of. simpl.
        rewrite lookup_insert. case_decide; [subst; by rewrite Ha|done].
      * assert (k' = k) as -> by set_solver. split; [|unfold owner_of; by rewrite Ha].
        exists (with_data a DZeroed). by rewrite Hsame, lookup_insert_eq.
    + intros [|j] k' E; simpl in E; [injection E as <-; by rewrite Nat.add_0_r|].
      rewrite <- Nat.add_succ_comm. by apply Hks.
Qed.

Lemma wipe_chunks_runs cx seeds_at ks i w :
  (forall j k, ks !! j = Some k ->
     seeds_ok (seeds_at (Z.of_nat (i + j))) = true /\
     k = pda_key (seeds_at (Z.of_nat (i + j))) ROUTER_ID /\
     k ∈ cx_writable cx /\ exists a, w_accts w !! k = Some a /\ acc_owner a = ROUTER_ID) ->
  is_ok (wipe_chunks cx seeds_at ks i w) = true.
Proof.
  revert i w. induction ks as [|k ks IH]; intros i w Hks; simpl; [done|].
  destruct (Hks 0%nat k eq_refl) as (Hs & Hk & Hw & a & Ha & Ho). rewrite Nat.add_0_r in *.
  assert (check_chunk_account k (seeds_at (Z.of_nat i)) w = Ok ((), w)) as E1.
  { apply check_chunk_account_Ok. split_and!; [done..| |done]. apply owner_of_router. eauto. }
  assert (fill_zero cx ROUTER_ID k w = Ok ((), set_accts w (<[k := with_data a DZeroed]> (w_accts w))))
    as E2 by (apply fill_zero_Ok; eauto 10).
  unfold mbind, M_bind. rewrite E1, E2. apply IH. intros j k' E.
  destruct (Hks (S j) k' E) as (Hs' & Hk' & Hw' & a' & Ha' & Ho').
  rewrite <- Nat.add_succ_comm in *. split_and!; try done. simpl.
  destruct (decide (k = k')) as [<-|Hne].
  - exists (with_data a DZeroed). by rewrite lookup_insert_eq.
  - exists a'. by rewrite lookup_insert_ne.
Qed.

(** ** Assembly *)

Definition payload_chunk_keys (sub : Pubkey) (c : bytes) (s pi : Z) (n : nat) : list Pubkey :=
  (fun i => payload_chunk_key sub c s pi (Z.of_nat i)) <$> seq 0 n.
Definition proof_chunk_keys (sub : Pubkey) (c : bytes) (s : Z) (n : nat) : list Pubkey :=
  (fun i => proof_chunk_key sub c s (Z.of_nat i)) <$> seq 0 n.

(** The [j]-th account of a slice whose accounts are the ones expected. *)
Lemma slice_keys l start n (key : nat -> Pubkey) :
  (start + n <= length l)%nat ->
  (forall j k, take n (drop start l) !! j = Some k -> k = key j) ->
  take n (drop start l) = key <$> seq 0 n.
Proof.
  intros Hlen Hk. apply list_eq. intros j. rewrite list_lookup_fmap.
  destruct (decide (j < n)%nat) as [Hj|Hj].
  - destruct (take n (drop start l) !! j) as [k|] eqn:E.
    + rewrite (lookup_seq_lt 0 n j) by done. simpl. by rewrite (Hk _ _ E).
    + exfalso. apply lookup_ge_None in E. rewrite length_take, length_drop in E. lia.
  - rewrite !lookup_ge_None_2; [done|rewrite length_seq; lia|rewrite length_take; lia].
Qed.

Lemma assemble_single_payload_Ok cx ra sub c s pi total start w d w' :
  assemble_single_payload_chunks cx ra sub c s pi total start w = Ok (d, w') ->
  0 <= total ->
  exists ds, length ds = Z.to_nat total /\ d = concat ds /\
    take (Z.to_nat total) (drop start ra) = payload_chunk_keys sub c s pi (Z.to_nat total) /\
    (forall j x, ds !! j = Some x -> holds w (payload_chunk_key sub c s pi (Z.of_nat j))
       (DPayloadChunk (mkPayloadChunk c s pi (Z.of_nat j) x))) /\
    wiped w (payload_chunk_keys sub c s pi (Z.to_nat total)) w'.
Proof.
  unfold assemble_single_payload_chunks, cleanup_payload_chunks, slice. intros Hr Htot. minv.
  destruct (_ <=? _)%nat eqn:Hle; [|done]. apply Nat.leb_le in Hle. injection Hm0 as <-.
  apply collect_Ok in Hm as (-> & ds & Hlen & -> & Hds);
    [|by intros j x v v' (-> & _)%read_payload_chunk_Ok].
  apply wipe_chunks_Ok in Hm1 as [Hw Hk].
  pose proof (slice_keys _ _ _ _ Hle Hk) as E. fold (payload_chunk_key sub c s pi) in E.
  exists ds. rewrite E in Hw. split_and!; try done.
  intros j x Hx. apply Hds, read_payload_chunk_Ok in Hx as (_ & _ & _ & Hh). done.
Qed.

Lemma assemble_proof_Ok cx ra sub c s total start w d w' :
  assemble_proof_chunks cx ra sub c s (Chunked total) start w = Ok (d, w') ->
  exists ds, length ds = Z.to_nat total /\ d = concat ds /\
    (forall j x, ds !! j = Some x -> holds w (proof_chunk_key sub c s (Z.of_nat j))
       (DProofChunk (mkProofChunk c s (Z.of_nat j) x))) /\
    wiped w (proof_chunk_keys sub c s (Z.to_nat total)) w'.
Proof.
  unfold assemble_proof_chunks, cleanup_proof_chunks, slice. intros Hr. cbv zeta in Hr. minv.
  destruct (_ <=? _)%nat eqn:Hle; [|done]. apply Nat.leb_le in Hle. injection Hm0 as <-.
  apply collect_Ok in Hm as (-> & ds & Hlen & -> & Hds);
    [|by intros j x v v' (-> & _)%read_proof_chunk_Ok].
  apply wipe_chunks_Ok in Hm1 as [Hw Hk].
  rewrite (slice_keys _ _ _ _ Hle Hk) in Hw.
  exists ds. split_and!; try done.
  intros j x Hx. apply Hds, read_proof_chunk_Ok in Hx as (_ & _ & _ & Hh). done.
Qed.

(** Chunk accounts of any submitter, client and packet. *)
Definition is_chunk_key (k : Pubkey) : Prop :=
  (exists sub c s pi i, k = payload_chunk_key sub c s pi i) \/
  (exists sub c s i, k = proof_chunk_key sub c s i).

Definition wiped_chunks (w w' : World) : Prop :=
  exists ks, wiped w ks w' /\ Forall is_chunk_key ks.

Lemma wiped_trans w ks1 w1 ks2 w2 :
  wiped w ks1 w1 -> wiped w1 ks2 w2 -> wiped w (ks1 ++ ks2) w2.
Proof.
  intros (? & ? & ? & ? & Hs1 & Hz1) (? & ? & ? & ? & Hs2 & Hz2). split_and!; try congruence.
  - intros k Hk. rewrite Hs2, Hs1; set_solver.
  - intros k Hk. destruct (decide (k ∈ ks1)) as [Hk1|Hn1].
    + destruct (Hz1 k Hk1) as [(a & E & ? & ?) Hown]. split; [|done].
      destruct (decide (k ∈ ks2)); [by apply Hz2|]. exists a. by rewrite Hs2.
    + destruct (Hz2 k) as [? Hown]; [set_solver|]. split; [done|].
      unfold owner_of in *. by rewrite <- Hs1.
Qed.

#[export] Instance wiped_chunks_refl : Reflexive wiped_chunks.
Proof. intros w. exists []. split; [apply wiped_nil|constructor]. Qed.

#[export] Instance wiped_chunks_trans : Transitive wiped_chunks.
Proof.
  intros w1 w2 w3 (ks & ? & ?) (ks' & ? & ?). exists (ks ++ ks').
  split; [by eapply wiped_trans|by apply Forall_app_2].
Qed.

Lemma wipe_payload_chunks cx sub c s pi ks i w u w' :
  wipe_chunks cx (payload_chunk_seeds sub c s pi) ks i w = Ok (u, w') -> wiped_chunks w w'.
Proof.
  intros [Hw Hk]%wipe_chunks_Ok. exists ks. split; [done|]. apply Forall_lookup_2.
  intros j k E. left. exists sub, c, s, pi, (Z.of_nat (i + j)). by apply Hk.
Qed.

Lemma wipe_proof_chunks cx sub c s ks i w u w' :
  wipe_chunks cx (proof_chunk_seeds sub c s) ks i w = Ok (u, w') -> wiped_chunks w w'.
Proof.
  intros [Hw Hk]%wipe_chunks_Ok. exists ks. split; [done|]. apply Forall_lookup_2.
  intros j k E. right. exists sub, c, s, (Z.of_nat (i + j)). by apply Hk.
Qed.

Lemma assemble_payloads_wiped cx ra sub c s payloads i off w ds w' :
  assemble_payloads_from cx ra sub c s payloads i off w = Ok (ds, w') ->
  wiped_chunks w w' /\ length ds = length payloads.
Proof.
  revert i off w ds. induction payloads as [|p payloads IH]; intros i off w ds Hr; simpl in Hr.
  { minv. done. }
  destruct (mpl_data p); minv. apply IH in Hm0 as [Hw Hlen].
  unfold assemble_single_payload_chunks, cleanup_payload_chunks in Hm. cbv zeta in Hm. minv.
  apply collect_Ok in Hm0 as (-> & _); [|by intros j x v v' (-> & _)%read_payload_chunk_Ok].
  apply wipe_payload_chunks in Hm2. split; [by etrans|]. simpl. by rewrite Hlen.
Qed.

Lemma assemble_proof_wiped cx ra sub c s dlv start w d w' :
  assemble_proof_chunks cx ra sub c s dlv start w = Ok (d, w') -> wiped_chunks w w'.
Proof.
  destruct dlv; simpl; intros Hr.
  - by minv.
  - unfold cleanup_proof_chunks in Hr. minv.
    apply collect_Ok in Hm as (-> & _); [|by intros j x v v' (-> & _)%read_proof_chunk_Ok].
    by eapply wipe_proof_chunks.
Qed.

Lemma inline_payloads_Ok l ps :
  inline_payloads l = Ok ps -> exists ds, length ds = length l /\ ps = zip_with payload_with l ds.
Proof.
  revert ps. induction l as [|p l IH]; simpl; intros ps.
  - intros [= <-]. by exists [].
  - rewrite result_bind_ok. setoid_rewrite result_bind_ok.
    intros (d & _ & rest & Hrest & [= <-]). destruct (IH _ Hrest) as (ds & Hlen & ->).
    exists (d :: ds). simpl. by rewrite Hlen.
Qed.

(** Reconstruction keeps the packet's header and the payloads' metadata. *)
Lemma reconstruct_Ok cx mp ra sub c w p w' :
  validate_and_reconstruct_packet cx mp ra sub c w = Ok (p, w') ->
  wiped_chunks w w' /\ exists ds, length ds = length (mpk_payloads mp) /\
    p = mkPacket (mpk_sequence mp) (mpk_source_client mp) (mpk_dest_client mp)
          (mpk_timeout_timestamp mp) (zip_with payload_with (mpk_payloads mp) ds).
Proof.
  unfold validate_and_reconstruct_packet. intros Hr. cbv zeta in Hr. minv.
  destruct (mpk_payloads mp) as [|q l] eqn:E; [minv; split; [done|]; by exists []|].
  destruct (is_inline _); minv.
  - match goal with Hi : inline_payloads _ = Ok _ |- _ =>
      apply inline_payloads_Ok in Hi as (ds & Hlen & ->) end. split; [done|]. by exists ds.
  - match goal with Ha : assemble_multiple_payloads _ _ _ _ _ _ _ = Ok _ |- _ =>
      apply assemble_payloads_wiped in Ha as [? Hlen] end. split; [done|]. by eexists.
Qed.

(** A payload that is assembled is the concatenation, in order, of the
    chunks that this submitter stored for this client, sequence and payload;
    the assembly wipes exactly those chunk accounts, so that the same chunks
    cannot be assembled a second time. *)
Theorem payload_assembly_sound cx ra sub c s pi total start w d w'
    (Htot : 0 <= total)
    (Hrun : assemble_single_payload_chunks cx ra sub c s pi total start w = Ok (d, w')) :
  (exists ds, length ds = Z.to_nat total /\ d = concat ds /\
     forall j x, ds !! j = Some x -> holds w (payload_chunk_key sub c s pi (Z.of_nat j))
       (DPayloadChunk (mkPayloadChunk c s pi (Z.of_nat j) x))) /\
  wiped w (payload_chunk_keys sub c s pi (Z.to_nat total)) w' /\
  (0 < total -> forall cx' ra' start',
     is_ok (assemble_single_payload_chunks cx' ra' sub c s pi total start' w') = false).
Proof.
  apply assemble_single_payload_Ok in Hrun as (ds & Hlen & -> & _ & Hds & Hw); [|done].
  split_and!; [by exists ds|done|]. intros Hpos cx' ra' start'.
  destruct (assemble_single_payload_chunks cx' ra' sub c s pi total start' w') as [[d' w2]|] eqn:E;
    [|done].
  apply assemble_single_payload_Ok in E as (ds' & Hlen' & _ & _ & Hds' & _); [|done].
  destruct ds' as [|x ds']; [simpl in Hlen'; lia|].
  destruct (Hds' 0%nat x eq_refl) as (a & Ha & _ & Hd).
  destruct Hw as (_ & _ & _ & _ & _ & Hz).
  destruct (Hz (payload_chunk_key sub c s pi (Z.of_nat 0))) as [(a' & Ha' & _ & Hd') _].
  { apply list_elem_of_fmap. exists 0%nat. split; [done|]. apply elem_of_seq. lia. }
  congruence.
Qed.

(** ** Uploads *)

(** The chunks [ds] of a payload, uploaded one after the other. *)
Fixpoint upload_all (cx : CallCtx) (rs am relayer : Pubkey) (c : bytes) (s pi : Z)
    (ds : list bytes) (i : nat) : M unit :=
  match ds with
  | [] => mret ()
  | d :: ds =>
      _ ← upload_payload_chunk cx
            (mkUploadAccounts rs am (payload_chunk_key relayer c s pi (Z.of_nat i)) relayer
               SYSTEM_PROGRAM_ID INSTRUCTIONS_SYSVAR_ID)
            (mkMsgUploadChunk c s pi (Z.of_nat i) d);
      upload_all cx rs am relayer c s pi ds (S i)
  end.

Context `{!PlatformOk}.

Lemma upload_payload_chunk_Ok cx acc msg w u w' :
  last (cx_stack cx) = Some ROUTER_ID ->
  upload_payload_chunk cx acc msg w = Ok (u, w') ->
  let seeds := payload_chunk_seeds (up_relayer acc) (muc_client_id msg) (muc_sequence msg)
                 (muc_payload_index msg) (muc_chunk_index msg) in
  seeds_ok seeds = true /\ up_chunk acc = pda_key seeds ROUTER_ID /\
  Z.of_nat (length (muc_chunk_data msg)) <= CHUNK_DATA_SIZE /\
  holds w' (up_chunk acc) (DPayloadChunk (mkPayloadChunk (muc_client_id msg) (muc_sequence msg)
    (muc_payload_index msg) (muc_chunk_index msg) (muc_chunk_data msg))) /\
  forall k, k <> up_chunk acc -> w_accts w' !! k = w_accts w !! k.
Proof.
  intros Hself. unfold upload_payload_chunk, upload_chunk. intros Hr. rinv.
  match goal with Hr : require_role _ _ _ _ _ _ _ = Ok _ |- _ =>
    apply require_role_Ok in Hr as (-> & _); [|done] end.
  apply store_account_Ok in Hr as (a' & Ha & Ho' & _ & ->).
  cbv zeta. split_and!; try done.
  - by apply Z.leb_le.
  - exists (with_data a' (DPayloadChunk (mkPayloadChunk (muc_client_id msg) (muc_sequence msg)
      (muc_payload_index msg) (muc_chunk_index msg) (muc_chunk_data msg)))).
    simpl. by rewrite lookup_insert_eq.
  - intros k Hk. simpl. rewrite lookup_insert_ne by done.
    match goal with Hi : init_if_needed _ _ _ _ _ _ _ _ = Ok _ |- _ =>
      by eapply init_if_needed_accts; [exact Hi|] end.
Qed.

Lemma payload_chunk_key_inj sub c s pi i j :
  0 <= i < 256 -> 0 <= j < 256 ->
  payload_chunk_key sub c s pi i = payload_chunk_key sub c s pi j -> i = j.
Proof.
  intros Hi Hj [E _]%pda_inj. simpl in E.
  repeat (apply app_inv_head in E || injection E as E).
  by apply byte_of_Z_inj.
Qed.

Lemma upload_all_Ok cx rs am relayer c s pi ds i w w' :
  last (cx_stack cx) = Some ROUTER_ID ->
  upload_all cx rs am relayer c s pi ds i w = Ok ((), w') -> Z.of_nat (i + length ds) <= 256 ->
  (forall j x, ds !! j = Some x ->
     seeds_ok (payload_chunk_seeds relayer c s pi (Z.of_nat (i + j))) = true /\
     holds w' (payload_chunk_key relayer c s pi (Z.of_nat (i + j)))
       (DPayloadChunk (mkPayloadChunk c s pi (Z.of_nat (i + j)) x))) /\
  (forall j, (j < i)%nat -> w_accts w' !! payload_chunk_key relayer c s pi (Z.of_nat j) =
                            w_accts w !! payload_chunk_key relayer c s pi (Z.of_nat j)).
Proof.
  intros Hself. revert i w. induction ds as [|d ds IH]; intros i w Hr Hlen; simpl in Hr, Hlen.
  { minv. split; [done|done]. }
  minv. apply upload_payload_chunk_Ok in Hm as (Hs & Hk & _ & Hh & Hsame); [|done]. simpl in *.
  apply IH in Hr as [Hds Hold]; [|lia]. split.
  - intros [|j] x E; simpl in E.
    + injection E as <-. rewrite Nat.add_0_r. split; [done|].
      destruct Hh as (a' & Ha' & ? & ?). exists a'. rewrite Hold by lia. done.
    + rewrite <- Nat.add_succ_comm. by apply Hds.
  - intros j Hj. rewrite Hold by lia. apply Hsame.
    intros E. apply payload_chunk_key_inj in E; lia.
Qed.

(** C37: uploading the chunks of a payload one by one and then assembling it
    gives back the payload, whatever else the accounts of the assembling
    instruction are, as long as the chunk accounts are passed writable. *)
Theorem upload_assemble_roundtrip cx rs am relayer c s pi ds w w1 cx' ra start
    (Hself : last (cx_stack cx) = Some ROUTER_ID) (Hlen : (length ds <= 255)%nat)
    (Hup : upload_all cx rs am relayer c s pi ds 0 w = Ok ((), w1))
    (Hra : (start + length ds <= length ra)%nat)
    (Hkeys : take (length ds) (drop start ra) = payload_chunk_keys relayer c s pi (length ds))
    (Hwr : Forall (fun k => k ∈ cx_writable cx') (payload_chunk_keys relayer c s pi (length ds))) :
  exists w2, assemble_single_payload_chunks cx' ra relayer c s pi (Z.of_nat (length ds)) start w1
    = Ok (concat ds, w2).
Proof.
  apply upload_all_Ok in Hup as [Hds _]; [|done|lia]. simpl in Hds.
  unfold assemble_single_payload_chunks, cleanup_payload_chunks, slice. rewrite Nat2Z.id.
  assert (forall j, (j < length ds)%nat ->
    ra !! (start + j)%nat = Some (payload_chunk_key relayer c s pi (Z.of_nat j))) as Hlook.
  { intros j Hj. rewrite <- lookup_drop, <- (lookup_take_lt _ (length ds)) by done. rewrite Hkeys.
    unfold payload_chunk_keys. by rewrite list_lookup_fmap, lookup_seq_lt. }
  eexists. apply bind_Ok. exists (concat ds), w1. split.
  { apply collect_Ok; [by intros j x v v' (-> & _)%read_payload_chunk_Ok|].
    split; [done|]. exists ds. split_and!; [done..|]. intros j x E.
    apply read_payload_chunk_Ok. destruct (Hds j x E). split_and!; try done.
    apply Hlook. by apply lookup_lt_Some in E. }
  cbv beta. apply bind_Ok. eexists _, w1.
  rewrite (proj2 (Nat.leb_le _ _) Hra), Hkeys, lift_Ok. split; [done|].
  assert (is_ok (wipe_chunks cx' (payload_chunk_seeds relayer c s pi)
    (payload_chunk_keys relayer c s pi (length ds)) 0 w1) = true) as Hwipe.
  { apply wipe_chunks_runs. intros j k E. rewrite Forall_lookup in Hwr.
    pose proof (Hwr _ _ E) as Hk. apply list_lookup_fmap_Some in E as (i & -> & E).
    apply lookup_seq in E as [-> Hj]. destruct (lookup_lt_is_Some_2 ds j Hj) as [x Hx].
    destruct (Hds j x Hx) as [Hs (a & Ha & Ho & _)]. simpl in *. split_and!; eauto. }
  apply bind_Ok. eexists (), _. split; [|by apply ret_Ok].
  apply bind_Ok. exists (), w1. rewrite require_Ok. split.
  { split; [|done]. unfold payload_chunk_keys. rewrite length_fmap, length_seq. apply Z.leb_le. lia. }
  apply bind_Ok. exists (), w1. rewrite require_Ok. split.
  { split; [|done]. unfold payload_chunk_keys. rewrite length_fmap, length_seq. apply Z.eqb_refl. }
  by apply run_tx_Ok.
Qed.

End ChunkingSpec.
