(* ===== verification/RouterSpec.v ===== *)
(** * The router as a transition system

    The abstract specification of [programs/ics26-router]: the accounts of the
    protocol as named keys ([RouterKey]), the router's instructions as
    transitions between the data stored at those keys ([r_trans]), each with
    the conditions under which the code takes it and the log entries it
    leaves, and the refinement theorem: every successful instruction is one
    of the transitions.  [RouterProps.v] proves the protocol's properties on
    the transitions. *)

From S2P Require Import Prelude Errors Types Runtime Toy Ics24 Cpi AccessManager AccessManagerSpec Keyed.
From S2P Require Import Chunking Router ChunkingSpec.
From Stdlib Require Import ZArith Lia.
From Stdlib.Strings Require Import Byte.
From stdpp Require Import prelude strings gmap list.

#[local] Open Scope Z_scope.

(** ** The router's accounts *)

Inductive RouterKey :=
| KState
| KApp (port_id : bytes)
| KClient (client_id : bytes)
| KCommit (client_id : bytes) (sequence : Z)
| KReceipt (client_id : bytes) (sequence : Z)
| KAck (client_id : bytes) (sequence : Z).

#[export] Instance RouterKey_eq_dec : EqDecision RouterKey.
Proof. solve_decision. Defined.

Definition rk_seeds (K : RouterKey) : list bytes :=
  match K with
  | KState => [RouterState_SEED]
  | KApp p => [IBCApp_SEED; p]
  | KClient c => [Client_SEED; c]
  | KCommit c s => commitment_seeds PACKET_COMMITMENT_SEED c s
  | KReceipt c s => commitment_seeds PACKET_RECEIPT_SEED c s
  | KAck c s => commitment_seeds PACKET_ACK_SEED c s
  end.

(** Sequences are [u64]. *)
Definition key_typed (K : RouterKey) : Prop :=
  match K with
  | KCommit _ s | KReceipt _ s | KAck _ s => is_u64 s
  | _ => True
  end.

Section Keys.
Context `{Platform}.

Definition rk (K : RouterKey) : Pubkey := pda_key (rk_seeds K) ROUTER_ID.

Context `{!PlatformOk}.

Lemma commitment_seeds_inj c s c' s' :
  is_u64 s -> is_u64 s' ->
  c ++ u64_to_le_bytes s ++ [] = c' ++ u64_to_le_bytes s' ++ [] -> c = c' /\ s = s'.
Proof.
  intros Hs Hs' E. rewrite !app_nil_r in E.
  apply app_inj_len_r in E as [-> E]; [|by autorewrite with lengths].
  split; [done|]. by apply u64_to_le_bytes_inj.
Qed.

(** Different keys are different addresses. *)
Lemma rk_inj K K' : key_typed K -> key_typed K' -> rk K = rk K' -> K = K'.
Proof.
  intros HK HK' [E _]%pda_inj. destruct K, K'; simpl in *; try discriminate E; try done;
    repeat injection E as E.
  - rewrite !app_nil_r in E. congruence.
  - rewrite !app_nil_r in E. congruence.
  - apply commitment_seeds_inj in E as [-> ->]; done.
  - apply commitment_seeds_inj in E as [-> ->]; done.
  - apply commitment_seeds_inj in E as [-> ->]; done.
Qed.

(** The protocol's accounts are not chunk accounts, nor an access manager. *)
Lemma rk_not_chunk K : ~ is_chunk_key (rk K).
Proof.
  intros [(sub & c & s & pi & i & E)|(sub & c & s & i & E)]; apply pda_inj in E as [E _];
    destruct K; simpl in E; discriminate E.
Qed.

Lemma rk_not_am K program : rk K <> pda_key [AccessManager_SEED] program.
Proof. intros [E _]%pda_inj. destruct K; simpl in E; discriminate E. Qed.

#[export] Instance rk_ok : KeysOk ROUTER_ID rk key_typed.
Proof. split; [intros K; apply pda_key_is_pda|apply rk_inj]. Qed.

End Keys.

Notation stored w K d := (held ROUTER_ID w (rk K) d).
Notation evol := (evol_at ROUTER_ID rk key_typed).
Notation foreign := (foreign_to ROUTER_ID).
Notation admin_of := (admin_at ROUTER_ID).

(** ** What a step leaves alone *)

Section Evolution.
Context `{Platform}.

Context `{!PlatformOk}.

Lemma evol_wiped w w' :
  wiped_chunks w w' -> evol [] [] w w' /\ foreign w w' /\ w_clock w' = w_clock w.
Proof.
  intros (ks & (Hl & Hc & _ & Hlog & Hs & Hz) & Hks).
  assert (forall K, rk K ∉ ks) as Hnot.
  { intros K Hin. rewrite Forall_forall in Hks. by apply (rk_not_chunk K), Hks. }
  split_and!; [constructor; [| | |by rewrite Hlog]| |done].
  - unfold own_log. by rewrite Hlog, app_nil_r.
  - intros K _ _. by apply Hs.
  - intros K _ [Hn|Hp]; [left; by rewrite Hs|right; unfold lam; by rewrite Hl].
  - intros k a Hk Hne. destruct (decide (k ∈ ks)) as [Hin|Hin]; [|by rewrite Hs].
    exfalso. apply Hne. destruct (Hz k Hin) as [_ Ho]. unfold owner_of in Ho. by rewrite Hk in Ho.
Qed.

(** The calls the router makes, which its own entry point refuses. *)
Definition router_call (ix : CpiIx) : bool :=
  match ix with
  | IxVerifyMembership _ | IxVerifyNonMembership _ | IxClientStatus
  | IxOnRecvPacket _ | IxOnAcknowledgementPacket _ | IxOnTimeoutPacket _ => true
  | _ => false
  end.

Class RouterDeployed : Prop :=
  router_entry cx metas ix w :
    router_call ix = true -> is_ok (process_instruction cx ROUTER_ID metas ix w) = false.

Lemma invoke_evol `{!RouterDeployed} cx prog metas ix w u w' :
  running cx ROUTER_ID -> router_call ix = true ->
  invoke cx ROUTER_ID prog metas ix w = Ok (u, w') ->
  evol [] [LInvoke ROUTER_ID prog ix] w w' /\ prog <> ROUTER_ID /\
  process_instruction (callee_ctx cx prog metas) prog metas ix
    (set_return (add_log w (LInvoke ROUTER_ID prog ix)) None) = Ok w'.
Proof.
  intros Hrun Hix Hi.
  assert (process_instruction (callee_ctx cx prog metas) prog metas ix
    (set_return (add_log w (LInvoke ROUTER_ID prog ix)) None) = Ok w') as Hp.
  { revert Hi. unfold invoke, invoke_signed. destruct (metas_allowed _ _ _); [|done].
    destruct (_ && _); [done|]. simpl.
    destruct (process_instruction _ _ _ _ _); [by intros [= _ ->]|done]. }
  assert (prog <> ROUTER_ID) as Hne.
  { intros ->. pose proof (router_entry (callee_ctx cx ROUTER_ID metas) metas ix
      (set_return (add_log w (LInvoke ROUTER_ID ROUTER_ID ix)) None) Hix) as He.
    by rewrite Hp in He. }
  split_and!; [|done..]. by eapply evol_invoke.
Qed.

End Evolution.

(** ** Transitions *)

Section Transitions.
Context `{Platform}.

(** [require_role] with the access manager the router trusts, and
    [require_admin] in the router. *)
Definition holder (cx : CallCtx) (w : World) (rs : RouterState) (role_id : Z) (s : Pubkey) : Prop :=
  holder_of ROUTER_ID cx w (ams_access_manager (rs_am_state rs)) role_id s.

(** A running router, and a relayer of the access manager it trusts. *)
Definition relay (cx : CallCtx) (w : World) (relayer : Pubkey) : Prop :=
  exists rs, stored w KState (DRouterState rs) /\ rs_paused rs = false /\
    holder cx w rs RELAYER_ROLE relayer.

Definition lc_metas (state cons : Pubkey) : list AccountMeta :=
  [mkAccountMeta state false false; mkAccountMeta cons false false].

(** The light client [program] accepted the call on its own accounts as they
    are in [w], and left [w2]. *)
Definition lc_answer (cx : CallCtx) (w : World) (program state cons : Pubkey) (ix : CpiIx)
    (w2 : World) : Prop :=
  owner_of w state = program /\ owner_of w cons = program /\ program <> ROUTER_ID /\
  exists w1, foreign w w1 /\ w_clock w1 = w_clock w /\
    process_instruction (callee_ctx cx program (lc_metas state cons)) program
      (lc_metas state cons) ix w1 = Ok w2.

(** The registered client [c], and its active light client. *)
Definition active_client (w : World) (c : bytes) (cl : Client) : Prop :=
  stored w (KClient c) (DClient cl) /\ cl_active cl = true /\ cl_client_id cl = c.

Inductive r_trans (cx : CallCtx) (w : World)
    : list (RouterKey * AccountData) -> list LogEntry -> Prop :=
| R_initialize authority am :
    w_accts w !! rk KState = None -> authority ∈ cx_signers cx ->
    upgrade_authority_of w ROUTER_ID authority -> am <> Pubkey_default ->
    r_trans cx w [(KState, DRouterState (mkRouterState V1 (AccessManagerState_new am) false))] []
| R_pause rs s :
    stored w KState (DRouterState rs) -> rs_paused rs = false -> holder cx w rs PAUSER_ROLE s ->
    r_trans cx w [(KState, DRouterState (mkRouterState (rs_version rs) (rs_am_state rs) true))]
      [LEvent ROUTER_ID RouterPausedEvent]
| R_unpause rs s :
    stored w KState (DRouterState rs) -> rs_paused rs = true -> holder cx w rs UNPAUSER_ROLE s ->
    r_trans cx w [(KState, DRouterState (mkRouterState (rs_version rs) (rs_am_state rs) false))]
      [LEvent ROUTER_ID RouterUnpausedEvent]
| R_propose_am rs s n :
    stored w KState (DRouterState rs) -> admin_of cx w (ams_access_manager (rs_am_state rs)) s ->
    n <> Pubkey_default -> n <> ams_access_manager (rs_am_state rs) ->
    ams_pending_access_manager (rs_am_state rs) = None ->
    r_trans cx w [(KState, DRouterState (with_am_state rs
        (mkAccessManagerState (ams_access_manager (rs_am_state rs)) (Some n))))]
      [LEvent ROUTER_ID (AccessManagerTransferProposed (ams_access_manager (rs_am_state rs)) n)]
| R_accept_am rs s n :
    stored w KState (DRouterState rs) -> ams_pending_access_manager (rs_am_state rs) = Some n ->
    admin_of cx w n s ->
    r_trans cx w [(KState, DRouterState (with_am_state rs (mkAccessManagerState n None)))]
      [LEvent ROUTER_ID (AccessManagerTransferAccepted (ams_access_manager (rs_am_state rs)) n)]
| R_cancel_am rs s n :
    stored w KState (DRouterState rs) -> ams_pending_access_manager (rs_am_state rs) = Some n ->
    admin_of cx w (ams_access_manager (rs_am_state rs)) s ->
    r_trans cx w [(KState, DRouterState (with_am_state rs
        (mkAccessManagerState (ams_access_manager (rs_am_state rs)) None)))]
      [LEvent ROUTER_ID (AccessManagerTransferCancelled (ams_access_manager (rs_am_state rs)) n)]
| R_add_app rs s port program :
    stored w KState (DRouterState rs) -> holder cx w rs ID_CUSTOMIZER_ROLE s ->
    w_accts w !! rk (KApp port) = None -> (length port <= 32)%nat ->
    validate_custom_ibc_identifier port MIN_PORT_ID_LENGTH MAX_PORT_ID_LENGTH = true ->
    r_trans cx w [(KApp port, DIBCApp (mkIBCApp V1 port program))]
      [LEvent ROUTER_ID (IBCAppAdded port program)]
| R_add_client rs s c program info :
    stored w KState (DRouterState rs) -> holder cx w rs ID_CUSTOMIZER_ROLE s ->
    w_accts w !! rk (KClient c) = None ->
    validate_custom_ibc_identifier c MIN_CLIENT_ID_LENGTH (Z.to_nat MAX_CLIENT_ID_LENGTH) = true ->
    ci_merkle_prefix info <> [] ->
    r_trans cx w [(KClient c, DClient (mkClient V1 c program info true))]
      [LEvent ROUTER_ID (ClientAddedEvent (mkClient V1 c program info true))]
| R_migrate rs s c cl cl' params :
    stored w KState (DRouterState rs) -> admin_of cx w (ams_access_manager (rs_am_state rs)) s ->
    stored w (KClient c) (DClient cl) -> cl_client_id cl = c -> migrated cl params = Ok cl' ->
    r_trans cx w [(KClient c, DClient cl')] [LEvent ROUTER_ID (ClientUpdatedEvent cl')]
| R_send rs app cl c s payload timeout now state cons w2 data :
    stored w KState (DRouterState rs) -> rs_paused rs = false ->
    stored w (KApp (pl_source_port payload)) (DIBCApp app) ->
    app_port_id app = pl_source_port payload ->
    pda_key [IBCAppState_SEED] (app_program_id app) ∈ cx_signers cx ->
    stored w (KClient c) (DClient cl) -> cl_active cl = true ->
    lc_answer cx w (cl_client_program_id cl) state cons IxClientStatus w2 ->
    w_return_data w2 = Some (cl_client_program_id cl, data) ->
    head data = Some (ClientStatus_to_u8 Active) ->
    u64_try_from_i64 (w_clock w) = Some now -> now < timeout <= now + MAX_TIMEOUT_DURATION ->
    0 < s -> w_accts w !! rk (KCommit c s) = None ->
    let p := mkPacket s c (ci_client_id (cl_counterparty_info cl)) timeout [payload] in
    r_trans cx w [(KCommit c s, DCommitment (packet_commitment_bytes32 p))]
      [LInvoke ROUTER_ID (cl_client_program_id cl) IxClientStatus;
       LEvent ROUTER_ID (SendPacketEvent c s p timeout)]
| R_recv_noop relayer cl c s p height proof path state cons w2 rc v :
    relay cx w relayer -> active_client w c cl ->
    pkt_dest_client p = c -> pkt_sequence p = s ->
    pkt_source_client p = ci_client_id (cl_counterparty_info cl) ->
    prefixed_path (ci_merkle_prefix (cl_counterparty_info cl))
      (packet_commitment_path (pkt_source_client p) s) = Ok path ->
    lc_answer cx w (cl_client_program_id cl) state cons
      (IxVerifyMembership (mkMembershipMsg height proof path (packet_commitment_bytes32 p))) w2 ->
    packet_receipt_commitment_bytes32 p = Ok rc ->
    stored w (KReceipt c s) (DCommitment rc) -> rc <> Commitment_EMPTY ->
    ((w_accts w !! rk (KAck c s) = None /\ v = Commitment_EMPTY) \/
     stored w (KAck c s) (DCommitment v)) ->
    r_trans cx w [(KReceipt c s, DCommitment rc); (KAck c s, DCommitment v)]
      [LInvoke ROUTER_ID (cl_client_program_id cl)
         (IxVerifyMembership (mkMembershipMsg height proof path (packet_commitment_bytes32 p)));
       LEvent ROUTER_ID NoopEvent]
| R_recv relayer cl app c s p payload now height proof path state cons w2 rc ack v :
    relay cx w relayer -> active_client w c cl ->
    pkt_dest_client p = c -> pkt_sequence p = s -> pkt_payloads p = [payload] ->
    pkt_source_client p = ci_client_id (cl_counterparty_info cl) ->
    stored w (KApp (pl_dest_port payload)) (DIBCApp app) ->
    u64_try_from_i64 (w_clock w) = Some now -> now < pkt_timeout_timestamp p ->
    prefixed_path (ci_merkle_prefix (cl_counterparty_info cl))
      (packet_commitment_path (pkt_source_client p) s) = Ok path ->
    lc_answer cx w (cl_client_program_id cl) state cons
      (IxVerifyMembership (mkMembershipMsg height proof path (packet_commitment_bytes32 p))) w2 ->
    packet_receipt_commitment_bytes32 p = Ok rc ->
    (w_accts w !! rk (KReceipt c s) = None \/ stored w (KReceipt c s) (DCommitment Commitment_EMPTY)) ->
    ack <> [] -> ack <> UNIVERSAL_ERROR_ACK ->
    packet_acknowledgement_commitment_bytes32 [ack] = Ok v ->
    r_trans cx w [(KReceipt c s, DCommitment rc); (KAck c s, DCommitment v)]
      [LInvoke ROUTER_ID (cl_client_program_id cl)
         (IxVerifyMembership (mkMembershipMsg height proof path (packet_commitment_bytes32 p)));
       LInvoke ROUTER_ID (app_program_id app)
         (IxOnRecvPacket (mkOnRecvPacketMsg (pkt_source_client p) c s payload relayer));
       LEvent ROUTER_ID (WriteAcknowledgementEvent c s p [ack])]
| R_ack relayer cl app c s p payload ack height proof path v state cons w2 :
    relay cx w relayer -> active_client w c cl ->
    pkt_source_client p = c -> pkt_sequence p = s -> pkt_payloads p = [payload] ->
    pkt_dest_client p = ci_client_id (cl_counterparty_info cl) ->
    stored w (KApp (pl_source_port payload)) (DIBCApp app) ->
    packet_acknowledgement_commitment_bytes32 [ack] = Ok v ->
    prefixed_path (ci_merkle_prefix (cl_counterparty_info cl))
      (packet_acknowledgement_commitment_path (pkt_dest_client p) s) = Ok path ->
    lc_answer cx w (cl_client_program_id cl) state cons
      (IxVerifyMembership (mkMembershipMsg height proof path v)) w2 ->
    stored w (KCommit c s) (DCommitment (packet_commitment_bytes32 p)) ->
    r_trans cx w [(KCommit c s, DCommitment Commitment_EMPTY)]
      [LInvoke ROUTER_ID (cl_client_program_id cl)
         (IxVerifyMembership (mkMembershipMsg height proof path v));
       LInvoke ROUTER_ID (app_program_id app) (IxOnAcknowledgementPacket
         (mkOnAcknowledgementPacketMsg c (pkt_dest_client p) s payload ack relayer));
       LEvent ROUTER_ID (AckPacketEvent c s p [ack])]
| R_timeout relayer cl app c s p payload height proof path state cons w2 data :
    relay cx w relayer -> active_client w c cl ->
    pkt_source_client p = c -> pkt_sequence p = s -> pkt_payloads p = [payload] ->
    pkt_dest_client p = ci_client_id (cl_counterparty_info cl) ->
    stored w (KApp (pl_source_port payload)) (DIBCApp app) ->
    prefixed_path (ci_merkle_prefix (cl_counterparty_info cl))
      (packet_receipt_commitment_path (pkt_dest_client p) s) = Ok path ->
    lc_answer cx w (cl_client_program_id cl) state cons
      (IxVerifyNonMembership (mkNonMembershipMsg height proof path)) w2 ->
    w_return_data w2 = Some (cl_client_program_id cl, data) ->
    (ANCHOR_DISCRIMINATOR_SIZE <= length data)%nat ->
    pkt_timeout_timestamp p <= u64_from_le_bytes (take ANCHOR_DISCRIMINATOR_SIZE data) ->
    stored w (KCommit c s) (DCommitment (packet_commitment_bytes32 p)) ->
    r_trans cx w [(KCommit c s, DCommitment Commitment_EMPTY)]
      [LInvoke ROUTER_ID (cl_client_program_id cl)
         (IxVerifyNonMembership (mkNonMembershipMsg height proof path));
       LInvoke ROUTER_ID (app_program_id app) (IxOnTimeoutPacket
         (mkOnTimeoutPacketMsg c (pkt_dest_client p) s payload relayer));
       LEvent ROUTER_ID (TimeoutPacketEvent c s p)]
| R_chunks rs relayer :
    stored w KState (DRouterState rs) -> holder cx w rs RELAYER_ROLE relayer ->
    r_trans cx w [] [].

(** The step from [w] to [w'] is a transition whose changes and log satisfy
    [Q]. *)
Definition r_refines (Q : list (RouterKey * AccountData) -> list LogEntry -> Prop)
    (cx : CallCtx) (w w' : World) : Prop :=
  steps_by ROUTER_ID rk key_typed (fun w ch l => Q ch l /\ r_trans cx w ch l) w w'.

(** Instruction arguments within their types. *)
Definition ix_typed (ix : RouterIx) : Prop :=
  match ix with
  | RSendPacket _ msg => is_u64 (msp_sequence msg)
  | RRecvPacket _ msg => is_u64 (mpk_sequence (mrp_packet msg))
  | RAckPacket _ msg => is_u64 (mpk_sequence (map_packet msg))
  | RTimeoutPacket _ msg => is_u64 (mpk_sequence (mtp_packet msg))
  | _ => True
  end.

(** The packet of a message: its header, and its payloads with the data the
    message or the chunks carry. *)
Definition packet_of (mp : MsgPacket) (p : Packet) : Prop :=
  exists ds, length ds = length (mpk_payloads mp) /\
    p = mkPacket (mpk_sequence mp) (mpk_source_client mp) (mpk_dest_client mp)
          (mpk_timeout_timestamp mp) (zip_with payload_with (mpk_payloads mp) ds).

(** What the instruction [ix] asks for: the changes and the log entries of the
    transition it stands for, with its own arguments. *)
Definition performs (ix : RouterIx) (ch : list (RouterKey * AccountData)) (l : list LogEntry)
    : Prop :=
  let ev e := l = [LEvent ROUTER_ID e] in
  match ix with
  | RInitialize _ am =>
      ch = [(KState, DRouterState (mkRouterState V1 (AccessManagerState_new am) false))] /\ l = []
  | RAddIbcApp acc port => ev (IBCAppAdded port (ad_app_program acc))
  | RSendPacket _ msg => exists prog dest,
      let p := mkPacket (msp_sequence msg) (msp_source_client msg) dest
                 (msp_timeout_timestamp msg) [msp_payload msg] in
      l = [LInvoke ROUTER_ID prog IxClientStatus;
           LEvent ROUTER_ID (SendPacketEvent (msp_source_client msg) (msp_sequence msg) p
             (msp_timeout_timestamp msg))]
  | RRecvPacket acc msg => exists p proof prog path,
      let vm := LInvoke ROUTER_ID prog (IxVerifyMembership
        (mkMembershipMsg (mpr_height (mrp_proof msg)) proof path (packet_commitment_bytes32 p))) in
      packet_of (mrp_packet msg) p /\
      (l = [vm; LEvent ROUTER_ID NoopEvent] \/
       exists app m ack, l = [vm; LInvoke ROUTER_ID app (IxOnRecvPacket m);
         LEvent ROUTER_ID (WriteAcknowledgementEvent (pkt_dest_client p) (pkt_sequence p) p [ack])])
  | RAckPacket acc msg => exists p vm app m,
      packet_of (map_packet msg) p /\ oap_acknowledgement m = map_acknowledgement msg /\
      l = [vm; LInvoke ROUTER_ID app (IxOnAcknowledgementPacket m);
           LEvent ROUTER_ID (AckPacketEvent (pkt_source_client p) (pkt_sequence p) p
             [map_acknowledgement msg])]
  | RTimeoutPacket acc msg => exists p vm app m,
      packet_of (mtp_packet msg) p /\
      l = [vm; LInvoke ROUTER_ID app (IxOnTimeoutPacket m);
           LEvent ROUTER_ID (TimeoutPacketEvent (pkt_source_client p) (pkt_sequence p) p)]
  | RAddClient acc c info =>
      ev (ClientAddedEvent (mkClient V1 c (adc_light_client_program acc) info true))
  | RMigrateClient _ c params => exists cl cl',
      cl_client_id cl = c /\ migrated cl params = Ok cl' /\ ev (ClientUpdatedEvent cl')
  | RUploadPayloadChunk _ _ | RUploadProofChunk _ _ | RCleanupChunks _ _ => ch = [] /\ l = []
  | RProposeAccessManagerTransfer _ n => exists o, ev (AccessManagerTransferProposed o n)
  | RAcceptAccessManagerTransfer _ => exists o n, ev (AccessManagerTransferAccepted o n)
  | RCancelAccessManagerTransfer _ => exists o n, ev (AccessManagerTransferCancelled o n)
  | RPause _ => ev RouterPausedEvent
  | RUnpause _ => ev RouterUnpausedEvent
  end.

End Transitions.

(** ** Refinement of the instructions *)

Section Refinement.
Context `{Platform} `{!PlatformOk} `{!RouterDeployed}.

(** Turns a loaded account whose address was checked into [stored]. *)
Ltac to_stored :=
  repeat match goal with
  | Hl : w_accts ?w !! ?k = Some ?a, Ho : acc_owner ?a = ROUTER_ID,
    Hd : as_RouterState (acc_data ?a) = Some ?x, Hk : ?k = pda_key [RouterState_SEED] ROUTER_ID |- _ =>
      assert (stored w KState (DRouterState x)) by
        exact (held_intro w k a _ _ x KState as_RouterState_Some Hl Ho Hd Hk);
      clear Hl Ho Hd
  | Hl : w_accts ?w !! ?k = Some ?a, Ho : acc_owner ?a = ROUTER_ID,
    Hd : as_IBCApp (acc_data ?a) = Some ?x, Hk : ?k = pda_key [IBCApp_SEED; ?p] ROUTER_ID |- _ =>
      assert (stored w (KApp p) (DIBCApp x)) by
        exact (held_intro w k a _ _ x (KApp p) as_IBCApp_Some Hl Ho Hd Hk);
      clear Hl Ho Hd
  | Hl : w_accts ?w !! ?k = Some ?a, Ho : acc_owner ?a = ROUTER_ID,
    Hd : as_Client (acc_data ?a) = Some ?x, Hk : ?k = pda_key [Client_SEED; ?c] ROUTER_ID |- _ =>
      assert (stored w (KClient c) (DClient x)) by
        exact (held_intro w k a _ _ x (KClient c) as_Client_Some Hl Ho Hd Hk);
      clear Hl Ho Hd
  | Hl : w_accts ?w !! ?k = Some ?a, Ho : acc_owner ?a = ROUTER_ID,
    Hd : as_Commitment (acc_data ?a) = Some ?x,
    Hk : ?k = pda_key (commitment_seeds PACKET_COMMITMENT_SEED ?c ?s) ROUTER_ID |- _ =>
      assert (stored w (KCommit c s) (DCommitment x)) by
        exact (held_intro w k a _ _ x (KCommit c s) as_Commitment_Some Hl Ho Hd Hk);
      clear Hl Ho Hd
  end.

(** The final store of an instruction that changes one key. *)
Lemma refine_store1 Q cx w w1 w' K d ch' l u :
  key_typed K -> Q [(K, d)] l -> r_trans cx w [(K, d)] l -> evol ch' l w w1 -> ch' ⊆ [K] ->
  store_account ROUTER_ID (rk K) d w1 = Ok (u, w') ->
  r_refines (Q) cx w w'.
Proof.
  intros HK HQ Ht. by apply (steps_store1 (fun w ch l => Q ch l /\ r_trans cx w ch l)).
Qed.

(** Inverts the role and admin checks. *)
Ltac authz :=
  repeat match goal with
  | Hq : require_role _ ?k _ _ _ _ _ = Ok _, Hk : ?k = _ |- _ =>
      eapply holder_at_intro in Hq as [? Hq]; [subst|done|exact Hk]
  | Hq : require_admin _ ?k _ _ _ _ = Ok _, Hk : ?k = _ |- _ =>
      eapply admin_at_intro in Hq as [? Hq]; [subst|done|exact Hk]
  end.

(** Reduces the goal to the transition and to the evolution before the store
    at key [K]. *)
Ltac finish K :=
  match goal with
  | Hs : store_account ROUTER_ID ?k _ _ = Ok _, Hk : ?k = pda_key _ ROUTER_ID |- _ =>
      rewrite Hk in Hs; change (pda_key _ ROUTER_ID) with (rk K) in Hs;
      eapply (refine_store1 _ _ _ _ _ K _ []); [| | | |set_solver|exact Hs]
  end.

Lemma pause_refines cx acc w u w' :
  running cx ROUTER_ID -> pause cx acc w = Ok (u, w') ->
  r_refines (performs (RPause acc)) cx w w'.
Proof.
  intros Hrun Hr. unfold pause in Hr. rinv. to_stored. authz.
  finish KState; [done|done| |apply evol_log_entry]. by eapply R_pause.
Qed.

Lemma unpause_refines cx acc w u w' :
  running cx ROUTER_ID -> unpause cx acc w = Ok (u, w') ->
  r_refines (performs (RUnpause acc)) cx w w'.
Proof.
  intros Hrun Hr. unfold unpause in Hr. rinv. to_stored. authz.
  finish KState; [done|done| |apply evol_log_entry]. by eapply R_unpause.
Qed.

Lemma propose_am_refines cx acc n w u w' :
  running cx ROUTER_ID -> propose_access_manager_transfer cx acc n w = Ok (u, w') ->
  r_refines (performs (RProposeAccessManagerTransfer acc n)) cx w w'.
Proof.
  intros Hrun Hr. unfold propose_access_manager_transfer, propose_transfer in Hr. rinv.
  to_stored. authz.
  repeat match goal with E : bool_decide _ = false |- _ => apply bool_decide_eq_false in E end.
  finish KState; [done|by repeat eexists| |apply evol_log_entry]. by eapply R_propose_am.
Qed.

Lemma accept_am_refines cx acc w u w' :
  running cx ROUTER_ID -> accept_access_manager_transfer cx acc w = Ok (u, w') ->
  r_refines (performs (RAcceptAccessManagerTransfer acc)) cx w w'.
Proof.
  intros Hrun Hr. unfold accept_access_manager_transfer, accept_transfer in Hr. rinv.
  to_stored. authz.
  repeat match goal with E : ok_or _ _ = Ok _ |- _ => apply ok_or_ok in E end. simplify_eq.
  finish KState; [done|by repeat eexists| |apply evol_log_entry]. by eapply R_accept_am.
Qed.

Lemma cancel_am_refines cx acc w u w' :
  running cx ROUTER_ID -> cancel_access_manager_transfer cx acc w = Ok (u, w') ->
  r_refines (performs (RCancelAccessManagerTransfer acc)) cx w w'.
Proof.
  intros Hrun Hr. unfold cancel_access_manager_transfer, cancel_transfer in Hr. rinv.
  to_stored. authz.
  repeat match goal with E : ok_or _ _ = Ok _ |- _ => apply ok_or_ok in E end.
  finish KState; [done|by repeat eexists| |apply evol_log_entry]. by eapply R_cancel_am.
Qed.

Lemma migrate_refines cx acc c params w u w' :
  running cx ROUTER_ID -> migrate_client cx acc c params w = Ok (u, w') ->
  r_refines (performs (RMigrateClient acc c params)) cx w w'.
Proof.
  intros Hrun Hr. unfold migrate_client in Hr. rinv. to_stored. authz.
  match goal with Hst : stored _ (KClient ?c) _ |- _ => finish (KClient c) end;
    [done|by repeat eexists| |apply evol_log_entry]. by eapply R_migrate.
Qed.

Lemma initialize_refines cx acc am w u w' :
  running cx ROUTER_ID -> initialize cx acc am w = Ok (u, w') ->
  r_refines (performs (RInitialize acc am)) cx w w'.
Proof.
  intros Hrun Hr. unfold initialize in Hr. rinv.
  assert (ri_router_state acc = rk KState) as Hk by done. rewrite Hk in *.
  match goal with Hi : init_account _ _ _ _ _ _ = Ok _ |- _ =>
    apply evol_init in Hi as (Hev & Hnone & _ & _ & _ & _ & Hsame); [|done] end.
  eapply (refine_store1 _ _ _ _ _ KState _ [KState]); [done|done| |exact Hev|set_solver|exact Hr].
  apply (R_initialize _ _ (ri_authority acc)); [done|done| |by apply bool_decide_eq_false in Hm8].
  apply as_ProgramData_Some in Hm1. exists acc0. rewrite <- Hm6. split; [done|]. congruence.
Qed.

Lemma holder_same cx w w1 rs r s K :
  (forall k, k <> rk K -> w_accts w1 !! k = w_accts w !! k) ->
  holder cx w1 rs r s -> holder cx w rs r s.
Proof. intros Hsame. apply (holder_at_same _ _ _ _ _ _ _ (rk K)); [apply rk_not_am|done]. Qed.

(** A registration: an account created, then a log entry and the store. *)
Lemma refine_register Q cx w w1 w' K d e u :
  key_typed K -> Q [(K, d)] [LEvent ROUTER_ID e] -> r_trans cx w [(K, d)] [LEvent ROUTER_ID e] -> evol [K] [] w w1 ->
  store_account ROUTER_ID (rk K) d (add_log w1 (LEvent ROUTER_ID e)) = Ok (u, w') ->
  r_refines (Q) cx w w'.
Proof.
  intros HK HQ Ht Hev Hs. eapply (refine_store1 _ _ _ _ _ K _ [K]); [done|exact HQ|exact Ht| |done|exact Hs].
  exact (evol_trans _ _ _ _ _ _ _ Hev (evol_log_entry e w1)).
Qed.

Lemma seeds_ok_second a b : seeds_ok [a; b] = true -> (length b <= 32)%nat.
Proof.
  unfold seeds_ok. intros [Hs%bool_decide_eq_true _]%andb_true_iff.
  rewrite !Forall_cons in Hs. naive_solver.
Qed.

Lemma add_ibc_app_refines cx acc port w u w' :
  running cx ROUTER_ID -> add_ibc_app cx acc port w = Ok (u, w') ->
  r_refines (performs (RAddIbcApp acc port)) cx w w'.
Proof.
  intros Hrun Hr. unfold add_ibc_app in Hr. rinv. to_stored. authz.
  assert (ad_ibc_app acc = rk (KApp port)) as Hk by done. rewrite Hk in *.
  match goal with Hi : init_account _ _ _ _ _ _ = Ok _ |- _ =>
    apply evol_init in Hi as (Hev & Hnone & _ & _ & _ & _ & Hsame); [|done] end.
  eapply refine_register; [| | |exact Hev|exact Hr]; [done|done|].
  eapply R_add_app; [eassumption|by eapply holder_same|done| |done]. by eapply seeds_ok_second.
Qed.

Lemma add_client_refines cx acc c info w u w' :
  running cx ROUTER_ID -> add_client cx acc c info w = Ok (u, w') ->
  r_refines (performs (RAddClient acc c info)) cx w w'.
Proof.
  intros Hrun Hr. unfold add_client in Hr. rinv. to_stored. authz.
  assert (adc_client acc = rk (KClient c)) as Hk by done. rewrite Hk in *.
  match goal with Hi : init_account _ _ _ _ _ _ = Ok _ |- _ =>
    apply evol_init in Hi as (Hev & Hnone & _ & _ & _ & _ & Hsame); [|done] end.
  match goal with E : bool_decide (_ = []) = false |- _ => apply bool_decide_eq_false in E end.
  eapply refine_register; [| | |exact Hev|exact Hr]; [done|done|].
  eapply R_add_client; [eassumption|by eapply holder_same|done..].
Qed.

(** ** Chunk accounts *)

Lemma chunk_not_rk k K : is_chunk_key k -> k <> rk K.
Proof. intros Hc ->. by apply (rk_not_chunk K). Qed.

Lemma evol_init_chunk {A} cx (proj : AccountData -> option A) fresh k payer sp w x w' :
  is_chunk_key k -> init_if_needed cx ROUTER_ID proj fresh k payer sp w = Ok (x, w') ->
  evol [] [] w w' /\ forall k', k' <> k -> w_accts w' !! k' = w_accts w !! k'.
Proof.
  intros Hk Hi. split; [|intros; by eapply init_if_needed_accts].
  eapply evol_init_if_needed_aside; [|exact Hi]. intros K _. by apply chunk_not_rk.
Qed.

Lemma evol_store_chunk k d w u w' :
  is_chunk_key k -> store_account ROUTER_ID k d w = Ok (u, w') -> evol [] [] w w'.
Proof. intros Hk Hs. eapply evol_store_aside; [|exact Hs]. intros K _. by apply chunk_not_rk. Qed.

Lemma refine_chunks cx w w' rs relayer :
  stored w KState (DRouterState rs) -> holder cx w rs RELAYER_ROLE relayer ->
  evol [] [] w w' ->
  r_refines (fun ch l => ch = [] /\ l = []) cx w w'.
Proof.
  intros Hs Hh Hev. exists [], []. split_and!; [done|done|by eapply R_chunks|done| |constructor].
  intros K d Hin. set_solver.
Qed.

Lemma upload_chunk_refines {A} cx acc (proj : AccountData -> option A) fresh seeds sp data d w u w' :
  running cx ROUTER_ID -> is_chunk_key (pda_key seeds ROUTER_ID) ->
  upload_chunk cx acc proj fresh seeds sp data d w = Ok (u, w') ->
  r_refines (fun ch l => ch = [] /\ l = []) cx w w'.
Proof.
  intros Hrun Hk Hr. unfold upload_chunk in Hr. rinv. to_stored. authz.
  match goal with E : up_chunk acc = _ |- _ => rewrite <- E in Hk end.
  match goal with Hi : init_if_needed _ _ _ _ _ _ _ _ = Ok _ |- _ =>
    apply evol_init_chunk in Hi as [Hev Hsame]; [|done] end.
  eapply refine_chunks; [eassumption| |].
  - eapply holder_at_same; [|exact Hsame|eassumption]. intros E.
    destruct Hk as [(? & ? & ? & ? & ? & Hk)|(? & ? & ? & ? & Hk)]; rewrite Hk in E;
      apply pda_inj in E as [E _]; simpl in E; discriminate E.
  - exact (evol_trans _ _ _ _ _ _ _ Hev (evol_store_chunk _ _ _ _ _ Hk Hr)).
Qed.

Lemma upload_payload_refines cx acc msg w u w' :
  running cx ROUTER_ID -> upload_payload_chunk cx acc msg w = Ok (u, w') ->
  r_refines (performs (RUploadPayloadChunk acc msg)) cx w w'.
Proof. intros Hrun. apply upload_chunk_refines; [done|]. left. by repeat eexists. Qed.

Lemma upload_proof_refines cx acc msg w u w' :
  running cx ROUTER_ID -> upload_proof_chunk cx acc msg w = Ok (u, w') ->
  r_refines (performs (RUploadProofChunk acc msg)) cx w w'.
Proof. intros Hrun. apply upload_chunk_refines; [done|]. right. by repeat eexists. Qed.

Lemma cleanup_from_evol cx ra relayer seeds i w u w' :
  Forall (fun s => is_chunk_key (pda_key s ROUTER_ID)) seeds ->
  cleanup_from cx ra relayer seeds i w = Ok (u, w') -> evol [] [] w w'.
Proof.
  intros Hs. revert i w. induction Hs as [|s seeds Hk Hs IH]; intros i w Hr; simpl in Hr; minv.
  { apply evol_refl. }
  apply check_chunk_account_Ok in Hm0 as (_ & -> & _ & ->). apply IH in Hr.
  refine (evol_trans [] [] _ _ _ _ _ _ Hr). eapply evol_drain_aside; [|exact Hm1].
  intros K _. by apply chunk_not_rk.
Qed.

Lemma cleanup_seeds_chunks relayer msg :
  Forall (fun s => is_chunk_key (pda_key s ROUTER_ID)) (cleanup_seeds relayer msg).
Proof.
  unfold cleanup_seeds. apply Forall_app_2.
  - apply Forall_concat, Forall_lookup_2. intros i l E.
    apply list_lookup_imap_Some in E as (n & _ & ->). apply Forall_fmap, Forall_true.
    intros j. left. by repeat eexists.
  - apply Forall_fmap, Forall_true. intros j. right. by repeat eexists.
Qed.

Lemma cleanup_refines cx acc msg w u w' :
  running cx ROUTER_ID -> cleanup_chunks cx acc msg w = Ok (u, w') ->
  r_refines (performs (RCleanupChunks acc msg)) cx w w'.
Proof.
  intros Hrun Hr. unfold cleanup_chunks in Hr. rinv. to_stored. authz.
  eapply refine_chunks; [eassumption..|]. eapply cleanup_from_evol; [|exact Hr].
  apply cleanup_seeds_chunks.
Qed.

(** ** Calls to light clients *)

Lemma owner_before w w1 K k program :
  (forall k, k <> rk K -> w_accts w1 !! k = w_accts w !! k) -> owner_of w1 (rk K) = ROUTER_ID ->
  program <> ROUTER_ID -> owner_of w1 k = program -> owner_of w k = program.
Proof.
  intros Hsame Hown Hne Ho. destruct (decide (k = rk K)) as [->|Hk]; [congruence|].
  unfold owner_of in *. by rewrite <- Hsame.
Qed.

(** The call reached the light client in a state [w1] that shows it its own
    accounts as they were in [w]. *)
Lemma lc_call_Ok cx client lc ix w u w' :
  running cx ROUTER_ID -> router_call ix = true ->
  invoke_instruction cx client lc ix w = Ok (u, w') ->
  evol [] [LInvoke ROUTER_ID (cl_client_program_id client) ix] w w' /\
  cl_client_program_id client <> ROUTER_ID /\ w_clock w' = w_clock w /\
  forall v, foreign v w -> w_clock w = w_clock v ->
    owner_of v (lc_client_state lc) = cl_client_program_id client ->
    owner_of v (lc_consensus_state lc) = cl_client_program_id client ->
    lc_answer cx v (cl_client_program_id client) (lc_client_state lc) (lc_consensus_state lc) ix w'.
Proof.
  intros Hrun Hix Hr. unfold invoke_instruction in Hr. minv.
  apply invoke_evol in Hr as (Hev & Hne & Hp); [|done..].
  split_and!; [done|done|by apply process_clock in Hp|].
  intros v Hf Hc Hs Hcs. split_and!; [done..|].
  eexists. split_and!; [| |exact Hp]; done.
Qed.

Lemma verify_membership_Ok cx client lc msg w u w' :
  running cx ROUTER_ID -> lc_verify_membership cx client lc msg w = Ok (u, w') ->
  invoke_instruction cx client lc (IxVerifyMembership msg) w = Ok (u, w').
Proof. intros Hrun Hr. unfold lc_verify_membership, validate_client in Hr. minv. done. Qed.

Lemma lc_return_data_Ok client w d w' :
  lc_return_data client w = Ok (d, w') ->
  w' = w /\ w_return_data w = Some (cl_client_program_id client, d).
Proof.
  unfold lc_return_data. intros Hr. minv. apply ok_or_ok in Hm0. destruct a0. by simplify_eq/=.
Qed.

Lemma ClientStatus_try_from_Active b :
  ClientStatus_try_from b = Some Active -> b = ClientStatus_to_u8 Active.
Proof. by destruct b. Qed.

Lemma client_status_Ok cx client lc w st w' :
  lc_client_status cx client lc w = Ok (st, w') ->
  exists b data, invoke_instruction cx client lc IxClientStatus w = Ok ((), w') /\
    w_return_data w' = Some (cl_client_program_id client, data) /\
    head data = Some b /\ ClientStatus_try_from b = Some st.
Proof.
  unfold lc_client_status, validate_client. intros Hr. minv.
  match goal with E : lc_return_data _ _ = Ok _ |- _ => apply lc_return_data_Ok in E as [-> E] end.
  repeat match goal with E : ok_or _ _ = Ok _ |- _ => apply ok_or_ok in E end. eauto 10.
Qed.

Lemma verify_non_membership_Ok cx client lc msg w ts w' :
  lc_verify_non_membership cx client lc msg w = Ok (ts, w') ->
  exists data, invoke_instruction cx client lc (IxVerifyNonMembership msg) w = Ok ((), w') /\
    w_return_data w' = Some (cl_client_program_id client, data) /\
    (ANCHOR_DISCRIMINATOR_SIZE <= length data)%nat /\
    ts = u64_from_le_bytes (take ANCHOR_DISCRIMINATOR_SIZE data).
Proof.
  unfold lc_verify_non_membership, validate_client, get_timestamp_from_return_data.
  intros Hr. minv.
  match goal with E : lc_return_data _ _ = Ok _ |- _ => apply lc_return_data_Ok in E as [-> E] end.
  match goal with E : (_ <=? _)%nat = true |- _ => apply Nat.leb_le in E end. eauto 10.
Qed.

Lemma send_packet_refines cx acc msg w u w' :
  running cx ROUTER_ID -> is_u64 (msp_sequence msg) -> send_packet cx acc msg w = Ok (u, w') ->
  r_refines (performs (RSendPacket acc msg)) cx w w'.
Proof.
  intros Hrun Hty Hr. unfold send_packet in Hr. rinv. to_stored.
  set (K := KCommit (msp_source_client msg) (msp_sequence msg)).
  assert (se_packet_commitment acc = rk K) as Hk by done. rewrite Hk in *.
  match goal with Hi : init_account _ _ _ _ _ _ = Ok _ |- _ =>
    apply evol_init in Hi as (Hev & Hnone & Hnew & _ & Hfor & Hck & Hsame); [|done] end.
  match goal with Hq : lc_client_status _ _ _ _ = Ok _ |- _ =>
    apply client_status_Ok in Hq as (b & data & Hi & Hret & Hhd & Hst) end.
  subst. apply ClientStatus_try_from_Active in Hst as ->.
  apply lc_call_Ok in Hi as (Hev2 & Hne & Hck2 & Hans); [|done..].
  match goal with E : (_ <? msp_timeout_timestamp msg) = true |- _ => apply Z.ltb_lt in E end.
  match goal with E : (_ <=? MAX_TIMEOUT_DURATION) = true |- _ => apply Z.leb_le in E end.
  match goal with E : (0 <? _) = true |- _ => apply Z.ltb_lt in E end.
  match type of Hnew with w_accts ?v !! _ = _ =>
    assert (owner_of v (rk K) = ROUTER_ID) as Hown by (unfold owner_of; by rewrite Hnew) end.
  eapply (refine_store1 _ _ _ _ _ K _ [K]); [done| | | |done|exact Hr].
  2: { eapply R_send; try eassumption.
    + match goal with E : se_app_signer acc = _ |- _ => by rewrite <- E end.
    + apply Hans; [done|done|by eapply owner_before..].
    + rewrite <- Hck, <- Hck2. eassumption.
    + lia. }
  - by repeat eexists.
  - pose proof (evol_trans _ _ _ _ _ _ _ Hev Hev2) as E. simpl in E.
    exact (evol_trans _ _ _ _ _ _ _ E (evol_trans _ _ _ _ _ _ _ (evol_log_entry _ _) (evol_set_return _ _))).
Qed.

(** ** Packet handlers *)

Lemma packet_front_Ok acc rs port p w u w' :
  packet_front acc rs port p w = Ok (u, w') ->
  w' = w /\ pk_router_state acc = rk KState /\ rs_paused rs = false /\
  pk_access_manager acc = pda_key [AccessManager_SEED] (ams_access_manager (rs_am_state rs)) /\
  exists m, head (mpk_payloads p) = Some m /\ pk_ibc_app acc = rk (KApp (port m)).
Proof.
  unfold packet_front, first_payload. intros Hr. rinv.
  match goal with E : ok_or _ _ = Ok _ |- _ => apply ok_or_ok in E end. eauto 10.
Qed.

Lemma packet_back_Ok cx acc app client c w u w' :
  packet_back cx acc app client c w = Ok (u, w') ->
  w' = w /\ pk_ibc_app_program acc = app_program_id app /\ pk_client acc = rk (KClient c) /\
  cl_active client = true /\
  owner_of w (lc_client_state (pk_lc acc)) = cl_client_program_id client /\
  owner_of w (lc_consensus_state (pk_lc acc)) = cl_client_program_id client.
Proof. unfold packet_back. intros Hr. rinv. split_and!; done. Qed.

Lemma single_payload p pl msgs ds m :
  get_single_payload p = Ok pl -> pkt_payloads p = zip_with payload_with msgs ds ->
  length ds = length msgs -> head msgs = Some m ->
  pkt_payloads p = [pl] /\ pl_source_port pl = mpl_source_port m /\
  pl_dest_port pl = mpl_dest_port m.
Proof.
  unfold get_single_payload. intros Hg Hp Hlen Hm.
  destruct (pkt_payloads p) as [|q [|]]; [done| |done]. injection Hg as ->.
  destruct msgs as [|m' msgs], ds as [|d ds]; simplify_eq/=. done.
Qed.

(** The packet and the proof of a message: the packet's header is the
    message's, and its only payload has the ports of the first message
    payload. *)
Lemma packet_and_proof cx mp ra sub c w p w1 pl n dlv proof w2 m :
  validate_and_reconstruct_packet cx mp ra sub c w = Ok (p, w1) ->
  get_single_payload p = Ok pl ->
  assemble_proof_chunks cx ra sub c (mpk_sequence mp) dlv n w1 = Ok (proof, w2) ->
  head (mpk_payloads mp) = Some m ->
  packet_of mp p /\ evol [] [] w w2 /\ foreign w w2 /\ w_clock w2 = w_clock w /\
  pkt_sequence p = mpk_sequence mp /\ pkt_source_client p = mpk_source_client mp /\
  pkt_dest_client p = mpk_dest_client mp /\
  pkt_timeout_timestamp p = mpk_timeout_timestamp mp /\ pkt_payloads p = [pl] /\
  pl_source_port pl = mpl_source_port m /\ pl_dest_port pl = mpl_dest_port m.
Proof.
  intros Hrec Hpl Hpr Hm. apply reconstruct_Ok in Hrec as (Hw1 & ds & Hlen & ->).
  apply assemble_proof_wiped in Hpr.
  destruct (evol_wiped _ _ (transitivity Hw1 Hpr)) as (Hev & Hfor & Hck).
  eapply single_payload in Hpl as (Hp & Hsrc & Hdst); [|reflexivity|exact Hlen|exact Hm].
  split_and!; try done. by exists ds.
Qed.

Lemma or_unreachable_Ok {A} (m : M A) w r : or_unreachable m w = Ok r -> m w = Ok r.
Proof. unfold or_unreachable. by destruct (m w). Qed.

Lemma on_recv_packet_Ok cx prog metas msg w ack w' :
  running cx ROUTER_ID -> or_unreachable (on_recv_packet cx prog metas msg) w = Ok (ack, w') ->
  evol [] [LInvoke ROUTER_ID prog (IxOnRecvPacket msg)] w w'.
Proof.
  intros Hrun Hr%or_unreachable_Ok. unfold on_recv_packet, invoke_ibc_app in Hr. minv.
  apply invoke_evol in Hm as (Hev & _); [|done..].
  destruct (w_return_data _) as [[q d]|]; minv. case_bool_decide; minv; done.
Qed.

(** The body of [recv_packet] from [w], with the two commitments it found. *)
Lemma recv_body_Ok cx acc client msg r a w vals w' m :
  running cx ROUTER_ID -> recv_packet_body cx acc client msg r a w = Ok (vals, w') ->
  head (mpk_payloads (mrp_packet msg)) = Some m ->
  exists p pl now proof path rc w2,
    packet_of (mrp_packet msg) p /\
    require_role cx (pk_access_manager acc) RELAYER_ROLE (pk_relayer acc)
      (pk_instructions_sysvar acc) ROUTER_ID w = Ok ((), w) /\
    pkt_sequence p = mpk_sequence (mrp_packet msg) /\
    pkt_dest_client p = mpk_dest_client (mrp_packet msg) /\
    pkt_dest_client p = cl_client_id client /\
    pkt_source_client p = ci_client_id (cl_counterparty_info client) /\
    pkt_payloads p = [pl] /\ pl_dest_port pl = mpl_dest_port m /\
    u64_try_from_i64 (w_clock w) = Some now /\ now < pkt_timeout_timestamp p /\
    prefixed_path (ci_merkle_prefix (cl_counterparty_info client))
      (packet_commitment_path (pkt_source_client p) (pkt_sequence p)) = Ok path /\
    let ix := IxVerifyMembership
      (mkMembershipMsg (mpr_height (mrp_proof msg)) proof path (packet_commitment_bytes32 p)) in
    evol [] [LInvoke ROUTER_ID (cl_client_program_id client) ix] w w2 /\
    cl_client_program_id client <> ROUTER_ID /\
    (forall v, foreign v w -> w_clock w = w_clock v ->
       owner_of v (lc_client_state (pk_lc acc)) = cl_client_program_id client ->
       owner_of v (lc_consensus_state (pk_lc acc)) = cl_client_program_id client ->
       lc_answer cx v (cl_client_program_id client) (lc_client_state (pk_lc acc))
         (lc_consensus_state (pk_lc acc)) ix w2) /\
    packet_receipt_commitment_bytes32 p = Ok rc /\
    ((r <> Commitment_EMPTY /\ r = rc /\ vals = (r, a) /\
        evol [] [LEvent ROUTER_ID NoopEvent] w2 w') \/
     (r = Commitment_EMPTY /\ exists ack v, ack <> [] /\ ack <> UNIVERSAL_ERROR_ACK /\
        packet_acknowledgement_commitment_bytes32 [ack] = Ok v /\ vals = (rc, v) /\
        evol [] [LInvoke ROUTER_ID (pk_ibc_app_program acc) (IxOnRecvPacket
                   (mkOnRecvPacketMsg (pkt_source_client p) (pkt_dest_client p) (pkt_sequence p)
                      pl (pk_relayer acc)));
                 LEvent ROUTER_ID (WriteAcknowledgementEvent (pkt_dest_client p)
                   (pkt_sequence p) p [ack])] w2 w')).
Proof.
  intros Hrun Hr Hm. unfold recv_packet_body, lift24 in Hr. rinv.
  match goal with Hq : require_role _ _ _ _ _ _ _ = Ok _ |- _ =>
    pose proof Hq as Hrole; apply require_role_Ok in Hq as (-> & _); [|done] end.
  match goal with Hq : validate_and_reconstruct_packet _ _ _ _ _ _ = Ok _ |- _ =>
    eapply packet_and_proof in Hq as
      (Hof & Hev1 & Hfor & Hck & Hseq & Hsrc & Hdst & Hto & Hpl & _ & Hport); [|eassumption..] end.
  match goal with Hq : lc_verify_membership _ _ _ _ _ = Ok _ |- _ =>
    apply verify_membership_Ok, lc_call_Ok in Hq as (Hev2 & Hne & _ & Hans); [|done..] end.
  repeat match goal with E : map_err _ _ = Ok _ |- _ => apply map_err_ok in E end.
  repeat match goal with E : bool_decide _ = true |- _ => apply bool_decide_eq_true in E end.
  match goal with E : (_ <? _) = true |- _ => apply Z.ltb_lt in E end.
  eexists _, _, _, _, _, _, _. split; [exact Hof|]. split; [exact Hrole|].
  split; [exact Hseq|]. split; [exact Hdst|]. split; [congruence|]. split; [congruence|].
  split; [exact Hpl|]. split; [exact Hport|]. split; [eassumption|]. split; [by rewrite Hto|].
  split; [eassumption|]. split; [exact (evol_trans _ _ _ _ _ _ _ Hev1 Hev2)|]. split; [done|].
  split; [intros v Hv Hc; apply Hans; [by etrans|congruence]|]. split; [eassumption|].
  case_bool_decide as Hempty; cbn [negb] in Hr.
  - right. split; [done|]. rinv.
    match goal with Hq : or_unreachable _ _ = Ok _ |- _ =>
      apply on_recv_packet_Ok in Hq as Hev3; [|done] end.
    repeat match goal with E : map_err _ _ = Ok _ |- _ => apply map_err_ok in E end.
    repeat match goal with E : bool_decide _ = false |- _ => apply bool_decide_eq_false in E end.
    match goal with E : packet_acknowledgement_commitment_bytes32 [?ack] = Ok ?v |- _ =>
      exists ack, v end.
    split_and!; [done..|]. exact (evol_trans _ _ _ _ _ _ _ Hev3 (evol_log_entry _ _)).
  - left. case_bool_decide; rinv. split_and!; try done. apply evol_log_entry.
Qed.

Lemma refine_store2 Q cx w w1 w2 w' K1 d1 K2 d2 l u1 u2 :
  key_typed K1 -> key_typed K2 -> K1 <> K2 -> Q [(K1, d1); (K2, d2)] l ->
  r_trans cx w [(K1, d1); (K2, d2)] l -> evol [K1; K2] l w w1 ->
  store_account ROUTER_ID (rk K1) d1 w1 = Ok (u1, w2) ->
  store_account ROUTER_ID (rk K2) d2 w2 = Ok (u2, w') ->
  r_refines (Q) cx w w'.
Proof.
  intros HK1 HK2 Hne HQ Ht. by apply (steps_store2 (fun w ch l => Q ch l /\ r_trans cx w ch l)).
Qed.

Lemma stored_same w w1 K K' d :
  key_typed K -> key_typed K' -> K <> K' ->
  (forall k, k <> rk K -> w_accts w1 !! k = w_accts w !! k) ->
  w_accts w1 !! rk K' = w_accts w !! rk K' /\ (stored w1 K' d <-> stored w K' d).
Proof.
  intros HK HK' Hne Hsame. assert (w_accts w1 !! rk K' = w_accts w !! rk K') as E.
  { apply Hsame. intros E%rk_inj; congruence. }
  split; [done|]. unfold held. by rewrite E.
Qed.

Lemma recv_packet_refines cx acc msg w u w' :
  running cx ROUTER_ID -> is_u64 (mpk_sequence (mrp_packet msg)) ->
  recv_packet cx acc msg w = Ok (u, w') ->
  r_refines (performs (RRecvPacket acc msg)) cx w w'.
Proof.
  intros Hrun Hty Hr. unfold recv_packet in Hr. rinv.
  set (c := mpk_dest_client (mrp_packet msg)) in *. set (s := mpk_sequence (mrp_packet msg)) in *.
  assert (pk_packet_receipt acc = rk (KReceipt c s)) as Hkr by done. rewrite Hkr in *.
  assert (pk_packet_ack acc = rk (KAck c s)) as Hka by done. rewrite Hka in *.
  eapply (evol_init_if_needed _ _ _ _ _ _ _ _ _ _ as_Commitment_Some) in Hm5 as (Hev1 & Hfor1 & Hck1 & Hsame1 & Hown1 & Hrec); [|done].
  eapply (evol_init_if_needed _ _ _ _ _ _ _ _ _ _ as_Commitment_Some) in Hm7 as (Hev2 & Hfor2 & Hck2 & Hsame2 & Hown2 & Hack); [|done].
  apply packet_front_Ok in Hm8 as (-> & Hks & Hpa & Ham & m & Hhead & Hkp).
  apply packet_back_Ok in Hm9 as (-> & Hprog & Hkc & Hact & Hos & Hoc).
  eapply recv_body_Ok in Hm10 as (p & pl & now & proof & path & rc & w2 & Hof & Hrole & Hseq &
    Hdst & Hid & Hsrc & Hpl & Hport & Hnow & Hlt & Hpath & Hev3 & Hne & Hans & Hrc & Hcase);
    [|done|exact Hhead].
  assert (stored w KState (DRouterState a)) as Hst by
    exact (held_intro w _ _ _ _ _ KState as_RouterState_Some Hl1 Ho1 ltac:(eassumption) Hks).
  assert (stored w (KApp (pl_dest_port pl)) (DIBCApp a0)) as Happ.
  { rewrite Hport. exact (held_intro w _ _ _ _ _ _ as_IBCApp_Some Hl0 Ho0 ltac:(eassumption) Hkp). }
  assert (stored w (KClient c) (DClient a3)) as Hcl by
    exact (held_intro w _ _ _ _ _ _ as_Client_Some Hl Ho ltac:(eassumption) Hkc).
  assert (relay cx w (pk_relayer acc)) as Hrelay.
  { exists a. split_and!; try done. eapply holder_same; [exact Hsame1|].
    eapply holder_same; [exact Hsame2|]. by eapply holder_at_intro in Hrole as [_ Hh]. }
  change (pkt_dest_client p = c) in Hdst. change (pkt_sequence p = s) in Hseq. clearbody c s.
  assert (active_client w c a3) as Hactive by (split_and!; [done|done|congruence]).
  specialize (Hans w ltac:(by etrans) ltac:(congruence)
    ltac:(eapply owner_before; [exact Hsame1|..]; [done|done|by eapply owner_before])
    ltac:(eapply owner_before; [exact Hsame1|..]; [done|done|by eapply owner_before])).
  assert ((w_accts w !! rk (KAck c s) = None /\ a7 = Commitment_EMPTY) \/
          stored w (KAck c s) (DCommitment a7)) as Hack'.
  { destruct (stored_same w w6 (KReceipt c s) (KAck c s) (DCommitment a7)) as [E1 E2]; try done.
    rewrite <- E1. destruct Hack as [Hack|Hack]; [by left|right; by apply E2]. }
  pose proof (evol_trans _ _ _ _ _ _ _ Hev1 (evol_trans _ _ _ _ _ _ _ Hev2 Hev3)) as Hev.
  simpl in Hev. rewrite Hck2, Hck1 in Hnow. rewrite Hseq in Hpath.
  destruct Hcase as [(Hr0 & -> & -> & Hev4)|(-> & ack & v & Ha1 & Ha2 & Hv & -> & Hev4)].
  - assert (stored w (KReceipt c s) (DCommitment rc)) as Hrec' by (by destruct Hrec as [[_ ->]|]).
    eapply (refine_store2 _ _ _ _ _ _ (KReceipt c s) _ (KAck c s));
      [done|done|done| | |exact (evol_trans _ _ _ _ _ _ _ Hev Hev4)|exact Hm11|exact Hr];
      [exists p, proof, (cl_client_program_id a3), path; eauto|].
    eapply R_recv_noop; eauto; congruence.
  - rewrite Hprog, Hdst, Hseq in Hev4.
    eapply (refine_store2 _ _ _ _ _ _ (KReceipt c s) _ (KAck c s));
      [done|done|done| | |exact (evol_trans _ _ _ _ _ _ _ Hev Hev4)|exact Hm11|exact Hr];
      [exists p, proof, (cl_client_program_id a3), path; rewrite Hdst, Hseq; eauto 10|].
    eapply R_recv; eauto. destruct Hrec as [[? _]|]; auto.
Qed.

Lemma settle_accounts_Ok cx acc mp w client v w' :
  settle_accounts cx acc mp w = Ok ((client, v), w') ->
  let c := mpk_source_client mp in
  w' = w /\ exists rs app m,
    stored w KState (DRouterState rs) /\ rs_paused rs = false /\
    pk_access_manager acc = pda_key [AccessManager_SEED] (ams_access_manager (rs_am_state rs)) /\
    head (mpk_payloads mp) = Some m /\ stored w (KApp (mpl_source_port m)) (DIBCApp app) /\
    pk_packet_commitment acc = rk (KCommit c (mpk_sequence mp)) /\
    stored w (KCommit c (mpk_sequence mp)) (DCommitment v) /\
    stored w (KClient c) (DClient client) /\ cl_active client = true /\
    pk_ibc_app_program acc = app_program_id app /\
    owner_of w (lc_client_state (pk_lc acc)) = cl_client_program_id client /\
    owner_of w (lc_consensus_state (pk_lc acc)) = cl_client_program_id client.
Proof.
  intros Hr. unfold settle_accounts in Hr. rinv.
  match goal with Hq : packet_front _ _ _ _ _ = Ok _ |- _ =>
    apply packet_front_Ok in Hq as (-> & Hks & Hpa & Ham & m & Hhead & Hkp) end.
  match goal with Hq : packet_back _ _ _ _ _ _ = Ok _ |- _ =>
    apply packet_back_Ok in Hq as (-> & Hprog & Hkc & Hact & Hos & Hoc) end.
  match goal with E : (_, _) = (_, _) |- _ => injection E as -> -> end.
  unfold rk in Hks, Hkp, Hkc. simpl in Hks, Hkp, Hkc. to_stored. eauto 20.
Qed.

Lemma settle_open_Ok cx acc client mp proof w p pl n pd w' m :
  running cx ROUTER_ID -> settle_open cx acc client mp proof w = Ok ((p, pl, n, pd), w') ->
  head (mpk_payloads mp) = Some m ->
  require_role cx (pk_access_manager acc) RELAYER_ROLE (pk_relayer acc)
    (pk_instructions_sysvar acc) ROUTER_ID w = Ok ((), w) /\
  packet_of mp p /\ cl_client_id client = mpk_source_client mp /\
  pkt_sequence p = mpk_sequence mp /\ pkt_source_client p = mpk_source_client mp /\
  pkt_dest_client p = ci_client_id (cl_counterparty_info client) /\
  pkt_payloads p = [pl] /\ pl_source_port pl = mpl_source_port m /\
  evol [] [] w w' /\ foreign w w' /\ w_clock w' = w_clock w.
Proof.
  intros Hrun Hr Hm. unfold settle_open in Hr. rinv.
  match goal with E : (_, _) = (_, _) |- _ => injection E as -> -> -> -> end.
  match goal with Hq : require_role _ _ _ _ _ _ _ = Ok _ |- _ =>
    pose proof Hq as Hrole; apply require_role_Ok in Hq as (-> & _); [|done] end.
  match goal with Hq : validate_and_reconstruct_packet _ _ _ _ _ _ = Ok _ |- _ =>
    eapply packet_and_proof in Hq as
      (Hof & Hev & Hfor & Hck & Hseq & Hsrc & Hdst & _ & Hpl & Hport & _); [|eassumption..] end.
  split_and!; try done; congruence.
Qed.

Lemma ack_packet_refines cx acc msg w u w' :
  running cx ROUTER_ID -> is_u64 (mpk_sequence (map_packet msg)) ->
  ack_packet cx acc msg w = Ok (u, w') ->
  r_refines (performs (RAckPacket acc msg)) cx w w'.
Proof.
  intros Hrun Hty Hr. unfold ack_packet, lift24, on_acknowledgement_packet, invoke_ibc_app in Hr.
  cbv zeta in Hr. apply bind_Ok in Hr as ([client v] & w1 & Hacc & Hr).
  apply bind_Ok in Hr as ([[[p pl] n] pd] & w2 & Hopen & Hr).
  apply settle_accounts_Ok in Hacc as (-> & rs & app & m & Hst & Hpa & Ham & Hhead & Happ & Hk &
    Hcom & Hcl & Hact & Hprog & Hos & Hoc).
  eapply settle_open_Ok in Hopen as (Hrole & Hof & Hid & Hseq & Hsrc & Hdst & Hpl & Hport & Hev1 & Hfor &
    Hck); [|done|exact Hhead].
  rinv. repeat match goal with E : map_err _ _ = Ok _ |- _ => apply map_err_ok in E end.
  match goal with Hq : lc_verify_membership _ _ _ _ _ = Ok _ |- _ =>
    apply verify_membership_Ok, lc_call_Ok in Hq as (Hev2 & Hne & _ & Hans); [|done..] end.
  match goal with Hq : invoke _ _ _ _ _ _ = Ok _ |- _ =>
    apply invoke_evol in Hq as (Hev3 & _); [|done..] end.
  rewrite Hk in Hr. rewrite Hprog, Hsrc, Hseq in *.
  pose proof (evol_trans _ _ _ _ _ _ _ Hev1 (evol_trans _ _ _ _ _ _ _ Hev2 Hev3)) as Hev.
  simpl in Hev.
  eapply (refine_store1 _ _ _ _ _ (KCommit (mpk_source_client (map_packet msg))
    (mpk_sequence (map_packet msg))) _ []); [done| | | |set_solver|exact Hr];
    [| |exact (evol_trans _ _ _ _ _ _ _ Hev (evol_log_entry _ _))];
    [exists p; do 3 eexists; rewrite Hsrc, Hseq; split; [exact Hof|split; [|reflexivity]; done]|].
  eapply R_ack; try eassumption; try done.
  - exists rs. split_and!; try done. by eapply holder_at_intro in Hrole as [_ Hh].
  - by rewrite Hport.
  - by apply Hans.
  - match goal with E : v = _ |- _ => by rewrite <- E end.
Qed.

Lemma timeout_packet_refines cx acc msg w u w' :
  running cx ROUTER_ID -> is_u64 (mpk_sequence (mtp_packet msg)) ->
  timeout_packet cx acc msg w = Ok (u, w') ->
  r_refines (performs (RTimeoutPacket acc msg)) cx w w'.
Proof.
  intros Hrun Hty Hr. unfold timeout_packet, lift24, on_timeout_packet, invoke_ibc_app in Hr.
  cbv zeta in Hr. apply bind_Ok in Hr as ([client v] & w1 & Hacc & Hr).
  apply bind_Ok in Hr as ([[[p pl] n] pd] & w2 & Hopen & Hr).
  apply settle_accounts_Ok in Hacc as (-> & rs & app & m & Hst & Hpa & Ham & Hhead & Happ & Hk &
    Hcom & Hcl & Hact & Hprog & Hos & Hoc).
  eapply settle_open_Ok in Hopen as (Hrole & Hof & Hid & Hseq & Hsrc & Hdst & Hpl & Hport & Hev1 & Hfor &
    Hck); [|done|exact Hhead].
  rinv. repeat match goal with E : map_err _ _ = Ok _ |- _ => apply map_err_ok in E end.
  match goal with Hq : lc_verify_non_membership _ _ _ _ _ = Ok _ |- _ =>
    apply verify_non_membership_Ok in Hq as (data & Hi & Hret & Hlen & ->) end.
  apply lc_call_Ok in Hi as (Hev2 & Hne & _ & Hans); [|done..].
  match goal with Hq : invoke _ _ _ _ _ _ = Ok _ |- _ =>
    apply invoke_evol in Hq as (Hev3 & _); [|done..] end.
  match goal with E : (_ <=? _) = true |- _ => apply Z.leb_le in E end.
  rewrite Hk in Hr. rewrite Hprog, Hsrc, Hseq in *.
  pose proof (evol_trans _ _ _ _ _ _ _ Hev1 (evol_trans _ _ _ _ _ _ _ Hev2 Hev3)) as Hev.
  simpl in Hev.
  eapply (refine_store1 _ _ _ _ _ (KCommit (mpk_source_client (mtp_packet msg))
    (mpk_sequence (mtp_packet msg))) _ []); [done| | | |set_solver|exact Hr];
    [| |exact (evol_trans _ _ _ _ _ _ _ Hev (evol_log_entry _ _))];
    [exists p; do 3 eexists; rewrite Hsrc, Hseq; split; [exact Hof|reflexivity]|].
  eapply R_timeout; try eassumption; try done.
  - exists rs. split_and!; try done. by eapply holder_at_intro in Hrole as [_ Hh].
  - by rewrite Hport.
  - by apply Hans.
  - match goal with E : v = _ |- _ => by rewrite <- E end.
Qed.

Lemma exec_router_refines cx ix w u w' :
  running cx ROUTER_ID -> ix_typed ix -> exec_router cx ix w = Ok (u, w') ->
  r_refines (performs ix) cx w w'.
Proof.
  intros Hrun Hty. destruct ix; simpl in *.
  - by apply initialize_refines.
  - by apply add_ibc_app_refines.
  - by apply send_packet_refines.
  - by apply recv_packet_refines.
  - by apply ack_packet_refines.
  - by apply timeout_packet_refines.
  - by apply add_client_refines.
  - by apply migrate_refines.
  - by apply upload_payload_refines.
  - by apply upload_proof_refines.
  - by apply cleanup_refines.
  - by apply propose_am_refines.
  - by apply accept_am_refines.
  - by apply cancel_am_refines.
  - by apply pause_refines.
  - by apply unpause_refines.
Qed.

End Refinement.
