(* ===== verification/RouterProps.v ===== *)
(** * Properties of the packet protocol

    What the router guarantees over any history of its instructions,
    interleaved with anything the other programs do: its registries are well
    formed and only change with the right role; a sequence number is used at
    most once and its packet is acknowledged or timed out at most once, never
    both; a packet is delivered at most once, after the light client accepted
    its proof; a paused router moves no packet; and cleaning up chunks loses
    no lamport. *)

From S2P Require Import Prelude Errors Types Runtime Toy Ics24 Cpi AccessManager AccessManagerSpec Keyed.
From S2P Require Import Chunking Router ChunkingSpec RouterSpec.
From Stdlib Require Import ZArith Lia.
From Stdlib.Strings Require Import Byte.
From stdpp Require Import prelude strings gmap list.

#[local] Open Scope Z_scope.

(** ** Entries of the log *)

Definition is_send (c : bytes) (s : Z) (e : LogEntry) : bool :=
  match e with
  | LEvent _ (SendPacketEvent c' s' _ _) => bool_decide (c' = c /\ s' = s)
  | _ => false
  end.

(** A callback that settles a sent packet: acknowledgement or timeout. *)
Definition is_settlement_of (c : bytes) (s : Z) (e : LogEntry) : bool :=
  match e with
  | LInvoke _ _ (IxOnAcknowledgementPacket m) =>
      bool_decide (oap_source_client m = c /\ oap_sequence m = s)
  | LInvoke _ _ (IxOnTimeoutPacket m) =>
      bool_decide (otp_source_client m = c /\ otp_sequence m = s)
  | _ => false
  end.

Definition is_delivery (c : bytes) (s : Z) (e : LogEntry) : bool :=
  match e with
  | LInvoke _ _ (IxOnRecvPacket m) => bool_decide (orp_dest_client m = c /\ orp_sequence m = s)
  | _ => false
  end.

Definition is_write_ack (c : bytes) (s : Z) (e : LogEntry) : bool :=
  match e with
  | LEvent _ (WriteAcknowledgementEvent c' s' _ _) => bool_decide (c' = c /\ s' = s)
  | _ => false
  end.

(** ** Reachable states *)

(** One successful instruction. *)
Definition r_step `{Platform} (w w' : World) : Prop :=
  exists cx ix, running cx ROUTER_ID /\ ix_typed ix /\ exec_router cx ix w = Ok ((), w').

Notation r_reachable := (reach_at ROUTER_ID rk key_typed r_step).
Notation view := (view_at rk).

Section Props.
Context `{Platform} `{!PlatformOk} `{!RouterDeployed}.

Lemma r_step_steps w w' :
  r_step w w' -> steps_by ROUTER_ID rk key_typed (fun w ch l => exists cx, r_trans cx w ch l) w w'.
Proof.
  intros (cx & ix & Hrun & Hty & Hx).
  apply exec_router_refines in Hx as (ch & l & [_ Ht] & ?); [|done..]. exists ch, l. eauto.
Qed.

Lemma r_reachable_step cx ix w w' :
  r_reachable w -> running cx ROUTER_ID -> ix_typed ix -> exec_router cx ix w = Ok ((), w') ->
  r_reachable w'.
Proof. intros Hr Hrun Hty Hx. eapply reach_step; [exact Hr|]. by exists cx, ix. Qed.

(** ** The registries *)

Definition data_ok (K : RouterKey) (d : AccountData) : Prop :=
  match K with
  | KState => exists rs, d = DRouterState rs
  | KApp port => exists app, d = DIBCApp app /\ app_port_id app = port /\
      (length port <= 32)%nat /\
      validate_custom_ibc_identifier port MIN_PORT_ID_LENGTH MAX_PORT_ID_LENGTH = true
  | KClient c => exists cl, d = DClient cl /\ cl_client_id cl = c /\
      validate_custom_ibc_identifier c MIN_CLIENT_ID_LENGTH (Z.to_nat MAX_CLIENT_ID_LENGTH) = true /\
      ci_merkle_prefix (cl_counterparty_info cl) <> []
  | KCommit _ _ | KReceipt _ _ | KAck _ _ => exists v, d = DCommitment v
  end.

Definition view_ok (v : RouterKey -> option Account) : Prop :=
  forall K a, key_typed K -> v K = Some a -> acc_owner a = ROUTER_ID /\ data_ok K (acc_data a).

Lemma migrated_ok cl params cl' :
  migrated cl params = Ok cl' -> ci_merkle_prefix (cl_counterparty_info cl) <> [] ->
  cl_client_id cl' = cl_client_id cl /\ ci_merkle_prefix (cl_counterparty_info cl') <> [].
Proof.
  unfold migrated. rewrite result_bind_ok. intros (info & Hi & [= <-]) Hne. simpl.
  split; [done|]. destruct (mcp_counterparty_info params) as [i|]; [|by injection Hi as <-].
  apply result_bind_ok in Hi as (? & Hr%require_r_ok & [= ->]).
  by apply negb_true_iff, bool_decide_eq_false in Hr.
Qed.

Lemma r_trans_data_ok cx w ch l :
  view_ok (view w) -> r_trans cx w ch l -> forall K d, (K, d) ∈ ch -> key_typed K -> data_ok K d.
Proof.
  intros Hok Ht. destruct Ht; intros K d Hin HK; rewrite ?elem_of_cons in Hin;
    repeat (destruct Hin as [Hin|Hin]; [injection Hin as -> ->|]);
    try (by apply not_elem_of_nil in Hin); simpl; eauto 10.
  match goal with Hs : stored _ (KClient c) (DClient cl), Hm : migrated _ _ = Ok _ |- _ =>
    destruct Hs as (a & Ha & Ho & Hd);
    destruct (Hok (KClient c) a I Ha) as (_ & cl0 & Hd0 & Hid & Hv & Hp);
    rewrite Hd in Hd0; injection Hd0 as <-; destruct (migrated_ok _ _ _ Hm Hp) as [Hid' Hp'] end.
  exists cl'. split_and!; [done|congruence|done|done].
Qed.

Lemma reachable_view_ok w :
  r_reachable w -> view_ok (view w) /\ forall K, key_typed K -> funded w (rk K).
Proof.
  apply (reach_at_induct r_step _ (fun v _ => view_ok v) r_step_steps).
  - intros v v' _ Hv Hok K a HK E. rewrite <- Hv in E by done. by apply Hok.
  - by intros K a.
  - intros w0 w1 ch l Hok _ [cx Ht] Hev Hst Hch K a HK Ha.
    destruct (view_at_step _ _ _ _ K Hev Hst HK) as [(d & a' & Hin & Ha' & Ho & Hd)|[_ E]].
    + rewrite Ha' in Ha. injection Ha as <-. split; [done|]. rewrite Hd.
      eapply r_trans_data_ok; [exact Hok|exact Ht|done|done].
    + apply Hok; [done|congruence].
Qed.

(** ** Sent packets *)

Definition view_commitment (v : RouterKey -> option Account) (K : RouterKey) (d : bytes) : Prop :=
  exists a, v K = Some a /\ acc_data a = DCommitment d.

(** [e] settles the packet [p], and [x] is the call to the light client that
    justifies it: a proof of the acknowledgement handed to the application, or
    of the absence of a receipt. *)
Definition settlement_of (p : Packet) (x e : LogEntry) : Prop :=
  match e with
  | LInvoke _ _ (IxOnAcknowledgementPacket m) =>
      oap_dest_client m = pkt_dest_client p /\ pkt_payloads p = [oap_payload m] /\
      exists prog mm prefix, x = LInvoke ROUTER_ID prog (IxVerifyMembership mm) /\
        packet_acknowledgement_commitment_bytes32 [oap_acknowledgement m] = Ok (mm_value mm) /\
        prefixed_path prefix
          (packet_acknowledgement_commitment_path (pkt_dest_client p) (pkt_sequence p)) =
          Ok (mm_path mm)
  | LInvoke _ _ (IxOnTimeoutPacket m) =>
      otp_dest_client m = pkt_dest_client p /\ pkt_payloads p = [otp_payload m] /\
      exists prog nm prefix, x = LInvoke ROUTER_ID prog (IxVerifyNonMembership nm) /\
        prefixed_path prefix
          (packet_receipt_commitment_path (pkt_dest_client p) (pkt_sequence p)) = Ok (nm_path nm)
  | _ => False
  end.

(** [e], logged after [l1], settles the packet of [(c, s)]: that packet was
    sent, once, and had not been settled; the callback carries the client and
    the payload of a packet with the same commitment.  The only escape is a
    packet whose commitment is the all-zero string: it cannot be told from the
    mark of a settled packet. *)
Definition settles_sent (c : bytes) (s : Z) (l1 : list LogEntry) (e : LogEntry) : Prop :=
  exists p0 t p x, last l1 = Some x /\
    LEvent ROUTER_ID (SendPacketEvent c s p0 t) ∈ l1 /\ count (is_send c s) l1 = 1%nat /\
    ((count (is_settlement_of c s) l1 = 0%nat /\
      packet_commitment_bytes32 p = packet_commitment_bytes32 p0) \/
     packet_commitment_bytes32 p = Commitment_EMPTY) /\
    pkt_source_client p = c /\ pkt_sequence p = s /\ settlement_of p x e.

Record sends_inv (c : bytes) (s : Z) (v : RouterKey -> option Account) (l : list LogEntry) : Prop := {
  si_none : v (KCommit c s) = None ->
    count (is_send c s) l = 0%nat /\ count (is_settlement_of c s) l = 0%nat;
  si_some d : view_commitment v (KCommit c s) d -> exists p0 t,
    LEvent ROUTER_ID (SendPacketEvent c s p0 t) ∈ l /\ count (is_send c s) l = 1%nat /\
    ((d = packet_commitment_bytes32 p0 /\ count (is_settlement_of c s) l = 0%nat) \/
     d = Commitment_EMPTY);
  si_hist l1 e l2 : l = l1 ++ e :: l2 -> is_settlement_of c s e = true -> settles_sent c s l1 e }.

(** Entries that are neither sends nor settlements of [(c, s)]. *)
Definition unrelated (c : bytes) (s : Z) (e : LogEntry) : Prop :=
  is_send c s e = false /\ is_settlement_of c s e = false.

Lemma count_unrelated c s l l' :
  Forall (unrelated c s) l' ->
  count (is_send c s) (l ++ l') = count (is_send c s) l /\
  count (is_settlement_of c s) (l ++ l') = count (is_settlement_of c s) l.
Proof.
  intros Hf. rewrite !count_app.
  assert (count (is_send c s) l' = 0%nat /\ count (is_settlement_of c s) l' = 0%nat) as [-> ->].
  { split; apply count_zero; (eapply Forall_impl; [exact Hf|by intros e []]). }
  split; lia.
Qed.

Inductive sends_step (c : bytes) (s : Z) (w : World)
    : list (RouterKey * AccountData) -> list LogEntry -> Prop :=
| ss_unrelated ch l :
    KCommit c s ∉ (fst <$> ch) -> Forall (unrelated c s) l -> sends_step c s w ch l
| ss_send x p t :
    view w (KCommit c s) = None -> unrelated c s x ->
    sends_step c s w [(KCommit c s, DCommitment (packet_commitment_bytes32 p))]
      [x; LEvent ROUTER_ID (SendPacketEvent c s p t)]
| ss_settle x e y p :
    stored w (KCommit c s) (DCommitment (packet_commitment_bytes32 p)) ->
    unrelated c s x -> unrelated c s y -> is_settlement_of c s e = true -> is_send c s e = false ->
    pkt_source_client p = c -> pkt_sequence p = s -> settlement_of p x e ->
    sends_step c s w [(KCommit c s, DCommitment Commitment_EMPTY)] [x; e; y].

Ltac other_keys :=
  simpl; rewrite ?not_elem_of_cons; split_and?; try apply not_elem_of_nil; discriminate.

Ltac unrelated_entries :=
  repeat first [apply Forall_nil_2 | apply Forall_cons_2];
  try (split; [reflexivity|reflexivity]).

Lemma r_trans_sends cx w ch l c s : r_trans cx w ch l -> sends_step c s w ch l.
Proof.
  assert (forall (c' : bytes) (s' : Z), ~ (c' = c /\ s' = s) -> KCommit c s ∉ [KCommit c' s']) as Hne.
  { intros c' s' Hn Hin. apply list_elem_of_singleton in Hin. apply Hn. by injection Hin. }
  destruct 1; try (apply ss_unrelated; [by other_keys|unrelated_entries]).
  - destruct (decide (c0 = c /\ s0 = s)) as [[-> ->]|Hd]; [by apply ss_send|].
    apply ss_unrelated; [by apply Hne|]. unrelated_entries.
    split; [|done]. simpl. by rewrite bool_decide_eq_false_2.
  - destruct (decide (c0 = c /\ s0 = s)) as [[-> ->]|Hd].
    { eapply ss_settle; try done; [simpl; by rewrite bool_decide_eq_true_2|].
      simpl. split_and!; [done|done|]. eexists _, _, _. subst. split_and!; done. }
    apply ss_unrelated; [by apply Hne|]. unrelated_entries.
    split; [done|]. simpl. by rewrite bool_decide_eq_false_2.
  - destruct (decide (c0 = c /\ s0 = s)) as [[-> ->]|Hd].
    { eapply ss_settle; try done; [simpl; by rewrite bool_decide_eq_true_2|].
      simpl. split_and!; [done|done|]. eexists _, _, _. subst. split_and!; done. }
    apply ss_unrelated; [by apply Hne|]. unrelated_entries.
    split; [done|]. simpl. by rewrite bool_decide_eq_false_2.
Qed.

Lemma sends_inv_ext c s v v' l :
  v' (KCommit c s) = v (KCommit c s) -> sends_inv c s v l -> sends_inv c s v' l.
Proof.
  intros E [Hn Hs Hh]. constructor; [by rewrite E| |done].
  intros d. unfold view_commitment. rewrite E. apply Hs.
Qed.

Lemma sends_inv_unrelated c s v l l' :
  Forall (unrelated c s) l' -> sends_inv c s v l -> sends_inv c s v (l ++ l').
Proof.
  intros Hf [Hn Hs Hh]. destruct (count_unrelated c s l l' Hf) as [E1 E2].
  constructor; [by rewrite E1, E2| |].
  - intros d Hd. rewrite E1, E2. destruct (Hs d Hd) as (p0 & t & Hin & ?). exists p0, t.
    split; [|done]. apply elem_of_app. by left.
  - apply (history_app (fun l1 e => is_settlement_of c s e = true -> settles_sent c s l1 e)); [done|].
    intros l1 e l2 -> He. apply Forall_app in Hf as [_ [[_ Hu] _]%Forall_cons]. congruence.
Qed.

Lemma sends_inv_step c s w w' ch l :
  is_u64 s -> sends_step c s w ch l -> evol (fst <$> ch) l w w' ->
  (forall K d, (K, d) ∈ ch -> stored w' K d) ->
  sends_inv c s (view w) (own_log ROUTER_ID w) -> sends_inv c s (view w') (own_log ROUTER_ID w').
Proof.
  intros Hs Hst Hev Hch Hinv. rewrite (ev_log _ _ _ _ Hev).
  destruct Hst as [ch l Hn Hf|x p t Hnone [Hx1 Hx2]|x e y p Hst [Hx1 Hx2] [Hy1 Hy2] He1 He2 Hsrc Hsq Hm].
  - apply sends_inv_unrelated; [done|]. eapply sends_inv_ext; [|exact Hinv].
    by apply (ev_same _ _ _ _ Hev).
  - destruct (si_none _ _ _ _ Hinv Hnone) as [N1 N2].
    destruct (Hch (KCommit c s) _ (list_elem_of_here _ _)) as (a & Ha & _ & Hd).
    constructor.
    + unfold view_at. congruence.
    + intros d (a' & Ha' & Hd'). unfold view_at in *. assert (a' = a) as -> by congruence.
      rewrite Hd in Hd'. injection Hd' as <-. exists p, t. rewrite !count_app, N1, N2. simpl.
      unfold count. simpl. rewrite Hx1, Hx2. simpl. rewrite bool_decide_eq_true_2 by done.
      split_and!; [set_solver|done|by left].
    + apply (history_app (fun l1 e => is_settlement_of c s e = true -> settles_sent c s l1 e)).
      { apply (si_hist _ _ _ _ Hinv). }
      intros l1 e l2 E He. destruct l1 as [|? [|? l1]]; simplify_eq/=; [congruence|].
      destruct l1; discriminate.
  - destruct Hst as (a & Ha & _ & Hd).
    destruct (si_some _ _ _ _ Hinv (packet_commitment_bytes32 p)) as (p0 & t & Hin & Hsend & Hcase).
    { by exists a. }
    constructor.
    + intros Hnone. destruct (Hch (KCommit c s) _ (list_elem_of_here _ _)) as (a' & Ha' & _).
      unfold view_at in *. congruence.
    + intros d (a' & Ha' & Hd'). destruct (Hch (KCommit c s) _ (list_elem_of_here _ _)) as (a2 & Ha2 & _ & Hd2).
      unfold view_at in *. assert (a' = a2) as -> by congruence. rewrite Hd2 in Hd'. injection Hd' as <-.
      exists p0, t. rewrite count_app, Hsend. unfold count. simpl. rewrite Hx1, He2, Hy1.
      split_and!; [apply elem_of_app; by left|done|by right].
    + apply (history_app (fun l1 e => is_settlement_of c s e = true -> settles_sent c s l1 e)).
      { apply (si_hist _ _ _ _ Hinv). }
      intros l1 e' l2 E He. destruct l1 as [|? [|? [|? l1]]]; simplify_eq/=; try congruence;
        [|destruct l1; discriminate].
      eexists p0, t, p, _. rewrite !count_app. unfold count. simpl. rewrite Hx1, Hx2, last_snoc.
      split_and!; [reflexivity|apply elem_of_app; by left|rewrite Nat.add_0_r; exact Hsend| |done..].
      destruct Hcase as [[? ?]|?]; [left|by right]. split; [|done]. unfold count in *. simpl. lia.
Qed.

Lemma reachable_sends w c s :
  is_u64 s -> r_reachable w -> sends_inv c s (view w) (own_log ROUTER_ID w).
Proof.
  intros Hs Hr. refine (proj1 (reach_at_induct r_step _ (sends_inv c s) r_step_steps _ _ _ w Hr)).
  - intros v v' l Hv Hi. eapply sends_inv_ext; [|exact Hi]. symmetry. by apply Hv.
  - constructor; [done|by intros d (a & ? & _)|]. intros l1 e l2 E. by destruct l1.
  - intros w0 w1 ch l Hi _ [cx Ht] Hev Hst _. eapply sends_inv_step; [done| |done|done|done].
    by eapply r_trans_sends.
Qed.

(** A sequence number of a client is used for at most one packet. *)
Lemma sent_once w c s :
  is_u64 s -> r_reachable w -> (count (is_send c s) (own_log ROUTER_ID w) <= 1)%nat.
Proof.
  intros Hs Hr. destruct (reachable_sends w c s Hs Hr) as [Hn Hsome _].
  destruct (view w (KCommit c s)) as [a|] eqn:Ha; [|destruct (Hn eq_refl); lia].
  destruct (reachable_view_ok w Hr) as [Hok _].
  destruct (Hok (KCommit c s) a Hs Ha) as (_ & v & Hd).
  destruct (Hsome v) as (p0 & t & _ & -> & _); [by exists a|done].
Qed.

(** ** Received packets *)

(** A packet was received at [(c, s)] whose receipt is the all-zero string:
    the router cannot tell it from one that was never received. *)
Definition zero_receipt (c : bytes) (s : Z) (l : list LogEntry) : Prop :=
  exists p acks, LEvent ROUTER_ID (WriteAcknowledgementEvent c s p acks) ∈ l /\
    packet_receipt_commitment_bytes32 p = Ok Commitment_EMPTY.

(** [e], logged after [l1], delivers the packet of [(c, s)] to an application:
    just before, a light client accepted the proof of the commitment of that
    packet, and no packet of [(c, s)] had been delivered. *)
Definition delivers_verified (c : bytes) (s : Z) (l1 : list LogEntry) (e : LogEntry) : Prop :=
  exists p pl prog mm, last l1 = Some (LInvoke ROUTER_ID prog (IxVerifyMembership mm)) /\
    mm_value mm = packet_commitment_bytes32 p /\
    (exists prefix, prefixed_path prefix (packet_commitment_path (pkt_source_client p) s) =
       Ok (mm_path mm)) /\
    pkt_dest_client p = c /\ pkt_sequence p = s /\ pkt_payloads p = [pl] /\
    match e with
    | LInvoke _ _ (IxOnRecvPacket m) => orp_source_client m = pkt_source_client p /\ orp_payload m = pl
    | _ => False
    end /\
    (count (is_delivery c s) l1 = 0%nat \/ zero_receipt c s l1).

(** The acknowledgement [ack] of the packet [p] was written at [(c, s)]. *)
Definition acknowledged (c : bytes) (s : Z) (v : RouterKey -> option Account) (l : list LogEntry)
    (p : Packet) (ack : bytes) : Prop :=
  LEvent ROUTER_ID (WriteAcknowledgementEvent c s p [ack]) ∈ l /\
  ack <> [] /\ ack <> UNIVERSAL_ERROR_ACK /\
  exists d, packet_acknowledgement_commitment_bytes32 [ack] = Ok d /\ view_commitment v (KAck c s) d.

Record receipts_inv (c : bytes) (s : Z) (v : RouterKey -> option Account) (l : list LogEntry) : Prop := {
  ri_none : v (KReceipt c s) = None -> count (is_delivery c s) l = 0%nat;
  ri_some d : view_commitment v (KReceipt c s) d ->
    exists p ack, packet_receipt_commitment_bytes32 p = Ok d /\ acknowledged c s v l p ack;
  ri_hist l1 e l2 : l = l1 ++ e :: l2 -> is_delivery c s e = true -> delivers_verified c s l1 e }.

Inductive receipts_step (c : bytes) (s : Z) (w : World)
    : list (RouterKey * AccountData) -> list LogEntry -> Prop :=
| rs_unrelated ch l :
    KReceipt c s ∉ (fst <$> ch) -> KAck c s ∉ (fst <$> ch) ->
    Forall (fun e => is_delivery c s e = false) l -> receipts_step c s w ch l
| rs_noop rc v l :
    stored w (KReceipt c s) (DCommitment rc) -> rc <> Commitment_EMPTY ->
    ((w_accts w !! rk (KAck c s) = None /\ v = Commitment_EMPTY) \/
     stored w (KAck c s) (DCommitment v)) ->
    Forall (fun e => is_delivery c s e = false) l ->
    receipts_step c s w [(KReceipt c s, DCommitment rc); (KAck c s, DCommitment v)] l
| rs_recv rc v x e p ack :
    (view w (KReceipt c s) = None \/ stored w (KReceipt c s) (DCommitment Commitment_EMPTY)) ->
    packet_receipt_commitment_bytes32 p = Ok rc ->
    packet_acknowledgement_commitment_bytes32 [ack] = Ok v -> ack <> [] -> ack <> UNIVERSAL_ERROR_ACK ->
    is_delivery c s x = false ->
    (forall l, count (is_delivery c s) l = 0%nat \/ zero_receipt c s l ->
       delivers_verified c s (l ++ [x]) e) ->
    receipts_step c s w [(KReceipt c s, DCommitment rc); (KAck c s, DCommitment v)]
      [x; e; LEvent ROUTER_ID (WriteAcknowledgementEvent c s p [ack])].

Lemma zero_receipt_app c s l l' : zero_receipt c s l -> zero_receipt c s (l ++ l').
Proof. intros (p & acks & Hin & ?). exists p, acks. rewrite elem_of_app. auto. Qed.

Lemma r_trans_receipts cx w ch l c s : r_trans cx w ch l -> receipts_step c s w ch l.
Proof.
  assert (forall (c' : bytes) (s' : Z), ~ (c' = c /\ s' = s) ->
    (KReceipt c s ∉ [KReceipt c' s'; KAck c' s']) /\ (KAck c s ∉ [KReceipt c' s'; KAck c' s'])) as Hne.
  { intros c' s' Hn. rewrite !not_elem_of_cons.
    split_and!; try apply not_elem_of_nil; intros [=]; by apply Hn. }
  destruct 1; try (apply rs_unrelated; [by other_keys|by other_keys|by repeat constructor]).
  - destruct (decide (c0 = c /\ s0 = s)) as [[-> ->]|Hd].
    { apply rs_noop; [done..|by repeat constructor]. }
    apply rs_unrelated; [by apply Hne..|by repeat constructor].
  - destruct (decide (c0 = c /\ s0 = s)) as [[-> ->]|Hd].
    + eapply rs_recv; try done. intros l Hl. exists p, payload. eexists _, _.
      rewrite last_snoc. split_and!; try done; [by eexists|]. rewrite count_app.
      destruct Hl as [->|Hl]; [by left|right; by apply zero_receipt_app].
    + apply rs_unrelated; [by apply Hne..|]. repeat constructor. simpl.
      by rewrite bool_decide_eq_false_2.
Qed.

Lemma history_delivery_app c s l l' :
  (forall l1 e l2, l = l1 ++ e :: l2 -> is_delivery c s e = true -> delivers_verified c s l1 e) ->
  Forall (fun e => is_delivery c s e = false) l' ->
  forall l1 e l2, l ++ l' = l1 ++ e :: l2 -> is_delivery c s e = true -> delivers_verified c s l1 e.
Proof.
  intros Hh Hf. apply (history_app (fun l1 e => is_delivery c s e = true -> delivers_verified c s l1 e)); [done|].
  intros l1 e l2 -> He. apply Forall_app in Hf as [_ [Hu _]%Forall_cons]. congruence.
Qed.

Lemma acknowledged_mono c s v v' l l' p ack :
  (forall d, view_commitment v (KAck c s) d -> view_commitment v' (KAck c s) d) ->
  acknowledged c s v l p ack -> acknowledged c s v' (l ++ l') p ack.
Proof.
  intros Hv (Hin & ? & ? & d & ? & ?). split_and!; [rewrite elem_of_app; by left|done..|].
  exists d. split; [done|by apply Hv].
Qed.

Lemma stored_unique w K d v : stored w K (DCommitment d) -> view_commitment (view w) K v -> v = d.
Proof. intros (a & Ha & _ & Hd) (a' & Ha' & Hd'). unfold view_at in *. congruence. Qed.

Lemma stored_commitment w K d : stored w K (DCommitment d) -> view_commitment (view w) K d.
Proof. intros (a & Ha & _ & Hd). by exists a. Qed.

Lemma receipts_inv_step c s w w' ch l :
  is_u64 s -> receipts_step c s w ch l -> evol (fst <$> ch) l w w' ->
  (forall K d, (K, d) ∈ ch -> stored w' K d) ->
  receipts_inv c s (view w) (own_log ROUTER_ID w) -> receipts_inv c s (view w') (own_log ROUTER_ID w').
Proof.
  intros Hs Hst Hev Hch Hinv. rewrite (ev_log _ _ _ _ Hev).
  destruct Hst as [ch l Hn1 Hn2 Hf|rc v l Hrc Hne Hv Hf|rc v x e p ack Hopen Hrc Hv Hack1 Hack2 Hx He].
  - assert (view w' (KReceipt c s) = view w (KReceipt c s)) as E1 by by apply (ev_same _ _ _ _ Hev).
    assert (view w' (KAck c s) = view w (KAck c s)) as E2 by by apply (ev_same _ _ _ _ Hev).
    constructor.
    + rewrite E1. intros Hn. rewrite count_app, (ri_none _ _ _ _ Hinv Hn). by apply count_zero.
    + intros d. unfold view_commitment at 1. rewrite E1. intros Hd.
      destruct (ri_some _ _ _ _ Hinv d Hd) as (p & ack & ? & Hack). exists p, ack.
      split; [done|]. eapply acknowledged_mono; [|exact Hack].
      intros d'. unfold view_commitment. by rewrite E2.
    + apply history_delivery_app; [apply (ri_hist _ _ _ _ Hinv)|done].
  - assert (stored w' (KReceipt c s) (DCommitment rc)) as H1' by (apply Hch; set_solver).
    assert (stored w' (KAck c s) (DCommitment v)) as H2' by (apply Hch; set_solver).
    destruct (ri_some _ _ _ _ Hinv rc (stored_commitment _ _ _ Hrc)) as (p & ack & Hp & Hack).
    constructor.
    + destruct H1' as (a & Ha & _). unfold view_at. congruence.
    + intros d Hd. rewrite (stored_unique _ _ _ _ H1' Hd). exists p, ack. split; [done|].
      eapply acknowledged_mono; [|exact Hack]. intros d' Hd'.
      destruct Hv as [[Hnone _]|Hv]; [destruct Hd' as (a & Ha & _); unfold view_at in Ha; congruence|].
      rewrite (stored_unique _ _ _ _ Hv Hd'). by apply stored_commitment.
    + apply history_delivery_app; [apply (ri_hist _ _ _ _ Hinv)|done].
  - assert (stored w' (KReceipt c s) (DCommitment rc)) as H1' by (apply Hch; set_solver).
    assert (stored w' (KAck c s) (DCommitment v)) as H2' by (apply Hch; set_solver).
    constructor.
    + destruct H1' as (a & Ha & _). unfold view_at. congruence.
    + intros d Hd. rewrite (stored_unique _ _ _ _ H1' Hd). exists p, ack. split; [done|].
      split_and!; [set_solver|done..|]. exists v. split; [done|by apply stored_commitment].
    + apply (history_app (fun l1 e => is_delivery c s e = true -> delivers_verified c s l1 e)).
      { apply (ri_hist _ _ _ _ Hinv). }
      intros l1 e' l2 E He'. destruct l1 as [|? [|? [|? l1]]]; simplify_eq/=; try congruence;
        [|destruct l1; discriminate].
      apply He. destruct Hopen as [Hn|Hst]; [left; by apply (ri_none _ _ _ _ Hinv)|right].
      destruct (ri_some _ _ _ _ Hinv _ (stored_commitment _ _ _ Hst)) as (p' & ack' & ? & Hin & _).
      by exists p', [ack'].
Qed.

Lemma reachable_receipts w c s :
  is_u64 s -> r_reachable w -> receipts_inv c s (view w) (own_log ROUTER_ID w).
Proof.
  intros Hs Hr. refine (proj1 (reach_at_induct r_step _ (receipts_inv c s) r_step_steps _ _ _ w Hr)).
  - intros v v' l Hv Hi. assert (v' (KReceipt c s) = v (KReceipt c s)) as E1 by (symmetry; by apply Hv).
    assert (v' (KAck c s) = v (KAck c s)) as E2 by (symmetry; by apply Hv).
    destruct Hi as [I1 I2 I3]. constructor; [by rewrite E1| |done].
    intros d. unfold acknowledged, view_commitment. rewrite E1, E2. apply I2.
  - constructor; [done|by intros d (a & ? & _)|]. intros l1 e l2 E. by destruct l1.
  - intros w0 w1 ch l Hi _ [cx Ht] Hev Hst _. eapply receipts_inv_step; [done| |done|done|done].
    by eapply r_trans_receipts.
Qed.

(** ** Who may change what *)

Definition data_at (w : World) (K : RouterKey) : option AccountData := acc_data <$> view w K.

(** The authority behind a change of the account [K] from [old] to [new]. *)
Definition change_authorized (cx : CallCtx) (w : World) (K : RouterKey)
    (old new : option AccountData) : Prop :=
  match K, old, new with
  | KState, None, Some (DRouterState _) =>
      exists s, s ∈ cx_signers cx /\ upgrade_authority_of w ROUTER_ID s
  | KState, Some (DRouterState rs), Some (DRouterState rs') =>
      let am := ams_access_manager (rs_am_state rs) in
      let am' := ams_access_manager (rs_am_state rs') in
      (am' <> am -> ams_pending_access_manager (rs_am_state rs) = Some am' /\
                    ams_pending_access_manager (rs_am_state rs') = None /\
                    exists s, admin_of cx w am' s) /\
      (am' = am -> ams_pending_access_manager (rs_am_state rs') <>
                   ams_pending_access_manager (rs_am_state rs) ->
         exists s, admin_of cx w am s) /\
      (rs_paused rs' <> rs_paused rs -> rs_am_state rs' = rs_am_state rs /\
         exists s, holder cx w rs (if rs_paused rs' then PAUSER_ROLE else UNPAUSER_ROLE) s)
  | KApp _, None, Some _ | KClient _, None, Some _ =>
      exists rs s, stored w KState (DRouterState rs) /\ holder cx w rs ID_CUSTOMIZER_ROLE s
  | KClient _, Some _, Some _ =>
      exists rs s, stored w KState (DRouterState rs) /\
        admin_of cx w (ams_access_manager (rs_am_state rs)) s
  | KCommit _ _, None, Some _ =>
      exists port app, stored w (KApp port) (DIBCApp app) /\
        pda_key [IBCAppState_SEED] (app_program_id app) ∈ cx_signers cx
  | KCommit _ _, Some _, Some _ | KReceipt _ _, _, Some _ | KAck _ _, _, Some _ =>
      exists s, relay cx w s
  | _, _, _ => False
  end.

Lemma data_at_stored w K d : stored w K d -> data_at w K = Some d.
Proof. intros (a & Ha & _ & Hd). unfold data_at, view_at. rewrite Ha. simpl. by rewrite Hd. Qed.

Lemma data_at_None w K : w_accts w !! rk K = None -> data_at w K = None.
Proof. intros E. unfold data_at, view_at. by rewrite E. Qed.

Lemma r_trans_authorized cx w ch l K d :
  r_trans cx w ch l -> (K, d) ∈ ch -> data_at w K <> Some d ->
  change_authorized cx w K (data_at w K) (Some d).
Proof.
  intros Ht Hin Hne. destruct Ht; rewrite ?elem_of_cons in Hin;
    repeat (destruct Hin as [Hin|Hin]; [injection Hin as -> ->|]);
    try (by apply not_elem_of_nil in Hin);
    repeat match goal with
    | Hs : stored w ?K _ |- context [data_at w ?K] => rewrite (data_at_stored w K _ Hs)
    | Hn : w_accts w !! rk ?K = None |- context [data_at w ?K] => rewrite (data_at_None w K Hn)
    end; simpl; eauto 10; try (destruct (data_at w _); by eauto).
  all: split_and!; try congruence; eauto 10.
  intros <-. eauto.
Qed.

(** ** The access manager of the router *)

Definition is_transfer (e : LogEntry) : bool :=
  match e with
  | LEvent _ (AccessManagerTransferProposed _ _) | LEvent _ (AccessManagerTransferAccepted _ _)
  | LEvent _ (AccessManagerTransferCancelled _ _) => true
  | _ => false
  end.

(** The transfer that is open after the log [l]: the last entry about
    transfers, when it is a proposal. *)
Definition open_transfer (l : list LogEntry) : option (Pubkey * Pubkey) :=
  match last (List.filter is_transfer l) with
  | Some (LEvent _ (AccessManagerTransferProposed o n)) => Some (o, n)
  | _ => None
  end.

Definition settles_transfer (l1 : list LogEntry) (e : LogEntry) : Prop :=
  match e with
  | LEvent _ (AccessManagerTransferProposed _ _) => open_transfer l1 = None
  | LEvent _ (AccessManagerTransferAccepted o n) => open_transfer l1 = Some (o, n)
  | LEvent _ (AccessManagerTransferCancelled o n) => open_transfer l1 = Some (o, n)
  | _ => True
  end.

Definition transfer_of (rs : RouterState) : option (Pubkey * Pubkey) :=
  (fun n => (ams_access_manager (rs_am_state rs), n)) <$> ams_pending_access_manager (rs_am_state rs).

Record transfers_inv (v : RouterKey -> option Account) (l : list LogEntry) : Prop := {
  ti_none : v KState = None -> open_transfer l = None;
  ti_some a rs : v KState = Some a -> acc_data a = DRouterState rs -> open_transfer l = transfer_of rs;
  ti_hist l1 e l2 : l = l1 ++ e :: l2 -> settles_transfer l1 e }.

Lemma open_transfer_app l l' :
  Forall (fun e => is_transfer e = false) l' -> open_transfer (l ++ l') = open_transfer l.
Proof.
  intros Hf. unfold open_transfer. rewrite List.filter_app.
  replace (List.filter is_transfer l') with (@nil LogEntry); [by rewrite app_nil_r|].
  induction Hf as [|e l' He Hf IH]; simpl; [done|]. by rewrite He.
Qed.

Lemma open_transfer_snoc l e :
  is_transfer e = true ->
  open_transfer (l ++ [e]) = match e with
                             | LEvent _ (AccessManagerTransferProposed o n) => Some (o, n)
                             | _ => None
                             end.
Proof. intros He. unfold open_transfer. rewrite List.filter_app. simpl. by rewrite He, last_snoc. Qed.

Inductive transfers_step (w : World) : list (RouterKey * AccountData) -> list LogEntry -> Prop :=
| ts_other ch l :
    (KState ∉ (fst <$> ch) \/ exists rs rs', ch = [(KState, DRouterState rs')] /\
       stored w KState (DRouterState rs) /\ rs_am_state rs' = rs_am_state rs) ->
    Forall (fun e => is_transfer e = false) l -> transfers_step w ch l
| ts_init am :
    view w KState = None ->
    transfers_step w [(KState, DRouterState (mkRouterState V1 (AccessManagerState_new am) false))] []
| ts_move rs rs' e :
    stored w KState (DRouterState rs) -> is_transfer e = true ->
    (forall l, open_transfer l = transfer_of rs ->
       settles_transfer l e /\ open_transfer (l ++ [e]) = transfer_of rs') ->
    transfers_step w [(KState, DRouterState rs')] [e].

Lemma r_trans_transfers cx w ch l : r_trans cx w ch l -> transfers_step w ch l.
Proof.
  destruct 1; try (by apply ts_init);
    try (apply ts_other; [left; by other_keys|by repeat constructor]);
    try (apply ts_other; [right; by eexists _, _|by repeat constructor]);
    eapply ts_move; try done; intros l Hl; rewrite open_transfer_snoc by done;
    unfold transfer_of in *; simpl;
    match goal with Hp : ams_pending_access_manager _ = _ |- _ => rewrite Hp in Hl end; done.
Qed.

Lemma transfers_inv_step w w' ch l :
  transfers_step w ch l -> evol (fst <$> ch) l w w' -> (forall K d, (K, d) ∈ ch -> stored w' K d) ->
  transfers_inv (view w) (own_log ROUTER_ID w) -> transfers_inv (view w') (own_log ROUTER_ID w').
Proof.
  intros Hst Hev Hch [I1 I2 I3]. rewrite (ev_log _ _ _ _ Hev).
  assert (forall rs', (KState, DRouterState rs') ∈ ch ->
    open_transfer (own_log ROUTER_ID w ++ l) = transfer_of rs' ->
    (forall l1 e l2, l = l1 ++ e :: l2 -> settles_transfer (own_log ROUTER_ID w ++ l1) e) ->
    transfers_inv (view w') (own_log ROUTER_ID w ++ l)) as Hnew.
  { intros rs' Hin Ho Hh. destruct (Hch _ _ Hin) as (a & Ha & _ & Hd).
    constructor; [unfold view; congruence| |by apply history_app].
    intros a' rs. unfold view_at. intros Ha' Hd'. rewrite Ho. congruence. }
  destruct Hst as [ch l Hcase Hf|am Hn|rs rs' e Hs He Hmove].
  - assert (forall l1 e l2, l = l1 ++ e :: l2 -> settles_transfer (own_log ROUTER_ID w ++ l1) e) as Hh.
    { intros l1 e l2 ->. apply Forall_app in Hf as [_ [He _]%Forall_cons].
      by destruct e as [? []|]. }
    destruct Hcase as [Hk|(rs & rs' & -> & (a & Ha & _ & Hd) & Ham)].
    + assert (view w' KState = view w KState) as E by by apply (ev_same _ _ _ _ Hev).
      constructor; [| |by apply history_app]; rewrite E, open_transfer_app by done; auto.
    + apply (Hnew rs'); [apply list_elem_of_here| |done]. rewrite open_transfer_app by done.
      rewrite (I2 a rs Ha Hd). unfold transfer_of. by rewrite Ham.
  - eapply Hnew; [apply list_elem_of_here| |]; [rewrite app_nil_r; by apply I1|].
    intros l1 e l2 E. by destruct l1.
  - destruct Hs as (a & Ha & _ & Hd). destruct (Hmove _ (I2 a rs Ha Hd)) as [Hset Ho].
    apply (Hnew rs'); [apply list_elem_of_here|done|].
    intros l1 e' l2 E. destruct l1 as [|? l1]; simplify_eq/=; [by rewrite app_nil_r|].
    by destruct l1.
Qed.

Lemma reachable_transfers w : r_reachable w -> transfers_inv (view w) (own_log ROUTER_ID w).
Proof.
  intros Hr. refine (proj1 (reach_at_induct r_step _ transfers_inv r_step_steps _ _ _ w Hr)).
  - intros v v' l Hv [I1 I2 I3].
    assert (v' KState = v KState) as E by (symmetry; by apply Hv).
    constructor; [by rewrite E|by rewrite E|done].
  - constructor; [done|done|]. intros l1 e l2 E. by destruct l1.
  - intros w0 w1 ch l Hi _ [cx Ht] Hev Hst _. eapply transfers_inv_step; [|done|done|done].
    by eapply r_trans_transfers.
Qed.

(** ** Cleaning up chunks *)

Lemma cleanup_from_Ok cx ra relayer seeds i w u w' :
  cleanup_from cx ra relayer seeds i w = Ok (u, w') ->
  let keys := (fun s => pda_key s ROUTER_ID) <$> seeds in
  (relayer ∉ keys) /\
  Forall (fun k => holds w' k DZeroed /\ lam w' k = 0) keys /\
  (forall k, k ∉ keys -> w_accts w' !! k = w_accts w !! k) /\
  (forall k, k ∉ keys -> k <> relayer -> lam w' k = lam w k) /\
  (forall X, NoDup X -> relayer ∈ X -> keys ⊆ X -> zsum (lam w') X = zsum (lam w) X).
Proof.
  revert i w. induction seeds as [|s seeds IH]; intros i w Hr; simpl in *; minv.
  { split_and!; try done; apply not_elem_of_nil. }
  apply check_chunk_account_Ok in Hm0 as (_ & -> & _ & ->).
  apply drain_account_Ok in Hm1 as (Hne & _ & _ & _ & (a0 & _ & Ho & Hacc) & Hlam).
  lazymatch type of Hr with _ ?w = _ => rename w into w1 end.
  assert (holds w1 (pda_key s ROUTER_ID) DZeroed) as Hz.
  { exists (with_data a0 DZeroed). by rewrite Hacc, lookup_insert_eq. }
  assert (forall k', k' <> pda_key s ROUTER_ID -> w_accts w1 !! k' = w_accts w !! k') as Hsame.
  { intros k' Hk'. by rewrite Hacc, lookup_insert_ne. }
  apply IH in Hr as (Hn & Hf & Ha & Hl & Hsum). set (k0 := pda_key s ROUTER_ID) in *.
  set (keys := (fun s => pda_key s ROUTER_ID) <$> seeds) in *. split_and!.
  - rewrite not_elem_of_cons. split; [congruence|done].
  - constructor; [|done]. destruct (decide (k0 ∈ keys)) as [Hin|Hin].
    { rewrite Forall_forall in Hf. by apply Hf. }
    split; [|rewrite Hl, Hlam by done; by rewrite decide_True].
    unfold held. by rewrite Ha.
  - intros k [? ?]%not_elem_of_cons. by rewrite Ha, Hsame.
  - intros k [? ?]%not_elem_of_cons ?. rewrite Hl, Hlam by done. by rewrite !decide_False.
  - intros X Hnd HrX Hsub. assert (k0 ∈ X) as Hk0 by (apply Hsub, list_elem_of_here).
    rewrite Hsum; [|done|done|intros k ?; apply Hsub; by right].
    set (f := fun k => if decide (k = relayer) then lam w relayer + lam w k0 else lam w k).
    rewrite (zsum_change f _ X k0 Hnd Hk0), (zsum_change (lam w) f X relayer Hnd HrX).
    + subst f. simpl. rewrite (Hlam k0), !decide_True, decide_False by done. lia.
    + intros k Hk. subst f. simpl. by rewrite decide_False.
    + intros k Hk. rewrite Hlam, decide_False by done. subst f. simpl. by repeat case_decide.
Qed.

Lemma stored_same_view w w' K d : view w' K = view w K -> stored w K d -> stored w' K d.
Proof. unfold view_at, held. by intros ->. Qed.

Lemma receipt_kept cx ix w w' c s r :
  is_u64 s -> r_reachable w -> running cx ROUTER_ID -> ix_typed ix ->
  exec_router cx ix w = Ok ((), w') ->
  stored w (KReceipt c s) (DCommitment r) -> r <> Commitment_EMPTY ->
  stored w' (KReceipt c s) (DCommitment r) /\
  forall v, stored w (KAck c s) (DCommitment v) -> stored w' (KAck c s) (DCommitment v).
Proof.
  intros Hs Hr Hrun Hty Hx Hst Hne.
  apply exec_router_refines in Hx as (ch & l & [_ Ht] & Hev & Hch & _); [|done..].
  apply (r_trans_receipts _ _ _ _ c s) in Ht.
  destruct Ht as [ch l Hn1 Hn2 Hf|rc v l Hrc _ Hv Hf|rc v x e p ack Hopen _ _ _ _ _ _].
  - split; [|intros v Hv]; (eapply stored_same_view; [|eassumption]); by apply (ev_same _ _ _ _ Hev).
  - rewrite (stored_unique _ _ _ _ Hrc (stored_commitment _ _ _ Hst)) in *.
    split; [apply Hch, list_elem_of_here|]. intros v' Hv'.
    destruct Hv as [[Hnone _]|Hv]; [destruct Hv' as (a & Ha & _); congruence|].
    rewrite (stored_unique _ _ _ _ Hv (stored_commitment _ _ _ Hv')).
    apply Hch, list_elem_of_further, list_elem_of_here.
  - exfalso. destruct Hopen as [Hn|He]; [destruct Hst as (a & Ha & _); unfold view_at in *; congruence|].
    apply Hne. by apply (stored_unique _ _ _ _ He), stored_commitment.
Qed.

Definition is_packet_key (K : RouterKey) : bool :=
  match K with KCommit _ _ | KReceipt _ _ | KAck _ _ => true | _ => false end.

Definition is_packet_ix (ix : RouterIx) : bool :=
  match ix with
  | RSendPacket _ _ | RRecvPacket _ _ | RAckPacket _ _ | RTimeoutPacket _ _ => true
  | _ => false
  end.

Definition is_invoke (e : LogEntry) : bool := match e with LInvoke _ _ _ => true | _ => false end.

Lemma r_trans_paused cx w ch l rs :
  r_trans cx w ch l -> stored w KState (DRouterState rs) -> rs_paused rs = true ->
  Forall (fun x => is_packet_key (fst x) = false) ch /\ Forall (fun e => is_invoke e = false) l.
Proof.
  intros Ht Hs Hp.
  assert (forall rs', stored w KState (DRouterState rs') -> rs' = rs) as Hu.
  { intros rs' (a & Ha & _ & Hd). destruct Hs as (a' & Ha' & _ & Hd'). congruence. }
  destruct Ht; split; repeat constructor;
    repeat match goal with
    | Hr : relay _ _ _ |- _ => destruct Hr as (rs' & Hs' & Hp' & _); rewrite (Hu rs' Hs') in Hp'
    | Hs' : stored w KState (DRouterState ?r), Hp' : rs_paused ?r = false |- _ =>
        rewrite (Hu r Hs') in Hp'
    end; congruence.
Qed.

End Props.

(** ** The theorems *)

Section Theorems.
Context `{Platform} `{!PlatformOk} `{!RouterDeployed}.

(** C16: Every successful instruction of the router performs one transition
    of the protocol [r_trans], the one the instruction asks for: the accounts
    it changes hold the transition's data, the router's log grows by the
    transition's entries, and every other account of the protocol is as
    before, whatever the light clients and applications it calls do. *)
Theorem router_instructions_refine_spec cx ix w w' :
  running cx ROUTER_ID -> ix_typed ix -> exec_router cx ix w = Ok ((), w') ->
  exists ch l, performs ix ch l /\ r_trans cx w ch l /\
    own_log ROUTER_ID w' = own_log ROUTER_ID w ++ l /\
    (forall K d, (K, d) ∈ ch -> stored w' K d) /\
    (forall K, key_typed K -> K ∉ (fst <$> ch) -> w_accts w' !! rk K = w_accts w !! rk K).
Proof.
  intros Hrun Hty Hx.
  apply exec_router_refines in Hx as (ch & l & [Hp Ht] & Hev & Hst & _); [|done..].
  exists ch, l. split_and!; [done|done|apply (ev_log _ _ _ _ Hev)|done|apply (ev_same _ _ _ _ Hev)].
Qed.

(** C1: In every reachable state a sequence number of a client was used for
    at most one packet, and every acknowledgement or timeout callback of that
    client and sequence came after the packet was sent, was the first one (a
    packet is never both acknowledged and timed out, nor either twice),
    carries a packet with the commitment of the one sent, and directly follows
    a call in which the light client accepted the proof of that very
    acknowledgement, or of the absence of the receipt; the only exception is a
    packet whose commitment is the all-zero string. *)
Theorem packets_settled_once w c s :
  is_u64 s -> r_reachable w ->
  (count (is_send c s) (own_log ROUTER_ID w) <= 1)%nat /\
  forall l1 e l2, own_log ROUTER_ID w = l1 ++ e :: l2 -> is_settlement_of c s e = true ->
    settles_sent c s l1 e.
Proof.
  intros Hs Hr. split; [by apply sent_once|]. apply (si_hist _ _ _ _ (reachable_sends w c s Hs Hr)).
Qed.

(** C2: In every reachable state, every delivery of a packet to an
    application directly follows a call in which a light client accepted the
    proof of the commitment of that packet under the path of its source client
    and sequence, and is the first delivery for its destination client and
    sequence, unless a packet received there has the all-zero receipt. *)
Theorem packets_delivered_once w c s :
  is_u64 s -> r_reachable w ->
  forall l1 e l2, own_log ROUTER_ID w = l1 ++ e :: l2 -> is_delivery c s e = true ->
    delivers_verified c s l1 e.
Proof. intros Hs Hr. apply (ri_hist _ _ _ _ (reachable_receipts w c s Hs Hr)). Qed.

(** C29: A receipt is final.  In a reachable state, a receipt that is not
    zero is the receipt of a packet whose acknowledgement was written: the
    acknowledgement account holds the commitment of that non-empty
    acknowledgement, which is not the universal error; and no instruction
    changes either account again. *)
Theorem receipts_and_acks_final cx ix w w' c s r :
  is_u64 s -> r_reachable w -> running cx ROUTER_ID -> ix_typed ix ->
  exec_router cx ix w = Ok ((), w') ->
  stored w (KReceipt c s) (DCommitment r) -> r <> Commitment_EMPTY ->
  stored w' (KReceipt c s) (DCommitment r) /\
  exists p ack v, packet_receipt_commitment_bytes32 p = Ok r /\
    LEvent ROUTER_ID (WriteAcknowledgementEvent c s p [ack]) ∈ own_log ROUTER_ID w /\
    ack <> [] /\ ack <> UNIVERSAL_ERROR_ACK /\
    packet_acknowledgement_commitment_bytes32 [ack] = Ok v /\
    stored w (KAck c s) (DCommitment v) /\ stored w' (KAck c s) (DCommitment v).
Proof.
  intros Hs Hr Hrun Hty Hx Hst Hne.
  destruct (receipt_kept cx ix w w' c s r Hs Hr Hrun Hty Hx Hst Hne) as [Hst' Hack].
  split; [done|].
  destruct (ri_some _ _ _ _ (reachable_receipts w c s Hs Hr) r (stored_commitment _ _ _ Hst))
    as (p & ack & Hp & Hin & ? & ? & v & Hv & a & Ha & Hd).
  destruct (proj1 (reachable_view_ok w Hr) (KAck c s) a Hs Ha) as [Ho _].
  assert (stored w (KAck c s) (DCommitment v)) by by exists a.
  exists p, ack, v. split_and!; auto.
Qed.

(** In every reachable state the router owns every account at its
    protocol addresses, each is rent-funded, and each holds data of its kind:
    a client is stored under its own, valid identifier with a non-empty Merkle
    prefix, an application under its own, valid port of at most 32 bytes. *)
Theorem router_registries_wf w K a :
  r_reachable w -> key_typed K -> w_accts w !! rk K = Some a ->
  acc_owner a = ROUTER_ID /\ 0 < lam w (rk K) /\ data_ok K (acc_data a).
Proof.
  intros Hr HK Ha. destruct (reachable_view_ok w Hr) as [Hok Hf].
  destruct (Hok K a HK Ha) as [? ?]. split_and!; [done| |done].
  destruct (Hf K HK); [congruence|done].
Qed.

(** C39: No account of the router changes without the right authority: the
    state is created by the program's upgrade authority, paused and unpaused
    by holders of those roles, and its access manager replaced only by the
    pending one, with the consent of an administrator of the new one;
    applications and clients are registered by an identifier customiser,
    clients migrated by an administrator and applications never changed;
    commitments are created by the registered application of the port and
    cleared by relayers, who also write receipts and acknowledgements, on a
    router that is not paused.  Nothing is ever deleted. *)
Theorem router_changes_authorized cx ix w w' K :
  running cx ROUTER_ID -> ix_typed ix -> exec_router cx ix w = Ok ((), w') ->
  key_typed K -> data_at w' K <> data_at w K ->
  change_authorized cx w K (data_at w K) (data_at w' K).
Proof.
  intros Hrun Hty Hx HK Hne.
  apply exec_router_refines in Hx as (ch & l & [_ Ht] & Hev & Hst & _); [|done..].
  destruct (view_at_step _ _ _ _ K Hev Hst HK) as [(d & a & Hin & Ha & _ & Hd)|[_ E]].
  - rewrite (data_at_stored _ _ _ (Hst K d Hin)) in *. eapply r_trans_authorized; [exact Ht|done|congruence].
  - exfalso. apply Hne. unfold data_at. by rewrite E.
Qed.

(** The access manager of the router changes hands in two steps.  In
    every reachable state the proposals, acceptances and cancellations in the
    router's log alternate: a transfer is proposed only while none is open,
    and accepted or cancelled only while exactly that transfer is open; and
    the pending field of the state is the transfer the log leaves open. *)
Theorem access_manager_handover_two_step w :
  r_reachable w ->
  (forall l1 e l2, own_log ROUTER_ID w = l1 ++ e :: l2 -> settles_transfer l1 e) /\
  (forall rs, stored w KState (DRouterState rs) -> open_transfer (own_log ROUTER_ID w) = transfer_of rs).
Proof.
  intros Hr. destruct (reachable_transfers w Hr) as [_ I2 I3]. split; [done|].
  intros rs (a & Ha & _ & Hd). by eapply I2.
Qed.

(** While the router is paused no packet moves: sending, receiving,
    acknowledging and timing out all fail, an instruction that succeeds calls
    no light client and no application, and leaves every commitment, receipt
    and acknowledgement as it is. *)
Theorem paused_router_moves_no_packet cx ix w w' rs :
  running cx ROUTER_ID -> ix_typed ix -> exec_router cx ix w = Ok ((), w') ->
  stored w KState (DRouterState rs) -> rs_paused rs = true ->
  is_packet_ix ix = false /\
  (exists l, own_log ROUTER_ID w' = own_log ROUTER_ID w ++ l /\
     Forall (fun e => is_invoke e = false) l) /\
  (forall K, key_typed K -> is_packet_key K = true -> w_accts w' !! rk K = w_accts w !! rk K).
Proof.
  intros Hrun Hty Hx Hs Hp.
  apply exec_router_refines in Hx as (ch & l & [Hperf Ht] & Hev & _); [|done..].
  destruct (r_trans_paused _ _ _ _ _ Ht Hs Hp) as [Hch Hl]. split_and!.
  - destruct ix; try done; exfalso; simpl in Hperf.
    + destruct Hperf as (prog & dest & ->). by apply Forall_cons in Hl as [? _].
    + destruct Hperf as (p & proof & prog & path & _ & [->|(app & m & ack & ->)]);
        by apply Forall_cons in Hl as [? _].
    + destruct Hperf as (p & vm & app & m & _ & _ & ->). by do 2 apply Forall_cons in Hl as [? Hl].
    + destruct Hperf as (p & vm & app & m & _ & ->). by do 2 apply Forall_cons in Hl as [? Hl].
  - exists l. split; [apply (ev_log _ _ _ _ Hev)|done].
  - intros K HK Hpk. apply (ev_same _ _ _ _ Hev); [done|]. intros Hin.
    apply list_elem_of_fmap in Hin as (x & -> & Hin). rewrite Forall_forall in Hch.
    specialize (Hch x Hin). simpl in Hch. congruence.
Qed.

(** Cleaning up chunks moves their rent to the relayer and loses
    nothing: over any set of accounts with the relayer and the chunks, the sum
    of the lamports is the same before and after; the chunks named by the
    message, all at addresses derived from the relayer's own key, end with
    zeroed data and no lamport, and no other account changes. *)
Theorem cleanup_conserves_lamports cx acc msg w w' :
  running cx ROUTER_ID -> cleanup_chunks cx acc msg w = Ok ((), w') ->
  let relayer := cu_relayer acc in
  let keys := (fun s => pda_key s ROUTER_ID) <$> cleanup_seeds relayer msg in
  relayer ∈ cx_signers cx /\
  Forall (fun k => holds w' k DZeroed /\ lam w' k = 0) keys /\
  (forall k, k ∉ keys -> w_accts w' !! k = w_accts w !! k) /\
  (forall k, k ∉ keys -> k <> relayer -> lam w' k = lam w k) /\
  (forall X, NoDup X -> relayer ∈ X -> keys ⊆ X -> zsum (lam w') X = zsum (lam w) X).
Proof.
  intros Hrun Hx. unfold cleanup_chunks in Hx. rinv.
  match goal with Hq : require_role _ _ _ _ _ _ _ = Ok _ |- _ =>
    apply require_role_Ok in Hq as (-> & Hsig & _); [|done] end.
  by apply cleanup_from_Ok in Hx as (_ & ? & ? & ? & ?).
Qed.

End Theorems.
