(* ===== verification/RouterExample.v ===== *)
(** * A run of the router

    A concrete ledger and a history on it: the router is initialised, a light
    client and an application are registered, packets are sent, received,
    acknowledged and timed out, chunks are uploaded, assembled and cleaned up,
    the router is paused and its access manager handed over.  It shows that
    the hypotheses of the theorems about the router can hold. *)

From S2P Require Import Prelude Errors Types Runtime Toy Ics24 Cpi AccessManager AccessManagerSpec Keyed.
From S2P Require Import Chunking Router ChunkingSpec RouterSpec RouterProps.
From Stdlib Require Import ZArith Lia.
From Stdlib.Strings Require Import Byte.
From stdpp Require Import prelude strings gmap list.

#[local] Open Scope Z_scope.

Module RouterExample.

Definition key (n : Z) : Pubkey := pubkey_of_Z (2 ^ 248 + n).
Definition admin : Pubkey := key 1.
Definition deployer : Pubkey := key 2.
Definition relayer : Pubkey := key 3.
Definition lc : Pubkey := key 4.
Definition lc_state : Pubkey := key 5.
Definition lc_cons : Pubkey := key 6.
Definition app : Pubkey := key 7.
Definition manager2 : Pubkey := key 8.
Definition program_data : Pubkey := key 9.

(** A light client that is active and accepts every proof, at a counterparty
    time of 1700009000, and an application that acknowledges with one byte. *)
Definition answer (prog : Pubkey) (ix : CpiIx) : option bytes :=
  if bool_decide (prog = lc) then
    match ix with
    | IxClientStatus => Some [ClientStatus_to_u8 Active]
    | IxVerifyMembership _ => Some []
    | IxVerifyNonMembership _ => Some (u64_to_le_bytes 1700009000)
    | _ => None
    end
  else if bool_decide (prog = app) then Some [x01] else None.

#[local] Instance platform : Platform := toy_platform (answering answer).
#[local] Instance platform_ok : PlatformOk := answering_ok answer.
#[local] Instance router_deployed : RouterDeployed.
Proof. intros cx metas ix w _. by vm_compute. Qed.

Definition client : bytes := bs "cosmoshub".
Definition counterparty : bytes := bs "07-svm-0".
Definition port : bytes := bs "transfer".

Definition am_key (program : Pubkey) : Pubkey := pda_key [AccessManager_SEED] program.
Definition router_program_data : Pubkey := pda_key [ROUTER_ID] BPF_LOADER_UPGRADEABLE_ID.
Definition app_state : Pubkey := pda_key [IBCAppState_SEED] app.

Definition registry_of (a : Pubkey) : AccessManager := mkAccessManager
  [mkRoleData ADMIN_ROLE [a]; mkRoleData RELAYER_ROLE [relayer];
   mkRoleData ID_CUSTOMIZER_ROLE [admin]; mkRoleData PAUSER_ROLE [admin]] [] [].

Definition w0 : World := mkWorld
  (<[router_program_data := mkAccount BPF_LOADER_UPGRADEABLE_ID (DProgramData (Some deployer)) 100 false]>
  (<[am_key ACCESS_MANAGER_ID := mkAccount ACCESS_MANAGER_ID (DAccessManager (registry_of admin)) 1000 false]>
  (<[am_key manager2 := mkAccount manager2 (DAccessManager (registry_of relayer)) 1000 false]>
  (<[lc_state := mkAccount lc DZeroed 100 false]>
  (<[lc_cons := mkAccount lc DZeroed 100 false]>
  (<[app := mkAccount BPF_LOADER_UPGRADEABLE_ID DZeroed 100 true]>
  (<[app_state := mkAccount app DZeroed 100 false]> ∅)))))))
  (<[deployer := 1000000%N]> (<[admin := 1000000%N]> {[relayer := 1000000%N]}))
  1700000000 None [].

Definition chunk (i : Z) : Pubkey := payload_chunk_key relayer client 7 0 i.

Definition cx : CallCtx := mkCallCtx [ROUTER_ID] {[admin; deployer; relayer]}
  (list_to_set [rk KState; rk (KClient client); rk (KApp port); rk (KCommit client 1); rk (KCommit client 2);
    rk (KReceipt client 1); rk (KAck client 1); admin; deployer; relayer; app_state; chunk 0; chunk 1]).

(** The application calls the router to send, with its signature. *)
Definition app_cx : CallCtx := mkCallCtx [app; ROUTER_ID] {[admin; app_state]} (cx_writable cx).
Definition cx_of (ix : RouterIx) : CallCtx :=
  match ix with RSendPacket _ _ => app_cx | _ => cx end.

Definition lc_accs : LcAccounts := mkLcAccounts lc lc_state lc_cons.
Definition pause_accs (am auth : Pubkey) : PauseAccounts :=
  mkPauseAccounts (rk KState) (am_key am) auth INSTRUCTIONS_SYSVAR_ID.
Definition packet_accs (s : Z) : PacketAccounts := mkPacketAccounts (rk KState)
  (am_key ACCESS_MANAGER_ID) (rk (KApp port)) (rk (KReceipt client s)) (rk (KAck client s))
  (rk (KCommit client s)) app app_state relayer SYSTEM_PROGRAM_ID INSTRUCTIONS_SYSVAR_ID
  (rk (KClient client)) lc_accs [].

Definition payload : Payload := mkPayload port port (bs "v1") (bs "json") (bs "hello").
Definition msg_payload : MsgPayload := mkMsgPayload port port (bs "v1") (bs "json") (Inline (bs "hello")).
Definition proof : MsgProof := mkMsgProof 10 (Inline (bs "proof")).
Definition sent (s : Z) : MsgPacket := mkMsgPacket s client counterparty 1700003600 [msg_payload].

Definition send (s : Z) : RouterIx := RSendPacket
  (mkSendAccounts (rk KState) (rk (KApp port)) (rk (KCommit client s)) app_state admin
     SYSTEM_PROGRAM_ID (rk (KClient client)) lc_accs)
  (mkMsgSendPacket client s 1700003600 payload).
Definition recv : RouterIx := RRecvPacket (packet_accs 1)
  (mkMsgRecvPacket (mkMsgPacket 1 counterparty client 1700003600 [msg_payload]) proof).

Definition setup : list RouterIx :=
  [RInitialize (mkRInitializeAccounts (rk KState) deployer SYSTEM_PROGRAM_ID router_program_data
     deployer) ACCESS_MANAGER_ID;
   RAddClient (mkAddClientAccounts admin (rk KState) (am_key ACCESS_MANAGER_ID) (rk (KClient client))
     lc SYSTEM_PROGRAM_ID INSTRUCTIONS_SYSVAR_ID) client (mkCounterpartyInfo counterparty [bs "ibc"; []]);
   RAddIbcApp (mkAddIbcAppAccounts (rk KState) (am_key ACCESS_MANAGER_ID) (rk (KApp port)) app admin
     admin SYSTEM_PROGRAM_ID INSTRUCTIONS_SYSVAR_ID) port].

Definition traffic : list RouterIx :=
  [send 1; recv; RAckPacket (packet_accs 1) (mkMsgAckPacket (sent 1) [x01] proof);
   send 2; RTimeoutPacket (packet_accs 2) (mkMsgTimeoutPacket (sent 2) proof)].

Definition handover : list RouterIx :=
  [RProposeAccessManagerTransfer (pause_accs ACCESS_MANAGER_ID admin) manager2;
   RAcceptAccessManagerTransfer (pause_accs manager2 relayer)].

Fixpoint run_all (ixs : list RouterIx) (w : World) : World :=
  match ixs with
  | [] => w
  | ix :: ixs => run_all ixs (run_tx (exec_router (cx_of ix) ix) w)
  end.

Fixpoint runs_all (ixs : list RouterIx) (w : World) : bool :=
  match ixs with
  | [] => true
  | ix :: ixs => is_ok (exec_router (cx_of ix) ix w) && runs_all ixs (run_tx (exec_router (cx_of ix) ix) w)
  end.

Lemma router_runs : running cx ROUTER_ID.
Proof. apply toy_running. by vm_compute. Qed.

Lemma router_runs_of ix : running (cx_of ix) ROUTER_ID.
Proof. destruct ix; try exact router_runs. apply toy_running. by vm_compute. Qed.

Lemma run_all_reachable ixs w :
  r_reachable w -> Forall ix_typed ixs -> runs_all ixs w = true -> r_reachable (run_all ixs w).
Proof.
  revert w. induction ixs as [|ix ixs IH]; intros w Hr Ht Hx; [done|].
  apply Forall_cons in Ht as [Ht Hts]. simpl in Hx. apply andb_true_iff in Hx as [Hx Hxs].
  apply IH; [|done|done]. eapply (r_reachable_step (cx_of ix) ix w); [exact Hr|apply router_runs_of|exact Ht|by apply run_tx_Ok].
Qed.

Definition w1 : World := run_all setup w0.
Definition w2 : World := run_all traffic w1.
Definition w3 : World := run_all handover w2.

(** The protocol's addresses are neither keys nor addresses of others. *)
Lemma rk_head K : head (rk K) = Some xfd.
Proof. by destruct K. Qed.

Lemma rk_not_key k K : head k <> Some xfd -> k <> rk K.
Proof. intros Hk ->. apply Hk, rk_head. Qed.

Lemma rk_not_pda seeds program K : program <> ROUTER_ID -> pda_key seeds program <> rk K.
Proof. by intros Hp [_ E]%pda_inj. Qed.

Lemma state1_reachable : r_reachable w1.
Proof.
  apply run_all_reachable; [|by repeat constructor|by vm_compute].
  apply reach_start; [|by vm_compute]. intros K _. unfold w0. cbn [w_accts].
  assert (forall seeds program, bool_decide (program = ROUTER_ID) = false ->
    pda_key seeds program <> rk K) as Hp by (intros ? ? ?%bool_decide_eq_false; by apply rk_not_pda).
  assert (forall k, bool_decide (head k = Some xfd) = false -> k <> rk K) as Hk
    by (intros ? ?%bool_decide_eq_false; by apply rk_not_key).
  rewrite !lookup_insert_ne; [apply lookup_empty|..];
    first [apply Hp; by vm_compute|apply Hk; by vm_compute].
Qed.

Lemma state2_reachable : r_reachable w2.
Proof.
  apply run_all_reachable; [apply state1_reachable|by repeat constructor|by vm_compute].
Qed.

Lemma state3_reachable : r_reachable w3.
Proof.
  apply run_all_reachable; [apply state2_reachable|by repeat constructor|by vm_compute].
Qed.

(** What an account of the protocol holds, by evaluation. *)
Definition holds_b (w : World) (K : RouterKey) (p : AccountData -> bool) : bool :=
  match w_accts w !! rk K with
  | Some a => bool_decide (acc_owner a = ROUTER_ID) && p (acc_data a)
  | None => false
  end.

Lemma holds_b_stored w K p :
  holds_b w K p = true -> exists d, stored w K d /\ p d = true.
Proof.
  unfold holds_b, held. destruct (w_accts w !! rk K) as [a|]; [|done].
  intros [Ho%bool_decide_eq_true Hp]%andb_true_iff. eauto 10.
Qed.

Definition commitment_at (w : World) (K : RouterKey) : bytes :=
  match acc_data <$> w_accts w !! rk K with Some (DCommitment v) => v | _ => [] end.
Definition is_commitment (v : bytes) (d : AccountData) : bool :=
  match d with DCommitment v' => bool_decide (v' = v) | _ => false end.

Lemma stored_commitment_at w K :
  holds_b w K (is_commitment (commitment_at w K)) = true ->
  stored w K (DCommitment (commitment_at w K)).
Proof.
  intros (d & Hs & Hd)%holds_b_stored. destruct d; try done.
  simpl in Hd. apply bool_decide_eq_true in Hd. by subst.
Qed.

Definition state_at (w : World) : RouterState :=
  match acc_data <$> w_accts w !! rk KState with
  | Some (DRouterState rs) => rs
  | _ => mkRouterState V1 (AccessManagerState_new []) false
  end.

Lemma stored_state_at w :
  holds_b w KState (fun d => match d with DRouterState _ => true | _ => false end) = true ->
  stored w KState (DRouterState (state_at w)).
Proof.
  intros (d & (a & Ha & Ho & Hd) & Hp)%holds_b_stored. exists a. split_and!; [done|done|].
  unfold state_at. rewrite Ha. simpl. rewrite Hd. by destruct d.
Qed.

(** ** Witnesses *)

Lemma one_u64 : is_u64 1.
Proof. done. Qed.

Lemma router_instructions_refine_spec_witness :
  exists ch l, performs recv ch l /\ r_trans cx (run_all [send 1] w1) ch l /\ l <> [].
Proof.
  destruct (router_instructions_refine_spec cx recv (run_all [send 1] w1)
    (run_all [send 1; recv] w1) router_runs ltac:(done) ltac:(apply run_tx_Ok; by vm_compute))
    as (ch & l & Hp & Ht & _).
  exists ch, l. split; [exact Hp|]. split; [exact Ht|].
  destruct Hp as (p & pr & prog & path & _ & [->|(a & m & ack & ->)]); discriminate.
Defined.

Lemma packets_settled_once_witness :
  count (is_settlement_of client 1) (own_log ROUTER_ID w2) = 1%nat /\
  count (is_settlement_of client 2) (own_log ROUTER_ID w2) = 1%nat /\
  (count (is_send client 1) (own_log ROUTER_ID w2) <= 1)%nat.
Proof.
  split; [by vm_compute|]. split; [by vm_compute|].
  exact (proj1 (packets_settled_once w2 client 1 one_u64 state2_reachable)).
Defined.

Definition delivery : LogEntry := LInvoke ROUTER_ID app
  (IxOnRecvPacket (mkOnRecvPacketMsg counterparty client 1 payload relayer)).
Definition before : list LogEntry := take 5 (own_log ROUTER_ID w2).
Definition after : list LogEntry := drop 6 (own_log ROUTER_ID w2).

Lemma packets_delivered_once_witness : delivers_verified client 1 before delivery.
Proof.
  assert (is_delivery client 1 delivery = true) as Hd.
  { unfold delivery, is_delivery. by apply bool_decide_eq_true. }
  assert (own_log ROUTER_ID w2 = before ++ delivery :: after) as E by by vm_compute.
  exact (packets_delivered_once w2 client 1 one_u64 state2_reachable before delivery after E Hd).
Defined.

Definition r1 : bytes := commitment_at w2 (KReceipt client 1).

(** A second relay of the received packet is a no-op. *)
Lemma receipts_and_acks_final_witness :
  stored (run_all [recv] w2) (KReceipt client 1) (DCommitment r1).
Proof.
  refine (proj1 (receipts_and_acks_final cx recv w2 (run_all [recv] w2) client 1 r1 one_u64
    state2_reachable router_runs ltac:(done) _ _ _)).
  - apply run_tx_Ok. by vm_compute.
  - apply stored_commitment_at. by vm_compute.
  - by vm_compute.
Defined.

Lemma router_registries_wf_witness :
  exists a, w_accts w3 !! rk (KClient client) = Some a /\ 0 < lam w3 (rk (KClient client)) /\
    data_ok (KClient client) (acc_data a).
Proof.
  destruct (holds_b_stored w3 (KClient client) (fun _ => true) ltac:(by vm_compute))
    as (d & (a & Ha & _ & _) & _).
  destruct (router_registries_wf w3 (KClient client) a state3_reachable I Ha) as (_ & Hl & Hd).
  exists a. exact (conj Ha (conj Hl Hd)).
Defined.

Definition w_proposed : World := run_all [nth 0 handover recv] w2.

Lemma router_changes_authorized_witness :
  change_authorized cx w_proposed KState (data_at w_proposed KState)
    (data_at (run_all [nth 1 handover recv] w_proposed) KState).
Proof.
  apply (router_changes_authorized cx (nth 1 handover recv) w_proposed _ KState router_runs ltac:(done)).
  - apply run_tx_Ok. by vm_compute.
  - done.
  - by vm_compute.
Defined.

Lemma access_manager_handover_two_step_witness :
  open_transfer (own_log ROUTER_ID w3) = transfer_of (state_at w3) /\
  ams_access_manager (rs_am_state (state_at w3)) = manager2.
Proof.
  split; [|by vm_compute].
  apply (proj2 (access_manager_handover_two_step w3 state3_reachable)).
  apply stored_state_at. by vm_compute.
Defined.

Definition w_paused : World := run_all [RPause (pause_accs ACCESS_MANAGER_ID admin)] w2.

Lemma paused_router_moves_no_packet_witness :
  is_ok (exec_router cx recv w_paused) = false /\
  w_accts (run_all [nth 0 handover recv] w_paused) !! rk (KCommit client 2) =
    w_accts w_paused !! rk (KCommit client 2).
Proof.
  split; [by vm_compute|].
  refine (proj2 (proj2 (paused_router_moves_no_packet cx (nth 0 handover recv) w_paused
    (run_all [nth 0 handover recv] w_paused) (state_at w_paused) router_runs ltac:(done) _ _ _))
    (KCommit client 2) ltac:(done) eq_refl).
  - apply run_tx_Ok. by vm_compute.
  - apply stored_state_at. by vm_compute.
  - by vm_compute.
Defined.

(** ** Chunks *)

Definition two_chunks : list bytes := [bs "hel"; bs "lo"].
Definition upload : M unit :=
  upload_all cx (rk KState) (am_key ACCESS_MANAGER_ID) relayer client 7 0 two_chunks 0.
Definition w_chunks : World := run_tx upload w2.
Definition assemble : M bytes := assemble_single_payload_chunks cx [chunk 0; chunk 1] relayer client 7 0 2 0.

Definition run_value {A} (m : M A) (d : A) (w : World) : A * World :=
  match m w with Ok r => r | Err _ => (d, w) end.

Lemma run_value_Ok {A} (m : M A) d w :
  is_ok (m w) = true -> m w = Ok (fst (run_value m d w), snd (run_value m d w)).
Proof. unfold run_value. by destruct (m w) as [[]|]. Qed.

Definition assembled : bytes * World := run_value assemble [] w_chunks.

Lemma assemble_runs : assemble w_chunks = Ok (fst assembled, snd assembled).
Proof. exact (run_value_Ok assemble [] w_chunks ltac:(by vm_compute)). Qed.

Lemma payload_assembly_sound_witness :
  fst assembled = bs "hello" /\ is_ok (assemble (snd assembled)) = false.
Proof.
  split; [by vm_compute|].
  exact (proj2 (proj2 (payload_assembly_sound cx [chunk 0; chunk 1] relayer client 7 0 2 0 w_chunks
    (fst assembled) (snd assembled) ltac:(done) assemble_runs)) ltac:(done) cx [chunk 0; chunk 1] 0%nat).
Defined.

Lemma upload_assemble_roundtrip_witness :
  exists w', assemble_single_payload_chunks cx [chunk 0; chunk 1] relayer client 7 0
    (Z.of_nat (length two_chunks)) 0 w_chunks = Ok (concat two_chunks, w').
Proof.
  apply (upload_assemble_roundtrip cx (rk KState) (am_key ACCESS_MANAGER_ID) relayer client 7 0
    two_chunks w2 w_chunks cx [chunk 0; chunk 1] 0).
  - done.
  - simpl. lia.
  - apply run_tx_Ok. by vm_compute.
  - simpl. lia.
  - done.
  - apply Forall_forall. intros k Hk. unfold payload_chunk_keys in Hk. simpl in Hk.
    unfold cx. cbn [cx_writable]. apply elem_of_list_to_set. unfold chunk. set_solver.
Defined.

Definition cleanup_accs : CleanupAccounts := mkCleanupAccounts (rk KState) (am_key ACCESS_MANAGER_ID)
  relayer INSTRUCTIONS_SYSVAR_ID [chunk 0; chunk 1].
Definition cleanup_msg : MsgCleanupChunks := mkMsgCleanupChunks client 7 [2] 0.

Lemma cleanup_conserves_lamports_witness :
  zsum (lam (run_tx (cleanup_chunks cx cleanup_accs cleanup_msg) w_chunks)) [relayer; chunk 0; chunk 1] =
  zsum (lam w_chunks) [relayer; chunk 0; chunk 1].
Proof.
  refine (proj2 (proj2 (proj2 (proj2 (cleanup_conserves_lamports cx cleanup_accs cleanup_msg w_chunks _
    router_runs (run_tx_Ok _ _ _))))) _ _ _ _); [by vm_compute| | |].
  - apply (bool_decide_unpack (NoDup [relayer; chunk 0; chunk 1])). by vm_compute.
  - apply list_elem_of_here.
  - intros k Hk. right. exact Hk.
Defined.

End RouterExample.
