(* ===== verification/GmpTypes.v ===== *)
(** * GMP messages

    The data layer of the ICS27 general message passing program: the
    length-constrained strings of [packages/constrained_types], the validated
    packet and payload types of [packages/solana-ibc-proto], their two wire
    encodings ([programs/ics27-gmp/src/encoding.rs], [abi.rs] and
    [gmp_solana_payload.rs]) and the derivation of a sender's account
    ([packages/solana-ibc-gmp-types]).

    The protobuf and ABI codecs and the base58 text form of a public key are
    third-party code: the parameter [GmpLib], with [GmpLibOk] stating that
    decoding undoes encoding. *)

From S2P Require Import Prelude Errors Types Runtime Ics24.
From Stdlib Require Import ZArith Lia.
From Stdlib.Strings Require Import Byte.
From stdpp Require Import prelude strings list.

#[local] Open Scope Z_scope.

(** ** [packages/constrained_types/src/lib.rs] *)

Inductive ConstrainedError := TooShort | TooLong | Empty_.

(** [ConstrainedString::new], [ConstrainedVec::new] and [ConstrainedBytes::new]:
    the wrapper holds the value it was given. *)
Definition Constrained_new {A} (MIN MAX : nat) (s : list A) : result ConstrainedError (list A) :=
  let len := length s in
  if bool_decide (len = 0%nat) && (0 <? MIN)%nat then Err Empty_
  else if (len <? MIN)%nat then Err TooShort
  else if (MAX <? len)%nat then Err TooLong
  else Ok s.

(** [NonEmpty::new]. *)
Definition NonEmpty_new {A} (s : list A) : result ConstrainedError (list A) :=
  match s with [] => Err Empty_ | _ => Ok s end.

Lemma Constrained_new_Ok {A} MIN MAX (s t : list A) :
  Constrained_new MIN MAX s = Ok t <-> t = s /\ (MIN <= length s <= MAX)%nat.
Proof.
  unfold Constrained_new.
  destruct (Nat.ltb_spec 0 MIN), (Nat.ltb_spec (length s) MIN), (Nat.ltb_spec MAX (length s));
    case_bool_decide; simpl; split; try done; try lia; intros; naive_solver lia.
Qed.

Lemma NonEmpty_new_Ok {A} (s t : list A) : NonEmpty_new s = Ok t <-> t = s /\ s <> [].
Proof. unfold NonEmpty_new. destruct s; naive_solver. Qed.

(** ** [packages/solana-ibc-proto/src/lib.rs] *)

Definition GMP_MAX_CLIENT_ID_LENGTH : nat := 32.
Definition MAX_SENDER_LENGTH : nat := 128.
Definition MAX_RECEIVER_LENGTH : nat := 128.
Definition MAX_SALT_LENGTH : nat := 32.
Definition MAX_MEMO_LENGTH : nat := 256.
Definition MAX_GMP_SOLANA_PAYLOAD_ACCOUNTS : nat := 32.

Definition ClientId_new (s : bytes) := Constrained_new 1 GMP_MAX_CLIENT_ID_LENGTH s.
Definition Salt_new (s : bytes) := Constrained_new 0 MAX_SALT_LENGTH s.
Definition Sender_new (s : bytes) := Constrained_new 1 MAX_SENDER_LENGTH s.
Definition Receiver_new (s : bytes) := Constrained_new 0 MAX_RECEIVER_LENGTH s.
Definition Memo_new (s : bytes) := Constrained_new 0 MAX_MEMO_LENGTH s.

(** The generated [RawGmpPacketData] and the validated [GmpPacketData] have
    the same fields; validation only refuses values. *)
Record GmpPacketData := mkGmpPacketData {
  gpd_sender : bytes;
  gpd_receiver : bytes;
  gpd_salt : bytes;
  gpd_payload : bytes;
  gpd_memo : bytes }.

(** [GMPPacketError] and [GmpValidationError] of [errors.rs]. *)
Inductive GMPPacketError :=
| PktDecodeError | PktInvalidSender | PktInvalidReceiver | PktInvalidSalt | PktEmptyPayload
| PktInvalidPayload | PktMemoTooLong.
Inductive GmpValidationError :=
| ValDecodeError | ValInvalidProgramId | ValEmptyPayload | ValTooManyAccounts | ValInvalidAccountKey.

(** [impl TryFrom<RawGmpPacketData> for GmpPacketData]. *)
Definition GmpPacketData_try_from (raw : GmpPacketData) : result GMPPacketError GmpPacketData :=
  sender ← map_err (fun _ => PktInvalidSender) (Sender_new (gpd_sender raw));
  receiver ← map_err (fun _ => PktInvalidReceiver) (Receiver_new (gpd_receiver raw));
  salt ← map_err (fun _ => PktInvalidSalt) (Salt_new (gpd_salt raw));
  payload ← map_err (fun _ => PktEmptyPayload) (NonEmpty_new (gpd_payload raw));
  memo ← map_err (fun _ => PktMemoTooLong) (Memo_new (gpd_memo raw));
  Ok (mkGmpPacketData sender receiver salt payload memo).

(** Accounts of a payload: the raw form has keys of any length. *)
Record GmpSolanaPayload := mkGmpSolanaPayload {
  gsp_data : bytes;
  gsp_accounts : list AccountMeta;
  gsp_prefund_lamports : Z }.

(** [Pubkey::try_from(&[u8])]. *)
Definition pubkey_try_from (b : bytes) : option Pubkey :=
  if bool_decide (length b = 32%nat) then Some b else None.

(** [impl TryFrom<RawGmpSolanaPayload> for GmpSolanaPayload]. *)
Definition GmpSolanaPayload_try_from (raw : GmpSolanaPayload)
    : result GmpValidationError GmpSolanaPayload :=
  if bool_decide (gsp_data raw = []) then Err ValEmptyPayload
  else if (MAX_GMP_SOLANA_PAYLOAD_ACCOUNTS <? length (gsp_accounts raw))%nat
  then Err ValTooManyAccounts
  else
    accounts ← ok_or (mapM (fun m =>
        k ← pubkey_try_from (meta_pubkey m);
        Some (mkAccountMeta k (meta_is_signer m) (meta_is_writable m))) (gsp_accounts raw))
      ValInvalidAccountKey;
    Ok (mkGmpSolanaPayload (gsp_data raw) accounts (gsp_prefund_lamports raw)).

Definition to_account_metas (p : GmpSolanaPayload) : list AccountMeta := gsp_accounts p.

(** The ABI form of a payload packs its accounts into one string. *)
Record GmpSolanaPayloadAbi := mkGmpSolanaPayloadAbi {
  gpa_packed_accounts : bytes;
  gpa_instruction_data : bytes;
  gpa_prefund_lamports : Z }.

(** ** Third-party codecs *)

Class GmpLib := {
  pubkey_to_string : Pubkey -> bytes;
  pubkey_from_str : bytes -> option Pubkey;
  proto_encode_packet : GmpPacketData -> bytes;
  proto_decode_packet : bytes -> option GmpPacketData;
  abi_encode_gmp_packet : GmpPacketData -> bytes;
  abi_decode_gmp_packet : bytes -> option GmpPacketData;
  proto_encode_ack : bytes -> bytes;
  proto_decode_ack : bytes -> option bytes;
  abi_encode_ack : bytes -> bytes;
  abi_decode_ack : bytes -> option bytes;
  proto_encode_payload : GmpSolanaPayload -> bytes;
  proto_decode_payload : bytes -> option GmpSolanaPayload;
  abi_decode_payload : bytes -> option GmpSolanaPayloadAbi }.

(** Decoding undoes encoding; a key in base58 has 32 to 44 characters; a
    protobuf message with a non-empty field is not the empty string, and an
    ABI-encoded struct never is. *)
Class GmpLibOk `{GmpLib} : Prop := {
  pubkey_string_roundtrip k : length k = 32%nat -> pubkey_from_str (pubkey_to_string k) = Some k;
  pubkey_string_length k : length k = 32%nat -> (32 <= length (pubkey_to_string k) <= 44)%nat;
  proto_packet_roundtrip d : proto_decode_packet (proto_encode_packet d) = Some d;
  abi_packet_roundtrip d : abi_decode_gmp_packet (abi_encode_gmp_packet d) = Some d;
  proto_ack_roundtrip r : proto_decode_ack (proto_encode_ack r) = Some r;
  proto_ack_nonempty r : r <> [] -> proto_encode_ack r <> [];
  abi_ack_roundtrip r : abi_decode_ack (abi_encode_ack r) = Some r;
  abi_ack_nonempty r : abi_encode_ack r <> [];
  proto_payload_roundtrip p : proto_decode_payload (proto_encode_payload p) = Some p }.

(** ** [programs/ics27-gmp/src/constants.rs] *)

Definition GMP_PORT_ID : bytes := Eval vm_compute in bs "gmpport".
Definition ICS27_VERSION : bytes := Eval vm_compute in bs "ics27-2".
Definition ICS27_ENCODING_PROTOBUF : bytes := Eval vm_compute in bs "application/x-protobuf".
Definition ICS27_ENCODING_ABI : bytes := Eval vm_compute in bs "application/x-solidity-abi".
Definition GMP_MAX_TIMEOUT_DURATION : Z := 86400.
Definition GMP_MIN_TIMEOUT_DURATION : Z := 10.

(** ** [programs/ics27-gmp/src/abi.rs] *)

Definition PACKED_ACCOUNT_SIZE : nat := 34.

Definition parse_bool_byte (b : byte) : result GmpErr.GMPError bool :=
  match b with
  | x00 => Ok false
  | x01 => Ok true
  | _ => Err GmpErr.InvalidAbiEncoding
  end.

(** One chunk: a key, then the two flags. *)
Definition parse_packed_account (chunk : bytes) : result GmpErr.GMPError AccountMeta :=
  is_signer ← parse_bool_byte (nth 32 chunk x00);
  is_writable ← parse_bool_byte (nth 33 chunk x00);
  Ok (mkAccountMeta (take 32 chunk) is_signer is_writable).

(** [chunks_exact(34)] with an empty remainder. *)
Fixpoint parse_packed_accounts (fuel : nat) (packed : bytes)
    : result GmpErr.GMPError (list AccountMeta) :=
  match fuel, packed with
  | _, [] => Ok []
  | O, _ => Err GmpErr.InvalidAbiEncoding
  | S fuel, _ =>
      if (length packed <? PACKED_ACCOUNT_SIZE)%nat then Err GmpErr.InvalidAbiEncoding
      else
        m ← parse_packed_account (take PACKED_ACCOUNT_SIZE packed);
        rest ← parse_packed_accounts fuel (drop PACKED_ACCOUNT_SIZE packed);
        Ok (m :: rest)
  end.

(** [impl TryFrom<GmpSolanaPayloadAbi> for RawGmpSolanaPayload]; the remainder
    is tested before any chunk is read. *)
Definition GmpSolanaPayloadAbi_try_into (abi : GmpSolanaPayloadAbi)
    : result GmpErr.GMPError GmpSolanaPayload :=
  let packed := gpa_packed_accounts abi in
  if negb (Nat.eqb (Nat.modulo (length packed) PACKED_ACCOUNT_SIZE) 0)
  then Err GmpErr.InvalidAbiEncoding
  else
    accounts ← parse_packed_accounts (length packed) packed;
    Ok (mkGmpSolanaPayload (gpa_instruction_data abi) accounts (gpa_prefund_lamports abi)).

(** The inverse packing, as the sending side lays it out. *)
Definition pack_account (m : AccountMeta) : bytes :=
  meta_pubkey m ++ [if meta_is_signer m then x01 else x00; if meta_is_writable m then x01 else x00].

Lemma parse_pack_account m rest :
  length (meta_pubkey m) = 32%nat ->
  parse_packed_account (take PACKED_ACCOUNT_SIZE (pack_account m ++ rest)) = Ok m.
Proof.
  intros Hl. unfold pack_account, parse_packed_account.
  rewrite take_app_length' by (rewrite length_app; simpl; unfold PACKED_ACCOUNT_SIZE; lia).
  rewrite !app_nth2 by lia. rewrite Hl, take_app_length' by done.
  destruct m as [k [] []]; reflexivity.
Qed.

Lemma parse_packed_accounts_S fuel packed :
  packed <> [] ->
  parse_packed_accounts (S fuel) packed =
  if (length packed <? PACKED_ACCOUNT_SIZE)%nat then Err GmpErr.InvalidAbiEncoding
  else
    m ← parse_packed_account (take PACKED_ACCOUNT_SIZE packed);
    rest ← parse_packed_accounts fuel (drop PACKED_ACCOUNT_SIZE packed);
    Ok (m :: rest).
Proof. by destruct packed. Qed.

(** Unpacking undoes packing. *)
Lemma parse_packed_roundtrip fuel l :
  Forall (fun m => length (meta_pubkey m) = 32%nat) l -> (length l <= fuel)%nat ->
  parse_packed_accounts fuel (concat (pack_account <$> l)) = Ok l.
Proof.
  revert l. induction fuel as [|fuel IH]; intros [|m l] Hl Hf; try done; [simpl in Hf; lia|].
  apply Forall_cons in Hl as [Hm Hl]. rewrite fmap_cons, concat_cons.
  assert (length (pack_account m) = 34%nat) as E
    by (unfold pack_account; rewrite length_app; simpl; lia).
  rewrite parse_packed_accounts_S by (intros Eq%(f_equal length); rewrite length_app, E in Eq; done).
  rewrite length_app, E.
  destruct (Nat.ltb_spec (34 + length (concat (pack_account <$> l))) PACKED_ACCOUNT_SIZE);
    [unfold PACKED_ACCOUNT_SIZE in *; lia|].
  rewrite parse_pack_account by done. simpl mbind.
  rewrite drop_app_length' by (rewrite E; done). by rewrite IH by (done || (simpl in Hf; lia)).
Qed.

Section GmpCodec.
Context `{Platform} `{GmpLib}.

Definition decode_abi_to_raw (data : bytes) : result GmpErr.GMPError GmpSolanaPayload :=
  decoded ← ok_or (abi_decode_payload data) GmpErr.InvalidAbiEncoding;
  GmpSolanaPayloadAbi_try_into decoded.

(** ** [encoding.rs] and [gmp_solana_payload.rs] *)

Definition encode_gmp_packet (data : GmpPacketData) (encoding : bytes)
    : result GmpErr.GMPError bytes :=
  if bool_decide (encoding = ICS27_ENCODING_ABI) then Ok (abi_encode_gmp_packet data)
  else if bool_decide (encoding = ICS27_ENCODING_PROTOBUF) then Ok (proto_encode_packet data)
  else Err GmpErr.InvalidEncoding.

Definition decode_gmp_packet (value encoding : bytes) : result GmpErr.GMPError GmpPacketData :=
  if bool_decide (encoding = ICS27_ENCODING_ABI)
  then ok_or (abi_decode_gmp_packet value) GmpErr.InvalidPacketData
  else if bool_decide (encoding = ICS27_ENCODING_PROTOBUF)
  then ok_or (proto_decode_packet value) GmpErr.InvalidPacketData
  else Err GmpErr.InvalidEncoding.

(** [GmpAcknowledgement::PROTOBUF_EMPTY_SENTINEL]. *)
Definition PROTOBUF_EMPTY_SENTINEL : bytes := [x00].

Definition encode_gmp_ack (result : bytes) (encoding : bytes) : Prelude.result GmpErr.GMPError bytes :=
  if bool_decide (encoding = ICS27_ENCODING_ABI) then Ok (abi_encode_ack result)
  else if bool_decide (encoding = ICS27_ENCODING_PROTOBUF)
  then Ok (proto_encode_ack (if bool_decide (result = []) then PROTOBUF_EMPTY_SENTINEL else result))
  else Err GmpErr.InvalidEncoding.

Definition decode_gmp_ack (value encoding : bytes) : result GmpErr.GMPError bytes :=
  if bool_decide (encoding = ICS27_ENCODING_ABI)
  then ok_or (abi_decode_ack value) GmpErr.InvalidPacketData
  else if bool_decide (encoding = ICS27_ENCODING_PROTOBUF)
  then ok_or (proto_decode_ack value) GmpErr.InvalidPacketData
  else Err GmpErr.InvalidEncoding.

(** [gmp_solana_payload::decode_raw]. *)
Definition decode_raw (value encoding : bytes) : result GmpErr.GMPError GmpSolanaPayload :=
  if bool_decide (encoding = ICS27_ENCODING_ABI)
  then map_err (fun _ => GmpErr.InvalidSolanaPayload) (decode_abi_to_raw value)
  else if bool_decide (encoding = ICS27_ENCODING_PROTOBUF)
  then ok_or (proto_decode_payload value) GmpErr.InvalidSolanaPayload
  else Err GmpErr.InvalidEncoding.

(** ** [packages/solana-ibc-gmp-types/src/lib.rs] *)

Record AccountIdentifier := mkAccountIdentifier {
  aid_client_id : bytes;
  aid_sender : bytes;
  aid_salt : bytes }.

Definition borsh_account_identifier (a : AccountIdentifier) : bytes :=
  borsh_bytes (aid_client_id a) ++ borsh_bytes (aid_sender a) ++ borsh_bytes (aid_salt a).

Definition AccountIdentifier_digest (a : AccountIdentifier) : bytes :=
  sha256 (borsh_account_identifier a).

Definition GMPAccount_SEED : bytes := Eval vm_compute in bs "gmp_account".
Definition GMPAppState_SEED : bytes := Eval vm_compute in bs "app_state".
Definition GMPCallResult_SEED : bytes := Eval vm_compute in bs "gmp_result".

Record GMPAccount := mkGMPAccount {
  ga_account_id : AccountIdentifier;
  ga_pda : Pubkey;
  ga_account_bump : Z }.

(** [GMPAccount::new]. *)
Definition GMPAccount_new (client_id sender salt : bytes) (program_id : Pubkey) : GMPAccount :=
  let account_id := mkAccountIdentifier client_id sender salt in
  let '(pda, account_bump) :=
    find_program_address [GMPAccount_SEED; AccountIdentifier_digest account_id] program_id in
  mkGMPAccount account_id pda account_bump.

(** The address of a remote sender's account. *)
Definition gmp_account_key (client_id sender salt : bytes) : Pubkey :=
  pda_key [GMPAccount_SEED; AccountIdentifier_digest (mkAccountIdentifier client_id sender salt)]
    GMP_ID.

Lemma GMPAccount_new_pda c s t : ga_pda (GMPAccount_new c s t GMP_ID) = gmp_account_key c s t.
Proof. unfold GMPAccount_new, gmp_account_key, pda_key. by destruct (find_program_address _ _). Qed.

(** [GMPCallResult::pda]. *)
Definition gmp_result_seeds (source_client : bytes) (sequence : Z) : list bytes :=
  [GMPCallResult_SEED; source_client; u64_to_le_bytes sequence].

(** ** Round trips *)

Lemma packet_encoding_roundtrip `{!GmpLibOk} d enc b :
  encode_gmp_packet d enc = Ok b -> decode_gmp_packet b enc = Ok d.
Proof.
  unfold encode_gmp_packet, decode_gmp_packet. case_bool_decide; [|case_bool_decide; [|done]].
  - intros [= <-]. by rewrite abi_packet_roundtrip.
  - intros [= <-]. by rewrite proto_packet_roundtrip.
Qed.

(** An acknowledgement is never empty, and decodes to the result; an empty
    result in protobuf comes back as the sentinel. *)
Lemma ack_encoding_roundtrip `{!GmpLibOk} r enc b :
  encode_gmp_ack r enc = Ok b ->
  b <> [] /\ (decode_gmp_ack b enc = Ok r \/ (r = [] /\ decode_gmp_ack b enc = Ok PROTOBUF_EMPTY_SENTINEL)).
Proof.
  unfold encode_gmp_ack, decode_gmp_ack. case_bool_decide; [|case_bool_decide; [|done]].
  - intros [= <-]. rewrite abi_ack_roundtrip. split; [apply abi_ack_nonempty|by left].
  - intros [= <-]. rewrite proto_ack_roundtrip. case_bool_decide as E.
    + split; [by apply proto_ack_nonempty|]. by right.
    + split; [by apply proto_ack_nonempty|]. by left.
Qed.

(** What validation accepts, and that it changes nothing. *)
Lemma GmpPacketData_try_from_Ok raw d :
  GmpPacketData_try_from raw = Ok d <->
  d = raw /\ (1 <= length (gpd_sender raw) <= 128)%nat /\ (length (gpd_receiver raw) <= 128)%nat /\
  (length (gpd_salt raw) <= 32)%nat /\ gpd_payload raw <> [] /\ (length (gpd_memo raw) <= 256)%nat.
Proof.
  unfold GmpPacketData_try_from, Sender_new, Receiver_new, Salt_new, Memo_new.
  rewrite !result_bind_ok. repeat setoid_rewrite result_bind_ok. setoid_rewrite map_err_ok.
  setoid_rewrite Constrained_new_Ok. setoid_rewrite NonEmpty_new_Ok.
  unfold MAX_SENDER_LENGTH, MAX_RECEIVER_LENGTH, MAX_SALT_LENGTH, MAX_MEMO_LENGTH. split.
  - intros (? & [-> ?] & ? & [-> ?] & ? & [-> ?] & ? & [-> ?] & ? & [-> ?] & [= <-]).
    destruct raw; simpl in *. split_and!; done || lia.
  - intros (-> & ? & ? & ? & ? & ?). destruct raw; simpl in *.
    do 5 (eexists; split; [split; [reflexivity|done || lia]|]). done.
Qed.

Lemma mapM_pubkeys l :
  Forall (fun m => length (meta_pubkey m) = 32%nat) l ->
  mapM (M:=option) (fun m => k ← pubkey_try_from (meta_pubkey m);
    Some (mkAccountMeta k (meta_is_signer m) (meta_is_writable m))) l = Some l.
Proof.
  induction 1 as [|m l Hm _ IH]; [done|]. 
  assert (pubkey_try_from (meta_pubkey m) = Some (meta_pubkey m)) as E
    by (unfold pubkey_try_from; by rewrite bool_decide_eq_true_2).
  simpl. rewrite E. simpl. rewrite IH. by destruct m.
Qed.

Lemma GmpSolanaPayload_try_from_Ok p :
  gsp_data p <> [] -> (length (gsp_accounts p) <= 32)%nat ->
  Forall (fun m => length (meta_pubkey m) = 32%nat) (gsp_accounts p) ->
  GmpSolanaPayload_try_from p = Ok p.
Proof.
  intros Hd Hl Hf. unfold GmpSolanaPayload_try_from, MAX_GMP_SOLANA_PAYLOAD_ACCOUNTS.
  rewrite bool_decide_eq_false_2 by done.
  destruct (Nat.ltb_spec 32 (length (gsp_accounts p))); [lia|].
  rewrite mapM_pubkeys by done. simpl. by destruct p.
Qed.

(** ** Whose account it is *)

Lemma borsh_bytes_inj a b x y :
  (length a <= 256)%nat -> (length b <= 256)%nat ->
  borsh_bytes a ++ x = borsh_bytes b ++ y -> a = b /\ x = y.
Proof.
  intros Ha Hb. unfold borsh_bytes. rewrite <- !(assoc_L (++)). intros E.
  apply app_inj_len_l in E as [El E]; [|by autorewrite with lengths].
  apply (f_equal of_le) in El. rewrite !of_to_le in El.
  rewrite !Z.mod_small in El by (change (256 ^ Z.of_nat 4) with 4294967296; lia).
  apply app_inj_len_l in E; [done|lia].
Qed.

(** Two remote senders with the same account are the same sender, or the two
    identifiers hashed for them collide under SHA-256. *)
Lemma gmp_account_key_inj `{!PlatformOk} c s t c' s' t' :
  let a := mkAccountIdentifier c s t in let b := mkAccountIdentifier c' s' t' in
  Forall (fun x : bytes => (length x <= 256)%nat) [c; s; t; c'; s'; t'] ->
  gmp_account_key c s t = gmp_account_key c' s' t' ->
  a = b \/ collides sha256 [borsh_account_identifier a] [borsh_account_identifier b].
Proof.
  intros a b Hl [E _]%pda_inj. simpl in E. rewrite !app_nil_r in E. repeat injection E as E.
  destruct (decide (borsh_account_identifier a = borsh_account_identifier b)) as [Eb|Hne].
  - left. subst a b. unfold borsh_account_identifier in Eb. simpl in Eb.
    rewrite !Forall_cons in Hl. destruct Hl as (? & ? & ? & ? & ? & ? & _).
    apply borsh_bytes_inj in Eb as [-> Eb]; [|lia..].
    apply borsh_bytes_inj in Eb as [-> Eb]; [|lia..].
    rewrite <- (app_nil_r (borsh_bytes t)), <- (app_nil_r (borsh_bytes t')) in Eb.
    apply borsh_bytes_inj in Eb as [-> _]; [done|lia..].
  - right. unfold collides. apply Exists_cons. left. apply Exists_cons. left. split; done.
Qed.

End GmpCodec.
