(* ===== verification/Gmp.v ===== *)
(** * The ICS27 general message passing program

    [programs/ics27-gmp]: calls that wallets ([send_call]) and programs
    ([send_call_cpi]) send through the router, the execution of received calls
    under an account derived for the remote sender ([on_recv_packet]), the
    results recorded for the sender on acknowledgement and timeout, and the
    administration of the application.  One definition per instruction;
    [exec_gmp] is the entry point.  The theorems are in [GmpSpec.v]. *)

From S2P Require Import Prelude Errors Types Runtime Ics24 Cpi AccessManager Chunking Router GmpTypes.
From Stdlib Require Import ZArith Lia.
From Stdlib.Strings Require Import Byte.
From stdpp Require Import base gmap list.

#[local] Open Scope Z_scope.

(** [impl From<CpiValidationError> for GMPError]. *)
Definition GMPError_from_cpi (e : CpiErr.CpiValidationError) : GmpErr.GMPError :=
  match e with
  | CpiErr.DirectCallNotAllowed => GmpErr.DirectCallNotAllowed
  | _ => GmpErr.UnauthorizedRouter
  end.

(** [impl From<GmpValidationError> for GMPError]. *)
Definition GMPError_from_validation (e : GmpValidationError) : GmpErr.GMPError :=
  match e with
  | ValDecodeError => GmpErr.InvalidSolanaPayload
  | ValInvalidProgramId => GmpErr.InvalidProgramId
  | ValEmptyPayload => GmpErr.EmptyPayload
  | ValTooManyAccounts => GmpErr.TooManyAccounts
  | ValInvalidAccountKey => GmpErr.InvalidAccountKey
  end.

Section Gmp.
Context `{Platform} `{GmpLib}.

(** [Result<_, GMPError>] in an instruction. *)
Definition gmp_lift {A} (r : result GmpErr.GMPError A) : M A := lift (map_err EGmp r).
Definition cpi_lift {A} (r : result CpiErr.CpiValidationError A) : M A :=
  gmp_lift (map_err GMPError_from_cpi r).

(** [Program<'info, T>]. *)
Definition program_is (k id : Pubkey) : M unit :=
  _ ← address_is k id AnchorErr.InvalidProgramId;
  w ← get_world;
  require (is_executable w k) AnchorErr.InvalidProgramExecutable.

(** [seeds = [...], bump = account.bump]: with the bump that belongs to the
    seeds the address is the canonical one, with any other it is not. *)
Definition seeds_bump_are (k : Pubkey) (seeds : list bytes) (bump : Z) (program : Pubkey) : M unit :=
  _ ← seeds_are k seeds program;
  require (Z.eqb bump (snd (find_program_address seeds program))) AnchorErr.ConstraintSeeds.

Definition gmp_state_is (k : Pubkey) (s : GMPAppState) : M unit :=
  seeds_bump_are k [GMPAppState_SEED] (gas_bump s) GMP_ID.

(** ** [instructions/initialize.rs] *)

Record GmpInitializeAccounts := mkGmpInitializeAccounts {
  gi_app_state : Pubkey;
  gi_payer : Pubkey;
  gi_system_program : Pubkey;
  gi_program_data : Pubkey;
  gi_authority : Pubkey }.

Definition gmp_initialize (cx : CallCtx) (acc : GmpInitializeAccounts) (access_manager : Pubkey)
    : M unit :=
  _ ← signer cx (gi_payer acc);
  _ ← system_program (gi_system_program acc);
  program_data ← load_account BPF_LOADER_UPGRADEABLE_ID as_ProgramData (gi_program_data acc);
  _ ← signer cx (gi_authority acc);
  _ ← seeds_are (gi_app_state acc) [GMPAppState_SEED] GMP_ID;
  _ ← init_account cx GMP_ID (gi_app_state acc) (gi_payer acc) (8 + GMPAppState_INIT_SPACE);
  _ ← writable cx (gi_payer acc);
  _ ← seeds_are (gi_program_data acc) [GMP_ID] BPF_LOADER_UPGRADEABLE_ID;
  _ ← require (bool_decide (program_data = Some (gi_authority acc))) GmpErr.UnauthorizedDeployer;
  _ ← require (negb (bool_decide (access_manager = Pubkey_default))) GmpErr.InvalidAccessManager;
  now ← clock_unix_timestamp;
  _ ← emit GMP_ID (GMPAppInitialized ROUTER_ID GMP_PORT_ID now);
  store_account GMP_ID (gi_app_state acc)
    (DGMPAppState (mkGMPAppState V1 false (snd (find_program_address [GMPAppState_SEED] GMP_ID))
       (AccessManagerState_new access_manager))).

(** ** [router_cpi.rs] *)

(** The accounts of [SendCall] and [SendCallCpi] that are forwarded. *)
Record SendCallAccounts := mkSendCallAccounts {
  sc_app_state : Pubkey;
  sc_sender : Pubkey;   (* [SendCall] only *)
  sc_payer : Pubkey;
  sc_router_program : Pubkey;
  sc_router_state : Pubkey;
  sc_packet_commitment : Pubkey;
  sc_ibc_app : Pubkey;
  sc_client : Pubkey;
  sc_light_client_program : Pubkey;
  sc_client_state : Pubkey;
  sc_instruction_sysvar : Pubkey;
  sc_consensus_state : Pubkey;
  sc_system_program : Pubkey }.

Definition send_packet_metas (acc : SendCallAccounts) : list AccountMeta :=
  [mkAccountMeta (sc_router_state acc) false false;
   mkAccountMeta (sc_ibc_app acc) false false;
   mkAccountMeta (sc_packet_commitment acc) false true;
   mkAccountMeta (sc_app_state acc) true false;
   mkAccountMeta (sc_payer acc) true true;
   mkAccountMeta (sc_system_program acc) false false;
   mkAccountMeta (sc_client acc) false false;
   mkAccountMeta (sc_light_client_program acc) false false;
   mkAccountMeta (sc_client_state acc) false false;
   mkAccountMeta (sc_consensus_state acc) false false].

(** [Return::<u64>::get]: it panics without return data of eight bytes. *)
Definition returned_u64 : M Z :=
  r ← get_return_data;
  r ← lift (ok_or r (EAnchor AnchorErr.Panicked));
  _ ← require (Nat.eqb (length (snd r)) 8) AnchorErr.Panicked;
  mret (u64_from_le_bytes (snd r)).

Definition send_packet_cpi (cx : CallCtx) (acc : SendCallAccounts) (msg : MsgSendPacket) : M Z :=
  _ ← invoke_signed cx GMP_ID (sc_router_program acc) (send_packet_metas acc) (IxSendPacket msg)
        [sc_app_state acc];
  returned_u64.

(** ** [instructions/send_call.rs] and [send_call_cpi.rs] *)

(** The constraints both share, after the loads. *)
Definition send_call_accounts_ok (cx : CallCtx) (acc : SendCallAccounts) (msg : SendCallMsg)
    (app_state : GMPAppState) (client : Client) : M unit :=
  _ ← gmp_state_is (sc_app_state acc) app_state;
  _ ← writable cx (sc_app_state acc);
  _ ← require (negb (gas_paused app_state)) GmpErr.AppPaused;
  _ ← writable cx (sc_payer acc);
  _ ← seeds_are (sc_router_state acc) [RouterState_SEED] (sc_router_program acc);
  _ ← seeds_are (sc_packet_commitment acc)
        (commitment_seeds PACKET_COMMITMENT_SEED (scm_source_client msg) (scm_sequence msg))
        (sc_router_program acc);
  _ ← writable cx (sc_packet_commitment acc);
  _ ← seeds_are (sc_ibc_app acc) [IBCApp_SEED; GMP_PORT_ID] (sc_router_program acc);
  _ ← seeds_are (sc_client acc) [Client_SEED; scm_source_client msg] (sc_router_program acc);
  _ ← address_is (sc_light_client_program acc) (cl_client_program_id client)
        GmpErr.InvalidLightClientProgram;
  _ ← owner_is (sc_client_state acc) (sc_light_client_program acc) GmpErr.InvalidAccountOwner;
  instructions_sysvar (sc_instruction_sysvar acc).

Definition gmp_payload (encoding value : bytes) : Payload :=
  mkPayload GMP_PORT_ID GMP_PORT_ID ICS27_VERSION encoding value.

(** [send_call_inner]; the sequence is what the router returned. *)
Definition send_call_inner (cx : CallCtx) (acc : SendCallAccounts) (sender_pubkey : Pubkey)
    (msg : SendCallMsg) : M Z :=
  now ← clock_unix_timestamp;
  current_time ← lift (ok_or (u64_try_from_i64 now) (EGmp GmpErr.InvalidTimeout));
  source_client ← gmp_lift (map_err (fun _ => GmpErr.InvalidClientId)
                              (ClientId_new (scm_source_client msg)));
  _ ← require (Z.ltb (current_time + GMP_MIN_TIMEOUT_DURATION) (scm_timeout_timestamp msg))
        GmpErr.TimeoutTooSoon;
  _ ← require (Z.ltb (scm_timeout_timestamp msg) (current_time + GMP_MAX_TIMEOUT_DURATION))
        GmpErr.TimeoutTooLong;
  let raw_packet_data := mkGmpPacketData (pubkey_to_string sender_pubkey) (scm_receiver msg)
                           (scm_salt msg) (scm_payload msg) (scm_memo msg) in
  packet_data ← gmp_lift (map_err (fun _ => GmpErr.InvalidPacketData)
                            (GmpPacketData_try_from raw_packet_data));
  packet_data_bytes ← gmp_lift (encode_gmp_packet packet_data (scm_encoding msg));
  sequence ← send_packet_cpi cx acc
    (mkMsgSendPacket source_client (scm_sequence msg) (scm_timeout_timestamp msg)
       (gmp_payload (scm_encoding msg) packet_data_bytes));
  _ ← emit GMP_ID (GMPCallSent sequence sender_pubkey (scm_receiver msg) source_client (scm_salt msg)
                     (Z.of_nat (length (scm_payload msg))) (scm_timeout_timestamp msg));
  mret sequence.

Definition send_call (cx : CallCtx) (acc : SendCallAccounts) (msg : SendCallMsg) : M unit :=
  app_state ← load_account GMP_ID as_GMPAppState (sc_app_state acc);
  _ ← signer cx (sc_sender acc);
  _ ← signer cx (sc_payer acc);
  _ ← program_is (sc_router_program acc) ROUTER_ID;
  _ ← load_account ROUTER_ID as_RouterState (sc_router_state acc);
  _ ← load_account ROUTER_ID as_IBCApp (sc_ibc_app acc);
  client ← load_account ROUTER_ID as_Client (sc_client acc);
  _ ← system_program (sc_system_program acc);
  _ ← send_call_accounts_ok cx acc msg app_state client;
  _ ← cpi_lift (reject_cpi cx (sc_instruction_sysvar acc) GMP_ID);
  sequence ← send_call_inner cx acc (sc_sender acc) msg;
  _ ← set_return_data GMP_ID (u64_to_le_bytes sequence);
  store_account GMP_ID (sc_app_state acc) (DGMPAppState app_state).

Definition send_call_cpi (cx : CallCtx) (acc : SendCallAccounts) (msg : SendCallMsg) : M unit :=
  app_state ← load_account GMP_ID as_GMPAppState (sc_app_state acc);
  _ ← signer cx (sc_payer acc);
  _ ← program_is (sc_router_program acc) ROUTER_ID;
  _ ← load_account ROUTER_ID as_RouterState (sc_router_state acc);
  _ ← load_account ROUTER_ID as_IBCApp (sc_ibc_app acc);
  client ← load_account ROUTER_ID as_Client (sc_client acc);
  _ ← system_program (sc_system_program acc);
  _ ← send_call_accounts_ok cx acc msg app_state client;
  _ ← cpi_lift (reject_direct_calls cx);
  _ ← cpi_lift (reject_nested_cpi cx);
  sender_pubkey ← gmp_lift (map_err (fun _ => GmpErr.UnauthorizedRouter) (current_ix_program_id cx));
  sequence ← send_call_inner cx acc sender_pubkey msg;
  _ ← set_return_data GMP_ID (u64_to_le_bytes sequence);
  store_account GMP_ID (sc_app_state acc) (DGMPAppState app_state).

(** ** [instructions/on_recv_packet.rs] *)

Record GmpRecvAccounts := mkGmpRecvAccounts {
  gr_app_state : Pubkey;
  gr_instruction_sysvar : Pubkey;
  gr_payer : Pubkey;
  gr_system_program : Pubkey;
  gr_remaining_accounts : list Pubkey }.

Definition FIXED_REMAINING_ACCOUNTS : nat := 2.
Definition GMP_ACCOUNT_INDEX : nat := 0.
Definition TARGET_PROGRAM_INDEX : nat := 1.

(** The check of the remaining accounts against the payload's. *)
Fixpoint validate_execution_accounts (cx : CallCtx) (l : list (AccountMeta * Pubkey))
    : result GmpErr.GMPError unit :=
  match l with
  | [] => Ok ()
  | (meta, account_info) :: l =>
      _ ← require_r (bool_decide (account_info = meta_pubkey meta)) GmpErr.AccountKeyMismatch;
      _ ← require_r (bool_decide (account_info ∈ cx_writable cx) || negb (meta_is_writable meta))
            GmpErr.InsufficientAccountPermissions;
      _ ← require_r (negb (bool_decide (account_info ∈ cx_signers cx))) GmpErr.UnexpectedSigner;
      validate_execution_accounts cx l
  end.

(** [decode_gmp_packet] and the validation of what it decoded. *)
Definition decode_validated (payload : Payload) : result GmpErr.GMPError GmpPacketData :=
  raw_packet_data ← decode_gmp_packet (pl_value payload) (pl_encoding payload);
  map_err (fun _ => GmpErr.InvalidPacketData) (GmpPacketData_try_from raw_packet_data).

Definition gmp_on_recv_packet (cx : CallCtx) (acc : GmpRecvAccounts) (msg : OnRecvPacketMsg) : M unit :=
  app_state ← load_account GMP_ID as_GMPAppState (gr_app_state acc);
  _ ← signer cx (gr_payer acc);
  _ ← system_program (gr_system_program acc);
  _ ← gmp_state_is (gr_app_state acc) app_state;
  _ ← writable cx (gr_app_state acc);
  _ ← require (negb (gas_paused app_state)) GmpErr.AppPaused;
  _ ← instructions_sysvar (gr_instruction_sysvar acc);
  _ ← writable cx (gr_payer acc);
  _ ← cpi_lift (validate_cpi_caller cx (gr_instruction_sysvar acc) ROUTER_ID GMP_ID);
  let payload := orp_payload msg in
  _ ← require (bool_decide (pl_version payload = ICS27_VERSION)) GmpErr.InvalidVersion;
  _ ← require (bool_decide (pl_source_port payload = GMP_PORT_ID)) GmpErr.InvalidPort;
  _ ← require (bool_decide (pl_dest_port payload = GMP_PORT_ID)) GmpErr.InvalidPort;
  target_program ← gmp_lift (ok_or (gr_remaining_accounts acc !! TARGET_PROGRAM_INDEX)
                               GmpErr.InsufficientAccounts);
  w ← get_world;
  _ ← require (is_executable w target_program) GmpErr.TargetNotExecutable;
  packet_data ← gmp_lift (decode_validated payload);
  receiver_pubkey ← gmp_lift (ok_or (pubkey_from_str (gpd_receiver packet_data))
                                GmpErr.InvalidAccountKey);
  _ ← require (bool_decide (target_program = receiver_pubkey)) GmpErr.AccountKeyMismatch;
  client_id ← gmp_lift (map_err (fun _ => GmpErr.InvalidClientId) (ClientId_new (orp_dest_client msg)));
  let gmp_account := GMPAccount_new client_id (gpd_sender packet_data) (gpd_salt packet_data) GMP_ID in
  gmp_account_info ← gmp_lift (ok_or (gr_remaining_accounts acc !! GMP_ACCOUNT_INDEX)
                                 GmpErr.InsufficientAccounts);
  _ ← require (bool_decide (gmp_account_info = ga_pda gmp_account)) GmpErr.GMPAccountPDAMismatch;
  raw_payload ← gmp_lift (decode_raw (gpd_payload packet_data) (pl_encoding payload));
  solana_payload ← gmp_lift (map_err GMPError_from_validation (GmpSolanaPayload_try_from raw_payload));
  let account_metas := to_account_metas solana_payload in
  let remaining := drop FIXED_REMAINING_ACCOUNTS (gr_remaining_accounts acc) in
  _ ← require (Nat.eqb (length remaining) (length account_metas)) GmpErr.AccountCountMismatch;
  _ ← gmp_lift (validate_execution_accounts cx (zip account_metas remaining));
  _ ← invoke_signed cx GMP_ID receiver_pubkey account_metas (IxRaw (gsp_data solana_payload))
        [ga_pda gmp_account];
  r ← get_return_data;
  let result := match r with
                | Some (return_program_id, data) =>
                    if bool_decide (return_program_id = receiver_pubkey) then data else []
                | None => []
                end in
  ack ← gmp_lift (encode_gmp_ack result (pl_encoding payload));
  _ ← set_return_data GMP_ID (borsh_bytes ack);
  store_account GMP_ID (gr_app_state acc) (DGMPAppState app_state).

(** ** [instructions/on_ack_packet.rs], [on_timeout_packet.rs] and [state.rs] *)

Record GmpResultAccounts := mkGmpResultAccounts {
  gx_app_state : Pubkey;
  gx_instruction_sysvar : Pubkey;
  gx_payer : Pubkey;
  gx_system_program : Pubkey;
  gx_result_account : Pubkey }.

(** [GMPCallResultAccount::init_acknowledged]. *)
Definition init_acknowledged (msg : OnAcknowledgementPacketMsg) (sender : Pubkey) (timestamp bump : Z)
    : result Error GMPCallResultAccount :=
  commitment ← map_err (fun _ => EAnchor AnchorErr.Panicked)
                 (packet_acknowledgement_commitment_bytes32 [oap_acknowledgement msg]);
  Ok (mkGMPCallResultAccount V1 sender (oap_sequence msg) (oap_source_client msg)
        (oap_dest_client msg) (CallAcknowledgement commitment) timestamp bump).

(** [GMPCallResultAccount::init_timed_out]. *)
Definition init_timed_out (msg : OnTimeoutPacketMsg) (sender : Pubkey) (timestamp bump : Z)
    : GMPCallResultAccount :=
  mkGMPCallResultAccount V1 sender (otp_sequence msg) (otp_source_client msg)
    (otp_dest_client msg) CallTimeout timestamp bump.

(** The accounts of both callbacks. *)
Definition result_accounts_ok (cx : CallCtx) (acc : GmpResultAccounts) (source_client : bytes)
    (sequence : Z) : M unit :=
  app_state ← load_account GMP_ID as_GMPAppState (gx_app_state acc);
  _ ← signer cx (gx_payer acc);
  _ ← system_program (gx_system_program acc);
  _ ← seeds_are (gx_result_account acc) (gmp_result_seeds source_client sequence) GMP_ID;
  _ ← init_account cx GMP_ID (gx_result_account acc) (gx_payer acc)
        (8 + GMPCallResultAccount_INIT_SPACE);
  _ ← gmp_state_is (gx_app_state acc) app_state;
  _ ← require (negb (gas_paused app_state)) GmpErr.AppPaused;
  _ ← instructions_sysvar (gx_instruction_sysvar acc);
  writable cx (gx_payer acc).

(** The sender recorded in the packet. *)
Definition packet_sender (payload : Payload) : M Pubkey :=
  packet_data ← gmp_lift (decode_validated payload);
  gmp_lift (ok_or (pubkey_from_str (gpd_sender packet_data)) GmpErr.InvalidSender).

Definition gmp_on_acknowledgement_packet (cx : CallCtx) (acc : GmpResultAccounts)
    (msg : OnAcknowledgementPacketMsg) : M unit :=
  _ ← result_accounts_ok cx acc (oap_source_client msg) (oap_sequence msg);
  _ ← cpi_lift (validate_cpi_caller cx (gx_instruction_sysvar acc) ROUTER_ID GMP_ID);
  sender ← packet_sender (oap_payload msg);
  now ← clock_unix_timestamp;
  result ← lift (init_acknowledged msg sender now
    (snd (find_program_address (gmp_result_seeds (oap_source_client msg) (oap_sequence msg)) GMP_ID)));
  _ ← emit GMP_ID (GMPCallAcknowledgment (gcr_source_client result) (gcr_sequence result) sender
                     (gx_result_account acc) (gcr_result_timestamp result));
  store_account GMP_ID (gx_result_account acc) (DGMPCallResult result).

Definition gmp_on_timeout_packet (cx : CallCtx) (acc : GmpResultAccounts) (msg : OnTimeoutPacketMsg)
    : M unit :=
  _ ← result_accounts_ok cx acc (otp_source_client msg) (otp_sequence msg);
  _ ← cpi_lift (validate_cpi_caller cx (gx_instruction_sysvar acc) ROUTER_ID GMP_ID);
  sender ← packet_sender (otp_payload msg);
  now ← clock_unix_timestamp;
  let result := init_timed_out msg sender now
    (snd (find_program_address (gmp_result_seeds (otp_source_client msg) (otp_sequence msg)) GMP_ID)) in
  _ ← emit GMP_ID (GMPCallTimeout (gcr_source_client result) (gcr_sequence result) sender
                     (gx_result_account acc) (gcr_result_timestamp result));
  store_account GMP_ID (gx_result_account acc) (DGMPCallResult result).

(** ** [instructions/admin.rs] and [access_manager_transfer.rs] *)

Record GmpAdminAccounts := mkGmpAdminAccounts {
  gp_app_state : Pubkey;
  gp_access_manager : Pubkey;
  gp_authority : Pubkey;
  gp_instructions_sysvar : Pubkey }.

(** The accounts of the instructions checked against the current manager. *)
Definition gmp_admin_accounts (cx : CallCtx) (acc : GmpAdminAccounts) : M GMPAppState :=
  s ← load_account GMP_ID as_GMPAppState (gp_app_state acc);
  _ ← signer cx (gp_authority acc);
  _ ← gmp_state_is (gp_app_state acc) s;
  _ ← writable cx (gp_app_state acc);
  _ ← seeds_are (gp_access_manager acc) [AccessManager_SEED] (ams_access_manager (gas_am_state s));
  _ ← instructions_sysvar (gp_instructions_sysvar acc);
  mret s.

Definition with_paused (s : GMPAppState) (b : bool) : GMPAppState :=
  mkGMPAppState (gas_version s) b (gas_bump s) (gas_am_state s).
Definition gmp_with_am_state (s : GMPAppState) (a : AccessManagerState) : GMPAppState :=
  mkGMPAppState (gas_version s) (gas_paused s) (gas_bump s) a.

Definition pause_app (cx : CallCtx) (acc : GmpAdminAccounts) : M unit :=
  s ← gmp_admin_accounts cx acc;
  _ ← require_role cx (gp_access_manager acc) PAUSER_ROLE (gp_authority acc)
        (gp_instructions_sysvar acc) GMP_ID;
  now ← clock_unix_timestamp;
  _ ← emit GMP_ID (GMPAppPaused (gp_authority acc) now);
  store_account GMP_ID (gp_app_state acc) (DGMPAppState (with_paused s true)).

Definition unpause_app (cx : CallCtx) (acc : GmpAdminAccounts) : M unit :=
  s ← gmp_admin_accounts cx acc;
  _ ← require_role cx (gp_access_manager acc) UNPAUSER_ROLE (gp_authority acc)
        (gp_instructions_sysvar acc) GMP_ID;
  now ← clock_unix_timestamp;
  _ ← emit GMP_ID (GMPAppUnpaused (gp_authority acc) now);
  store_account GMP_ID (gp_app_state acc) (DGMPAppState (with_paused s false)).

Definition gmp_propose_access_manager_transfer (cx : CallCtx) (acc : GmpAdminAccounts)
    (new_access_manager : Pubkey) : M unit :=
  s ← gmp_admin_accounts cx acc;
  a ← propose_transfer cx (gas_am_state s) new_access_manager (gp_access_manager acc)
        (gp_authority acc) (gp_instructions_sysvar acc) GMP_ID;
  store_account GMP_ID (gp_app_state acc) (DGMPAppState (gmp_with_am_state s a)).

(** [gp_access_manager] is the account of the proposed access manager. *)
Definition gmp_accept_access_manager_transfer (cx : CallCtx) (acc : GmpAdminAccounts) : M unit :=
  s ← load_account GMP_ID as_GMPAppState (gp_app_state acc);
  _ ← signer cx (gp_authority acc);
  _ ← gmp_state_is (gp_app_state acc) s;
  _ ← writable cx (gp_app_state acc);
  pending ← lift (ok_or (ams_pending_access_manager (gas_am_state s))
        (EAccessManager AccessManagerErr.NoPendingAccessManagerTransfer));
  _ ← seeds_are (gp_access_manager acc) [AccessManager_SEED] pending;
  _ ← instructions_sysvar (gp_instructions_sysvar acc);
  a ← accept_transfer cx (gas_am_state s) (gp_access_manager acc) (gp_authority acc)
        (gp_instructions_sysvar acc) GMP_ID;
  store_account GMP_ID (gp_app_state acc) (DGMPAppState (gmp_with_am_state s a)).

Definition gmp_cancel_access_manager_transfer (cx : CallCtx) (acc : GmpAdminAccounts) : M unit :=
  s ← gmp_admin_accounts cx acc;
  a ← cancel_transfer cx (gas_am_state s) (gp_access_manager acc) (gp_authority acc)
        (gp_instructions_sysvar acc) GMP_ID;
  store_account GMP_ID (gp_app_state acc) (DGMPAppState (gmp_with_am_state s a)).

(** ** Entry point ([lib.rs]) *)

Inductive GmpIx :=
| GInitialize (acc : GmpInitializeAccounts) (access_manager : Pubkey)
| GSendCall (acc : SendCallAccounts) (msg : SendCallMsg)
| GSendCallCpi (acc : SendCallAccounts) (msg : SendCallMsg)
| GOnRecvPacket (acc : GmpRecvAccounts) (msg : OnRecvPacketMsg)
| GOnAcknowledgementPacket (acc : GmpResultAccounts) (msg : OnAcknowledgementPacketMsg)
| GOnTimeoutPacket (acc : GmpResultAccounts) (msg : OnTimeoutPacketMsg)
| GPauseApp (acc : GmpAdminAccounts)
| GUnpauseApp (acc : GmpAdminAccounts)
| GProposeAccessManagerTransfer (acc : GmpAdminAccounts) (new_access_manager : Pubkey)
| GAcceptAccessManagerTransfer (acc : GmpAdminAccounts)
| GCancelAccessManagerTransfer (acc : GmpAdminAccounts).

Definition exec_gmp (cx : CallCtx) (ix : GmpIx) : M unit :=
  match ix with
  | GInitialize acc am => gmp_initialize cx acc am
  | GSendCall acc msg => send_call cx acc msg
  | GSendCallCpi acc msg => send_call_cpi cx acc msg
  | GOnRecvPacket acc msg => gmp_on_recv_packet cx acc msg
  | GOnAcknowledgementPacket acc msg => gmp_on_acknowledgement_packet cx acc msg
  | GOnTimeoutPacket acc msg => gmp_on_timeout_packet cx acc msg
  | GPauseApp acc => pause_app cx acc
  | GUnpauseApp acc => unpause_app cx acc
  | GProposeAccessManagerTransfer acc n => gmp_propose_access_manager_transfer cx acc n
  | GAcceptAccessManagerTransfer acc => gmp_accept_access_manager_transfer cx acc
  | GCancelAccessManagerTransfer acc => gmp_cancel_access_manager_transfer cx acc
  end.

End Gmp.
