(* ===== verification/GmpSpec.v ===== *)
(** * Specification of the GMP program

    The accounts of the program by key, its transitions and the proof that
    every instruction of [Gmp.v] performs one of them; the entry points by
    which the router and the program reach each other; and the induction
    principle for what holds in every history of the program. *)

From S2P Require Import Prelude Errors Types Runtime Ics24 Cpi AccessManager AccessManagerSpec Keyed.
From S2P Require Import Histories Chunking Router ChunkingSpec RouterSpec GmpTypes Gmp.
From Stdlib Require Import ZArith Lia.
From Stdlib.Strings Require Import Byte.
From stdpp Require Import prelude gmap list.

#[local] Open Scope Z_scope.

(** ** Keys *)

Inductive GmpKey :=
| GKState
| GKResult (source_client : bytes) (sequence : Z).

#[export] Instance GmpKey_eq_dec : EqDecision GmpKey.
Proof. solve_decision. Defined.

Definition gk_seeds (K : GmpKey) : list bytes :=
  match K with GKState => [GMPAppState_SEED] | GKResult c s => gmp_result_seeds c s end.
Definition gk_typed (K : GmpKey) : Prop :=
  match K with GKState => True | GKResult _ s => is_u64 s end.
Definition gk `{Platform} (K : GmpKey) : Pubkey := pda_key (gk_seeds K) GMP_ID.

Lemma gmp_not_router : GMP_ID <> ROUTER_ID.
Proof. by vm_compute. Qed.

Section GmpKeys.
Context `{Platform} `{!PlatformOk}.

Lemma gk_inj K K' : gk_typed K -> gk_typed K' -> gk K = gk K' -> K = K'.
Proof.
  intros HK HK' [E _]%pda_inj. destruct K as [|c s], K' as [|c' s']; try done;
    try (simpl in E; discriminate E).
  change (GMPCallResult_SEED ++ c ++ u64_to_le_bytes s ++ [] =
          GMPCallResult_SEED ++ c' ++ u64_to_le_bytes s' ++ []) in E.
  rewrite !app_nil_r in E. apply app_inv_head in E.
  apply app_inj_len_r in E as [-> E]; [|by autorewrite with lengths].
  f_equal. by apply u64_to_le_bytes_inj.
Qed.

#[export] Instance gk_ok : KeysOk GMP_ID gk gk_typed.
Proof. split; [intros K; apply pda_key_is_pda|apply gk_inj]. Qed.

Lemma gk_not_am K program : gk K <> pda_key [AccessManager_SEED] program.
Proof. intros [E _]%pda_inj. destruct K; simpl in E; discriminate E. Qed.

(** A sender's account is none of the program's own. *)
Lemma gk_not_account K c s t : gk K <> gmp_account_key c s t.
Proof. intros [E _]%pda_inj. destruct K; simpl in E; discriminate E. Qed.

End GmpKeys.

Notation g_stored w K d := (held GMP_ID w (gk K) d).
Notation g_evol := (evol_at GMP_ID gk gk_typed).

(** ** Entry points *)

Section Entry.
Context `{Platform} `{GmpLib}.

(** The router's [send_packet], called with the accounts in order. *)
Definition send_accounts_of (acc : SendAccounts) : list Pubkey :=
  [se_router_state acc; se_ibc_app acc; se_packet_commitment acc; se_app_signer acc; se_payer acc;
   se_system_program acc; se_client acc; lc_light_client_program (se_lc acc);
   lc_client_state (se_lc acc); lc_consensus_state (se_lc acc)].

Class RouterEntry : Prop :=
  router_send_entry cx metas msg w w' :
    process_instruction cx ROUTER_ID metas (IxSendPacket msg) w = Ok w' ->
    exists acc, meta_pubkey <$> metas = send_accounts_of acc /\
      exec_router cx (RSendPacket acc msg) w = Ok ((), w').

(** How a call reaches an instruction: the callbacks and [send_call_cpi] by
    their message, anything else as raw data. *)
Definition gmp_call (metas : list AccountMeta) (c : CpiIx) (ix : GmpIx) : Prop :=
  let keys := meta_pubkey <$> metas in
  match c, ix with
  | IxSendCallCpi msg, GSendCallCpi acc msg' => msg' = msg /\
      keys = [sc_app_state acc; sc_payer acc; sc_router_program acc; sc_router_state acc;
              sc_packet_commitment acc; sc_ibc_app acc; sc_client acc; sc_light_client_program acc;
              sc_client_state acc; sc_instruction_sysvar acc; sc_consensus_state acc;
              sc_system_program acc]
  | IxOnRecvPacket msg, GOnRecvPacket acc msg' => msg' = msg /\
      keys = [gr_app_state acc; gr_instruction_sysvar acc; gr_payer acc; gr_system_program acc] ++
             gr_remaining_accounts acc
  | IxOnAcknowledgementPacket msg, GOnAcknowledgementPacket acc msg' => msg' = msg /\
      exists rest, keys = [gx_app_state acc; gx_instruction_sysvar acc; gx_payer acc;
              gx_system_program acc; gx_result_account acc] ++ rest
  | IxOnTimeoutPacket msg, GOnTimeoutPacket acc msg' => msg' = msg /\
      exists rest, keys = [gx_app_state acc; gx_instruction_sysvar acc; gx_payer acc;
              gx_system_program acc; gx_result_account acc] ++ rest
  | IxRaw _, _ => True
  | _, _ => False
  end.

Definition gmp_ix_typed (ix : GmpIx) : Prop :=
  match ix with
  | GSendCall _ msg | GSendCallCpi _ msg => is_u64 (scm_sequence msg)
  | GOnAcknowledgementPacket _ msg => is_u64 (oap_sequence msg)
  | GOnTimeoutPacket _ msg => is_u64 (otp_sequence msg)
  | _ => True
  end.

Class GmpDeployed : Prop :=
  gmp_entry cx metas c w w' :
    process_instruction cx GMP_ID metas c w = Ok w' ->
    exists ix, gmp_call metas c ix /\ exec_gmp cx ix w = Ok ((), w').

(** A call was logged by its caller just before the instruction. *)
Definition entered (cx : CallCtx) (w : World) (ix : GmpIx) : Prop :=
  forall st q, cx_stack cx = st ++ [q; GMP_ID] ->
    exists metas c, last (w_log w) = Some (LInvoke q GMP_ID c) /\ gmp_call metas c ix.

End Entry.

(** ** Transitions *)

Section GmpTransitions.
Context `{Platform} `{GmpLib}.

Definition gmp_fresh (am : Pubkey) : GMPAppState :=
  mkGMPAppState V1 false (snd (find_program_address [GMPAppState_SEED] GMP_ID))
    (AccessManagerState_new am).

(** The wallet that signed a top-level call, or the program that called. *)
Definition sends_as (cx : CallCtx) (sender : Pubkey) : Prop :=
  (cx_stack cx = [GMP_ID] /\ sender ∈ cx_signers cx) \/ cx_stack cx = [sender; GMP_ID].

(** The payload of the packet that carries the call [msg] of [sender]. *)
Definition call_payload (sender : Pubkey) (msg : SendCallMsg) (payload : Payload) : Prop :=
  let data := mkGmpPacketData (pubkey_to_string sender) (scm_receiver msg) (scm_salt msg)
                (scm_payload msg) (scm_memo msg) in
  exists value, GmpPacketData_try_from data = Ok data /\
    encode_gmp_packet data (scm_encoding msg) = Ok value /\
    payload = gmp_payload (scm_encoding msg) value.

Definition sender_of (payload : Payload) (sender : Pubkey) : Prop :=
  exists d, decode_validated payload = Ok d /\ pubkey_from_str (gpd_sender d) = Some sender.

Definition result_bump (c : bytes) (s : Z) : Z :=
  snd (find_program_address (gmp_result_seeds c s) GMP_ID).

(** [msg] is executed: its packet data, the program it calls, the account
    that signs and the instruction. *)
Record execution (msg : OnRecvPacketMsg) (d : GmpPacketData) (receiver account : Pubkey)
    (p : GmpSolanaPayload) : Prop := {
  ex_version : pl_version (orp_payload msg) = ICS27_VERSION;
  ex_ports : pl_source_port (orp_payload msg) = GMP_PORT_ID /\ pl_dest_port (orp_payload msg) = GMP_PORT_ID;
  ex_data : decode_validated (orp_payload msg) = Ok d;
  ex_receiver : pubkey_from_str (gpd_receiver d) = Some receiver;
  ex_client : (1 <= length (orp_dest_client msg) <= 32)%nat;
  ex_account : account = gmp_account_key (orp_dest_client msg) (gpd_sender d) (gpd_salt d);
  ex_payload : exists raw, decode_raw (gpd_payload d) (pl_encoding (orp_payload msg)) = Ok raw /\
    GmpSolanaPayload_try_from raw = Ok p }.

Inductive g_trans (cx : CallCtx) (w w' : World)
    : list (GmpKey * option AccountData) -> list LogEntry -> Prop :=
| G_initialize authority am :
    upgrade_authority_of w GMP_ID authority -> authority ∈ cx_signers cx -> am <> Pubkey_default ->
    w_accts w !! gk GKState = None ->
    g_trans cx w w' [(GKState, Some (DGMPAppState (gmp_fresh am)))]
      [LEvent GMP_ID (GMPAppInitialized ROUTER_ID GMP_PORT_ID (w_clock w))]
| G_send st sender msg dest payload m :
    g_stored w GKState (DGMPAppState st) -> gas_paused st = false -> sends_as cx sender ->
    (1 <= length (scm_source_client msg) <= 32)%nat -> is_u64 (scm_sequence msg) ->
    w_clock w + GMP_MIN_TIMEOUT_DURATION < scm_timeout_timestamp msg <
      w_clock w + GMP_MAX_TIMEOUT_DURATION ->
    call_payload sender msg payload ->
    w_log w' = w_log w ++ m ->
    LEvent ROUTER_ID (SendPacketEvent (scm_source_client msg) (scm_sequence msg)
      (mkPacket (scm_sequence msg) (scm_source_client msg) dest (scm_timeout_timestamp msg) [payload])
      (scm_timeout_timestamp msg)) ∈ m ->
    g_trans cx w w' [(GKState, Some (DGMPAppState st))]
      [LInvoke GMP_ID ROUTER_ID (IxSendPacket (mkMsgSendPacket (scm_source_client msg)
         (scm_sequence msg) (scm_timeout_timestamp msg) payload));
       LEvent GMP_ID (GMPCallSent (scm_sequence msg) sender (scm_receiver msg)
         (scm_source_client msg) (scm_salt msg) (Z.of_nat (length (scm_payload msg)))
         (scm_timeout_timestamp msg))]
| G_recv st msg d receiver account p :
    g_stored w GKState (DGMPAppState st) -> gas_paused st = false ->
    cx_stack cx = [ROUTER_ID; GMP_ID] -> execution msg d receiver account p -> receiver <> GMP_ID ->
    g_trans cx w w' [(GKState, Some (DGMPAppState st))]
      [LInvoke GMP_ID receiver (IxRaw (gsp_data p))]
| G_ack st msg sender v :
    g_stored w GKState (DGMPAppState st) -> gas_paused st = false ->
    cx_stack cx = [ROUTER_ID; GMP_ID] ->
    (exists c, last (w_log w) = Some (LInvoke ROUTER_ID GMP_ID c) /\
       (c = IxOnAcknowledgementPacket msg \/ exists raw, c = IxRaw raw)) ->
    w_accts w !! gk (GKResult (oap_source_client msg) (oap_sequence msg)) = None ->
    sender_of (oap_payload msg) sender ->
    packet_acknowledgement_commitment_bytes32 [oap_acknowledgement msg] = Ok v ->
    g_trans cx w w'
      [(GKResult (oap_source_client msg) (oap_sequence msg), Some (DGMPCallResult
          (mkGMPCallResultAccount V1 sender (oap_sequence msg) (oap_source_client msg)
             (oap_dest_client msg) (CallAcknowledgement v) (w_clock w)
             (result_bump (oap_source_client msg) (oap_sequence msg)))))]
      [LEvent GMP_ID (GMPCallAcknowledgment (oap_source_client msg) (oap_sequence msg) sender
         (gk (GKResult (oap_source_client msg) (oap_sequence msg))) (w_clock w))]
| G_timeout st msg sender :
    g_stored w GKState (DGMPAppState st) -> gas_paused st = false ->
    cx_stack cx = [ROUTER_ID; GMP_ID] ->
    (exists c, last (w_log w) = Some (LInvoke ROUTER_ID GMP_ID c) /\
       (c = IxOnTimeoutPacket msg \/ exists raw, c = IxRaw raw)) ->
    w_accts w !! gk (GKResult (otp_source_client msg) (otp_sequence msg)) = None ->
    sender_of (otp_payload msg) sender ->
    g_trans cx w w'
      [(GKResult (otp_source_client msg) (otp_sequence msg), Some (DGMPCallResult
          (mkGMPCallResultAccount V1 sender (otp_sequence msg) (otp_source_client msg)
             (otp_dest_client msg) CallTimeout (w_clock w)
             (result_bump (otp_source_client msg) (otp_sequence msg)))))]
      [LEvent GMP_ID (GMPCallTimeout (otp_source_client msg) (otp_sequence msg) sender
         (gk (GKResult (otp_source_client msg) (otp_sequence msg))) (w_clock w))]
| G_pause st s :
    g_stored w GKState (DGMPAppState st) ->
    holder_of GMP_ID cx w (ams_access_manager (gas_am_state st)) PAUSER_ROLE s ->
    g_trans cx w w' [(GKState, Some (DGMPAppState (with_paused st true)))]
      [LEvent GMP_ID (GMPAppPaused s (w_clock w))]
| G_unpause st s :
    g_stored w GKState (DGMPAppState st) ->
    holder_of GMP_ID cx w (ams_access_manager (gas_am_state st)) UNPAUSER_ROLE s ->
    g_trans cx w w' [(GKState, Some (DGMPAppState (with_paused st false)))]
      [LEvent GMP_ID (GMPAppUnpaused s (w_clock w))]
| G_propose st s n :
    g_stored w GKState (DGMPAppState st) ->
    admin_at GMP_ID cx w (ams_access_manager (gas_am_state st)) s ->
    ams_pending_access_manager (gas_am_state st) = None ->
    g_trans cx w w' [(GKState, Some (DGMPAppState (gmp_with_am_state st
        (mkAccessManagerState (ams_access_manager (gas_am_state st)) (Some n)))))]
      [LEvent GMP_ID (AccessManagerTransferProposed (ams_access_manager (gas_am_state st)) n)]
| G_accept st s n :
    g_stored w GKState (DGMPAppState st) ->
    ams_pending_access_manager (gas_am_state st) = Some n -> admin_at GMP_ID cx w n s ->
    g_trans cx w w' [(GKState, Some (DGMPAppState (gmp_with_am_state st (mkAccessManagerState n None))))]
      [LEvent GMP_ID (AccessManagerTransferAccepted (ams_access_manager (gas_am_state st)) n)]
| G_cancel st s n :
    g_stored w GKState (DGMPAppState st) ->
    ams_pending_access_manager (gas_am_state st) = Some n ->
    admin_at GMP_ID cx w (ams_access_manager (gas_am_state st)) s ->
    g_trans cx w w' [(GKState, Some (DGMPAppState (gmp_with_am_state st
        (mkAccessManagerState (ams_access_manager (gas_am_state st)) None))))]
      [LEvent GMP_ID (AccessManagerTransferCancelled (ams_access_manager (gas_am_state st)) n)].

End GmpTransitions.

Notation g_refines cx w w' := (steps_to GMP_ID gk gk_typed (g_trans cx) w w').

(** ** Refinement *)

Section GmpRefinement.
Context `{Platform} `{!PlatformOk} `{GmpLib} `{!RouterDeployed} `{!RouterEntry} `{!GmpDeployed}.

Ltac ginv :=
  unfold gmp_state_is, seeds_bump_are, program_is, cpi_lift, gmp_lift in *; minv;
  repeat match goal with
  | E : map_err _ _ = Ok _ |- _ => apply map_err_ok in E
  | E : ok_or _ _ = Ok _ |- _ => apply ok_or_ok in E
  end.

(** The application's state, loaded from its address. *)
Ltac g_to_stored :=
  repeat match goal with
  | Hl : w_accts ?w !! ?k = Some ?a, Ho : acc_owner ?a = GMP_ID,
    Hd : as_GMPAppState (acc_data ?a) = Some ?x,
    Hk : ?k = pda_key [GMPAppState_SEED] GMP_ID |- _ =>
      assert (g_stored w GKState (DGMPAppState x)) by
        exact (held_intro w k a _ _ x GKState as_GMPAppState_Some Hl Ho Hd Hk);
      clear Hl Ho Hd
  end.

(** *** The administration *)

(** The instructions that end by storing the application's state. *)
Lemma g_store_state cx w w1 w' d l u :
  g_evol [] l w w1 -> g_trans cx w w' [(GKState, Some d)] l ->
  store_account GMP_ID (gk GKState) d w1 = Ok (u, w') -> g_refines cx w w'.
Proof.
  intros Hev Ht Hs. apply (evol_store GKState) in Hs as (Hev2 & Hst & _); [|done].
  eapply steps_intro; [exact Ht| |reflexivity|].
  - pose proof (evol_trans _ _ _ _ _ _ _ Hev Hev2) as E. rewrite app_nil_r in E. exact E.
  - by apply Forall_singleton.
Qed.

Ltac g_role :=
  match goal with
  | Hq : require_admin _ ?k _ _ _ _ = Ok _, Hk : ?k = pda_key [AccessManager_SEED] _ |- _ =>
      eapply admin_at_intro in Hq as [? Hq]; [subst|done|exact Hk]
  | Hq : require_role _ ?k _ _ _ _ _ = Ok _, Hk : ?k = pda_key [AccessManager_SEED] _ |- _ =>
      eapply holder_at_intro in Hq as [? Hq]; [subst|done|exact Hk]
  end.

Ltac g_finish T :=
  g_to_stored; g_role;
  match goal with
  | Hs : store_account GMP_ID ?k _ _ = Ok _, Hk : ?k = pda_key _ GMP_ID |- _ =>
      rewrite Hk in Hs; change (pda_key _ GMP_ID) with (gk GKState) in Hs;
      eapply (g_store_state _ _ _ _ _ _ _ (evol_log_entry _ _)); [|exact Hs]; by eapply T
  end.

Lemma pause_app_refines cx acc w u w' :
  running cx GMP_ID -> pause_app cx acc w = Ok (u, w') -> g_refines cx w w'.
Proof. intros Hrun Hr. unfold pause_app, gmp_admin_accounts in Hr. ginv. g_finish G_pause. Qed.

Lemma unpause_app_refines cx acc w u w' :
  running cx GMP_ID -> unpause_app cx acc w = Ok (u, w') -> g_refines cx w w'.
Proof. intros Hrun Hr. unfold unpause_app, gmp_admin_accounts in Hr. ginv. g_finish G_unpause. Qed.

Lemma gmp_propose_refines cx acc n w u w' :
  running cx GMP_ID -> gmp_propose_access_manager_transfer cx acc n w = Ok (u, w') -> g_refines cx w w'.
Proof.
  intros Hrun Hr. unfold gmp_propose_access_manager_transfer, gmp_admin_accounts, propose_transfer in Hr.
  ginv. g_finish G_propose.
Qed.

Lemma gmp_accept_refines cx acc w u w' :
  running cx GMP_ID -> gmp_accept_access_manager_transfer cx acc w = Ok (u, w') -> g_refines cx w w'.
Proof.
  intros Hrun Hr. unfold gmp_accept_access_manager_transfer, accept_transfer in Hr. ginv.
  simplify_eq. g_finish G_accept.
Qed.

Lemma gmp_cancel_refines cx acc w u w' :
  running cx GMP_ID -> gmp_cancel_access_manager_transfer cx acc w = Ok (u, w') -> g_refines cx w w'.
Proof.
  intros Hrun Hr. unfold gmp_cancel_access_manager_transfer, gmp_admin_accounts, cancel_transfer in Hr.
  ginv. g_finish G_cancel.
Qed.

Lemma gmp_initialize_refines cx acc am w u w' :
  gmp_initialize cx acc am w = Ok (u, w') -> g_refines cx w w'.
Proof.
  intros Hr. unfold gmp_initialize in Hr. ginv.
  assert (gi_app_state acc = gk GKState) as Hk by done. rewrite Hk in *.
  match goal with Hi : init_account _ _ _ _ _ _ = Ok _ |- _ =>
    apply (evol_init _ GKState) in Hi as (Hev & Hnone & _ & _ & _ & Hck & _); [|done] end.
  apply (evol_store GKState) in Hr as (Hev2 & Hst & _); [|done].
  rewrite Hck in *. eapply steps_intro.
  - eapply G_initialize; [|eassumption| |exact Hnone].
    + match goal with D : as_ProgramData _ = Some _ |- _ => apply as_ProgramData_Some in D end.
      subst. eexists. split; [|done].
      match goal with E : gi_program_data acc = _ |- _ => by rewrite <- E end.
    + by match goal with E : bool_decide (am = _) = false |- _ => apply bool_decide_eq_false in E end.
  - exact (evol_trans _ _ _ _ _ _ _ Hev (evol_trans _ _ _ _ _ _ _ (evol_log_entry _ _) Hev2)).
  - simpl. set_solver.
  - by apply Forall_singleton.
Qed.

(** *** Sending *)

Lemma send_packet_return cx acc msg w u w' :
  send_packet cx acc msg w = Ok (u, w') ->
  w_return_data w' = Some (ROUTER_ID, u64_to_le_bytes (msp_sequence msg)).
Proof.
  intros Hr. unfold send_packet in Hr. minv. by apply store_account_Ok in Hr as (? & _ & _ & _ & ->).
Qed.

Lemma gmp_not_router' : ROUTER_ID <> GMP_ID.
Proof. intros E. by apply gmp_not_router. Qed.

(** The router sent the packet, and returned its sequence. *)
Lemma send_packet_cpi_Ok cx acc msg d w s w' :
  running cx GMP_ID -> sc_router_program acc = ROUTER_ID -> sc_app_state acc = gk GKState ->
  g_stored w GKState d -> is_u64 (msp_sequence msg) ->
  send_packet_cpi cx acc msg w = Ok (s, w') ->
  s = msp_sequence msg /\ g_evol [] [LInvoke GMP_ID ROUTER_ID (IxSendPacket msg)] w w' /\
  w_clock w' = w_clock w /\
  exists dest m, w_log w' = w_log w ++ m /\
    LEvent ROUTER_ID (SendPacketEvent (msp_source_client msg) (msp_sequence msg)
      (mkPacket (msp_sequence msg) (msp_source_client msg) dest (msp_timeout_timestamp msg)
         [msp_payload msg]) (msp_timeout_timestamp msg)) ∈ m.
Proof.
  intros Hrun Hrp Hk Hst Hu Hr. unfold send_packet_cpi, returned_u64 in Hr. ginv.
  rewrite Hrp, Hk in Hm.
  pose proof (running_callee _ _ _ _ _ _ _ _ _ Hm Hrun gmp_not_router
    ltac:(repeat constructor; apply pda_key_is_pda)) as Hrun2.
  assert (g_evol [] [LInvoke GMP_ID ROUTER_ID (IxSendPacket msg)] w w0) as Hev.
  { eapply evol_invoke_signed; [done|exact gmp_not_router'| |exact Hm].
    intros K HK ->%list_elem_of_singleton%gk_inj; [|done..]. by exists d. }
  apply invoke_signed_Ok in Hm as (_ & _ & Hp & _); [|done|exact gmp_not_router].
  pose proof (process_clock _ _ _ _ _ _ Hp) as Hck.
  apply router_send_entry in Hp as (racc & _ & Hx).
  pose proof (send_packet_return _ _ _ _ _ _ Hx) as Hret.
  eapply exec_router_refines in Hx as (ch & l & [Hperf _] & Hev' & _); [|done|exact Hu].
  rewrite Hret in *. simplify_eq/=.
  apply evol_log in Hev' as (m & Hm & Hf). destruct Hperf as (prog & dest & ->).
  split_and!; [exact (u64_le_roundtrip _ Hu)|done|done|].
  exists dest, (LInvoke GMP_ID ROUTER_ID (IxSendPacket msg) :: m). split.
  { rewrite Hm. simpl. by rewrite <- (assoc_L (++)). }
  right. eapply (list_elem_of_filter (logged_by ROUTER_ID)). rewrite Hf. set_solver.
Qed.

Lemma u64_try_from_i64_Some t n : u64_try_from_i64 t = Some n -> n = t /\ 0 <= t.
Proof. unfold u64_try_from_i64. destruct (Z.leb_spec 0 t); naive_solver. Qed.

(** A call that was sent: what the program checked, and what was logged. *)
Record call_sent (w w' : World) (sender : Pubkey) (msg : SendCallMsg) (payload : Payload) (dest : bytes)
    (m : list LogEntry) : Prop := {
  cs_client : (1 <= length (scm_source_client msg) <= 32)%nat;
  cs_timeout : w_clock w + GMP_MIN_TIMEOUT_DURATION < scm_timeout_timestamp msg <
    w_clock w + GMP_MAX_TIMEOUT_DURATION;
  cs_payload : call_payload sender msg payload;
  cs_log : w_log w' = w_log w ++ m;
  cs_event : LEvent ROUTER_ID (SendPacketEvent (scm_source_client msg) (scm_sequence msg)
      (mkPacket (scm_sequence msg) (scm_source_client msg) dest (scm_timeout_timestamp msg) [payload])
      (scm_timeout_timestamp msg)) ∈ m }.

(** What [send_call] and [send_call_cpi] do once the sender is known. *)
Lemma send_call_inner_sent cx acc sender msg st w s w' :
  running cx GMP_ID -> sc_router_program acc = ROUTER_ID -> sc_app_state acc = gk GKState ->
  g_stored w GKState (DGMPAppState st) -> is_u64 (scm_sequence msg) ->
  send_call_inner cx acc sender msg w = Ok (s, w') ->
  s = scm_sequence msg /\ exists payload dest m, call_sent w w' sender msg payload dest m /\
    g_evol [] [LInvoke GMP_ID ROUTER_ID (IxSendPacket (mkMsgSendPacket (scm_source_client msg)
         (scm_sequence msg) (scm_timeout_timestamp msg) payload));
       LEvent GMP_ID (GMPCallSent (scm_sequence msg) sender (scm_receiver msg)
         (scm_source_client msg) (scm_salt msg) (Z.of_nat (length (scm_payload msg)))
         (scm_timeout_timestamp msg))] w w'.
Proof.
  intros Hrun Hrp Hk Hst Hu Hr. unfold send_call_inner, ClientId_new in Hr. ginv.
  match goal with E : Constrained_new _ _ _ = Ok _ |- _ => apply Constrained_new_Ok in E as [-> Hlen] end.
  match goal with E : GmpPacketData_try_from _ = Ok ?d |- _ =>
    pose proof E as Hd; apply GmpPacketData_try_from_Ok in E as [-> _] end.
  match goal with E : u64_try_from_i64 _ = Some _ |- _ => apply u64_try_from_i64_Some in E as [-> _] end.
  match goal with E : send_packet_cpi _ _ _ _ = Ok _ |- _ =>
    eapply send_packet_cpi_Ok in E as (-> & Hev & Hck & dest & m & Hm & Hin); [|done..] end.
  simpl in Hin, Hev. split; [done|]. eexists _, dest, _. split.
  2: { exact (evol_trans _ _ _ _ _ _ _ Hev (evol_log_entry _ _)). }
  repeat match goal with E : (_ <? _) = true |- _ => apply Z.ltb_lt in E end.
  constructor; [done|done| |simpl; rewrite Hm, <- (assoc_L (++)); reflexivity|].
  - eexists. split_and!; [exact Hd|eassumption|reflexivity].
  - apply elem_of_app. by left.
Qed.

Lemma send_call_inner_Ok cx acc sender msg st w s w' :
  running cx GMP_ID -> sc_router_program acc = ROUTER_ID -> sc_app_state acc = gk GKState ->
  g_stored w GKState (DGMPAppState st) -> gas_paused st = false -> is_u64 (scm_sequence msg) ->
  sends_as cx sender -> send_call_inner cx acc sender msg w = Ok (s, w') ->
  s = scm_sequence msg /\ exists l, g_evol [] l w w' /\
    forall w2, w_log w2 = w_log w' -> g_trans cx w w2 [(GKState, Some (DGMPAppState st))] l.
Proof.
  intros Hrun Hrp Hk Hst Hp Hu Hs Hr.
  eapply send_call_inner_sent in Hr as (-> & payload & dest & m & [? ? ? Hlog Hin] & Hev); [|done..].
  split; [done|]. eexists. split; [exact Hev|]. intros w2 Hw2.
  eapply (G_send _ _ _ _ _ _ dest); try done. by rewrite Hw2.
Qed.

Ltac g_send_end :=
  match goal with
  | Hs : store_account GMP_ID ?k _ _ = Ok _, Hk : ?k = pda_key _ GMP_ID,
    Hi : send_call_inner _ _ _ _ _ = Ok _ |- _ =>
      assert (k = gk GKState) as HK by exact Hk; rewrite HK in Hs;
      eapply send_call_inner_Ok in Hi as (-> & l & Hev & Ht); [|done|done|exact HK|eassumption..|];
      [apply store_account_Ok in Hs as Hs'; destruct Hs' as (? & _ & _ & _ & ->);
       eapply (g_store_state _ _ _ _ _ _ _
         (evol_trans _ _ _ _ _ _ _ Hev (evol_set_return _ _))); [|exact Hs];
       rewrite app_nil_r; by apply Ht|]
  end.

Lemma send_call_refines cx acc msg w u w' :
  running cx GMP_ID -> is_u64 (scm_sequence msg) -> send_call cx acc msg w = Ok (u, w') ->
  g_refines cx w w'.
Proof.
  intros Hrun Hu Hr. unfold send_call, send_call_accounts_ok in Hr. ginv. g_to_stored.
  g_send_end.
  match goal with E : reject_cpi _ _ _ = Ok _ |- _ => apply reject_cpi_Ok in E as [_ E]; [|done] end.
  by left.
Qed.

Lemma send_call_cpi_refines cx acc msg w u w' :
  running cx GMP_ID -> is_u64 (scm_sequence msg) -> send_call_cpi cx acc msg w = Ok (u, w') ->
  g_refines cx w w'.
Proof.
  intros Hrun Hu Hr. unfold send_call_cpi, send_call_accounts_ok, current_ix_program_id in Hr. ginv.
  g_to_stored. g_send_end. right.
  match goal with E : reject_nested_cpi _ = Ok _ |- _ => apply reject_nested_cpi_Ok in E as Hlen end.
  match goal with D : reject_direct_calls _ = Ok _ |- _ => unfold reject_direct_calls in D end.
  destruct (is_cpi cx) eqn:Hc; [|done].
  match goal with F : head _ = Some _ |- _ =>
    destruct (short_stack _ _ _ Hlen (running_last _ _ Hrun) F) as [[Hs' _]|Hs']; [|done] end.
  assert (is_cpi cx = false) by (apply is_cpi_false; rewrite Hs'; simpl; lia). congruence.
Qed.

(** What [send_call_cpi] leaves for its caller. *)
Lemma send_call_cpi_sent cx acc msg w u w' :
  running cx GMP_ID -> is_u64 (scm_sequence msg) -> send_call_cpi cx acc msg w = Ok (u, w') ->
  w_return_data w' = Some (GMP_ID, u64_to_le_bytes (scm_sequence msg)) /\
  exists sender payload dest m, cx_stack cx = [sender; GMP_ID] /\
    call_sent w w' sender msg payload dest m.
Proof.
  intros Hrun Hu Hr.
  assert (exists sender, cx_stack cx = [sender; GMP_ID] /\ head (cx_stack cx) = Some sender) as (sd & Hsd & Hh).
  { unfold send_call_cpi, send_call_accounts_ok, current_ix_program_id in Hr. ginv.
    match goal with E : reject_nested_cpi _ = Ok _ |- _ => apply reject_nested_cpi_Ok in E as Hlen end.
    match goal with D : reject_direct_calls _ = Ok _ |- _ => unfold reject_direct_calls in D end.
    destruct (is_cpi cx) eqn:Hc; [|done].
    match goal with F : head _ = Some ?x |- _ => exists x; split; [|done];
      destruct (short_stack _ _ _ Hlen (running_last _ _ Hrun) F) as [[Hs' _]|Hs']; [|done] end.
    assert (is_cpi cx = false) by (apply is_cpi_false; rewrite Hs'; simpl; lia). congruence. }
  unfold send_call_cpi, send_call_accounts_ok, current_ix_program_id in Hr. ginv. g_to_stored.
  match goal with Hi : send_call_inner _ _ _ _ _ = Ok _ |- _ =>
    eapply send_call_inner_sent in Hi as (-> & payload & dest & m & [? ? ? Hlog Hin] & _); [|done..] end.
  apply store_account_Ok in Hr as (? & _ & _ & _ & ->). split; [done|].
  exists sd, payload, dest, m. split; [done|]. constructor; try done. congruence.
Qed.

(** *** Results *)

Lemma packet_sender_Ok payload w s w' :
  packet_sender payload w = Ok (s, w') -> w' = w /\ sender_of payload s.
Proof. unfold packet_sender. intros Hr. ginv. split; [done|]. by eexists. Qed.

(** The accounts of the two callbacks. *)
Lemma result_accounts_ok_Ok cx acc c s w u w' :
  is_u64 s -> result_accounts_ok cx acc c s w = Ok (u, w') ->
  gx_result_account acc = gk (GKResult c s) /\
  g_evol [GKResult c s] [] w w' /\ w_accts w !! gk (GKResult c s) = None /\
  w_clock w' = w_clock w /\ exists st, g_stored w GKState (DGMPAppState st) /\ gas_paused st = false.
Proof.
  intros Hu Hr. unfold result_accounts_ok in Hr. ginv. g_to_stored.
  assert (gx_result_account acc = gk (GKResult c s)) as Hk by done. rewrite Hk in *.
  match goal with Hi : init_account _ _ _ _ _ _ = Ok _ |- _ =>
    apply (evol_init _ (GKResult c s)) in Hi as (Hev & Hnone & _ & _ & _ & Hck & _); [|done] end.
  split_and!; eauto.
Qed.

(** Both callbacks end by recording the result. *)
Lemma g_store_result cx c s w w1 w' r e u :
  is_u64 s -> g_evol [GKResult c s] [] w w1 ->
  g_trans cx w w' [(GKResult c s, Some (DGMPCallResult r))] [LEvent GMP_ID e] ->
  store_account GMP_ID (gk (GKResult c s)) (DGMPCallResult r) (add_log w1 (LEvent GMP_ID e)) = Ok (u, w') ->
  g_refines cx w w'.
Proof.
  intros Hu Hev Ht Hs. apply (evol_store (GKResult c s)) in Hs as (Hev2 & Hst & _); [|done].
  eapply steps_intro; [exact Ht| | |].
  - exact (evol_trans _ _ _ _ _ _ _ Hev (evol_trans _ _ _ _ _ _ _ (evol_log_entry _ _) Hev2)).
  - simpl. set_solver.
  - by apply Forall_singleton.
Qed.

(** A callback comes from the router. *)
Lemma entered_from_router cx w ix :
  cx_stack cx = [ROUTER_ID; GMP_ID] -> entered cx w ix ->
  exists metas c, last (w_log w) = Some (LInvoke ROUTER_ID GMP_ID c) /\ gmp_call metas c ix.
Proof. intros Hs He. by apply (He [] ROUTER_ID). Qed.

Lemma on_ack_refines cx acc msg w u w' :
  running cx GMP_ID -> is_u64 (oap_sequence msg) -> entered cx w (GOnAcknowledgementPacket acc msg) ->
  gmp_on_acknowledgement_packet cx acc msg w = Ok (u, w') -> g_refines cx w w'.
Proof.
  intros Hrun Hu He Hr. unfold gmp_on_acknowledgement_packet, init_acknowledged in Hr. ginv.
  match goal with E : result_accounts_ok _ _ _ _ _ = Ok _ |- _ =>
    apply result_accounts_ok_Ok in E as (Hk & Hev & Hnone & Hck & st & Hst & Hp); [|done] end.
  match goal with E : validate_cpi_caller _ _ _ _ = Ok _ |- _ =>
    apply validate_cpi_caller_Ok in E as (_ & _ & Hs); [|done] end.
  match goal with E : packet_sender _ _ = Ok _ |- _ => apply packet_sender_Ok in E as [-> Hsnd] end.
  match goal with E : _ ≫= _ = Ok _ |- _ =>
    apply result_bind_ok in E as (v & Hv%map_err_ok & E); injection E as <- end.
  simpl in Hr. rewrite Hck, Hk in Hr. eapply (g_store_result _ _ _ _ _ _ _ _ _ Hu Hev); [|exact Hr].
  eapply G_ack; [exact Hst|exact Hp|exact Hs| |exact Hnone|exact Hsnd|exact Hv].
  apply entered_from_router in He as (metas & c & Hl & Hc); [|done]. exists c. split; [done|].
  destruct c; try done; [left|right; eauto]. by destruct Hc as [-> _].
Qed.

Lemma on_timeout_refines cx acc msg w u w' :
  running cx GMP_ID -> is_u64 (otp_sequence msg) -> entered cx w (GOnTimeoutPacket acc msg) ->
  gmp_on_timeout_packet cx acc msg w = Ok (u, w') -> g_refines cx w w'.
Proof.
  intros Hrun Hu He Hr. unfold gmp_on_timeout_packet in Hr. ginv.
  match goal with E : result_accounts_ok _ _ _ _ _ = Ok _ |- _ =>
    apply result_accounts_ok_Ok in E as (Hk & Hev & Hnone & Hck & st & Hst & Hp); [|done] end.
  match goal with E : validate_cpi_caller _ _ _ _ = Ok _ |- _ =>
    apply validate_cpi_caller_Ok in E as (_ & _ & Hs); [|done] end.
  match goal with E : packet_sender _ _ = Ok _ |- _ => apply packet_sender_Ok in E as [-> Hsnd] end.
  simpl in Hr. rewrite Hck, Hk in Hr. eapply (g_store_result _ _ _ _ _ _ _ _ _ Hu Hev); [|exact Hr].
  eapply G_timeout; [exact Hst|exact Hp|exact Hs| |exact Hnone|exact Hsnd].
  apply entered_from_router in He as (metas & c & Hl & Hc); [|done]. exists c. split; [done|].
  destruct c; try done; [left|right; eauto]. by destruct Hc as [-> _].
Qed.

(** *** Execution *)

Ltac g_depth :=
  match goal with
  | E : validate_cpi_caller _ _ _ _ = Ok _ |- _ =>
      apply validate_cpi_caller_Ok in E as (_ & _ & E); [|done]; rewrite E; simpl; lia
  | E : require_role _ _ _ _ _ _ _ = Ok _ |- _ =>
      apply require_role_Ok in E as (_ & _ & E & _); [|done]; rewrite E; simpl; lia
  | E : require_admin _ _ _ _ _ _ = Ok _ |- _ =>
      apply require_admin_Ok in E as (_ & ? & ? & _ & _ & _ & E & _); [|done];
      destruct E as [E|(? & E & _)]; rewrite E; simpl; lia
  end.

(** No instruction runs below another call, except the initialization. *)
Lemma exec_gmp_shallow cx ix w u w' :
  last (cx_stack cx) = Some GMP_ID -> exec_gmp cx ix w = Ok (u, w') ->
  (length (cx_stack cx) <= 2)%nat \/ w_accts w !! gk GKState = None.
Proof.
  intros Hl Hr. destruct ix; simpl in Hr.
  - right. unfold gmp_initialize in Hr. ginv.
    match goal with Hi : init_account _ _ ?k _ _ _ = Ok _, Hk : ?k = _ |- _ =>
      rewrite Hk in Hi; by apply init_account_Ok in Hi as (_ & Hn & _) end.
  - left. unfold send_call, send_call_accounts_ok in Hr. ginv.
    match goal with E : reject_cpi _ _ _ = Ok _ |- _ => apply reject_cpi_Ok in E as [_ E]; [|done] end.
    match goal with E : cx_stack cx = _ |- _ => rewrite E; simpl; lia end.
  - left. unfold send_call_cpi, send_call_accounts_ok in Hr. ginv.
    by match goal with E : reject_nested_cpi _ = Ok _ |- _ => apply reject_nested_cpi_Ok in E end.
  - left. unfold gmp_on_recv_packet in Hr. ginv. g_depth.
  - left. unfold gmp_on_acknowledgement_packet in Hr. ginv. g_depth.
  - left. unfold gmp_on_timeout_packet in Hr. ginv. g_depth.
  - left. unfold pause_app, gmp_admin_accounts in Hr. ginv. g_depth.
  - left. unfold unpause_app, gmp_admin_accounts in Hr. ginv. g_depth.
  - left. unfold gmp_propose_access_manager_transfer, gmp_admin_accounts, propose_transfer in Hr. ginv. g_depth.
  - left. unfold gmp_accept_access_manager_transfer, accept_transfer in Hr. ginv. g_depth.
  - left. unfold gmp_cancel_access_manager_transfer, gmp_admin_accounts, cancel_transfer in Hr. ginv. g_depth.
Qed.

(** The program does not execute itself. *)
Lemma self_execution_refused cx metas data pdas w u w' st :
  cx_stack cx = [ROUTER_ID; GMP_ID] -> g_stored w GKState (DGMPAppState st) ->
  invoke_signed cx GMP_ID GMP_ID metas (IxRaw data) pdas w = Ok (u, w') -> False.
Proof.
  intros Hs (a & Ha & _) Hi. unfold invoke_signed in Hi.
  destruct (metas_allowed _ _ _); [|done]. simpl in Hi.
  rewrite (bool_decide_eq_true_2 (GMP_ID = GMP_ID)), andb_false_r in Hi by done.
  destruct (process_instruction _ _ _ _ _) as [w2|] eqn:Hp in Hi; [|done].
  apply gmp_entry in Hp as (ix & _ & Hx).
  apply exec_gmp_shallow in Hx as [Hlen|Hn]; simpl in *.
  - rewrite Hs in Hlen. simpl in Hlen. lia.
  - congruence.
  - rewrite Hs. done.
Qed.

Lemma validate_execution_accounts_Ok cx l u :
  validate_execution_accounts cx l = Ok u ->
  Forall (fun x => snd x = meta_pubkey (fst x) /\ snd x ∉ cx_signers cx) l.
Proof.
  induction l as [|[m k] l IH]; simpl; [done|]. rewrite !result_bind_ok.
  setoid_rewrite result_bind_ok. setoid_rewrite result_bind_ok. setoid_rewrite require_r_ok.
  intros (? & Hk%bool_decide_eq_true & ? & _ & ? & Hs & Hr). constructor; [|by apply IH].
  by apply negb_true_iff, bool_decide_eq_false in Hs.
Qed.

Lemma zip_fst_snd {A B} (l : list A) (k : list B) (f : A -> B) (P : B -> Prop) :
  length k = length l -> Forall (fun x => snd x = f (fst x) /\ P (snd x)) (zip l k) ->
  Forall (fun x => P (f x)) l.
Proof.
  revert k. induction l as [|x l IH]; intros [|y k] Hl Hf; try done. simpl in *.
  apply Forall_cons in Hf as [[-> Hy] Hf]. constructor; [done|]. apply (IH k); [lia|done].
Qed.

(** The only key that signs the call is the account of the remote sender. *)
Definition signs_alone (cx : CallCtx) (metas : list AccountMeta) (account : Pubkey) : Prop :=
  forall m, m ∈ metas -> meta_is_signer m = true -> meta_pubkey m = account.

Lemma on_recv_Ok cx acc msg w u w' :
  running cx GMP_ID -> gmp_on_recv_packet cx acc msg w = Ok (u, w') ->
  exists st d receiver account p w1 ack,
    g_stored w GKState (DGMPAppState st) /\ gas_paused st = false /\
    cx_stack cx = [ROUTER_ID; GMP_ID] /\ execution msg d receiver account p /\ receiver <> GMP_ID /\
    signs_alone cx (gsp_accounts p) account /\
    invoke_signed cx GMP_ID receiver (gsp_accounts p) (IxRaw (gsp_data p)) [account] w = Ok ((), w1) /\
    encode_gmp_ack (match w_return_data w1 with
                    | Some (q, data) => if bool_decide (q = receiver) then data else []
                    | None => []
                    end) (pl_encoding (orp_payload msg)) = Ok ack /\
    store_account GMP_ID (gk GKState) (DGMPAppState st)
      (set_return w1 (Some (GMP_ID, borsh_bytes ack))) = Ok (u, w').
Proof.
  intros Hrun Hr. unfold gmp_on_recv_packet, ClientId_new in Hr. ginv. g_to_stored.
  match goal with E : validate_cpi_caller _ _ _ _ = Ok _ |- _ =>
    apply validate_cpi_caller_Ok in E as (_ & _ & Hstk); [|done] end.
  match goal with E : Constrained_new _ _ _ = Ok _ |- _ => apply Constrained_new_Ok in E as [-> Hlen] end.
  match goal with E : invoke_signed _ _ _ _ _ _ _ = Ok _ |- _ => rename E into Hi end.
  match goal with E : validate_execution_accounts _ _ = Ok _ |- _ =>
    apply validate_execution_accounts_Ok in E; rename E into Hv end.
  match goal with E : (_ =? _)%nat = true |- _ => apply Nat.eqb_eq in E; rename E into Hn end.
  rewrite GMPAccount_new_pda in *. unfold to_account_metas in *.
  match goal with E : gr_app_state acc = pda_key _ _ |- _ =>
    change (pda_key [GMPAppState_SEED] GMP_ID) with (gk GKState) in E; rewrite E in Hr end.
  eexists _, _, _, _, _, _, _. split_and!; [eassumption|done|done| | | |exact Hi|eassumption|exact Hr].
  - constructor; try done. by eexists.
  - intros ->. by eapply self_execution_refused.
  - pose proof (zip_fst_snd _ _ meta_pubkey (fun k => k ∉ cx_signers cx) Hn Hv) as Hf. simpl in Hf. rewrite Forall_forall in Hf.
    intros m Hin Hsg. apply invoke_signed_metas in Hi. unfold metas_allowed in Hi.
    rewrite forallb_forall in Hi. apply list_elem_of_In in Hin as Hin'.
    specialize (Hi m Hin'). rewrite Hsg in Hi. simpl in Hi. apply andb_true_iff in Hi as [Hi _].
    apply orb_true_iff in Hi as [Hi%bool_decide_eq_true|Hi]; [by apply Hf in Hi|].
    by apply contains_spec, list_elem_of_singleton in Hi.
Qed.

Lemma on_recv_refines cx acc msg w u w' :
  running cx GMP_ID -> gmp_on_recv_packet cx acc msg w = Ok (u, w') -> g_refines cx w w'.
Proof.
  intros Hrun (st & d & r & k & p & w1 & ack & Hst & Hp & Hs & Hex & Hne & _ & Hi & _ & Hr)%on_recv_Ok;
    [|done].
  eapply (evol_invoke_signed (typed := gk_typed)) in Hi; [|done|exact Hne|].
  2: { intros K _ Hin%list_elem_of_singleton. exfalso. revert Hin.
       rewrite (ex_account _ _ _ _ _ Hex). apply gk_not_account. }
  eapply (g_store_state _ _ _ _ _ _ _ (evol_trans _ _ _ _ _ _ _ Hi (evol_set_return _ _))); [|exact Hr].
  by eapply G_recv.
Qed.

Lemma exec_gmp_refines cx ix w u w' :
  running cx GMP_ID -> gmp_ix_typed ix -> entered cx w ix -> exec_gmp cx ix w = Ok (u, w') ->
  g_refines cx w w'.
Proof.
  intros Hrun Hty He. destruct ix; simpl in *.
  - apply gmp_initialize_refines.
  - by apply send_call_refines.
  - by apply send_call_cpi_refines.
  - by apply on_recv_refines.
  - by apply on_ack_refines.
  - by apply on_timeout_refines.
  - by apply pause_app_refines.
  - by apply unpause_app_refines.
  - by apply gmp_propose_refines.
  - by apply gmp_accept_refines.
  - by apply gmp_cancel_refines.
Qed.

End GmpRefinement.

(** ** Histories *)

(** One successful instruction. *)
Definition g_step `{Platform} `{GmpLib} (w w' : World) : Prop :=
  exists cx ix, running cx GMP_ID /\ gmp_ix_typed ix /\ entered cx w ix /\
    exec_gmp cx ix w = Ok ((), w').

Notation g_reachable := (reach_at GMP_ID gk gk_typed g_step).
