(* ===== verification/GmpProps.v ===== *)
(** * Properties of the GMP program

    What the program guarantees over any history: the signature of a remote
    sender's account is given to one call, the one its own packet asks for;
    every recorded result is the outcome that the router settled for the
    packet of that client and sequence, under the name of the sender that
    made the call, and stays as it is; a callback of the router for a call
    the program sent goes through, unless the identifiers are too long for
    the result account. *)

From S2P Require Import Prelude Errors Types Runtime Ics24 Cpi AccessManager AccessManagerSpec Keyed.
From S2P Require Import Histories Chunking Router ChunkingSpec RouterSpec RouterProps GmpTypes Gmp GmpSpec.
From Stdlib Require Import ZArith Lia.
From Stdlib.Strings Require Import Byte.
From stdpp Require Import prelude gmap list.

#[local] Open Scope Z_scope.

(** ** The router's calls *)

(** Equal entries carry the same event. *)
Lemma LEvent_inj p p' e e' : LEvent p e = LEvent p' e' -> e = e'.
Proof. by intros [= _ ->]. Qed.

Definition is_raw (c : CpiIx) : Prop := match c with IxRaw _ => True | _ => False end.

Section RouterCalls.
Context `{Platform} `{!PlatformOk} `{!RouterDeployed}.

Definition no_raw_call (e : LogEntry) : Prop :=
  match e with LInvoke _ _ (IxRaw _) => False | _ => True end.

(** The router calls other programs by their interfaces only. *)
Lemma router_calls_typed w : r_reachable w -> Forall no_raw_call (own_log ROUTER_ID w).
Proof.
  intros Hr. refine (proj1 (reach_at_induct r_step _ (fun _ l => Forall no_raw_call l) r_step_steps _ _ _ w Hr)).
  - by intros v v' l _.
  - done.
  - intros w0 w1 ch l IH _ [cx Ht] Hev _ _. rewrite (ev_log _ _ _ _ Hev). apply Forall_app. split; [done|].
    destruct Ht; by repeat constructor.
Qed.

Lemma router_never_raw w p d : r_reachable w -> LInvoke ROUTER_ID p (IxRaw d) ∉ w_log w.
Proof.
  intros Hr Hin. pose proof (router_calls_typed w Hr) as Hf. rewrite Forall_forall in Hf.
  apply (Hf (LInvoke ROUTER_ID p (IxRaw d))). by apply list_elem_of_filter.
Qed.

(** A callback in the log settled a packet. *)
Lemma callback_settles w c s e :
  is_u64 s -> r_reachable w -> e ∈ own_log ROUTER_ID w -> is_settlement_of c s e = true ->
  exists l1 l2, own_log ROUTER_ID w = l1 ++ e :: l2 /\ settles_sent c s l1 e.
Proof.
  intros Hs Hr (l1 & l2 & E)%list_elem_of_split He. exists l1, l2. split; [done|].
  by apply (si_hist _ _ _ _ (reachable_sends w c s Hs Hr) l1 e l2).
Qed.

(** The packet of a client and sequence, as its event has it. *)
Lemma send_event_unique w c s p t p' t' :
  is_u64 s -> r_reachable w ->
  LEvent ROUTER_ID (SendPacketEvent c s p t) ∈ own_log ROUTER_ID w ->
  LEvent ROUTER_ID (SendPacketEvent c s p' t') ∈ own_log ROUTER_ID w -> p = p' /\ t = t'.
Proof.
  intros Hs Hr Hin1 Hin2. pose proof (sent_once w c s Hs Hr) as Hc.
  apply list_elem_of_split in Hin1 as (l1 & l2 & E). rewrite E in Hin2, Hc.
  rewrite count_app in Hc. unfold count in Hc. simpl in Hc.
  rewrite bool_decide_eq_true_2 in Hc by done. simpl in Hc.
  assert (forall l, count (is_send c s) l = 0%nat ->
    LEvent ROUTER_ID (SendPacketEvent c s p' t') ∈ l -> False) as Hno.
  { intros l Hz Hin. apply count_zero in Hz. rewrite Forall_forall in Hz.
    specialize (Hz _ Hin). simpl in Hz. by rewrite bool_decide_eq_true_2 in Hz. }
  rewrite elem_of_app, elem_of_cons in Hin2. unfold count in Hno.
  destruct Hin2 as [Hin2|[Hin2|Hin2]]; [|apply LEvent_inj in Hin2; by injection Hin2 as <- <-|].
  - exfalso. eapply Hno; [|exact Hin2]. lia.
  - exfalso. eapply Hno; [|exact Hin2]. lia.
Qed.

(** The call to the application in [ack_packet] and [timeout_packet], and the
    store that follows it. *)
Lemma ack_callback_Ok cx acc msg w u w' :
  running cx ROUTER_ID -> ack_packet cx acc msg w = Ok (u, w') ->
  exists p pl app m w1 w2 k, head (mpk_payloads (map_packet msg)) = Some m /\
    stored w (KApp (mpl_source_port m)) (DIBCApp app) /\
    process_instruction (callee_ctx cx (app_program_id app) k) (app_program_id app) k
      (IxOnAcknowledgementPacket (mkOnAcknowledgementPacketMsg (pkt_source_client p) (pkt_dest_client p)
         (pkt_sequence p) pl (map_acknowledgement msg) (pk_relayer acc))) w1 = Ok w2 /\
    pkt_source_client p = mpk_source_client (map_packet msg) /\
    pkt_sequence p = mpk_sequence (map_packet msg) /\
    pkt_dest_client p = mpk_dest_client (map_packet msg) /\
    store_account ROUTER_ID (pk_packet_commitment acc) (DCommitment Commitment_EMPTY)
      (add_log w2 (LEvent ROUTER_ID (AckPacketEvent (pkt_source_client p) (pkt_sequence p) p
         [map_acknowledgement msg]))) = Ok (u, w').
Proof.
  intros Hrun Hr. unfold ack_packet, lift24, on_acknowledgement_packet, invoke_ibc_app in Hr.
  cbv zeta in Hr. apply bind_Ok in Hr as ([client v] & w1 & Hacc & Hr).
  apply bind_Ok in Hr as ([[[p pl] n] pd] & w2 & Hopen & Hr).
  apply settle_accounts_Ok in Hacc as (-> & rs & app & m & _ & _ & _ & Hhead & Happ & _ &
    _ & _ & _ & Hprog & _ & _).
  assert (pkt_dest_client p = mpk_dest_client (map_packet msg)) as Hdst.
  { eapply settle_open_Ok in Hopen as (_ & (ds & _ & ->) & _); [done|done|exact Hhead]. }
  eapply settle_open_Ok in Hopen as (_ & Hof & _ & Hseq & Hsrc & _); [|done|exact Hhead].
  minv. match goal with Hq : invoke _ _ _ _ _ _ = Ok _ |- _ =>
    apply invoke_evol in Hq as (_ & _ & Hp); [|done..] end.
  rewrite Hprog in Hp. do 7 eexists. split_and!; [exact Hhead|exact Happ|exact Hp|done..|exact Hr].
Qed.

Lemma timeout_callback_Ok cx acc msg w u w' :
  running cx ROUTER_ID -> timeout_packet cx acc msg w = Ok (u, w') ->
  exists p pl app m w1 w2 k, head (mpk_payloads (mtp_packet msg)) = Some m /\
    stored w (KApp (mpl_source_port m)) (DIBCApp app) /\
    process_instruction (callee_ctx cx (app_program_id app) k) (app_program_id app) k
      (IxOnTimeoutPacket (mkOnTimeoutPacketMsg (pkt_source_client p) (pkt_dest_client p)
         (pkt_sequence p) pl (pk_relayer acc))) w1 = Ok w2 /\
    pkt_source_client p = mpk_source_client (mtp_packet msg) /\
    pkt_sequence p = mpk_sequence (mtp_packet msg) /\
    store_account ROUTER_ID (pk_packet_commitment acc) (DCommitment Commitment_EMPTY)
      (add_log w2 (LEvent ROUTER_ID (TimeoutPacketEvent (pkt_source_client p) (pkt_sequence p) p))) =
      Ok (u, w').
Proof.
  intros Hrun Hr. unfold timeout_packet, lift24, on_timeout_packet, invoke_ibc_app in Hr.
  cbv zeta in Hr. apply bind_Ok in Hr as ([client v] & w1 & Hacc & Hr).
  apply bind_Ok in Hr as ([[[p pl] n] pd] & w2 & Hopen & Hr).
  apply settle_accounts_Ok in Hacc as (-> & rs & app & m & _ & _ & _ & Hhead & Happ & _ &
    _ & _ & _ & Hprog & _ & _).
  eapply settle_open_Ok in Hopen as (_ & Hof & _ & Hseq & Hsrc & _); [|done|exact Hhead].
  minv. match goal with Hq : invoke _ _ _ _ _ _ = Ok _ |- _ =>
    apply invoke_evol in Hq as (_ & _ & Hp); [|done..] end.
  rewrite Hprog in Hp. do 7 eexists. split_and!; [exact Hhead|exact Happ|exact Hp|done..|exact Hr].
Qed.

Lemma stored_app_det w port app app' :
  stored w (KApp port) (DIBCApp app) -> stored w (KApp port) (DIBCApp app') -> app = app'.
Proof. intros (a & Ha & _ & Hd) (a' & Ha' & _ & Hd'). congruence. Qed.

End RouterCalls.

(** ** What the log says of the program's calls and results *)

Section GmpHistory.
Context `{Platform} `{!PlatformOk} `{GmpLib} `{!GmpLibOk}.
Context `{!RouterDeployed} `{!RouterEntry} `{!GmpDeployed}.

Lemma g_step_steps w w' :
  g_step w w' -> steps_to GMP_ID gk gk_typed (fun w w' ch l => exists cx, g_trans cx w w' ch l) w w'.
Proof.
  intros (cx & ix & Hrun & Hty & He & Hx).
  apply exec_gmp_refines in Hx as (ch & l & Ht & ?); [|done..]. exists ch, l. eauto.
Qed.

(** The callback that the result [r] records. *)
Definition reports (r : GMPCallResultAccount) (c : CpiIx) : Prop :=
  match c with
  | IxOnAcknowledgementPacket m =>
      gcr_source_client r = oap_source_client m /\ gcr_sequence r = oap_sequence m /\
      gcr_dest_client r = oap_dest_client m /\ sender_of (oap_payload m) (gcr_sender r) /\
      exists v, packet_acknowledgement_commitment_bytes32 [oap_acknowledgement m] = Ok v /\
        gcr_status r = CallAcknowledgement v
  | IxOnTimeoutPacket m =>
      gcr_source_client r = otp_source_client m /\ gcr_sequence r = otp_sequence m /\
      gcr_dest_client r = otp_dest_client m /\ sender_of (otp_payload m) (gcr_sender r) /\
      gcr_status r = CallTimeout
  | _ => False
  end.

Definition result_logged (c : bytes) (s : Z) (r : GMPCallResultAccount) (lg : list LogEntry) : Prop :=
  gcr_source_client r = c /\ gcr_sequence r = s /\
  exists cpi, LInvoke ROUTER_ID GMP_ID cpi ∈ lg /\ (is_raw cpi \/ reports r cpi).

(** A call the program reported was sent by the router. *)
Definition call_logged (seq : Z) (sender : Pubkey) (c : bytes) (t : Z) (lg : list LogEntry) : Prop :=
  is_u64 seq /\ exists msg dest payload,
    scm_source_client msg = c /\ scm_sequence msg = seq /\ call_payload sender msg payload /\
    LEvent ROUTER_ID (SendPacketEvent c seq (mkPacket seq c dest t [payload]) t) ∈ lg.

Record g_inv (v : GmpKey -> option AccountData) (lg : list LogEntry) : Prop := {
  gi_results c s d : is_u64 s -> v (GKResult c s) = Some d ->
    exists r, d = DGMPCallResult r /\ result_logged c s r lg;
  gi_calls seq sender recv c salt n t :
    LEvent GMP_ID (GMPCallSent seq sender recv c salt n t) ∈ lg -> call_logged seq sender c t lg }.

Lemma result_logged_app c s r lg l : result_logged c s r lg -> result_logged c s r (lg ++ l).
Proof.
  intros (? & ? & cpi & Hin & ?). split_and!; [done..|]. exists cpi. split; [|done].
  apply elem_of_app. by left.
Qed.

Lemma call_logged_app seq sender c t lg l : call_logged seq sender c t lg -> call_logged seq sender c t (lg ++ l).
Proof.
  intros (? & msg & dest & pl & ? & ? & ? & Hin). split; [done|]. exists msg, dest, pl.
  split_and!; [done..|]. apply elem_of_app. by left.
Qed.

(** New entries of the program that report no call. *)
Definition no_call (e : LogEntry) : Prop :=
  match e with LEvent _ (GMPCallSent _ _ _ _ _ _ _) => False | _ => True end.

Lemma calls_app lg m l :
  filter (logged_by GMP_ID) m = l -> Forall no_call l ->
  (forall seq sender recv c salt n t,
     LEvent GMP_ID (GMPCallSent seq sender recv c salt n t) ∈ lg -> call_logged seq sender c t lg) ->
  forall seq sender recv c salt n t,
    LEvent GMP_ID (GMPCallSent seq sender recv c salt n t) ∈ lg ++ m ->
    call_logged seq sender c t (lg ++ m).
Proof.
  intros Hf Hl Hold seq sender recv c salt n t [Hin|Hin]%elem_of_app.
  - by eapply call_logged_app, Hold.
  - exfalso. assert (LEvent GMP_ID (GMPCallSent seq sender recv c salt n t) ∈ l) as Hin'.
    { rewrite <- Hf. by apply list_elem_of_filter. }
    rewrite Forall_forall in Hl. exact (Hl _ Hin').
Qed.

(** The result accounts after a step that changes none, or one. *)
Lemma results_kept w w' ks l c s d :
  g_evol ks l w w' -> is_u64 s -> GKResult c s ∉ ks ->
  value_at gk w' (GKResult c s) = Some d -> value_at gk w (GKResult c s) = Some d.
Proof. intros Hev Hs Hn <-. symmetry. by eapply value_at_evol. Qed.

Lemma g_inv_step cx w w' ch l :
  g_inv (value_at gk w) (w_log w) -> g_trans cx w w' ch l -> g_evol (fst <$> ch) l w w' ->
  (forall K o, (K, o) ∈ ch -> left_at GMP_ID gk w' K o) ->
  g_inv (value_at gk w') (w_log w').
Proof.
  intros [Hres Hcalls] Ht Hev Hch. destruct (evol_log _ _ _ _ Hev) as (m & Hm & Hf).
  assert (forall K o, (K, o) ∈ ch -> value_at gk w' K = o) as Hdata
    by (intros K o Hin; eapply value_at_left, Hch, Hin).
  constructor.
  - intros c s d Hs Hd. destruct (decide (GKResult c s ∈ (fst <$> ch))) as [Hin|Hin].
    2: { eapply results_kept in Hd; [|done..]. destruct (Hres c s d Hs Hd) as (r & -> & Hr).
         exists r. split; [done|]. rewrite Hm. by apply result_logged_app. }
    apply list_elem_of_fmap in Hin as ([K o] & EK & Hin). simpl in EK. subst K.
    rewrite (Hdata _ _ Hin) in Hd. subst o. rewrite Hm. clear Hdata Hch Hev.
    destruct Ht; apply list_elem_of_singleton in Hin; injection Hin; intros; subst; try discriminate.
    all: eexists; split; [reflexivity|]; apply result_logged_app; split_and!; [done|done|];
      match goal with Hl : exists cpi, last _ = Some _ /\ _ |- _ =>
        destruct Hl as (cpi & Hlast & Hcpi); exists cpi; split; [by apply last_Some_elem_of in Hlast|] end;
      destruct Hcpi as [->|[raw ->]]; [right|by left]; simpl; eauto 10.
  - rewrite Hm. destruct Ht; try (by eapply (calls_app _ _ _ Hf); [repeat constructor|exact Hcalls]).
    intros seq sd rc c salt n t [Hin|Hin]%elem_of_app; [by eapply call_logged_app, Hcalls|].
    assert (LEvent GMP_ID (GMPCallSent seq sd rc c salt n t) ∈ filter (logged_by GMP_ID) m) as Hin'
      by (by apply list_elem_of_filter).
    rewrite Hf, !elem_of_cons, elem_of_nil in Hin'. destruct Hin' as [E|[E|[]]]; [discriminate E|].
    apply LEvent_inj in E. injection E as -> -> -> -> -> -> ->. split; [done|]. exists msg, dest, payload.
    split_and!; [done..|]. apply elem_of_app. right.
    match goal with E : w_log w' = w_log w ++ ?m0 |- _ => rewrite E in Hm; by apply (inj (app _)) in Hm as <- end.
Qed.

Lemma g_reachable_inv w : g_reachable w -> g_inv (value_at gk w) (w_log w).
Proof.
  apply (history_induct g_step _ g_inv g_step_steps).
  - intros v v' lg Hv [Hres Hcalls]. constructor; [|exact Hcalls].
    intros c s d Hs Hd. apply Hres; [done|]. by rewrite (Hv (GKResult c s)).
  - intros v lg l [Hres Hcalls] Hl. constructor.
    + intros c s d Hs Hd. destruct (Hres c s d Hs Hd) as (r & -> & Hr). exists r.
      split; [done|]. by apply result_logged_app.
    + apply (calls_app lg l []); [|done|exact Hcalls].
      clear -Hl. induction Hl as [|e l He Hl IH]; [done|]. by rewrite filter_cons_False.
  - constructor; [done|]. by intros ? ? ? ? ? ? ? ?%not_elem_of_nil.
  - intros w0 w1 ch l Hi _ [cx Ht] Hev Hst _. by eapply g_inv_step.
Qed.

(** ** Senders *)

(** What is sent is what the other side decodes. *)
Lemma call_payload_decodes sender msg payload :
  call_payload sender msg payload ->
  decode_validated payload = Ok (mkGmpPacketData (pubkey_to_string sender) (scm_receiver msg)
    (scm_salt msg) (scm_payload msg) (scm_memo msg)).
Proof.
  intros (value & Hd & He & ->). unfold decode_validated. simpl.
  by rewrite (packet_encoding_roundtrip _ _ _ He), result_ret_bind, Hd.
Qed.

Lemma call_payload_sender sender msg payload :
  length sender = 32%nat -> call_payload sender msg payload -> sender_of payload sender.
Proof.
  intros Hl Hc. eexists. split; [by eapply call_payload_decodes|]. by apply pubkey_string_roundtrip.
Qed.

Lemma sender_of_det payload s s' : sender_of payload s -> sender_of payload s' -> s = s'.
Proof. intros (d & Hd & Hs) (d' & Hd' & Hs'). congruence. Qed.

(** ** Results *)

(** A recorded result is a settlement of the router. *)
Lemma result_settled w c s r :
  is_u64 s -> r_reachable w -> g_reachable w -> g_stored w (GKResult c s) (DGMPCallResult r) ->
  exists l1 cpi l2, own_log ROUTER_ID w = l1 ++ LInvoke ROUTER_ID GMP_ID cpi :: l2 /\
    settles_sent c s l1 (LInvoke ROUTER_ID GMP_ID cpi) /\ reports r cpi.
Proof.
  intros Hs Hr Hg (a & Ha & _ & Hd). apply g_reachable_inv in Hg as [Hres _].
  destruct (Hres c s (DGMPCallResult r) Hs) as (r' & E & Hc & Hsq & cpi & Hin & Hcpi).
  { unfold value_at. rewrite Ha. simpl. by rewrite Hd. }
  injection E as <-. destruct Hcpi as [Hraw|Hrep].
  { exfalso. destruct cpi; try done. by eapply router_never_raw. }
  assert (is_settlement_of c s (LInvoke ROUTER_ID GMP_ID cpi) = true) as He.
  { destruct cpi; try done; simpl; apply bool_decide_eq_true; destruct Hrep as (? & ? & _); split; congruence. }
  eapply callback_settles in He as (l1 & l2 & E & Hset); [|done|done|by apply list_elem_of_filter].
  by exists l1, cpi, l2.
Qed.

(** The payload that the recorded callback carried. *)
Definition callback_payload (c : CpiIx) : option Payload :=
  match c with
  | IxOnAcknowledgementPacket m => Some (oap_payload m)
  | IxOnTimeoutPacket m => Some (otp_payload m)
  | _ => None
  end.

Lemma reports_payload r cpi p x :
  reports r cpi -> settlement_of p x (LInvoke ROUTER_ID GMP_ID cpi) ->
  exists pl, pkt_payloads p = [pl] /\ callback_payload cpi = Some pl /\ sender_of pl (gcr_sender r).
Proof.
  destruct cpi; try done; intros (_ & _ & _ & Hs & _) (_ & Hp & _); by eexists.
Qed.

(** The settled packet [p] is the packet [p0] that was sent, unless two of the
    strings hashed for them collide or the commitment is the all-zero string. *)
Definition same_packet (p p0 : Packet) : Prop :=
  pkt_payloads p = pkt_payloads p0 \/
  collides sha256 (commitment_preimages p) (commitment_preimages p0) \/
  packet_commitment_bytes32 p = Commitment_EMPTY.

(** The packet that a recorded result settles. *)
Lemma result_packet w c s r :
  is_u64 s -> r_reachable w -> g_reachable w -> g_stored w (GKResult c s) (DGMPCallResult r) ->
  exists l1 cpi l2 p0 t p x,
    own_log ROUTER_ID w = l1 ++ LInvoke ROUTER_ID GMP_ID cpi :: l2 /\ last l1 = Some x /\
    LEvent ROUTER_ID (SendPacketEvent c s p0 t) ∈ l1 /\ reports r cpi /\
    settlement_of p x (LInvoke ROUTER_ID GMP_ID cpi) /\ same_packet p p0.
Proof.
  intros Hs Hr Hg Hst. destruct (result_settled w c s r Hs Hr Hg Hst) as (l1 & cpi & l2 & E &
    (p0 & t & p & x & Hx & Hsend & _ & Hcom & _ & _ & Hset) & Hrep).
  exists l1, cpi, l2, p0, t, p, x. split_and!; try done.
  destruct Hcom as [[_ Hcom]|Hz]; [|by right; right].
  apply packet_commitment_inj in Hcom as [(_ & _ & ?)|]; [by left|by right; left].
Qed.

(** C10: the result of a call.  In every reachable state, a result recorded for
    a client and a sequence is the one settlement of the router for the packet
    of that client and sequence: it reports the acknowledgement that the light
    client proved, or a timeout for which it proved the absence of a receipt,
    for the packet [p0] that the router sent; and if the GMP program reported
    a call with this client and sequence, the sender of the result is the
    caller, unless SHA-256 collides on the two packets. *)
Theorem gmp_results_truthful w c s r
    (Hs : is_u64 s) (Hr : r_reachable w) (Hg : g_reachable w)
    (Hst : g_stored w (GKResult c s) (DGMPCallResult r)) :
  exists l1 cpi l2 p0 t p x,
    own_log ROUTER_ID w = l1 ++ LInvoke ROUTER_ID GMP_ID cpi :: l2 /\ last l1 = Some x /\
    LEvent ROUTER_ID (SendPacketEvent c s p0 t) ∈ l1 /\ reports r cpi /\
    settlement_of p x (LInvoke ROUTER_ID GMP_ID cpi) /\ same_packet p p0 /\
    forall sender receiver salt n t', length sender = 32%nat ->
      LEvent GMP_ID (GMPCallSent s sender receiver c salt n t') ∈ w_log w ->
      gcr_sender r = sender \/
      collides sha256 (commitment_preimages p) (commitment_preimages p0) \/
      packet_commitment_bytes32 p = Commitment_EMPTY.
Proof.
  destruct (result_packet w c s r Hs Hr Hg Hst) as
    (l1 & cpi & l2 & p0 & t & p & x & E & Hx & Hsend & Hrep & Hset & Hsame).
  exists l1, cpi, l2, p0, t, p, x. split_and!; try done.
  intros sender receiver salt n t' Hl Hin.
  destruct Hsame as [Hp|Hbad]; [left|by right].
  apply g_reachable_inv in Hg as [_ Hcalls].
  apply Hcalls in Hin as (_ & msg & dest & pl & _ & _ & Hcall & Hev).
  assert (LEvent ROUTER_ID (SendPacketEvent c s p0 t) ∈ own_log ROUTER_ID w) as Hsend'
    by (rewrite E; apply elem_of_app; by left).
  assert (LEvent ROUTER_ID (SendPacketEvent c s (mkPacket s c dest t' [pl]) t') ∈ own_log ROUTER_ID w)
    as Hev' by (by apply list_elem_of_filter).
  destruct (send_event_unique w c s _ _ _ _ Hs Hr Hsend' Hev') as [-> _]. simpl in Hp.
  destruct (reports_payload r cpi p x Hrep Hset) as (pl' & Hpl & _ & Hs').
  rewrite Hp in Hpl. injection Hpl as <-. eapply sender_of_det; [exact Hs'|].
  by eapply call_payload_sender.
Qed.

(** Results are final.  Whatever instruction of the program runs, and
    whatever the other programs do in between, a recorded result stays as it
    is; and a second callback for its client and sequence is refused. *)
Theorem gmp_results_final w w' c s d
    (Hs : is_u64 s) (Hg : g_reachable w) (Hst : g_stored w (GKResult c s) d) :
  (g_step w w' \/ others GMP_ID w w' -> g_stored w' (GKResult c s) d) /\
  (forall cx acc m, oap_source_client m = c -> oap_sequence m = s ->
     is_ok (exec_gmp cx (GOnAcknowledgementPacket acc m) w) = false) /\
  (forall cx acc m, otp_source_client m = c -> otp_sequence m = s ->
     is_ok (exec_gmp cx (GOnTimeoutPacket acc m) w) = false).
Proof.
  pose proof Hst as (a & Ha & Ho & Hd).
  assert (forall cx acc u v, result_accounts_ok cx acc c s w = Ok (u, v) -> False) as Hno.
  { intros cx acc u v Hr. apply result_accounts_ok_Ok in Hr as (_ & _ & Hn & _); [congruence|done]. }
  split_and!.
  - intros [Hstep|Hoth].
    + apply g_step_steps in Hstep as (ch & l & [cx Ht] & Hev & _).
      enough (w_accts w' !! gk (GKResult c s) = w_accts w !! gk (GKResult c s)) as E
        by (exists a; by rewrite E).
      apply (ev_same _ _ _ _ Hev); [done|]. destruct Ht; simpl; rewrite list_elem_of_singleton; try done.
      all: intros [= -> ->]; congruence.
    + destruct (reach_funded _ _ _ g_step_steps Hg (GKResult c s) Hs) as [Hn|Hpos]; [congruence|].
      destruct (others_keep _ _ _ _ Hoth (addr_protected (typed := gk_typed) _ w) Hpos) as [E _].
      exists a. by rewrite E.
  - intros cx acc m Hc Hq. simpl. destruct (gmp_on_acknowledgement_packet cx acc m w) as [[u v]|] eqn:Hr; [|done].
    unfold gmp_on_acknowledgement_packet in Hr. rewrite Hc, Hq in Hr. minv. exfalso. by eapply Hno.
  - intros cx acc m Hc Hq. simpl. destruct (gmp_on_timeout_packet cx acc m w) as [[u v]|] eqn:Hr; [|done].
    unfold gmp_on_timeout_packet in Hr. rewrite Hc, Hq in Hr. minv. exfalso. by eapply Hno.
Qed.

(** ** Execution *)

(** C27: the signature of a remote sender's account.  When the program executes
    a received packet, it was called by the router, calls one program, the
    packet's receiver, with the payload's instruction; no key signs that call
    but the account derived from the destination client, the sender and the
    salt of the packet; and this account belongs to no other sender: another
    client, sender or salt with the same account exhibits a collision of
    SHA-256. *)
Theorem gmp_executes_as_sender cx acc msg w w'
    (Hrun : running cx GMP_ID) (Hx : exec_gmp cx (GOnRecvPacket acc msg) w = Ok ((), w')) :
  cx_stack cx = [ROUTER_ID; GMP_ID] /\
  exists d receiver account p,
    execution msg d receiver account p /\ receiver <> GMP_ID /\
    own_log GMP_ID w' = own_log GMP_ID w ++ [LInvoke GMP_ID receiver (IxRaw (gsp_data p))] /\
    (exists w1, process_instruction (callee_ctx cx receiver (gsp_accounts p)) receiver (gsp_accounts p)
        (IxRaw (gsp_data p)) (set_return (add_log w (LInvoke GMP_ID receiver (IxRaw (gsp_data p)))) None) =
        Ok w1) /\
    cx_signers (callee_ctx cx receiver (gsp_accounts p)) ⊆ {[account]} /\
    forall c s t, Forall (fun x : bytes => (length x <= 256)%nat) [c; s; t] ->
      gmp_account_key c s t = account ->
      (c = orp_dest_client msg /\ s = gpd_sender d /\ t = gpd_salt d) \/
      collides sha256 [borsh_account_identifier (mkAccountIdentifier c s t)]
        [borsh_account_identifier (mkAccountIdentifier (orp_dest_client msg) (gpd_sender d) (gpd_salt d))].
Proof.
  apply on_recv_Ok in Hx as (st & d & r & k & p & w1 & ack & Hst & Hp & Hs & Hex & Hne & Hal & Hi & _ & Hr);
    [|done]. split; [done|]. exists d, r, k, p. split_and!; [done..| | | |].
  - eapply (evol_invoke_signed (typed := gk_typed)) in Hi as Hev; [|done|exact Hne|].
    2: { intros K _ Hin%list_elem_of_singleton. exfalso. revert Hin.
         rewrite (ex_account _ _ _ _ _ Hex). apply gk_not_account. }
    apply store_account_Ok in Hr as (a & _ & _ & _ & ->). exact (ev_log _ _ _ _ Hev).
  - apply invoke_signed_Ok in Hi as (_ & _ & Hpr & _); [|done|congruence]. by exists w1.
  - simpl. intros x Hx. apply elem_of_list_to_set, list_elem_of_fmap in Hx as (m & -> & Hm).
    apply list_elem_of_filter in Hm as [Hsg Hm]. rewrite elem_of_singleton. by apply Hal.
  - intros c s t Hl Hk. pose proof (ex_data _ _ _ _ _ Hex) as Hd. unfold decode_validated in Hd.
    apply result_bind_ok in Hd as (raw & _ & Hd%map_err_ok).
    apply GmpPacketData_try_from_Ok in Hd as (-> & Hls & _ & Hlt & _).
    pose proof (ex_client _ _ _ _ _ Hex). rewrite (ex_account _ _ _ _ _ Hex) in Hk.
    apply gmp_account_key_inj in Hk as [E|]; [left|by right|]; [by injection E|].
    rewrite !Forall_cons in *. split_and!; naive_solver lia.
Qed.

(** ** Callbacks go through *)

(** A payer who holds the rent can create an account at a free address. *)
Lemma init_account_runs cx program k payer space w :
  k ∈ cx_writable cx -> w_accts w !! k = None -> w_accts w !! payer = None ->
  rent_minimum_balance space <= lam w payer ->
  exists w1, init_account cx program k payer space w = Ok ((), w1).
Proof.
  intros Hw Hk Hp Hr. pose proof (rent_pos space). pose proof (lam_nonneg w k). unfold init_account.
  set (missing := if Z.eqb (lam w k) 0 then rent_minimum_balance space
                  else u64_saturating_sub (Z.max (rent_minimum_balance space) 1) (lam w k)).
  assert (exists w1, system_transfer payer k missing w = Ok ((), w1)) as [w1 Ht].
  { unfold system_transfer. destruct (missing =? 0); [by eexists|].
    rewrite bool_decide_eq_true_2 by done. simpl.
    destruct (Z.ltb_spec (lam w payer) missing) as [Hlt|]; [|by eexists].
    exfalso. subst missing. unfold u64_saturating_sub in Hlt. destruct (lam w k =? 0); lia. }
  eexists. apply bind_Ok. exists (), w. split; [by apply writable_Ok|].
  apply bind_Ok. exists w, w. split; [done|]. apply bind_Ok. exists (), w.
  split; [apply require_Ok; by rewrite bool_decide_eq_true_2|].
  apply bind_Ok. exists (), w1. split; [exact Ht|]. apply bind_Ok. exists w1, w1. by split.
Qed.

(** A relayer's accounts for a callback of [(c, s)], in a ledger where the
    application runs and the result is not recorded yet. *)
Record callback_ready (cx : CallCtx) (acc : GmpResultAccounts) (w : World) (c : bytes) (s : Z) : Prop := {
  cr_stack : cx_stack cx = [ROUTER_ID; GMP_ID];
  cr_state : gx_app_state acc = gk GKState /\ exists st, g_stored w GKState (DGMPAppState st) /\
    gas_paused st = false /\ gas_bump st = snd (find_program_address [GMPAppState_SEED] GMP_ID);
  cr_sysvar : gx_instruction_sysvar acc = INSTRUCTIONS_SYSVAR_ID;
  cr_system : gx_system_program acc = SYSTEM_PROGRAM_ID;
  cr_payer : gx_payer acc ∈ cx_signers cx /\ (gx_payer acc ∈ cx_writable cx) /\
    w_accts w !! gx_payer acc = None /\
    rent_minimum_balance (8 + GMPCallResultAccount_INIT_SPACE) <= lam w (gx_payer acc);
  cr_result : gx_result_account acc = gk (GKResult c s) /\ (gk (GKResult c s) ∈ cx_writable cx) /\
    w_accts w !! gk (GKResult c s) = None /\ (length c <= 32)%nat }.

Lemma result_accounts_run cx acc w c s :
  running cx GMP_ID -> is_u64 s -> callback_ready cx acc w c s ->
  exists w1, result_accounts_ok cx acc c s w = Ok ((), w1) /\ w_clock w1 = w_clock w /\
    w_log w1 = w_log w /\ w_accts w1 !! gk (GKResult c s) =
      Some (mkAccount GMP_ID DZeroed (8 + GMPCallResultAccount_INIT_SPACE) false).
Proof.
  intros Hrun Hu [Hstk [Hk (st & (a & Ha & Ho & Hd) & Hp & Hb)] Hv Hsy (Hps & Hpw & Hpn & Hpl) (Hr & Hrw & Hrn & Hlc)].
  destruct (init_account_runs cx GMP_ID _ _ _ w Hrw Hrn Hpn Hpl) as [w1 Hi]. exists w1.
  pose proof Hi as Hi'. apply init_account_Ok in Hi' as (_ & _ & Hacc & Hck & _ & Hlog & _ & _).
  split_and!; [|done|done|rewrite Hacc; apply lookup_insert_eq].
  unfold result_accounts_ok, gmp_state_is, seeds_bump_are. rewrite Hk, Hr.
  mrun; [exists a; split_and!; [done|done|by apply as_GMPAppState_Some]|].
  mrun; [done|]. apply bind_Ok. exists (), w. split; [by apply system_program_Ok|].
  mrun; [|done|].
  { unfold seeds_ok. apply andb_true_iff. split; [|done]. apply bool_decide_eq_true.
    apply Forall_cons. split; [simpl; lia|]. apply Forall_cons. split; [done|].
    apply Forall_singleton. rewrite length_u64_to_le_bytes. lia. }
  apply bind_Ok. exists (), w1. split; [exact Hi|].
  apply bind_Ok. exists (), w1. split.
  { apply bind_Ok. exists (), w1. split; [by apply seeds_are_Ok|]. apply require_Ok.
    split; [by apply Z.eqb_eq|done]. }
  mrun; [by rewrite Hp|]. apply bind_Ok. exists (), w1. split; [by apply instructions_sysvar_Ok|].
  by apply writable_Ok.
Qed.

Lemma store_result_runs k r w :
  w_accts w !! k = Some (mkAccount GMP_ID DZeroed (8 + GMPCallResultAccount_INIT_SPACE) false) ->
  data_size (DGMPCallResult r) <= GMPCallResultAccount_INIT_SPACE ->
  exists w', store_account GMP_ID k (DGMPCallResult r) w = Ok ((), w') /\
    held GMP_ID w' k (DGMPCallResult r).
Proof.
  intros Ha Hsz. unfold store_account. rewrite Ha. cbn [acc_owner acc_space].
  rewrite bool_decide_eq_true_2 by done. cbn [negb].
  destruct (Z.ltb_spec (8 + GMPCallResultAccount_INIT_SPACE) (8 + data_size (DGMPCallResult r))); [lia|].
  eexists. split; [done|]. eexists. split; [apply lookup_insert_eq|by split].
Qed.

Lemma packet_sender_runs payload sender w :
  sender_of payload sender -> packet_sender payload w = Ok (sender, w).
Proof.
  intros (d & Hd & Hs). unfold packet_sender, gmp_lift. apply bind_Ok. exists d, w.
  rewrite lift_Ok, map_err_ok, lift_Ok, map_err_ok, ok_or_ok. done.
Qed.

(** C25: callbacks go through.  For a call that the program sent, the router's
    acknowledgement callback succeeds and records the acknowledgement under
    the caller's name, whatever the acknowledgement, and its timeout callback
    succeeds and records the timeout, provided that the application is not
    paused, that a relayer with the right accounts signed and can pay the rent,
    that no result is recorded yet, and that the two client identifiers have at
    most 64 bytes together for an acknowledgement, 96 for a timeout (the
    source client's at most 32): the space of the result account holds no
    more. *)
Theorem gmp_callbacks_go_through cx acc w c s sender msg payload
    (Hrun : running cx GMP_ID) (Hu : is_u64 s) (Hready : callback_ready cx acc w c s)
    (Hcall : call_payload sender msg payload) (Hsender : length sender = 32%nat) :
  (forall m, oap_source_client m = c -> oap_sequence m = s -> oap_payload m = payload ->
     (length c + length (oap_dest_client m) <= 64)%nat ->
     exists w' r, exec_gmp cx (GOnAcknowledgementPacket acc m) w = Ok ((), w') /\
       g_stored w' (GKResult c s) (DGMPCallResult r) /\ gcr_sender r = sender /\
       reports r (IxOnAcknowledgementPacket m)) /\
  (forall m, otp_source_client m = c -> otp_sequence m = s -> otp_payload m = payload ->
     (length c + length (otp_dest_client m) <= 96)%nat ->
     exists w' r, exec_gmp cx (GOnTimeoutPacket acc m) w = Ok ((), w') /\
       g_stored w' (GKResult c s) (DGMPCallResult r) /\ gcr_sender r = sender /\
       reports r (IxOnTimeoutPacket m)).
Proof.
  destruct (result_accounts_run cx acc w c s Hrun Hu Hready) as (w1 & Hra & Hck & _ & Hacc).
  pose proof (call_payload_sender _ _ _ Hsender Hcall) as Hs.
  assert (validate_cpi_caller cx (gx_instruction_sysvar acc) ROUTER_ID GMP_ID = Ok ()) as Hcpi.
  { apply validate_cpi_caller_Ok; [done|]. destruct Hready. split_and!; [done|exact gmp_not_router'|done]. }
  pose proof (proj1 (cr_result _ _ _ _ _ Hready)) as Hk.
  split; intros m Hc Hq Hp Hlen; simpl.
  - destruct (packet_acknowledgement_commitment_bytes32 [oap_acknowledgement m]) as [v|] eqn:Hv; [|done].
    set (r := mkGMPCallResultAccount V1 sender s c (oap_dest_client m) (CallAcknowledgement v)
      (w_clock w1) (result_bump c s)).
    destruct (store_result_runs (gk (GKResult c s)) r
      (add_log w1 (LEvent GMP_ID (GMPCallAcknowledgment c s sender (gk (GKResult c s)) (w_clock w1)))))
      as (w' & Hst & Hheld); [done|unfold r, GMPCallResultAccount_INIT_SPACE, vec_u8_size; simpl;
        unfold vec_u8_size; lia|].
    exists w', r. split; [|split; [done|split; [done|subst; simpl; eauto 10]]].
    unfold gmp_on_acknowledgement_packet. rewrite Hc, Hq, Hp, Hk.
    apply bind_Ok. exists (), w1. split; [exact Hra|]. apply bind_Ok. exists (), w1.
    split; [unfold cpi_lift, gmp_lift; by rewrite lift_Ok, !map_err_ok|].
    apply bind_Ok. exists sender, w1. split; [by apply packet_sender_runs|].
    apply bind_Ok. exists (w_clock w1), w1. split; [done|].
    apply bind_Ok. exists r, w1. split; [|by apply bind_Ok; eexists (), _].
    apply lift_Ok. split; [|done]. unfold init_acknowledged. rewrite Hv, Hc, Hq. done.
  - set (r := mkGMPCallResultAccount V1 sender s c (otp_dest_client m) CallTimeout
      (w_clock w1) (result_bump c s)).
    destruct (store_result_runs (gk (GKResult c s)) r
      (add_log w1 (LEvent GMP_ID (GMPCallTimeout c s sender (gk (GKResult c s)) (w_clock w1)))))
      as (w' & Hst & Hheld); [done|unfold r, GMPCallResultAccount_INIT_SPACE, vec_u8_size; simpl;
        unfold vec_u8_size; lia|].
    exists w', r. split; [|split; [done|split; [done|subst; simpl; eauto 10]]].
    unfold gmp_on_timeout_packet, init_timed_out. rewrite Hc, Hq, Hp, Hk.
    apply bind_Ok. exists (), w1. split; [exact Hra|]. apply bind_Ok. exists (), w1.
    split; [unfold cpi_lift, gmp_lift; by rewrite lift_Ok, !map_err_ok|].
    apply bind_Ok. exists sender, w1. split; [by apply packet_sender_runs|].
    apply bind_Ok. exists (w_clock w1), w1. split; [done|]. by apply bind_Ok; eexists (), _.
Qed.

(** ** The router and its application *)

(** What a successful callback leaves: the result, in an account it fits. *)
Lemma store_result_Ok c s r w1 w' u :
  w_accts w1 !! gk (GKResult c s) =
    Some (mkAccount GMP_ID DZeroed (8 + GMPCallResultAccount_INIT_SPACE) false) ->
  store_account GMP_ID (gk (GKResult c s)) (DGMPCallResult r) w1 = Ok (u, w') ->
  g_stored w' (GKResult c s) (DGMPCallResult r) /\
  data_size (DGMPCallResult r) <= GMPCallResultAccount_INIT_SPACE.
Proof.
  intros Ha (a & Ha' & Ho & Hsz & ->)%store_account_Ok. rewrite Ha in Ha'. injection Ha' as <-.
  split; [|cbn [acc_space] in Hsz; lia]. eexists. split; [apply lookup_insert_eq|by split].
Qed.

Lemma result_accounts_new cx acc c s w u w1 :
  is_u64 s -> result_accounts_ok cx acc c s w = Ok (u, w1) ->
  gx_result_account acc = gk (GKResult c s) /\
  w_accts w1 !! gk (GKResult c s) =
    Some (mkAccount GMP_ID DZeroed (8 + GMPCallResultAccount_INIT_SPACE) false).
Proof.
  intros Hu Hr. unfold result_accounts_ok, gmp_state_is, seeds_bump_are in Hr. minv.
  assert (gx_result_account acc = gk (GKResult c s)) as Hk by done. rewrite Hk in *.
  match goal with Hi : init_account _ _ _ _ _ _ = Ok _ |- _ =>
    apply (evol_init _ (GKResult c s)) in Hi as (_ & _ & Hn & _); [|done] end. done.
Qed.

Lemma ack_callback_records cx acc m w u w' :
  is_u64 (oap_sequence m) -> gmp_on_acknowledgement_packet cx acc m w = Ok (u, w') ->
  exists r, g_stored w' (GKResult (oap_source_client m) (oap_sequence m)) (DGMPCallResult r) /\
    reports r (IxOnAcknowledgementPacket m) /\
    (length (oap_source_client m) + length (oap_dest_client m) <= 64)%nat.
Proof.
  intros Hu Hr. unfold gmp_on_acknowledgement_packet, init_acknowledged in Hr. minv.
  match goal with E : result_accounts_ok _ _ _ _ _ = Ok _ |- _ =>
    apply result_accounts_new in E as (Hk & Hn); [|done] end.
  match goal with E : cpi_lift _ _ = Ok _ |- _ => unfold cpi_lift, gmp_lift in E end. minv.
  match goal with E : packet_sender _ _ = Ok _ |- _ => apply packet_sender_Ok in E as [-> Hsnd] end.
  match goal with E : _ ≫= _ = Ok _ |- _ =>
    apply result_bind_ok in E as (v & Hv%map_err_ok & E); injection E as <- end.
  rewrite Hk in Hr. apply store_result_Ok in Hr as [Hst Hsz]; [|done].
  eexists. split; [exact Hst|]. split; [simpl; eauto 10|].
  unfold GMPCallResultAccount_INIT_SPACE in Hsz. simpl in Hsz. unfold vec_u8_size in Hsz. lia.
Qed.

Lemma timeout_callback_records cx acc m w u w' :
  is_u64 (otp_sequence m) -> gmp_on_timeout_packet cx acc m w = Ok (u, w') ->
  exists r, g_stored w' (GKResult (otp_source_client m) (otp_sequence m)) (DGMPCallResult r) /\
    reports r (IxOnTimeoutPacket m).
Proof.
  intros Hu Hr. unfold gmp_on_timeout_packet in Hr. minv.
  match goal with E : result_accounts_ok _ _ _ _ _ = Ok _ |- _ =>
    apply result_accounts_new in E as (Hk & Hn); [|done] end.
  match goal with E : cpi_lift _ _ = Ok _ |- _ => unfold cpi_lift, gmp_lift in E end. minv.
  match goal with E : packet_sender _ _ = Ok _ |- _ => apply packet_sender_Ok in E as [-> Hsnd] end.
  rewrite Hk in Hr. apply store_result_Ok in Hr as [Hst Hsz]; [|done].
  eexists. split; [exact Hst|]. simpl. eauto 10.
Qed.

(** A result survives what the router does next. *)
Lemma stored_after_router K d e w1 k d' u w' :
  g_stored w1 K d -> store_account ROUTER_ID k d' (add_log w1 e) = Ok (u, w') -> g_stored w' K d.
Proof.
  intros (a & Ha & Ho & Hd) (a' & Ha' & Ho' & _ & ->)%store_account_Ok. exists a.
  split; [|done]. simpl in *. rewrite lookup_insert_ne; [done|]. intros ->.
  rewrite Ha in Ha'. injection Ha' as ->. by apply gmp_not_router; rewrite <- Ho, <- Ho'.
Qed.

(** C26: no call is settled without its result.  When the router acknowledges or
    times out a packet whose port is registered to the GMP program, the
    result of that client and sequence is recorded in the same transaction:
    the commitment of the acknowledgement the relayer proved, or the timeout.
    Hence a packet whose two client identifiers have more than 64 bytes
    together can never be acknowledged. *)
Theorem settled_calls_recorded cx acc w w' app
    (Hrun : running cx ROUTER_ID) :
  (forall msg m, head (mpk_payloads (map_packet msg)) = Some m ->
     stored w (KApp (mpl_source_port m)) (DIBCApp app) -> app_program_id app = GMP_ID ->
     is_u64 (mpk_sequence (map_packet msg)) ->
     exec_router cx (RAckPacket acc msg) w = Ok ((), w') ->
     exists r v, g_stored w' (GKResult (mpk_source_client (map_packet msg))
         (mpk_sequence (map_packet msg))) (DGMPCallResult r) /\
       packet_acknowledgement_commitment_bytes32 [map_acknowledgement msg] = Ok v /\
       gcr_status r = CallAcknowledgement v /\
       (length (mpk_source_client (map_packet msg)) + length (mpk_dest_client (map_packet msg)) <= 64)%nat) /\
  (forall msg m, head (mpk_payloads (mtp_packet msg)) = Some m ->
     stored w (KApp (mpl_source_port m)) (DIBCApp app) -> app_program_id app = GMP_ID ->
     is_u64 (mpk_sequence (mtp_packet msg)) ->
     exec_router cx (RTimeoutPacket acc msg) w = Ok ((), w') ->
     exists r, g_stored w' (GKResult (mpk_source_client (mtp_packet msg))
         (mpk_sequence (mtp_packet msg))) (DGMPCallResult r) /\ gcr_status r = CallTimeout).
Proof.
  split; intros msg m Hm Happ Hid Hu Hx; simpl in Hx.
  - apply ack_callback_Ok in Hx as (p & pl & gapp & m' & w1 & w2 & k & Hm' & Happ' & Hp & Hsrc & Hseq & Hdst & Hst); [|done].
    assert (m' = m) as -> by congruence. assert (gapp = app) as -> by (by eapply stored_app_det).
    rewrite Hid in Hp. apply gmp_entry in Hp as (ix & Hc & Hx). destruct ix; try done. destruct Hc as [-> _].
    apply ack_callback_records in Hx as (r & Hr & Hrep & Hlen); [|simpl; by rewrite Hseq].
    simpl in *. rewrite Hsrc, Hseq, Hdst in *. destruct Hrep as (_ & _ & _ & _ & v & Hv & Hs).
    exists r, v. split_and!; try done. by eapply stored_after_router.
  - apply timeout_callback_Ok in Hx as (p & pl & gapp & m' & w1 & w2 & k & Hm' & Happ' & Hp & Hsrc & Hseq & Hst); [|done].
    assert (m' = m) as -> by congruence. assert (gapp = app) as -> by (by eapply stored_app_det).
    rewrite Hid in Hp. apply gmp_entry in Hp as (ix & Hc & Hx). destruct ix; try done. destruct Hc as [-> _].
    apply timeout_callback_records in Hx as (r & Hr & Hrep); [|simpl; by rewrite Hseq].
    simpl in *. rewrite Hsrc, Hseq in *. destruct Hrep as (_ & _ & _ & _ & Hs).
    exists r. split; [|done]. by eapply stored_after_router.
Qed.

End GmpHistory.
