(* ===== verification/Ift.v ===== *)
(** * The interchain fungible token program

    [programs/ift]: tokens leave the chain by a burn and a GMP call that mints
    them on the other side ([ift_transfer]), arrive by a mint under the account
    that GMP derives for the counterparty ([ift_mint]), and come back when the
    call timed out or failed ([finalize_transfer]).  Around them are the
    bridges, the daily mint limit, the pause switch and the administration.
    One definition per instruction; [exec_ift] is the entry point.  The
    theorems are in [IftSpec.v] and [IftProps.v].

    The token programs and GMP are reached through [process_instruction]; the
    text and wire codecs and the sizes and addresses that [anchor_spl] computes
    are third-party code, the parameter [IftLib]. *)

From S2P Require Import Prelude Errors Types Runtime Ics24 Cpi AccessManager AccessManagerSpec Keyed Histories.
From S2P Require Import Chunking Router GmpTypes Gmp.
From Stdlib Require Import ZArith Lia.
From Stdlib.Strings Require Import Byte.
From stdpp Require Import base gmap list strings pretty.

#[local] Open Scope Z_scope.

(** ** [constants.rs] *)

Definition IFT_DEFAULT_TIMEOUT_DURATION : Z := 60 * 15.
Definition IFT_MAX_TIMEOUT_DURATION : Z := 60 * 60 * 24.
Definition IFT_MIN_TIMEOUT_DURATION : Z := 10.
Definition IFT_MAX_CLIENT_ID_LENGTH : nat := 32.
Definition MAX_COUNTERPARTY_ADDRESS_LENGTH : nat := 128.
Definition IFT_MAX_RECEIVER_LENGTH : nat := 128.
Definition IFT_APP_STATE_SEED : bytes := Eval vm_compute in bs "ift_app_state".
Definition IFT_APP_MINT_STATE_SEED : bytes := Eval vm_compute in bs "ift_app_mint_state".
Definition IFT_BRIDGE_SEED : bytes := Eval vm_compute in bs "ift_bridge".
Definition PENDING_TRANSFER_SEED : bytes := Eval vm_compute in bs "pending_transfer".
Definition MINT_AUTHORITY_SEED : bytes := Eval vm_compute in bs "ift_mint_authority".
Definition SECONDS_PER_DAY : Z := 60 * 60 * 24.
Definition SOLANA_MINT_PAYLOAD_PREFUND_LAMPORTS : Z := 5000000.

(** ** [state.rs] *)

(** [IFTBridge::seeds], [PendingTransfer::seeds] and the like. *)
Definition IFTAppState_seeds : list bytes := [IFT_APP_STATE_SEED].
Definition IFTAppMintState_seeds (mint : Pubkey) : list bytes := [IFT_APP_MINT_STATE_SEED; mint].
Definition IFTBridge_seeds (mint : Pubkey) (client_id : bytes) : list bytes :=
  [IFT_BRIDGE_SEED; mint; client_id].
Definition PendingTransfer_seeds (mint : Pubkey) (client_id : bytes) (sequence : Z) : list bytes :=
  [PENDING_TRANSFER_SEED; mint; client_id; u64_to_le_bytes sequence].
Definition mint_authority_seeds (mint : Pubkey) : list bytes := [MINT_AUTHORITY_SEED; mint].

(** The message a Cosmos chain is sent ([MsgIFTMint] of [ift_transfer.rs]). *)
Record MsgIFTMint := mkMsgIFTMint {
  mm_type_url : bytes;
  mm_signer : bytes;
  mm_denom : bytes;
  mm_receiver : bytes;
  mm_amount : bytes }.

(** ** Third-party code *)

Class IftLib := {
  bech32_ok : bytes -> bool;
  evm_address_from_str : bytes -> option bytes;
  abi_encode_ift_mint_call : bytes -> Z -> bytes;
  serde_json_cosmos_tx : list MsgIFTMint -> bytes;
  associated_token_address : Pubkey -> Pubkey -> Pubkey -> Pubkey;
  spl_mint_len : Z;
  token_2022_mint_len : Z;
  token_metadata_size : bytes -> bytes -> bytes -> Z }.

(** [impl From<CpiValidationError> for IFTError]. *)
Definition IFTError_from_cpi (e : CpiErr.CpiValidationError) : IftErr.IFTError := IftErr.CpiNotAllowed.

Section Ift.
Context `{Platform} `{GmpLib} `{IftLib}.

(** [ChainOptions::validate]. *)
Definition ChainOptions_validate (o : ChainOptions) : result IftErr.IFTError unit :=
  match o with
  | Evm => Ok ()
  | Cosmos denom type_url ica_address =>
      _ ← require_r (negb (bool_decide (denom = []))) IftErr.CosmosEmptyCounterpartyDenom;
      _ ← require_r (negb (bool_decide (type_url = []))) IftErr.CosmosEmptyTypeUrl;
      _ ← require_r (negb (bool_decide (ica_address = []))) IftErr.CosmosEmptyIcaAddress;
      _ ← require_r (bech32_ok ica_address) IftErr.InvalidCosmosIcaAddress;
      _ ← require_r (length denom <=? MAX_COUNTERPARTY_ADDRESS_LENGTH)%nat
            IftErr.InvalidCounterpartyDenomLength;
      _ ← require_r (length type_url <=? MAX_COUNTERPARTY_ADDRESS_LENGTH)%nat
            IftErr.InvalidCosmosTypeUrlLength;
      require_r (length ica_address <=? MAX_COUNTERPARTY_ADDRESS_LENGTH)%nat
        IftErr.InvalidCosmosIcaAddressLength
  | Solana _ _ counterparty_client_id =>
      _ ← require_r (negb (bool_decide (counterparty_client_id = []))) IftErr.EmptyClientId;
      require_r (length counterparty_client_id <=? IFT_MAX_CLIENT_ID_LENGTH)%nat
        IftErr.InvalidClientIdLength
  end.

(** ** Accounts *)

Definition ift_lift {A} (r : result IftErr.IFTError A) : M A := lift (map_err EIft r).

(** [reject_cpi(..).map_err(IFTError::from)?]. *)
Definition ift_reject_cpi (cx : CallCtx) (sysvar : Pubkey) : M unit :=
  ift_lift (map_err IFTError_from_cpi (reject_cpi cx sysvar IFT_ID)).

Definition ift_state_is (k : Pubkey) (s : IFTAppState) : M unit :=
  seeds_bump_are k IFTAppState_seeds (ias_bump s) IFT_ID.
Definition mint_state_is (k mint : Pubkey) (s : IFTAppMintState) : M unit :=
  seeds_bump_are k (IFTAppMintState_seeds mint) (ims_bump s) IFT_ID.
Definition mint_authority_is (k mint : Pubkey) (s : IFTAppMintState) : M unit :=
  seeds_bump_are k (mint_authority_seeds mint) (ims_mint_authority_bump s) IFT_ID.
Definition admin_is (admin : Pubkey) (s : IFTAppState) : M unit :=
  require (bool_decide (admin = ias_admin s)) IftErr.UnauthorizedAdmin.
Definition not_paused (s : IFTAppState) : M unit := require (negb (ias_paused s)) IftErr.AppPaused.

Definition is_token_program (k : Pubkey) : bool :=
  bool_decide (k = SPL_TOKEN_PROGRAM_ID) || bool_decide (k = TOKEN_2022_PROGRAM_ID).

(** [Interface<'info, TokenInterface>]. *)
Definition token_interface (k : Pubkey) : M unit :=
  _ ← require (is_token_program k) AnchorErr.InvalidProgramId;
  w ← get_world;
  require (is_executable w k) AnchorErr.InvalidProgramExecutable.

(** [InterfaceAccount<'info, T>], and its [reload]. *)
Definition load_interface {A} (proj : AccountData -> option A) (k : Pubkey) : M A := fun w =>
  match w_accts w !! k with
  | None =>
      if Z.eqb (lam w k) 0 then Err (EAnchor AnchorErr.AccountNotInitialized)
      else Err (EAnchor AnchorErr.AccountOwnedByWrongProgram)
  | Some a =>
      if is_token_program (acc_owner a) then try_deserialize proj k w
      else Err (EAnchor AnchorErr.AccountOwnedByWrongProgram)
  end.

(** [#[account(init_if_needed, associated_token::{mint, authority, token_program})]]. *)
Definition init_ata_if_needed (cx : CallCtx) (ata payer mint authority token_program
    associated_token_program system_program : Pubkey) : M unit :=
  w ← get_world;
  _ ← (if bool_decide (owner_of w ata = SYSTEM_PROGRAM_ID)
       then invoke cx IFT_ID associated_token_program
              [mkAccountMeta payer true true; mkAccountMeta ata false true;
               mkAccountMeta authority false false; mkAccountMeta mint false false;
               mkAccountMeta system_program false false; mkAccountMeta token_program false false]
              (IxCreateAssociatedTokenAccount ata authority mint)
       else mret ());
  pa ← try_deserialize as_TokenAccount ata;
  _ ← require (bool_decide (ta_mint pa = mint)) AnchorErr.ConstraintTokenMint;
  _ ← require (bool_decide (ta_owner pa = authority)) AnchorErr.ConstraintTokenOwner;
  _ ← owner_is ata token_program AnchorErr.ConstraintAssociatedTokenTokenProgram;
  require (bool_decide (ata = associated_token_address authority mint token_program))
    AnchorErr.AccountNotAssociatedTokenAccount.

(** ** [helpers.rs] *)

Definition current_day (now : Z) : Z := if Z.ltb now 0 then 0 else now / SECONDS_PER_DAY.

Definition with_rate (s : IFTAppMintState) (day usage : Z) : IFTAppMintState :=
  mkIFTAppMintState (ims_version s) (ims_bump s) (ims_mint s) (ims_mint_authority_bump s)
    (ims_daily_mint_limit s) day usage.

Definition maybe_reset_day (s : IFTAppMintState) (now : Z) : IFTAppMintState :=
  let today := current_day now in
  if Z.eqb (ims_rate_limit_day s) today then s else with_rate s today 0.

Definition check_and_update_mint_rate_limit (s : IFTAppMintState) (amount now : Z)
    : result IftErr.IFTError IFTAppMintState :=
  if Z.eqb (ims_daily_mint_limit s) 0 then Ok s
  else
    let s := maybe_reset_day s now in
    new_usage ← ok_or (u64_checked_add (ims_rate_limit_daily_usage s) amount)
                  IftErr.MintRateLimitExceeded;
    _ ← require_r (Z.leb new_usage (ims_daily_mint_limit s)) IftErr.MintRateLimitExceeded;
    Ok (with_rate s (ims_rate_limit_day s) new_usage).

Definition reduce_mint_rate_limit_usage (s : IFTAppMintState) (amount now : Z) : IFTAppMintState :=
  if Z.eqb (ims_daily_mint_limit s) 0 then s
  else
    let s := maybe_reset_day s now in
    with_rate s (ims_rate_limit_day s) (u64_saturating_sub (ims_rate_limit_daily_usage s) amount).

Definition mint_to_account (cx : CallCtx) (mint_state : IFTAppMintState)
    (now : Z) (mint token_account mint_authority token_program : Pubkey) (amount : Z)
    : M IFTAppMintState :=
  mint_state ← ift_lift (check_and_update_mint_rate_limit mint_state amount now);
  _ ← invoke_signed cx IFT_ID token_program
        [mkAccountMeta mint false true; mkAccountMeta token_account false true;
         mkAccountMeta mint_authority true false]
        (IxMintTo mint token_account mint_authority amount)
        [pda_key (mint_authority_seeds mint) IFT_ID];
  _ ← load_interface as_Mint mint;
  _ ← load_interface as_TokenAccount token_account;
  mret mint_state.

(** *** [IftMintAccounts] *)

Record IftMintAccounts := mkIftMintAccounts {
  ima_app_state : Pubkey;
  ima_app_mint_state : Pubkey;
  ima_ift_bridge : Pubkey;
  ima_mint : Pubkey;
  ima_mint_authority : Pubkey;
  ima_receiver_ata : Pubkey;
  ima_receiver : Pubkey;
  ima_gmp_account : Pubkey }.

Definition IftMintAccounts_derive (ift_program_id mint : Pubkey) (client_id source_address : bytes)
    (receiver : Pubkey) : M IftMintAccounts :=
  app_state ← derive_pda IFTAppState_seeds ift_program_id;
  app_mint_state ← derive_pda (IFTAppMintState_seeds mint) ift_program_id;
  ift_bridge ← derive_pda (IFTBridge_seeds mint client_id) ift_program_id;
  mint_authority ← derive_pda (mint_authority_seeds mint) ift_program_id;
  let receiver_ata := associated_token_address receiver mint SPL_TOKEN_PROGRAM_ID in
  client_id ← ift_lift (map_err (fun _ => IftErr.InvalidClientIdLength) (ClientId_new client_id));
  source_address ← ift_lift (map_err (fun _ => IftErr.EmptyCounterpartyAddress)
                               (Sender_new source_address));
  let gmp := GMPAccount_new client_id source_address [] GMP_ID in
  mret (mkIftMintAccounts app_state app_mint_state ift_bridge mint mint_authority receiver_ata
          receiver (ga_pda gmp)).

Definition IftMintAccounts_to_payload (a : IftMintAccounts) (ix_data : bytes) : GmpSolanaPayload :=
  mkGmpSolanaPayload ix_data
    [mkAccountMeta (ima_app_state a) false false;
     mkAccountMeta (ima_app_mint_state a) false true;
     mkAccountMeta (ima_ift_bridge a) false false;
     mkAccountMeta (ima_mint a) false true;
     mkAccountMeta (ima_mint_authority a) false false;
     mkAccountMeta (ima_receiver_ata a) false true;
     mkAccountMeta (ima_receiver a) false false;
     mkAccountMeta (ima_gmp_account a) true false;
     mkAccountMeta (ima_gmp_account a) true true;
     mkAccountMeta SPL_TOKEN_PROGRAM_ID false false;
     mkAccountMeta ASSOCIATED_TOKEN_PROGRAM_ID false false;
     mkAccountMeta SYSTEM_PROGRAM_ID false false]
    SOLANA_MINT_PAYLOAD_PREFUND_LAMPORTS.

(** ** [build.rs]: the generated constants *)

Definition IFT_MINT_DISCRIMINATOR : bytes := take 8 (sha256 (bs "global:ift_mint")).
Definition ERROR_ACK_COMMITMENT : bytes :=
  let universal_error_ack := sha256 (bs "UNIVERSAL_ERROR_ACKNOWLEDGEMENT") in
  let inner_hash := sha256 universal_error_ack in
  sha256 ([IBC_VERSION] ++ inner_hash).

(** [instruction::IftMint { msg }.data()]: the discriminator and the message
    in Borsh. *)
Definition ift_mint_data (msg : IFTMintMsg) : bytes :=
  IFT_MINT_DISCRIMINATOR ++ imm_receiver msg ++ u64_to_le_bytes (imm_amount msg).

(** ** [instructions/initialize.rs] *)

Record IftInitializeAccounts := mkIftInitializeAccounts {
  ii_app_state : Pubkey;
  ii_payer : Pubkey;
  ii_system_program : Pubkey;
  ii_program_data : Pubkey;
  ii_authority : Pubkey }.

Definition ift_initialize (cx : CallCtx) (acc : IftInitializeAccounts) (admin : Pubkey) : M unit :=
  _ ← signer cx (ii_payer acc);
  _ ← system_program (ii_system_program acc);
  program_data ← load_account BPF_LOADER_UPGRADEABLE_ID as_ProgramData (ii_program_data acc);
  _ ← signer cx (ii_authority acc);
  _ ← seeds_are (ii_app_state acc) IFTAppState_seeds IFT_ID;
  _ ← init_account cx IFT_ID (ii_app_state acc) (ii_payer acc) (8 + IFTAppState_INIT_SPACE);
  _ ← writable cx (ii_payer acc);
  _ ← seeds_are (ii_program_data acc) [IFT_ID] BPF_LOADER_UPGRADEABLE_ID;
  _ ← require (bool_decide (program_data = Some (ii_authority acc))) IftErr.UnauthorizedDeployer;
  now ← clock_unix_timestamp;
  _ ← emit IFT_ID (IFTInitialized admin now);
  store_account IFT_ID (ii_app_state acc)
    (DIFTAppState (mkIFTAppState V1 (snd (find_program_address IFTAppState_seeds IFT_ID)) admin false None)).

(** ** [instructions/create_and_initialize_spl_token.rs] *)

Record CreateTokenAccounts := mkCreateTokenAccounts {
  ct_app_state : Pubkey;
  ct_app_mint_state : Pubkey;
  ct_mint : Pubkey;
  ct_mint_authority : Pubkey;
  ct_admin : Pubkey;
  ct_payer : Pubkey;
  ct_token_program : Pubkey;
  ct_system_program : Pubkey;
  ct_instructions_sysvar : Pubkey }.

(** [system_instruction::allocate] and [assign], signed by the account. *)
Definition system_allocate (k : Pubkey) (space : Z) : M unit := fun w =>
  match w_accts w !! k with
  | Some _ => Err (EAnchor AnchorErr.AccountAlreadyInUse)
  | None => Ok ((), set_accts w (<[k := mkAccount SYSTEM_PROGRAM_ID DZeroed space false]> (w_accts w)))
  end.

Definition system_assign (k owner : Pubkey) : M unit := fun w =>
  match w_accts w !! k with
  | Some a =>
      if bool_decide (acc_owner a = SYSTEM_PROGRAM_ID)
      then Ok ((), set_accts w (<[k := mkAccount owner (acc_data a) (acc_space a) (acc_executable a)]> (w_accts w)))
      else Err (EAnchor AnchorErr.ExternalAccountDataModified)
  | None => Ok ((), set_accts w (<[k := mkAccount owner DZeroed 0 false]> (w_accts w)))
  end.

Definition create_account_defensively (payer target : Pubkey) (required_lamports space : Z)
    (owner : Pubkey) : M unit :=
  w ← get_world;
  let transfer_amount := u64_saturating_sub required_lamports (lam w target) in
  _ ← (if Z.ltb 0 transfer_amount then system_transfer payer target transfer_amount else mret ());
  _ ← system_allocate target space;
  system_assign target owner.

(** [initialize_mint2] without a freeze authority, called with [invoke]. *)
Definition initialize_mint2 (cx : CallCtx) (token_program mint mint_authority : Pubkey) (decimals : Z)
    : M unit :=
  invoke cx IFT_ID token_program [mkAccountMeta mint false true]
    (IxInitializeMint2 mint mint_authority decimals).

Definition create_legacy_mint (cx : CallCtx) (acc : CreateTokenAccounts) (decimals : Z) : M unit :=
  _ ← create_account_defensively (ct_payer acc) (ct_mint acc) (rent_minimum_balance spl_mint_len)
        spl_mint_len (ct_token_program acc);
  initialize_mint2 cx (ct_token_program acc) (ct_mint acc) (ct_mint_authority acc) decimals.

Definition create_token_2022_mint (cx : CallCtx) (acc : CreateTokenAccounts) (decimals : Z)
    (name symbol uri : bytes) : M unit :=
  _ ← require (negb (bool_decide (ct_mint_authority acc = Pubkey_default))) AnchorErr.Panicked;
  let total_space := Z.min u64_max (token_2022_mint_len + token_metadata_size name symbol uri) in
  _ ← create_account_defensively (ct_payer acc) (ct_mint acc) (rent_minimum_balance total_space)
        token_2022_mint_len TOKEN_2022_PROGRAM_ID;
  _ ← invoke cx IFT_ID (ct_token_program acc) [mkAccountMeta (ct_mint acc) false true]
        (IxMetadataPointerInitialize (ct_mint acc) (ct_mint_authority acc) (ct_mint acc));
  _ ← initialize_mint2 cx TOKEN_2022_PROGRAM_ID (ct_mint acc) (ct_mint_authority acc) decimals;
  invoke_signed cx IFT_ID (ct_token_program acc)
    [mkAccountMeta (ct_mint acc) false true; mkAccountMeta (ct_mint_authority acc) false false;
     mkAccountMeta (ct_mint acc) false false; mkAccountMeta (ct_mint_authority acc) true false]
    (IxTokenMetadataInitialize (ct_mint acc) (ct_mint_authority acc) (ct_mint_authority acc)
       name symbol uri)
    [pda_key (mint_authority_seeds (ct_mint acc)) IFT_ID].

(** The state of a mint just added: the bumps, the key and no limit. *)
Definition fresh_mint_state (mint : Pubkey) : IFTAppMintState :=
  mkIFTAppMintState V1 (snd (find_program_address (IFTAppMintState_seeds mint) IFT_ID)) mint
    (snd (find_program_address (mint_authority_seeds mint) IFT_ID)) 0 0 0.

(** The token program must be the one of the requested kind. *)
Definition create_mint (cx : CallCtx) (acc : CreateTokenAccounts) (params : CreateTokenParams) : M unit :=
  match params with
  | SplToken decimals =>
      _ ← require (bool_decide (ct_token_program acc = SPL_TOKEN_PROGRAM_ID)) IftErr.TokenProgramMismatch;
      create_legacy_mint cx acc decimals
  | Token2022 decimals name symbol uri =>
      _ ← require (bool_decide (ct_token_program acc = TOKEN_2022_PROGRAM_ID)) IftErr.TokenProgramMismatch;
      create_token_2022_mint cx acc decimals name symbol uri
  end.

Definition create_and_initialize_spl_token (cx : CallCtx) (acc : CreateTokenAccounts)
    (params : CreateTokenParams) : M unit :=
  app_state ← load_account IFT_ID as_IFTAppState (ct_app_state acc);
  _ ← signer cx (ct_mint acc);
  _ ← signer cx (ct_admin acc);
  _ ← signer cx (ct_payer acc);
  _ ← token_interface (ct_token_program acc);
  _ ← system_program (ct_system_program acc);
  _ ← seeds_are (ct_app_mint_state acc) (IFTAppMintState_seeds (ct_mint acc)) IFT_ID;
  _ ← init_account cx IFT_ID (ct_app_mint_state acc) (ct_payer acc) (8 + IFTAppMintState_INIT_SPACE);
  _ ← ift_state_is (ct_app_state acc) app_state;
  _ ← writable cx (ct_mint acc);
  _ ← seeds_are (ct_mint_authority acc) (mint_authority_seeds (ct_mint acc)) IFT_ID;
  _ ← admin_is (ct_admin acc) app_state;
  _ ← writable cx (ct_payer acc);
  _ ← instructions_sysvar (ct_instructions_sysvar acc);
  _ ← ift_reject_cpi cx (ct_instructions_sysvar acc);
  _ ← create_mint cx acc params;
  now ← clock_unix_timestamp;
  _ ← emit IFT_ID (SplTokenCreated (ct_mint acc) params now);
  store_account IFT_ID (ct_app_mint_state acc) (DIFTAppMintState (fresh_mint_state (ct_mint acc))).

(** ** [instructions/initialize_existing_token.rs] *)

Record ExistingTokenAccounts := mkExistingTokenAccounts {
  et_app_state : Pubkey;
  et_app_mint_state : Pubkey;
  et_mint : Pubkey;
  et_mint_authority : Pubkey;
  et_current_authority : Pubkey;
  et_payer : Pubkey;
  et_token_program : Pubkey;
  et_system_program : Pubkey }.

Definition initialize_existing_token (cx : CallCtx) (acc : ExistingTokenAccounts) : M unit :=
  app_state ← load_account IFT_ID as_IFTAppState (et_app_state acc);
  mint ← load_interface as_Mint (et_mint acc);
  _ ← signer cx (et_current_authority acc);
  _ ← signer cx (et_payer acc);
  _ ← token_interface (et_token_program acc);
  _ ← system_program (et_system_program acc);
  _ ← seeds_are (et_app_mint_state acc) (IFTAppMintState_seeds (et_mint acc)) IFT_ID;
  _ ← init_account cx IFT_ID (et_app_mint_state acc) (et_payer acc) (8 + IFTAppMintState_INIT_SPACE);
  _ ← ift_state_is (et_app_state acc) app_state;
  _ ← writable cx (et_mint acc);
  authority ← ift_lift (ok_or (mi_mint_authority mint) IftErr.MintAuthorityNotSet);
  _ ← seeds_are (et_mint_authority acc) (mint_authority_seeds (et_mint acc)) IFT_ID;
  _ ← require (bool_decide (authority = et_current_authority acc)) IftErr.InvalidMintAuthority;
  _ ← writable cx (et_payer acc);
  _ ← invoke cx IFT_ID (et_token_program acc)
        [mkAccountMeta (et_mint acc) false true; mkAccountMeta (et_current_authority acc) true false]
        (IxSetMintAuthority (et_mint acc) (et_current_authority acc) (Some (et_mint_authority acc)));
  now ← clock_unix_timestamp;
  _ ← emit IFT_ID (ExistingTokenInitialized (et_mint acc) (mi_decimals mint) (et_current_authority acc) now);
  store_account IFT_ID (et_app_mint_state acc) (DIFTAppMintState (fresh_mint_state (et_mint acc))).

(** ** [instructions/register_ift_bridge.rs] and [remove_ift_bridge.rs] *)

Record BridgeAccounts := mkBridgeAccounts {
  br_app_state : Pubkey;
  br_app_mint_state : Pubkey;
  br_ift_bridge : Pubkey;
  br_admin : Pubkey;
  br_payer : Pubkey;
  br_system_program : Pubkey;
  br_instructions_sysvar : Pubkey }.

Definition register_ift_bridge (cx : CallCtx) (acc : BridgeAccounts) (msg : RegisterIFTBridgeMsg)
    : M unit :=
  app_state ← load_account IFT_ID as_IFTAppState (br_app_state acc);
  mint_state ← load_account IFT_ID as_IFTAppMintState (br_app_mint_state acc);
  _ ← signer cx (br_admin acc);
  _ ← signer cx (br_payer acc);
  _ ← system_program (br_system_program acc);
  _ ← seeds_are (br_ift_bridge acc) (IFTBridge_seeds (ims_mint mint_state) (rbm_client_id msg)) IFT_ID;
  _ ← init_account cx IFT_ID (br_ift_bridge acc) (br_payer acc) (8 + IFTBridge_INIT_SPACE);
  _ ← ift_state_is (br_app_state acc) app_state;
  _ ← mint_state_is (br_app_mint_state acc) (ims_mint mint_state) mint_state;
  _ ← admin_is (br_admin acc) app_state;
  _ ← writable cx (br_payer acc);
  _ ← instructions_sysvar (br_instructions_sysvar acc);
  _ ← ift_reject_cpi cx (br_instructions_sysvar acc);
  _ ← require (negb (bool_decide (rbm_client_id msg = []))) IftErr.EmptyClientId;
  _ ← require (length (rbm_client_id msg) <=? IFT_MAX_CLIENT_ID_LENGTH)%nat IftErr.InvalidClientIdLength;
  _ ← require (negb (bool_decide (rbm_counterparty_ift_address msg = []))) IftErr.EmptyCounterpartyAddress;
  _ ← require (length (rbm_counterparty_ift_address msg) <=? MAX_COUNTERPARTY_ADDRESS_LENGTH)%nat
        IftErr.InvalidCounterpartyAddressLength;
  _ ← ift_lift (ChainOptions_validate (rbm_chain_options msg));
  now ← clock_unix_timestamp;
  _ ← emit IFT_ID (IFTBridgeRegistered (ims_mint mint_state) (rbm_client_id msg)
                     (rbm_counterparty_ift_address msg) (rbm_chain_options msg) now);
  store_account IFT_ID (br_ift_bridge acc)
    (DIFTBridge (mkIFTBridge V1
       (snd (find_program_address (IFTBridge_seeds (ims_mint mint_state) (rbm_client_id msg)) IFT_ID))
       (ims_mint mint_state) (rbm_client_id msg) (rbm_counterparty_ift_address msg)
       (rbm_chain_options msg) true)).

Definition remove_ift_bridge (cx : CallCtx) (acc : BridgeAccounts) (client_id : bytes) : M unit :=
  app_state ← load_account IFT_ID as_IFTAppState (br_app_state acc);
  mint_state ← load_account IFT_ID as_IFTAppMintState (br_app_mint_state acc);
  bridge ← load_account IFT_ID as_IFTBridge (br_ift_bridge acc);
  _ ← signer cx (br_admin acc);
  _ ← signer cx (br_payer acc);
  _ ← system_program (br_system_program acc);
  _ ← ift_state_is (br_app_state acc) app_state;
  _ ← mint_state_is (br_app_mint_state acc) (ims_mint mint_state) mint_state;
  _ ← seeds_bump_are (br_ift_bridge acc) (IFTBridge_seeds (ims_mint mint_state) client_id)
        (ib_bump bridge) IFT_ID;
  _ ← writable cx (br_ift_bridge acc);
  _ ← require (bool_decide (ib_mint bridge = ims_mint mint_state)) IftErr.BridgeNotFound;
  _ ← require (negb (bool_decide (br_ift_bridge acc = br_payer acc))) AnchorErr.ConstraintClose;
  _ ← admin_is (br_admin acc) app_state;
  _ ← writable cx (br_payer acc);
  _ ← instructions_sysvar (br_instructions_sysvar acc);
  _ ← ift_reject_cpi cx (br_instructions_sysvar acc);
  now ← clock_unix_timestamp;
  _ ← emit IFT_ID (IFTBridgeRemoved (ims_mint mint_state) client_id now);
  close_account IFT_ID (br_ift_bridge acc) (br_payer acc).

(** ** [instructions/ift_transfer.rs] *)

Record IFTTransferAccounts := mkIFTTransferAccounts {
  it_app_state : Pubkey;
  it_app_mint_state : Pubkey;
  it_ift_bridge : Pubkey;
  it_mint : Pubkey;
  it_sender_token_account : Pubkey;
  it_sender : Pubkey;
  it_payer : Pubkey;
  it_token_program : Pubkey;
  it_system_program : Pubkey;
  it_gmp_program : Pubkey;
  it_gmp_app_state : Pubkey;
  it_router_program : Pubkey;
  it_router_state : Pubkey;
  it_packet_commitment : Pubkey;
  it_gmp_ibc_app : Pubkey;
  it_ibc_client : Pubkey;
  it_light_client_program : Pubkey;
  it_light_client_state : Pubkey;
  it_instruction_sysvar : Pubkey;
  it_consensus_state : Pubkey;
  it_pending_transfer : Pubkey }.

Definition construct_evm_mint_call (receiver : bytes) (amount : Z) : result IftErr.IFTError bytes :=
  receiver ← ok_or (evm_address_from_str receiver) IftErr.InvalidReceiver;
  Ok (abi_encode_ift_mint_call receiver amount).

Definition construct_cosmos_mint_call (type_url signer denom receiver : bytes) (amount : Z) : bytes :=
  serde_json_cosmos_tx
    [mkMsgIFTMint type_url signer denom receiver (bs (pretty (Z.to_N amount)))].

Definition construct_solana_mint_call (ift_program_id counterparty_mint : Pubkey)
    (counterparty_client_id receiver : bytes) (amount : Z) : M bytes :=
  receiver_pubkey ← ift_lift (ok_or (pubkey_from_str receiver) IftErr.InvalidReceiver);
  accounts ← IftMintAccounts_derive ift_program_id counterparty_mint counterparty_client_id
               (pubkey_to_string IFT_ID) receiver_pubkey;
  mret (proto_encode_payload (IftMintAccounts_to_payload accounts
          (ift_mint_data (mkIFTMintMsg receiver_pubkey amount)))).

Definition construct_mint_call (chain_options : ChainOptions) (receiver : bytes) (amount : Z)
    : M bytes :=
  match chain_options with
  | Evm => ift_lift (construct_evm_mint_call receiver amount)
  | Cosmos denom type_url ica_address =>
      mret (construct_cosmos_mint_call type_url ica_address denom receiver amount)
  | Solana ift_program_id counterparty_mint counterparty_client_id =>
      construct_solana_mint_call ift_program_id counterparty_mint counterparty_client_id receiver amount
  end.

Definition transfer_encoding (chain_options : ChainOptions) : bytes :=
  match chain_options with
  | Evm => ICS27_ENCODING_ABI
  | Cosmos _ _ _ | Solana _ _ _ => ICS27_ENCODING_PROTOBUF
  end.

(** The timeout of the packet. *)
Definition transfer_timeout (msg : IFTTransferMsg) (current_time : Z) : result IftErr.IFTError Z :=
  if Z.eqb (itm_timeout_timestamp msg) 0 then Ok (current_time + IFT_DEFAULT_TIMEOUT_DURATION)
  else
    _ ← require_r (Z.ltb (current_time + IFT_MIN_TIMEOUT_DURATION) (itm_timeout_timestamp msg))
          IftErr.TimeoutInPast;
    _ ← require_r (Z.leb (itm_timeout_timestamp msg) (current_time + IFT_MAX_TIMEOUT_DURATION))
          IftErr.TimeoutTooLong;
    Ok (itm_timeout_timestamp msg).

(** [gmp_cpi::send_gmp_call]; a call that fails ends the transaction. *)
Definition send_gmp_metas (acc : IFTTransferAccounts) : list AccountMeta :=
  [mkAccountMeta (it_gmp_app_state acc) false true;
   mkAccountMeta (it_payer acc) true true;
   mkAccountMeta (it_router_program acc) false false;
   mkAccountMeta (it_router_state acc) false false;
   mkAccountMeta (it_packet_commitment acc) false true;
   mkAccountMeta (it_gmp_ibc_app acc) false false;
   mkAccountMeta (it_ibc_client acc) false false;
   mkAccountMeta (it_light_client_program acc) false false;
   mkAccountMeta (it_light_client_state acc) false false;
   mkAccountMeta (it_instruction_sysvar acc) false false;
   mkAccountMeta (it_consensus_state acc) false false;
   mkAccountMeta (it_system_program acc) false false].

Definition gmp_call_msg (source_client : bytes) (timeout_timestamp : Z) (receiver payload encoding : bytes)
    (sequence : Z) : SendCallMsg :=
  mkSendCallMsg source_client sequence timeout_timestamp receiver [] payload [] encoding.

Definition send_gmp_call (cx : CallCtx) (acc : IFTTransferAccounts) (msg : SendCallMsg) : M Z :=
  _ ← invoke cx IFT_ID (it_gmp_program acc) (send_gmp_metas acc) (IxSendCallCpi msg);
  returned_u64.

(** The loads and constraints of [IFTTransfer]; the account of the transfer is
    created between the two. *)
Definition transfer_accounts (cx : CallCtx) (acc : IFTTransferAccounts) (msg : IFTTransferMsg)
    : M (IFTAppMintState * IFTBridge) :=
  app_state ← load_account IFT_ID as_IFTAppState (it_app_state acc);
  mint_state ← load_account IFT_ID as_IFTAppMintState (it_app_mint_state acc);
  bridge ← load_account IFT_ID as_IFTBridge (it_ift_bridge acc);
  _ ← load_interface as_Mint (it_mint acc);
  token_account ← load_interface as_TokenAccount (it_sender_token_account acc);
  _ ← signer cx (it_sender acc);
  _ ← signer cx (it_payer acc);
  _ ← token_interface (it_token_program acc);
  _ ← system_program (it_system_program acc);
  _ ← program_is (it_gmp_program acc) GMP_ID;
  _ ← program_is (it_router_program acc) ROUTER_ID;
  _ ← seeds_are (it_pending_transfer acc)
        (PendingTransfer_seeds (ims_mint mint_state) (itm_client_id msg) (itm_sequence msg)) IFT_ID;
  _ ← init_account cx IFT_ID (it_pending_transfer acc) (it_payer acc) (8 + PendingTransfer_INIT_SPACE);
  _ ← ift_state_is (it_app_state acc) app_state;
  _ ← not_paused app_state;
  _ ← mint_state_is (it_app_mint_state acc) (ims_mint mint_state) mint_state;
  _ ← seeds_bump_are (it_ift_bridge acc) (IFTBridge_seeds (ims_mint mint_state) (itm_client_id msg))
        (ib_bump bridge) IFT_ID;
  _ ← require (negb (bool_decide (itm_client_id msg = []))) IftErr.EmptyClientId;
  _ ← require (length (itm_client_id msg) <=? IFT_MAX_CLIENT_ID_LENGTH)%nat IftErr.InvalidClientIdLength;
  _ ← require (ib_active bridge) IftErr.BridgeNotActive;
  _ ← writable cx (it_mint acc);
  _ ← address_is (it_mint acc) (ims_mint mint_state) AnchorErr.ConstraintAddress;
  _ ← writable cx (it_sender_token_account acc);
  _ ← require (bool_decide (ta_mint token_account = it_mint acc)) IftErr.TokenAccountOwnerMismatch;
  _ ← require (bool_decide (ta_owner token_account = it_sender acc)) IftErr.TokenAccountOwnerMismatch;
  _ ← writable cx (it_payer acc);
  _ ← seeds_are (it_gmp_app_state acc) [GMPAppState_SEED] (it_gmp_program acc);
  _ ← writable cx (it_gmp_app_state acc);
  _ ← seeds_are (it_packet_commitment acc)
        (commitment_seeds PACKET_COMMITMENT_SEED (itm_client_id msg) (itm_sequence msg))
        (it_router_program acc);
  _ ← writable cx (it_packet_commitment acc);
  _ ← instructions_sysvar (it_instruction_sysvar acc);
  mret (mint_state, bridge).

Definition ift_transfer (cx : CallCtx) (acc : IFTTransferAccounts) (msg : IFTTransferMsg) : M unit :=
  '(mint_state, bridge) ← transfer_accounts cx acc msg;
  now ← clock_unix_timestamp;
  _ ← require (Z.ltb 0 (itm_amount msg)) IftErr.ZeroAmount;
  _ ← require (negb (bool_decide (itm_receiver msg = []))) IftErr.EmptyReceiver;
  _ ← require (length (itm_receiver msg) <=? IFT_MAX_RECEIVER_LENGTH)%nat IftErr.InvalidReceiver;
  current_time ← ift_lift (ok_or (u64_try_from_i64 now) IftErr.ArithmeticOverflow);
  timeout ← ift_lift (transfer_timeout msg current_time);
  _ ← invoke cx IFT_ID (it_token_program acc)
        [mkAccountMeta (it_sender_token_account acc) false true; mkAccountMeta (it_mint acc) false true;
         mkAccountMeta (it_sender acc) true false]
        (IxBurn (it_sender_token_account acc) (it_mint acc) (it_sender acc) (itm_amount msg));
  _ ← load_interface as_Mint (it_mint acc);
  _ ← load_interface as_TokenAccount (it_sender_token_account acc);
  payload ← construct_mint_call (ib_chain_options bridge) (itm_receiver msg) (itm_amount msg);
  sequence ← send_gmp_call cx acc
    (gmp_call_msg (itm_client_id msg) timeout (ib_counterparty_ift_address bridge) payload
       (transfer_encoding (ib_chain_options bridge)) (itm_sequence msg));
  _ ← emit IFT_ID (IFTTransferInitiated (ims_mint mint_state) (itm_client_id msg) sequence
                     (it_sender acc) (itm_receiver msg) (itm_amount msg) timeout);
  _ ← set_return_data IFT_ID (u64_to_le_bytes sequence);
  store_account IFT_ID (it_pending_transfer acc)
    (DPendingTransfer (mkPendingTransfer V1
       (snd (find_program_address (PendingTransfer_seeds (ims_mint mint_state) (itm_client_id msg)
                                     (itm_sequence msg)) IFT_ID))
       (ims_mint mint_state) (itm_client_id msg) sequence (it_sender acc) (itm_amount msg) now)).

(** ** [instructions/ift_mint.rs] *)

Record IFTMintAccounts := mkIFTMintAccounts {
  im_app_state : Pubkey;
  im_app_mint_state : Pubkey;
  im_ift_bridge : Pubkey;
  im_mint : Pubkey;
  im_mint_authority : Pubkey;
  im_receiver_token_account : Pubkey;
  im_receiver_owner : Pubkey;
  im_gmp_account : Pubkey;
  im_payer : Pubkey;
  im_token_program : Pubkey;
  im_associated_token_program : Pubkey;
  im_system_program : Pubkey }.

Definition validate_gmp_account (gmp_account : Pubkey) (client_id counterparty_address : bytes)
    : result IftErr.IFTError unit :=
  client_id ← map_err (fun _ => IftErr.InvalidGmpAccount) (ClientId_new client_id);
  counterparty_address ← map_err (fun _ => IftErr.InvalidGmpAccount) (Sender_new counterparty_address);
  let gmp := GMPAccount_new client_id counterparty_address [] GMP_ID in
  require_r (bool_decide (ga_pda gmp = gmp_account)) IftErr.InvalidGmpAccount.

Definition ift_mint (cx : CallCtx) (acc : IFTMintAccounts) (msg : IFTMintMsg) : M unit :=
  app_state ← load_account IFT_ID as_IFTAppState (im_app_state acc);
  mint_state ← load_account IFT_ID as_IFTAppMintState (im_app_mint_state acc);
  bridge ← load_account IFT_ID as_IFTBridge (im_ift_bridge acc);
  _ ← load_interface as_Mint (im_mint acc);
  _ ← signer cx (im_gmp_account acc);
  _ ← signer cx (im_payer acc);
  _ ← token_interface (im_token_program acc);
  _ ← program_is (im_associated_token_program acc) ASSOCIATED_TOKEN_PROGRAM_ID;
  _ ← system_program (im_system_program acc);
  _ ← init_ata_if_needed cx (im_receiver_token_account acc) (im_payer acc) (im_mint acc)
        (im_receiver_owner acc) (im_token_program acc) (im_associated_token_program acc)
        (im_system_program acc);
  _ ← ift_state_is (im_app_state acc) app_state;
  _ ← not_paused app_state;
  _ ← mint_state_is (im_app_mint_state acc) (im_mint acc) mint_state;
  _ ← writable cx (im_app_mint_state acc);
  _ ← seeds_bump_are (im_ift_bridge acc) (IFTBridge_seeds (ims_mint mint_state) (ib_client_id bridge))
        (ib_bump bridge) IFT_ID;
  _ ← require (bool_decide (ib_mint bridge = ims_mint mint_state)) IftErr.InvalidBridge;
  _ ← require (ib_active bridge) IftErr.BridgeNotActive;
  _ ← writable cx (im_mint acc);
  _ ← address_is (im_mint acc) (ims_mint mint_state) AnchorErr.ConstraintAddress;
  _ ← mint_authority_is (im_mint_authority acc) (im_mint acc) mint_state;
  _ ← writable cx (im_receiver_token_account acc);
  _ ← require (bool_decide (im_receiver_owner acc = imm_receiver msg)) IftErr.InvalidReceiver;
  _ ← writable cx (im_payer acc);
  now ← clock_unix_timestamp;
  _ ← require (Z.ltb 0 (imm_amount msg)) IftErr.ZeroAmount;
  _ ← ift_lift (validate_gmp_account (im_gmp_account acc) (ib_client_id bridge)
                  (ib_counterparty_ift_address bridge));
  mint_state ← mint_to_account cx mint_state now (im_mint acc) (im_receiver_token_account acc)
                 (im_mint_authority acc) (im_token_program acc) (imm_amount msg);
  _ ← emit IFT_ID (IFTMintReceived (im_mint acc) (ib_client_id bridge) (imm_receiver msg)
                     (imm_amount msg) (im_gmp_account acc) now);
  store_account IFT_ID (im_app_mint_state acc) (DIFTAppMintState mint_state).

(** ** [instructions/finalize_transfer.rs] *)

Record FinalizeAccounts := mkFinalizeAccounts {
  fi_app_state : Pubkey;
  fi_app_mint_state : Pubkey;
  fi_pending_transfer : Pubkey;
  fi_gmp_result : Pubkey;
  fi_mint : Pubkey;
  fi_mint_authority : Pubkey;
  fi_sender_token_account : Pubkey;
  fi_payer : Pubkey;
  fi_token_program : Pubkey;
  fi_system_program : Pubkey;
  fi_instructions_sysvar : Pubkey }.

(** The loads and constraints of [FinalizeTransfer]. *)
Definition finalize_accounts (cx : CallCtx) (acc : FinalizeAccounts) (client_id : bytes) (sequence : Z)
    : M (IFTAppMintState * PendingTransfer * GMPCallResultAccount) :=
  app_state ← load_account IFT_ID as_IFTAppState (fi_app_state acc);
  mint_state ← load_account IFT_ID as_IFTAppMintState (fi_app_mint_state acc);
  pending ← load_account IFT_ID as_PendingTransfer (fi_pending_transfer acc);
  gmp_result ← load_account GMP_ID as_GMPCallResult (fi_gmp_result acc);
  _ ← load_interface as_Mint (fi_mint acc);
  token_account ← load_interface as_TokenAccount (fi_sender_token_account acc);
  _ ← signer cx (fi_payer acc);
  _ ← token_interface (fi_token_program acc);
  _ ← system_program (fi_system_program acc);
  _ ← ift_state_is (fi_app_state acc) app_state;
  _ ← not_paused app_state;
  _ ← mint_state_is (fi_app_mint_state acc) (fi_mint acc) mint_state;
  _ ← writable cx (fi_app_mint_state acc);
  _ ← seeds_bump_are (fi_pending_transfer acc)
        (PendingTransfer_seeds (ims_mint mint_state) client_id sequence) (pt_bump pending) IFT_ID;
  _ ← writable cx (fi_pending_transfer acc);
  _ ← require (bool_decide (pt_mint pending = ims_mint mint_state)) IftErr.PendingTransferNotFound;
  _ ← require (bool_decide (pt_client_id pending = client_id)) IftErr.GmpResultClientMismatch;
  _ ← require (Z.eqb (pt_sequence pending) sequence) IftErr.GmpResultSequenceMismatch;
  _ ← require (negb (bool_decide (fi_pending_transfer acc = fi_payer acc))) AnchorErr.ConstraintClose;
  _ ← seeds_are (fi_gmp_result acc) (gmp_result_seeds client_id sequence) GMP_ID;
  _ ← writable cx (fi_mint acc);
  _ ← address_is (fi_mint acc) (ims_mint mint_state) AnchorErr.ConstraintAddress;
  _ ← mint_authority_is (fi_mint_authority acc) (fi_mint acc) mint_state;
  _ ← writable cx (fi_sender_token_account acc);
  _ ← require (bool_decide (ta_mint token_account = fi_mint acc)) IftErr.TokenAccountOwnerMismatch;
  _ ← require (bool_decide (ta_owner token_account = pt_sender pending)) IftErr.TokenAccountOwnerMismatch;
  _ ← writable cx (fi_payer acc);
  _ ← instructions_sysvar (fi_instructions_sysvar acc);
  mret (mint_state, pending, gmp_result).

(** Both refunds: mint back what was burned, and say why. *)
Definition refund (cx : CallCtx) (acc : FinalizeAccounts) (mint_state : IFTAppMintState)
    (pending : PendingTransfer) (now : Z) (reason : RefundReason) : M IFTAppMintState :=
  s ← mint_to_account cx mint_state now (fi_mint acc) (fi_sender_token_account acc)
        (fi_mint_authority acc) (fi_token_program acc) (pt_amount pending);
  _ ← emit IFT_ID (IFTTransferRefunded (ims_mint mint_state) (pt_client_id pending)
                     (pt_sequence pending) (pt_sender pending) (pt_amount pending) reason now);
  mret s.

(** The branches on the result's status. *)
Definition finalize_outcome (cx : CallCtx) (acc : FinalizeAccounts) (mint_state : IFTAppMintState)
    (pending : PendingTransfer) (gmp_result : GMPCallResultAccount) (now : Z) : M IFTAppMintState :=
  match gcr_status gmp_result with
  | CallTimeout => refund cx acc mint_state pending now RefundTimeout
  | CallAcknowledgement commitment =>
      if bool_decide (commitment = ERROR_ACK_COMMITMENT)
      then refund cx acc mint_state pending now RefundFailed
      else
        let s := reduce_mint_rate_limit_usage mint_state (pt_amount pending) now in
        _ ← emit IFT_ID (IFTTransferCompleted (ims_mint mint_state) (pt_client_id pending)
                           (pt_sequence pending) (pt_sender pending) (pt_amount pending) now);
        mret s
  end.

Definition finalize_transfer (cx : CallCtx) (acc : FinalizeAccounts) (client_id : bytes) (sequence : Z)
    : M unit :=
  '(mint_state, pending, gmp_result) ← finalize_accounts cx acc client_id sequence;
  _ ← ift_reject_cpi cx (fi_instructions_sysvar acc);
  now ← clock_unix_timestamp;
  _ ← require (bool_decide (gcr_sender gmp_result = IFT_ID)) IftErr.GmpResultSenderMismatch;
  _ ← require (bool_decide (gcr_source_client gmp_result = client_id)) IftErr.GmpResultClientMismatch;
  _ ← require (Z.eqb (gcr_sequence gmp_result) sequence) IftErr.GmpResultSequenceMismatch;
  mint_state ← finalize_outcome cx acc mint_state pending gmp_result now;
  _ ← store_account IFT_ID (fi_app_mint_state acc) (DIFTAppMintState mint_state);
  close_account IFT_ID (fi_pending_transfer acc) (fi_payer acc).

(** ** [instructions/set_mint_rate_limit.rs] and [set_paused.rs] *)

Record IftAdminAccounts := mkIftAdminAccounts {
  ia_app_state : Pubkey;
  ia_app_mint_state : Pubkey;   (* [SetMintRateLimit] only *)
  ia_admin : Pubkey;            (* in [AcceptAdmin], the pending admin *)
  ia_instructions_sysvar : Pubkey }.

Definition set_mint_rate_limit (cx : CallCtx) (acc : IftAdminAccounts) (daily_mint_limit : Z) : M unit :=
  app_state ← load_account IFT_ID as_IFTAppState (ia_app_state acc);
  mint_state ← load_account IFT_ID as_IFTAppMintState (ia_app_mint_state acc);
  _ ← signer cx (ia_admin acc);
  _ ← ift_state_is (ia_app_state acc) app_state;
  _ ← mint_state_is (ia_app_mint_state acc) (ims_mint mint_state) mint_state;
  _ ← writable cx (ia_app_mint_state acc);
  _ ← admin_is (ia_admin acc) app_state;
  _ ← instructions_sysvar (ia_instructions_sysvar acc);
  _ ← ift_reject_cpi cx (ia_instructions_sysvar acc);
  now ← clock_unix_timestamp;
  _ ← emit IFT_ID (MintRateLimitUpdated (ims_mint mint_state) daily_mint_limit now);
  store_account IFT_ID (ia_app_mint_state acc)
    (DIFTAppMintState (mkIFTAppMintState (ims_version mint_state) (ims_bump mint_state)
       (ims_mint mint_state) (ims_mint_authority_bump mint_state) daily_mint_limit
       (ims_rate_limit_day mint_state) (ims_rate_limit_daily_usage mint_state))).

(** The accounts of the instructions that change the application's state. *)
Definition ift_state_mut (cx : CallCtx) (acc : IftAdminAccounts) : M IFTAppState :=
  app_state ← load_account IFT_ID as_IFTAppState (ia_app_state acc);
  _ ← signer cx (ia_admin acc);
  _ ← ift_state_is (ia_app_state acc) app_state;
  _ ← writable cx (ia_app_state acc);
  mret app_state.

Definition ift_with_admin (s : IFTAppState) (admin : Pubkey) (pending : option Pubkey) : IFTAppState :=
  mkIFTAppState (ias_version s) (ias_bump s) admin (ias_paused s) pending.

Definition set_paused (cx : CallCtx) (acc : IftAdminAccounts) (paused : bool) : M unit :=
  s ← ift_state_mut cx acc;
  _ ← admin_is (ia_admin acc) s;
  _ ← instructions_sysvar (ia_instructions_sysvar acc);
  _ ← ift_reject_cpi cx (ia_instructions_sysvar acc);
  now ← clock_unix_timestamp;
  _ ← emit IFT_ID (TokenPausedUpdated paused now);
  store_account IFT_ID (ia_app_state acc)
    (DIFTAppState (mkIFTAppState (ias_version s) (ias_bump s) (ias_admin s) paused (ias_pending_admin s))).

(** ** [instructions/admin.rs] *)

Definition propose_admin (cx : CallCtx) (acc : IftAdminAccounts) (new_admin : Pubkey) : M unit :=
  s ← ift_state_mut cx acc;
  _ ← admin_is (ia_admin acc) s;
  _ ← instructions_sysvar (ia_instructions_sysvar acc);
  _ ← ift_reject_cpi cx (ia_instructions_sysvar acc);
  _ ← require (negb (bool_decide (new_admin = Pubkey_default))) IftErr.InvalidProposedAdmin;
  _ ← require (negb (bool_decide (new_admin = ia_admin acc))) IftErr.SelfProposal;
  _ ← require (bool_decide (ias_pending_admin s = None)) IftErr.PendingAdminAlreadyExists;
  now ← clock_unix_timestamp;
  _ ← emit IFT_ID (AdminProposed (ia_admin acc) new_admin now);
  store_account IFT_ID (ia_app_state acc) (DIFTAppState (ift_with_admin s (ias_admin s) (Some new_admin))).

Definition accept_admin (cx : CallCtx) (acc : IftAdminAccounts) : M unit :=
  s ← ift_state_mut cx acc;
  _ ← require (bool_decide (ias_pending_admin s = Some (ia_admin acc))) IftErr.UnauthorizedPendingAdmin;
  _ ← instructions_sysvar (ia_instructions_sysvar acc);
  _ ← ift_reject_cpi cx (ia_instructions_sysvar acc);
  now ← clock_unix_timestamp;
  _ ← emit IFT_ID (AdminAccepted (ias_admin s) (ia_admin acc) now);
  store_account IFT_ID (ia_app_state acc) (DIFTAppState (ift_with_admin s (ia_admin acc) None)).

Definition cancel_admin_proposal (cx : CallCtx) (acc : IftAdminAccounts) : M unit :=
  s ← ift_state_mut cx acc;
  _ ← admin_is (ia_admin acc) s;
  _ ← instructions_sysvar (ia_instructions_sysvar acc);
  _ ← ift_reject_cpi cx (ia_instructions_sysvar acc);
  cancelled_admin ← ift_lift (ok_or (ias_pending_admin s) IftErr.NoPendingAdmin);
  now ← clock_unix_timestamp;
  _ ← emit IFT_ID (AdminProposalCancelled (ia_admin acc) cancelled_admin now);
  store_account IFT_ID (ia_app_state acc) (DIFTAppState (ift_with_admin s (ias_admin s) None)).

Record RevokeAccounts := mkRevokeAccounts {
  rv_app_state : Pubkey;
  rv_app_mint_state : Pubkey;
  rv_mint : Pubkey;
  rv_mint_authority : Pubkey;
  rv_new_mint_authority : Pubkey;
  rv_admin : Pubkey;
  rv_token_program : Pubkey;
  rv_instructions_sysvar : Pubkey }.

Definition revoke_mint_authority (cx : CallCtx) (acc : RevokeAccounts) : M unit :=
  app_state ← load_account IFT_ID as_IFTAppState (rv_app_state acc);
  mint_state ← load_account IFT_ID as_IFTAppMintState (rv_app_mint_state acc);
  _ ← load_interface as_Mint (rv_mint acc);
  _ ← signer cx (rv_admin acc);
  _ ← token_interface (rv_token_program acc);
  _ ← ift_state_is (rv_app_state acc) app_state;
  _ ← mint_state_is (rv_app_mint_state acc) (rv_mint acc) mint_state;
  _ ← writable cx (rv_app_mint_state acc);
  _ ← require (negb (bool_decide (rv_app_mint_state acc = rv_admin acc))) AnchorErr.ConstraintClose;
  _ ← writable cx (rv_mint acc);
  _ ← address_is (rv_mint acc) (ims_mint mint_state) AnchorErr.ConstraintAddress;
  _ ← mint_authority_is (rv_mint_authority acc) (rv_mint acc) mint_state;
  _ ← writable cx (rv_admin acc);
  _ ← admin_is (rv_admin acc) app_state;
  _ ← instructions_sysvar (rv_instructions_sysvar acc);
  _ ← ift_reject_cpi cx (rv_instructions_sysvar acc);
  _ ← invoke_signed cx IFT_ID (rv_token_program acc)
        [mkAccountMeta (rv_mint acc) false true; mkAccountMeta (rv_mint_authority acc) true false]
        (IxSetMintAuthority (rv_mint acc) (rv_mint_authority acc) (Some (rv_new_mint_authority acc)))
        [pda_key (mint_authority_seeds (rv_mint acc)) IFT_ID];
  now ← clock_unix_timestamp;
  _ ← emit IFT_ID (MintAuthorityRevoked (rv_mint acc) (rv_new_mint_authority acc) now);
  close_account IFT_ID (rv_app_mint_state acc) (rv_admin acc).

Record AdminMintAccounts := mkAdminMintAccounts {
  adm_app_state : Pubkey;
  adm_app_mint_state : Pubkey;
  adm_mint : Pubkey;
  adm_mint_authority : Pubkey;
  adm_receiver_token_account : Pubkey;
  adm_receiver_owner : Pubkey;
  adm_admin : Pubkey;
  adm_payer : Pubkey;
  adm_token_program : Pubkey;
  adm_associated_token_program : Pubkey;
  adm_system_program : Pubkey;
  adm_instructions_sysvar : Pubkey }.

(** [AdminMintMsg] has the fields of [IFTMintMsg]. *)
Definition admin_mint (cx : CallCtx) (acc : AdminMintAccounts) (msg : IFTMintMsg) : M unit :=
  app_state ← load_account IFT_ID as_IFTAppState (adm_app_state acc);
  mint_state ← load_account IFT_ID as_IFTAppMintState (adm_app_mint_state acc);
  _ ← load_interface as_Mint (adm_mint acc);
  _ ← signer cx (adm_admin acc);
  _ ← signer cx (adm_payer acc);
  _ ← token_interface (adm_token_program acc);
  _ ← program_is (adm_associated_token_program acc) ASSOCIATED_TOKEN_PROGRAM_ID;
  _ ← system_program (adm_system_program acc);
  _ ← init_ata_if_needed cx (adm_receiver_token_account acc) (adm_payer acc) (adm_mint acc)
        (adm_receiver_owner acc) (adm_token_program acc) (adm_associated_token_program acc)
        (adm_system_program acc);
  _ ← ift_state_is (adm_app_state acc) app_state;
  _ ← not_paused app_state;
  _ ← mint_state_is (adm_app_mint_state acc) (adm_mint acc) mint_state;
  _ ← writable cx (adm_app_mint_state acc);
  _ ← writable cx (adm_mint acc);
  _ ← address_is (adm_mint acc) (ims_mint mint_state) AnchorErr.ConstraintAddress;
  _ ← mint_authority_is (adm_mint_authority acc) (adm_mint acc) mint_state;
  _ ← writable cx (adm_receiver_token_account acc);
  _ ← require (bool_decide (adm_receiver_owner acc = imm_receiver msg)) IftErr.InvalidReceiver;
  _ ← admin_is (adm_admin acc) app_state;
  _ ← writable cx (adm_payer acc);
  _ ← instructions_sysvar (adm_instructions_sysvar acc);
  _ ← ift_reject_cpi cx (adm_instructions_sysvar acc);
  now ← clock_unix_timestamp;
  _ ← require (Z.ltb 0 (imm_amount msg)) IftErr.ZeroAmount;
  mint_state ← mint_to_account cx mint_state now (adm_mint acc) (adm_receiver_token_account acc)
                 (adm_mint_authority acc) (adm_token_program acc) (imm_amount msg);
  _ ← emit IFT_ID (AdminMintExecuted (adm_mint acc) (imm_receiver msg) (imm_amount msg) (adm_admin acc) now);
  store_account IFT_ID (adm_app_mint_state acc) (DIFTAppMintState mint_state).

(** ** Entry point ([lib.rs]) *)

Inductive IftIx :=
| IInitialize (acc : IftInitializeAccounts) (admin : Pubkey)
| ICreateAndInitializeSplToken (acc : CreateTokenAccounts) (params : CreateTokenParams)
| IInitializeExistingToken (acc : ExistingTokenAccounts)
| IRegisterIftBridge (acc : BridgeAccounts) (msg : RegisterIFTBridgeMsg)
| IRemoveIftBridge (acc : BridgeAccounts) (client_id : bytes)
| IIftTransfer (acc : IFTTransferAccounts) (msg : IFTTransferMsg)
| IIftMint (acc : IFTMintAccounts) (msg : IFTMintMsg)
| IFinalizeTransfer (acc : FinalizeAccounts) (client_id : bytes) (sequence : Z)
| IProposeAdmin (acc : IftAdminAccounts) (new_admin : Pubkey)
| IAcceptAdmin (acc : IftAdminAccounts)
| ICancelAdminProposal (acc : IftAdminAccounts)
| IRevokeMintAuthority (acc : RevokeAccounts)
| ISetMintRateLimit (acc : IftAdminAccounts) (daily_mint_limit : Z)
| ISetPaused (acc : IftAdminAccounts) (paused : bool)
| IAdminMint (acc : AdminMintAccounts) (msg : IFTMintMsg).

Definition exec_ift (cx : CallCtx) (ix : IftIx) : M unit :=
  match ix with
  | IInitialize acc admin => ift_initialize cx acc admin
  | ICreateAndInitializeSplToken acc params => create_and_initialize_spl_token cx acc params
  | IInitializeExistingToken acc => initialize_existing_token cx acc
  | IRegisterIftBridge acc msg => register_ift_bridge cx acc msg
  | IRemoveIftBridge acc client_id => remove_ift_bridge cx acc client_id
  | IIftTransfer acc msg => ift_transfer cx acc msg
  | IIftMint acc msg => ift_mint cx acc msg
  | IFinalizeTransfer acc client_id sequence => finalize_transfer cx acc client_id sequence
  | IProposeAdmin acc new_admin => propose_admin cx acc new_admin
  | IAcceptAdmin acc => accept_admin cx acc
  | ICancelAdminProposal acc => cancel_admin_proposal cx acc
  | IRevokeMintAuthority acc => revoke_mint_authority cx acc
  | ISetMintRateLimit acc limit => set_mint_rate_limit cx acc limit
  | ISetPaused acc paused => set_paused cx acc paused
  | IAdminMint acc msg => admin_mint cx acc msg
  end.

End Ift.
