(* ===== verification/IftSpec.v ===== *)
(** * Specification of the token program

    The accounts of the program by key, the transition of each instruction with
    its own accounts and arguments ([i_trans]), and the proof that every
    instruction of [Ift.v] performs its transition.  A transfer's transition
    records the packet that GMP and the router sent for it. *)

From S2P Require Import Prelude Errors Types Runtime Ics24 Cpi AccessManager AccessManagerSpec Keyed.
From S2P Require Import Histories Chunking Router ChunkingSpec RouterSpec GmpTypes Gmp GmpSpec Ift.
From Stdlib Require Import ZArith Lia.
From Stdlib.Strings Require Import Byte.
From stdpp Require Import prelude gmap list.

#[local] Open Scope Z_scope.

(** ** Keys *)

Inductive IftKey :=
| IKState
| IKMint (mint : Pubkey)
| IKBridge (mint : Pubkey) (client_id : bytes)
| IKPending (mint : Pubkey) (client_id : bytes) (sequence : Z).

#[export] Instance IftKey_eq_dec : EqDecision IftKey.
Proof. solve_decision. Defined.

Definition ik_seeds (K : IftKey) : list bytes :=
  match K with
  | IKState => IFTAppState_seeds
  | IKMint m => IFTAppMintState_seeds m
  | IKBridge m c => IFTBridge_seeds m c
  | IKPending m c s => PendingTransfer_seeds m c s
  end.

(** A mint is a public key of 32 bytes, a sequence a [u64]. *)
Definition ik_typed (K : IftKey) : Prop :=
  match K with
  | IKState => True
  | IKMint m | IKBridge m _ => length m = 32%nat
  | IKPending m _ s => length m = 32%nat /\ is_u64 s
  end.

Definition ik `{Platform} (K : IftKey) : Pubkey := pda_key (ik_seeds K) IFT_ID.

(** The address that mints the tokens of [m]. *)
Definition authority_key `{Platform} (m : Pubkey) : Pubkey := pda_key (mint_authority_seeds m) IFT_ID.

Lemma ift_not_gmp : IFT_ID <> GMP_ID.
Proof. by vm_compute. Qed.

Lemma ift_not_ata : ASSOCIATED_TOKEN_PROGRAM_ID <> IFT_ID.
Proof. by vm_compute. Qed.

Lemma token_program_not_ift k : is_token_program k = true -> k <> IFT_ID.
Proof.
  unfold is_token_program.
  intros [->%bool_decide_eq_true| ->%bool_decide_eq_true]%orb_true_iff; by vm_compute.
Qed.

Section IftKeys.
Context `{Platform} `{!PlatformOk}.

Lemma ik_inj K K' : ik_typed K -> ik_typed K' -> ik K = ik K' -> K = K'.
Proof.
  intros HK HK' [E _]%pda_inj. destruct K as [|m|m c|m c s], K' as [|m'|m' c'|m' c' s']; try done;
    try (simpl in E; discriminate E); simpl in HK, HK'.
  - change (IFT_APP_MINT_STATE_SEED ++ m ++ [] = IFT_APP_MINT_STATE_SEED ++ m' ++ []) in E.
    rewrite !app_nil_r in E. by apply app_inv_head in E as ->.
  - change (IFT_BRIDGE_SEED ++ m ++ c ++ [] = IFT_BRIDGE_SEED ++ m' ++ c' ++ []) in E.
    rewrite !app_nil_r in E. apply app_inv_head in E.
    apply app_inj_len_l in E as [-> ->]; [done|congruence].
  - change (PENDING_TRANSFER_SEED ++ m ++ c ++ u64_to_le_bytes s ++ [] =
            PENDING_TRANSFER_SEED ++ m' ++ c' ++ u64_to_le_bytes s' ++ []) in E.
    rewrite !app_nil_r in E. apply app_inv_head in E. destruct HK as [Hm Hs], HK' as [Hm' Hs'].
    apply app_inj_len_l in E as [-> E]; [|congruence].
    apply app_inj_len_r in E as [-> E]; [|by autorewrite with lengths].
    f_equal. by apply u64_to_le_bytes_inj.
Qed.

#[export] Instance ik_ok : KeysOk IFT_ID ik ik_typed.
Proof. split; [intros K; apply pda_key_is_pda|apply ik_inj]. Qed.

Lemma ik_not_authority K m : ik K <> authority_key m.
Proof. intros [E _]%pda_inj. destruct K; simpl in E; discriminate E. Qed.

End IftKeys.

Notation i_stored w K d := (held IFT_ID w (ik K) d).
Notation i_evol := (evol_at IFT_ID ik ik_typed).

(** ** Transitions *)

Section IftTransitions.
Context `{Platform} `{GmpLib} `{IftLib}.

(** A top-level instruction that the administrator signed. *)
Definition by_admin (cx : CallCtx) (st : IFTAppState) (w : World) : Prop :=
  i_stored w IKState (DIFTAppState st) /\ ias_admin st ∈ cx_signers cx /\ cx_stack cx = [IFT_ID].

Definition not_paused_at (w : World) : Prop :=
  exists st, i_stored w IKState (DIFTAppState st) /\ ias_paused st = false.

Definition mint_at (w : World) (m : Pubkey) (s : IFTAppMintState) : Prop :=
  i_stored w (IKMint m) (DIFTAppMintState s) /\ ims_mint s = m.

(** A call that sets accounts up: it neither mints nor burns. *)
Definition setup_call (e : LogEntry) : Prop :=
  match e with
  | LInvoke p _ (IxInitializeMint2 _ _ _ | IxMetadataPointerInitialize _ _ _
                | IxTokenMetadataInitialize _ _ _ _ _ _ | IxCreateAssociatedTokenAccount _ _ _) =>
      p = IFT_ID
  | _ => False
  end.

Definition fresh_app_state (admin : Pubkey) : IFTAppState :=
  mkIFTAppState V1 (snd (find_program_address IFTAppState_seeds IFT_ID)) admin false None.

Definition fresh_bridge (m : Pubkey) (msg : RegisterIFTBridgeMsg) : IFTBridge :=
  mkIFTBridge V1 (snd (find_program_address (IFTBridge_seeds m (rbm_client_id msg)) IFT_ID)) m
    (rbm_client_id msg) (rbm_counterparty_ift_address msg) (rbm_chain_options msg) true.

Definition fresh_pending (m : Pubkey) (sender : Pubkey) (msg : IFTTransferMsg) (now : Z) : PendingTransfer :=
  mkPendingTransfer V1
    (snd (find_program_address (PendingTransfer_seeds m (itm_client_id msg) (itm_sequence msg)) IFT_ID))
    m (itm_client_id msg) (itm_sequence msg) sender (itm_amount msg) now.

Definition with_limit (s : IFTAppMintState) (limit : Z) : IFTAppMintState :=
  mkIFTAppMintState (ims_version s) (ims_bump s) (ims_mint s) (ims_mint_authority_bump s) limit
    (ims_rate_limit_day s) (ims_rate_limit_daily_usage s).
Definition with_ift_paused (s : IFTAppState) (b : bool) : IFTAppState :=
  mkIFTAppState (ias_version s) (ias_bump s) (ias_admin s) b (ias_pending_admin s).

(** The GMP call of a transfer: its message carries the mint call for the
    counterparty of the bridge. *)
Definition transfer_call (b : IFTBridge) (msg : IFTTransferMsg) (now : Z) (cm : SendCallMsg) : Prop :=
  exists timeout payload, transfer_timeout msg now = Ok timeout /\
    (exists v v', construct_mint_call (ib_chain_options b) (itm_receiver msg) (itm_amount msg) v
                  = Ok (payload, v')) /\
    cm = gmp_call_msg (itm_client_id msg) timeout (ib_counterparty_ift_address b) payload
           (transfer_encoding (ib_chain_options b)) (itm_sequence msg).

(** The result GMP keeps for a call of this program, and how it ends a
    transfer. *)
Definition result_at (w : World) (c : bytes) (s : Z) (r : GMPCallResultAccount) : Prop :=
  g_stored w (GKResult c s) (DGMPCallResult r) /\ gcr_sender r = IFT_ID /\
  gcr_source_client r = c /\ gcr_sequence r = s.

Definition refund_reason (r : GMPCallResultAccount) : option RefundReason :=
  match gcr_status r with
  | CallTimeout => Some RefundTimeout
  | CallAcknowledgement v => if bool_decide (v = ERROR_ACK_COMMITMENT) then Some RefundFailed else None
  end.

(** The calls that set a new mint up, all with the program's authority for it. *)
Definition mint_setup (m : Pubkey) (params : CreateTokenParams) : list LogEntry :=
  match params with
  | SplToken d => [LInvoke IFT_ID SPL_TOKEN_PROGRAM_ID (IxInitializeMint2 m (authority_key m) d)]
  | Token2022 d name symbol uri =>
      [LInvoke IFT_ID TOKEN_2022_PROGRAM_ID (IxMetadataPointerInitialize m (authority_key m) m);
       LInvoke IFT_ID TOKEN_2022_PROGRAM_ID (IxInitializeMint2 m (authority_key m) d);
       LInvoke IFT_ID TOKEN_2022_PROGRAM_ID
         (IxTokenMetadataInitialize m (authority_key m) (authority_key m) name symbol uri)]
  end.

Definition token_program_of (params : CreateTokenParams) : Pubkey :=
  match params with SplToken _ => SPL_TOKEN_PROGRAM_ID | Token2022 _ _ _ _ => TOKEN_2022_PROGRAM_ID end.

(** A mint of a token program, and a token account for [m] that [owner] owns. *)
Definition mint_account (w : World) (m : Pubkey) (mi : MintAccount) : Prop :=
  exists a, w_accts w !! m = Some a /\ is_token_program (acc_owner a) = true /\ acc_data a = DMint mi.
Definition token_account (w : World) (k m owner : Pubkey) : Prop :=
  exists a ta, w_accts w !! k = Some a /\ acc_data a = DTokenAccount ta /\ ta_mint ta = m /\ ta_owner ta = owner.

(** [k] is the associated token account of [owner] for [m]: either it is there,
    with that mint and owner, or it is created for them by the call [l]. *)
Definition ata_setup (w : World) (k m owner tp : Pubkey) (l : list LogEntry) : Prop :=
  k = associated_token_address owner m tp /\
  ((l = [] /\ owner_of w k = tp /\ token_account w k m owner) \/
   (owner_of w k = SYSTEM_PROGRAM_ID /\
    l = [LInvoke IFT_ID ASSOCIATED_TOKEN_PROGRAM_ID (IxCreateAssociatedTokenAccount k owner m)])).

(** The tokens counted against today's limit, and the state of a mint after
    minting [amount] within it, or after a transfer of [amount] left for good. *)
Definition used_today (day usage now : Z) : Z := if Z.eqb day (current_day now) then usage else 0.

Definition mint_within (s : IFTAppMintState) (amount now : Z) (s' : IFTAppMintState) : Prop :=
  let used := used_today (ims_rate_limit_day s) (ims_rate_limit_daily_usage s) now in
  (ims_daily_mint_limit s = 0 /\ s' = s) \/
  (ims_daily_mint_limit s <> 0 /\ used + amount <= ims_daily_mint_limit s /\
   s' = with_rate s (current_day now) (used + amount)).

Definition left_for_good (s : IFTAppMintState) (amount now : Z) : IFTAppMintState :=
  let used := used_today (ims_rate_limit_day s) (ims_rate_limit_daily_usage s) now in
  if Z.eqb (ims_daily_mint_limit s) 0 then s else with_rate s (current_day now) (Z.max 0 (used - amount)).

(** Fifteen minutes by default, and otherwise between ten seconds and a day. *)
Definition timeout_of (msg : IFTTransferMsg) (now t : Z) : Prop :=
  (itm_timeout_timestamp msg = 0 /\ t = now + 15 * 60) \/
  (itm_timeout_timestamp msg <> 0 /\ t = itm_timeout_timestamp msg /\ now + 10 < t <= now + 24 * 60 * 60).

(** The options of a bridge. *)
Definition options_ok (o : ChainOptions) : Prop :=
  match o with
  | Evm => True
  | Cosmos denom type_url ica =>
      (1 <= length denom <= 128)%nat /\ (1 <= length type_url <= 128)%nat /\
      (1 <= length ica <= 128)%nat /\ bech32_ok ica = true
  | Solana _ _ client_id => (1 <= length client_id <= 32)%nat
  end.

(** What each instruction does, with its own accounts and arguments: the
    accounts it changes or closes and its log entries. *)
Inductive i_trans (cx : CallCtx) (w w' : World)
    : IftIx -> list (IftKey * option AccountData) -> list LogEntry -> Prop :=
| I_initialize acc admin :
    upgrade_authority_of w IFT_ID (ii_authority acc) -> ii_authority acc ∈ cx_signers cx ->
    w_accts w !! ik IKState = None ->
    i_trans cx w w' (IInitialize acc admin)
      [(IKState, Some (DIFTAppState (fresh_app_state admin)))]
      [LEvent IFT_ID (IFTInitialized admin (w_clock w))]
| I_create st acc params :
    by_admin cx st w -> w_accts w !! ik (IKMint (ct_mint acc)) = None ->
    ct_mint acc ∈ cx_signers cx -> w_accts w !! ct_mint acc = None ->
    ct_token_program acc = token_program_of params ->
    i_trans cx w w' (ICreateAndInitializeSplToken acc params)
      [(IKMint (ct_mint acc), Some (DIFTAppMintState (fresh_mint_state (ct_mint acc))))]
      (mint_setup (ct_mint acc) params ++ [LEvent IFT_ID (SplTokenCreated (ct_mint acc) params (w_clock w))])
| I_existing st acc mi :
    i_stored w IKState (DIFTAppState st) -> w_accts w !! ik (IKMint (et_mint acc)) = None ->
    mint_account w (et_mint acc) mi -> mi_mint_authority mi = Some (et_current_authority acc) ->
    et_current_authority acc ∈ cx_signers cx -> is_token_program (et_token_program acc) = true ->
    i_trans cx w w' (IInitializeExistingToken acc)
      [(IKMint (et_mint acc), Some (DIFTAppMintState (fresh_mint_state (et_mint acc))))]
      [LInvoke IFT_ID (et_token_program acc)
         (IxSetMintAuthority (et_mint acc) (et_current_authority acc) (Some (authority_key (et_mint acc))));
       LEvent IFT_ID (ExistingTokenInitialized (et_mint acc) (mi_decimals mi) (et_current_authority acc)
         (w_clock w))]
| I_register st m ms acc msg :
    by_admin cx st w -> br_app_mint_state acc = ik (IKMint m) -> mint_at w m ms ->
    w_accts w !! ik (IKBridge m (rbm_client_id msg)) = None ->
    (1 <= length (rbm_client_id msg) <= 32)%nat ->
    (1 <= length (rbm_counterparty_ift_address msg) <= 128)%nat -> options_ok (rbm_chain_options msg) ->
    i_trans cx w w' (IRegisterIftBridge acc msg)
      [(IKBridge m (rbm_client_id msg), Some (DIFTBridge (fresh_bridge m msg)))]
      [LEvent IFT_ID (IFTBridgeRegistered m (rbm_client_id msg) (rbm_counterparty_ift_address msg)
         (rbm_chain_options msg) (w_clock w))]
| I_remove st m ms b acc c :
    by_admin cx st w -> br_app_mint_state acc = ik (IKMint m) -> mint_at w m ms ->
    i_stored w (IKBridge m c) (DIFTBridge b) -> ib_mint b = m ->
    i_trans cx w w' (IRemoveIftBridge acc c) [(IKBridge m c, None)]
      [LEvent IFT_ID (IFTBridgeRemoved m c (w_clock w))]
| I_transfer ms b acc msg cm payload dest k :
    let m := it_mint acc in
    not_paused_at w -> mint_at w m ms -> i_stored w (IKBridge m (itm_client_id msg)) (DIFTBridge b) ->
    ib_active b = true -> it_sender acc ∈ cx_signers cx -> cx_stack cx = [IFT_ID] ->
    token_account w (it_sender_token_account acc) m (it_sender acc) ->
    w_accts w !! ik (IKPending m (itm_client_id msg) (itm_sequence msg)) = None ->
    (1 <= length (itm_client_id msg) <= 32)%nat -> (1 <= length (itm_receiver msg) <= 128)%nat ->
    0 < itm_amount msg -> is_token_program (it_token_program acc) = true ->
    transfer_call b msg (w_clock w) cm -> timeout_of msg (w_clock w) (scm_timeout_timestamp cm) ->
    call_payload IFT_ID cm payload -> w_log w' = w_log w ++ k ->
    LEvent ROUTER_ID (SendPacketEvent (itm_client_id msg) (itm_sequence msg)
      (mkPacket (itm_sequence msg) (itm_client_id msg) dest (scm_timeout_timestamp cm) [payload])
      (scm_timeout_timestamp cm)) ∈ k ->
    i_trans cx w w' (IIftTransfer acc msg)
      [(IKPending m (itm_client_id msg) (itm_sequence msg),
        Some (DPendingTransfer (fresh_pending m (it_sender acc) msg (w_clock w))))]
      [LInvoke IFT_ID (it_token_program acc)
         (IxBurn (it_sender_token_account acc) m (it_sender acc) (itm_amount msg));
       LInvoke IFT_ID GMP_ID (IxSendCallCpi cm);
       LEvent IFT_ID (IFTTransferInitiated m (itm_client_id msg) (itm_sequence msg) (it_sender acc)
         (itm_receiver msg) (itm_amount msg) (scm_timeout_timestamp cm))]
| I_mint ms ms' b acc msg l :
    let m := im_mint acc in
    not_paused_at w -> mint_at w m ms ->
    i_stored w (IKBridge m (ib_client_id b)) (DIFTBridge b) -> ib_mint b = m -> ib_active b = true ->
    im_gmp_account acc = gmp_account_key (ib_client_id b) (ib_counterparty_ift_address b) [] ->
    im_gmp_account acc ∈ cx_signers cx ->
    0 < imm_amount msg -> is_token_program (im_token_program acc) = true ->
    mint_within ms (imm_amount msg) (w_clock w) ms' ->
    ata_setup w (im_receiver_token_account acc) m (imm_receiver msg) (im_token_program acc) l ->
    i_trans cx w w' (IIftMint acc msg) [(IKMint m, Some (DIFTAppMintState ms'))]
      (l ++ [LInvoke IFT_ID (im_token_program acc)
               (IxMintTo m (im_receiver_token_account acc) (authority_key m) (imm_amount msg));
             LEvent IFT_ID (IFTMintReceived m (ib_client_id b) (imm_receiver msg) (imm_amount msg)
               (im_gmp_account acc) (w_clock w))])
| I_refund ms ms' p r reason acc c s :
    let m := fi_mint acc in
    not_paused_at w -> mint_at w m ms -> cx_stack cx = [IFT_ID] ->
    i_stored w (IKPending m c s) (DPendingTransfer p) ->
    pt_mint p = m -> pt_client_id p = c -> pt_sequence p = s ->
    result_at w c s r -> refund_reason r = Some reason -> is_token_program (fi_token_program acc) = true ->
    token_account w (fi_sender_token_account acc) m (pt_sender p) ->
    mint_within ms (pt_amount p) (w_clock w) ms' ->
    i_trans cx w w' (IFinalizeTransfer acc c s)
      [(IKMint m, Some (DIFTAppMintState ms')); (IKPending m c s, None)]
      [LInvoke IFT_ID (fi_token_program acc)
         (IxMintTo m (fi_sender_token_account acc) (authority_key m) (pt_amount p));
       LEvent IFT_ID (IFTTransferRefunded m c s (pt_sender p) (pt_amount p) reason (w_clock w))]
| I_complete ms p r acc c s :
    let m := fi_mint acc in
    not_paused_at w -> mint_at w m ms -> cx_stack cx = [IFT_ID] ->
    i_stored w (IKPending m c s) (DPendingTransfer p) ->
    pt_mint p = m -> pt_client_id p = c -> pt_sequence p = s ->
    result_at w c s r -> refund_reason r = None ->
    i_trans cx w w' (IFinalizeTransfer acc c s)
      [(IKMint m, Some (DIFTAppMintState (left_for_good ms (pt_amount p) (w_clock w))));
       (IKPending m c s, None)]
      [LEvent IFT_ID (IFTTransferCompleted m c s (pt_sender p) (pt_amount p) (w_clock w))]
| I_propose st acc n :
    by_admin cx st w -> ias_pending_admin st = None -> n <> Pubkey_default -> n <> ias_admin st ->
    i_trans cx w w' (IProposeAdmin acc n)
      [(IKState, Some (DIFTAppState (ift_with_admin st (ias_admin st) (Some n))))]
      [LEvent IFT_ID (AdminProposed (ias_admin st) n (w_clock w))]
| I_accept st acc :
    i_stored w IKState (DIFTAppState st) -> cx_stack cx = [IFT_ID] ->
    ias_pending_admin st = Some (ia_admin acc) -> ia_admin acc ∈ cx_signers cx ->
    i_trans cx w w' (IAcceptAdmin acc)
      [(IKState, Some (DIFTAppState (ift_with_admin st (ia_admin acc) None)))]
      [LEvent IFT_ID (AdminAccepted (ias_admin st) (ia_admin acc) (w_clock w))]
| I_cancel st acc n :
    by_admin cx st w -> ias_pending_admin st = Some n ->
    i_trans cx w w' (ICancelAdminProposal acc)
      [(IKState, Some (DIFTAppState (ift_with_admin st (ias_admin st) None)))]
      [LEvent IFT_ID (AdminProposalCancelled (ias_admin st) n (w_clock w))]
| I_revoke st ms acc :
    by_admin cx st w -> mint_at w (rv_mint acc) ms -> is_token_program (rv_token_program acc) = true ->
    i_trans cx w w' (IRevokeMintAuthority acc) [(IKMint (rv_mint acc), None)]
      [LInvoke IFT_ID (rv_token_program acc) (IxSetMintAuthority (rv_mint acc)
         (authority_key (rv_mint acc)) (Some (rv_new_mint_authority acc)));
       LEvent IFT_ID (MintAuthorityRevoked (rv_mint acc) (rv_new_mint_authority acc) (w_clock w))]
| I_limit st m ms acc limit :
    by_admin cx st w -> ia_app_mint_state acc = ik (IKMint m) -> mint_at w m ms -> is_u64 limit ->
    i_trans cx w w' (ISetMintRateLimit acc limit)
      [(IKMint m, Some (DIFTAppMintState (with_limit ms limit)))]
      [LEvent IFT_ID (MintRateLimitUpdated m limit (w_clock w))]
| I_pause st acc b :
    by_admin cx st w ->
    i_trans cx w w' (ISetPaused acc b) [(IKState, Some (DIFTAppState (with_ift_paused st b)))]
      [LEvent IFT_ID (TokenPausedUpdated b (w_clock w))]
| I_admin_mint st ms ms' acc msg l :
    let m := adm_mint acc in
    by_admin cx st w -> ias_paused st = false -> mint_at w m ms -> 0 < imm_amount msg ->
    is_token_program (adm_token_program acc) = true ->
    mint_within ms (imm_amount msg) (w_clock w) ms' ->
    ata_setup w (adm_receiver_token_account acc) m (imm_receiver msg) (adm_token_program acc) l ->
    i_trans cx w w' (IAdminMint acc msg) [(IKMint m, Some (DIFTAppMintState ms'))]
      (l ++ [LInvoke IFT_ID (adm_token_program acc)
               (IxMintTo m (adm_receiver_token_account acc) (authority_key m) (imm_amount msg));
             LEvent IFT_ID (AdminMintExecuted m (imm_receiver msg) (imm_amount msg) (ias_admin st)
               (w_clock w))]).

Lemma mint_setup_calls m params : Forall setup_call (mint_setup m params).
Proof. destruct params; by repeat constructor. Qed.

Lemma ata_setup_calls w k m owner tp l : ata_setup w k m owner tp l -> Forall setup_call l.
Proof. intros (_ & [(-> & _)|(_ & ->)]); by repeat constructor. Qed.

(** The program's arithmetic is the specification's. *)
Lemma rate_limit_within s amount now s' :
  check_and_update_mint_rate_limit s amount now = Ok s' -> mint_within s amount now s'.
Proof.
  unfold check_and_update_mint_rate_limit, maybe_reset_day, mint_within, used_today.
  destruct (Z.eqb_spec (ims_daily_mint_limit s) 0); [intros [= <-]; by left|].
  rewrite result_bind_ok. intros (u & Hu%ok_or_ok & Hr).
  apply result_bind_ok in Hr as (? & Hle%require_r_ok%Z.leb_le & [= <-]). unfold u64_checked_add in Hu.
  destruct (Z.leb _ _) in Hu; [|done]. injection Hu as <-. right.
  destruct (Z.eqb_spec (ims_rate_limit_day s) (current_day now)) as [E|]; simpl in *; rewrite ?E; done.
Qed.

Lemma reduce_left s amount now : reduce_mint_rate_limit_usage s amount now = left_for_good s amount now.
Proof.
  unfold reduce_mint_rate_limit_usage, maybe_reset_day, left_for_good, used_today, u64_saturating_sub.
  destruct (Z.eqb_spec (ims_daily_mint_limit s) 0); [done|].
  destruct (Z.eqb_spec (ims_rate_limit_day s) (current_day now)) as [E|]; simpl; by rewrite ?E.
Qed.

Lemma transfer_timeout_of msg now t : transfer_timeout msg now = Ok t -> timeout_of msg now t.
Proof.
  unfold transfer_timeout, timeout_of. destruct (Z.eqb_spec (itm_timeout_timestamp msg) 0); [intros [= <-]; by left|].
  rewrite result_bind_ok. intros (? & Hlo%require_r_ok%Z.ltb_lt & Hr).
  apply result_bind_ok in Hr as (? & Hhi%require_r_ok%Z.leb_le & [= <-]). by right.
Qed.

Lemma nonempty_length (l : bytes) (n : nat) :
  bool_decide (l = []) = false -> (length l <=? n)%nat = true -> (1 <= length l <= n)%nat.
Proof. intros Hn%bool_decide_eq_false ?%Nat.leb_le. destruct l; [done|]. simpl in *. lia. Qed.

Lemma ChainOptions_validate_ok o : ChainOptions_validate o = Ok () -> options_ok o.
Proof.
  destruct o; simpl; [done|..]; intros Hr;
    repeat (apply result_bind_ok in Hr as (? & ?%require_r_ok & Hr)); apply require_r_ok in Hr;
    repeat match goal with E : negb _ = true |- _ => apply negb_true_iff in E end;
    repeat first [done|by apply nonempty_length|split].
Qed.

End IftTransitions.

Notation i_refines ix cx w w' := (steps_to IFT_ID ik ik_typed (fun w w' => i_trans cx w w' ix) w w').

(** ** Refinement *)

Section IftRefinement.
Context `{Platform} `{!PlatformOk} `{GmpLib} `{IftLib}.
Context `{!RouterDeployed} `{!RouterEntry} `{!GmpDeployed}.

(** The values have their Rust types: keys of 32 bytes, sequences of 64 bits. *)
Definition ift_ix_typed (ix : IftIx) : Prop :=
  match ix with
  | ICreateAndInitializeSplToken acc _ => length (ct_mint acc) = 32%nat
  | IInitializeExistingToken acc => length (et_mint acc) = 32%nat
  | IIftTransfer acc msg => length (it_mint acc) = 32%nat /\ is_u64 (itm_sequence msg)
  | IIftMint acc _ => length (im_mint acc) = 32%nat
  | IFinalizeTransfer acc _ s => length (fi_mint acc) = 32%nat /\ is_u64 s
  | IRevokeMintAuthority acc => length (rv_mint acc) = 32%nat
  | IAdminMint acc _ => length (adm_mint acc) = 32%nat
  | ISetMintRateLimit _ limit => is_u64 limit
  | _ => True
  end.

Definition mint_keys_typed (w : World) : Prop :=
  forall k a s, w_accts w !! k = Some a -> acc_data a = DIFTAppMintState s -> length (ims_mint s) = 32%nat.

Lemma load_interface_Ok {A} (proj : AccountData -> option A) k w x w' :
  load_interface proj k w = Ok (x, w') ->
  w' = w /\ exists a, w_accts w !! k = Some a /\ is_token_program (acc_owner a) = true /\
    proj (acc_data a) = Some x.
Proof.
  unfold load_interface, try_deserialize. destruct (w_accts w !! k) as [a|]; [|by case_match].
  destruct (is_token_program _) eqn:Ht; [|done]. destruct (proj _) eqn:Hp; [|done].
  intros [= -> ->]. split; [done|]. by exists a.
Qed.

Ltac iinv :=
  unfold ift_state_is, mint_state_is, mint_authority_is, admin_is, not_paused, ift_reject_cpi,
    seeds_bump_are, token_interface, program_is, ift_lift in *; minv;
  repeat match goal with
  | E : map_err _ _ = Ok _ |- _ => apply map_err_ok in E
  | E : ok_or _ _ = Ok _ |- _ => apply ok_or_ok in E
  | E : load_interface _ _ _ = Ok _ |- _ =>
      let a := fresh "acc" in let Hl := fresh "Hl" in let Ht := fresh "Ht" in
      apply load_interface_Ok in E as (-> & a & Hl & Ht & E)
  | E : reject_cpi _ _ _ = Ok _, Hrun : running _ _ |- _ =>
      apply reject_cpi_Ok in E as [_ E]; [|exact (running_last _ _ Hrun)]
  end.

(** The loaded accounts, at their keys. *)
Ltac i_to_stored :=
  repeat match goal with
  | Hl : w_accts ?w !! ?k = Some ?a, Ho : acc_owner ?a = IFT_ID,
    Hd : as_IFTAppState (acc_data ?a) = Some ?x, Hk : ?k = pda_key IFTAppState_seeds IFT_ID |- _ =>
      assert (i_stored w IKState (DIFTAppState x)) by
        exact (held_intro w k a _ _ x IKState as_IFTAppState_Some Hl Ho Hd Hk);
      clear Hl Ho Hd
  | Hl : w_accts ?w !! ?k = Some ?a, Ho : acc_owner ?a = IFT_ID,
    Hd : as_IFTAppMintState (acc_data ?a) = Some ?x, Hk : ?k = pda_key (IFTAppMintState_seeds ?m) IFT_ID |- _ =>
      assert (i_stored w (IKMint m) (DIFTAppMintState x)) by
        exact (held_intro w k a _ _ x (IKMint m) as_IFTAppMintState_Some Hl Ho Hd Hk);
      clear Ho Hd
  | Hl : w_accts ?w !! ?k = Some ?a, Ho : acc_owner ?a = IFT_ID,
    Hd : as_IFTBridge (acc_data ?a) = Some ?x, Hk : ?k = pda_key (IFTBridge_seeds ?m ?c) IFT_ID |- _ =>
      assert (i_stored w (IKBridge m c) (DIFTBridge x)) by
        exact (held_intro w k a _ _ x (IKBridge m c) as_IFTBridge_Some Hl Ho Hd Hk);
      clear Hl Ho Hd
  | Hl : w_accts ?w !! ?k = Some ?a, Ho : acc_owner ?a = IFT_ID,
    Hd : as_PendingTransfer (acc_data ?a) = Some ?x,
    Hk : ?k = pda_key (PendingTransfer_seeds ?m ?c ?s) IFT_ID |- _ =>
      assert (i_stored w (IKPending m c s) (DPendingTransfer x)) by
        exact (held_intro w k a _ _ x (IKPending m c s) as_PendingTransfer_Some Hl Ho Hd Hk);
      clear Hl Ho Hd
  end.

(** *** Calls *)

Lemma ift_invoke_signed cx prog metas ix pdas w u w' :
  running cx IFT_ID -> prog <> IFT_ID -> (forall k, k ∈ pdas -> exists m, k = authority_key m) ->
  invoke_signed cx IFT_ID prog metas ix pdas w = Ok (u, w') ->
  i_evol [] [LInvoke IFT_ID prog ix] w w' /\ w_clock w' = w_clock w.
Proof.
  intros Hrun Hne Hp Hi. split.
  - eapply evol_invoke_signed; [done|done| |exact Hi].
    intros K _ (m & E)%Hp. by apply ik_not_authority in E.
  - apply invoke_signed_Ok in Hi as (_ & _ & Hi & _); [|done|congruence].
    by rewrite (process_clock _ _ _ _ _ _ Hi).
Qed.

Lemma ift_invoke cx prog metas ix w u w' :
  running cx IFT_ID -> prog <> IFT_ID -> invoke cx IFT_ID prog metas ix w = Ok (u, w') ->
  i_evol [] [LInvoke IFT_ID prog ix] w w' /\ w_clock w' = w_clock w.
Proof. intros Hrun Hne. apply ift_invoke_signed; [done..|]. by intros k ?%not_elem_of_nil. Qed.

Lemma mint_to_account_Ok cx ms now m k auth tp amount w ms' w' :
  running cx IFT_ID -> is_token_program tp = true ->
  mint_to_account cx ms now m k auth tp amount w = Ok (ms', w') ->
  mint_within ms amount now ms' /\
  i_evol [] [LInvoke IFT_ID tp (IxMintTo m k auth amount)] w w' /\ w_clock w' = w_clock w.
Proof.
  intros Hrun Htp Hr. unfold mint_to_account in Hr. iinv. split; [by apply rate_limit_within|].
  match goal with E : invoke_signed _ _ _ _ _ _ _ = Ok _ |- _ =>
    eapply ift_invoke_signed; [done|by apply token_program_not_ift| |exact E] end.
  intros k' ->%list_elem_of_singleton. by eexists.
Qed.

Lemma init_ata_Ok cx ata payer m owner tp atp sysp w u w' :
  running cx IFT_ID -> atp = ASSOCIATED_TOKEN_PROGRAM_ID ->
  init_ata_if_needed cx ata payer m owner tp atp sysp w = Ok (u, w') ->
  exists l, ata_setup w ata m owner tp l /\ i_evol [] l w w' /\ w_clock w' = w_clock w.
Proof.
  intros Hrun -> Hr. unfold init_ata_if_needed in Hr. iinv.
  match goal with E : as_TokenAccount _ = Some _ |- _ => apply as_TokenAccount_Some in E end.
  case_bool_decide.
  - match goal with E : invoke _ _ _ _ _ _ = Ok _ |- _ =>
      apply ift_invoke in E as [? ?]; [|done|exact ift_not_ata] end.
    eexists. split_and!; [|eassumption|done]. split; [done|]. by right.
  - iinv. exists []. split_and!; [|apply evol_refl|done]. split; [done|]. left.
    split_and!; [done..|]. by eexists _, _.
Qed.

(** *** Changes of the application's state *)

Lemma i_store_state cx ix w d e u w' :
  i_trans cx w w' ix [(IKState, Some d)] [LEvent IFT_ID e] ->
  store_account IFT_ID (ik IKState) d (add_log w (LEvent IFT_ID e)) = Ok (u, w') -> i_refines ix cx w w'.
Proof.
  intros Ht Hs. apply (evol_store IKState) in Hs as (Hev2 & Hst & _); [|done].
  eapply steps_intro; [exact Ht| |reflexivity|].
  - exact (evol_trans _ _ _ _ _ _ _ (evol_log_entry _ _) Hev2).
  - by apply Forall_singleton.
Qed.

Ltac i_state_end T :=
  i_to_stored;
  match goal with
  | Hs : store_account IFT_ID ?k _ _ = Ok _, Hk : ?k = pda_key _ IFT_ID |- _ =>
      rewrite Hk in Hs; change (pda_key _ IFT_ID) with (ik IKState) in Hs;
      eapply i_store_state; [|exact Hs]
  end; eapply T; unfold by_admin; try done.

Lemma set_paused_refines cx acc b w u w' :
  running cx IFT_ID -> set_paused cx acc b w = Ok (u, w') -> i_refines (ISetPaused acc b) cx w w'.
Proof.
  intros Hrun Hr. unfold set_paused, ift_state_mut in Hr. iinv. i_state_end I_pause. by split_and!; [|congruence|].
Qed.

Lemma propose_admin_refines cx acc n w u w' :
  running cx IFT_ID -> propose_admin cx acc n w = Ok (u, w') -> i_refines (IProposeAdmin acc n) cx w w'.
Proof.
  intros Hrun Hr. unfold propose_admin, ift_state_mut in Hr. iinv.
  repeat match goal with E : bool_decide (_ = _) = false |- _ => apply bool_decide_eq_false in E end.
  match goal with E : ia_admin acc = _ |- _ => rewrite E in * end.
  i_state_end I_propose.
Qed.

Lemma accept_admin_refines cx acc w u w' :
  running cx IFT_ID -> accept_admin cx acc w = Ok (u, w') -> i_refines (IAcceptAdmin acc) cx w w'.
Proof. intros Hrun Hr. unfold accept_admin, ift_state_mut in Hr. iinv. i_state_end I_accept. Qed.

Lemma cancel_admin_refines cx acc w u w' :
  running cx IFT_ID -> cancel_admin_proposal cx acc w = Ok (u, w') -> i_refines (ICancelAdminProposal acc) cx w w'.
Proof.
  intros Hrun Hr. unfold cancel_admin_proposal, ift_state_mut in Hr. iinv.
  match goal with E : ia_admin acc = _ |- _ => rewrite E in * end. i_state_end I_cancel.
Qed.

Lemma ift_initialize_refines cx acc admin w u w' :
  ift_initialize cx acc admin w = Ok (u, w') -> i_refines (IInitialize acc admin) cx w w'.
Proof.
  intros Hr. unfold ift_initialize in Hr. iinv.
  assert (ii_app_state acc = ik IKState) as Hk by done. rewrite Hk in *.
  match goal with Hi : init_account _ _ _ _ _ _ = Ok _ |- _ =>
    apply (evol_init _ IKState) in Hi as (Hev & Hnone & _ & _ & _ & Hck & _); [|done] end.
  apply (evol_store IKState) in Hr as (Hev2 & Hst & _); [|done].
  rewrite Hck in *. eapply steps_intro.
  - eapply I_initialize; [|eassumption|exact Hnone].
    match goal with D : as_ProgramData _ = Some _ |- _ => apply as_ProgramData_Some in D end.
    subst. eexists. split; [|done].
    match goal with E : ii_program_data acc = _ |- _ => by rewrite <- E end.
  - exact (evol_trans _ _ _ _ _ _ _ Hev (evol_trans _ _ _ _ _ _ _ (evol_log_entry _ _) Hev2)).
  - simpl. set_solver.
  - by apply Forall_singleton.
Qed.

(** *** Mints *)

(** The instructions that end by storing the state of a mint. *)
Lemma i_store_mint cx ix m w w1 ks l w' s e u :
  length m = 32%nat -> i_evol ks l w w1 -> ks ⊆ [IKMint m] ->
  i_trans cx w w' ix [(IKMint m, Some (DIFTAppMintState s))] (l ++ [LEvent IFT_ID e]) ->
  store_account IFT_ID (ik (IKMint m)) (DIFTAppMintState s) (add_log w1 (LEvent IFT_ID e)) = Ok (u, w') ->
  i_refines ix cx w w'.
Proof.
  intros Hm Hev Hks Ht Hs. apply (evol_store (IKMint m)) in Hs as (Hev2 & Hst & _); [|done].
  eapply steps_intro; [exact Ht| | |].
  - pose proof (evol_trans _ _ _ _ _ _ _ Hev (evol_trans _ _ _ _ _ _ _ (evol_log_entry _ _) Hev2)) as E.
    exact E.
  - simpl. set_solver.
  - by apply Forall_singleton.
Qed.

Lemma set_limit_refines cx acc limit w u w' :
  running cx IFT_ID -> is_u64 limit -> mint_keys_typed w -> set_mint_rate_limit cx acc limit w = Ok (u, w') ->
  i_refines (ISetMintRateLimit acc limit) cx w w'.
Proof.
  intros Hrun Hu Hty Hr. unfold set_mint_rate_limit in Hr. iinv.
  match goal with Hl : w_accts w !! _ = Some ?a, Hd : as_IFTAppMintState (acc_data ?a) = Some ?x |- _ =>
    assert (length (ims_mint x) = 32%nat) as Hlen by (eapply Hty; [exact Hl|by apply as_IFTAppMintState_Some])
  end.
  i_to_stored.
  match goal with E : ia_app_mint_state acc = pda_key (IFTAppMintState_seeds ?m) IFT_ID |- _ =>
    rewrite E in Hr; change (pda_key (IFTAppMintState_seeds m) IFT_ID) with (ik (IKMint m)) in Hr end.
  eapply i_store_mint; [exact Hlen|apply evol_refl|set_solver| |exact Hr].
  eapply I_limit; [|done|by split|done]. unfold by_admin. split_and!; [eassumption|congruence|done].
Qed.

Lemma existing_refines cx acc w u w' :
  running cx IFT_ID -> length (et_mint acc) = 32%nat -> initialize_existing_token cx acc w = Ok (u, w') ->
  i_refines (IInitializeExistingToken acc) cx w w'.
Proof.
  intros Hrun Hlen Hr. unfold initialize_existing_token in Hr. iinv. i_to_stored.
  match goal with E : et_app_mint_state acc = _, Hi : init_account _ _ _ _ _ _ = Ok _ |- _ =>
    rewrite E in Hi, Hr; change (pda_key (IFTAppMintState_seeds (et_mint acc)) IFT_ID)
      with (ik (IKMint (et_mint acc))) in Hi, Hr;
    apply (evol_init _ (IKMint (et_mint acc))) in Hi as (Hev & Hnone & _ & _ & _ & Hck & _); [|done] end.
  match goal with E : invoke _ _ _ _ _ _ = Ok _ |- _ =>
    apply ift_invoke in E as [Hev2 Hck2]; [|done|by apply token_program_not_ift] end.
  rewrite Hck2, Hck in Hr.
  eapply i_store_mint; [exact Hlen|exact (evol_trans _ _ _ _ _ _ _ Hev Hev2)|set_solver| |exact Hr].
  match goal with E : et_mint_authority acc = _ |- _ => rewrite E end.
  match goal with E : as_Mint _ = Some _ |- _ => apply as_Mint_Some in E end.
  eapply I_existing; [eassumption|exact Hnone|by eexists|by subst|done|done].
Qed.

(** A key that signed a top-level instruction is not an address of the
    program. *)
Lemma signer_not_ift cx k K : running cx IFT_ID -> k ∈ cx_signers cx -> k <> ik K.
Proof. intros [_ Hs] Hk ->. by destruct (Hs _ IFT_ID Hk (pda_key_is_pda _ _)). Qed.

Lemma evol_accts w w' k :
  (forall K, k <> ik K) -> w_log w' = w_log w ->
  (forall k', k' <> k -> w_accts w' !! k' = w_accts w !! k') ->
  (forall k', is_Some (w_accts w !! k') -> lam w k' <= lam w' k') -> i_evol [] [] w w'.
Proof.
  intros Hk Hl Ha Hlam. constructor; [unfold own_log; by rewrite Hl, app_nil_r| | |by rewrite Hl].
  - intros K _ _. apply Ha. intros E. by apply (Hk K).
  - intros K _ Hf. assert (ik K <> k) as Hne by (intros E; by apply (Hk K)).
    unfold funded. rewrite Ha by done. destruct (w_accts w !! ik K) eqn:E; [|by left].
    right. destruct Hf as [|Hf]; [congruence|]. specialize (Hlam (ik K) ltac:(by rewrite E)). lia.
Qed.

Lemma system_allocate_Ok k sp w u w' :
  system_allocate k sp w = Ok (u, w') ->
  w_log w' = w_log w /\ w_clock w' = w_clock w /\ (forall j, lam w' j = lam w j) /\
  w_accts w !! k = None /\ forall j, j <> k -> w_accts w' !! j = w_accts w !! j.
Proof.
  unfold system_allocate. destruct (w_accts w !! k); [done|]. intros [= _ <-].
  split_and!; [done..|]. intros j Hj. simpl. by rewrite lookup_insert_ne.
Qed.

Lemma system_assign_Ok k o w u w' :
  system_assign k o w = Ok (u, w') ->
  w_log w' = w_log w /\ w_clock w' = w_clock w /\ (forall j, lam w' j = lam w j) /\
  forall j, j <> k -> w_accts w' !! j = w_accts w !! j.
Proof.
  unfold system_assign. destruct (w_accts w !! k); [case_bool_decide; [|done]|]; intros [= _ <-];
    (split_and!; [done..|]); intros j Hj; simpl; by rewrite lookup_insert_ne.
Qed.

Lemma create_defensively_evol payer k lamports sp owner w u w' :
  (forall K, k <> ik K) -> create_account_defensively payer k lamports sp owner w = Ok (u, w') ->
  i_evol [] [] w w' /\ w_clock w' = w_clock w /\ w_accts w !! k = None.
Proof.
  intros Hk Hr. unfold create_account_defensively in Hr. apply bind_Ok in Hr as (w0 & ? & [-> ->]%get_world_Ok & Hr).
  cbv zeta in Hr. apply bind_Ok in Hr as (? & w0 & Ht & Hr). apply bind_Ok in Hr as (? & w1 & Ha & Hr).
  apply system_allocate_Ok in Ha as (L1 & C1 & M1 & N1 & A1). apply system_assign_Ok in Hr as (L2 & C2 & M2 & A2).
  assert (w_accts w0 = w_accts w /\ w_log w0 = w_log w /\ w_clock w0 = w_clock w /\
    forall j, is_Some (w_accts w !! j) -> lam w j <= lam w0 j) as (A0 & L0 & C0 & M0).
  { destruct (0 <? _) eqn:Hb in Ht; [|by iinv]. apply Z.ltb_lt in Hb.
    apply system_transfer_Ok in Ht as (Hfrom & ? & ? & _ & ? & Hlam); [|lia].
    split_and!; try done. intros j [a Ha]. rewrite Hlam.
    destruct (Hfrom ltac:(lia)) as [Hn _]. rewrite decide_False by congruence. case_decide; lia. }
  split_and!; [|congruence|by rewrite <- A0]. eapply evol_accts; [exact Hk|congruence| |].
  - intros j Hj. by rewrite A2, A1, A0.
  - intros j Hj. rewrite M2, M1. by apply M0.
Qed.

Lemma create_legacy_Ok cx acc dec w u w' :
  running cx IFT_ID -> ct_mint acc ∈ cx_signers cx -> is_token_program (ct_token_program acc) = true ->
  create_legacy_mint cx acc dec w = Ok (u, w') ->
  ct_mint_authority acc = authority_key (ct_mint acc) -> ct_token_program acc = SPL_TOKEN_PROGRAM_ID ->
  i_evol [] (mint_setup (ct_mint acc) (SplToken dec)) w w' /\ w_clock w' = w_clock w /\
  w_accts w !! ct_mint acc = None.
Proof.
  intros Hrun Hsg Htp Hr Hau Hp. unfold create_legacy_mint, initialize_mint2 in Hr.
  apply bind_Ok in Hr as (? & w1 & Hc & Hr).
  apply create_defensively_evol in Hc as (Hev & Hck & Hn); [|intros K; by eapply signer_not_ift].
  apply ift_invoke in Hr as [Hev2 Hck2]; [|done|by apply token_program_not_ift].
  rewrite Hau, Hp in Hev2. split_and!; [exact (evol_trans _ _ _ _ _ _ _ Hev Hev2)|congruence|done].
Qed.

Lemma create_2022_Ok cx acc dec name symbol uri w u w' :
  running cx IFT_ID -> ct_mint acc ∈ cx_signers cx -> is_token_program (ct_token_program acc) = true ->
  create_token_2022_mint cx acc dec name symbol uri w = Ok (u, w') ->
  ct_mint_authority acc = authority_key (ct_mint acc) -> ct_token_program acc = TOKEN_2022_PROGRAM_ID ->
  i_evol [] (mint_setup (ct_mint acc) (Token2022 dec name symbol uri)) w w' /\ w_clock w' = w_clock w /\
  w_accts w !! ct_mint acc = None.
Proof.
  intros Hrun Hsg Htp Hr Hau Hp. unfold create_token_2022_mint, initialize_mint2 in Hr. minv.
  match goal with E : create_account_defensively _ _ _ _ _ _ = Ok _ |- _ =>
    apply create_defensively_evol in E as (Hev & Hck & Hn); [|intros K; by eapply signer_not_ift] end.
  repeat match goal with E : invoke _ _ _ _ _ _ = Ok _ |- _ =>
    apply ift_invoke in E as [? ?]; [|done|by apply token_program_not_ift] end.
  apply ift_invoke_signed in Hr as [Hev4 Hck4];
    [|done|by apply token_program_not_ift|intros k ->%list_elem_of_singleton; by eexists].
  rewrite Hau, Hp in *. split_and!; [|congruence|done]. eapply (evol_trans [] []); [exact Hev|].
  eapply (evol_trans [] [_] []); [eassumption|]. eapply (evol_trans [] [_] []); [eassumption|exact Hev4].
Qed.

Lemma create_token_refines cx acc params w u w' :
  running cx IFT_ID -> length (ct_mint acc) = 32%nat ->
  create_and_initialize_spl_token cx acc params w = Ok (u, w') ->
  i_refines (ICreateAndInitializeSplToken acc params) cx w w'.
Proof.
  intros Hrun Hlen Hr. unfold create_and_initialize_spl_token in Hr. iinv. i_to_stored.
  match goal with E : ct_app_mint_state acc = _, Hi : init_account _ _ _ _ _ _ = Ok _ |- _ =>
    rewrite E in Hi, Hr; change (pda_key (IFTAppMintState_seeds (ct_mint acc)) IFT_ID)
      with (ik (IKMint (ct_mint acc))) in Hi, Hr;
    apply (evol_init _ (IKMint (ct_mint acc))) in Hi as (Hev & Hnone & _ & _ & _ & Hck & Hsame); [|done] end.
  match goal with E : create_mint _ _ _ ?v = Ok (_, ?v') |- _ =>
    assert (i_evol [] (mint_setup (ct_mint acc) params) v v' /\ w_clock v' = w_clock v /\
      w_accts v !! ct_mint acc = None /\ ct_token_program acc = token_program_of params)
      as (Hev2 & Hck2 & Hn & Htp) end.
  { unfold create_mint in *. destruct params; minv;
      [edestruct create_legacy_Ok as (? & ? & ?)|edestruct create_2022_Ok as (? & ? & ?)]; done. }
  rewrite Hck2, Hck in Hr. rewrite Hsame in Hn by (by eapply signer_not_ift).
  eapply i_store_mint; [exact Hlen|exact (evol_trans _ _ _ _ _ _ _ Hev Hev2)|set_solver| |exact Hr].
  eapply I_create; [|exact Hnone|done|exact Hn|exact Htp].
  unfold by_admin. split_and!; [eassumption|congruence|done].
Qed.

Lemma admin_mint_refines cx acc msg w u w' :
  running cx IFT_ID -> length (adm_mint acc) = 32%nat -> admin_mint cx acc msg w = Ok (u, w') ->
  i_refines (IAdminMint acc msg) cx w w'.
Proof.
  intros Hrun Hlen Hr. unfold admin_mint in Hr. iinv. i_to_stored.
  match goal with E : init_ata_if_needed _ _ _ _ _ _ _ _ _ = Ok _ |- _ =>
    apply init_ata_Ok in E as (l & Hset & Hev & Hck); [|done..] end.
  match goal with E : mint_to_account _ _ _ _ _ _ _ _ _ = Ok _ |- _ =>
    apply mint_to_account_Ok in E as (Hrate & Hev2 & Hck2); [|done..] end.
  match goal with E : adm_app_mint_state acc = _ |- _ => rewrite E in Hr end.
  rewrite Hck in *. match goal with E : adm_mint_authority acc = _ |- _ => rewrite E in Hev2 end.
  match goal with E : adm_admin acc = _ |- _ => rewrite E in * end.
  eapply (i_store_mint _ _ (adm_mint acc)); [exact Hlen|exact (evol_trans _ _ _ _ _ _ _ Hev Hev2)|set_solver| |exact Hr].
  rewrite <- (assoc_L (++)). eapply I_admin_mint; try eassumption; [by split_and!|by split|by apply Z.ltb_lt|].
  match goal with E : adm_receiver_owner acc = _ |- _ => by rewrite <- E end.
Qed.

Lemma validate_gmp_account_Ok k c a u :
  validate_gmp_account k c a = Ok u -> k = gmp_account_key c a [].
Proof.
  unfold validate_gmp_account, ClientId_new, Sender_new. rewrite !result_bind_ok.
  setoid_rewrite result_bind_ok. setoid_rewrite map_err_ok. setoid_rewrite Constrained_new_Ok.
  setoid_rewrite require_r_ok. intros (? & [-> _] & ? & [-> _] & E%bool_decide_eq_true).
  by rewrite <- E, GMPAccount_new_pda.
Qed.

Lemma ift_mint_refines cx acc msg w u w' :
  running cx IFT_ID -> length (im_mint acc) = 32%nat -> ift_mint cx acc msg w = Ok (u, w') ->
  i_refines (IIftMint acc msg) cx w w'.
Proof.
  intros Hrun Hlen Hr. unfold ift_mint in Hr. iinv.
  match goal with E : im_mint acc = ims_mint _ |- _ => rewrite <- E in * end. i_to_stored.
  match goal with E : init_ata_if_needed _ _ _ _ _ _ _ _ _ = Ok _ |- _ =>
    apply init_ata_Ok in E as (l & Hset & Hev & Hck); [|done..] end.
  match goal with E : mint_to_account _ _ _ _ _ _ _ _ _ = Ok _ |- _ =>
    apply mint_to_account_Ok in E as (Hrate & Hev2 & Hck2); [|done..] end.
  match goal with E : validate_gmp_account _ _ _ = Ok _ |- _ => apply validate_gmp_account_Ok in E as Hga end.
  match goal with E : im_app_mint_state acc = _ |- _ => rewrite E in Hr end.
  rewrite Hck in *. match goal with E : im_mint_authority acc = _ |- _ => rewrite E in Hev2 end.
  eapply (i_store_mint _ _ (im_mint acc)); [exact Hlen|exact (evol_trans _ _ _ _ _ _ _ Hev Hev2)|set_solver| |exact Hr].
  rewrite <- (assoc_L (++)). eapply I_mint; try eassumption; [by eexists|by split|by apply Z.ltb_lt|].
  match goal with E : im_receiver_owner acc = _ |- _ => by rewrite <- E end.
Qed.

(** The steps that end by closing an account. *)
Lemma i_close cx ix K w w1 l dest u w' :
  ik_typed K -> i_evol [] l w w1 -> i_trans cx w w' ix [(K, None)] l ->
  close_account IFT_ID (ik K) dest w1 = Ok (u, w') -> i_refines ix cx w w'.
Proof.
  intros HK Hev Ht Hc. apply evol_close in Hc as (Hev2 & Hn & _); [|done].
  eapply steps_intro; [exact Ht| |reflexivity|].
  - pose proof (evol_trans _ _ _ _ _ _ _ Hev Hev2) as E. rewrite app_nil_r in E. exact E.
  - by apply Forall_singleton.
Qed.

Lemma revoke_refines cx acc w u w' :
  running cx IFT_ID -> length (rv_mint acc) = 32%nat -> revoke_mint_authority cx acc w = Ok (u, w') ->
  i_refines (IRevokeMintAuthority acc) cx w w'.
Proof.
  intros Hrun Hlen Hr. unfold revoke_mint_authority in Hr. iinv. i_to_stored.
  match goal with E : invoke_signed _ _ _ _ _ _ _ = Ok _ |- _ =>
    apply ift_invoke_signed in E as [Hev Hck]; [|done|by apply token_program_not_ift|
      intros k ->%list_elem_of_singleton; by eexists] end.
  match goal with E : rv_app_mint_state acc = _ |- _ => rewrite E in Hr end.
  rewrite Hck in Hr. match goal with E : rv_mint_authority acc = _ |- _ => rewrite E in Hev end.
  eapply (i_close _ _ (IKMint (rv_mint acc)) _ _ _ _ _ _ Hlen (evol_trans _ _ _ _ _ _ _ Hev (evol_log_entry _ _)));
    [|exact Hr].
  eapply I_revoke; [|by split|done]. unfold by_admin. split_and!; [eassumption|congruence|done].
Qed.

(** *** Bridges *)

Ltac i_mint_len Hty :=
  match goal with Hl : w_accts ?w !! _ = Some ?a, Hd : as_IFTAppMintState (acc_data ?a) = Some ?x |- _ =>
    assert (length (ims_mint x) = 32%nat) as Hlen by (eapply Hty; [exact Hl|by apply as_IFTAppMintState_Some])
  end.

Lemma register_refines cx acc msg w u w' :
  running cx IFT_ID -> mint_keys_typed w -> register_ift_bridge cx acc msg w = Ok (u, w') ->
  i_refines (IRegisterIftBridge acc msg) cx w w'.
Proof.
  intros Hrun Hty Hr. unfold register_ift_bridge in Hr. iinv. i_mint_len Hty. i_to_stored.
  match goal with E : br_ift_bridge acc = pda_key (IFTBridge_seeds ?m ?c) _ |- _ =>
    assert (br_ift_bridge acc = ik (IKBridge m c)) as Hk by exact E; rewrite Hk in *;
    match goal with Hi : init_account _ _ _ _ _ _ = Ok _ |- _ =>
      apply (evol_init _ (IKBridge m c)) in Hi as (Hev & Hnone & _ & _ & _ & Hck & _); [|done] end;
    apply (evol_store (IKBridge m c)) in Hr as (Hev2 & Hst & _); [|done] end.
  rewrite Hck in *. eapply steps_intro.
  - eapply I_register; [|eassumption|by split|exact Hnone|by apply nonempty_length|by apply nonempty_length|
      by apply ChainOptions_validate_ok].
    unfold by_admin. split_and!; [eassumption|congruence|done].
  - exact (evol_trans _ _ _ _ _ _ _ Hev (evol_trans _ _ _ _ _ _ _ (evol_log_entry _ _) Hev2)).
  - simpl. set_solver.
  - by apply Forall_singleton.
Qed.

Lemma remove_refines cx acc c w u w' :
  running cx IFT_ID -> mint_keys_typed w -> remove_ift_bridge cx acc c w = Ok (u, w') ->
  i_refines (IRemoveIftBridge acc c) cx w w'.
Proof.
  intros Hrun Hty Hr. unfold remove_ift_bridge in Hr. iinv. i_mint_len Hty. i_to_stored.
  match goal with E : br_ift_bridge acc = pda_key (IFTBridge_seeds ?m ?c) _ |- _ =>
    rewrite E in Hr; eapply (i_close _ _ (IKBridge m c) _ _ _ _ _ _ Hlen (evol_log_entry _ _)); [|exact Hr] end.
  eapply I_remove; [|eassumption|by split|eassumption|done]. unfold by_admin. split_and!; [eassumption|congruence|done].
Qed.

(** *** The end of a transfer *)

(** Both outcomes store the state of the mint and close the transfer. *)
Lemma i_finish cx ix m c s w w1 w2 w' l d dest u1 u2 :
  length m = 32%nat -> is_u64 s -> i_evol [] l w w1 ->
  i_trans cx w w' ix [(IKMint m, Some (DIFTAppMintState d)); (IKPending m c s, None)] l ->
  store_account IFT_ID (ik (IKMint m)) (DIFTAppMintState d) w1 = Ok (u1, w2) ->
  close_account IFT_ID (ik (IKPending m c s)) dest w2 = Ok (u2, w') -> i_refines ix cx w w'.
Proof.
  intros Hm Hs Hev Ht Hst1 Hcl.
  apply (evol_store (IKMint m)) in Hst1 as (Hev1 & Hst & _); [|done].
  apply (evol_close (IKPending m c s)) in Hcl as (Hev2 & Hn & _); [|done].
  eapply steps_intro; [exact Ht| | |].
  - pose proof (evol_trans _ _ _ _ _ _ _ Hev (evol_trans _ _ _ _ _ _ _ Hev1 Hev2)) as E.
    rewrite !app_nil_r in E. exact E.
  - simpl. set_solver.
  - repeat (apply Forall_cons; split); [| |by constructor]; (split; [done|]); simpl; [|done].
    destruct Hst as (a & Ha & ?). exists a.
    by rewrite (ev_same _ _ _ _ Hev2 (IKMint m)) by (done || set_solver).
Qed.

Lemma finalize_accounts_Ok cx acc c s w x w' :
  is_u64 s -> finalize_accounts cx acc c s w = Ok (x, w') ->
  let '(ms, p, r) := x in
  let m := fi_mint acc in
  w' = w /\ not_paused_at w /\ mint_at w m ms /\ fi_app_mint_state acc = ik (IKMint m) /\
  fi_pending_transfer acc = ik (IKPending m c s) /\ i_stored w (IKPending m c s) (DPendingTransfer p) /\
  pt_mint p = m /\ pt_client_id p = c /\ pt_sequence p = s /\ fi_mint_authority acc = authority_key m /\
  is_token_program (fi_token_program acc) = true /\ g_stored w (GKResult c s) (DGMPCallResult r) /\
  token_account w (fi_sender_token_account acc) m (pt_sender p).
Proof.
  intros Hs Hr. unfold finalize_accounts in Hr. iinv.
  match goal with E : fi_mint acc = ims_mint _ |- _ => rewrite <- E in * end. i_to_stored.
  repeat match goal with E : as_TokenAccount _ = Some _ |- _ => apply as_TokenAccount_Some in E end.
  match goal with E : (_ =? s) = true |- _ => apply Z.eqb_eq in E end.
  split_and!; try done; try (by eexists); try (by eexists _, _).
  match goal with Hl : w_accts w !! fi_gmp_result acc = Some ?a, Hd : as_GMPCallResult _ = Some _ |- _ =>
    eapply (held_intro w _ a _ _ _ (GKResult c s) as_GMPCallResult_Some Hl); done end.
Qed.

Lemma refund_Ok cx acc ms p now reason w ms' w' :
  running cx IFT_ID -> is_token_program (fi_token_program acc) = true ->
  fi_mint_authority acc = authority_key (fi_mint acc) -> ims_mint ms = fi_mint acc ->
  refund cx acc ms p now reason w = Ok (ms', w') ->
  mint_within ms (pt_amount p) now ms' /\
  i_evol [] [LInvoke IFT_ID (fi_token_program acc) (IxMintTo (fi_mint acc) (fi_sender_token_account acc)
               (authority_key (fi_mint acc)) (pt_amount p));
             LEvent IFT_ID (IFTTransferRefunded (fi_mint acc) (pt_client_id p) (pt_sequence p)
               (pt_sender p) (pt_amount p) reason now)] w w'.
Proof.
  intros Hrun Htp Hau Hm Hr. unfold refund in Hr. minv.
  match goal with E : mint_to_account _ _ _ _ _ _ _ _ _ = Ok _ |- _ =>
    apply mint_to_account_Ok in E as (Hrate & Hev & _); [|done..] end.
  rewrite Hau in Hev. rewrite Hm. split; [done|].
  exact (evol_trans _ _ _ _ _ _ _ Hev (evol_log_entry _ _)).
Qed.

Lemma finalize_refines cx acc c s w u w' :
  running cx IFT_ID -> length (fi_mint acc) = 32%nat -> is_u64 s ->
  finalize_transfer cx acc c s w = Ok (u, w') -> i_refines (IFinalizeTransfer acc c s) cx w w'.
Proof.
  intros Hrun Hlen Hs Hr. unfold finalize_transfer in Hr.
  apply bind_Ok in Hr as ([[ms p] r] & w1 & Hacc & Hr).
  apply finalize_accounts_Ok in Hacc
    as (-> & Hnp & Hms & Hk1 & Hk2 & Hp & Hpm & <- & <- & Hau & Htp & Hres & Hta); [|done].
  pose proof Hms as [_ Hm]. iinv. rewrite Hk1 in *. rewrite Hk2 in *.
  match goal with E : (_ =? _) = true |- _ => apply Z.eqb_eq in E end.
  assert (result_at w (pt_client_id p) (pt_sequence p) r) as Hra by by split_and!.
  match goal with E : finalize_outcome _ _ _ _ _ _ _ = Ok _ |- _ => rename E into Hst end.
  unfold finalize_outcome in Hst. destruct (gcr_status r) as [v|] eqn:Hstatus; [case_bool_decide as Hv|].
  - apply refund_Ok in Hst as [Hrate Hev]; [|done..].
    eapply (i_finish _ _ _ _ _ _ _ _ _ _ _ _ _ _ Hlen Hs Hev); [|eassumption|exact Hr].
    eapply I_refund; try done. unfold refund_reason. rewrite Hstatus. by case_bool_decide.
  - minv. rewrite Hm, reduce_left in *. eapply (i_finish _ _ _ _ _ _ _ _ _ _ _ _ _ _ Hlen Hs (evol_log_entry _ _));
      [|eassumption|exact Hr].
    eapply I_complete; try done. unfold refund_reason. rewrite Hstatus. by case_bool_decide.
  - apply refund_Ok in Hst as [Hrate Hev]; [|done..].
    eapply (i_finish _ _ _ _ _ _ _ _ _ _ _ _ _ _ Hlen Hs Hev); [|eassumption|exact Hr].
    eapply I_refund; try done. unfold refund_reason. by rewrite Hstatus.
Qed.

(** *** Transfers *)

Lemma construct_mint_call_pure o receiver amount w x w' :
  construct_mint_call o receiver amount w = Ok (x, w') -> w' = w.
Proof.
  unfold construct_mint_call, construct_solana_mint_call, IftMintAccounts_derive.
  destruct o; intros Hr; iinv; done.
Qed.

(** The call to GMP: it is made from the top level, and the router sent the
    packet. *)
Lemma send_gmp_call_Ok cx acc cm w s w' :
  running cx IFT_ID -> it_gmp_program acc = GMP_ID -> is_u64 (scm_sequence cm) ->
  send_gmp_call cx acc cm w = Ok (s, w') ->
  s = scm_sequence cm /\ cx_stack cx = [IFT_ID] /\ w_clock w' = w_clock w /\
  i_evol [] [LInvoke IFT_ID GMP_ID (IxSendCallCpi cm)] w w' /\
  exists payload dest k, call_payload IFT_ID cm payload /\ w_log w' = w_log w ++ k /\
    LEvent ROUTER_ID (SendPacketEvent (scm_source_client cm) (scm_sequence cm)
      (mkPacket (scm_sequence cm) (scm_source_client cm) dest (scm_timeout_timestamp cm) [payload])
      (scm_timeout_timestamp cm)) ∈ k.
Proof.
  intros Hrun Hg Hu Hr. unfold send_gmp_call, returned_u64 in Hr. iinv. rewrite Hg in *.
  match goal with E : invoke _ _ _ _ _ _ = Ok _ |- _ => rename E into Hi end.
  pose proof (ift_invoke _ _ _ _ _ _ _ Hrun (not_eq_sym ift_not_gmp) Hi) as [Hev Hck].
  pose proof (running_callee _ _ _ _ _ _ _ _ _ Hi Hrun ift_not_gmp ltac:(by constructor)) as Hrun2.
  apply invoke_signed_Ok in Hi as (_ & _ & Hp & _); [|done|exact ift_not_gmp].
  apply gmp_entry in Hp as (ix & Hc & Hx). destruct ix; try done. destruct Hc as [-> _].
  apply send_call_cpi_sent in Hx as (Hret & sender & payload & dest & k & Hst & Hsent); [|done|done].
  change (cx_stack cx ++ [GMP_ID] = [sender] ++ [GMP_ID]) in Hst. apply app_inj_tail in Hst as [Hstk _].
  assert (sender = IFT_ID) as -> by (destruct Hrun as [Hl _]; rewrite Hstk in Hl; exact (inj Some _ _ Hl)).
  destruct Hsent as [_ _ Hpay Hlog Hin]. simpl in Hlog. rewrite Hret in *.
  match goal with E : Some _ = Some ?a |- _ => apply (inj Some) in E; subst a end.
  split_and!; [exact (u64_le_roundtrip _ Hu)|done|done|done|].
  exists payload, dest, (LInvoke IFT_ID GMP_ID (IxSendCallCpi cm) :: k). split_and!; [done| |by right].
  by rewrite Hlog, <- (assoc_L (++)).
Qed.

Lemma transfer_accounts_Ok cx acc msg w x w' :
  length (it_mint acc) = 32%nat -> is_u64 (itm_sequence msg) ->
  transfer_accounts cx acc msg w = Ok (x, w') ->
  let '(ms, b) := x in
  let m := it_mint acc in
  let K := IKPending m (itm_client_id msg) (itm_sequence msg) in
  not_paused_at w /\ mint_at w m ms /\ i_stored w (IKBridge m (itm_client_id msg)) (DIFTBridge b) /\
  ib_active b = true /\ it_sender acc ∈ cx_signers cx /\ w_accts w !! ik K = None /\
  it_pending_transfer acc = ik K /\ is_token_program (it_token_program acc) = true /\
  it_gmp_program acc = GMP_ID /\ token_account w (it_sender_token_account acc) m (it_sender acc) /\
  (1 <= length (itm_client_id msg) <= 32)%nat /\ w_clock w' = w_clock w /\ i_evol [K] [] w w'.
Proof.
  intros Hlen Hu Hr. unfold transfer_accounts in Hr. iinv.
  match goal with E : it_mint acc = ims_mint _ |- _ => rewrite <- E in * end. i_to_stored.
  match goal with E : as_TokenAccount _ = Some _ |- _ => apply as_TokenAccount_Some in E end.
  assert (1 <= length (itm_client_id msg) <= 32)%nat by by apply nonempty_length.
  match goal with E : it_pending_transfer acc = pda_key (PendingTransfer_seeds ?m ?c ?s) _ |- _ =>
    assert (it_pending_transfer acc = ik (IKPending m c s)) as Hk by exact E; rewrite Hk in *;
    match goal with Hi : init_account _ _ _ _ _ _ = Ok _ |- _ =>
      apply (evol_init _ (IKPending m c s)) in Hi as (Hev & Hnone & _ & _ & _ & Hck & _); [|done] end end.
  do 9 (split; [done || by eexists|]). split; [by eexists _, _|done].
Qed.

Lemma transfer_refines cx acc msg w u w' :
  running cx IFT_ID -> length (it_mint acc) = 32%nat -> is_u64 (itm_sequence msg) ->
  ift_transfer cx acc msg w = Ok (u, w') -> i_refines (IIftTransfer acc msg) cx w w'.
Proof.
  intros Hrun Hlen Hu Hr. unfold ift_transfer in Hr. apply bind_Ok in Hr as ([ms b] & w1 & Hacc & Hr).
  apply transfer_accounts_Ok in Hacc
    as (Hnp & [Hms Hm] & Hb & Hact & Hsg & Hnone & Hk & Htp & Hg & Hta & Hcl & Hck & Hev); [|done..].
  iinv. rewrite Hm, Hk in Hr.
  match goal with E : invoke _ _ _ _ _ _ = Ok _ |- _ =>
    apply ift_invoke in E as [Hev2 Hck2]; [|done|by apply token_program_not_ift] end.
  match goal with E : construct_mint_call _ _ _ _ = Ok _ |- _ =>
    pose proof E as Hcall; apply construct_mint_call_pure in E as -> end.
  match goal with E : send_gmp_call _ _ _ _ = Ok _ |- _ =>
    apply send_gmp_call_Ok in E as (-> & Hstk & Hck3 & Hev3 & payload & dest & k & Hpay & Hlog & Hin); [|done..] end.
  match goal with E : u64_try_from_i64 _ = Some _ |- _ => apply u64_try_from_i64_Some in E as [-> _] end.
  rewrite Hck in *. simpl in Hr, Hin.
  pose proof (evol_trans _ _ _ _ _ _ _ Hev (evol_trans _ _ _ _ _ _ _ Hev2 Hev3)) as Hall.
  pose proof Hr as Hr'. apply store_account_Ok in Hr' as (a' & _ & _ & _ & Ew).
  apply (evol_store (IKPending (it_mint acc) (itm_client_id msg) (itm_sequence msg))) in Hr
    as (Hev4 & Hst & _); [|done].
  assert (exists k', w_log w' = w_log w ++ k' /\ k ⊆ k') as (k' & Hk' & Hsub).
  { destruct (ev_grow _ _ _ _ Hev) as [k1 E1], (ev_grow _ _ _ _ Hev2) as [k2 E2].
    eexists. split; [rewrite Ew; simpl; rewrite Hlog, E2, E1, <- !(assoc_L (++)); reflexivity|]. set_solver. }
  eapply steps_intro.
  - eapply (I_transfer _ _ _ ms b acc msg _ payload dest k'); try eassumption;
      [by split|by apply nonempty_length|by apply Z.ltb_lt|
       by eexists _, _; split_and!; [eassumption|by eexists _, _|]|by apply transfer_timeout_of|by apply Hsub].
  - pose proof (evol_trans _ _ _ _ _ _ _ Hall (evol_trans _ _ _ _ _ _ _ (evol_log_entry _ _)
      (evol_trans _ _ _ _ _ _ _ (evol_set_return _ _) Hev4))) as E. exact E.
  - simpl. set_solver.
  - by apply Forall_singleton.
Qed.

Lemma exec_ift_refines cx ix w u w' :
  running cx IFT_ID -> ift_ix_typed ix -> mint_keys_typed w -> exec_ift cx ix w = Ok (u, w') ->
  i_refines ix cx w w'.
Proof.
  intros Hrun Hty Hw. destruct ix; simpl in *.
  - apply ift_initialize_refines.
  - by apply create_token_refines.
  - by apply existing_refines.
  - by apply register_refines.
  - by apply remove_refines.
  - destruct Hty. by apply transfer_refines.
  - by apply ift_mint_refines.
  - destruct Hty. by apply finalize_refines.
  - by apply propose_admin_refines.
  - by apply accept_admin_refines.
  - by apply cancel_admin_refines.
  - by apply revoke_refines.
  - by apply set_limit_refines.
  - by apply set_paused_refines.
  - by apply admin_mint_refines.
Qed.

End IftRefinement.

(** ** Histories *)

(** One successful instruction. *)
Definition i_step `{Platform} `{GmpLib} `{IftLib} (w w' : World) : Prop :=
  exists cx ix, running cx IFT_ID /\ ift_ix_typed ix /\ mint_keys_typed w /\
    exec_ift cx ix w = Ok ((), w').

Notation i_reachable := (reach_at IFT_ID ik ik_typed i_step).
