(* ===== verification/IftReplay.v ===== *)
(** * The token program, from its events

    The state of the token program is a function of the events it emitted:
    [replay] rebuilds every account from the log, and in every reachable state
    the accounts are what the replay says.  From it follow who may mint, and
    the daily limit. *)

From S2P Require Import Prelude Errors Types Runtime Ics24 Cpi AccessManager AccessManagerSpec Keyed.
From S2P Require Import Histories Chunking Router ChunkingSpec RouterSpec GmpTypes Gmp GmpSpec Ift IftSpec.
From Stdlib Require Import ZArith Lia.
From Stdlib.Strings Require Import Byte.
From stdpp Require Import prelude gmap list.

#[local] Open Scope Z_scope.

(** ** Replay *)

(** What an account says, without bumps and versions. *)
Inductive View :=
| VState (admin : Pubkey) (paused : bool) (pending_admin : option Pubkey)
| VMint (limit day usage : Z)
| VBridge (counterparty : bytes) (options : ChainOptions)
| VPending (sender : Pubkey) (amount : Z).

Definition view_of (d : AccountData) : option View :=
  match d with
  | DIFTAppState s => Some (VState (ias_admin s) (ias_paused s) (ias_pending_admin s))
  | DIFTAppMintState s =>
      Some (VMint (ims_daily_mint_limit s) (ims_rate_limit_day s) (ims_rate_limit_daily_usage s))
  | DIFTBridge b => Some (VBridge (ib_counterparty_ift_address b) (ib_chain_options b))
  | DPendingTransfer p => Some (VPending (pt_sender p) (pt_amount p))
  | _ => None
  end.

(** The day's usage after minting, or after a transfer left for good. *)
Definition minted_view (amount now : Z) (v : View) : View :=
  match v with
  | VMint limit day usage =>
      if Z.eqb limit 0 then v else VMint limit (current_day now) (used_today day usage now + amount)
  | _ => v
  end.
Definition left_view (amount now : Z) (v : View) : View :=
  match v with
  | VMint limit day usage =>
      if Z.eqb limit 0 then v
      else VMint limit (current_day now) (Z.max 0 (used_today day usage now - amount))
  | _ => v
  end.
Definition limit_view (limit : Z) (v : View) : View :=
  match v with VMint _ day usage => VMint limit day usage | _ => v end.
Definition admin_view (f : Pubkey -> bool -> option Pubkey -> View) (v : View) : View :=
  match v with VState admin paused pending => f admin paused pending | _ => v end.

(** An event, seen from a key. *)
Definition replay_event (K : IftKey) (acc : option View) (e : Event) : option View :=
  match K, e with
  | IKState, IFTInitialized admin _ => Some (VState admin false None)
  | IKState, AdminProposed _ n _ => admin_view (fun a p _ => VState a p (Some n)) <$> acc
  | IKState, AdminAccepted _ n _ => admin_view (fun _ p _ => VState n p None) <$> acc
  | IKState, AdminProposalCancelled _ _ _ => admin_view (fun a p _ => VState a p None) <$> acc
  | IKState, TokenPausedUpdated b _ => admin_view (fun a _ n => VState a b n) <$> acc
  | IKMint m, SplTokenCreated m' _ _ | IKMint m, ExistingTokenInitialized m' _ _ _ =>
      if decide (m' = m) then Some (VMint 0 0 0) else acc
  | IKMint m, MintRateLimitUpdated m' limit _ => if decide (m' = m) then limit_view limit <$> acc else acc
  | IKMint m, IFTMintReceived m' _ _ amount _ now | IKMint m, AdminMintExecuted m' _ amount _ now
  | IKMint m, IFTTransferRefunded m' _ _ _ amount _ now =>
      if decide (m' = m) then minted_view amount now <$> acc else acc
  | IKMint m, IFTTransferCompleted m' _ _ _ amount now =>
      if decide (m' = m) then left_view amount now <$> acc else acc
  | IKMint m, MintAuthorityRevoked m' _ _ => if decide (m' = m) then None else acc
  | IKBridge m c, IFTBridgeRegistered m' c' addr opts _ =>
      if decide (m' = m /\ c' = c) then Some (VBridge addr opts) else acc
  | IKBridge m c, IFTBridgeRemoved m' c' _ => if decide (m' = m /\ c' = c) then None else acc
  | IKPending m c s, IFTTransferInitiated m' c' s' sender _ amount _ =>
      if decide (m' = m /\ c' = c /\ s' = s) then Some (VPending sender amount) else acc
  | IKPending m c s, IFTTransferCompleted m' c' s' _ _ _
  | IKPending m c s, IFTTransferRefunded m' c' s' _ _ _ _ =>
      if decide (m' = m /\ c' = c /\ s' = s) then None else acc
  | _, _ => acc
  end.

Definition replay_entry (K : IftKey) (acc : option View) (e : LogEntry) : option View :=
  match e with LEvent _ e => replay_event K acc e | LInvoke _ _ _ => acc end.

(** The program's own entries, and the account at [K] after them. *)
Definition ift_log (lg : list LogEntry) : list LogEntry := filter (logged_by IFT_ID) lg.
Definition replay (K : IftKey) (l : list LogEntry) : option View := foldl (replay_entry K) None l.

Lemma ift_log_app lg l : ift_log (lg ++ l) = ift_log lg ++ ift_log l.
Proof. apply filter_app. Qed.

Lemma ift_log_others l : Forall (fun e => ~ logged_by IFT_ID e) l -> ift_log l = [].
Proof.
  induction 1 as [|e l He _ IH]; [done|]. unfold ift_log. rewrite filter_cons_False by done. exact IH.
Qed.

Lemma replay_app K l1 l2 : replay K (l1 ++ l2) = foldl (replay_entry K) (replay K l1) l2.
Proof. apply foldl_app. Qed.

Lemma replay_setup K acc l l2 :
  Forall setup_call l -> foldl (replay_entry K) acc (l ++ l2) = foldl (replay_entry K) acc l2.
Proof. induction 1 as [|e l He _ IH]; [done|]. by destruct e as [|? ? []]. Qed.

Section IftReplay.
Context `{Platform} `{!PlatformOk} `{GmpLib} `{IftLib}.
Context `{!RouterDeployed} `{!RouterEntry} `{!GmpDeployed}.

Lemma i_step_steps w w' :
  i_step w w' -> steps_to IFT_ID ik ik_typed (fun w w' ch l => exists cx ix, i_trans cx w w' ix ch l) w w'.
Proof.
  intros (cx & ix & Hrun & Hty & Hk & Hx).
  apply exec_ift_refines in Hx as (ch & l & Ht & ?); [|done..]. exists ch, l. eauto.
Qed.

(** A transition says nothing of the other keys. *)
Lemma replay_other cx ix w w' ch l K acc :
  i_trans cx w w' ix ch l -> K ∉ (fst <$> ch) -> foldl (replay_entry K) acc l = acc.
Proof.
  intros Ht HK. destruct Ht; rewrite ?replay_setup by eauto using mint_setup_calls, ata_setup_calls; simpl in HK;
    rewrite ?not_elem_of_cons in HK; destruct K; simpl; try done; try (by destruct HK);
    (rewrite decide_False; [done|]); intros ?; destruct_and?; subst; by destruct_and?.
Qed.

(** The view of an account that a replay agrees with. *)
Definition agrees (v : IftKey -> option AccountData) (l : list LogEntry) (K : IftKey) : Prop :=
  view_of <$> v K = Some <$> replay K l.

Lemma agrees_stored l K d x w :
  agrees (value_at ik w) l K -> i_stored w K d -> view_of d = Some x -> replay K l = Some x.
Proof.
  intros Ha (a & E & _ & Hd) Hv. unfold agrees, value_at in Ha. rewrite E in Ha. simpl in Ha.
  rewrite Hd, Hv in Ha. destruct (replay K l); simpl in Ha; congruence.
Qed.

(** What the two updates of the limit do to the view. *)
Lemma rate_view s amount now s' :
  mint_within s amount now s' ->
  view_of (DIFTAppMintState s') = Some (minted_view amount now
    (VMint (ims_daily_mint_limit s) (ims_rate_limit_day s) (ims_rate_limit_daily_usage s))).
Proof.
  unfold minted_view. intros [[E ->]|(Hne & _ & ->)]; simpl; [by rewrite E|].
  by rewrite (proj2 (Z.eqb_neq _ _) Hne).
Qed.

Lemma reduce_view s amount now :
  view_of (DIFTAppMintState (left_for_good s amount now)) = Some (left_view amount now
    (VMint (ims_daily_mint_limit s) (ims_rate_limit_day s) (ims_rate_limit_daily_usage s))).
Proof. unfold left_for_good, left_view. by destruct (Z.eqb _ _). Qed.

(** A transition leaves what its events say. *)
Lemma replay_changed cx ix w w' ch l lg K o :
  (forall K, ik_typed K -> agrees (value_at ik w) lg K) -> i_trans cx w w' ix ch l ->
  Forall (fun x => ik_typed (fst x)) ch -> (K, o) ∈ ch ->
  view_of <$> o = Some <$> foldl (replay_entry K) (replay K lg) l.
Proof.
  intros Hag Ht Hch Hin. rewrite Forall_forall in Hch. specialize (Hch _ Hin) as HK. simpl in HK.
  assert (forall d x, i_stored w K d -> view_of d = Some x -> replay K lg = Some x) as Hst
    by (intros d x; by apply agrees_stored, Hag).
  destruct Ht; rewrite ?replay_setup by eauto using mint_setup_calls, ata_setup_calls; simpl in Hin;
    repeat (apply elem_of_cons in Hin as [Hin|Hin]); try (by apply not_elem_of_nil in Hin);
    injection Hin as -> ->; simpl; rewrite ?decide_True by done; try done;
    try (match goal with E : mint_within _ _ _ _ |- _ => apply rate_view in E end);
    match goal with
    | Hm : mint_at w _ _ |- _ => destruct Hm as [Hm _]; rewrite (Hst _ _ Hm eq_refl)
    | Hb : by_admin _ _ _ |- _ => destruct Hb as (Hb & _); rewrite (Hst _ _ Hb eq_refl)
    | Hb : i_stored w IKState _ |- _ => rewrite (Hst _ _ Hb eq_refl)
    end; simpl in *; try congruence; try done.
  exact (f_equal Some (reduce_view _ _ _)).
Qed.

(** ** The invariant *)

(** The limit is checked, and amounts are positive. *)
Definition rate_checked (l1 : list LogEntry) (m : Pubkey) (amount now : Z) : Prop :=
  0 < amount /\ exists limit day usage, replay (IKMint m) l1 = Some (VMint limit day usage) /\
    (limit <> 0 -> used_today day usage now + amount <= limit).

(** What justifies an event that mints [n] tokens of [m], after the entries
    [l1]: a bridge that is registered and whose counterparty signed through
    its GMP account; the administrator of a program that is not paused; or a
    transfer of that amount that is pending. *)
Definition mint_justified (l1 : list LogEntry) (m : Pubkey) (n : Z) (e : Event) : Prop :=
  (exists admin pending, replay IKState l1 = Some (VState admin false pending) /\
     match e with
     | IFTMintReceived m' c _ a k _ => m' = m /\ a = n /\
         exists addr opts, replay (IKBridge m c) l1 = Some (VBridge addr opts) /\
           k = gmp_account_key c addr []
     | AdminMintExecuted m' _ a admin' _ => m' = m /\ a = n /\ admin' = admin
     | IFTTransferRefunded m' c s sender a _ _ => m' = m /\ a = n /\
         replay (IKPending m c s) l1 = Some (VPending sender a)
     | _ => False
     end).

(** What an event needs of the entries before it. *)
Definition event_ok (l1 : list LogEntry) (e : Event) : Prop :=
  match e with
  | IFTMintReceived m _ _ n _ now | AdminMintExecuted m _ n _ now
  | IFTTransferRefunded m _ _ _ n _ now => rate_checked l1 m n now
  | IFTTransferCompleted _ _ _ _ n _ => 0 < n
  | MintRateLimitUpdated _ limit _ => 0 <= limit
  | _ => True
  end.

(** An entry of the program's log, with what comes before and after it. *)
Definition entry_ok (l1 : list LogEntry) (x : LogEntry) (l2 : list LogEntry) : Prop :=
  match x with
  | LInvoke _ p (IxMintTo m _ a n) =>
      is_token_program p = true /\ a = authority_key m /\
      exists e l3, l2 = LEvent IFT_ID e :: l3 /\ mint_justified l1 m n e
  | LInvoke _ _ _ => True
  | LEvent _ e => event_ok l1 e
  end.

Definition entries_ok (pre l : list LogEntry) : Prop :=
  forall l1 x l2, l = l1 ++ x :: l2 -> entry_ok (pre ++ l1) x l2.

Lemma entry_ok_app pre x l l' : entry_ok pre x l -> entry_ok pre x (l ++ l').
Proof.
  destruct x as [|? ? []]; try done. simpl. intros (? & ? & e & l3 & -> & ?). split_and!; [done..|].
  by exists e, (l3 ++ l').
Qed.

Lemma entries_ok_nil pre : entries_ok pre [].
Proof. intros l1 x l2 E. by destruct l1. Qed.

Lemma entries_ok_cons pre x l : entry_ok pre x l -> entries_ok (pre ++ [x]) l -> entries_ok pre (x :: l).
Proof.
  intros Hx Hl [|y l1] z l2 E; simpl in E; simplify_eq; [by rewrite app_nil_r|].
  specialize (Hl l1 z l2 eq_refl). by rewrite <- (assoc_L (++)) in Hl.
Qed.

Lemma entries_ok_app pre l l' : entries_ok pre l -> entries_ok (pre ++ l) l' -> entries_ok pre (l ++ l').
Proof.
  intros Hl Hl' l1 x l2 E. apply app_eq_app in E as (k & [[-> Hk]|[-> Hk]]).
  - destruct k as [|y k]; simpl in Hk.
    + rewrite app_nil_r in Hl'. by specialize (Hl' [] x l2 (eq_sym Hk)); rewrite app_nil_r in Hl'.
    + injection Hk as -> ->. apply entry_ok_app. by apply Hl.
  - rewrite (assoc_L (++)). by apply Hl'.
Qed.

Record i_inv (v : IftKey -> option AccountData) (lg : list LogEntry) : Prop := {
  ii_agrees K : ik_typed K -> agrees v (ift_log lg) K;
  ii_entries : entries_ok [] (ift_log lg);
  ii_amounts m c s p : length m = 32%nat -> is_u64 s ->
    v (IKPending m c s) = Some (DPendingTransfer p) -> 0 < pt_amount p }.

(** *** Every transition keeps it *)

Lemma replay_setup' K pre l : Forall setup_call l -> replay K (pre ++ l) = replay K pre.
Proof.
  intros Hl. rewrite replay_app. by rewrite <- (app_nil_r l), (replay_setup K (replay K pre) l []).
Qed.

Lemma agrees_setup v pre l :
  Forall setup_call l -> (forall K, ik_typed K -> agrees v pre K) ->
  forall K, ik_typed K -> agrees v (pre ++ l) K.
Proof. intros Hl Hag K HK. unfold agrees. rewrite replay_setup' by done. by apply Hag. Qed.

Lemma setup_entries_ok pre l : Forall setup_call l -> entries_ok pre l.
Proof.
  intros Hl l1 x l2 ->. apply Forall_app in Hl as [_ [Hx _]%Forall_cons]. by destruct x as [|? ? []].
Qed.

Lemma rate_checked_intro w pre m ms ms' amount now :
  agrees (value_at ik w) pre (IKMint m) -> mint_at w m ms -> 0 < amount ->
  mint_within ms amount now ms' -> rate_checked pre m amount now.
Proof.
  intros Hag [Hst _] Hpos Hc. split; [done|].
  eexists _, _, _. split; [by eapply agrees_stored|]. intros Hl. by destruct Hc as [[? _]|(_ & ? & _)].
Qed.

(** A mint and its event. *)
Lemma mint_block pre tp m k n e now :
  is_token_program tp = true -> mint_justified pre m n e -> rate_checked pre m n now ->
  (forall pre, entry_ok pre (LEvent IFT_ID e) [] <-> rate_checked pre m n now) ->
  entries_ok pre [LInvoke IFT_ID tp (IxMintTo m k (authority_key m) n); LEvent IFT_ID e].
Proof.
  intros Htp Hj Hr He. apply entries_ok_cons; [by split_and!; [done|done|eexists _, _]|].
  apply entries_ok_cons; [|apply entries_ok_nil]. apply He.
  destruct Hr as (Hpos & L & d & u & Hrep & Hle). split; [done|]. exists L, d, u. by rewrite replay_app.
Qed.

Lemma unpaused_replay w pre :
  agrees (value_at ik w) pre IKState -> not_paused_at w ->
  exists admin pending, replay IKState pre = Some (VState admin false pending).
Proof.
  intros Hag (st & Hst & Hp). exists (ias_admin st), (ias_pending_admin st).
  eapply agrees_stored; [done|done|]. simpl. by rewrite Hp.
Qed.

Ltac plain := repeat (apply entries_ok_cons; [exact I|]); apply entries_ok_nil.

Lemma trans_entries cx ix w w' ch l pre :
  (forall K, ik_typed K -> agrees (value_at ik w) pre K) ->
  (forall m c s p, length m = 32%nat -> is_u64 s ->
     value_at ik w (IKPending m c s) = Some (DPendingTransfer p) -> 0 < pt_amount p) ->
  i_trans cx w w' ix ch l -> Forall (fun x => ik_typed (fst x)) ch -> entries_ok pre l.
Proof.
  intros Hag Hpos Ht Hch.
  destruct Ht as [| | | | | |ms ms' b acc msg l m Hnp Hms Hb Hbm _ Hga _ Hn Htp Hrate Hset%ata_setup_calls
    |ms ms' p r reason acc c s m Hnp Hms _ Hp Hpm _ _ _ _ Htp _ Hrate
    |ms p r acc c s m Hnp Hms _ Hp Hpm _ _ _ _| | | | |st m ms acc limit _ _ _ Hlim| |
    st ms ms' acc msg l m Hadm Hup Hms Hn Htp Hrate Hset%ata_setup_calls]; try plain.
  - apply entries_ok_app; [apply setup_entries_ok, mint_setup_calls|plain].
  - apply Forall_cons in Hch as [Hch _]. simpl in Hch.
    apply entries_ok_app; [by apply setup_entries_ok|]. pose proof (agrees_setup _ _ _ Hset Hag) as Hag'. clear Hag. rename Hag' into Hag.
    eapply mint_block; [done| |exact (rate_checked_intro _ _ _ _ _ _ _ (Hag (IKMint m) Hch) Hms Hn Hrate)|done].
    destruct (unpaused_replay w _ (Hag IKState I) Hnp) as (ad & pd & E).
    exists ad, pd. split_and!; [done..|]. eexists _, _. split; [|exact Hga].
    by eapply (agrees_stored _ _ _ _ _ (Hag (IKBridge m (ib_client_id b)) Hch)).
  - apply Forall_cons in Hch as [Hm [HK _]%Forall_cons]. simpl in Hm, HK.
    assert (0 < pt_amount p) as Hn by (destruct HK; exact (Hpos _ _ _ _ ltac:(done) ltac:(done) (value_at_left _ _ (Some _) Hp))).
    eapply mint_block; [done| |exact (rate_checked_intro _ _ _ _ _ _ _ (Hag (IKMint m) Hm) Hms Hn Hrate)|done].
    destruct (unpaused_replay w _ (Hag IKState I) Hnp) as (ad & pd & E).
    exists ad, pd. split_and!; [done..|]. by eapply (agrees_stored _ _ _ _ _ (Hag (IKPending m c s) HK)).
  - apply Forall_cons in Hch as [_ [HK _]%Forall_cons]. destruct HK.
    apply entries_ok_cons; [|apply entries_ok_nil]. exact (Hpos _ _ _ _ ltac:(done) ltac:(done) (value_at_left _ _ (Some _) Hp)).
  - apply entries_ok_cons; [|apply entries_ok_nil]. apply Hlim.
  - apply Forall_cons in Hch as [Hch _]. simpl in Hch.
    apply entries_ok_app; [by apply setup_entries_ok|]. pose proof (agrees_setup _ _ _ Hset Hag) as Hag'. clear Hag. rename Hag' into Hag.
    eapply mint_block; [done| |exact (rate_checked_intro _ _ _ _ _ _ _ (Hag (IKMint m) Hch) Hms Hn Hrate)|done].
    destruct Hadm as (Hst & _ & _). exists (ias_admin st), (ias_pending_admin st). split_and!; try done.
    eapply (agrees_stored _ _ _ _ _ (Hag IKState I) Hst). simpl. by rewrite Hup.
Qed.

(** ** Reachable states *)

Lemma i_inv_step cx ix w w' ch l :
  i_inv (value_at ik w) (w_log w) -> i_trans cx w w' ix ch l -> i_evol (fst <$> ch) l w w' ->
  (forall K o, (K, o) ∈ ch -> left_at IFT_ID ik w' K o) -> Forall (fun x => ik_typed (fst x)) ch ->
  i_inv (value_at ik w') (w_log w').
Proof.
  intros [Hag Hen Hpos] Ht Hev Hch Hty. pose proof (evol_log _ _ _ _ Hev) as (k & Hk & Hl).
  assert (ift_log (w_log w') = ift_log (w_log w) ++ l) as Hlog by (rewrite Hk, ift_log_app; by f_equal).
  constructor.
  - intros K HK. unfold agrees. rewrite Hlog, replay_app.
    destruct (decide (K ∈ (fst <$> ch))) as [Hin|Hin].
    + apply list_elem_of_fmap in Hin as ([K' o] & -> & Hin). simpl in *.
      rewrite (value_at_left _ _ o) by (by apply Hch). by eapply replay_changed.
    + rewrite (replay_other _ _ _ _ _ _ _ _ Ht Hin), (value_at_evol _ _ _ _ _ Hev) by done. by apply Hag.
  - rewrite Hlog. apply entries_ok_app; [done|]. by eapply trans_entries.
  - intros m c s p Hm Hs Hv.
    destruct (decide (IKPending m c s ∈ (fst <$> ch))) as [Hin|Hin].
    + apply list_elem_of_fmap in Hin as ([K' o] & EK & Hin). simpl in EK. subst K'.
      rewrite (value_at_left _ _ o) in Hv by (by apply Hch). clear Hty. destruct Ht; simpl in Hin;
        repeat (apply elem_of_cons in Hin as [Hin|Hin]); try (by apply not_elem_of_nil in Hin);
        apply pair_equal_spec in Hin as [EK EO]; try discriminate EK; rewrite EO in Hv; try discriminate Hv.
      by injection Hv as <-.
    + rewrite (value_at_evol _ _ _ _ _ Hev) in Hv by done. by eapply Hpos.
Qed.

Lemma i_inv_ext v v' lg : (forall K, ik_typed K -> v K = v' K) -> i_inv v lg -> i_inv v' lg.
Proof.
  intros Hv [Hag Hen Hpos]. constructor; [|done|].
  - intros K HK. unfold agrees. rewrite <- Hv by done. by apply Hag.
  - intros m c s p Hm Hs. rewrite <- Hv by done. by apply Hpos.
Qed.

Lemma i_inv_others v lg l : i_inv v lg -> Forall (fun e => ~ logged_by IFT_ID e) l -> i_inv v (lg ++ l).
Proof.
  intros [Hag Hen Hpos] Hl. constructor; [| |done];
    unfold agrees in *; rewrite ift_log_app, (ift_log_others l Hl), app_nil_r; done.
Qed.

Lemma i_inv_init : i_inv (fun _ => None) [].
Proof. constructor; [done|apply entries_ok_nil|done]. Qed.

Lemma i_reachable_inv w : i_reachable w -> i_inv (value_at ik w) (w_log w).
Proof.
  apply (history_induct _ _ i_inv i_step_steps); [apply i_inv_ext|apply i_inv_others|apply i_inv_init|].
  intros w0 w1 ch l Hi _ (cx & ix & Ht) Hev Hst Hty. by eapply i_inv_step.
Qed.

(** C24: the token program from its events.  In every reachable state every
    account of the token program is what its events say: replaying the
    program's log gives the administrator, the pause switch and the proposed
    administrator, the limit, day and usage of each mint, the counterparty of
    each bridge, and the sender and amount of each pending transfer; an
    account that the replay does not have does not exist. *)
Theorem ift_state_replays w K (HK : ik_typed K) (Hr : i_reachable w) :
  view_of <$> value_at ik w K = Some <$> replay K (own_log IFT_ID w).
Proof. by apply (ii_agrees _ _ (i_reachable_inv w Hr)). Qed.

(** C22: every mint is accounted for.  In every reachable state, every call in
    which the program had tokens minted is signed by the mint authority of
    that token, goes to a token program, and is followed by the event that
    accounts for it, for the same token and amount, while the program was not
    paused: tokens received under the account that GMP derives for the
    counterparty of a bridge registered at that moment; a mint by the
    administrator of that moment; or the refund of the sender and amount of a
    transfer that was pending. *)
Theorem ift_mints_accounted w l1 p m k a n l2 (Hr : i_reachable w)
    (Hl : own_log IFT_ID w = l1 ++ LInvoke IFT_ID p (IxMintTo m k a n) :: l2) :
  is_token_program p = true /\ a = authority_key m /\
  exists e l3, l2 = LEvent IFT_ID e :: l3 /\ mint_justified l1 m n e.
Proof. exact (ii_entries _ _ (i_reachable_inv w Hr) _ _ _ Hl). Qed.

(** ** The daily limit *)

(** The tokens of [m] that an entry minted, and those that left for good. *)
Definition minted_in (m : Pubkey) (x : LogEntry) : Z :=
  match x with
  | LEvent _ (IFTMintReceived m' _ _ n _ _) | LEvent _ (AdminMintExecuted m' _ n _ _)
  | LEvent _ (IFTTransferRefunded m' _ _ _ n _ _) => if decide (m' = m) then n else 0
  | _ => 0
  end.
Definition left_in (m : Pubkey) (x : LogEntry) : Z :=
  match x with
  | LEvent _ (IFTTransferCompleted m' _ _ _ n _) => if decide (m' = m) then n else 0
  | _ => 0
  end.

(** Neither a change of the limit of [m], nor its creation or removal. *)
Definition keeps_limit (m : Pubkey) (x : LogEntry) : Prop :=
  match x with
  | LEvent _ (SplTokenCreated m' _ _) | LEvent _ (ExistingTokenInitialized m' _ _ _)
  | LEvent _ (MintRateLimitUpdated m' _ _) | LEvent _ (MintAuthorityRevoked m' _ _) => m' <> m
  | _ => True
  end.

(** What was minted or left was so on day [d]. *)
Definition on_day (m : Pubkey) (d : Z) (x : LogEntry) : Prop :=
  match x with
  | LEvent _ (IFTMintReceived m' _ _ _ _ now) | LEvent _ (AdminMintExecuted m' _ _ _ now)
  | LEvent _ (IFTTransferRefunded m' _ _ _ _ _ now) | LEvent _ (IFTTransferCompleted m' _ _ _ _ now) =>
      m' = m -> current_day now = d
  | _ => True
  end.

Definition events_ok (l : list LogEntry) : Prop :=
  forall l1 p e l2, l = l1 ++ LEvent p e :: l2 -> event_ok l1 e.

Lemma events_ok_snoc l x :
  events_ok (l ++ [x]) -> events_ok l /\ match x with LEvent _ e => event_ok l e | _ => True end.
Proof.
  intros Hok. split.
  - intros l1 p e l2 ->. apply (Hok l1 p e (l2 ++ [x])). by rewrite <- (assoc_L (++)).
  - destruct x as [p e|]; [|done]. by apply (Hok l p e []).
Qed.

(** The rate of a mint is never negative. *)
Lemma replay_rate_nonneg m l v :
  events_ok l -> replay (IKMint m) l = Some v -> exists L d u, v = VMint L d u /\ 0 <= L /\ 0 <= u.
Proof.
  revert v. induction l as [|x l IH] using rev_ind; [done|]. intros v [Hok Hx]%events_ok_snoc.
  rewrite replay_app. simpl. destruct x as [p e|]; [|by apply IH].
  assert (forall f, (forall L d u, 0 <= L -> 0 <= u -> exists L' d' u', f (VMint L d u) = VMint L' d' u' /\ 0 <= L' /\ 0 <= u') ->
    f <$> replay (IKMint m) l = Some v -> exists L d u, v = VMint L d u /\ 0 <= L /\ 0 <= u) as Hf.
  { intros f Hf E. destruct (replay (IKMint m) l) as [v0|]; [|done]. simpl in E. injection E as <-.
    destruct (IH v0 Hok eq_refl) as (L & d & u & -> & ? & ?). by apply Hf. }
  assert (forall n now, rate_checked l m n now -> minted_view n now <$> replay (IKMint m) l = Some v ->
    exists L d u, v = VMint L d u /\ 0 <= L /\ 0 <= u) as Hmint.
  { intros n now [Hn _]. apply Hf. intros L d u ? ?. unfold minted_view, used_today.
    destruct (Z.eqb_spec L 0); [by eexists _, _, _|]. eexists _, _, _. split_and!; [done..|].
    destruct (Z.eqb _ _); lia. }
  destruct e; simpl in *; try (by apply IH);
    (case_decide as Hm; [|by apply IH]); try subst; try (by apply Hmint); try done.
  - intros [= <-]. by eexists _, _, _.
  - apply Hf. intros L d u ? ?. unfold left_view. destruct (Z.eqb_spec L 0); [by eexists _, _, _|].
    eexists _, _, _. split_and!; [done..|lia].
  - apply Hf. intros L d u ? ?. by eexists _, _, _.
  - intros [= <-]. by eexists _, _, _.
Qed.

(** One entry that keeps the limit. *)
Lemma rate_step m x l L d0 u0 :
  keeps_limit m x -> match x with LEvent _ e => event_ok l e | _ => True end ->
  replay (IKMint m) l = Some (VMint L d0 u0) -> L <> 0 ->
  (replay (IKMint m) (l ++ [x]) = Some (VMint L d0 u0) /\ minted_in m x = 0 /\ left_in m x = 0) \/
  exists now u, replay (IKMint m) (l ++ [x]) = Some (VMint L (current_day now) u) /\
    (forall d, on_day m d x -> current_day now = d) /\
    ((0 < minted_in m x /\ left_in m x = 0 /\ u = used_today d0 u0 now + minted_in m x /\ u <= L) \/
     (minted_in m x = 0 /\ 0 < left_in m x /\ u = Z.max 0 (used_today d0 u0 now - left_in m x))).
Proof.
  intros Hk Hx Hr HL. rewrite replay_app. simpl. rewrite Hr. destruct x as [p e|]; [|by left].
  assert (forall n now, rate_checked l m n now -> 0 < n /\ used_today d0 u0 now + n <= L) as Hc.
  { intros n now (Hn & L' & d' & u' & E & Hle). rewrite Hr in E. injection E as <- <- <-. auto. }
  destruct e; simpl in *; try (by left); (case_decide as Hm; [|by left]); try done; subst; right;
    (rewrite (proj2 (Z.eqb_neq L 0)) by done); eexists _, _; (split; [reflexivity|]); (split; [by intros d ->|]).
  all: try (apply Hc in Hx as [? ?]; left; split_and!; (done || lia)).
  right. split_and!; (done || lia).
Qed.

Lemma limit_kept_back m l1 l2 L d u :
  events_ok (l1 ++ l2) -> Forall (keeps_limit m) l2 ->
  replay (IKMint m) (l1 ++ l2) = Some (VMint L d u) ->
  exists d0 u0, replay (IKMint m) l1 = Some (VMint L d0 u0).
Proof.
  revert d u. induction l2 as [|x l2 IH] using rev_ind; intros d u Hok Hk Hr.
  { rewrite app_nil_r in Hr. eauto. }
  rewrite (assoc_L (++)) in Hok, Hr. apply events_ok_snoc in Hok as [Hok Hx].
  apply Forall_app in Hk as [Hk [Hkx _]%Forall_cons]. rewrite replay_app in Hr. simpl in Hr.
  assert (exists d u, replay (IKMint m) (l1 ++ l2) = Some (VMint L d u)) as (d' & u' & E); [|by eapply IH].
  pose proof (fun v => replay_rate_nonneg m (l1 ++ l2) v Hok) as Hsh.
  destruct (replay (IKMint m) (l1 ++ l2)) as [v|] eqn:E.
  - destruct (Hsh v eq_refl) as (L0 & d0 & u0 & -> & _). clear Hsh.
    destruct x as [p e|]; [|by injection Hr as -> -> ->; eauto].
    destruct e; simpl in *; try (by injection Hr as -> -> ->; eauto);
      (case_decide; [|by injection Hr as -> -> ->; eauto]); try done;
      simpl in Hr; destruct (Z.eqb_spec L0 0); injection Hr as <- <- <-; eauto.
  - destruct x as [p e|]; [|done]. destruct e; simpl in *; try done; by case_decide.
Qed.

(** What the days' usage says of the tokens minted since [l1]. *)
Lemma rate_bound m l1 l2 L d0 u0 day :
  events_ok (l1 ++ l2) -> Forall (keeps_limit m) l2 -> Forall (on_day m day) l2 ->
  replay (IKMint m) l1 = Some (VMint L d0 u0) -> L <> 0 -> 0 <= L -> 0 <= u0 ->
  exists d u, replay (IKMint m) (l1 ++ l2) = Some (VMint L d u) /\ 0 <= u /\ 0 <= zsum (left_in m) l2 /\
    zsum (minted_in m) l2 <= L + zsum (left_in m) l2 /\
    ((zsum (minted_in m) l2 = 0 /\ zsum (left_in m) l2 = 0) \/
     (d = day /\ zsum (minted_in m) l2 - zsum (left_in m) l2 <= u)).
Proof.
  intros Hok Hk Hd Hr HL HL0 Hu0. induction l2 as [|x l2 IH] using rev_ind.
  { exists d0, u0. rewrite app_nil_r. simpl. split_and!; (done || lia || auto). }
  rewrite (assoc_L (++)) in *. apply events_ok_snoc in Hok as [Hok Hx].
  apply Forall_app in Hk as [Hk [Hkx _]%Forall_cons]. apply Forall_app in Hd as [Hd [Hdx _]%Forall_cons].
  destruct (IH Hok Hk Hd) as (d & u & Hr' & Hu & Hl & Hb & Hc). rewrite !zsum_snoc.
  destruct (rate_step m x _ L d u Hkx Hx Hr' HL) as [(E & -> & ->)|(now & u' & E & Hday & Hcase)].
  { exists d, u. rewrite E. split_and!; [done|lia..|]. destruct Hc; [left|right]; lia. }
  rewrite (Hday day Hdx) in E. exists day, u'. unfold used_today in Hcase. rewrite (Hday day Hdx) in Hcase.
  destruct (Z.eqb_spec d day); destruct Hcase as [(? & ? & ? & ?)|(? & ? & ?)], Hc as [[? ?]|[? ?]];
    split_and!; try done; try lia; right; lia.
Qed.

(** C23: the daily limit.  Take any stretch of the program's log, up to a
    reachable state, in which the limit of a token was not changed and whose
    mints and completed transfers of that token all happened on one day.  If
    the limit is not zero, the tokens minted in that stretch, whether
    received, refunded or minted by the administrator, are at most the limit
    plus the tokens that left for good in it. *)
Theorem daily_mint_bounded w m s l1 l2 day (Hr : i_reachable w) (Hm : length m = 32%nat)
    (Hs : i_stored w (IKMint m) (DIFTAppMintState s)) (Hlim : ims_daily_mint_limit s <> 0)
    (Hlog : own_log IFT_ID w = l1 ++ l2)
    (Hkeep : Forall (keeps_limit m) l2) (Hday : Forall (on_day m day) l2) :
  zsum (minted_in m) l2 <= ims_daily_mint_limit s + zsum (left_in m) l2.
Proof.
  apply i_reachable_inv in Hr as [Hag Hen _].
  assert (events_ok (l1 ++ l2)) as Hok.
  { intros k1 p e k2 E. apply (Hen k1 (LEvent p e) k2). change (own_log IFT_ID w = k1 ++ LEvent p e :: k2).
    by rewrite Hlog. }
  assert (replay (IKMint m) (l1 ++ l2) = Some (VMint (ims_daily_mint_limit s) (ims_rate_limit_day s)
    (ims_rate_limit_daily_usage s))) as Hrep.
  { rewrite <- Hlog. by eapply agrees_stored; [apply (Hag (IKMint m))|done|]. }
  destruct (limit_kept_back _ _ _ _ _ _ Hok Hkeep Hrep) as (d0 & u0 & E0).
  destruct (replay_rate_nonneg m l1 _ ltac:(intros k1 p e k2 ->; eapply (Hok k1 p e (k2 ++ l2));
    by rewrite <- (assoc_L (++))) E0) as (L & d & u & [= <- <- <-] & ? & ?).
  by destruct (rate_bound m l1 l2 _ d0 u0 day Hok Hkeep Hday E0 Hlim) as (? & ? & _ & _ & _ & Hb & _).
Qed.

End IftReplay.
