(* ===== verification/IftProps.v ===== *)
(** * Properties of the token program

    What holds in every history of the token program, together with GMP and
    the router: transfers are settled once, refunds follow timeouts and error
    acknowledgements, every mint is accounted for, mints stay within the daily
    limit, a paused program moves no tokens, and the administration changes
    hands in two steps. *)

From S2P Require Import Prelude Errors Types Runtime Ics24 Cpi AccessManager AccessManagerSpec Keyed.
From S2P Require Import Histories Chunking Router ChunkingSpec RouterSpec RouterProps GmpTypes Gmp GmpSpec.
From S2P Require Import GmpProps Ift IftSpec IftReplay.
From Stdlib Require Import ZArith Lia.
From Stdlib.Strings Require Import Byte.
From stdpp Require Import prelude gmap list strings.

#[local] Open Scope Z_scope.

(** ** The events of a transfer *)

(** The entries that concern the transfer with a client and sequence. *)
Definition about_transfer (c : bytes) (s : Z) (e : LogEntry) : bool :=
  match e with
  | LEvent _ (IFTTransferInitiated _ c' s' _ _ _ _) | LEvent _ (IFTTransferCompleted _ c' s' _ _ _)
  | LEvent _ (IFTTransferRefunded _ c' s' _ _ _ _) => bool_decide (c' = c /\ s' = s)
  | _ => false
  end.

Definition transfer_events (c : bytes) (s : Z) (lg : list LogEntry) : list LogEntry :=
  List.filter (about_transfer c s) (ift_log lg).

(** How many packets the router sent with a client and sequence. *)
Definition sends (c : bytes) (s : Z) (lg : list LogEntry) : nat :=
  count (is_send c s) (filter (logged_by ROUTER_ID) lg).

Lemma transfer_events_app c s lg l :
  transfer_events c s (lg ++ l) = transfer_events c s lg ++ transfer_events c s l.
Proof. unfold transfer_events. by rewrite ift_log_app, List.filter_app. Qed.

Lemma sends_app c s lg l : sends c s (lg ++ l) = (sends c s lg + sends c s l)%nat.
Proof. unfold sends. by rewrite filter_app, count_app. Qed.

Lemma sends_in c s p t lg :
  LEvent ROUTER_ID (SendPacketEvent c s p t) ∈ lg -> (1 <= sends c s lg)%nat.
Proof.
  intros (l1 & l2 & ->)%list_elem_of_split. rewrite sends_app. unfold sends at 2.
  rewrite filter_cons_True by reflexivity. unfold count. simpl.
  rewrite bool_decide_eq_true_2 by done. simpl. lia.
Qed.

Lemma setup_no_transfer c s l : Forall setup_call l -> List.filter (about_transfer c s) l = [].
Proof. induction 1 as [|e l He _ IH]; [done|]. by destruct e as [|? ? []]. Qed.

Section IftHistory.
Context `{Platform} `{!PlatformOk} `{GmpLib} `{!GmpLibOk} `{IftLib}.
Context `{!RouterDeployed} `{!RouterEntry} `{!GmpDeployed}.

(** The packet that the router sent for a transfer: its call mints the amount
    for the receiver, on the counterparty of a bridge registered for [m]. *)
Definition mint_packet_sent (m : Pubkey) (c : bytes) (s : Z) (receiver : bytes) (amount t : Z)
    (lg : list LogEntry) : Prop :=
  exists b msg now cm payload dest,
    (exists t0, LEvent IFT_ID (IFTBridgeRegistered m c (ib_counterparty_ift_address b)
       (ib_chain_options b) t0) ∈ lg) /\ itm_client_id msg = c /\ itm_sequence msg = s /\ itm_receiver msg = receiver /\
    itm_amount msg = amount /\ transfer_call b msg now cm /\ scm_timeout_timestamp cm = t /\
    call_payload IFT_ID cm payload /\
    LEvent ROUTER_ID (SendPacketEvent c s (mkPacket s c dest t [payload]) t) ∈ lg.

(** The event that ends a transfer. *)
Definition ends_transfer (m : Pubkey) (c : bytes) (s : Z) (sender : Pubkey) (amount : Z) (e : Event) : Prop :=
  match e with
  | IFTTransferCompleted m' c' s' sender' amount' _
  | IFTTransferRefunded m' c' s' sender' amount' _ _ =>
      m' = m /\ c' = c /\ s' = s /\ sender' = sender /\ amount' = amount
  | _ => False
  end.

Definition no_pending (v : IftKey -> option AccountData) (c : bytes) (s : Z) : Prop :=
  forall m, length m = 32%nat -> v (IKPending m c s) = None.

(** The life of the transfer with client [c] and sequence [s]: there is none;
    or it was started, and its tokens are held in the one pending account; or
    it was ended, and nothing is left. *)
Inductive transfer_life (c : bytes) (s : Z) (v : IftKey -> option AccountData) (lg : list LogEntry) : Prop :=
| TL_none : transfer_events c s lg = [] -> no_pending v c s -> transfer_life c s v lg
| TL_open m p receiver t :
    transfer_events c s lg =
      [LEvent IFT_ID (IFTTransferInitiated m c s (pt_sender p) receiver (pt_amount p) t)] ->
    length m = 32%nat -> pt_mint p = m -> pt_client_id p = c -> pt_sequence p = s -> 0 < pt_amount p ->
    v (IKPending m c s) = Some (DPendingTransfer p) ->
    (forall m', length m' = 32%nat -> m' <> m -> v (IKPending m' c s) = None) ->
    mint_packet_sent m c s receiver (pt_amount p) t lg -> transfer_life c s v lg
| TL_ended m sender receiver amount t e :
    transfer_events c s lg =
      [LEvent IFT_ID (IFTTransferInitiated m c s sender receiver amount t); LEvent IFT_ID e] ->
    ends_transfer m c s sender amount e -> no_pending v c s ->
    mint_packet_sent m c s receiver amount t lg -> transfer_life c s v lg.

Lemma mint_packet_sent_app m c s r a t lg l : mint_packet_sent m c s r a t lg -> mint_packet_sent m c s r a t (lg ++ l).
Proof.
  intros (b & msg & now & cm & pl & dest & (t0 & ?) & ? & ? & ? & ? & ? & ? & ? & Hin).
  exists b, msg, now, cm, pl, dest. split_and!; try done; [exists t0|]; apply elem_of_app; by left.
Qed.

Lemma mint_packet_sends m c s r a t lg : mint_packet_sent m c s r a t lg -> (1 <= sends c s lg)%nat.
Proof. intros (? & ? & ? & ? & ? & ? & _ & _ & _ & _ & _ & _ & _ & _ & Hin). by eapply sends_in. Qed.

Lemma life_ext c s v v' lg l :
  is_u64 s -> transfer_events c s l = [] ->
  (forall m, length m = 32%nat -> v' (IKPending m c s) = v (IKPending m c s)) ->
  transfer_life c s v lg -> transfer_life c s v' (lg ++ l).
Proof.
  intros Hs Hl Hv [He Hn|m p r t He Hm ? ? ? ? Hp Ho Hpk|m sd r a t e He ? Hn Hpk].
  - apply TL_none; [by rewrite transfer_events_app, He, Hl|]. intros m Hm. by rewrite Hv, Hn.
  - eapply TL_open; [rewrite transfer_events_app, He, Hl; reflexivity|done..| | |by apply mint_packet_sent_app].
    + by rewrite Hv.
    + intros m' ? ?. by rewrite Hv, Ho.
  - eapply TL_ended; [rewrite transfer_events_app, He, Hl; reflexivity|done| |by apply mint_packet_sent_app].
    intros m' Hm. by rewrite Hv, Hn.
Qed.

(** A registered bridge was registered by an event. *)
Lemma replay_bridge m c lg a o :
  replay (IKBridge m c) (ift_log lg) = Some (VBridge a o) ->
  exists t0, LEvent IFT_ID (IFTBridgeRegistered m c a o t0) ∈ lg.
Proof.
  intros Hr. enough (exists p t0, LEvent p (IFTBridgeRegistered m c a o t0) ∈ ift_log lg)
    as (p & t0 & [E Hin]%list_elem_of_filter) by (simpl in E; subst p; eauto).
  revert Hr. induction (ift_log lg) as [|x l IH] using rev_ind; [done|].
  rewrite replay_app. simpl. intros Hr.
  assert ((exists p t0, x = LEvent p (IFTBridgeRegistered m c a o t0)) \/
    replay (IKBridge m c) l = Some (VBridge a o)) as [(p & t0 & ->)|Hr'].
  { destruct x as [p e|]; [|by right]. destruct e; simpl in Hr; try (by right);
      (case_decide as Hd; [|by right]); [|done]. destruct Hd as [-> ->]. injection Hr as -> ->. eauto. }
  - exists p, t0. set_solver.
  - destruct (IH Hr') as (p & t0 & ?). exists p, t0. set_solver.
Qed.

(** *** The life of a transfer, step by step *)

Definition life_inv (c : bytes) (s : Z) (v : IftKey -> option AccountData) (lg : list LogEntry) : Prop :=
  i_inv v lg /\ ((sends c s lg <= 1)%nat -> transfer_life c s v lg).

(** A transition of the transfer itself: its start or its end. *)
Definition touches (c : bytes) (s : Z) (ch : list (IftKey * option AccountData)) : bool :=
  existsb (fun x => match fst x with
                    | IKPending _ c' s' => bool_decide (c' = c /\ s' = s)
                    | _ => false
                    end) ch.

Lemma touches_false c s ch m : touches c s ch = false -> IKPending m c s ∉ (fst <$> ch).
Proof.
  intros Hn ([K o] & E & Hin)%list_elem_of_fmap. simpl in E. subst K.
  enough (touches c s ch = true) by congruence. apply existsb_exists.
  exists (IKPending m c s, o). split; [by apply list_elem_of_In|]. simpl. by apply bool_decide_eq_true_2.
Qed.

Lemma quiet_events cx ix w w' ch l c s :
  i_trans cx w w' ix ch l -> touches c s ch = false -> List.filter (about_transfer c s) l = [].
Proof.
  intros Ht Hn. destruct Ht; rewrite ?List.filter_app, ?setup_no_transfer by eauto using mint_setup_calls, ata_setup_calls; simpl in *; try done;
    rewrite ?orb_false_r in Hn; by rewrite Hn.
Qed.

Lemma value_other (ch : list (IftKey * option AccountData)) l w w' m c s :
  i_evol (fst <$> ch) l w w' -> length m = 32%nat -> is_u64 s -> IKPending m c s ∉ (fst <$> ch) ->
  value_at ik w' (IKPending m c s) = value_at ik w (IKPending m c s).
Proof. intros Hev Hm Hs Hn. by apply (value_at_evol _ _ _ _ _ Hev). Qed.

Lemma life_quiet cx ix w w' ch l k c s :
  is_u64 s -> i_trans cx w w' ix ch l -> i_evol (fst <$> ch) l w w' -> touches c s ch = false ->
  w_log w' = w_log w ++ k -> filter (logged_by IFT_ID) k = l ->
  transfer_life c s (value_at ik w) (w_log w) -> transfer_life c s (value_at ik w') (w_log w').
Proof.
  intros Hs Ht Hev Hn Hk Hl Hlife. rewrite Hk. eapply life_ext; [done| | |exact Hlife].
  - unfold transfer_events, ift_log. rewrite Hl. by eapply quiet_events.
  - intros m Hm. eapply value_other; [done..|]. by apply touches_false.
Qed.

(** The end of a transfer that is pending. *)
Lemma life_ends c s w w' (ch : list (IftKey * option AccountData)) l m p e k :
  is_u64 s -> i_evol (fst <$> ch) l w w' -> length m = 32%nat ->
  (fst <$> ch) = [IKMint m; IKPending m c s] -> left_at IFT_ID ik w' (IKPending m c s) None ->
  i_stored w (IKPending m c s) (DPendingTransfer p) -> List.filter (about_transfer c s) l = [LEvent IFT_ID e] ->
  ends_transfer m c s (pt_sender p) (pt_amount p) e ->
  w_log w' = w_log w ++ k -> filter (logged_by IFT_ID) k = l ->
  transfer_life c s (value_at ik w) (w_log w) -> transfer_life c s (value_at ik w') (w_log w').
Proof.
  intros Hs Hev Hm Hch Hnone Hst Hf He Hk Hl Hlife.
  assert (value_at ik w (IKPending m c s) = Some (DPendingTransfer p)) as Hv
    by exact (value_at_left _ _ (Some _) Hst).
  destruct Hlife as [_ Hn|m0 p0 r t Ev Hm0 _ _ _ _ Hp0 Ho Hpk|m0 sd r a t e0 _ _ Hn _];
    [by rewrite Hn in Hv| |by rewrite Hn in Hv].
  assert (m = m0) as <-. { destruct (decide (m = m0)); [done|]. by rewrite Ho in Hv. }
  assert (p0 = p) as -> by congruence. eapply TL_ended.
  - rewrite Hk, transfer_events_app, Ev. unfold transfer_events, ift_log at 1. rewrite Hl, Hf. reflexivity.
  - done.
  - intros m' Hm'. destruct (decide (m' = m)) as [->|Hne]; [by apply value_at_left in Hnone|].
    rewrite (value_other _ _ _ _ _ _ _ Hev Hm' Hs); [by apply Ho|]. rewrite Hch. set_solver.
  - rewrite Hk. by apply mint_packet_sent_app.
Qed.

(** The start of a transfer: it is the first, since the router sends one
    packet for its sequence. *)
Lemma life_starts c s w w' (ch : list (IftKey * option AccountData)) l m p receiver t k :
  is_u64 s -> i_evol (fst <$> ch) l w w' -> length m = 32%nat -> (fst <$> ch) = [IKPending m c s] ->
  left_at IFT_ID ik w' (IKPending m c s) (Some (DPendingTransfer p)) ->
  pt_mint p = m -> pt_client_id p = c -> pt_sequence p = s -> 0 < pt_amount p ->
  List.filter (about_transfer c s) l =
    [LEvent IFT_ID (IFTTransferInitiated m c s (pt_sender p) receiver (pt_amount p) t)] ->
  mint_packet_sent m c s receiver (pt_amount p) t (w_log w ++ k) -> (1 <= sends c s k)%nat ->
  w_log w' = w_log w ++ k -> filter (logged_by IFT_ID) k = l -> (sends c s (w_log w') <= 1)%nat ->
  transfer_life c s (value_at ik w) (w_log w) -> transfer_life c s (value_at ik w') (w_log w').
Proof.
  intros Hs Hev Hm Hch Hst Hpm Hpc Hps Ha Hf Hpk Hk1 Hk Hl Hle Hlife.
  rewrite Hk, sends_app in Hle.
  destruct Hlife as [Ev Hn|? ? ? ? _ _ _ _ _ _ _ _ Hpk0%mint_packet_sends|? ? ? ? ? ? _ _ _ Hpk0%mint_packet_sends];
    [|lia|lia].
  eapply TL_open; try done.
  - rewrite Hk, transfer_events_app, Ev. unfold transfer_events, ift_log. rewrite Hl, Hf. reflexivity.
  - by rewrite (value_at_left _ _ _ Hst).
  - intros m' Hm' Hne. rewrite (value_other _ _ _ _ _ _ _ Hev Hm' Hs); [by apply Hn|].
    rewrite Hch. set_solver.
  - by rewrite Hk.
Qed.

Lemma life_step cx ix w w' ch l c s :
  is_u64 s -> i_inv (value_at ik w) (w_log w) -> i_trans cx w w' ix ch l -> i_evol (fst <$> ch) l w w' ->
  (forall K o, (K, o) ∈ ch -> left_at IFT_ID ik w' K o) -> Forall (fun x => ik_typed (fst x)) ch ->
  (sends c s (w_log w') <= 1)%nat -> transfer_life c s (value_at ik w) (w_log w) ->
  transfer_life c s (value_at ik w') (w_log w').
Proof.
  intros Hs Hinv Ht Hev Hst Hty Hle Hlife. pose proof (evol_log _ _ _ _ Hev) as (k & Hk & Hl).
  destruct (touches c s ch) eqn:Hto; [|by eapply life_quiet].
  destruct Ht as [| | | | |ms b acc msg cm payload dest k' m _ _ Hb _ _ _ _ _ _ _ Ha _ Hcall _ Hpay Hlog Hin
    | |ms ms' p r reason acc c' s' m _ _ _ Hp _ _ _ _ _ _ _ _
    |ms p r acc c' s' m _ _ _ Hp _ _ _ _ _| | | | | | |]; simpl in Hto; try done;
    rewrite ?orb_false_r in Hto; apply bool_decide_eq_true in Hto as [<- <-].
  - apply Forall_cons in Hty as [[Hm _] _]. assert (k' = k) as -> by (by rewrite Hk in Hlog; apply (inj (app _)) in Hlog).
    eapply (life_starts _ _ _ _ _ _ _ (fresh_pending m (it_sender acc) msg (w_clock w)) (itm_receiver msg) (scm_timeout_timestamp cm));
      try done; [by apply Hst, list_elem_of_singleton|simpl; by rewrite bool_decide_eq_true_2| |by eapply sends_in].
    pose proof (ii_agrees _ _ Hinv (IKBridge m (itm_client_id msg)) Hm) as Hag.
    destruct (replay_bridge _ _ _ _ _ (agrees_stored _ _ _ _ _ Hag Hb eq_refl)) as [t0 Ht0].
    exists b, msg, (w_clock w), cm, payload, dest. split_and!; try done; [|apply elem_of_app; by right].
    exists t0. apply elem_of_app. by left.
  - apply Forall_cons in Hty as [Hm _].
    eapply (life_ends _ _ _ _ _ _ m p); try done; [apply Hst; set_solver|simpl; by rewrite bool_decide_eq_true_2|done].
  - apply Forall_cons in Hty as [Hm _].
    eapply (life_ends _ _ _ _ _ _ m p); try done; [apply Hst; set_solver|simpl; by rewrite bool_decide_eq_true_2|done].
Qed.

Lemma i_reachable_life w c s :
  is_u64 s -> i_reachable w -> (sends c s (w_log w) <= 1)%nat -> transfer_life c s (value_at ik w) (w_log w).
Proof.
  intros Hs Hr. enough (life_inv c s (value_at ik w) (w_log w)) as [_ ?] by done. revert w Hr.
  apply (history_induct _ _ (life_inv c s) i_step_steps).
  - intros v v' lg Hv [Hi Hl]. split; [by eapply i_inv_ext|].
    intros Hle. rewrite <- (app_nil_r lg). eapply life_ext; [done|done| |by apply Hl].
    intros m Hm. by rewrite Hv.
  - intros v lg l [Hi Hlife] Hl. split; [by apply i_inv_others|].
    rewrite sends_app. intros Hle. apply (life_ext _ _ v); [done| |done|apply Hlife; lia].
    unfold transfer_events. by rewrite ift_log_others.
  - split; [apply i_inv_init|intros _; by apply TL_none].
  - intros w w' ch l [Hi Hlife] _ (cx & ix & Ht) Hev Hst Hty. split; [by eapply i_inv_step|].
    intros Hle. eapply life_step; try done. apply Hlife.
    pose proof (evol_log _ _ _ _ Hev) as (k & Hk & _). rewrite Hk, sends_app in Hle. lia.
Qed.

(** C9: a transfer is settled once.  In every reachable state of the token
    program and the router, for each client and sequence, over all tokens:
    nothing happened; or one transfer was started, whose sender and amount are
    in the one pending account, and the router sent the packet that mints that
    amount for the receiver on the counterparty of a registered bridge; or
    that transfer was also completed or refunded, to the same sender and for
    the same amount, once, and no pending account is left. *)
Theorem ift_transfers_settled_once w c s
    (Hs : is_u64 s) (Hr : r_reachable w) (Hi : i_reachable w) :
  transfer_life c s (value_at ik w) (w_log w).
Proof. apply i_reachable_life; [done|done|]. exact (sent_once w c s Hs Hr). Qed.

(** ** Why a transfer ends *)

(** The acknowledgement of a call that failed. *)
Definition universal_error_ack : bytes := sha256 (bs "UNIVERSAL_ERROR_ACKNOWLEDGEMENT").

Lemma error_ack_commitment :
  packet_acknowledgement_commitment_bytes32 [universal_error_ack] = Ok ERROR_ACK_COMMITMENT.
Proof.
  unfold packet_acknowledgement_commitment_bytes32, sha256v. simpl. by rewrite !app_nil_r.
Qed.

(** What [finalize_transfer] found and logged. *)
Lemma finalize_Ok cx acc c s w u w' :
  running cx IFT_ID -> length (fi_mint acc) = 32%nat -> is_u64 s ->
  finalize_transfer cx acc c s w = Ok (u, w') ->
  exists p r, result_at w c s r /\ i_stored w (IKPending (fi_mint acc) c s) (DPendingTransfer p) /\
    own_log IFT_ID w' = own_log IFT_ID w ++
      match refund_reason r with
      | Some reason =>
          [LInvoke IFT_ID (fi_token_program acc) (IxMintTo (fi_mint acc) (fi_sender_token_account acc)
             (authority_key (fi_mint acc)) (pt_amount p));
           LEvent IFT_ID (IFTTransferRefunded (fi_mint acc) c s (pt_sender p) (pt_amount p) reason (w_clock w))]
      | None =>
          [LEvent IFT_ID (IFTTransferCompleted (fi_mint acc) c s (pt_sender p) (pt_amount p) (w_clock w))]
      end.
Proof.
  intros Hrun Hlen Hs Hr. unfold finalize_transfer in Hr.
  apply bind_Ok in Hr as ([[ms p] r] & w1 & Hacc & Hr).
  apply finalize_accounts_Ok in Hacc
    as (-> & _ & [_ Hm] & Hk1 & Hk2 & Hp & Hpm & <- & <- & Hau & Htp & Hres & _); [|done].
  unfold ift_reject_cpi, ift_lift in Hr. minv. rewrite Hk1 in *. rewrite Hk2 in *.
  match goal with E : (_ =? _) = true |- _ => apply Z.eqb_eq in E end.
  exists p, r. split_and!; [done|done|].
  apply close_account_Ok in Hr as [_ ->].
  match goal with E : store_account _ _ _ _ = Ok _ |- _ => apply store_account_Ok in E as (? & _ & _ & _ & ->) end.
  match goal with E : finalize_outcome _ _ _ _ _ _ _ = Ok _ |- _ =>
    unfold finalize_outcome in E; rename E into Hst end.
  unfold refund_reason. destruct (gcr_status r) as [v|]; [case_bool_decide|].
  - apply refund_Ok in Hst as [_ Hev]; [|done..]. exact (ev_log _ _ _ _ Hev).
  - minv. rewrite Hm. exact (own_log_event _ _ _).
  - apply refund_Ok in Hst as [_ Hev]; [|done..]. exact (ev_log _ _ _ _ Hev).
Qed.

(** The event that reports why the transfer of [amount] ended, given the
    callback that GMP recorded: a timeout and the universal error give the
    tokens back, any other acknowledgement does not. *)
Definition outcome (m : Pubkey) (c : bytes) (s : Z) (sender : Pubkey) (amount now : Z) (cpi : CpiIx)
    (l : list LogEntry) : Prop :=
  let refunded reason := exists tp k, l =
    [LInvoke IFT_ID tp (IxMintTo m k (authority_key m) amount);
     LEvent IFT_ID (IFTTransferRefunded m c s sender amount reason now)] in
  match cpi with
  | IxOnTimeoutPacket _ => refunded RefundTimeout
  | IxOnAcknowledgementPacket msg =>
      (refunded RefundFailed /\
        (oap_acknowledgement msg = universal_error_ack \/
         collides sha256 (acknowledgement_preimages [oap_acknowledgement msg])
           (acknowledgement_preimages [universal_error_ack]))) \/
      (l = [LEvent IFT_ID (IFTTransferCompleted m c s sender amount now)] /\
        oap_acknowledgement msg <> universal_error_ack)
  | _ => False
  end.

Lemma reports_outcome m c s sender amount now tp k r cpi :
  reports r cpi -> outcome m c s sender amount now cpi
    match refund_reason r with
    | Some reason => [LInvoke IFT_ID tp (IxMintTo m k (authority_key m) amount);
                      LEvent IFT_ID (IFTTransferRefunded m c s sender amount reason now)]
    | None => [LEvent IFT_ID (IFTTransferCompleted m c s sender amount now)]
    end.
Proof.
  unfold refund_reason. destruct cpi; simpl; try done.
  - intros (_ & _ & _ & _ & v & Hv & ->). case_bool_decide as Hev.
    + left. split; [by eexists _, _|]. rewrite Hev in Hv.
      destruct (acknowledgement_commitment_inj _ _ _ Hv error_ack_commitment) as [E|]; [left|by right].
      by injection E.
    + right. split; [done|]. intros E. apply Hev. rewrite E in Hv.
      pose proof error_ack_commitment. congruence.
  - intros (_ & _ & _ & _ & ->). by eexists _, _.
Qed.

(** A pending transfer was started, and not ended. *)
Lemma pending_life w c s m pt :
  is_u64 s -> length m = 32%nat -> i_reachable w -> (sends c s (w_log w) <= 1)%nat ->
  i_stored w (IKPending m c s) (DPendingTransfer pt) ->
  exists receiver t, transfer_events c s (w_log w) =
      [LEvent IFT_ID (IFTTransferInitiated m c s (pt_sender pt) receiver (pt_amount pt) t)] /\
    mint_packet_sent m c s receiver (pt_amount pt) t (w_log w).
Proof.
  intros Hs Hm Hi Hle Hst. pose proof (value_at_left _ _ (Some _) Hst) as Hv.
  destruct (i_reachable_life w c s Hs Hi Hle) as [_ Hn|m0 p0 r t Ev Hm0 _ _ _ _ Hp0 Ho Hpk|? ? ? ? ? ? _ _ Hn _];
    [by rewrite Hn in Hv| |by rewrite Hn in Hv].
  assert (m = m0) as <-. { destruct (decide (m = m0)); [done|]. by rewrite Ho in Hv. }
  assert (p0 = pt) as -> by congruence. eauto.
Qed.

(** C8: why a transfer ends.  When [finalize_transfer] succeeds in a state
    reached by the router, GMP and the token program, the log has exactly one
    start of that transfer, with the sender and amount that are used now; the
    router settled the packet that carries its mint call, with the light
    client's proof of the acknowledgement or of the missing receipt; and the
    tokens are minted back exactly for a timeout or for the universal error
    acknowledgement, while any other acknowledgement completes the transfer.
    The exceptions are a SHA-256 collision between named strings and a packet
    whose commitment is the all-zero string. *)
Theorem ift_outcomes_justified cx acc c s w w'
    (Hr : r_reachable w) (Hg : g_reachable w) (Hi : i_reachable w)
    (Hrun : running cx IFT_ID) (Hty : ift_ix_typed (IFinalizeTransfer acc c s))
    (Hx : exec_ift cx (IFinalizeTransfer acc c s) w = Ok ((), w')) :
  exists sender receiver amount t l l1 cpi l2 p x p0,
    transfer_events c s (w_log w) =
      [LEvent IFT_ID (IFTTransferInitiated (fi_mint acc) c s sender receiver amount t)] /\
    mint_packet_sent (fi_mint acc) c s receiver amount t (w_log w) /\
    own_log ROUTER_ID w = l1 ++ LInvoke ROUTER_ID GMP_ID cpi :: l2 /\ last l1 = Some x /\
    LEvent ROUTER_ID (SendPacketEvent c s p0 t) ∈ l1 /\ same_packet p p0 /\
    settlement_of p x (LInvoke ROUTER_ID GMP_ID cpi) /\
    own_log IFT_ID w' = own_log IFT_ID w ++ l /\ outcome (fi_mint acc) c s sender amount (w_clock w) cpi l.
Proof.
  destruct Hty as [Hlen Hs]. simpl in Hx.
  apply finalize_Ok in Hx as (pt & r & (Hres & _) & Hp & Hlog); [|done..].
  destruct (result_packet w c s r Hs Hr Hg Hres) as
    (l1 & cpi & l2 & p0 & t0 & p & x & E & Hl1 & Hsend & Hrep & Hset & Hsame).
  destruct (pending_life w c s _ pt Hs Hlen Hi (sent_once w c s Hs Hr) Hp) as (receiver & t & Hev & Hpk).
  assert (t0 = t) as ->.
  { destruct Hpk as (? & ? & ? & ? & ? & ? & _ & _ & _ & _ & _ & _ & _ & _ & Hin).
    eapply (send_event_unique w c s); [done|done|rewrite E; apply elem_of_app; by left|].
    by apply list_elem_of_filter. }
  eexists _, receiver, _, t, _, l1, cpi, l2, p, x, p0.
  split_and!; [exact Hev|exact Hpk|exact E|exact Hl1|exact Hsend|exact Hsame|exact Hset|exact Hlog|].
  by apply reports_outcome.
Qed.

(** ** Refinement, pause and administration *)

(** C18: the instructions refine the specification.  An instruction of the token
    program that succeeds performs the transition that [i_trans] gives for that
    instruction and its own accounts and arguments: under the conditions of the
    transition (who signed, the pause switch, the bridge and its GMP account,
    the owner of the token account that is burnt from or minted to, the limit
    of the day, the timeout), it changes exactly the accounts of the program
    that the transition names, to the values it names or by closing them, and
    adds exactly its calls and events to the program's log. *)
Theorem ift_instructions_refine_spec cx ix w w'
    (Hrun : running cx IFT_ID) (Hty : ift_ix_typed ix) (Hw : mint_keys_typed w)
    (Hx : exec_ift cx ix w = Ok ((), w')) :
  exists ch l, i_trans cx w w' ix ch l /\ own_log IFT_ID w' = own_log IFT_ID w ++ l /\
    (forall K o, (K, o) ∈ ch -> left_at IFT_ID ik w' K o) /\
    (forall K, ik_typed K -> K ∉ (fst <$> ch) -> w_accts w' !! ik K = w_accts w !! ik K).
Proof.
  apply exec_ift_refines in Hx as (ch & l & Ht & Hev & Hst & _); [|done..].
  exists ch, l. split_and!; [done|apply (ev_log _ _ _ _ Hev)|done|apply (ev_same _ _ _ _ Hev)].
Qed.

(** A call that moves tokens. *)
Definition moves_tokens (e : LogEntry) : Prop :=
  match e with
  | LInvoke _ _ (IxMintTo _ _ _ _ | IxBurn _ _ _ _) => True
  | _ => False
  end.

Lemma stored_det w K d d' : i_stored w K d -> i_stored w K d' -> d = d'.
Proof. intros (a & Ha & _ & <-) (a' & Ha' & _ & <-). congruence. Qed.

Lemma not_paused_det w st : i_stored w IKState (DIFTAppState st) -> not_paused_at w -> ias_paused st = false.
Proof. intros Hst (st' & Hst' & Hp). pose proof (stored_det _ _ _ _ Hst Hst') as E. by injection E as ->. Qed.

Lemma setup_moves_nothing l : Forall setup_call l -> Forall (fun e => ~ moves_tokens e) l.
Proof. intros Hl. eapply Forall_impl; [exact Hl|]. intros [|? ? []]; simpl; tauto. Qed.

Lemma paused_trans cx ix w w' ch l st :
  i_stored w IKState (DIFTAppState st) -> ias_paused st = true -> i_trans cx w w' ix ch l ->
  Forall (fun e => ~ moves_tokens e) l /\ forall m c s, IKPending m c s ∉ (fst <$> ch).
Proof.
  intros Hst Hp Ht. destruct Ht;
    try (match goal with Hn : not_paused_at w |- _ => apply (not_paused_det _ _ Hst) in Hn; congruence end);
    try (match goal with Hb : by_admin _ ?st' w, Hn : ias_paused ?st' = false |- _ =>
      destruct Hb as [Hb _]; pose proof (stored_det _ _ _ _ Hst Hb) as E; injection E as ->; congruence end);
    (split; [|intros mm cc ss; simpl; by rewrite list_elem_of_singleton]);
    rewrite ?Forall_app; repeat (split || constructor); try (by apply setup_moves_nothing; eauto using mint_setup_calls, ata_setup_calls); by intros [].
Qed.

(** A paused token program moves no tokens.  While the program is paused,
    an instruction that succeeds calls no token program to mint or burn and
    neither starts nor ends a transfer. *)
Theorem paused_ift_moves_no_tokens cx ix w w' st
    (Hst : i_stored w IKState (DIFTAppState st)) (Hp : ias_paused st = true)
    (Hrun : running cx IFT_ID) (Hty : ift_ix_typed ix) (Hw : mint_keys_typed w)
    (Hx : exec_ift cx ix w = Ok ((), w')) :
  (exists l, own_log IFT_ID w' = own_log IFT_ID w ++ l /\ Forall (fun e => ~ moves_tokens e) l) /\
  forall m c s, length m = 32%nat -> is_u64 s ->
    value_at ik w' (IKPending m c s) = value_at ik w (IKPending m c s).
Proof.
  apply exec_ift_refines in Hx as (ch & l & Ht & Hev & _ & _); [|done..].
  apply (paused_trans _ _ _ _ _ _ _ Hst Hp) in Ht as [Hl Hn]. split.
  - exists l. split; [apply (ev_log _ _ _ _ Hev)|done].
  - intros m c s Hm Hs. by apply (value_at_evol _ _ _ _ _ Hev).
Qed.

(** What a step made of the application's state. *)
Definition state_change (cx : CallCtx) (st st' : IFTAppState) (w : World) : Prop :=
  st' = st \/ (by_admin cx st w /\ ias_admin st' = ias_admin st) \/
  (ias_pending_admin st = Some (ias_admin st') /\ ias_admin st' ∈ cx_signers cx /\
   cx_stack cx = [IFT_ID] /\ ias_paused st' = ias_paused st).

Lemma stored_left w K d o : left_at IFT_ID ik w K o -> i_stored w K d -> o = Some d.
Proof.
  intros Hl (a & Ha & _ & <-). destruct o as [d'|]; simpl in Hl.
  - destruct Hl as (a' & Ha' & _ & <-). congruence.
  - congruence.
Qed.

Lemma by_admin_det cx w st st' :
  i_stored w IKState (DIFTAppState st) -> by_admin cx st' w -> st' = st /\ by_admin cx st w.
Proof. intros Hst Hb. pose proof (stored_det _ _ _ _ Hst (proj1 Hb)) as E. by injection E as ->. Qed.

Lemma state_trans cx ix w w' ch l st st' :
  i_trans cx w w' ix ch l -> i_stored w IKState (DIFTAppState st) ->
  (IKState, Some (DIFTAppState st')) ∈ ch -> state_change cx st st' w.
Proof.
  intros Ht Hst Hin. destruct Ht; simpl in Hin;
    repeat (apply elem_of_cons in Hin as [Hin|Hin]); try (by apply not_elem_of_nil in Hin);
    apply pair_equal_spec in Hin as [EK EO]; try discriminate EK; injection EO as ->.
  - destruct Hst as (a & Ha & _). congruence.
  - match goal with Hb : by_admin _ _ _ |- _ => apply (by_admin_det _ _ _ _ Hst) in Hb as [-> Hb] end.
    by right; left.
  - match goal with Hb : i_stored w IKState _ |- _ =>
      pose proof (stored_det _ _ _ _ Hst Hb) as E; injection E as -> end. by right; right.
  - match goal with Hb : by_admin _ _ _ |- _ => apply (by_admin_det _ _ _ _ Hst) in Hb as [-> Hb] end.
    by right; left.
  - match goal with Hb : by_admin _ _ _ |- _ => apply (by_admin_det _ _ _ _ Hst) in Hb as [-> Hb] end.
    by right; left.
Qed.

(** The changes that are not the administrator's leave bridges and limits. *)
Lemma bridge_trans cx ix w w' ch l st m c :
  i_trans cx w w' ix ch l -> i_stored w IKState (DIFTAppState st) -> IKBridge m c ∈ (fst <$> ch) ->
  by_admin cx st w.
Proof.
  intros Ht Hst Hin. destruct Ht; simpl in Hin; rewrite ?elem_of_cons in Hin;
    (destruct_or? Hin; try discriminate Hin; try (by apply not_elem_of_nil in Hin));
    match goal with Hb : by_admin _ _ _ |- _ => by apply (by_admin_det _ _ _ _ Hst) in Hb as [_ Hb] end.
Qed.

Lemma rate_limit_same s amount now s' :
  mint_within s amount now s' -> ims_daily_mint_limit s' = ims_daily_mint_limit s.
Proof. by intros [[_ ->]|(_ & _ & ->)]. Qed.

Lemma limit_trans cx ix w w' ch l st m s o :
  i_trans cx w w' ix ch l -> i_stored w IKState (DIFTAppState st) ->
  i_stored w (IKMint m) (DIFTAppMintState s) -> (IKMint m, o) ∈ ch ->
  (exists s', o = Some (DIFTAppMintState s') /\ ims_daily_mint_limit s' = ims_daily_mint_limit s) \/
  by_admin cx st w.
Proof.
  intros Ht Hst Hs Hin.
  assert (forall ms, mint_at w m ms -> ms = s) as Hms.
  { intros ms [Hms _]. pose proof (stored_det _ _ _ _ Hs Hms) as E. by injection E. }
  assert (w_accts w !! ik (IKMint m) <> None) as Hsome by (destruct Hs as (a & -> & _); done).
  destruct Ht; simpl in Hin;
    repeat (apply elem_of_cons in Hin as [Hin|Hin]); try (by apply not_elem_of_nil in Hin);
    apply pair_equal_spec in Hin as [EK EO]; try discriminate EK; injection EK as ->; subst o; try done;
    try (match goal with Hb : by_admin _ _ _ |- _ => by right; apply (by_admin_det _ _ _ _ Hst) in Hb as [_ Hb] end);
    match goal with Hm : mint_at w _ ?ms |- _ => apply Hms in Hm; subst ms end; left; eexists; (split; [done|]).
  - by eapply rate_limit_same.
  - by eapply rate_limit_same.
  - pose proof (reduce_view s (pt_amount p) (w_clock w)) as E. unfold left_view in E.
    destruct (Z.eqb _ _) in E; by injection E.
Qed.

(** Who changes the settings.  An instruction that succeeds changes the
    administrator only to the one that was proposed and signed the
    acceptance; it changes anything else of the application's state, a bridge
    or the limit of a token, or gives a token up, only in a top-level
    transaction that the administrator signed. *)
Theorem ift_changes_authorized cx ix w w' st
    (Hst : i_stored w IKState (DIFTAppState st))
    (Hrun : running cx IFT_ID) (Hty : ift_ix_typed ix) (Hw : mint_keys_typed w)
    (Hx : exec_ift cx ix w = Ok ((), w')) :
  (forall st', i_stored w' IKState (DIFTAppState st') -> state_change cx st st' w) /\
  (forall m c, length m = 32%nat -> value_at ik w' (IKBridge m c) <> value_at ik w (IKBridge m c) ->
     by_admin cx st w) /\
  (forall m s, length m = 32%nat -> i_stored w (IKMint m) (DIFTAppMintState s) ->
     (exists s', i_stored w' (IKMint m) (DIFTAppMintState s') /\
        ims_daily_mint_limit s' = ims_daily_mint_limit s) \/ by_admin cx st w).
Proof.
  apply exec_ift_refines in Hx as (ch & l & Ht & Hev & Hch & _); [|done..]. split_and!.
  - intros st' Hst'. destruct (decide (IKState ∈ (fst <$> ch))) as [Hin|Hin].
    + apply list_elem_of_fmap in Hin as ([K o] & EK & Hin). simpl in EK. subst K.
      rewrite (stored_left _ _ _ _ (Hch _ _ Hin) Hst') in Hin. by eapply state_trans.
    + left. destruct Hst' as (a & Ha & Ho & Hd). rewrite (ev_same _ _ _ _ Hev) in Ha by done.
      assert (i_stored w IKState (DIFTAppState st')) as Hst'' by by exists a.
      pose proof (stored_det _ _ _ _ Hst Hst'') as E. by injection E.
  - intros m c Hm Hne. destruct (decide (IKBridge m c ∈ (fst <$> ch))) as [Hin|Hin]; [by eapply bridge_trans|].
    destruct Hne. by apply (value_at_evol _ _ _ _ _ Hev).
  - intros m s Hm Hs. destruct (decide (IKMint m ∈ (fst <$> ch))) as [Hin|Hin].
    + apply list_elem_of_fmap in Hin as ([K o] & EK & Hin). simpl in EK. subst K.
      destruct (limit_trans _ _ _ _ _ _ _ _ _ _ Ht Hst Hs Hin) as [(s' & -> & ?)|]; [left|by right].
      exists s'. split; [by apply (Hch (IKMint m) (Some _))|done].
    + left. exists s. split; [|done]. destruct Hs as (a & Ha & Ho). exists a.
      by rewrite (ev_same _ _ _ _ Hev) by done.
Qed.

End IftHistory.

(** ** From Solana to Solana *)

Section SolanaToSolana.
Context `{Platform} `{GmpLib} `{!GmpLibOk} `{IftLib}.

(** The accounts of [IFTMint], in order. *)
Definition ift_mint_keys (acc : IFTMintAccounts) : list Pubkey :=
  [im_app_state acc; im_app_mint_state acc; im_ift_bridge acc; im_mint acc; im_mint_authority acc;
   im_receiver_token_account acc; im_receiver_owner acc; im_gmp_account acc; im_payer acc;
   im_token_program acc; im_associated_token_program acc; im_system_program acc].

(** The accounts that [ift_mint] expects of the program [prog]. *)
Record mint_call_accounts (prog mint : Pubkey) (client : bytes) (receiver : Pubkey)
    (acc : IFTMintAccounts) : Prop := {
  mca_app_state : im_app_state acc = pda_key IFTAppState_seeds prog;
  mca_mint_state : im_app_mint_state acc = pda_key (IFTAppMintState_seeds mint) prog;
  mca_bridge : im_ift_bridge acc = pda_key (IFTBridge_seeds mint client) prog;
  mca_mint : im_mint acc = mint;
  mca_authority : im_mint_authority acc = pda_key (mint_authority_seeds mint) prog;
  mca_ata : im_receiver_token_account acc =
    associated_token_address receiver mint (im_token_program acc);
  mca_receiver : im_receiver_owner acc = receiver;
  mca_gmp : validate_gmp_account (im_gmp_account acc) client (pubkey_to_string IFT_ID) = Ok ();
  mca_programs : im_token_program acc = SPL_TOKEN_PROGRAM_ID /\
    im_associated_token_program acc = ASSOCIATED_TOKEN_PROGRAM_ID /\
    im_system_program acc = SYSTEM_PROGRAM_ID }.

Lemma decode_raw_proto p : decode_raw (proto_encode_payload p) ICS27_ENCODING_PROTOBUF = Ok p.
Proof.
  unfold decode_raw. rewrite bool_decide_eq_false_2 by done. rewrite bool_decide_eq_true_2 by done.
  by rewrite proto_payload_roundtrip.
Qed.

Lemma validate_gmp_account_runs c a :
  (1 <= length c <= 32)%nat -> (1 <= length a <= 128)%nat ->
  validate_gmp_account (gmp_account_key c a []) c a = Ok ().
Proof.
  intros Hc Ha. unfold validate_gmp_account, ClientId_new, Sender_new.
  apply result_bind_ok. exists c. split; [by apply map_err_ok, Constrained_new_Ok|].
  apply result_bind_ok. exists a. split; [by apply map_err_ok, Constrained_new_Ok|].
  apply require_r_ok, bool_decide_eq_true. apply GMPAccount_new_pda.
Qed.

(** A transfer to another Solana chain.  The payload that [ift_transfer]
    builds for a Solana counterparty is what GMP decodes there: a call with
    the data of [ift_mint] for the receiver and the amount, whose accounts are
    in the order of [IFTMint] and at the addresses that [ift_mint] checks; the
    only signer among them is the account that GMP derives for this program
    as sender, which is also the one that [ift_mint] accepts for a bridge with
    this program as counterparty. *)
Theorem solana_mint_call_roundtrip prog mint client receiver amount w payload w'
    (Hc : construct_solana_mint_call prog mint client receiver amount w = Ok (payload, w'))
    (Hkeys : forall raw m, decode_raw payload ICS27_ENCODING_PROTOBUF = Ok raw -> m ∈ gsp_accounts raw ->
       length (meta_pubkey m) = 32%nat) :
  exists raw key acc, pubkey_from_str receiver = Some key /\
    decode_raw payload ICS27_ENCODING_PROTOBUF = Ok raw /\ GmpSolanaPayload_try_from raw = Ok raw /\
    gsp_data raw = ift_mint_data (mkIFTMintMsg key amount) /\
    meta_pubkey <$> gsp_accounts raw = ift_mint_keys acc /\
    mint_call_accounts prog mint client key acc /\
    forall m, m ∈ gsp_accounts raw -> meta_is_signer m = true ->
      meta_pubkey m = gmp_account_key client (pubkey_to_string IFT_ID) [].
Proof.
  unfold construct_solana_mint_call, IftMintAccounts_derive, ift_lift, ClientId_new, Sender_new in Hc.
  minv. repeat match goal with E : map_err _ _ = Ok _ |- _ => apply map_err_ok in E end.
  repeat match goal with E : Constrained_new _ _ _ = Ok _ |- _ =>
    pose proof E; apply Constrained_new_Ok in E as [-> ?] end.
  match goal with E : ok_or _ _ = Ok ?k |- _ => apply ok_or_ok in E; rename E into Hkey, k into key end.
  rewrite GMPAccount_new_pda in *. rewrite decode_raw_proto in *.
  match goal with |- context [Ok ?p = Ok _] => set (raw := p) in * end.
  exists raw, key, (mkIFTMintAccounts (pda_key IFTAppState_seeds prog) (pda_key (IFTAppMintState_seeds mint) prog)
    (pda_key (IFTBridge_seeds mint client) prog) mint (pda_key (mint_authority_seeds mint) prog)
    (associated_token_address key mint SPL_TOKEN_PROGRAM_ID) key
    (gmp_account_key client (pubkey_to_string IFT_ID) []) (gmp_account_key client (pubkey_to_string IFT_ID) [])
    SPL_TOKEN_PROGRAM_ID ASSOCIATED_TOKEN_PROGRAM_ID SYSTEM_PROGRAM_ID).
  split_and!; [done|done| |done|done| |].
  - apply GmpSolanaPayload_try_from_Ok; [|simpl; lia|apply Forall_forall; intros m Hm; by apply (Hkeys raw)].
    simpl. unfold ift_mint_data. intros E%(f_equal length). autorewrite with lengths in E.
    simpl in E. lia.
  - constructor; try done. by apply validate_gmp_account_runs.
  - intros m Hm Hsg. subst raw. simpl in Hm. rewrite !elem_of_cons in Hm.
    destruct_or! Hm; try (by apply not_elem_of_nil in Hm); subst m; (discriminate Hsg || done).
Qed.

End SolanaToSolana.
