(* ===== verification/Deployment.v ===== *)
(** * A deployment of the programs

    An executable instance of [Platform] on which the router, GMP and the
    token program run together and call each other: the router's
    [send_packet], GMP's [send_call_cpi] and GMP's callbacks are executed by
    the modelled handlers, and after each call the runtime compares the
    accounts of the calling programs ([callers_kept]), as a ledger does.  The
    laws that the theorems assume of a platform ([PlatformOk]) and of the
    programs' entry points ([RouterDeployed], [RouterEntry], [GmpDeployed]) are
    theorems here.  [play] runs a history of top-level instructions and checks
    it to be a history of each program, so that one evaluation establishes the
    reachability of the final state for all of them ([play_joint]). *)

From S2P Require Import Prelude Errors Types Runtime Toy Ics24 Cpi AccessManager AccessManagerSpec Keyed.
From S2P Require Import Histories Chunking Router ChunkingSpec RouterSpec RouterProps GmpTypes Gmp GmpSpec Ift IftSpec.
From Stdlib Require Import ZArith Lia.
From Stdlib.Strings Require Import Byte.
From stdpp Require Import prelude gmap list.

#[local] Open Scope Z_scope.

(** ** Decidable equality of accounts and log entries *)

#[export] Instance Payload_eq_dec : EqDecision Payload.
Proof. solve_decision. Defined.
#[export] Instance Packet_eq_dec : EqDecision Packet.
Proof. solve_decision. Defined.
#[export] Instance MsgSendPacket_eq_dec : EqDecision MsgSendPacket.
Proof. solve_decision. Defined.
#[export] Instance OnRecvPacketMsg_eq_dec : EqDecision OnRecvPacketMsg.
Proof. solve_decision. Defined.
#[export] Instance OnAcknowledgementPacketMsg_eq_dec : EqDecision OnAcknowledgementPacketMsg.
Proof. solve_decision. Defined.
#[export] Instance OnTimeoutPacketMsg_eq_dec : EqDecision OnTimeoutPacketMsg.
Proof. solve_decision. Defined.
#[export] Instance MembershipMsg_eq_dec : EqDecision MembershipMsg.
Proof. solve_decision. Defined.
#[export] Instance NonMembershipMsg_eq_dec : EqDecision NonMembershipMsg.
Proof. solve_decision. Defined.
#[export] Instance SendCallMsg_eq_dec : EqDecision SendCallMsg.
Proof. solve_decision. Defined.
#[export] Instance CpiIx_eq_dec : EqDecision CpiIx.
Proof. solve_decision. Defined.
#[export] Instance RoleData_eq_dec : EqDecision RoleData.
Proof. solve_decision. Defined.
#[export] Instance PendingAuthorityTransfer_eq_dec : EqDecision PendingAuthorityTransfer.
Proof. solve_decision. Defined.
#[export] Instance AccessManager_eq_dec : EqDecision AccessManager.
Proof. solve_decision. Defined.
#[export] Instance AccessManagerState_eq_dec : EqDecision AccessManagerState.
Proof. solve_decision. Defined.
#[export] Instance AccountVersion_eq_dec : EqDecision AccountVersion.
Proof. solve_decision. Defined.
#[export] Instance CounterpartyInfo_eq_dec : EqDecision CounterpartyInfo.
Proof. solve_decision. Defined.
#[export] Instance RouterState_eq_dec : EqDecision RouterState.
Proof. solve_decision. Defined.
#[export] Instance IBCApp_eq_dec : EqDecision IBCApp.
Proof. solve_decision. Defined.
#[export] Instance Client_eq_dec : EqDecision Client.
Proof. solve_decision. Defined.
#[export] Instance PayloadChunk_eq_dec : EqDecision PayloadChunk.
Proof. solve_decision. Defined.
#[export] Instance ProofChunk_eq_dec : EqDecision ProofChunk.
Proof. solve_decision. Defined.
#[export] Instance AttClientState_eq_dec : EqDecision AttClientState.
Proof. solve_decision. Defined.
#[export] Instance AttAppState_eq_dec : EqDecision AttAppState.
Proof. solve_decision. Defined.
#[export] Instance ConsensusStateStore_eq_dec : EqDecision ConsensusStateStore.
Proof. solve_decision. Defined.
#[export] Instance IbcHeight_eq_dec : EqDecision IbcHeight.
Proof. solve_decision. Defined.
#[export] Instance TmClientState_eq_dec : EqDecision TmClientState.
Proof. solve_decision. Defined.
#[export] Instance TmAppState_eq_dec : EqDecision TmAppState.
Proof. solve_decision. Defined.
#[export] Instance TmConsensusStateStore_eq_dec : EqDecision TmConsensusStateStore.
Proof. solve_decision. Defined.
#[export] Instance HeaderChunk_eq_dec : EqDecision HeaderChunk.
Proof. solve_decision. Defined.
#[export] Instance MisbehaviourChunk_eq_dec : EqDecision MisbehaviourChunk.
Proof. solve_decision. Defined.
#[export] Instance SignatureVerification_eq_dec : EqDecision SignatureVerification.
Proof. solve_decision. Defined.
#[export] Instance GMPAppState_eq_dec : EqDecision GMPAppState.
Proof. solve_decision. Defined.
#[export] Instance CallResultStatus_eq_dec : EqDecision CallResultStatus.
Proof. solve_decision. Defined.
#[export] Instance GMPCallResultAccount_eq_dec : EqDecision GMPCallResultAccount.
Proof. solve_decision. Defined.
#[export] Instance ChainOptions_eq_dec : EqDecision ChainOptions.
Proof. solve_decision. Defined.
#[export] Instance CreateTokenParams_eq_dec : EqDecision CreateTokenParams.
Proof. solve_decision. Defined.
#[export] Instance IFTAppState_eq_dec : EqDecision IFTAppState.
Proof. solve_decision. Defined.
#[export] Instance IFTAppMintState_eq_dec : EqDecision IFTAppMintState.
Proof. solve_decision. Defined.
#[export] Instance IFTBridge_eq_dec : EqDecision IFTBridge.
Proof. solve_decision. Defined.
#[export] Instance PendingTransfer_eq_dec : EqDecision PendingTransfer.
Proof. solve_decision. Defined.
#[export] Instance RefundReason_eq_dec : EqDecision RefundReason.
Proof. solve_decision. Defined.
#[export] Instance MintAccount_eq_dec : EqDecision MintAccount.
Proof. solve_decision. Defined.
#[export] Instance TokenAccount_eq_dec : EqDecision TokenAccount.
Proof. solve_decision. Defined.
#[export] Instance AccountData_eq_dec : EqDecision AccountData.
Proof. solve_decision. Defined.
#[export] Instance Event_eq_dec : EqDecision Event.
Proof. solve_decision. Defined.
#[export] Instance LogEntry_eq_dec : EqDecision LogEntry.
Proof. solve_decision. Defined.
#[export] Instance Account_eq_dec : EqDecision Account.
Proof. solve_decision. Defined.

(** ** Frames, decided *)

Definition guarded_b (S : gset Pubkey) (p : Pubkey) (w : World) (k : Pubkey) : bool :=
  (bool_decide (toy_program_of k = Some p) && negb (bool_decide (k ∈ S))) ||
  match w_accts w !! k with Some a => bool_decide (acc_owner a = p) | None => false end.

Definition key_kept (w w' : World) (k : Pubkey) : bool :=
  bool_decide (w_accts w' !! k = w_accts w !! k) && (lam w k <=? lam w' k).

Fixpoint log_after (l l' : list LogEntry) : option (list LogEntry) :=
  match l, l' with
  | [], _ => Some l'
  | x :: l, y :: l' => if decide (x = y) then log_after l l' else None
  | _, _ => None
  end.

Definition by_program (p : Pubkey) (e : LogEntry) : bool :=
  match e with LEvent q _ | LInvoke q _ _ => bool_decide (q = p) end.

Definition frame_b (S : gset Pubkey) (p : Pubkey) (w w' : World) : bool :=
  forallb (fun x => negb (guarded_b S p w (fst x)) || key_kept w w' (fst x)) (map_to_list (w_accts w)) &&
  forallb (fun x => negb (guarded_b S p w (fst x)) || key_kept w w' (fst x)) (map_to_list (w_accts w')) &&
  forallb (fun x => negb (guarded_b S p w (fst x)) || key_kept w w' (fst x)) (map_to_list (w_lamports w)) &&
  match log_after (w_log w) (w_log w') with
  | Some l => forallb (fun e => negb (by_program p e)) l
  | None => false
  end.

Lemma log_after_Some l l' k : log_after l l' = Some k -> l' = l ++ k.
Proof.
  revert l'. induction l as [|x l IH]; intros [|y l']; simpl; try (by intros [= ->]); try done.
  case_decide as E; [|done]. intros Hl. by rewrite E, (IH _ Hl).
Qed.

Section FrameDecided.
Context (callee : CallCtx -> Pubkey -> list AccountMeta -> CpiIx -> World -> result Error World).
#[local] Instance toy : Platform := toy_platform callee.

Lemma toy_is_pda p k : is_pda p k -> toy_program_of k = Some p.
Proof. intros [seeds ->]. apply toy_program_of_pda. Qed.

Lemma guarded_b_spec S p w k : guarded S p w k -> guarded_b S p w k = true.
Proof.
  unfold guarded_b. intros [[Hk%toy_is_pda Hn]|(a & Ha & Ho)].
  - rewrite !bool_decide_eq_true_2, bool_decide_eq_false_2 by done. done.
  - rewrite Ha, (bool_decide_eq_true_2 (acc_owner a = p)) by done. apply orb_true_r.
Qed.

Lemma checked_keys {A} (m : gmap Pubkey A) (f : Pubkey -> bool) k :
  forallb (fun x => f (fst x)) (map_to_list m) = true -> m !! k = None \/ f k = true.
Proof.
  rewrite forallb_forall. intros Hf. destruct (m !! k) as [a|] eqn:E; [right|by left].
  apply elem_of_map_to_list, list_elem_of_In in E. exact (Hf _ E).
Qed.

Lemma frame_b_frame S p w w' : frame_b S p w w' = true -> frame_but S p w w'.
Proof.
  unfold frame_b. intros [[[H1 H2]%andb_true_iff H3]%andb_true_iff Hl]%andb_true_iff.
  set (f k := negb (guarded_b S p w k) || key_kept w w' k).
  assert (forall k, guarded S p w k -> w_accts w' !! k = w_accts w !! k /\ lam w k <= lam w' k) as Hkeep.
  { intros k Hg. assert (f k = true -> w_accts w' !! k = w_accts w !! k /\ lam w k <= lam w' k) as Hok.
    { unfold f, key_kept. rewrite (guarded_b_spec _ _ _ _ Hg). simpl.
      intros [E1%bool_decide_eq_true E2]%andb_true_iff. split; [done|lia]. }
    destruct (checked_keys _ f k H1) as [E1|]; [|auto]. destruct (checked_keys _ f k H2) as [E2|]; [|auto].
    destruct (checked_keys _ f k H3) as [E3|]; [|auto]. split; [congruence|].
    pose proof (lam_nonneg w' k). unfold lam at 1. rewrite E3. simpl. lia. }
  split_and!; [by intros k []%Hkeep|by intros k []%Hkeep|].
  destruct (log_after _ _) as [l|] eqn:E; [|done]. exists l. split; [by apply log_after_Some|].
  rewrite forallb_forall in Hl. apply Forall_forall. intros e He.
  apply list_elem_of_In in He. specialize (Hl e He). apply negb_true_iff in Hl.
  destruct e; simpl in *; by apply bool_decide_eq_false in Hl.
Qed.

Lemma frame_b_others p w w' : frame_b ∅ p w w' = true -> others p w w'.
Proof.
  intros F%frame_b_frame. left. eapply frame_but_frame; [|exact F].
  intros k Hk. by apply elem_of_empty in Hk.
Qed.

End FrameDecided.

(** ** The programs as callees *)

Definition Callee : Type :=
  CallCtx -> Pubkey -> list AccountMeta -> CpiIx -> World -> result Error World.

(** What the runtime checks when a call returns: the accounts of the programs
    below the callee on the stack, and the clock. *)
Definition callers_kept (cx : CallCtx) (prog : Pubkey) (w w' : World) : bool :=
  bool_decide (w_clock w' = w_clock w) &&
  forallb (fun p => bool_decide (p = prog) || frame_b (cx_signers cx) p w w') (cx_stack cx).

Definition returned (cx : CallCtx) (prog : Pubkey) (w : World) (r : result Error (unit * World))
    : result Error World :=
  match r with
  | Ok (_, w') => if callers_kept cx prog w w' then Ok w' else Err (EProgram 1)
  | Err e => Err e
  end.

Definition send_accounts (keys : list Pubkey) : option SendAccounts :=
  match keys with
  | [k1; k2; k3; k4; k5; k6; k7; k8; k9; k10] =>
      Some (mkSendAccounts k1 k2 k3 k4 k5 k6 k7 (mkLcAccounts k8 k9 k10))
  | _ => None
  end.

(** The sender of [send_call_cpi] is the calling program. *)
Definition call_accounts (keys : list Pubkey) : option SendCallAccounts :=
  match keys with
  | [k1; k2; k3; k4; k5; k6; k7; k8; k9; k10; k11; k12] =>
      Some (mkSendCallAccounts k1 [] k2 k3 k4 k5 k6 k7 k8 k9 k10 k11 k12)
  | _ => None
  end.

Definition result_accounts (keys : list Pubkey) : option GmpResultAccounts :=
  match keys with
  | k1 :: k2 :: k3 :: k4 :: k5 :: _ => Some (mkGmpResultAccounts k1 k2 k3 k4 k5)
  | _ => None
  end.

Definition gmp_instruction (metas : list AccountMeta) (c : CpiIx) : option GmpIx :=
  let keys := meta_pubkey <$> metas in
  match c with
  | IxSendCallCpi msg => acc ← call_accounts keys; Some (GSendCallCpi acc msg)
  | IxOnAcknowledgementPacket msg => acc ← result_accounts keys; Some (GOnAcknowledgementPacket acc msg)
  | IxOnTimeoutPacket msg => acc ← result_accounts keys; Some (GOnTimeoutPacket acc msg)
  | _ => None
  end.

Section Deployment.
Context `{GmpLib} (answer : Pubkey -> CpiIx -> option bytes).

(** The other programs: they answer, and are neither the router nor GMP. *)
Definition callee0 : Callee := fun cx prog metas ix w =>
  if bool_decide (prog = ROUTER_ID) || bool_decide (prog = GMP_ID) then Err (EProgram 0)
  else answering answer cx prog metas ix w.

Definition callee1 : Callee := fun cx prog metas ix w =>
  if bool_decide (prog = ROUTER_ID) then
    match ix, send_accounts (meta_pubkey <$> metas) with
    | IxSendPacket msg, Some acc =>
        returned cx prog w (@exec_router (toy_platform callee0) cx (RSendPacket acc msg) w)
    | _, _ => Err (EProgram 0)
    end
  else callee0 cx prog metas ix w.

Definition callee2 : Callee := fun cx prog metas ix w =>
  if bool_decide (prog = GMP_ID) then
    match gmp_instruction metas ix with
    | Some i => returned cx prog w (@exec_gmp (toy_platform callee1) _ cx i w)
    | None => Err (EProgram 0)
    end
  else callee1 cx prog metas ix w.

Definition deployment : Platform := toy_platform callee2.

End Deployment.

(** ** Larger platforms do what smaller ones do *)

Definition sub_callee (c1 c2 : Callee) : Prop :=
  forall cx prog metas ix w w', c1 cx prog metas ix w = Ok w' -> c2 cx prog metas ix w = Ok w'.

Definition sub_run {A} (m1 m2 : M A) : Prop := forall w r, m1 w = Ok r -> m2 w = Ok r.

Lemma sub_refl {A} (m : M A) : sub_run m m.
Proof. by intros w r. Qed.

Lemma sub_bind {A B} (m1 m2 : M A) (f1 f2 : A -> M B) :
  sub_run m1 m2 -> (forall a, sub_run (f1 a) (f2 a)) -> sub_run (m1 ≫= f1) (m2 ≫= f2).
Proof. intros Hm Hf w [b w2] (a & w1 & H1 & H2)%bind_Ok. apply bind_Ok. exists a, w1. split; [by apply Hm|by apply Hf]. Qed.

Lemma sub_invoke c1 c2 cx caller prog metas ix pdas :
  sub_callee c1 c2 ->
  sub_run (@invoke_signed (toy_platform c1) cx caller prog metas ix pdas)
    (@invoke_signed (toy_platform c2) cx caller prog metas ix pdas).
Proof.
  intros Hc w r. unfold invoke_signed. destruct (negb _); [done|]. destruct (_ && _); [done|].
  cbn [process_instruction toy_platform]. destruct (c1 _ _ _ _ _) as [w2|] eqn:E; [|done].
  by rewrite (Hc _ _ _ _ _ _ E).
Qed.

Ltac sub_runs Hc :=
  repeat lazymatch goal with
  | |- sub_run (mbind _ _) (mbind _ _) => apply sub_bind; [|intros ?; cbv beta zeta]
  | |- sub_run (invoke_signed _ _ _ _ _ _) _ => exact (sub_invoke _ _ _ _ _ _ _ _ Hc)
  | |- sub_run _ _ => apply sub_refl
  end.

Lemma send_packet_sub c1 c2 cx acc msg :
  sub_callee c1 c2 ->
  sub_run (@send_packet (toy_platform c1) cx acc msg) (@send_packet (toy_platform c2) cx acc msg).
Proof.
  intros Hc. unfold send_packet, lc_client_status, invoke_instruction, invoke. sub_runs Hc.
Qed.

Lemma send_call_cpi_sub `{GmpLib} c1 c2 cx acc msg :
  sub_callee c1 c2 ->
  sub_run (@send_call_cpi (toy_platform c1) _ cx acc msg) (@send_call_cpi (toy_platform c2) _ cx acc msg).
Proof.
  intros Hc. unfold send_call_cpi, send_call_inner, send_packet_cpi. sub_runs Hc.
Qed.

Lemma gmp_instruction_sub `{GmpLib} c1 c2 cx metas c i :
  gmp_instruction metas c = Some i -> sub_callee c1 c2 ->
  sub_run (@exec_gmp (toy_platform c1) _ cx i) (@exec_gmp (toy_platform c2) _ cx i).
Proof.
  unfold gmp_instruction. intros Hi Hc. destruct c; try discriminate Hi;
    apply bind_Some in Hi as (acc & _ & Hi); injection Hi as <-; cbn [exec_gmp].
  - unfold gmp_on_acknowledgement_packet. sub_runs Hc.
  - unfold gmp_on_timeout_packet. sub_runs Hc.
  - by apply send_call_cpi_sub.
Qed.

(** ** The laws *)

Section Laws.
Context `{GmpLib} (answer : Pubkey -> CpiIx -> option bytes).
#[local] Instance deployed : Platform := deployment answer.

Lemma returned_Ok cx prog w r w' :
  returned cx prog w r = Ok w' -> r = Ok ((), w') /\ callers_kept cx prog w w' = true.
Proof.
  unfold returned. destruct r as [[[] w1]|]; [|done]. destruct (callers_kept _ _ _ _) eqn:E; [|done].
  intros Hw. by injection Hw as <-.
Qed.

Lemma callee0_sub : sub_callee (callee0 answer) (callee1 answer).
Proof.
  intros cx prog metas ix w w'. unfold callee1. case_bool_decide as E; [|done].
  unfold callee0. by rewrite bool_decide_eq_true_2.
Qed.

Lemma callee1_sub : sub_callee (callee1 answer) (callee2 answer).
Proof.
  intros cx prog metas ix w w'. unfold callee2. case_bool_decide as E; [|done].
  unfold callee1. rewrite (bool_decide_eq_false_2 (prog = ROUTER_ID)) by (subst; apply gmp_not_router).
  unfold callee0. by rewrite (bool_decide_eq_true_2 (prog = GMP_ID)), orb_true_r.
Qed.

Lemma callee0_sub2 : sub_callee (callee0 answer) (callee2 answer).
Proof. intros cx prog metas ix w w' Hw. by apply callee1_sub, callee0_sub. Qed.

(** Every callee either answers or passes the runtime's check. *)
Lemma callee2_cases cx prog metas ix w w' :
  callee2 answer cx prog metas ix w = Ok w' ->
  callers_kept cx prog w w' = true \/ answering answer cx prog metas ix w = Ok w'.
Proof.
  unfold callee2. case_bool_decide.
  { destruct (gmp_instruction _ _); [|done]. intros [_ ?]%returned_Ok. by left. }
  unfold callee1. case_bool_decide.
  { destruct ix; try done. destruct (send_accounts _); [|done]. intros [_ ?]%returned_Ok. by left. }
  unfold callee0. destruct (_ || _); [done|]. by right.
Qed.

#[export] Instance deployment_ok : PlatformOk.
Proof.
  apply toy_platform_ok.
  - intros cx prog metas ix w w' p [Hk|Ha]%callee2_cases Hin Hne.
    + unfold callers_kept in Hk. apply andb_true_iff in Hk as [_ Hk]. rewrite forallb_forall in Hk.
      apply list_elem_of_In in Hin. specialize (Hk p Hin). rewrite bool_decide_eq_false_2 in Hk by done.
      by apply frame_b_frame.
    + by eapply (@process_frame _ (answering_ok answer)).
  - intros cx prog metas ix w w' [Hk|Ha]%callee2_cases.
    + unfold callers_kept in Hk. apply andb_true_iff in Hk as [Hk _]. by apply bool_decide_eq_true in Hk.
    + by eapply (@process_clock _ (answering_ok answer)).
Qed.

Lemma callee2_router cx metas ix w w' :
  callee2 answer cx ROUTER_ID metas ix w = Ok w' ->
  exists msg acc, ix = IxSendPacket msg /\ send_accounts (meta_pubkey <$> metas) = Some acc /\
    @exec_router (toy_platform (callee0 answer)) cx (RSendPacket acc msg) w = Ok ((), w').
Proof.
  unfold callee2. rewrite bool_decide_eq_false_2 by (intros E; by apply gmp_not_router).
  unfold callee1. rewrite bool_decide_eq_true_2 by done.
  destruct ix; try done. destruct (send_accounts _) as [acc|]; [|done].
  intros [Hx _]%returned_Ok. eauto.
Qed.

#[export] Instance deployment_router : RouterDeployed.
Proof.
  intros cx metas ix w Hix.
  destruct (process_instruction cx ROUTER_ID metas ix w) as [w'|] eqn:E; [|done].
  cbn [process_instruction deployed deployment toy_platform] in E.
  apply callee2_router in E as (msg & acc & -> & _). discriminate Hix.
Qed.

#[export] Instance deployment_router_entry : RouterEntry.
Proof.
  intros cx metas msg w w' Hw. cbn [process_instruction deployed deployment toy_platform] in Hw.
  apply callee2_router in Hw as (msg' & acc & E & Ha & Hx). injection E as <-.
  exists acc. split.
  - clear Hx. unfold send_accounts in Ha. repeat case_match; try discriminate Ha. by injection Ha as <-.
  - eapply send_packet_sub; [apply callee0_sub2|exact Hx].
Qed.

Lemma gmp_instruction_call metas c i : gmp_instruction metas c = Some i -> gmp_call metas c i.
Proof.
  unfold gmp_instruction, gmp_call. destruct c; try done; intros Hi;
    apply bind_Some in Hi as (acc & Ha & [= <-]); (split; [done|]);
    unfold call_accounts, result_accounts in Ha; repeat case_match; try done; injection Ha as <-; eauto.
Qed.

#[export] Instance deployment_gmp : GmpDeployed.
Proof.
  intros cx metas c w w' Hw. cbn [process_instruction deployed deployment toy_platform] in Hw.
  unfold callee2 in Hw. rewrite bool_decide_eq_true_2 in Hw by done.
  destruct (gmp_instruction metas c) as [i|] eqn:Hi; [|done].
  apply returned_Ok in Hw as [Hw _]. exists i. split; [by apply gmp_instruction_call|].
  eapply gmp_instruction_sub; [exact Hi|apply callee1_sub|exact Hw].
Qed.

End Laws.

(** ** Histories *)

#[export] Instance is_u64_dec z : Decision (is_u64 z).
Proof. unfold is_u64. apply _. Defined.
#[export] Instance ix_typed_dec ix : Decision (ix_typed ix).
Proof. destruct ix; simpl; apply _. Defined.
#[export] Instance gmp_ix_typed_dec ix : Decision (gmp_ix_typed ix).
Proof. destruct ix; simpl; apply _. Defined.
#[export] Instance ift_ix_typed_dec ix : Decision (ift_ix_typed ix).
Proof. destruct ix; simpl; apply _. Defined.

Definition mint_keys_typed_b (w : World) : bool :=
  forallb (fun x => match acc_data (snd x) with
                    | DIFTAppMintState s => (length (ims_mint s) =? 32)%nat
                    | _ => true
                    end) (map_to_list (w_accts w)).

Lemma mint_keys_typed_b_spec w : mint_keys_typed_b w = true -> mint_keys_typed w.
Proof.
  unfold mint_keys_typed_b. rewrite forallb_forall. intros Hw k a s Hk Hd.
  apply elem_of_map_to_list, list_elem_of_In in Hk. specialize (Hw _ Hk). simpl in Hw.
  rewrite Hd in Hw. by apply Nat.eqb_eq.
Qed.

(** The call that reached an instruction of GMP, read from the log. *)
Definition call_matches (c : CpiIx) (ix : GmpIx) : bool :=
  match c, ix with
  | IxSendCallCpi m, GSendCallCpi _ m' => bool_decide (m' = m)
  | IxOnRecvPacket m, GOnRecvPacket _ m' => bool_decide (m' = m)
  | IxOnAcknowledgementPacket m, GOnAcknowledgementPacket _ m' => bool_decide (m' = m)
  | IxOnTimeoutPacket m, GOnTimeoutPacket _ m' => bool_decide (m' = m)
  | _, _ => false
  end.

Definition entered_b (cx : CallCtx) (w : World) (ix : GmpIx) : bool :=
  match reverse (cx_stack cx) with
  | _ :: q :: _ =>
      match last (w_log w) with
      | Some (LInvoke q' g c) => bool_decide (q' = q) && bool_decide (g = GMP_ID) && call_matches c ix
      | _ => false
      end
  | _ => true
  end.

Definition metas_of (keys : list Pubkey) : list AccountMeta :=
  (fun k => mkAccountMeta k false false) <$> keys.

Lemma metas_of_keys keys : meta_pubkey <$> metas_of keys = keys.
Proof. unfold metas_of. rewrite <- list_fmap_compose. apply list_fmap_id. Qed.

Lemma call_matches_spec c ix : call_matches c ix = true -> exists metas, gmp_call metas c ix.
Proof.
  destruct c, ix; try done; intros ->%bool_decide_eq_true; unfold gmp_call; eexists (metas_of _);
    rewrite metas_of_keys; (split; [done|]); try (exists []); reflexivity.
Qed.

Lemma entered_b_spec cx w ix : entered_b cx w ix = true -> entered cx w ix.
Proof.
  unfold entered_b, entered. intros He st q E. rewrite E, reverse_app in He. simpl in He.
  destruct (last (w_log w)) as [[]|]; try done. apply andb_true_iff in He as [He Hc].
  apply andb_true_iff in He as [->%bool_decide_eq_true ->%bool_decide_eq_true].
  apply call_matches_spec in Hc as (metas & Hc). by exists metas, ix0.
Qed.

(** A part of a history is an instruction of the program, reached after [n]
    log entries of the others. *)
Definition enter (w w' : World) (n : nat) : World :=
  if (n =? 0)%nat then w else
  mkWorld (w_accts w) (w_lamports w) (w_clock w) (w_return_data w)
    (w_log w ++ take n (drop (length (w_log w)) (w_log w'))).

Section Play.
Context `{GmpLib} `{IftLib} (answer : Pubkey -> CpiIx -> option bytes).
#[local] Instance played : Platform := deployment answer.

Fixpoint parts {I : Type} (p : Pubkey) (ok : World -> CallCtx -> I -> bool) (exec : CallCtx -> I -> M unit)
    (ps : list (nat * CallCtx * I)) (w w' : World) : bool :=
  match ps with
  | [] => frame_b ∅ p w w'
  | (n, cx, ix) :: ps =>
      let w1 := enter w w' n in
      ((n =? 0)%nat || frame_b ∅ p w w1) && toy_ctx_ok cx p && ok w1 cx ix &&
      match exec cx ix w1 with
      | Ok (_, w2) => parts p ok exec ps w2 w'
      | Err _ => false
      end
  end.

Lemma parts_reachable {I Key} p (addr : Key -> Pubkey) typed ok (exec : CallCtx -> I -> M unit) step ps w w' :
  (forall cx ix w w', running cx p -> ok w cx ix = true -> exec cx ix w = Ok ((), w') -> step w w') ->
  parts p ok exec ps w w' = true ->
  reach_at p addr typed step w ->
  reach_at p addr typed step w'.
Proof.
  intros Hstep. revert w. induction ps as [|[[n cx] ix] ps IH]; intros w Hp Hr; simpl in Hp.
  - eapply reach_other; [exact Hr|by apply frame_b_others].
  - apply andb_true_iff in Hp as [[[Hf Hcx]%andb_true_iff Hok]%andb_true_iff Hp].
    destruct (exec cx ix (enter w w' n)) as [[[] w2]|] eqn:Hx; [|done].
    apply (IH w2); [done|].
    assert (reach_at p addr typed step (enter w w' n)) as Hr1.
    { apply orb_true_iff in Hf as [Hn|Hf]; [unfold enter; by rewrite Hn|].
      eapply reach_other; [exact Hr|by eapply frame_b_others]. }
    eapply reach_step; [exact Hr1|]. eapply Hstep; [by apply toy_running|exact Hok|exact Hx].
Qed.

(** A top-level transaction with the instructions it makes of each program. *)
Record Move := mkMove {
  mv_run : M unit;
  mv_router : list (nat * CallCtx * RouterIx);
  mv_gmp : list (nat * CallCtx * GmpIx);
  mv_ift : list (nat * CallCtx * IftIx) }.

Definition legal (m : Move) (w w' : World) : bool :=
  parts ROUTER_ID (fun _ _ ix => bool_decide (ix_typed ix)) exec_router (mv_router m) w w' &&
  parts GMP_ID (fun w cx ix => bool_decide (gmp_ix_typed ix) && entered_b cx w ix) exec_gmp (mv_gmp m) w w' &&
  parts IFT_ID (fun w _ ix => bool_decide (ift_ix_typed ix) && mint_keys_typed_b w) exec_ift (mv_ift m) w w'.

Fixpoint play (ms : list Move) (w : World) : option World :=
  match ms with
  | [] => Some w
  | m :: ms =>
      match mv_run m w with
      | Ok (_, w') => if legal m w w' then play ms w' else None
      | Err _ => None
      end
  end.

Definition joint (w : World) : Prop := r_reachable w /\ g_reachable w /\ i_reachable w.

Lemma legal_joint m w w' : legal m w w' = true -> joint w -> joint w'.
Proof.
  unfold legal, joint. intros [[Hr Hg]%andb_true_iff Hi]%andb_true_iff (Rr & Rg & Ri). split_and!.
  - eapply parts_reachable; [|exact Hr|exact Rr]. intros cx ix v v' Hrun Hok Hx.
    apply bool_decide_eq_true in Hok. by exists cx, ix.
  - eapply parts_reachable; [|exact Hg|exact Rg]. intros cx ix v v' Hrun Hok Hx.
    apply andb_true_iff in Hok as [Ht%bool_decide_eq_true He%entered_b_spec]. by exists cx, ix.
  - eapply parts_reachable; [|exact Hi|exact Ri]. intros cx ix v v' Hrun Hok Hx.
    apply andb_true_iff in Hok as [Ht%bool_decide_eq_true He%mint_keys_typed_b_spec]. by exists cx, ix.
Qed.

Lemma play_joint ms w w' : play ms w = Some w' -> joint w -> joint w'.
Proof.
  revert w. induction ms as [|m ms IH]; simpl; intros w Hp Hj; [by injection Hp as <-|].
  destruct (mv_run m w) as [[u w1]|]; [|discriminate Hp]. destruct (legal m w w1) eqn:Hl; [|discriminate Hp].
  by eapply IH; [exact Hp|]; eapply legal_joint.
Qed.

End Play.
