(* ===== verification/TokenExample.v ===== *)
(** * A run of the token program, GMP and the router

    A concrete history on the deployment of [Deployment]: the three programs
    are set up, a token with a daily limit is bridged, tokens are received,
    minted by the administrator and transferred twice, and the first packet
    times out.  In the final state the other packet can be acknowledged and the
    first transfer finalized.  It shows that the hypotheses of the theorems
    about GMP and the token program can hold. *)

From S2P Require Import Prelude Errors Types Runtime Toy Ics24 Cpi AccessManager AccessManagerSpec Keyed.
From S2P Require Import Histories Chunking Router ChunkingSpec RouterSpec RouterProps GmpTypes Gmp GmpSpec GmpProps.
From S2P Require Import Ift IftSpec IftReplay IftProps Deployment.
From Stdlib Require Import ZArith Lia.
From Stdlib.Strings Require Import Byte.
From stdpp Require Import prelude strings gmap list.

#[local] Open Scope Z_scope.

Module TokenExample.

(** ** Codecs *)

(** A list of strings as one: each byte is preceded by a zero, and each string
    ends with a one. *)
Definition cells (l : list bytes) : bytes :=
  flat_map (fun b => flat_map (fun c => [x00; c]) b ++ [x01]) l.

Fixpoint uncells (b : bytes) : option (list bytes) :=
  match b with
  | [] => Some []
  | x01 :: b => l ← uncells b; Some ([] :: l)
  | x00 :: c :: b =>
      match uncells b with
      | Some (e :: l) => Some ((c :: e) :: l)
      | _ => None
      end
  | _ => None
  end.

Lemma uncells_cells l : uncells (cells l) = Some l.
Proof.
  unfold cells. induction l as [|b l IH]; [done|]. cbn [flat_map]. induction b as [|c b IHb]; simpl.
  - by rewrite IH.
  - by rewrite IHb.
Qed.

Fixpoint pos_bits (p : positive) : bytes :=
  match p with xH => [] | xO p => x00 :: pos_bits p | xI p => x01 :: pos_bits p end.
Fixpoint bits_pos (b : bytes) : positive :=
  match b with [] => xH | x00 :: b => xO (bits_pos b) | _ :: b => xI (bits_pos b) end.
Definition Z_bits (z : Z) : bytes :=
  match z with Z0 => [] | Zpos p => x01 :: pos_bits p | Zneg p => x00 :: pos_bits p end.
Definition bits_Z (b : bytes) : Z :=
  match b with [] => 0 | x01 :: b => Zpos (bits_pos b) | _ :: b => Zneg (bits_pos b) end.

Lemma bits_Z_bits z : bits_Z (Z_bits z) = z.
Proof.
  assert (forall p, bits_pos (pos_bits p) = p) as Hp by (induction p; simpl; congruence).
  destruct z; simpl; by rewrite ?Hp.
Qed.

Definition flag (b : bool) : bytes := if b then [x01] else [x00].
Definition unflag (b : bytes) : bool := bool_decide (b = [x01]).
Definition meta_cells (l : list AccountMeta) : list bytes :=
  flat_map (fun m => [meta_pubkey m; flag (meta_is_signer m); flag (meta_is_writable m)]) l.
Fixpoint cells_meta (l : list bytes) : list AccountMeta :=
  match l with
  | k :: s :: w :: l => mkAccountMeta k (unflag s) (unflag w) :: cells_meta l
  | _ => []
  end.

Lemma cells_meta_cells l : cells_meta (meta_cells l) = l.
Proof. unfold meta_cells. induction l as [|[k [] []] l IH]; simpl; by rewrite ?IH. Qed.

#[local] Instance lib : GmpLib := {|
  pubkey_to_string k := k;
  pubkey_from_str b := if (length b =? 32)%nat then Some b else None;
  proto_encode_packet d :=
    cells [gpd_sender d; gpd_receiver d; gpd_salt d; gpd_payload d; gpd_memo d];
  proto_decode_packet b :=
    match uncells b with Some [s; r; t; p; m] => Some (mkGmpPacketData s r t p m) | _ => None end;
  abi_encode_gmp_packet d :=
    cells [gpd_sender d; gpd_receiver d; gpd_salt d; gpd_payload d; gpd_memo d];
  abi_decode_gmp_packet b :=
    match uncells b with Some [s; r; t; p; m] => Some (mkGmpPacketData s r t p m) | _ => None end;
  proto_encode_ack r := r;
  proto_decode_ack b := Some b;
  abi_encode_ack r := x01 :: r;
  abi_decode_ack b := match b with _ :: b => Some b | [] => None end;
  proto_encode_payload p :=
    cells (gsp_data p :: Z_bits (gsp_prefund_lamports p) :: meta_cells (gsp_accounts p));
  proto_decode_payload b :=
    match uncells b with
    | Some (d :: z :: l) => Some (mkGmpSolanaPayload d (cells_meta l) (bits_Z z))
    | _ => None
    end;
  abi_decode_payload b := None |}.

#[local] Instance lib_ok : GmpLibOk.
Proof.
  constructor; cbn [pubkey_to_string pubkey_from_str proto_encode_packet proto_decode_packet
    abi_encode_gmp_packet abi_decode_gmp_packet proto_encode_ack proto_decode_ack abi_encode_ack
    abi_decode_ack proto_encode_payload proto_decode_payload lib].
  - intros k ->. by rewrite Nat.eqb_refl.
  - intros k ->. lia.
  - intros d. rewrite uncells_cells. by destruct d.
  - intros d. rewrite uncells_cells. by destruct d.
  - done.
  - done.
  - done.
  - done.
  - intros p. rewrite uncells_cells, cells_meta_cells, bits_Z_bits. by destruct p.
Qed.

#[local] Instance tokens : IftLib := {|
  bech32_ok _ := true;
  evm_address_from_str b := Some b;
  abi_encode_ift_mint_call r n := r ++ u64_to_le_bytes n;
  serde_json_cosmos_tx l := flat_map mm_receiver l;
  associated_token_address owner mint _ := xfe :: drop 17 owner ++ drop 16 mint;
  spl_mint_len := 82;
  token_2022_mint_len := 234;
  token_metadata_size n s u := 96 + Z.of_nat (length n + length s + length u) |}.

(** ** The ledger *)

Definition key (n : Z) : Pubkey := pubkey_of_Z (2 ^ 248 + n).
Definition admin : Pubkey := key 1.
Definition deployer : Pubkey := key 2.
Definition relayer : Pubkey := key 3.
Definition lc : Pubkey := key 4.
Definition lc_state : Pubkey := key 5.
Definition lc_cons : Pubkey := key 6.
Definition user : Pubkey := key 7.
Definition mint : Pubkey := key 8.
Definition user_tokens : Pubkey := associated_token_address user mint SPL_TOKEN_PROGRAM_ID.

(** A light client that is active and accepts every proof, at a counterparty
    time of 1700009000; programs that accept every call. *)
Definition answer (prog : Pubkey) (ix : CpiIx) : option bytes :=
  match ix with
  | IxClientStatus => Some [ClientStatus_to_u8 Active]
  | IxVerifyNonMembership _ => Some (u64_to_le_bytes 1700009000)
  | IxRaw _ => Some [x01]
  | _ => Some []
  end.

#[local] Instance platform : Platform := deployment answer.
#[local] Instance platform_ok : PlatformOk := deployment_ok answer.
#[local] Instance router_deployed : RouterDeployed := deployment_router answer.
#[local] Instance router_entries : RouterEntry := deployment_router_entry answer.
#[local] Instance gmp_deployed : GmpDeployed := deployment_gmp answer.

Definition client : bytes := bs "ethereum".
Definition counterparty : bytes := bs "07-svm-0".
Definition remote : bytes := bs "0xift".

Definition am_key : Pubkey := pda_key [AccessManager_SEED] ACCESS_MANAGER_ID.
Definition data_key (program : Pubkey) : Pubkey := pda_key [program] BPF_LOADER_UPGRADEABLE_ID.
Definition program : Account := mkAccount BPF_LOADER_UPGRADEABLE_ID DZeroed 100 true.
Definition program_data : Account := mkAccount BPF_LOADER_UPGRADEABLE_ID (DProgramData (Some deployer)) 100 false.
Definition registry : AccessManager := mkAccessManager
  [mkRoleData ADMIN_ROLE [admin]; mkRoleData RELAYER_ROLE [relayer]; mkRoleData ID_CUSTOMIZER_ROLE [admin]] [] [].

Definition empty_ledger : World := mkWorld ∅ ∅ 1700000000 None [].
Definition genesis : World := mkWorld
  (list_to_map
    [(data_key ROUTER_ID, program_data); (data_key GMP_ID, program_data); (data_key IFT_ID, program_data);
     (ROUTER_ID, program); (GMP_ID, program); (SPL_TOKEN_PROGRAM_ID, program);
     (ASSOCIATED_TOKEN_PROGRAM_ID, program);
     (am_key, mkAccount ACCESS_MANAGER_ID (DAccessManager registry) 1000 false);
     (lc_state, mkAccount lc DZeroed 100 false); (lc_cons, mkAccount lc DZeroed 100 false);
     (mint, mkAccount SPL_TOKEN_PROGRAM_ID (DMint (mkMintAccount (Some admin) 0 6)) 82 false);
     (user_tokens, mkAccount SPL_TOKEN_PROGRAM_ID (DTokenAccount (mkTokenAccount mint user 0)) 165 false)])
  (list_to_map [(deployer, 1000000%N); (admin, 1000000%N); (relayer, 1000000%N); (user, 1000000%N)])
  1700000000 None [].

(** ** Instructions *)

Definition signers : gset Pubkey := list_to_set [admin; deployer; relayer; user].
Definition router_cx : CallCtx := mkCallCtx [ROUTER_ID] signers
  (list_to_set [rk KState; rk (KClient client); rk (KApp GMP_PORT_ID); rk (KCommit client 1); rk (KCommit client 2);
     gk (GKResult client 1); gk (GKResult client 2); gk GKState; admin; deployer; relayer]).
Definition gmp_cx : CallCtx := mkCallCtx [GMP_ID] signers (list_to_set [gk GKState; deployer]).
Definition ift_cx : CallCtx := mkCallCtx [IFT_ID] signers
  (list_to_set [ik IKState; ik (IKMint mint); ik (IKBridge mint client); ik (IKPending mint client 1);
     ik (IKPending mint client 2); gk GKState; rk (KCommit client 1); rk (KCommit client 2);
     mint; user_tokens; admin; deployer; relayer; user]).

Definition router_setup : list RouterIx :=
  [RInitialize (mkRInitializeAccounts (rk KState) deployer SYSTEM_PROGRAM_ID (data_key ROUTER_ID) deployer)
     ACCESS_MANAGER_ID;
   RAddClient (mkAddClientAccounts admin (rk KState) am_key (rk (KClient client)) lc SYSTEM_PROGRAM_ID
     INSTRUCTIONS_SYSVAR_ID) client (mkCounterpartyInfo counterparty [bs "ibc"; []]);
   RAddIbcApp (mkAddIbcAppAccounts (rk KState) am_key (rk (KApp GMP_PORT_ID)) GMP_ID admin
     admin SYSTEM_PROGRAM_ID INSTRUCTIONS_SYSVAR_ID) GMP_PORT_ID].

Definition gmp_setup : GmpIx := GInitialize
  (mkGmpInitializeAccounts (gk GKState) deployer SYSTEM_PROGRAM_ID (data_key GMP_ID) deployer) ACCESS_MANAGER_ID.

Definition admin_accs : IftAdminAccounts :=
  mkIftAdminAccounts (ik IKState) (ik (IKMint mint)) admin INSTRUCTIONS_SYSVAR_ID.
Definition ift_setup : list IftIx :=
  [IInitialize (mkIftInitializeAccounts (ik IKState) deployer SYSTEM_PROGRAM_ID (data_key IFT_ID) deployer) admin;
   IInitializeExistingToken (mkExistingTokenAccounts (ik IKState) (ik (IKMint mint)) mint (authority_key mint)
     admin admin SPL_TOKEN_PROGRAM_ID SYSTEM_PROGRAM_ID);
   IRegisterIftBridge (mkBridgeAccounts (ik IKState) (ik (IKMint mint)) (ik (IKBridge mint client)) admin admin
     SYSTEM_PROGRAM_ID INSTRUCTIONS_SYSVAR_ID) (mkRegisterIFTBridgeMsg client remote Evm);
   ISetMintRateLimit admin_accs 1000].

Definition admin_mint_ix : IftIx := IAdminMint
  (mkAdminMintAccounts (ik IKState) (ik (IKMint mint)) mint (authority_key mint) user_tokens user admin admin
     SPL_TOKEN_PROGRAM_ID ASSOCIATED_TOKEN_PROGRAM_ID SYSTEM_PROGRAM_ID INSTRUCTIONS_SYSVAR_ID)
  (mkIFTMintMsg user 700).

(** A transfer, and the calls it makes. *)
Definition transfer_accs (s : Z) : IFTTransferAccounts := mkIFTTransferAccounts (ik IKState) (ik (IKMint mint))
  (ik (IKBridge mint client)) mint user_tokens user user SPL_TOKEN_PROGRAM_ID SYSTEM_PROGRAM_ID GMP_ID
  (gk GKState) ROUTER_ID (rk KState) (rk (KCommit client s)) (rk (KApp GMP_PORT_ID)) (rk (KClient client))
  lc lc_state INSTRUCTIONS_SYSVAR_ID lc_cons (ik (IKPending mint client s)).
Definition transfer (s : Z) : IftIx :=
  IIftTransfer (transfer_accs s) (mkIFTTransferMsg client (bs "0xabc") 100 0 s).

Definition timeout : Z := 1700000900.
Definition call_msg (s : Z) : SendCallMsg := gmp_call_msg client timeout remote
  (abi_encode_ift_mint_call (bs "0xabc") 100) ICS27_ENCODING_ABI s.
Definition call_accs (s : Z) : SendCallAccounts := mkSendCallAccounts (gk GKState) [] user ROUTER_ID (rk KState)
  (rk (KCommit client s)) (rk (KApp GMP_PORT_ID)) (rk (KClient client)) lc lc_state INSTRUCTIONS_SYSVAR_ID
  lc_cons SYSTEM_PROGRAM_ID.
Definition value : bytes := abi_encode_gmp_packet (mkGmpPacketData IFT_ID remote []
  (abi_encode_ift_mint_call (bs "0xabc") 100) []).
Definition payload : Payload := gmp_payload ICS27_ENCODING_ABI value.

Definition call_cx (s : Z) : CallCtx := callee_ctx ift_cx GMP_ID (send_gmp_metas (transfer_accs s)).
Definition send_cx (s : Z) : CallCtx := callee_ctx (call_cx s) ROUTER_ID (send_packet_metas (call_accs s)).
Definition send (s : Z) : RouterIx := RSendPacket
  (mkSendAccounts (rk KState) (rk (KApp GMP_PORT_ID)) (rk (KCommit client s)) (gk GKState) user
     SYSTEM_PROGRAM_ID (rk (KClient client)) (mkLcAccounts lc lc_state lc_cons))
  (mkMsgSendPacket client s timeout payload).

Definition by_router (ix : RouterIx) : Move := mkMove (exec_router router_cx ix) [(0%nat, router_cx, ix)] [] [].
Definition by_gmp (ix : GmpIx) : Move := mkMove (exec_gmp gmp_cx ix) [] [(0%nat, gmp_cx, ix)] [].
Definition by_ift (ix : IftIx) : Move := mkMove (exec_ift ift_cx ix) [] [] [(0%nat, ift_cx, ix)].
Definition transfer_move (s : Z) : Move := mkMove (exec_ift ift_cx (transfer s))
  [(3%nat, send_cx s, send s)] [(2%nat, call_cx s, GSendCallCpi (call_accs s) (call_msg s))]
  [(0%nat, ift_cx, transfer s)].

(** Tokens received: GMP calls the program with the account of the bridge's
    counterparty. *)
Definition bridge_account : Pubkey := gmp_account_key client remote [].
Definition receive_cx : CallCtx := mkCallCtx [ROUTER_ID; GMP_ID; IFT_ID] {[bridge_account; relayer]}
  (list_to_set [ik (IKMint mint); mint; user_tokens; relayer]).
Definition receive : IftIx := IIftMint
  (mkIFTMintAccounts (ik IKState) (ik (IKMint mint)) (ik (IKBridge mint client)) mint (authority_key mint)
     user_tokens user bridge_account relayer SPL_TOKEN_PROGRAM_ID ASSOCIATED_TOKEN_PROGRAM_ID SYSTEM_PROGRAM_ID)
  (mkIFTMintMsg user 150).

(** The router's settlements, with the callbacks they make. *)
Definition settle_accs (s : Z) : PacketAccounts := mkPacketAccounts (rk KState) am_key (rk (KApp GMP_PORT_ID))
  (rk (KReceipt client s)) (rk (KAck client s)) (rk (KCommit client s)) GMP_ID (gk GKState) relayer
  SYSTEM_PROGRAM_ID INSTRUCTIONS_SYSVAR_ID (rk (KClient client)) (mkLcAccounts lc lc_state lc_cons)
  [gk (GKResult client s)].
Definition sent (s : Z) : MsgPacket := mkMsgPacket s client counterparty timeout
  [mkMsgPayload GMP_PORT_ID GMP_PORT_ID ICS27_VERSION ICS27_ENCODING_ABI (Inline value)].
Definition proof : MsgProof := mkMsgProof 10 (Inline (bs "proof")).
Definition timeout_ix : RouterIx := RTimeoutPacket (settle_accs 1) (mkMsgTimeoutPacket (sent 1) proof).
Definition ack_ix : RouterIx := RAckPacket (settle_accs 2) (mkMsgAckPacket (sent 2) [x01] proof).

Definition callback_cx (s : Z) : CallCtx := callee_ctx router_cx GMP_ID
  (app_metas router_cx (gk GKState) INSTRUCTIONS_SYSVAR_ID relayer SYSTEM_PROGRAM_ID [gk (GKResult client s)]).
Definition result_accs (s : Z) : GmpResultAccounts := mkGmpResultAccounts (gk GKState) INSTRUCTIONS_SYSVAR_ID
  relayer SYSTEM_PROGRAM_ID (gk (GKResult client s)).
Definition timeout_msg : OnTimeoutPacketMsg := mkOnTimeoutPacketMsg client counterparty 1 payload relayer.
Definition ack_msg : OnAcknowledgementPacketMsg :=
  mkOnAcknowledgementPacketMsg client counterparty 2 payload [x01] relayer.

Definition finalize_accs (s : Z) : FinalizeAccounts := mkFinalizeAccounts (ik IKState) (ik (IKMint mint))
  (ik (IKPending mint client s)) (gk (GKResult client s)) mint (authority_key mint) user_tokens relayer
  SPL_TOKEN_PROGRAM_ID SYSTEM_PROGRAM_ID INSTRUCTIONS_SYSVAR_ID.
Definition finalize (s : Z) : IftIx := IFinalizeTransfer (finalize_accs s) client s.

(** ** The history *)

Definition setup : list Move :=
  mkMove (put_world genesis) [] [] [] ::
  (by_router <$> router_setup) ++ [by_gmp gmp_setup] ++ (by_ift <$> ift_setup).
Definition transfers : list Move :=
  [mkMove (exec_ift receive_cx receive) [] [] [(0%nat, receive_cx, receive)];
   by_ift admin_mint_ix; transfer_move 1; transfer_move 2].
Definition timed_out : Move := mkMove (exec_router router_cx timeout_ix) [(0%nat, router_cx, timeout_ix)]
  [(2%nat, callback_cx 1, GOnTimeoutPacket (result_accs 1) timeout_msg)] [].
Definition history : list Move := setup ++ transfers ++ [timed_out].

(** ** Facts about the final state, by one evaluation *)

#[local] Instance keeps_limit_dec m x : Decision (keeps_limit m x).
Proof. destruct x as [? []|]; simpl; apply _. Defined.
#[local] Instance on_day_dec m d x : Decision (on_day m d x).
Proof. destruct x as [? []|]; simpl; apply _. Defined.

Definition held_b (p : Pubkey) (w : World) (k : Pubkey) (d : AccountData) : bool :=
  match w_accts w !! k with
  | Some a => bool_decide (acc_owner a = p) && bool_decide (acc_data a = d)
  | None => false
  end.

Lemma held_b_held p w k d : held_b p w k d = true -> held p w k d.
Proof.
  unfold held_b, held. destruct (w_accts w !! k) as [a|]; [|done].
  intros [?%bool_decide_eq_true ?%bool_decide_eq_true]%andb_true_iff. eauto.
Qed.

Definition result1 : GMPCallResultAccount :=
  mkGMPCallResultAccount V1 IFT_ID 1 client counterparty CallTimeout 1700000000 255.
Definition gmp_app : IBCApp := mkIBCApp V1 GMP_PORT_ID GMP_ID.
Definition minted_state : IFTAppMintState := mkIFTAppMintState V1 255 mint 255 1000 19675 850.

Definition facts (w : World) : bool :=
  held_b GMP_ID w (gk (GKResult client 1)) (DGMPCallResult result1) &&
  held_b ROUTER_ID w (rk (KApp GMP_PORT_ID)) (DIBCApp gmp_app) &&
  held_b IFT_ID w (ik (IKMint mint)) (DIFTAppMintState minted_state) &&
  bool_decide (own_log IFT_ID w !! 5%nat =
    Some (LInvoke IFT_ID SPL_TOKEN_PROGRAM_ID (IxMintTo mint user_tokens (authority_key mint) 150))) &&
  bool_decide (Forall (keeps_limit mint) (drop 5 (own_log IFT_ID w))) &&
  bool_decide (Forall (on_day mint 19675) (drop 5 (own_log IFT_ID w))) &&
  is_ok (exec_router router_cx ack_ix w) && is_ok (exec_ift ift_cx (finalize 1) w).

Definition final : World := default empty_ledger (play answer history empty_ledger).

Lemma history_checked :
  match play answer history empty_ledger with Some w => facts w | None => false end = true.
Proof. by vm_compute. Qed.

Lemma final_checked : play answer history empty_ledger = Some final /\ facts final = true.
Proof.
  pose proof history_checked as Hc. unfold final.
  destruct (play answer history empty_ledger) as [w|]; [done|discriminate Hc].
Qed.

#[local] Opaque final.

Lemma final_joint : joint answer final.
Proof.
  apply (play_joint answer history empty_ledger); [apply final_checked|].
  split_and!; by apply reach_start.
Qed.

Lemma final_facts :
  g_stored final (GKResult client 1) (DGMPCallResult result1) /\
  stored final (KApp GMP_PORT_ID) (DIBCApp gmp_app) /\
  i_stored final (IKMint mint) (DIFTAppMintState minted_state) /\
  own_log IFT_ID final !! 5%nat =
    Some (LInvoke IFT_ID SPL_TOKEN_PROGRAM_ID (IxMintTo mint user_tokens (authority_key mint) 150)) /\
  Forall (keeps_limit mint) (drop 5 (own_log IFT_ID final)) /\
  Forall (on_day mint 19675) (drop 5 (own_log IFT_ID final)) /\
  is_ok (exec_router router_cx ack_ix final) = true /\ is_ok (exec_ift ift_cx (finalize 1) final) = true.
Proof.
  destruct final_checked as [_ Hf]. unfold facts in Hf.
  repeat match type of Hf with _ && _ = true => let H' := fresh "Hx" in apply andb_true_iff in Hf as [Hf H'] end.
  repeat match goal with H' : held_b _ _ _ _ = true |- _ => apply held_b_held in H' end.
  repeat match goal with H' : bool_decide _ = true |- _ => apply bool_decide_eq_true in H' end.
  split_and!; assumption.
Qed.

Lemma ift_runs : running ift_cx IFT_ID.
Proof. apply toy_running. by vm_compute. Qed.
Lemma router_cx_runs : running router_cx ROUTER_ID.
Proof. apply toy_running. by vm_compute. Qed.

(** ** Witnesses *)

Lemma gmp_results_truthful_witness :
  exists l1 cpi l2, own_log ROUTER_ID final = l1 ++ LInvoke ROUTER_ID GMP_ID cpi :: l2 /\ reports result1 cpi.
Proof.
  destruct (gmp_results_truthful final client 1 result1 ltac:(done) (proj1 final_joint)
    (proj1 (proj2 final_joint)) (proj1 final_facts)) as (l1 & cpi & l2 & p0 & t & p & x & E & _ & _ & Hr & _).
  exists l1, cpi, l2. exact (conj E Hr).
Defined.

Lemma gmp_results_final_witness :
  is_ok (exec_gmp (callback_cx 1) (GOnTimeoutPacket (result_accs 1) timeout_msg) final) = false.
Proof.
  exact (proj2 (proj2 (gmp_results_final final final client 1 _ ltac:(done) (proj1 (proj2 final_joint))
    (proj1 final_facts))) (callback_cx 1) (result_accs 1) timeout_msg eq_refl eq_refl).
Defined.

Lemma two_u64 : is_u64 2.
Proof. done. Qed.

Lemma settled_calls_recorded_witness :
  exists r v, g_stored (run_tx (exec_router router_cx ack_ix) final) (GKResult client 2) (DGMPCallResult r) /\
    gcr_status r = CallAcknowledgement v.
Proof.
  destruct (settled_calls_recorded router_cx (settle_accs 2) final
    (run_tx (exec_router router_cx ack_ix) final) gmp_app router_cx_runs) as [Ha _].
  specialize (Ha (mkMsgAckPacket (sent 2) [x01] proof) _ eq_refl (proj1 (proj2 final_facts)) eq_refl).
  specialize (Ha two_u64).
  specialize (Ha (run_tx_Ok (exec_router router_cx ack_ix) final
    (proj1 (proj2 (proj2 (proj2 (proj2 (proj2 (proj2 final_facts))))))))).
  destruct Ha as (r & v & Hr & _ & Hs & _). exists r, v. exact (conj Hr Hs).
Defined.

Lemma ift_state_replays_witness :
  view_of <$> value_at ik final (IKPending mint client 2) =
    Some <$> replay (IKPending mint client 2) (own_log IFT_ID final).
Proof. apply (ift_state_replays final (IKPending mint client 2) ltac:(done) (proj2 (proj2 final_joint))). Defined.

Lemma ift_mints_accounted_witness :
  exists e, mint_justified (take 5 (own_log IFT_ID final)) mint 150 e.
Proof.
  destruct final_facts as (_ & _ & _ & Hl & _).
  destruct (ift_mints_accounted final _ _ _ _ _ _ _ (proj2 (proj2 final_joint))
    (eq_sym (take_drop_middle _ _ _ Hl))) as (_ & _ & e & _ & _ & He).
  exists e. exact He.
Defined.

Lemma daily_mint_bounded_witness :
  zsum (minted_in mint) (drop 5 (own_log IFT_ID final)) <=
    1000 + zsum (left_in mint) (drop 5 (own_log IFT_ID final)).
Proof.
  destruct final_facts as (_ & _ & Hs & _ & Hk & Hd & _).
  exact (daily_mint_bounded final mint minted_state _ _ 19675 (proj2 (proj2 final_joint)) eq_refl Hs
    ltac:(done) (eq_sym (take_drop 5 (own_log IFT_ID final))) Hk Hd).
Defined.

Lemma ift_transfers_settled_once_witness : transfer_life client 1 (value_at ik final) (w_log final).
Proof.
  apply (ift_transfers_settled_once final client 1 ltac:(done) (proj1 final_joint) (proj2 (proj2 final_joint))).
Defined.

Lemma finalize_typed : ift_ix_typed (finalize 1).
Proof. split; [reflexivity|done]. Qed.

Lemma ift_outcomes_justified_witness :
  exists sender amount cpi l,
    own_log IFT_ID (run_tx (exec_ift ift_cx (finalize 1)) final) = own_log IFT_ID final ++ l /\
    outcome mint client 1 sender amount (w_clock final) cpi l.
Proof.
  pose proof (run_tx_Ok (exec_ift ift_cx (finalize 1)) final
    (proj2 (proj2 (proj2 (proj2 (proj2 (proj2 (proj2 final_facts)))))))) as Hx.
  unfold finalize at 1 in Hx.
  pose proof (ift_outcomes_justified ift_cx (finalize_accs 1) client 1 final _ (proj1 final_joint)
    (proj1 (proj2 final_joint)) (proj2 (proj2 final_joint)) ift_runs finalize_typed Hx) as Ho.
  destruct Ho as (sender & receiver & amount & t & l & l1 & cpi & l2 & p & x & p0 & _ & _ & _ & _ & _ & _ & _ & Hl & Ho).
  exists sender, amount, cpi, l. exact (conj Hl Ho).
Defined.

(** *** On a smaller ledger: GMP and a paused token program *)

Definition gmp_running : GMPAppState := mkGMPAppState V1 false 255 (AccessManagerState_new ACCESS_MANAGER_ID).
Definition ift_paused : IFTAppState := mkIFTAppState V1 255 admin true None.
Definition ready : World := set_accts genesis
  (<[gk GKState := mkAccount GMP_ID (DGMPAppState gmp_running) 500 false]>
  (<[ik IKState := mkAccount IFT_ID (DIFTAppState ift_paused) 500 false]> (w_accts genesis))).

(** A packet that calls the token program's first instruction. *)
Definition remote_call : GmpSolanaPayload := mkGmpSolanaPayload [x00] [mkAccountMeta lc_state false false] 0.
Definition remote_packet : GmpPacketData :=
  mkGmpPacketData remote SPL_TOKEN_PROGRAM_ID [] (proto_encode_payload remote_call) [].
Definition recv_msg : OnRecvPacketMsg := mkOnRecvPacketMsg counterparty client 7
  (gmp_payload ICS27_ENCODING_PROTOBUF (proto_encode_packet remote_packet)) relayer.
Definition recv_cx : CallCtx := mkCallCtx [ROUTER_ID; GMP_ID] {[relayer]} (list_to_set [gk GKState; relayer]).
Definition recv_ix : GmpIx := GOnRecvPacket
  (mkGmpRecvAccounts (gk GKState) INSTRUCTIONS_SYSVAR_ID relayer SYSTEM_PROGRAM_ID
     [bridge_account; SPL_TOKEN_PROGRAM_ID; lc_state]) recv_msg.

Lemma recv_runs : running recv_cx GMP_ID.
Proof. apply toy_running. by vm_compute. Qed.

Lemma recv_executes : is_ok (exec_gmp recv_cx recv_ix ready) = true.
Proof. by vm_compute. Qed.

Lemma gmp_executes_as_sender_witness :
  exists d receiver account p, execution recv_msg d receiver account p /\
    cx_signers (callee_ctx recv_cx receiver (gsp_accounts p)) ⊆ {[account]}.
Proof.
  pose proof (run_tx_Ok (exec_gmp recv_cx recv_ix) ready recv_executes) as Hx.
  unfold recv_ix at 1 in Hx.
  destruct (gmp_executes_as_sender recv_cx _ recv_msg ready _ recv_runs Hx)
    as (_ & d & r & k & p & He & _ & _ & _ & Hs & _).
  exists d, r, k, p. exact (conj He Hs).
Defined.

Lemma callback_runs : running (callback_cx 2) GMP_ID.
Proof. apply toy_running. by vm_compute. Qed.

Lemma gmp_is_running : g_stored ready GKState (DGMPAppState gmp_running).
Proof. apply held_b_held. by vm_compute. Qed.

Lemma callback_is_ready : callback_ready (callback_cx 2) (result_accs 2) ready client 2.
Proof.
  constructor.
  - reflexivity.
  - split; [reflexivity|]. exists gmp_running. split; [exact gmp_is_running|split; reflexivity].
  - reflexivity.
  - reflexivity.
  - split; [apply (bool_decide_unpack _); by vm_compute|]. split; [apply (bool_decide_unpack _); by vm_compute|].
    split; [by vm_compute|]. apply Z.leb_le. by vm_compute.
  - split; [reflexivity|]. split; [apply (bool_decide_unpack _); by vm_compute|].
    split; [by vm_compute|]. apply Nat.leb_le. by vm_compute.
Qed.

Lemma call_is_encoded : call_payload IFT_ID (call_msg 2) payload.
Proof. exists value. split; [by vm_compute|]. split; [by vm_compute|reflexivity]. Qed.

Lemma gmp_callbacks_go_through_witness :
  exists w' r, exec_gmp (callback_cx 2) (GOnAcknowledgementPacket (result_accs 2) ack_msg) ready = Ok ((), w') /\
    g_stored w' (GKResult client 2) (DGMPCallResult r) /\ gcr_sender r = IFT_ID.
Proof.
  destruct (gmp_callbacks_go_through (callback_cx 2) (result_accs 2) ready client 2 IFT_ID (call_msg 2) payload
    callback_runs two_u64 callback_is_ready call_is_encoded eq_refl) as [Hack _].
  specialize (Hack ack_msg eq_refl eq_refl eq_refl ltac:(apply Nat.leb_le; by vm_compute)).
  destruct Hack as (w' & r & Hx & Hs & Hr & _). exists w', r. exact (conj Hx (conj Hs Hr)).
Defined.

(** Unpausing: an instruction of the paused program. *)
Definition unpause_ift : IftIx := ISetPaused admin_accs false.
Lemma unpause_ift_executes : is_ok (exec_ift ift_cx unpause_ift ready) = true.
Proof. by vm_compute. Qed.
Lemma ready_typed : mint_keys_typed ready.
Proof. apply mint_keys_typed_b_spec. by vm_compute. Qed.
Lemma ift_is_paused : i_stored ready IKState (DIFTAppState ift_paused).
Proof. apply held_b_held. by vm_compute. Qed.

Lemma ift_instructions_refine_spec_witness :
  exists ch l, i_trans ift_cx ready (run_tx (exec_ift ift_cx unpause_ift) ready) unpause_ift ch l /\
    own_log IFT_ID (run_tx (exec_ift ift_cx unpause_ift) ready) = own_log IFT_ID ready ++ l.
Proof.
  destruct (ift_instructions_refine_spec ift_cx unpause_ift ready _ ift_runs I ready_typed
    (run_tx_Ok _ _ unpause_ift_executes)) as (ch & l & Ht & Hl & _).
  exists ch, l. exact (conj Ht Hl).
Defined.

Lemma paused_ift_moves_no_tokens_witness :
  exists l, own_log IFT_ID (run_tx (exec_ift ift_cx unpause_ift) ready) = own_log IFT_ID ready ++ l /\
    Forall (fun e => ~ moves_tokens e) l.
Proof.
  exact (proj1 (paused_ift_moves_no_tokens ift_cx unpause_ift ready _ ift_paused ift_is_paused eq_refl ift_runs I
    ready_typed (run_tx_Ok _ _ unpause_ift_executes))).
Defined.

Lemma ift_changes_authorized_witness :
  is_ok (exec_ift ift_cx unpause_ift ready) = true /\
  forall st', i_stored (run_tx (exec_ift ift_cx unpause_ift) ready) IKState (DIFTAppState st') ->
    state_change ift_cx ift_paused st' ready.
Proof.
  exact (conj unpause_ift_executes (proj1 (ift_changes_authorized ift_cx unpause_ift ready _ ift_paused ift_is_paused
    ift_runs I ready_typed (run_tx_Ok _ _ unpause_ift_executes)))).
Defined.

End TokenExample.

(** *** A transfer to another Solana chain, where addresses have 32 bytes *)

Module SolanaExample.
Import TokenExample.

#[local] Instance short_addresses : Platform := {|
  sha256 := toy_digest;
  keccak256 := toy_digest;
  borsh_packet := toy_borsh_packet;
  borsh_decode_vec_u8 b := Some b;
  find_program_address s p := (toy_digest (concat s ++ p), 255);
  rent_minimum_balance _ := 1000;
  process_instruction cx prog metas ix w := Err (EProgram 0) |}.
#[local] Existing Instances lib lib_ok tokens.

Definition call : bytes :=
  match construct_solana_mint_call IFT_ID mint client user 100 empty_ledger with
  | Ok (b, _) => b
  | Err _ => []
  end.

Lemma call_constructed :
  construct_solana_mint_call IFT_ID mint client user 100 empty_ledger = Ok (call, empty_ledger).
Proof. by vm_compute. Qed.

Lemma call_keys raw m :
  decode_raw call ICS27_ENCODING_PROTOBUF = Ok raw -> m ∈ gsp_accounts raw -> length (meta_pubkey m) = 32%nat.
Proof.
  intros E. assert (match decode_raw call ICS27_ENCODING_PROTOBUF with
    | Ok r => forallb (fun m => (length (meta_pubkey m) =? 32)%nat) (gsp_accounts r)
    | Err _ => false end = true) as Hk by (by vm_compute).
  rewrite E, forallb_forall in Hk. intros Hm%list_elem_of_In. by apply Nat.eqb_eq, Hk.
Qed.

Lemma solana_mint_call_roundtrip_witness :
  exists raw key acc, decode_raw call ICS27_ENCODING_PROTOBUF = Ok raw /\
    gsp_data raw = ift_mint_data (mkIFTMintMsg key 100) /\ mint_call_accounts IFT_ID mint client key acc.
Proof.
  destruct (solana_mint_call_roundtrip IFT_ID mint client user 100 empty_ledger call empty_ledger
    call_constructed call_keys) as (raw & k & acc & _ & Hd & _ & Hdata & _ & Hacc & _).
  exists raw, k, acc. exact (conj Hd (conj Hdata Hacc)).
Defined.

End SolanaExample.
