(* ===== verification/Attestation.v ===== *)
(** * The attestation light client

    [programs/attestation]: a light client whose consensus states and packet
    proofs are attested by a quorum of Ethereum keys.  The signature recovery,
    the ABI decoders ([alloy_sol_types]) and the Borsh decoder of a proof are
    parameters ([AttestationLib]); everything else is the program's.  One
    definition per instruction; [exec_att] is the entry point.  The theorems
    are in [AttestationSpec.v]. *)

From S2P Require Import Prelude Errors Types Runtime Cpi AccessManager.
From Stdlib Require Import ZArith Lia.
From Stdlib.Strings Require Import Byte.
From stdpp Require Import base strings gmap list.

#[local] Open Scope Z_scope.

(** The messages attestors sign ([IAttestationMsgs.sol]). *)
Record StateAttestation := mkStateAttestation {
  sa_height : Z;
  sa_timestamp : Z }.

Record PacketCompact := mkPacketCompact {
  pc_path : bytes;
  pc_commitment : bytes }.

Record PacketAttestation := mkPacketAttestation {
  pat_height : Z;
  pat_packets : list PacketCompact }.

Record MembershipProof := mkMembershipProof {
  mpf_attestation_data : bytes;
  mpf_signatures : list bytes }.

(** Code outside the repository: [secp256k1_recover] (message hash, recovery
    identifier, 64-byte signature), and the decoders. *)
Class AttestationLib := {
  secp256k1_recover : bytes -> Z -> bytes -> option bytes;
  abi_decode_state : bytes -> option StateAttestation;
  abi_decode_packet : bytes -> option PacketAttestation;
  borsh_decode_membership_proof : bytes -> option MembershipProof }.

(** The fields of an attested state are Solidity [uint64]s. *)
Class AttestationLibOk `{AttestationLib} : Prop :=
  abi_decode_state_typed data sa :
    abi_decode_state data = Some sa -> is_u64 (sa_height sa) /\ is_u64 (sa_timestamp sa).

Definition AttClientState_SEED : bytes := Eval vm_compute in bs "client".
Definition AttAppState_SEED : bytes := Eval vm_compute in bs "app_state".
Definition ConsensusStateStore_SEED : bytes := Eval vm_compute in bs "consensus_state".

Definition SECP256K1_SIGNATURE_LENGTH : nat := 64.
Definition SIGNATURE_LEN : nat := 65.
Definition ETH_RECOVERY_ID_OFFSET : Z := 27.
Definition ETH_ADDRESS_LEN : nat := 20.
Definition MAX_PROOF_SIZE : Z := 64 * 1024.

(** ** [crypto.rs] *)

Inductive AttestationType := AttState | AttPacket.

Definition AttestationType_tag (t : AttestationType) : byte :=
  match t with AttState => x01 | AttPacket => x02 end.

Section Attestation.
Context `{Platform} `{AttestationLib}.

(** [sha256(type_tag || sha256(data))]. *)
Definition tagged_signing_input (data : bytes) (t : AttestationType) : bytes :=
  sha256 (AttestationType_tag t :: sha256 data).

(** The 64 bytes of the signature and the recovery identifier, with
    Ethereum's offset of 27 removed. *)
Definition parse_eth_signature (signature : bytes) : result Error (bytes * Z) :=
  if negb (length signature =? SIGNATURE_LEN)%nat then
    Err (EAttestation AttestationErr.InvalidSignature)
  else
    let raw_v := byte_to_Z (nth SECP256K1_SIGNATURE_LENGTH signature x00) in
    Ok (take SECP256K1_SIGNATURE_LENGTH signature,
        if Z.leb ETH_RECOVERY_ID_OFFSET raw_v then raw_v - ETH_RECOVERY_ID_OFFSET else raw_v).

Definition pubkey_to_eth_address (pubkey : bytes) : bytes :=
  let hash := keccak256 pubkey in drop (length hash - ETH_ADDRESS_LEN) hash.

Definition recover_eth_address (message_hash signature : bytes) : result Error bytes :=
  parsed ← parse_eth_signature signature;
  pubkey ← ok_or (secp256k1_recover message_hash (snd parsed) (fst parsed))
             (EAttestation AttestationErr.InvalidSignature);
  Ok (pubkey_to_eth_address pubkey).

(** ** [proof.rs] *)

Definition deserialize_membership_proof (proof_bytes : bytes) : result Error MembershipProof :=
  if Z.ltb MAX_PROOF_SIZE (Z.of_nat (length proof_bytes)) then Err (EAttestation AttestationErr.InvalidProof)
  else ok_or (borsh_decode_membership_proof proof_bytes) (EAttestation AttestationErr.InvalidProof).

(** ** [verification.rs] *)

(** The loop over the signatures, with the addresses recovered so far. *)
Fixpoint verify_signatures (attestors : list bytes) (message_hash : bytes)
    (raw_signatures : list bytes) (recovered_addresses : list bytes) : result Error unit :=
  match raw_signatures with
  | [] => Ok ()
  | raw_sig :: raw_signatures =>
      recovered_address ← recover_eth_address message_hash raw_sig;
      if contains recovered_address recovered_addresses then
        Err (EAttestation AttestationErr.DuplicateSigner)
      else if negb (contains recovered_address attestors) then
        Err (EAttestation AttestationErr.UnknownSigner)
      else verify_signatures attestors message_hash raw_signatures
             (recovered_addresses ++ [recovered_address])
  end.

Definition verify_attestation (client_state : AttClientState) (attestation_data : bytes)
    (raw_signatures : list bytes) (t : AttestationType) : result Error unit :=
  _ ← require_r (negb (bool_decide (raw_signatures = [])))
        (EAttestation AttestationErr.EmptySignatures);
  _ ← require_r (Z.leb (acs_min_required_sigs client_state) (Z.of_nat (length raw_signatures)))
        (EAttestation AttestationErr.ThresholdNotMet);
  verify_signatures (acs_attestor_addresses client_state)
    (tagged_signing_input attestation_data t) raw_signatures [].

(** ** [instructions/initialize.rs] *)

Record AttInitializeAccounts := mkAttInitializeAccounts {
  ai_client_state : Pubkey;
  ai_app_state : Pubkey;
  ai_payer : Pubkey;
  ai_system_program : Pubkey;
  ai_program_data : Pubkey;
  ai_authority : Pubkey }.

Definition att_initialize (cx : CallCtx) (acc : AttInitializeAccounts)
    (attestor_addresses : list bytes) (min_required_sigs : Z) (access_manager : Pubkey) : M unit :=
  _ ← signer cx (ai_payer acc);
  _ ← system_program (ai_system_program acc);
  program_data ← load_account BPF_LOADER_UPGRADEABLE_ID as_ProgramData (ai_program_data acc);
  _ ← signer cx (ai_authority acc);
  _ ← seeds_are (ai_client_state acc) [AttClientState_SEED] ATTESTATION_ID;
  _ ← init_account cx ATTESTATION_ID (ai_client_state acc) (ai_payer acc)
        (8 + AttClientState_INIT_SPACE);
  _ ← seeds_are (ai_app_state acc) [AttAppState_SEED] ATTESTATION_ID;
  _ ← init_account cx ATTESTATION_ID (ai_app_state acc) (ai_payer acc) (8 + AttAppState_INIT_SPACE);
  _ ← writable cx (ai_payer acc);
  _ ← seeds_are (ai_program_data acc) [ATTESTATION_ID] BPF_LOADER_UPGRADEABLE_ID;
  _ ← require (bool_decide (program_data = Some (ai_authority acc)))
        AttestationErr.UnauthorizedDeployer;
  _ ← require (negb (bool_decide (access_manager = Pubkey_default)))
        AttestationErr.InvalidAccessManager;
  _ ← require (negb (bool_decide (attestor_addresses = []))) AttestationErr.NoAttestors;
  _ ← require (Z.ltb 0 min_required_sigs &&
               Z.leb min_required_sigs (Z.of_nat (length attestor_addresses)))
        AttestationErr.BadQuorum;
  let sorted := dedup (sort_bytes attestor_addresses) in
  _ ← require (length sorted =? length attestor_addresses)%nat AttestationErr.DuplicateSigner;
  _ ← store_account ATTESTATION_ID (ai_client_state acc)
        (DAttClientState (mkAttClientState V1 sorted min_required_sigs 0 false));
  store_account ATTESTATION_ID (ai_app_state acc)
    (DAttAppState (mkAttAppState V1 (AccessManagerState_new access_manager))).

(** ** [instructions/update_client.rs] *)

Record UpdateClientAccounts := mkUpdateClientAccounts {
  uc_client_state : Pubkey;
  uc_consensus_state_store : Pubkey;
  uc_app_state : Pubkey;
  uc_access_manager : Pubkey;
  uc_instructions_sysvar : Pubkey;
  uc_submitter : Pubkey;
  uc_system_program : Pubkey }.

Definition consensus_seeds (height : Z) : list bytes :=
  [ConsensusStateStore_SEED; u64_to_le_bytes height].

Definition frozen (cs : AttClientState) : AttClientState :=
  mkAttClientState (acs_version cs) (acs_attestor_addresses cs) (acs_min_required_sigs cs)
    (acs_latest_height cs) true.

Definition at_height (cs : AttClientState) (height : Z) : AttClientState :=
  mkAttClientState (acs_version cs) (acs_attestor_addresses cs) (acs_min_required_sigs cs)
    (if Z.ltb (acs_latest_height cs) height then height else acs_latest_height cs)
    (acs_is_frozen cs).

(** The handler's body: the client state and the consensus state when it
    returns.  A conflicting timestamp freezes the client and returns Ok, so
    that the freeze persists. *)
Definition update_client_body (cx : CallCtx) (acc : UpdateClientAccounts) (new_height : Z)
    (proof_bytes : bytes) (client_state : AttClientState) (store : ConsensusStateStore)
    : M (AttClientState * ConsensusStateStore) :=
  _ ← require_role cx (uc_access_manager acc) RELAYER_ROLE (uc_submitter acc)
        (uc_instructions_sysvar acc) ATTESTATION_ID;
  _ ← require (negb (acs_is_frozen client_state)) AttestationErr.FrozenClientState;
  proof ← lift (deserialize_membership_proof proof_bytes);
  attestation ← lift (ok_or (abi_decode_state (mpf_attestation_data proof))
        (EAttestation AttestationErr.InvalidAttestationData));
  _ ← lift (verify_attestation client_state (mpf_attestation_data proof) (mpf_signatures proof)
              AttState);
  _ ← require (Z.ltb 0 (sa_height attestation) && Z.ltb 0 (sa_timestamp attestation))
        AttestationErr.InvalidState;
  _ ← require (Z.eqb new_height (sa_height attestation)) AttestationErr.HeightMismatch;
  let existing_timestamp := css_timestamp store in
  if negb (Z.eqb existing_timestamp 0) then
    if negb (Z.eqb existing_timestamp (sa_timestamp attestation)) then
      _ ← emit ATTESTATION_ID (MisbehaviourDetected (sa_height attestation) existing_timestamp
                                 (sa_timestamp attestation));
      mret (frozen client_state, store)
    else mret (client_state, store)
  else
    mret (at_height client_state (sa_height attestation),
          mkConsensusStateStore (sa_height attestation) (sa_timestamp attestation)).

Definition update_client (cx : CallCtx) (acc : UpdateClientAccounts) (new_height : Z)
    (proof_bytes : bytes) : M unit :=
  client_state ← load_account ATTESTATION_ID as_AttClientState (uc_client_state acc);
  app_state ← load_account ATTESTATION_ID as_AttAppState (uc_app_state acc);
  _ ← signer cx (uc_submitter acc);
  _ ← system_program (uc_system_program acc);
  _ ← seeds_are (uc_consensus_state_store acc) (consensus_seeds new_height) ATTESTATION_ID;
  store ← init_if_needed cx ATTESTATION_ID as_ConsensusStateStore (mkConsensusStateStore 0 0)
            (uc_consensus_state_store acc) (uc_submitter acc) (8 + ConsensusStateStore_INIT_SPACE);
  _ ← seeds_are (uc_client_state acc) [AttClientState_SEED] ATTESTATION_ID;
  _ ← writable cx (uc_client_state acc);
  _ ← seeds_are (uc_app_state acc) [AttAppState_SEED] ATTESTATION_ID;
  _ ← seeds_are (uc_access_manager acc) [AccessManager_SEED]
        (ams_access_manager (aas_am_state app_state));
  _ ← instructions_sysvar (uc_instructions_sysvar acc);
  _ ← writable cx (uc_submitter acc);
  states ← update_client_body cx acc new_height proof_bytes client_state store;
  _ ← store_account ATTESTATION_ID (uc_client_state acc) (DAttClientState (fst states));
  store_account ATTESTATION_ID (uc_consensus_state_store acc) (DConsensusStateStore (snd states)).

(** ** [instructions/verify_membership.rs] and [verify_non_membership.rs] *)

Record VerifyAccounts := mkVerifyAccounts {
  va_client_state : Pubkey;
  va_consensus_state_at_height : Pubkey }.

(** The accounts of the two instructions. *)
Definition verify_accounts (acc : VerifyAccounts) (height : Z)
    : M (AttClientState * ConsensusStateStore) :=
  client_state ← load_account ATTESTATION_ID as_AttClientState (va_client_state acc);
  store ← load_account ATTESTATION_ID as_ConsensusStateStore (va_consensus_state_at_height acc);
  _ ← seeds_are (va_client_state acc) [AttClientState_SEED] ATTESTATION_ID;
  _ ← require (negb (acs_is_frozen client_state)) AttestationErr.FrozenClientState;
  _ ← seeds_are (va_consensus_state_at_height acc) (consensus_seeds height) ATTESTATION_ID;
  _ ← require (negb (Z.eqb (css_timestamp store) 0)) AttestationErr.ConsensusTimestampNotFound;
  mret (client_state, store).

(** From the height checks to the packet at the path. *)
Definition attested_packet (client_state : AttClientState) (store : ConsensusStateStore)
    (height : Z) (proof_bytes : bytes) (path : bytes) : result Error PacketCompact :=
  _ ← require_r (Z.eqb height (css_height store)) (EAttestation AttestationErr.HeightMismatch);
  _ ← require_r (negb (acs_is_frozen client_state)) (EAttestation AttestationErr.FrozenClientState);
  _ ← require_r (negb (Z.eqb (css_timestamp store) 0))
        (EAttestation AttestationErr.ConsensusTimestampNotFound);
  proof ← deserialize_membership_proof proof_bytes;
  attestation ← ok_or (abi_decode_packet (mpf_attestation_data proof))
        (EAttestation AttestationErr.InvalidAttestationData);
  _ ← require_r (Z.eqb (pat_height attestation) (css_height store))
        (EAttestation AttestationErr.HeightMismatch);
  _ ← verify_attestation client_state (mpf_attestation_data proof) (mpf_signatures proof) AttPacket;
  _ ← require_r (negb (length (pat_packets attestation) =? 0)%nat)
        (EAttestation AttestationErr.EmptyAttestation);
  ok_or (List.find (fun p => bool_decide (pc_path p = keccak256 path)) (pat_packets attestation))
    (EAttestation AttestationErr.NotMember).

Definition ZERO_COMMITMENT : bytes := replicate 32 x00.

Definition verify_membership (acc : VerifyAccounts) (msg : MembershipMsg) : M unit :=
  states ← verify_accounts acc (mm_height msg);
  _ ← require (negb (bool_decide (mm_value msg = []))) AttestationErr.EmptyValue;
  _ ← require (length (mm_path msg) =? 1)%nat AttestationErr.InvalidPathLength;
  _ ← require (Z.ltb 0 (mm_height msg)) AttestationErr.InvalidHeight;
  packet ← lift (attested_packet (fst states) (snd states) (mm_height msg) (mm_proof msg)
                   (nth 0 (mm_path msg) []));
  _ ← require (negb (bool_decide (pc_commitment packet = ZERO_COMMITMENT)))
        AttestationErr.ZeroCommitment;
  _ ← require (length (mm_value msg) =? 32)%nat AttestationErr.CommitmentMismatch;
  require (bool_decide (pc_commitment packet = mm_value msg)) AttestationErr.CommitmentMismatch.

Definition verify_non_membership (acc : VerifyAccounts) (msg : NonMembershipMsg) : M unit :=
  states ← verify_accounts acc (nm_height msg);
  _ ← require (length (nm_path msg) =? 1)%nat AttestationErr.InvalidPathLength;
  _ ← require (Z.ltb 0 (nm_height msg)) AttestationErr.InvalidHeight;
  packet ← lift (attested_packet (fst states) (snd states) (nm_height msg) (nm_proof msg)
                   (nth 0 (nm_path msg) []));
  _ ← require (bool_decide (pc_commitment packet = ZERO_COMMITMENT)) AttestationErr.NonZeroCommitment;
  set_return_data ATTESTATION_ID (u64_to_le_bytes (css_timestamp (snd states))).

(** ** [instructions/client_status.rs] *)

Definition client_status (acc : VerifyAccounts) : M unit :=
  client_state ← load_account ATTESTATION_ID as_AttClientState (va_client_state acc);
  _ ← load_account ATTESTATION_ID as_ConsensusStateStore (va_consensus_state_at_height acc);
  _ ← seeds_are (va_client_state acc) [AttClientState_SEED] ATTESTATION_ID;
  _ ← seeds_are (va_consensus_state_at_height acc)
        (consensus_seeds (acs_latest_height client_state)) ATTESTATION_ID;
  set_return_data ATTESTATION_ID
    [ClientStatus_to_u8 (if acs_is_frozen client_state then Frozen else Active)].

(** ** [instructions/access_manager_transfer.rs] *)

Record AttTransferAccounts := mkAttTransferAccounts {
  at_app_state : Pubkey;
  at_access_manager : Pubkey;
  at_admin : Pubkey;
  at_instructions_sysvar : Pubkey }.

Definition with_att_am_state (s : AttAppState) (am : AccessManagerState) : AttAppState :=
  mkAttAppState (aas_version s) am.

Definition att_propose_access_manager_transfer (cx : CallCtx) (acc : AttTransferAccounts)
    (new_access_manager : Pubkey) : M unit :=
  s ← load_account ATTESTATION_ID as_AttAppState (at_app_state acc);
  _ ← signer cx (at_admin acc);
  _ ← seeds_are (at_app_state acc) [AttAppState_SEED] ATTESTATION_ID;
  _ ← writable cx (at_app_state acc);
  _ ← seeds_are (at_access_manager acc) [AccessManager_SEED] (ams_access_manager (aas_am_state s));
  _ ← instructions_sysvar (at_instructions_sysvar acc);
  am ← propose_transfer cx (aas_am_state s) new_access_manager (at_access_manager acc)
         (at_admin acc) (at_instructions_sysvar acc) ATTESTATION_ID;
  store_account ATTESTATION_ID (at_app_state acc) (DAttAppState (with_att_am_state s am)).

Definition att_accept_access_manager_transfer (cx : CallCtx) (acc : AttTransferAccounts) : M unit :=
  s ← load_account ATTESTATION_ID as_AttAppState (at_app_state acc);
  _ ← signer cx (at_admin acc);
  _ ← seeds_are (at_app_state acc) [AttAppState_SEED] ATTESTATION_ID;
  _ ← writable cx (at_app_state acc);
  pending ← lift (ok_or (ams_pending_access_manager (aas_am_state s))
        (EAccessManager AccessManagerErr.NoPendingAccessManagerTransfer));
  _ ← seeds_are (at_access_manager acc) [AccessManager_SEED] pending;
  _ ← instructions_sysvar (at_instructions_sysvar acc);
  am ← accept_transfer cx (aas_am_state s) (at_access_manager acc) (at_admin acc)
         (at_instructions_sysvar acc) ATTESTATION_ID;
  store_account ATTESTATION_ID (at_app_state acc) (DAttAppState (with_att_am_state s am)).

Definition att_cancel_access_manager_transfer (cx : CallCtx) (acc : AttTransferAccounts) : M unit :=
  s ← load_account ATTESTATION_ID as_AttAppState (at_app_state acc);
  _ ← signer cx (at_admin acc);
  _ ← seeds_are (at_app_state acc) [AttAppState_SEED] ATTESTATION_ID;
  _ ← writable cx (at_app_state acc);
  _ ← seeds_are (at_access_manager acc) [AccessManager_SEED] (ams_access_manager (aas_am_state s));
  _ ← instructions_sysvar (at_instructions_sysvar acc);
  am ← cancel_transfer cx (aas_am_state s) (at_access_manager acc) (at_admin acc)
         (at_instructions_sysvar acc) ATTESTATION_ID;
  store_account ATTESTATION_ID (at_app_state acc) (DAttAppState (with_att_am_state s am)).

(** ** [lib.rs]: the entry point *)

Inductive AttIx :=
| AtInitialize (acc : AttInitializeAccounts) (attestor_addresses : list bytes)
    (min_required_sigs : Z) (access_manager : Pubkey)
| AtProposeAccessManagerTransfer (acc : AttTransferAccounts) (new_access_manager : Pubkey)
| AtAcceptAccessManagerTransfer (acc : AttTransferAccounts)
| AtCancelAccessManagerTransfer (acc : AttTransferAccounts)
| AtVerifyMembership (acc : VerifyAccounts) (msg : MembershipMsg)
| AtVerifyNonMembership (acc : VerifyAccounts) (msg : NonMembershipMsg)
| AtUpdateClient (acc : UpdateClientAccounts) (new_height : Z) (proof_bytes : bytes)
| AtClientStatus (acc : VerifyAccounts).

Definition exec_att (cx : CallCtx) (ix : AttIx) : M unit :=
  match ix with
  | AtInitialize acc addrs n am => att_initialize cx acc addrs n am
  | AtProposeAccessManagerTransfer acc am => att_propose_access_manager_transfer cx acc am
  | AtAcceptAccessManagerTransfer acc => att_accept_access_manager_transfer cx acc
  | AtCancelAccessManagerTransfer acc => att_cancel_access_manager_transfer cx acc
  | AtVerifyMembership acc msg => verify_membership acc msg
  | AtVerifyNonMembership acc msg => verify_non_membership acc msg
  | AtUpdateClient acc h proof => update_client cx acc h proof
  | AtClientStatus acc => client_status acc
  end.

End Attestation.
