(* ===== verification/AttestationSpec.v ===== *)
(** * The attestation light client: quorums

    What a verified attestation means: [quorum] is the abstract condition (the
    signatures recover to pairwise distinct trusted attestors, at least as
    many as the threshold), [verify_attestation] decides it, two quorums of a
    majority threshold share an attestor, and a signature over a state never
    counts for a packet.  [AttestationProps.v] has the theorems on the
    program's state. *)

From S2P Require Import Prelude Errors Types Runtime Toy Ics24 Cpi AccessManager Attestation.
From Stdlib Require Import ZArith Lia.
From Stdlib.Strings Require Import Byte.
From stdpp Require Import prelude strings gmap list.

#[local] Open Scope Z_scope.

Section Quorum.
Context `{Platform} `{AttestationLib}.

(** [a] signed [data] as an attestation of type [t], with signature [sig]. *)
Definition signed (data : bytes) (t : AttestationType) (sig a : bytes) : Prop :=
  recover_eth_address (tagged_signing_input data t) sig = Ok a.

Record quorum (cs : AttClientState) (data : bytes) (t : AttestationType) (sigs signers : list bytes)
    : Prop := {
  q_signed : Forall2 (signed data t) sigs signers;
  q_distinct : NoDup signers;
  q_trusted : Forall (fun a => a ∈ acs_attestor_addresses cs) signers;
  q_threshold : acs_min_required_sigs cs <= Z.of_nat (length signers);
  q_some : signers <> [] }.

Lemma verify_signatures_Ok attestors h sigs acc :
  verify_signatures attestors h sigs acc = Ok () <->
  exists signers, Forall2 (fun sig a => recover_eth_address h sig = Ok a) sigs signers /\
    NoDup signers /\ Forall (fun a => a ∈ attestors) signers /\ Forall (fun a => a ∉ acc) signers.
Proof.
  revert acc. induction sigs as [|sig sigs IH]; intros acc; simpl.
  { split; [intros _; exists []; repeat constructor|done]. }
  rewrite result_bind_ok. split.
  - intros (a & Ha & Hr). destruct (contains a acc) eqn:E1; [done|].
    destruct (contains a attestors) eqn:E2; [|done]. simpl in Hr.
    apply IH in Hr as (signers & Hf & Hnd & Ht & Hn). exists (a :: signers).
    apply contains_false in E1. apply contains_spec in E2. rewrite Forall_forall in Hn.
    split_and!; [by constructor|constructor; [|done]|by constructor|constructor; [done|]].
    + intros Hin. apply (Hn a Hin). set_solver.
    + apply Forall_forall. intros x Hx Hin. apply (Hn x Hx). set_solver.
  - intros (signers & Hf & Hnd & Ht & Hn). inversion Hf as [|? a ? signers' Ha Hf' E1 E2]; subst.
    apply NoDup_cons in Hnd as [Hna Hnd]. apply Forall_cons in Ht as [Hta Ht].
    apply Forall_cons in Hn as [Hna' Hn]. exists a. split; [done|].
    rewrite (proj2 (contains_false a acc) Hna'), (proj2 (contains_spec a attestors) Hta). simpl.
    apply IH. exists signers'. split_and!; [done..|]. rewrite Forall_forall in *. set_solver.
Qed.

Lemma verify_attestation_Ok cs data sigs t :
  verify_attestation cs data sigs t = Ok () <-> exists signers, quorum cs data t sigs signers.
Proof.
  unfold verify_attestation. rewrite result_bind_ok. split.
  - intros ([] & Hne%require_r_ok & Hr). apply result_bind_ok in Hr as ([] & Hth%require_r_ok & Hr).
    apply verify_signatures_Ok in Hr as (signers & Hf & Hnd & Ht & _). exists signers.
    pose proof (Forall2_length _ _ _ Hf) as Hlen. apply Z.leb_le in Hth.
    apply negb_true_iff, bool_decide_eq_false in Hne.
    constructor; [done..|lia|]. intros ->. apply Hne. by inversion Hf.
  - intros (signers & [Hf Hnd Ht Hth Hne]). pose proof (Forall2_length _ _ _ Hf) as Hlen.
    exists (). rewrite require_r_ok, negb_true_iff, bool_decide_eq_false. split.
    { intros ->. apply Hne. by inversion Hf. }
    apply result_bind_ok. exists (). rewrite require_r_ok, Z.leb_le. split; [lia|].
    apply verify_signatures_Ok. exists signers. split_and!; [done..|].
    apply Forall_forall. intros x _. apply not_elem_of_nil.
Qed.

(** Every member of a quorum signed. *)
Lemma quorum_signed cs data t sigs signers a :
  quorum cs data t sigs signers -> a ∈ signers -> exists sig, sig ∈ sigs /\ signed data t sig a.
Proof.
  intros [Hf _ _ _ _] Hin. apply list_elem_of_lookup in Hin as [i Hi].
  destruct (Forall2_lookup_r _ _ _ _ _ Hf Hi) as (sig & Hs & Hsig). exists sig.
  split; [by eapply list_elem_of_lookup_2|done].
Qed.

End Quorum.

(** Two duplicate-free sublists of a list, longer together than the list,
    share an element. *)
Lemma sublists_intersect {A} `{EqDecision A} (l1 l2 l : list A) :
  NoDup l1 -> NoDup l2 -> Forall (fun x => x ∈ l) l1 -> Forall (fun x => x ∈ l) l2 ->
  (length l < length l1 + length l2)%nat -> exists x, x ∈ l1 /\ x ∈ l2.
Proof.
  intros Hn1 Hn2 H1 H2 Hlen.
  destruct (decide (Exists (fun x => x ∈ l2) l1)) as [E|E].
  { apply Exists_exists in E. naive_solver. }
  exfalso. assert (NoDup (l1 ++ l2)) as Hnd.
  { apply NoDup_app. split_and!; [done| |done]. intros x Hx Hx2. apply E, Exists_exists. by exists x. }
  assert (l1 ++ l2 ⊆ l) as Hsub.
  { intros x [Hx|Hx]%elem_of_app; rewrite Forall_forall in *; auto. }
  apply NoDup_submseteq in Hsub; [|done]. apply submseteq_length in Hsub.
  rewrite length_app in Hsub. lia.
Qed.

Section QuorumTheorems.
Context `{Platform} `{AttestationLib}.

(** C15: [verify_attestation] accepts exactly the quorums: it succeeds if and
    only if the signatures recover, in order, to pairwise distinct addresses
    of the trusted set, at least [min_required_sigs] and at least one of
    them, each over the hash of the data tagged with the attestation's
    type. *)
Theorem verify_attestation_iff_quorum cs data sigs t :
  verify_attestation cs data sigs t = Ok () <->
  exists signers, Forall2 (fun sig a => recover_eth_address (tagged_signing_input data t) sig = Ok a)
      sigs signers /\ NoDup signers /\ Forall (fun a => a ∈ acs_attestor_addresses cs) signers /\
    acs_min_required_sigs cs <= Z.of_nat (length signers) /\ signers <> [].
Proof.
  rewrite verify_attestation_Ok. split.
  - intros (signers & [? ? ? ? ?]). exists signers. split_and!; done.
  - intros (signers & ? & ? & ? & ? & ?). exists signers. by constructor.
Qed.

Lemma quorums_intersect cs d1 t1 s1 d2 t2 s2 :
  Z.of_nat (length (acs_attestor_addresses cs)) < 2 * acs_min_required_sigs cs ->
  verify_attestation cs d1 s1 t1 = Ok () -> verify_attestation cs d2 s2 t2 = Ok () ->
  exists a sig1 sig2, a ∈ acs_attestor_addresses cs /\ sig1 ∈ s1 /\ signed d1 t1 sig1 a /\
    sig2 ∈ s2 /\ signed d2 t2 sig2 a.
Proof.
  intros Hmaj (g1 & Q1)%verify_attestation_Ok (g2 & Q2)%verify_attestation_Ok.
  destruct (sublists_intersect g1 g2 (acs_attestor_addresses cs)) as (a & H1 & H2);
    [apply Q1|apply Q2|apply Q1|apply Q2| |].
  { pose proof (q_threshold _ _ _ _ _ Q1). pose proof (q_threshold _ _ _ _ _ Q2). lia. }
  destruct (quorum_signed _ _ _ _ _ a Q1 H1) as (sig1 & ? & ?).
  destruct (quorum_signed _ _ _ _ _ a Q2 H2) as (sig2 & ? & ?).
  exists a, sig1, sig2. split_and!; try done.
  pose proof (q_trusted _ _ _ _ _ Q1) as Ht. rewrite Forall_forall in Ht. by apply Ht.
Qed.

Lemma attested_packet_Ok cs st h proof path p :
  attested_packet cs st h proof path = Ok p ->
  css_height st = h /\ acs_is_frozen cs = false /\ css_timestamp st <> 0 /\
  exists mp att, borsh_decode_membership_proof proof = Some mp /\
    abi_decode_packet (mpf_attestation_data mp) = Some att /\ pat_height att = h /\
    verify_attestation cs (mpf_attestation_data mp) (mpf_signatures mp) AttPacket = Ok () /\
    List.find (fun p => bool_decide (pc_path p = keccak256 path)) (pat_packets att) = Some p.
Proof.
  unfold attested_packet, deserialize_membership_proof. intros Hr.
  repeat (apply result_bind_ok in Hr as (? & ? & Hr)).
  repeat match goal with
  | E : require_r _ _ = Ok _ |- _ => apply require_r_ok in E
  | E : ok_or _ _ = Ok _ |- _ => apply ok_or_ok in E
  | E : Z.eqb _ _ = true |- _ => apply Z.eqb_eq in E
  | E : negb _ = true |- _ => apply negb_true_iff in E
  | E : Z.eqb _ _ = false |- _ => apply Z.eqb_neq in E
  | E : (if ?b then _ else _) = Ok _ |- _ => destruct b; [discriminate E|]
  | u : unit |- _ => destruct u
  end.
  split_and!; [done..|]. eexists _, _. split_and!; [eassumption|eassumption|congruence|done|done].
Qed.

(** Contradicting packet attestations expose an attestor.  When the
    threshold is a majority of the trusted set and, under one client state and
    at one height, one proof shows a commitment at a path and another shows
    none there, some trusted attestor signed two different packet attestations
    for that height, whose entries at the path differ. *)
Theorem conflicting_attestations_expose_attestor cs st h path pf1 pf2 p1 p2
    (Hmaj : Z.of_nat (length (acs_attestor_addresses cs)) < 2 * acs_min_required_sigs cs)
    (H1 : attested_packet cs st h pf1 path = Ok p1)
    (H2 : attested_packet cs st h pf2 path = Ok p2)
    (Hc1 : pc_commitment p1 <> ZERO_COMMITMENT) (Hc2 : pc_commitment p2 = ZERO_COMMITMENT) :
  exists a d1 d2 att1 att2 sig1 sig2, a ∈ acs_attestor_addresses cs /\ d1 <> d2 /\
    recover_eth_address (tagged_signing_input d1 AttPacket) sig1 = Ok a /\
    recover_eth_address (tagged_signing_input d2 AttPacket) sig2 = Ok a /\
    abi_decode_packet d1 = Some att1 /\ abi_decode_packet d2 = Some att2 /\
    pat_height att1 = h /\ pat_height att2 = h /\
    List.find (fun p => bool_decide (pc_path p = keccak256 path)) (pat_packets att1) = Some p1 /\
    List.find (fun p => bool_decide (pc_path p = keccak256 path)) (pat_packets att2) = Some p2.
Proof.
  apply attested_packet_Ok in H1 as (_ & _ & _ & m1 & att1 & _ & D1 & E1 & V1 & F1).
  apply attested_packet_Ok in H2 as (_ & _ & _ & m2 & att2 & _ & D2 & E2 & V2 & F2).
  destruct (quorums_intersect cs _ _ _ _ _ _ Hmaj V1 V2) as (a & sig1 & sig2 & Ha & _ & S1 & _ & S2).
  exists a, (mpf_attestation_data m1), (mpf_attestation_data m2), att1, att2, sig1, sig2.
  split_and!; try done. intros E. rewrite E, D2 in D1. injection D1 as ->.
  rewrite F2 in F1. injection F1 as ->. done.
Qed.

(** Domain separation.  Signing inputs of different data or of
    different attestation types are equal only at a SHA-256 collision, either
    of the two data or of the two tagged digests: a signature on a consensus
    state is never a signature on packets. *)
Theorem signing_inputs_separated d1 t1 d2 t2 :
  tagged_signing_input d1 t1 = tagged_signing_input d2 t2 ->
  (d1 = d2 /\ t1 = t2) \/ collides sha256 [d1] [d2] \/
  collides sha256 [AttestationType_tag t1 :: sha256 d1] [AttestationType_tag t2 :: sha256 d2].
Proof.
  unfold tagged_signing_input. intros E.
  destruct (inj_or_collides sha256 [AttestationType_tag t1 :: sha256 d1]
    [AttestationType_tag t2 :: sha256 d2]) as [|Ho]; [by right; right|].
  destruct (inj_or_collides sha256 [d1] [d2]) as [|Hi]; [by right; left|left].
  apply Ho in E; [|apply list_elem_of_here..]. injection E as Et Ed. split.
  - by apply Hi; [apply list_elem_of_here..|].
  - by destruct t1, t2.
Qed.

End QuorumTheorems.
