(* ===== verification/AttestationProps.v ===== *)
(** * The attestation light client: its instructions

    The accounts of [programs/attestation] as named keys, its instructions as
    transitions ([a_trans]), the refinement of the instructions
    ([exec_att_refines]), and what the two proof instructions and the status
    query accept, as equivalences. *)

From S2P Require Import Prelude Errors Types Runtime Toy Ics24 Cpi AccessManager AccessManagerSpec Keyed.
From S2P Require Import Attestation AttestationSpec.
From Stdlib Require Import ZArith Lia.
From Stdlib.Strings Require Import Byte.
From stdpp Require Import prelude strings gmap list.

#[local] Open Scope Z_scope.

(** ** The program's accounts *)

Inductive AttKey :=
| AKClient
| AKApp
| AKCons (height : Z).

#[export] Instance AttKey_eq_dec : EqDecision AttKey.
Proof. solve_decision. Defined.

Definition ak_seeds (K : AttKey) : list bytes :=
  match K with
  | AKClient => [AttClientState_SEED]
  | AKApp => [AttAppState_SEED]
  | AKCons h => consensus_seeds h
  end.

Definition ak_typed (K : AttKey) : Prop :=
  match K with AKCons h => is_u64 h | _ => True end.

Definition ak `{Platform} (K : AttKey) : Pubkey := pda_key (ak_seeds K) ATTESTATION_ID.

Section AttKeys.
Context `{Platform} `{!PlatformOk}.

Lemma ak_inj K K' : ak_typed K -> ak_typed K' -> ak K = ak K' -> K = K'.
Proof.
  intros HK HK' [E _]%pda_inj. destruct K as [| |h], K' as [| |h']; try done;
    try (simpl in E; discriminate E).
  change (ConsensusStateStore_SEED ++ u64_to_le_bytes h ++ [] =
          ConsensusStateStore_SEED ++ u64_to_le_bytes h' ++ []) in E.
  rewrite !app_nil_r in E. apply app_inv_head in E. f_equal. by apply u64_to_le_bytes_inj.
Qed.

#[export] Instance ak_ok : KeysOk ATTESTATION_ID ak ak_typed.
Proof. split; [intros K; apply pda_key_is_pda|apply ak_inj]. Qed.

Lemma ak_not_am K program : ak K <> pda_key [AccessManager_SEED] program.
Proof. intros [E _]%pda_inj. destruct K; simpl in E; discriminate E. Qed.

End AttKeys.

Notation att_stored w K d := (held ATTESTATION_ID w (ak K) d).
Notation att_evol := (evol_at ATTESTATION_ID ak ak_typed).

(** ** Transitions *)

Section AttTransitions.
Context `{Platform} `{AttestationLib}.

(** A submitter of the program's access manager, and a quorum of the client
    for the state [(h, ts)]. *)
Definition submission (cx : CallCtx) (w : World) (cs : AttClientState) (h ts : Z)
    (data : bytes) (sigs : list bytes) : Prop :=
  (exists app s, att_stored w AKApp (DAttAppState app) /\
     holder_of ATTESTATION_ID cx w (ams_access_manager (aas_am_state app)) RELAYER_ROLE s) /\
  att_stored w AKClient (DAttClientState cs) /\ acs_is_frozen cs = false /\
  abi_decode_state data = Some (mkStateAttestation h ts) /\
  verify_attestation cs data sigs AttState = Ok () /\ 0 < h /\ 0 < ts.

Inductive a_trans (cx : CallCtx) (w : World)
    : list (AttKey * AccountData) -> list LogEntry -> Prop :=
| A_initialize s addrs n am :
    w_accts w !! ak AKClient = None -> w_accts w !! ak AKApp = None -> s ∈ cx_signers cx ->
    upgrade_authority_of w ATTESTATION_ID s -> am <> Pubkey_default ->
    NoDup addrs -> 0 < n <= Z.of_nat (length addrs) ->
    a_trans cx w
      [(AKClient, DAttClientState (mkAttClientState V1 (sort_bytes addrs) n 0 false));
       (AKApp, DAttAppState (mkAttAppState V1 (AccessManagerState_new am)))] []
| A_new cs h ts data sigs :
    submission cx w cs h ts data sigs ->
    (w_accts w !! ak (AKCons h) = None \/
     exists st, att_stored w (AKCons h) (DConsensusStateStore st) /\ css_timestamp st = 0) ->
    a_trans cx w [(AKClient, DAttClientState (at_height cs h));
                  (AKCons h, DConsensusStateStore (mkConsensusStateStore h ts))] []
| A_known cs h ts data sigs st :
    submission cx w cs h ts data sigs ->
    att_stored w (AKCons h) (DConsensusStateStore st) -> css_timestamp st = ts ->
    a_trans cx w [(AKClient, DAttClientState cs); (AKCons h, DConsensusStateStore st)] []
| A_conflict cs h ts data sigs st :
    submission cx w cs h ts data sigs ->
    att_stored w (AKCons h) (DConsensusStateStore st) -> css_timestamp st <> 0 ->
    css_timestamp st <> ts ->
    a_trans cx w [(AKClient, DAttClientState (frozen cs)); (AKCons h, DConsensusStateStore st)]
      [LEvent ATTESTATION_ID (MisbehaviourDetected h (css_timestamp st) ts)]
| A_propose app s n :
    att_stored w AKApp (DAttAppState app) ->
    admin_at ATTESTATION_ID cx w (ams_access_manager (aas_am_state app)) s ->
    ams_pending_access_manager (aas_am_state app) = None ->
    a_trans cx w [(AKApp, DAttAppState (with_att_am_state app
        (mkAccessManagerState (ams_access_manager (aas_am_state app)) (Some n))))]
      [LEvent ATTESTATION_ID (AccessManagerTransferProposed (ams_access_manager (aas_am_state app)) n)]
| A_accept app s n :
    att_stored w AKApp (DAttAppState app) ->
    ams_pending_access_manager (aas_am_state app) = Some n -> admin_at ATTESTATION_ID cx w n s ->
    a_trans cx w [(AKApp, DAttAppState (with_att_am_state app (mkAccessManagerState n None)))]
      [LEvent ATTESTATION_ID (AccessManagerTransferAccepted (ams_access_manager (aas_am_state app)) n)]
| A_cancel app s n :
    att_stored w AKApp (DAttAppState app) ->
    ams_pending_access_manager (aas_am_state app) = Some n ->
    admin_at ATTESTATION_ID cx w (ams_access_manager (aas_am_state app)) s ->
    a_trans cx w [(AKApp, DAttAppState (with_att_am_state app
        (mkAccessManagerState (ams_access_manager (aas_am_state app)) None)))]
      [LEvent ATTESTATION_ID (AccessManagerTransferCancelled (ams_access_manager (aas_am_state app)) n)]
| A_read : a_trans cx w [] [].

Definition att_ix_typed (ix : AttIx) : Prop :=
  match ix with AtUpdateClient _ h _ => is_u64 h | _ => True end.

End AttTransitions.

(** ** Refinement *)

Section AttRefinement.
Context `{Platform} `{!PlatformOk} `{AttestationLib}.

Notation a_refines cx w w' := (steps_by ATTESTATION_ID ak ak_typed (a_trans cx) w w').

(** Turns a loaded account whose address was checked into [att_stored]. *)
Ltac att_to_stored :=
  repeat match goal with
  | Hl : w_accts ?w !! ?k = Some ?a, Ho : acc_owner ?a = ATTESTATION_ID,
    Hd : as_AttClientState (acc_data ?a) = Some ?x,
    Hk : ?k = pda_key [AttClientState_SEED] ATTESTATION_ID |- _ =>
      assert (att_stored w AKClient (DAttClientState x)) by
        exact (held_intro w k a _ _ x AKClient as_AttClientState_Some Hl Ho Hd Hk);
      clear Hl Ho Hd
  | Hl : w_accts ?w !! ?k = Some ?a, Ho : acc_owner ?a = ATTESTATION_ID,
    Hd : as_AttAppState (acc_data ?a) = Some ?x,
    Hk : ?k = pda_key [AttAppState_SEED] ATTESTATION_ID |- _ =>
      assert (att_stored w AKApp (DAttAppState x)) by
        exact (held_intro w k a _ _ x AKApp as_AttAppState_Some Hl Ho Hd Hk);
      clear Hl Ho Hd
  | Hl : w_accts ?w !! ?k = Some ?a, Ho : acc_owner ?a = ATTESTATION_ID,
    Hd : as_ConsensusStateStore (acc_data ?a) = Some ?x,
    Hk : ?k = pda_key (consensus_seeds ?h) ATTESTATION_ID |- _ =>
      assert (att_stored w (AKCons h) (DConsensusStateStore x)) by
        exact (held_intro w k a _ _ x (AKCons h) as_ConsensusStateStore_Some Hl Ho Hd Hk);
      clear Hl Ho Hd
  end.

(** Inverts the admin check and reduces to the transition, for the three
    instructions that store the application's state. *)
Ltac att_finish_app :=
  match goal with
  | Hq : require_admin _ ?k _ _ _ _ = Ok _, Hk : ?k = pda_key [AccessManager_SEED] _ |- _ =>
      eapply admin_at_intro in Hq as [? Hq]; [subst|done|exact Hk]
  end;
  match goal with
  | Hs : store_account ATTESTATION_ID ?k _ _ = Ok _, Hk : ?k = pda_key _ ATTESTATION_ID |- _ =>
      rewrite Hk in Hs; change (pda_key _ ATTESTATION_ID) with (ak AKApp) in Hs;
      eapply (steps_store1 _ _ _ _ AKApp _ []); [done| |apply evol_log_entry|set_solver|exact Hs]
  end.

Lemma att_propose_refines cx acc n w u w' :
  running cx ATTESTATION_ID -> att_propose_access_manager_transfer cx acc n w = Ok (u, w') ->
  a_refines cx w w'.
Proof.
  intros Hrun Hr. unfold att_propose_access_manager_transfer, propose_transfer in Hr. minv.
  att_to_stored. att_finish_app. by eapply A_propose.
Qed.

Lemma att_accept_refines cx acc w u w' :
  running cx ATTESTATION_ID -> att_accept_access_manager_transfer cx acc w = Ok (u, w') ->
  a_refines cx w w'.
Proof.
  intros Hrun Hr. unfold att_accept_access_manager_transfer, accept_transfer in Hr. minv.
  repeat match goal with E : ok_or _ _ = Ok _ |- _ => apply ok_or_ok in E end. simplify_eq.
  att_to_stored. att_finish_app. by eapply A_accept.
Qed.

Lemma att_cancel_refines cx acc w u w' :
  running cx ATTESTATION_ID -> att_cancel_access_manager_transfer cx acc w = Ok (u, w') ->
  a_refines cx w w'.
Proof.
  intros Hrun Hr. unfold att_cancel_access_manager_transfer, cancel_transfer in Hr. minv.
  repeat match goal with E : ok_or _ _ = Ok _ |- _ => apply ok_or_ok in E end.
  att_to_stored. att_finish_app. by eapply A_cancel.
Qed.

Lemma att_initialize_refines cx acc addrs n am w u w' :
  att_initialize cx acc addrs n am w = Ok (u, w') -> a_refines cx w w'.
Proof.
  intros Hr. unfold att_initialize in Hr. minv.
  assert (ai_client_state acc = ak AKClient) as Hk1 by done. rewrite Hk1 in *.
  assert (ai_app_state acc = ak AKApp) as Hk2 by done. rewrite Hk2 in *.
  repeat match goal with Hi : init_account _ _ (ak ?K) _ _ _ = Ok _ |- _ =>
    let Hev := fresh "Hev" in let Hn := fresh "Hnone" in let Hs := fresh "Hsame" in
    apply (evol_init _ K) in Hi as (Hev & Hn & _ & _ & _ & _ & Hs); [|done] end.
  repeat match goal with
  | E : (length _ =? length _)%nat = true |- _ => apply Nat.eqb_eq, sort_dedup_length in E
  | E : bool_decide _ = false |- _ => apply bool_decide_eq_false in E
  | E : (_ <? _) = true |- _ => apply Z.ltb_lt in E
  | E : (_ <=? _) = true |- _ => apply Z.leb_le in E
  end.
  rewrite dedup_sort_NoDup in * by done.
  eapply (steps_store2 _ _ _ _ _ AKClient _ AKApp); [done|done|done| | |eassumption|exact Hr];
    [|exact (evol_trans _ _ _ _ _ _ _ Hev0 Hev)].
  eapply A_initialize; try done; [rewrite <- Hsame0; [done|]|].
  - intros E%ak_inj; done.
  - match goal with D : as_ProgramData _ = Some _ |- _ => apply as_ProgramData_Some in D end.
    subst. exists acc0. split; [|done].
    match goal with E : ai_program_data acc = _ |- _ => by rewrite <- E end.
Qed.

Lemma update_body_Ok cx acc h pf cs st w cs' st' w' :
  update_client_body cx acc h pf cs st w = Ok ((cs', st'), w') ->
  running cx ATTESTATION_ID ->
  exists ts data sigs,
    require_role cx (uc_access_manager acc) RELAYER_ROLE (uc_submitter acc)
      (uc_instructions_sysvar acc) ATTESTATION_ID w = Ok ((), w) /\
    acs_is_frozen cs = false /\ abi_decode_state data = Some (mkStateAttestation h ts) /\
    verify_attestation cs data sigs AttState = Ok () /\ 0 < h /\ 0 < ts /\
    ((css_timestamp st = 0 /\ cs' = at_height cs h /\ st' = mkConsensusStateStore h ts /\ w' = w) \/
     (css_timestamp st = ts /\ cs' = cs /\ st' = st /\ w' = w) \/
     (css_timestamp st <> 0 /\ css_timestamp st <> ts /\ cs' = frozen cs /\ st' = st /\
      w' = add_log w (LEvent ATTESTATION_ID (MisbehaviourDetected h (css_timestamp st) ts)))).
Proof.
  intros Hr Hrun. unfold update_client_body in Hr. minv.
  match goal with Hq : require_role _ _ _ _ _ _ _ = Ok _ |- _ =>
    pose proof Hq as Hrole; apply require_role_Ok in Hq as (-> & _); [|done] end.
  match goal with E : ok_or (abi_decode_state _) _ = Ok ?a |- _ =>
    apply ok_or_ok in E; destruct a as [h' ts]; simpl in * end.
  repeat match goal with
  | E : (_ <? _) = true |- _ => apply Z.ltb_lt in E
  | E : (_ =? _) = true |- _ => apply Z.eqb_eq in E
  end.
  subst. eexists ts, _, _. split_and!; [done|done|eassumption|eassumption|done|done|].
  destruct (Z.eqb_spec (css_timestamp st) 0) as [E0|E0]; cbn [negb] in Hr; minv.
  - left. match goal with E : (_, _) = _ |- _ => injection E as -> -> end. done.
  - right. destruct (Z.eqb_spec (css_timestamp st) ts) as [E1|E1]; cbn [negb] in Hr; minv;
      match goal with E : (_, _) = _ |- _ => injection E as -> -> end; [by left|by right].
Qed.

Lemma update_client_refines cx acc h pf w u w' :
  running cx ATTESTATION_ID -> is_u64 h -> update_client cx acc h pf w = Ok (u, w') ->
  a_refines cx w w'.
Proof.
  intros Hrun Hh Hr. unfold update_client in Hr. minv.
  assert (uc_consensus_state_store acc = ak (AKCons h)) as Hkc by done. rewrite Hkc in *.
  assert (uc_client_state acc = ak AKClient) as Hkl by done. att_to_stored. rewrite Hkl in *.
  match goal with Hi : init_if_needed _ _ _ _ _ _ _ _ = Ok _ |- _ =>
    eapply (evol_init_if_needed _ _ _ _ (AKCons h) _ _ _ _ _ as_ConsensusStateStore_Some) in Hi
      as (Hev & _ & _ & Hsame & _ & Hcons); [|done] end.
  match goal with Hb : update_client_body _ _ _ _ _ _ _ = Ok (?p, _) |- _ =>
    destruct p as [cs' st']; apply update_body_Ok in Hb as (ts & data & sigs & Hrole & Hfr & Hdec &
      Hver & Hh0 & Hts & Hcase); [|done] end.
  simpl in *. eapply holder_at_intro in Hrole as [_ Hrole]; [|done|eassumption].
  apply (holder_at_same _ _ w _ _ _ _ (ak (AKCons h)) (ak_not_am _ _) Hsame) in Hrole.
  match goal with Hc : att_stored w AKClient (DAttClientState ?cs) |- _ =>
    assert (submission cx w cs h ts data sigs) as Hsub by (split_and!; eauto) end.
  apply (evol_weaken _ [AKClient; AKCons h]) in Hev; [|set_solver].
  destruct Hcase as [(Hz & -> & -> & ->)|[(Hz & -> & -> & ->)|(Hz & Hne & -> & -> & ->)]];
    (eapply (steps_store2 _ _ _ _ _ AKClient _ (AKCons h));
      [done|done|done| | |eassumption|exact Hr]).
  - eapply A_new; [exact Hsub|]. destruct Hcons as [[? _]|?]; eauto.
  - exact Hev.
  - eapply A_known; [exact Hsub| |done]. destruct Hcons as [[_ ->]|?]; [simpl in Hz; lia|done].
  - exact Hev.
  - eapply A_conflict; [exact Hsub| |done|done].
    destruct Hcons as [[_ ->]|?]; [by simpl in Hz|done].
  - exact (evol_trans _ _ _ _ _ _ _ Hev (evol_log_entry _ _)).
Qed.

(** ** Proofs *)

(** The client accepts the packet [p] at the path, in a proof for height
    [h]. *)
Definition attests (cs : AttClientState) (h : Z) (proof path : bytes) (p : PacketCompact) : Prop :=
  exists mp att, Z.of_nat (length proof) <= MAX_PROOF_SIZE /\
    borsh_decode_membership_proof proof = Some mp /\
    abi_decode_packet (mpf_attestation_data mp) = Some att /\ pat_height att = h /\
    verify_attestation cs (mpf_attestation_data mp) (mpf_signatures mp) AttPacket = Ok () /\
    List.find (fun p => bool_decide (pc_path p = keccak256 path)) (pat_packets att) = Some p.

(** The client and the consensus state for height [h], ready for proofs. *)
Definition ready (w : World) (h : Z) (cs : AttClientState) (st : ConsensusStateStore) : Prop :=
  att_stored w AKClient (DAttClientState cs) /\ att_stored w (AKCons h) (DConsensusStateStore st) /\
  acs_is_frozen cs = false /\ css_timestamp st <> 0.

Lemma consensus_seeds_ok h : seeds_ok (consensus_seeds h) = true.
Proof.
  unfold seeds_ok, consensus_seeds. apply andb_true_iff. split; [|done].
  apply bool_decide_eq_true. rewrite !Forall_cons, length_u64_to_le_bytes.
  split_and!; [simpl; lia|lia|constructor].
Qed.

Lemma verify_accounts_Ok acc h w cs st w' :
  verify_accounts acc h w = Ok ((cs, st), w') <->
  w' = w /\ va_client_state acc = ak AKClient /\ va_consensus_state_at_height acc = ak (AKCons h) /\
  ready w h cs st.
Proof.
  unfold verify_accounts, ready. split.
  - intros Hr. minv. match goal with E : (_, _) = _ |- _ => injection E as -> -> end.
    att_to_stored. match goal with E : (_ =? _) = false |- _ => apply Z.eqb_neq in E end. done.
  - intros (-> & Hk1 & Hk2 & (a1 & Ha1 & Ho1 & Hd1) & (a2 & Ha2 & Ho2 & Hd2) & Hf & Hts).
    rewrite <- Hk1 in Ha1. rewrite <- Hk2 in Ha2.
    mrun; [exists a1; rewrite as_AttClientState_Some; eauto|].
    mrun; [exists a2; rewrite as_ConsensusStateStore_Some; eauto|].
    mrun; [by vm_compute|done|]. mrun; [by rewrite Hf|]. mrun; [apply consensus_seeds_ok|done|].
    mrun; [|by apply ret_Ok]. apply negb_true_iff. by apply Z.eqb_neq.
Qed.

Lemma attested_packet_spec cs st h proof path p :
  attested_packet cs st h proof path = Ok p <->
  css_height st = h /\ acs_is_frozen cs = false /\ css_timestamp st <> 0 /\ attests cs h proof path p.
Proof.
  split.
  - intros Hr. pose proof (attested_packet_Ok _ _ _ _ _ _ Hr) as (? & ? & ? & mp & att & ? & ? & ? & ? & ?).
    split_and!; [done..|]. exists mp, att. split_and!; try done.
    unfold attested_packet, deserialize_membership_proof in Hr.
    destruct (Z.ltb_spec MAX_PROOF_SIZE (Z.of_nat (length proof))); [|done].
    repeat (apply result_bind_ok in Hr as (? & ? & Hr)). discriminate.
  - intros (Hh & Hf & Hts & mp & att & Hlen & Hmp & Hatt & Hah & Hver & Hfind).
    unfold attested_packet, deserialize_membership_proof.
    rewrite Hh, Z.eqb_refl, Hf, (proj2 (Z.eqb_neq _ _) Hts), (proj2 (Z.ltb_ge _ _) Hlen), Hmp. simpl.
    rewrite Hatt. simpl. rewrite Hah, Z.eqb_refl, Hver. simpl.
    destruct (pat_packets att) as [|q l]; [done|]. simpl in *. by rewrite Hfind.
Qed.

Lemma read_refines cx w w' :
  w' = w \/ (exists r, w' = set_return w r) -> a_refines cx w w'.
Proof.
  intros Hw. exists [], []. split_and!; [apply A_read| |by intros K d ?%not_elem_of_nil|constructor].
  destruct Hw as [->|[r ->]]; [apply evol_refl|apply evol_set_return].
Qed.

Lemma att_verify_membership_iff acc msg w u w' :
  verify_membership acc msg w = Ok (u, w') <->
  w' = w /\ va_client_state acc = ak AKClient /\
  va_consensus_state_at_height acc = ak (AKCons (mm_height msg)) /\ 0 < mm_height msg /\
  exists cs st path p, ready w (mm_height msg) cs st /\ css_height st = mm_height msg /\
    mm_path msg = [path] /\ attests cs (mm_height msg) (mm_proof msg) path p /\
    pc_commitment p = mm_value msg /\ length (mm_value msg) = 32%nat /\
    mm_value msg <> ZERO_COMMITMENT.
Proof.
  unfold verify_membership. split.
  - intros Hr. minv.
    match goal with Hv : verify_accounts _ _ _ = Ok (?s, _) |- _ =>
      destruct s as [cs st]; apply verify_accounts_Ok in Hv as (-> & ? & ? & Hready) end.
    match goal with Hp : attested_packet _ _ _ _ _ = Ok ?p |- _ =>
      apply attested_packet_spec in Hp as (? & _ & _ & Hatt) end.
    repeat match goal with
    | E : (_ =? _)%nat = true |- _ => apply Nat.eqb_eq in E
    | E : (_ <? _) = true |- _ => apply Z.ltb_lt in E
    | E : bool_decide _ = false |- _ => apply bool_decide_eq_false in E
    end.
    destruct (mm_path msg) as [|path [|]] eqn:Ep; try done. simpl in *.
    split_and!; try done. exists cs, st, path. eexists.
    split_and!; try done; congruence.
  - intros (-> & Hk1 & Hk2 & Hh & cs & st & path & p & Hready & Hsh & Hp & Hatt & Hc & Hlen & Hz).
    apply bind_Ok. exists (cs, st), w. rewrite verify_accounts_Ok. split; [done|]. cbv beta.
    mrun; [apply negb_true_iff, bool_decide_eq_false; intros E; by rewrite E in Hlen|].
    mrun; [by rewrite Hp|]. mrun; [by apply Z.ltb_lt|].
    mrun; [rewrite Hp; apply attested_packet_spec; destruct Hready as (_ & _ & ? & ?); eauto|].
    mrun; [apply negb_true_iff, bool_decide_eq_false; congruence|].
    mrun; [by apply Nat.eqb_eq|]. apply require_Ok. split; [|done]. by apply bool_decide_eq_true.
Qed.

Lemma att_verify_non_membership_iff acc msg w u w' :
  verify_non_membership acc msg w = Ok (u, w') <->
  va_client_state acc = ak AKClient /\
  va_consensus_state_at_height acc = ak (AKCons (nm_height msg)) /\ 0 < nm_height msg /\
  exists cs st path p, ready w (nm_height msg) cs st /\ css_height st = nm_height msg /\
    nm_path msg = [path] /\ attests cs (nm_height msg) (nm_proof msg) path p /\
    pc_commitment p = ZERO_COMMITMENT /\
    w' = set_return w (Some (ATTESTATION_ID, u64_to_le_bytes (css_timestamp st))).
Proof.
  unfold verify_non_membership. split.
  - intros Hr. minv.
    match goal with Hv : verify_accounts _ _ _ = Ok (?s, _) |- _ =>
      destruct s as [cs st]; apply verify_accounts_Ok in Hv as (-> & ? & ? & Hready) end.
    match goal with Hp : attested_packet _ _ _ _ _ = Ok ?p |- _ =>
      apply attested_packet_spec in Hp as (? & _ & _ & Hatt) end.
    repeat match goal with
    | E : (_ =? _)%nat = true |- _ => apply Nat.eqb_eq in E
    | E : (_ <? _) = true |- _ => apply Z.ltb_lt in E
    end.
    destruct (nm_path msg) as [|path [|]] eqn:Ep; try done. simpl in *.
    split_and!; try done. exists cs, st, path. eexists. split_and!; done.
  - intros (Hk1 & Hk2 & Hh & cs & st & path & p & Hready & Hsh & Hp & Hatt & Hc & ->).
    apply bind_Ok. exists (cs, st), w. rewrite verify_accounts_Ok. split; [done|]. cbv beta.
    mrun; [by rewrite Hp|]. mrun; [by apply Z.ltb_lt|].
    mrun; [rewrite Hp; apply attested_packet_spec; destruct Hready as (_ & _ & ? & ?); eauto|].
    mrun; [by apply bool_decide_eq_true|]. by apply set_return_data_Ok.
Qed.

Lemma att_client_status_iff acc w u w' :
  client_status acc w = Ok (u, w') <->
  exists cs st, va_client_state acc = ak AKClient /\
    va_consensus_state_at_height acc = ak (AKCons (acs_latest_height cs)) /\
    att_stored w AKClient (DAttClientState cs) /\
    att_stored w (AKCons (acs_latest_height cs)) (DConsensusStateStore st) /\
    w' = set_return w (Some (ATTESTATION_ID,
           [ClientStatus_to_u8 (if acs_is_frozen cs then Frozen else Active)])).
Proof.
  unfold client_status. split.
  - intros Hr. minv. att_to_stored. eexists _, _. split_and!; done.
  - intros (cs & st & Hk1 & Hk2 & (a1 & Ha1 & Ho1 & Hd1) & (a2 & Ha2 & Ho2 & Hd2) & ->).
    rewrite <- Hk1 in Ha1. rewrite <- Hk2 in Ha2.
    mrun; [exists a1; rewrite as_AttClientState_Some; eauto|].
    mrun; [exists a2; rewrite as_ConsensusStateStore_Some; eauto|].
    mrun; [by vm_compute|done|]. mrun; [apply consensus_seeds_ok|done|].
    by apply set_return_data_Ok.
Qed.

Lemma exec_att_refines cx ix w u w' :
  running cx ATTESTATION_ID -> att_ix_typed ix -> exec_att cx ix w = Ok (u, w') -> a_refines cx w w'.
Proof.
  intros Hrun Hty. destruct ix; simpl in *.
  - by apply att_initialize_refines.
  - by apply att_propose_refines.
  - by apply att_accept_refines.
  - by apply att_cancel_refines.
  - intros [-> _]%att_verify_membership_iff. apply read_refines. by left.
  - intros (_ & _ & _ & cs & st & path & p & _ & _ & _ & _ & _ & ->)%att_verify_non_membership_iff.
    apply read_refines. right. by eexists.
  - by apply update_client_refines.
  - intros (cs & st & _ & _ & _ & _ & ->)%att_client_status_iff. apply read_refines. right. by eexists.
Qed.

End AttRefinement.
