(* ===== verification/AttestationState.v ===== *)
(** * The attestation light client: its reachable states

    The invariants of every state the program reaches, whatever the other
    programs do in between: consensus states are attested by a quorum of the
    client's attestors and never change, the client freezes exactly when two
    quorums contradict each other and then stays frozen, and what membership
    and non-membership proofs therefore mean. *)

From S2P Require Import Prelude Errors Types Runtime Toy Ics24 Cpi AccessManager AccessManagerSpec Keyed.
From S2P Require Import Attestation AttestationSpec AttestationProps.
From Stdlib Require Import ZArith Lia.
From Stdlib.Strings Require Import Byte.
From stdpp Require Import prelude strings gmap list.

#[local] Open Scope Z_scope.

Section AttState.
Context `{Platform} `{!PlatformOk} `{AttestationLib}.

(** One successful instruction. *)
Definition att_step (w w' : World) : Prop :=
  exists cx ix, running cx ATTESTATION_ID /\ att_ix_typed ix /\ exec_att cx ix w = Ok ((), w').

Lemma att_step_steps w w' :
  att_step w w' ->
  steps_by ATTESTATION_ID ak ak_typed (fun w ch l => exists cx, a_trans cx w ch l) w w'.
Proof.
  intros (cx & ix & Hrun & Hty & Hx).
  apply exec_att_refines in Hx as (ch & l & Ht & ?); [|done..]. exists ch, l. eauto.
Qed.

(** A quorum of [cs] attested the timestamp [ts] for height [h]. *)
Definition attested (cs : AttClientState) (h ts : Z) : Prop :=
  exists data sigs, abi_decode_state data = Some (mkStateAttestation h ts) /\
    verify_attestation cs data sigs AttState = Ok ().

Definition client_wf (cs : AttClientState) : Prop :=
  NoDup (acs_attestor_addresses cs) /\
  0 < acs_min_required_sigs cs <= Z.of_nat (length (acs_attestor_addresses cs)) /\
  is_u64 (acs_latest_height cs).

(** The values of the accounts and the log, in every reachable state. *)
Record att_ok (d : AttKey -> option AccountData) (l : list LogEntry) : Prop := {
  ao_client x : d AKClient = Some x -> exists cs, x = DAttClientState cs /\ client_wf cs /\
    (acs_latest_height cs = 0 \/ is_Some (d (AKCons (acs_latest_height cs)))) /\
    (acs_is_frozen cs = true ->
     exists h t1 t2, LEvent ATTESTATION_ID (MisbehaviourDetected h t1 t2) ∈ l);
  ao_cons h x : is_u64 h -> d (AKCons h) = Some x ->
    exists cs st, x = DConsensusStateStore st /\ d AKClient = Some (DAttClientState cs) /\
      css_height st = h /\ 0 < css_timestamp st /\ 0 < h <= acs_latest_height cs /\
      attested cs h (css_timestamp st);
  ao_events h t1 t2 : LEvent ATTESTATION_ID (MisbehaviourDetected h t1 t2) ∈ l ->
    exists cs, d AKClient = Some (DAttClientState cs) /\ acs_is_frozen cs = true /\ t1 <> t2 /\
      attested cs h t1 /\ attested cs h t2 }.

Lemma misbehaviour_inj p h t1 t2 h' t1' t2' :
  LEvent p (MisbehaviourDetected h t1 t2) = LEvent p (MisbehaviourDetected h' t1' t2') ->
  h = h' /\ t1 = t1' /\ t2 = t2'.
Proof. by intros [= -> -> ->]. Qed.

Definition is_misbehaviour (e : LogEntry) : bool :=
  match e with LEvent _ (MisbehaviourDetected _ _ _) => true | _ => false end.

(** Steps that only store the application's state. *)
Lemma att_ok_app d d' l l' :
  (forall K, ak_typed K -> K <> AKApp -> d' K = d K) ->
  Forall (fun e => is_misbehaviour e = false) l' ->
  att_ok d l -> att_ok d' (l ++ l').
Proof.
  intros Hd Hl [C S E]. constructor.
  - intros x. rewrite Hd by done. intros (cs & -> & Hwf & Hlat & Hfr)%C. exists cs.
    split_and!; [done|done| |].
    + rewrite Hd; [done|apply Hwf|done].
    + intros (h & t1 & t2 & Hin)%Hfr. exists h, t1, t2. set_solver.
  - intros h x Hh. rewrite !Hd by done. by apply S.
  - intros h t1 t2 [Hin|Hin]%elem_of_app; [|by apply (proj1 (Forall_forall _ _) Hl) in Hin].
    rewrite Hd by done. by apply E.
Qed.

(** Steps that store the client and one consensus state: the client's
    attestors stay, its height grows, it may freeze on a logged conflict. *)
Lemma att_ok_update d d' l l' cs cs' h st :
  is_u64 h -> d AKClient = Some (DAttClientState cs) -> acs_is_frozen cs = false ->
  (forall K, ak_typed K -> K <> AKClient -> K <> AKCons h -> d' K = d K) ->
  d' AKClient = Some (DAttClientState cs') -> d' (AKCons h) = Some (DConsensusStateStore st) ->
  acs_attestor_addresses cs' = acs_attestor_addresses cs ->
  acs_min_required_sigs cs' = acs_min_required_sigs cs ->
  (acs_latest_height cs' = acs_latest_height cs \/ acs_latest_height cs' = h) ->
  acs_latest_height cs <= acs_latest_height cs' -> 0 < h <= acs_latest_height cs' ->
  css_height st = h -> 0 < css_timestamp st -> attested cs h (css_timestamp st) ->
  (acs_is_frozen cs' = false /\ l' = [] \/
   acs_is_frozen cs' = true /\ exists t, l' = [LEvent ATTESTATION_ID (MisbehaviourDetected h (css_timestamp st) t)] /\
     css_timestamp st <> t /\ attested cs h t) ->
  att_ok d l -> att_ok d' (l ++ l').
Proof.
  intros Hh Hc Hfr Hsame Hc' Hs' Ea Em Hl Hle Hhl Esh Ets Hatt Hlog [C S E].
  assert (forall h t, attested cs h t -> attested cs' h t) as Hmono.
  { intros h' t (data & sigs & ? & Hv). exists data, sigs. split; [done|].
    unfold verify_attestation in *. by rewrite Ea, Em. }
  destruct (C _ Hc) as (? & [= <-] & (Hnd & Hmin & Hlat) & Hlast & _).
  assert (forall h t1 t2, LEvent ATTESTATION_ID (MisbehaviourDetected h t1 t2) ∉ l) as Hno.
  { intros h' t1 t2 (cs0 & Hc0 & Hf & _)%E. rewrite Hc in Hc0. congruence. }
  constructor.
  - intros x Hx. rewrite Hc' in Hx. injection Hx as <-. exists cs'. split_and!; [done| | |].
    + unfold client_wf. rewrite Ea, Em. split; [done|]. split; [done|]. by destruct Hl as [->| ->].
    + destruct (decide (acs_latest_height cs' = h)) as [-> |Hne]; [right; by rewrite Hs'|].
      destruct Hl as [El|]; [|done]. rewrite El in *. destruct Hlast as [|Hs]; [by left|right].
      rewrite Hsame; [done|done|done|congruence].
    + intros Hf. destruct Hlog as [[? _]|(_ & t & -> & _)]; [congruence|].
      exists h, (css_timestamp st), t. set_solver.
  - intros h' x Hh' Hx. destruct (decide (h' = h)) as [-> |Hne].
    + rewrite Hs' in Hx. injection Hx as <-. exists cs', st. split_and!; try done; [lia..|auto].
    + rewrite Hsame in Hx; [|done|done|congruence].
      destruct (S _ _ Hh' Hx) as (cs0 & st0 & -> & Hc0 & ? & ? & ? & ?).
      rewrite Hc in Hc0. injection Hc0 as <-. exists cs', st0. split_and!; try done; [lia..|auto].
  - intros h' t1 t2 [Hin|Hin]%elem_of_app; [by destruct (Hno h' t1 t2)|].
    destruct Hlog as [[_ ->]|(Hf & t & -> & Hne & Ha)]; [by apply not_elem_of_nil in Hin|].
    apply list_elem_of_singleton, misbehaviour_inj in Hin as (-> & -> & ->). exists cs'. split_and!; auto.
Qed.

(** The values after a step that stores the client and a consensus state. *)
Ltac upd_step Hd Hsame :=
  try match goal with
  | |- forall K, ak_typed K -> K <> _ -> K <> _ -> _ =>
      let K := fresh in let H1 := fresh in let H2 := fresh in
      intros K ? H1 H2; apply Hsame; [done|];
      rewrite changed_tail, changed_tail; [done|exact (not_eq_sym H2)|exact (not_eq_sym H1)]
  | |- _ AKClient = Some _ => first [done|by rewrite Hd, changed_head]
  | |- _ (AKCons _) = Some _ => rewrite Hd; [rewrite changed_tail, changed_head; done|]
  end.

Lemma a_trans_ok cx w ch l d d' l0 :
  a_trans cx w ch l -> att_ok d l0 -> Forall (fun x => ak_typed x.1) ch ->
  (forall K x, att_stored w K x -> d K = Some x) ->
  (forall K, w_accts w !! ak K = None -> d K = None) ->
  (forall K, ak_typed K -> d' K = match changed ch K with Some x => Some x | None => d K end) ->
  att_ok d' (l0 ++ l).
Proof.
  intros Ht Hok Hty Hst Hno Hd. rewrite Forall_forall in Hty.
  assert (forall h x, (AKCons h, x) ∈ ch -> is_u64 h) as Hu by (intros h x Hin; apply (Hty _ Hin)).
  assert (forall K, ak_typed K -> changed ch K = None -> d' K = d K) as Hsame.
  { intros K HK E. by rewrite Hd, E. }
  assert (forall h ts data sigs cs, submission cx w cs h ts data sigs ->
    d AKClient = Some (DAttClientState cs) /\ acs_is_frozen cs = false /\ 0 < h /\ 0 < ts /\
    attested cs h ts) as Hsub.
  { intros h ts data sigs cs (_ & Hc%Hst & Hf & Hdec & Hv & Hh & Hts).
    split_and!; try done. by exists data, sigs. }
  destruct Ht as [s addrs n am Hc Ha _ _ _ Hnd Hn|cs h ts data sigs Hs Hnew|cs h ts data sigs st Hs Hold Ets
    |cs h ts data sigs st Hs Hold Hz Hne| | | |].
  5-8: apply (att_ok_app d); [|by repeat constructor|exact Hok]; intros K HK Hne; apply Hsame; [exact HK|];
    destruct K; done.
  - apply Hno in Hc. rewrite app_nil_r. constructor.
    + intros x Hx. rewrite Hd in Hx by done. injection Hx as <-. eexists. split_and!; [done| |by left|done].
      unfold client_wf. simpl. rewrite (sort_bytes_perm addrs).
      split; [done|]. split; [done|]. done.
    + intros h x Hh Hx. rewrite Hsame in Hx by done.
      destruct (ao_cons _ _ Hok _ _ Hh Hx) as (? & ? & _ & E & _). congruence.
    + intros h t1 t2 (cs & E & _)%(ao_events _ _ Hok). congruence.
  - destruct (Hsub _ _ _ _ _ Hs) as (Hc & Hf & Hh & Hts & Hatt).
    assert (is_u64 h) as Hu64 by (eapply Hu, list_elem_of_further, list_elem_of_here).
    apply (att_ok_update d d' _ _ cs (at_height cs h) h (mkConsensusStateStore h ts)); upd_step Hd Hsame;
      try done; [simpl; destruct (Z.ltb_spec (acs_latest_height cs) h); lia..|by left].
  - destruct (Hsub _ _ _ _ _ Hs) as (Hc & Hf & Hh & Hts & Hatt).
    assert (is_u64 h) as Hu64 by (eapply Hu, list_elem_of_further, list_elem_of_here).
    pose proof Hold as Hold'%Hst. apply (ao_cons _ _ Hok) in Hold' as (cs0 & ? & [= <-] & Hc0 & ? & ? & ? & ?); [|done].
    rewrite Hc in Hc0. injection Hc0 as <-.
    apply (att_ok_update d d' _ _ cs cs h st); upd_step Hd Hsame; try done; [by left|lia..|by left].
  - destruct (Hsub _ _ _ _ _ Hs) as (Hc & Hf & Hh & Hts & Hatt).
    assert (is_u64 h) as Hu64 by (eapply Hu, list_elem_of_further, list_elem_of_here).
    pose proof Hold as Hold'%Hst. apply (ao_cons _ _ Hok) in Hold' as (cs0 & ? & [= <-] & Hc0 & ? & ? & ? & ?); [|done].
    rewrite Hc in Hc0. injection Hc0 as <-.
    apply (att_ok_update d d' _ _ cs (frozen cs) h st); upd_step Hd Hsame; try done; [by left|simpl;lia..|].
    right. split; [done|]. by exists ts.
Qed.

Definition att_inv (v : AttKey -> option Account) (l : list LogEntry) : Prop :=
  (forall K a, ak_typed K -> v K = Some a -> acc_owner a = ATTESTATION_ID) /\ att_ok (data_of v) l.

Lemma att_ok_ext d d' l : (forall K, ak_typed K -> d K = d' K) -> att_ok d l -> att_ok d' l.
Proof.
  intros Hd Hok. rewrite <- (app_nil_r l). eapply att_ok_app; [|constructor|exact Hok].
  intros K HK _. symmetry. by apply Hd.
Qed.

Lemma reachable_att_inv w :
  reach_at ATTESTATION_ID ak ak_typed att_step w ->
  att_inv (view_at ak w) (own_log ATTESTATION_ID w).
Proof.
  intros Hr. refine (proj1 (reach_at_induct att_step _ att_inv att_step_steps _ _ _ w Hr)).
  - intros v v' l Hv [Ho Hok]. split.
    + intros K a HK. rewrite <- Hv by done. by apply Ho.
    + eapply att_ok_ext; [|exact Hok]. intros K HK. unfold data_of. by rewrite Hv.
  - split; [done|]. constructor; [done|done|]. intros h t1 t2 []%not_elem_of_nil.
  - intros w1 w2 ch l [Ho Hok] _ [cx Ht] Hev Hst Hty. split.
    + intros K a HK Ha.
      destruct (view_at_step _ _ _ _ K Hev Hst HK) as [(d & a' & _ & E & ? & _)|[_ E]]; [congruence|].
      rewrite E in Ha. by eapply Ho.
    + rewrite (ev_log _ _ _ _ Hev). eapply a_trans_ok; [exact Ht|exact Hok|exact Hty| | |].
      * intros K x. apply data_of_held.
      * intros K. apply data_of_None.
      * intros K HK. by eapply data_of_step.
Qed.

Lemma reachable_held w K x :
  reach_at ATTESTATION_ID ak ak_typed att_step w -> ak_typed K ->
  data_of (view_at ak w) K = Some x -> att_stored w K x.
Proof.
  intros [Ho _]%reachable_att_inv HK Hx. unfold data_of in Hx.
  destruct (view_at ak w K) as [a|] eqn:E; [|done]. injection Hx as <-. exists a. eauto.
Qed.

(** The client and a stored consensus state. *)
Lemma reachable_cons w h st :
  reach_at ATTESTATION_ID ak ak_typed att_step w -> is_u64 h ->
  att_stored w (AKCons h) (DConsensusStateStore st) ->
  exists cs, att_stored w AKClient (DAttClientState cs) /\ css_height st = h /\
    0 < css_timestamp st /\ 0 < h <= acs_latest_height cs /\ attested cs h (css_timestamp st).
Proof.
  intros Hr Hh Hst%data_of_held. destruct (proj2 (reachable_att_inv w Hr)) as [_ Hc _].
  apply Hc in Hst as (cs & ? & [= <-] & Hcl & ? & ? & ? & ?); [|done].
  exists cs. split_and!; try lia; try done. by apply reachable_held.
Qed.

(** A height that is checked against the stored one is one of the type. *)
Lemma reachable_cons_u64 w h st :
  reach_at ATTESTATION_ID ak ak_typed att_step w ->
  att_stored w (AKCons h) (DConsensusStateStore st) -> css_height st = h -> is_u64 h.
Proof.
  intros Hr Hst Eh. destruct (u64_to_le_bytes_wrap h) as (h' & Hu & E).
  assert (ak (AKCons h) = ak (AKCons h')) as Ek.
  { unfold ak, ak_seeds, consensus_seeds. by rewrite E. }
  rewrite Ek in Hst. destruct (reachable_cons w h' st Hr Hu Hst) as (_ & _ & E' & _). congruence.
Qed.

Lemma reachable_client w cs :
  reach_at ATTESTATION_ID ak ak_typed att_step w -> att_stored w AKClient (DAttClientState cs) ->
  client_wf cs /\
  (acs_latest_height cs = 0 \/
   exists st, att_stored w (AKCons (acs_latest_height cs)) (DConsensusStateStore st)) /\
  (acs_is_frozen cs = true -> exists h t1 t2,
     LEvent ATTESTATION_ID (MisbehaviourDetected h t1 t2) ∈ own_log ATTESTATION_ID w) /\
  (forall h t1 t2, LEvent ATTESTATION_ID (MisbehaviourDetected h t1 t2) ∈ own_log ATTESTATION_ID w ->
     acs_is_frozen cs = true /\ t1 <> t2 /\ attested cs h t1 /\ attested cs h t2).
Proof.
  intros Hr Hst%data_of_held. destruct (proj2 (reachable_att_inv w Hr)) as [Hcl Hc He].
  pose proof Hst as (? & [= <-] & Hwf & Hlat & Hf)%Hcl. split_and!; [done| |done|].
  - destruct Hlat as [|[x Hx]]; [by left|right]. pose proof Hwf as (_ & _ & Hu).
    pose proof Hx as (? & st & -> & _)%Hc; [|done]. exists st. by apply reachable_held.
  - intros h t1 t2 (cs' & E & ? & ? & ? & ?)%He. rewrite Hst in E. injection E as <-. done.
Qed.

(** ** What an instruction keeps *)

Definition client_after (cs cs' : AttClientState) : Prop :=
  acs_attestor_addresses cs' = acs_attestor_addresses cs /\
  acs_min_required_sigs cs' = acs_min_required_sigs cs /\
  acs_latest_height cs <= acs_latest_height cs' /\ (acs_is_frozen cs = true -> cs' = cs).

Lemma a_trans_keeps cx w ch l cs x :
  a_trans cx w ch l -> att_stored w AKClient (DAttClientState cs) -> (AKClient, x) ∈ ch ->
  exists cs', x = DAttClientState cs' /\ client_after cs cs'.
Proof.
  intros Ht Hcs Hin.
  assert (forall cs0 h ts data sigs, submission cx w cs0 h ts data sigs -> cs0 = cs /\ acs_is_frozen cs = false)
    as Hsub.
  { intros cs0 h ts data sigs (_ & Hc%data_of_held & Hf & _). apply data_of_held in Hcs.
    rewrite Hcs in Hc. by injection Hc as <-. }
  destruct Ht as [s addrs n am Hc Ha _ _ _ Hnd Hn|cs0 h ts data sigs Hs _|cs0 h ts data sigs st Hs _ _
    |cs0 h ts data sigs st Hs _ _ _| | | |].
  { destruct Hcs as (a & E & _). congruence. }
  all: repeat (apply elem_of_cons in Hin as [E|Hin]; [injection E as -> || discriminate E|]);
    try by apply not_elem_of_nil in Hin.
  all: destruct (Hsub _ _ _ _ _ Hs) as [-> Hf]; eexists; split; [done|].
  all: split_and!; simpl; try done; try congruence; try lia.
  destruct (Z.ltb_spec (acs_latest_height cs) h); lia.
Qed.

Lemma a_trans_cons_same cx w ch l h st x :
  a_trans cx w ch l -> att_stored w (AKCons h) (DConsensusStateStore st) -> 0 < css_timestamp st ->
  (AKCons h, x) ∈ ch -> x = DConsensusStateStore st.
Proof.
  intros Ht Hst Hts Hin.
  assert (forall st', att_stored w (AKCons h) (DConsensusStateStore st') -> st' = st) as Heq.
  { intros st' Hs'%data_of_held. apply data_of_held in Hst. rewrite Hst in Hs'. by injection Hs' as <-. }
  destruct Ht as [| ? ? ? ? ? _ Hnew|? ? ? ? ? ? _ Hold _|? ? ? ? ? ? _ Hold _ _| | | |].
  all: repeat (apply elem_of_cons in Hin as [E|Hin]; [injection E as <- -> || discriminate E|]);
    try by apply not_elem_of_nil in Hin.
  - destruct Hnew as [Hn|(st' & Hs' & Hz)]; [destruct Hst as (a & E & _); congruence|].
    apply Heq in Hs'. subst. lia.
  - by apply Heq in Hold as ->.
  - by apply Heq in Hold as ->.
Qed.

Lemma step_keeps w w' K x :
  reach_at ATTESTATION_ID ak ak_typed att_step w -> ak_typed K ->
  att_step w w' -> att_stored w K x ->
  (att_stored w' K x \/
   exists cx ch l y, a_trans cx w ch l /\ (K, y) ∈ ch /\ att_stored w' K y).
Proof.
  intros Hr HK (ch & l & [cx Ht] & Hev & Hst & _)%att_step_steps (a & Ha & Ho & Hd).
  destruct (view_at_step _ _ _ _ K Hev Hst HK) as [(d & a' & Hin & E & ? & ?)|[_ E]].
  - right. exists cx, ch, l, d. split_and!; [done|done|]. by exists a'.
  - left. exists a. split; [|done]. by rewrite <- Ha.
Qed.

(** ** Theorems *)

(** C30: Consensus states are attested.  In every reachable state, whatever
    ran in between, a stored consensus state for height [h] carries that
    height and a positive timestamp, [h] is at most the client's latest
    height, and a quorum of the client's attestors (pairwise distinct, trusted,
    at least [min_required_sigs] of them) signed an attestation of exactly
    this height and timestamp. *)
Theorem consensus_states_attested w h st :
  reach_at ATTESTATION_ID ak ak_typed att_step w -> is_u64 h ->
  att_stored w (AKCons h) (DConsensusStateStore st) ->
  exists cs data sigs signers, att_stored w AKClient (DAttClientState cs) /\
    css_height st = h /\ 0 < css_timestamp st /\ 0 < h <= acs_latest_height cs /\
    abi_decode_state data = Some (mkStateAttestation h (css_timestamp st)) /\
    quorum cs data AttState sigs signers.
Proof.
  intros Hr Hh Hst. destruct (reachable_cons w h st Hr Hh Hst) as (cs & ? & ? & ? & ? & data & sigs & Hd & Hv).
  apply verify_attestation_Ok in Hv as [signers Hq]. exists cs, data, sigs, signers. done.
Qed.

(** C13: The client state is well formed and frozen exactly for a reason.
    In every reachable state the attestors are distinct and the threshold is
    between one and their number, the latest height is zero or has a consensus
    state, and the client is frozen if and only if the program reported two
    quorums for one height with different timestamps; when the threshold is a
    majority, some trusted attestor signed both. *)
Theorem frozen_iff_conflicting_quorums w cs :
  reach_at ATTESTATION_ID ak ak_typed att_step w -> att_stored w AKClient (DAttClientState cs) ->
  client_wf cs /\
  (acs_latest_height cs = 0 \/
   exists st, att_stored w (AKCons (acs_latest_height cs)) (DConsensusStateStore st)) /\
  (acs_is_frozen cs = true <-> exists h t1 t2, t1 <> t2 /\ attested cs h t1 /\ attested cs h t2 /\
     LEvent ATTESTATION_ID (MisbehaviourDetected h t1 t2) ∈ own_log ATTESTATION_ID w) /\
  (acs_is_frozen cs = true ->
   Z.of_nat (length (acs_attestor_addresses cs)) < 2 * acs_min_required_sigs cs ->
   exists a h t1 t2 d1 d2 sig1 sig2, a ∈ acs_attestor_addresses cs /\ t1 <> t2 /\
     abi_decode_state d1 = Some (mkStateAttestation h t1) /\ signed d1 AttState sig1 a /\
     abi_decode_state d2 = Some (mkStateAttestation h t2) /\ signed d2 AttState sig2 a).
Proof.
  intros Hr Hcs. destruct (reachable_client w cs Hr Hcs) as (Hwf & Hlat & Hf & He).
  split; [done|]. split; [done|]. split.
  - split.
    + intros (h & t1 & t2 & Hin)%Hf. destruct (He _ _ _ Hin) as (_ & ? & ? & ?). exists h, t1, t2. done.
    + intros (h & t1 & t2 & _ & _ & _ & Hin). by destruct (He _ _ _ Hin).
  - intros (h & t1 & t2 & Hin)%Hf Hmaj.
    destruct (He _ _ _ Hin) as (_ & ? & (d1 & s1 & D1 & V1) & (d2 & s2 & D2 & V2)).
    destruct (quorums_intersect cs _ _ _ _ _ _ Hmaj V1 V2) as (a & g1 & g2 & ? & _ & ? & _ & ?).
    exists a, h, t1, t2, d1, d2, g1, g2. done.
Qed.

(** What no instruction undoes.  A successful instruction keeps every
    stored consensus state as it is, keeps the client's attestors and
    threshold, never lowers its latest height, and changes nothing of a frozen
    client. *)
Theorem consensus_states_immutable cx ix w w' :
  reach_at ATTESTATION_ID ak ak_typed att_step w -> running cx ATTESTATION_ID -> att_ix_typed ix ->
  exec_att cx ix w = Ok ((), w') ->
  (forall h st, is_u64 h -> att_stored w (AKCons h) (DConsensusStateStore st) ->
     att_stored w' (AKCons h) (DConsensusStateStore st)) /\
  (forall cs, att_stored w AKClient (DAttClientState cs) ->
     exists cs', att_stored w' AKClient (DAttClientState cs') /\ client_after cs cs').
Proof.
  intros Hr Hrun Hty Hx. assert (att_step w w') as Hs by by exists cx, ix. split.
  - intros h st Hh Hst. destruct (step_keeps w w' (AKCons h) _ Hr Hh Hs Hst) as
      [|(cx' & ch & l & y & Ht & Hin & Hy)]; [done|].
    destruct (reachable_cons w h st Hr Hh Hst) as (_ & _ & _ & Hts & _).
    by rewrite (a_trans_cons_same _ _ _ _ _ _ _ Ht Hst Hts Hin) in Hy.
  - intros cs Hcs. destruct (step_keeps w w' AKClient _ Hr I Hs Hcs) as
      [|(cx' & ch & l & y & Ht & Hin & Hy)]; [by exists cs; split; [|split_and!; [..|lia|]]|].
    destruct (a_trans_keeps _ _ _ _ _ _ Ht Hcs Hin) as (cs' & -> & ?). by exists cs'.
Qed.

(** Membership proofs.  In a reachable state, [verify_membership] for a
    height accepts exactly when the accounts are the program's client and
    consensus state for the height, the client is not frozen, and a quorum
    signed packets for the height whose first entry for the hash of the one
    path is the given value, 32 bytes and not all zeros; it changes
    nothing. *)
Theorem membership_iff_attested acc msg w w' :
  reach_at ATTESTATION_ID ak ak_typed att_step w -> is_u64 (mm_height msg) ->
  verify_membership acc msg w = Ok ((), w') <->
  w' = w /\ va_client_state acc = ak AKClient /\
  va_consensus_state_at_height acc = ak (AKCons (mm_height msg)) /\
  exists cs st path p, att_stored w AKClient (DAttClientState cs) /\ acs_is_frozen cs = false /\
    att_stored w (AKCons (mm_height msg)) (DConsensusStateStore st) /\
    mm_path msg = [path] /\ attests cs (mm_height msg) (mm_proof msg) path p /\
    pc_commitment p = mm_value msg /\ length (mm_value msg) = 32%nat /\
    mm_value msg <> ZERO_COMMITMENT.
Proof.
  intros Hr Hh. rewrite att_verify_membership_iff. split.
  - intros (-> & ? & ? & _ & cs & st & path & p & (? & ? & ? & _) & _ & ? & ? & ? & ? & ?).
    split_and!; try done. by exists cs, st, path, p.
  - intros (-> & ? & ? & cs & st & path & p & Hc & Hf & Hst & ? & ? & ? & ? & ?).
    destruct (reachable_cons w _ st Hr Hh Hst) as (cs' & _ & ? & ? & ? & _).
    split_and!; try done; [lia|]. exists cs, st, path, p. unfold ready. split_and!; try done. lia.
Qed.

(** Non-membership proofs.  In a reachable state,
    [verify_non_membership] accepts exactly when the accounts are the
    program's, the client is not frozen and a quorum signed packets for the
    height whose first entry for the path is the zero commitment; it returns
    the timestamp a quorum attested for the height and changes nothing
    else. *)
Theorem non_membership_iff_attested acc msg w w' :
  reach_at ATTESTATION_ID ak ak_typed att_step w -> is_u64 (nm_height msg) ->
  verify_non_membership acc msg w = Ok ((), w') <->
  va_client_state acc = ak AKClient /\
  va_consensus_state_at_height acc = ak (AKCons (nm_height msg)) /\
  exists cs st path p, att_stored w AKClient (DAttClientState cs) /\ acs_is_frozen cs = false /\
    att_stored w (AKCons (nm_height msg)) (DConsensusStateStore st) /\
    attested cs (nm_height msg) (css_timestamp st) /\
    nm_path msg = [path] /\ attests cs (nm_height msg) (nm_proof msg) path p /\
    pc_commitment p = ZERO_COMMITMENT /\
    w' = set_return w (Some (ATTESTATION_ID, u64_to_le_bytes (css_timestamp st))).
Proof.
  intros Hr Hh. rewrite att_verify_non_membership_iff. split.
  - intros (? & ? & _ & cs & st & path & p & (Hc & Hst & ? & _) & _ & ? & ? & ? & ?).
    destruct (reachable_cons w _ st Hr Hh Hst) as (cs' & Hc' & _ & _ & _ & Hatt).
    assert (cs' = cs) as ->.
    { apply data_of_held in Hc, Hc'. rewrite Hc in Hc'. by injection Hc' as <-. }
    split_and!; try done. by exists cs, st, path, p.
  - intros (? & ? & cs & st & path & p & Hc & Hf & Hst & _ & ? & ? & ? & ?).
    destruct (reachable_cons w _ st Hr Hh Hst) as (cs' & _ & ? & ? & ? & _).
    split_and!; try done; [lia|]. exists cs, st, path, p. unfold ready. split_and!; try done. lia.
Qed.

End AttState.

Notation att_reachable := (reach_at ATTESTATION_ID ak ak_typed att_step).
