(* ===== verification/LightClients.v ===== *)
(** * Light clients behind the router

    The promise a light client makes to the router ([LightClient]: what an
    accepted membership or non-membership call says about the counterparty
    chain), the router's theorem against that promise, and the attestation
    light client as an implementation of it.  Together: a packet the router
    delivers, acknowledges or times out through an attestation client was
    attested by a quorum. *)

From S2P Require Import Prelude Errors Types Runtime Toy Ics24 Cpi AccessManager AccessManagerSpec Keyed.
From S2P Require Import Chunking Router ChunkingSpec RouterSpec RouterProps.
From S2P Require Import Attestation AttestationSpec AttestationProps AttestationState.
From Stdlib Require Import ZArith Lia.
From Stdlib.Strings Require Import Byte.
From stdpp Require Import prelude strings gmap list.

#[local] Open Scope Z_scope.

(** In a state of the client's program ([lc_inv]), accepted calls are
    justified: [lc_committed w h path v] says that the client's evidence in
    [w] shows [v] at [path] for height [h], [lc_absent w h path ts] that it
    shows nothing there and the time [ts]. *)
Class LightClient `{Platform} (program : Pubkey) := {
  lc_inv : World -> Prop;
  lc_committed : World -> Z -> list bytes -> bytes -> Prop;
  lc_absent : World -> Z -> list bytes -> Z -> Prop;
  lc_membership_sound cx w state cons msg w2 :
    lc_inv w -> lc_answer cx w program state cons (IxVerifyMembership msg) w2 ->
    lc_committed w (mm_height msg) (mm_path msg) (mm_value msg);
  lc_non_membership_sound cx w state cons msg w2 :
    lc_inv w -> lc_answer cx w program state cons (IxVerifyNonMembership msg) w2 ->
    exists ts, is_u64 ts /\ lc_absent w (nm_height msg) (nm_path msg) ts /\
      w_return_data w2 = Some (program, u64_to_le_bytes ts) }.

Section RouterOverLightClient.
Context `{Platform} `{!PlatformOk} `{!RouterDeployed}.

(** The counterparty chain's evidence for a packet event of client [c], whose
    light client is [program]. *)
Definition justified (program : Pubkey) `{!LightClient program} (w : World) (cl : Client)
    (e : Event) : Prop :=
  let prefix := ci_merkle_prefix (cl_counterparty_info cl) in
  let peer := ci_client_id (cl_counterparty_info cl) in
  match e with
  | WriteAcknowledgementEvent c s p _ =>
      pkt_dest_client p = c /\ pkt_source_client p = peer /\ w_clock w < pkt_timeout_timestamp p /\
      exists h path, prefixed_path prefix (packet_commitment_path peer s) = Ok path /\
        lc_committed w h path (packet_commitment_bytes32 p)
  | AckPacketEvent c s p acks =>
      pkt_source_client p = c /\ pkt_dest_client p = peer /\
      exists h path v, prefixed_path prefix (packet_acknowledgement_commitment_path peer s) = Ok path /\
        packet_acknowledgement_commitment_bytes32 acks = Ok v /\ lc_committed w h path v
  | TimeoutPacketEvent c s p =>
      pkt_source_client p = c /\ pkt_dest_client p = peer /\
      exists h path ts, prefixed_path prefix (packet_receipt_commitment_path peer s) = Ok path /\
        lc_absent w h path ts /\ pkt_timeout_timestamp p <= ts
  | _ => True
  end.

(** The client of a packet event. *)
Definition event_client (e : Event) : option bytes :=
  match e with
  | WriteAcknowledgementEvent c _ _ _ | AckPacketEvent c _ _ _ | TimeoutPacketEvent c _ _ => Some c
  | _ => None
  end.

(** The events of a log. *)
Definition events (l : list LogEntry) : list Event :=
  omap (fun x => match x with LEvent _ e => Some e | _ => None end) l.

Lemma elem_of_events p e l : LEvent p e ∈ l -> e ∈ events l.
Proof. intros Hin. apply list_elem_of_omap. by exists (LEvent p e). Qed.

Lemma same_client w c cl cl' :
  active_client w c cl' -> stored w (KClient c) (DClient cl) -> cl' = cl.
Proof.
  intros [(a & Ha & _ & Hd) _] (a' & Ha' & _ & Hd'). rewrite Ha in Ha'. injection Ha' as <-. congruence.
Qed.

Ltac rewrite_peer :=
  match goal with E : pkt_dest_client ?p = ci_client_id _ |- _ => rewrite <- E end.

Lemma r_trans_justified program `{!LightClient program} cx w ch l e c cl :
  r_trans cx w ch l -> lc_inv w -> LEvent ROUTER_ID e ∈ l -> event_client e = Some c ->
  stored w (KClient c) (DClient cl) -> cl_client_program_id cl = program -> justified program w cl e.
Proof.
  intros Ht Hinv Hin%elem_of_events Hec Hcl Hprog. destruct Ht; simpl in Hin.
  all: repeat (apply elem_of_cons in Hin as [->|Hin]; [simpl in Hec; try discriminate Hec|]);
    try (by destruct (not_elem_of_nil _ Hin)).
  all: injection Hec as <-.
  all: match goal with Ha : active_client _ _ _ |- _ => pose proof (same_client _ _ _ _ Ha Hcl) as -> end.
  all: rewrite Hprog in *.
  - apply lc_membership_sound in H12; [|done]. rewrite H7 in *.
    assert (now = w_clock w) as ->.
    { unfold u64_try_from_i64 in *. destruct (Z.leb_spec 0 (w_clock w)); congruence. }
    split_and!; eauto.
  - match goal with Hl : lc_answer _ _ _ _ _ _ _ |- _ => apply lc_membership_sound in Hl; [|done] end.
    split_and!; try done. by rewrite_peer; eauto 10.
  - match goal with Hl : lc_answer _ _ _ _ _ _ _ |- _ =>
      apply lc_non_membership_sound in Hl as (ts & Hts & Habs & E); [|done] end.
    rewrite E in *. match goal with Er : Some (program, _) = Some _ |- _ => injection Er as <- end.
    rewrite take_ge in * by (autorewrite with lengths; unfold ANCHOR_DISCRIMINATOR_SIZE; lia).
    rewrite u64_le_roundtrip in * by done.
    split_and!; try done. by rewrite_peer; eauto 10.
Qed.

(** The transition behind a successful instruction, by the log it left. *)
Lemma exec_router_log cx ix w w' l :
  running cx ROUTER_ID -> ix_typed ix -> exec_router cx ix w = Ok ((), w') ->
  own_log ROUTER_ID w' = own_log ROUTER_ID w ++ l -> exists ch, r_trans cx w ch l.
Proof.
  intros Hrun Hty Hx Hl. apply exec_router_refines in Hx as (ch & l' & [_ Ht] & Hev & _); [|done..].
  rewrite (ev_log _ _ _ _ Hev) in Hl. apply app_inv_head in Hl as ->. by exists ch.
Qed.

(** The router trusts its light clients and nothing else.  In every
    successful router instruction, an event that a packet was received,
    acknowledged or timed out for a client whose light client keeps the promise
    of [LightClient] is justified by that light client's evidence: the
    commitment of the received packet under the counterparty's path, before the
    timeout; the commitment of the acknowledgement; or the absence of a receipt
    at a time not before the timeout. *)
Theorem packet_events_justified program `{!LightClient program} cx ix w w' l e c cl :
  running cx ROUTER_ID -> ix_typed ix -> exec_router cx ix w = Ok ((), w') ->
  own_log ROUTER_ID w' = own_log ROUTER_ID w ++ l -> LEvent ROUTER_ID e ∈ l ->
  event_client e = Some c -> stored w (KClient c) (DClient cl) ->
  cl_client_program_id cl = program -> lc_inv w -> justified program w cl e.
Proof.
  intros Hrun Hty Hx Hl Hin Hec Hcl Hprog Hinv.
  destruct (exec_router_log cx ix w w' l Hrun Hty Hx Hl) as [ch Ht]. by eapply r_trans_justified.
Qed.

(** The light client's accounts at the call are those of the router's state. *)
Lemma held_before program w w1 k d :
  foreign_to ROUTER_ID w w1 -> program <> ROUTER_ID -> program <> SYSTEM_PROGRAM_ID ->
  owner_of w k = program -> held program w1 k d -> held program w k d.
Proof.
  intros Hf Hn1 Hn2 Ho (a1 & Ha1 & Ho1 & Hd1). unfold owner_of in Ho.
  destruct (w_accts w !! k) as [a|] eqn:Ha; [|congruence].
  assert (w_accts w1 !! k = Some a) as E by (apply Hf; congruence).
  rewrite Ha1 in E. injection E as ->. by exists a.
Qed.

End RouterOverLightClient.

(** ** The attestation light client *)

Section AttestationClient.
Context `{Platform} `{!PlatformOk} `{AttestationLib} `{!AttestationLibOk}.

(** The instructions the router's calls decode to. *)
Definition att_ix_of (state cons : Pubkey) (ix : CpiIx) : option AttIx :=
  let acc := mkVerifyAccounts state cons in
  match ix with
  | IxVerifyMembership msg => Some (AtVerifyMembership acc msg)
  | IxVerifyNonMembership msg => Some (AtVerifyNonMembership acc msg)
  | IxClientStatus => Some (AtClientStatus acc)
  | _ => None
  end.

(** The entry point of the program, reached by a call. *)
Class AttestationDeployed : Prop :=
  att_entry cx metas ix w w' state cons :
    process_instruction cx ATTESTATION_ID metas ix w = Ok w' ->
    meta_pubkey <$> metas = [state; cons] ->
    exists aix, att_ix_of state cons ix = Some aix /\ exec_att cx aix w = Ok ((), w').

(** The evidence of an attestation client that is not frozen. *)
Definition att_evidence (w : World) (h : Z) (path : list bytes) (v : bytes) : Prop :=
  exists cs st key proof p, att_stored w AKClient (DAttClientState cs) /\ acs_is_frozen cs = false /\
    att_stored w (AKCons h) (DConsensusStateStore st) /\ attested cs h (css_timestamp st) /\
    path = [key] /\ attests cs h proof key p /\ pc_commitment p = v.

Definition att_committed (w : World) (h : Z) (path : list bytes) (v : bytes) : Prop :=
  att_evidence w h path v /\ v <> ZERO_COMMITMENT.

Definition att_absent (w : World) (h : Z) (path : list bytes) (ts : Z) : Prop :=
  att_evidence w h path ZERO_COMMITMENT /\
  exists st, att_stored w (AKCons h) (DConsensusStateStore st) /\ css_timestamp st = ts.

Lemma ready_evidence w w1 state cons h cs st key proof p path :
  reach_at ATTESTATION_ID ak ak_typed att_step w -> foreign_to ROUTER_ID w w1 ->
  owner_of w (ak AKClient) = ATTESTATION_ID -> owner_of w (ak (AKCons h)) = ATTESTATION_ID ->
  state = ak AKClient -> cons = ak (AKCons h) ->
  ready w1 h cs st -> css_height st = h -> path = [key] -> attests cs h proof key p ->
  att_evidence w h path (pc_commitment p) /\
  att_stored w (AKCons h) (DConsensusStateStore st) /\ attested cs h (css_timestamp st).
Proof.
  intros Hr Hf Ho1 Ho2 -> -> (Hc & Hst & Hfr & _) Eh -> Hatt.
  apply (held_before _ w) in Hc; [|done|by vm_compute|by vm_compute|done].
  apply (held_before _ w) in Hst; [|done|by vm_compute|by vm_compute|done].
  pose proof (reachable_cons_u64 w h st Hr Hst Eh) as Hu.
  destruct (reachable_cons w h st Hr Hu Hst) as (cs' & Hc' & _ & _ & _ & Ha).
  assert (cs' = cs) as ->.
  { apply data_of_held in Hc, Hc'. rewrite Hc in Hc'. by injection Hc' as <-. }
  split; [|done]. exists cs, st, key, proof, p. done.
Qed.

Lemma attestation_membership_sound `{!AttestationDeployed} cx w state cons msg w2 :
  reach_at ATTESTATION_ID ak ak_typed att_step w ->
  lc_answer cx w ATTESTATION_ID state cons (IxVerifyMembership msg) w2 ->
  att_committed w (mm_height msg) (mm_path msg) (mm_value msg).
Proof.
  intros Hr (Ho1 & Ho2 & _ & w1 & Hf & _ & Hp).
  eapply att_entry in Hp as (aix & [= <-] & Hx); [|done]. simpl in Hx.
  apply att_verify_membership_iff in Hx as (_ & E1 & E2 & _ & cs & st & key & p & Hready & Hh & Hpath & Hatt & Hv & _ & Hz).
  simpl in E1, E2. rewrite E1 in Ho1. rewrite E2 in Ho2. split; [|done].
  rewrite <- Hv. by eapply (ready_evidence w w1).
Qed.

Lemma attestation_non_membership_sound `{!AttestationDeployed} cx w state cons msg w2 :
  reach_at ATTESTATION_ID ak ak_typed att_step w ->
  lc_answer cx w ATTESTATION_ID state cons (IxVerifyNonMembership msg) w2 ->
  exists ts, is_u64 ts /\ att_absent w (nm_height msg) (nm_path msg) ts /\
    w_return_data w2 = Some (ATTESTATION_ID, u64_to_le_bytes ts).
Proof.
  intros Hr (Ho1 & Ho2 & _ & w1 & Hf & _ & Hp).
  eapply att_entry in Hp as (aix & [= <-] & Hx); [|done]. simpl in Hx.
  apply att_verify_non_membership_iff in Hx as (E1 & E2 & _ & cs & st & key & p & Hready & Hh & Hpath & Hatt & Hv & ->).
  simpl in E1, E2. rewrite E1 in Ho1. rewrite E2 in Ho2.
  edestruct (ready_evidence w w1) as (Hev & Hst & data & sigs & Hdec & _); [done..|].
  exists (css_timestamp st). split_and!; [|split|done].
  - by apply abi_decode_state_typed in Hdec as [_ ?].
  - by rewrite <- Hv.
  - by exists st.
Qed.

#[export] Instance attestation_light_client `{!AttestationDeployed} : LightClient ATTESTATION_ID := {|
  lc_inv := reach_at ATTESTATION_ID ak ak_typed att_step;
  lc_committed := att_committed;
  lc_absent := att_absent;
  lc_membership_sound := attestation_membership_sound;
  lc_non_membership_sound := attestation_non_membership_sound |}.

(** A quorum of the client [cs] signed packets for height [h] whose first
    entry for the hash of [key] is [v]. *)
Definition quorum_on_packet (cs : AttClientState) (h : Z) (key v : bytes) : Prop :=
  exists data att sigs signers pc, quorum cs data AttPacket sigs signers /\
    abi_decode_packet data = Some att /\ pat_height att = h /\
    List.find (fun p => bool_decide (pc_path p = keccak256 key)) (pat_packets att) = Some pc /\
    pc_commitment pc = v.

Definition quorum_on_state (cs : AttClientState) (h ts : Z) : Prop :=
  exists data sigs signers, quorum cs data AttState sigs signers /\
    abi_decode_state data = Some (mkStateAttestation h ts).

Lemma evidence_quorum w h path v :
  att_evidence w h path v ->
  exists cs st key, att_stored w AKClient (DAttClientState cs) /\ acs_is_frozen cs = false /\
    att_stored w (AKCons h) (DConsensusStateStore st) /\ quorum_on_state cs h (css_timestamp st) /\
    path = [key] /\ quorum_on_packet cs h key v.
Proof.
  intros (cs & st & key & proof & p & Hc & Hf & Hst & (data & sigs & Hd & Hv) & Hp &
    (mp & att & _ & _ & Hdec & Hh & Hver & Hfind) & Hpc).
  apply verify_attestation_Ok in Hv as [g1 Q1]. apply verify_attestation_Ok in Hver as [g2 Q2].
  exists cs, st, key. split_and!; try done; [by exists data, sigs, g1|].
  eexists _, att, _, g2, p. done.
Qed.

Context `{!RouterDeployed} `{!AttestationDeployed}.

(** C3: Delivered packets were attested.  When the router, in a
    successful instruction, reports a packet received for a client backed by
    the attestation program, the attestation client is not frozen and a quorum
    of its attestors signed the packet's commitment at the path of its source
    client and sequence, for a height whose consensus state a quorum signed
    too; the packet has not timed out. *)
Theorem delivered_packets_attested cx ix w w' l c s p acks cl :
  running cx ROUTER_ID -> ix_typed ix -> exec_router cx ix w = Ok ((), w') ->
  own_log ROUTER_ID w' = own_log ROUTER_ID w ++ l ->
  LEvent ROUTER_ID (WriteAcknowledgementEvent c s p acks) ∈ l ->
  stored w (KClient c) (DClient cl) -> cl_client_program_id cl = ATTESTATION_ID ->
  reach_at ATTESTATION_ID ak ak_typed att_step w ->
  w_clock w < pkt_timeout_timestamp p /\
  exists cs st h key, att_stored w AKClient (DAttClientState cs) /\ acs_is_frozen cs = false /\
    att_stored w (AKCons h) (DConsensusStateStore st) /\ quorum_on_state cs h (css_timestamp st) /\
    prefixed_path (ci_merkle_prefix (cl_counterparty_info cl))
      (packet_commitment_path (pkt_source_client p) s) = Ok [key] /\
    quorum_on_packet cs h key (packet_commitment_bytes32 p).
Proof.
  intros Hrun Hty Hx Hl Hin Hcl Hprog Hr.
  destruct (exec_router_log cx ix w w' l Hrun Hty Hx Hl) as [ch Ht].
  pose proof (r_trans_justified ATTESTATION_ID cx w ch l _ c cl Ht Hr Hin eq_refl Hcl Hprog)
    as (_ & Hsrc & Hto & h & path & Hpath & [Hevd _]).
  split; [done|]. destruct (evidence_quorum _ _ _ _ Hevd) as (cs & st & key & ? & ? & ? & ? & -> & ?).
  exists cs, st, h, key. rewrite Hsrc. done.
Qed.

(** C4: Timed-out packets were attested missing.  When the router reports a
    timeout of a packet for a client backed by the attestation program, the
    client is not frozen, a quorum signed the zero commitment at the path of
    the packet's receipt, and a quorum signed a timestamp for the same height
    that is not before the packet's timeout. *)
Theorem timed_out_packets_attested_missing cx ix w w' l c s p cl :
  running cx ROUTER_ID -> ix_typed ix -> exec_router cx ix w = Ok ((), w') ->
  own_log ROUTER_ID w' = own_log ROUTER_ID w ++ l ->
  LEvent ROUTER_ID (TimeoutPacketEvent c s p) ∈ l ->
  stored w (KClient c) (DClient cl) -> cl_client_program_id cl = ATTESTATION_ID ->
  reach_at ATTESTATION_ID ak ak_typed att_step w ->
  exists cs ts h key, att_stored w AKClient (DAttClientState cs) /\ acs_is_frozen cs = false /\
    pkt_timeout_timestamp p <= ts /\ quorum_on_state cs h ts /\
    prefixed_path (ci_merkle_prefix (cl_counterparty_info cl))
      (packet_receipt_commitment_path (pkt_dest_client p) s) = Ok [key] /\
    quorum_on_packet cs h key ZERO_COMMITMENT.
Proof.
  intros Hrun Hty Hx Hl Hin Hcl Hprog Hr.
  destruct (exec_router_log cx ix w w' l Hrun Hty Hx Hl) as [ch Ht].
  pose proof (r_trans_justified ATTESTATION_ID cx w ch l _ c cl Ht Hr Hin eq_refl Hcl Hprog)
    as (_ & Hdst & h & path & ts & Hpath & [Hevd (st' & Hst' & Ets)] & Hto).
  destruct (evidence_quorum _ _ _ _ Hevd) as (cs & st & key & ? & ? & Hst & ? & -> & ?).
  assert (st = st') as -> by (apply data_of_held in Hst, Hst'; rewrite Hst in Hst'; by injection Hst').
  exists cs, ts, h, key. rewrite Hdst. subst ts. done.
Qed.

End AttestationClient.
