(* ===== verification/AttestationExample.v ===== *)
(** * A run of the router over the attestation light client

    A concrete ledger on which the router is set up with a client backed by
    the attestation program, three attestors are registered with a threshold of
    two, heights are attested, a packet is received and one is timed out, and
    two quorums contradict each other.  It shows that the hypotheses of the
    theorems about the attestation client can hold. *)

From S2P Require Import Prelude Errors Types Runtime Toy Ics24 Cpi AccessManager AccessManagerSpec Keyed.
From S2P Require Import Chunking Router ChunkingSpec RouterSpec RouterProps.
From S2P Require Import Attestation AttestationSpec AttestationProps AttestationState LightClients.
From Stdlib Require Import ZArith Lia.
From Stdlib.Strings Require Import Byte.
From stdpp Require Import prelude strings gmap list.

#[local] Open Scope Z_scope.

Module AttestationExample.

(** A signature is the signer's address, padded, and the digest. *)
Definition toy_recover (h : bytes) (rid : Z) (sig : bytes) : option bytes :=
  if bool_decide (drop 32 sig = h) && Z.leb rid 1 then Some (take 32 sig) else None.

Definition toy_decode_state (data : bytes) : option StateAttestation :=
  match data with
  | [h; t] => Some (mkStateAttestation (byte_to_Z h) (1700000000 + 256 * byte_to_Z t))
  | _ => None
  end.

Definition toy_decode_packet (data : bytes) : option PacketAttestation :=
  match data with
  | h :: rest =>
      if (length rest =? 64)%nat then
        Some (mkPacketAttestation (byte_to_Z h) [mkPacketCompact (take 32 rest) (drop 32 rest)])
      else None
  | [] => None
  end.

Fixpoint split_sigs (fuel : nat) (l : bytes) : list bytes :=
  match fuel, l with
  | S fuel, _ :: _ => take 65 l :: split_sigs fuel (drop 65 l)
  | _, _ => []
  end.

Definition toy_decode_proof (proof : bytes) : option MembershipProof :=
  match proof with
  | n :: rest =>
      let n := Z.to_nat (byte_to_Z n) in
      Some (mkMembershipProof (take n rest) (split_sigs (length rest) (drop n rest)))
  | [] => None
  end.

#[local] Instance lib : AttestationLib := {|
  secp256k1_recover := toy_recover;
  abi_decode_state := toy_decode_state;
  abi_decode_packet := toy_decode_packet;
  borsh_decode_membership_proof := toy_decode_proof |}.

#[local] Instance lib_ok : AttestationLibOk.
Proof.
  intros [|h [|t [|]]] sa; try done. intros [= <-]. simpl.
  pose proof (byte_to_Z_range h). pose proof (byte_to_Z_range t). unfold is_u64, u64_max. lia.
Qed.

Definition key (n : Z) : Pubkey := pubkey_of_Z (2 ^ 248 + n).
Definition admin : Pubkey := key 1.
Definition deployer : Pubkey := key 2.
Definition relayer : Pubkey := key 3.
Definition app : Pubkey := key 7.

(** The attestation program answers the calls of the router. *)
Definition callee (cx : CallCtx) (prog : Pubkey) (metas : list AccountMeta) (ix : CpiIx) (w : World)
    : result Error World :=
  if bool_decide (prog = ATTESTATION_ID) then
    match meta_pubkey <$> metas with
    | [state; cs] =>
        match att_ix_of state cs ix with
        | Some aix => match @exec_att silent_platform lib cx aix w with Ok (_, w') => Ok w' | Err e => Err e end
        | None => Err (EProgram 0)
        end
    | _ => Err (EProgram 0)
    end
  else answering (fun p _ => if bool_decide (p = app) then Some [x01] else None) cx prog metas ix w.

#[local] Instance platform : Platform := toy_platform callee.

Lemma callee_return cx prog metas ix w w' :
  callee cx prog metas ix w = Ok w' -> w' = w \/ exists r, w' = set_return w r.
Proof.
  unfold callee. case_bool_decide as E.
  - destruct (meta_pubkey <$> metas) as [|state [|k [|]]]; try done.
    destruct (att_ix_of _ _ ix) as [aix|] eqn:Ex; [|done].
    destruct (exec_att _ _ _) as [[u w2]|] eqn:Hx; [|done]. intros [= ->].
    pose proof silent_platform_ok. destruct ix; try done; injection Ex as <-; simpl in Hx.
    + apply att_verify_membership_iff in Hx as [-> _]. by left.
    + apply att_verify_non_membership_iff in Hx as (_ & _ & _ & cs & st & path & p & _ & _ & _ & _ & _ & ->).
      right. by eexists.
    + apply att_client_status_iff in Hx as (cs & st & _ & _ & _ & _ & ->). right. by eexists.
  - unfold answering. case_bool_decide; [|done]. intros [= <-]. right. by eexists.
Qed.

#[local] Instance platform_ok : PlatformOk.
Proof.
  apply toy_platform_ok.
  - intros cx prog metas ix w w' p [->|[r ->]]%callee_return _ _; split_and!; try done;
      exists []; by rewrite app_nil_r.
  - by intros cx prog metas ix w w' [->|[r ->]]%callee_return.
Qed.

#[local] Instance att_deployed : AttestationDeployed.
Proof.
  intros cx metas ix w w' state k Hp Hm. change (callee cx ATTESTATION_ID metas ix w = Ok w') in Hp.
  unfold callee in Hp. rewrite bool_decide_eq_true_2, Hm in Hp by done.
  destruct (att_ix_of _ _ ix) as [aix|] eqn:Ex; [|done]. exists aix. split; [done|].
  destruct (@exec_att silent_platform lib cx aix w) as [[[] w2]|] eqn:Hx; [|done]. injection Hp as <-.
  destruct ix; try done; injection Ex as <-; exact Hx.
Qed.

#[local] Instance router_deployed : RouterDeployed.
Proof. intros cx metas ix w _. by vm_compute. Qed.

(** ** The ledger *)

Definition client : bytes := bs "cosmoshub".
Definition counterparty : bytes := bs "07-svm-0".
Definition port : bytes := bs "transfer".

Definition am_key (program : Pubkey) : Pubkey := pda_key [AccessManager_SEED] program.
Definition data_key (program : Pubkey) : Pubkey := pda_key [program] BPF_LOADER_UPGRADEABLE_ID.
Definition app_state : Pubkey := pda_key [IBCAppState_SEED] app.

Definition registry : AccessManager := mkAccessManager
  [mkRoleData ADMIN_ROLE [admin]; mkRoleData RELAYER_ROLE [relayer];
   mkRoleData ID_CUSTOMIZER_ROLE [admin]; mkRoleData PAUSER_ROLE [admin]] [] [].

Definition payload : Payload := mkPayload port port (bs "v1") (bs "json") (bs "hello").
Definition received : Packet := mkPacket 1 counterparty client 1700003600 [payload].
Definition sent : Packet := mkPacket 2 client counterparty 1700001000 [payload].

(** The sent packet is already committed. *)
Definition w0 : World := mkWorld
  (<[data_key ROUTER_ID := mkAccount BPF_LOADER_UPGRADEABLE_ID (DProgramData (Some deployer)) 100 false]>
  (<[data_key ATTESTATION_ID := mkAccount BPF_LOADER_UPGRADEABLE_ID (DProgramData (Some deployer)) 100 false]>
  (<[am_key ACCESS_MANAGER_ID := mkAccount ACCESS_MANAGER_ID (DAccessManager registry) 1000 false]>
  (<[rk (KCommit client 2) := mkAccount ROUTER_ID (DCommitment (packet_commitment_bytes32 sent)) 100 false]>
  (<[app := mkAccount BPF_LOADER_UPGRADEABLE_ID DZeroed 100 true]>
  (<[app_state := mkAccount app DZeroed 100 false]> ∅))))))
  (<[rk (KCommit client 2) := 1000%N]>
    (<[deployer := 1000000%N]> (<[admin := 1000000%N]> {[relayer := 1000000%N]})))
  1700000000 None [].

Definition router_cx : CallCtx := mkCallCtx [ROUTER_ID] {[admin; deployer; relayer]}
  (list_to_set [rk KState; rk (KClient client); rk (KApp port); rk (KCommit client 2);
    rk (KReceipt client 1); rk (KAck client 1); admin; deployer; relayer; app_state]).

Definition setup : list RouterIx :=
  [RInitialize (mkRInitializeAccounts (rk KState) deployer SYSTEM_PROGRAM_ID (data_key ROUTER_ID)
     deployer) ACCESS_MANAGER_ID;
   RAddClient (mkAddClientAccounts admin (rk KState) (am_key ACCESS_MANAGER_ID) (rk (KClient client))
     ATTESTATION_ID SYSTEM_PROGRAM_ID INSTRUCTIONS_SYSVAR_ID) client (mkCounterpartyInfo counterparty [[]]);
   RAddIbcApp (mkAddIbcAppAccounts (rk KState) (am_key ACCESS_MANAGER_ID) (rk (KApp port)) app admin
     admin SYSTEM_PROGRAM_ID INSTRUCTIONS_SYSVAR_ID) port].

Definition w1 : World := foldl (fun w ix => run_tx (exec_router router_cx ix) w) w0 setup.

(** ** Attestations *)

Definition attestor (n : byte) : bytes := replicate 19 x00 ++ [n].
Definition sign (data : bytes) (t : AttestationType) (n : byte) : bytes :=
  replicate 12 x00 ++ attestor n ++ tagged_signing_input data t ++ [x1b].
Definition proof_of (data : bytes) (t : AttestationType) (signers : list byte) : bytes :=
  byte_of_Z (Z.of_nat (length data)) :: data ++ flat_map (sign data t) signers.

Definition att_cx : CallCtx := mkCallCtx [ATTESTATION_ID] {[admin; deployer; relayer]}
  (list_to_set [ak AKClient; ak AKApp; ak (AKCons 10); ak (AKCons 11); deployer; relayer]).

Definition update (h : Z) (pf : bytes) : AttIx := AtUpdateClient
  (mkUpdateClientAccounts (ak AKClient) (ak (AKCons h)) (ak AKApp) (am_key ACCESS_MANAGER_ID)
     INSTRUCTIONS_SYSVAR_ID relayer SYSTEM_PROGRAM_ID) h pf.

Definition attestations : list AttIx :=
  [AtInitialize (mkAttInitializeAccounts (ak AKClient) (ak AKApp) deployer SYSTEM_PROGRAM_ID
     (data_key ATTESTATION_ID) deployer) [attestor x03; attestor x01; attestor x02] 2 ACCESS_MANAGER_ID;
   update 10 (proof_of [x0a; x10] AttState [x01; x02]);
   update 11 (proof_of [x0b; x11] AttState [x03; x01])].

Definition conflict : AttIx := update 10 (proof_of [x0a; x12] AttState [x02; x03]).

Fixpoint att_runs (ixs : list AttIx) (w : World) : bool :=
  match ixs with
  | [] => true
  | ix :: ixs => is_ok (exec_att att_cx ix w) && att_runs ixs (run_tx (exec_att att_cx ix) w)
  end.
Definition att_run (ixs : list AttIx) (w : World) : World :=
  foldl (fun w ix => run_tx (exec_att att_cx ix) w) w ixs.

Lemma att_running : running att_cx ATTESTATION_ID.
Proof. apply toy_running. by vm_compute. Qed.

Lemma router_running : running router_cx ROUTER_ID.
Proof. apply toy_running. by vm_compute. Qed.

Lemma att_run_reachable ixs w :
  att_reachable w -> Forall att_ix_typed ixs -> att_runs ixs w = true -> att_reachable (att_run ixs w).
Proof.
  revert w. induction ixs as [|ix ixs IH]; intros w Hr Ht Hx; [done|].
  apply Forall_cons in Ht as [Ht Hts]. simpl in Hx. apply andb_true_iff in Hx as [Hx Hxs].
  apply IH; [|done|done]. eapply reach_step; [exact Hr|]. exists att_cx, ix.
  split_and!; [exact att_running|exact Ht|by apply run_tx_Ok].
Qed.

Lemma w1_reachable : att_reachable w1.
Proof. apply reach_start; [intros K _; apply toy_no_accounts; by vm_compute|by vm_compute]. Qed.

Definition w2 : World := att_run attestations w1.

Lemma attested_reachable : att_reachable w2.
Proof.
  apply att_run_reachable; [apply w1_reachable|repeat constructor; done|by vm_compute].
Qed.

Definition w3 : World := att_run [conflict] w2.

Lemma frozen_reachable : att_reachable w3.
Proof.
  apply att_run_reachable; [apply attested_reachable|repeat constructor; done|by vm_compute].
Qed.

(** What an account of the program holds, by evaluation. *)
Definition client_at (w : World) : AttClientState :=
  match acc_data <$> w_accts w !! ak AKClient with
  | Some (DAttClientState cs) => cs
  | _ => mkAttClientState V1 [] 0 0 false
  end.
Definition cons_at (w : World) (h : Z) : ConsensusStateStore :=
  match acc_data <$> w_accts w !! ak (AKCons h) with
  | Some (DConsensusStateStore st) => st
  | _ => mkConsensusStateStore 0 0
  end.
Definition owned (w : World) (k program : Pubkey) : bool :=
  match w_accts w !! k with Some a => bool_decide (acc_owner a = program) | None => false end.

Lemma stored_client_at w :
  owned w (ak AKClient) ATTESTATION_ID = true -> 0 < acs_min_required_sigs (client_at w) ->
  att_stored w AKClient (DAttClientState (client_at w)).
Proof.
  unfold owned, client_at, held. destruct (w_accts w !! ak AKClient) as [a|]; [|done]. simpl.
  intros Ho%bool_decide_eq_true Hm. exists a. split_and!; [done|done|]. by destruct (acc_data a).
Qed.

Lemma stored_cons_at w h :
  owned w (ak (AKCons h)) ATTESTATION_ID = true -> 0 < css_timestamp (cons_at w h) ->
  att_stored w (AKCons h) (DConsensusStateStore (cons_at w h)).
Proof.
  unfold owned, cons_at, held. destruct (w_accts w !! ak (AKCons h)) as [a|]; [|done]. simpl.
  intros Ho%bool_decide_eq_true Hm. exists a. split_and!; [done|done|]. by destruct (acc_data a).
Qed.

(** ** Witnesses *)

Definition packet_key : bytes := packet_commitment_path counterparty 1.
Definition receipt_key : bytes := packet_receipt_commitment_path counterparty 2.
Definition packet_data (h : byte) (k v : bytes) : bytes := h :: keccak256 k ++ v.
Definition present : bytes :=
  proof_of (packet_data x0a packet_key (packet_commitment_bytes32 received)) AttPacket [x02; x03].
Definition missing (k : bytes) (signers : list byte) : bytes :=
  proof_of (packet_data x0b k ZERO_COMMITMENT) AttPacket signers.
Definition other_missing : bytes :=
  proof_of (packet_data x0a packet_key ZERO_COMMITMENT) AttPacket [x01; x02].

(** Attestor 2 signs that a packet is there and that it is not. *)
Lemma conflicting_attestations_expose_attestor_witness :
  exists a d1 d2 sig1 sig2, a ∈ acs_attestor_addresses (client_at w2) /\ d1 <> d2 /\
    recover_eth_address (tagged_signing_input d1 AttPacket) sig1 = Ok a /\
    recover_eth_address (tagged_signing_input d2 AttPacket) sig2 = Ok a.
Proof.
  destruct (conflicting_attestations_expose_attestor (client_at w2) (cons_at w2 10) 10 packet_key
    present other_missing
    (mkPacketCompact (keccak256 packet_key) (packet_commitment_bytes32 received))
    (mkPacketCompact (keccak256 packet_key) ZERO_COMMITMENT) ltac:(by vm_compute) ltac:(by vm_compute)
    ltac:(by vm_compute) ltac:(by vm_compute) ltac:(by vm_compute))
    as (a & d1 & d2 & _ & _ & sig1 & sig2 & ? & ? & ? & ? & _).
  exists a, d1, d2, sig1, sig2. done.
Defined.

(** The truncating digest has collisions. *)
Lemma signing_inputs_separated_witness :
  collides sha256 [replicate 32 x00 ++ [x01]] [replicate 32 x00 ++ [x02]] \/
  collides sha256 [x01 :: sha256 (replicate 32 x00 ++ [x01])] [x01 :: sha256 (replicate 32 x00 ++ [x02])].
Proof.
  destruct (signing_inputs_separated (replicate 32 x00 ++ [x01]) AttState (replicate 32 x00 ++ [x02])
    AttState ltac:(by vm_compute)) as [[E _]|[Hc|Hc]]; [discriminate E|by left|by right].
Defined.

Lemma consensus_states_attested_witness :
  exists cs data sigs signers, att_stored w2 AKClient (DAttClientState cs) /\
    abi_decode_state data = Some (mkStateAttestation 10 1700004096) /\
    quorum cs data AttState sigs signers.
Proof.
  destruct (consensus_states_attested w2 10 (cons_at w2 10) attested_reachable ltac:(done)
    ltac:(apply stored_cons_at; by vm_compute)) as (cs & data & sigs & signers & ? & _ & _ & _ & E & ?).
  exists cs, data, sigs, signers. split_and!; [done| |done]. rewrite E. by vm_compute.
Defined.

(** The client of [w3] is frozen, the one of [w2] is not. *)
Lemma frozen_iff_conflicting_quorums_witness :
  acs_is_frozen (client_at w2) = false /\ acs_is_frozen (client_at w3) = true /\
  exists h t1 t2, t1 <> t2 /\ attested (client_at w3) h t1 /\ attested (client_at w3) h t2.
Proof.
  split; [by vm_compute|]. split; [by vm_compute|].
  destruct (frozen_iff_conflicting_quorums w3 (client_at w3) frozen_reachable
    ltac:(apply stored_client_at; by vm_compute)) as (_ & _ & [Hf _] & _).
  destruct (Hf ltac:(by vm_compute)) as (h & t1 & t2 & ? & ? & ? & _). by exists h, t1, t2.
Defined.

(** The contradiction at height 10 leaves its consensus state. *)
Lemma consensus_states_immutable_witness :
  att_stored w3 (AKCons 10) (DConsensusStateStore (cons_at w2 10)).
Proof.
  apply (consensus_states_immutable att_cx conflict w2 w3 attested_reachable att_running ltac:(done)
    ltac:(apply run_tx_Ok; by vm_compute)); [done|]. apply stored_cons_at; by vm_compute.
Defined.

Definition verify_accs (h : Z) : VerifyAccounts := mkVerifyAccounts (ak AKClient) (ak (AKCons h)).
Definition member_msg : MembershipMsg :=
  mkMembershipMsg 10 present [packet_key] (packet_commitment_bytes32 received).
Definition non_member_msg : NonMembershipMsg :=
  mkNonMembershipMsg 11 (missing receipt_key [x01; x03]) [receipt_key].

Lemma membership_iff_attested_witness :
  exists cs path p, att_stored w2 AKClient (DAttClientState cs) /\
    attests cs 10 present path p /\ pc_commitment p = packet_commitment_bytes32 received.
Proof.
  destruct (proj1 (membership_iff_attested (verify_accs 10) member_msg w2
    (run_tx (verify_membership (verify_accs 10) member_msg) w2) attested_reachable ltac:(done))
    ltac:(apply run_tx_Ok; by vm_compute)) as (_ & _ & _ & cs & st & path & p & ? & _ & _ & _ & ? & ? & _).
  exists cs, path, p. done.
Defined.

Lemma non_membership_iff_attested_witness :
  exists cs st path p, att_stored w2 (AKCons 11) (DConsensusStateStore st) /\
    attests cs 11 (missing receipt_key [x01; x03]) path p /\ pc_commitment p = ZERO_COMMITMENT.
Proof.
  destruct (proj1 (non_membership_iff_attested (verify_accs 11) non_member_msg w2
    (run_tx (verify_non_membership (verify_accs 11) non_member_msg) w2) attested_reachable ltac:(done))
    ltac:(apply run_tx_Ok; by vm_compute)) as (_ & _ & cs & st & path & p & _ & _ & ? & _ & _ & ? & ? & _).
  exists cs, st, path, p. done.
Defined.

(** The packet instructions of the router. *)
Definition packet_accs (s h : Z) : PacketAccounts := mkPacketAccounts (rk KState)
  (am_key ACCESS_MANAGER_ID) (rk (KApp port)) (rk (KReceipt client s)) (rk (KAck client s))
  (rk (KCommit client s)) app app_state relayer SYSTEM_PROGRAM_ID INSTRUCTIONS_SYSVAR_ID
  (rk (KClient client)) (mkLcAccounts ATTESTATION_ID (ak AKClient) (ak (AKCons h))) [].
Definition msg_payload : MsgPayload := mkMsgPayload port port (bs "v1") (bs "json") (Inline (bs "hello")).
Definition recv : RouterIx := RRecvPacket (packet_accs 1 10)
  (mkMsgRecvPacket (mkMsgPacket 1 counterparty client 1700003600 [msg_payload])
     (mkMsgProof 10 (Inline present))).
Definition expire : RouterIx := RTimeoutPacket (packet_accs 2 11)
  (mkMsgTimeoutPacket (mkMsgPacket 2 client counterparty 1700001000 [msg_payload])
     (mkMsgProof 11 (Inline (missing receipt_key [x01; x03])))).

Definition after (ix : RouterIx) : World := run_tx (exec_router router_cx ix) w2.
Definition new_log (ix : RouterIx) : list LogEntry :=
  drop (length (own_log ROUTER_ID w2)) (own_log ROUTER_ID (after ix)).
Definition client_record : Client :=
  match acc_data <$> w_accts w2 !! rk (KClient client) with
  | Some (DClient cl) => cl
  | _ => mkClient V1 [] [] (mkCounterpartyInfo [] []) false
  end.

Lemma after_Ok ix : is_ok (exec_router router_cx ix w2) = true ->
  exec_router router_cx ix w2 = Ok ((), after ix).
Proof. by apply run_tx_Ok. Qed.

Lemma stored_record : stored w2 (KClient client) (DClient client_record).
Proof. eexists. split_and!; by vm_compute. Qed.

Lemma reported ix e :
  last (new_log ix) = Some (LEvent ROUTER_ID e) -> LEvent ROUTER_ID e ∈ new_log ix.
Proof. apply last_Some_elem_of. Qed.

Definition receipt_event : Event := WriteAcknowledgementEvent client 1 received [[x01]].
Definition timeout_event : Event := TimeoutPacketEvent client 2 sent.

Lemma packet_events_justified_witness : justified ATTESTATION_ID w2 client_record receipt_event.
Proof.
  apply (packet_events_justified ATTESTATION_ID router_cx recv w2 (after recv) (new_log recv)
    receipt_event client client_record router_running ltac:(done) ltac:(apply after_Ok; by vm_compute)
    ltac:(by vm_compute) ltac:(apply reported; by vm_compute) eq_refl stored_record ltac:(by vm_compute)
    attested_reachable).
Defined.

Lemma delivered_packets_attested_witness :
  exists cs h k, acs_is_frozen cs = false /\ quorum_on_packet cs h k (packet_commitment_bytes32 received).
Proof.
  destruct (delivered_packets_attested router_cx recv w2 (after recv) (new_log recv) client 1 received
    [[x01]] client_record router_running ltac:(done) ltac:(apply after_Ok; by vm_compute) ltac:(by vm_compute)
    ltac:(apply reported; by vm_compute) stored_record ltac:(by vm_compute) attested_reachable)
    as (_ & cs & _ & h & k & _ & ? & _ & _ & _ & ?).
  exists cs, h, k. done.
Defined.

Lemma timed_out_packets_attested_missing_witness :
  exists cs ts h k, 1700001000 <= ts /\ quorum_on_state cs h ts /\ quorum_on_packet cs h k ZERO_COMMITMENT.
Proof.
  destruct (timed_out_packets_attested_missing router_cx expire w2 (after expire) (new_log expire) client 2
    sent client_record router_running ltac:(done) ltac:(apply after_Ok; by vm_compute) ltac:(by vm_compute)
    ltac:(apply reported; by vm_compute) stored_record ltac:(by vm_compute) attested_reachable)
    as (cs & ts & h & k & _ & _ & ? & ? & _ & ?).
  exists cs, ts, h, k. done.
Defined.

End AttestationExample.
