(* ===== verification/TreeHash.v ===== *)
(** * The tree hash of the Ethereum packages

    [packages/ethereum/tree_hash]: the streaming [MerkleHasher], [merkle_root]
    with its fast paths for small trees, the two reference routines
    [merkleize_padded] and [merkleize_standard], and the roots of the basic
    types.  SHA-256 is a parameter.  Panics ([assert!], [expect], a tree deeper
    than the cached zero hashes) are the error [TreePanic]; indices are
    [nat], which is exact for the trees that do not panic, whose node
    identifiers stay below [2 ^ 49].

    [TreeHashSpec.v] proves the three routines equal to the recursive Merkle
    tree. *)

From S2P Require Import Prelude.
From Stdlib Require Import ZArith Lia.
From Stdlib.Strings Require Import Byte.
From stdpp Require Import prelude list.

(** [sha2::Sha256::digest]. *)
Class Sha2 := sha2 : bytes -> bytes.
Class Sha2Ok `{Sha2} : Prop := sha2_length x : length (sha2 x) = 32.

(** ** [lib.rs] and [sha256.rs] *)

Definition BYTES_PER_CHUNK : nat := 32.
Definition HASHSIZE : nat := 32.
Definition MERKLE_HASH_CHUNK : nat := 2 * BYTES_PER_CHUNK.
Definition MAX_UNION_SELECTOR : Z := 127.
Definition ZERO_HASHES_MAX_INDEX : nat := 48.

Inductive TreeHashError :=
| MaximumLeavesExceeded (max_leaves : nat)
| TreePanic.

(** [bytes.resize(n, 0)]. *)
Definition resize0 (n : nat) (l : bytes) : bytes := take n l ++ replicate (n - length l) x00.

(** [n.div_ceil(k)] and [n.next_power_of_two()]. *)
Definition div_ceil (n k : nat) : nat := (n + (k - 1)) / k.
Definition next_power_of_two (n : nat) : nat := 2 ^ Nat.log2_up n.

Section TreeHash.
Context `{Sha2}.

Definition hash32_concat (h1 h2 : bytes) : bytes := sha2 (h1 ++ h2).
Definition Hash256_ZERO : bytes := replicate HASHSIZE x00.

(** [ZERO_HASHES[i]]. *)
Fixpoint ZERO_HASHES (i : nat) : bytes :=
  match i with
  | O => Hash256_ZERO
  | S i => hash32_concat (ZERO_HASHES i) (ZERO_HASHES i)
  end.

Definition get_zero_hash (height : nat) : result TreeHashError bytes :=
  if height <=? ZERO_HASHES_MAX_INDEX then Ok (ZERO_HASHES height) else Err TreePanic.

Definition mix_in_length (root : bytes) (len : nat) : bytes :=
  hash32_concat root (resize0 BYTES_PER_CHUNK (u64_to_le_bytes (Z.of_nat len))).

Definition mix_in_selector (root : bytes) (selector : byte) : option bytes :=
  if Z.ltb MAX_UNION_SELECTOR (byte_to_Z selector) then None
  else Some (hash32_concat root (resize0 BYTES_PER_CHUNK [selector])).

(** ** [merkle_hasher.rs] *)

(** [context] is the bytes the hasher has absorbed. *)
Record HalfNode := mkHalfNode { hn_context : bytes; hn_id : nat }.

Definition HalfNode_new (id : nat) (left : bytes) : HalfNode := mkHalfNode left id.
Definition HalfNode_finish (node : HalfNode) (right : bytes) : bytes := sha2 (hn_context node ++ right).

(** The stack [half_nodes] has its last element first. *)
Record MerkleHasher := mkMerkleHasher {
  mh_half_nodes : list HalfNode;
  mh_depth : nat;
  mh_next_leaf : nat;
  mh_buffer : bytes;
  mh_root : option bytes }.

Definition get_parent (i : nat) : nat := i / 2.
Definition get_depth (i : nat) : nat := Nat.log2 i.

Definition with_depth (depth : nat) : result TreeHashError MerkleHasher :=
  if depth =? 0 then Err TreePanic
  else Ok (mkMerkleHasher [] depth (2 ^ (depth - 1)) [] None).

Definition with_leaves (num_leaves : nat) : result TreeHashError MerkleHasher :=
  with_depth (get_depth (next_power_of_two num_leaves) + 1).

(** The nodes still waiting for a right child, and the root when it is
    known. *)
Definition Nodes : Type := list HalfNode * option bytes.

Definition process_left_node (id : nat) (preimage : bytes) (s : Nodes) : Nodes :=
  (HalfNode_new (get_parent id) preimage :: fst s, snd s).

(** The loop of [process_right_node]. *)
Fixpoint crawl (parent : nat) (preimage : bytes) (half_nodes : list HalfNode) (root : option bytes)
    : Nodes :=
  match half_nodes with
  | node :: rest =>
      if hn_id node =? parent then
        let digest := HalfNode_finish node preimage in
        if parent =? 1 then (rest, Some digest)
        else crawl (get_parent parent) digest rest root
      else (HalfNode_new parent preimage :: half_nodes, root)
  | [] => ([HalfNode_new parent preimage], root)
  end.

Definition process_right_node (id : nat) (preimage : bytes) (s : Nodes) : Nodes :=
  crawl (get_parent id) preimage (fst s) (snd s).

Definition mh_nodes (h : MerkleHasher) : Nodes := (mh_half_nodes h, mh_root h).
Definition with_nodes (h : MerkleHasher) (s : Nodes) : MerkleHasher :=
  mkMerkleHasher (fst s) (mh_depth h) (mh_next_leaf h) (mh_buffer h) (snd s).
Definition with_buffer (h : MerkleHasher) (b : bytes) : MerkleHasher :=
  mkMerkleHasher (mh_half_nodes h) (mh_depth h) (mh_next_leaf h) b (mh_root h).
Definition next_leaf_of (h : MerkleHasher) : MerkleHasher :=
  mkMerkleHasher (mh_half_nodes h) (mh_depth h) (mh_next_leaf h + 1) (mh_buffer h) (mh_root h).

Definition process_leaf (h : MerkleHasher) (leaf : bytes) : result TreeHashError MerkleHasher :=
  if negb (length leaf =? HASHSIZE) then Err TreePanic else
  let max_leaves := 2 ^ (mh_depth h + 1) in
  if max_leaves <? mh_next_leaf h then Err (MaximumLeavesExceeded max_leaves)
  else if mh_next_leaf h =? 1 then Ok (next_leaf_of (with_nodes h (mh_half_nodes h, Some leaf)))
  else if mh_next_leaf h mod 2 =? 0 then
    Ok (next_leaf_of (with_nodes h (process_left_node (mh_next_leaf h) leaf (mh_nodes h))))
  else Ok (next_leaf_of (with_nodes h (process_right_node (mh_next_leaf h) leaf (mh_nodes h)))).

(** The loop of [write]: an iteration consumes at least one byte, or all of
    them and stops, so [length bytes + 2] iterations are enough. *)
Fixpoint write_loop (fuel : nat) (bytes : list byte) (ptr : nat) (h : MerkleHasher)
    : result TreeHashError MerkleHasher :=
  match fuel with
  | O => Err TreePanic
  | S fuel =>
      if ptr <=? length bytes then
        let slice := take (Nat.min (length bytes) (ptr + HASHSIZE) - ptr) (drop ptr bytes) in
        let buf_len := length (mh_buffer h) in
        if (buf_len =? 0) && (length slice =? HASHSIZE) then
          h ← process_leaf h slice;
          write_loop fuel bytes (ptr + HASHSIZE) h
        else if buf_len + length slice <? HASHSIZE then
          write_loop fuel bytes (ptr + HASHSIZE) (with_buffer h (mh_buffer h ++ slice))
        else
          let required := HASHSIZE - buf_len in
          h ← process_leaf h (mh_buffer h ++ take required slice);
          write_loop fuel bytes (ptr + required) (with_buffer h [])
      else Ok h
  end.

Definition write (h : MerkleHasher) (bytes : list byte) : result TreeHashError MerkleHasher :=
  write_loop (length bytes + 2) bytes 0 h.

Definition zero_hash (h : MerkleHasher) (id : nat) : result TreeHashError bytes :=
  get_zero_hash (mh_depth h - (get_depth id + 1)).

(** The loop of [finish]: an iteration moves the last half node at least one
    level up, so [depth + 2] iterations are enough. *)
Fixpoint finish_loop (fuel : nat) (h : MerkleHasher) : result TreeHashError bytes :=
  match fuel with
  | O => Err TreePanic
  | S fuel =>
      match mh_root h, mh_half_nodes h with
      | Some root, _ => Ok root
      | None, node :: _ =>
          let right_child := hn_id node * 2 + 1 in
          zero ← zero_hash h right_child;
          finish_loop fuel (with_nodes h (process_right_node right_child zero (mh_nodes h)))
      | None, [] =>
          if mh_next_leaf h =? 1 then Ok Hash256_ZERO
          else
            zero ← zero_hash h (mh_next_leaf h);
            finish_loop fuel (with_nodes h (process_left_node (mh_next_leaf h) zero (mh_nodes h)))
      end
  end.

Definition finish (h : MerkleHasher) : result TreeHashError bytes :=
  h ← (if length (mh_buffer h) =? 0 then Ok h
       else process_leaf h (resize0 HASHSIZE (mh_buffer h)));
  finish_loop (mh_depth h + 2) h.

(** ** [merkle_root] *)

Definition merkle_root (bytes : list byte) (minimum_leaf_count : nat) : result TreeHashError (list byte) :=
  let leaves := Nat.max (div_ceil (length bytes) HASHSIZE) minimum_leaf_count in
  if leaves =? 0 then Ok Hash256_ZERO
  else if leaves =? 1 then Ok (resize0 HASHSIZE bytes)
  else if leaves =? 2 then Ok (sha2 (resize0 (HASHSIZE * 2) bytes))
  else
    h ← with_leaves leaves;
    h ← write h bytes;
    finish h.

(** ** [merkleize_padded.rs] *)

Definition next_even_number (n : nat) : nat := n + n mod 2.

(** [ChunkStore], as the list of its 32-byte chunks. *)
Definition with_capacity (chunks : nat) : list bytes := replicate chunks Hash256_ZERO.

Definition chunk_set (s : list bytes) (i : nat) (value : bytes) : result TreeHashError (list bytes) :=
  if (i <? length s) && (length value =? BYTES_PER_CHUNK) then Ok (<[i := value]> s) else Err TreePanic.

Definition chunk_get (s : list bytes) (i : nat) : option bytes := s !! i.

(** The first round: hashes the leaves [2 i] and [2 i + 1] for [n] parents
    from [i]. *)
Fixpoint first_round (n i : nat) (bytes : list byte) (chunks : list (list byte))
    : result TreeHashError (list (list byte)) :=
  match n with
  | O => Ok chunks
  | S n =>
      let start := i * BYTES_PER_CHUNK * 2 in
      if length bytes <? start then Err TreePanic else
      chunks ← chunk_set chunks i (sha2 (resize0 (BYTES_PER_CHUNK * 2) (drop start bytes)));
      first_round n (S i) bytes chunks
  end.

(** One round above the leaves, in place: [n] parents from [i]. *)
Fixpoint round_loop (n i height : nat) (chunks : list bytes) : result TreeHashError (list bytes) :=
  match n with
  | O => Ok chunks
  | S n =>
      children ← match chunk_get chunks (i * 2), chunk_get chunks (i * 2 + 1) with
                 | Some l, Some r => Ok (l, r)
                 | Some l, None => zero ← get_zero_hash height; Ok (l, zero)
                 | None, _ => Err TreePanic
                 end;
      if negb ((length (fst children) =? length (snd children)) &&
               (length (snd children) =? BYTES_PER_CHUNK)) then Err TreePanic else
      chunks ← chunk_set chunks i (hash32_concat (fst children) (snd children));
      round_loop n (S i) height chunks
  end.

(** [n] rounds, from [height] up. *)
Fixpoint rounds (n height : nat) (chunks : list bytes) : result TreeHashError (list bytes) :=
  match n with
  | O => Ok chunks
  | S n =>
      let parent_nodes := next_even_number (length chunks) / 2 in
      chunks ← round_loop parent_nodes 0 height chunks;
      rounds n (S height) (take parent_nodes chunks)
  end.

Definition merkleize_padded (bytes : list byte) (min_leaves : nat) : result TreeHashError (list byte) :=
  if (length bytes <=? BYTES_PER_CHUNK) && (min_leaves <=? 1) then
    Ok (resize0 BYTES_PER_CHUNK bytes)
  else
    let leaves_with_values := div_ceil (length bytes) BYTES_PER_CHUNK in
    let initial_parents_with_values := Nat.max 1 (next_even_number leaves_with_values / 2) in
    let num_leaves := next_power_of_two (Nat.max leaves_with_values min_leaves) in
    let height := Nat.log2 num_leaves + 1 in
    if height <? 2 then Err TreePanic else
    chunks ← first_round initial_parents_with_values 0 bytes
               (with_capacity initial_parents_with_values);
    chunks ← rounds (height - 1 - 1) 1 chunks;
    let root := concat chunks in
    if length root =? BYTES_PER_CHUNK then Ok root else Err TreePanic.

(** ** [merkleize_standard.rs] *)

Definition num_sanitized_leaves (num_bytes : nat) : nat :=
  next_power_of_two (div_ceil num_bytes HASHSIZE).
Definition num_nodes (num_leaves : nat) : nat := 2 * num_leaves - 1.

(** [o[j..j+32].copy_from_slice(hash)]. *)
Definition copy_at (o : bytes) (j : nat) (hash : bytes) : bytes :=
  take j o ++ hash ++ drop (j + length hash) o.

(** [n] iterations of the loop, from [i] and [j] down: [o.get(i..i+64)] when
    all bytes are there, what is left padded, or the hash of an empty pair. *)
Fixpoint standard_loop (n i j : nat) (o : bytes) : bytes :=
  match n with
  | O => o
  | S n =>
      let i := i - MERKLE_HASH_CHUNK in
      let j := j - HASHSIZE in
      let hash :=
        if i + MERKLE_HASH_CHUNK <=? length o then sha2 (take MERKLE_HASH_CHUNK (drop i o))
        else if i <=? length o then sha2 (resize0 MERKLE_HASH_CHUNK (drop i o))
        else sha2 (replicate MERKLE_HASH_CHUNK x00) in
      standard_loop n i j (copy_at o j hash)
  end.

Definition merkleize_standard (bytes : list byte) : list byte :=
  if length bytes <=? HASHSIZE then resize0 HASHSIZE bytes
  else
    let leaves := num_sanitized_leaves (length bytes) in
    let nodes := num_nodes leaves in
    let internal_nodes := nodes - leaves in
    let o := replicate (internal_nodes * HASHSIZE) x00 ++ bytes in
    take HASHSIZE
      (standard_loop (nodes * HASHSIZE / MERKLE_HASH_CHUNK) (nodes * HASHSIZE)
         (internal_nodes * HASHSIZE) o).

(** ** [impls.rs]: the roots of the basic types *)

Definition int_to_hash256 (int : Z) : bytes := resize0 HASHSIZE (u64_to_le_bytes int).

Definition u64_tree_hash_root (v : Z) : bytes := int_to_hash256 v.
Definition bool_tree_hash_root (v : bool) : bytes := int_to_hash256 (if v then 1 else 0)%Z.

(** Byte arrays of at most 32 bytes, and [FixedBytes<20>] and
    [FixedBytes<32>]. *)
Definition fixed_tree_hash_root (v : bytes) : bytes := resize0 32 v.

(** [[u8; 48]], a BLS public key. *)
Definition bls_tree_hash_root (v : bytes) : result TreeHashError bytes :=
  merkle_root v (div_ceil 48 BYTES_PER_CHUNK).

Definition U256_tree_hash_root (v : Z) : bytes := to_le 32 v.

(** [write] of each item in turn. *)
Fixpoint write_all (h : MerkleHasher) (items : list bytes) : result TreeHashError MerkleHasher :=
  match items with
  | [] => Ok h
  | item :: items => h ← write h item; write_all h items
  end.

(** [Bytes]: every byte's root, of which the first byte is written. *)
Definition Bytes_tree_hash_root (v : bytes) : result TreeHashError bytes :=
  h ← with_leaves (div_ceil (length v) BYTES_PER_CHUNK);
  h ← write_all h (map (fun b => take 1 (u64_tree_hash_root (byte_to_Z b))) v);
  root ← finish h;
  Ok (mix_in_length root (length v)).

Definition Bloom_tree_hash_root (v : bytes) : result TreeHashError bytes :=
  h ← with_leaves (div_ceil (length v) BYTES_PER_CHUNK);
  h ← write_all h (map (fun b => take 1 (u64_tree_hash_root (byte_to_Z b))) v);
  finish h.

(** [[B256]]. *)
Definition B256s_tree_hash_root (v : list bytes) : result TreeHashError bytes :=
  h ← with_leaves (div_ceil (length v) BYTES_PER_CHUNK);
  h ← write_all h (map (fun b => take 1 (fixed_tree_hash_root b)) v);
  finish h.

(** The items of an iterator whose roots may fail. *)
Fixpoint roots_of (v : list bytes) : result TreeHashError (list bytes) :=
  match v with
  | [] => Ok []
  | x :: v => r ← bls_tree_hash_root x; rs ← roots_of v; Ok (r :: rs)
  end.

(** [[FixedBytes<48>]], the public keys of a sync committee. *)
Definition pubkeys_tree_hash_root (v : list bytes) : result TreeHashError bytes :=
  h ← with_leaves (length v);
  roots ← roots_of v;
  h ← write_all h roots;
  finish h.

End TreeHash.
