(* ===== verification/TreeHashSpec.v ===== *)
(** * The tree hash: correctness

    The Merkle tree over a list of chunks by recursion on its depth
    ([tree_root]; missing leaves are zero), and the proofs that the streaming
    hasher, however its input is cut into pieces, [merkle_root] with its fast
    paths, and the two reference routines compute it. *)

From S2P Require Import Prelude TreeHash.
From Stdlib Require Import ZArith Lia.
From Stdlib.Strings Require Import Byte.
From stdpp Require Import prelude list.

(** ** The reference tree *)

Section Tree.
Context `{Sha2}.

Fixpoint tree_root (d : nat) (leaves : list bytes) : bytes :=
  match d with
  | O => default Hash256_ZERO (head leaves)
  | S d => hash32_concat (tree_root d (take (2 ^ d) leaves)) (tree_root d (drop (2 ^ d) leaves))
  end.

(** The 32-byte chunks of a byte string, the last one padded. *)
Definition chunk_at (data : bytes) (i : nat) : bytes := resize0 HASHSIZE (drop (HASHSIZE * i) data).
Definition chunks (data : bytes) : list bytes :=
  map (chunk_at data) (seq 0 (div_ceil (length data) HASHSIZE)).

(** The number of levels below the root of a tree with room for [n] leaves. *)
Definition levels (n : nat) : nat := Nat.log2_up n.

Lemma pow2_pos d : 0 < 2 ^ d.
Proof. apply Nat.neq_0_lt_0, Nat.pow_nonzero. lia. Qed.

Lemma pow2_S d : 2 ^ S d = 2 ^ d + 2 ^ d.
Proof. simpl. lia. Qed.

Lemma tree_root_nil d : tree_root d [] = ZERO_HASHES d.
Proof. induction d as [|d IH]; simpl; [done|]. by rewrite take_nil, drop_nil, IH. Qed.

(** Only the leaves within the tree matter, and zero leaves may be left
    out. *)
Lemma tree_root_ext d l l' :
  (forall i, i < 2 ^ d -> default Hash256_ZERO (l !! i) = default Hash256_ZERO (l' !! i)) ->
  tree_root d l = tree_root d l'.
Proof.
  revert l l'. induction d as [|d IH]; intros l l' Heq.
  - simpl. specialize (Heq 0 ltac:(simpl; lia)). by destruct l, l'.
  - simpl. f_equal; apply IH; intros i Hi; rewrite pow2_S in Heq.
    + rewrite !lookup_take_lt by done. apply Heq. lia.
    + rewrite !lookup_drop. apply Heq. lia.
Qed.

Lemma tree_root_S_left d l :
  length l <= 2 ^ d -> tree_root (S d) l = hash32_concat (tree_root d l) (ZERO_HASHES d).
Proof. intros Hl. simpl. by rewrite take_ge, drop_ge, tree_root_nil by lia. Qed.

End Tree.

(** ** The streaming hasher *)

Section Streaming.
Context `{Sha2} `{!Sha2Ok}.

(** The half nodes below node [n], a tree of [d] levels of which the leaves
    [l] have been given. *)
Fixpoint waiting (d n : nat) (l : list bytes) : list HalfNode :=
  match d with
  | O => []
  | S d =>
      if length l <? 2 ^ d then waiting d (2 * n) l
      else waiting d (2 * n + 1) (drop (2 ^ d) l) ++ [mkHalfNode (tree_root d (take (2 ^ d) l)) n]
  end.

(** Node [n] becomes known. *)
Definition supply (n : nat) (v : bytes) (s : Nodes) : Nodes :=
  if n =? 1 then (fst s, Some v)
  else if n mod 2 =? 0 then process_left_node n v s
  else process_right_node n v s.

(** The half nodes above node [n]: its ancestors that have a left child; the
    parent is one of them exactly when [n] is a right child. *)
Definition above (n : nat) (rest : list HalfNode) : Prop :=
  Forall (fun h => hn_id h < n) rest /\
  (1 < n -> n mod 2 = 1 -> hn_id <$> head rest = Some (n / 2)) /\
  (1 < n -> n mod 2 = 0 -> hn_id <$> head rest <> Some (n / 2)).

Lemma above_left n rest : 0 < n -> above n rest -> above (2 * n) rest.
Proof.
  intros Hn (Hlt & _ & _). split_and!.
  - eapply Forall_impl; [exact Hlt|]. simpl. intros. lia.
  - intros _ Hm. rewrite Nat.mul_comm, Nat.Div0.mod_mul in Hm. lia.
  - intros _ _. rewrite Nat.mul_comm, Nat.div_mul by lia. destruct rest as [|h rest]; [done|].
    apply Forall_cons in Hlt as [Hh _]. simpl. intros [= E]. lia.
Qed.

Lemma double_odd n : (2 * n + 1) / 2 = n /\ (2 * n + 1) mod 2 = 1.
Proof.
  rewrite Nat.add_comm, Nat.mul_comm, Nat.div_add, Nat.Div0.mod_add by lia. done.
Qed.

Lemma above_right n v rest : 0 < n -> above n rest -> above (2 * n + 1) (mkHalfNode v n :: rest).
Proof.
  intros Hn (Hlt & _ & _). destruct (double_odd n) as [Ed Em]. split_and!.
  - constructor; [simpl; lia|]. eapply Forall_impl; [exact Hlt|]. simpl. intros. lia.
  - intros _ _. by rewrite Ed.
  - intros _ Hm. lia.
Qed.

Lemma supply_left n v rest root : 0 < n -> supply (2 * n) v (rest, root) = (mkHalfNode v n :: rest, root).
Proof.
  intros Hn. unfold supply, process_left_node, get_parent, HalfNode_new. simpl fst; simpl snd.
  destruct (Nat.eqb_spec (2 * n) 1) as [|_]; [lia|].
  by rewrite Nat.mul_comm, Nat.Div0.mod_mul, Nat.div_mul by lia.
Qed.

(** Supplying the right child of a node completes the node. *)
Lemma supply_right n v left rest root :
  0 < n -> above n rest ->
  supply (2 * n + 1) v (mkHalfNode left n :: rest, root) = supply n (hash32_concat left v) (rest, root).
Proof.
  intros Hn (_ & Hodd & Heven). destruct (double_odd n) as [Ed Em].
  unfold supply at 1. destruct (Nat.eqb_spec (2 * n + 1) 1) as [|_]; [lia|].
  rewrite Em. simpl (1 =? 0). unfold process_right_node, get_parent. rewrite Ed. simpl fst. simpl snd.
  cbn [crawl hn_id]. rewrite Nat.eqb_refl.
  unfold HalfNode_finish. cbn [hn_context]. unfold supply, hash32_concat.
  destruct (Nat.eqb_spec n 1) as [->|Hne]; [done|]. unfold get_parent.
  destruct (Nat.eqb_spec (n mod 2) 0) as [E0|E1].
  - unfold process_left_node, HalfNode_new, get_parent. simpl fst; simpl snd.
    destruct rest as [|h rest]; [done|]. cbn [crawl].
    destruct (Nat.eqb_spec (hn_id h) (n / 2)) as [E|_]; [|done].
    exfalso. apply Heven; [lia|done|]. simpl. by rewrite E.
  - done.
Qed.

(** The next leaf of the tree below node [n]. *)
Lemma supply_leaf d n l x rest root :
  0 < n -> above n rest -> length l < 2 ^ d ->
  supply (n * 2 ^ d + length l) x (waiting d n l ++ rest, root) =
  if length l + 1 =? 2 ^ d then supply n (tree_root d (l ++ [x])) (rest, root)
  else (waiting d n (l ++ [x]) ++ rest, root).
Proof.
  revert n l rest root. induction d as [|d IH]; intros n l rest root Hn Hab Hl.
  { destruct l; [|simpl in Hl; lia]. simpl. by rewrite Nat.mul_1_r, Nat.add_0_r. }
  pose proof (pow2_pos d) as Hp. rewrite pow2_S in Hl |- *. cbn [waiting].
  rewrite length_app. cbn [length]. destruct (Nat.ltb_spec (length l) (2 ^ d)) as [Hlt|Hge].
  - replace (n * (2 ^ d + 2 ^ d) + length l) with (2 * n * 2 ^ d + length l) by nia.
    rewrite IH by (auto using above_left; lia).
    destruct (Nat.eqb_spec (length l + 1) (2 ^ d)) as [E|E];
      (destruct (Nat.eqb_spec (length l + 1) (2 ^ d + 2 ^ d)) as [|_]; [lia|]).
    + rewrite supply_left by done.
      destruct (Nat.ltb_spec (length l + 1) (2 ^ d)) as [|_]; [lia|].
      rewrite drop_ge, take_ge by (rewrite length_app; simpl; lia).
      assert (forall m, waiting d m [] = []) as ->; [|done].
      clear. induction d as [|d IH]; intros m; simpl; [done|].
      pose proof (pow2_pos d). destruct (Nat.ltb_spec 0 (2 ^ d)); [apply IH|lia].
    + destruct (Nat.ltb_spec (length l + 1) (2 ^ d)); [done|lia].
  - rewrite <- app_assoc. cbn [app].
    replace (n * (2 ^ d + 2 ^ d) + length l)
      with ((2 * n + 1) * 2 ^ d + length (drop (2 ^ d) l)) by (rewrite length_drop; nia).
    rewrite IH; [|lia|by apply above_right|rewrite length_drop; lia]. rewrite length_drop.
    destruct (Nat.ltb_spec (length l + 1) (2 ^ d)) as [|_]; [lia|].
    rewrite take_app_le, drop_app_le by lia.
    destruct (Nat.eqb_spec (length l - 2 ^ d + 1) (2 ^ d)) as [E|E];
      destruct (Nat.eqb_spec (length l + 1) (2 ^ d + 2 ^ d)) as [E'|E']; try lia.
    + rewrite supply_right by done. simpl tree_root. by rewrite take_app_le, drop_app_le by lia.
    + by rewrite <- app_assoc.
Qed.

Lemma waiting_nil d n : waiting d n [] = [].
Proof.
  revert n. induction d as [|d IH]; intros n; simpl; [done|].
  pose proof (pow2_pos d). destruct (Nat.ltb_spec 0 (2 ^ d)); [apply IH|lia].
Qed.

(** ** Completing the tree with zero leaves *)

(** One iteration of [finish] gives the last half node, [d] levels above the
    leaves, its right child. *)
Lemma finish_step h n d left rest fuel :
  0 < n -> above n rest -> mh_depth h = Nat.log2 n + S d + 1 -> d <= ZERO_HASHES_MAX_INDEX ->
  finish_loop (S fuel) (with_nodes h (mkHalfNode left n :: rest, None)) =
  finish_loop fuel (with_nodes h (supply n (hash32_concat left (ZERO_HASHES d)) (rest, None))).
Proof.
  intros Hn Hab Hd Hmax. rewrite <- supply_right by done. destruct (double_odd n) as [_ Em].
  cbn [finish_loop mh_root mh_half_nodes with_nodes fst snd hn_id].
  unfold zero_hash, get_zero_hash, get_depth. cbn [mh_depth with_nodes].
  rewrite Nat.mul_comm, Nat.log2_succ_double by done.
  replace (mh_depth h - (S (Nat.log2 n) + 1)) with d by lia.
  rewrite (proj2 (Nat.leb_le _ _) Hmax). unfold supply. rewrite Em.
  destruct (Nat.eqb_spec (2 * n + 1) 1) as [|_]; [lia|]. done.
Qed.

Lemma finish_fill h d n l rest :
  0 < n -> above n rest -> 0 < length l < 2 ^ d -> mh_depth h = Nat.log2 n + d + 1 ->
  d <= S ZERO_HASHES_MAX_INDEX ->
  exists m, m <= d /\ forall fuel, finish_loop (m + fuel) (with_nodes h (waiting d n l ++ rest, None)) =
    finish_loop fuel (with_nodes h (supply n (tree_root d l) (rest, None))).
Proof.
  revert n l rest. induction d as [|d IH]; intros n l rest Hn Hab Hl Hd Hmax; [simpl in Hl; lia|].
  rewrite pow2_S in Hl. cbn [waiting]. destruct (Nat.ltb_spec (length l) (2 ^ d)) as [Hlt|Hge].
  - destruct (IH (2 * n) l rest) as (m & Hm & E);
      [lia|by apply above_left|lia|rewrite Nat.log2_double by done; lia|lia|].
    exists (S m). split; [lia|]. intros fuel. rewrite Nat.add_succ_comm, E, supply_left by done.
    rewrite (finish_step _ n d) by (done || lia). by rewrite tree_root_S_left by lia.
  - rewrite <- app_assoc. cbn [app]. destruct (decide (length l = 2 ^ d)) as [El|Hne].
    + exists 1. split; [lia|]. intros fuel. rewrite drop_ge, waiting_nil, take_ge by lia. cbn [app Nat.add].
      rewrite (finish_step _ n d) by (done || lia). by rewrite tree_root_S_left by lia.
    + destruct (IH (2 * n + 1) (drop (2 ^ d) l) (mkHalfNode (tree_root d (take (2 ^ d) l)) n :: rest))
        as (m & Hm & E);
        [lia|by apply above_right|rewrite length_drop; lia
        |rewrite Nat.log2_succ_double by done; lia|lia|].
      exists m. split; [lia|]. intros fuel. by rewrite E, supply_right.
Qed.

(** ** States of the hasher *)

(** The hasher of a tree of [d] levels below the root, after the bytes
    [data]. *)
Definition absorbed (d : nat) (data : bytes) (h : MerkleHasher) : Prop :=
  exists l, Forall (fun x => length x = HASHSIZE) l /\ data = concat l ++ mh_buffer h /\
    length (mh_buffer h) < HASHSIZE /\ mh_depth h = d + 1 /\ mh_next_leaf h = 2 ^ d + length l /\
    ((length l < 2 ^ d /\ mh_half_nodes h = waiting d 1 l /\ mh_root h = None) \/
     (length l = 2 ^ d /\ mh_half_nodes h = [] /\ mh_root h = Some (tree_root d l))).

Lemma above_1 : above 1 [].
Proof. split_and!; [constructor|lia|lia]. Qed.

Lemma process_leaf_supply h leaf :
  length leaf = HASHSIZE -> mh_next_leaf h <= 2 ^ (mh_depth h + 1) ->
  process_leaf h leaf = Ok (next_leaf_of (with_nodes h (supply (mh_next_leaf h) leaf (mh_nodes h)))).
Proof.
  intros Hl Hn. unfold process_leaf, supply. rewrite Hl, Nat.eqb_refl. cbn [negb].
  destruct (Nat.ltb_spec (2 ^ (mh_depth h + 1)) (mh_next_leaf h)); [lia|].
  destruct (Nat.eqb_spec (mh_next_leaf h) 1); [done|].
  by destruct (Nat.eqb_spec (mh_next_leaf h mod 2) 0).
Qed.

(** Processing a leaf, which replaces the buffer. *)
Lemma absorb_leaf d l leaf h :
  Forall (fun x => length x = HASHSIZE) l -> length leaf = HASHSIZE -> length l < 2 ^ d ->
  mh_depth h = d + 1 -> mh_next_leaf h = 2 ^ d + length l ->
  mh_half_nodes h = waiting d 1 l -> mh_root h = None ->
  exists h', process_leaf h leaf = Ok h' /\ mh_buffer h' = mh_buffer h /\
    absorbed d (concat (l ++ [leaf])) (with_buffer h' []).
Proof.
  intros Hall Hleaf Hlt Hd Hn Hw Hr. pose proof (pow2_pos d).
  rewrite process_leaf_supply; [|done|rewrite Hd, Hn, !Nat.add_1_r, !pow2_S; lia].
  eexists. split; [done|]. split; [done|]. exists (l ++ [leaf]). rewrite length_app. cbn [length].
  pose proof (supply_leaf d 1 l leaf [] None ltac:(lia) above_1 Hlt) as E.
  rewrite Nat.mul_1_l, app_nil_r in E. unfold mh_nodes. rewrite Hn, Hw, Hr, E.
  split_and!; [by apply Forall_app; auto|by rewrite app_nil_r|simpl; unfold HASHSIZE; lia|done|simpl; lia|].
  destruct (Nat.eqb_spec (length l + 1) (2 ^ d)) as [Ef|Ef].
  - right. split_and!; [lia|done|done].
  - left. split_and!; [lia|simpl; by rewrite app_nil_r|done].
Qed.

Lemma absorbed_room d data h n :
  absorbed d data h -> length data + n <= HASHSIZE * 2 ^ d -> HASHSIZE <= length (mh_buffer h) + n ->
  exists l, Forall (fun x => length x = HASHSIZE) l /\ data = concat l ++ mh_buffer h /\
    length l < 2 ^ d /\ mh_depth h = d + 1 /\ mh_next_leaf h = 2 ^ d + length l /\
    mh_half_nodes h = waiting d 1 l /\ mh_root h = None.
Proof.
  intros (l & Hall & Hdata & Hbuf & Hd & Hn & Hcase) Hcap Hn32. exists l.
  assert (length (concat l) = HASHSIZE * length l) as Ec.
  { clear -Hall. induction Hall; simpl; [lia|]. rewrite length_app. unfold HASHSIZE in *. lia. }
  rewrite Hdata, length_app, Ec in Hcap. unfold HASHSIZE in *.
  destruct Hcase as [(? & ? & ?)|(? & _ & _)]; [split_and!; done|]. nia.
Qed.

(** The next bytes complete the buffer to a leaf. *)
Lemma absorb_bytes d data h rem :
  absorbed d data h -> length data + length rem <= HASHSIZE * 2 ^ d ->
  HASHSIZE - length (mh_buffer h) <= length rem ->
  exists h', process_leaf h (mh_buffer h ++ take (HASHSIZE - length (mh_buffer h)) rem) = Ok h' /\
    mh_buffer h' = mh_buffer h /\
    absorbed d (data ++ take (HASHSIZE - length (mh_buffer h)) rem) (with_buffer h' []).
Proof.
  intros Ha Hcap Hreq. pose proof Ha as (_ & _ & _ & Hbuf & _).
  destruct (absorbed_room d data h _ Ha Hcap ltac:(lia)) as (l & Hall & Hdata & Hlt & Hd & Hn & Hw & Hr).
  destruct (absorb_leaf d l (mh_buffer h ++ take (HASHSIZE - length (mh_buffer h)) rem) h)
    as (h' & -> & Eb & Ha'); try done.
  { rewrite length_app, length_take. lia. }
  exists h'. split_and!; [done|done|]. rewrite concat_app in Ha'. simpl in Ha'.
  by rewrite app_nil_r, app_assoc, <- Hdata in Ha'.
Qed.

Lemma write_loop_Ok fuel bytes ptr h d data :
  absorbed d data h -> length data + (length bytes - ptr) <= HASHSIZE * 2 ^ d ->
  length bytes + 2 <= fuel + ptr -> 1 <= fuel ->
  exists h', write_loop fuel bytes ptr h = Ok h' /\ absorbed d (data ++ drop ptr bytes) h'.
Proof.
  revert ptr h data. induction fuel as [|fuel IH]; intros ptr h data Ha Hcap Hf H1; [lia|].
  cbn [write_loop]. destruct (Nat.leb_spec ptr (length bytes)) as [Hp|Hp].
  2: { exists h. split; [done|]. by rewrite drop_ge, app_nil_r by lia. }
  set (rem := drop ptr bytes). assert (length rem = length bytes - ptr) as Hrem by apply length_drop.
  assert (forall k, drop (ptr + k) bytes = drop k rem) as Hdrop by (intros; unfold rem; by rewrite drop_drop).
  assert (take (Nat.min (length bytes) (ptr + HASHSIZE) - ptr) rem = take HASHSIZE rem) as ->.
  { destruct (Nat.le_ge_cases (length bytes) (ptr + HASHSIZE)); [rewrite !take_ge by lia; done|f_equal; lia]. }
  rewrite <- Hrem in Hcap. pose proof Ha as (_ & _ & _ & Hbuf & _). rewrite length_take.
  assert (forall k h', k <= length rem -> 0 < k -> absorbed d (data ++ take k rem) h' ->
    exists h2, write_loop fuel bytes (ptr + k) h' = Ok h2 /\ absorbed d (data ++ rem) h2) as Hnext.
  { intros k h' Hk Hk0 Ha'. destruct (IH (ptr + k) h' _ Ha') as (h2 & -> & Hh2);
      [rewrite length_app, length_take; lia|lia|lia|].
    exists h2. split; [done|]. by rewrite Hdrop, <- app_assoc, take_drop in Hh2. }
  destruct ((length (mh_buffer h) =? 0) && _) eqn:Ec1.
  - apply andb_true_iff in Ec1 as [E0%Nat.eqb_eq E32%Nat.eqb_eq].
    destruct (absorb_bytes d data h rem Ha Hcap ltac:(lia)) as (h' & E & Eb & Ha').
    apply nil_length_inv in E0. rewrite E0 in *. cbn [app length] in *. rewrite Nat.sub_0_r in *.
    rewrite E. simpl. apply Hnext; [lia|unfold HASHSIZE; lia|].
    destruct h'; unfold with_buffer in Ha'; simpl in *. by subst.
  - destruct (Nat.ltb_spec (length (mh_buffer h) + Nat.min HASHSIZE (length rem)) HASHSIZE) as [Hs|Hs].
    + rewrite take_ge by lia.
      destruct (IH (ptr + HASHSIZE) (with_buffer h (mh_buffer h ++ rem)) (data ++ rem)) as (h2 & -> & Hh2).
      { destruct Ha as (l & Hall & -> & _ & Hd & Hn & Hcase). exists l.
        split_and!; try done; [simpl; by rewrite app_assoc|simpl; rewrite length_app; lia]. }
      1-3: rewrite ?length_app; lia.
      exists h2. split; [done|]. by rewrite Hdrop, drop_ge, app_nil_r in Hh2 by lia.
    + rewrite take_take, Nat.min_l by lia.
      destruct (absorb_bytes d data h rem Ha Hcap ltac:(lia)) as (h' & -> & Eb & Ha').
      simpl. apply Hnext; [lia|lia|done].
Qed.

Lemma write_Ok h bytes d data :
  absorbed d data h -> length data + length bytes <= HASHSIZE * 2 ^ d ->
  exists h', write h bytes = Ok h' /\ absorbed d (data ++ bytes) h'.
Proof.
  intros Ha Hcap. destruct (write_loop_Ok (length bytes + 2) bytes 0 h d data Ha) as (h' & E & Ha');
    [lia|lia|lia|]. exists h'. split; [exact E|]. by rewrite drop_0 in Ha'.
Qed.

Lemma write_all_Ok h items d data :
  absorbed d data h -> length data + length (concat items) <= HASHSIZE * 2 ^ d ->
  exists h', write_all h items = Ok h' /\ absorbed d (data ++ concat items) h'.
Proof.
  revert h data. induction items as [|x items IH]; intros h data Ha Hcap.
  { exists h. split; [done|]. by rewrite app_nil_r. }
  cbn [concat write_all] in *. rewrite length_app in Hcap.
  destruct (write_Ok h x d data Ha ltac:(lia)) as (h1 & -> & Ha1). simpl.
  destruct (IH h1 (data ++ x) Ha1) as (h2 & -> & Ha2); [rewrite length_app; lia|].
  exists h2. split; [done|]. by rewrite app_assoc.
Qed.

Lemma with_depth_absorbed d : exists h, with_depth (d + 1) = Ok h /\ absorbed d [] h.
Proof.
  unfold with_depth. destruct (Nat.eqb_spec (d + 1) 0); [lia|]. eexists. split; [done|].
  exists []. pose proof (pow2_pos d). rewrite Nat.add_sub.
  split_and!; [constructor|done|simpl; unfold HASHSIZE; lia|done|simpl; lia|].
  left. split_and!; [simpl; lia|by rewrite waiting_nil|done].
Qed.

Lemma finish_loop_Ok d l h :
  d <= S ZERO_HASHES_MAX_INDEX -> mh_depth h = d + 1 -> mh_next_leaf h = 2 ^ d + length l ->
  (length l < 2 ^ d /\ mh_half_nodes h = waiting d 1 l /\ mh_root h = None) \/
  (length l = 2 ^ d /\ mh_half_nodes h = [] /\ mh_root h = Some (tree_root d l)) ->
  finish_loop (mh_depth h + 2) h = Ok (tree_root d l).
Proof.
  intros Hmax Hd Hn Hcase. rewrite Hd.
  assert (forall l0 fuel, 0 < length l0 < 2 ^ d -> d < fuel ->
    finish_loop fuel (with_nodes h (waiting d 1 l0, None)) = Ok (tree_root d l0)) as Hfill.
  { intros l0 fuel Hl0 Hfuel. destruct (finish_fill h d 1 l0 []) as (m & Hm & E);
      [lia|apply above_1|done|done|done|]. rewrite app_nil_r in E.
    replace fuel with (m + S (fuel - m - 1)) by lia. by rewrite E. }
  destruct Hcase as [(Hlt & Hw & Hr)|(_ & _ & Hr)].
  2: { replace (d + 1 + 2) with (S (d + 2)) by lia. cbn [finish_loop]. by rewrite Hr. }
  assert (h = with_nodes h (waiting d 1 l, None)) as Eh by (destruct h; simpl in *; by subst).
  destruct l as [|x l]; [|rewrite Eh; apply Hfill; simpl in *; lia].
  replace (d + 1 + 2) with (S (d + 2)) by lia. cbn [finish_loop]. rewrite Hr, Hw, waiting_nil.
  rewrite Hn. cbn [length]. rewrite Nat.add_0_r. destruct (Nat.eqb_spec (2 ^ d) 1) as [E1|E1].
  { destruct d as [|d]; [done|]. rewrite pow2_S in E1. pose proof (pow2_pos d). lia. }
  unfold zero_hash, get_zero_hash, get_depth. rewrite Nat.log2_pow2, Hd, Nat.sub_diag by lia. simpl.
  pose proof (supply_leaf d 1 [] Hash256_ZERO [] None ltac:(lia) above_1 (pow2_pos d)) as E.
  rewrite waiting_nil in E. cbn [app length] in E. rewrite Nat.mul_1_l, Nat.add_0_r in E.
  unfold mh_nodes. rewrite Hr, Hw, waiting_nil. unfold supply in E.
  destruct d as [|d]; [simpl in E1; lia|].
  replace (2 ^ S d) with (2 ^ d * 2) in * by (simpl; lia).
  rewrite Nat.Div0.mod_mul in E. pose proof (pow2_pos d).
  destruct (Nat.eqb_spec (2 ^ d * 2) 1) as [|_]; [lia|].
  destruct (Nat.eqb_spec (0 + 1) (2 ^ d * 2)) as [|_]; [lia|]. simpl (0 =? 0) in E. cbv iota in E.
  rewrite E, app_nil_r, Hfill by (simpl; lia). f_equal. apply tree_root_ext. intros [|i] _; done.
Qed.

Lemma leaves_length (l : list bytes) :
  Forall (fun x => length x = HASHSIZE) l -> length (concat l) = HASHSIZE * length l.
Proof. induction 1 as [|x l Hx _ IH]; simpl; [done|]. rewrite length_app, Hx, IH. unfold HASHSIZE. lia. Qed.

(** The chunks of whole leaves and a rest. *)
Definition padded_rest (buf : bytes) : list bytes := match buf with [] => [] | _ => [resize0 HASHSIZE buf] end.

Lemma resize0_exact n (x : bytes) : length x = n -> resize0 n x = x.
Proof. intros E. unfold resize0. by rewrite take_ge, E, Nat.sub_diag, app_nil_r by lia. Qed.

Lemma resize0_app n (x y : bytes) : length x = n -> resize0 n (x ++ y) = x.
Proof.
  intros E. unfold resize0. rewrite take_app_le, take_ge, length_app by lia.
  replace (n - (length x + length y)) with 0 by lia. by rewrite app_nil_r.
Qed.

Lemma chunks_cons x data :
  length x = HASHSIZE -> chunks (x ++ data) = x :: chunks data.
Proof.
  intros Hx. unfold chunks, div_ceil. rewrite length_app, Hx.
  replace (HASHSIZE + length data + (HASHSIZE - 1))
    with (length data + (HASHSIZE - 1) + 1 * HASHSIZE) by (unfold HASHSIZE; lia).
  rewrite Nat.div_add, Nat.add_1_r by (unfold HASHSIZE; lia). cbn [seq map]. f_equal.
  - unfold chunk_at. rewrite Nat.mul_0_r, drop_0. by apply resize0_app.
  - rewrite <- seq_shift, map_map. apply map_ext. intros i. unfold chunk_at.
    replace (HASHSIZE * S i) with (length x + HASHSIZE * i) by (rewrite Hx; lia).
    by rewrite <- drop_drop, drop_app_length.
Qed.

Lemma chunks_concat l buf :
  Forall (fun x => length x = HASHSIZE) l -> length buf < HASHSIZE ->
  chunks (concat l ++ buf) = l ++ padded_rest buf.
Proof.
  intros Hall Hbuf. induction Hall as [|x l Hx _ IH]; simpl.
  - destruct buf as [|b buf]; [done|]. unfold chunks, div_ceil.
    replace ((length (b :: buf) + (HASHSIZE - 1)) / HASHSIZE) with 1.
    { simpl. unfold chunk_at. by rewrite Nat.mul_0_r, drop_0. }
    apply (Nat.div_unique _ _ 1 (length buf)); simpl in *; unfold HASHSIZE in *; lia.
  - rewrite <- app_assoc, chunks_cons by done. by rewrite IH.
Qed.

Lemma leaves_inj (l l' : list bytes) :
  Forall (fun x => length x = HASHSIZE) l -> Forall (fun x => length x = HASHSIZE) l' ->
  concat l = concat l' -> l = l'.
Proof.
  intros Hl Hl' E. assert (length (@nil byte) < HASHSIZE) as Hz by (simpl; unfold HASHSIZE; lia).
  pose proof (chunks_concat l [] Hl Hz) as E1. pose proof (chunks_concat l' [] Hl' Hz) as E2.
  simpl in E1, E2. rewrite !app_nil_r in E1, E2. congruence.
Qed.

Lemma finish_Ok d data h :
  absorbed d data h -> length data <= HASHSIZE * 2 ^ d -> d <= S ZERO_HASHES_MAX_INDEX ->
  finish h = Ok (tree_root d (chunks data)).
Proof.
  intros (l & Hall & -> & Hbuf & Hd & Hn & Hcase) Hcap Hmax. rewrite chunks_concat by done.
  unfold finish. destruct (mh_buffer h) as [|b buf] eqn:Eb.
  { simpl. rewrite app_nil_r. by apply finish_loop_Ok. }
  cbn [length Nat.eqb]. set (pad := resize0 HASHSIZE (b :: buf)).
  rewrite length_app, leaves_length in Hcap by done.
  assert (length pad = HASHSIZE) as Hpad.
  { unfold pad, resize0. rewrite length_app, length_take, length_replicate. lia. }
  destruct Hcase as [(Hlt & Hw & Hr)|(Hf & _ & _)]; [|cbn [length] in Hcap; nia].
  destruct (absorb_leaf d l pad h Hall Hpad Hlt Hd Hn Hw Hr) as (h' & -> & _ & (l' & Hall' & Hl' & Hrest)).
  simpl. assert (l' = l ++ [pad]) as ->.
  { simpl in Hl'. rewrite app_nil_r in Hl'. apply leaves_inj; [done|by apply Forall_app; auto|done]. }
  destruct Hrest as (_ & Hd' & Hn' & Hcase'). simpl in *. by apply finish_loop_Ok.
Qed.

(** ** Chunks *)

Lemma take_plus {A} n m (x : list A) : take (n + m) x = take n x ++ take m (drop n x).
Proof.
  revert x. induction n as [|n IH]; intros x; simpl; [done|].
  destruct x as [|a x]; simpl; [by rewrite take_nil|by rewrite IH].
Qed.

Lemma resize0_plus n m (x : bytes) : resize0 (n + m) x = resize0 n x ++ resize0 m (drop n x).
Proof.
  unfold resize0. rewrite length_drop. destruct (Nat.le_ge_cases n (length x)).
  - replace (n - length x) with 0 by lia. cbn [replicate]. rewrite app_nil_r, app_assoc.
    rewrite take_plus. by replace (n + m - length x) with (m - (length x - n)) by lia.
  - rewrite !take_ge by lia. rewrite drop_ge, take_nil by lia. cbn [app].
    rewrite <- app_assoc, <- replicate_add. f_equal. f_equal. lia.
Qed.

Lemma resize0_nil n : resize0 n [] = replicate n x00.
Proof. unfold resize0. by rewrite take_nil, Nat.sub_0_r. Qed.

(** A leaf of a byte string, zero beyond its end. *)
Lemma chunks_lookup data i : default Hash256_ZERO (chunks data !! i) = chunk_at data i.
Proof.
  unfold chunks. rewrite list_lookup_fmap. destruct (decide (i < div_ceil (length data) HASHSIZE)).
  - by rewrite lookup_seq_lt by done.
  - rewrite lookup_seq_ge by lia. simpl. unfold chunk_at. rewrite drop_ge, resize0_nil; [done|].
    unfold div_ceil in *. pose proof (Nat.div_mod_eq (length data + (HASHSIZE - 1)) HASHSIZE).
    pose proof (Nat.mod_upper_bound (length data + (HASHSIZE - 1)) HASHSIZE).
    unfold HASHSIZE in *. nia.
Qed.

Lemma chunk_pair data i :
  resize0 (HASHSIZE * 2) (drop (i * HASHSIZE * 2) data) = chunk_at data (2 * i) ++ chunk_at data (2 * i + 1).
Proof.
  replace (HASHSIZE * 2) with (HASHSIZE + HASHSIZE) by (unfold HASHSIZE; lia).
  rewrite resize0_plus, drop_drop. unfold chunk_at. f_equal; f_equal; f_equal; unfold HASHSIZE; lia.
Qed.

Lemma length_chunks data : length (chunks data) = div_ceil (length data) HASHSIZE.
Proof. unfold chunks. by rewrite length_map, length_seq. Qed.

Lemma levels_room n : n <= 2 ^ levels n.
Proof.
  unfold levels. destruct (Nat.le_gt_cases n 1); [destruct n as [|[|]]; simpl; lia|].
  by apply Nat.log2_up_spec.
Qed.

Lemma chunks_room (data : bytes) n :
  div_ceil (length data) HASHSIZE <= n -> length data <= HASHSIZE * 2 ^ levels n.
Proof.
  intros Hn. pose proof (levels_room n). unfold div_ceil in Hn.
  pose proof (Nat.div_mod_eq (length data + (HASHSIZE - 1)) HASHSIZE).
  pose proof (Nat.mod_upper_bound (length data + (HASHSIZE - 1)) HASHSIZE). unfold HASHSIZE in *. nia.
Qed.

Lemma with_leaves_absorbed n : exists h, with_leaves n = Ok h /\ absorbed (levels n) [] h.
Proof.
  unfold with_leaves, get_depth, next_power_of_two. rewrite Nat.log2_pow2 by lia.
  apply with_depth_absorbed.
Qed.

Lemma stream_Ok n pieces :
  length (concat pieces) <= HASHSIZE * 2 ^ levels n -> levels n <= S ZERO_HASHES_MAX_INDEX ->
  exists h0 h1, with_leaves n = Ok h0 /\ write_all h0 pieces = Ok h1 /\
    finish h1 = Ok (tree_root (levels n) (chunks (concat pieces))).
Proof.
  intros Hcap Hn. destruct (with_leaves_absorbed n) as (h0 & E0 & A0).
  destruct (write_all_Ok h0 pieces _ _ A0 Hcap) as (h1 & E1 & A1). exists h0, h1.
  split_and!; [done|done|]. by apply finish_Ok.
Qed.

Lemma merkle_root_Ok bytes m :
  let n := Nat.max (div_ceil (length bytes) HASHSIZE) m in
  levels n <= S ZERO_HASHES_MAX_INDEX -> merkle_root bytes m = Ok (tree_root (levels n) (chunks bytes)).
Proof.
  intros n Hn. pose proof (chunks_room bytes n ltac:(lia)) as Hroom. unfold merkle_root. fold n.
  destruct (Nat.eqb_spec n 0) as [E|]; [|destruct (Nat.eqb_spec n 1) as [E|]; [|destruct (Nat.eqb_spec n 2) as [E|]]].
  - f_equal. rewrite E. simpl. assert (length (chunks bytes) = 0) as ->%nil_length_inv; [|done].
    rewrite length_chunks. lia.
  - f_equal. rewrite E. simpl. rewrite head_lookup, chunks_lookup. unfold chunk_at.
    by rewrite Nat.mul_0_r, drop_0.
  - f_equal. rewrite E. simpl. unfold hash32_concat. f_equal.
    rewrite !head_lookup, lookup_take_lt, lookup_drop, !chunks_lookup by lia.
    pose proof (chunk_pair bytes 0) as Ep. by rewrite drop_0 in Ep.
  - destruct (stream_Ok n [bytes]) as (h0 & h1 & -> & E1 & E2); [simpl; by rewrite app_nil_r|done|].
    simpl in E1 |- *. destruct (write h0 bytes) as [h|]; [|done]. injection E1 as ->. simpl.
    rewrite E2. simpl. by rewrite app_nil_r.
Qed.

End Streaming.
