(* ===== verification/TreeHashRef.v ===== *)
(** * The tree hash: the reference routines, and the theorems

    [merkleize_padded] works level by level in a shrinking buffer,
    [merkleize_standard] in a heap-shaped array from the last pair down.  Both
    compute the recursive tree of [TreeHashSpec.v], so all three routines
    agree. *)

From S2P Require Import Prelude Errors Types Runtime Toy Ics24 TreeHash TreeHashSpec.
From Stdlib Require Import ZArith Lia.
From Stdlib.Strings Require Import Byte.
From stdpp Require Import prelude list.

Section Padded.
Context `{Sha2} `{!Sha2Ok}.

(** Node [i] at height [k] of the tree over [l]. *)
Definition node (l : list bytes) (k i : nat) : bytes := tree_root k (drop (i * 2 ^ k) l).
Definition nodes_at (l : list bytes) (k n : nat) : list bytes := map (node l k) (seq 0 n).

Lemma tree_root_take d l : tree_root d (take (2 ^ d) l) = tree_root d l.
Proof. apply tree_root_ext. intros i Hi. by rewrite lookup_take_lt. Qed.

Lemma node_S l k i : node l (S k) i = hash32_concat (node l k (2 * i)) (node l k (2 * i + 1)).
Proof.
  unfold node. cbn [tree_root]. rewrite tree_root_take, drop_drop, pow2_S.
  f_equal; f_equal; f_equal; lia.
Qed.

Lemma node_beyond l k i : length l <= i * 2 ^ k -> node l k i = ZERO_HASHES k.
Proof. intros Hi. unfold node. by rewrite drop_ge, tree_root_nil. Qed.

Lemma length_node_S l k i : length (node l (S k) i) = 32.
Proof. rewrite node_S. apply sha2_length. Qed.

Lemma nodes_at_lookup l k n i : i < n -> nodes_at l k n !! i = Some (node l k i).
Proof. intros Hi. unfold nodes_at. by rewrite list_lookup_fmap, lookup_seq_lt. Qed.

Lemma nodes_at_S l k n : nodes_at l k (S n) = nodes_at l k n ++ [node l k n].
Proof. unfold nodes_at. by rewrite seq_S, map_app. Qed.

Lemma length_nodes_at l k n : length (nodes_at l k n) = n.
Proof. unfold nodes_at. by rewrite length_map, length_seq. Qed.

(** Storing parent [i] when parents [0 .. i - 1] are in place. *)
Lemma store_parent l k i (old : list bytes) v :
  i < length old -> v = node l (S k) i ->
  chunk_set (nodes_at l (S k) i ++ drop i old) i v = Ok (nodes_at l (S k) (S i) ++ drop (S i) old).
Proof.
  intros Hi ->. unfold chunk_set. rewrite length_app, length_nodes_at, length_drop, length_node_S.
  destruct (Nat.ltb_spec i (i + (length old - i))); [|lia]. simpl (_ && _). cbv iota. f_equal.
  rewrite insert_app_r_alt by (rewrite length_nodes_at; lia).
  rewrite length_nodes_at, Nat.sub_diag, nodes_at_S, <- app_assoc.
  destruct (drop i old) as [|x rest] eqn:E.
  { apply (f_equal length) in E. rewrite length_drop in E. simpl in E. lia. }
  simpl. f_equal. f_equal. replace (S i) with (i + 1) by lia. by rewrite <- drop_drop, E.
Qed.

Lemma round_loop_Ok l k cnt n i :
  length l <= cnt * 2 ^ S k -> S k <= ZERO_HASHES_MAX_INDEX -> 2 * (i + n) <= cnt + 1 ->
  round_loop n i (S k) (nodes_at l (S (S k)) i ++ drop i (nodes_at l (S k) cnt)) =
  Ok (nodes_at l (S (S k)) (i + n) ++ drop (i + n) (nodes_at l (S k) cnt)).
Proof.
  intros Hl Hk. revert i. induction n as [|n IH]; intros i Hi; [by rewrite Nat.add_0_r|].
  cbn [round_loop]. unfold chunk_get.
  assert (forall j, i <= j -> (nodes_at l (S (S k)) i ++ drop i (nodes_at l (S k) cnt)) !! j =
    nodes_at l (S k) cnt !! j) as Hget.
  { intros j Hj. rewrite lookup_app_r, length_nodes_at, lookup_drop by (rewrite length_nodes_at; lia).
    f_equal. lia. }
  rewrite !Hget by lia. rewrite nodes_at_lookup by lia.
  assert (exists r, (match nodes_at l (S k) cnt !! (i * 2 + 1) with
    | Some r => Ok (node l (S k) (i * 2), r)
    | None => zero ← get_zero_hash (S k); Ok (node l (S k) (i * 2), zero) end) =
      Ok (node l (S k) (i * 2), r) /\ r = node l (S k) (i * 2 + 1)) as (r & -> & ->).
  { destruct (decide (i * 2 + 1 < cnt)); [rewrite nodes_at_lookup by done; eauto|].
    rewrite lookup_ge_None_2 by (rewrite length_nodes_at; lia).
    unfold get_zero_hash. rewrite (proj2 (Nat.leb_le _ _) Hk). simpl. eexists. split; [done|].
    rewrite node_beyond; [done|]. nia. }
  rewrite result_ret_bind. cbn [fst snd]. rewrite !length_node_S. simpl (negb _). cbv iota.
  rewrite (store_parent _ (S k)); [|rewrite length_nodes_at; lia|].
  2: { rewrite (node_S l (S k)). f_equal; f_equal; lia. }
  simpl. replace (i + S n) with (S i + n) by lia. apply IH. lia.
Qed.

Lemma half_up n : 2 * (next_even_number n / 2) = next_even_number n /\ n <= next_even_number n <= n + 1.
Proof.
  unfold next_even_number. pose proof (Nat.div_mod_eq n 2). pose proof (Nat.mod_upper_bound n 2).
  pose proof (Nat.div_mod_eq (n + n mod 2) 2).
  assert ((n + n mod 2) mod 2 = 0) as Hm; [|lia].
  rewrite Nat.Div0.add_mod_idemp_r. replace (n + n) with (n * 2) by lia. apply Nat.Div0.mod_mul.
Qed.

Lemma rounds_Ok l n k cnt :
  length l <= cnt * 2 ^ S k -> 1 <= cnt <= 2 ^ n -> k + n <= ZERO_HASHES_MAX_INDEX ->
  rounds n (S k) (nodes_at l (S k) cnt) = Ok (nodes_at l (S k + n) 1).
Proof.
  revert k cnt. induction n as [|n IH]; intros k cnt Hl Hc Hk.
  { simpl in Hc. assert (cnt = 1) as -> by lia. by rewrite Nat.add_0_r. }
  cbn [rounds]. rewrite length_nodes_at. destruct (half_up cnt) as [He Hb].
  set (p := next_even_number cnt / 2) in *.
  pose proof (round_loop_Ok l k cnt p 0 Hl ltac:(lia) ltac:(lia)) as E. cbn [Nat.add] in E.
  rewrite drop_0 in E. change (nodes_at l (S (S k)) 0) with (@nil bytes) in E. cbn [app] in E.
  rewrite E, result_ret_bind, take_app_le, take_ge by (rewrite ?length_nodes_at; lia).
  rewrite IH; [f_equal; f_equal; lia| | |lia].
  - rewrite (pow2_S (S k)). nia.
  - rewrite pow2_S in Hc. lia.
Qed.

Lemma node_leaf data i : node (chunks data) 0 i = chunk_at data i.
Proof. unfold node. simpl. by rewrite Nat.mul_1_r, head_lookup, lookup_drop, Nat.add_0_r, chunks_lookup. Qed.

Lemma first_round_Ok bytes total n i :
  i + n = total -> (forall j, j < total -> j * HASHSIZE * 2 <= length bytes) ->
  first_round n i bytes (nodes_at (chunks bytes) 1 i ++ drop i (with_capacity total)) =
  Ok (nodes_at (chunks bytes) 1 total).
Proof.
  intros Hn Hlen. revert i Hn. induction n as [|n IH]; intros i Hn.
  { rewrite Nat.add_0_r in Hn. subst. simpl. rewrite drop_ge, app_nil_r; [done|].
    unfold with_capacity. by rewrite length_replicate. }
  cbn [first_round]. change BYTES_PER_CHUNK with HASHSIZE.
  specialize (Hlen i ltac:(lia)) as Hi. destruct (Nat.ltb_spec (length bytes) (i * HASHSIZE * 2)); [lia|].
  rewrite (store_parent _ 0); [rewrite result_ret_bind; apply IH; lia| |].
  - unfold with_capacity. rewrite length_replicate. lia.
  - rewrite node_S, !node_leaf. unfold hash32_concat. by rewrite chunk_pair.
Qed.

(** The parents of the leaves: enough for them all, no more than the tree
    has, and each with a byte to read. *)
Lemma initial_parents (bytes : list byte) m :
  let n := Nat.max (div_ceil (length bytes) HASHSIZE) m in
  let p := Nat.max 1 (next_even_number (div_ceil (length bytes) HASHSIZE) / 2) in
  2 <= n -> 1 <= levels n /\ div_ceil (length bytes) HASHSIZE <= p * 2 /\ 1 <= p <= 2 ^ (levels n - 1) /\
  (forall j, j < p -> j * HASHSIZE * 2 <= length bytes).
Proof.
  intros n p Hn. set (q := div_ceil (length bytes) HASHSIZE) in *.
  destruct (half_up q) as [He Hb]. fold (div_ceil (length bytes) HASHSIZE) in *.
  assert (1 <= levels n) as H1 by (apply Nat.log2_up_pos; lia).
  pose proof (levels_room n) as Hroom. destruct (levels n) as [|d] eqn:Ed; [lia|].
  rewrite pow2_S in Hroom. replace (S d - 1) with d by lia. pose proof (pow2_pos d).
  split_and!; [lia|unfold p; lia|unfold p; lia|unfold p; lia|].
  intros j Hj. destruct j as [|j]; [lia|]. assert (2 * S j < q) as Hq by (unfold p in Hj; lia).
  unfold q, div_ceil in Hq. pose proof (Nat.div_mod_eq (length bytes + (HASHSIZE - 1)) HASHSIZE).
  unfold HASHSIZE in *. nia.
Qed.

Lemma one_chunk (bytes : list byte) : length bytes <= HASHSIZE -> div_ceil (length bytes) HASHSIZE <= 1.
Proof.
  intros Hb. assert (div_ceil (length bytes) HASHSIZE < 2); [|lia].
  apply Nat.Div0.div_lt_upper_bound. unfold HASHSIZE in *. lia.
Qed.

Lemma tree_root_chunk data : tree_root 0 (chunks data) = resize0 HASHSIZE data.
Proof. simpl. rewrite head_lookup, chunks_lookup. unfold chunk_at. by rewrite Nat.mul_0_r, drop_0. Qed.

Lemma merkleize_padded_Ok bytes m :
  let n := Nat.max (div_ceil (length bytes) HASHSIZE) m in
  levels n <= S ZERO_HASHES_MAX_INDEX ->
  merkleize_padded bytes m = Ok (tree_root (levels n) (chunks bytes)).
Proof.
  intros n Hn. unfold merkleize_padded. change BYTES_PER_CHUNK with HASHSIZE. fold n.
  destruct ((length bytes <=? HASHSIZE) && (m <=? 1)) eqn:Esmall.
  - apply andb_true_iff in Esmall as [Hb%Nat.leb_le Hm%Nat.leb_le].
    pose proof (one_chunk bytes Hb). assert (levels n = 0) as -> by (apply Nat.log2_up_eqn0; lia).
    by rewrite tree_root_chunk.
  - assert (2 <= n) as Hn2.
    { apply andb_false_iff in Esmall as [Hb%Nat.leb_gt|Hm%Nat.leb_gt]; [|lia].
      assert (2 <= div_ceil (length bytes) HASHSIZE); [|lia].
      apply Nat.div_le_lower_bound; unfold HASHSIZE in *; lia. }
    destruct (initial_parents bytes m Hn2) as (H1 & Hq & Hp & Hj). fold n in H1, Hp.
    set (p := Nat.max 1 _) in *. unfold next_power_of_two. rewrite Nat.log2_pow2 by lia.
    fold (levels n). destruct (Nat.ltb_spec (levels n + 1) 2); [lia|].
    pose proof (first_round_Ok bytes p p 0 eq_refl Hj) as E1. rewrite drop_0 in E1.
    change (nodes_at (chunks bytes) 1 0) with (@nil (list byte)) in E1. cbn [app] in E1.
    rewrite E1, result_ret_bind.
    rewrite (rounds_Ok _ _ 0 p), result_ret_bind; [|rewrite length_chunks; change (2 ^ 1) with 2; lia| |lia].
    2: { by replace (levels n + 1 - 1 - 1) with (levels n - 1) by lia. }
    replace (1 + (levels n + 1 - 1 - 1)) with (S (levels n - 1)) by lia.
    unfold nodes_at. cbn [seq map concat]. rewrite app_nil_r, length_node_S. cbv iota. simpl (_ =? _). cbv iota.
    f_equal. unfold node. rewrite Nat.mul_0_l, drop_0. f_equal. lia.
Qed.

End Padded.

Section Standard.
Context `{Sha2} `{!Sha2Ok}.

(** The value of position [p] of the heap of a tree of [d] levels. *)
Definition heap_value (d : nat) (l : list bytes) (p : nat) : bytes :=
  node l (d - Nat.log2 (p + 1)) (p + 1 - 2 ^ Nat.log2 (p + 1)).

Lemma heap_value_node d l p :
  p + 1 < 2 ^ d -> heap_value d l p = hash32_concat (heap_value d l (2 * p + 1)) (heap_value d l (2 * p + 2)).
Proof.
  intros Hp. unfold heap_value.
  replace (2 * p + 1 + 1) with (2 * (p + 1)) by lia. replace (2 * p + 2 + 1) with (2 * (p + 1) + 1) by lia.
  rewrite Nat.log2_double, Nat.log2_succ_double by lia.
  pose proof (Nat.log2_spec (p + 1) ltac:(lia)) as [Hlo _].
  assert (Nat.log2 (p + 1) < d) as Hlt by (apply Nat.log2_lt_pow2; lia).
  replace (d - Nat.log2 (p + 1)) with (S (d - S (Nat.log2 (p + 1)))) by lia.
  rewrite node_S, pow2_S. f_equal; f_equal; lia.
Qed.

Lemma heap_value_leaf d data i :
  i < 2 ^ d -> heap_value d (chunks data) (2 ^ d - 1 + i) = chunk_at data i.
Proof.
  intros Hi. pose proof (pow2_pos d). unfold heap_value.
  replace (2 ^ d - 1 + i + 1) with (2 ^ d + i) by lia.
  assert (Nat.log2 (2 ^ d + i) = d) as ->.
  { apply Nat.log2_unique; [lia|]. rewrite pow2_S. lia. }
  rewrite Nat.sub_diag, node_leaf. f_equal. lia.
Qed.

(** The three ways the loop reads a pair. *)
Lemma read_pair (o : bytes) (k : nat) :
  let i := (2 * k + 1) * HASHSIZE in
  (if i + MERKLE_HASH_CHUNK <=? length o then sha2 (take MERKLE_HASH_CHUNK (drop i o))
   else if i <=? length o then sha2 (resize0 MERKLE_HASH_CHUNK (drop i o))
   else sha2 (replicate MERKLE_HASH_CHUNK x00)) =
  hash32_concat (chunk_at o (2 * k + 1)) (chunk_at o (2 * k + 2)).
Proof.
  intros i. unfold hash32_concat.
  assert (chunk_at o (2 * k + 1) ++ chunk_at o (2 * k + 2) = resize0 MERKLE_HASH_CHUNK (drop i o)) as ->.
  { unfold MERKLE_HASH_CHUNK. change (2 * BYTES_PER_CHUNK) with (HASHSIZE + HASHSIZE).
    rewrite resize0_plus, drop_drop. unfold chunk_at, i. f_equal; f_equal; f_equal; lia. }
  destruct (Nat.leb_spec (i + MERKLE_HASH_CHUNK) (length o)) as [Hle|_].
  - unfold resize0. rewrite length_drop.
    replace (MERKLE_HASH_CHUNK - (length o - i)) with 0 by lia. by rewrite app_nil_r.
  - destruct (Nat.leb_spec i (length o)); [done|]. by rewrite drop_ge, resize0_nil by lia.
Qed.

Lemma chunk_at_copy o k v p :
  length v = HASHSIZE -> (k + 1) * HASHSIZE <= length o -> k <= p ->
  chunk_at (copy_at o (k * HASHSIZE) v) p = if p =? k then v else chunk_at o p.
Proof.
  intros Hv Ho Hp. unfold chunk_at, copy_at. rewrite Hv.
  assert (length (take (k * HASHSIZE) o) = k * HASHSIZE) as Ht by (rewrite length_take; lia).
  destruct (Nat.eqb_spec p k) as [->|Hne].
  - rewrite drop_app_ge, Ht by lia. replace (HASHSIZE * k - k * HASHSIZE) with 0 by lia.
    rewrite drop_0. by apply resize0_app.
  - rewrite app_assoc, drop_app_ge, drop_drop by (rewrite length_app, Ht, Hv; unfold HASHSIZE; lia).
    rewrite length_app, Ht, Hv. f_equal. f_equal. unfold HASHSIZE. lia.
Qed.

Lemma length_copy o j v : j + length v <= length o -> length (copy_at o j v) = length o.
Proof. intros Hj. unfold copy_at. rewrite !length_app, length_take, length_drop. lia. Qed.

Lemma standard_loop_Ok d l n o :
  n < 2 ^ d -> n * HASHSIZE <= length o ->
  (forall p, n <= p -> p < 2 ^ S d - 1 -> chunk_at o p = heap_value d l p) ->
  let r := standard_loop n ((2 * n + 1) * HASHSIZE) (n * HASHSIZE) o in
  length r = length o /\ chunk_at r 0 = heap_value d l 0.
Proof.
  revert o. induction n as [|n IH]; intros o Hn Ho Hval.
  { split; [done|]. apply Hval; [lia|]. rewrite pow2_S. pose proof (pow2_pos d). lia. }
  cbn [standard_loop].
  replace ((2 * S n + 1) * HASHSIZE - MERKLE_HASH_CHUNK) with ((2 * n + 1) * HASHSIZE)
    by (unfold HASHSIZE, MERKLE_HASH_CHUNK, BYTES_PER_CHUNK; lia).
  replace (S n * HASHSIZE - HASHSIZE) with (n * HASHSIZE) by lia. rewrite read_pair.
  set (v := hash32_concat _ _). assert (length v = HASHSIZE) as Hv by apply sha2_length.
  assert (length (copy_at o (n * HASHSIZE) v) = length o) as Hlen by (apply length_copy; lia).
  rewrite <- Hlen. apply IH; [lia|lia|].
  intros p Hp Hmax. rewrite chunk_at_copy by (done || lia).
  destruct (Nat.eqb_spec p n) as [->|Hne]; [|apply Hval; lia].
  rewrite pow2_S in Hval. unfold v. rewrite !Hval by lia. by rewrite <- heap_value_node by lia.
Qed.

Lemma merkleize_standard_Ok bytes :
  merkleize_standard bytes = tree_root (levels (div_ceil (length bytes) HASHSIZE)) (chunks bytes).
Proof.
  unfold merkleize_standard. set (q := div_ceil (length bytes) HASHSIZE).
  destruct (Nat.leb_spec (length bytes) HASHSIZE) as [Hb|Hb].
  - pose proof (one_chunk bytes Hb). assert (levels q = 0) as -> by (apply Nat.log2_up_eqn0; lia).
    by rewrite tree_root_chunk.
  - assert (2 <= q) as Hq by (apply Nat.div_le_lower_bound; unfold HASHSIZE in *; lia).
    unfold num_sanitized_leaves, num_nodes, next_power_of_two. fold q. fold (levels q). set (d := levels q).
    assert (1 <= d) as Hd by (apply Nat.log2_up_pos; lia).
    pose proof (pow2_pos d) as Hpos. assert (2 <= 2 ^ d) as H2.
    { destruct d as [|d']; [lia|]. rewrite pow2_S. pose proof (pow2_pos d'). lia. }
    replace (2 * 2 ^ d - 1 - 2 ^ d) with (2 ^ d - 1) by lia. set (n := 2 ^ d - 1).
    replace (2 * 2 ^ d - 1) with (2 * n + 1) by (unfold n; lia).
    replace ((2 * n + 1) * HASHSIZE / MERKLE_HASH_CHUNK) with n.
    2: { apply (Nat.div_unique _ _ n HASHSIZE); unfold HASHSIZE, MERKLE_HASH_CHUNK, BYTES_PER_CHUNK; lia. }
    set (o := replicate (n * HASHSIZE) x00 ++ bytes).
    destruct (standard_loop_Ok d (chunks bytes) n o) as [Hlen Hroot].
    { unfold n. lia. }
    { unfold o. rewrite length_app, length_replicate. lia. }
    { intros p Hp Hmax. rewrite pow2_S in Hmax. replace p with (2 ^ d - 1 + (p - n)) by (unfold n in *; lia).
      rewrite heap_value_leaf by (unfold n in *; lia). unfold chunk_at, o. f_equal.
      rewrite drop_app_ge, length_replicate by (rewrite length_replicate; unfold n in *; nia).
      f_equal. unfold n. nia. }
    unfold chunk_at in Hroot. rewrite Nat.mul_0_r, drop_0 in Hroot. unfold resize0 in Hroot.
    replace (HASHSIZE - length _) with 0 in Hroot
      by (rewrite Hlen; unfold o; rewrite length_app; lia).
    rewrite app_nil_r in Hroot. rewrite Hroot. unfold heap_value. simpl (0 + 1). rewrite Nat.log2_1.
    unfold node. by rewrite Nat.sub_0_r, Nat.mul_0_l, drop_0.
Qed.

End Standard.

(** ** More leaves than the tree has *)

Section Excess.
Context `{Sha2} `{!Sha2Ok}.

Lemma write_loop_S fuel bytes ptr h :
  write_loop (S fuel) bytes ptr h =
  if ptr <=? length bytes then
    let slice := take (Nat.min (length bytes) (ptr + HASHSIZE) - ptr) (drop ptr bytes) in
    let buf_len := length (mh_buffer h) in
    if (buf_len =? 0) && (length slice =? HASHSIZE) then
      h ← process_leaf h slice; write_loop fuel bytes (ptr + HASHSIZE) h
    else if buf_len + length slice <? HASHSIZE then
      write_loop fuel bytes (ptr + HASHSIZE) (with_buffer h (mh_buffer h ++ slice))
    else
      let required := HASHSIZE - buf_len in
      h ← process_leaf h (mh_buffer h ++ take required slice);
      write_loop fuel bytes (ptr + required) (with_buffer h [])
  else Ok h.
Proof. done. Qed.

Lemma process_leaf_buffer h leaf h' : process_leaf h leaf = Ok h' -> mh_buffer h' = mh_buffer h.
Proof. unfold process_leaf. intros E. repeat case_match; simplify_eq; done. Qed.

(** A whole leaf, from an empty buffer. *)
Lemma write_leaf h leaf :
  length leaf = HASHSIZE -> mh_buffer h = [] -> write h leaf = process_leaf h leaf.
Proof.
  intros Hl Hb. unfold write. rewrite Nat.add_comm. cbn [Nat.add].
  rewrite write_loop_S. cbn [Nat.leb]. rewrite drop_0, take_ge by (rewrite Hl; unfold HASHSIZE; lia).
  cbv zeta. rewrite Hl, Hb. cbn [length andb Nat.eqb]. rewrite Nat.eqb_refl.
  destruct (process_leaf h leaf) as [h'|] eqn:E; [|done]. rewrite result_ret_bind.
  apply process_leaf_buffer in E. rewrite Hb in E.
  rewrite write_loop_S, Hl. cbn [Nat.add]. rewrite Nat.leb_refl.
  rewrite drop_ge, take_nil, E by (rewrite Hl; done). cbv zeta. cbn [length app Nat.eqb andb Nat.add].
  change HASHSIZE with (S 31). cbn [Nat.eqb Nat.ltb Nat.leb]. rewrite write_loop_S, Hl.
  change HASHSIZE with 32. simpl (_ <=? _). cbv iota. f_equal.
  destruct h'; unfold with_buffer; simpl in *; by subst.
Qed.

Lemma write_all_app h l1 l2 : write_all h (l1 ++ l2) = (h' ← write_all h l1; write_all h' l2).
Proof.
  revert h. induction l1 as [|x l1 IH]; intros h; [done|]. cbn [app write_all].
  destruct (write h x); [apply IH|done].
Qed.

(** Leaves of a second tree, with the root of the first one known. *)
Lemma second_tree d h l r :
  Forall (fun x => length x = HASHSIZE) l -> length l < 2 ^ d -> mh_buffer h = [] ->
  mh_depth h = d + 1 -> mh_next_leaf h = 2 * 2 ^ d -> mh_half_nodes h = [] -> mh_root h = Some r ->
  exists h', write_all h l = Ok h' /\ mh_root h' = Some r /\ mh_buffer h' = [].
Proof.
  intros Hall Hlt Hb Hd Hn Hw Hr.
  assert (exists h', write_all h l = Ok h' /\ mh_root h' = Some r /\ mh_buffer h' = [] /\
    mh_depth h' = d + 1 /\ mh_next_leaf h' = 2 * 2 ^ d + length l /\ mh_half_nodes h' = waiting d 2 l)
    as (h' & ? & ? & ? & _); [|eauto].
  induction l as [|x l IH] using rev_ind.
  { exists h. split_and!; [done..|simpl; lia|by rewrite waiting_nil]. }
  apply Forall_app in Hall as [Hall [Hx _]%Forall_cons]. rewrite length_app in Hlt. cbn [length] in Hlt.
  destruct (IH Hall ltac:(lia)) as (h1 & E1 & Hr1 & Hb1 & Hd1 & Hn1 & Hw1).
  exists (next_leaf_of (with_nodes h1 (waiting d 2 (l ++ [x]), Some r))).
  assert (above 2 []) as Hab by (split_and!; [constructor|done|done]).
  pose proof (supply_leaf d 2 l x [] (Some r) ltac:(lia) Hab ltac:(lia)) as Es. rewrite !app_nil_r in Es.
  destruct (Nat.eqb_spec (length l + 1) (2 ^ d)) as [|_]; [lia|].
  split; [|split_and!; try done; simpl; rewrite ?length_app, ?Hn1; simpl; lia].
  rewrite write_all_app, E1, result_ret_bind. cbn [write_all]. rewrite write_leaf by done.
  rewrite process_leaf_supply; [|done|rewrite Hd1, Hn1, !Nat.add_1_r, !pow2_S; lia].
  unfold mh_nodes. by rewrite Hn1, Hw1, Hr1, Es.
Qed.

Lemma excess_leaves d l1 l2 :
  Forall (fun x => length x = HASHSIZE) (l1 ++ l2) -> length l1 = 2 ^ d -> length l2 < 2 ^ d ->
  exists h0 h1, with_depth (d + 1) = Ok h0 /\ write_all h0 (l1 ++ l2) = Ok h1 /\
    finish h1 = Ok (tree_root d l1).
Proof.
  intros [Hall1 Hall2]%Forall_app H1 H2. destruct (with_depth_absorbed d) as (h0 & E0 & A0).
  destruct (write_all_Ok h0 l1 d [] A0) as (h & E1 & (l & Hall & Hl & Hb & Hd & Hn & Hcase)).
  { rewrite leaves_length by done. rewrite H1. simpl. lia. }
  cbn [app] in Hl. assert (mh_buffer h = [] /\ l = l1) as [Eb ->].
  { assert (length (mh_buffer h) = 0) as Eb0%nil_length_inv.
    { apply (f_equal length) in Hl. rewrite length_app, !leaves_length in Hl by done.
      unfold HASHSIZE in *. lia. }
    split; [done|]. rewrite Eb0, app_nil_r in Hl. by apply leaves_inj. }
  destruct Hcase as [(Hlt & _)|(_ & Hw & Hr)]; [lia|].
  destruct (second_tree d h l2 (tree_root d l1) Hall2 H2 Eb Hd ltac:(lia) Hw Hr) as (h' & E' & Hr' & Hb').
  exists h0, h'. split; [done|]. split; [by rewrite write_all_app, E1|].
  unfold finish. rewrite Hb'. simpl. rewrite Nat.add_comm. cbn [Nat.add finish_loop]. by rewrite Hr'.
Qed.

End Excess.

(** ** Theorems *)

Section TreeHashTheorems.
Context `{Sha2} `{!Sha2Ok}.

(** C33: The optimised Merkle root is the Merkle root.  For a tree of at most
    49 levels, [merkle_root] (with its shortcuts for no, one and two leaves,
    and the streaming hasher above) and [merkleize_padded] both return, without
    error, the root of the complete binary tree over the 32-byte chunks of the
    input, padded with zero leaves to the next power of two of the larger of
    their number and the requested number; [merkleize_standard] returns it for
    the trees that no request enlarges, at any depth. *)
Theorem merkle_routines_agree bytes m :
  let n := Nat.max (div_ceil (length bytes) HASHSIZE) m in
  levels n <= S ZERO_HASHES_MAX_INDEX ->
  merkle_root bytes m = Ok (tree_root (levels n) (chunks bytes)) /\
  merkleize_padded bytes m = Ok (tree_root (levels n) (chunks bytes)) /\
  (m <= div_ceil (length bytes) HASHSIZE -> merkleize_standard bytes = tree_root (levels n) (chunks bytes)).
Proof.
  intros n Hn. split; [by apply merkle_root_Ok|]. split; [by apply merkleize_padded_Ok|].
  intros Hm. rewrite merkleize_standard_Ok. unfold n. by rewrite Nat.max_l.
Qed.

(** The streaming hasher does not depend on how its input is cut.  A
    hasher for [n] leaves accepts every sequence of writes, of any lengths,
    that together fit into its leaves: no write fails, both loops end within
    their bounds, and the result is the Merkle root of the concatenation. *)
Theorem hasher_ignores_cuts n pieces :
  length (concat pieces) <= HASHSIZE * 2 ^ levels n -> levels n <= S ZERO_HASHES_MAX_INDEX ->
  exists h0 h1, with_leaves n = Ok h0 /\ write_all h0 pieces = Ok h1 /\
    finish h1 = Ok (tree_root (levels n) (chunks (concat pieces))).
Proof. apply stream_Ok. Qed.

(** The hasher accepts more leaves than it has.  Its documentation
    promises an error for a leaf beyond the last one; the guard compares with
    four times the number of leaves, so that, after a full tree, up to one
    more tree of leaves is taken without error and leaves no trace in the
    root. *)
Theorem excess_leaves_ignored d l1 l2 :
  Forall (fun x => length x = HASHSIZE) (l1 ++ l2) -> length l1 = 2 ^ d -> length l2 < 2 ^ d ->
  exists h0 h1, with_depth (d + 1) = Ok h0 /\ write_all h0 (l1 ++ l2) = Ok h1 /\
    finish h1 = Ok (tree_root d l1).
Proof. apply excess_leaves. Qed.

(** The root of a list of 32-byte words depends on the first byte of each
    word only. *)
Theorem B256s_root_ignores_tails v v' :
  map (fun b => take 1 (resize0 32 b)) v = map (fun b => take 1 (resize0 32 b)) v' ->
  B256s_tree_hash_root v = B256s_tree_hash_root v'.
Proof.
  intros E. unfold B256s_tree_hash_root, fixed_tree_hash_root. rewrite E.
  apply (f_equal length) in E. rewrite !length_map in E. by rewrite E.
Qed.

End TreeHashTheorems.

Module TreeHashExample.

#[local] Instance toy_sha2 : Sha2 := toy_digest.
#[local] Instance toy_sha2_ok : Sha2Ok := toy_digest_length.

Definition data : bytes := map (fun i => byte_of_Z (Z.of_nat i)) (seq 0 100).

Lemma merkle_routines_agree_witness :
  merkle_root data 6 = Ok (tree_root 3 (chunks data)) /\
  merkleize_padded data 6 = Ok (tree_root 3 (chunks data)).
Proof.
  destruct (merkle_routines_agree data 6 ltac:(apply Nat.leb_le; by vm_compute)) as (E1 & E2 & _).
  split; [exact E1|exact E2].
Defined.

Lemma hasher_ignores_cuts_witness :
  exists h0 h1, with_leaves 4 = Ok h0 /\ write_all h0 [take 7 data; take 40 (drop 7 data); drop 47 data] = Ok h1 /\
    finish h1 = Ok (tree_root 2 (chunks data)).
Proof.
  exact (hasher_ignores_cuts 4 [take 7 data; take 40 (drop 7 data); drop 47 data]
    ltac:(apply Nat.leb_le; by vm_compute) ltac:(apply Nat.leb_le; by vm_compute)).
Defined.

Lemma excess_leaves_ignored_witness :
  exists h0 h1, with_depth 2 = Ok h0 /\
    write_all h0 [replicate 32 x01; replicate 32 x02; replicate 32 x03] = Ok h1 /\
    finish h1 = Ok (tree_root 1 [replicate 32 x01; replicate 32 x02]).
Proof.
  apply (excess_leaves_ignored 1 [replicate 32 x01; replicate 32 x02] [replicate 32 x03]);
    [repeat constructor|done|simpl; lia].
Defined.

End TreeHashExample.
