(* ===== verification/EthTypes.v ===== *)
(** * Ethereum consensus types

    [packages/ethereum/types/src/consensus]: headers and updates of the beacon
    chain's light-client protocol, sync committees, forks, signature domains
    and signing roots, with the generalized indices of the Merkle proofs.

    Fixed byte arrays are byte strings; [update_sized] states the lengths the
    Rust types give them.  The Merkle root of a derived container is produced
    by code of another crate ([tree_hash_derive]), which is the parameter
    [container_root]; [DeriveOk] is its documented meaning, the Merkle root of
    the roots of the fields in order. *)

From S2P Require Import Prelude TreeHash TreeHashSpec.
From Stdlib Require Import ZArith Lia.
From Stdlib.Strings Require Import Byte.
From stdpp Require Import prelude list.
#[local] Open Scope Z_scope.

(** The container root [#[derive(TreeHash)]] computes from the roots of the
    fields. *)
Class DeriveTreeHash := container_root : list bytes -> bytes.
Class DeriveOk `{Sha2, DeriveTreeHash} : Prop :=
  container_root_ok fields : container_root fields = tree_root (levels (length fields)) fields.

(** ** Generalized indices ([merkle.rs]) *)

Definition FINALIZED_ROOT_GINDEX_ELECTRA : Z := 169.
Definition CURRENT_SYNC_COMMITTEE_GINDEX_ELECTRA : Z := 86.
Definition NEXT_SYNC_COMMITTEE_GINDEX_ELECTRA : Z := 87.
Definition EXECUTION_PAYLOAD_GINDEX : Z := 25.

Definition floorlog2 (n : Z) : nat := Z.to_nat (Z.log2 n).

(** ** Sync committees ([sync_committee.rs], [bls.rs]) *)

Definition BLS_PUBLIC_KEY_BYTES_LEN : nat := 48.
Definition BLS_SIGNATURE_BYTES_LEN : nat := 96.

Record SyncCommittee := mkSyncCommittee {
  sc_pubkeys : list bytes;
  sc_aggregate_pubkey : bytes;
}.

Record SyncAggregate := mkSyncAggregate {
  sync_committee_bits : bytes;
  sync_committee_signature : bytes;
}.

Record SummarizedSyncCommittee := mkSummarizedSyncCommittee {
  ssc_pubkeys_hash : bytes;
  ssc_aggregate_pubkey : bytes;
}.

#[export] Instance SyncCommittee_eq_dec : EqDecision SyncCommittee.
Proof. solve_decision. Defined.
#[export] Instance SummarizedSyncCommittee_eq_dec : EqDecision SummarizedSyncCommittee.
Proof. solve_decision. Defined.

(** The bits of a byte, lowest first. *)
Definition bits_of (b : byte) : list bool := map (fun i => Z.testbit (byte_to_Z b) (Z.of_nat i)) (seq 0 8).

(** [byte.count_ones()]. *)
Definition count_ones (b : byte) : Z := Z.of_nat (count id (bits_of b)).

Definition num_sync_committe_participants (a : SyncAggregate) : Z := zsum count_ones (sync_committee_bits a).
Definition agg_committee_size (a : SyncAggregate) : Z := Z.of_nat (length (sync_committee_bits a)) * 8.
Definition validate_signature_supermajority (a : SyncAggregate) : bool :=
  agg_committee_size a * 2 <=? num_sync_committe_participants a * 3.
Definition has_sufficient_participants (a : SyncAggregate) (min_sync_committee_participants : Z) : bool :=
  min_sync_committee_participants <=? num_sync_committe_participants a.

(** The keys of the committee whose bit is set: the iterator chain
    [flat_map], [zip], [filter_map] of [validate_light_client_update]. *)
Fixpoint select {A} (included : list bool) (keys : list A) : list A :=
  match included, keys with
  | b :: included, k :: keys => if b then k :: select included keys else select included keys
  | _, _ => []
  end.
Definition participant_pubkeys (a : SyncAggregate) (c : SyncCommittee) : list bytes :=
  select (mjoin (map bits_of (sync_committee_bits a))) (sc_pubkeys c).

(** ** Headers and updates ([light_client_header.rs]) *)

Record BeaconBlockHeader := mkBeaconBlockHeader {
  bh_slot : Z;
  bh_proposer_index : Z;
  bh_parent_root : bytes;
  bh_state_root : bytes;
  bh_body_root : bytes;
}.

Record ExecutionPayloadHeader := mkExecutionPayloadHeader {
  ex_parent_hash : bytes;
  ex_fee_recipient : bytes;
  ex_state_root : bytes;
  ex_receipts_root : bytes;
  ex_logs_bloom : bytes;
  ex_prev_randao : bytes;
  ex_block_number : Z;
  ex_gas_limit : Z;
  ex_gas_used : Z;
  ex_timestamp : Z;
  ex_extra_data : bytes;
  ex_base_fee_per_gas : Z;
  ex_block_hash : bytes;
  ex_transactions_root : bytes;
  ex_withdrawals_root : bytes;
  ex_blob_gas_used : Z;
  ex_excess_blob_gas : Z;
}.

Record LightClientHeader := mkLightClientHeader {
  lh_beacon : BeaconBlockHeader;
  lh_execution : ExecutionPayloadHeader;
  lh_execution_branch : list bytes;
}.

Record LightClientUpdate := mkLightClientUpdate {
  attested_header : LightClientHeader;
  up_next_sync_committee : option SyncCommittee;
  up_next_sync_committee_branch : option (list bytes);
  finalized_header : LightClientHeader;
  finality_branch : list bytes;
  sync_aggregate : SyncAggregate;
  signature_slot : Z;
}.

Record LightClientFinalityUpdate := mkLightClientFinalityUpdate {
  fu_attested_header : LightClientHeader;
  fu_finalized_header : LightClientHeader;
  fu_finality_branch : list bytes;
  fu_sync_aggregate : SyncAggregate;
  fu_signature_slot : Z;
}.

(** [From<LightClientFinalityUpdate> for LightClientUpdate]. *)
Definition update_of_finality (u : LightClientFinalityUpdate) : LightClientUpdate := {|
  attested_header := fu_attested_header u;
  up_next_sync_committee := None;
  up_next_sync_committee_branch := None;
  finalized_header := fu_finalized_header u;
  finality_branch := fu_finality_branch u;
  sync_aggregate := fu_sync_aggregate u;
  signature_slot := fu_signature_slot u;
|}.

Notation attested_slot u := (bh_slot (lh_beacon (attested_header u))).
Notation finalized_slot_of u := (bh_slot (lh_beacon (finalized_header u))).

(** The sizes of the fixed arrays and the ranges of the integers. *)
Definition word (b : bytes) : Prop := length b = 32%nat.
Definition beacon_sized (b : BeaconBlockHeader) : Prop :=
  is_u64 (bh_slot b) /\ is_u64 (bh_proposer_index b) /\
  word (bh_parent_root b) /\ word (bh_state_root b) /\ word (bh_body_root b).
Definition execution_sized (e : ExecutionPayloadHeader) : Prop :=
  word (ex_parent_hash e) /\ length (ex_fee_recipient e) = 20%nat /\ word (ex_state_root e) /\
  word (ex_receipts_root e) /\ length (ex_logs_bloom e) = 256%nat /\ word (ex_prev_randao e) /\
  is_u64 (ex_block_number e) /\ is_u64 (ex_timestamp e).
Definition branch_sized (gindex : Z) (branch : list bytes) : Prop :=
  length branch = floorlog2 gindex /\ Forall word branch.
Definition header_sized (h : LightClientHeader) : Prop :=
  beacon_sized (lh_beacon h) /\ execution_sized (lh_execution h) /\
  branch_sized EXECUTION_PAYLOAD_GINDEX (lh_execution_branch h).
Definition committee_sized (c : SyncCommittee) : Prop :=
  Forall (fun k => length k = BLS_PUBLIC_KEY_BYTES_LEN) (sc_pubkeys c) /\
  length (sc_aggregate_pubkey c) = BLS_PUBLIC_KEY_BYTES_LEN.
Definition update_sized (u : LightClientUpdate) : Prop :=
  header_sized (attested_header u) /\ header_sized (finalized_header u) /\
  branch_sized FINALIZED_ROOT_GINDEX_ELECTRA (finality_branch u) /\
  (forall b, up_next_sync_committee_branch u = Some b -> branch_sized NEXT_SYNC_COMMITTEE_GINDEX_ELECTRA b) /\
  (forall c, up_next_sync_committee u = Some c -> committee_sized c) /\
  length (sync_committee_signature (sync_aggregate u)) = BLS_SIGNATURE_BYTES_LEN /\
  is_u64 (signature_slot u).

(** ** Forks ([fork.rs]) *)

Record Fork := mkFork { fork_version : bytes; fork_epoch : Z }.

Record ForkParameters := mkForkParameters {
  genesis_fork_version : bytes;
  fp_genesis_slot : Z;
  altair : Fork;
  bellatrix : Fork;
  capella : Fork;
  deneb : Fork;
  electra : Fork;
  fulu : Fork;
}.

#[export] Instance Fork_eq_dec : EqDecision Fork.
Proof. solve_decision. Defined.
#[export] Instance ForkParameters_eq_dec : EqDecision ForkParameters.
Proof. solve_decision. Defined.

Definition compute_fork_version (p : ForkParameters) (epoch : Z) : bytes :=
  if fork_epoch (fulu p) <=? epoch then fork_version (fulu p)
  else if fork_epoch (electra p) <=? epoch then fork_version (electra p)
  else if fork_epoch (deneb p) <=? epoch then fork_version (deneb p)
  else if fork_epoch (capella p) <=? epoch then fork_version (capella p)
  else if fork_epoch (bellatrix p) <=? epoch then fork_version (bellatrix p)
  else if fork_epoch (altair p) <=? epoch then fork_version (altair p)
  else genesis_fork_version p.

(** ** Container roots, domains and signing roots *)

Section Roots.
Context `{Sha2, DeriveTreeHash}.

Definition to_summarized_sync_committee (c : SyncCommittee) : result TreeHashError SummarizedSyncCommittee :=
  pubkeys_hash ← pubkeys_tree_hash_root (sc_pubkeys c);
  Ok (mkSummarizedSyncCommittee pubkeys_hash (sc_aggregate_pubkey c)).

(** [SyncCommittee::tree_hash_root]. *)
Definition sync_committee_root (c : SyncCommittee) : result TreeHashError bytes :=
  keys ← pubkeys_tree_hash_root (sc_pubkeys c);
  aggregate ← bls_tree_hash_root (sc_aggregate_pubkey c);
  Ok (container_root [keys; aggregate]).

(** [BeaconBlockHeader::tree_hash_root], of the roots of the fields. *)
Definition beacon_fields (b : BeaconBlockHeader) : list bytes :=
  [u64_tree_hash_root (bh_slot b); u64_tree_hash_root (bh_proposer_index b);
    fixed_tree_hash_root (bh_parent_root b); fixed_tree_hash_root (bh_state_root b);
    fixed_tree_hash_root (bh_body_root b)].
Definition beacon_root (b : BeaconBlockHeader) : bytes := container_root (beacon_fields b).

(** [ExecutionPayloadHeader::tree_hash_root]. *)
Definition execution_fields (e : ExecutionPayloadHeader) : result TreeHashError (list bytes) :=
  bloom ← Bloom_tree_hash_root (ex_logs_bloom e);
  extra ← Bytes_tree_hash_root (ex_extra_data e);
  Ok [fixed_tree_hash_root (ex_parent_hash e); fixed_tree_hash_root (ex_fee_recipient e);
    fixed_tree_hash_root (ex_state_root e); fixed_tree_hash_root (ex_receipts_root e); bloom;
    fixed_tree_hash_root (ex_prev_randao e); u64_tree_hash_root (ex_block_number e);
    u64_tree_hash_root (ex_gas_limit e); u64_tree_hash_root (ex_gas_used e);
    u64_tree_hash_root (ex_timestamp e); extra; U256_tree_hash_root (ex_base_fee_per_gas e);
    fixed_tree_hash_root (ex_block_hash e); fixed_tree_hash_root (ex_transactions_root e);
    fixed_tree_hash_root (ex_withdrawals_root e); u64_tree_hash_root (ex_blob_gas_used e);
    u64_tree_hash_root (ex_excess_blob_gas e)].
Definition execution_root (e : ExecutionPayloadHeader) : result TreeHashError bytes :=
  fields ← execution_fields e; Ok (container_root fields).

Definition compute_fork_data_root (current_version genesis_validators_root : bytes) : bytes :=
  container_root [fixed_tree_hash_root current_version; fixed_tree_hash_root genesis_validators_root].

(** [DomainType::SYNC_COMMITTEE]. *)
Definition SYNC_COMMITTEE : bytes := [x07; x00; x00; x00].

Definition compute_domain (domain_type : bytes) (fork_version genesis_validators_root : option bytes)
    (genesis_fork_version : bytes) : bytes :=
  let fork_version := default genesis_fork_version fork_version in
  let genesis_validators_root := default Hash256_ZERO genesis_validators_root in
  domain_type ++ take 28 (compute_fork_data_root fork_version genesis_validators_root).

(** [compute_signing_root] of an object with the given root. *)
Definition compute_signing_root (object_root domain : bytes) : bytes :=
  container_root [fixed_tree_hash_root object_root; fixed_tree_hash_root domain].

End Roots.
