(* ===== verification/EthTrie.v ===== *)
(** * Ethereum storage proofs

    [packages/ethereum/trie-db/src/trie_db.rs]: proofs that a key of a contract's
    storage holds a value, or none, against a state root.  The Merkle-Patricia
    trie and the RLP codec are other crates: [TrieLib] holds what is called of
    them. *)

From S2P Require Import Prelude.
From Stdlib Require Import ZArith Lia.
From stdpp Require Import prelude list strings.
#[local] Open Scope Z_scope.

(** [Keccak256::digest]. *)
Class Keccak := keccak_256 : bytes -> bytes.

(** A smart contract account. *)
Record EvmAccount := mkEvmAccount {
  acc_nonce : Z;
  acc_balance : Z;
  acc_storage_root : bytes;
  acc_code_hash : bytes;
}.

(** [TrieDB::get] on the database of the proof's nodes, [rlp::decode::<Account>]
    and [alloy_rlp::encode_fixed_size] of an unsigned 256-bit integer. *)
Class TrieLib := {
  trie_get : list bytes -> bytes -> bytes -> result string (option bytes);
  rlp_decode_account : bytes -> result string EvmAccount;
  rlp_encode_u256 : Z -> bytes;
}.

Inductive TrieDBError :=
| GetTrieNodeFailed (message : string)
| RlpDecode (message : string)
| ValueMismatch (expected actual : bytes)
| ValueMissing (value : bytes)
| ValueShouldBeMissing (value : bytes).

Section Trie.
Context `{Keccak, TrieLib}.

Definition get_node (root key : bytes) (proof : list bytes) : result TrieDBError (option bytes) :=
  map_err GetTrieNodeFailed (trie_get proof root (keccak_256 key)).

Definition verify_storage_inclusion_proof (root key expected_value : bytes) (proof : list bytes)
    : result TrieDBError unit :=
  node ← get_node root key proof;
  match node with
  | Some value =>
    if decide (value = expected_value) then Ok () else Err (ValueMismatch expected_value value)
  | None => Err (ValueMissing expected_value)
  end.

Definition verify_storage_exclusion_proof (root key : bytes) (proof : list bytes)
    : result TrieDBError unit :=
  node ← get_node root key proof;
  match node with
  | Some value => Err (ValueShouldBeMissing value)
  | None => Ok ()
  end.

Definition verify_account_storage_root (root address : bytes) (proof : list bytes) (storage_root : bytes)
    : result TrieDBError unit :=
  node ← get_node root address proof;
  match node with
  | Some account =>
    account ← map_err RlpDecode (rlp_decode_account account);
    if decide (acc_storage_root account = storage_root) then Ok ()
    else Err (ValueMismatch storage_root (acc_storage_root account))
  | None => Err (ValueMissing address)
  end.

(** What each check accepts. *)
Lemma inclusion_Ok root key value proof u :
  verify_storage_inclusion_proof root key value proof = Ok u <->
  trie_get proof root (keccak_256 key) = Ok (Some value).
Proof.
  unfold verify_storage_inclusion_proof, get_node. destruct u.
  destruct (trie_get _ _ _) as [[v|]|e]; cbn; try destruct (decide (v = value)); split; congruence.
Qed.

Lemma exclusion_Ok root key proof u :
  verify_storage_exclusion_proof root key proof = Ok u <->
  trie_get proof root (keccak_256 key) = Ok None.
Proof.
  unfold verify_storage_exclusion_proof, get_node. destruct u.
  destruct (trie_get _ _ _) as [[v|]|e]; cbn; split; congruence.
Qed.

Lemma account_root_Ok root address proof storage_root u :
  verify_account_storage_root root address proof storage_root = Ok u <->
  exists enc a, trie_get proof root (keccak_256 address) = Ok (Some enc) /\
    rlp_decode_account enc = Ok a /\ acc_storage_root a = storage_root.
Proof.
  unfold verify_account_storage_root, get_node. destruct u.
  destruct (trie_get _ _ _) as [[v|]|e]; cbn; [|split; [done|intros (?&?&?&?); congruence]..].
  destruct (rlp_decode_account v) as [a|e] eqn:Ea; cbn;
    [|split; [done|intros (?&?&?&?&?); congruence]].
  destruct (decide (acc_storage_root a = storage_root)); split; [eauto|done|done|].
  intros (enc & a' & E1 & E2 & E3). congruence.
Qed.

End Trie.
