(* ===== verification/EthLC.v ===== *)
(** * The Ethereum light client

    [packages/ethereum/light-client]: verification of sync-committee updates
    ([verify.rs], [sync_protocol_helpers.rs], [trie.rs]), the state update
    ([update.rs]), misbehaviour and (non-)membership proofs.

    Parameters: BLS verification (the trait [BlsVerify] of the source), SHA-256,
    Keccak-256, the trie and RLP crates, the derived container roots, and JSON
    decoding of a membership proof.  Error messages built from another error
    carry that error.  Panics, among them the divisions by the client state's
    period lengths, are [EthPanic]; additions of periods wrap, as in the
    release profile the contract is built with. *)

From S2P Require Import Prelude TreeHash EthTypes EthTrie.
From Stdlib Require Import ZArith Lia.
From Stdlib.Strings Require Import Byte.
From stdpp Require Import prelude list strings.
#[local] Open Scope Z_scope.

(** ** State ([client_state.rs], [consensus_state.rs], [header.rs]) *)

Record EthClientState := mkEthClientState {
  chain_id : Z;
  genesis_validators_root : bytes;
  min_sync_committee_participants : Z;
  sync_committee_size : Z;
  genesis_time : Z;
  genesis_slot : Z;
  fork_parameters : ForkParameters;
  seconds_per_slot : Z;
  slots_per_epoch : Z;
  epochs_per_sync_committee_period : Z;
  latest_slot : Z;
  latest_execution_block_number : Z;
  is_frozen : bool;
  ibc_contract_address : bytes;
  ibc_commitment_slot : Z;
}.

Record EthConsensusState := mkEthConsensusState {
  cs_slot : Z;
  cs_state_root : bytes;
  cs_timestamp : Z;
  current_sync_committee : SummarizedSyncCommittee;
  next_sync_committee : option SummarizedSyncCommittee;
}.

#[export] Instance EthClientState_eq_dec : EqDecision EthClientState.
Proof. solve_decision. Defined.
#[export] Instance EthConsensusState_eq_dec : EqDecision EthConsensusState.
Proof. solve_decision. Defined.

Inductive ActiveSyncCommittee :=
| Current (c : SyncCommittee)
| Next (c : SyncCommittee).

Record Header := mkHeader {
  active_sync_committee : ActiveSyncCommittee;
  consensus_update : LightClientUpdate;
  trusted_slot : Z;
}.

Record TrustedConsensusState := mkTrustedConsensusState {
  tcs_state : EthConsensusState;
  tcs_sync_committee : ActiveSyncCommittee;
}.

(** The committee a message names, whichever it is. *)
Definition full_committee (a : ActiveSyncCommittee) : SyncCommittee :=
  match a with Current c | Next c => c end.

(** ** Errors ([error.rs]) *)

Record InvalidMerkleBranchInfo := mkInvalidMerkleBranch {
  mb_leaf : bytes; mb_branch : list bytes; mb_depth : nat; mb_index : Z; mb_root : bytes; mb_found : bytes;
}.

Inductive EthereumIBCError :=
| InvalidPathLength (expected found : nat)
| StorageProofDecode
| InvalidCommitmentKey (expected key : Z)
| StoredValueMistmatch (expected actual : bytes)
| VerifyStorageProof (e : TrieDBError)
| InsufficientSyncCommitteeParticipants (n : Z)
| InsufficientSyncCommitteeLength (expected found : Z)
| MustBeElectraOrLater
| InvalidMerkleBranch (info : InvalidMerkleBranchInfo)
| InvalidNormalizedMerkleBranch (num_extra : nat) (normalized_branch : list bytes)
| FinalizedSlotIsGenesis
| UpdateSignatureSlotMoreRecentThanCurrentSlot (current_slot update_signature_slot : Z)
| InvalidSlots (update_signature_slot update_attested_slot update_finalized_slot : Z)
| InvalidSignaturePeriodWhenNextSyncCommitteeExists (signature_period stored_period : Z)
| InvalidSignaturePeriodWhenNextSyncCommitteeDoesNotExist (signature_period stored_period : Z)
| IrrelevantUpdate (update_attested_slot trusted_finalized_slot update_attested_period stored_period : Z)
    (update_sync_committee_is_set trusted_next_sync_committee_is_set : bool)
| NextSyncCommitteeMismatch (expected found : bytes)
| CurrenttSyncCommitteeMismatch (expected found : bytes)
| AggregatePubkeyMismatch (expected found : bytes)
| ExpectedCurrentSyncCommittee
| ExpectedNextSyncCommittee
| ExpectedNextSyncCommitteeUpdate
| NextSyncCommitteeUnknown
| UnexpectedNextSyncCommittee
| BlsAggregateError (message : string)
| FastAggregateVerifyError (message : string)
| NotEnoughSignatures
| ValidateFinalizedHeaderFailed (e : EthereumIBCError)
| ValidateNextSyncCommitteeFailed (e : EthereumIBCError)
| StorePeriodMustBeEqualToFinalizedPeriod
| FailedToComputeSlotAtTimestamp (timestamp genesis seconds_per_slot genesis_slot : Z)
| MisbehaviourSlotMismatch (slot_1 slot_2 : Z)
| MisbehaviourStorageRootsMatch (root : bytes)
| InvalidUpdateSlot (consensus_state_slot update_finalized_slot : Z)
| ClientAndConsensusSlotMismatch (client_state_slot consensus_state_slot : Z)
| EthPanic.

Notation eth_result := (result EthereumIBCError).

(** [x.unwrap()], and a panic inside the tree hash. *)
Definition unwrap {A} (o : option A) : eth_result A := ok_or o EthPanic.
Definition hashed {A} (r : result TreeHashError A) : eth_result A := map_err (fun _ => EthPanic) r.

(** ** Slots, epochs and periods *)

(** [x / y] of unsigned integers. *)
Definition div_u64 (x y : Z) : eth_result Z := if y =? 0 then Err EthPanic else Ok (x / y).
(** [x + 1] without overflow checks. *)
Definition succ_u64 (x : Z) : Z := (x + 1) mod 2 ^ 64.

Definition verify_supported_fork_at_epoch (c : EthClientState) (epoch : Z) : eth_result unit :=
  if epoch <? fork_epoch (electra (fork_parameters c)) then Err MustBeElectraOrLater else Ok ().

Definition compute_slot_at_timestamp (c : EthClientState) (timestamp_seconds : Z) : option Z :=
  if timestamp_seconds <? genesis_time c then None
  else if seconds_per_slot c =? 0 then None
  else u64_checked_add ((timestamp_seconds - genesis_time c) / seconds_per_slot c) (genesis_slot c).

Definition compute_epoch_at_slot (c : EthClientState) (slot : Z) : eth_result Z := div_u64 slot (slots_per_epoch c).

Definition compute_timestamp_at_slot (c : EthClientState) (slot : Z) : Z :=
  let slots_since_genesis := (slot - genesis_slot c) mod 2 ^ 64 in
  (genesis_time c + (slots_since_genesis * seconds_per_slot c) mod 2 ^ 64) mod 2 ^ 64.

Definition compute_sync_committee_period (c : EthClientState) (epoch : Z) : eth_result Z :=
  div_u64 epoch (epochs_per_sync_committee_period c).

Definition compute_sync_committee_period_at_slot (c : EthClientState) (slot : Z) : eth_result Z :=
  epoch ← compute_epoch_at_slot c slot; compute_sync_committee_period c epoch.

(** ** Merkle branches ([trie.rs], [sync_protocol_helpers.rs]) *)

Definition get_subtree_index (idx : Z) : Z := idx mod 2 ^ Z.log2 idx.

(** [depth - branch.len()] panics when the branch is longer than the depth. *)
Definition normalize_merkle_branch (branch : list bytes) (gindex : Z) : eth_result (list bytes) :=
  let depth := floorlog2 gindex in
  if (depth <? length branch)%nat then Err EthPanic
  else Ok (replicate (depth - length branch) (replicate 32 x00) ++ branch).

Section LightClient.
Context `{Sha2, DeriveTreeHash}.

(** The loop of [validate_merkle_branch] over the taken branch nodes. *)
Fixpoint branch_value (index : Z) (i : nat) (branch : list bytes) (value : bytes) : eth_result bytes :=
  match branch with
  | [] => Ok value
  | branch_node :: branch =>
    if (64 <=? i)%nat then Err EthPanic
    else if (index / 2 ^ Z.of_nat i) mod 2 =? 0
      then branch_value index (S i) branch (sha2 (value ++ branch_node))
      else branch_value index (S i) branch (sha2 (branch_node ++ value))
  end.

Definition validate_merkle_branch (leaf : bytes) (branch : list bytes) (depth : nat) (index : Z) (root : bytes)
    : eth_result unit :=
  value ← branch_value index 0 (take depth branch) leaf;
  if decide (value = root) then Ok ()
  else Err (InvalidMerkleBranch (mkInvalidMerkleBranch leaf branch depth index root value)).

Definition is_valid_normalized_merkle_branch (leaf : bytes) (normalized_branch : list bytes) (gindex : Z)
    (root : bytes) : eth_result unit :=
  let depth := floorlog2 gindex in
  let index := get_subtree_index gindex in
  if (length normalized_branch <? depth)%nat then Err EthPanic
  else
    let num_extra := (length normalized_branch - depth)%nat in
    if decide (Forall (fun node => node = replicate 32 x00) (take num_extra normalized_branch))
    then validate_merkle_branch leaf (drop num_extra normalized_branch) depth index root
    else Err (InvalidNormalizedMerkleBranch num_extra normalized_branch).

(** The generalized index of a fork the client supports. *)
Definition gindex_at_slot (gindex : Z) (c : EthClientState) (slot : Z) : eth_result Z :=
  epoch ← compute_epoch_at_slot c slot;
  _ ← verify_supported_fork_at_epoch c epoch;
  Ok gindex.
Definition finalized_root_gindex_at_slot : EthClientState -> Z -> eth_result Z :=
  gindex_at_slot FINALIZED_ROOT_GINDEX_ELECTRA.
Definition current_sync_committee_gindex_at_slot : EthClientState -> Z -> eth_result Z :=
  gindex_at_slot CURRENT_SYNC_COMMITTEE_GINDEX_ELECTRA.
Definition next_sync_committee_gindex_at_slot : EthClientState -> Z -> eth_result Z :=
  gindex_at_slot NEXT_SYNC_COMMITTEE_GINDEX_ELECTRA.

Definition get_lc_execution_root (c : EthClientState) (h : LightClientHeader) : eth_result bytes :=
  epoch ← compute_epoch_at_slot c (bh_slot (lh_beacon h));
  _ ← verify_supported_fork_at_epoch c epoch;
  hashed (execution_root (lh_execution h)).

Definition is_valid_light_client_header (c : EthClientState) (h : LightClientHeader) : eth_result unit :=
  epoch ← compute_epoch_at_slot c (bh_slot (lh_beacon h));
  _ ← verify_supported_fork_at_epoch c epoch;
  root ← get_lc_execution_root c h;
  validate_merkle_branch root (lh_execution_branch h) (floorlog2 EXECUTION_PAYLOAD_GINDEX)
    (get_subtree_index EXECUTION_PAYLOAD_GINDEX) (bh_body_root (lh_beacon h)).

(** ** Verification ([verify.rs], [consensus_state.rs]) *)

(** The trait [BlsVerify]; errors as the messages they display. *)
Class BlsVerify := {
  fast_aggregate_verify : list bytes -> bytes -> bytes -> result string unit;
  aggregate : list bytes -> result string bytes;
}.
Context `{BlsVerify}.

(** [TrustedConsensusState::new]. *)
Definition TrustedConsensusState_new (c : EthClientState) (trusted_state : EthConsensusState)
    (untrusted : ActiveSyncCommittee) : eth_result TrustedConsensusState :=
  full ← match untrusted with
    | Current committee =>
      summary ← hashed (to_summarized_sync_committee committee);
      _ ← require_r (bool_decide (summary = current_sync_committee trusted_state))
        (CurrenttSyncCommitteeMismatch (ssc_aggregate_pubkey (current_sync_committee trusted_state))
          (sc_aggregate_pubkey committee));
      Ok committee
    | Next committee =>
      trusted ← ok_or (next_sync_committee trusted_state) NextSyncCommitteeUnknown;
      summary ← hashed (to_summarized_sync_committee committee);
      _ ← require_r (bool_decide (summary = trusted))
        (NextSyncCommitteeMismatch (ssc_aggregate_pubkey trusted) (sc_aggregate_pubkey committee));
      Ok committee
    end;
  _ ← require_r (Z.of_nat (length (sc_pubkeys full)) =? sync_committee_size c)
    (InsufficientSyncCommitteeLength (sync_committee_size c) (Z.of_nat (length (sc_pubkeys full))));
  aggregate_pubkey ← map_err BlsAggregateError (aggregate (sc_pubkeys full));
  _ ← require_r (bool_decide (aggregate_pubkey = sc_aggregate_pubkey full))
    (AggregatePubkeyMismatch aggregate_pubkey (sc_aggregate_pubkey full));
  Ok (mkTrustedConsensusState trusted_state untrusted).

Definition finalized_slot (t : TrustedConsensusState) : Z := cs_slot (tcs_state t).
Definition tcs_current (t : TrustedConsensusState) : option SyncCommittee :=
  match tcs_sync_committee t with Current c => Some c | Next _ => None end.
Definition tcs_next (t : TrustedConsensusState) : option SyncCommittee :=
  match tcs_sync_committee t with Next c => Some c | Current _ => None end.

(** [validate_light_client_update], up to the checks of the slots and periods:
    returns the stored, the signature and the attested period. *)
Definition validate_periods (c : EthClientState) (t : TrustedConsensusState) (u : LightClientUpdate)
    (current_slot : Z) : eth_result (Z * Z * Z) :=
  _ ← require_r (negb (finalized_slot_of u =? genesis_slot c)) FinalizedSlotIsGenesis;
  _ ← require_r (signature_slot u <=? current_slot)
    (UpdateSignatureSlotMoreRecentThanCurrentSlot current_slot (signature_slot u));
  _ ← require_r ((attested_slot u <? signature_slot u) && (finalized_slot_of u <=? attested_slot u))
    (InvalidSlots (signature_slot u) (attested_slot u) (finalized_slot_of u));
  stored_period ← compute_sync_committee_period_at_slot c (finalized_slot t);
  signature_period ← compute_sync_committee_period_at_slot c (signature_slot u);
  let is_next_sync_committee_known := bool_decide (is_Some (tcs_next t)) in
  _ ← (if is_next_sync_committee_known
    then require_r ((signature_period =? stored_period) || (signature_period =? succ_u64 stored_period))
      (InvalidSignaturePeriodWhenNextSyncCommitteeExists signature_period stored_period)
    else require_r (signature_period =? stored_period)
      (InvalidSignaturePeriodWhenNextSyncCommitteeDoesNotExist signature_period stored_period));
  update_attested_period ← compute_sync_committee_period_at_slot c (attested_slot u);
  let update_has_next_sync_committee := negb is_next_sync_committee_known &&
    bool_decide (is_Some (up_next_sync_committee_branch u)) && (update_attested_period =? stored_period) in
  _ ← require_r ((finalized_slot t <? attested_slot u) || update_has_next_sync_committee)
    (IrrelevantUpdate (attested_slot u) (finalized_slot t) update_attested_period stored_period
      (bool_decide (is_Some (up_next_sync_committee u))) is_next_sync_committee_known);
  Ok (stored_period, signature_period, update_attested_period).

(** The finality branch and the branch of the next sync committee. *)
Definition validate_finality (c : EthClientState) (u : LightClientUpdate) : eth_result unit :=
  _ ← is_valid_light_client_header c (finalized_header u);
  let finalized_root := beacon_root (lh_beacon (finalized_header u)) in
  finalized_root_gindex ← finalized_root_gindex_at_slot c (attested_slot u);
  branch ← normalize_merkle_branch (finality_branch u) finalized_root_gindex;
  map_err ValidateFinalizedHeaderFailed
    (is_valid_normalized_merkle_branch finalized_root branch finalized_root_gindex
      (bh_state_root (lh_beacon (attested_header u)))).

Definition validate_next_committee (c : EthClientState) (t : TrustedConsensusState) (u : LightClientUpdate)
    (stored_period update_attested_period : Z) : eth_result unit :=
  match up_next_sync_committee_branch u with
  | Some update_branch =>
    _ ← match tcs_next t with
      | Some known =>
        if update_attested_period =? stored_period then
          update_next ← unwrap (up_next_sync_committee u);
          require_r (bool_decide (update_next = known))
            (NextSyncCommitteeMismatch (sc_aggregate_pubkey known) (sc_aggregate_pubkey update_next))
        else Ok ()
      | None => Ok ()
      end;
    next_sync_committee_gindex ← next_sync_committee_gindex_at_slot c (attested_slot u);
    update_next ← unwrap (up_next_sync_committee u);
    root ← hashed (sync_committee_root update_next);
    branch ← normalize_merkle_branch update_branch next_sync_committee_gindex;
    map_err ValidateNextSyncCommitteeFailed
      (is_valid_normalized_merkle_branch root branch next_sync_committee_gindex
        (bh_state_root (lh_beacon (attested_header u))))
  | None => require_r (bool_decide (up_next_sync_committee u = None)) UnexpectedNextSyncCommittee
  end.

(** The signature domain of an update, and the message the sync committee
    signs for the attested header. *)
Definition update_domain (c : EthClientState) (u : LightClientUpdate) : eth_result bytes :=
  let fork_version_slot := Z.max (signature_slot u) 1 - 1 in
  epoch ← compute_epoch_at_slot c fork_version_slot;
  let fork_version := compute_fork_version (fork_parameters c) epoch in
  Ok (compute_domain SYNC_COMMITTEE (Some fork_version) (Some (genesis_validators_root c))
    (genesis_fork_version (fork_parameters c))).
Definition update_signing_root (c : EthClientState) (u : LightClientUpdate) : eth_result bytes :=
  domain ← update_domain c u;
  Ok (compute_signing_root (beacon_root (lh_beacon (attested_header u))) domain).

Definition validate_signature (c : EthClientState) (t : TrustedConsensusState) (u : LightClientUpdate)
    (stored_period signature_period : Z) : eth_result unit :=
  committee ← (if signature_period =? stored_period
    then ok_or (tcs_current t) ExpectedCurrentSyncCommittee
    else ok_or (tcs_next t) ExpectedNextSyncCommittee);
  _ ← require_r (agg_committee_size (sync_aggregate u) =? Z.of_nat (length (sc_pubkeys committee)))
    (InsufficientSyncCommitteeLength (Z.of_nat (length (sc_pubkeys committee)))
      (agg_committee_size (sync_aggregate u)));
  signing_root ← update_signing_root c u;
  map_err FastAggregateVerifyError
    (fast_aggregate_verify (participant_pubkeys (sync_aggregate u) committee) signing_root
      (sync_committee_signature (sync_aggregate u))).

Definition validate_light_client_update (c : EthClientState) (t : TrustedConsensusState)
    (u : LightClientUpdate) (current_slot : Z) : eth_result unit :=
  _ ← require_r (has_sufficient_participants (sync_aggregate u) (min_sync_committee_participants c))
    (InsufficientSyncCommitteeParticipants (num_sync_committe_participants (sync_aggregate u)));
  _ ← is_valid_light_client_header c (attested_header u);
  '(stored_period, signature_period, update_attested_period) ← validate_periods c t u current_slot;
  _ ← validate_finality c u;
  _ ← validate_next_committee c t u stored_period update_attested_period;
  validate_signature c t u stored_period signature_period.

Definition slot_now (c : EthClientState) (current_timestamp : Z) : eth_result Z :=
  ok_or (compute_slot_at_timestamp c current_timestamp)
    (FailedToComputeSlotAtTimestamp current_timestamp (genesis_time c) (seconds_per_slot c) (genesis_slot c)).

Definition verify_header (s : EthConsensusState) (c : EthClientState) (current_timestamp : Z) (h : Header)
    : eth_result unit :=
  trusted ← TrustedConsensusState_new c s (active_sync_committee h);
  current_slot ← slot_now c current_timestamp;
  let u := consensus_update h in
  _ ← validate_light_client_update c trusted u current_slot;
  _ ← require_r (validate_signature_supermajority (sync_aggregate u)) NotEnoughSignatures;
  _ ← require_r (cs_slot s <? finalized_slot_of u) (InvalidUpdateSlot (cs_slot s) (finalized_slot_of u));
  update_finalized_period ← compute_sync_committee_period_at_slot c (finalized_slot_of u);
  store_period ← compute_sync_committee_period_at_slot c (cs_slot s);
  if store_period <? update_finalized_period
  then require_r (bool_decide (is_Some (up_next_sync_committee_branch u))) ExpectedNextSyncCommitteeUpdate
  else Ok ().

(** ** Misbehaviour ([misbehaviour.rs]) *)

Definition verify_misbehaviour (c : EthClientState) (s : EthConsensusState) (committee : ActiveSyncCommittee)
    (update_1 update_2 : LightClientUpdate) (current_timestamp : Z) : eth_result unit :=
  trusted ← TrustedConsensusState_new c s committee;
  _ ← require_r (attested_slot update_1 =? attested_slot update_2)
    (MisbehaviourSlotMismatch (attested_slot update_1) (attested_slot update_2));
  let state_root_1 := ex_state_root (lh_execution (attested_header update_1)) in
  let state_root_2 := ex_state_root (lh_execution (attested_header update_2)) in
  _ ← require_r (bool_decide (state_root_1 <> state_root_2)) (MisbehaviourStorageRootsMatch state_root_1);
  current_slot ← slot_now c current_timestamp;
  _ ← validate_light_client_update c trusted update_1 current_slot;
  validate_light_client_update c trusted update_2 current_slot.

(** ** State update ([update.rs]) *)

(** [committee.map(|c| c.to_summarized_sync_committee())]. *)
Definition summarized (o : option SyncCommittee) : eth_result (option SummarizedSyncCommittee) :=
  match o with
  | Some c => s ← hashed (to_summarized_sync_committee c); Ok (Some s)
  | None => Ok None
  end.

(** [ClientState { latest_slot, latest_execution_block_number, ..client }]. *)
Definition with_latest (c : EthClientState) (slot block_number : Z) : EthClientState := {|
  chain_id := chain_id c;
  genesis_validators_root := genesis_validators_root c;
  min_sync_committee_participants := min_sync_committee_participants c;
  sync_committee_size := sync_committee_size c;
  genesis_time := genesis_time c;
  genesis_slot := genesis_slot c;
  fork_parameters := fork_parameters c;
  seconds_per_slot := seconds_per_slot c;
  slots_per_epoch := slots_per_epoch c;
  epochs_per_sync_committee_period := epochs_per_sync_committee_period c;
  latest_slot := slot;
  latest_execution_block_number := block_number;
  is_frozen := is_frozen c;
  ibc_contract_address := ibc_contract_address c;
  ibc_commitment_slot := ibc_commitment_slot c;
|}.

Definition update_consensus_state (s : EthConsensusState) (c : EthClientState) (h : Header)
    : eth_result (Z * EthConsensusState * option EthClientState) :=
  _ ← require_r (latest_slot c =? cs_slot s) (ClientAndConsensusSlotMismatch (latest_slot c) (cs_slot s));
  store_period ← compute_sync_committee_period_at_slot c (cs_slot s);
  let u := consensus_update h in
  let execution := lh_execution (finalized_header u) in
  update_finalized_period ← compute_sync_committee_period_at_slot c (finalized_slot_of u);
  '(current, next) ← match next_sync_committee s with
    | Some next =>
      if update_finalized_period =? succ_u64 store_period
      then update_next ← summarized (up_next_sync_committee u); Ok (next, update_next)
      else Ok (current_sync_committee s, next_sync_committee s)
    | None =>
      _ ← require_r (update_finalized_period =? store_period) StorePeriodMustBeEqualToFinalizedPeriod;
      update_next ← summarized (up_next_sync_committee u);
      Ok (current_sync_committee s, update_next)
    end;
  let new_consensus_state := mkEthConsensusState (finalized_slot_of u) (ex_state_root execution)
    (ex_timestamp execution) current next in
  let new_client_state := if cs_slot s <? finalized_slot_of u
    then Some (with_latest c (finalized_slot_of u) (ex_block_number execution)) else None in
  Ok (finalized_slot_of u, new_consensus_state, new_client_state).

(** ** Membership ([membership.rs]) *)

Record AccountProof := mkAccountProof { ap_storage_root : bytes; ap_proof : list bytes }.
Record StorageProof := mkStorageProof { sp_key : bytes; sp_value : Z; sp_proof : list bytes }.
Record EthMembershipProof := mkEthMembershipProof {
  account_proof : AccountProof;
  storage_proof : StorageProof;
}.

(** [serde_json::from_slice::<MembershipProof>]. *)
Class ProofJson := proof_from_slice : bytes -> option EthMembershipProof.
Context `{Keccak, TrieLib, ProofJson}.

(** [U256::to_be_bytes_vec] and [U256::from] of a word. *)
Definition u256_to_be_bytes (v : Z) : bytes := reverse (to_le 32 v).
Definition u256_from_be_bytes (b : bytes) : Z := of_le (reverse b).

Definition evm_ics26_commitment_path (ibc_path : bytes) (slot : Z) : Z :=
  u256_from_be_bytes (keccak_256 (keccak_256 ibc_path ++ u256_to_be_bytes slot)).

Definition check_commitment_path (path : list bytes) (commitment_slot key : Z) : eth_result unit :=
  match path with
  | [ibc_path] =>
    let expected := evm_ics26_commitment_path ibc_path commitment_slot in
    require_r (expected =? key) (InvalidCommitmentKey expected key)
  | _ => Err (InvalidPathLength 1 (length path))
  end.

(** The checks both operations start with: the proof, its account and its
    key. *)
Definition open_proof (s : EthConsensusState) (c : EthClientState) (proof : bytes) (path : list bytes)
    : eth_result EthMembershipProof :=
  p ← ok_or (proof_from_slice proof) StorageProofDecode;
  _ ← map_err VerifyStorageProof (verify_account_storage_root (cs_state_root s) (ibc_contract_address c)
    (ap_proof (account_proof p)) (ap_storage_root (account_proof p)));
  _ ← check_commitment_path path (ibc_commitment_slot c) (u256_from_be_bytes (sp_key (storage_proof p)));
  Ok p.

Definition eth_verify_membership (s : EthConsensusState) (c : EthClientState) (proof : bytes)
    (path : list bytes) (raw_value : bytes) : eth_result unit :=
  p ← open_proof s c proof path;
  let stored := u256_to_be_bytes (sp_value (storage_proof p)) in
  _ ← require_r (bool_decide (stored = raw_value)) (StoredValueMistmatch raw_value stored);
  map_err VerifyStorageProof (verify_storage_inclusion_proof (ap_storage_root (account_proof p))
    (sp_key (storage_proof p)) (rlp_encode_u256 (sp_value (storage_proof p))) (sp_proof (storage_proof p))).

Definition eth_verify_non_membership (s : EthConsensusState) (c : EthClientState) (proof : bytes)
    (path : list bytes) : eth_result unit :=
  p ← open_proof s c proof path;
  _ ← require_r (sp_value (storage_proof p) =? 0)
    (StoredValueMistmatch [x00] (u256_to_be_bytes (sp_value (storage_proof p))));
  map_err VerifyStorageProof (verify_storage_exclusion_proof (ap_storage_root (account_proof p))
    (sp_key (storage_proof p)) (sp_proof (storage_proof p))).

End LightClient.
