(* ===== verification/EthWasm.v ===== *)
(** * The Ethereum client contract

    [ibc-solidity/programs/cw-ics08-wasm-eth]: the CosmWasm contract that keeps an
    Ethereum light client for ibc-go.  Its store maps ibc-go's keys to encoded
    client and consensus states; the JSON and protobuf codecs, the contract
    version of [cw2] and the chain's BLS queries are other crates and services
    ([WasmLib], [BlsQuerier]).  A query's answer is given as the value whose
    JSON the contract returns. *)

From S2P Require Import Prelude TreeHash EthTypes EthTrie EthLC.
From Stdlib Require Import ZArith Lia.
From Stdlib.Strings Require Import Byte.
From stdpp Require Import prelude list strings gmap pretty.
#[local] Open Scope Z_scope.

(** ** Messages ([msg.rs]) *)

Record WasmHeight := mkWasmHeight { revision_number : Z; revision_height : Z }.

(** ibc-go's [ClientState] of a wasm client. *)
Record WasmClientState := mkWasmClientState {
  wcs_checksum : bytes;
  wcs_data : bytes;
  wcs_latest_height : option WasmHeight;
}.

Record InstantiateMsg := mkInstantiateMsg {
  im_client_state : bytes;
  im_consensus_state : bytes;
  im_checksum : bytes;
}.

Record VerifyMembershipMsg := mkVerifyMembershipMsg {
  vm_height : WasmHeight;
  vm_delay_time_period : Z;
  vm_delay_block_period : Z;
  vm_proof : bytes;
  vm_merkle_path : list bytes;
  vm_value : bytes;
}.

Record VerifyNonMembershipMsg := mkVerifyNonMembershipMsg {
  vn_height : WasmHeight;
  vn_delay_time_period : Z;
  vn_delay_block_period : Z;
  vn_proof : bytes;
  vn_merkle_path : list bytes;
}.

Record EthereumMisbehaviourMsg := mkEthereumMisbehaviourMsg {
  mm_trusted_slot : Z;
  mm_sync_committee : ActiveSyncCommittee;
  mm_update_1 : LightClientUpdate;
  mm_update_2 : LightClientUpdate;
}.

Inductive SudoMsg :=
| SudoVerifyMembership (m : VerifyMembershipMsg)
| SudoVerifyNonMembership (m : VerifyNonMembershipMsg)
| SudoUpdateState (client_message : bytes)
| SudoUpdateStateOnMisbehaviour (client_message : bytes)
| SudoVerifyUpgradeAndUpdateState
| SudoMigrateClientStore.

Inductive QueryMsg :=
| QueryVerifyClientMessage (client_message : bytes)
| QueryCheckForMisbehaviour (client_message : bytes)
| QueryTimestampAtHeight (height : WasmHeight)
| QueryStatus.

Inductive Migration :=
| CodeOnly
| Reinstantiate (m : InstantiateMsg)
| UpdateForkParameters (p : ForkParameters).

Inductive Status := Frozen | Expired | Active.

(** The answers of queries and the data of [sudo] responses. *)
Inductive Answer :=
| NoData
| Heights (l : list WasmHeight)
| FoundMisbehaviour (b : bool)
| TimestampIs (t : Z)
| StatusIs (s : Status).

Inductive ContractError :=
| StdErrorOf (message : string)
| ClientStateSlotMismatch
| ClientAndConsensusStateMismatch
| SerializeClientStateFailed
| SerializeConsensusStateFailed
| DeserializeClientStateFailed
| DeserializeConsensusStateFailed
| DeserializeClientMessageFailed
| DeserializeEthMisbehaviourFailed
| VerifyMembershipFailed (e : EthereumIBCError)
| VerifyNonMembershipFailed (e : EthereumIBCError)
| VerifyClientMessageFailed (e : EthereumIBCError)
| UpdateClientStateFailed (e : EthereumIBCError)
| UnsupportedForkVersion (e : EthereumIBCError)
| ClientStateNotFound
| ConsensusStateNotFound
| ProstEncodeError
| ProstDecodeError
| SerdeJsonError
| InvalidClientMessage
| ContractPanic.

Notation c_result := (result ContractError).

(** ** Storage ([state.rs]) *)

Notation Storage := (gmap string bytes).

Definition HOST_CLIENT_STATE_KEY : string := "clientState".
Definition HOST_CONSENSUS_STATES_KEY : string := "consensusStates".

(** [format!("{}/{}-{}", HOST_CONSENSUS_STATES_KEY, 0, slot)]. *)
Definition consensus_db_key (slot : Z) : string :=
  HOST_CONSENSUS_STATES_KEY +:+ "/0-" +:+ pretty (Z.to_N slot).

(** What the contract calls of [prost], [serde_json] and [cw2]. *)
Class WasmLib := {
  any_decode : bytes -> option bytes;
  wasm_client_decode : bytes -> option WasmClientState;
  wasm_consensus_decode : bytes -> option bytes;
  wasm_client_to_any : WasmClientState -> option bytes;
  wasm_consensus_to_any : bytes -> option bytes;
  client_from_slice : bytes -> option EthClientState;
  client_to_vec : EthClientState -> option bytes;
  consensus_from_slice : bytes -> option EthConsensusState;
  consensus_to_vec : EthConsensusState -> option bytes;
  header_from_slice : bytes -> option Header;
  misbehaviour_from_slice : bytes -> option EthereumMisbehaviourMsg;
  set_contract_version : Storage -> result string Storage;
  ensure_from_older_version : Storage -> result string Storage;
}.

(** The chain's custom queries. *)
Class BlsQuerier := {
  query_aggregate_verify : list bytes -> bytes -> bytes -> result string bool;
  query_aggregate : list bytes -> result string bytes;
}.

(** [impl BlsVerify for BlsVerifier] ([custom_query.rs]). *)
Definition BlsVerifier_fast_aggregate_verify `{BlsQuerier} (public_keys : list bytes) (msg signature : bytes)
    : result string unit :=
  is_valid ← query_aggregate_verify public_keys msg signature;
  require_r is_valid "InvalidSignature"%string.
Definition BlsVerifier_aggregate `{BlsQuerier} (public_keys : list bytes) : result string bytes :=
  aggregate_key ← query_aggregate public_keys;
  if decide (length aggregate_key = BLS_PUBLIC_KEY_BYTES_LEN) then Ok aggregate_key
  else Err "PublicKeyTryFromError"%string.
#[export] Instance BlsVerifier `{BlsQuerier} : BlsVerify := {|
  fast_aggregate_verify := BlsVerifier_fast_aggregate_verify;
  aggregate := BlsVerifier_aggregate;
|}.

Section Contract.
Context `{Sha2, DeriveTreeHash, Keccak, TrieLib, ProofJson, WasmLib, BlsQuerier}.

Definition get_wasm_client_state (storage : Storage) : c_result WasmClientState :=
  bz ← ok_or (storage !! HOST_CLIENT_STATE_KEY) ClientStateNotFound;
  value ← ok_or (any_decode bz) ProstDecodeError;
  ok_or (wasm_client_decode value) ProstDecodeError.

Definition get_eth_client_state (storage : Storage) : c_result EthClientState :=
  wasm_client_state ← get_wasm_client_state storage;
  ok_or (client_from_slice (wcs_data wasm_client_state)) SerdeJsonError.

Definition get_eth_consensus_state (storage : Storage) (slot : Z) : c_result EthConsensusState :=
  bz ← ok_or (storage !! consensus_db_key slot) ConsensusStateNotFound;
  value ← ok_or (any_decode bz) ProstDecodeError;
  data ← ok_or (wasm_consensus_decode value) ProstDecodeError;
  ok_or (consensus_from_slice data) SerdeJsonError.

Definition store_consensus_state (storage : Storage) (wasm_consensus_state : bytes) (slot : Z) : c_result Storage :=
  any ← ok_or (wasm_consensus_to_any wasm_consensus_state) ProstEncodeError;
  Ok (<[consensus_db_key slot := any]> storage).

Definition store_client_state (storage : Storage) (wasm_client_state : WasmClientState) : c_result Storage :=
  any ← ok_or (wasm_client_to_any wasm_client_state) ProstEncodeError;
  Ok (<[HOST_CLIENT_STATE_KEY := any]> storage).

(** ** Instantiation ([instantiate.rs]) *)

Definition instantiate_client (storage : Storage) (msg : InstantiateMsg) : c_result Storage :=
  client_state ← ok_or (client_from_slice (im_client_state msg)) DeserializeClientStateFailed;
  let latest_height := mkWasmHeight 0 (latest_slot client_state) in
  let wasm_client_state := mkWasmClientState (im_checksum msg) (im_client_state msg) (Some latest_height) in
  consensus_state ← ok_or (consensus_from_slice (im_consensus_state msg)) DeserializeConsensusStateFailed;
  _ ← require_r (revision_height latest_height =? latest_slot client_state) ClientStateSlotMismatch;
  _ ← require_r (latest_slot client_state =? cs_slot consensus_state) ClientAndConsensusStateMismatch;
  epoch ← map_err (fun _ => ContractPanic) (compute_epoch_at_slot client_state (latest_slot client_state));
  _ ← map_err UnsupportedForkVersion (verify_supported_fork_at_epoch client_state epoch);
  storage ← store_client_state storage wasm_client_state;
  store_consensus_state storage (im_consensus_state msg) (cs_slot consensus_state).

Definition instantiate (storage : Storage) (msg : InstantiateMsg) : c_result Storage :=
  storage ← map_err StdErrorOf (set_contract_version storage);
  instantiate_client storage msg.

(** ** The [sudo] handlers ([sudo.rs]) *)

Definition sudo_verify_membership (storage : Storage) (m : VerifyMembershipMsg) : c_result Answer :=
  client_state ← get_eth_client_state storage;
  consensus_state ← get_eth_consensus_state storage (revision_height (vm_height m));
  _ ← map_err VerifyMembershipFailed
    (eth_verify_membership consensus_state client_state (vm_proof m) (vm_merkle_path m) (vm_value m));
  Ok NoData.

Definition sudo_verify_non_membership (storage : Storage) (m : VerifyNonMembershipMsg) : c_result Answer :=
  client_state ← get_eth_client_state storage;
  consensus_state ← get_eth_consensus_state storage (revision_height (vn_height m));
  _ ← map_err VerifyNonMembershipFailed
    (eth_verify_non_membership consensus_state client_state (vn_proof m) (vn_merkle_path m));
  Ok NoData.

Definition update_state (storage : Storage) (client_message : bytes) : c_result (Answer * Storage) :=
  header ← ok_or (header_from_slice client_message) DeserializeClientMessageFailed;
  client_state ← get_eth_client_state storage;
  consensus_state ← get_eth_consensus_state storage (latest_slot client_state);
  '(updated_slot, updated_consensus_state, updated_client_state) ←
    map_err UpdateClientStateFailed (update_consensus_state consensus_state client_state header);
  consensus_state_bz ← ok_or (consensus_to_vec updated_consensus_state) SerializeConsensusStateFailed;
  storage ← store_consensus_state storage consensus_state_bz updated_slot;
  storage ← match updated_client_state with
    | Some client_state =>
      client_state_bz ← ok_or (client_to_vec client_state) SerializeClientStateFailed;
      wasm_client_state ← get_wasm_client_state storage;
      store_client_state storage (mkWasmClientState (wcs_checksum wasm_client_state) client_state_bz
        (Some (mkWasmHeight 0 updated_slot)))
    | None => Ok storage
    end;
  Ok (Heights [mkWasmHeight 0 updated_slot], storage).

Definition set_frozen (c : EthClientState) : EthClientState := {|
  chain_id := chain_id c;
  genesis_validators_root := genesis_validators_root c;
  min_sync_committee_participants := min_sync_committee_participants c;
  sync_committee_size := sync_committee_size c;
  genesis_time := genesis_time c;
  genesis_slot := genesis_slot c;
  fork_parameters := fork_parameters c;
  seconds_per_slot := seconds_per_slot c;
  slots_per_epoch := slots_per_epoch c;
  epochs_per_sync_committee_period := epochs_per_sync_committee_period c;
  latest_slot := latest_slot c;
  latest_execution_block_number := latest_execution_block_number c;
  is_frozen := true;
  ibc_contract_address := ibc_contract_address c;
  ibc_commitment_slot := ibc_commitment_slot c;
|}.

(** The client state rewritten in place: [misbehaviour] and the fork
    migration both do this. *)
Definition put_client_data (storage : Storage) (c : EthClientState) : c_result Storage :=
  client_state_bz ← ok_or (client_to_vec c) SerializeClientStateFailed;
  wasm_client_state ← get_wasm_client_state storage;
  store_client_state storage (mkWasmClientState (wcs_checksum wasm_client_state) client_state_bz
    (wcs_latest_height wasm_client_state)).

Definition misbehaviour (storage : Storage) (client_message : bytes) : c_result (Answer * Storage) :=
  client_state ← get_eth_client_state storage;
  storage ← put_client_data storage (set_frozen client_state);
  Ok (NoData, storage).

Definition sudo (storage : Storage) (msg : SudoMsg) : c_result (Answer * Storage) :=
  match msg with
  | SudoVerifyMembership m => a ← sudo_verify_membership storage m; Ok (a, storage)
  | SudoVerifyNonMembership m => a ← sudo_verify_non_membership storage m; Ok (a, storage)
  | SudoUpdateState m => update_state storage m
  | SudoUpdateStateOnMisbehaviour m => misbehaviour storage m
  | SudoVerifyUpgradeAndUpdateState | SudoMigrateClientStore => Err ContractPanic
  end.

(** ** The queries ([query.rs]) *)

Definition verify_client_message (storage : Storage) (now : Z) (client_message : bytes) : c_result Answer :=
  client_state ← get_eth_client_state storage;
  match header_from_slice client_message with
  | Some header =>
    consensus_state ← get_eth_consensus_state storage (trusted_slot header);
    _ ← map_err VerifyClientMessageFailed (verify_header consensus_state client_state now header);
    Ok NoData
  | None =>
    match misbehaviour_from_slice client_message with
    | Some m =>
      consensus_state ← get_eth_consensus_state storage (mm_trusted_slot m);
      _ ← map_err VerifyClientMessageFailed (verify_misbehaviour client_state consensus_state
        (mm_sync_committee m) (mm_update_1 m) (mm_update_2 m) now);
      Ok NoData
    | None => Err InvalidClientMessage
    end
  end.

Definition check_for_misbehaviour (storage : Storage) (now : Z) (client_message : bytes) : c_result Answer :=
  m ← ok_or (misbehaviour_from_slice client_message) DeserializeEthMisbehaviourFailed;
  client_state ← get_eth_client_state storage;
  consensus_state ← get_eth_consensus_state storage (mm_trusted_slot m);
  _ ← map_err VerifyClientMessageFailed (verify_misbehaviour client_state consensus_state
    (mm_sync_committee m) (mm_update_1 m) (mm_update_2 m) now);
  Ok (FoundMisbehaviour true).

(** The multiplication wraps in the release profile. *)
Definition timestamp_at_height (storage : Storage) (height : WasmHeight) : c_result Answer :=
  consensus_state ← get_eth_consensus_state storage (revision_height height);
  Ok (TimestampIs ((cs_timestamp consensus_state * 1000000000) mod 2 ^ 64)).

Definition status (storage : Storage) : c_result Answer :=
  client_state ← get_eth_client_state storage;
  Ok (StatusIs (if is_frozen client_state then Frozen else Active)).

Definition query (storage : Storage) (now : Z) (msg : QueryMsg) : c_result Answer :=
  match msg with
  | QueryVerifyClientMessage m => verify_client_message storage now m
  | QueryCheckForMisbehaviour m => check_for_misbehaviour storage now m
  | QueryTimestampAtHeight height => timestamp_at_height storage height
  | QueryStatus => status storage
  end.

(** ** Migration ([contract.rs]) *)

Definition with_fork_parameters (c : EthClientState) (p : ForkParameters) : EthClientState := {|
  chain_id := chain_id c;
  genesis_validators_root := genesis_validators_root c;
  min_sync_committee_participants := min_sync_committee_participants c;
  sync_committee_size := sync_committee_size c;
  genesis_time := genesis_time c;
  genesis_slot := genesis_slot c;
  fork_parameters := p;
  seconds_per_slot := seconds_per_slot c;
  slots_per_epoch := slots_per_epoch c;
  epochs_per_sync_committee_period := epochs_per_sync_committee_period c;
  latest_slot := latest_slot c;
  latest_execution_block_number := latest_execution_block_number c;
  is_frozen := is_frozen c;
  ibc_contract_address := ibc_contract_address c;
  ibc_commitment_slot := ibc_commitment_slot c;
|}.

Definition migrate (storage : Storage) (migration : Migration) : c_result Storage :=
  storage ← map_err StdErrorOf (ensure_from_older_version storage);
  match migration with
  | CodeOnly => Ok storage
  | Reinstantiate msg => instantiate_client storage msg
  | UpdateForkParameters p =>
    client_state ← get_eth_client_state storage;
    put_client_data storage (with_fork_parameters client_state p)
  end.

End Contract.
