(* ===== verification/EthMerkle.v ===== *)
(** * What Merkle proofs bind

    The proofs the Ethereum light client checks determine what they prove.
    SHA-256 has collisions, so this is stated relative to a set [known] of
    byte strings on which it has none: [CollisionFree known].  The strings a
    computation hashes are given by [tree_inputs], [branch_inputs] and the
    like; when those of the verifier and those of the prover's tree are
    [known], equal roots mean equal leaves, branches prove the leaf of the
    tree at their index, and equal roots of public keys mean equal keys. *)

From S2P Require Import Prelude TreeHash TreeHashSpec EthTypes EthTrie EthLC.
From Stdlib Require Import ZArith Lia.
From Stdlib.Strings Require Import Byte.
From stdpp Require Import prelude list.
#[local] Open Scope Z_scope.

(** [injection] one cell at a time, without looking into the elements. *)
Lemma cons_split {A} (x y : A) l k : x :: l = y :: k -> x = y /\ l = k.
Proof. by intros [= -> ->]. Qed.

Class CollisionFree `{Sha2} (known : bytes -> Prop) : Prop :=
  sha2_inj x y : known x -> known y -> sha2 x = sha2 y -> x = y.

(** A test for the absence of collisions: hashes are computed once and
    compared first. *)
Fixpoint bytes_eqb (x y : bytes) : bool :=
  match x, y with
  | [], [] => true
  | a :: x, b :: y => if Byte.eqb a b then bytes_eqb x y else false
  | _, _ => false
  end.
Fixpoint collision_free (l : list (bytes * bytes)) : bool :=
  match l with
  | [] => true
  | (h, x) :: l => forallb (fun p => if bytes_eqb h p.1 then bytes_eqb x p.2 else true) l && collision_free l
  end.

Lemma bytes_eqb_eq x y : bytes_eqb x y = true <-> x = y.
Proof.
  revert y. induction x as [|a x IH]; intros [|b y]; cbn; [done..|].
  destruct (Byte.eqb a b) eqn:E.
  - apply Byte.byte_dec_bl in E as ->. rewrite IH. split; congruence.
  - split; [done|]. intros [= -> _]. by rewrite Byte.byte_dec_lb in E.
Qed.

Lemma collision_free_lookup l i j p q :
  collision_free l = true -> l !! i = Some p -> l !! j = Some q -> (i < j)%nat -> p.1 = q.1 -> p.2 = q.2.
Proof.
  revert i j. induction l as [|[h x] l IH]; intros i j E Hi Hj Hlt Eh; [done|].
  cbn in E. apply andb_true_iff in E as [E1 E2]. destruct j as [|j]; [lia|]. destruct i as [|i].
  - injection Hi as <-. rewrite forallb_forall in E1. specialize (E1 q). cbn in Hj, Eh |- *.
    rewrite <- Eh in E1. rewrite (proj2 (bytes_eqb_eq h h) eq_refl) in E1. apply bytes_eqb_eq, E1.
    by apply list_elem_of_In, list_elem_of_lookup_2 with j.
  - apply (IH i j); [done..|lia|done].
Qed.

Lemma no_collision `{Sha2} (parts : list (list bytes)) x y :
  collision_free (map (fun x => (sha2 x, x)) (concat parts)) = true ->
  (exists l, l ∈ parts /\ x ∈ l) -> (exists l, l ∈ parts /\ y ∈ l) -> sha2 x = sha2 y -> x = y.
Proof.
  assert (forall z, (exists l, l ∈ parts /\ z ∈ l) ->
    exists i, map (fun x => (sha2 x, x)) (concat parts) !! i = Some (sha2 z, z)) as Hin.
  { intros z (l & Hl & Hz). assert (z ∈ concat parts) as Hz'.
    { apply list_elem_of_In, in_concat. exists l. by rewrite <- !list_elem_of_In. }
    apply list_elem_of_lookup in Hz' as [i Hi]. exists i. by rewrite list_lookup_fmap, Hi. }
  intros HC [i Hi]%Hin [j Hj]%Hin E. destruct (Nat.lt_trichotomy i j) as [Hlt|[->|Hlt]]; [|congruence|].
  - apply (collision_free_lookup _ _ _ _ _ HC Hi Hj Hlt E).
  - symmetry. apply (collision_free_lookup _ _ _ _ _ HC Hj Hi Hlt). done.
Qed.

(** The leaf of a tree, zero beyond the given ones. *)
Notation leaf_at l i := (default Hash256_ZERO (l !! i)).

Section Merkle.
Context `{Sha2} `{!Sha2Ok} (known : bytes -> Prop) `{!CollisionFree known}.

(** ** The strings hashed *)

Fixpoint tree_inputs (d : nat) (leaves : list bytes) : list bytes :=
  match d with
  | O => []
  | S d =>
    let l := take (2 ^ d) leaves in
    let r := drop (2 ^ d) leaves in
    (tree_root d l ++ tree_root d r) :: tree_inputs d l ++ tree_inputs d r
  end.

(** The string hashed at level [i] of a branch. *)
Definition joined (index : Z) (i : nat) (value node : bytes) : bytes :=
  if (index / 2 ^ Z.of_nat i) mod 2 =? 0 then value ++ node else node ++ value.

Fixpoint branch_inputs (index : Z) (i : nat) (branch : list bytes) (value : bytes) : list bytes :=
  match branch with
  | [] => []
  | node :: branch =>
    let x := joined index i value node in x :: branch_inputs index (S i) branch (sha2 x)
  end.

Fixpoint climb (index : Z) (i : nat) (branch : list bytes) (value : bytes) : bytes :=
  match branch with
  | [] => value
  | node :: branch => climb index (S i) branch (sha2 (joined index i value node))
  end.

Lemma branch_value_climb index i branch value :
  (i + length branch <= 64)%nat -> branch_value index i branch value = Ok (climb index i branch value).
Proof.
  revert i value. induction branch as [|n branch IH]; intros i value Hi; [done|].
  cbn [branch_value climb]. unfold joined. cbn [length] in Hi.
  destruct (Nat.leb_spec 64 i); [lia|]. case_match; apply IH; lia.
Qed.

Lemma climb_snoc index i branch node value :
  climb index i (branch ++ [node]) value =
    sha2 (joined index (i + length branch) (climb index i branch value) node).
Proof.
  revert i value. induction branch as [|n branch IH]; intros i value; cbn [app climb length].
  - by rewrite Nat.add_0_r.
  - rewrite IH. by rewrite <- Nat.add_succ_comm.
Qed.

Lemma branch_inputs_snoc index i branch node value :
  branch_inputs index i (branch ++ [node]) value =
    branch_inputs index i branch value ++ [joined index (i + length branch) (climb index i branch value) node].
Proof.
  revert i value. induction branch as [|n branch IH]; intros i value; cbn [app branch_inputs climb length].
  - by rewrite Nat.add_0_r.
  - rewrite IH. by rewrite <- Nat.add_succ_comm.
Qed.

Lemma climb_app index i b1 b2 value :
  climb index i (b1 ++ b2) value = climb index (i + length b1) b2 (climb index i b1 value).
Proof.
  revert i value. induction b1 as [|n b1 IH]; intros i value; cbn [app climb length]; [by rewrite Nat.add_0_r|].
  rewrite IH. by rewrite <- Nat.add_succ_comm.
Qed.

Lemma branch_inputs_app index i b1 b2 value :
  branch_inputs index i (b1 ++ b2) value =
    branch_inputs index i b1 value ++ branch_inputs index (i + length b1) b2 (climb index i b1 value).
Proof.
  revert i value. induction b1 as [|n b1 IH]; intros i value; cbn [app branch_inputs climb length];
    [by rewrite Nat.add_0_r|].
  rewrite IH. by rewrite <- Nat.add_succ_comm.
Qed.

(** ** Words *)

Lemma word_zero : word Hash256_ZERO.
Proof. done. Qed.

Lemma word_leaf_at l i : Forall word l -> word (leaf_at l i).
Proof. intros Hl. destruct (l !! i) eqn:E; simpl; [|done]. by eapply Forall_lookup. Qed.

Lemma word_tree_root d l : Forall word l -> word (tree_root d l).
Proof.
  intros Hl. destruct d; cbn [tree_root]; [|apply sha2_length].
  rewrite head_lookup. by apply word_leaf_at.
Qed.

Lemma word_climb index i branch value : word value -> word (climb index i branch value).
Proof.
  revert i value. induction branch as [|n b IH]; intros i value Hv; [done|]. apply IH, sha2_length.
Qed.

Lemma app_words_inj (a b c d : bytes) : word a -> word c -> a ++ b = c ++ d -> a = c /\ b = d.
Proof. intros Ha Hc E. apply app_inj_len_l; [by rewrite Ha, Hc|done]. Qed.

(** ** Binding *)

Lemma tree_root_binds d l1 l2 i :
  Forall word l1 -> Forall word l2 -> Forall known (tree_inputs d l1) -> Forall known (tree_inputs d l2) ->
  tree_root d l1 = tree_root d l2 -> (i < 2 ^ d)%nat -> leaf_at l1 i = leaf_at l2 i.
Proof.
  revert l1 l2 i. induction d as [|d IH]; intros l1 l2 i W1 W2 K1 K2 E Hi.
  - simpl in Hi. assert (i = 0%nat) as -> by lia. by rewrite <- !head_lookup.
  - cbn [tree_inputs tree_root] in *. apply Forall_cons in K1 as [K1 [K1l K1r]%Forall_app].
    apply Forall_cons in K2 as [K2 [K2l K2r]%Forall_app].
    unfold hash32_concat in E. apply (sha2_inj (known := known)) in E; [|done..]. rewrite pow2_S in Hi.
    apply app_words_inj in E as [El Er]; [|by apply word_tree_root, Forall_take..].
    destruct (Nat.lt_ge_cases i (2 ^ d)).
    + assert (leaf_at (take (2 ^ d) l1) i = leaf_at (take (2 ^ d) l2) i) as E.
      { apply IH; auto using Forall_take. }
      by rewrite !lookup_take_lt in E.
    + assert (leaf_at (drop (2 ^ d) l1) (i - 2 ^ d)%nat = leaf_at (drop (2 ^ d) l2) (i - 2 ^ d)%nat) as E.
      { apply IH; auto using Forall_drop. lia. }
      rewrite !lookup_drop in E. by replace (2 ^ d + (i - 2 ^ d))%nat with i in E by lia.
Qed.

(** The position of the leaf in the tree, from the level below. *)
Lemma position_S index i d :
  0 <= index -> let x := index / 2 ^ Z.of_nat i in
  Z.to_nat (x mod 2 ^ Z.of_nat (S d)) =
    (Z.to_nat (x mod 2 ^ Z.of_nat d)%Z +
      (if ((index / 2 ^ Z.of_nat (i + d)) mod 2 =? 0)%Z then 0 else 2 ^ d))%nat.
Proof.
  intros Hi x. assert (0 < 2 ^ Z.of_nat d) as Hd by (apply Z.pow_pos_nonneg; lia).
  assert (0 < 2 ^ Z.of_nat i) as Hi2 by (apply Z.pow_pos_nonneg; lia).
  rewrite Nat2Z.inj_succ, Z.pow_succ_r, (Z.mul_comm 2), Z.rem_mul_r by lia.
  rewrite (Nat2Z.inj_add i d), Z.pow_add_r, <- Z.div_div by lia. fold x.
  pose proof (Z.mod_pos_bound (x / 2 ^ Z.of_nat d) 2 ltac:(lia)).
  pose proof (Z.mod_pos_bound x (2 ^ Z.of_nat d) Hd).
  assert (Z.of_nat (2 ^ d) = 2 ^ Z.of_nat d) as E by (rewrite Nat2Z.inj_pow; done).
  destruct (Z.eqb_spec ((x / 2 ^ Z.of_nat d) mod 2) 0) as [->|]; [lia|].
  assert ((x / 2 ^ Z.of_nat d) mod 2 = 1) as -> by lia. lia.
Qed.

Lemma climb_binds index i branch value d l :
  0 <= index -> length branch = d -> word value -> Forall word branch -> Forall word l ->
  Forall known (branch_inputs index i branch value) -> Forall known (tree_inputs d l) ->
  climb index i branch value = tree_root d l ->
  value = leaf_at l (Z.to_nat ((index / 2 ^ Z.of_nat i) mod 2 ^ Z.of_nat d)).
Proof.
  intros Hx. revert branch l. induction d as [|d IH]; intros branch l Hlen Hv Hb Hl Kb Kt E.
  - apply nil_length_inv in Hlen as ->. cbn [climb tree_root] in E. rewrite Z.mod_1_r. by rewrite <- head_lookup.
  - destruct branch as [|node branch _] using rev_ind; [done|].
    rewrite length_app in Hlen. simpl in Hlen. assert (length branch = d) as Hd by lia.
    rewrite climb_snoc in E. rewrite branch_inputs_snoc in Kb. rewrite position_S by done. rewrite Hd in E, Kb.
    apply Forall_app in Kb as [Kb [Kj _]%Forall_cons]. apply Forall_app in Hb as [Hb [Hn _]%Forall_cons].
    cbn [tree_inputs tree_root] in Kt, E. apply Forall_cons in Kt as [Kt [Ktl Ktr]%Forall_app].
    unfold hash32_concat in E. apply (sha2_inj (known := known)) in E; [|done..].
    unfold joined in E, Kj. pose proof (word_climb index i branch value Hv) as Hw.
    case_match; apply app_words_inj in E as [E1 E2]; auto using word_tree_root, Forall_take.
    + apply IH in E1; auto using Forall_take. rewrite Nat.add_0_r, E1 at 1.
      rewrite lookup_take_lt; [done|]. pose proof (pow2_pos d).
      pose proof (Z.mod_pos_bound (index / 2 ^ Z.of_nat i) (2 ^ Z.of_nat d) ltac:(lia)).
      assert (Z.of_nat (2 ^ d) = 2 ^ Z.of_nat d) by (rewrite Nat2Z.inj_pow; done). lia.
    + apply IH in E2; auto using Forall_drop. rewrite E2 at 1. rewrite lookup_drop.
      by rewrite Nat.add_comm.
Qed.

(** ** Branches as the client checks them *)

Lemma validate_merkle_branch_Ok leaf branch depth index root u :
  (depth <= 64)%nat ->
  validate_merkle_branch leaf branch depth index root = Ok u <-> climb index 0 (take depth branch) leaf = root.
Proof.
  intros Hd. unfold validate_merkle_branch. rewrite branch_value_climb by (rewrite length_take; lia).
  cbn. destruct u. case_decide; split; congruence.
Qed.

(** A branch of the right length is its own normal form. *)
Lemma normalized_branch_Ok leaf branch gindex root u :
  length branch = floorlog2 gindex -> (floorlog2 gindex <= 64)%nat ->
  normalize_merkle_branch branch gindex = Ok branch /\
  (is_valid_normalized_merkle_branch leaf branch gindex root = Ok u <->
    climb (get_subtree_index gindex) 0 branch leaf = root).
Proof.
  intros Hl Hd. unfold normalize_merkle_branch, is_valid_normalized_merkle_branch. rewrite Hl, Nat.sub_diag.
  destruct (Nat.ltb_spec (floorlog2 gindex) (floorlog2 gindex)); [lia|]. split; [done|].
  rewrite decide_True by (cbn; apply Forall_nil_2). rewrite drop_0, validate_merkle_branch_Ok by done.
  by rewrite take_ge by lia.
Qed.

(** ** Container roots and public keys *)

Context `{DeriveTreeHash} `{!DeriveOk}.

Definition container_inputs (fields : list bytes) : list bytes := tree_inputs (levels (length fields)) fields.

Lemma container_root_binds f1 f2 :
  length f1 = length f2 -> Forall word f1 -> Forall word f2 ->
  Forall known (container_inputs f1) -> Forall known (container_inputs f2) ->
  container_root f1 = container_root f2 -> f1 = f2.
Proof.
  intros Hl W1 W2 K1 K2 E. rewrite !container_root_ok, <- Hl in E. unfold container_inputs in *.
  rewrite <- Hl in K2. apply list_eq_same_length with (length f1); [done|done|].
  intros i x y Hi E1 E2. assert (i < 2 ^ levels (length f1))%nat as Hi2 by (pose proof (levels_room (length f1)); lia).
  pose proof (tree_root_binds _ f1 f2 i W1 W2 K1 K2 E Hi2) as E3. by rewrite E1, E2 in E3.
Qed.

Lemma word_container_root fields : Forall word fields -> word (container_root fields).
Proof. intros. rewrite container_root_ok. by apply word_tree_root. Qed.

Lemma word_u64_root z : word (u64_tree_hash_root z).
Proof. unfold word, u64_tree_hash_root, int_to_hash256, resize0. by autorewrite with lengths. Qed.

Lemma word_fixed_root b : word (fixed_tree_hash_root b).
Proof. unfold word, fixed_tree_hash_root, resize0. rewrite length_app, length_take, length_replicate. lia. Qed.

Lemma fixed_root_word b : word b -> fixed_tree_hash_root b = b.
Proof. apply resize0_exact. Qed.

Lemma resize0_inj n (x y : bytes) : length x = length y -> (length x <= n)%nat -> resize0 n x = resize0 n y -> x = y.
Proof.
  intros E Hn Er. unfold resize0 in Er. rewrite !take_ge in Er by lia. rewrite E in Er.
  by apply app_inj_len_l in Er as [-> _].
Qed.

Lemma u64_root_inj x y : is_u64 x -> is_u64 y -> u64_tree_hash_root x = u64_tree_hash_root y -> x = y.
Proof.
  intros Hx Hy E. apply u64_to_le_bytes_inj; [done..|].
  apply (resize0_inj HASHSIZE); rewrite ?length_u64_to_le_bytes; [done|unfold HASHSIZE; lia|done].
Qed.

(** A public key's root is one hash of the padded key. *)
Definition key_input (k : bytes) : bytes := resize0 64 k.

Lemma bls_root_Ok k : length k = BLS_PUBLIC_KEY_BYTES_LEN -> bls_tree_hash_root k = Ok (sha2 (key_input k)).
Proof. intros Hk. unfold bls_tree_hash_root, merkle_root. by rewrite Hk. Qed.

Definition key_sized (k : bytes) : Prop := length k = BLS_PUBLIC_KEY_BYTES_LEN.

Lemma roots_of_Ok v : Forall key_sized v -> roots_of v = Ok (map (fun k => sha2 (key_input k)) v).
Proof.
  induction 1 as [|k v Hk _ IH]; [done|]. cbn [roots_of map]. by rewrite bls_root_Ok, IH by done.
Qed.

Lemma words_of_hashes (v : list bytes) (f : bytes -> bytes) : Forall word (map (fun k => sha2 (f k)) v).
Proof. apply Forall_map, Forall_true. intros x. apply sha2_length. Qed.

Lemma pubkeys_root_Ok v :
  Forall key_sized v -> (levels (length v) <= S ZERO_HASHES_MAX_INDEX)%nat ->
  pubkeys_tree_hash_root v = Ok (tree_root (levels (length v)) (map (fun k => sha2 (key_input k)) v)).
Proof.
  intros Hv Hn. unfold pubkeys_tree_hash_root. rewrite roots_of_Ok by done.
  set (roots := map _ v). assert (Forall word roots) as Hr by apply words_of_hashes.
  destruct (stream_Ok (length v) roots) as (h0 & h1 & -> & E1 & E2); [|done|].
  { rewrite leaves_length by done. unfold roots. rewrite length_map.
    pose proof (levels_room (length v)). unfold HASHSIZE. lia. }
  cbn. rewrite E1. cbn. rewrite E2. f_equal. f_equal.
  pose proof (chunks_concat roots [] Hr ltac:(simpl; unfold HASHSIZE; lia)) as E3.
  by rewrite !app_nil_r in E3.
Qed.

Definition pubkeys_inputs (v : list bytes) : list bytes :=
  map key_input v ++ tree_inputs (levels (length v)) (map (fun k => sha2 (key_input k)) v).

Lemma key_input_inj k1 k2 :
  key_sized k1 -> key_sized k2 -> known (key_input k1) -> known (key_input k2) ->
  sha2 (key_input k1) = sha2 (key_input k2) -> k1 = k2.
Proof.
  intros S1 S2 K1 K2 E. apply (sha2_inj (known := known)) in E; [|done..]. unfold key_sized in *.
  apply (resize0_inj 64); [congruence|rewrite S1; unfold BLS_PUBLIC_KEY_BYTES_LEN; lia|done].
Qed.

(** Equal roots of equally many keys mean equal keys. *)
Lemma pubkeys_root_binds v1 v2 r :
  length v1 = length v2 -> (levels (length v1) <= S ZERO_HASHES_MAX_INDEX)%nat ->
  Forall key_sized v1 -> Forall key_sized v2 ->
  Forall known (pubkeys_inputs v1) -> Forall known (pubkeys_inputs v2) ->
  pubkeys_tree_hash_root v1 = Ok r -> pubkeys_tree_hash_root v2 = Ok r -> v1 = v2.
Proof.
  intros Hl Hn S1 S2 [K1 K1t]%Forall_app [K2 K2t]%Forall_app E1 E2.
  rewrite pubkeys_root_Ok in E1, E2 by (done || by rewrite <- Hl). rewrite <- Hl in E2, K2t.
  assert (tree_root (levels (length v1)) (map (fun k => sha2 (key_input k)) v1) =
    tree_root (levels (length v1)) (map (fun k => sha2 (key_input k)) v2)) as E by congruence.
  apply list_eq_same_length with (length v1); [done|done|]. intros i x y Hi Ex Ey.
  assert (i < 2 ^ levels (length v1))%nat as Hi2 by (pose proof (levels_room (length v1)); lia).
  pose proof (tree_root_binds _ _ _ i (words_of_hashes v1 _) (words_of_hashes v2 _) K1t K2t E Hi2) as E3.
  rewrite !list_lookup_fmap, Ex, Ey in E3. cbn in E3.
  rewrite Forall_map in K1. rewrite Forall_map in K2.
  pose proof (Forall_lookup_1 _ _ _ _ K1 Ex). pose proof (Forall_lookup_1 _ _ _ _ K2 Ey).
  pose proof (Forall_lookup_1 _ _ _ _ S1 Ex). pose proof (Forall_lookup_1 _ _ _ _ S2 Ey).
  by apply key_input_inj.
Qed.

End Merkle.
