(* ===== verification/EthVerify.v ===== *)
(** * Soundness of the Ethereum light client

    What an accepted header proves.  [BeaconChain] is the chain the client
    follows: its sync committees, the headers they sign, and the finalized
    blocks with their execution payloads.  [BeaconChainOk] states the
    assumptions the protocol makes: two thirds of a sync committee sign only
    headers of the chain ([honest_committees]), and such a header commits, in
    the places the consensus specification gives, to its last finalized block
    and to the next sync committee; a finalized block commits to its execution
    payload.  [known] holds the byte strings hashed by the chain and by the
    client, on which SHA-256 has no collision.

    [verify_header_sound]: the finalized header of an accepted update is a
    finalized block of the chain, with the state root and the timestamp of its
    execution payload, and a next sync committee in the update is the chain's. *)

From S2P Require Import Prelude TreeHash TreeHashSpec EthTypes EthTrie EthLC EthMerkle.
From Stdlib Require Import ZArith Lia.
From Stdlib.Strings Require Import Byte.
From stdpp Require Import prelude list.
#[local] Open Scope Z_scope.

(** ** Periods *)

Definition period_of (c : EthClientState) (slot : Z) : Z :=
  slot / slots_per_epoch c / epochs_per_sync_committee_period c.

Lemma period_at_slot_Ok c slot p :
  compute_sync_committee_period_at_slot c slot = Ok p ->
  slots_per_epoch c <> 0 /\ epochs_per_sync_committee_period c <> 0 /\ p = period_of c slot.
Proof.
  unfold compute_sync_committee_period_at_slot, compute_epoch_at_slot, compute_sync_committee_period, div_u64, period_of.
  destruct (Z.eqb_spec (slots_per_epoch c) 0); cbn; [done|].
  destruct (Z.eqb_spec (epochs_per_sync_committee_period c) 0); cbn; [done|]. by intros [= <-].
Qed.

(** The checks of a monadic computation that returned. *)
Ltac rinv H :=
  match type of H with
  | (_ ≫= _) = Ok _ =>
    let x := fresh "x" in let E := fresh "E" in
    apply result_bind_ok in H as (x & E & H); try rinv E; try rinv H
  | require_r _ _ = Ok _ => apply require_r_ok in H
  | ok_or _ _ = Ok _ => apply ok_or_ok in H
  | map_err _ _ = Ok _ => apply map_err_ok in H; try rinv H
  | unwrap _ = Ok _ => apply ok_or_ok in H
  | hashed _ = Ok _ => apply map_err_ok in H; try rinv H
  end.

Section Soundness.
Context `{Sha2} `{!Sha2Ok} `{DeriveTreeHash} `{!DeriveOk} `{BlsVerify}.

(** ** The strings hashed *)

Definition beacon_inputs (b : BeaconBlockHeader) : list bytes := container_inputs (beacon_fields b).

Definition execution_inputs (e : ExecutionPayloadHeader) : list bytes :=
  match execution_fields e with Ok fields => container_inputs fields | Err _ => [] end.

Definition signing_inputs (object_root domain : bytes) : list bytes :=
  container_inputs [fixed_tree_hash_root object_root; fixed_tree_hash_root domain].

Definition committee_inputs (c : SyncCommittee) : list bytes :=
  key_input (sc_aggregate_pubkey c) :: pubkeys_inputs (sc_pubkeys c) ++
  match pubkeys_tree_hash_root (sc_pubkeys c) with
  | Ok keys => container_inputs [keys; sha2 (key_input (sc_aggregate_pubkey c))]
  | Err _ => []
  end.

(** A branch that starts from a root which is itself computed. *)
Definition proof_inputs (gindex : Z) (branch : list bytes) (leaf : result TreeHashError bytes) : list bytes :=
  match leaf with Ok leaf => branch_inputs (get_subtree_index gindex) 0 branch leaf | Err _ => [] end.

(** Everything [verify_header] hashes. *)
Definition header_inputs (c : EthClientState) (h : Header) : list bytes :=
  let u := consensus_update h in
  let attested := lh_beacon (attested_header u) in
  let finalized := lh_beacon (finalized_header u) in
  let execution := lh_execution (finalized_header u) in
  committee_inputs (full_committee (active_sync_committee h)) ++
  match update_domain c u with Ok domain => signing_inputs (beacon_root attested) domain | Err _ => [] end ++
  beacon_inputs attested ++ beacon_inputs finalized ++ execution_inputs execution ++
  proof_inputs FINALIZED_ROOT_GINDEX_ELECTRA (finality_branch u) (Ok (beacon_root finalized)) ++
  proof_inputs EXECUTION_PAYLOAD_GINDEX (lh_execution_branch (finalized_header u)) (execution_root execution) ++
  match up_next_sync_committee u with
  | Some next =>
    committee_inputs next ++
    proof_inputs NEXT_SYNC_COMMITTEE_GINDEX_ELECTRA (default [] (up_next_sync_committee_branch u))
      (sync_committee_root next)
  | None => []
  end.

(** ** The chain *)

Record BeaconChain := {
  committee_of : Z -> SyncCommittee;
  signed_header : BeaconBlockHeader -> Prop;
  finalized_block : BeaconBlockHeader -> ExecutionPayloadHeader -> Prop;
}.

(** Where the consensus specification puts the finalized checkpoint and the
    next sync committee in a state, and the payload in a block's body. *)
Definition FINALIZED_CHECKPOINT_FIELD : nat := 20.
Definition NEXT_SYNC_COMMITTEE_FIELD : nat := 23.
Definition EXECUTION_PAYLOAD_FIELD : nat := 9.

(** The root commits to the fields, by strings that are known. *)
Definition commits (known : bytes -> Prop) (d : nat) (root : bytes) (fields : list bytes) : Prop :=
  root = tree_root d fields /\ Forall word fields /\ Forall known (tree_inputs d fields).

Class BeaconChainOk (chain : BeaconChain) (c : EthClientState) (known : bytes -> Prop) : Prop := {
  committees_sized p :
    committee_sized (committee_of chain p) /\
    Z.of_nat (length (sc_pubkeys (committee_of chain p))) = sync_committee_size c /\
    (levels (length (sc_pubkeys (committee_of chain p))) <= S ZERO_HASHES_MAX_INDEX)%nat /\
    Forall known (committee_inputs (committee_of chain p));
  honest_committees p a msg :
    agg_committee_size a = sync_committee_size c -> validate_signature_supermajority a = true ->
    fast_aggregate_verify (participant_pubkeys a (committee_of chain p)) msg (sync_committee_signature a) = Ok () ->
    exists b domain, signed_header chain b /\ msg = compute_signing_root (beacon_root b) domain /\
      Forall known (signing_inputs (beacon_root b) domain) /\ Forall known (beacon_inputs b) /\ beacon_sized b;
  signed_state b : signed_header chain b ->
    exists fields epoch finalized execution root,
      commits known 6 (bh_state_root b) fields /\
      commits known 1 (leaf_at fields FINALIZED_CHECKPOINT_FIELD) [epoch; beacon_root finalized] /\
      finalized_block chain finalized execution /\
      sync_committee_root (committee_of chain (period_of c (bh_slot b) + 1)) = Ok root /\
      leaf_at fields NEXT_SYNC_COMMITTEE_FIELD = root;
  finalized_body b e : finalized_block chain b e ->
    beacon_sized b /\ Forall known (beacon_inputs b) /\ execution_sized e /\ Forall known (execution_inputs e) /\
    exists body root,
      commits known 4 (bh_body_root b) body /\ execution_root e = Ok root /\
      leaf_at body EXECUTION_PAYLOAD_FIELD = root;
}.

(** A summary of one of the chain's committees. *)
Definition chain_summary (chain : BeaconChain) (s : SummarizedSyncCommittee) : Prop :=
  exists p, to_summarized_sync_committee (committee_of chain p) = Ok s.
Definition chain_state (chain : BeaconChain) (s : EthConsensusState) : Prop :=
  chain_summary chain (current_sync_committee s) /\
  forall next, next_sync_committee s = Some next -> chain_summary chain next.

Section Chain.
Context (chain : BeaconChain) (c : EthClientState) (known : bytes -> Prop).
Context `{!CollisionFree known} `{!BeaconChainOk chain c known}.

(** ** Containers *)

Lemma word_beacon_fields b : Forall word (beacon_fields b).
Proof. repeat (constructor; [apply word_u64_root || apply word_fixed_root|]). constructor. Qed.

Lemma word_beacon_root b : word (beacon_root b).
Proof. apply word_container_root, word_beacon_fields. Qed.

Lemma beacon_root_binds b1 b2 :
  beacon_sized b1 -> beacon_sized b2 -> Forall known (beacon_inputs b1) -> Forall known (beacon_inputs b2) ->
  beacon_root b1 = beacon_root b2 -> b1 = b2.
Proof.
  intros (S1 & S2 & S3 & S4 & S5) (T1 & T2 & T3 & T4 & T5) K1 K2 E.
  unfold beacon_root in E. apply (container_root_binds known) in E; [|done|apply word_beacon_fields..|done|done].
  unfold beacon_fields in E. rewrite !fixed_root_word in E by done.
  apply cons_split in E as [E1 [E2 [E3 [E4 [E5 _]%cons_split]%cons_split]%cons_split]%cons_split].
  apply u64_root_inj in E1; [|done..]. apply u64_root_inj in E2; [|done..].
  destruct b1, b2; simpl in *; by subst.
Qed.

Lemma signing_root_binds r1 r2 d1 d2 :
  word r1 -> word r2 -> Forall known (signing_inputs r1 d1) -> Forall known (signing_inputs r2 d2) ->
  compute_signing_root r1 d1 = compute_signing_root r2 d2 -> r1 = r2.
Proof.
  intros W1 W2 K1 K2 E.
  unfold compute_signing_root in E. apply (container_root_binds known) in E; [|done|repeat (constructor; [apply word_fixed_root|]); constructor..|done|done].
  apply cons_split in E as [E _]. by rewrite !fixed_root_word in E.
Qed.

(** The leaves of an execution payload header. *)
Lemma bloom_root_word v r : length v = 256%nat -> Bloom_tree_hash_root v = Ok r -> word r.
Proof.
  intros Hv. unfold Bloom_tree_hash_root. rewrite Hv. set (pieces := map _ v).
  destruct (stream_Ok (div_ceil 256 BYTES_PER_CHUNK) pieces) as (h0 & h1 & -> & E1 & E2);
    [|apply Nat.leb_le; by vm_compute|].
  { assert (length (concat pieces) = length v) as ->; [|rewrite Hv; apply Nat.leb_le; by vm_compute].
    unfold pieces. clear. induction v as [|b v IH]; [done|]. cbn [map concat]. rewrite length_app, IH.
    pose proof (word_u64_root (byte_to_Z b)) as W. unfold word in W. rewrite length_take, W. simpl. lia. }
  cbn. rewrite E1. cbn. rewrite E2. intros [= <-]. apply sha2_length.
Qed.

Lemma execution_fields_words e fields :
  execution_sized e -> execution_fields e = Ok fields ->
  Forall word fields /\ length fields = 17%nat /\
  fields !! 2%nat = Some (ex_state_root e) /\ fields !! 6%nat = Some (u64_tree_hash_root (ex_block_number e)) /\
  fields !! 9%nat = Some (u64_tree_hash_root (ex_timestamp e)).
Proof.
  intros (S1 & S2 & S3 & S4 & S5 & S6 & S7 & S8). unfold execution_fields.
  destruct (Bloom_tree_hash_root (ex_logs_bloom e)) as [bloom|] eqn:Eb; cbn; [|done].
  apply bloom_root_word in Eb; [|done].
  destruct (Bytes_tree_hash_root (ex_extra_data e)) as [extra|] eqn:Ex; cbn; [|done]. intros [= <-].
  assert (word extra) as We.
  { unfold Bytes_tree_hash_root in Ex. rinv Ex. injection Ex as <-. apply sha2_length. }
  cbn. rewrite (fixed_root_word (ex_state_root e)) by done. split; [|done].
  repeat (constructor; [first [apply word_u64_root | apply word_fixed_root | done | by apply length_to_le]|]).
  constructor.
Qed.

Lemma execution_root_binds e1 e2 r :
  execution_sized e1 -> execution_sized e2 ->
  Forall known (execution_inputs e1) -> Forall known (execution_inputs e2) ->
  execution_root e1 = Ok r -> execution_root e2 = Ok r ->
  ex_state_root e1 = ex_state_root e2 /\ ex_timestamp e1 = ex_timestamp e2 /\
  ex_block_number e1 = ex_block_number e2.
Proof.
  intros S1 S2 K1 K2 E1 E2. unfold execution_root in *. rinv E1. rinv E2. injection E1 as E1. injection E2 as E2.
  unfold execution_inputs in K1, K2. rewrite E in K1. rewrite E0 in K2.
  destruct (execution_fields_words _ _ S1 E) as (W1 & L1 & A1 & B1 & C1).
  destruct (execution_fields_words _ _ S2 E0) as (W2 & L2 & A2 & B2 & C2).
  assert (x = x0) as ->.
  { apply (container_root_binds known); [congruence|done..|congruence]. }
  destruct S1 as (_ & _ & _ & _ & _ & _ & T1 & T2). destruct S2 as (_ & _ & _ & _ & _ & _ & U1 & U2).
  split_and!; [congruence|apply u64_root_inj; [done..|congruence]|apply u64_root_inj; [done..|congruence]].
Qed.

(** Committees with one root have one summary. *)
Lemma container_root_pair x y :
  container_root [x; y] = sha2 (x ++ y) /\ container_inputs [x; y] = [x ++ y].
Proof. split; [by rewrite container_root_ok|done]. Qed.

Lemma committee_root_binds c1 c2 r :
  committee_sized c1 -> committee_sized c2 ->
  Forall known (committee_inputs c1) -> Forall known (committee_inputs c2) ->
  sync_committee_root c1 = Ok r -> sync_committee_root c2 = Ok r ->
  to_summarized_sync_committee c1 = to_summarized_sync_committee c2.
Proof.
  intros [S1 T1] [S2 T2] [A1 [_ K1]%Forall_app]%Forall_cons [A2 [_ K2]%Forall_app]%Forall_cons E1 E2.
  unfold sync_committee_root, to_summarized_sync_committee in *. rewrite bls_root_Ok in E1, E2 by done.
  destruct (pubkeys_tree_hash_root (sc_pubkeys c1)) as [r1|] eqn:P1; [|done].
  destruct (pubkeys_tree_hash_root (sc_pubkeys c2)) as [r2|] eqn:P2; [|done]. cbn in E1, E2 |- *.
  rewrite (proj1 (container_root_pair _ _)) in E1. rewrite (proj1 (container_root_pair _ _)) in E2.
  rewrite (proj2 (container_root_pair _ _)) in K1. rewrite (proj2 (container_root_pair _ _)) in K2.
  apply Forall_cons in K1 as [K1 _]. apply Forall_cons in K2 as [K2 _].
  assert (sha2 (r1 ++ sha2 (key_input (sc_aggregate_pubkey c1))) =
    sha2 (r2 ++ sha2 (key_input (sc_aggregate_pubkey c2)))) as E by congruence.
  apply (sha2_inj (known := known)) in E; [|done..].
  apply app_inj_len_r in E as [-> E]; [|by rewrite !sha2_length]. do 2 f_equal.
  by apply (key_input_inj known) in E.
Qed.

(** ** The trusted committee *)

Lemma summary_pubkeys_bind c1 c2 s :
  committee_sized c1 -> committee_sized c2 -> length (sc_pubkeys c1) = length (sc_pubkeys c2) ->
  (levels (length (sc_pubkeys c1)) <= S ZERO_HASHES_MAX_INDEX)%nat ->
  Forall known (committee_inputs c1) -> Forall known (committee_inputs c2) ->
  to_summarized_sync_committee c1 = Ok s -> to_summarized_sync_committee c2 = Ok s ->
  sc_pubkeys c1 = sc_pubkeys c2.
Proof.
  intros [S1 _] [S2 _] Hl Hn [_ [K1 _]%Forall_app]%Forall_cons [_ [K2 _]%Forall_app]%Forall_cons E1 E2.
  unfold to_summarized_sync_committee in *. rinv E1. rinv E2. injection E1 as <-. injection E2 as -> _.
  by eapply (pubkeys_root_binds known).
Qed.

(** An accepted committee has the keys of one of the chain's. *)
Lemma trusted_new_sound s active t :
  chain_state chain s -> committee_sized (full_committee active) ->
  Forall known (committee_inputs (full_committee active)) ->
  TrustedConsensusState_new c s active = Ok t ->
  t = mkTrustedConsensusState s active /\
  Z.of_nat (length (sc_pubkeys (full_committee active))) = sync_committee_size c /\
  exists p, sc_pubkeys (full_committee active) = sc_pubkeys (committee_of chain p).
Proof.
  intros [Hcur Hnext] Hs Hk E. unfold TrustedConsensusState_new in E.
  apply result_bind_ok in E as (full & Ef & E).
  assert (full = full_committee active /\ exists sum, to_summarized_sync_committee full = Ok sum /\
    chain_summary chain sum) as (-> & sum & Es & p & Hp).
  { clear E. destruct active as [cm|cm]; rinv Ef; injection Ef as <-; (split; [done|]);
      match goal with B : bool_decide _ = true |- _ => apply bool_decide_eq_true in B end; subst; eauto. }
  rinv E. injection E as <-. match goal with B : (_ =? _) = true |- _ => apply Z.eqb_eq in B end.
  split_and!; [done|done|]. exists p. destruct (committees_sized (chain := chain) (c := c) (known := known) p) as (S1 & S2 & S3 & S4).
  assert (length (sc_pubkeys (full_committee active)) = length (sc_pubkeys (committee_of chain p))) as El by lia.
  eapply summary_pubkeys_bind; eauto. by rewrite El.
Qed.

(** ** The attested header *)

Lemma participant_pubkeys_ext a c1 c2 :
  sc_pubkeys c1 = sc_pubkeys c2 -> participant_pubkeys a c1 = participant_pubkeys a c2.
Proof. unfold participant_pubkeys. by intros ->. Qed.

(** The committee that signed is the one the message names. *)
Lemma validate_signature_Ok s active u sp gp r :
  validate_signature c (mkTrustedConsensusState s active) u sp gp = Ok r ->
  exists domain, update_domain c u = Ok domain /\
    agg_committee_size (sync_aggregate u) = Z.of_nat (length (sc_pubkeys (full_committee active))) /\
    fast_aggregate_verify (participant_pubkeys (sync_aggregate u) (full_committee active))
      (compute_signing_root (beacon_root (lh_beacon (attested_header u))) domain)
      (sync_committee_signature (sync_aggregate u)) = Ok ().
Proof.
  intros E. unfold validate_signature in E. apply result_bind_ok in E as (cm & Ec & E).
  assert (cm = full_committee active) as ->.
  { destruct (gp =? sp); destruct active; cbn in Ec |- *; congruence. }
  unfold update_signing_root in E. rinv E. destruct r.
  repeat match goal with B : _ ≫= _ = Ok _ |- _ => rinv B end.
  repeat match goal with B : Ok _ = Ok _ |- _ => injection B as <- end.
  match goal with B : (_ =? _) = true |- _ => apply Z.eqb_eq in B end. eauto.
Qed.

Lemma attested_header_signed s active u sp gp r :
  (exists p, sc_pubkeys (full_committee active) = sc_pubkeys (committee_of chain p)) ->
  Z.of_nat (length (sc_pubkeys (full_committee active))) = sync_committee_size c ->
  header_sized (attested_header u) -> Forall known (beacon_inputs (lh_beacon (attested_header u))) ->
  (forall domain, update_domain c u = Ok domain ->
    Forall known (signing_inputs (beacon_root (lh_beacon (attested_header u))) domain)) ->
  validate_signature_supermajority (sync_aggregate u) = true ->
  validate_signature c (mkTrustedConsensusState s active) u sp gp = Ok r ->
  signed_header chain (lh_beacon (attested_header u)).
Proof.
  intros [p Hp] Hsize (Sb & _) Kb Ks Hsuper (domain & Ed & Ea & Ev)%validate_signature_Ok.
  rewrite (participant_pubkeys_ext _ _ (committee_of chain p)) in Ev by done.
  destruct (honest_committees (chain := chain) (c := c) (known := known) p (sync_aggregate u) _ ltac:(congruence) Hsuper Ev)
    as (b & d & Hb & Em & Kd & Kb' & Sb').
  apply signing_root_binds in Em; [|apply word_beacon_root..|by apply Ks|done].
  by apply beacon_root_binds in Em as ->.
Qed.

(** ** The finalized header *)

Lemma finality_branch_binds index branch leaf root fields epoch leaf' :
  index = 41 -> length branch = 7%nat -> word leaf -> Forall word branch ->
  Forall known (branch_inputs index 0 branch leaf) ->
  commits known 6 root fields -> commits known 1 (leaf_at fields FINALIZED_CHECKPOINT_FIELD) [epoch; leaf'] ->
  climb index 0 branch leaf = root -> leaf = leaf'.
Proof.
  intros -> Hlen Hleaf Hb Kb (-> & Wf & Kf) (E1 & We & Ke) E. destruct branch as [|node branch]; [done|].
  apply Forall_cons in Hb as [Hn Hb]. cbn [branch_inputs] in Kb. apply Forall_cons in Kb as [Kj Kb].
  cbn [climb] in E. apply (climb_binds known) in E; [|lia|by injection Hlen|apply sha2_length|done..].
  change (Z.to_nat ((41 / 2 ^ Z.of_nat 1) mod 2 ^ Z.of_nat 6)) with FINALIZED_CHECKPOINT_FIELD in E.
  rewrite E1 in E. change (sha2 (joined 41 0 leaf node)) with (climb 41 0 [node] leaf) in E.
  apply (climb_binds known) in E; [done|lia|done|done|by constructor|done|by constructor|done].
Qed.

Lemma validate_finality_Ok u r :
  validate_finality c u = Ok r -> header_sized (finalized_header u) ->
  branch_sized FINALIZED_ROOT_GINDEX_ELECTRA (finality_branch u) ->
  climb (get_subtree_index FINALIZED_ROOT_GINDEX_ELECTRA) 0 (finality_branch u)
    (beacon_root (lh_beacon (finalized_header u))) = bh_state_root (lh_beacon (attested_header u)) /\
  exists root, execution_root (lh_execution (finalized_header u)) = Ok root /\
    climb (get_subtree_index EXECUTION_PAYLOAD_GINDEX) 0 (lh_execution_branch (finalized_header u)) root =
      bh_body_root (lh_beacon (finalized_header u)).
Proof.
  intros E (_ & _ & [Lx _]) [Lf _]. unfold validate_finality in E. apply result_bind_ok in E as (v & Ev & E).
  apply result_bind_ok in E as (g & Eg & E). apply result_bind_ok in E as (br & Ebr & E).
  apply map_err_ok in E. unfold finalized_root_gindex_at_slot, gindex_at_slot in Eg.
  rinv Eg. injection Eg as <-.
  destruct (normalized_branch_Ok (beacon_root (lh_beacon (finalized_header u))) (finality_branch u)
    FINALIZED_ROOT_GINDEX_ELECTRA (bh_state_root (lh_beacon (attested_header u))) r Lf ltac:(apply Nat.leb_le; done))
    as [En Hiff].
  assert (br = finality_branch u) as -> by congruence. apply Hiff in E. split; [done|].
  unfold is_valid_light_client_header, get_lc_execution_root in Ev.
  apply result_bind_ok in Ev as (ep & _ & Ev). apply result_bind_ok in Ev as (f & _ & Ev).
  apply result_bind_ok in Ev as (root & Er & Ev). rinv Er. exists root. split; [done|].
  apply validate_merkle_branch_Ok in Ev; [|apply Nat.leb_le; done]. by rewrite take_ge in Ev by (rewrite Lx; done).
Qed.

Lemma finalized_header_final u r :
  signed_header chain (lh_beacon (attested_header u)) ->
  header_sized (finalized_header u) -> branch_sized FINALIZED_ROOT_GINDEX_ELECTRA (finality_branch u) ->
  Forall known (beacon_inputs (lh_beacon (finalized_header u))) ->
  Forall known (execution_inputs (lh_execution (finalized_header u))) ->
  Forall known (proof_inputs FINALIZED_ROOT_GINDEX_ELECTRA (finality_branch u)
    (Ok (beacon_root (lh_beacon (finalized_header u))))) ->
  Forall known (proof_inputs EXECUTION_PAYLOAD_GINDEX (lh_execution_branch (finalized_header u))
    (execution_root (lh_execution (finalized_header u)))) ->
  validate_finality c u = Ok r ->
  exists e, finalized_block chain (lh_beacon (finalized_header u)) e /\
    ex_state_root (lh_execution (finalized_header u)) = ex_state_root e /\
    ex_timestamp (lh_execution (finalized_header u)) = ex_timestamp e /\
    ex_block_number (lh_execution (finalized_header u)) = ex_block_number e.
Proof.
  intros Hsig Sf Sb Kf Ke Kb Kx (Ef & root & Er & Ex)%validate_finality_Ok; [|done..].
  pose proof Sf as (Sfb & Sfe & [Sxl Sxw]).
  destruct (signed_state (chain := chain) (c := c) (known := known) _ Hsig)
    as (fields & epoch & fin & ex & _ & Cf & Cc & Hfin & _).
  destruct (finalized_body (chain := chain) (c := c) (known := known) _ _ Hfin)
    as (Sfin & Kfin & Sex & Kex & body & xroot & (Eb & Wb & Kbody) & Exr & El).
  destruct Sb as [Sbl Sbw].
  eapply finality_branch_binds in Ef; [|done|done|apply word_beacon_root|done|done|done|done].
  apply beacon_root_binds in Ef; [|done..]. rewrite Ef in *. exists ex. split; [done|].
  rewrite Er in Kx. cbn [proof_inputs] in Kx. rewrite Eb in Ex.
  assert (word root) as Wr.
  { unfold execution_root in Er. rinv Er. injection Er as <-. apply word_container_root.
    match goal with B : execution_fields _ = Ok _ |- _ => exact (proj1 (execution_fields_words _ _ Sfe B)) end. }
  apply (climb_binds known) in Ex; [|done|done|done|done|done|done|done].
  change (Z.to_nat _) with EXECUTION_PAYLOAD_FIELD in Ex. rewrite El in Ex. subst xroot.
  by eapply execution_root_binds.
Qed.

(** ** The next sync committee *)

Lemma validate_next_committee_Ok t u sp ap r nc :
  validate_next_committee c t u sp ap = Ok r -> up_next_sync_committee u = Some nc ->
  (forall b, up_next_sync_committee_branch u = Some b -> branch_sized NEXT_SYNC_COMMITTEE_GINDEX_ELECTRA b) ->
  exists branch root, up_next_sync_committee_branch u = Some branch /\ sync_committee_root nc = Ok root /\
    climb (get_subtree_index NEXT_SYNC_COMMITTEE_GINDEX_ELECTRA) 0 branch root =
      bh_state_root (lh_beacon (attested_header u)).
Proof.
  intros E Hn Hs. unfold validate_next_committee in E. rewrite Hn in E.
  destruct (up_next_sync_committee_branch u) as [branch|]; [|done].
  destruct (Hs branch eq_refl) as [Hl _].
  apply result_bind_ok in E as (_ & _ & E). apply result_bind_ok in E as (g & Eg & E).
  cbn [unwrap ok_or] in E. rewrite result_ret_bind in E.
  apply result_bind_ok in E as (root & Er & E). rinv Er.
  apply result_bind_ok in E as (br & Ebr & E). apply map_err_ok in E.
  unfold next_sync_committee_gindex_at_slot, gindex_at_slot in Eg. rinv Eg. injection Eg as <-.
  destruct (normalized_branch_Ok root branch NEXT_SYNC_COMMITTEE_GINDEX_ELECTRA
    (bh_state_root (lh_beacon (attested_header u))) r Hl ltac:(apply Nat.leb_le; done)) as [En Hiff].
  assert (br = branch) as -> by congruence. apply Hiff in E. eauto.
Qed.

Lemma next_committee_of_chain t u sp ap r nc :
  signed_header chain (lh_beacon (attested_header u)) -> up_next_sync_committee u = Some nc ->
  committee_sized nc -> Forall known (committee_inputs nc) ->
  (forall b, up_next_sync_committee_branch u = Some b -> branch_sized NEXT_SYNC_COMMITTEE_GINDEX_ELECTRA b) ->
  Forall known (proof_inputs NEXT_SYNC_COMMITTEE_GINDEX_ELECTRA (default [] (up_next_sync_committee_branch u))
    (sync_committee_root nc)) ->
  validate_next_committee c t u sp ap = Ok r ->
  to_summarized_sync_committee nc =
    to_summarized_sync_committee (committee_of chain (period_of c (attested_slot u) + 1)).
Proof.
  intros Hsig Hn Hs Kc Hsz Kp E. eapply validate_next_committee_Ok in E as (branch & root & Eb & Er & E); [|done..].
  destruct (signed_state (chain := chain) (c := c) (known := known) _ Hsig)
    as (fields & _ & _ & _ & croot & (Ef & Wf & Kf) & _ & _ & Ec & El).
  destruct (Hsz branch Eb) as [Hl Hw]. rewrite Er, Eb in Kp. cbn [proof_inputs default] in Kp.
  rewrite Ef in E. assert (word root) as Wr.
  { unfold sync_committee_root in Er. rinv Er. injection Er as <-.
    rewrite (proj1 (container_root_pair _ _)). apply sha2_length. }
  apply (climb_binds known) in E; [|done..]. change (Z.to_nat _) with NEXT_SYNC_COMMITTEE_FIELD in E.
  rewrite El in E. subst croot.
  destruct (committees_sized (chain := chain) (c := c) (known := known) (period_of c (attested_slot u) + 1))
    as (S1 & _ & _ & S4).
  by eapply committee_root_binds.
Qed.

End Chain.

(** ** What the checks of an accepted header give *)

Lemma validate_periods_Ok c t u slot sp gp ap :
  validate_periods c t u slot = Ok (sp, gp, ap) ->
  signature_slot u <= slot /\ attested_slot u < signature_slot u /\ finalized_slot_of u <= attested_slot u /\
  finalized_slot_of u <> genesis_slot c /\
  slots_per_epoch c <> 0 /\ epochs_per_sync_committee_period c <> 0 /\
  sp = period_of c (cs_slot (tcs_state t)) /\ gp = period_of c (signature_slot u) /\
  ap = period_of c (attested_slot u) /\
  (gp = sp \/ is_Some (tcs_next t) /\ gp = succ_u64 sp).
Proof.
  unfold validate_periods. intros E. apply result_bind_ok in E as (v1 & E1%require_r_ok & E).
  apply result_bind_ok in E as (v2 & E2%require_r_ok & E). apply result_bind_ok in E as (v3 & E3%require_r_ok & E).
  apply result_bind_ok in E as (p1 & (Hn1 & Hn2 & ->)%period_at_slot_Ok & E).
  apply result_bind_ok in E as (p2 & (_ & _ & ->)%period_at_slot_Ok & E).
  apply result_bind_ok in E as (v4 & E4 & E).
  apply result_bind_ok in E as (p3 & (_ & _ & ->)%period_at_slot_Ok & E).
  apply result_bind_ok in E as (v5 & _ & E). injection E as <- <- <-.
  apply negb_true_iff, Z.eqb_neq in E1. apply Z.leb_le in E2. apply andb_true_iff in E3 as [E3 E3'].
  apply Z.ltb_lt in E3. apply Z.leb_le in E3'. split_and!; try done.
  case_bool_decide; apply require_r_ok in E4; [|left; by apply Z.eqb_eq].
  apply orb_true_iff in E4 as [E4|E4]; apply Z.eqb_eq in E4; auto.
Qed.

Lemma verify_header_Ok s c now h r :
  verify_header s c now h = Ok r ->
  exists t slot sp gp ap,
    TrustedConsensusState_new c s (active_sync_committee h) = Ok t /\
    compute_slot_at_timestamp c now = Some slot /\
    validate_periods c t (consensus_update h) slot = Ok (sp, gp, ap) /\
    validate_finality c (consensus_update h) = Ok () /\
    validate_next_committee c t (consensus_update h) sp ap = Ok () /\
    validate_signature c t (consensus_update h) sp gp = Ok () /\
    validate_signature_supermajority (sync_aggregate (consensus_update h)) = true /\
    cs_slot s < finalized_slot_of (consensus_update h) /\
    (period_of c (cs_slot s) < period_of c (finalized_slot_of (consensus_update h)) ->
      is_Some (up_next_sync_committee_branch (consensus_update h))).
Proof.
  unfold verify_header. intros E. apply result_bind_ok in E as (t & Et & E).
  apply result_bind_ok in E as (slot & Es%ok_or_ok & E). apply result_bind_ok in E as ([] & Ev & E).
  apply result_bind_ok in E as (v1 & E1%require_r_ok & E). apply result_bind_ok in E as (v2 & E2%require_r_ok & E).
  apply result_bind_ok in E as (p1 & (_ & _ & ->)%period_at_slot_Ok & E).
  apply result_bind_ok in E as (p2 & (_ & _ & ->)%period_at_slot_Ok & E).
  unfold validate_light_client_update in Ev. apply result_bind_ok in Ev as (v3 & _ & Ev).
  apply result_bind_ok in Ev as (v4 & _ & Ev). apply result_bind_ok in Ev as ([[sp gp] ap] & Ep & Ev).
  apply result_bind_ok in Ev as ([] & Ef & Ev). apply result_bind_ok in Ev as ([] & En & Ev).
  exists t, slot, sp, gp, ap. apply Z.ltb_lt in E2. split_and!; try done.
  intros Hp%Z.ltb_lt. rewrite Hp in E. apply require_r_ok in E. by apply bool_decide_eq_true in E.
Qed.

(** The sizes of the fixed arrays of a header. *)
Definition lc_header_sized (h : Header) : Prop :=
  update_sized (consensus_update h) /\ committee_sized (full_committee (active_sync_committee h)) /\
  is_u64 (trusted_slot h).

(** What a header proves about the chain. *)
Definition proves_final (chain : BeaconChain) (c : EthClientState) (u : LightClientUpdate) : Prop :=
  (exists e, finalized_block chain (lh_beacon (finalized_header u)) e /\
    ex_state_root (lh_execution (finalized_header u)) = ex_state_root e /\
    ex_timestamp (lh_execution (finalized_header u)) = ex_timestamp e /\
    ex_block_number (lh_execution (finalized_header u)) = ex_block_number e) /\
  (forall next, up_next_sync_committee u = Some next ->
    to_summarized_sync_committee next =
      to_summarized_sync_committee (committee_of chain (period_of c (attested_slot u) + 1))).

Lemma header_proves_final chain c known `{!CollisionFree known} `{!BeaconChainOk chain c known} s now h r :
  chain_state chain s -> lc_header_sized h -> Forall known (header_inputs c h) ->
  verify_header s c now h = Ok r -> proves_final chain c (consensus_update h).
Proof.
  intros Hs [(Sa & Sf & Sb & Sn & Sc & _) [Sac _]] K
    (t & slot & sp & gp & ap & Et & _ & _ & Ef & En & Ev & Hsuper & _ & _)%verify_header_Ok.
  unfold header_inputs in K. repeat rewrite Forall_app in K. destruct K as (K1 & K2 & K3 & K4 & K5 & K6 & K7 & K8).
  eapply (trusted_new_sound chain c known) in Et as (-> & Hsize & Hp); [|done..].
  assert (signed_header chain (lh_beacon (attested_header (consensus_update h)))) as Hsig.
  { eapply (attested_header_signed chain c known); [done..| |done|done]. intros d Ed. by rewrite Ed in K2. }
  split; [by eapply (finalized_header_final chain c known)|]. intros next Hnext. rewrite Hnext in K8.
  apply Forall_app in K8 as [K8 K9].
  eapply (next_committee_of_chain chain c known) in En; [exact En|done|done|by apply Sc|done|done|done].
Qed.

End Soundness.

(** C12: An accepted header proves finality.  Let the trusted consensus state
    hold committees of the beacon chain, two thirds of whose members are
    honest, and let SHA-256 have no collision among the strings hashed.  If
    [verify_header] accepts a header, its finalized header is a finalized block
    of the chain, the execution header carries the state root, the timestamp
    and the block number of that block's payload, and a next sync committee in
    the update summarizes as the chain's committee of the period after the
    attested slot. *)
Theorem verify_header_sound `{Sha2} `{!Sha2Ok} `{DeriveTreeHash} `{!DeriveOk} `{BlsVerify}
    chain c known `{!CollisionFree known} `{!BeaconChainOk chain c known} s now h :
  chain_state chain s -> lc_header_sized h -> Forall known (header_inputs c h) ->
  verify_header s c now h = Ok () -> proves_final chain c (consensus_update h).
Proof. apply header_proves_final; done. Qed.
