(* ===== verification/EthWasmSpec.v ===== *)
(** * Invariants of the Ethereum client contract

    The store of the contract seen through its accessors, the effect of every
    handler on it, and the histories ibc-go produces: a client message is
    verified first, then applied, as the doc of [sudo::update_state] says.  A
    history records the accepted headers with the latest slot they met. *)

From S2P Require Import Prelude TreeHash TreeHashSpec EthTypes EthTrie EthLC EthWasm EthMerkle EthVerify.
From Stdlib Require Import ZArith Lia.
From Stdlib.Strings Require Import Byte.
From stdpp Require Import prelude list strings gmap pretty.
#[local] Open Scope Z_scope.

(** What the contract relies on of its codecs and of [cw2]: decoding undoes
    encoding, decoded integers and arrays have their sizes, and the version of
    the contract has a key of its own. *)
Definition CONTRACT_INFO_KEY : string := "contract_info".

Class WasmLibOk `{WasmLib} : Prop := {
  client_any_roundtrip w b : wasm_client_to_any w = Some b -> any_decode b ≫= wasm_client_decode = Some w;
  consensus_any_roundtrip d b : wasm_consensus_to_any d = Some b -> any_decode b ≫= wasm_consensus_decode = Some d;
  client_json_roundtrip c b : client_to_vec c = Some b -> client_from_slice b = Some c;
  consensus_json_roundtrip s b : consensus_to_vec s = Some b -> consensus_from_slice b = Some s;
  client_json_sized b c : client_from_slice b = Some c ->
    is_u64 (latest_slot c) /\ is_u64 (slots_per_epoch c) /\ is_u64 (epochs_per_sync_committee_period c);
  consensus_json_sized b s : consensus_from_slice b = Some s -> is_u64 (cs_slot s);
  header_json_sized b h : header_from_slice b = Some h -> lc_header_sized h;
  set_version_frame st st' k : set_contract_version st = Ok st' -> k <> CONTRACT_INFO_KEY -> st' !! k = st !! k;
}.

(** ** Keys *)

Lemma string_app_inj_l (a b c : string) : a +:+ b = a +:+ c -> b = c.
Proof. induction a as [|x a IH]; cbn; [done|]. intros [= E]. by apply IH. Qed.

Lemma consensus_db_key_inj x y : 0 <= x -> 0 <= y -> consensus_db_key x = consensus_db_key y -> x = y.
Proof.
  intros Hx Hy E. unfold consensus_db_key in E. do 2 apply string_app_inj_l in E.
  apply (inj pretty) in E. lia.
Qed.

Lemma consensus_key_not_client slot : consensus_db_key slot <> HOST_CLIENT_STATE_KEY.
Proof. done. Qed.

Section Store.
Context `{Sha2, DeriveTreeHash, Keccak, TrieLib, ProofJson, WasmLib, BlsQuerier} `{!WasmLibOk}.

Lemma store_client_Ok st w st' :
  store_client_state st w = Ok st' ->
  get_wasm_client_state st' = Ok w /\ forall slot, get_eth_consensus_state st' slot = get_eth_consensus_state st slot.
Proof.
  unfold store_client_state. destruct (wasm_client_to_any w) as [b|] eqn:E; cbn; [|done]. intros [= <-].
  split; [|intros slot; unfold get_eth_consensus_state; by rewrite lookup_insert_ne by done].
  unfold get_wasm_client_state. rewrite lookup_insert_eq. cbn. apply client_any_roundtrip in E.
  destruct (any_decode b) as [v|]; cbn in *; [|done]. by rewrite E.
Qed.

Lemma store_consensus_Ok st d slot st' :
  0 <= slot -> store_consensus_state st d slot = Ok st' ->
  get_wasm_client_state st' = get_wasm_client_state st /\
  forall x, 0 <= x -> get_eth_consensus_state st' x =
    if x =? slot then ok_or (consensus_from_slice d) SerdeJsonError else get_eth_consensus_state st x.
Proof.
  intros Hs. unfold store_consensus_state. destruct (wasm_consensus_to_any d) as [b|] eqn:E; cbn; [|done]. intros [= <-].
  split; [unfold get_wasm_client_state; by rewrite lookup_insert_ne by done|]. intros x Hx.
  unfold get_eth_consensus_state. destruct (Z.eqb_spec x slot) as [->|Hne].
  - rewrite lookup_insert_eq. cbn. apply consensus_any_roundtrip in E.
    destruct (any_decode b) as [v|]; cbn in *; [|done]. by rewrite E.
  - rewrite lookup_insert_ne; [done|]. intros E'%consensus_db_key_inj; [congruence|done..].
Qed.

Lemma get_client_of_wasm st w : get_wasm_client_state st = Ok w ->
  get_eth_client_state st = ok_or (client_from_slice (wcs_data w)) SerdeJsonError.
Proof. unfold get_eth_client_state. by intros ->. Qed.

Lemma put_client_data_Ok st c st' :
  put_client_data st c = Ok st' ->
  get_eth_client_state st' = Ok c /\ forall slot, get_eth_consensus_state st' slot = get_eth_consensus_state st slot.
Proof.
  unfold put_client_data. intros E. apply result_bind_ok in E as (b & Eb%ok_or_ok & E).
  apply result_bind_ok in E as (w & Ew & E). apply store_client_Ok in E as [Ec Es]. split; [|done].
  rewrite (get_client_of_wasm _ _ Ec). cbn. by rewrite (client_json_roundtrip _ _ Eb).
Qed.

(** ** The handlers *)

Lemma instantiate_Ok msg st :
  instantiate ∅ msg = Ok st ->
  exists c s, client_from_slice (im_client_state msg) = Some c /\ consensus_from_slice (im_consensus_state msg) = Some s /\
    cs_slot s = latest_slot c /\ get_eth_client_state st = Ok c /\
    forall x, 0 <= x -> get_eth_consensus_state st x = if x =? cs_slot s then Ok s else Err ConsensusStateNotFound.
Proof.
  unfold instantiate. intros E. apply result_bind_ok in E as (st0 & E0%map_err_ok & E).
  unfold instantiate_client in E. apply result_bind_ok in E as (c & Ec%ok_or_ok & E).
  apply result_bind_ok in E as (s & Es%ok_or_ok & E). apply result_bind_ok in E as (? & _ & E).
  apply result_bind_ok in E as (v & E1%require_r_ok & E). apply Z.eqb_eq in E1.
  apply result_bind_ok in E as (? & _ & E). apply result_bind_ok in E as (? & _ & E).
  apply result_bind_ok in E as (st1 & E2 & E). apply store_client_Ok in E2 as [Ew Ef].
  pose proof (consensus_json_sized _ _ Es) as [Hs _]. apply store_consensus_Ok in E as [Ew' Ef']; [|done].
  exists c, s. split_and!; [done..| |].
  - rewrite (get_client_of_wasm st (mkWasmClientState (im_checksum msg) (im_client_state msg)
      (Some (mkWasmHeight 0 (latest_slot c))))) by congruence. cbn. by rewrite Ec.
  - intros y Hy. rewrite Ef' by done. destruct (y =? cs_slot s); [by rewrite Es|]. rewrite Ef.
    unfold get_eth_consensus_state. by rewrite (set_version_frame _ _ _ E0), lookup_empty.
Qed.

Lemma update_state_Ok st m a st' :
  update_state st m = Ok (a, st') ->
  exists h c s s' oc, header_from_slice m = Some h /\ get_eth_client_state st = Ok c /\
    get_eth_consensus_state st (latest_slot c) = Ok s /\
    update_consensus_state s c h = Ok (finalized_slot_of (consensus_update h), s', oc) /\
    a = Heights [mkWasmHeight 0 (finalized_slot_of (consensus_update h))] /\
    get_eth_client_state st' = Ok (default c oc) /\
    forall x, 0 <= x -> get_eth_consensus_state st' x =
      if x =? finalized_slot_of (consensus_update h) then Ok s' else get_eth_consensus_state st x.
Proof.
  unfold update_state. intros E. apply result_bind_ok in E as (h & Eh%ok_or_ok & E).
  apply result_bind_ok in E as (c & Ec & E). apply result_bind_ok in E as (s & Es & E).
  apply result_bind_ok in E as ([[F s'] oc] & Eu%map_err_ok & E).
  assert (F = finalized_slot_of (consensus_update h)) as ->.
  { unfold update_consensus_state in Eu. apply result_bind_ok in Eu as (? & _ & Eu).
    apply result_bind_ok in Eu as (? & _ & Eu). apply result_bind_ok in Eu as (? & _ & Eu).
    apply result_bind_ok in Eu as ([] & _ & Eu). congruence. }
  apply result_bind_ok in E as (d & Ed%ok_or_ok & E). apply result_bind_ok in E as (st1 & E1 & E).
  apply result_bind_ok in E as (st2 & E2 & [= <- <-]).
  destruct (header_json_sized _ _ Eh) as [(_ & (Sb & _) & _) _]. destruct Sb as ([Hpos _] & _).
  apply store_consensus_Ok in E1 as [Ew1 Ef1]; [|done].
  rewrite (consensus_json_roundtrip _ _ Ed) in Ef1. cbn in Ef1.
  exists h, c, s, s', oc. split_and!; [done..| |].
  - destruct oc as [c'|]; cbn; [|by injection E2 as <-; unfold get_eth_client_state; rewrite Ew1].
    apply result_bind_ok in E2 as (b & Eb%ok_or_ok & E2). apply result_bind_ok in E2 as (w & _ & E2).
    apply store_client_Ok in E2 as [Ew2 _]. rewrite (get_client_of_wasm _ _ Ew2). cbn.
    by rewrite (client_json_roundtrip _ _ Eb).
  - intros y Hy. rewrite <- Ef1 by done. destruct oc as [c'|]; [|by injection E2 as <-].
    apply result_bind_ok in E2 as (? & _ & E2). apply result_bind_ok in E2 as (? & _ & E2).
    apply store_client_Ok in E2 as [_ Ef2]. apply Ef2.
Qed.

Lemma misbehaviour_Ok st m a st' :
  misbehaviour st m = Ok (a, st') ->
  exists c, get_eth_client_state st = Ok c /\ a = NoData /\ get_eth_client_state st' = Ok (set_frozen c) /\
    forall slot, get_eth_consensus_state st' slot = get_eth_consensus_state st slot.
Proof.
  unfold misbehaviour. intros E. apply result_bind_ok in E as (c & Ec & E).
  apply result_bind_ok in E as (st1 & E1 & [= <- <-]). apply put_client_data_Ok in E1 as [E1 E2]. eauto.
Qed.

(** The new states of an update. *)
Lemma update_consensus_state_Ok s c h slot s' oc :
  update_consensus_state s c h = Ok (slot, s', oc) ->
  let u := consensus_update h in
  slot = finalized_slot_of u /\ latest_slot c = cs_slot s /\ cs_slot s' = finalized_slot_of u /\
  cs_state_root s' = ex_state_root (lh_execution (finalized_header u)) /\
  cs_timestamp s' = ex_timestamp (lh_execution (finalized_header u)) /\
  oc = (if cs_slot s <? finalized_slot_of u
    then Some (with_latest c (finalized_slot_of u) (ex_block_number (lh_execution (finalized_header u)))) else None) /\
  slots_per_epoch c <> 0 /\ epochs_per_sync_committee_period c <> 0 /\
  match next_sync_committee s with
  | Some next =>
    if period_of c (finalized_slot_of u) =? succ_u64 (period_of c (cs_slot s))
    then current_sync_committee s' = next /\ summarized (up_next_sync_committee u) = Ok (next_sync_committee s')
    else current_sync_committee s' = current_sync_committee s /\ next_sync_committee s' = next_sync_committee s
  | None =>
    period_of c (finalized_slot_of u) = period_of c (cs_slot s) /\
    current_sync_committee s' = current_sync_committee s /\
    summarized (up_next_sync_committee u) = Ok (next_sync_committee s')
  end.
Proof.
  intros E u. unfold update_consensus_state in E. apply result_bind_ok in E as (v1 & E1%require_r_ok & E).
  apply Z.eqb_eq in E1. apply result_bind_ok in E as (p1 & (N1 & N2 & ->)%period_at_slot_Ok & E).
  apply result_bind_ok in E as (p2 & (_ & _ & ->)%period_at_slot_Ok & E).
  apply result_bind_ok in E as ([cur next] & En & E). fold u in En, E. injection E as <- <- <-.
  split_and!; [done..|]. destruct (next_sync_committee s) as [n|] eqn:Es.
  - cbn. destruct (_ =? _); [|by injection En as <- <-].
    apply result_bind_ok in En as (o & Eo & [= <- <-]). done.
  - apply result_bind_ok in En as (v & Ev%require_r_ok & En). apply Z.eqb_eq in Ev.
    apply result_bind_ok in En as (o & Eo & [= <- <-]). done.
Qed.

End Store.
