(* ===== verification/EthHistory.v ===== *)
(** * Histories of the Ethereum client contract

    Everything ibc-go can make of a client: [hosted c0 s0 st log] says that the
    store [st] results from instantiating the contract with [c0] and [s0] and
    applying the accepted client messages of [log], each verified before it is
    applied.  Theorems: the store stays well formed; every stored consensus
    state is a finalized block of the beacon chain; the stored committees are
    those of the period as long as updates build on the latest state; a proof
    of membership the contract accepts is about the contract's storage in a
    finalized block. *)

From S2P Require Import Prelude TreeHash TreeHashSpec EthTypes EthTrie EthLC EthWasm EthMerkle EthVerify EthWasmSpec.
From Stdlib Require Import ZArith Lia.
From Stdlib.Strings Require Import Byte.
From stdpp Require Import prelude list strings gmap.
#[local] Open Scope Z_scope.

(** An accepted header with the latest slot it met, or a freeze. *)
Inductive HostEvent :=
| HUpdate (latest : Z) (h : Header)
| HFreeze.

(** The parts of the client state no update changes. *)
Definition params (c : EthClientState) : EthClientState := set_frozen (with_latest c 0 0).

Section History.
Context `{Sha2} `{!Sha2Ok} `{DeriveTreeHash} `{!DeriveOk} `{Keccak, TrieLib, ProofJson, BlsQuerier}.
Context `{WasmLib} `{!WasmLibOk}.

Inductive hosted (c0 : EthClientState) (s0 : EthConsensusState) : Storage -> list HostEvent -> Prop :=
| hosted_new msg st :
    client_from_slice (im_client_state msg) = Some c0 ->
    consensus_from_slice (im_consensus_state msg) = Some s0 ->
    instantiate ∅ msg = Ok st -> hosted c0 s0 st []
| hosted_update st log now m h c a st' :
    hosted c0 s0 st log -> get_eth_client_state st = Ok c -> header_from_slice m = Some h ->
    query st now QueryStatus = Ok (StatusIs Active) ->
    query st now (QueryVerifyClientMessage m) = Ok NoData ->
    is_ok (query st now (QueryCheckForMisbehaviour m)) = false ->
    sudo st (SudoUpdateState m) = Ok (a, st') ->
    hosted c0 s0 st' (log ++ [HUpdate (latest_slot c) h])
| hosted_freeze st log now m a st' :
    hosted c0 s0 st log ->
    query st now QueryStatus = Ok (StatusIs Active) ->
    query st now (QueryVerifyClientMessage m) = Ok NoData ->
    query st now (QueryCheckForMisbehaviour m) = Ok (FoundMisbehaviour true) ->
    sudo st (SudoUpdateStateOnMisbehaviour m) = Ok (a, st') ->
    hosted c0 s0 st' (log ++ [HFreeze]).

(** ** The store is well formed *)

Record store_wf (c0 : EthClientState) (s0 : EthConsensusState) (log : list HostEvent) (st : Storage)
    (c : EthClientState) : Prop := {
  wf_client : get_eth_client_state st = Ok c;
  wf_params : params c = params c0;
  wf_latest : is_u64 (latest_slot c) /\ latest_slot c0 <= latest_slot c;
  wf_frozen : is_frozen c = true <-> is_frozen c0 = true \/ HFreeze ∈ log;
  wf_latest_state : exists s, get_eth_consensus_state st (latest_slot c) = Ok s;
  wf_states x s : 0 <= x -> get_eth_consensus_state st x = Ok s ->
    cs_slot s = x /\ x <= latest_slot c /\
    (s = s0 \/ exists l h, HUpdate l h ∈ log /\ finalized_slot_of (consensus_update h) = x /\
      cs_state_root s = ex_state_root (lh_execution (finalized_header (consensus_update h))));
}.

Lemma params_with_latest c slot n : params (with_latest c slot n) = params c.
Proof. done. Qed.

Lemma params_set_frozen c : params (set_frozen c) = params c.
Proof. done. Qed.

(** What an update step does. *)
Lemma update_step st now m h c a st' :
  get_eth_client_state st = Ok c -> header_from_slice m = Some h ->
  query st now (QueryVerifyClientMessage m) = Ok NoData -> sudo st (SudoUpdateState m) = Ok (a, st') ->
  lc_header_sized h /\
  exists t s s' oc, get_eth_consensus_state st (trusted_slot h) = Ok t /\ verify_header t c now h = Ok () /\
    get_eth_consensus_state st (latest_slot c) = Ok s /\
    update_consensus_state s c h = Ok (finalized_slot_of (consensus_update h), s', oc) /\
    get_eth_client_state st' = Ok (default c oc) /\
    forall x, 0 <= x -> get_eth_consensus_state st' x =
      if x =? finalized_slot_of (consensus_update h) then Ok s' else get_eth_consensus_state st x.
Proof.
  intros Ec Eh Ev Eu. cbn in Ev, Eu. apply update_state_Ok in Eu as (h' & c' & s & s' & oc & Eh' & Ec' & Es & Eu & _ & Ec2 & Ef).
  assert (h' = h) as -> by congruence. assert (c' = c) as -> by congruence.
  split; [by eapply header_json_sized|]. unfold verify_client_message in Ev. rewrite Ec in Ev. cbn in Ev. rewrite Eh in Ev.
  apply result_bind_ok in Ev as (t & Et & Ev). apply result_bind_ok in Ev as ([] & Ev%map_err_ok & _).
  exists t, s, s', oc. done.
Qed.

(** An event of a longer history. *)
Lemma elem_snoc {A} (x y : A) l : x ∈ l ++ [y] <-> x ∈ l \/ x = y.
Proof. by rewrite elem_of_app, list_elem_of_singleton. Qed.

Lemma new_wf c0 s0 msg st :
  client_from_slice (im_client_state msg) = Some c0 -> consensus_from_slice (im_consensus_state msg) = Some s0 ->
  instantiate ∅ msg = Ok st -> store_wf c0 s0 [] st c0.
Proof.
  intros Ec0 Es0 (c & s & Ec & Es & El & Ecl & Ef)%instantiate_Ok.
  assert (c = c0) as -> by congruence. assert (s = s0) as -> by congruence.
  destruct (client_json_sized _ _ Ec0) as [Hu _]. split; [done..| |eauto|].
  - split; [auto|]. intros [|Hin]; [done|]. by apply elem_of_nil in Hin.
  - exists s0. rewrite Ef by (destruct Hu; lia). by rewrite El, Z.eqb_refl.
  - intros x s Hx. rewrite Ef by done. destruct (Z.eqb_spec x (cs_slot s0)); [|done]. intros [= <-].
    split_and!; [done|lia|auto].
Qed.

Lemma update_wf c0 s0 log st c now m h a st' :
  store_wf c0 s0 log st c -> header_from_slice m = Some h ->
  query st now (QueryVerifyClientMessage m) = Ok NoData -> sudo st (SudoUpdateState m) = Ok (a, st') ->
  exists c', store_wf c0 s0 (log ++ [HUpdate (latest_slot c) h]) st' c'.
Proof.
  intros [Wc Wp [Wl Wl'] Wf [s1 Ws] Wst] Eh Ev Eu.
  destruct (update_step _ _ _ _ _ _ _ Wc Eh Ev Eu)
    as ([(_ & ((Hu & _) & _) & _) _] & t & s & s' & oc & _ & Evh & Esl & Euc & Ec' & Ef).
  apply update_consensus_state_Ok in Euc as (_ & El & Esl' & Eroot & _ & Eoc & _).
  set (F := finalized_slot_of (consensus_update h)) in *.
  assert (latest_slot (default c oc) = Z.max F (latest_slot c)) as Elat.
  { rewrite Eoc. destruct (Z.ltb_spec (cs_slot s) F); cbn; lia. }
  exists (default c oc). split; [done| | | | |].
  - rewrite Eoc. by destruct (_ <? _).
  - rewrite Elat. destruct Hu, Wl. split; [split|]; lia.
  - replace (is_frozen (default c oc)) with (is_frozen c) by (rewrite Eoc; by destruct (_ <? _)).
    rewrite Wf, elem_snoc. naive_solver.
  - rewrite Elat, Ef by (destruct Hu; lia).
    destruct (Z.eqb_spec (Z.max F (latest_slot c)) F); [eauto|]. exists s1. rewrite <- Ws. f_equal. lia.
  - intros x s2 Hx. rewrite Ef, Elat by done. destruct (Z.eqb_spec x F) as [->|].
    + intros [= <-]. split_and!; [done|lia|]. right. exists (latest_slot c), h. rewrite elem_snoc. auto.
    + intros E1. destruct (Wst x s2 Hx E1) as (? & ? & Hor). split_and!; [done|lia|].
      destruct Hor as [|(l & h' & Hin & ?)]; [auto|]. right. exists l, h'. rewrite elem_snoc. auto.
Qed.

Lemma freeze_wf c0 s0 log st c m a st' :
  store_wf c0 s0 log st c -> sudo st (SudoUpdateStateOnMisbehaviour m) = Ok (a, st') ->
  store_wf c0 s0 (log ++ [HFreeze]) st' (set_frozen c).
Proof.
  intros [Wc Wp Wl Wf Ws Wst] Eu. cbn in Eu. apply misbehaviour_Ok in Eu as (c' & Ec & _ & Ec' & Ef).
  assert (c' = c) as -> by congruence.
  split; [done|done|done| |by rewrite Ef|].
  - split; [|done]. intros _. right. apply elem_snoc. auto.
  - intros x s Hx. rewrite Ef. intros E1. destruct (Wst x s Hx E1) as (? & ? & Hor). split_and!; [done..|].
    destruct Hor as [|(l & h' & Hin & ?)]; [auto|]. right. exists l, h'. rewrite elem_snoc. auto.
Qed.

Lemma hosted_wf c0 s0 st log : hosted c0 s0 st log -> exists c, store_wf c0 s0 log st c.
Proof.
  induction 1 as [msg st Ec0 Es0 E|st log now m h c a st' _ [c1 W] Ec Eh Es Ev _ Eu|st log now m a st' _ [c W] Es Ev Em Eu].
  - exists c0. by eapply new_wf.
  - assert (c1 = c) as -> by (destruct W; congruence). by eapply update_wf.
  - exists (set_frozen c). by eapply freeze_wf.
Qed.

(** ** Induction over the stored states *)

Lemma get_client_sized st c : get_eth_client_state st = Ok c ->
  is_u64 (latest_slot c) /\ is_u64 (slots_per_epoch c) /\ is_u64 (epochs_per_sync_committee_period c).
Proof.
  unfold get_eth_client_state. intros E. apply result_bind_ok in E as (w & _ & E%ok_or_ok). by eapply client_json_sized.
Qed.

(** An accepted header [h], verified against [t] and applied to the latest
    state [s]. *)
Record accepted (c0 : EthClientState) (Q : Z -> Header -> Prop) (c : EthClientState) (now : Z) (h : Header)
    (t s s' : EthConsensusState) (oc : option EthClientState) : Prop := {
  acc_params : params c = params c0;
  acc_sized : is_u64 (latest_slot c) /\ is_u64 (slots_per_epoch c) /\ is_u64 (epochs_per_sync_committee_period c);
  acc_log : Q (latest_slot c) h;
  acc_header : lc_header_sized h;
  acc_latest : cs_slot s = latest_slot c;
  acc_same : trusted_slot h = latest_slot c -> t = s;
  acc_trusted : cs_slot t = trusted_slot h;
  acc_verified : verify_header t c now h = Ok ();
  acc_updated : update_consensus_state s c h = Ok (finalized_slot_of (consensus_update h), s', oc);
}.

Lemma hosted_states c0 s0 st log (Q : Z -> Header -> Prop) (P : EthConsensusState -> Prop) :
  hosted c0 s0 st log -> (forall l h, HUpdate l h ∈ log -> Q l h) -> P s0 ->
  (forall c now h t s s' oc, accepted c0 Q c now h t s s' oc -> P t -> P s -> P s') ->
  forall x s, 0 <= x -> get_eth_consensus_state st x = Ok s -> P s.
Proof.
  intros Hh HQ H0' Hstep. induction Hh as [msg st Ec0 Es0 E|st log now m h c a st' Hst IH Ec Eh Es Ev _ Eu|st log now m a st' Hst IH Es Ev Em Eu];
    intros x s Hx Hget.
  - apply instantiate_Ok in E as (c & s1 & Ec & Es & El & Ecl & Ef). rewrite Ef in Hget by done.
    destruct (x =? cs_slot s1); [|done]. injection Hget as <-. by assert (s1 = s0) as -> by congruence.
  - specialize (IH ltac:(intros l h' Hin; apply HQ, elem_snoc; auto)). destruct (hosted_wf _ _ _ _ Hst) as [c' W].
    assert (c' = c) as -> by (destruct W; congruence).
    destruct (update_step _ _ _ _ _ _ _ Ec Eh Ev Eu) as (Hs & t & s1 & s' & oc & Et & Evh & Es1 & Euc & _ & Ef).
    rewrite Ef in Hget by done. destruct (Z.eqb_spec x (finalized_slot_of (consensus_update h))); [|by apply (IH x)].
    injection Hget as <-. pose proof (get_client_sized _ _ Ec) as U.
    assert (0 <= latest_slot c) as H1' by (destruct U as [[] _]; lia).
    assert (0 <= trusted_slot h) as H2' by (destruct Hs as (_ & _ & []); lia).
    eapply Hstep; [|by eapply IH, Et|by eapply IH, Es1].
    split; [apply W|done|apply HQ, elem_snoc; auto|done| | | |exact Evh|exact Euc].
    + apply (wf_states _ _ _ _ _ W _ _ H1' Es1).
    + intros Heq. rewrite Heq in Et. congruence.
    + apply (wf_states _ _ _ _ _ W _ _ H2' Et).
  - cbn in Eu. apply misbehaviour_Ok in Eu as (c & Ec & _ & _ & Ef). rewrite Ef in Hget.
    eapply IH; [intros l h' Hin; apply HQ, elem_snoc; auto|done..].
Qed.

(** ** Stored states are finalized blocks *)

Context (chain : BeaconChain) (known : bytes -> Prop) `{!CollisionFree known}.

(** The state is a finalized block of the chain. *)
Definition final_state (s : EthConsensusState) : Prop :=
  exists b e, finalized_block chain b e /\ bh_slot b = cs_slot s /\
    cs_state_root s = ex_state_root e /\ cs_timestamp s = ex_timestamp e.

(** The strings hashed for the accepted headers are known. *)
Definition log_known (c0 : EthClientState) (log : list HostEvent) : Prop :=
  forall l h, HUpdate l h ∈ log -> Forall known (header_inputs c0 h).

Lemma params_eq c c0 : params c = params c0 ->
  (forall slot, period_of c slot = period_of c0 slot) /\ (forall h, header_inputs c h = header_inputs c0 h) /\
  sync_committee_size c = sync_committee_size c0.
Proof.
  destruct c, c0. intros E. cbv [params set_frozen with_latest] in E. cbn in E. injection E as -> -> -> -> -> -> -> -> -> -> -> ->.
  done.
Qed.

Lemma chain_ok_params c c0 : params c = params c0 -> BeaconChainOk chain c0 known -> BeaconChainOk chain c known.
Proof.
  intros (Ep & _ & Es)%params_eq [A B C D]. split; [by rewrite Es|by rewrite Es| |exact D].
  intros b Hb. destruct (C b Hb) as (f & ep & fin & ex & r & H1' & H2' & H3' & H4' & H5').
  exists f, ep, fin, ex, r. by rewrite Ep.
Qed.

(** The summary of the update's next committee is that of the chain. *)
Lemma summarized_next c u n :
  proves_final chain c u -> summarized (up_next_sync_committee u) = Ok (Some n) ->
  to_summarized_sync_committee (committee_of chain (period_of c (attested_slot u) + 1)) = Ok n.
Proof.
  intros [_ Hnx]. unfold summarized. destruct (up_next_sync_committee u) as [nc|]; [|done].
  intros E. apply result_bind_ok in E as (x & E0%map_err_ok & [= <-]). by rewrite <- (Hnx nc).
Qed.

Lemma update_chain_state s c h slot s' oc :
  proves_final chain c (consensus_update h) -> chain_state chain s ->
  update_consensus_state s c h = Ok (slot, s', oc) -> chain_state chain s'.
Proof.
  intros Hpf [Hcur Hnext] (_ & _ & _ & _ & _ & _ & _ & _ & Hm)%update_consensus_state_Ok.
  assert (forall n, summarized (up_next_sync_committee (consensus_update h)) = Ok (Some n) -> chain_summary chain n) as Hsum.
  { intros n E. eexists. by apply summarized_next. }
  destruct (next_sync_committee s) as [n1|] eqn:En1.
  - destruct (_ =? _); destruct Hm as [E1 E2]; (split; [rewrite E1; auto|]); intros n En.
    + apply Hsum. by rewrite E2, En.
    + apply Hnext. by rewrite <- E2.
  - destruct Hm as (_ & E1 & E2). split; [by rewrite E1|]. intros n En. apply Hsum. by rewrite E2, En.
Qed.

Lemma hosted_final c0 s0 st log :
  hosted c0 s0 st log -> BeaconChainOk chain c0 known -> log_known c0 log ->
  chain_state chain s0 -> final_state s0 ->
  forall x s, 0 <= x -> get_eth_consensus_state st x = Ok s -> chain_state chain s /\ final_state s.
Proof.
  intros Hh Hok Hk Hc Hf. eapply hosted_states; [done|exact Hk|done|].
  intros c now h t s s' oc [Hp _ Hkn Hsz _ _ _ Hv Hu] [Ht _] [Hs _].
  assert (proves_final chain c (consensus_update h)) as Hpf.
  { eapply (header_proves_final chain c known (BeaconChainOk0 := chain_ok_params _ _ Hp Hok)); [exact Ht|done| |exact Hv].
    destruct (params_eq _ _ Hp) as (_ & Ei & _). by rewrite Ei. }
  split; [by eapply update_chain_state|]. destruct Hpf as [(e & Hfin & Er & Etm & _) _].
  apply update_consensus_state_Ok in Hu as (_ & _ & Esl & Erl & Etl & _).
  exists (lh_beacon (finalized_header (consensus_update h))), e. split_and!; [done|done|congruence|congruence].
Qed.

(** ** The stored committees are those of the period *)

(** The current committee is that of the state's period, and a stored next
    committee that of the period after it. *)
Definition in_rotation (c : EthClientState) (s : EthConsensusState) : Prop :=
  to_summarized_sync_committee (committee_of chain (period_of c (cs_slot s))) = Ok (current_sync_committee s) /\
  forall n, next_sync_committee s = Some n ->
    to_summarized_sync_committee (committee_of chain (period_of c (cs_slot s) + 1)) = Ok n.

Definition positive_periods (c : EthClientState) : Prop :=
  0 < slots_per_epoch c /\ 0 < epochs_per_sync_committee_period c.

Lemma period_mono c x y : positive_periods c -> x <= y -> period_of c x <= period_of c y.
Proof. intros [H1' H2'] Hxy. unfold period_of. by do 2 (apply Z.div_le_mono; [done|]). Qed.

Lemma period_u64 c x : positive_periods c -> is_u64 x -> is_u64 (period_of c x).
Proof.
  intros [H1' H2'] [Hx Hx']. unfold period_of, is_u64 in *.
  assert (0 <= x / slots_per_epoch c <= x) as Hd.
  { split; [by apply Z.div_pos|]. apply Z.div_le_upper_bound; nia. }
  split; [apply Z.div_pos; lia|]. transitivity (x / slots_per_epoch c); [|lia].
  apply Z.div_le_upper_bound; nia.
Qed.

Lemma succ_u64_neq x : is_u64 x -> succ_u64 x <> x.
Proof.
  unfold is_u64, u64_max, succ_u64. intros Hx E. destruct (decide (x = 2 ^ 64 - 1)) as [->|]; [done|].
  rewrite Z.mod_small in E; lia.
Qed.

(** The periods of an accepted update: it stays in the period of the trusted
    state, or enters the next one under the stored next committee. *)
Lemma accepted_periods s c now h r :
  positive_periods c -> is_u64 (cs_slot s) -> lc_header_sized h -> verify_header s c now h = Ok r ->
  let u := consensus_update h in
  let sp := period_of c (cs_slot s) in
  cs_slot s < finalized_slot_of u /\
  (period_of c (finalized_slot_of u) = sp /\
    (next_sync_committee s = None -> period_of c (attested_slot u) = sp) \/
   succ_u64 sp = sp + 1 /\ period_of c (finalized_slot_of u) = sp + 1 /\ period_of c (attested_slot u) = sp + 1).
Proof.
  intros Hpos Hs [(_ & _ & _ & _ & _ & _ & Hsig) _] E u sp.
  apply verify_header_Ok in E as (t & slot & sp' & gp & ap & Et & _ & Ep & _ & _ & Ev & _ & Hlt & _).
  assert (t = mkTrustedConsensusState s (active_sync_committee h) /\
    (is_Some (tcs_next t) -> next_sync_committee s <> None)) as [-> Hnext].
  { unfold TrustedConsensusState_new in Et. apply result_bind_ok in Et as (full & Ef & Et).
    assert (t = mkTrustedConsensusState s (active_sync_committee h)) as -> by (clear Ef; rinv Et; congruence).
    split; [done|]. cbn. destruct (active_sync_committee h); [by intros []|]. intros _ Hn. by rewrite Hn in Ef. }
  apply validate_periods_Ok in Ep as (H1' & H2' & H3' & _ & _ & _ & -> & -> & -> & Hcase). fold u in H1', H2', H3', Hlt, Hcase, Ev.
  cbn [tcs_state] in *. fold sp in Hcase, Ev.
  pose proof (period_mono c (cs_slot s) (finalized_slot_of u) Hpos ltac:(lia)) as Hm1. fold sp in Hm1.
  pose proof (period_mono c (finalized_slot_of u) (attested_slot u) Hpos ltac:(lia)).
  pose proof (period_mono c (attested_slot u) (signature_slot u) Hpos ltac:(lia)). split; [done|].
  destruct Hcase as [Hcase|[Hn Hcase]]; [left; lia|].
  destruct (decide (period_of c (signature_slot u) = sp)) as [Heq|Hne]; [left; lia|].
  assert (succ_u64 sp = sp + 1) as Hsucc.
  { unfold succ_u64 in *. pose proof (period_u64 c (cs_slot s) Hpos Hs) as [Hp1 Hp2]. fold sp in Hp1, Hp2.
    pose proof (Z.mod_pos_bound (sp + 1) (2 ^ 64) ltac:(lia)). apply Z.mod_small. unfold u64_max in Hp2.
    destruct (decide (sp = 2 ^ 64 - 1)) as [Es|]; [|lia]. rewrite Es in Hcase. change ((2 ^ 64 - 1 + 1) mod 2 ^ 64) with 0 in Hcase. lia. }
  destruct (decide (period_of c (finalized_slot_of u) = sp)); [left|right; lia].
  split; [done|]. intros Hnone. by apply Hnext in Hn.
Qed.

Lemma update_in_rotation s c now h slot s' oc :
  positive_periods c -> is_u64 (cs_slot s) -> lc_header_sized h -> proves_final chain c (consensus_update h) ->
  verify_header s c now h = Ok () -> in_rotation c s ->
  update_consensus_state s c h = Ok (slot, s', oc) -> in_rotation c s'.
Proof.
  intros Hpos Hs Hsz Hpf Hv [Hcur Hnext] (_ & _ & Esl & _ & _ & _ & _ & _ & Hm)%update_consensus_state_Ok.
  destruct (accepted_periods _ _ _ _ _ Hpos Hs Hsz Hv) as [_ Hcase].
  set (u := consensus_update h) in *. set (sp := period_of c (cs_slot s)) in *.
  pose proof (succ_u64_neq sp (period_u64 c _ Hpos Hs)) as Hne. unfold in_rotation. rewrite Esl.
  destruct (next_sync_committee s) as [n1|] eqn:En1.
  - destruct Hcase as [[Epf _]|(Hsucc & Epf & Epa)].
    + rewrite Epf in Hm |- *. destruct (Z.eqb_spec sp (succ_u64 sp)); [congruence|]. destruct Hm as [-> ->]. auto.
    + rewrite Epf, Hsucc, Z.eqb_refl in Hm. destruct Hm as [-> E2]. rewrite Epf. split; [auto|]. intros n En.
      rewrite En in E2. by rewrite <- Epa; apply summarized_next.
  - destruct Hm as (Epf & -> & E2). rewrite Epf. split; [done|]. intros n En. rewrite En in E2.
    destruct Hcase as [[_ Epa]|(_ & Epf' & _)]; [|lia]. rewrite <- (Epa eq_refl). by apply summarized_next.
Qed.

(** Every accepted header builds on the latest state. *)
Definition builds_on_latest (log : list HostEvent) : Prop := forall l h, HUpdate l h ∈ log -> trusted_slot h = l.

Lemma hosted_rotation c0 s0 st log :
  hosted c0 s0 st log -> BeaconChainOk chain c0 known -> log_known c0 log -> builds_on_latest log ->
  chain_state chain s0 -> in_rotation c0 s0 ->
  forall x s, 0 <= x -> get_eth_consensus_state st x = Ok s -> chain_state chain s /\ in_rotation c0 s.
Proof.
  intros Hh Hok Hk Hl Hc Hr.
  eapply (hosted_states c0 s0 st log (fun l h => Forall known (header_inputs c0 h) /\ trusted_slot h = l)); [done| |done|].
  { intros l h Hin. split; [by eapply Hk|by apply Hl]. }
  intros c now h t s s' oc [Hp (U1 & U2 & U3) [Hkn Htr] Hsz Hslot Hts _ Hv Hu] [Ht _] [Hs Hrs].
  rewrite (Hts Htr) in Hv. destruct (params_eq _ _ Hp) as (Epd & Ei & _).
  assert (proves_final chain c (consensus_update h)) as Hpf.
  { eapply (header_proves_final chain c known (BeaconChainOk0 := chain_ok_params _ _ Hp Hok)); [exact Hs|done| |done].
    by rewrite Ei. }
  split; [by eapply update_chain_state|].
  assert (positive_periods c) as Hpos.
  { pose proof Hu as (_ & _ & _ & _ & _ & _ & N1 & N2 & _)%update_consensus_state_Ok. unfold is_u64 in *. split; lia. }
  assert (in_rotation c s') as Hr'; [|unfold in_rotation in *; by rewrite Epd in Hr'].
  eapply update_in_rotation; [done|by rewrite Hslot|done|done|done| |done].
  unfold in_rotation in *. by rewrite Epd.
Qed.

(** ** Storage proofs *)

(** The trie with a given root, as a map from hashed keys to values; a proof
    that is accepted shows what the trie holds. *)
Class TrieSound (trie_at : bytes -> bytes -> option bytes) : Prop :=
  trie_get_sound proof root key v : trie_get proof root key = Ok v -> trie_at root key = v.
Class KeccakOk : Prop := keccak_length x : length (keccak_256 x) = 32%nat.
Class ProofJsonOk : Prop := proof_json_sized b p : proof_from_slice b = Some p -> word (sp_key (storage_proof p)).

Context (trie_at : bytes -> bytes -> option bytes) `{!TrieSound trie_at} `{!KeccakOk} `{!ProofJsonOk}.

(** What an account's storage holds at a key, in the state with the given
    root; [None] when there is no such account. *)
Definition evm_storage (state_root address key : bytes) : option (option bytes) :=
  match trie_at state_root (keccak_256 address) with
  | Some enc =>
    match rlp_decode_account enc with
    | Ok account => Some (trie_at (acc_storage_root account) (keccak_256 key))
    | Err _ => None
    end
  | None => None
  end.

(** The storage key of an ICS26 commitment: [keccak(keccak(path) ++ slot)]. *)
Definition commitment_key (c : EthClientState) (path : bytes) : bytes :=
  keccak_256 (keccak_256 path ++ u256_to_be_bytes (ibc_commitment_slot c)).

Lemma u256_from_be_inj x y : word x -> word y -> u256_from_be_bytes x = u256_from_be_bytes y -> x = y.
Proof.
  unfold word, u256_from_be_bytes. intros Hx Hy E. apply (inj reverse).
  rewrite <- (to_of_le (reverse x)), <- (to_of_le (reverse y)), !length_reverse, Hx, Hy. by rewrite E.
Qed.

Lemma open_proof_Ok s c proof path p :
  open_proof s c proof path = Ok p ->
  exists ibc_path enc account, path = [ibc_path] /\ proof_from_slice proof = Some p /\
    trie_at (cs_state_root s) (keccak_256 (ibc_contract_address c)) = Some enc /\
    rlp_decode_account enc = Ok account /\ acc_storage_root account = ap_storage_root (account_proof p) /\
    sp_key (storage_proof p) = commitment_key c ibc_path.
Proof.
  unfold open_proof. intros E. apply result_bind_ok in E as (p' & Ep%ok_or_ok & E).
  apply result_bind_ok in E as (v & (enc & account & Et & Ed & Er)%map_err_ok%account_root_Ok & E).
  apply result_bind_ok in E as (v' & Ek & [= ->]). unfold check_commitment_path in Ek.
  destruct path as [|ibc_path [|? ?]]; [done| |done]. apply require_r_ok, Z.eqb_eq in Ek.
  exists ibc_path, enc, account. split_and!; [done..|by apply trie_get_sound in Et|done|done|].
  symmetry. apply u256_from_be_inj; [apply keccak_length|by eapply proof_json_sized|done].
Qed.

Lemma evm_storage_Some root address key enc account :
  trie_at root (keccak_256 address) = Some enc -> rlp_decode_account enc = Ok account ->
  evm_storage root address key = Some (trie_at (acc_storage_root account) (keccak_256 key)).
Proof. unfold evm_storage. by intros -> ->. Qed.

Lemma membership_storage s c proof path value u :
  eth_verify_membership s c proof path value = Ok u ->
  exists ibc_path v, path = [ibc_path] /\ value = u256_to_be_bytes v /\
    evm_storage (cs_state_root s) (ibc_contract_address c) (commitment_key c ibc_path) = Some (Some (rlp_encode_u256 v)).
Proof.
  unfold eth_verify_membership. intros E.
  apply result_bind_ok in E as (p & (ibc_path & enc & account & -> & Ep & Et & Ed & Er & Ek)%open_proof_Ok & E).
  apply result_bind_ok in E as (v & Ev%require_r_ok%bool_decide_eq_true & E%map_err_ok%inclusion_Ok).
  exists ibc_path, (sp_value (storage_proof p)). split_and!; [done..|].
  rewrite (evm_storage_Some _ _ _ _ _ Et Ed), Er, <- Ek. by rewrite (trie_get_sound _ _ _ _ E).
Qed.

Lemma non_membership_storage s c proof path u :
  eth_verify_non_membership s c proof path = Ok u ->
  exists ibc_path, path = [ibc_path] /\
    evm_storage (cs_state_root s) (ibc_contract_address c) (commitment_key c ibc_path) = Some None.
Proof.
  unfold eth_verify_non_membership. intros E.
  apply result_bind_ok in E as (p & (ibc_path & enc & account & -> & Ep & Et & Ed & Er & Ek)%open_proof_Ok & E).
  apply result_bind_ok in E as (v & _ & E%map_err_ok%exclusion_Ok).
  exists ibc_path. split; [done|].
  rewrite (evm_storage_Some _ _ _ _ _ Et Ed), Er, <- Ek. by rewrite (trie_get_sound _ _ _ _ E).
Qed.

(** What an accepted [sudo] proof says. *)
Definition proof_meaning (c : EthClientState) (msg : SudoMsg) : Prop :=
  match msg with
  | SudoVerifyMembership m =>
    0 <= revision_height (vm_height m) ->
    exists path v b e, vm_merkle_path m = [path] /\ vm_value m = u256_to_be_bytes v /\
      finalized_block chain b e /\ bh_slot b = revision_height (vm_height m) /\
      evm_storage (ex_state_root e) (ibc_contract_address c) (commitment_key c path) = Some (Some (rlp_encode_u256 v))
  | SudoVerifyNonMembership m =>
    0 <= revision_height (vn_height m) ->
    exists path b e, vn_merkle_path m = [path] /\
      finalized_block chain b e /\ bh_slot b = revision_height (vn_height m) /\
      evm_storage (ex_state_root e) (ibc_contract_address c) (commitment_key c path) = Some None
  | _ => True
  end.

Lemma params_contract c c0 : params c = params c0 ->
  ibc_contract_address c = ibc_contract_address c0 /\ forall path, commitment_key c path = commitment_key c0 path.
Proof.
  destruct c, c0. intros E. cbv [params set_frozen with_latest] in E. cbn in E.
  injection E as -> -> -> -> -> -> -> -> -> -> -> ->. done.
Qed.

Lemma hosted_proofs c0 s0 st log msg a st' :
  hosted c0 s0 st log -> BeaconChainOk chain c0 known -> log_known c0 log ->
  chain_state chain s0 -> final_state s0 -> sudo st msg = Ok (a, st') -> proof_meaning c0 msg.
Proof.
  intros Hh Hok Hk Hc Hf E. destruct (hosted_wf _ _ _ _ Hh) as [c W].
  destruct (params_contract _ _ (wf_params _ _ _ _ _ W)) as [Ea Ekey].
  destruct msg as [m|m|m|m| |]; cbn in *; try done; intros Hpos;
    apply result_bind_ok in E as (ans & E & _); apply result_bind_ok in E as (c' & Ec & E);
    assert (c' = c) as -> by (destruct W; congruence);
    apply result_bind_ok in E as (s & Es & E); apply result_bind_ok in E as (v & E%map_err_ok & _).
  - destruct (hosted_final _ _ _ _ Hh Hok Hk Hc Hf _ s Hpos Es) as [_ (b & e & Hb & Hslot & Hroot & _)].
    destruct (wf_states _ _ _ _ _ W _ _ Hpos Es) as [Eslot _].
    apply membership_storage in E as (path & x & E1 & E2 & E3). rewrite Ea, Ekey, Hroot in E3.
    exists path, x, b, e. by rewrite Hslot, Eslot.
  - destruct (hosted_final _ _ _ _ Hh Hok Hk Hc Hf _ s Hpos Es) as [_ (b & e & Hb & Hslot & Hroot & _)].
    destruct (wf_states _ _ _ _ _ W _ _ Hpos Es) as [Eslot _].
    apply non_membership_storage in E as (path & E1 & E3). rewrite Ea, Ekey, Hroot in E3.
    exists path, b, e. by rewrite Hslot, Eslot.
Qed.

End History.

(** ** The theorems *)

Section Theorems.
Context `{Sha2} `{!Sha2Ok} `{DeriveTreeHash} `{!DeriveOk} `{Keccak, TrieLib, ProofJson, BlsQuerier}.
Context `{WasmLib} `{!WasmLibOk}.

(** C32: The store of the contract stays well formed.  Whatever messages
    ibc-go applies, the client state can be read and keeps its parameters, its
    latest slot never falls below the first one and has a consensus state,
    every stored consensus state is filed under its own slot, which is not
    above the latest, and holds the state root of the first state or of an
    accepted header, and the client is frozen exactly when misbehaviour was
    reported. *)
Theorem client_store_wf c0 s0 st log :
  hosted c0 s0 st log -> exists c, store_wf c0 s0 log st c.
Proof. apply hosted_wf. Qed.

(** Every consensus state of the contract is a finalized block.  From a
    trusted first state, and as long as two thirds of every sync committee are
    honest and SHA-256 has no collision among the strings hashed, a stored
    consensus state carries the state root and the timestamp of a finalized
    block of the beacon chain at its slot, whichever headers were accepted, in
    whichever order. *)
Theorem stored_states_final chain known `{!CollisionFree known} c0 s0 st log `{!BeaconChainOk chain c0 known} :
  hosted c0 s0 st log -> log_known known c0 log -> chain_state chain s0 -> final_state chain s0 ->
  forall x s, 0 <= x -> get_eth_consensus_state st x = Ok s -> final_state chain s.
Proof. intros. by eapply hosted_final. Qed.

(** C31: The sync committees rotate with the periods.  If moreover every
    accepted header builds on the latest state, a stored consensus state holds
    the chain's committee of its own period and, when it holds a next one,
    that of the following period. *)
Theorem committees_rotate chain known `{!CollisionFree known} c0 s0 st log `{!BeaconChainOk chain c0 known} :
  hosted c0 s0 st log -> log_known known c0 log -> builds_on_latest log ->
  chain_state chain s0 -> in_rotation chain c0 s0 ->
  forall x s, 0 <= x -> get_eth_consensus_state st x = Ok s -> in_rotation chain c0 s.
Proof. intros. by eapply hosted_rotation. Qed.

(** C40: An update behind the latest slot files the wrong committees.  The
    doc of [update_consensus_state] says that historical updates are not
    allowed, but nothing rejects one: applied to a store whose latest state
    knows its next committee, a header finalized before the latest slot stores,
    under its own earlier slot, the committees of the latest state, although
    its slot may lie in an earlier period; the client state is left as it
    was. *)
Theorem historical_update_misfiles st m a st' h c s next :
  update_state st m = Ok (a, st') -> header_from_slice m = Some h ->
  get_eth_client_state st = Ok c -> get_eth_consensus_state st (latest_slot c) = Ok s ->
  next_sync_committee s = Some next -> period_of c (latest_slot c) < u64_max ->
  finalized_slot_of (consensus_update h) < latest_slot c ->
  get_eth_client_state st' = Ok c /\
  exists s', get_eth_consensus_state st' (finalized_slot_of (consensus_update h)) = Ok s' /\
    cs_slot s' = finalized_slot_of (consensus_update h) /\
    current_sync_committee s' = current_sync_committee s /\ next_sync_committee s' = next_sync_committee s.
Proof.
  intros E Eh Ec Es En Hp Hlt. destruct (get_client_sized _ _ Ec) as ([U1 U1'] & [U2 _] & [U3 _]).
  apply update_state_Ok in E as (h' & c' & s1 & s' & oc & Eh' & Ec' & Es' & Eu & _ & Ecl & Ef).
  assert (h' = h) as -> by congruence. assert (c' = c) as -> by congruence. assert (s1 = s) as -> by congruence.
  apply update_consensus_state_Ok in Eu as (_ & El & Esl & _ & _ & Eoc & N1 & N2 & Hm). rewrite En in Hm.
  destruct (Z.ltb_spec (cs_slot s) (finalized_slot_of (consensus_update h))); [lia|]. subst oc. split; [done|].
  exists s'. destruct (header_json_sized _ _ Eh) as [(_ & ((Hu & _) & _) & _) _].
  rewrite Ef, Z.eqb_refl by (destruct Hu; lia). split_and!; [done|done|..]; rewrite <- El in Hm;
    pose proof (period_mono c _ _ ltac:(split; lia) (Z.lt_le_incl _ _ Hlt));
    pose proof (Z.div_pos (latest_slot c / slots_per_epoch c) (epochs_per_sync_committee_period c)
      ltac:(apply Z.div_pos; lia) ltac:(lia)) as Hq; fold (period_of c (latest_slot c)) in Hq;
    unfold succ_u64, u64_max in *; rewrite Z.mod_small in Hm by lia;
    destruct (Z.eqb_spec (period_of c (finalized_slot_of (consensus_update h))) (period_of c (latest_slot c) + 1));
    try lia; [apply Hm|rewrite En; apply Hm].
Qed.

(** C11: Accepted proofs are about finalized storage.  A proof of membership
    that the contract accepts at a height shows that, in the finalized block
    of that slot, the storage of the ICS26 contract holds the value at the key
    of the path; a proof of non-membership shows that it holds nothing
    there. *)
Theorem accepted_proofs_sound chain known `{!CollisionFree known} c0 s0 st log `{!BeaconChainOk chain c0 known}
    trie_at `{!TrieSound trie_at} `{!KeccakOk} `{!ProofJsonOk} msg a st' :
  hosted c0 s0 st log -> log_known known c0 log -> chain_state chain s0 -> final_state chain s0 ->
  sudo st msg = Ok (a, st') -> proof_meaning chain trie_at c0 msg.
Proof. intros. by eapply hosted_proofs. Qed.

End Theorems.
