(* ===== verification/EthExample.v ===== *)
(** * A concrete Ethereum client

    A beacon chain with two finalized blocks, one of them of the next sync
    committee period, the headers that prove them, and a client contract that
    accepts both: the witnesses of the Ethereum theorems.  SHA-256 is replaced
    by a checksum without collisions on the strings involved, BLS
    verification by a table of the two signed messages, the codecs by tables
    of the values that occur. *)

From S2P Require Import Prelude TreeHash TreeHashSpec EthTypes EthTrie EthLC EthWasm EthMerkle EthVerify EthWasmSpec EthHistory.
From Stdlib Require Import ZArith Lia.
From Stdlib.Strings Require Import Byte.
From stdpp Require Import prelude list strings gmap.
#[local] Open Scope Z_scope.

Module EthExample.

(** A checksum of the first bytes of the two halves. *)
#[local] Instance toy_sha2 : Sha2 := fun x =>
  to_le 4 ((of_le (take 4 x) * 2654435761 + of_le (take 4 (drop 32 x)) * 40503 + 12345) mod 2 ^ 32) ++ replicate 28 x00.
#[local] Instance toy_sha2_ok : Sha2Ok.
Proof. intros x. unfold sha2, toy_sha2. by autorewrite with lengths. Qed.
#[local] Instance toy_derive : DeriveTreeHash := fun fields => tree_root (levels (length fields)) fields.
#[local] Instance toy_derive_ok : DeriveOk.
Proof. done. Qed.
#[local] Instance toy_keccak : Keccak := fun x => sha2 (x02 :: x).

Definition get_ok {E A} (d : A) (r : result E A) : A := match r with Ok a => a | Err _ => d end.
Lemma is_ok_get {E A} (d : A) (r : result E A) : is_ok r = true -> r = Ok (get_ok d r).
Proof. by destruct r. Qed.

(** ** The chain *)

(** Periods of eight slots; the committees of the periods 1, 2 and the
    others. *)
Definition keys (b : byte) : list bytes := map (fun i => b :: byte_of_Z (Z.of_nat i) :: replicate 46 x00) (seq 0 8).
Definition committee (b : byte) : SyncCommittee := mkSyncCommittee (keys b) (b :: replicate 47 x00).
Definition committees (p : Z) : SyncCommittee := if p =? 1 then committee x0a else if p =? 2 then committee x0b else committee x0c.

Definition execution (b : byte) (n : Z) : ExecutionPayloadHeader := {|
  ex_parent_hash := replicate 32 b; ex_fee_recipient := replicate 20 x99; ex_state_root := replicate 32 b;
  ex_receipts_root := replicate 32 b; ex_logs_bloom := replicate 256 x00; ex_prev_randao := replicate 32 b;
  ex_block_number := n; ex_gas_limit := n; ex_gas_used := n; ex_timestamp := n; ex_extra_data := [];
  ex_base_fee_per_gas := n; ex_block_hash := replicate 32 b; ex_transactions_root := replicate 32 b;
  ex_withdrawals_root := replicate 32 b; ex_blob_gas_used := n; ex_excess_blob_gas := n |}.

Definition body (e : ExecutionPayloadHeader) : list bytes :=
  replicate 9 Hash256_ZERO ++ [get_ok [] (execution_root e)] ++ replicate 3 Hash256_ZERO.
Definition final_header (slot : Z) (e : ExecutionPayloadHeader) : BeaconBlockHeader :=
  mkBeaconBlockHeader slot 0 Hash256_ZERO Hash256_ZERO (tree_root 4 (body e)).

(** The fields of the state of an attested header. *)
Definition checkpoint (b : BeaconBlockHeader) : list bytes := [u64_tree_hash_root 1; beacon_root b].
Definition state (next : SyncCommittee) (b : BeaconBlockHeader) : list bytes :=
  replicate 20 Hash256_ZERO ++ [tree_root 1 (checkpoint b)] ++ replicate 2 Hash256_ZERO ++
  [get_ok [] (sync_committee_root next)] ++ replicate 13 Hash256_ZERO.
Definition attested (slot : Z) (next : SyncCommittee) (b : BeaconBlockHeader) (e : ExecutionPayloadHeader) : BeaconBlockHeader :=
  mkBeaconBlockHeader slot 0 Hash256_ZERO (tree_root 6 (state next b)) (tree_root 4 (body e)).

Definition e0 := execution x30 90.
Definition e1 := execution x31 170.
Definition e2 := execution x32 100.
Definition f0 := final_header 9 e0.
Definition f1 := final_header 17 e1.
Definition f2 := final_header 10 e2.
Definition a1 := attested 18 (committees 3) f1 e1.
Definition a2 := attested 11 (committees 2) f2 e2.

(** ** The client *)

Definition forks : ForkParameters :=
  let f := mkFork [x01; x00; x00; x00] 0 in mkForkParameters [x00; x00; x00; x00] 0 f f f f f (mkFork [x02; x00; x00; x00] 100).
Definition c0 : EthClientState := {|
  chain_id := 1; genesis_validators_root := replicate 32 x07; min_sync_committee_participants := 1;
  sync_committee_size := 8; genesis_time := 0; genesis_slot := 0; fork_parameters := forks; seconds_per_slot := 1;
  slots_per_epoch := 4; epochs_per_sync_committee_period := 2; latest_slot := 9; latest_execution_block_number := 90;
  is_frozen := false; ibc_contract_address := replicate 20 x55; ibc_commitment_slot := 7 |}.

Definition summary (c : SyncCommittee) : SummarizedSyncCommittee :=
  get_ok (mkSummarizedSyncCommittee [] []) (to_summarized_sync_committee c).
Definition s0 : EthConsensusState := mkEthConsensusState 9 (ex_state_root e0) 90 (summary (committees 1)) (Some (summary (committees 2))).

(** The nodes beside the path to leaf [i], lowest first. *)
Fixpoint siblings (d : nat) (l : list bytes) (i : nat) : list bytes :=
  match d with
  | O => []
  | S d =>
    if (i <? 2 ^ d)%nat then siblings d (take (2 ^ d) l) i ++ [tree_root d (drop (2 ^ d) l)]
    else siblings d (drop (2 ^ d) l) (i - 2 ^ d) ++ [tree_root d (take (2 ^ d) l)]
  end.

Definition lc_header (b : BeaconBlockHeader) (e : ExecutionPayloadHeader) : LightClientHeader :=
  mkLightClientHeader b e (siblings 4 (body e) 9).

(** An update of the attested header [a] for the finalized header [f]. *)
Definition update_for (next : SyncCommittee) (with_next : bool) (a f : BeaconBlockHeader) (e : ExecutionPayloadHeader) : LightClientUpdate := {|
  attested_header := lc_header a e;
  up_next_sync_committee := if with_next then Some next else None;
  up_next_sync_committee_branch := if with_next then Some (siblings 6 (state next f) 23) else None;
  finalized_header := lc_header f e;
  finality_branch := u64_tree_hash_root 1 :: siblings 6 (state next f) 20;
  sync_aggregate := mkSyncAggregate [xff] (replicate 96 x00);
  signature_slot := bh_slot a + 1 |}.

Definition h1 : Header := mkHeader (Next (committees 2)) (update_for (committees 3) true a1 f1 e1) 9.
Definition h2 : Header := mkHeader (Current (committees 1)) (update_for (committees 2) false a2 f2 e2) 9.

Definition signing_root (h : Header) : bytes := get_ok [] (update_signing_root c0 (consensus_update h)).

#[local] Instance toy_bls : BlsQuerier := {|
  query_aggregate_verify _ msg _ := Ok (bool_decide (msg ∈ [signing_root h1; signing_root h2]));
  query_aggregate keys := Ok (match keys with k :: _ => take 1 k ++ replicate 47 x00 | [] => [] end);
|}.

(** ** The chain satisfies the assumptions *)

Definition chain : BeaconChain := {|
  committee_of := committees;
  signed_header b := b = a1 \/ b = a2;
  finalized_block b e := (b = f0 /\ e = e0) \/ (b = f1 /\ e = e1) \/ (b = f2 /\ e = e2);
|}.

(** The strings hashed by the client and by the chain, part by part. *)
Definition domain1 : bytes := get_ok [] (update_domain c0 (consensus_update h1)).
Definition domain2 : bytes := get_ok [] (update_domain c0 (consensus_update h2)).
Definition known_parts : list (list bytes) :=
  [header_inputs c0 h1; header_inputs c0 h2;
   committee_inputs (committees 1); committee_inputs (committees 2); committee_inputs (committees 3);
   signing_inputs (beacon_root a1) domain1; signing_inputs (beacon_root a2) domain2;
   beacon_inputs a1; beacon_inputs a2; beacon_inputs f0; beacon_inputs f1; beacon_inputs f2;
   execution_inputs e0; execution_inputs e1; execution_inputs e2;
   tree_inputs 4 (body e0); tree_inputs 4 (body e1); tree_inputs 4 (body e2);
   tree_inputs 6 (state (committees 3) f1); tree_inputs 6 (state (committees 2) f2);
   tree_inputs 1 (checkpoint f1); tree_inputs 1 (checkpoint f2)].
Definition known (x : bytes) : Prop := exists l, l ∈ known_parts /\ x ∈ l.

Lemma known_part i l : known_parts !! i = Some l -> Forall known l.
Proof. intros E. apply Forall_forall. intros x Hx. exists l. split; [by eapply list_elem_of_lookup_2|done]. Qed.

#[local] Instance toy_collision_free : CollisionFree known.
Proof. intros x y. apply no_collision. by vm_compute. Qed.

(** Sizes by evaluation. *)
Definition all_words (l : list bytes) : bool := forallb (fun x => Nat.eqb (length x) 32) l.
Lemma all_words_ok l : all_words l = true -> Forall word l.
Proof.
  intros E. apply Forall_forall. intros x Hx. unfold all_words in E. rewrite forallb_forall in E.
  apply list_elem_of_In in Hx. by apply Nat.eqb_eq, E.
Qed.

Lemma u64_ok z : (0 <=? z) && (z <=? u64_max) = true -> is_u64 z.
Proof. intros [E1%Z.leb_le E2%Z.leb_le]%andb_true_iff. done. Qed.

Lemma committees_cases (P : SyncCommittee -> Prop) p :
  P (committees 1) -> P (committees 2) -> P (committees 3) -> P (committees p).
Proof. intros ? ? ?. unfold committees in *. destruct (p =? 1); [done|]. by destruct (p =? 2). Qed.

Lemma committee_ok b : committee_sized (committee b).
Proof.
  split; [|done]. apply Forall_forall. intros x Hx. unfold committee, keys in Hx. cbn [sc_pubkeys] in Hx.
  apply list_elem_of_fmap in Hx as (i & -> & _). done.
Qed.

Lemma header_ok slot st : (0 <=? slot) && (slot <=? u64_max) = true -> word st -> forall e, beacon_sized (mkBeaconBlockHeader slot 0 Hash256_ZERO st (tree_root 4 (body e))).
Proof.
  intros Hs Hst e. split_and!; [by apply u64_ok|by apply u64_ok|done|done|]. apply sha2_length.
Qed.

Lemma execution_ok b n : (0 <=? n) && (n <=? u64_max) = true -> execution_sized (execution b n).
Proof. intros Hn. split_and!; try (apply u64_ok; done); done. Qed.

Lemma word_get_execution e : execution_sized e -> is_ok (execution_root e) = true -> word (get_ok [] (execution_root e)).
Proof.
  intros He Hok. destruct (execution_root e) as [r|] eqn:E; [|done]. cbn. unfold execution_root in E.
  apply result_bind_ok in E as (fields & Ef & [= <-]). apply word_container_root. by eapply execution_fields_words.
Qed.

Lemma words_body e : execution_sized e -> is_ok (execution_root e) = true -> Forall word (body e).
Proof.
  intros He Hok. unfold body. repeat apply Forall_app_2; [apply Forall_replicate; done| |apply Forall_replicate; done].
  constructor; [by apply word_get_execution|constructor].
Qed.

Lemma words_state c b : is_ok (sync_committee_root c) = true -> Forall word (state c b).
Proof.
  intros Hok. unfold state. repeat apply Forall_app_2; try (apply Forall_replicate; done).
  - constructor; [apply sha2_length|constructor].
  - constructor; [|constructor]. destruct (sync_committee_root c) as [r|] eqn:E; [|done]. cbn.
    unfold sync_committee_root in E. apply result_bind_ok in E as (k & _ & E).
    apply result_bind_ok in E as (ag & _ & [= <-]). apply sha2_length.
Qed.

Lemma committee_roots p : is_ok (sync_committee_root (committees p)) = true.
Proof. apply (committees_cases (fun c => is_ok (sync_committee_root c) = true)); by vm_compute. Qed.
Lemma execution_roots : is_ok (execution_root e0) && is_ok (execution_root e1) && is_ok (execution_root e2) = true.
Proof. by vm_compute. Qed.
Lemma execution_root0 : is_ok (execution_root e0) = true.
Proof. pose proof execution_roots as [[? ?]%andb_true_iff ?]%andb_true_iff. done. Qed.
Lemma execution_root1 : is_ok (execution_root e1) = true.
Proof. pose proof execution_roots as [[? ?]%andb_true_iff ?]%andb_true_iff. done. Qed.
Lemma execution_root2 : is_ok (execution_root e2) = true.
Proof. pose proof execution_roots as [[? ?]%andb_true_iff ?]%andb_true_iff. done. Qed.

Lemma final_body slot e i j k :
  (0 <=? slot) && (slot <=? u64_max) = true -> execution_sized e -> is_ok (execution_root e) = true ->
  known_parts !! i = Some (beacon_inputs (final_header slot e)) -> known_parts !! j = Some (execution_inputs e) ->
  known_parts !! k = Some (tree_inputs 4 (body e)) ->
  beacon_sized (final_header slot e) /\ Forall known (beacon_inputs (final_header slot e)) /\
  execution_sized e /\ Forall known (execution_inputs e) /\
  exists bd root, commits known 4 (bh_body_root (final_header slot e)) bd /\ execution_root e = Ok root /\
    leaf_at bd EXECUTION_PAYLOAD_FIELD = root.
Proof.
  intros Hs He Hr Hi Hj Hk. split_and!; [by apply header_ok|by eapply known_part|done|by eapply known_part|].
  exists (body e), (get_ok [] (execution_root e)). split_and!; [|by apply is_ok_get|done].
  split_and!; [done|by apply words_body|by eapply known_part].
Qed.

Lemma signed_fields p slot b e eb i j :
  period_of c0 slot + 1 = p -> finalized_block chain b eb ->
  known_parts !! i = Some (tree_inputs 6 (state (committees p) b)) -> known_parts !! j = Some (tree_inputs 1 (checkpoint b)) ->
  exists fields epoch finalized ex root,
    commits known 6 (bh_state_root (attested slot (committees p) b e)) fields /\
    commits known 1 (leaf_at fields FINALIZED_CHECKPOINT_FIELD) [epoch; beacon_root finalized] /\
    finalized_block chain finalized ex /\
    sync_committee_root (committees (period_of c0 (bh_slot (attested slot (committees p) b e)) + 1)) = Ok root /\
    leaf_at fields NEXT_SYNC_COMMITTEE_FIELD = root.
Proof.
  intros Hp Hfin Hi Hj. exists (state (committees p) b), (u64_tree_hash_root 1), b, eb, (get_ok [] (sync_committee_root (committees p))).
  split_and!; [| |done| |done].
  - split_and!; [done|apply words_state, committee_roots|by eapply known_part].
  - split_and!; [done|repeat constructor; apply word_u64_root || apply word_beacon_root|by eapply known_part].
  - cbn [bh_slot attested]. rewrite Hp. apply is_ok_get, committee_roots.
Qed.

Lemma domain_of (h : Header) : is_ok (update_domain c0 (consensus_update h)) = true ->
  signing_root h = compute_signing_root (beacon_root (lh_beacon (attested_header (consensus_update h))))
    (get_ok [] (update_domain c0 (consensus_update h))).
Proof. intros E%(is_ok_get []). unfold signing_root, update_signing_root. by rewrite E. Qed.

Lemma toy_verified keys msg sig :
  fast_aggregate_verify keys msg sig = Ok () -> msg ∈ [signing_root h1; signing_root h2].
Proof.
  change (fast_aggregate_verify keys msg sig)
    with (Ok (bool_decide (msg ∈ [signing_root h1; signing_root h2])) ≫= (fun v => require_r v "InvalidSignature"%string)).
  rewrite result_ret_bind, require_r_ok. apply bool_decide_eq_true.
Qed.

#[local] Instance toy_chain_ok : BeaconChainOk chain c0 known.
Proof.
  split.
  - intros p. split_and!.
    + apply committees_cases; apply committee_ok.
    + apply (committees_cases (fun c => Z.of_nat (length (sc_pubkeys c)) = 8)); done.
    + apply (committees_cases (fun c => (levels (length (sc_pubkeys c)) <= S ZERO_HASHES_MAX_INDEX)%nat)); apply Nat.leb_le; done.
    + apply committees_cases; [by apply (known_part 2)|by apply (known_part 3)|by apply (known_part 4)].
  - intros p a msg _ _ E%toy_verified. apply elem_of_cons in E as [->|E%list_elem_of_singleton].
    + exists a1, domain1. split_and!; [by left|by apply domain_of|by apply (known_part 5)|by apply (known_part 7)|].
      apply header_ok; [done|]. apply sha2_length.
    + exists a2, domain2. rewrite E. split_and!; [by right|by apply domain_of|by apply (known_part 6)|by apply (known_part 8)|].
      apply header_ok; [done|]. apply sha2_length.
  - intros b [->| ->].
    + apply (signed_fields 3 18 f1 e1 e1 18 20); [done|cbn; auto|done|done].
    + apply (signed_fields 2 11 f2 e2 e2 19 21); [done|cbn; auto|done|done].
  - intros b e [[-> ->]|[[-> ->]|[-> ->]]].
    + apply (final_body 9 e0 9 12 15); [done|by apply execution_ok|apply execution_root0|done..].
    + apply (final_body 17 e1 10 13 16); [done|by apply execution_ok|apply execution_root1|done..].
    + apply (final_body 10 e2 11 14 17); [done|by apply execution_ok|apply execution_root2|done..].
Qed.

(** ** Headers have the sizes of their types *)

Lemma siblings_sized d l i : Forall word l -> length (siblings d l i) = d /\ Forall word (siblings d l i).
Proof.
  revert l i. induction d as [|d IH]; intros l i Hl; [done|]. cbn [siblings].
  destruct (i <? 2 ^ d)%nat.
  - destruct (IH (take (2 ^ d) l) i (Forall_take _ _ _ Hl)) as [E W]. rewrite length_app, E. split; [simpl; lia|].
    apply Forall_app_2; [done|]. constructor; [|constructor]. apply word_tree_root. by apply Forall_drop.
  - destruct (IH (drop (2 ^ d) l) (i - 2 ^ d)%nat (Forall_drop _ _ _ Hl)) as [E W]. rewrite length_app, E. split; [simpl; lia|].
    apply Forall_app_2; [done|]. constructor; [|constructor]. apply word_tree_root. by apply Forall_take.
Qed.

Lemma lc_header_ok b e : beacon_sized b -> execution_sized e -> is_ok (execution_root e) = true -> header_sized (lc_header b e).
Proof. intros Hb He Hr. split_and!; [done|done|]. apply siblings_sized. by apply words_body. Qed.

Lemma update_for_ok p wn slot a f e :
  (0 <=? slot) && (slot <=? u64_max) = true -> beacon_sized a -> beacon_sized f -> execution_sized e ->
  is_ok (execution_root e) = true -> (0 <=? bh_slot a + 1) && (bh_slot a + 1 <=? u64_max) = true ->
  update_sized (update_for (committees p) wn a f e).
Proof.
  intros Hs Ha Hf He Hr Hsig. pose proof (words_state _ f (committee_roots p)) as W.
  split_and!; [by apply lc_header_ok|by apply lc_header_ok| | | |done|by apply u64_ok].
  - destruct (siblings_sized 6 _ 20 W) as [E W']. split; [cbn [finality_branch update_for length]; by rewrite E|].
    constructor; [apply word_u64_root|done].
  - destruct wn; [|done]. intros b [= <-]. apply (siblings_sized 6 _ 23 W).
  - destruct wn; [|done]. intros c [= <-]. apply committees_cases; apply committee_ok.
Qed.

Lemma h1_sized : lc_header_sized h1.
Proof.
  split_and!; [|apply committee_ok|by apply u64_ok].
  apply (update_for_ok 3 true 18); [done|apply header_ok; [done|apply sha2_length]|by apply header_ok|by apply execution_ok|
    apply execution_root1|done].
Qed.

Lemma h2_sized : lc_header_sized h2.
Proof.
  split_and!; [|apply committee_ok|by apply u64_ok].
  apply (update_for_ok 2 false 11); [done|apply header_ok; [done|apply sha2_length]|by apply header_ok|by apply execution_ok|
    apply execution_root2|done].
Qed.

(** ** The contract's codecs *)

Definition update_of (s : EthConsensusState) (c : EthClientState) (h : Header) : EthConsensusState :=
  (get_ok (0, s, None) (update_consensus_state s c h)).1.2.
Definition c1 : EthClientState := with_latest c0 17 170.
Definition s1 : EthConsensusState := update_of s0 c0 h1.
Definition s2 : EthConsensusState := update_of s1 c1 h2.

(** A value as its position in a table. *)
Definition table_encode {A} `{EqDecision A} (l : list A) (x : A) : option bytes :=
  (fun p => [byte_of_Z (Z.of_nat p.1)]) <$> list_find (fun y => y = x) l.
Definition table_decode {A} (l : list A) (b : bytes) : option A :=
  match b with [y] => l !! Z.to_nat (byte_to_Z y) | _ => None end.

Lemma table_roundtrip {A} `{EqDecision A} (l : list A) x b :
  (length l <= 256)%nat -> table_encode l x = Some b -> table_decode l b = Some x.
Proof.
  intros Hl E. unfold table_encode in E. destruct (list_find _ l) as [[i y]|] eqn:Ef; [|done]. injection E as <-.
  apply list_find_Some in Ef as (Hi & -> & _). cbn. rewrite byte_to_of_Z, Z.mod_small, Nat2Z.id; [done|].
  apply lookup_lt_Some in Hi. lia.
Qed.

Lemma table_decode_elem {A} (l : list A) b x : table_decode l b = Some x -> x ∈ l.
Proof. destruct b as [|y [|? ?]]; [done| |done]. apply list_elem_of_lookup_2. Qed.

(** Wasm client states of the empty checksum, as their height and data. *)
Definition toy_wasm_encode (w : WasmClientState) : option bytes :=
  match w with
  | mkWasmClientState [] data (Some (mkWasmHeight 0 n)) =>
    if (0 <=? n) && (n <=? u64_max) then Some (u64_to_le_bytes n ++ data) else None
  | _ => None
  end.
Definition toy_wasm_decode (b : bytes) : option WasmClientState :=
  Some (mkWasmClientState [] (drop 8 b) (Some (mkWasmHeight 0 (u64_from_le_bytes (take 8 b))))).

#[local] Instance toy_wasm : WasmLib := {|
  any_decode := Some;
  wasm_client_decode := toy_wasm_decode;
  wasm_consensus_decode := Some;
  wasm_client_to_any := toy_wasm_encode;
  wasm_consensus_to_any := Some;
  client_from_slice := table_decode [c0; c1];
  client_to_vec := table_encode [c0; c1];
  consensus_from_slice := table_decode [s0; s1; s2];
  consensus_to_vec := table_encode [s0; s1; s2];
  header_from_slice := table_decode [h1; h2];
  misbehaviour_from_slice _ := None;
  set_contract_version st := Ok (<[CONTRACT_INFO_KEY := []]> st);
  ensure_from_older_version st := Ok st;
|}.

Lemma toy_wasm_roundtrip w b : toy_wasm_encode w = Some b -> toy_wasm_decode b = Some w.
Proof.
  destruct w as [[|? ?] data [[[|?|?] n]|]]; try done. unfold toy_wasm_encode.
  destruct ((0 <=? n) && (n <=? u64_max)) eqn:E; [|done]. apply u64_ok in E. intros <-%(inj Some).
  unfold toy_wasm_decode. pose proof (length_u64_to_le_bytes n) as L.
  rewrite take_app_length', drop_app_length' by done. by rewrite u64_le_roundtrip.
Qed.

Lemma toy_slots : cs_slot s1 = 17 /\ cs_slot s2 = 10.
Proof. by vm_compute. Qed.

#[local] Instance toy_wasm_ok : WasmLibOk.
Proof.
  split.
  - intros w b. apply toy_wasm_roundtrip.
  - intros d b [= <-]. done.
  - intros c b. apply table_roundtrip. simpl. lia.
  - intros s b. apply table_roundtrip. simpl. lia.
  - intros b c Hc%table_decode_elem. apply elem_of_cons in Hc as [->|Hc%list_elem_of_singleton]; [|rewrite Hc];
      (split_and!; by apply u64_ok).
  - intros b s Hs%table_decode_elem. destruct toy_slots as [T1 T2].
    apply elem_of_cons in Hs as [->|[->|Hs%list_elem_of_singleton]%elem_of_cons];
      [by apply u64_ok|rewrite T1; by apply u64_ok|rewrite Hs, T2; by apply u64_ok].
  - intros b h Hh%table_decode_elem. apply elem_of_cons in Hh as [->|Hh%list_elem_of_singleton];
      [apply h1_sized|rewrite Hh; apply h2_sized].
  - intros st st' k [= <-] Hk. by rewrite lookup_insert_ne.
Qed.

(** ** A storage trie with one commitment *)

Definition path : bytes := [x70; x31].
Definition storage_root : bytes := replicate 32 x77.
Definition account : EvmAccount := mkEvmAccount 1 0 storage_root (replicate 32 x00).
Definition toy_trie (root key : bytes) : option bytes :=
  if bool_decide (root = ex_state_root e1) then
    if bool_decide (key = keccak_256 (ibc_contract_address c0)) then Some [x01] else None
  else if bool_decide (root = storage_root) then
    if bool_decide (key = keccak_256 (commitment_key c0 path)) then Some [x05] else None
  else None.
#[local] Instance toy_trie_lib : TrieLib := {|
  trie_get _ root key := Ok (toy_trie root key);
  rlp_decode_account b := if bool_decide (b = [x01]) then Ok account else Err "rlp"%string;
  rlp_encode_u256 v := [byte_of_Z v];
|}.
#[local] Instance toy_proof_json : ProofJson := table_decode
  [mkEthMembershipProof (mkAccountProof storage_root []) (mkStorageProof (commitment_key c0 path) 5 [])].

#[local] Instance toy_trie_sound : TrieSound toy_trie.
Proof. by intros proof root key v [= <-]. Qed.
#[local] Instance toy_keccak_ok : KeccakOk.
Proof. intros x. exact (sha2_length (x02 :: x)). Qed.
#[local] Instance toy_proof_json_ok : ProofJsonOk.
Proof. intros b p Hp%table_decode_elem%list_elem_of_singleton. rewrite Hp. apply keccak_length. Qed.

(** ** Histories *)

Definition msg0 : InstantiateMsg := mkInstantiateMsg [x00] [x00] [].
Definition st0 : Storage := get_ok ∅ (instantiate ∅ msg0).
Definition st1 : Storage := (get_ok (NoData, ∅) (sudo st0 (SudoUpdateState [x00]))).2.
Definition st2 : Storage := (get_ok (NoData, ∅) (sudo st1 (SudoUpdateState [x01]))).2.

Lemma run_ok r : is_ok r = true -> r = Ok (get_ok (NoData, ∅) r) :> c_result (Answer * Storage).
Proof. apply is_ok_get. Qed.

Lemma sudo_ok st m : is_ok (sudo st m) = true ->
  sudo st m = Ok ((get_ok (NoData, ∅) (sudo st m)).1, (get_ok (NoData, ∅) (sudo st m)).2).
Proof. intros E%run_ok. rewrite E at 1. by destruct (get_ok _ _). Qed.

Lemma query_accepts st now m h c s :
  get_eth_client_state st = Ok c -> header_from_slice m = Some h ->
  get_eth_consensus_state st (trusted_slot h) = Ok s -> verify_header s c now h = Ok () ->
  query st now (QueryVerifyClientMessage m) = Ok NoData.
Proof.
  intros Ec Eh Es Ev. unfold query, verify_client_message. rewrite Ec, result_ret_bind, Eh, Es, result_ret_bind.
  by rewrite Ev.
Qed.

Lemma status_active st now c : get_eth_client_state st = Ok c -> is_frozen c = false ->
  query st now QueryStatus = Ok (StatusIs Active).
Proof. intros Ec Ef. unfold query, status. by rewrite Ec, result_ret_bind, Ef. Qed.

Lemma verify_h1 : verify_header s0 c0 1000 h1 = Ok ().
Proof. by vm_compute. Qed.
Lemma verify_h2 : verify_header s0 c1 1000 h2 = Ok ().
Proof. by vm_compute. Qed.

Lemma store0 : get_eth_client_state st0 = Ok c0 /\ get_eth_consensus_state st0 9 = Ok s0.
Proof. by vm_compute. Qed.
Lemma store1 : get_eth_client_state st1 = Ok c1 /\ get_eth_consensus_state st1 9 = Ok s0 /\
  get_eth_consensus_state st1 17 = Ok s1.
Proof. by vm_compute. Qed.

Lemma hosted0 : hosted c0 s0 st0 [].
Proof. apply (hosted_new c0 s0 msg0); [done|done|]. apply is_ok_get. by vm_compute. Qed.

Lemma hosted1 : hosted c0 s0 st1 [HUpdate 9 h1].
Proof.
  destruct store0 as [Ec Es].
  eapply (hosted_update c0 s0 st0 [] 1000 [x00] h1 c0); [apply hosted0|done|done|by eapply status_active| |done|].
  - eapply query_accepts; [exact Ec|done|exact Es|apply verify_h1].
  - apply sudo_ok. by vm_compute.
Qed.

Lemma hosted2 : hosted c0 s0 st2 [HUpdate 9 h1; HUpdate 17 h2].
Proof.
  destruct store1 as (Ec & Es & _).
  eapply (hosted_update c0 s0 st1 [HUpdate 9 h1] 1000 [x01] h2 c1); [apply hosted1|done|done|by eapply status_active| |done|].
  - eapply query_accepts; [exact Ec|done|exact Es|apply verify_h2].
  - apply sudo_ok. by vm_compute.
Qed.

Lemma store2 : get_eth_consensus_state st2 10 = Ok s2.
Proof. by vm_compute. Qed.

(** ** The first state is trusted *)

Lemma summary_ok p : to_summarized_sync_committee (committees p) = Ok (summary (committees p)).
Proof.
  apply is_ok_get. apply (committees_cases (fun c => is_ok (to_summarized_sync_committee c) = true)); by vm_compute.
Qed.

Lemma s0_next n : next_sync_committee s0 = Some n -> summary (committees 2) = n.
Proof. apply (inj Some (summary (committees 2)) n). Qed.

Lemma s0_chain : chain_state chain s0.
Proof. split; [exists 1; apply summary_ok|]. intros n <-%s0_next. exists 2. apply summary_ok. Qed.

Lemma s0_final : final_state chain s0.
Proof. exists f0, e0. split_and!; [by left|done..]. Qed.

Lemma s0_rotation : in_rotation chain c0 s0.
Proof. split; [apply (summary_ok 1)|]. intros n <-%s0_next. apply (summary_ok 2). Qed.

Lemma log_known2 : log_known known c0 [HUpdate 9 h1; HUpdate 17 h2].
Proof.
  intros l h Hin. apply elem_of_cons in Hin as [[= -> ->]|[= -> ->]%list_elem_of_singleton];
    [by apply (known_part 0)|by apply (known_part 1)].
Qed.
Lemma log_known1 : log_known known c0 [HUpdate 9 h1].
Proof. intros l h [= -> ->]%list_elem_of_singleton. by apply (known_part 0). Qed.

(** ** Witnesses *)

Lemma verify_header_sound_witness : proves_final chain c0 (consensus_update h1).
Proof.
  apply (verify_header_sound chain c0 known s0 1000 h1);
    [apply s0_chain|apply h1_sized|by apply (known_part 0)|apply verify_h1].
Defined.

Lemma client_store_wf_witness : exists c, store_wf c0 s0 [HUpdate 9 h1; HUpdate 17 h2] st2 c.
Proof. apply (client_store_wf c0 s0 st2 [HUpdate 9 h1; HUpdate 17 h2]). apply hosted2. Defined.

Lemma stored_states_final_witness : cs_slot s2 = 10 /\ final_state chain s2.
Proof.
  split; [by vm_compute|].
  apply (stored_states_final chain known c0 s0 st2 [HUpdate 9 h1; HUpdate 17 h2] hosted2 log_known2 s0_chain s0_final 10);
    [done|apply store2].
Defined.

Lemma committees_rotate_witness : cs_slot s1 = 17 /\ in_rotation chain c0 s1.
Proof.
  split; [by vm_compute|].
  apply (committees_rotate chain known c0 s0 st1 [HUpdate 9 h1] hosted1 log_known1
    ltac:(intros l h [= -> ->]%list_elem_of_singleton; done) s0_chain s0_rotation 17); [done|apply store1].
Defined.

Lemma s1_committees : current_sync_committee s1 = summary (committees 2) /\
  next_sync_committee s1 = Some (summary (committees 3)).
Proof. by vm_compute. Qed.

(** The header of slot 10, in period 1, accepted and applied after that of
    slot 17: the committees of period 2 are filed under slot 10. *)
Lemma historical_update_misfiles_witness :
  period_of c0 10 = 1 /\ period_of c0 17 = 2 /\ get_eth_client_state st2 = Ok c1 /\
  exists s', get_eth_consensus_state st2 10 = Ok s' /\ cs_slot s' = 10 /\
    current_sync_committee s' = summary (committees 2) /\ next_sync_committee s' = Some (summary (committees 3)).
Proof.
  destruct store1 as (Ec & _ & Es). split; [done|]. split; [done|].
  destruct (historical_update_misfiles st1 [x01] (get_ok (NoData, ∅) (sudo st1 (SudoUpdateState [x01]))).1 st2 h2 c1 s1
    (summary (committees 3))) as (E1 & s' & E2 & E3 & E4 & E5); [apply (sudo_ok st1 (SudoUpdateState [x01])); by vm_compute|done|
    exact Ec|exact Es|exact (proj2 s1_committees)|done|done|].
  split; [exact E1|]. exists s'. split; [exact E2|]. split; [exact E3|]. rewrite E4, E5. exact s1_committees.
Defined.

Definition membership_msg : VerifyMembershipMsg :=
  mkVerifyMembershipMsg (mkWasmHeight 0 17) 0 0 [x00] [path] (u256_to_be_bytes 5).

Lemma accepted_proofs_sound_witness : proof_meaning chain toy_trie c0 (SudoVerifyMembership membership_msg).
Proof.
  apply (accepted_proofs_sound chain known c0 s0 st1 [HUpdate 9 h1] toy_trie (SudoVerifyMembership membership_msg) NoData st1
    hosted1 log_known1 s0_chain s0_final).
  rewrite (sudo_ok st1 (SudoVerifyMembership membership_msg)) by (by vm_compute).
  done.
Defined.

End EthExample.
