(* ===== verification/BorshHeader.v ===== *)
(** * The Borsh encoding of Tendermint headers

    Source: [programs/solana/packages/solana-ibc-borsh-header/src/lib.rs] and
    [programs/solana/programs/ics07-tendermint/src/conversions.rs].

    A relayer sends a Tendermint header to the Solana client as the Borsh
    encoding of a [BorshHeader].  The package has three routines, all modelled
    here: the conversion of a header into the wire types ([header_to_borsh],
    run by the relayer), the decoder that builds the header directly from the
    bytes ([HeaderWrapper], run by the program to save compute units), and the
    conversion back from the wire types ([borsh_to_header] of the program).

    The Tendermint and ibc-rs types are third-party.  A value of such a type is
    represented by what its accessors return, and the checks of its
    constructors are the class [TendermintTypes]. *)

From S2P Require Import Prelude.
From Stdlib Require Import ZArith List Lia.
From Stdlib.Strings Require Import Byte.
From stdpp Require Import prelude list sorting.

Local Open Scope Z_scope.

(** ** Readers

    [std::io::Read] over a byte slice; an [io::Error] is [None]. *)
Definition Reader (A : Type) : Type := bytes -> option (A * bytes).

#[export] Instance reader_ret : MRet Reader := fun A a b => Some (a, b).
#[export] Instance reader_bind : MBind Reader := fun A B f m b =>
  match m b with Some (a, b') => f a b' | None => None end.

Definition rfail {A} : Reader A := fun _ => None.
Definition rlift {A} (o : option A) : Reader A := fun b =>
  match o with Some a => Some (a, b) | None => None end.
Definition rcheck (c : bool) : Reader unit := rlift (if c then Some () else None).

(** [reader.read_exact] into a buffer of [n] bytes. *)
Definition read_exact (n : Z) : Reader bytes := fun b =>
  if Z.leb n (Z.of_nat (length b))
  then Some (take (Z.to_nat n) b, drop (Z.to_nat n) b) else None.

(** A loop that pushes [n] decoded values. *)
Fixpoint read_n {A} (r : Reader A) (n : nat) : Reader (list A) :=
  match n with
  | O => mret []
  | S n => x ← r; l ← read_n r n; mret (x :: l)
  end.

(** [BorshDeserialize::try_from_slice]: the whole slice is read. *)
Definition try_from_slice {A} (r : Reader A) (b : bytes) : option A :=
  match r b with Some (a, []) => Some a | _ => None end.

(** The two's complement reading of an [n]-byte integer. *)
Definition to_signed (n : nat) (z : Z) : Z :=
  if Z.ltb z (256 ^ Z.of_nat n / 2) then z else z - 256 ^ Z.of_nat n.

Definition read_uint (n : nat) : Reader Z := b ← read_exact (Z.of_nat n); mret (of_le b).
Definition read_sint (n : nat) : Reader Z := z ← read_uint n; mret (to_signed n z).
Definition read_u8 : Reader Z := read_uint 1.
Definition read_u16 : Reader Z := read_uint 2.
Definition read_u32 : Reader Z := read_uint 4.
Definition read_u64 : Reader Z := read_uint 8.
Definition read_i32 : Reader Z := read_sint 4.
Definition read_i64 : Reader Z := read_sint 8.
Definition read_vec_u8 : Reader bytes := n ← read_u32; read_exact n.

(** [String::from_utf8]: the well-formed UTF-8 sequences. *)
Definition between (lo hi : Z) (b : byte) : bool :=
  Z.leb lo (byte_to_Z b) && Z.leb (byte_to_Z b) hi.
Definition cont (b : byte) : bool := between 128 191 b.

Fixpoint utf8 (l : bytes) : bool :=
  match l with
  | [] => true
  | b0 :: l0 =>
      if between 0 127 b0 then utf8 l0 else
      match l0 with
      | [] => false
      | b1 :: l1 =>
          if between 194 223 b0 then cont b1 && utf8 l1 else
          match l1 with
          | [] => false
          | b2 :: l2 =>
              if between 224 239 b0 then
                (if between 224 224 b0 then between 160 191 b1
                 else if between 237 237 b0 then between 128 159 b1 else cont b1)
                && cont b2 && utf8 l2
              else
              match l2 with
              | [] => false
              | b3 :: l3 =>
                  between 240 244 b0 &&
                  (if between 240 240 b0 then between 144 191 b1
                   else if between 244 244 b0 then between 128 143 b1 else cont b1)
                  && cont b2 && cont b3 && utf8 l3
              end
          end
      end
  end.

Definition read_string : Reader bytes :=
  s ← read_vec_u8; _ ← rcheck (utf8 s); mret s.

(** ** The wire types *)

Record BorshConsensusVersion := mkBorshConsensusVersion { bcv_block : Z; bcv_app : Z }.
Record BorshTimestamp := mkBorshTimestamp { bt_secs : Z; bt_nanos : Z }.
Record BorshPartSetHeader := mkBorshPartSetHeader { bpsh_total : Z; bpsh_hash : bytes }.
Record BorshBlockId := mkBorshBlockId {
  bbid_hash : bytes;
  bbid_part_set_header : BorshPartSetHeader;
}.

Record BorshBlockHeader := mkBorshBlockHeader {
  bbh_version : BorshConsensusVersion;
  bbh_chain_id : bytes;
  bbh_height : Z;
  bbh_time : BorshTimestamp;
  bbh_last_block_id : option BorshBlockId;
  bbh_last_commit_hash : option bytes;
  bbh_data_hash : option bytes;
  bbh_validators_hash : bytes;
  bbh_next_validators_hash : bytes;
  bbh_consensus_hash : bytes;
  bbh_app_hash : bytes;
  bbh_last_results_hash : option bytes;
  bbh_evidence_hash : option bytes;
  bbh_proposer_address : bytes;
}.

Inductive BorshCommitSig :=
| BorshBlockIdFlagAbsent
| BorshBlockIdFlagCommit (validator_address : bytes) (timestamp : BorshTimestamp) (signature : bytes)
| BorshBlockIdFlagNil (validator_address : bytes) (timestamp : BorshTimestamp) (signature : bytes).

Record BorshCommit := mkBorshCommit {
  bc_height : Z;
  bc_round : Z;
  bc_block_id : BorshBlockId;
  bc_signatures : list BorshCommitSig;
}.

Record BorshSignedHeader := mkBorshSignedHeader {
  bsh_header : BorshBlockHeader;
  bsh_commit : BorshCommit;
}.

Inductive BorshPublicKey :=
| BorshEd25519 (k : bytes)
| BorshSecp256k1 (k : bytes).

Record BorshValidator := mkBorshValidator {
  bv_address : bytes;
  bv_pub_key : BorshPublicKey;
  bv_voting_power : Z;
  bv_proposer_priority : Z;
}.

Record BorshValidatorSet := mkBorshValidatorSet {
  bvs_validators : list BorshValidator;
  bvs_proposer : option BorshValidator;
  bvs_total_voting_power : Z;
}.

Record BorshHeight := mkBorshHeight { bh_revision_number : Z; bh_revision_height : Z }.

Record BorshHeader := mkBorshHeader {
  bh_signed_header : BorshSignedHeader;
  bh_validator_set : BorshValidatorSet;
  bh_trusted_height : BorshHeight;
  bh_trusted_next_validator_set : BorshValidatorSet;
}.

Record BorshMisbehaviour := mkBorshMisbehaviour {
  bm_client_id : bytes;
  bm_header1 : BorshHeader;
  bm_header2 : BorshHeader;
}.

(** *** The derived codec

    [derive(BorshSerialize, BorshDeserialize)]: fields in order, integers in
    little-endian order, vectors after their length, options and enums after a
    tag. *)

Definition borsh_vec {A} (e : A -> bytes) (l : list A) : bytes :=
  to_le 4 (Z.of_nat (length l)) ++ concat (e <$> l).
Definition borsh_option {A} (e : A -> bytes) (o : option A) : bytes :=
  match o with Some x => x01 :: e x | None => [x00] end.

Definition borsh_version (v : BorshConsensusVersion) : bytes :=
  to_le 8 (bcv_block v) ++ to_le 8 (bcv_app v).
Definition borsh_timestamp (t : BorshTimestamp) : bytes :=
  to_le 8 (bt_secs t) ++ to_le 4 (bt_nanos t).
Definition borsh_part_set_header (p : BorshPartSetHeader) : bytes :=
  to_le 4 (bpsh_total p) ++ borsh_bytes (bpsh_hash p).
Definition borsh_block_id (b : BorshBlockId) : bytes :=
  borsh_bytes (bbid_hash b) ++ borsh_part_set_header (bbid_part_set_header b).

Definition borsh_block_header (h : BorshBlockHeader) : bytes :=
  borsh_version (bbh_version h) ++ borsh_bytes (bbh_chain_id h) ++ to_le 8 (bbh_height h) ++
  borsh_timestamp (bbh_time h) ++ borsh_option borsh_block_id (bbh_last_block_id h) ++
  borsh_option borsh_bytes (bbh_last_commit_hash h) ++ borsh_option borsh_bytes (bbh_data_hash h) ++
  borsh_bytes (bbh_validators_hash h) ++ borsh_bytes (bbh_next_validators_hash h) ++
  borsh_bytes (bbh_consensus_hash h) ++ borsh_bytes (bbh_app_hash h) ++
  borsh_option borsh_bytes (bbh_last_results_hash h) ++
  borsh_option borsh_bytes (bbh_evidence_hash h) ++ borsh_bytes (bbh_proposer_address h).

Definition borsh_commit_sig (s : BorshCommitSig) : bytes :=
  match s with
  | BorshBlockIdFlagAbsent => [x00]
  | BorshBlockIdFlagCommit a t g => [x01] ++ a ++ borsh_timestamp t ++ g
  | BorshBlockIdFlagNil a t g => [x02] ++ a ++ borsh_timestamp t ++ g
  end.

Definition borsh_commit (c : BorshCommit) : bytes :=
  to_le 8 (bc_height c) ++ to_le 2 (bc_round c) ++ borsh_block_id (bc_block_id c) ++
  borsh_vec borsh_commit_sig (bc_signatures c).

Definition borsh_signed_header (s : BorshSignedHeader) : bytes :=
  borsh_block_header (bsh_header s) ++ borsh_commit (bsh_commit s).

Definition borsh_public_key (k : BorshPublicKey) : bytes :=
  match k with BorshEd25519 k => [x00] ++ k | BorshSecp256k1 k => [x01] ++ k end.

Definition borsh_validator (v : BorshValidator) : bytes :=
  bv_address v ++ borsh_public_key (bv_pub_key v) ++ to_le 8 (bv_voting_power v) ++
  to_le 8 (bv_proposer_priority v).

Definition borsh_validator_set (s : BorshValidatorSet) : bytes :=
  borsh_vec borsh_validator (bvs_validators s) ++ borsh_option borsh_validator (bvs_proposer s) ++
  to_le 8 (bvs_total_voting_power s).

Definition borsh_height (h : BorshHeight) : bytes :=
  to_le 8 (bh_revision_number h) ++ to_le 8 (bh_revision_height h).

Definition borsh_header (h : BorshHeader) : bytes :=
  borsh_signed_header (bh_signed_header h) ++ borsh_validator_set (bh_validator_set h) ++
  borsh_height (bh_trusted_height h) ++ borsh_validator_set (bh_trusted_next_validator_set h).

Definition borsh_misbehaviour (m : BorshMisbehaviour) : bytes :=
  borsh_bytes (bm_client_id m) ++ borsh_header (bm_header1 m) ++ borsh_header (bm_header2 m).

Definition read_vec {A} (r : Reader A) : Reader (list A) :=
  n ← read_u32; read_n r (Z.to_nat n).
Definition read_option {A} (r : Reader A) : Reader (option A) :=
  tag ← read_u8;
  if Z.eqb tag 0 then mret None
  else if Z.eqb tag 1 then x ← r; mret (Some x) else rfail.

Definition read_version : Reader BorshConsensusVersion :=
  block ← read_u64; app ← read_u64; mret (mkBorshConsensusVersion block app).
Definition read_timestamp : Reader BorshTimestamp :=
  secs ← read_i64; nanos ← read_i32; mret (mkBorshTimestamp secs nanos).
Definition read_part_set_header : Reader BorshPartSetHeader :=
  total ← read_u32; hash ← read_vec_u8; mret (mkBorshPartSetHeader total hash).
Definition read_block_id : Reader BorshBlockId :=
  hash ← read_vec_u8; psh ← read_part_set_header; mret (mkBorshBlockId hash psh).

Definition read_block_header : Reader BorshBlockHeader :=
  version ← read_version;
  chain_id ← read_string;
  height ← read_u64;
  time ← read_timestamp;
  last_block_id ← read_option read_block_id;
  last_commit_hash ← read_option read_vec_u8;
  data_hash ← read_option read_vec_u8;
  validators_hash ← read_vec_u8;
  next_validators_hash ← read_vec_u8;
  consensus_hash ← read_vec_u8;
  app_hash ← read_vec_u8;
  last_results_hash ← read_option read_vec_u8;
  evidence_hash ← read_option read_vec_u8;
  proposer_address ← read_vec_u8;
  mret (mkBorshBlockHeader version chain_id height time last_block_id last_commit_hash data_hash
    validators_hash next_validators_hash consensus_hash app_hash last_results_hash evidence_hash
    proposer_address).

Definition read_signed (mk : bytes -> BorshTimestamp -> bytes -> BorshCommitSig) : Reader BorshCommitSig :=
  a ← read_exact 20; t ← read_timestamp; g ← read_exact 64; mret (mk a t g).
Definition read_commit_sig : Reader BorshCommitSig :=
  tag ← read_u8;
  if Z.eqb tag 0 then mret BorshBlockIdFlagAbsent
  else if Z.eqb tag 1 then read_signed BorshBlockIdFlagCommit
  else if Z.eqb tag 2 then read_signed BorshBlockIdFlagNil
  else rfail.

Definition read_commit : Reader BorshCommit :=
  height ← read_u64; round ← read_u16; block_id ← read_block_id;
  signatures ← read_vec read_commit_sig;
  mret (mkBorshCommit height round block_id signatures).

Definition read_signed_header : Reader BorshSignedHeader :=
  header ← read_block_header; commit ← read_commit; mret (mkBorshSignedHeader header commit).

Definition read_public_key : Reader BorshPublicKey :=
  tag ← read_u8;
  if Z.eqb tag 0 then k ← read_exact 32; mret (BorshEd25519 k)
  else if Z.eqb tag 1 then k ← read_exact 33; mret (BorshSecp256k1 k)
  else rfail.

Definition read_validator : Reader BorshValidator :=
  address ← read_exact 20; pub_key ← read_public_key; voting_power ← read_u64;
  proposer_priority ← read_i64;
  mret (mkBorshValidator address pub_key voting_power proposer_priority).

Definition read_validator_set : Reader BorshValidatorSet :=
  validators ← read_vec read_validator; proposer ← read_option read_validator;
  total ← read_u64;
  mret (mkBorshValidatorSet validators proposer total).

Definition read_height : Reader BorshHeight :=
  n ← read_u64; h ← read_u64; mret (mkBorshHeight n h).

Definition read_header : Reader BorshHeader :=
  signed_header ← read_signed_header; validator_set ← read_validator_set;
  trusted_height ← read_height; trusted_next ← read_validator_set;
  mret (mkBorshHeader signed_header validator_set trusted_height trusted_next).

Definition read_misbehaviour : Reader BorshMisbehaviour :=
  client_id ← read_string; header1 ← read_header; header2 ← read_header;
  mret (mkBorshMisbehaviour client_id header1 header2).

(** ** The Tendermint and ibc-rs types

    A [tendermint::Time] is its number of nanoseconds since the epoch, a
    [tendermint::Hash], an [AppHash], an [account::Id] and a [Signature] the
    bytes [as_bytes] returns, a height, a power, a priority and a round the
    number [value] returns, and a chain or client identifier its string. *)

Definition Time : Type := Z.

Record TmVersion := mkTmVersion { tv_block : Z; tv_app : Z }.
Record TmPartSetHeader := mkTmPartSetHeader { psh_total : Z; psh_hash : bytes }.
Record TmBlockId := mkTmBlockId { bid_hash : bytes; bid_part_set_header : TmPartSetHeader }.

Record TmBlockHeader := mkTmBlockHeader {
  th_version : TmVersion;
  th_chain_id : bytes;
  th_height : Z;
  th_time : Time;
  th_last_block_id : option TmBlockId;
  th_last_commit_hash : option bytes;
  th_data_hash : option bytes;
  th_validators_hash : bytes;
  th_next_validators_hash : bytes;
  th_consensus_hash : bytes;
  th_app_hash : bytes;
  th_last_results_hash : option bytes;
  th_evidence_hash : option bytes;
  th_proposer_address : bytes;
}.

Inductive TmCommitSig :=
| BlockIdFlagAbsent
| BlockIdFlagCommit (validator_address : bytes) (timestamp : Time) (signature : option bytes)
| BlockIdFlagNil (validator_address : bytes) (timestamp : Time) (signature : option bytes).

Record TmCommit := mkTmCommit {
  tc_height : Z;
  tc_round : Z;
  tc_block_id : TmBlockId;
  tc_signatures : list TmCommitSig;
}.

Record TmSignedHeader := mkTmSignedHeader {
  sh_header : TmBlockHeader;
  sh_commit : TmCommit;
}.

(** The keys that are not Ed25519 keys are not distinguished. *)
Inductive TmPublicKey :=
| PkEd25519 (k : bytes)
| PkOther.

Record TmValidator := mkTmValidator {
  val_address : bytes;
  val_pub_key : TmPublicKey;
  val_power : Z;
  val_proposer_priority : Z;
  val_name : option bytes;
}.

Record TmValidatorSet := mkTmValidatorSet {
  vs_validators : list TmValidator;
  vs_proposer : option TmValidator;
  vs_total_voting_power : Z;
}.

Record Height := mkHeight { revision_number : Z; revision_height : Z }.

Record IbcHeader := mkIbcHeader {
  hd_signed_header : TmSignedHeader;
  hd_validator_set : TmValidatorSet;
  hd_trusted_height : Height;
  hd_trusted_next_validator_set : TmValidatorSet;
}.

Record IbcMisbehaviour := mkIbcMisbehaviour {
  mb_client_id : bytes;
  mb_header1 : IbcHeader;
  mb_header2 : IbcHeader;
}.

#[export] Instance Height_eq_dec : EqDecision Height.
Proof. solve_decision. Defined.

(** The constructors of these types that check their argument.  A [bool] says
    whether the constructor accepts it. *)
Class TendermintTypes := {
  Height_new_ok : Z -> Z -> bool;                     (** [ibc_core_client_types::Height::new] *)
  BlockHeight_ok : Z -> bool;                         (** [block::Height::try_from(u64)] *)
  Power_ok : Z -> bool;                               (** [vote::Power::try_from(u64)] *)
  ChainId_ok : bytes -> bool;                         (** [chain::Id::try_from(String)] *)
  ClientId_ok : bytes -> bool;                        (** [ClientId::from_str] *)
  AppHash_ok : bytes -> bool;                         (** [AppHash::try_from(Vec<u8>)] *)
  from_raw_ed25519_ok : bytes -> bool;                (** [PublicKey::from_raw_ed25519] *)
  PartSetHeader_ok : Z -> bytes -> bool;              (** [parts::Header::new] *)
  SignedHeader_ok : TmBlockHeader -> TmCommit -> bool; (** [SignedHeader::new] *)
  Signature_new : bytes -> option (option bytes);     (** [Signature::new] *)
  from_unix_timestamp : Z -> Z -> option Time;        (** [Time::from_unix_timestamp] *)
  unix_timestamp : Time -> Z;                         (** [Time::unix_timestamp] *)
  ValidatorSet_new : list TmValidator -> option TmValidator -> TmValidatorSet; (** [validator::Set::new] *)
}.

Section BorshHeader.
Context `{TT : TendermintTypes}.

Definition Height_new (n h : Z) : option Height :=
  if Height_new_ok n h then Some (mkHeight n h) else None.
Definition checked (ok : Z -> bool) (z : Z) : option Z := if ok z then Some z else None.
Definition PartSetHeader_new (total : Z) (hash : bytes) : option TmPartSetHeader :=
  if PartSetHeader_ok total hash then Some (mkTmPartSetHeader total hash) else None.
Definition SignedHeader_new (h : TmBlockHeader) (c : TmCommit) : option TmSignedHeader :=
  if SignedHeader_ok h c then Some (mkTmSignedHeader h c) else None.
Definition from_raw_ed25519 (k : bytes) : option TmPublicKey :=
  if from_raw_ed25519_ok k then Some (PkEd25519 k) else None.

(** *** [mod direct_deser]: the header directly from the bytes *)

Definition deserialize_height : Reader Height :=
  revision_number ← read_u64;
  revision_height ← read_u64;
  rlift (Height_new revision_number revision_height).

(** [nanos as u32] *)
Definition as_u32 (z : Z) : Z := z mod 2 ^ 32.

Definition deserialize_time : Reader Time :=
  secs ← read_i64;
  nanos ← read_i32;
  rlift (from_unix_timestamp secs (as_u32 nanos)).

Definition deserialize_required_hash : Reader bytes :=
  len ← read_u32;
  if negb (Z.eqb len 32) then rfail else read_exact 32.

(** An optional field: every flag other than one reads as an absent value. *)
Definition read_flagged {A} (r : Reader A) : Reader (option A) :=
  has_value ← read_u8;
  if Z.eqb has_value 1 then x ← r; mret (Some x) else mret None.

Definition deserialize_optional_hash : Reader (option bytes) :=
  read_flagged deserialize_required_hash.

Definition deserialize_public_key : Reader TmPublicKey :=
  discriminant ← read_u8;
  if Z.eqb discriminant 0 then k ← read_exact 32; rlift (from_raw_ed25519 k)
  else if Z.eqb discriminant 1 then rfail
  else rfail.

Definition deserialize_validator : Reader TmValidator :=
  address ← read_exact 20;
  pub_key ← deserialize_public_key;
  voting_power ← read_u64;
  power ← rlift (checked Power_ok voting_power);
  proposer_priority ← read_i64;
  mret (mkTmValidator address pub_key power proposer_priority None).

Definition deserialize_validator_set : Reader TmValidatorSet :=
  validators ← read_vec deserialize_validator;
  proposer ← read_flagged deserialize_validator;
  total_voting_power ← read_u64;
  total_voting_power ← rlift (checked Power_ok total_voting_power);
  mret (mkTmValidatorSet validators proposer total_voting_power).

Definition deserialize_commit_sig : Reader TmCommitSig :=
  discriminant ← read_u8;
  if Z.eqb discriminant 0 then mret BlockIdFlagAbsent
  else if Z.eqb discriminant 1 then
    validator_address ← read_exact 20;
    timestamp ← deserialize_time;
    signature ← read_exact 64;
    signature ← rlift (Signature_new signature);
    mret (BlockIdFlagCommit validator_address timestamp signature)
  else if Z.eqb discriminant 2 then
    validator_address ← read_exact 20;
    timestamp ← deserialize_time;
    signature ← read_exact 64;
    signature ← rlift (Signature_new signature);
    mret (BlockIdFlagNil validator_address timestamp signature)
  else rfail.

Definition deserialize_part_set_header : Reader TmPartSetHeader :=
  total ← read_u32;
  hash ← deserialize_required_hash;
  rlift (PartSetHeader_new total hash).

Definition deserialize_block_id : Reader TmBlockId :=
  hash ← deserialize_required_hash;
  part_set_header ← deserialize_part_set_header;
  mret (mkTmBlockId hash part_set_header).

Definition deserialize_commit : Reader TmCommit :=
  height_val ← read_u64;
  height ← rlift (checked BlockHeight_ok height_val);
  round ← read_u16;
  block_id ← deserialize_block_id;
  signatures ← read_vec deserialize_commit_sig;
  mret (mkTmCommit height round block_id signatures).

Definition deserialize_consensus_version : Reader TmVersion :=
  block ← read_u64;
  app ← read_u64;
  mret (mkTmVersion block app).

Definition deserialize_app_hash : Reader bytes :=
  app_hash_len ← read_u32;
  if Z.eqb app_hash_len 32 then
    bytes ← read_exact 32; _ ← rcheck (AppHash_ok bytes); mret bytes
  else
    bytes ← read_exact app_hash_len; _ ← rcheck (AppHash_ok bytes); mret bytes.

Definition deserialize_proposer_address : Reader bytes :=
  proposer_len ← read_u32;
  if negb (Z.eqb proposer_len 20) then rfail else read_exact 20.

Definition deserialize_block_header : Reader TmBlockHeader :=
  version ← deserialize_consensus_version;
  chain_id ← read_string;
  _ ← rcheck (ChainId_ok chain_id);
  height_val ← read_u64;
  height ← rlift (checked BlockHeight_ok height_val);
  time ← deserialize_time;
  last_block_id ← read_flagged deserialize_block_id;
  last_commit_hash ← deserialize_optional_hash;
  data_hash ← deserialize_optional_hash;
  validators_hash ← deserialize_required_hash;
  next_validators_hash ← deserialize_required_hash;
  consensus_hash ← deserialize_required_hash;
  app_hash ← deserialize_app_hash;
  last_results_hash ← deserialize_optional_hash;
  evidence_hash ← deserialize_optional_hash;
  proposer_address ← deserialize_proposer_address;
  mret (mkTmBlockHeader version chain_id height time last_block_id last_commit_hash data_hash
    validators_hash next_validators_hash consensus_hash app_hash last_results_hash evidence_hash
    proposer_address).

Definition deserialize_signed_header : Reader TmSignedHeader :=
  header ← deserialize_block_header;
  commit ← deserialize_commit;
  rlift (SignedHeader_new header commit).

Definition deserialize_header : Reader IbcHeader :=
  signed_header ← deserialize_signed_header;
  validator_set ← deserialize_validator_set;
  trusted_height ← deserialize_height;
  trusted_next_validator_set ← deserialize_validator_set;
  mret (mkIbcHeader signed_header validator_set trusted_height trusted_next_validator_set).

(** [HeaderWrapper] and [MisbehaviourWrapper]. *)
Definition HeaderWrapper_deserialize_reader : Reader IbcHeader :=
  signed_header ← deserialize_signed_header;
  validator_set ← deserialize_validator_set;
  trusted_height ← deserialize_height;
  trusted_next_validator_set ← deserialize_validator_set;
  mret (mkIbcHeader signed_header validator_set trusted_height trusted_next_validator_set).

Definition MisbehaviourWrapper_deserialize_reader : Reader IbcMisbehaviour :=
  client_id ← read_string;
  _ ← rcheck (ClientId_ok client_id);
  header1 ← deserialize_header;
  header2 ← deserialize_header;
  mret (mkIbcMisbehaviour client_id header1 header2).

Definition HeaderWrapper_try_from_slice : bytes -> option IbcHeader :=
  try_from_slice HeaderWrapper_deserialize_reader.
Definition MisbehaviourWrapper_try_from_slice : bytes -> option IbcMisbehaviour :=
  try_from_slice MisbehaviourWrapper_deserialize_reader.

(** *** [mod conversions]: a header into the wire types *)

Definition height_to_borsh (h : Height) : BorshHeight :=
  mkBorshHeight (revision_number h) (revision_height h).

(** The conversion panics on another kind of key: [None]. *)
Definition public_key_to_borsh (pk : TmPublicKey) : option BorshPublicKey :=
  match pk with PkEd25519 k => Some (BorshEd25519 k) | PkOther => None end.

Definition validator_to_borsh (v : TmValidator) : option BorshValidator :=
  pk ← public_key_to_borsh (val_pub_key v);
  Some (mkBorshValidator (val_address v) pk (val_power v) (val_proposer_priority v)).

Definition validator_set_to_borsh (vs : TmValidatorSet) : option BorshValidatorSet :=
  validators ← mapM validator_to_borsh (vs_validators vs);
  proposer ← match vs_proposer vs with
             | Some p => b ← validator_to_borsh p; Some (Some b)
             | None => Some None
             end;
  Some (mkBorshValidatorSet validators proposer (vs_total_voting_power vs)).

(** [%] truncates towards zero. *)
Definition time_to_borsh (t : Time) : BorshTimestamp :=
  mkBorshTimestamp (unix_timestamp t) (Z.rem t 1000000000).

Definition part_set_header_to_borsh (psh : TmPartSetHeader) : BorshPartSetHeader :=
  mkBorshPartSetHeader (psh_total psh) (psh_hash psh).

Definition block_id_to_borsh (bid : TmBlockId) : BorshBlockId :=
  mkBorshBlockId (bid_hash bid) (part_set_header_to_borsh (bid_part_set_header bid)).

(** The missing signature is 64 zero bytes; the conversion panics on one of
    another length. *)
Definition signature_array (signature : option bytes) : option bytes :=
  match signature with
  | None => Some (replicate 64 x00)
  | Some s => if Nat.eqb (length s) 64 then Some s else None
  end.

Definition commit_sig_to_borsh (cs : TmCommitSig) : option BorshCommitSig :=
  match cs with
  | BlockIdFlagAbsent => Some BorshBlockIdFlagAbsent
  | BlockIdFlagCommit a t s =>
      sig_array ← signature_array s;
      Some (BorshBlockIdFlagCommit a (time_to_borsh t) sig_array)
  | BlockIdFlagNil a t s =>
      sig_array ← signature_array s;
      Some (BorshBlockIdFlagNil a (time_to_borsh t) sig_array)
  end.

(** The order of the signatures: the absent ones first, the others by address. *)
Definition sig_address (s : BorshCommitSig) : option bytes :=
  match s with
  | BorshBlockIdFlagAbsent => None
  | BorshBlockIdFlagCommit a _ _ | BorshBlockIdFlagNil a _ _ => Some a
  end.
Definition sig_leb (a b : BorshCommitSig) : bool :=
  match sig_address a, sig_address b with
  | Some addr_a, Some addr_b => bytes_leb addr_a addr_b
  | None, _ => true
  | Some _, None => false
  end.
Definition sig_le (a b : BorshCommitSig) : Prop := sig_leb a b = true.
#[export] Instance sig_le_dec : RelDecision sig_le.
Proof. intros a b. unfold sig_le. apply _. Defined.

Definition commit_to_borsh (c : TmCommit) : option BorshCommit :=
  signatures ← mapM commit_sig_to_borsh (tc_signatures c);
  Some (mkBorshCommit (tc_height c) (tc_round c mod 2 ^ 16) (block_id_to_borsh (tc_block_id c))
    (merge_sort sig_le signatures)).

Definition consensus_version_to_borsh (v : TmVersion) : BorshConsensusVersion :=
  mkBorshConsensusVersion (tv_block v) (tv_app v).

Definition block_header_to_borsh (h : TmBlockHeader) : BorshBlockHeader :=
  mkBorshBlockHeader (consensus_version_to_borsh (th_version h)) (th_chain_id h) (th_height h)
    (time_to_borsh (th_time h)) (block_id_to_borsh <$> th_last_block_id h) (th_last_commit_hash h)
    (th_data_hash h) (th_validators_hash h) (th_next_validators_hash h) (th_consensus_hash h)
    (th_app_hash h) (th_last_results_hash h) (th_evidence_hash h) (th_proposer_address h).

Definition signed_header_to_borsh (sh : TmSignedHeader) : option BorshSignedHeader :=
  commit ← commit_to_borsh (sh_commit sh);
  Some (mkBorshSignedHeader (block_header_to_borsh (sh_header sh)) commit).

Definition header_to_borsh (h : IbcHeader) : option BorshHeader :=
  signed_header ← signed_header_to_borsh (hd_signed_header h);
  validator_set ← validator_set_to_borsh (hd_validator_set h);
  trusted_next ← validator_set_to_borsh (hd_trusted_next_validator_set h);
  Some (mkBorshHeader signed_header validator_set
    (height_to_borsh (hd_trusted_height h)) trusted_next).

Definition misbehaviour_to_borsh (m : IbcMisbehaviour) : option BorshMisbehaviour :=
  header1 ← header_to_borsh (mb_header1 m);
  header2 ← header_to_borsh (mb_header2 m);
  Some (mkBorshMisbehaviour (mb_client_id m) header1 header2).

(** *** [conversions.rs] of the program: the wire types into a header *)

Inductive ConversionError :=
| InvalidHeight | InvalidEd25519Key | Secp256k1NotSupported | InvalidVotingPower
| InvalidTimestamp | InvalidPartSetHashLength | InvalidPartSetHeader
| InvalidBlockIdHashLength | InvalidSignature_ | InvalidCommitHeight | InvalidChainId
| InvalidHeaderHeight | InvalidLastCommitHashLength | InvalidDataHashLength
| InvalidLastResultsHashLength | InvalidEvidenceHashLength | InvalidProposerAddressLength
| InvalidValidatorsHashLength | InvalidNextValidatorsHashLength | InvalidConsensusHashLength
| InvalidAppHash | FailedToCreateSignedHeader.

(** [try_into] an array of [n] bytes. *)
Definition array (n : nat) (b : bytes) : option bytes :=
  if Nat.eqb (length b) n then Some b else None.

Fixpoint collect_results {A B E} (f : A -> result E B) (l : list A) : result E (list B) :=
  match l with
  | [] => Ok []
  | x :: l => y ← f x; ys ← collect_results f l; Ok (y :: ys)
  end.

Definition opt_result {A B E} (f : A -> result E B) (o : option A) : result E (option B) :=
  match o with Some x => y ← f x; Ok (Some y) | None => Ok None end.

Definition borsh_to_height (bh : BorshHeight) : result ConversionError Height :=
  ok_or (Height_new (bh_revision_number bh) (bh_revision_height bh)) InvalidHeight.

Definition borsh_to_public_key (bpk : BorshPublicKey) : result ConversionError TmPublicKey :=
  match bpk with
  | BorshEd25519 k => ok_or (from_raw_ed25519 k) InvalidEd25519Key
  | BorshSecp256k1 _ => Err Secp256k1NotSupported
  end.

Definition borsh_to_validator (bv : BorshValidator) : result ConversionError TmValidator :=
  pub_key ← borsh_to_public_key (bv_pub_key bv);
  power ← ok_or (checked Power_ok (bv_voting_power bv)) InvalidVotingPower;
  Ok (mkTmValidator (bv_address bv) pub_key power (bv_proposer_priority bv) None).

Definition borsh_to_validator_set (bvs : BorshValidatorSet) : result ConversionError TmValidatorSet :=
  validators ← collect_results borsh_to_validator (bvs_validators bvs);
  proposer ← opt_result borsh_to_validator (bvs_proposer bvs);
  Ok (ValidatorSet_new validators proposer).

Definition borsh_to_time (bt : BorshTimestamp) : result ConversionError Time :=
  ok_or (from_unix_timestamp (bt_secs bt) (as_u32 (bt_nanos bt))) InvalidTimestamp.

Definition borsh_to_part_set_header (bpsh : BorshPartSetHeader) : result ConversionError TmPartSetHeader :=
  hash ← ok_or (array 32 (bpsh_hash bpsh)) InvalidPartSetHashLength;
  ok_or (PartSetHeader_new (bpsh_total bpsh) hash) InvalidPartSetHeader.

Definition borsh_to_block_id (bbid : BorshBlockId) : result ConversionError TmBlockId :=
  hash ← ok_or (array 32 (bbid_hash bbid)) InvalidBlockIdHashLength;
  part_set_header ← borsh_to_part_set_header (bbid_part_set_header bbid);
  Ok (mkTmBlockId hash part_set_header).

Definition borsh_to_commit_sig (bcs : BorshCommitSig) : result ConversionError TmCommitSig :=
  match bcs with
  | BorshBlockIdFlagAbsent => Ok BlockIdFlagAbsent
  | BorshBlockIdFlagCommit validator_address timestamp signature =>
      sig ← ok_or (Signature_new signature) InvalidSignature_;
      timestamp ← borsh_to_time timestamp;
      Ok (BlockIdFlagCommit validator_address timestamp sig)
  | BorshBlockIdFlagNil validator_address timestamp signature =>
      sig ← ok_or (Signature_new signature) InvalidSignature_;
      timestamp ← borsh_to_time timestamp;
      Ok (BlockIdFlagNil validator_address timestamp sig)
  end.

(** The signatures are converted first, and their error is raised last. *)
Definition borsh_to_commit (bc : BorshCommit) : result ConversionError TmCommit :=
  let signatures := collect_results borsh_to_commit_sig (bc_signatures bc) in
  height ← ok_or (checked BlockHeight_ok (bc_height bc)) InvalidCommitHeight;
  block_id ← borsh_to_block_id (bc_block_id bc);
  signatures ← signatures;
  Ok (mkTmCommit height (bc_round bc) block_id signatures).

Definition borsh_to_consensus_version (bcv : BorshConsensusVersion) : TmVersion :=
  mkTmVersion (bcv_block bcv) (bcv_app bcv).

Definition borsh_to_block_header (bbh : BorshBlockHeader) : result ConversionError TmBlockHeader :=
  last_block_id ← opt_result borsh_to_block_id (bbh_last_block_id bbh);
  last_commit_hash ← opt_result (fun h => ok_or (array 32 h) InvalidLastCommitHashLength) (bbh_last_commit_hash bbh);
  data_hash ← opt_result (fun h => ok_or (array 32 h) InvalidDataHashLength) (bbh_data_hash bbh);
  last_results_hash ← opt_result (fun h => ok_or (array 32 h) InvalidLastResultsHashLength) (bbh_last_results_hash bbh);
  evidence_hash ← opt_result (fun h => ok_or (array 32 h) InvalidEvidenceHashLength) (bbh_evidence_hash bbh);
  address ← ok_or (array 20 (bbh_proposer_address bbh)) InvalidProposerAddressLength;
  _ ← require_r (ChainId_ok (bbh_chain_id bbh)) InvalidChainId;
  height ← ok_or (checked BlockHeight_ok (bbh_height bbh)) InvalidHeaderHeight;
  time ← borsh_to_time (bbh_time bbh);
  validators_hash ← ok_or (array 32 (bbh_validators_hash bbh)) InvalidValidatorsHashLength;
  next_validators_hash ← ok_or (array 32 (bbh_next_validators_hash bbh)) InvalidNextValidatorsHashLength;
  consensus_hash ← ok_or (array 32 (bbh_consensus_hash bbh)) InvalidConsensusHashLength;
  _ ← require_r (AppHash_ok (bbh_app_hash bbh)) InvalidAppHash;
  Ok (mkTmBlockHeader (borsh_to_consensus_version (bbh_version bbh)) (bbh_chain_id bbh) height time
    last_block_id last_commit_hash data_hash validators_hash next_validators_hash consensus_hash
    (bbh_app_hash bbh) last_results_hash evidence_hash address).

Definition borsh_to_signed_header (bsh : BorshSignedHeader) : result ConversionError TmSignedHeader :=
  header ← borsh_to_block_header (bsh_header bsh);
  commit ← borsh_to_commit (bsh_commit bsh);
  ok_or (SignedHeader_new header commit) FailedToCreateSignedHeader.

Definition borsh_to_header (bh : BorshHeader) : result ConversionError IbcHeader :=
  signed_header ← borsh_to_signed_header (bh_signed_header bh);
  validator_set ← borsh_to_validator_set (bh_validator_set bh);
  trusted_height ← borsh_to_height (bh_trusted_height bh);
  trusted_next_validator_set ← borsh_to_validator_set (bh_trusted_next_validator_set bh);
  Ok (mkIbcHeader signed_header validator_set trusted_height trusted_next_validator_set).

End BorshHeader.
