(* ===== verification/BorshHeaderSpec.v ===== *)
(** * The header codec: round trip and agreement of the two decoders

    [header_codec_roundtrip]: the program decodes what the relayer encodes, up
    to the order of the commit's signatures.  [direct_decoder_agrees]: on every
    Borsh encoding the direct decoder and the conversion through the wire types
    accept the same headers, up to what the conversion recomputes. *)

From S2P Require Import Prelude BorshHeader.
From Stdlib Require Import ZArith Lia.
From Stdlib.Strings Require Import Byte.
From stdpp Require Import prelude list sorting.

Local Open Scope Z_scope.

(** ** Readers *)

(** [d] reads [x] from the bytes [e], whatever follows them. *)
Definition reads {A} (d : Reader A) (e : bytes) (x : A) : Prop :=
  forall rest, d (e ++ rest) = Some (x, rest).

Lemma reads_ret {A} (x : A) : reads (mret x) [] x.
Proof. done. Qed.

Lemma reads_bind {A B} (d : Reader A) (f : A -> Reader B) e1 e2 x y :
  reads d e1 x -> reads (f x) e2 y -> reads (d ≫= f) (e1 ++ e2) y.
Proof. intros H1 H2 rest. rewrite <- app_assoc. cbn. unfold mbind, reader_bind. by rewrite H1, H2. Qed.

Lemma reads_last {A B} (d : Reader A) (f : A -> B) e x :
  reads d e x -> reads (x ← d; mret (f x)) e (f x).
Proof. intros H. rewrite <- (app_nil_r e). by eapply reads_bind; [|apply reads_ret]. Qed.

Lemma reads_check {A} (c : bool) (f : unit -> Reader A) e x :
  c = true -> reads (f ()) e x -> reads (rcheck c ≫= f) e x.
Proof. intros -> H rest. apply H. Qed.

Lemma reads_exact n b : Z.of_nat (length b) = n -> reads (read_exact n) b b.
Proof.
  intros <- rest. unfold read_exact. rewrite length_app.
  rewrite (proj2 (Z.leb_le _ _)) by lia. rewrite Nat2Z.id.
  by rewrite take_app_length, drop_app_length.
Qed.

(** The ranges of the fields' types. *)
Definition is_uint (n : nat) (z : Z) : Prop := 0 <= z < 256 ^ Z.of_nat n.
Definition is_sint (n : nat) (z : Z) : Prop := - (256 ^ Z.of_nat n / 2) <= z < 256 ^ Z.of_nat n / 2.
Definition vec_len {A} (l : list A) : Prop := Z.of_nat (length l) < 2 ^ 32.
Definition opt {A} (P : A -> Prop) (o : option A) : Prop := forall x, o = Some x -> P x.

Lemma reads_uint n z : is_uint n z -> reads (read_uint n) (to_le n z) z.
Proof.
  intros H. assert (z = of_le (to_le n z)) as E by (rewrite of_to_le; by rewrite Z.mod_small).
  rewrite E at 2. apply (reads_last _ of_le), reads_exact. by rewrite length_to_le.
Qed.

Lemma of_le_range l : 0 <= of_le l < 256 ^ Z.of_nat (length l).
Proof.
  induction l as [|b l IH]; [done|]. cbn [of_le length]. rewrite Nat2Z.inj_succ, Z.pow_succ_r by lia.
  pose proof (byte_to_Z_range b). lia.
Qed.

Lemma to_signed_wrap n z : (0 < n)%nat -> is_sint n z -> to_signed n (z mod 256 ^ Z.of_nat n) = z.
Proof.
  unfold is_sint. intros Hn. destruct n as [|n]; [lia|]. rewrite Nat2Z.inj_succ, Z.pow_succ_r by lia. intros H.
  unfold to_signed. rewrite Nat2Z.inj_succ, Z.pow_succ_r by lia.
  pose proof (Z.pow_pos_nonneg 256 (Z.of_nat n)) as Hp. set (p := 256 ^ Z.of_nat n) in *.
  replace (256 * p / 2) with (128 * p) in * by (rewrite <- (Z.div_mul (128 * p) 2) by lia; f_equal; lia).
  destruct (Z.leb_spec 0 z).
  - rewrite Z.mod_small by lia. rewrite (proj2 (Z.ltb_lt _ _)) by lia. done.
  - rewrite <- (Z.mod_add z 1), Z.mod_small by lia. rewrite (proj2 (Z.ltb_ge _ _)) by lia. lia.
Qed.

Lemma reads_sint n z : (0 < n)%nat -> is_sint n z -> reads (read_sint n) (to_le n z) z.
Proof.
  intros Hn H. rewrite <- (to_signed_wrap n z Hn H) at 2. apply reads_last. rewrite <- of_to_le.
  rewrite <- (to_of_le (to_le n z)) at 1. rewrite length_to_le. apply reads_uint. rewrite of_to_le.
  apply Z.mod_pos_bound. lia.
Qed.

Lemma reads_bytes b : vec_len b -> reads read_vec_u8 (borsh_bytes b) b.
Proof. intros H. eapply reads_bind; [apply reads_uint; unfold is_uint, vec_len in *; lia|by apply reads_exact]. Qed.

Lemma reads_string b : vec_len b -> utf8 b = true -> reads read_string (borsh_bytes b) b.
Proof.
  intros H1 H2. rewrite <- (app_nil_r (borsh_bytes b)).
  eapply reads_bind; [by apply reads_bytes|]. by apply reads_check.
Qed.

Lemma reads_n {A} (r : Reader A) (e : A -> bytes) l :
  Forall (fun x => reads r (e x) x) l -> reads (read_n r (length l)) (concat (e <$> l)) l.
Proof.
  induction 1 as [|x l Hx _ IH]; [apply reads_ret|].
  eapply (reads_bind _ _ (e x)); [done|]. by apply (reads_last _ (cons x)).
Qed.

Lemma reads_vec {A} (r : Reader A) (e : A -> bytes) l :
  vec_len l -> Forall (fun x => reads r (e x) x) l -> reads (read_vec r) (borsh_vec e l) l.
Proof.
  intros H1 H2. eapply reads_bind; [apply reads_uint; unfold is_uint, vec_len in *; lia|]. rewrite Nat2Z.id. by apply reads_n.
Qed.

Lemma reads_tag {A} (f : Z -> Reader A) (b : byte) e x :
  reads (f (byte_to_Z b)) e x -> reads (read_u8 ≫= f) ([b] ++ e) x.
Proof.
  intros H. replace [b] with (to_le 1 (byte_to_Z b)) by (simpl; by rewrite byte_of_to_Z).
  eapply reads_bind; [|exact H]. apply reads_uint. pose proof (byte_to_Z_range b). unfold is_uint. lia.
Qed.

Lemma reads_option {A} (r : Reader A) (e : A -> bytes) o :
  (forall x, o = Some x -> reads r (e x) x) -> reads (read_option r) (borsh_option e o) o.
Proof.
  destruct o as [x|]; simpl; intros H; apply (reads_tag _ _ _); [|apply reads_ret].
  by apply (reads_last _ Some), H.
Qed.

Create HintDb reads.
#[export] Hint Resolve reads_ret reads_exact reads_bytes reads_string reads_vec reads_option : reads.

(** ** The derived codec *)

Definition version_typed (v : BorshConsensusVersion) : Prop := is_uint 8 (bcv_block v) /\ is_uint 8 (bcv_app v).
Definition timestamp_typed (t : BorshTimestamp) : Prop := is_sint 8 (bt_secs t) /\ is_sint 4 (bt_nanos t).
Definition psh_typed (p : BorshPartSetHeader) : Prop := is_uint 4 (bpsh_total p) /\ vec_len (bpsh_hash p).
Definition block_id_typed (b : BorshBlockId) : Prop :=
  vec_len (bbid_hash b) /\ psh_typed (bbid_part_set_header b).
Definition block_header_typed (h : BorshBlockHeader) : Prop :=
  version_typed (bbh_version h) /\ (vec_len (bbh_chain_id h) /\ utf8 (bbh_chain_id h) = true) /\
  is_uint 8 (bbh_height h) /\ timestamp_typed (bbh_time h) /\ opt block_id_typed (bbh_last_block_id h) /\
  (opt vec_len (bbh_last_commit_hash h) /\ opt vec_len (bbh_data_hash h)) /\
  (vec_len (bbh_validators_hash h) /\ vec_len (bbh_next_validators_hash h) /\ vec_len (bbh_consensus_hash h)) /\
  vec_len (bbh_app_hash h) /\ (opt vec_len (bbh_last_results_hash h) /\ opt vec_len (bbh_evidence_hash h)) /\
  vec_len (bbh_proposer_address h).
Definition commit_sig_typed (s : BorshCommitSig) : Prop :=
  match s with
  | BorshBlockIdFlagAbsent => True
  | BorshBlockIdFlagCommit a t g | BorshBlockIdFlagNil a t g =>
      length a = 20%nat /\ timestamp_typed t /\ length g = 64%nat
  end.
Definition commit_typed (c : BorshCommit) : Prop :=
  is_uint 8 (bc_height c) /\ is_uint 2 (bc_round c) /\ block_id_typed (bc_block_id c) /\
  vec_len (bc_signatures c) /\ Forall commit_sig_typed (bc_signatures c).
Definition public_key_typed (k : BorshPublicKey) : Prop :=
  match k with BorshEd25519 k => length k = 32%nat | BorshSecp256k1 k => length k = 33%nat end.
Definition validator_typed (v : BorshValidator) : Prop :=
  length (bv_address v) = 20%nat /\ public_key_typed (bv_pub_key v) /\
  is_uint 8 (bv_voting_power v) /\ is_sint 8 (bv_proposer_priority v).
Definition validator_set_typed (s : BorshValidatorSet) : Prop :=
  vec_len (bvs_validators s) /\ Forall validator_typed (bvs_validators s) /\
  opt validator_typed (bvs_proposer s) /\ is_uint 8 (bvs_total_voting_power s).
Definition header_typed (h : BorshHeader) : Prop :=
  (block_header_typed (bsh_header (bh_signed_header h)) /\ commit_typed (bsh_commit (bh_signed_header h))) /\
  validator_set_typed (bh_validator_set h) /\
  (is_uint 8 (bh_revision_number (bh_trusted_height h)) /\ is_uint 8 (bh_revision_height (bh_trusted_height h))) /\
  validator_set_typed (bh_trusted_next_validator_set h).

Lemma reads_version v : version_typed v -> reads read_version (borsh_version v) v.
Proof.
  destruct v as [b a]. intros [H1 H2]. eapply reads_bind; [by apply reads_uint|].
  by apply reads_last, reads_uint.
Qed.

Lemma reads_timestamp t : timestamp_typed t -> reads read_timestamp (borsh_timestamp t) t.
Proof.
  destruct t as [s n]. intros [H1 H2]. eapply reads_bind; [apply reads_sint; [lia|done]|].
  apply reads_last, reads_sint; [lia|done].
Qed.

Lemma reads_psh p : psh_typed p -> reads read_part_set_header (borsh_part_set_header p) p.
Proof.
  destruct p as [t h]. intros [H1 H2]. eapply reads_bind; [by apply reads_uint|].
  by apply reads_last, reads_bytes.
Qed.

Lemma reads_block_id b : block_id_typed b -> reads read_block_id (borsh_block_id b) b.
Proof.
  destruct b as [h p]. intros [H1 H2]. eapply reads_bind; [by apply reads_bytes|].
  by apply reads_last, reads_psh.
Qed.

Lemma reads_opt {A} (P : A -> Prop) (r : Reader A) (e : A -> bytes) o :
  (forall x, P x -> reads r (e x) x) -> opt P o -> reads (read_option r) (borsh_option e o) o.
Proof. intros Hr Ho. apply reads_option. intros x Hx. by apply Hr, Ho. Qed.

#[export] Hint Resolve reads_version reads_timestamp reads_psh reads_block_id reads_opt : reads.

Lemma reads_block_header h : block_header_typed h -> reads read_block_header (borsh_block_header h) h.
Proof.
  destruct h as [v c h t b lc d vh nv ch ah lr ev p]. intros (? & [? ?] & ? & ? & ? & [? ?] & (? & ? & ?) & ? & [? ?] & ?); simpl in *.
  unfold borsh_block_header, read_block_header;
  cbn [bbh_version bbh_chain_id bbh_height bbh_time bbh_last_block_id bbh_last_commit_hash bbh_data_hash
    bbh_validators_hash bbh_next_validators_hash bbh_consensus_hash bbh_app_hash bbh_last_results_hash
    bbh_evidence_hash bbh_proposer_address].
  do 13 (eapply reads_bind; [first [by apply reads_uint|eauto with reads]|]).
  apply reads_last. eauto with reads.
Qed.

Lemma reads_signed mk a t g :
  length a = 20%nat -> timestamp_typed t -> length g = 64%nat ->
  reads (read_signed mk) (a ++ borsh_timestamp t ++ g) (mk a t g).
Proof.
  intros Ha Ht Hg. eapply reads_bind; [apply reads_exact; lia|].
  eapply reads_bind; [by apply reads_timestamp|]. apply reads_last, reads_exact. lia.
Qed.

Lemma reads_commit_sig s : commit_sig_typed s -> reads read_commit_sig (borsh_commit_sig s) s.
Proof.
  destruct s as [|a t g|a t g]; simpl; intros H.
  - apply (reads_tag _ x00 []), reads_ret.
  - destruct H as (? & ? & ?). apply (reads_tag _ x01). by apply reads_signed.
  - destruct H as (? & ? & ?). apply (reads_tag _ x02). by apply reads_signed.
Qed.

Lemma reads_vec_typed {A} (P : A -> Prop) (r : Reader A) (e : A -> bytes) l :
  (forall x, P x -> reads r (e x) x) -> vec_len l -> Forall P l -> reads (read_vec r) (borsh_vec e l) l.
Proof. intros Hr Hl HP. apply reads_vec; [done|]. by eapply Forall_impl. Qed.

Lemma reads_commit c : commit_typed c -> reads read_commit (borsh_commit c) c.
Proof.
  destruct c. intros (? & ? & ? & ? & ?); simpl in *.
  do 3 (eapply reads_bind; [first [by apply reads_uint|eauto with reads]|]).
  apply reads_last. eapply reads_vec_typed; eauto using reads_commit_sig.
Qed.

Lemma reads_public_key k : public_key_typed k -> reads read_public_key (borsh_public_key k) k.
Proof.
  destruct k as [k|k]; simpl; intros H.
  - apply (reads_tag _ x00), reads_last, reads_exact. lia.
  - apply (reads_tag _ x01), reads_last, reads_exact. lia.
Qed.

Lemma reads_validator v : validator_typed v -> reads read_validator (borsh_validator v) v.
Proof.
  destruct v as [a k p q]. intros (Ha & ? & ? & ?). cbn in Ha.
  eapply (reads_bind _ _ a); [apply reads_exact; lia|]. eapply reads_bind; [by apply reads_public_key|].
  eapply reads_bind; [by apply reads_uint|]. apply reads_last, reads_sint; [lia|done].
Qed.

Lemma reads_validator_set s : validator_set_typed s -> reads read_validator_set (borsh_validator_set s) s.
Proof.
  destruct s. intros (? & ? & ? & ?); simpl in *.
  eapply reads_bind; [eapply reads_vec_typed; eauto using reads_validator|].
  eapply reads_bind; [eapply reads_opt; eauto using reads_validator|]. by apply reads_last, reads_uint.
Qed.

Lemma reads_header h : header_typed h -> reads read_header (borsh_header h) h.
Proof.
  destruct h as [[bh c] s [n t] s']. intros ([Hb Hc] & Hs & [Hn Ht] & Hs'); simpl in *.
  eapply reads_bind.
  { eapply reads_bind; [by apply reads_block_header|]. by apply reads_last, reads_commit. }
  eapply reads_bind; [by apply reads_validator_set|]. eapply reads_bind.
  { eapply reads_bind; [by apply reads_uint|]. by apply reads_last, reads_uint. }
  by apply reads_last, reads_validator_set.
Qed.

(** ** Agreement of the two decoders *)

Lemma reader_bind_Some {A B} (d : Reader A) (f : A -> Reader B) b y r :
  (d ≫= f) b = Some (y, r) <-> exists x b', d b = Some (x, b') /\ f x b' = Some (y, r).
Proof.
  unfold mbind, reader_bind. destruct (d b) as [[x b']|].
  - split; [eauto|]. by intros (? & ? & [= -> ->] & ?).
  - split; [done|]. by intros (? & ? & ? & ?).
Qed.

Lemma rlift_Some {A} (o : option A) b y r : rlift o b = Some (y, r) <-> o = Some y /\ r = b.
Proof. unfold rlift. destruct o; naive_solver. Qed.

Lemma rcheck_Some c b y r : rcheck c b = Some (y, r) <-> c = true /\ r = b.
Proof. unfold rcheck. rewrite rlift_Some. destruct c, y; naive_solver. Qed.

Lemma rret_Some {A} (x y : A) b r : (mret x : Reader A) b = Some (y, r) <-> y = x /\ r = b.
Proof. unfold mret, reader_ret. naive_solver. Qed.

Lemma checked_Some ok z y : checked ok z = Some y <-> ok z = true /\ y = z.
Proof. unfold checked. destruct (ok z); naive_solver. Qed.

Lemma array_Some n b y : array n b = Some y <-> length b = n /\ y = b.
Proof. unfold array. destruct (Nat.eqb_spec (length b) n); naive_solver. Qed.

Lemma require_r_Ok {E} c (e : E) u : require_r c e = Ok u <-> c = true.
Proof. destruct c, u; simpl; naive_solver. Qed.

Ltac rinv :=
  repeat match goal with
  | H : (_ ≫= _) _ = Some (_, _) |- _ => apply reader_bind_Some in H as (? & ? & ? & H)
  | H : mret _ _ = Some _ |- _ => apply rret_Some in H as [-> ->]
  | H : rlift _ _ = Some _ |- _ => apply rlift_Some in H as [H ->]
  | H : rcheck _ _ = Some _ |- _ => apply rcheck_Some in H as [H ->]
  | H : rfail _ = Some _ |- _ => discriminate H
  | H : _ ≫= _ = Ok _ |- _ => apply result_bind_ok in H as (? & ? & H)
  | H : ok_or _ _ = Ok _ |- _ => apply ok_or_ok in H
  | H : require_r _ _ = Ok _ |- _ => apply require_r_Ok in H
  | H : Ok _ = Ok _ |- _ => injection H as <-
  | H : checked _ _ = Some _ |- _ => apply checked_Some in H as [? ->]
  | H : array _ _ = Some _ |- _ => apply array_Some in H as [? ->]
  end.

(** What [d'] reads is what [c] makes of what [d] reads. *)
Definition agrees {A B E} (d : Reader A) (c : A -> result E B) (d' : Reader B) : Prop :=
  forall b x r, d b = Some (x, r) -> forall y r', d' b = Some (y, r') <-> r' = r /\ c x = Ok y.

Section Agreement.
Context `{TT : TendermintTypes}.

Lemma agrees_n {A B E} (d : Reader A) (c : A -> result E B) d' n :
  agrees d c d' -> agrees (read_n d n) (collect_results c) (read_n d' n).
Proof.
  intros H. induction n as [|n IH]; intros b x r Hx y r'; simpl in *; rinv.
  - rewrite rret_Some. simpl. naive_solver.
  - split.
    + intros Hy. rinv. apply (H _ _ _ H0) in H2 as [-> H2]. apply (IH _ _ _ H1) in H3 as [-> H3].
      split; [done|]. simpl. by rewrite H2, result_ret_bind, H3.
    + intros [-> Hy]. simpl in Hy. rinv. apply reader_bind_Some. do 2 eexists.
      split; [by apply (H _ _ _ H0)|]. apply reader_bind_Some. do 2 eexists.
      split; [by apply (IH _ _ _ H1)|]. done.
Qed.

(** The direct decoder takes every tag other than one for an absent value. *)
Lemma agrees_option {A B E} (d : Reader A) (c : A -> result E B) d' :
  agrees d c d' ->
  agrees (read_option d) (opt_result c)
    (read_flagged d').
Proof.
  intros H b x r Hx y r'. unfold read_flagged. apply reader_bind_Some in Hx as (t & b1 & Ht & Hx).
  rewrite reader_bind_Some. destruct (Z.eqb_spec t 0) as [->|]; [|destruct (Z.eqb_spec t 1) as [->|]]; rinv.
  - split; [|naive_solver]. intros (? & ? & Eq & ?). rewrite Ht in Eq. injection Eq as <- <-. simpl in *. rinv.
    naive_solver.
  - split.
    + intros (? & ? & Eq & ?). rewrite Ht in Eq. injection Eq as <- <-. simpl in *. rinv.
      apply (H _ _ _ H0) in H2 as [-> H2]. simpl. by rewrite H2.
    + intros [-> Hy]. simpl in Hy. rinv. exists 1, b1. split; [done|]. simpl. apply reader_bind_Some.
      do 2 eexists. split; [by apply (H _ _ _ H0)|done].
Qed.

(** [read_vec_u8] against the readers of a fixed number of bytes. *)
Lemma agrees_array (n : Z) (e : ConversionError) : 0 <= n ->
  agrees read_vec_u8 (fun h => ok_or (array (Z.to_nat n) h) e)
    (len ← read_u32; if negb (Z.eqb len n) then rfail else read_exact n).
Proof.
  intros H0 b x r Hx y r'. unfold read_vec_u8 in Hx. apply reader_bind_Some in Hx as (m & b1 & Hm & Hx).
  rewrite reader_bind_Some, ok_or_ok, array_Some. assert (0 <= m /\ length x = Z.to_nat m) as [Hm0 Hl].
  { unfold read_exact in Hx. destruct (Z.leb_spec m (Z.of_nat (length b1))); [|done].
    injection Hx as <- _. rewrite length_take. unfold read_u32, read_uint in Hm. rinv.
    pose proof (of_le_range x). lia. }
  split.
  - intros (n' & b2 & E & Hy). rewrite Hm in E. injection E as <- <-.
    destruct (Z.eqb_spec m n) as [->|]; [|done]. simpl in Hy. rewrite Hx in Hy. naive_solver.
  - intros [-> [Hlx ->]]. exists m, b1. split; [done|]. assert (m = n) as -> by lia.
    rewrite Z.eqb_refl. exact Hx.
Qed.

Lemma agrees_app_hash :
  agrees read_vec_u8 (fun h => _ ← require_r (AppHash_ok h) InvalidAppHash; Ok h) deserialize_app_hash.
Proof.
  intros b x r Hx y r'. unfold read_vec_u8 in Hx. apply reader_bind_Some in Hx as (m & b1 & Hm & Hx).
  unfold deserialize_app_hash. rewrite reader_bind_Some. split.
  - intros (n' & b2 & E & Hy). rewrite Hm in E. injection E as <- <-.
    destruct (Z.eqb_spec m 32) as [->|]; rinv; rewrite Hx in H; injection H as <- <-;
      (split; [done|]); by rewrite H0.
  - intros [-> Hy]. rinv. exists m, b1. split; [done|].
    destruct (Z.eqb_spec m 32) as [->|]; apply reader_bind_Some; exists x, r; (split; [done|]);
      apply reader_bind_Some; exists (), r; by rewrite rcheck_Some.
Qed.

(** An optional hash, whatever error its length raises. *)
Definition opt_hash (o y : option bytes) : Prop := y = o /\ opt (fun h => length h = 32%nat) o.

Lemma opt_hash_Ok (e : ConversionError) o y :
  opt_result (fun h => ok_or (array 32 h) e) o = Ok y <-> opt_hash o y.
Proof.
  unfold opt_hash, opt. destruct o as [h|]; simpl; [|naive_solver]. rewrite result_bind_ok. split.
  - intros (a & Ha & Hy). rinv. naive_solver.
  - intros [-> Hl]. exists h. split; [|done]. apply ok_or_ok, array_Some. naive_solver.
Qed.

Lemma agrees_hash :
  agrees read_vec_u8 (fun h => ok_or (array 32 h) InvalidDataHashLength) deserialize_required_hash.
Proof. apply (agrees_array 32). lia. Qed.

Lemma agrees_address :
  agrees read_vec_u8 (fun h => ok_or (array 20 h) InvalidProposerAddressLength) deserialize_proposer_address.
Proof. apply (agrees_array 20). lia. Qed.

Lemma agrees_optional_hash :
  agrees (read_option read_vec_u8) (opt_result (fun h => ok_or (array 32 h) InvalidDataHashLength))
    deserialize_optional_hash.
Proof. apply agrees_option, agrees_hash. Qed.

Create HintDb agrees.
#[local] Hint Resolve agrees_n agrees_option agrees_optional_hash agrees_hash
  agrees_address agrees_app_hash : agrees.

(** Two readers run on the same bytes. *)
Ltac meet :=
  repeat match goal with
  | H1 : ?d ?b = Some (?x, ?b1), H2 : ?d ?b = Some (?y, ?b2) |- _ =>
      rewrite H1 in H2; injection H2 as ? ?; subst
  | H1 : ?d ?b = Some (?x, ?b1), H2 : ?d' ?b = Some (?y, ?b2) |- _ =>
      let A := fresh "A" in
      eassert (agrees d _ d') as A by eauto with agrees;
      apply (A _ _ _ H1) in H2 as [-> H2]; clear A
  end.


(** Facts that do not depend on the errors raised. *)
Ltac facts :=
  rinv; repeat match goal with H : opt_result (fun h => ok_or (array 32 h) _) _ = Ok _ |- _ => apply opt_hash_Ok in H end.

Ltac build :=
  match goal with
  | |- _ ≫= _ = Ok _ => apply result_bind_ok; eexists; split; [build|cbn beta; build]
  | |- Ok _ = Ok _ => reflexivity
  | |- ok_or _ _ = Ok _ => apply ok_or_ok; build
  | |- require_r _ _ = Ok _ => apply (proj2 (require_r_Ok _ _ ())); assumption
  | |- array _ _ = Some _ => apply array_Some; split; [eassumption|reflexivity]
  | |- checked _ _ = Some _ => apply checked_Some; split; [eassumption|reflexivity]
  | |- opt_result (fun h => ok_or (array 32 h) _) _ = Ok _ => apply opt_hash_Ok; eassumption
  | |- _ = Ok _ => eassumption
  | |- _ = Some _ => eassumption
  | |- _ = true => eassumption
  end.

(** The other half: a reader that agrees with one that has run. *)
Ltac follow :=
  match goal with
  | |- (_ ≫= _) _ = Some _ => apply reader_bind_Some; do 2 eexists; split; [follow|cbn beta; follow]
  | |- mret _ _ = Some _ => apply rret_Some; split; reflexivity
  | |- rlift _ _ = Some _ => apply rlift_Some; split; [build|reflexivity]
  | |- rcheck _ _ = Some _ => apply (proj2 (rcheck_Some _ _ () _)); split; [build|reflexivity]
  | H : ?d ?b = Some _ |- ?d ?b = Some _ => exact H
  | H : ?d ?b = Some _ |- ?d' ?b = Some _ =>
      let A := fresh "A" in
      eassert (agrees d _ d') as A by eauto with agrees;
      apply (A _ _ _ H); split; [reflexivity|build]
  end.

Ltac agree :=
  rinv; let Hy := fresh "Hy" in split;
  [ intros Hy; facts; meet; facts; split; [reflexivity|cbn; build]
  | intros [-> Hy]; cbn in Hy; facts; follow ].

Lemma agrees_time : agrees read_timestamp borsh_to_time deserialize_time.
Proof. intros b x r Hx y r'. unfold read_timestamp, deserialize_time, borsh_to_time in *. agree. Qed.

Lemma agrees_height : agrees read_height borsh_to_height deserialize_height.
Proof. intros b x r Hx y r'. unfold read_height, deserialize_height, borsh_to_height in *. agree. Qed.

Lemma agrees_psh : agrees read_part_set_header borsh_to_part_set_header deserialize_part_set_header.
Proof.
  intros b x r Hx y r'. unfold read_part_set_header, deserialize_part_set_header, borsh_to_part_set_header in *.
  agree.
Qed.
#[local] Hint Resolve agrees_time agrees_height agrees_psh : agrees.

Lemma agrees_block_id : agrees read_block_id borsh_to_block_id deserialize_block_id.
Proof. intros b x r Hx y r'. unfold read_block_id, deserialize_block_id, borsh_to_block_id in *. agree. Qed.
#[local] Hint Resolve agrees_block_id : agrees.

(** The tag selects the same branch on both sides. *)
Lemma agrees_tag {A B E} (f : Z -> Reader A) (c : A -> result E B) (g : Z -> Reader B) :
  (forall t, agrees (f t) c (g t)) -> agrees (read_u8 ≫= f) c (read_u8 ≫= g).
Proof.
  intros H b x r Hx y r'. apply reader_bind_Some in Hx as (t & b1 & Ht & Hx).
  rewrite reader_bind_Some, <- (H t b1 x r Hx). split.
  - intros (t' & b2 & Eq & Hy). rewrite Ht in Eq. by injection Eq as <- <-.
  - eauto.
Qed.

Lemma agrees_commit_sig : agrees read_commit_sig borsh_to_commit_sig deserialize_commit_sig.
Proof.
  apply agrees_tag. intros t b x r Hx y r'. unfold read_signed in *.
  destruct (Z.eqb t 0), (Z.eqb t 1), (Z.eqb t 2); agree.
Qed.

Lemma agrees_public_key : agrees read_public_key borsh_to_public_key deserialize_public_key.
Proof.
  apply agrees_tag. intros t b x r Hx y r'. destruct (Z.eqb t 0); [agree|].
  destruct (Z.eqb t 1); [|done]. rinv. cbn. naive_solver.
Qed.
#[local] Hint Resolve agrees_commit_sig agrees_public_key : agrees.

Lemma agrees_validator : agrees read_validator borsh_to_validator deserialize_validator.
Proof. intros b x r Hx y r'. unfold read_validator, deserialize_validator, borsh_to_validator in *. agree. Qed.
#[local] Hint Resolve agrees_validator : agrees.

Lemma agrees_vec {A B E} (d : Reader A) (c : A -> result E B) d' :
  agrees d c d' -> agrees (read_vec d) (collect_results c) (read_vec d').
Proof.
  intros H b x r Hx y r'. unfold read_vec in *. apply reader_bind_Some in Hx as (n & b1 & Hn & Hx).
  rewrite <- (agrees_n _ _ _ _ H _ _ _ Hx), reader_bind_Some. split.
  - intros (t' & b2 & Eq & Hy). rewrite Hn in Eq. by injection Eq as <- <-.
  - eauto.
Qed.
#[local] Hint Resolve agrees_vec : agrees.

Lemma agrees_commit : agrees read_commit borsh_to_commit deserialize_commit.
Proof. intros b x r Hx y r'. unfold read_commit, deserialize_commit, borsh_to_commit in *. agree. Qed.

Lemma agrees_version :
  agrees read_version (fun v => Ok (borsh_to_consensus_version v) : result ConversionError _)
    deserialize_consensus_version.
Proof. intros b x r Hx y r'. unfold read_version, deserialize_consensus_version in *. agree. Qed.
#[local] Hint Resolve agrees_commit agrees_version : agrees.

Lemma agrees_block_header : agrees read_block_header borsh_to_block_header deserialize_block_header.
Proof.
  intros b x r Hx y r'. unfold read_block_header, deserialize_block_header, borsh_to_block_header in *. agree.
Qed.
#[local] Hint Resolve agrees_block_header : agrees.

Lemma agrees_signed_header : agrees read_signed_header borsh_to_signed_header deserialize_signed_header.
Proof.
  intros b x r Hx y r'. unfold read_signed_header, deserialize_signed_header, borsh_to_signed_header in *. agree.
Qed.
#[local] Hint Resolve agrees_signed_header : agrees.

(** A validator set as the direct decoder builds it: the power is the one the
    encoding carries. *)
Definition set_as_encoded (bvs : BorshValidatorSet) : result ConversionError TmValidatorSet :=
  validators ← collect_results borsh_to_validator (bvs_validators bvs);
  proposer ← opt_result borsh_to_validator (bvs_proposer bvs);
  total ← ok_or (checked Power_ok (bvs_total_voting_power bvs)) InvalidVotingPower;
  Ok (mkTmValidatorSet validators proposer total).

Lemma agrees_validator_set : agrees read_validator_set set_as_encoded deserialize_validator_set.
Proof.
  intros b x r Hx y r'. unfold read_validator_set, deserialize_validator_set, set_as_encoded in *. agree.
Qed.
#[local] Hint Resolve agrees_validator_set : agrees.

Definition header_as_encoded (bh : BorshHeader) : result ConversionError IbcHeader :=
  signed_header ← borsh_to_signed_header (bh_signed_header bh);
  validator_set ← set_as_encoded (bh_validator_set bh);
  trusted_height ← borsh_to_height (bh_trusted_height bh);
  trusted_next_validator_set ← set_as_encoded (bh_trusted_next_validator_set bh);
  Ok (mkIbcHeader signed_header validator_set trusted_height trusted_next_validator_set).

Lemma agrees_header : agrees read_header header_as_encoded deserialize_header.
Proof. intros b x r Hx y r'. unfold read_header, deserialize_header, header_as_encoded in *. agree. Qed.

(** What the conversion through the wire types recomputes: the order and the
    power of the validator sets. *)
Definition recompute_set (s : TmValidatorSet) : TmValidatorSet :=
  ValidatorSet_new (vs_validators s) (vs_proposer s).
Definition recompute (h : IbcHeader) : IbcHeader :=
  mkIbcHeader (hd_signed_header h) (recompute_set (hd_validator_set h)) (hd_trusted_height h)
    (recompute_set (hd_trusted_next_validator_set h)).

Lemma set_recomputed bvs s :
  borsh_to_validator_set bvs = Ok s /\ Power_ok (bvs_total_voting_power bvs) = true <->
  exists s', set_as_encoded bvs = Ok s' /\ s = recompute_set s'.
Proof.
  unfold borsh_to_validator_set, set_as_encoded. split.
  - intros [H Hp]. apply result_bind_ok in H as (vs & Hv & H). apply result_bind_ok in H as (p & Hpr & H).
    injection H as <-. exists (mkTmValidatorSet vs p (bvs_total_voting_power bvs)). split; [build|done].
  - intros (s' & H & ->). facts. split; [build|done].
Qed.

Lemma header_recomputed bh h :
  borsh_to_header bh = Ok h /\ Power_ok (bvs_total_voting_power (bh_validator_set bh)) = true /\
  Power_ok (bvs_total_voting_power (bh_trusted_next_validator_set bh)) = true <->
  exists h', header_as_encoded bh = Ok h' /\ h = recompute h'.
Proof.
  unfold borsh_to_header, header_as_encoded. split.
  - intros (H & Hp1 & Hp2). facts.
    destruct (proj1 (set_recomputed _ _) (conj H1 Hp1)) as (s1 & E1 & ->).
    destruct (proj1 (set_recomputed _ _) (conj H3 Hp2)) as (s2 & E2 & ->).
    exists (mkIbcHeader x s1 x1 s2). split; [build|done].
  - intros (h' & H & ->). facts.
    destruct (proj2 (set_recomputed _ _) (ex_intro _ _ (conj H1 eq_refl))) as [E1 P1].
    destruct (proj2 (set_recomputed _ _) (ex_intro _ _ (conj H3 eq_refl))) as [E2 P2].
    split; [build|done].
Qed.

Lemma try_from_slice_Some {A} (r : Reader A) b x : try_from_slice r b = Some x <-> r b = Some (x, []).
Proof. unfold try_from_slice. destruct (r b) as [[? []]|]; naive_solver. Qed.

(** C34: the direct decoder agrees with the reference conversion.  On every
    byte string that is the Borsh encoding of a header's wire form, the decoder
    that builds the header directly accepts exactly when the conversion through
    the wire types does and the two encoded total powers are valid powers; and
    the headers are then the same, except that the conversion sorts the
    validators and sums their power itself. *)
Theorem direct_decoder_agrees b bh (Hb : try_from_slice read_header b = Some bh) h :
  borsh_to_header bh = Ok h /\ Power_ok (bvs_total_voting_power (bh_validator_set bh)) = true /\
  Power_ok (bvs_total_voting_power (bh_trusted_next_validator_set bh)) = true <->
  exists h', HeaderWrapper_try_from_slice b = Some h' /\ h = recompute h'.
Proof.
  rewrite header_recomputed. apply try_from_slice_Some in Hb. unfold HeaderWrapper_try_from_slice.
  split; intros (h' & H & ->); exists h'; (split; [|done]).
  - apply try_from_slice_Some. by apply (agrees_header _ _ _ Hb).
  - apply try_from_slice_Some in H. by apply (agrees_header _ _ _ Hb) in H as [_ H].
Qed.

End Agreement.

(** ** The round trip *)

(** What the encoding relies on of the Tendermint types: a time has the seconds
    and the nanoseconds it is made of, a signature of 64 bytes is kept, and
    [SignedHeader::new] does not look at the order of the signatures. *)
Class TendermintTypesOk `{TT : TendermintTypes} : Prop := {
  time_law s n t : from_unix_timestamp s n = Some t ->
    0 <= n < 1000000000 /\ t = s * 1000000000 + n /\ unix_timestamp t = s;
  signature_law b : length b = 64%nat -> Signature_new b = Some (Some b);
  signed_header_law h c sigs : sigs ≡ₚ tc_signatures c ->
    SignedHeader_ok h (mkTmCommit (tc_height c) (tc_round c) (tc_block_id c) sigs) = SignedHeader_ok h c }.

Section RoundTrip.
Context `{TO : TendermintTypesOk}.

(** The headers of mainnet: values of their types, Ed25519 keys, signatures
    present, times since the epoch. *)
Definition time_ok (t : Time) : Prop :=
  0 <= t /\ exists s n, is_sint 8 s /\ from_unix_timestamp s n = Some t.
Definition hash_ok (h : bytes) : Prop := length h = 32%nat.
Definition block_id_ok (b : TmBlockId) : Prop :=
  hash_ok (bid_hash b) /\ hash_ok (psh_hash (bid_part_set_header b)) /\
  is_uint 4 (psh_total (bid_part_set_header b)) /\
  PartSetHeader_ok (psh_total (bid_part_set_header b)) (psh_hash (bid_part_set_header b)) = true.
Definition height_ok (h : Z) : Prop := is_uint 8 h /\ BlockHeight_ok h = true.
Definition block_header_ok (h : TmBlockHeader) : Prop :=
  (is_uint 8 (tv_block (th_version h)) /\ is_uint 8 (tv_app (th_version h))) /\
  (vec_len (th_chain_id h) /\ utf8 (th_chain_id h) = true /\ ChainId_ok (th_chain_id h) = true) /\
  height_ok (th_height h) /\ time_ok (th_time h) /\ opt block_id_ok (th_last_block_id h) /\
  opt hash_ok (th_last_commit_hash h) /\ opt hash_ok (th_data_hash h) /\
  (hash_ok (th_validators_hash h) /\ hash_ok (th_next_validators_hash h) /\ hash_ok (th_consensus_hash h)) /\
  (vec_len (th_app_hash h) /\ AppHash_ok (th_app_hash h) = true) /\
  opt hash_ok (th_last_results_hash h) /\ opt hash_ok (th_evidence_hash h) /\
  length (th_proposer_address h) = 20%nat.
Definition commit_sig_ok (s : TmCommitSig) : Prop :=
  match s with
  | BlockIdFlagAbsent => True
  | BlockIdFlagCommit a t g | BlockIdFlagNil a t g =>
      length a = 20%nat /\ time_ok t /\ exists g', g = Some g' /\ length g' = 64%nat
  end.
Definition commit_ok (c : TmCommit) : Prop :=
  height_ok (tc_height c) /\ is_uint 2 (tc_round c) /\ block_id_ok (tc_block_id c) /\
  vec_len (tc_signatures c) /\ Forall commit_sig_ok (tc_signatures c).
Definition validator_ok (v : TmValidator) : Prop :=
  length (val_address v) = 20%nat /\
  (exists k, val_pub_key v = PkEd25519 k /\ length k = 32%nat /\ from_raw_ed25519_ok k = true) /\
  (is_uint 8 (val_power v) /\ Power_ok (val_power v) = true) /\ is_sint 8 (val_proposer_priority v) /\
  val_name v = None.
Definition validator_set_ok (s : TmValidatorSet) : Prop :=
  vec_len (vs_validators s) /\ Forall validator_ok (vs_validators s) /\ opt validator_ok (vs_proposer s) /\
  is_uint 8 (vs_total_voting_power s) /\ Power_ok (vs_total_voting_power s) = true.
Definition header_ok (h : IbcHeader) : Prop :=
  (block_header_ok (sh_header (hd_signed_header h)) /\ commit_ok (sh_commit (hd_signed_header h)) /\
   SignedHeader_ok (sh_header (hd_signed_header h)) (sh_commit (hd_signed_header h)) = true) /\
  validator_set_ok (hd_validator_set h) /\
  (is_uint 8 (revision_number (hd_trusted_height h)) /\ is_uint 8 (revision_height (hd_trusted_height h)) /\
   Height_new_ok (revision_number (hd_trusted_height h)) (revision_height (hd_trusted_height h)) = true) /\
  validator_set_ok (hd_trusted_next_validator_set h).

(** Each conversion: typed, and undone by the conversion back. *)
Lemma time_back t : time_ok t ->
  timestamp_typed (time_to_borsh t) /\ borsh_to_time (time_to_borsh t) = Ok t.
Proof.
  intros (H0 & s & n & Hs & Ht). destruct (time_law s n t Ht) as (Hn & E & Eu).
  assert (Z.rem t 1000000000 = n) as Er.
  { rewrite Z.rem_mod_nonneg by lia. rewrite E, Z.add_comm, Z.mod_add, Z.mod_small; lia. }
  unfold timestamp_typed, borsh_to_time, time_to_borsh; simpl. rewrite Eu, Er. split.
  - split; [done|]. unfold is_sint. change (256 ^ Z.of_nat 4 / 2) with 2147483648. lia.
  - unfold as_u32. rewrite Z.mod_small by lia. by rewrite Ht.
Qed.

Lemma hash_len h : hash_ok h -> vec_len h.
Proof. unfold hash_ok, vec_len. lia. Qed.
Lemma array_len n (h : bytes) : length h = n -> array n h = Some h.
Proof. intros H. by apply array_Some. Qed.

Lemma block_id_back b : block_id_ok b ->
  block_id_typed (block_id_to_borsh b) /\ borsh_to_block_id (block_id_to_borsh b) = Ok b.
Proof.
  destruct b as [h [t p]]. intros (H1 & H2 & H3 & H4). simpl in *. split.
  - repeat split; try apply hash_len; done || apply H3.
  - unfold borsh_to_block_id, borsh_to_part_set_header, PartSetHeader_new; simpl.
    rewrite (array_len 32 h), (array_len 32 p) by done. simpl. by rewrite H4.
Qed.

Lemma opt_fmap {A B} (P : A -> Prop) (Q : B -> Prop) (f : A -> B) o :
  (forall x, P x -> Q (f x)) -> opt P o -> opt Q (f <$> o).
Proof. intros H Ho y. destruct o as [x|]; simpl; [|done]. intros [= <-]. by apply H, Ho. Qed.

Lemma opt_result_fmap {A B E} (P : A -> Prop) (f : A -> B) (g : B -> result E A) o :
  (forall x, P x -> g (f x) = Ok x) -> opt P o -> opt_result g (f <$> o) = Ok o.
Proof. intros H Ho. destruct o as [x|]; simpl; [|done]. by rewrite H by (by apply Ho). Qed.

Lemma opt_hash_back (e : ConversionError) o : opt hash_ok o ->
  opt_result (fun h => ok_or (array 32 h) e) o = Ok o.
Proof. intros H. by apply opt_hash_Ok. Qed.

Lemma opt_hash_len o : opt hash_ok o -> opt vec_len o.
Proof. intros H x Hx. by apply hash_len, H. Qed.

Lemma block_header_back h : block_header_ok h ->
  block_header_typed (block_header_to_borsh h) /\ borsh_to_block_header (block_header_to_borsh h) = Ok h.
Proof.
  destruct h as [[vb va] c h t b lc d vh nv ch ah lr ev p].
  intros (Hv & (Hc1 & Hc2 & Hc3) & [Hh1 Hh2] & Ht & Hb & Hlc & Hd & (Hvh & Hnv & Hch) & (Ha1 & Ha2) & Hlr & Hev & Hp).
  simpl in *. destruct (time_back t Ht) as [T1 T2]. split.
  - unfold block_header_typed; simpl. split_and!; auto using hash_len, opt_hash_len.
    + eapply opt_fmap; [|done]. intros x Hx. by apply block_id_back.
    + unfold vec_len. lia.
  - unfold borsh_to_block_header, checked; simpl.
    rewrite (opt_result_fmap block_id_ok) by first [done|intros; by apply block_id_back]. simpl.
    rewrite !opt_hash_back by done. simpl. rewrite (array_len 20), Hc3, Hh2 by done. simpl. rewrite T2. simpl.
    rewrite !(array_len 32) by done. simpl. by rewrite Ha2.
Qed.

(** The wire form of a signature that has one. *)
Definition wire_sig (s : TmCommitSig) : BorshCommitSig :=
  match s with
  | BlockIdFlagAbsent => BorshBlockIdFlagAbsent
  | BlockIdFlagCommit a t g => BorshBlockIdFlagCommit a (time_to_borsh t) (default [] g)
  | BlockIdFlagNil a t g => BorshBlockIdFlagNil a (time_to_borsh t) (default [] g)
  end.

Lemma commit_sig_back s : commit_sig_ok s ->
  commit_sig_to_borsh s = Some (wire_sig s) /\
  commit_sig_typed (wire_sig s) /\ borsh_to_commit_sig (wire_sig s) = Ok s.
Proof.
  destruct s as [|a t g|a t g]; simpl; [done|..]; intros (Ha & Ht & g' & -> & Hg);
    destruct (time_back t Ht) as [T1 T2]; simpl; rewrite (proj2 (Nat.eqb_eq _ _) Hg);
    (split; [done|]); (split; [done|]); rewrite signature_law by done; simpl; by rewrite T2.
Qed.

Lemma validator_back v : validator_ok v ->
  exists bv, validator_to_borsh v = Some bv /\ validator_typed bv /\ borsh_to_validator bv = Ok v.
Proof.
  destruct v as [a pk p q nm]. intros (Ha & (k & Hk & Hl & Hok) & (Hp1 & Hp2) & Hq & Hn). simpl in *. subst.
  eexists. split; [done|]. split; [done|]. unfold borsh_to_validator, from_raw_ed25519, checked; simpl.
  unfold from_raw_ed25519. rewrite Hok. simpl. by rewrite Hp2.
Qed.

Lemma validators_back l : Forall validator_ok l ->
  exists bl, mapM validator_to_borsh l = Some bl /\ length bl = length l /\ Forall validator_typed bl /\
    collect_results borsh_to_validator bl = Ok l.
Proof.
  induction 1 as [|v l Hv _ (bl & E & Hl & Ht & Hc)]; [by exists []|].
  destruct (validator_back v Hv) as (bv & Ev & Htv & Hcv). exists (bv :: bl). simpl.
  rewrite Ev. simpl. rewrite E. simpl. rewrite Hcv. simpl. rewrite Hc. simpl. auto.
Qed.

Lemma validator_set_back s : validator_set_ok s ->
  exists bs, validator_set_to_borsh s = Some bs /\ validator_set_typed bs /\ set_as_encoded bs = Ok s.
Proof.
  destruct s as [l o p]. intros (Hl & Hv & Ho & Hp1 & Hp2). simpl in *.
  destruct (validators_back l Hv) as (bl & El & Hlen & Hbl & Hc).
  assert (exists bo, match o with Some p => b ← validator_to_borsh p; Some (Some b) | None => Some None end = Some bo /\
    opt validator_typed bo /\ opt_result borsh_to_validator bo = Ok o) as (bo & Eo & Hbo & Hco).
  { destruct o as [v|]; [|by exists None]. destruct (validator_back v (Ho v eq_refl)) as (bv & Ev & Htv & Hcv).
    exists (Some bv). simpl. rewrite Ev, Hcv. split; [done|]. split; [by intros ? [= <-]|done]. }
  exists (mkBorshValidatorSet bl bo p). unfold validator_set_to_borsh; simpl. rewrite El; simpl. rewrite Eo; simpl.
  split; [done|]. split.
  { unfold validator_set_typed, vec_len in *; simpl. rewrite Hlen. auto. }
  unfold set_as_encoded, checked; simpl. rewrite Hc; simpl. rewrite Hco; simpl. by rewrite Hp2.
Qed.

#[local] Instance sig_le_trans : Transitive sig_le.
Proof.
  intros a b c. unfold sig_le, sig_leb.
  destruct (sig_address a), (sig_address b), (sig_address c); try done. apply bytes_le_trans.
Qed.
#[local] Instance sig_le_total : Total sig_le.
Proof.
  intros a b. unfold sig_le, sig_leb. destruct (sig_address a), (sig_address b); auto. apply bytes_le_total.
Qed.

(** The same header with its signatures in another order. *)
Definition with_signatures (sigs : list TmCommitSig) (h : IbcHeader) : IbcHeader :=
  let c := sh_commit (hd_signed_header h) in
  mkIbcHeader
    (mkTmSignedHeader (sh_header (hd_signed_header h))
       (mkTmCommit (tc_height c) (tc_round c) (tc_block_id c) sigs))
    (hd_validator_set h) (hd_trusted_height h) (hd_trusted_next_validator_set h).

(** The absent signatures first, the others by the address of the validator. *)
Definition signer (s : TmCommitSig) : option bytes :=
  match s with
  | BlockIdFlagAbsent => None
  | BlockIdFlagCommit a _ _ | BlockIdFlagNil a _ _ => Some a
  end.
Definition by_address (s s' : TmCommitSig) : Prop :=
  match signer s, signer s' with
  | Some a, Some a' => bytes_leb a a' = true
  | None, _ => True
  | Some _, None => False
  end.

Lemma wire_by_address s s' : sig_le (wire_sig s) (wire_sig s') -> by_address s s'.
Proof. unfold sig_le, sig_leb, by_address. by destruct s, s'. Qed.

Lemma signatures_sorted l : exists l',
  merge_sort sig_le (wire_sig <$> l) = wire_sig <$> l' /\ l' ≡ₚ l /\ StronglySorted by_address l'.
Proof.
  destruct (Permutation_map_inv wire_sig l
    (merge_sort_Permutation sig_le (wire_sig <$> l))) as (l' & E & Hp).
  exists l'. split; [exact E|]. split; [by symmetry|].
  assert (StronglySorted sig_le (wire_sig <$> l')) as Hs.
  { change (wire_sig <$> l') with (map wire_sig l'). rewrite <- E. apply (StronglySorted_merge_sort sig_le). }
  clear -Hs. induction l' as [|x l' IH]; [constructor|]. simpl in Hs. inversion_clear Hs as [|? ? Hs' Hx].
  constructor; [by apply IH|]. apply (Forall_fmap wire_sig) in Hx.
  eapply Forall_impl; [exact Hx|]. intros y. apply wire_by_address.
Qed.

Lemma signatures_wired l : Forall commit_sig_ok l -> mapM commit_sig_to_borsh l = Some (wire_sig <$> l).
Proof.
  induction 1 as [|s l Hs _ IH]; [done|]. cbn [mapM]. rewrite (proj1 (commit_sig_back s Hs)). simpl.
  by rewrite IH.
Qed.

Lemma collect_back l : Forall commit_sig_ok l ->
  Forall commit_sig_typed (wire_sig <$> l) /\ collect_results borsh_to_commit_sig (wire_sig <$> l) = Ok l.
Proof.
  induction 1 as [|s l Hs _ [IH1 IH2]]; [done|]. destruct (commit_sig_back s Hs) as (_ & Ht & Hc).
  rewrite fmap_cons. cbn [collect_results]. rewrite Hc, result_ret_bind, IH2. auto.
Qed.

Lemma signed_header_back h c :
  block_header_ok h -> commit_ok c -> SignedHeader_ok h c = true ->
  exists sigs bc, sigs ≡ₚ tc_signatures c /\ StronglySorted by_address sigs /\
    commit_to_borsh c = Some bc /\ commit_typed bc /\
    borsh_to_signed_header (mkBorshSignedHeader (block_header_to_borsh h) bc) =
      Ok (mkTmSignedHeader h (mkTmCommit (tc_height c) (tc_round c) (tc_block_id c) sigs)).
Proof.
  intros Hh ([Hc1 Hc2] & Hr & Hb & Hl & Hs) Hsh. destruct (signatures_sorted (tc_signatures c)) as (l' & E & Hp & Ho).
  eexists l', _. split; [done|]. split; [done|].
  unfold commit_to_borsh. rewrite (signatures_wired _ Hs). split; [reflexivity|].
  assert (Forall commit_sig_ok l') as Hs' by by rewrite Hp.
  destruct (collect_back l' Hs') as [Ht Hcl]. destruct (block_id_back _ Hb) as [Hbt Hbb].
  assert (tc_round c mod 2 ^ 16 = tc_round c) as Er by (apply Z.mod_small, Hr).
  unfold commit_typed, borsh_to_signed_header, borsh_to_commit, checked; simpl.
  rewrite E, Er. split.
  - split_and!; try done. unfold vec_len in *. by rewrite length_fmap, Hp.
  - rewrite (proj2 (block_header_back h Hh)); simpl. rewrite Hc2; simpl. rewrite Hbb; simpl. rewrite Hcl; simpl.
    unfold SignedHeader_new. by rewrite signed_header_law, Hsh.
Qed.

Lemma header_reads h : header_ok h ->
  exists bh sigs, header_to_borsh h = Some bh /\
    sigs ≡ₚ tc_signatures (sh_commit (hd_signed_header h)) /\ StronglySorted by_address sigs /\
    reads deserialize_header (borsh_header bh) (with_signatures sigs h).
Proof.
  destruct h as [[bhd c] vs [n t] tvs]. intros ((H1 & H2 & H3) & H4 & (H5 & H6 & H7) & H8). simpl in *.
  destruct (validator_set_back vs H4) as (bs & Es & Ts & Cs).
  destruct (validator_set_back tvs H8) as (bs' & Es' & Ts' & Cs').
  destruct (signed_header_back bhd c H1 H2 H3) as (sigs & bc & Hp & Hs & Ec & Tc & Cc).
  eexists _, sigs. unfold header_to_borsh, signed_header_to_borsh; simpl. rewrite Ec; simpl. rewrite Es; simpl. rewrite Es'; simpl.
  split; [done|]. split; [done|]. split; [done|]. set (bh := mkBorshHeader _ _ _ _).
  assert (header_typed bh) as Tb.
  { unfold header_typed, bh; simpl. split_and!; try done. by apply block_header_back. }
  intros rest. apply (agrees_header _ _ _ (reads_header bh Tb rest)).
  split; [done|]. unfold header_as_encoded, bh; simpl. rewrite Cc; simpl. rewrite Cs; simpl.
  unfold borsh_to_height, Height_new; simpl. rewrite H7; simpl. by rewrite Cs'.
Qed.

Lemma reads_try_from_slice {A} (d : Reader A) e x : reads d e x -> try_from_slice d e = Some x.
Proof. intros H. apply try_from_slice_Some. specialize (H []). by rewrite app_nil_r in H. Qed.

(** C35: the program decodes what the relayer encodes.  A header with Ed25519
    keys, signatures and times since the epoch has a wire form, whose Borsh
    encoding the direct decoder reads back as the same header with its commit's
    signatures ordered by validator address, the order the encoder puts them
    in. *)
Theorem header_codec_roundtrip h (Hh : header_ok h) :
  exists bh sigs, header_to_borsh h = Some bh /\
    sigs ≡ₚ tc_signatures (sh_commit (hd_signed_header h)) /\ StronglySorted by_address sigs /\
    HeaderWrapper_try_from_slice (borsh_header bh) = Some (with_signatures sigs h).
Proof.
  destruct (header_reads h Hh) as (bh & sigs & E & Hp & Hs & Hr). exists bh, sigs.
  split; [done|]. split; [done|]. split; [done|]. by apply reads_try_from_slice.
Qed.

(** The same for the two headers of a misbehaviour. *)
Theorem misbehaviour_codec_roundtrip m :
  vec_len (mb_client_id m) -> utf8 (mb_client_id m) = true -> ClientId_ok (mb_client_id m) = true ->
  header_ok (mb_header1 m) -> header_ok (mb_header2 m) ->
  exists bm sigs1 sigs2, misbehaviour_to_borsh m = Some bm /\
    MisbehaviourWrapper_try_from_slice (borsh_misbehaviour bm) =
      Some (mkIbcMisbehaviour (mb_client_id m) (with_signatures sigs1 (mb_header1 m))
        (with_signatures sigs2 (mb_header2 m))).
Proof.
  intros Hl Hu Hc H1 H2. destruct (header_reads _ H1) as (b1 & s1 & E1 & _ & _ & R1).
  destruct (header_reads _ H2) as (b2 & s2 & E2 & _ & _ & R2).
  exists (mkBorshMisbehaviour (mb_client_id m) b1 b2), s1, s2. unfold misbehaviour_to_borsh.
  rewrite E1; simpl. rewrite E2; simpl. split; [done|]. apply reads_try_from_slice.
  eapply reads_bind; [by apply reads_string|]. apply reads_check; [done|].
  eapply reads_bind; [exact R1|]. apply (reads_last _ (mkIbcMisbehaviour _ _)), R2.
Qed.

End RoundTrip.
