(* ===== verification/TmLightClient.v ===== *)
(** * The Tendermint light-client packages

    Sources: [packages/tendermint-light-client/update-client/src/lib.rs] and
    [types/validation.rs], [misbehaviour/src/lib.rs], [membership/src/lib.rs],
    [uc-and-membership/src/lib.rs] and [solana/src/lib.rs].

    The packages call ibc-rs and tendermint-rs, which are third-party:
    [TendermintLib] has the functions they call; what is documented of them is
    in [TmLightClientSpec.v].  Each package has two variants, one with the standard
    verifier and one with the verifier for Solana, which looks signatures up in
    accounts that an earlier transaction filled; both are modelled. *)

From S2P Require Import Prelude Errors Types Runtime BorshHeader.
From Stdlib Require Import ZArith Lia.
From Stdlib.Strings Require Import Byte.
From stdpp Require Import prelude strings gmap list.

#[local] Open Scope Z_scope.

(** [ibc_client_tendermint::types::ConsensusState]; the root as its bytes. *)
Record IbcConsensusState := mkIbcConsensusState {
  ics_timestamp : Time;
  ics_root : bytes;
  ics_next_validators_hash : bytes }.

Record TrustThreshold := mkTrustThreshold {
  tt_numerator : Z;
  tt_denominator : Z }.

(** [ClientState] of the packages. *)
Record UpdateClientState := mkUpdateClientState {
  ucs_chain_id : bytes;
  ucs_trust_level : TrustThreshold;
  ucs_trusting_period_seconds : Z;
  ucs_unbonding_period_seconds : Z;
  ucs_max_clock_drift_seconds : Z;
  ucs_is_frozen : bool;
  ucs_latest_height : Height }.

Record UpdateClientOutput := mkUpdateClientOutput {
  uco_new_consensus_state : IbcConsensusState;
  uco_latest_height : Height;
  uco_trusted_height : Height }.

Inductive UpdateClientError :=
| UcInvalidClientId
| UcInvalidChainId (chain_id : bytes)
| HeaderVerificationFailed.

Record MisbehaviourOutput := mkMisbehaviourOutput {
  mbo_trusted_height_1 : Height;
  mbo_trusted_height_2 : Height;
  mbo_trusted_consensus_state_1 : IbcConsensusState;
  mbo_trusted_consensus_state_2 : IbcConsensusState;
  mbo_time : Z }.

Inductive MisbehaviourError :=
| MbInvalidClientId
| MbInvalidChainId (chain_id : bytes)
| MbChainIdMismatch
| MisbehaviourVerificationFailed
| CheckForMisbehaviourFailed
| MisbehaviourNotDetected.

Record KVPair := mkKVPair {
  kv_path : list bytes;
  kv_value : bytes }.

Record MembershipOutput := mkMembershipOutput {
  mo_commitment_root : bytes;
  mo_kv_pairs : list KVPair }.

Inductive MembershipError :=
| EmptyRequest
| NonMembershipVerificationFailed
| MembershipVerificationFailed.

Inductive UcAndMembershipError :=
| UmInvalidAppHash (len : nat)
| UmUpdateClient (e : UpdateClientError)
| UmMembership (e : MembershipError).

(** A call that returns an error, or aborts the program. *)
Inductive Failure (E : Type) :=
| Returned (e : E)
| Aborted.
Arguments Returned {E} e.
Arguments Aborted {E}.

Definition map_failure {E F} (f : E -> F) (x : Failure E) : Failure F :=
  match x with Returned e => Returned (f e) | Aborted => Aborted end.

(** ** The libraries *)

(** [tendermint_light_client_verifier::options::Options]; durations in seconds. *)
Record Options := mkOptions {
  opt_trust_threshold : TrustThreshold;
  opt_trusting_period : Z;
  opt_clock_drift : Z }.

(** A [PredicateVerifier]: the two predicates that the Solana variant replaces,
    and the signature check of its voting power calculator. *)
Record Verifier := mkVerifier {
  validator_sets_match : TmValidatorSet -> bytes -> bool;
  next_validators_match : TmValidatorSet -> bytes -> bool;
  verify_signature : TmPublicKey -> bytes -> bytes -> bool }.

(** [ExtClientValidationContext]: what the verification asks of its context. A
    panic is [None]. *)
Record ExtContext := mkExtContext {
  ec_consensus_state : bytes * Z * Z -> option IbcConsensusState;
  ec_host_timestamp : option Z }.

(** [ics23::HostFunctionsProvider]. *)
Record HostFunctions := mkHostFunctions {
  hf_sha2_256 : bytes -> bytes;
  hf_sha2_512 : bytes -> bytes;
  hf_sha2_512_truncated : bytes -> bytes;
  hf_keccak_256 : bytes -> bytes;
  hf_ripemd160 : bytes -> bytes;
  hf_blake2b_512 : bytes -> bytes;
  hf_blake2s_256 : bytes -> bytes;
  hf_blake3 : bytes -> bytes }.

Inductive Outcome := Accepted | Rejected | Panics.

Class TendermintLib := {
  tendermint_types :: TendermintTypes;
  TENDERMINT_CLIENT_TYPE : bytes;
  ClientId_new : bytes -> Z -> option bytes;           (** [ClientId::new] *)
  IbcChainId_ok : bytes -> bool;                       (** [identifiers::ChainId::new], [from_str] *)
  TrustThreshold_ok : Z -> Z -> bool;                  (** [TrustThresholdFraction::new] *)
  header_height : IbcHeader -> Height;                 (** [Header::height] *)
  header_votes : IbcHeader -> list (TmPublicKey * bytes * bytes); (** key, sign bytes, signature *)
  ConsensusState_from : IbcHeader -> IbcConsensusState; (** [ConsensusState::from(Header)] *)
  verify_header : Verifier -> (bytes -> bytes) -> ExtContext -> IbcHeader -> bytes -> bytes ->
    Options -> Outcome;
  verify_misbehaviour : Verifier -> (bytes -> bytes) -> ExtContext -> IbcMisbehaviour -> bytes ->
    bytes -> Options -> Outcome;
  check_for_misbehaviour_on_misbehavior : IbcHeader -> IbcHeader -> option bool;
  prod_validator_sets_match : TmValidatorSet -> bytes -> bool;   (** [ProdPredicates] *)
  prod_next_validators_match : TmValidatorSet -> bytes -> bool;
  ed25519_verify : bytes -> bytes -> bytes -> bool;    (** Ed25519: key, message, signature *)
  brine_sig_verify : bytes -> bytes -> bytes -> bool;  (** [brine_ed25519]: key, signature, message *)
  MerkleProof : Type;
  decode_merkle_proof : bytes -> option MerkleProof;
  proof_verify_membership : HostFunctions -> MerkleProof -> bytes -> list bytes -> bytes -> Z -> bool;
  proof_verify_non_membership : HostFunctions -> MerkleProof -> bytes -> list bytes -> bool;
  HostFunctionsManager : HostFunctions;
  precompile_accepts : bytes -> bool;                  (** the Ed25519 program, on its data *)
  raw_data_byte : AccountData -> nat -> option byte }. (** a byte of an account's Borsh encoding *)

(** [ProdVerifier]: the predicates of the library, and Ed25519 itself. *)
Definition ed25519_check `{TendermintLib} (pk : TmPublicKey) (msg sig : bytes) : bool :=
  match pk with PkEd25519 k => ed25519_verify k msg sig | PkOther => false end.

Definition ProdVerifier `{TendermintLib} : Verifier :=
  mkVerifier prod_validator_sets_match prod_next_validators_match ed25519_check.

(** ** [update-client/src/types/validation.rs] *)

Record ClientValidationCtx := mkClientValidationCtx {
  cvc_now : Z;
  cvc_trusted_consensus_states : gmap (bytes * Z * Z) IbcConsensusState }.

Definition ClientValidationCtx_new (now : Z) : ClientValidationCtx := mkClientValidationCtx now ∅.

Definition insert_trusted_consensus_state (ctx : ClientValidationCtx) (client_id : bytes)
    (revision_number revision_height : Z) (consensus_state : IbcConsensusState) : ClientValidationCtx :=
  mkClientValidationCtx (cvc_now ctx)
    (<[(client_id, revision_number, revision_height) := consensus_state]>
       (cvc_trusted_consensus_states ctx)).

(** The index panics on an absent path, the conversion to [u64] on overflow. *)
Definition ctx_consensus_state (ctx : ClientValidationCtx) (path : bytes * Z * Z)
    : option IbcConsensusState := cvc_trusted_consensus_states ctx !! path.
Definition ctx_host_timestamp (ctx : ClientValidationCtx) : option Z :=
  if Z.leb (cvc_now ctx) u64_max then Some (cvc_now ctx) else None.
Definition as_context (ctx : ClientValidationCtx) : ExtContext :=
  mkExtContext (ctx_consensus_state ctx) (ctx_host_timestamp ctx).

(** ** [solana/src/lib.rs] *)

Definition SIGNATURE_VERIFICATION_IS_VALID_OFFSET : nat := 8.
Definition SignatureVerification_SEED : bytes := Eval vm_compute in bs "sig_verify".

Section TmLightClient.
Context `{Platform} `{TendermintLib}.

Definition solana_validator_sets_match (_ : TmValidatorSet) (_ : bytes) : bool := true.
Definition solana_next_validators_match (_ : TmValidatorSet) (_ : bytes) : bool := true.

(** [data.get(8)] of an account. *)
Definition is_valid_byte (a : Account) : option byte :=
  match acc_data a with
  | DSignatureVerification s => Some (if sgv_is_valid s then x01 else x00)
  | DZeroed => if Z.ltb 8 (acc_space a) then Some x00 else None
  | d => raw_data_byte d SIGNATURE_VERIFICATION_IS_VALID_OFFSET
  end.

Definition sig_hash (pk msg signature : bytes) : bytes := sha256 (pk ++ msg ++ signature).

(** [SolanaSignatureVerifier::verify], on the accounts of [w]. *)
Definition SolanaSignatureVerifier_verify (w : World) (verification_accounts : list Pubkey)
    (program_id : Pubkey) (pubkey : TmPublicKey) (msg signature : bytes) : bool :=
  match pubkey with
  | PkOther => false
  | PkEd25519 pk =>
      let expected_pda := pda_key [SignatureVerification_SEED; sig_hash pk msg signature] program_id in
      let fallback := brine_sig_verify pk signature msg in
      match List.find (fun a => bool_decide (a = expected_pda)) verification_accounts with
      | None => fallback
      | Some k =>
          match w_accts w !! k with
          | None => fallback
          | Some account =>
              match is_valid_byte account with
              | Some x01 => true
              | Some x00 => false
              | Some _ => fallback
              | None => fallback
              end
          end
      end
  end.

Definition SolanaVerifier (w : World) (verification_accounts : list Pubkey) (program_id : Pubkey)
    : Verifier :=
  mkVerifier solana_validator_sets_match solana_next_validators_match
    (SolanaSignatureVerifier_verify w verification_accounts program_id).

(** [SolanaSha256]. *)
Definition SolanaSha256_digest (data : bytes) : bytes := sha256 (concat [data]).

Definition SolanaHostFunctionsManager : HostFunctions :=
  mkHostFunctions sha256 (hf_sha2_512 HostFunctionsManager) (hf_sha2_512_truncated HostFunctionsManager)
    keccak256 (hf_ripemd160 HostFunctionsManager) (hf_blake2b_512 HostFunctionsManager)
    (hf_blake2s_256 HostFunctionsManager) (hf_blake3 HostFunctionsManager).

(** ** [update-client/src/lib.rs] *)

Definition outcome {E} (o : Outcome) (e : E) : result (Failure E) unit :=
  match o with Accepted => Ok () | Rejected => Err (Returned e) | Panics => Err Aborted end.

(** [TmTrustThreshold::from(TrustThreshold)] panics on an invalid fraction. *)
Definition TmTrustThreshold_from {E} (tt : TrustThreshold) : result (Failure E) TrustThreshold :=
  if TrustThreshold_ok (tt_numerator tt) (tt_denominator tt) then Ok tt else Err Aborted.

Definition options_of (client_state : UpdateClientState) (trust_threshold : TrustThreshold) : Options :=
  mkOptions trust_threshold (ucs_trusting_period_seconds client_state)
    (ucs_max_clock_drift_seconds client_state).

Definition verify_and_create_output (verifier : Verifier) (hash : bytes -> bytes)
    (client_state : UpdateClientState) (trusted_consensus_state : IbcConsensusState)
    (proposed_header : IbcHeader) (time : Z)
    : result (Failure UpdateClientError) UpdateClientOutput :=
  client_id ← ok_or (ClientId_new TENDERMINT_CLIENT_TYPE 0) (Returned UcInvalidClientId);
  _ ← require_r (IbcChainId_ok (ucs_chain_id client_state))
        (Returned (UcInvalidChainId (ucs_chain_id client_state)));
  trust_threshold ← TmTrustThreshold_from (ucs_trust_level client_state);
  let ctx := insert_trusted_consensus_state (ClientValidationCtx_new time) client_id
        (revision_number (hd_trusted_height proposed_header))
        (revision_height (hd_trusted_height proposed_header)) trusted_consensus_state in
  _ ← outcome (verify_header verifier hash (as_context ctx) proposed_header client_id
                 (ucs_chain_id client_state) (options_of client_state trust_threshold))
        HeaderVerificationFailed;
  Ok (mkUpdateClientOutput (ConsensusState_from proposed_header) (header_height proposed_header)
        (hd_trusted_height proposed_header)).

(** [update_client]: the standard variant, and the Solana one. *)
Definition update_client (client_state : UpdateClientState) (trusted_consensus_state : IbcConsensusState)
    (proposed_header : IbcHeader) (time : Z) : result (Failure UpdateClientError) UpdateClientOutput :=
  verify_and_create_output ProdVerifier sha256 client_state trusted_consensus_state proposed_header time.

Definition solana_update_client (w : World) (client_state : UpdateClientState)
    (trusted_consensus_state : IbcConsensusState) (proposed_header : IbcHeader) (time : Z)
    (verification_accounts : list Pubkey) (program_id : Pubkey)
    : result (Failure UpdateClientError) UpdateClientOutput :=
  verify_and_create_output (SolanaVerifier w verification_accounts program_id) SolanaSha256_digest
    client_state trusted_consensus_state proposed_header time.

(** ** [misbehaviour/src/lib.rs] *)

Definition check_for_misbehaviour_impl (verifier : Verifier) (hash : bytes -> bytes)
    (client_state : UpdateClientState) (misbehaviour : IbcMisbehaviour)
    (trusted_consensus_state_1 trusted_consensus_state_2 : IbcConsensusState) (time : Z)
    : result (Failure MisbehaviourError) MisbehaviourOutput :=
  client_id ← ok_or (ClientId_new TENDERMINT_CLIENT_TYPE 0) (Returned MbInvalidClientId);
  _ ← require_r (IbcChainId_ok (ucs_chain_id client_state))
        (Returned (MbInvalidChainId (ucs_chain_id client_state)));
  _ ← require_r (bool_decide (ucs_chain_id client_state =
                   th_chain_id (sh_header (hd_signed_header (mb_header1 misbehaviour)))))
        (Returned MbChainIdMismatch);
  let trusted_height_1 := hd_trusted_height (mb_header1 misbehaviour) in
  let trusted_height_2 := hd_trusted_height (mb_header2 misbehaviour) in
  let ctx := insert_trusted_consensus_state (ClientValidationCtx_new time) client_id
        (revision_number trusted_height_1) (revision_height trusted_height_1)
        trusted_consensus_state_1 in
  let ctx := insert_trusted_consensus_state ctx client_id
        (revision_number trusted_height_2) (revision_height trusted_height_2)
        trusted_consensus_state_2 in
  trust_threshold ← TmTrustThreshold_from (ucs_trust_level client_state);
  _ ← outcome (verify_misbehaviour verifier hash (as_context ctx) misbehaviour client_id
                 (ucs_chain_id client_state) (options_of client_state trust_threshold))
        MisbehaviourVerificationFailed;
  is_misbehaviour ← ok_or (check_for_misbehaviour_on_misbehavior (mb_header1 misbehaviour)
                             (mb_header2 misbehaviour)) (Returned CheckForMisbehaviourFailed);
  _ ← require_r is_misbehaviour (Returned MisbehaviourNotDetected);
  Ok (mkMisbehaviourOutput trusted_height_1 trusted_height_2 trusted_consensus_state_1
        trusted_consensus_state_2 time).

Definition check_for_misbehaviour (client_state : UpdateClientState) (misbehaviour : IbcMisbehaviour)
    (trusted_consensus_state_1 trusted_consensus_state_2 : IbcConsensusState) (time : Z)
    : result (Failure MisbehaviourError) MisbehaviourOutput :=
  check_for_misbehaviour_impl ProdVerifier sha256 client_state misbehaviour trusted_consensus_state_1
    trusted_consensus_state_2 time.

Definition solana_check_for_misbehaviour (w : World) (client_state : UpdateClientState)
    (misbehaviour : IbcMisbehaviour)
    (trusted_consensus_state_1 trusted_consensus_state_2 : IbcConsensusState) (time : Z)
    (verification_accounts : list Pubkey) (program_id : Pubkey)
    : result (Failure MisbehaviourError) MisbehaviourOutput :=
  check_for_misbehaviour_impl (SolanaVerifier w verification_accounts program_id) SolanaSha256_digest
    client_state misbehaviour trusted_consensus_state_1 trusted_consensus_state_2 time.

(** ** [membership/src/lib.rs]

    [hosts] is the hash provider of the variant. *)

Definition is_non_membership (kv : KVPair) : bool := bool_decide (kv_value kv = []).

Definition verify_pair (hosts : HostFunctions) (app_hash : bytes) (request : KVPair * MerkleProof)
    : result MembershipError KVPair :=
  let '(kv_pair, merkle_proof) := request in
  if is_non_membership kv_pair then
    _ ← require_r (proof_verify_non_membership hosts merkle_proof app_hash (kv_path kv_pair))
          NonMembershipVerificationFailed;
    Ok kv_pair
  else
    _ ← require_r (proof_verify_membership hosts merkle_proof app_hash (kv_path kv_pair)
                     (kv_value kv_pair) 0) MembershipVerificationFailed;
    Ok kv_pair.

Definition membership (hosts : HostFunctions) (app_hash : bytes) (request_iter : list (KVPair * MerkleProof))
    : result MembershipError MembershipOutput :=
  kv_pairs ← collect_results (verify_pair hosts app_hash) request_iter;
  _ ← require_r (negb (bool_decide (length kv_pairs = 0%nat))) EmptyRequest;
  Ok (mkMembershipOutput app_hash kv_pairs).

(** ** [uc-and-membership/src/lib.rs] *)

Definition update_client_and_membership (client_state : UpdateClientState)
    (trusted_consensus_state : IbcConsensusState) (proposed_header : IbcHeader) (time : Z)
    (request : list (KVPair * MerkleProof)) : result (Failure UcAndMembershipError) UpdateClientOutput :=
  let app_hash_bytes := th_app_hash (sh_header (hd_signed_header proposed_header)) in
  app_hash ← ok_or (array 32 app_hash_bytes) (Returned (UmInvalidAppHash (length app_hash_bytes)));
  uc_output ← map_err (map_failure UmUpdateClient)
                (update_client client_state trusted_consensus_state proposed_header time);
  _ ← map_err (fun e => Returned (UmMembership e)) (membership HostFunctionsManager app_hash request);
  Ok uc_output.

End TmLightClient.
