(* ===== verification/TmLightClientSpec.v ===== *)
(** * The two variants of the Tendermint verification

    What is documented of ibc-rs, tendermint-rs and the Ed25519 programs
    ([TendermintLibOk]), and the relation between the standard verification and
    the one for Solana: with accounts that speak the truth about signatures,
    what the Solana variant accepts the standard one accepts, unless an invalid
    vote's digest collides with a valid one's; and without accounts the two
    agree. *)

From S2P Require Import Prelude Errors Types Runtime BorshHeader TmLightClient.
From Stdlib Require Import ZArith Lia.
From Stdlib.Strings Require Import Byte.
From stdpp Require Import prelude strings gmap list.

#[local] Open Scope Z_scope.

(** ** The libraries *)

(** The votes of the headers of evidence. *)
Definition misbehaviour_votes `{TendermintLib} (mb : IbcMisbehaviour) : list (TmPublicKey * bytes * bytes) :=
  header_votes (mb_header1 mb) ++ header_votes (mb_header2 mb).

(** [V'] accepts what [V] accepts, as far as the [votes] are concerned. *)
Record verifier_le (votes : list (TmPublicKey * bytes * bytes)) (V V' : Verifier) : Prop := {
  vle_sets vs h : validator_sets_match V vs h = true -> validator_sets_match V' vs h = true;
  vle_next vs h : next_validators_match V vs h = true -> next_validators_match V' vs h = true;
  vle_votes k m g : (k, m, g) ∈ votes -> verify_signature V k m g = true ->
    verify_signature V' k m g = true }.

(** The verifier [V] with the predicates of the library. *)
Definition with_prod_predicates `{TendermintLib} (V : Verifier) : Verifier :=
  mkVerifier prod_validator_sets_match prod_next_validators_match (verify_signature V).

(** - The verifier's parts are used as checks: one that refuses less never
      makes a verification fail, and only the signatures of the commit's votes
      are asked for.
    - The two predicates repeat checks that ibc-rs does itself
      ([Header::validate_basic], [check_trusted_next_validator_set]).
    - The height of an accepted header is positive; Ed25519 keys have 32 bytes,
      signatures 64.
    - [brine_ed25519] decides Ed25519.
    - The Ed25519 program accepts the data of one signature only when that
      signature verifies. *)
Class TendermintLibOk `{TendermintLib} : Prop := {
  verify_header_mono V V' f f' ctx hd client chain o :
    verifier_le (header_votes hd) V V' -> (forall x, f x = f' x) ->
    verify_header V f ctx hd client chain o = Accepted ->
    verify_header V' f' ctx hd client chain o = Accepted;
  verify_header_redundant V f ctx hd client chain o :
    verify_header V f ctx hd client chain o = Accepted ->
    verify_header (with_prod_predicates V) f ctx hd client chain o = Accepted;
  verify_misbehaviour_mono V V' f f' ctx mb client chain o :
    verifier_le (misbehaviour_votes mb) V V' -> (forall x, f x = f' x) ->
    verify_misbehaviour V f ctx mb client chain o = Accepted ->
    verify_misbehaviour V' f' ctx mb client chain o = Accepted;
  verify_misbehaviour_redundant V f ctx mb client chain o :
    verify_misbehaviour V f ctx mb client chain o = Accepted ->
    verify_misbehaviour (with_prod_predicates V) f ctx mb client chain o = Accepted;
  header_height_positive V f ctx hd client chain o :
    verify_header V f ctx hd client chain o = Accepted -> 0 < revision_height (header_height hd);
  header_votes_typed hd k m g :
    (PkEd25519 k, m, g) ∈ header_votes hd -> length k = 32%nat /\ length g = 64%nat;
  brine_decides k m g : brine_sig_verify k g m = ed25519_verify k m g;
  precompile_sound data sig_offset pk_offset msg_offset msg_size :
    precompile_accepts data = true -> data !! 0%nat = Some x01 ->
    (forall i, i ∈ [4; 8; 14]%nat -> of_le (take 2 (drop i data)) = 65535) ->
    sig_offset = Z.to_nat (of_le (take 2 (drop 2 data))) ->
    pk_offset = Z.to_nat (of_le (take 2 (drop 6 data))) ->
    msg_offset = Z.to_nat (of_le (take 2 (drop 10 data))) ->
    msg_size = Z.to_nat (of_le (take 2 (drop 12 data))) ->
    (sig_offset + 64 <= length data)%nat -> (pk_offset + 32 <= length data)%nat ->
    (msg_offset + msg_size <= length data)%nat ->
    ed25519_verify (take 32 (drop pk_offset data)) (take msg_size (drop msg_offset data))
      (take 64 (drop sig_offset data)) = true }.

Section Variants.
Context `{Platform} `{TendermintLib}.

(** ** Signatures *)

(** The digest of a valid signature. *)
Definition genuine (h : bytes) : Prop :=
  exists k m g, h = sig_hash k m g /\ length k = 32%nat /\ length g = 64%nat /\ ed25519_verify k m g = true.

(** The accounts of [program] that hold pre-verified signatures speak the
    truth when they say that a signature is valid. *)
Definition truthful (program : Pubkey) (w : World) : Prop :=
  forall h a, w_accts w !! pda_key [SignatureVerification_SEED; h] program = Some a ->
    is_valid_byte a = Some x01 -> genuine h.

(** An invalid vote with the digest of a valid signature. *)
Definition votes_collide (votes : list (TmPublicKey * bytes * bytes)) : Prop :=
  exists k m g k' m' g', (PkEd25519 k, m, g) ∈ votes /\ ed25519_verify k m g = false /\
    ed25519_verify k' m' g' = true /\ k ++ m ++ g <> k' ++ m' ++ g' /\
    sha256 (k ++ m ++ g) = sha256 (k' ++ m' ++ g').

Definition typed_votes (votes : list (TmPublicKey * bytes * bytes)) : Prop :=
  forall k m g, (PkEd25519 k, m, g) ∈ votes -> length k = 32%nat /\ length g = 64%nat.

(** Of fixed-length parts, a concatenation has one reading. *)
Lemma triple_inj (k m g k' m' g' : bytes) :
  length k = length k' -> length g = length g' -> k ++ m ++ g = k' ++ m' ++ g' ->
  k = k' /\ m = m' /\ g = g'.
Proof. intros Hk Hg [-> E]%app_inj_1; [|done]. by apply app_inj_2 in E as [-> ->]. Qed.

Context `{!TendermintLibOk}.

Lemma header_votes_typed' hd : typed_votes (header_votes hd).
Proof. intros k m g. apply header_votes_typed. Qed.

Lemma misbehaviour_votes_typed mb : typed_votes (misbehaviour_votes mb).
Proof. intros k m g [Hin|Hin]%elem_of_app; by apply header_votes_typed in Hin. Qed.

(** With truthful accounts, an accepted signature is valid or collides. *)
Lemma solana_verify_sound program w accounts votes k m g :
  truthful program w -> typed_votes votes -> (k, m, g) ∈ votes ->
  SolanaSignatureVerifier_verify w accounts program k m g = true ->
  ed25519_check k m g = true \/ votes_collide votes.
Proof.
  intros Hw Ht Hin. destruct k as [k|]; [|done]. simpl. rewrite brine_decides.
  destruct (List.find _ accounts) as [x|] eqn:Ef; [|by left].
  apply List.find_some in Ef as [_ ->%bool_decide_eq_true].
  destruct (w_accts w !! _) as [a|] eqn:Ea; [|by left].
  destruct (is_valid_byte a) as [b|] eqn:Eb; [|by left]. intros Hv.
  destruct (ed25519_verify k m g) eqn:Ev; [by left|right].
  destruct (decide (b = x01)) as [->|]; [|by destruct b].
  destruct (Hw _ _ Ea Eb) as (k' & m' & g' & E & Hk & Hg & Hv').
  destruct (Ht _ _ _ Hin) as [Hk' Hg'].
  exists k, m, g, k', m', g'. split_and!; try done.
  intros (-> & -> & ->)%triple_inj; congruence.
Qed.

(** Either no vote collides, and then the Solana verifier accepts no more
    votes than the standard one; or one does. *)
Lemma solana_verifier_le program w accounts votes :
  truthful program w -> typed_votes votes ->
  verifier_le votes (with_prod_predicates (SolanaVerifier w accounts program)) ProdVerifier \/
  votes_collide votes.
Proof.
  intros Hw Ht.
  assert (forall l, l ⊆ votes ->
    (forall k m g, (k, m, g) ∈ l -> SolanaSignatureVerifier_verify w accounts program k m g = true ->
       ed25519_check k m g = true) \/ votes_collide votes) as Hl.
  { induction l as [|[[k m] g] l IH]; intros Hsub; [left; by intros k m g ?%not_elem_of_nil|].
    destruct IH as [IH|]; [set_solver| |by right].
    destruct (SolanaSignatureVerifier_verify w accounts program k m g) eqn:E.
    - destruct (solana_verify_sound _ _ _ _ _ _ _ Hw Ht ltac:(apply Hsub, list_elem_of_here) E)
        as [Ec|]; [|by right].
      left. intros k' m' g' [[= -> -> ->]|Hin]%elem_of_cons; [done|by apply IH].
    - left. intros k' m' g' [[= -> -> ->]|Hin]%elem_of_cons; [congruence|by apply IH]. }
  destruct (Hl votes ltac:(done)) as [Hv|]; [left|by right]. by constructor.
Qed.

Lemma solana_sha256 x : SolanaSha256_digest x = sha256 x.
Proof. unfold SolanaSha256_digest. simpl. by rewrite app_nil_r. Qed.

(** ** Updates *)

(** The verification of a header that one verifier accepts and another
    accepts too. *)
Lemma verify_and_create_output_le V V' f f' cs c hd t out :
  (forall ctx client chain o, verify_header V f ctx hd client chain o = Accepted ->
     verify_header V' f' ctx hd client chain o = Accepted) ->
  verify_and_create_output V f cs c hd t = Ok out -> verify_and_create_output V' f' cs c hd t = Ok out.
Proof.
  intros Hle. unfold verify_and_create_output. destruct (ok_or _ _) as [client|]; [|done]. simpl.
  destruct (require_r _ _); [|done]. simpl. destruct (TmTrustThreshold_from _) as [tt|]; [|done]. simpl.
  intros Hr. destruct (verify_header V f _ hd _ _ _) eqn:E; [|done|done]. by rewrite (Hle _ _ _ _ E).
Qed.

Lemma verify_and_create_output_Ok V f cs c hd t out :
  verify_and_create_output V f cs c hd t = Ok out ->
  out = mkUpdateClientOutput (ConsensusState_from hd) (header_height hd) (hd_trusted_height hd) /\
  0 < revision_height (header_height hd).
Proof.
  unfold verify_and_create_output. destruct (ok_or _ _) as [client|]; [|done]. simpl.
  destruct (require_r _ _); [|done]. simpl. destruct (TmTrustThreshold_from _) as [tt|]; [|done]. simpl.
  destruct (verify_header V f _ hd _ _ _) eqn:E; [|done|done]. intros [= <-].
  split; [done|]. by eapply header_height_positive.
Qed.

Lemma solana_update_sound program w cs c hd t accounts out :
  truthful program w -> solana_update_client w cs c hd t accounts program = Ok out ->
  update_client cs c hd t = Ok out \/ votes_collide (header_votes hd).
Proof.
  intros Hw Hr. destruct (solana_verifier_le program w accounts (header_votes hd) Hw (header_votes_typed' hd))
    as [Hle|]; [left|by right].
  eapply verify_and_create_output_le; [|exact Hr]. intros ctx client chain o Ha.
  apply verify_header_redundant in Ha. eapply verify_header_mono; [exact Hle| |exact Ha]. apply solana_sha256.
Qed.

(** ** Misbehaviour *)

Lemma check_for_misbehaviour_le V V' f f' cs mb c1 c2 t out :
  (forall ctx client chain o, verify_misbehaviour V f ctx mb client chain o = Accepted ->
     verify_misbehaviour V' f' ctx mb client chain o = Accepted) ->
  check_for_misbehaviour_impl V f cs mb c1 c2 t = Ok out ->
  check_for_misbehaviour_impl V' f' cs mb c1 c2 t = Ok out.
Proof.
  intros Hle. unfold check_for_misbehaviour_impl. destruct (ok_or (ClientId_new _ _) _) as [client|]; [|done]. simpl.
  destruct (require_r _ _); [|done]. simpl. destruct (require_r _ _); [|done]. simpl.
  destruct (TmTrustThreshold_from _) as [tt|]; [|done]. simpl.
  intros Hr. destruct (verify_misbehaviour V f _ mb _ _ _) eqn:E; [|done|done]. by rewrite (Hle _ _ _ _ E).
Qed.

Lemma solana_misbehaviour_sound program w cs mb c1 c2 t accounts out :
  truthful program w -> solana_check_for_misbehaviour w cs mb c1 c2 t accounts program = Ok out ->
  check_for_misbehaviour cs mb c1 c2 t = Ok out \/ votes_collide (misbehaviour_votes mb).
Proof.
  intros Hw Hr.
  destruct (solana_verifier_le program w accounts (misbehaviour_votes mb) Hw (misbehaviour_votes_typed mb))
    as [Hle|]; [left|by right].
  eapply check_for_misbehaviour_le; [|exact Hr]. intros ctx client chain o Ha.
  apply verify_misbehaviour_redundant in Ha.
  eapply verify_misbehaviour_mono; [exact Hle| |exact Ha]. apply solana_sha256.
Qed.

(** ** Without accounts *)

Lemma prod_verifier_le program w votes : verifier_le votes ProdVerifier (SolanaVerifier w [] program).
Proof. constructor; [done|done|]. intros [k|] m g _; [|done]. simpl. by rewrite brine_decides. Qed.

(** C20: The Solana variant of the verification decides what the standard one
    decides.  Without pre-verified signatures it accepts exactly the headers
    and the evidence that the standard variant accepts, with the same outputs,
    although it skips the two predicates; and with pre-verified signatures in
    accounts that speak the truth it accepts nothing more, unless a vote with
    an invalid signature has the SHA-256 digest of a valid one. *)
Theorem solana_variant_agrees program w cs (Hw : truthful program w) :
  (forall c hd t out, solana_update_client w cs c hd t [] program = Ok out <-> update_client cs c hd t = Ok out) /\
  (forall mb c1 c2 t out, solana_check_for_misbehaviour w cs mb c1 c2 t [] program = Ok out <->
     check_for_misbehaviour cs mb c1 c2 t = Ok out) /\
  (forall c hd t accounts out, solana_update_client w cs c hd t accounts program = Ok out ->
     update_client cs c hd t = Ok out \/ votes_collide (header_votes hd)) /\
  (forall mb c1 c2 t accounts out,
     solana_check_for_misbehaviour w cs mb c1 c2 t accounts program = Ok out ->
     check_for_misbehaviour cs mb c1 c2 t = Ok out \/ votes_collide (misbehaviour_votes mb)).
Proof.
  assert (forall votes, verifier_le votes (with_prod_predicates (SolanaVerifier w [] program)) ProdVerifier)
    as Hback.
  { intros votes. constructor; [done|done|]. intros [k|] m g _; [|done]. simpl. by rewrite brine_decides. }
  assert (forall x, sha256 x = SolanaSha256_digest x) as Hsha by (intros x; symmetry; apply solana_sha256).
  split_and!.
  - intros c hd t out. split; apply verify_and_create_output_le; intros ctx client chain o Ha.
    + apply verify_header_redundant in Ha. eapply verify_header_mono; [apply Hback|apply solana_sha256|done].
    + eapply verify_header_mono; [apply prod_verifier_le|apply Hsha|done].
  - intros mb c1 c2 t out. split; apply check_for_misbehaviour_le; intros ctx client chain o Ha.
    + apply verify_misbehaviour_redundant in Ha.
      eapply verify_misbehaviour_mono; [apply Hback|apply solana_sha256|done].
    + eapply verify_misbehaviour_mono; [apply prod_verifier_le|apply Hsha|done].
  - intros c hd t accounts out. by apply solana_update_sound.
  - intros mb c1 c2 t accounts out. by apply solana_misbehaviour_sound.
Qed.

End Variants.
