(* ===== verification/Tendermint.v ===== *)
(** * The ICS07 Tendermint light client on Solana

    Source: [programs/solana/programs/ics07-tendermint/src].  One definition per
    instruction of the program, in the runtime's monad; [exec_tm] is the entry
    point.  Headers and misbehaviour evidence are uploaded in chunks and
    assembled; their signatures may be checked beforehand by the Ed25519
    precompile, and the results kept in accounts.  The verification itself is in
    [TmLightClient]. *)

From S2P Require Import Prelude Errors Types Runtime Cpi AccessManager Chunking BorshHeader TmLightClient.
From Stdlib Require Import ZArith Lia.
From Stdlib.Strings Require Import Byte.
From stdpp Require Import prelude strings gmap list.

#[local] Open Scope Z_scope.

Definition TmClientState_SEED : bytes := Eval vm_compute in bs "client".
Definition TmAppState_SEED : bytes := Eval vm_compute in bs "app_state".
Definition TmConsensusStateStore_SEED : bytes := Eval vm_compute in bs "consensus_state".
Definition HeaderChunk_SEED : bytes := Eval vm_compute in bs "header_chunk".
Definition MisbehaviourChunk_SEED : bytes := Eval vm_compute in bs "misbehaviour_chunk".

Definition tm_consensus_seeds (height : Z) : list bytes :=
  [TmConsensusStateStore_SEED; u64_to_le_bytes height].
Definition header_chunk_seeds (submitter : Pubkey) (target_height index : Z) : list bytes :=
  [HeaderChunk_SEED; submitter; u64_to_le_bytes target_height; [byte_of_Z index]].
Definition misbehaviour_chunk_seeds (submitter : Pubkey) (index : Z) : list bytes :=
  [MisbehaviourChunk_SEED; submitter; [byte_of_Z index]].
Definition sig_verify_seeds (signature_hash : bytes) : list bytes :=
  [SignatureVerification_SEED; signature_hash].

(** ** [lib.rs] and [types.rs] *)

Definition nanos_to_secs (nanos : Z) : Z := nanos / 1000000000.

(** [secs as u128 * 1_000_000_000]; the multiplication panics on overflow. *)
Definition secs_to_nanos (secs : Z) : option Z :=
  let nanos := (secs mod 2 ^ 128) * 1000000000 in
  if Z.ltb nanos (2 ^ 128) then Some nanos else None.

(** [as i64] on a [u64]. *)
Definition as_i64 (z : Z) : Z := if Z.ltb z (2 ^ 63) then z else z - 2 ^ 64.
Definition i64_saturating_sub (x y : Z) : Z :=
  Z.max (- 2 ^ 63) (Z.min (2 ^ 63 - 1) (x - y)).

Inductive UpdateResult := UpdateSuccess | NoOp | Misbehaviour.

Definition UpdateResult_to_u8 (r : UpdateResult) : byte :=
  match r with UpdateSuccess => x00 | NoOp => x01 | Misbehaviour => x02 end.

#[export] Instance UpdateResult_eq_dec : EqDecision UpdateResult.
Proof. solve_decision. Defined.

Definition is_frozen (cs : TmClientState) : bool :=
  Z.ltb 0 (ih_revision_height (tcs_frozen_height cs)).

Definition freeze (cs : TmClientState) : TmClientState :=
  mkTmClientState (tcs_chain_id cs) (tcs_trust_level_numerator cs) (tcs_trust_level_denominator cs)
    (tcs_trusting_period cs) (tcs_unbonding_period cs) (tcs_max_clock_drift cs)
    (tcs_latest_height cs) (tcs_latest_height cs).

Definition with_latest_height (cs : TmClientState) (h : IbcHeight) : TmClientState :=
  mkTmClientState (tcs_chain_id cs) (tcs_trust_level_numerator cs) (tcs_trust_level_denominator cs)
    (tcs_trusting_period cs) (tcs_unbonding_period cs) (tcs_max_clock_drift cs)
    (tcs_frozen_height cs) h.

Definition is_uninitialized (s : TmConsensusStateStore) : bool := Z.eqb (tss_height s) 0.

(** The decoding of a zeroed buffer, for an account just created. *)
Definition fresh_consensus_store : TmConsensusStateStore :=
  mkTmConsensusStateStore 0 (mkTmConsensusState 0 (replicate 32 x00) (replicate 32 x00)).

Definition IbcHeight_from (h : Height) : IbcHeight :=
  mkIbcHeight (revision_number h) (revision_height h).

Record SignatureData := mkSignatureData {
  sd_signature_hash : bytes;
  sd_pubkey : bytes;
  sd_msg : bytes;
  sd_signature : bytes }.

Record UploadChunkParams := mkUploadChunkParams {
  ucp_target_height : Z;
  ucp_chunk_index : Z;
  ucp_chunk_data : bytes }.

Record UploadMisbehaviourChunkParams := mkUploadMisbehaviourChunkParams {
  ump_chunk_index : Z;
  ump_chunk_data : bytes }.

(** ** [pre_verify_signatures.rs]: the data of the Ed25519 instruction *)

Definition ED25519_NUM_SIGNATURES_OFFSET : nat := 0.
Definition ED25519_SIGNATURE_IX_INDEX_OFFSET : nat := 4.
Definition ED25519_PUBKEY_IX_INDEX_OFFSET : nat := 8.
Definition ED25519_MESSAGE_OFFSET : nat := 10.
Definition ED25519_MESSAGE_SIZE_OFFSET : nat := 12.
Definition ED25519_MESSAGE_IX_INDEX_OFFSET : nat := 14.
Definition ED25519_HEADER_SIZE : nat := 16.

(** [u16::from_le_bytes([data[i], data[i + 1]])]. *)
Definition u16_at (data : bytes) (i : nat) : Z := of_le (take 2 (drop i data)).
Definition bytes_at (data : bytes) (start n : nat) : bytes := take n (drop start data).

Definition all_instruction_indices_inline (data : bytes) : bool :=
  Z.eqb (u16_at data ED25519_SIGNATURE_IX_INDEX_OFFSET) 65535 &&
  Z.eqb (u16_at data ED25519_PUBKEY_IX_INDEX_OFFSET) 65535 &&
  Z.eqb (u16_at data ED25519_MESSAGE_IX_INDEX_OFFSET) 65535.

Record Offsets := mkOffsets {
  off_signature : nat;
  off_pubkey : nat;
  off_msg : nat }.

Definition load_offsets (data : bytes) : Offsets :=
  mkOffsets (Z.to_nat (u16_at data 2)) (Z.to_nat (u16_at data 6)) (Z.to_nat (u16_at data 10)).

(** The program and the data of the transaction's first instruction. *)
Definition Ix0 : Type := Pubkey * bytes.

Definition verify_ed25519_from_sysvar (ix : Ix0) (pubkey msg signature : bytes) : bool :=
  let '(program_id, data) := ix in
  if negb (bool_decide (program_id = ED25519_PROGRAM_ID)) ||
     (length data <? ED25519_HEADER_SIZE + 96)%nat ||
     negb (bool_decide (data !! ED25519_NUM_SIGNATURES_OFFSET = Some x01)) then false
  else if negb (all_instruction_indices_inline data) then false
  else
    let msg_size := Z.to_nat (u16_at data ED25519_MESSAGE_SIZE_OFFSET) in
    if negb (msg_size =? length msg)%nat then false
    else
      let offsets := load_offsets data in
      if (length data <? off_signature offsets + 64)%nat ||
         (length data <? off_pubkey offsets + 32)%nat ||
         (length data <? off_msg offsets + msg_size)%nat then false
      else
        bool_decide (bytes_at data (off_pubkey offsets) 32 = pubkey) &&
        bool_decide (bytes_at data (off_signature offsets) 64 = signature) &&
        bool_decide (bytes_at data (off_msg offsets) msg_size = msg).

Section Tendermint.
Context `{Platform} `{TendermintLib}.

Definition sig_verify_key (signature_hash : bytes) : Pubkey :=
  pda_key (sig_verify_seeds signature_hash) TENDERMINT_ID.

(** *** Conversions of [types.rs]; [expect] aborts *)

Definition UpdateClientState_from (cs : TmClientState) : option UpdateClientState :=
  latest_height ← Height_new (ih_revision_number (tcs_latest_height cs))
                    (ih_revision_height (tcs_latest_height cs));
  Some (mkUpdateClientState (tcs_chain_id cs)
    (mkTrustThreshold (tcs_trust_level_numerator cs) (tcs_trust_level_denominator cs))
    (tcs_trusting_period cs) (tcs_unbonding_period cs) (tcs_max_clock_drift cs)
    (Z.ltb 0 (ih_revision_height (tcs_frozen_height cs))) latest_height).

Definition IbcConsensusState_from (cs : TmConsensusState) : option IbcConsensusState :=
  timestamp ← from_unix_timestamp (tmc_timestamp cs / 1000000000) (tmc_timestamp cs mod 1000000000);
  Some (mkIbcConsensusState timestamp (tmc_root cs) (tmc_next_validators_hash cs)).

Definition TmConsensusState_try_from (cs : IbcConsensusState) : option TmConsensusState :=
  root ← array 32 (ics_root cs);
  next_validators_hash ← array 32 (ics_next_validators_hash cs);
  Some (mkTmConsensusState (ics_timestamp cs mod 2 ^ 64) root next_validators_hash).

Definition or_panic {A} (o : option A) : M A := lift (ok_or o (EAnchor AnchorErr.Panicked)).

(** *** [helpers.rs] *)

Definition tm_deserialize_header (b : bytes) : result Error IbcHeader :=
  ok_or (HeaderWrapper_try_from_slice b) (ETendermint TendermintErr.InvalidHeader).
Definition tm_deserialize_misbehaviour (b : bytes) : result Error IbcMisbehaviour :=
  ok_or (MisbehaviourWrapper_try_from_slice b) (ETendermint TendermintErr.InvalidMisbehaviour).
Definition deserialize_merkle_proof (b : bytes) : result Error MerkleProof :=
  ok_or (decode_merkle_proof b) (ETendermint TendermintErr.InvalidProof).

Definition tm_close_account (cx : CallCtx) (account recipient : Pubkey) : M unit :=
  drain_account cx TENDERMINT_ID TendermintErr.ArithmeticOverflow account recipient.

(** ** [instructions/initialize.rs] *)

Record TmInitializeAccounts := mkTmInitializeAccounts {
  ti_client_state : Pubkey;
  ti_consensus_state_store : Pubkey;
  ti_app_state : Pubkey;
  ti_payer : Pubkey;
  ti_system_program : Pubkey;
  ti_program_data : Pubkey;
  ti_authority : Pubkey }.

Definition tm_initialize (cx : CallCtx) (acc : TmInitializeAccounts) (client_state : TmClientState)
    (consensus_state : TmConsensusState) (access_manager : Pubkey) : M unit :=
  let latest := ih_revision_height (tcs_latest_height client_state) in
  _ ← signer cx (ti_payer acc);
  _ ← system_program (ti_system_program acc);
  program_data ← load_account BPF_LOADER_UPGRADEABLE_ID as_ProgramData (ti_program_data acc);
  _ ← signer cx (ti_authority acc);
  _ ← seeds_are (ti_client_state acc) [TmClientState_SEED] TENDERMINT_ID;
  _ ← init_account cx TENDERMINT_ID (ti_client_state acc) (ti_payer acc) (8 + TmClientState_INIT_SPACE);
  _ ← seeds_are (ti_consensus_state_store acc) (tm_consensus_seeds latest) TENDERMINT_ID;
  _ ← init_account cx TENDERMINT_ID (ti_consensus_state_store acc) (ti_payer acc)
        (8 + TmConsensusStateStore_INIT_SPACE);
  _ ← seeds_are (ti_app_state acc) [TmAppState_SEED] TENDERMINT_ID;
  _ ← init_account cx TENDERMINT_ID (ti_app_state acc) (ti_payer acc) (8 + TmAppState_INIT_SPACE);
  _ ← writable cx (ti_payer acc);
  _ ← seeds_are (ti_program_data acc) [TENDERMINT_ID] BPF_LOADER_UPGRADEABLE_ID;
  _ ← require (bool_decide (program_data = Some (ti_authority acc))) TendermintErr.UnauthorizedDeployer;
  _ ← require (negb (bool_decide (access_manager = Pubkey_default))) TendermintErr.InvalidAccessManager;
  _ ← require (negb (bool_decide (tcs_chain_id client_state = []))) TendermintErr.InvalidChainId;
  _ ← require (Z.ltb 0 (tcs_trust_level_numerator client_state) &&
               Z.leb (tcs_trust_level_numerator client_state) (tcs_trust_level_denominator client_state) &&
               Z.ltb 0 (tcs_trust_level_denominator client_state)) TendermintErr.InvalidTrustLevel;
  _ ← require (Z.ltb 0 (tcs_trusting_period client_state) &&
               Z.ltb 0 (tcs_unbonding_period client_state) &&
               Z.ltb (tcs_trusting_period client_state) (tcs_unbonding_period client_state))
        TendermintErr.InvalidPeriods;
  _ ← require (Z.ltb 0 (tcs_max_clock_drift client_state)) TendermintErr.InvalidMaxClockDrift;
  _ ← require (Z.ltb 0 latest) TendermintErr.InvalidHeight;
  _ ← store_account TENDERMINT_ID (ti_client_state acc) (DTmClientState client_state);
  _ ← store_account TENDERMINT_ID (ti_consensus_state_store acc)
        (DTmConsensusStateStore (mkTmConsensusStateStore latest consensus_state));
  store_account TENDERMINT_ID (ti_app_state acc)
    (DTmAppState (mkTmAppState (AccessManagerState_new access_manager))).

(** ** [instructions/upload_header_chunk.rs], [upload_misbehaviour_chunk.rs] *)

Record TmUploadAccounts := mkTmUploadAccounts {
  tu_chunk : Pubkey;
  tu_client_state : Pubkey;
  tu_app_state : Pubkey;
  tu_access_manager : Pubkey;
  tu_submitter : Pubkey;
  tu_instructions_sysvar : Pubkey;
  tu_system_program : Pubkey }.

(** What the two instructions share: [proj], [fresh], [seeds] and [space] are
    those of the chunk account, [data] the account after the handler. *)
Definition tm_upload_chunk {A} (cx : CallCtx) (acc : TmUploadAccounts) (proj : AccountData -> option A)
    (fresh : A) (seeds : list bytes) (space : Z) (chunk_data : bytes) (data : AccountData) : M unit :=
  client_state ← load_account TENDERMINT_ID as_TmClientState (tu_client_state acc);
  app_state ← load_account TENDERMINT_ID as_TmAppState (tu_app_state acc);
  _ ← signer cx (tu_submitter acc);
  _ ← system_program (tu_system_program acc);
  _ ← seeds_are (tu_chunk acc) seeds TENDERMINT_ID;
  _ ← init_if_needed cx TENDERMINT_ID proj fresh (tu_chunk acc) (tu_submitter acc) space;
  _ ← seeds_are (tu_client_state acc) [TmClientState_SEED] TENDERMINT_ID;
  _ ← seeds_are (tu_app_state acc) [TmAppState_SEED] TENDERMINT_ID;
  _ ← seeds_are (tu_access_manager acc) [AccessManager_SEED] (ams_access_manager (tas_am_state app_state));
  _ ← writable cx (tu_submitter acc);
  _ ← instructions_sysvar (tu_instructions_sysvar acc);
  _ ← require_role cx (tu_access_manager acc) RELAYER_ROLE (tu_submitter acc)
        (tu_instructions_sysvar acc) TENDERMINT_ID;
  _ ← require (negb (is_frozen client_state)) TendermintErr.ClientFrozen;
  _ ← require (Z.leb (Z.of_nat (length chunk_data)) CHUNK_DATA_SIZE) TendermintErr.ChunkDataTooLarge;
  store_account TENDERMINT_ID (tu_chunk acc) data.

Definition upload_header_chunk (cx : CallCtx) (acc : TmUploadAccounts) (params : UploadChunkParams) : M unit :=
  tm_upload_chunk cx acc as_HeaderChunk (mkHeaderChunk Pubkey_default [])
    (header_chunk_seeds (tu_submitter acc) (ucp_target_height params) (ucp_chunk_index params))
    (8 + HeaderChunk_INIT_SPACE) (ucp_chunk_data params)
    (DHeaderChunk (mkHeaderChunk (tu_submitter acc) (ucp_chunk_data params))).

Definition upload_misbehaviour_chunk (cx : CallCtx) (acc : TmUploadAccounts)
    (params : UploadMisbehaviourChunkParams) : M unit :=
  tm_upload_chunk cx acc as_MisbehaviourChunk (mkMisbehaviourChunk [])
    (misbehaviour_chunk_seeds (tu_submitter acc) (ump_chunk_index params))
    (8 + MisbehaviourChunk_INIT_SPACE) (ump_chunk_data params)
    (DMisbehaviourChunk (mkMisbehaviourChunk (ump_chunk_data params))).

(** *** The assembly loops *)

(** [for (index, chunk_account) in accounts.iter().enumerate()]: the key and
    the owner are checked, and the chunk's bytes appended. *)
Definition check_tm_chunk (k : Pubkey) (expected_seeds : list bytes) : M unit :=
  expected_pda ← derive_pda expected_seeds TENDERMINT_ID;
  _ ← require (bool_decide (k = expected_pda)) TendermintErr.InvalidChunkAccount;
  owner_is k TENDERMINT_ID TendermintErr.InvalidAccountOwner.

Fixpoint load_chunks (load : Pubkey -> M bytes) (seeds_at : Z -> list bytes) (accounts : list Pubkey)
    (index : nat) : M bytes :=
  match accounts with
  | [] => mret []
  | k :: accounts =>
      _ ← check_tm_chunk k (seeds_at (Z.of_nat index));
      chunk ← load k;
      rest ← load_chunks load seeds_at accounts (S index);
      mret (chunk ++ rest)
  end.

Definition load_header_chunk (k : Pubkey) : M bytes :=
  chunk ← try_deserialize as_HeaderChunk k; mret (hch_chunk_data chunk).
Definition load_misbehaviour_chunk (k : Pubkey) : M bytes :=
  chunk ← try_deserialize as_MisbehaviourChunk k; mret (mch_chunk_data chunk).

(** ** [instructions/assemble_and_update_client.rs] *)

Record AssembleAndUpdateClientAccounts := mkAssembleAndUpdateClientAccounts {
  ta_client_state : Pubkey;
  ta_app_state : Pubkey;
  ta_access_manager : Pubkey;
  ta_trusted_consensus_state : Pubkey;
  ta_new_consensus_state_store : Pubkey;
  ta_submitter : Pubkey;
  ta_system_program : Pubkey;
  ta_instructions_sysvar : Pubkey;
  ta_remaining : list Pubkey }.

Definition assemble_header_chunks (submitter : Pubkey) (remaining : list Pubkey) (target_height : Z)
    (chunk_count : nat) : M bytes :=
  accounts ← lift (slice remaining 0 chunk_count);
  load_chunks load_header_chunk (header_chunk_seeds submitter target_height) accounts 0.

Definition verify_and_update_header (client_state : TmClientState) (trusted_state : TmConsensusState)
    (header : IbcHeader) (signature_verification_accounts : list Pubkey) : M (Height * TmConsensusState) :=
  update_client_state ← or_panic (UpdateClientState_from client_state);
  trusted_ibc_state ← or_panic (IbcConsensusState_from trusted_state);
  now ← clock_unix_timestamp;
  current_time ← or_panic (secs_to_nanos now);
  w ← get_world;
  output ← lift (map_err (fun e => match e with
                                   | Returned _ => ETendermint TendermintErr.UpdateClientFailed
                                   | Aborted => EAnchor AnchorErr.Panicked
                                   end)
             (solana_update_client w update_client_state trusted_ibc_state header current_time
                signature_verification_accounts TENDERMINT_ID));
  new_consensus_state ← lift (ok_or (TmConsensusState_try_from (uco_new_consensus_state output))
        (ETendermint TendermintErr.SerializationError));
  mret (uco_latest_height output, new_consensus_state).

(** The result, the consensus state account and the client state. *)
Definition store_consensus_state (account : TmConsensusStateStore) (height : Z)
    (new_consensus_state trusted_consensus_state : TmConsensusState) (client_state : TmClientState)
    : UpdateResult * TmConsensusStateStore * TmClientState :=
  if negb (is_uninitialized account) then
    let state_mismatch := negb (bool_decide (tss_consensus_state account = new_consensus_state)) in
    let timestamp_not_increasing :=
      Z.leb (tmc_timestamp new_consensus_state) (tmc_timestamp trusted_consensus_state) in
    if state_mismatch || timestamp_not_increasing then (Misbehaviour, account, freeze client_state)
    else (NoOp, account, client_state)
  else (UpdateSuccess, mkTmConsensusStateStore height new_consensus_state, client_state).

Definition process_header_update (client_state : TmClientState)
    (trusted_consensus_state new_store : TmConsensusStateStore) (remaining : list Pubkey)
    (header_bytes : bytes) (chunk_count : nat) (target_height trusted_height : Z)
    : M (UpdateResult * TmConsensusStateStore * TmClientState) :=
  header ← lift (tm_deserialize_header header_bytes);
  _ ← require (Z.eqb (revision_height (hd_trusted_height header)) trusted_height)
        TendermintErr.HeightMismatch;
  verified ← verify_and_update_header client_state (tss_consensus_state trusted_consensus_state)
               header (drop chunk_count remaining);
  let '(new_height, new_consensus_state) := verified in
  _ ← require (Z.eqb (revision_height new_height) target_height) TendermintErr.HeightMismatch;
  let '(result, store, client_state) :=
    store_consensus_state new_store (revision_height new_height) new_consensus_state
      (tss_consensus_state trusted_consensus_state) client_state in
  mret (result, store,
        if decide (result = UpdateSuccess) then with_latest_height client_state (IbcHeight_from new_height)
        else client_state).

Definition assemble_and_update_client (cx : CallCtx) (acc : AssembleAndUpdateClientAccounts)
    (target_height chunk_count trusted_height : Z) : M unit :=
  client_state ← load_account TENDERMINT_ID as_TmClientState (ta_client_state acc);
  app_state ← load_account TENDERMINT_ID as_TmAppState (ta_app_state acc);
  trusted ← load_account TENDERMINT_ID as_TmConsensusStateStore (ta_trusted_consensus_state acc);
  _ ← signer cx (ta_submitter acc);
  _ ← system_program (ta_system_program acc);
  _ ← seeds_are (ta_new_consensus_state_store acc) (tm_consensus_seeds target_height) TENDERMINT_ID;
  store ← init_if_needed cx TENDERMINT_ID as_TmConsensusStateStore fresh_consensus_store
            (ta_new_consensus_state_store acc) (ta_submitter acc) (8 + TmConsensusStateStore_INIT_SPACE);
  _ ← seeds_are (ta_client_state acc) [TmClientState_SEED] TENDERMINT_ID;
  _ ← writable cx (ta_client_state acc);
  _ ← seeds_are (ta_app_state acc) [TmAppState_SEED] TENDERMINT_ID;
  _ ← seeds_are (ta_access_manager acc) [AccessManager_SEED] (ams_access_manager (tas_am_state app_state));
  _ ← seeds_are (ta_trusted_consensus_state acc) (tm_consensus_seeds trusted_height) TENDERMINT_ID;
  _ ← writable cx (ta_submitter acc);
  _ ← instructions_sysvar (ta_instructions_sysvar acc);
  _ ← require_role cx (ta_access_manager acc) RELAYER_ROLE (ta_submitter acc)
        (ta_instructions_sysvar acc) TENDERMINT_ID;
  _ ← require (negb (is_frozen client_state)) TendermintErr.ClientFrozen;
  let n := Z.to_nat chunk_count in
  header_bytes ← assemble_header_chunks (ta_submitter acc) (ta_remaining acc) target_height n;
  processed ← process_header_update client_state trusted store (ta_remaining acc) header_bytes n
                target_height trusted_height;
  let '(result, store, client_state) := processed in
  _ ← set_return_data TENDERMINT_ID [UpdateResult_to_u8 result];
  _ ← store_account TENDERMINT_ID (ta_client_state acc) (DTmClientState client_state);
  store_account TENDERMINT_ID (ta_new_consensus_state_store acc) (DTmConsensusStateStore store).

(** ** [instructions/assemble_and_submit_misbehaviour.rs] *)

Record AssembleAndSubmitMisbehaviourAccounts := mkAssembleAndSubmitMisbehaviourAccounts {
  tsm_client_state : Pubkey;
  tsm_app_state : Pubkey;
  tsm_access_manager : Pubkey;
  tsm_trusted_consensus_state_1 : Pubkey;
  tsm_trusted_consensus_state_2 : Pubkey;
  tsm_submitter : Pubkey;
  tsm_instructions_sysvar : Pubkey;
  tsm_remaining : list Pubkey }.

Definition process_misbehaviour (client_state : TmClientState)
    (trusted_1 trusted_2 : TmConsensusStateStore) (misbehaviour_bytes : bytes)
    (signature_verification_accounts : list Pubkey) : M TmClientState :=
  misbehaviour ← lift (tm_deserialize_misbehaviour misbehaviour_bytes);
  tm_client_state ← or_panic (UpdateClientState_from client_state);
  state_1 ← or_panic (IbcConsensusState_from (tss_consensus_state trusted_1));
  state_2 ← or_panic (IbcConsensusState_from (tss_consensus_state trusted_2));
  now ← clock_unix_timestamp;
  current_time ← or_panic (secs_to_nanos now);
  w ← get_world;
  output ← lift (map_err (fun e => match e with
                                   | Returned _ => ETendermint TendermintErr.MisbehaviourCheckFailed
                                   | Aborted => EAnchor AnchorErr.Panicked
                                   end)
             (solana_check_for_misbehaviour w tm_client_state misbehaviour state_1 state_2 current_time
                signature_verification_accounts TENDERMINT_ID));
  _ ← require (Z.eqb (tss_height trusted_1) (revision_height (mbo_trusted_height_1 output)))
        TendermintErr.HeightMismatch;
  _ ← require (Z.eqb (tss_height trusted_2) (revision_height (mbo_trusted_height_2 output)))
        TendermintErr.HeightMismatch;
  mret (freeze client_state).

(** [cleanup_chunks]. *)
Fixpoint cleanup_misbehaviour_chunks (cx : CallCtx) (submitter : Pubkey) (accounts : list Pubkey)
    (index : nat) : M unit :=
  match accounts with
  | [] => mret ()
  | k :: accounts =>
      _ ← check_tm_chunk k (misbehaviour_chunk_seeds submitter (Z.of_nat index));
      _ ← tm_close_account cx k submitter;
      cleanup_misbehaviour_chunks cx submitter accounts (S index)
  end.

Definition assemble_and_submit_misbehaviour (cx : CallCtx) (acc : AssembleAndSubmitMisbehaviourAccounts)
    (chunk_count trusted_height_1 trusted_height_2 : Z) : M unit :=
  client_state ← load_account TENDERMINT_ID as_TmClientState (tsm_client_state acc);
  app_state ← load_account TENDERMINT_ID as_TmAppState (tsm_app_state acc);
  trusted_1 ← load_account TENDERMINT_ID as_TmConsensusStateStore (tsm_trusted_consensus_state_1 acc);
  trusted_2 ← load_account TENDERMINT_ID as_TmConsensusStateStore (tsm_trusted_consensus_state_2 acc);
  _ ← signer cx (tsm_submitter acc);
  _ ← seeds_are (tsm_client_state acc) [TmClientState_SEED] TENDERMINT_ID;
  _ ← writable cx (tsm_client_state acc);
  _ ← seeds_are (tsm_app_state acc) [TmAppState_SEED] TENDERMINT_ID;
  _ ← seeds_are (tsm_access_manager acc) [AccessManager_SEED] (ams_access_manager (tas_am_state app_state));
  _ ← seeds_are (tsm_trusted_consensus_state_1 acc) (tm_consensus_seeds trusted_height_1) TENDERMINT_ID;
  _ ← seeds_are (tsm_trusted_consensus_state_2 acc) (tm_consensus_seeds trusted_height_2) TENDERMINT_ID;
  _ ← writable cx (tsm_submitter acc);
  _ ← instructions_sysvar (tsm_instructions_sysvar acc);
  _ ← require_role cx (tsm_access_manager acc) RELAYER_ROLE (tsm_submitter acc)
        (tsm_instructions_sysvar acc) TENDERMINT_ID;
  _ ← require (negb (is_frozen client_state)) TendermintErr.ClientAlreadyFrozen;
  let n := Z.to_nat chunk_count in
  accounts ← lift (slice (tsm_remaining acc) 0 n);
  misbehaviour_bytes ← load_chunks load_misbehaviour_chunk
                         (misbehaviour_chunk_seeds (tsm_submitter acc)) accounts 0;
  client_state ← process_misbehaviour client_state trusted_1 trusted_2 misbehaviour_bytes
                   (drop n (tsm_remaining acc));
  _ ← cleanup_misbehaviour_chunks cx (tsm_submitter acc) accounts 0;
  store_account TENDERMINT_ID (tsm_client_state acc) (DTmClientState client_state).

(** ** [instructions/pre_verify_signatures.rs] *)

Record PreVerifySignatureAccounts := mkPreVerifySignatureAccounts {
  tp_instructions_sysvar : Pubkey;
  tp_signature_verification : Pubkey;
  tp_app_state : Pubkey;
  tp_access_manager : Pubkey;
  tp_submitter : Pubkey;
  tp_system_program : Pubkey }.

Definition pre_verify_signature (cx : CallCtx) (ix0 : Ix0) (acc : PreVerifySignatureAccounts)
    (signature : SignatureData) : M unit :=
  app_state ← load_account TENDERMINT_ID as_TmAppState (tp_app_state acc);
  _ ← signer cx (tp_submitter acc);
  _ ← system_program (tp_system_program acc);
  _ ← seeds_are (tp_signature_verification acc) (sig_verify_seeds (sd_signature_hash signature)) TENDERMINT_ID;
  _ ← init_account cx TENDERMINT_ID (tp_signature_verification acc) (tp_submitter acc)
        (8 + SignatureVerification_INIT_SPACE);
  _ ← instructions_sysvar (tp_instructions_sysvar acc);
  _ ← seeds_are (tp_app_state acc) [TmAppState_SEED] TENDERMINT_ID;
  _ ← seeds_are (tp_access_manager acc) [AccessManager_SEED] (ams_access_manager (tas_am_state app_state));
  _ ← writable cx (tp_submitter acc);
  _ ← require_role cx (tp_access_manager acc) RELAYER_ROLE (tp_submitter acc)
        (tp_instructions_sysvar acc) TENDERMINT_ID;
  _ ← require (bool_decide (sd_signature_hash signature =
                 sig_hash (sd_pubkey signature) (sd_msg signature) (sd_signature signature)))
        TendermintErr.InvalidAccountData;
  let is_valid := verify_ed25519_from_sysvar ix0 (sd_pubkey signature) (sd_msg signature)
                    (sd_signature signature) in
  store_account TENDERMINT_ID (tp_signature_verification acc)
    (DSignatureVerification (mkSignatureVerification is_valid (tp_submitter acc))).

(** ** [instructions/cleanup_incomplete_upload.rs] and [..._misbehaviour.rs] *)

Record TmCleanupAccounts := mkTmCleanupAccounts {
  tcl_submitter : Pubkey;
  tcl_remaining : list Pubkey }.

Definition is_owned_by_submitter (d : AccountData) (submitter : Pubkey) : bool :=
  match d with
  | DHeaderChunk chunk => bool_decide (hch_submitter chunk = submitter)
  | DSignatureVerification sig => bool_decide (sgv_submitter sig = submitter)
  | _ => false
  end.

Fixpoint cleanup_upload_from (cx : CallCtx) (submitter : Pubkey) (accounts : list Pubkey) : M unit :=
  match accounts with
  | [] => mret ()
  | k :: accounts =>
      w ← get_world;
      _ ← match w_accts w !! k with
          | Some a =>
              if negb (bool_decide (acc_owner a = TENDERMINT_ID)) || Z.eqb (lam w k) 0 then mret ()
              else if is_owned_by_submitter (acc_data a) submitter then tm_close_account cx k submitter
              else mret ()
          | None => mret ()
          end;
      cleanup_upload_from cx submitter accounts
  end.

Definition cleanup_incomplete_upload (cx : CallCtx) (acc : TmCleanupAccounts) : M unit :=
  _ ← signer cx (tcl_submitter acc);
  _ ← writable cx (tcl_submitter acc);
  cleanup_upload_from cx (tcl_submitter acc) (tcl_remaining acc).

Fixpoint cleanup_misbehaviour_from (cx : CallCtx) (submitter : Pubkey) (accounts : list Pubkey)
    (index : nat) : M unit :=
  match accounts with
  | [] => mret ()
  | k :: accounts =>
      expected_chunk_pda ← derive_pda (misbehaviour_chunk_seeds submitter (Z.of_nat index)) TENDERMINT_ID;
      w ← get_world;
      _ ← (if bool_decide (k = expected_chunk_pda) && bool_decide (owner_of w k = TENDERMINT_ID) &&
              Z.ltb 0 (lam w k)
           then tm_close_account cx k submitter else mret ());
      cleanup_misbehaviour_from cx submitter accounts (S index)
  end.

Definition cleanup_incomplete_misbehaviour (cx : CallCtx) (acc : TmCleanupAccounts) : M unit :=
  _ ← signer cx (tcl_submitter acc);
  _ ← writable cx (tcl_submitter acc);
  cleanup_misbehaviour_from cx (tcl_submitter acc) (tcl_remaining acc) 0.

(** ** [instructions/verify_membership.rs], [verify_non_membership.rs] *)

Record TmVerifyAccounts := mkTmVerifyAccounts {
  tv_client_state : Pubkey;
  tv_consensus_state_at_height : Pubkey }.

Definition tm_verify_accounts (acc : TmVerifyAccounts) (height : TmClientState -> Z)
    : M (TmClientState * TmConsensusStateStore) :=
  client_state ← load_account TENDERMINT_ID as_TmClientState (tv_client_state acc);
  store ← load_account TENDERMINT_ID as_TmConsensusStateStore (tv_consensus_state_at_height acc);
  _ ← seeds_are (tv_client_state acc) [TmClientState_SEED] TENDERMINT_ID;
  _ ← seeds_are (tv_consensus_state_at_height acc) (tm_consensus_seeds (height client_state)) TENDERMINT_ID;
  mret (client_state, store).

Definition tm_verify_membership (acc : TmVerifyAccounts) (msg : MembershipMsg) : M unit :=
  states ← tm_verify_accounts acc (fun _ => mm_height msg);
  let '(client_state, store) := states in
  _ ← require (negb (bool_decide (mm_value msg = []))) TendermintErr.MembershipEmptyValue;
  _ ← require (Z.eqb (mm_height msg) (tss_height store)) TendermintErr.HeightMismatch;
  _ ← require (negb (is_frozen client_state)) TendermintErr.ClientFrozen;
  proof ← lift (deserialize_merkle_proof (mm_proof msg));
  _ ← lift (map_err (fun _ => ETendermint TendermintErr.MembershipVerificationFailed)
        (membership SolanaHostFunctionsManager (tmc_root (tss_consensus_state store))
           [(mkKVPair (mm_path msg) (mm_value msg), proof)]));
  mret ().

Definition tm_verify_non_membership (acc : TmVerifyAccounts) (msg : NonMembershipMsg) : M unit :=
  states ← tm_verify_accounts acc (fun _ => nm_height msg);
  let '(client_state, store) := states in
  _ ← require (Z.eqb (nm_height msg) (tss_height store)) TendermintErr.HeightMismatch;
  _ ← require (negb (is_frozen client_state)) TendermintErr.ClientFrozen;
  proof ← lift (deserialize_merkle_proof (nm_proof msg));
  _ ← lift (map_err (fun _ => ETendermint TendermintErr.NonMembershipVerificationFailed)
        (membership SolanaHostFunctionsManager (tmc_root (tss_consensus_state store))
           [(mkKVPair (nm_path msg) [], proof)]));
  set_return_data TENDERMINT_ID
    (u64_to_le_bytes (nanos_to_secs (tmc_timestamp (tss_consensus_state store)))).

(** ** [instructions/client_status.rs] *)

Definition tm_status (client_state : TmClientState) (consensus_state : TmConsensusState) (now : Z)
    : ClientStatus :=
  if is_frozen client_state then Frozen
  else
    let consensus_ts_secs := as_i64 (nanos_to_secs (tmc_timestamp consensus_state)) in
    let elapsed := i64_saturating_sub now consensus_ts_secs in
    if Z.ltb (as_i64 (tcs_trusting_period client_state)) elapsed then Expired else Active.

Definition tm_client_status (acc : TmVerifyAccounts) : M unit :=
  states ← tm_verify_accounts acc (fun cs => ih_revision_height (tcs_latest_height cs));
  let '(client_state, store) := states in
  now ← clock_unix_timestamp;
  set_return_data TENDERMINT_ID
    [ClientStatus_to_u8 (tm_status client_state (tss_consensus_state store) now)].

(** ** [instructions/access_manager_transfer.rs] *)

Record TmTransferAccounts := mkTmTransferAccounts {
  tt_app_state : Pubkey;
  tt_access_manager : Pubkey;
  tt_admin : Pubkey;
  tt_instructions_sysvar : Pubkey }.

(** The three instructions: [program] is the access manager whose account is
    checked, [update] the operation on the embedded state. *)
Definition tm_transfer (cx : CallCtx) (acc : TmTransferAccounts)
    (program : AccessManagerState -> M Pubkey)
    (update : AccessManagerState -> M AccessManagerState) : M unit :=
  s ← load_account TENDERMINT_ID as_TmAppState (tt_app_state acc);
  _ ← signer cx (tt_admin acc);
  _ ← seeds_are (tt_app_state acc) [TmAppState_SEED] TENDERMINT_ID;
  _ ← writable cx (tt_app_state acc);
  p ← program (tas_am_state s);
  _ ← seeds_are (tt_access_manager acc) [AccessManager_SEED] p;
  _ ← instructions_sysvar (tt_instructions_sysvar acc);
  am ← update (tas_am_state s);
  store_account TENDERMINT_ID (tt_app_state acc) (DTmAppState (mkTmAppState am)).

Definition tm_propose_access_manager_transfer (cx : CallCtx) (acc : TmTransferAccounts)
    (new_access_manager : Pubkey) : M unit :=
  tm_transfer cx acc (fun am => mret (ams_access_manager am)) (fun am =>
    propose_transfer cx am new_access_manager (tt_access_manager acc) (tt_admin acc)
      (tt_instructions_sysvar acc) TENDERMINT_ID).

Definition tm_accept_access_manager_transfer (cx : CallCtx) (acc : TmTransferAccounts) : M unit :=
  tm_transfer cx acc
    (fun am => lift (ok_or (ams_pending_access_manager am)
                       (EAccessManager AccessManagerErr.NoPendingAccessManagerTransfer)))
    (fun am => accept_transfer cx am (tt_access_manager acc) (tt_admin acc)
                 (tt_instructions_sysvar acc) TENDERMINT_ID).

Definition tm_cancel_access_manager_transfer (cx : CallCtx) (acc : TmTransferAccounts) : M unit :=
  tm_transfer cx acc (fun am => mret (ams_access_manager am)) (fun am =>
    cancel_transfer cx am (tt_access_manager acc) (tt_admin acc) (tt_instructions_sysvar acc)
      TENDERMINT_ID).

(** ** [lib.rs]: the entry point *)

Inductive TmIx :=
| TInitialize (acc : TmInitializeAccounts) (client_state : TmClientState)
    (consensus_state : TmConsensusState) (access_manager : Pubkey)
| TProposeAccessManagerTransfer (acc : TmTransferAccounts) (new_access_manager : Pubkey)
| TAcceptAccessManagerTransfer (acc : TmTransferAccounts)
| TCancelAccessManagerTransfer (acc : TmTransferAccounts)
| TVerifyMembership (acc : TmVerifyAccounts) (msg : MembershipMsg)
| TVerifyNonMembership (acc : TmVerifyAccounts) (msg : NonMembershipMsg)
| TUploadHeaderChunk (acc : TmUploadAccounts) (params : UploadChunkParams)
| TAssembleAndUpdateClient (acc : AssembleAndUpdateClientAccounts) (target_height chunk_count trusted_height : Z)
| TCleanupIncompleteUpload (acc : TmCleanupAccounts)
| TUploadMisbehaviourChunk (acc : TmUploadAccounts) (params : UploadMisbehaviourChunkParams)
| TAssembleAndSubmitMisbehaviour (acc : AssembleAndSubmitMisbehaviourAccounts)
    (chunk_count trusted_height_1 trusted_height_2 : Z)
| TCleanupIncompleteMisbehaviour (acc : TmCleanupAccounts)
| TPreVerifySignature (acc : PreVerifySignatureAccounts) (signature : SignatureData)
| TClientStatus (acc : TmVerifyAccounts).

(** [ix0] is the first instruction of the transaction. *)
Definition exec_tm (cx : CallCtx) (ix0 : Ix0) (ix : TmIx) : M unit :=
  match ix with
  | TInitialize acc cs c am => tm_initialize cx acc cs c am
  | TProposeAccessManagerTransfer acc am => tm_propose_access_manager_transfer cx acc am
  | TAcceptAccessManagerTransfer acc => tm_accept_access_manager_transfer cx acc
  | TCancelAccessManagerTransfer acc => tm_cancel_access_manager_transfer cx acc
  | TVerifyMembership acc msg => tm_verify_membership acc msg
  | TVerifyNonMembership acc msg => tm_verify_non_membership acc msg
  | TUploadHeaderChunk acc params => upload_header_chunk cx acc params
  | TAssembleAndUpdateClient acc h n t => assemble_and_update_client cx acc h n t
  | TCleanupIncompleteUpload acc => cleanup_incomplete_upload cx acc
  | TUploadMisbehaviourChunk acc params => upload_misbehaviour_chunk cx acc params
  | TAssembleAndSubmitMisbehaviour acc n h1 h2 => assemble_and_submit_misbehaviour cx acc n h1 h2
  | TCleanupIncompleteMisbehaviour acc => cleanup_incomplete_misbehaviour cx acc
  | TPreVerifySignature acc signature => pre_verify_signature cx ix0 acc signature
  | TClientStatus acc => tm_client_status acc
  end.

End Tendermint.
