(* ===== verification/TendermintSpec.v ===== *)
(** * The Tendermint light client: its instructions

    The accounts of [programs/ics07-tendermint] as named keys, and what an
    instruction does to the client's state ([t_trans]), for the invariants of
    [TendermintState.v].  The uploaded chunks and the pre-verified signatures
    are scratch data: they live at other addresses than the client's state, and
    [sig_rel] says how an instruction changes the signatures.  The contract of
    each instruction, scratch data included, is in [TendermintStep.v]. *)

From S2P Require Import Prelude Errors Types Runtime Cpi AccessManager AccessManagerSpec Keyed Chunking.
From S2P Require Import BorshHeader TmLightClient TmLightClientSpec Tendermint.
From Stdlib Require Import ZArith Lia.
From Stdlib.Strings Require Import Byte.
From stdpp Require Import prelude strings gmap list.

#[local] Open Scope Z_scope.

(** ** The program's accounts *)

Inductive TmKey :=
| TKClient
| TKApp
| TKCons (height : Z).

#[export] Instance TmKey_eq_dec : EqDecision TmKey.
Proof. solve_decision. Defined.

Definition tk_seeds (K : TmKey) : list bytes :=
  match K with
  | TKClient => [TmClientState_SEED]
  | TKApp => [TmAppState_SEED]
  | TKCons h => tm_consensus_seeds h
  end.

Definition tk_typed (K : TmKey) : Prop :=
  match K with TKCons h => is_u64 h | _ => True end.

Definition tk `{Platform} (K : TmKey) : Pubkey := pda_key (tk_seeds K) TENDERMINT_ID.

Section TmKeys.
Context `{Platform} `{!PlatformOk}.

Lemma tk_inj K K' : tk_typed K -> tk_typed K' -> tk K = tk K' -> K = K'.
Proof.
  intros HK HK' [E _]%pda_inj. destruct K as [| |h], K' as [| |h']; try done;
    try (simpl in E; discriminate E).
  change (TmConsensusStateStore_SEED ++ u64_to_le_bytes h ++ [] =
          TmConsensusStateStore_SEED ++ u64_to_le_bytes h' ++ []) in E.
  rewrite !app_nil_r in E. apply app_inv_head in E. f_equal. by apply u64_to_le_bytes_inj.
Qed.

#[export] Instance tk_ok : KeysOk TENDERMINT_ID tk tk_typed.
Proof. split; [intros K; apply pda_key_is_pda|apply tk_inj]. Qed.

Lemma tk_not_am K program : tk K <> pda_key [AccessManager_SEED] program.
Proof. intros [E _]%pda_inj. destruct K; simpl in E; discriminate E. Qed.

(** The addresses of the scratch data are no key's. *)
Lemma header_chunk_not_tk s h i K : pda_key (header_chunk_seeds s h i) TENDERMINT_ID <> tk K.
Proof. intros [E _]%pda_inj. destruct K; simpl in E; discriminate E. Qed.

Lemma misbehaviour_chunk_not_tk s i K : pda_key (misbehaviour_chunk_seeds s i) TENDERMINT_ID <> tk K.
Proof. intros [E _]%pda_inj. destruct K; simpl in E; discriminate E. Qed.

Lemma sig_key_not_tk h K : sig_verify_key h <> tk K.
Proof. intros [E _]%pda_inj. destruct K; simpl in E; discriminate E. Qed.

Lemma sig_key_inj h h' : sig_verify_key h = sig_verify_key h' -> h = h'.
Proof.
  intros [E _]%pda_inj. unfold sig_verify_seeds in E. simpl in E. rewrite !app_nil_r in E.
  by repeat (injection E as E).
Qed.

Lemma header_chunk_not_sig s h i x : pda_key (header_chunk_seeds s h i) TENDERMINT_ID <> sig_verify_key x.
Proof. intros [E _]%pda_inj. simpl in E. discriminate E. Qed.

Lemma misbehaviour_chunk_not_sig s i x : pda_key (misbehaviour_chunk_seeds s i) TENDERMINT_ID <> sig_verify_key x.
Proof. intros [E _]%pda_inj. simpl in E. discriminate E. Qed.

End TmKeys.

Notation tm_stored w K d := (held TENDERMINT_ID w (tk K) d).
Notation tm_evol := (evol_at TENDERMINT_ID tk tk_typed).

(** Turns a loaded account whose address was checked into [tm_stored]. *)
Ltac tm_to_stored :=
  repeat match goal with
  | Hl : w_accts ?w !! ?k = Some ?a, Ho : acc_owner ?a = TENDERMINT_ID,
    Hd : as_TmClientState (acc_data ?a) = Some ?x,
    Hk : ?k = pda_key [TmClientState_SEED] TENDERMINT_ID |- _ =>
      assert (tm_stored w TKClient (DTmClientState x)) by
        exact (held_intro w k a _ _ x TKClient as_TmClientState_Some Hl Ho Hd Hk);
      clear Hl Ho Hd
  | Hl : w_accts ?w !! ?k = Some ?a, Ho : acc_owner ?a = TENDERMINT_ID,
    Hd : as_TmAppState (acc_data ?a) = Some ?x,
    Hk : ?k = pda_key [TmAppState_SEED] TENDERMINT_ID |- _ =>
      assert (tm_stored w TKApp (DTmAppState x)) by
        exact (held_intro w k a _ _ x TKApp as_TmAppState_Some Hl Ho Hd Hk);
      clear Hl Ho Hd
  | Hl : w_accts ?w !! ?k = Some ?a, Ho : acc_owner ?a = TENDERMINT_ID,
    Hd : as_TmConsensusStateStore (acc_data ?a) = Some ?x,
    Hk : ?k = pda_key (tm_consensus_seeds ?h) TENDERMINT_ID |- _ =>
      assert (tm_stored w (TKCons h) (DTmConsensusStateStore x)) by
        exact (held_intro w k a _ _ x (TKCons h) as_TmConsensusStateStore_Some Hl Ho Hd Hk);
      clear Hl Ho Hd
  end.

(** ** Transitions *)

Section TmTransitions.
Context `{Platform} `{TendermintLib}.

(** A relayer of the program's access manager. *)
Definition tm_relayer (cx : CallCtx) (w : World) : Prop :=
  exists app s, tm_stored w TKApp (DTmAppState app) /\
    holder_of TENDERMINT_ID cx w (ams_access_manager (tas_am_state app)) RELAYER_ROLE s.

(** The client [cs], at the time [now], takes the header [hd] from the trusted
    state [c] to the state [c']: the standard verification of tendermint-rs
    accepts it, unless an invalid vote of it has the digest of a valid one. *)
Definition accepted (cs : TmClientState) (c : TmConsensusState) (now : Z) (hd : IbcHeader)
    (c' : TmConsensusState) : Prop :=
  exists ucs ics t, UpdateClientState_from cs = Some ucs /\ IbcConsensusState_from c = Some ics /\
    secs_to_nanos now = Some t /\ TmConsensusState_try_from (ConsensusState_from hd) = Some c' /\
    0 < revision_height (header_height hd) /\
    (update_client ucs ics hd t =
       Ok (mkUpdateClientOutput (ConsensusState_from hd) (header_height hd) (hd_trusted_height hd)) \/
     votes_collide (header_votes hd)).

(** The same for evidence against the validators. *)
Definition misbehaved (cs : TmClientState) (c1 c2 : TmConsensusState) (now : Z) (mb : IbcMisbehaviour)
    : Prop :=
  exists ucs i1 i2 t, UpdateClientState_from cs = Some ucs /\ IbcConsensusState_from c1 = Some i1 /\
    IbcConsensusState_from c2 = Some i2 /\ secs_to_nanos now = Some t /\
    (check_for_misbehaviour ucs mb i1 i2 t =
       Ok (mkMisbehaviourOutput (hd_trusted_height (mb_header1 mb)) (hd_trusted_height (mb_header2 mb))
             i1 i2 t) \/
     votes_collide (misbehaviour_votes mb)).

(** The state for the height [h] contradicts the stored one, or its time does
    not come after the trusted one's. *)
Definition contradicts (st trusted : TmConsensusStateStore) (c' : TmConsensusState) : Prop :=
  tss_consensus_state st <> c' \/ tmc_timestamp c' <= tmc_timestamp (tss_consensus_state trusted).

Definition tm_params_ok (cs : TmClientState) : Prop :=
  tcs_chain_id cs <> [] /\
  0 < tcs_trust_level_numerator cs <= tcs_trust_level_denominator cs /\
  0 < tcs_trusting_period cs < tcs_unbonding_period cs /\ 0 < tcs_max_clock_drift cs /\
  0 < ih_revision_height (tcs_latest_height cs).

(** A header submitted to the client: [th] is the trusted height, [st] the
    state stored there, [c'] the new state. *)
Record update (cx : CallCtx) (w : World) (cs : TmClientState) (th : Z) (st : TmConsensusStateStore)
    (hd : IbcHeader) (c' : TmConsensusState) : Prop := {
  up_relayer : tm_relayer cx w;
  up_client : tm_stored w TKClient (DTmClientState cs);
  up_active : is_frozen cs = false;
  up_trusted : tm_stored w (TKCons th) (DTmConsensusStateStore st);
  up_typed : is_u64 th;
  up_height : revision_height (hd_trusted_height hd) = th;
  up_accepted : accepted cs (tss_consensus_state st) (w_clock w) hd c' }.

(** What can happen to the client's accounts in one instruction.  [TM_other]
    stands for the instructions that leave them alone. *)
Inductive t_trans (cx : CallCtx) (w : World) : list (TmKey * AccountData) -> list LogEntry -> Prop :=
| TM_initialize s cs c am :
    w_accts w !! tk TKClient = None -> w_accts w !! tk TKApp = None ->
    w_accts w !! tk (TKCons (ih_revision_height (tcs_latest_height cs))) = None ->
    s ∈ cx_signers cx -> upgrade_authority_of w TENDERMINT_ID s -> am <> Pubkey_default ->
    tm_params_ok cs -> is_u64 (tmc_timestamp c) ->
    let latest := ih_revision_height (tcs_latest_height cs) in
    t_trans cx w
      [(TKClient, DTmClientState cs);
       (TKCons latest, DTmConsensusStateStore (mkTmConsensusStateStore latest c));
       (TKApp, DTmAppState (mkTmAppState (AccessManagerState_new am)))] []
| TM_update cs th st hd c' :
    update cx w cs th st hd c' ->
    let h := revision_height (header_height hd) in
    (w_accts w !! tk (TKCons h) = None \/
     exists st0, tm_stored w (TKCons h) (DTmConsensusStateStore st0) /\ is_uninitialized st0 = true) ->
    t_trans cx w
      [(TKClient, DTmClientState (with_latest_height cs (IbcHeight_from (header_height hd))));
       (TKCons h, DTmConsensusStateStore (mkTmConsensusStateStore h c'))] []
| TM_noop cs th st hd c' st0 :
    update cx w cs th st hd c' ->
    let h := revision_height (header_height hd) in
    tm_stored w (TKCons h) (DTmConsensusStateStore st0) -> is_uninitialized st0 = false ->
    ~ contradicts st0 st c' ->
    t_trans cx w [(TKClient, DTmClientState cs); (TKCons h, DTmConsensusStateStore st0)] []
| TM_conflict cs th st hd c' st0 :
    update cx w cs th st hd c' ->
    let h := revision_height (header_height hd) in
    tm_stored w (TKCons h) (DTmConsensusStateStore st0) -> is_uninitialized st0 = false ->
    contradicts st0 st c' ->
    t_trans cx w [(TKClient, DTmClientState (freeze cs)); (TKCons h, DTmConsensusStateStore st0)] []
| TM_misbehaviour cs th1 th2 st1 st2 mb :
    tm_relayer cx w -> tm_stored w TKClient (DTmClientState cs) -> is_frozen cs = false ->
    tm_stored w (TKCons th1) (DTmConsensusStateStore st1) -> is_u64 th1 ->
    tm_stored w (TKCons th2) (DTmConsensusStateStore st2) -> is_u64 th2 ->
    tss_height st1 = revision_height (hd_trusted_height (mb_header1 mb)) ->
    tss_height st2 = revision_height (hd_trusted_height (mb_header2 mb)) ->
    misbehaved cs (tss_consensus_state st1) (tss_consensus_state st2) (w_clock w) mb ->
    t_trans cx w [(TKClient, DTmClientState (freeze cs))] []
| TM_propose app s n :
    tm_stored w TKApp (DTmAppState app) ->
    admin_at TENDERMINT_ID cx w (ams_access_manager (tas_am_state app)) s ->
    ams_pending_access_manager (tas_am_state app) = None ->
    t_trans cx w [(TKApp, DTmAppState (mkTmAppState
        (mkAccessManagerState (ams_access_manager (tas_am_state app)) (Some n))))]
      [LEvent TENDERMINT_ID (AccessManagerTransferProposed (ams_access_manager (tas_am_state app)) n)]
| TM_accept app s n :
    tm_stored w TKApp (DTmAppState app) ->
    ams_pending_access_manager (tas_am_state app) = Some n -> admin_at TENDERMINT_ID cx w n s ->
    t_trans cx w [(TKApp, DTmAppState (mkTmAppState (mkAccessManagerState n None)))]
      [LEvent TENDERMINT_ID (AccessManagerTransferAccepted (ams_access_manager (tas_am_state app)) n)]
| TM_cancel app s n :
    tm_stored w TKApp (DTmAppState app) ->
    ams_pending_access_manager (tas_am_state app) = Some n ->
    admin_at TENDERMINT_ID cx w (ams_access_manager (tas_am_state app)) s ->
    t_trans cx w [(TKApp, DTmAppState (mkTmAppState
        (mkAccessManagerState (ams_access_manager (tas_am_state app)) None)))]
      [LEvent TENDERMINT_ID (AccessManagerTransferCancelled (ams_access_manager (tas_am_state app)) n)]
| TM_other : t_trans cx w [] [].

(** The types of the arguments. *)
Definition tm_ix_typed (ix : TmIx) : Prop :=
  match ix with
  | TInitialize _ cs c _ => is_u64 (ih_revision_height (tcs_latest_height cs)) /\ is_u64 (tmc_timestamp c)
  | TAssembleAndUpdateClient _ h _ th => is_u64 h /\ is_u64 th
  | TAssembleAndSubmitMisbehaviour _ _ h1 h2 => is_u64 h1 /\ is_u64 h2
  | TPreVerifySignature _ s => length (sd_pubkey s) = 32%nat /\ length (sd_signature s) = 64%nat
  | _ => True
  end.

End TmTransitions.

(** ** Pre-verified signatures *)

Section Signatures.
Context `{Platform} `{!PlatformOk} `{TendermintLib}.

(** What the program keeps at the address for the digest [h]. *)
Definition sig_value (h : bytes) (d : AccountData) : Prop :=
  d = DZeroed \/ exists v, d = DSignatureVerification v /\ (sgv_is_valid v = true -> genuine h).

Definition sig_inv (w : World) : Prop :=
  forall h a, w_accts w !! sig_verify_key h = Some a -> sig_value h (acc_data a).

(** An instruction keeps the signatures, clears them or adds checked ones. *)
Definition sig_rel (w w' : World) : Prop :=
  forall h a, w_accts w' !! sig_verify_key h = Some a ->
    w_accts w !! sig_verify_key h = Some a \/ sig_value h (acc_data a).

#[export] Instance sig_rel_refl : Reflexive sig_rel.
Proof. intros w h a. by left. Qed.
#[export] Instance sig_rel_trans : Transitive sig_rel.
Proof. intros w1 w2 w3 R1 R2 h a Ha. destruct (R2 h a Ha) as [Ha2|]; [by apply R1|by right]. Qed.

Lemma sig_inv_rel w w' : sig_inv w -> sig_rel w w' -> sig_inv w'.
Proof. intros Hi Hr h a Ha. destruct (Hr h a Ha) as [Ha'|]; [by apply Hi|done]. Qed.

Lemma sig_inv_truthful w : sig_inv w -> truthful TENDERMINT_ID w.
Proof.
  intros Hi h a Ha. unfold is_valid_byte. destruct (Hi h a Ha) as [->|(v & -> & Hg)].
  - by destruct (Z.ltb _ _).
  - destruct (sgv_is_valid v); [auto|done].
Qed.

Lemma sig_rel_insert w w' k a :
  w_accts w' = <[k := a]> (w_accts w) -> (forall h, k = sig_verify_key h -> sig_value h (acc_data a)) ->
  sig_rel w w'.
Proof.
  intros E Hk h a'. rewrite E. intros [[Ek <-]|[_ Ha]]%lookup_insert_Some; [right; by apply Hk|by left].
Qed.

Lemma sig_rel_same w w' : w_accts w' = w_accts w -> sig_rel w w'.
Proof. intros E h a. rewrite E. by left. Qed.

Lemma sig_rel_init cx k payer sp w u w' :
  init_account cx TENDERMINT_ID k payer sp w = Ok (u, w') -> sig_rel w w'.
Proof. intros (_ & _ & Hacc & _)%init_account_Ok. eapply sig_rel_insert; [exact Hacc|]. intros h _. by left. Qed.

Lemma sig_rel_init_if_needed {A} cx (proj : AccountData -> option A) fresh k payer sp w x w' :
  init_if_needed cx TENDERMINT_ID proj fresh k payer sp w = Ok (x, w') -> sig_rel w w'.
Proof. intros [_ [(_ & _ & Hi)|(-> & _)]]%init_if_needed_Ok; [by eapply sig_rel_init|done]. Qed.

Lemma sig_rel_store k d w u w' :
  (forall h, k = sig_verify_key h -> sig_value h d) -> store_account TENDERMINT_ID k d w = Ok (u, w') ->
  sig_rel w w'.
Proof. intros Hk (a & _ & _ & _ & ->)%store_account_Ok. by eapply sig_rel_insert. Qed.

Lemma sig_rel_drain cx overflow k recipient w u w' :
  drain_account cx TENDERMINT_ID overflow k recipient w = Ok (u, w') -> sig_rel w w'.
Proof.
  intros (_ & _ & _ & _ & (a & _ & _ & Hacc) & _)%drain_account_Ok.
  eapply sig_rel_insert; [exact Hacc|]. intros h _. by left.
Qed.

Lemma sig_rel_frame w w' : frame TENDERMINT_ID w w' -> sig_rel w w'.
Proof.
  intros (Ha & _) h a. rewrite Ha; [by left|]. left. apply pda_key_is_pda.
Qed.

Lemma sig_rel_others w w' : others TENDERMINT_ID w w' -> sig_rel w w'.
Proof.
  intros [F|(k & _ & ->)]; [by apply sig_rel_frame|]. intros h a. simpl.
  intros [_ Ha]%lookup_delete_Some. by left.
Qed.

Context `{!TendermintLibOk}.

(** The Ed25519 program ran on the data it was given. *)
Definition ix0_ran (ix0 : Ix0) : Prop :=
  fst ix0 = ED25519_PROGRAM_ID -> precompile_accepts (snd ix0) = true.

Lemma verify_ed25519_sound ix0 k m g :
  ix0_ran ix0 -> verify_ed25519_from_sysvar ix0 k m g = true -> ed25519_verify k m g = true.
Proof.
  destruct ix0 as [p data]. unfold ix0_ran, verify_ed25519_from_sysvar. simpl. intros Hp.
  repeat match goal with |- context [if ?b then false else _] => destruct b eqn:?; [done|] end.
  repeat match goal with
  | E : _ || _ = false |- _ => apply orb_false_iff in E as [E ?]
  | E : negb _ = false |- _ => apply negb_false_iff in E
  | E : bool_decide _ = true |- _ => apply bool_decide_eq_true in E
  | E : (_ <? _)%nat = false |- _ => apply Nat.ltb_ge in E
  | E : (_ =? _)%nat = true |- _ => apply Nat.eqb_eq in E
  | E : all_instruction_indices_inline _ = true |- _ => apply andb_true_iff in E as [E ?]
  | E : _ && _ = true |- _ => apply andb_true_iff in E as [E ?]
  | E : Z.eqb _ _ = true |- _ => apply Z.eqb_eq in E
  end. subst p.
  intros Hv. repeat (apply andb_true_iff in Hv as [Hv ?%bool_decide_eq_true]).
  apply bool_decide_eq_true in Hv. rewrite <- Hv.
  repeat match goal with E : bytes_at _ _ _ = _ |- _ => rewrite <- E; clear E end.
  apply precompile_sound; try done; [by apply Hp|].
  intros i Hi. repeat (apply elem_of_cons in Hi as [->|Hi]; [done|]). by apply not_elem_of_nil in Hi.
Qed.

End Signatures.

(** ** What the handlers compute *)

Section Handlers.
Context `{Platform} `{!PlatformOk} `{TendermintLib} `{!TendermintLibOk}.

Lemma or_panic_Ok {A} (o : option A) w a w' : or_panic o w = Ok (a, w') <-> o = Some a /\ w' = w.
Proof. unfold or_panic. by rewrite lift_Ok, ok_or_ok. Qed.

(** The chunks are read at their addresses, and nothing is written. *)
Lemma load_chunks_Ok (load : Pubkey -> M bytes) seeds_at accounts i w b w' :
  (forall k w b w', load k w = Ok (b, w') -> w' = w) ->
  load_chunks load seeds_at accounts i w = Ok (b, w') ->
  w' = w /\ exists bs, b = concat bs /\
    Forall2 (fun k x => owner_of w k = TENDERMINT_ID /\ load k w = Ok (x, w)) accounts bs /\
    accounts = imap (fun j _ => pda_key (seeds_at (Z.of_nat (i + j))) TENDERMINT_ID) accounts.
Proof.
  intros Hload. revert i b. induction accounts as [|k accounts IH]; intros i b Hr; simpl in Hr.
  { minv. split; [done|]. exists []. split_and!; [done|constructor|done]. }
  unfold check_tm_chunk in Hr. minv. pose proof (Hload _ _ _ _ Hm0) as ->.
  apply IH in Hm1 as (-> & bs & -> & Hf & E). split; [done|]. exists (a0 :: bs).
  split_and!; [done|by constructor|]. simpl. rewrite Nat.add_0_r. f_equal; [done|].
  rewrite E at 1. apply imap_ext. intros j x _. simpl. by rewrite Nat.add_succ_r.
Qed.

Lemma load_header_chunk_Ok k w b w' :
  load_header_chunk k w = Ok (b, w') ->
  w' = w /\ exists a c, w_accts w !! k = Some a /\ acc_data a = DHeaderChunk c /\ hch_chunk_data c = b.
Proof. unfold load_header_chunk. intros Hr. minv. apply as_HeaderChunk_Some in Hm. eauto 10. Qed.

Lemma load_misbehaviour_chunk_Ok k w b w' :
  load_misbehaviour_chunk k w = Ok (b, w') ->
  w' = w /\ exists a c, w_accts w !! k = Some a /\ acc_data a = DMisbehaviourChunk c /\ mch_chunk_data c = b.
Proof. unfold load_misbehaviour_chunk. intros Hr. minv. apply as_MisbehaviourChunk_Some in Hm. eauto 10. Qed.

Lemma assemble_header_chunks_Ok s remaining h n w b w' :
  assemble_header_chunks s remaining h n w = Ok (b, w') -> w' = w.
Proof.
  unfold assemble_header_chunks. intros Hr. minv. apply load_chunks_Ok in Hr as [-> _]; [done|].
  intros k w1 b1 w2 Hl. by apply load_header_chunk_Ok in Hl as [-> _].
Qed.

Lemma verify_header_update_Ok cs c hd accounts w h c' w' :
  verify_and_update_header cs c hd accounts w = Ok ((h, c'), w') ->
  w' = w /\ h = header_height hd /\ (sig_inv w -> accepted cs c (w_clock w) hd c').
Proof.
  unfold verify_and_update_header. intros Hr.
  repeat match goal with
  | E : or_panic _ _ = Ok _ |- _ => apply or_panic_Ok in E as [? ->]
  | _ => minv_step
  end.
  match goal with E : map_err _ _ = Ok _ |- _ => apply map_err_ok in E end.
  match goal with E : ok_or _ _ = Ok _ |- _ => apply ok_or_ok in E end.
  match goal with E : (_, _) = (_, _) |- _ => injection E as -> -> end.
  match goal with E : solana_update_client _ _ _ _ _ _ _ = Ok _ |- _ =>
    pose proof (verify_and_create_output_Ok _ _ _ _ _ _ _ E) as [-> Hpos] end.
  simpl in *. split_and!; [done|done|]. intros Hi%sig_inv_truthful.
  eexists _, _, _. split_and!; try done. by eapply solana_update_sound.
Qed.

Lemma contradicts_bool st trusted c' :
  negb (bool_decide (tss_consensus_state st = c')) ||
    Z.leb (tmc_timestamp c') (tmc_timestamp (tss_consensus_state trusted)) = true <->
  contradicts st trusted c'.
Proof.
  unfold contradicts. rewrite orb_true_iff, negb_true_iff, bool_decide_eq_false, Z.leb_le. done.
Qed.

Lemma process_header_update_Ok cs trusted st remaining b n h th w r st' cs' w' :
  process_header_update cs trusted st remaining b n h th w = Ok ((r, st', cs'), w') ->
  w' = w /\ exists hd c', tm_deserialize_header b = Ok hd /\ revision_height (hd_trusted_height hd) = th /\
    revision_height (header_height hd) = h /\
    (sig_inv w -> accepted cs (tss_consensus_state trusted) (w_clock w) hd c') /\
    ((is_uninitialized st = true /\ r = UpdateSuccess /\ st' = mkTmConsensusStateStore h c' /\
      cs' = with_latest_height cs (IbcHeight_from (header_height hd))) \/
     (is_uninitialized st = false /\ ~ contradicts st trusted c' /\ r = NoOp /\ st' = st /\ cs' = cs) \/
     (is_uninitialized st = false /\ contradicts st trusted c' /\ r = Misbehaviour /\ st' = st /\
      cs' = freeze cs)).
Proof.
  unfold process_header_update. intros Hr. minv.
  match goal with E : verify_and_update_header _ _ _ _ _ = Ok (?v, _) |- _ =>
    destruct v as [h' c']; apply verify_header_update_Ok in E as (-> & -> & Hacc) end.
  minv. repeat match goal with E : (_ =? _) = true |- _ => apply Z.eqb_eq in E end. unfold store_consensus_state in Hr.
  pose proof (contradicts_bool st trusted c') as Hc.
  destruct (is_uninitialized st); cbn [negb] in Hr; [|destruct (_ || _)]; cbn in Hr; minv;
    match goal with E : (_, _, _) = _ |- _ => injection E as -> -> -> end;
    (split; [done|]); eexists _, c'; (split_and!; [done|done|done|done|]).
  - left. by subst.
  - right. right. split_and!; try done. by apply Hc.
  - right. left. split_and!; try done. intros E. by apply Hc in E.
Qed.

Lemma check_for_misbehaviour_Ok V f cs mb c1 c2 t out :
  check_for_misbehaviour_impl V f cs mb c1 c2 t = Ok out ->
  out = mkMisbehaviourOutput (hd_trusted_height (mb_header1 mb)) (hd_trusted_height (mb_header2 mb)) c1 c2 t.
Proof.
  unfold check_for_misbehaviour_impl. intros Hr.
  repeat (apply result_bind_ok in Hr as (? & ? & Hr)). by injection Hr.
Qed.

Lemma process_misbehaviour_Ok cs st1 st2 b accounts w cs' w' :
  process_misbehaviour cs st1 st2 b accounts w = Ok (cs', w') ->
  w' = w /\ cs' = freeze cs /\ exists mb, tm_deserialize_misbehaviour b = Ok mb /\
    tss_height st1 = revision_height (hd_trusted_height (mb_header1 mb)) /\
    tss_height st2 = revision_height (hd_trusted_height (mb_header2 mb)) /\
    (sig_inv w -> misbehaved cs (tss_consensus_state st1) (tss_consensus_state st2) (w_clock w) mb).
Proof.
  unfold process_misbehaviour. intros Hr.
  repeat match goal with
  | E : or_panic _ _ = Ok _ |- _ => apply or_panic_Ok in E as [? ->]
  | E : (_ =? _) = true |- _ => apply Z.eqb_eq in E
  | _ => minv_step
  end.
  match goal with E : map_err _ _ = Ok _ |- _ => apply map_err_ok in E end.
  match goal with E : solana_check_for_misbehaviour _ _ _ _ _ _ _ _ = Ok ?o |- _ =>
    pose proof (check_for_misbehaviour_Ok _ _ _ _ _ _ _ _ E) as -> end.
  simpl in *. split_and!; [done|done|]. eexists. split_and!; [done..|]. intros Hi%sig_inv_truthful.
  eexists _, _, _, _. split_and!; try done. by eapply solana_misbehaviour_sound.
Qed.

(** ** The signatures, instruction by instruction *)

(** Reads the signatures' changes off an inverted run. *)
Ltac sig_store_aside :=
  let h := fresh in let E := fresh in intros h E; exfalso;
  match goal with Hk : ?k = pda_key _ TENDERMINT_ID |- _ => rewrite Hk in E end;
  apply pda_inj in E as [E _]; simpl in E; discriminate E.

Ltac sig_facts :=
  repeat match goal with
  | Hi : init_account _ TENDERMINT_ID _ _ _ _ = Ok _ |- _ => apply sig_rel_init in Hi
  | Hi : init_if_needed _ TENDERMINT_ID _ _ _ _ _ _ = Ok _ |- _ => apply sig_rel_init_if_needed in Hi
  | Hi : drain_account _ TENDERMINT_ID _ _ _ _ = Ok _ |- _ => apply sig_rel_drain in Hi
  | Hi : require_role _ _ _ _ _ _ _ = Ok _ |- _ => apply require_role_Ok in Hi as (-> & _); [|done]
  | Hi : require_admin _ _ _ _ _ _ = Ok _ |- _ => apply require_admin_Ok in Hi as (-> & _); [|done]
  | Hi : store_account TENDERMINT_ID _ _ _ = Ok _ |- _ => apply sig_rel_store in Hi; [|sig_store_aside]
  end.

Ltac sig_chain :=
  repeat match goal with
  | |- sig_rel ?w ?w => reflexivity
  | R : sig_rel ?w ?w1 |- sig_rel ?w _ => etrans; [exact R|]; clear R
  | R : sig_rel (add_log ?w ?e) _ |- sig_rel ?w _ => transitivity (add_log w e); [by apply sig_rel_same|]
  | R : sig_rel (set_return ?w ?r) _ |- sig_rel ?w _ =>
      transitivity (set_return w r); [by apply sig_rel_same|]
  | |- sig_rel ?w (add_log ?w _) => by apply sig_rel_same
  | |- sig_rel ?w (set_return ?w _) => by apply sig_rel_same
  end.

Lemma tm_initialize_sig cx acc cs c am w u w' :
  tm_initialize cx acc cs c am w = Ok (u, w') -> sig_rel w w'.
Proof. unfold tm_initialize. intros Hr. minv. sig_facts. sig_chain. Qed.

Lemma tm_transfer_sig cx acc ix0 ix w u w' :
  running cx TENDERMINT_ID ->
  (exists n, ix = TProposeAccessManagerTransfer acc n) \/ ix = TAcceptAccessManagerTransfer acc \/
    ix = TCancelAccessManagerTransfer acc ->
  exec_tm cx ix0 ix w = Ok (u, w') -> sig_rel w w'.
Proof.
  intros Hrun [[n ->]|[->| ->]] Hr; simpl in Hr;
    unfold tm_propose_access_manager_transfer, tm_accept_access_manager_transfer,
      tm_cancel_access_manager_transfer, tm_transfer, propose_transfer, accept_transfer,
      cancel_transfer in Hr; minv; sig_facts; sig_chain.
Qed.

Lemma tm_upload_sig {A} cx acc (proj : AccountData -> option A) fresh seeds sp ds d w u w' :
  running cx TENDERMINT_ID -> (forall h, pda_key seeds TENDERMINT_ID <> sig_verify_key h) ->
  tm_upload_chunk cx acc proj fresh seeds sp ds d w = Ok (u, w') -> sig_rel w w'.
Proof.
  intros Hrun Hs. unfold tm_upload_chunk. intros Hr. minv.
  apply sig_rel_store in Hr; [sig_facts; sig_chain|]. intros h E. destruct (Hs h). congruence.
Qed.

Lemma assemble_update_sig cx acc h n th w u w' :
  running cx TENDERMINT_ID -> assemble_and_update_client cx acc h n th w = Ok (u, w') -> sig_rel w w'.
Proof.
  intros Hrun Hr. unfold assemble_and_update_client in Hr. minv.
  match goal with E : process_header_update _ _ _ _ _ _ _ _ _ = Ok (?p, _) |- _ =>
    destruct p as [[r st'] cs']; apply process_header_update_Ok in E as [-> _] end.
  match goal with E : assemble_header_chunks _ _ _ _ _ = Ok _ |- _ =>
    apply assemble_header_chunks_Ok in E as -> end.
  minv. sig_facts. sig_chain.
Qed.

Lemma pre_verify_sig cx ix0 acc s w u w' :
  running cx TENDERMINT_ID -> ix0_ran ix0 ->
  length (sd_pubkey s) = 32%nat -> length (sd_signature s) = 64%nat ->
  pre_verify_signature cx ix0 acc s w = Ok (u, w') -> sig_rel w w'.
Proof.
  intros Hrun Hix Hk Hg Hr. unfold pre_verify_signature in Hr. minv.
  apply sig_rel_store in Hr; [sig_facts; sig_chain|]. intros h E.
  match goal with Ek : tp_signature_verification acc = pda_key _ _ |- _ => rewrite Ek in E end.
  pose proof (sig_key_inj _ _ E) as Eh. subst h. right. eexists. split; [done|]. simpl. intros Hv.
  eexists _, _, _. split_and!; [eassumption|done|done|]. by eapply verify_ed25519_sound.
Qed.

(** *** The clean-up loops *)

Lemma cleanup_misbehaviour_chunks_Ok cx s accounts i w u w' :
  cleanup_misbehaviour_chunks cx s accounts i w = Ok (u, w') -> tm_evol [] [] w w' /\ sig_rel w w'.
Proof.
  revert i w. induction accounts as [|k accounts IH]; intros i w Hr; simpl in Hr;
    [minv; split; [apply evol_refl|done]|].
  unfold check_tm_chunk, tm_close_account in Hr. minv. apply IH in Hr as [Hev Hs].
  split; [|by etrans; [eapply sig_rel_drain|]].
  eapply (evol_trans [] [] [] []); [|exact Hev]. eapply evol_drain_aside; [|done].
  intros K _. subst k. apply misbehaviour_chunk_not_tk.
Qed.

Lemma cleanup_misbehaviour_from_Ok cx s accounts i w u w' :
  cleanup_misbehaviour_from cx s accounts i w = Ok (u, w') -> tm_evol [] [] w w' /\ sig_rel w w'.
Proof.
  revert i w. induction accounts as [|k accounts IH]; intros i w Hr; simpl in Hr;
    [minv; split; [apply evol_refl|done]|].
  unfold tm_close_account in Hr. minv.
  match goal with E : (if ?b then _ else _) _ = Ok (_, ?w1) |- _ =>
    assert (tm_evol [] [] w w1 /\ sig_rel w w1) as [Hev1 Hs1] end.
  { destruct (_ && _) eqn:E; minv; [|split; [apply evol_refl|done]].
    subst k. split; [|by eapply sig_rel_drain]. eapply evol_drain_aside; [|done].
    intros K _. apply misbehaviour_chunk_not_tk. }
  apply IH in Hr as [Hev Hs]. split; [|by etrans]. by eapply (evol_trans [] [] [] []).
Qed.

Definition is_scratch (d : AccountData) : bool :=
  match d with DHeaderChunk _ | DSignatureVerification _ => true | _ => false end.

(** The client's accounts hold no scratch data. *)
Definition no_scratch (w : World) : Prop :=
  forall K a, tk_typed K -> w_accts w !! tk K = Some a -> is_scratch (acc_data a) = false.

Lemma no_scratch_evol w w' : tm_evol [] [] w w' -> no_scratch w -> no_scratch w'.
Proof. intros Hev Hn K a HK. rewrite (ev_same _ _ _ _ Hev K HK) by apply not_elem_of_nil. by apply Hn. Qed.

Lemma cleanup_upload_from_Ok cx s accounts w u w' :
  no_scratch w -> cleanup_upload_from cx s accounts w = Ok (u, w') -> tm_evol [] [] w w' /\ sig_rel w w'.
Proof.
  revert w. induction accounts as [|k accounts IH]; intros w Hn Hr; simpl in Hr;
    [minv; split; [apply evol_refl|done]|].
  unfold tm_close_account in Hr. minv.
  match goal with E : match _ with Some _ => _ | None => _ end _ = Ok (_, ?w1) |- _ =>
    assert (tm_evol [] [] w w1 /\ sig_rel w w1) as [Hev1 Hs1] end.
  { destruct (w_accts w !! k) as [a|] eqn:Ea; [|minv; split; [apply evol_refl|done]].
    destruct (_ || _); [minv; split; [apply evol_refl|done]|].
    destruct (is_owned_by_submitter _ _) eqn:E; [|minv; split; [apply evol_refl|done]].
    split; [|by eapply sig_rel_drain]. eapply evol_drain_aside; [|done]. intros K HK ->.
    specialize (Hn K a HK Ea). by destruct (acc_data a). }
  apply IH in Hr as [Hev Hs]; [|by eapply no_scratch_evol]. split; [|by etrans].
  by eapply (evol_trans [] [] [] []).
Qed.

Lemma submit_misbehaviour_sig cx acc n h1 h2 w u w' :
  running cx TENDERMINT_ID -> assemble_and_submit_misbehaviour cx acc n h1 h2 w = Ok (u, w') -> sig_rel w w'.
Proof.
  intros Hrun Hr. unfold assemble_and_submit_misbehaviour in Hr. minv.
  match goal with E : process_misbehaviour _ _ _ _ _ _ = Ok _ |- _ =>
    apply process_misbehaviour_Ok in E as [-> _] end.
  match goal with E : load_chunks _ _ _ _ _ = Ok _ |- _ =>
    apply load_chunks_Ok in E as [-> _];
      [|by intros ? ? ? ? [-> _]%load_misbehaviour_chunk_Ok] end.
  match goal with E : cleanup_misbehaviour_chunks _ _ _ _ _ = Ok _ |- _ =>
    apply cleanup_misbehaviour_chunks_Ok in E as [_ ?] end.
  sig_facts. sig_chain.
Qed.

Lemma tm_verify_accounts_Ok acc height w cs st w' :
  tm_verify_accounts acc height w = Ok ((cs, st), w') ->
  w' = w /\ tv_client_state acc = tk TKClient /\ tv_consensus_state_at_height acc = tk (TKCons (height cs)) /\
  tm_stored w TKClient (DTmClientState cs) /\ tm_stored w (TKCons (height cs)) (DTmConsensusStateStore st).
Proof.
  unfold tm_verify_accounts. intros Hr. minv. match goal with E : (_, _) = _ |- _ => injection E as -> -> end.
  tm_to_stored. done.
Qed.

(** The instructions the router calls write nothing but the return data. *)
Lemma tm_read_Ok cx ix0 ix w u w' :
  (exists acc msg, ix = TVerifyMembership acc msg) \/ (exists acc msg, ix = TVerifyNonMembership acc msg) \/
    (exists acc, ix = TClientStatus acc) ->
  exec_tm cx ix0 ix w = Ok (u, w') -> w' = w \/ exists r, w' = set_return w r.
Proof.
  intros [(acc & msg & ->)|[(acc & msg & ->)|(acc & ->)]] Hr; simpl in Hr;
    unfold tm_verify_membership, tm_verify_non_membership, tm_client_status in Hr; minv;
    match goal with E : tm_verify_accounts _ _ _ = Ok (?p, _) |- _ =>
      destruct p as [cs st]; apply tm_verify_accounts_Ok in E as [-> _] end; minv; eauto.
Qed.

Lemma exec_tm_sig cx ix0 ix w u w' :
  running cx TENDERMINT_ID -> tm_ix_typed ix -> ix0_ran ix0 -> no_scratch w ->
  exec_tm cx ix0 ix w = Ok (u, w') -> sig_rel w w'.
Proof.
  intros Hrun Hty Hix Hn Hr.
  assert (w' = w \/ (exists r, w' = set_return w r) -> sig_rel w w') as Hread.
  { intros [->|[r ->]]; [done|by apply sig_rel_same]. }
  destruct ix; try (by eapply tm_transfer_sig in Hr; eauto);
    try (apply Hread; eapply tm_read_Ok; [|exact Hr]; by eauto); simpl in Hr.
  - by eapply tm_initialize_sig.
  - eapply tm_upload_sig; [done| |exact Hr]. intros h. apply header_chunk_not_sig.
  - by eapply assemble_update_sig.
  - unfold cleanup_incomplete_upload in Hr. minv. by eapply cleanup_upload_from_Ok.
  - eapply tm_upload_sig; [done| |exact Hr]. intros h. apply misbehaviour_chunk_not_sig.
  - by eapply submit_misbehaviour_sig.
  - unfold cleanup_incomplete_misbehaviour in Hr. minv. by eapply cleanup_misbehaviour_from_Ok.
  - destruct Hty. by eapply pre_verify_sig.
Qed.

End Handlers.
