(* ===== verification/TendermintProps.v ===== *)
(** * The Tendermint light client: refinement

    Every successful instruction of [programs/ics07-tendermint] is one of the
    transitions of [TendermintSpec.v] ([exec_tm_refines]), in states in which
    the client's accounts hold no scratch data and the pre-verified signatures
    are genuine; [TendermintState.v] shows that all reachable states are
    such. *)

From S2P Require Import Prelude Errors Types Runtime Cpi AccessManager AccessManagerSpec Keyed Chunking.
From S2P Require Import BorshHeader TmLightClient TmLightClientSpec Tendermint TendermintSpec.
From Stdlib Require Import ZArith Lia.
From Stdlib.Strings Require Import Byte.
From stdpp Require Import prelude strings gmap list.

#[local] Open Scope Z_scope.

Section TmRefinement.
Context `{Platform} `{!PlatformOk} `{TendermintLib} `{!TendermintLibOk}.

Notation t_refines cx w w' := (steps_by TENDERMINT_ID tk tk_typed (t_trans cx) w w').

Lemma other_refines cx w w' : tm_evol [] [] w w' -> t_refines cx w w'.
Proof.
  intros Hev. exists [], []. split_and!; [apply TM_other|done|by intros K d ?%not_elem_of_nil|constructor].
Qed.

(** Inverts the admin check and reduces to the transition, for the three
    instructions that store the application's state. *)
Ltac tm_finish_app :=
  match goal with
  | Hq : require_admin _ ?k _ _ _ _ = Ok _, Hk : ?k = pda_key [AccessManager_SEED] _ |- _ =>
      eapply admin_at_intro in Hq as [? Hq]; [subst|done|exact Hk]
  end;
  match goal with
  | Hs : store_account TENDERMINT_ID ?k _ _ = Ok _, Hk : ?k = pda_key _ TENDERMINT_ID |- _ =>
      rewrite Hk in Hs; change (pda_key _ TENDERMINT_ID) with (tk TKApp) in Hs;
      eapply (steps_store1 _ _ _ _ TKApp _ []); [done| |apply evol_log_entry|set_solver|exact Hs]
  end.

Lemma tm_propose_refines cx acc n w u w' :
  running cx TENDERMINT_ID -> tm_propose_access_manager_transfer cx acc n w = Ok (u, w') ->
  t_refines cx w w'.
Proof.
  intros Hrun Hr. unfold tm_propose_access_manager_transfer, tm_transfer, propose_transfer in Hr. minv.
  tm_to_stored. tm_finish_app. by eapply TM_propose.
Qed.

Lemma tm_accept_refines cx acc w u w' :
  running cx TENDERMINT_ID -> tm_accept_access_manager_transfer cx acc w = Ok (u, w') ->
  t_refines cx w w'.
Proof.
  intros Hrun Hr. unfold tm_accept_access_manager_transfer, tm_transfer, accept_transfer in Hr. minv.
  repeat match goal with E : ok_or _ _ = Ok _ |- _ => apply ok_or_ok in E end. simplify_eq.
  tm_to_stored. tm_finish_app. by eapply TM_accept.
Qed.

Lemma tm_cancel_refines cx acc w u w' :
  running cx TENDERMINT_ID -> tm_cancel_access_manager_transfer cx acc w = Ok (u, w') ->
  t_refines cx w w'.
Proof.
  intros Hrun Hr. unfold tm_cancel_access_manager_transfer, tm_transfer, cancel_transfer in Hr. minv.
  repeat match goal with E : ok_or _ _ = Ok _ |- _ => apply ok_or_ok in E end.
  tm_to_stored. tm_finish_app. by eapply TM_cancel.
Qed.

Lemma tm_upload_refines {A} cx acc (proj : AccountData -> option A) fresh seeds sp ds d w u w' :
  running cx TENDERMINT_ID -> (forall K, pda_key seeds TENDERMINT_ID <> tk K) ->
  tm_upload_chunk cx acc proj fresh seeds sp ds d w = Ok (u, w') -> t_refines cx w w'.
Proof.
  intros Hrun Hk Hr. unfold tm_upload_chunk in Hr. minv.
  match goal with E : require_role _ _ _ _ _ _ _ = Ok _ |- _ => apply require_role_Ok in E as (-> & _); [|done] end.
  assert (forall K, tk_typed K -> tu_chunk acc <> tk K) as Hc.
  { intros K _. match goal with E : tu_chunk acc = _ |- _ => rewrite E end. apply Hk. }
  match goal with E : init_if_needed _ _ _ _ _ _ _ _ = Ok _ |- _ =>
    eapply (evol_init_if_needed_aside (typed := tk_typed) (addr := tk)) in E; [|done] end.
  eapply (evol_store_aside (typed := tk_typed) (addr := tk)) in Hr; [|done].
  apply other_refines. by eapply (evol_trans [] [] [] []).
Qed.

Lemma pre_verify_refines cx ix0 acc s w u w' :
  running cx TENDERMINT_ID -> pre_verify_signature cx ix0 acc s w = Ok (u, w') -> t_refines cx w w'.
Proof.
  intros Hrun Hr. unfold pre_verify_signature in Hr. minv.
  match goal with E : require_role _ _ _ _ _ _ _ = Ok _ |- _ => apply require_role_Ok in E as (-> & _); [|done] end.
  assert (forall K, tk_typed K -> tp_signature_verification acc <> tk K) as Hc.
  { intros K _. match goal with E : tp_signature_verification acc = _ |- _ => rewrite E end. apply sig_key_not_tk. }
  match goal with E : init_account _ _ _ _ _ _ = Ok _ |- _ =>
    eapply (evol_init_aside (typed := tk_typed) (addr := tk)) in E; [|done] end.
  eapply (evol_store_aside (typed := tk_typed) (addr := tk)) in Hr; [|done].
  apply other_refines. by eapply (evol_trans [] [] [] []).
Qed.

Lemma tm_initialize_refines cx acc cs c am w u w' :
  is_u64 (ih_revision_height (tcs_latest_height cs)) -> is_u64 (tmc_timestamp c) ->
  tm_initialize cx acc cs c am w = Ok (u, w') -> t_refines cx w w'.
Proof.
  intros Hty Hts Hr. unfold tm_initialize in Hr. minv. set (h := ih_revision_height (tcs_latest_height cs)) in *.
  assert (ti_client_state acc = tk TKClient) as Hk1 by done. rewrite Hk1 in *.
  assert (ti_app_state acc = tk TKApp) as Hk2 by done. rewrite Hk2 in *.
  assert (ti_consensus_state_store acc = tk (TKCons h)) as Hk3 by done. rewrite Hk3 in *.
  repeat match goal with Hi : init_account _ _ (tk ?K) _ _ _ = Ok _ |- _ =>
    let Hev := fresh "Hev" in let Hn := fresh "Hnone" in let Hs := fresh "Hsame" in
    apply (evol_init _ K) in Hi as (Hev & Hn & _ & _ & _ & _ & Hs); [|done] end.
  repeat match goal with
  | E : bool_decide _ = false |- _ => apply bool_decide_eq_false in E
  | E : (_ <? _) = true |- _ => apply Z.ltb_lt in E
  | E : (_ <=? _) = true |- _ => apply Z.leb_le in E
  end.
  assert (forall K K', tk_typed K -> tk_typed K' -> K <> K' -> tk K <> tk K') as Hne.
  { intros K K' HK HK' Hne E%tk_inj; done. }
  rewrite Hsame1 in Hnone0 by (by apply Hne). rewrite Hsame0, Hsame1 in Hnone by (by apply Hne).
  eapply (steps_store3 _ _ _ _ _ _ TKClient _ (TKCons h) _ TKApp);
    [done|done|done| | | |eassumption|eassumption|exact Hr].
  { repeat (apply NoDup_cons; split; [intros Hin; repeat (apply elem_of_cons in Hin as [E|Hin]; [discriminate E|]);
      by apply not_elem_of_nil in Hin|]). constructor. }
  - apply (TM_initialize _ _ (ti_authority acc)); try assumption; [|by split_and!].
    match goal with D : as_ProgramData _ = Some _ |- _ => apply as_ProgramData_Some in D end.
    subst. exists acc0. split; [|done].
    match goal with E : ti_program_data acc = _ |- _ => by rewrite <- E end.
  - exact (evol_trans _ _ _ _ _ _ _ Hev1 (evol_trans _ _ _ _ _ _ _ Hev0 Hev)).
Qed.

Lemma assemble_update_refines cx acc h n th w u w' :
  running cx TENDERMINT_ID -> is_u64 h -> is_u64 th -> sig_inv w ->
  assemble_and_update_client cx acc h n th w = Ok (u, w') -> t_refines cx w w'.
Proof.
  intros Hrun Hh Hth Hi Hr. unfold assemble_and_update_client in Hr. minv.
  match goal with E : process_header_update _ _ _ _ _ _ _ _ _ = Ok (?p, _) |- _ =>
    destruct p as [[r st'] cs'];
    apply process_header_update_Ok in E as (-> & hd & c' & _ & Ht & Eh & Hacc & Hcase) end.
  match goal with E : assemble_header_chunks _ _ _ _ _ = Ok _ |- _ =>
    apply assemble_header_chunks_Ok in E as -> end.
  assert (ta_new_consensus_state_store acc = tk (TKCons h)) as Hkc by done.
  assert (ta_client_state acc = tk TKClient) as Hkl by done. tm_to_stored. rewrite Hkl, Hkc in *.
  match goal with E : init_if_needed _ _ _ _ _ _ _ _ = Ok _ |- _ =>
    pose proof (sig_rel_init_if_needed _ _ _ _ _ _ _ _ _ E) as Hsig;
    eapply (evol_init_if_needed _ _ _ _ (TKCons h) _ _ _ _ _ as_TmConsensusStateStore_Some) in E
      as (Hev & _ & Hck & Hsame & _ & Hcons); [|done] end.
  match goal with E : require_role _ _ _ _ _ _ _ = Ok _ |- _ =>
    eapply holder_at_intro in E as [-> Hrole]; [|done|eassumption] end.
  apply (holder_at_same _ _ w _ _ _ _ (tk (TKCons h)) (tk_not_am _ _) Hsame) in Hrole.
  specialize (Hacc (sig_inv_rel _ _ Hi Hsig)). rewrite Hck in Hacc. minv.
  match goal with Hc : tm_stored w TKClient (DTmClientState ?cs),
    Hs : tm_stored w (TKCons (revision_height (hd_trusted_height hd))) (DTmConsensusStateStore ?st) |- _ =>
    assert (update cx w cs (revision_height (hd_trusted_height hd)) st hd c') as Hup
      by (constructor; try done; eexists _, _; done) end.
  apply (evol_weaken _ [TKClient; TKCons (revision_height (header_height hd))]) in Hev; [|set_solver].
  eapply evol_trans in Hev; [|apply evol_refl].
  pose proof (evol_trans _ _ _ _ _ _ _ Hev (evol_set_return (Some (TENDERMINT_ID, [UpdateResult_to_u8 r])) _)) as Hev'.
  rewrite app_nil_r in Hev'. set (h := revision_height (header_height hd)) in *.
  destruct Hcase as [(Hz & -> & -> & ->)|[(Hz & Hn & -> & -> & ->)|(Hz & Hc & -> & -> & ->)]];
    (eapply (steps_store2 _ _ _ _ _ TKClient _ (TKCons h)); [done|done|done| |exact Hev'|eassumption|exact Hr]).
  - eapply TM_update; [exact Hup|]. destruct Hcons as [[? _]|?]; eauto.
  - eapply TM_noop; [exact Hup| |exact Hz|exact Hn]. destruct Hcons as [[_ ->]|?]; [done|done].
  - eapply TM_conflict; [exact Hup| |exact Hz|exact Hc]. destruct Hcons as [[_ ->]|?]; [done|done].
Qed.

Lemma submit_misbehaviour_refines cx acc n h1 h2 w u w' :
  running cx TENDERMINT_ID -> is_u64 h1 -> is_u64 h2 -> sig_inv w ->
  assemble_and_submit_misbehaviour cx acc n h1 h2 w = Ok (u, w') -> t_refines cx w w'.
Proof.
  intros Hrun Hh1 Hh2 Hi Hr. unfold assemble_and_submit_misbehaviour in Hr. minv.
  match goal with E : process_misbehaviour _ _ _ _ _ _ = Ok _ |- _ =>
    apply process_misbehaviour_Ok in E as (-> & -> & mb & _ & E1 & E2 & Hmb) end.
  match goal with E : load_chunks _ _ _ _ _ = Ok _ |- _ =>
    apply load_chunks_Ok in E as [-> _]; [|by intros ? ? ? ? [-> _]%load_misbehaviour_chunk_Ok] end.
  match goal with E : cleanup_misbehaviour_chunks _ _ _ _ _ = Ok _ |- _ =>
    apply cleanup_misbehaviour_chunks_Ok in E as [Hev _] end.
  match goal with E : require_role _ _ _ _ _ _ _ = Ok _ |- _ =>
    eapply holder_at_intro in E as [-> Hrole]; [|done|eassumption] end.
  assert (tsm_client_state acc = tk TKClient) as Hkl by done. tm_to_stored. rewrite Hkl in *.
  eapply (steps_store1 _ _ _ _ TKClient _ []); [done| |exact Hev|set_solver|exact Hr].
  eapply (TM_misbehaviour _ _ _ h1 h2); [by eexists _, _|done..|exact E1|exact E2|by apply Hmb].
Qed.

Lemma exec_tm_refines cx ix0 ix w u w' :
  running cx TENDERMINT_ID -> tm_ix_typed ix -> no_scratch w -> sig_inv w ->
  exec_tm cx ix0 ix w = Ok (u, w') -> t_refines cx w w'.
Proof.
  intros Hrun Hty Hn Hi Hr.
  assert (w' = w \/ (exists r, w' = set_return w r) -> t_refines cx w w') as Hread.
  { intros Hw. apply other_refines. destruct Hw as [->|[r ->]]; [apply evol_refl|apply evol_set_return]. }
  destruct ix; try (apply Hread; eapply tm_read_Ok; [|exact Hr]; by eauto); simpl in Hr, Hty.
  - destruct Hty. by refine (tm_initialize_refines _ _ _ _ _ _ _ _ _ _ Hr).
  - by eapply tm_propose_refines.
  - by eapply tm_accept_refines.
  - by eapply tm_cancel_refines.
  - eapply tm_upload_refines; [done| |exact Hr]. apply header_chunk_not_tk.
  - destruct Hty. refine (assemble_update_refines _ _ _ _ _ _ _ _ Hrun _ _ Hi Hr); assumption.
  - unfold cleanup_incomplete_upload in Hr. minv. by eapply other_refines, cleanup_upload_from_Ok.
  - eapply tm_upload_refines; [done| |exact Hr]. apply misbehaviour_chunk_not_tk.
  - destruct Hty. refine (submit_misbehaviour_refines _ _ _ _ _ _ _ _ Hrun _ _ Hi Hr); assumption.
  - unfold cleanup_incomplete_misbehaviour in Hr. minv. by eapply other_refines, cleanup_misbehaviour_from_Ok.
  - by eapply pre_verify_refines.
Qed.

End TmRefinement.
