(* ===== verification/TendermintState.v ===== *)
(** * The Tendermint light client: its reachable states

    The invariants of every state the program reaches, whatever the other
    programs do in between.  All consensus states descend from one of them by
    headers that the client accepted ([chain]); they never change; the client
    freezes on evidence and then stays as it is; and an account that calls a
    signature valid is right. *)

From S2P Require Import Prelude Errors Types Runtime Cpi AccessManager AccessManagerSpec Keyed Chunking.
From S2P Require Import BorshHeader TmLightClient TmLightClientSpec Tendermint TendermintSpec TendermintProps.
From Stdlib Require Import ZArith Lia.
From Stdlib.Strings Require Import Byte.
From stdpp Require Import prelude strings gmap list.

#[local] Open Scope Z_scope.

Section TmState.
Context `{Platform} `{TendermintLib}.

(** One successful instruction, in a transaction whose first instruction, if
    it is the Ed25519 program's, succeeded. *)
Definition tm_step (w w' : World) : Prop :=
  exists cx ix0 ix, running cx TENDERMINT_ID /\ tm_ix_typed ix /\ ix0_ran ix0 /\
    exec_tm cx ix0 ix w = Ok ((), w').

(** From no account at any address derived from the program. *)
Definition tm_reachable (w : World) : Prop :=
  reach_at TENDERMINT_ID (fun seeds => pda_key seeds TENDERMINT_ID) (fun _ => True) tm_step w.

(** ** Chains of trust *)

(** What stays of a client: everything but its heights. *)
Definition tm_params (cs : TmClientState) :=
  (tcs_chain_id cs, tcs_trust_level_numerator cs, tcs_trust_level_denominator cs,
   tcs_trusting_period cs, tcs_unbonding_period cs, tcs_max_clock_drift cs).

(** From the state [root.2] at the height [root.1], by headers that a client
    with the parameters of [cs] accepted when it was not frozen, each from the
    state at the header's trusted height. *)
Inductive chain (cs : TmClientState) (root : Z * TmConsensusState) : Z -> TmConsensusState -> Prop :=
| chain_root : chain cs root root.1 root.2
| chain_header h c cs0 now hd c' :
    chain cs root h c -> tm_params cs0 = tm_params cs -> is_frozen cs0 = false ->
    revision_height (hd_trusted_height hd) = h -> accepted cs0 c now hd c' ->
    chain cs root (revision_height (header_height hd)) c'.

Lemma chain_params cs cs' root h c :
  tm_params cs' = tm_params cs -> chain cs root h c -> chain cs' root h c.
Proof.
  intros E. induction 1 as [|h c cs0 now hd c' _ IH Ep Hf Eh Hacc]; [constructor|].
  apply (chain_header _ _ h c cs0 now); [exact IH|congruence|done|done|exact Hacc].
Qed.

(** The values of the accounts, in every reachable state. *)
Record tm_ok (d : TmKey -> option AccountData) : Prop := {
  to_app x : d TKApp = Some x -> exists app, x = DTmAppState app;
  to_client x : d TKClient = Some x -> exists cs, x = DTmClientState cs /\ tm_params_ok cs /\
    is_u64 (ih_revision_height (tcs_latest_height cs)) /\
    is_Some (d (TKCons (ih_revision_height (tcs_latest_height cs))));
  to_cons h x : is_u64 h -> d (TKCons h) = Some x ->
    exists cs st, x = DTmConsensusStateStore st /\ d TKClient = Some (DTmClientState cs) /\
      tss_height st = h /\ 0 < h /\ is_u64 (tmc_timestamp (tss_consensus_state st));
  to_chain cs : d TKClient = Some (DTmClientState cs) ->
    exists rh rc, is_u64 rh /\ d (TKCons rh) = Some (DTmConsensusStateStore (mkTmConsensusStateStore rh rc)) /\
      forall h st, is_u64 h -> d (TKCons h) = Some (DTmConsensusStateStore st) ->
        chain cs (rh, rc) h (tss_consensus_state st) }.

Lemma tm_ok_ext d d' : (forall K, tk_typed K -> d K = d' K) -> tm_ok d -> tm_ok d'.
Proof.
  intros E [A C S Ch]. constructor.
  - intros x. rewrite <- E by done. apply A.
  - intros x. rewrite <- E by done. intros (cs & -> & Hp & Hu & Hl)%C. exists cs. by rewrite <- E.
  - intros h x Hh. rewrite <- !E by done. by apply S.
  - intros cs. rewrite <- E by done. intros (rh & rc & Hrh & Hr & Hall)%Ch. exists rh, rc.
    rewrite <- E by done. split_and!; [done|done|]. intros h st Hh. rewrite <- E by done. by apply Hall.
Qed.

(** Steps that store the client, with the same parameters, and keep the
    consensus states. *)
Lemma tm_ok_client d d' cs cs' :
  d TKClient = Some (DTmClientState cs) -> d' TKClient = Some (DTmClientState cs') ->
  (forall K, tk_typed K -> K <> TKClient -> d' K = d K) -> tm_params cs' = tm_params cs ->
  tcs_latest_height cs' = tcs_latest_height cs -> tm_ok d -> tm_ok d'.
Proof.
  intros Hc Hc' Hsame Ep El [A C S Ch]. constructor.
  - intros x. rewrite Hsame by done. apply A.
  - intros x Hx. rewrite Hc' in Hx. injection Hx as <-. exists cs'. destruct (C _ Hc) as (? & [= <-] & Hp & Hu & Hl).
    unfold tm_params_ok in *. injection Ep as -> -> -> -> -> ->. rewrite El, Hsame by done. done.
  - intros h x Hh. rewrite Hsame by done. intros (cs0 & st & -> & _ & ? & ? & ?)%S; [|done]. by exists cs', st.
  - intros cs0 Hx. rewrite Hc' in Hx. injection Hx as <-.
    destruct (Ch _ Hc) as (rh & rc & Hrh & Hr & Hall). exists rh, rc. rewrite Hsame by done.
    split_and!; [done|done|]. intros h st Hh. rewrite Hsame by done. intros Hst.
    eapply chain_params; [exact Ep|]. by apply Hall.
Qed.

(** Steps that add a consensus state. *)
Lemma tm_ok_update d d' cs th st hd now c' :
  let h := revision_height (header_height hd) in
  is_u64 h -> is_u64 th -> d TKClient = Some (DTmClientState cs) -> is_frozen cs = false ->
  d (TKCons th) = Some (DTmConsensusStateStore st) -> revision_height (hd_trusted_height hd) = th ->
  accepted cs (tss_consensus_state st) now hd c' -> d (TKCons h) = None ->
  d' TKClient = Some (DTmClientState (with_latest_height cs (IbcHeight_from (header_height hd)))) ->
  d' (TKCons h) = Some (DTmConsensusStateStore (mkTmConsensusStateStore h c')) ->
  (forall K, tk_typed K -> K <> TKClient -> K <> TKCons h -> d' K = d K) -> tm_ok d -> tm_ok d'.
Proof.
  intros h Hu Hth Hc Hf Ht Eh Hacc Hno Hc' Hs' Hsame [A C S Ch].
  pose proof Hacc as (_ & _ & _ & _ & _ & _ & Htry & Hpos & _).
  assert (is_u64 (tmc_timestamp c')) as Hts.
  { unfold TmConsensusState_try_from in Htry.
    apply bind_Some in Htry as (? & _ & (? & _ & [= <-])%bind_Some). simpl. unfold is_u64, u64_max.
    pose proof (Z.mod_pos_bound (ics_timestamp (ConsensusState_from hd)) (2 ^ 64)). lia. }
  constructor.
  - intros x. rewrite Hsame by done. apply A.
  - intros x Hx. rewrite Hc' in Hx. injection Hx as <-. eexists. split; [done|]. simpl.
    destruct (C _ Hc) as (? & [= <-] & (? & ? & ? & ? & _) & _). split_and!; try done.
  - intros h' x Hh'. destruct (decide (h' = h)) as [->|Hne].
    + rewrite Hs'. intros [= <-]. by eexists _, _.
    + rewrite Hsame by (done || congruence). intros (? & st0 & -> & _ & ? & ? & ?)%S; [|done]. by eexists _, st0.
  - intros cs0 Hx. rewrite Hc' in Hx. injection Hx as <-.
    destruct (Ch _ Hc) as (rh & rc & Hrh & Hr & Hall). exists rh, rc.
    assert (forall h c, chain cs (rh, rc) h c ->
      chain (with_latest_height cs (IbcHeight_from (header_height hd))) (rh, rc) h c) as Hmono
      by (intros ? ?; by apply chain_params).
    split_and!; [done|rewrite Hsame; [done|done|done|congruence]|].
    intros h' st' Hh'. destruct (decide (h' = h)) as [->|Hne].
    + rewrite Hs'. intros [= <-]. simpl. apply Hmono. econstructor; [by apply (Hall th)|done..].
    + rewrite Hsame by (done || congruence). intros Hst. apply Hmono. by apply Hall.
Qed.

(** Initialization, in a state without a client. *)
Lemma tm_ok_init d d' cs c am :
  let h := ih_revision_height (tcs_latest_height cs) in
  is_u64 h -> d TKClient = None -> tm_params_ok cs -> is_u64 (tmc_timestamp c) ->
  d' TKClient = Some (DTmClientState cs) ->
  d' (TKCons h) = Some (DTmConsensusStateStore (mkTmConsensusStateStore h c)) ->
  d' TKApp = Some (DTmAppState am) ->
  (forall h', is_u64 h' -> h' <> h -> d' (TKCons h') = d (TKCons h')) -> tm_ok d -> tm_ok d'.
Proof.
  intros h Hu Hc Hp Hts Hc' Hs' Ha' Hsame [A C S Ch].
  assert (forall h' x, is_u64 h' -> d' (TKCons h') = Some x ->
    h' = h /\ x = DTmConsensusStateStore (mkTmConsensusStateStore h c)) as Hone.
  { intros h' x Hh' Hx. destruct (decide (h' = h)) as [->|Hne]; [rewrite Hs' in Hx; by injection Hx as <-|].
    rewrite Hsame in Hx by done. destruct (S _ _ Hh' Hx) as (? & ? & _ & E & _). congruence. }
  constructor.
  - intros x. rewrite Ha'. intros [= <-]. by eexists.
  - intros x. rewrite Hc'. intros [= <-]. exists cs. fold h. rewrite Hs'. done.
  - intros h' x Hh' [-> ->]%Hone; [|done]. exists cs, (mkTmConsensusStateStore h c).
    destruct Hp as (_ & _ & _ & _ & ?). done.
  - intros cs0. rewrite Hc'. intros [= <-]. exists h, c. split_and!; [done|done|].
    intros h' st Hh' [-> [= ->]]%Hone; [|done]. apply (chain_root cs (h, c)).
Qed.

End TmState.

(** ** Reachable states *)

Section TmReachable.
Context `{Platform} `{!PlatformOk} `{TendermintLib} `{!TendermintLibOk}.

(** Steps that only store the application's state. *)
Lemma tm_ok_app d d' app :
  d' TKApp = Some (DTmAppState app) -> (forall K, tk_typed K -> K <> TKApp -> d' K = d K) -> tm_ok d -> tm_ok d'.
Proof.
  intros Ha Hsame [A C S Ch]. constructor.
  - intros x. rewrite Ha. intros [= <-]. by eexists.
  - intros x. rewrite Hsame by done. intros (cs & -> & Hp & Hu & Hl)%C. exists cs. by rewrite Hsame.
  - intros h x Hh. rewrite !Hsame by done. by apply S.
  - intros cs. rewrite Hsame by done. intros (rh & rc & Hrh & Hr & Hall)%Ch. exists rh, rc.
    rewrite Hsame by done. split_and!; [done|done|]. intros h st Hh. rewrite Hsame by done. by apply Hall.
Qed.

Lemma t_trans_ok cx w ch l d d' :
  t_trans cx w ch l -> tm_ok d -> Forall (fun x => tk_typed x.1) ch ->
  (forall K x, tm_stored w K x -> d K = Some x) ->
  (forall K, w_accts w !! tk K = None -> d K = None) ->
  (forall K, tk_typed K -> d' K = match changed ch K with Some x => Some x | None => d K end) ->
  tm_ok d'.
Proof.
  intros Ht Hok Hty Hst Hno Hd.
  assert (forall cs' h st0, ch = [(TKClient, cs'); (TKCons h, st0)] -> tm_stored w (TKCons h) st0 ->
    forall K, tk_typed K -> K <> TKClient -> d' K = d K) as Hkeep.
  { intros cs' h st0 -> Hs K HK Hne. rewrite Hd, changed_tail by (done || congruence).
    destruct (decide (K = TKCons h)) as [->|Hn]; [rewrite changed_head; symmetry; by apply Hst|].
    by rewrite changed_tail by (done || congruence). }
  destruct Ht as [s cs c am Hc Ha Hs0 _ _ _ Hp Hts latest|cs th st hd c' Hup h Hnew|cs th st hd c' st0 Hup h Hold _ _
    |cs th st hd c' st0 Hup h Hold _ _|cs th1 th2 st1 st2 mb _ Hc _ _ _ _ _ _ _ _|app s n Ha|app s n Ha|app s n Ha|].
  - rewrite !Forall_cons in Hty. destruct Hty as (_ & Hu & _). subst latest.
    eapply (tm_ok_init d d' cs c); [exact Hu|by apply Hno|done|done|by rewrite Hd|by rewrite Hd, changed_tail, changed_head|
      by rewrite Hd| |exact Hok].
    intros h' Hh' Hne. by rewrite Hd, !changed_tail by (done || congruence).
  - rewrite !Forall_cons in Hty. destruct Hty as (_ & Hu & _). destruct Hup as [_ Hc Hf Hth Hthu Eh Hacc]. subst h.
    eapply (tm_ok_update d d'); [exact Hu|exact Hthu|by apply Hst|exact Hf|by apply Hst|done|exact Hacc| |
      by rewrite Hd|by rewrite Hd, changed_tail, changed_head| |exact Hok].
    + destruct Hnew as [Hn|(st0 & Hs0 & Hz)]; [by apply Hno|]. apply Hst in Hs0 as E.
      apply (to_cons _ Hok) in E as (? & ? & [= <-] & _ & E & ? & _); [|exact Hu]. apply Z.eqb_eq in Hz. lia.
    + intros K HK H1' H2'. by rewrite Hd, !changed_tail by (done || congruence).
  - eapply (tm_ok_client d d' cs cs); [apply Hst, Hup|by rewrite Hd|by eapply Hkeep|done|done|done].
  - eapply (tm_ok_client d d' cs (freeze cs)); [apply Hst, Hup|by rewrite Hd|by eapply Hkeep|done|done|done].
  - eapply (tm_ok_client d d' cs (freeze cs)); [by apply Hst|by rewrite Hd| |done|done|done].
    intros K HK Hne. by rewrite Hd, changed_tail by (done || congruence).
  - eapply (tm_ok_app d); [by rewrite Hd| |done]. intros K HK Hne. by rewrite Hd, changed_tail by (done || congruence).
  - eapply (tm_ok_app d); [by rewrite Hd| |done]. intros K HK Hne. by rewrite Hd, changed_tail by (done || congruence).
  - eapply (tm_ok_app d); [by rewrite Hd| |done]. intros K HK Hne. by rewrite Hd, changed_tail by (done || congruence).
  - eapply tm_ok_ext; [|exact Hok]. intros K HK. by rewrite Hd.
Qed.

Definition tm_inv (v : TmKey -> option Account) (_ : list LogEntry) : Prop :=
  (forall K a, tk_typed K -> v K = Some a -> acc_owner a = TENDERMINT_ID) /\ tm_ok (data_of v).

(** One transition. *)
Notation t_steps := (steps_by TENDERMINT_ID tk tk_typed (fun w ch l => exists cx, t_trans cx w ch l)).

Lemma t_reachable_inv w :
  reach_at TENDERMINT_ID tk tk_typed t_steps w -> tm_inv (view_at tk w) (own_log TENDERMINT_ID w).
Proof.
  intros Hr. refine (proj1 (reach_at_induct t_steps _ tm_inv (fun _ _ Hs => Hs) _ _ _ w Hr)).
  - intros v v' l Hv [Ho Hok]. split.
    + intros K a HK. rewrite <- Hv by done. by apply Ho.
    + eapply tm_ok_ext; [|exact Hok]. intros K HK. unfold data_of. by rewrite Hv.
  - split; [done|]. by constructor.
  - intros w1 w2 ch l [Ho Hok] _ [cx Ht] Hev Hst Hty. split.
    + intros K a HK Ha.
      destruct (view_at_step _ _ _ _ K Hev Hst HK) as [(d & a' & _ & E & ? & _)|[_ E]]; [congruence|].
      rewrite E in Ha. by eapply Ho.
    + eapply t_trans_ok; [exact Ht|exact Hok|exact Hty| | |].
      * intros K x. apply data_of_held.
      * intros K. apply data_of_None.
      * intros K HK. by eapply data_of_step.
Qed.

Lemma tm_inv_no_scratch w : tm_inv (view_at tk w) (own_log TENDERMINT_ID w) -> no_scratch w.
Proof.
  intros [_ [A C S _]] K a HK Ha.
  assert (data_of (view_at tk w) K = Some (acc_data a)) as E by (unfold data_of, view_at; by rewrite Ha).
  destruct K as [| |h].
  - by destruct (C _ E) as (? & -> & _).
  - by destruct (A _ E) as (? & ->).
  - by destruct (S _ _ HK E) as (? & ? & -> & _).
Qed.

Lemma tm_reachable_steps w :
  tm_reachable w -> reach_at TENDERMINT_ID tk tk_typed t_steps w /\ sig_inv w.
Proof.
  induction 1 as [w Hn Hl|w w' _ [IH Hi] Ho|w w' _ [IH Hi] (cx & ix0 & ix & Hrun & Hty & Hix & Hx)].
  - split.
    + apply reach_start; [|done]. intros K _. by apply (Hn (tk_seeds K)).
    + intros h a. unfold sig_verify_key. by rewrite (Hn (sig_verify_seeds h)).
  - split; [by eapply reach_other|]. eapply sig_inv_rel; [exact Hi|]. by apply sig_rel_others.
  - pose proof (tm_inv_no_scratch _ (t_reachable_inv _ IH)) as Hns. split.
    + eapply reach_step; [exact IH|]. pose proof Hx as (ch & l & Ht & ?)%exec_tm_refines; [|done..].
      exists ch, l. eauto.
    + eapply sig_inv_rel; [exact Hi|]. by eapply exec_tm_sig.
Qed.

Lemma tm_reachable_inv w :
  tm_reachable w -> tm_inv (view_at tk w) (own_log TENDERMINT_ID w) /\ sig_inv w /\ no_scratch w.
Proof.
  intros [Hr Hi]%tm_reachable_steps. pose proof (t_reachable_inv _ Hr) as Hinv.
  split_and!; [done|done|]. by apply tm_inv_no_scratch.
Qed.

Lemma tm_step_trans w w' :
  tm_reachable w -> tm_step w w' -> exists cx, steps_by TENDERMINT_ID tk tk_typed (t_trans cx) w w'.
Proof.
  intros (_ & Hi & Hn)%tm_reachable_inv (cx & ix0 & ix & Hrun & Hty & _ & Hx).
  exists cx. by eapply exec_tm_refines.
Qed.

Lemma tm_reachable_held w K x :
  tm_reachable w -> tk_typed K -> data_of (view_at tk w) K = Some x -> tm_stored w K x.
Proof.
  intros [[Ho _] _]%tm_reachable_inv HK Hx. unfold data_of in Hx.
  destruct (view_at tk w K) as [a|] eqn:E; [|done]. injection Hx as <-. exists a. eauto.
Qed.

Lemma tm_reachable_client w cs :
  tm_reachable w -> tm_stored w TKClient (DTmClientState cs) ->
  tm_params_ok cs /\ is_u64 (ih_revision_height (tcs_latest_height cs)) /\
  exists st, tm_stored w (TKCons (ih_revision_height (tcs_latest_height cs))) (DTmConsensusStateStore st).
Proof.
  intros Hr Hc%data_of_held. destruct (tm_reachable_inv w Hr) as ([_ [A C S Ch]] & _).
  destruct (C _ Hc) as (? & [= <-] & Hp & Hu & [x Hx]). split_and!; [done|done|].
  destruct (S _ _ Hu Hx) as (_ & st & -> & _). exists st. by apply tm_reachable_held.
Qed.

Lemma tm_reachable_cons w h st :
  tm_reachable w -> is_u64 h -> tm_stored w (TKCons h) (DTmConsensusStateStore st) ->
  tss_height st = h /\ 0 < h /\ is_u64 (tmc_timestamp (tss_consensus_state st)).
Proof.
  intros Hr Hh Hs%data_of_held. destruct (tm_reachable_inv w Hr) as ([_ [A C S Ch]] & _).
  by destruct (S _ _ Hh Hs) as (? & ? & [= <-] & _ & ? & ? & ?).
Qed.

(** ** What an instruction keeps *)

Lemma tm_stored_inj w K x y : tm_stored w K x -> tm_stored w K y -> x = y.
Proof. intros Hx%data_of_held Hy%data_of_held. rewrite Hx in Hy. by injection Hy. Qed.

(** Two headers of one height that the client accepted. *)
Definition conflicting_headers (w : World) (cs : TmClientState) : Prop :=
  exists th st h st0 hd c', tm_stored w (TKCons th) (DTmConsensusStateStore st) /\ is_u64 th /\
    tm_stored w (TKCons h) (DTmConsensusStateStore st0) /\ is_u64 h /\
    revision_height (hd_trusted_height hd) = th /\ revision_height (header_height hd) = h /\
    accepted cs (tss_consensus_state st) (w_clock w) hd c' /\ contradicts st0 st c'.

(** Evidence that starts from stored consensus states. *)
Definition proven_misbehaviour (w : World) (cs : TmClientState) : Prop :=
  exists st1 st2 mb,
    tm_stored w (TKCons (revision_height (hd_trusted_height (mb_header1 mb)))) (DTmConsensusStateStore st1) /\
    tm_stored w (TKCons (revision_height (hd_trusted_height (mb_header2 mb)))) (DTmConsensusStateStore st2) /\
    misbehaved cs (tss_consensus_state st1) (tss_consensus_state st2) (w_clock w) mb.

Lemma is_frozen_freeze cs : 0 < ih_revision_height (tcs_latest_height cs) -> is_frozen (freeze cs) = true.
Proof. intros Hh. by apply Z.ltb_lt. Qed.

(** The client after a transition. *)
Lemma t_trans_client cx w ch l cs x :
  tm_reachable w -> t_trans cx w ch l -> Forall (fun x => tk_typed x.1) ch ->
  tm_stored w TKClient (DTmClientState cs) -> (TKClient, x) ∈ ch ->
  is_frozen cs = false /\ exists cs', x = DTmClientState cs' /\ tm_params cs' = tm_params cs /\
    ((tcs_frozen_height cs' = tcs_frozen_height cs /\
      (cs' = cs \/ exists h st, tcs_latest_height cs' = h /\ (TKCons (ih_revision_height h), st) ∈ ch /\
         w_accts w !! tk (TKCons (ih_revision_height h)) = None)) \/
     (cs' = freeze cs /\ (conflicting_headers w cs \/ proven_misbehaviour w cs))).
Proof.
  intros Hr Ht Hty Hcs Hin. rewrite Forall_forall in Hty.
  assert (forall cs0 th st hd c', update cx w cs0 th st hd c' -> cs0 = cs /\ is_frozen cs = false) as Hup.
  { intros cs0 th st hd c' [_ Hc Hf _ _ _ _]. pose proof (tm_stored_inj _ _ _ _ Hcs Hc) as E. by injection E as ->. }
  destruct Ht as [s cs0 c am Hc|cs0 th st hd c' U h Hnew|cs0 th st hd c' st0 U h Hold _ _
    |cs0 th st hd c' st0 U h Hold _ Hcon|cs0 th1 th2 st1 st2 mb _ Hc Hf Hs1 Hu1 Hs2 Hu2 E1 E2 Hmb| | | |].
  { destruct Hcs as (a & E & _). congruence. }
  all: repeat (apply elem_of_cons in Hin as [E|Hin]; [discriminate E || injection E as ->|]);
    try by apply not_elem_of_nil in Hin.
  - destruct (Hup _ _ _ _ _ U) as [-> Hf]. split; [done|]. eexists. split_and!; [done..|]. left. split; [done|].
    right. eexists _, _. split_and!; [done|apply list_elem_of_further, list_elem_of_here|]. simpl.
    destruct Hnew as [|(st0 & Hs0 & Hz)]; [done|]. apply Z.eqb_eq in Hz.
    apply tm_reachable_cons in Hs0 as (? & ? & _); [lia|done|].
    apply (Hty _ (list_elem_of_further _ _ _ (list_elem_of_here _ _))).
  - destruct (Hup _ _ _ _ _ U) as [-> Hf]. split; [done|]. exists cs. split_and!; [done|done|]. left. split; [done|by left].
  - destruct (Hup _ _ _ _ _ U) as [-> Hf]. split; [done|]. exists (freeze cs). split_and!; [done|done|]. right. split; [done|left].
    destruct U as [_ _ _ Hth Hthu Eh Hacc]. exists th, st, h, st0, hd, c'. split_and!; try done.
    apply (Hty _ (list_elem_of_further _ _ _ (list_elem_of_here _ _))).
  - pose proof (tm_stored_inj _ _ _ _ Hcs Hc) as E. injection E as <-. split; [done|].
    exists (freeze cs). split_and!; [done|done|]. right. split; [done|right]. exists st1, st2, mb.
    apply tm_reachable_cons in Hs1 as E; [|done..]. apply tm_reachable_cons in Hs2 as E'; [|done..].
    destruct E as [<- _], E' as [<- _]. by rewrite <- E1, <- E2.
Qed.

(** A stored consensus state is written again, if at all. *)
Lemma t_trans_cons cx w ch l h st x :
  tm_reachable w -> t_trans cx w ch l -> is_u64 h -> tm_stored w (TKCons h) (DTmConsensusStateStore st) ->
  (TKCons h, x) ∈ ch -> x = DTmConsensusStateStore st.
Proof.
  intros Hr Ht Hh Hst Hin.
  assert (forall st', tm_stored w (TKCons h) (DTmConsensusStateStore st') -> st' = st) as Heq.
  { intros st' Hs'. pose proof (tm_stored_inj _ _ _ _ Hst Hs') as E. by injection E. }
  assert (w_accts w !! tk (TKCons h) <> None) as Hn by (destruct Hst as (a & E & _); congruence).
  destruct Ht as [s cs0 c am _ _ Hc|cs0 th st' hd c' U h' Hnew|cs0 th st' hd c' st0 _ h' Hold _ _
    |cs0 th st' hd c' st0 _ h' Hold _ _| | | | |].
  all: repeat (apply elem_of_cons in Hin as [E|Hin]; [discriminate E || injection E as -> ->|]);
    try by apply not_elem_of_nil in Hin.
  - done.
  - destruct Hnew as [|(st0 & Hs0 & Hz)]; [done|]. apply Z.eqb_eq in Hz.
    apply tm_reachable_cons in Hs0 as (? & ? & _); [lia|done|done].
  - by apply Heq in Hold as ->.
  - by apply Heq in Hold as ->.
Qed.

(** The value at a key after a step. *)
Lemma tm_step_at w w' cx K x :
  steps_by TENDERMINT_ID tk tk_typed (t_trans cx) w w' -> tk_typed K -> tm_stored w K x ->
  exists ch l, t_trans cx w ch l /\ Forall (fun x => tk_typed x.1) ch /\
    (tm_stored w' K x \/ exists y, (K, y) ∈ ch /\ tm_stored w' K y).
Proof.
  intros (ch & l & Ht & Hev & Hst & Hty) HK (a & Ha & Ho & Hd). exists ch, l. split_and!; [done..|].
  destruct (view_at_step _ _ _ _ K Hev Hst HK) as [(d & a' & Hin & E & ? & ?)|[_ E]].
  - right. exists d. split; [done|]. by exists a'.
  - left. exists a. split; [|done]. by rewrite <- Ha.
Qed.

Lemma tm_client_kept w w' cs :
  tm_reachable w -> tm_step w w' -> tm_stored w TKClient (DTmClientState cs) ->
  exists cs', tm_stored w' TKClient (DTmClientState cs') /\ tm_params cs' = tm_params cs /\
    (is_frozen cs = true -> cs' = cs) /\
    (is_frozen cs = false -> is_frozen cs' = true ->
     cs' = freeze cs /\ (conflicting_headers w cs \/ proven_misbehaviour w cs)).
Proof.
  intros Hr Hs Hcs. destruct (tm_step_trans _ _ Hr Hs) as [cx Ht].
  destruct (tm_step_at _ _ _ TKClient _ Ht I Hcs) as (ch & l & Htr & Hty & [Hsame|(y & Hin & Hy)]).
  - exists cs. split_and!; [done..|]. congruence.
  - destruct (t_trans_client _ _ _ _ _ _ Hr Htr Hty Hcs Hin) as (Hf & cs' & -> & Hp & Hcase).
    exists cs'. split_and!; [done|done|congruence|]. intros _ Hf'.
    destruct Hcase as [[E _]|?]; [|done]. unfold is_frozen in *. rewrite E in Hf'. congruence.
Qed.

(** ** Theorems *)

(** C5: Every consensus state has a chain of trust.  In every reachable state,
    whatever ran in between, the parameters of the client are sound, the
    consensus states carry their heights, and there is one of them from which
    all the others descend: each by a sequence of headers, every one of them
    accepted, by a client with these parameters that was not frozen, from the
    state before it, that is, verified by the standard verification of
    tendermint-rs (unless an invalid vote has the SHA-256 digest of a valid
    one).  The latest height has a consensus state, so the client's status can
    always be asked for. *)
Theorem tm_states_trusted w cs (Hr : tm_reachable w) (Hcs : tm_stored w TKClient (DTmClientState cs)) :
  tm_params_ok cs /\
  (exists st, tm_stored w (TKCons (ih_revision_height (tcs_latest_height cs))) (DTmConsensusStateStore st)) /\
  exists rh rc, is_u64 rh /\ tm_stored w (TKCons rh) (DTmConsensusStateStore (mkTmConsensusStateStore rh rc)) /\
    forall h st, is_u64 h -> tm_stored w (TKCons h) (DTmConsensusStateStore st) ->
      tss_height st = h /\ 0 < h /\ chain cs (rh, rc) h (tss_consensus_state st).
Proof.
  destruct (tm_reachable_client w cs Hr Hcs) as (Hp & _ & Hl). split_and!; [done|done|].
  destruct (tm_reachable_inv w Hr) as ([_ [_ _ _ Ch]] & _).
  destruct (Ch cs) as (rh & rc & Hrh & Hroot & Hall); [by eapply data_of_held|].
  exists rh, rc. split_and!; [done|by apply tm_reachable_held|]. intros h st Hh Hst.
  destruct (tm_reachable_cons w h st Hr Hh Hst) as (? & ? & _). split_and!; [done..|].
  apply Hall; [done|]. by eapply data_of_held.
Qed.

(** C14: The client freezes on evidence and on nothing else.  When an
    instruction takes the client from active to frozen, nothing but the frozen
    height changed, which is now the latest height, and there is evidence:
    either a header for the height of a stored consensus state, accepted from a
    stored trusted state, that gives a different state or a time not after the
    trusted one's; or two conflicting headers, verified against the stored
    states at their trusted heights, that tendermint-rs calls misbehaviour. *)
Theorem tm_freezes_on_evidence w w' cs cs' (Hr : tm_reachable w) (Hs : tm_step w w')
    (Hcs : tm_stored w TKClient (DTmClientState cs)) (Hf : is_frozen cs = false)
    (Hcs' : tm_stored w' TKClient (DTmClientState cs')) (Hf' : is_frozen cs' = true) :
  cs' = freeze cs /\ (conflicting_headers w cs \/ proven_misbehaviour w cs).
Proof.
  destruct (tm_client_kept w w' cs Hr Hs Hcs) as (cs0 & Hcs0 & _ & _ & Hcase).
  pose proof (tm_stored_inj _ _ _ _ Hcs' Hcs0) as E. injection E as ->. by apply Hcase.
Qed.

(** C28: Consensus states are final, and a frozen client changes no more.  An
    instruction keeps every stored consensus state and the client's parameters;
    and when the client is frozen it also keeps the client itself and adds no
    consensus state. *)
Theorem tm_states_final w w' cs (Hr : tm_reachable w) (Hs : tm_step w w')
    (Hcs : tm_stored w TKClient (DTmClientState cs)) :
  (forall h st, is_u64 h -> tm_stored w (TKCons h) (DTmConsensusStateStore st) ->
     tm_stored w' (TKCons h) (DTmConsensusStateStore st)) /\
  (exists cs', tm_stored w' TKClient (DTmClientState cs') /\ tm_params cs' = tm_params cs) /\
  (is_frozen cs = true ->
   tm_stored w' TKClient (DTmClientState cs) /\
   forall h, is_u64 h -> w_accts w' !! tk (TKCons h) = w_accts w !! tk (TKCons h)).
Proof.
  destruct (tm_client_kept w w' cs Hr Hs Hcs) as (cs' & Hcs' & Hp & Hkeep & _).
  destruct (tm_step_trans _ _ Hr Hs) as [cx Ht]. split_and!; [|by exists cs'|].
  - intros h st Hh Hst. destruct (tm_step_at _ _ _ (TKCons h) _ Ht Hh Hst)
      as (ch & l & Htr & _ & [?|(y & Hin & Hy)]); [done|].
    by rewrite <- (t_trans_cons _ _ _ _ _ _ _ Hr Htr Hh Hst Hin).
  - intros Hf. split; [by rewrite <- (Hkeep Hf)|]. intros h Hh.
    destruct Ht as (ch & l & Htr & Hev & _). apply (ev_same _ _ _ _ Hev); [done|].
    assert (forall cs0 th st hd c', update cx w cs0 th st hd c' -> False) as Hup.
    { intros cs0 th st hd c' [_ Hc Hf' _ _ _ _]. pose proof (tm_stored_inj _ _ _ _ Hcs Hc) as E.
      injection E as <-. congruence. }
    destruct Htr; try (by exfalso; eapply Hup); try set_solver. destruct Hcs as (a & E & _). congruence.
Qed.

(** C21: Pre-verified signatures are genuine.  In every reachable state, an
    account of the program that calls the signature with digest [h] valid is
    right: [h] is the digest of a key, a message and a signature of that key on
    that message, which the Ed25519 program checked. *)
Theorem pre_verified_signatures_genuine w h a v (Hr : tm_reachable w)
    (Ha : w_accts w !! sig_verify_key h = Some a) (Hd : acc_data a = DSignatureVerification v)
    (Hv : sgv_is_valid v = true) :
  exists k m g, h = sha256 (k ++ m ++ g) /\ length k = 32%nat /\ length g = 64%nat /\
    ed25519_verify k m g = true.
Proof.
  destruct (tm_reachable_inv w Hr) as (_ & Hi & _). destruct (Hi h a Ha) as [E|(v' & E & Hg)]; [congruence|].
  rewrite Hd in E. injection E as ->. by apply Hg.
Qed.
End TmReachable.
