(* ===== verification/TendermintClient.v ===== *)
(** * The Tendermint light client behind the router

    What the proof instructions of [programs/ics07-tendermint] accept, as
    equivalences; the program as an implementation of the router's light-client
    interface ([LightClients.v]); and what this means for the packets the router
    delivers and times out through it: an ICS-23 proof against the root of a
    consensus state that has a chain of trust. *)

From S2P Require Import Prelude Errors Types Runtime Ics24 Cpi AccessManager AccessManagerSpec Keyed.
From S2P Require Import Chunking Router ChunkingSpec RouterSpec RouterProps LightClients.
From S2P Require Import BorshHeader TmLightClient TmLightClientSpec Tendermint TendermintSpec TendermintProps.
From S2P Require Import TendermintState.
From Stdlib Require Import ZArith Lia.
From Stdlib.Strings Require Import Byte.
From stdpp Require Import prelude strings gmap list.

#[local] Open Scope Z_scope.

(** ** Proofs *)

Section TmProofs.
Context `{Platform} `{!PlatformOk} `{TendermintLib}.

(** The client and its consensus state for the height [h]. *)
Definition tm_ready (w : World) (h : Z) (cs : TmClientState) (st : TmConsensusStateStore) : Prop :=
  tm_stored w TKClient (DTmClientState cs) /\ is_frozen cs = false /\
  tm_stored w (TKCons h) (DTmConsensusStateStore st) /\ tss_height st = h.

(** An ICS-23 proof, checked with the hash functions of the runtime. *)
Definition shows (st : TmConsensusStateStore) (proof : bytes) (path : list bytes) (v : bytes) : Prop :=
  v <> [] /\ exists mp, decode_merkle_proof proof = Some mp /\
    proof_verify_membership SolanaHostFunctionsManager mp (tmc_root (tss_consensus_state st)) path v 0 = true.

Definition shows_absent (st : TmConsensusStateStore) (proof : bytes) (path : list bytes) : Prop :=
  exists mp, decode_merkle_proof proof = Some mp /\
    proof_verify_non_membership SolanaHostFunctionsManager mp (tmc_root (tss_consensus_state st)) path = true.

(** A request of one pair. *)
Lemma membership_one hosts root kv mp :
  membership hosts root [(kv, mp)] =
  if is_non_membership kv
  then if proof_verify_non_membership hosts mp root (kv_path kv) then Ok (mkMembershipOutput root [kv])
       else Err NonMembershipVerificationFailed
  else if proof_verify_membership hosts mp root (kv_path kv) (kv_value kv) 0
       then Ok (mkMembershipOutput root [kv]) else Err MembershipVerificationFailed.
Proof.
  unfold membership. simpl. destruct (is_non_membership kv).
  - by destruct (proof_verify_non_membership _ _ _ _).
  - by destruct (proof_verify_membership _ _ _ _ _ _).
Qed.

Lemma tm_consensus_seeds_ok h : seeds_ok (tm_consensus_seeds h) = true.
Proof.
  unfold seeds_ok, tm_consensus_seeds. apply andb_true_iff. split; [|done].
  apply bool_decide_eq_true. rewrite !Forall_cons, length_u64_to_le_bytes.
  split_and!; [simpl; lia|lia|constructor].
Qed.

Lemma tm_verify_accounts_run acc height w cs st :
  tv_client_state acc = tk TKClient -> tv_consensus_state_at_height acc = tk (TKCons (height cs)) ->
  tm_stored w TKClient (DTmClientState cs) -> tm_stored w (TKCons (height cs)) (DTmConsensusStateStore st) ->
  tm_verify_accounts acc height w = Ok ((cs, st), w).
Proof.
  intros Hk1 Hk2 (a1 & Ha1 & Ho1 & Hd1) (a2 & Ha2 & Ho2 & Hd2).
  rewrite <- Hk1 in Ha1. rewrite <- Hk2 in Ha2. unfold tm_verify_accounts.
  mrun; [exists a1; rewrite as_TmClientState_Some; eauto|].
  mrun; [exists a2; rewrite as_TmConsensusStateStore_Some; eauto|].
  mrun; [by vm_compute|done|]. mrun; [apply tm_consensus_seeds_ok|done|]. by apply ret_Ok.
Qed.

Lemma tm_verify_membership_iff acc msg w u w' :
  tm_verify_membership acc msg w = Ok (u, w') <->
  w' = w /\ tv_client_state acc = tk TKClient /\
  tv_consensus_state_at_height acc = tk (TKCons (mm_height msg)) /\
  exists cs st, tm_ready w (mm_height msg) cs st /\ shows st (mm_proof msg) (mm_path msg) (mm_value msg).
Proof.
  unfold tm_verify_membership, tm_ready, shows, deserialize_merkle_proof. split.
  - intros Hr. minv. match goal with E : tm_verify_accounts _ _ _ = Ok (?p, _) |- _ =>
      destruct p as [cs st]; apply tm_verify_accounts_Ok in E as (-> & Hk1 & Hk2 & Hc & Hs) end.
    minv. rewrite membership_one in *. unfold is_non_membership in *. simpl in *.
    match goal with E : bool_decide _ = false |- _ => rewrite E in *; apply bool_decide_eq_false in E end.
    apply ok_or_ok in Hm2. apply Z.eqb_eq in Hm0. destruct (proof_verify_membership _ _ _ _ _ _) eqn:Ev; [|done].
    split_and!; try done. exists cs, st. split_and!; try done. eauto.
  - intros (-> & Hk1 & Hk2 & cs & st & (Hc & Hf & Hs & Hh) & Hv & mp & Hmp & Hver).
    apply bind_Ok. exists (cs, st), w. split; [by apply (tm_verify_accounts_run acc (fun _ => mm_height msg))|].
    cbv beta iota. mrun; [by rewrite bool_decide_eq_false_2|]. mrun; [by apply Z.eqb_eq|]. mrun; [by rewrite Hf|].
    mrun; [by rewrite Hmp|]. mrun; [|by destruct u]. rewrite membership_one. unfold is_non_membership. simpl.
    by rewrite bool_decide_eq_false_2, Hver.
Qed.

Lemma tm_verify_non_membership_iff acc msg w u w' :
  tm_verify_non_membership acc msg w = Ok (u, w') <->
  tv_client_state acc = tk TKClient /\ tv_consensus_state_at_height acc = tk (TKCons (nm_height msg)) /\
  exists cs st, tm_ready w (nm_height msg) cs st /\ shows_absent st (nm_proof msg) (nm_path msg) /\
    w' = set_return w (Some (TENDERMINT_ID,
           u64_to_le_bytes (nanos_to_secs (tmc_timestamp (tss_consensus_state st))))).
Proof.
  unfold tm_verify_non_membership, tm_ready, shows_absent, deserialize_merkle_proof. split.
  - intros Hr. minv. match goal with E : tm_verify_accounts _ _ _ = Ok (?p, _) |- _ =>
      destruct p as [cs st]; apply tm_verify_accounts_Ok in E as (-> & Hk1 & Hk2 & Hc & Hs) end.
    minv. rewrite membership_one in *. simpl in *.
    match goal with E : ok_or _ _ = Ok _ |- _ => apply ok_or_ok in E end.
    match goal with E : (_ =? _) = true |- _ => apply Z.eqb_eq in E end.
    destruct (proof_verify_non_membership _ _ _ _) eqn:Ev; [|done].
    split_and!; try done. exists cs, st. split_and!; try done. eauto.
  - intros (Hk1 & Hk2 & cs & st & (Hc & Hf & Hs & Hh) & (mp & Hmp & Hver) & ->).
    apply bind_Ok. exists (cs, st), w. split; [by apply (tm_verify_accounts_run acc (fun _ => nm_height msg))|].
    cbv beta iota. mrun; [by apply Z.eqb_eq|]. mrun; [by rewrite Hf|].
    mrun; [by rewrite Hmp|]. mrun; [rewrite membership_one; simpl; by rewrite Hver|].
    by apply set_return_data_Ok.
Qed.

End TmProofs.

(** ** The interface *)

Section TmClient.
Context `{Platform} `{!PlatformOk} `{TendermintLib} `{!TendermintLibOk}.

Definition tm_ix_of (state cons : Pubkey) (ix : CpiIx) : option TmIx :=
  let acc := mkTmVerifyAccounts state cons in
  match ix with
  | IxVerifyMembership msg => Some (TVerifyMembership acc msg)
  | IxVerifyNonMembership msg => Some (TVerifyNonMembership acc msg)
  | IxClientStatus => Some (TClientStatus acc)
  | _ => None
  end.

(** The entry point of the program, reached by a call. *)
Class TendermintDeployed : Prop :=
  tm_entry cx metas ix w w' state cons :
    process_instruction cx TENDERMINT_ID metas ix w = Ok w' ->
    meta_pubkey <$> metas = [state; cons] ->
    exists ix0 tix, tm_ix_of state cons ix = Some tix /\ exec_tm cx ix0 tix w = Ok ((), w').

(** An active client whose state for the height [h] has a chain of trust. *)
Definition tm_trusts (w : World) (h : Z) (st : TmConsensusStateStore) : Prop :=
  exists cs rh rc, tm_stored w TKClient (DTmClientState cs) /\ is_frozen cs = false /\
    tm_stored w (TKCons rh) (DTmConsensusStateStore (mkTmConsensusStateStore rh rc)) /\
    tm_stored w (TKCons h) (DTmConsensusStateStore st) /\
    is_u64 (tmc_timestamp (tss_consensus_state st)) /\
    chain cs (rh, rc) h (tss_consensus_state st).

Definition tm_committed (w : World) (h : Z) (path : list bytes) (v : bytes) : Prop :=
  exists st proof, tm_trusts w h st /\ shows st proof path v.

Definition tm_absent (w : World) (h : Z) (path : list bytes) (ts : Z) : Prop :=
  exists st proof, tm_trusts w h st /\ shows_absent st proof path /\
    ts = nanos_to_secs (tmc_timestamp (tss_consensus_state st)).

(** A height that is checked against the stored one is one of the type. *)
Lemma tm_cons_u64 w h st :
  tm_reachable w -> tm_stored w (TKCons h) (DTmConsensusStateStore st) -> tss_height st = h -> is_u64 h.
Proof.
  intros Hr Hst Eh. destruct (u64_to_le_bytes_wrap h) as (h' & Hu & E).
  assert (tk (TKCons h) = tk (TKCons h')) as Ek.
  { unfold tk, tk_seeds, tm_consensus_seeds. by rewrite E. }
  rewrite Ek in Hst. destruct (tm_reachable_cons w h' st Hr Hu Hst) as [E' _]. congruence.
Qed.

Lemma ready_trusts w w1 state cons h cs st :
  tm_reachable w -> foreign_to ROUTER_ID w w1 ->
  owner_of w state = TENDERMINT_ID -> owner_of w cons = TENDERMINT_ID ->
  state = tk TKClient -> cons = tk (TKCons h) -> tm_ready w1 h cs st -> tm_trusts w h st.
Proof.
  intros Hr Hf Ho1 Ho2 -> -> (Hc & Hfr & Hst & Eh).
  apply (held_before _ w) in Hc; [|done|by vm_compute|by vm_compute|done].
  apply (held_before _ w) in Hst; [|done|by vm_compute|by vm_compute|done].
  pose proof (tm_cons_u64 w h st Hr Hst Eh) as Hu.
  destruct (tm_reachable_cons w h st Hr Hu Hst) as (_ & _ & Hts).
  destruct (tm_reachable_inv w Hr) as ([_ [_ _ _ Ch]] & _).
  destruct (Ch cs) as (rh & rc & Hrh & Hroot & Hall); [by eapply data_of_held|].
  exists cs, rh, rc. split_and!; try done; [by apply tm_reachable_held|].
  apply Hall; [done|]. by eapply data_of_held.
Qed.

Lemma tm_membership_sound `{!TendermintDeployed} cx w state cons msg w2 :
  tm_reachable w -> lc_answer cx w TENDERMINT_ID state cons (IxVerifyMembership msg) w2 ->
  tm_committed w (mm_height msg) (mm_path msg) (mm_value msg).
Proof.
  intros Hr (Ho1 & Ho2 & _ & w1 & Hf & _ & Hp).
  eapply tm_entry in Hp as (ix0 & tix & [= <-] & Hx); [|done]. simpl in Hx.
  apply tm_verify_membership_iff in Hx as (_ & E1 & E2 & cs & st & Hready & Hs). simpl in E1, E2.
  exists st, (mm_proof msg). split; [|done]. exact (ready_trusts w w1 state cons _ cs st Hr Hf Ho1 Ho2 E1 E2 Hready).
Qed.

Lemma tm_non_membership_sound `{!TendermintDeployed} cx w state cons msg w2 :
  tm_reachable w -> lc_answer cx w TENDERMINT_ID state cons (IxVerifyNonMembership msg) w2 ->
  exists ts, is_u64 ts /\ tm_absent w (nm_height msg) (nm_path msg) ts /\
    w_return_data w2 = Some (TENDERMINT_ID, u64_to_le_bytes ts).
Proof.
  intros Hr (Ho1 & Ho2 & _ & w1 & Hf & _ & Hp).
  eapply tm_entry in Hp as (ix0 & tix & [= <-] & Hx); [|done]. simpl in Hx.
  apply tm_verify_non_membership_iff in Hx as (E1 & E2 & cs & st & Hready & Hs & ->). simpl in E1, E2.
  assert (tm_trusts w (nm_height msg) st) as Ht by exact (ready_trusts w w1 state cons _ cs st Hr Hf Ho1 Ho2 E1 E2 Hready).
  eexists. split_and!; [|by exists st, (nm_proof msg)|done].
  destruct Ht as (_ & _ & _ & _ & _ & _ & _ & Hts & _). unfold is_u64, nanos_to_secs in *.
  split; [apply Z.div_pos; lia|]. etrans; [apply Z.div_le_upper_bound with (q := u64_max)|done]; lia.
Qed.

#[export] Instance tendermint_light_client `{!TendermintDeployed} : LightClient TENDERMINT_ID := {|
  lc_inv := tm_reachable;
  lc_committed := tm_committed;
  lc_absent := tm_absent;
  lc_membership_sound := tm_membership_sound;
  lc_non_membership_sound := tm_non_membership_sound |}.

Context `{!RouterDeployed} `{!TendermintDeployed}.

(** C6: Delivered packets were proved.  When the router, in a successful
    instruction, reports a packet received for a client backed by the
    Tendermint program, the Tendermint client is not frozen and an ICS-23 proof
    shows the packet's commitment, at the path of its source client and
    sequence, under the root of a stored consensus state that descends from a
    stored one by verified headers; the packet has not timed out. *)
Theorem delivered_packets_proved cx ix w w' l c s p acks cl
    (Hrun : running cx ROUTER_ID) (Hty : ix_typed ix) (Hx : exec_router cx ix w = Ok ((), w'))
    (Hl : own_log ROUTER_ID w' = own_log ROUTER_ID w ++ l)
    (Hin : LEvent ROUTER_ID (WriteAcknowledgementEvent c s p acks) ∈ l)
    (Hcl : stored w (KClient c) (DClient cl)) (Hprog : cl_client_program_id cl = TENDERMINT_ID)
    (Hr : tm_reachable w) :
  w_clock w < pkt_timeout_timestamp p /\
  exists h st path proof, tm_trusts w h st /\
    prefixed_path (ci_merkle_prefix (cl_counterparty_info cl))
      (packet_commitment_path (pkt_source_client p) s) = Ok path /\
    shows st proof path (packet_commitment_bytes32 p).
Proof.
  destruct (exec_router_log cx ix w w' l Hrun Hty Hx Hl) as [ch Ht].
  pose proof (r_trans_justified TENDERMINT_ID cx w ch l _ c cl Ht Hr Hin eq_refl Hcl Hprog)
    as (_ & Hsrc & Hto & h & path & Hpath & st & proof & Htr & Hs).
  split; [done|]. exists h, st, path, proof. rewrite Hsrc. done.
Qed.

(** C7: Timed-out packets were proved missing.  When the router reports a
    timeout of a packet for a client backed by the Tendermint program, the
    client is not frozen, an ICS-23 proof shows that nothing is stored at the
    path of the packet's receipt under the root of a consensus state with a
    chain of trust, and the time of that state, in seconds, is not before the
    packet's timeout. *)
Theorem timed_out_packets_proved_missing cx ix w w' l c s p cl
    (Hrun : running cx ROUTER_ID) (Hty : ix_typed ix) (Hx : exec_router cx ix w = Ok ((), w'))
    (Hl : own_log ROUTER_ID w' = own_log ROUTER_ID w ++ l)
    (Hin : LEvent ROUTER_ID (TimeoutPacketEvent c s p) ∈ l)
    (Hcl : stored w (KClient c) (DClient cl)) (Hprog : cl_client_program_id cl = TENDERMINT_ID)
    (Hr : tm_reachable w) :
  exists h st path proof, tm_trusts w h st /\
    prefixed_path (ci_merkle_prefix (cl_counterparty_info cl))
      (packet_receipt_commitment_path (pkt_dest_client p) s) = Ok path /\
    shows_absent st proof path /\
    pkt_timeout_timestamp p <= tmc_timestamp (tss_consensus_state st) / 1000000000.
Proof.
  destruct (exec_router_log cx ix w w' l Hrun Hty Hx Hl) as [ch Ht].
  pose proof (r_trans_justified TENDERMINT_ID cx w ch l _ c cl Ht Hr Hin eq_refl Hcl Hprog)
    as (_ & Hdst & h & path & ts & Hpath & (st & proof & Htr & Hs & ->) & Hto).
  exists h, st, path, proof. rewrite Hdst. done.
Qed.

End TmClient.
