(* ===== verification/TendermintStep.v ===== *)
(** * The Tendermint light client: what each instruction does

    The contract of every instruction of [programs/ics07-tendermint], with its
    own accounts and arguments ([t_spec]): the conditions under which it
    succeeds, every account it writes, the lamports of the accounts it closes,
    its log entries and its return data.  The scratch data is part of it: the
    uploaded chunks and the pre-verified signatures.  The program calls no other
    program, so the accounts a contract does not name are those of before, at
    every address.  [TendermintSpec.v] keeps of this what the invariants of the
    client's state need. *)

From S2P Require Import Prelude Errors Types Runtime Cpi AccessManager AccessManagerSpec Keyed Chunking.
From S2P Require Import BorshHeader TmLightClient TmLightClientSpec Tendermint TendermintSpec TendermintProps.
From S2P Require Import TendermintState TendermintClient.
From Stdlib Require Import ZArith Lia.
From Stdlib.Strings Require Import Byte.
From stdpp Require Import prelude strings gmap list.

#[local] Open Scope Z_scope.

Section TmContract.
Context `{Platform} `{TendermintLib}.

(** [s] signed, at the top level, and is a relayer of the program's access
    manager. *)
Definition relayed (cx : CallCtx) (w : World) (s : Pubkey) : Prop :=
  exists app, tm_stored w TKApp (DTmAppState app) /\
    holder_of TENDERMINT_ID cx w (ams_access_manager (tas_am_state app)) RELAYER_ROLE s.

(** ** Chunks *)

Definition header_chunk_bytes (d : AccountData) : option bytes :=
  match d with DHeaderChunk c => Some (hch_chunk_data c) | _ => None end.
Definition misbehaviour_chunk_bytes (d : AccountData) : option bytes :=
  match d with DMisbehaviourChunk c => Some (mch_chunk_data c) | _ => None end.

(** The first [n] of the given accounts are the chunks with the seeds
    [seeds_at 0 .. seeds_at (n - 1)], and [b] is what they hold, in order. *)
Definition chunks_hold (w : World) (accounts : list Pubkey) (seeds_at : Z -> list bytes)
    (bytes_of : AccountData -> option bytes) (n : nat) (b : bytes) : Prop :=
  exists ds, length ds = n /\ b = concat ds /\ forall i d, ds !! i = Some d ->
    let k := pda_key (seeds_at (Z.of_nat i)) TENDERMINT_ID in
    accounts !! i = Some k /\ exists x, held TENDERMINT_ID w k x /\ bytes_of x = Some d.

(** A live account of the program whose data is as [Q] says. *)
Definition live (Q : AccountData -> Prop) (w : World) (k : Pubkey) : Prop :=
  exists d, held TENDERMINT_ID w k d /\ Q d /\ 0 < lam w k.

(** Header chunks and signatures name their submitter. *)
Definition submitted_by (s : Pubkey) (d : AccountData) : Prop :=
  match d with
  | DHeaderChunk c => hch_submitter c = s
  | DSignatureVerification v => sgv_submitter v = s
  | _ => False
  end.

(** The accounts [ks] are closed: the submitter gets their lamports, and their
    data is zeroed. *)
Definition refunded (s : Pubkey) (ks : list Pubkey) (w w' : World) : Prop :=
  NoDup ks /\ (s ∉ ks) /\ (forall k, k ∈ ks -> lam w' k = 0) /\
  lam w' s = lam w s + zsum (lam w) ks /\ forall k, k ∉ ks -> k <> s -> lam w' k = lam w k.
Definition zeroed (ks : list Pubkey) : list (Pubkey * AccountData) := (fun k => (k, DZeroed)) <$> ks.

(** ** The client's states *)

Definition advanced (cs : TmClientState) (h : Height) (cs' : TmClientState) : Prop :=
  tm_params cs' = tm_params cs /\ tcs_frozen_height cs' = tcs_frozen_height cs /\
  tcs_latest_height cs' = mkIbcHeight (revision_number h) (revision_height h).
Definition freezes (cs cs' : TmClientState) : Prop :=
  tm_params cs' = tm_params cs /\ tcs_latest_height cs' = tcs_latest_height cs /\
  tcs_frozen_height cs' = tcs_latest_height cs /\ is_frozen cs' = true.

(** What [assemble_and_update_client] needs: an active client, a relayer, the
    trusted state at [th], and in the chunks a header for the height [h] that
    is accepted from it. *)
Record submitted (cx : CallCtx) (w : World) (acc : AssembleAndUpdateClientAccounts) (h n th : Z)
    (cs : TmClientState) (st : TmConsensusStateStore) (hd : IbcHeader) (c' : TmConsensusState) : Prop := {
  su_relayer : relayed cx w (ta_submitter acc);
  su_client : tm_stored w TKClient (DTmClientState cs);
  su_active : is_frozen cs = false;
  su_trusted : tm_stored w (TKCons th) (DTmConsensusStateStore st);
  su_chunks : exists b, chunks_hold w (ta_remaining acc) (header_chunk_seeds (ta_submitter acc) h)
    header_chunk_bytes (Z.to_nat n) b /\ tm_deserialize_header b = Ok hd;
  su_from : revision_height (hd_trusted_height hd) = th;
  su_to : revision_height (header_height hd) = h;
  su_accepted : accepted cs (tss_consensus_state st) (w_clock w) hd c' }.

(** What the upload of a chunk needs. *)
Definition may_upload (cx : CallCtx) (w : World) (s : Pubkey) (data : bytes) : Prop :=
  relayed cx w s /\ Z.of_nat (length data) <= 900 /\
  exists cs, tm_stored w TKClient (DTmClientState cs) /\ is_frozen cs = false.

(** ** The contracts *)

Inductive t_spec (cx : CallCtx) (ix0 : Ix0) (w w' : World)
    : TmIx -> list (Pubkey * AccountData) -> list LogEntry -> Prop :=
| TS_initialize acc cs c am :
    let latest := ih_revision_height (tcs_latest_height cs) in
    w_accts w !! tk TKClient = None -> w_accts w !! tk TKApp = None ->
    w_accts w !! tk (TKCons latest) = None ->
    ti_authority acc ∈ cx_signers cx -> upgrade_authority_of w TENDERMINT_ID (ti_authority acc) ->
    am <> Pubkey_default -> tm_params_ok cs ->
    t_spec cx ix0 w w' (TInitialize acc cs c am)
      [(tk TKClient, DTmClientState cs);
       (tk (TKCons latest), DTmConsensusStateStore (mkTmConsensusStateStore latest c));
       (tk TKApp, DTmAppState (mkTmAppState (mkAccessManagerState am None)))] []
| TS_update acc h n th cs cs' st hd c' :
    submitted cx w acc h n th cs st hd c' -> w_accts w !! tk (TKCons h) = None ->
    advanced cs (header_height hd) cs' -> w_return_data w' = Some (TENDERMINT_ID, [x00]) ->
    t_spec cx ix0 w w' (TAssembleAndUpdateClient acc h n th)
      [(tk TKClient, DTmClientState cs');
       (tk (TKCons h), DTmConsensusStateStore (mkTmConsensusStateStore h c'))] []
| TS_noop acc h n th cs st hd c' st0 :
    submitted cx w acc h n th cs st hd c' -> tm_stored w (TKCons h) (DTmConsensusStateStore st0) ->
    ~ contradicts st0 st c' -> w_return_data w' = Some (TENDERMINT_ID, [x01]) ->
    t_spec cx ix0 w w' (TAssembleAndUpdateClient acc h n th)
      [(tk TKClient, DTmClientState cs); (tk (TKCons h), DTmConsensusStateStore st0)] []
| TS_conflict acc h n th cs cs' st hd c' st0 :
    submitted cx w acc h n th cs st hd c' -> tm_stored w (TKCons h) (DTmConsensusStateStore st0) ->
    contradicts st0 st c' -> freezes cs cs' -> w_return_data w' = Some (TENDERMINT_ID, [x02]) ->
    t_spec cx ix0 w w' (TAssembleAndUpdateClient acc h n th)
      [(tk TKClient, DTmClientState cs'); (tk (TKCons h), DTmConsensusStateStore st0)] []
| TS_misbehaviour acc n th1 th2 cs cs' st1 st2 mb b ks :
    let seeds_at := misbehaviour_chunk_seeds (tsm_submitter acc) in
    relayed cx w (tsm_submitter acc) ->
    tm_stored w TKClient (DTmClientState cs) -> is_frozen cs = false ->
    tm_stored w (TKCons th1) (DTmConsensusStateStore st1) ->
    tm_stored w (TKCons th2) (DTmConsensusStateStore st2) ->
    chunks_hold w (tsm_remaining acc) seeds_at misbehaviour_chunk_bytes (Z.to_nat n) b ->
    tm_deserialize_misbehaviour b = Ok mb ->
    revision_height (hd_trusted_height (mb_header1 mb)) = th1 ->
    revision_height (hd_trusted_height (mb_header2 mb)) = th2 ->
    misbehaved cs (tss_consensus_state st1) (tss_consensus_state st2) (w_clock w) mb ->
    freezes cs cs' ->
    (forall k, k ∈ ks <-> exists i, (i < Z.to_nat n)%nat /\ k = pda_key (seeds_at (Z.of_nat i)) TENDERMINT_ID) ->
    refunded (tsm_submitter acc) ks w w' ->
    t_spec cx ix0 w w' (TAssembleAndSubmitMisbehaviour acc n th1 th2)
      ((tk TKClient, DTmClientState cs') :: zeroed ks) []
| TS_upload_header acc p :
    may_upload cx w (tu_submitter acc) (ucp_chunk_data p) ->
    t_spec cx ix0 w w' (TUploadHeaderChunk acc p)
      [(pda_key (header_chunk_seeds (tu_submitter acc) (ucp_target_height p) (ucp_chunk_index p)) TENDERMINT_ID,
        DHeaderChunk (mkHeaderChunk (tu_submitter acc) (ucp_chunk_data p)))] []
| TS_upload_misbehaviour acc p :
    may_upload cx w (tu_submitter acc) (ump_chunk_data p) ->
    t_spec cx ix0 w w' (TUploadMisbehaviourChunk acc p)
      [(pda_key (misbehaviour_chunk_seeds (tu_submitter acc) (ump_chunk_index p)) TENDERMINT_ID,
        DMisbehaviourChunk (mkMisbehaviourChunk (ump_chunk_data p)))] []
| TS_cleanup_upload acc ks :
    tcl_submitter acc ∈ cx_signers cx ->
    (forall k, k ∈ ks <-> k ∈ tcl_remaining acc /\ live (submitted_by (tcl_submitter acc)) w k) ->
    refunded (tcl_submitter acc) ks w w' ->
    t_spec cx ix0 w w' (TCleanupIncompleteUpload acc) (zeroed ks) []
| TS_cleanup_misbehaviour acc ks :
    tcl_submitter acc ∈ cx_signers cx ->
    (forall k, k ∈ ks <-> (exists i, tcl_remaining acc !! i = Some k /\
       k = pda_key (misbehaviour_chunk_seeds (tcl_submitter acc) (Z.of_nat i)) TENDERMINT_ID) /\
       live (fun _ => True) w k) ->
    refunded (tcl_submitter acc) ks w w' ->
    t_spec cx ix0 w w' (TCleanupIncompleteMisbehaviour acc) (zeroed ks) []
| TS_pre_verify acc s valid :
    relayed cx w (tp_submitter acc) -> w_accts w !! sig_verify_key (sd_signature_hash s) = None ->
    sd_signature_hash s = sha256 (sd_pubkey s ++ sd_msg s ++ sd_signature s) ->
    valid = verify_ed25519_from_sysvar ix0 (sd_pubkey s) (sd_msg s) (sd_signature s) ->
    (ix0_ran ix0 -> valid = true -> ed25519_verify (sd_pubkey s) (sd_msg s) (sd_signature s) = true) ->
    t_spec cx ix0 w w' (TPreVerifySignature acc s)
      [(sig_verify_key (sd_signature_hash s),
        DSignatureVerification (mkSignatureVerification valid (tp_submitter acc)))] []
| TS_membership acc msg cs st :
    tm_ready w (mm_height msg) cs st -> shows st (mm_proof msg) (mm_path msg) (mm_value msg) ->
    w_return_data w' = w_return_data w ->
    t_spec cx ix0 w w' (TVerifyMembership acc msg) [] []
| TS_non_membership acc msg cs st :
    tm_ready w (nm_height msg) cs st -> shows_absent st (nm_proof msg) (nm_path msg) ->
    w_return_data w' = Some (TENDERMINT_ID,
      u64_to_le_bytes (tmc_timestamp (tss_consensus_state st) / 1000000000)) ->
    t_spec cx ix0 w w' (TVerifyNonMembership acc msg) [] []
| TS_status acc cs st :
    tm_stored w TKClient (DTmClientState cs) ->
    tm_stored w (TKCons (ih_revision_height (tcs_latest_height cs))) (DTmConsensusStateStore st) ->
    w_return_data w' = Some (TENDERMINT_ID,
      [ClientStatus_to_u8 (tm_status cs (tss_consensus_state st) (w_clock w))]) ->
    t_spec cx ix0 w w' (TClientStatus acc) [] []
| TS_propose acc app n :
    let manager := ams_access_manager (tas_am_state app) in
    tm_stored w TKApp (DTmAppState app) -> admin_at TENDERMINT_ID cx w manager (tt_admin acc) ->
    ams_pending_access_manager (tas_am_state app) = None ->
    t_spec cx ix0 w w' (TProposeAccessManagerTransfer acc n)
      [(tk TKApp, DTmAppState (mkTmAppState (mkAccessManagerState manager (Some n))))]
      [LEvent TENDERMINT_ID (AccessManagerTransferProposed manager n)]
| TS_accept acc app n :
    tm_stored w TKApp (DTmAppState app) -> ams_pending_access_manager (tas_am_state app) = Some n ->
    admin_at TENDERMINT_ID cx w n (tt_admin acc) ->
    t_spec cx ix0 w w' (TAcceptAccessManagerTransfer acc)
      [(tk TKApp, DTmAppState (mkTmAppState (mkAccessManagerState n None)))]
      [LEvent TENDERMINT_ID (AccessManagerTransferAccepted (ams_access_manager (tas_am_state app)) n)]
| TS_cancel acc app n :
    let manager := ams_access_manager (tas_am_state app) in
    tm_stored w TKApp (DTmAppState app) -> ams_pending_access_manager (tas_am_state app) = Some n ->
    admin_at TENDERMINT_ID cx w manager (tt_admin acc) ->
    t_spec cx ix0 w w' (TCancelAccessManagerTransfer acc)
      [(tk TKApp, DTmAppState (mkTmAppState (mkAccessManagerState manager None)))]
      [LEvent TENDERMINT_ID (AccessManagerTransferCancelled manager n)].

(** An instruction meets its contract: it leaves the named accounts with the
    given data, and every other account of the ledger as it was. *)
Definition performed (cx : CallCtx) (ix0 : Ix0) (ix : TmIx) (w w' : World) : Prop :=
  exists ch l, t_spec cx ix0 w w' ix ch l /\
    own_log TENDERMINT_ID w' = own_log TENDERMINT_ID w ++ l /\
    (forall k d, (k, d) ∈ ch -> held TENDERMINT_ID w' k d) /\
    forall k, k ∉ fst <$> ch -> w_accts w' !! k = w_accts w !! k.

End TmContract.

Section TmPerformed.
Context `{Platform} `{!PlatformOk} `{TendermintLib} `{!TendermintLibOk}.

(** ** What the handlers write *)

(** Only the accounts [ks] were written, and nothing was logged. *)
Definition wrote (ks : list Pubkey) (w w' : World) : Prop :=
  w_log w' = w_log w /\ forall k, k ∉ ks -> w_accts w' !! k = w_accts w !! k.

Lemma wrote_refl ks w : wrote ks w w.
Proof. done. Qed.

Lemma wrote_trans ks w w1 w2 : wrote ks w w1 -> wrote ks w1 w2 -> wrote ks w w2.
Proof. intros [L1 A1] [L2 A2]. split; [congruence|]. intros k Hk. by rewrite A2, A1. Qed.

Lemma wrote_weaken ks ks' w w' : ks ⊆ ks' -> wrote ks w w' -> wrote ks' w w'.
Proof. intros Hsub [L A]. split; [done|]. intros k Hk. apply A. set_solver. Qed.

Lemma wrote_init cx ks k payer sp w u w' :
  k ∈ ks -> init_account cx TENDERMINT_ID k payer sp w = Ok (u, w') ->
  wrote ks w w' /\ w_accts w !! k = None.
Proof.
  intros Hk (_ & Hn & Hacc & _ & _ & Hlog & _)%init_account_Ok. split; [|done]. split; [done|].
  intros k' Hk'. rewrite Hacc, lookup_insert_ne; [done|]. by intros ->.
Qed.

Lemma wrote_init_if_needed {A} cx (proj : AccountData -> option A) fresh ks k payer sp w x w' :
  k ∈ ks -> init_if_needed cx TENDERMINT_ID proj fresh k payer sp w = Ok (x, w') -> wrote ks w w'.
Proof.
  intros Hk [_ [(_ & _ & Hi)|(-> & _)]]%init_if_needed_Ok; [|apply wrote_refl]. by eapply wrote_init.
Qed.

Lemma wrote_store ks k d w u w' :
  k ∈ ks -> store_account TENDERMINT_ID k d w = Ok (u, w') -> wrote ks w w' /\ held TENDERMINT_ID w' k d.
Proof.
  intros Hk (a & Ha & Ho & _ & ->)%store_account_Ok. split.
  - split; [done|]. intros k' Hk'. simpl. rewrite lookup_insert_ne; [done|]. by intros ->.
  - exists (with_data a d). simpl. by rewrite lookup_insert_eq.
Qed.

Lemma wrote_held ks w w' k d : wrote ks w w' -> k ∉ ks -> held TENDERMINT_ID w k d -> held TENDERMINT_ID w' k d.
Proof. intros [_ E] Hk. unfold held. by rewrite E. Qed.

Lemma performed_intro cx ix0 ix w w' ch :
  t_spec cx ix0 w w' ix ch [] -> wrote (fst <$> ch) w w' ->
  (forall k d, (k, d) ∈ ch -> held TENDERMINT_ID w' k d) -> performed cx ix0 ix w w'.
Proof.
  intros Ht [Hl Hw] Hh. exists ch, []. split_and!; [done| |done|done].
  unfold own_log. by rewrite Hl, app_nil_r.
Qed.

Lemma tk_ne K K' : tk_typed K -> tk_typed K' -> K <> K' -> tk K <> tk K'.
Proof. intros HK HK' Hne E%tk_inj; done. Qed.

(** *** Closing accounts *)

Record drained (s : Pubkey) (ks : list Pubkey) (w w' : World) : Prop := {
  dr_wrote : wrote ks w w';
  dr_zero k : k ∈ ks -> held TENDERMINT_ID w' k DZeroed;
  dr_paid : refunded s ks w w' }.

Lemma drained_refl s w : drained s [] w w.
Proof.
  split; [done|by intros k ?%not_elem_of_nil|]. split_and!; [constructor|apply not_elem_of_nil| |simpl; lia|done].
  by intros k ?%not_elem_of_nil.
Qed.

(** One account drained: its data is zeroed, and its lamports go to [s]. *)
Lemma drain_step cx ov s k w u w1 :
  drain_account cx TENDERMINT_ID ov k s w = Ok (u, w1) ->
  k <> s /\ wrote [k] w w1 /\ held TENDERMINT_ID w1 k DZeroed /\ lam w1 k = 0 /\
  lam w1 s = lam w s + lam w k /\ forall j, j <> k -> j <> s -> lam w1 j = lam w j.
Proof.
  intros (Hne & _ & Hlog & _ & (a & Ha & Ho & Hacc) & Hlam)%drain_account_Ok. split_and!; [done| | | | |].
  - split; [done|]. intros j Hj. rewrite Hacc, lookup_insert_ne by set_solver. done.
  - exists (with_data a DZeroed). by rewrite Hacc, lookup_insert_eq.
  - by rewrite Hlam, decide_True.
  - by rewrite Hlam, decide_False, decide_True.
  - intros j ? ?. by rewrite Hlam, !decide_False.
Qed.

Lemma drained_cons cx ov s k ks w u w1 w' :
  drain_account cx TENDERMINT_ID ov k s w = Ok (u, w1) -> drained s ks w1 w' ->
  exists ks', drained s ks' w w' /\ forall j, j ∈ ks' <-> j = k \/ j ∈ ks.
Proof.
  intros (Hne & [L1 A1] & Hzero & Hlk & Hls & Hlj)%drain_step [[L A] Z (Hnd & Hs & Hz & Hp & Hk)].
  destruct (decide (k ∈ ks)) as [Hin|Hin]; [exists ks|exists (k :: ks)]; (split; [|set_solver]).
  - split; [|done|].
    + split; [congruence|]. intros j Hj. rewrite A, A1 by set_solver. done.
    + split_and!; [done..| |].
      * rewrite Hp, Hls, (zsum_ext (lam w1) (fun j => if decide (j = k) then 0 else lam w j) ks).
        -- rewrite (zsum_change (lam w) _ ks k) by (done || intros; by rewrite decide_False).
           rewrite decide_True by done. lia.
        -- intros j Hj. case_decide as E; [by rewrite E|]. apply Hlj; [done|]. by intros ->.
      * intros j Hj Hjs. rewrite Hk by done. apply Hlj; [|done]. by intros ->.
  - split; [|intros j Hj|].
    + split; [congruence|]. intros j [Hjk Hj]%not_elem_of_cons. rewrite A, A1 by set_solver. done.
    + apply elem_of_cons in Hj as [->|Hj]; [|by apply Z]. unfold held. by rewrite A.
    + split_and!; [by constructor|set_solver|intros j Hj| |].
      * apply elem_of_cons in Hj as [->|Hj]; [|by apply Hz]. by rewrite Hk.
      * rewrite Hp, Hls, zsum_cons, (zsum_ext (lam w1) (lam w) ks); [lia|].
        intros j Hj. apply Hlj; intros ->; done.
      * intros j [Hjk Hj]%not_elem_of_cons Hjs. rewrite Hk by done. by apply Hlj.
Qed.

(** Draining the accounts of a list that are live and of a kind. *)
Lemma live_drain cx ov s k Q w u w1 j :
  drain_account cx TENDERMINT_ID ov k s w = Ok (u, w1) ->
  (j <> k -> live Q w j -> live Q w1 j) /\ (live Q w1 j -> j <> s -> j <> k /\ live Q w j).
Proof.
  intros (Hne & [_ A1] & _ & Hlk & Hls & Hlj)%drain_step. split.
  - intros Hj (d & (a & Ha & Hd) & HQ & Hp). exists d. split_and!; [|done|].
    + exists a. by rewrite A1 by set_solver.
    + destruct (decide (j = s)) as [->|]; [|by rewrite Hlj]. pose proof (lam_nonneg w k). lia.
  - intros (d & (a & Ha & Hd) & HQ & Hp) Hjs. assert (j <> k) as Hj by (intros ->; lia). split; [done|].
    exists d. split_and!; [|done|by rewrite <- Hlj]. exists a. by rewrite <- A1 by set_solver.
Qed.

Lemma drained_live cx ov s k ks Q (A : Pubkey -> Prop) w u w1 w' :
  drain_account cx TENDERMINT_ID ov k s w = Ok (u, w1) -> drained s ks w1 w' -> live Q w k ->
  (forall j, j ∈ ks <-> A j /\ live Q w1 j) ->
  exists ks', drained s ks' w w' /\ forall j, j ∈ ks' <-> (j = k \/ A j) /\ live Q w j.
Proof.
  intros Hd Hdr Hk Hks. destruct (drained_cons _ _ _ _ _ _ _ _ _ Hd Hdr) as (ks' & Hdr' & Hks').
  exists ks'. split; [done|]. intros j. rewrite Hks', Hks.
  destruct Hdr as [_ _ (_ & Hs & _)]. destruct (live_drain _ _ _ _ Q _ _ _ j Hd) as [H1' H2'].
  destruct (decide (j = k)) as [->|Hj]; [tauto|]. split.
  - intros [|[HA Hl]]; [done|]. split; [by right|]. apply H2'; [done|]. intros ->. by apply Hs, Hks.
  - intros [[|HA] Hl]; [done|]. right. by split; [|apply H1'].
Qed.

Lemma cleanup_upload_drained cx s accounts w u w' :
  cleanup_upload_from cx s accounts w = Ok (u, w') ->
  exists ks, drained s ks w w' /\ forall k, k ∈ ks <-> k ∈ accounts /\ live (submitted_by s) w k.
Proof.
  revert w. induction accounts as [|k accounts IH]; intros w Hr; simpl in Hr.
  { minv. exists []. split; [apply drained_refl|]. set_solver. }
  unfold tm_close_account in Hr. minv.
  match goal with E : match _ with Some _ => _ | None => _ end _ = Ok (_, ?w1) |- _ =>
    assert ((w1 = w /\ ~ live (submitted_by s) w k) \/
      (live (submitted_by s) w k /\
       exists u, drain_account cx TENDERMINT_ID TendermintErr.ArithmeticOverflow k s w = Ok (u, w1))) as Hcase end.
  { destruct (w_accts w !! k) as [a|] eqn:Ea.
    2: { minv. left. split; [done|]. intros (d & (a & Ha & _) & _). congruence. }
    destruct (negb _ || _) eqn:Eo.
    { minv. left. split; [done|]. intros (d & (a' & Ha & Ho & _) & _ & Hp).
      rewrite Ea in Ha. injection Ha as ->. apply orb_true_iff in Eo as [Eo%negb_true_iff%bool_decide_eq_false|Eo%Z.eqb_eq];
        [done|lia]. }
    apply orb_false_iff in Eo as [Eo%negb_false_iff%bool_decide_eq_true Hz%Z.eqb_neq].
    assert (is_owned_by_submitter (acc_data a) s = true <-> submitted_by s (acc_data a)) as Hsub.
    { destruct (acc_data a); simpl; try done; apply bool_decide_eq_true. }
    destruct (is_owned_by_submitter _ _) eqn:Es.
    - right. split; [|by eexists]. exists (acc_data a). split_and!; [by exists a|by apply Hsub|].
      pose proof (lam_nonneg w k). lia.
    - minv. left. split; [done|]. intros (d & (a' & Ha & _ & Hd) & HQ & _). rewrite Ea in Ha.
      injection Ha as ->. subst d. apply Hsub in HQ. congruence. }
  apply IH in Hr as (ks & Hdr & Hks). destruct Hcase as [[-> Hn]|[Hl [u Hd]]].
  - exists ks. split; [done|]. intros j. rewrite Hks, elem_of_cons. split; [tauto|].
    intros [[->|?] ?]; tauto.
  - destruct (drained_live _ _ _ _ _ _ _ _ _ _ _ Hd Hdr Hl Hks) as (ks' & ? & Hks'). exists ks'.
    split; [done|]. intros j. by rewrite Hks', elem_of_cons.
Qed.

Notation misbehaviour_key s i := (pda_key (misbehaviour_chunk_seeds s (Z.of_nat i)) TENDERMINT_ID).

Lemma owner_live w k : owner_of w k = TENDERMINT_ID /\ 0 < lam w k <-> live (fun _ => True) w k.
Proof.
  unfold owner_of, live, held. destruct (w_accts w !! k) as [a|]; [naive_solver|]. split.
  - intros [E _]. by vm_compute in E.
  - naive_solver.
Qed.

Lemma cleanup_misbehaviour_drained cx s accounts i w u w' :
  cleanup_misbehaviour_from cx s accounts i w = Ok (u, w') ->
  exists ks, drained s ks w w' /\ forall k, k ∈ ks <->
    (exists j, accounts !! j = Some k /\ k = misbehaviour_key s (i + j)) /\ live (fun _ => True) w k.
Proof.
  revert i w. induction accounts as [|k accounts IH]; intros i w Hr; simpl in Hr.
  { minv. exists []. split; [apply drained_refl|]. intros k. rewrite elem_of_nil. split; [done|]. by intros [(j & E & _) _]. }
  unfold tm_close_account in Hr. minv.
  assert (forall j0, (exists j, (k :: accounts) !! j = Some j0 /\ j0 = misbehaviour_key s (i + j)) <->
    (j0 = k /\ k = misbehaviour_key s i) \/
    exists j, accounts !! j = Some j0 /\ j0 = misbehaviour_key s (S i + j)) as Hsplit.
  { intros j0. split.
    - intros ([|j] & E & Hj); simpl in E; [left; injection E as <-; by rewrite Nat.add_0_r in Hj|].
      right. exists j. by rewrite Nat.add_succ_comm.
    - intros [[-> E]|(j & E & Hj)]; [exists 0%nat; by rewrite Nat.add_0_r|].
      exists (S j). by rewrite <- Nat.add_succ_comm. }
  match goal with E : (if _ then _ else _) _ = Ok _ |- _ => rename E into Hif end.
  apply IH in Hr as (ks & Hdr & Hks). destruct (_ && _) eqn:Eb in Hif.
  - apply andb_true_iff in Eb as [[Ek%bool_decide_eq_true Eo%bool_decide_eq_true]%andb_true_iff Hp%Z.ltb_lt].
    destruct (drained_live _ _ _ _ _ (fun _ => True) _ _ _ _ _ Hif Hdr (proj1 (owner_live _ _) (conj Eo Hp)) Hks)
      as (ks' & ? & Hks'). exists ks'. split; [done|]. intros j. rewrite Hks', Hsplit. naive_solver.
  - minv. exists ks. split; [done|]. intros j. rewrite Hks, Hsplit. split; [naive_solver|].
    intros [[[-> Ek]|?] Hl]; [|done]. apply owner_live in Hl as [Ho Hp]. exfalso.
    rewrite !andb_false_iff, !bool_decide_eq_false, Z.ltb_ge in Eb. destruct Eb as [[?|?]|?]; [done|done|lia].
Qed.

Lemma cleanup_chunks_drained cx s accounts i w u w' :
  cleanup_misbehaviour_chunks cx s accounts i w = Ok (u, w') ->
  exists ks, drained s ks w w' /\ forall k, k ∈ ks <-> k ∈ accounts.
Proof.
  revert i w. induction accounts as [|k accounts IH]; intros i w Hr; simpl in Hr.
  { minv. exists []. split; [apply drained_refl|done]. }
  unfold check_tm_chunk, tm_close_account in Hr. minv. apply IH in Hr as (ks & Hdr & Hks).
  match goal with E : drain_account _ _ _ _ _ _ = Ok _ |- _ =>
    destruct (drained_cons _ _ _ _ _ _ _ _ _ E Hdr) as (ks' & ? & Hks') end.
  exists ks'. split; [done|]. intros j. by rewrite Hks', Hks, elem_of_cons.
Qed.

(** *** Reading chunks *)

Lemma load_chunks_hold (load : Pubkey -> M bytes) bytes_of seeds_at remaining n accounts w b w' :
  (forall k w b w', load k w = Ok (b, w') ->
     w' = w /\ exists a, w_accts w !! k = Some a /\ bytes_of (acc_data a) = Some b) ->
  slice remaining 0 n = Ok accounts -> load_chunks load seeds_at accounts 0 w = Ok (b, w') ->
  w' = w /\ chunks_hold w remaining seeds_at bytes_of n b /\
  forall k, k ∈ accounts <-> exists i, (i < n)%nat /\ k = pda_key (seeds_at (Z.of_nat i)) TENDERMINT_ID.
Proof.
  intros Hload Hsl Hr. unfold slice in Hsl. destruct (Nat.leb_spec (0 + n) (length remaining)); [|done].
  injection Hsl as <-. rewrite drop_0 in *.
  apply load_chunks_Ok in Hr as (-> & ds & -> & Hf & E); [|intros ? ? ? ? Hl; by apply Hload in Hl as [-> _]].
  assert (length (take n remaining) = n) as Hlen by (rewrite length_take; lia).
  assert (forall i k, take n remaining !! i = Some k ->
    (i < n)%nat /\ k = pda_key (seeds_at (Z.of_nat i)) TENDERMINT_ID) as Hkey.
  { intros i k Hi. split; [rewrite <- Hlen; by eapply lookup_lt_Some|].
    rewrite E, list_lookup_imap in Hi. destruct (take n remaining !! i); simpl in Hi; [|done].
    by injection Hi as <-. }
  split_and!; [done| |].
  - exists ds. split_and!; [by rewrite <- (Forall2_length _ _ _ Hf)|done|]. intros i d Hd.
    destruct (Forall2_lookup_r _ _ _ _ _ Hf Hd) as (k & Hk & Ho & Hl).
    destruct (Hkey _ _ Hk) as [Hi <-]. rewrite lookup_take_lt in Hk by lia. split; [done|].
    apply Hload in Hl as (_ & a & Ha & Hd'). exists (acc_data a). split; [|done].
    exists a. split_and!; [done| |done]. unfold owner_of in Ho. by rewrite Ha in Ho.
  - intros k. rewrite list_elem_of_lookup. split.
    + intros (i & Hi). exists i. by apply Hkey.
    + intros (i & Hi & ->). destruct (lookup_lt_is_Some_2 (take n remaining) i) as [k Hk]; [lia|].
      exists i. rewrite Hk. f_equal. by apply Hkey.
Qed.

Lemma load_header_chunk_bytes k w b w' :
  load_header_chunk k w = Ok (b, w') ->
  w' = w /\ exists a, w_accts w !! k = Some a /\ header_chunk_bytes (acc_data a) = Some b.
Proof. intros (-> & a & c & Ha & Hd & <-)%load_header_chunk_Ok. split; [done|]. exists a. by rewrite Hd. Qed.

Lemma load_misbehaviour_chunk_bytes k w b w' :
  load_misbehaviour_chunk k w = Ok (b, w') ->
  w' = w /\ exists a, w_accts w !! k = Some a /\ misbehaviour_chunk_bytes (acc_data a) = Some b.
Proof. intros (-> & a & c & Ha & Hd & <-)%load_misbehaviour_chunk_Ok. split; [done|]. exists a. by rewrite Hd. Qed.

Lemma chunks_hold_same w w1 accounts seeds_at bytes_of n b :
  (forall i, w_accts w1 !! pda_key (seeds_at i) TENDERMINT_ID = w_accts w !! pda_key (seeds_at i) TENDERMINT_ID) ->
  chunks_hold w1 accounts seeds_at bytes_of n b -> chunks_hold w accounts seeds_at bytes_of n b.
Proof.
  intros Hsame (ds & Hn & Hb & Hds). exists ds. split_and!; [done..|]. intros i d Hd.
  destruct (Hds i d Hd) as (? & x & (a & Ha & Hx) & ?). split; [done|]. exists x. split; [|done].
  exists a. by rewrite <- Hsame.
Qed.

(** ** The instructions *)

Ltac tm_relayed :=
  match goal with E : require_role _ _ _ _ _ _ _ = Ok _ |- _ =>
    eapply holder_at_intro in E as [-> Hrole]; [|done|eassumption] end.

Lemma upload_performed {A} cx acc (proj : AccountData -> option A) fresh seeds sp ds d w u w' :
  running cx TENDERMINT_ID -> (forall p, pda_key seeds TENDERMINT_ID <> pda_key [AccessManager_SEED] p) ->
  tm_upload_chunk cx acc proj fresh seeds sp ds d w = Ok (u, w') ->
  may_upload cx w (tu_submitter acc) ds /\ wrote [pda_key seeds TENDERMINT_ID] w w' /\
  held TENDERMINT_ID w' (pda_key seeds TENDERMINT_ID) d.
Proof.
  intros Hrun Ham Hr. unfold tm_upload_chunk in Hr. minv. tm_to_stored. tm_relayed.
  match goal with E : tu_chunk acc = _ |- _ => rewrite E in * end.
  match goal with E : init_if_needed _ _ _ _ _ _ _ _ = Ok _ |- _ =>
    apply (wrote_init_if_needed _ _ _ [pda_key seeds TENDERMINT_ID]) in E as Hw; [|apply list_elem_of_here] end.
  apply (wrote_store [pda_key seeds TENDERMINT_ID]) in Hr as [Hw2 Hh]; [|apply list_elem_of_here].
  split_and!; [|by eapply wrote_trans|done]. split_and!; [|by apply Z.leb_le|by eexists].
  eexists. split; [eassumption|].
  eapply (holder_at_same _ _ w _ _ _ _ (pda_key seeds TENDERMINT_ID)); [apply Ham| |exact Hrole].
  intros k Hk. apply Hw. set_solver.
Qed.

Lemma upload_header_performed cx ix0 acc p w u w' :
  running cx TENDERMINT_ID -> upload_header_chunk cx acc p w = Ok (u, w') ->
  performed cx ix0 (TUploadHeaderChunk acc p) w w'.
Proof.
  intros Hrun (Hm & Hw & Hh)%upload_performed; [|done|by intros q [E _]%pda_inj].
  eapply performed_intro; [by apply TS_upload_header|done|].
  by intros k d [= -> ->]%list_elem_of_singleton.
Qed.

Lemma upload_misbehaviour_performed cx ix0 acc p w u w' :
  running cx TENDERMINT_ID -> upload_misbehaviour_chunk cx acc p w = Ok (u, w') ->
  performed cx ix0 (TUploadMisbehaviourChunk acc p) w w'.
Proof.
  intros Hrun (Hm & Hw & Hh)%upload_performed; [|done|by intros q [E _]%pda_inj].
  eapply performed_intro; [by apply TS_upload_misbehaviour|done|].
  by intros k d [= -> ->]%list_elem_of_singleton.
Qed.

Lemma zeroed_fst ks : fst <$> zeroed ks = ks.
Proof. unfold zeroed. rewrite <- list_fmap_compose. apply list_fmap_id. Qed.

Lemma elem_of_zeroed k d ks : (k, d) ∈ zeroed ks <-> k ∈ ks /\ d = DZeroed.
Proof. unfold zeroed. rewrite list_elem_of_fmap. naive_solver. Qed.

Lemma drained_performed cx ix0 ix s ks w w' :
  drained s ks w w' -> t_spec cx ix0 w w' ix (zeroed ks) [] -> performed cx ix0 ix w w'.
Proof.
  intros [Hw Hz _] Ht. eapply performed_intro; [exact Ht|by rewrite zeroed_fst|].
  intros k d [Hk ->]%elem_of_zeroed. by apply Hz.
Qed.

Lemma cleanup_performed cx ix0 acc w u w' :
  cleanup_incomplete_upload cx acc w = Ok (u, w') -> performed cx ix0 (TCleanupIncompleteUpload acc) w w'.
Proof.
  unfold cleanup_incomplete_upload. intros Hr. minv.
  apply cleanup_upload_drained in Hr as (ks & Hdr & Hks).
  eapply drained_performed; [exact Hdr|]. apply TS_cleanup_upload; [done..|apply Hdr].
Qed.

Lemma cleanup_misbehaviour_performed cx ix0 acc w u w' :
  cleanup_incomplete_misbehaviour cx acc w = Ok (u, w') ->
  performed cx ix0 (TCleanupIncompleteMisbehaviour acc) w w'.
Proof.
  unfold cleanup_incomplete_misbehaviour. intros Hr. minv.
  apply cleanup_misbehaviour_drained in Hr as (ks & Hdr & Hks).
  eapply drained_performed; [exact Hdr|]. apply TS_cleanup_misbehaviour; [done..|apply Hdr].
Qed.

Lemma pre_verify_performed cx ix0 acc s w u w' :
  running cx TENDERMINT_ID -> length (sd_pubkey s) = 32%nat -> length (sd_signature s) = 64%nat ->
  pre_verify_signature cx ix0 acc s w = Ok (u, w') -> performed cx ix0 (TPreVerifySignature acc s) w w'.
Proof.
  intros Hrun Hk Hg Hr. unfold pre_verify_signature in Hr. minv. tm_to_stored. tm_relayed.
  match goal with E : tp_signature_verification acc = _ |- _ => rewrite E in * end.
  change (pda_key (sig_verify_seeds (sd_signature_hash s)) TENDERMINT_ID)
    with (sig_verify_key (sd_signature_hash s)) in *.
  match goal with E : init_account _ _ _ _ _ _ = Ok _ |- _ =>
    apply (wrote_init _ [sig_verify_key (sd_signature_hash s)]) in E as [Hw Hn]; [|apply list_elem_of_here] end.
  apply (wrote_store [sig_verify_key (sd_signature_hash s)]) in Hr as [Hw2 Hh]; [|apply list_elem_of_here].
  eapply performed_intro;
    [apply TS_pre_verify; [|done|done|done|intros; by eapply verify_ed25519_sound]|by eapply wrote_trans|
     by intros k d [= -> ->]%list_elem_of_singleton].
  eexists. split; [eassumption|].
  eapply (holder_at_same _ _ w _ _ _ _ (sig_verify_key (sd_signature_hash s))); [by intros [E _]%pda_inj| |exact Hrole].
  intros k Hk'. apply Hw. set_solver.
Qed.

Lemma read_performed cx ix0 ix w r :
  t_spec cx ix0 w (set_return w r) ix [] [] -> performed cx ix0 ix w (set_return w r).
Proof. intros Ht. eapply performed_intro; [exact Ht|done|by intros k d ?%not_elem_of_nil]. Qed.

Lemma membership_performed cx ix0 acc msg w u w' :
  tm_verify_membership acc msg w = Ok (u, w') -> performed cx ix0 (TVerifyMembership acc msg) w w'.
Proof.
  intros (-> & _ & _ & cs & st & Hready & Hshows)%tm_verify_membership_iff.
  eapply performed_intro; [by eapply TS_membership|done|by intros k d ?%not_elem_of_nil].
Qed.

Lemma non_membership_performed cx ix0 acc msg w u w' :
  tm_verify_non_membership acc msg w = Ok (u, w') -> performed cx ix0 (TVerifyNonMembership acc msg) w w'.
Proof.
  intros (_ & _ & cs & st & Hready & Hshows & ->)%tm_verify_non_membership_iff.
  by eapply read_performed, TS_non_membership.
Qed.

Lemma status_performed cx ix0 acc w u w' :
  tm_client_status acc w = Ok (u, w') -> performed cx ix0 (TClientStatus acc) w w'.
Proof.
  unfold tm_client_status. intros Hr. minv. match goal with E : tm_verify_accounts _ _ _ = Ok (?p, _) |- _ =>
    destruct p as [cs st]; apply tm_verify_accounts_Ok in E as (-> & _ & _ & Hc & Hs) end.
  minv. by eapply read_performed, TS_status.
Qed.

(** The three instructions that store the application's state and log [e]. *)
Lemma app_performed cx ix0 ix w d e u w' :
  t_spec cx ix0 w w' ix [(tk TKApp, d)] [LEvent TENDERMINT_ID e] ->
  store_account TENDERMINT_ID (tk TKApp) d (add_log w (LEvent TENDERMINT_ID e)) = Ok (u, w') ->
  performed cx ix0 ix w w'.
Proof.
  intros Ht Hs. apply (wrote_store [tk TKApp]) in Hs as [[Hl Hw] Hh]; [|apply list_elem_of_here].
  eexists _, _. split_and!; [exact Ht| |by intros k d' [= -> ->]%list_elem_of_singleton|done].
  rewrite <- own_log_event. unfold own_log. by rewrite Hl.
Qed.

Ltac app_end :=
  match goal with
  | Hq : require_admin _ ?k _ _ _ _ = Ok _, Hk : ?k = pda_key [AccessManager_SEED] _ |- _ =>
      eapply admin_at_intro in Hq as [? Hq]; [subst|done|exact Hk]
  end;
  match goal with
  | Hs : store_account TENDERMINT_ID ?k _ _ = Ok _, Hk : ?k = pda_key _ TENDERMINT_ID |- _ =>
      rewrite Hk in Hs; eapply app_performed; [|exact Hs]
  end.

Lemma propose_performed cx ix0 acc n w u w' :
  running cx TENDERMINT_ID -> tm_propose_access_manager_transfer cx acc n w = Ok (u, w') ->
  performed cx ix0 (TProposeAccessManagerTransfer acc n) w w'.
Proof.
  intros Hrun Hr. unfold tm_propose_access_manager_transfer, tm_transfer, propose_transfer in Hr. minv.
  tm_to_stored. app_end. by eapply TS_propose.
Qed.

Lemma accept_performed cx ix0 acc w u w' :
  running cx TENDERMINT_ID -> tm_accept_access_manager_transfer cx acc w = Ok (u, w') ->
  performed cx ix0 (TAcceptAccessManagerTransfer acc) w w'.
Proof.
  intros Hrun Hr. unfold tm_accept_access_manager_transfer, tm_transfer, accept_transfer in Hr. minv.
  repeat match goal with E : ok_or _ _ = Ok _ |- _ => apply ok_or_ok in E end. simplify_eq.
  tm_to_stored. app_end. by eapply TS_accept.
Qed.

Lemma cancel_performed cx ix0 acc w u w' :
  running cx TENDERMINT_ID -> tm_cancel_access_manager_transfer cx acc w = Ok (u, w') ->
  performed cx ix0 (TCancelAccessManagerTransfer acc) w w'.
Proof.
  intros Hrun Hr. unfold tm_cancel_access_manager_transfer, tm_transfer, cancel_transfer in Hr. minv.
  repeat match goal with E : ok_or _ _ = Ok _ |- _ => apply ok_or_ok in E end.
  tm_to_stored. app_end. by eapply TS_cancel.
Qed.

(** Two and three stores at different addresses. *)
Lemma stores2 ks k1 d1 k2 d2 w w1 w' u1 u2 :
  k1 <> k2 -> [k1; k2] ⊆ ks ->
  store_account TENDERMINT_ID k1 d1 w = Ok (u1, w1) -> store_account TENDERMINT_ID k2 d2 w1 = Ok (u2, w') ->
  wrote ks w w' /\ held TENDERMINT_ID w' k1 d1 /\ held TENDERMINT_ID w' k2 d2 /\
  w_return_data w' = w_return_data w.
Proof.
  intros Hne Hsub Hs1 Hs2. assert (w_return_data w' = w_return_data w) as Hret.
  { apply store_account_Ok in Hs1 as (? & _ & _ & _ & ->), Hs2 as (? & _ & _ & _ & ->). done. }
  apply (wrote_store [k1]) in Hs1 as [[L1 A1] Hh1]; [|apply list_elem_of_here].
  apply (wrote_store [k2]) in Hs2 as [Hw2 Hh2]; [|apply list_elem_of_here].
  split_and!; [|by eapply wrote_held; [exact Hw2|set_solver|]|done|done].
  destruct Hw2 as [L2 A2]. split; [congruence|]. intros k Hk. rewrite A2, A1 by set_solver. done.
Qed.

Lemma stores3 k1 d1 k2 d2 k3 d3 w v1 v2 v3 v4 v5 w' u1 u2 u3 :
  k1 <> k2 -> k1 <> k3 -> k2 <> k3 -> wrote [k1] w v1 -> wrote [k2] v1 v2 -> wrote [k3] v2 v3 ->
  store_account TENDERMINT_ID k1 d1 v3 = Ok (u1, v4) -> store_account TENDERMINT_ID k2 d2 v4 = Ok (u2, v5) ->
  store_account TENDERMINT_ID k3 d3 v5 = Ok (u3, w') ->
  wrote [k1; k2; k3] w w' /\ held TENDERMINT_ID w' k1 d1 /\ held TENDERMINT_ID w' k2 d2 /\
  held TENDERMINT_ID w' k3 d3.
Proof.
  intros N1 N2 N3 W1 W2 W3 S1 S2 S3.
  destruct (stores2 [k1; k2; k3] _ _ _ _ _ _ _ _ _ N1 ltac:(set_solver) S1 S2) as (W4 & Hh1 & Hh2 & _).
  apply (wrote_store [k3]) in S3 as [W5 Hh3]; [|apply list_elem_of_here].
  assert (forall k v v', k ∈ [k1; k2; k3] -> wrote [k] v v' -> wrote [k1; k2; k3] v v') as Hone
    by (intros k v v' Hk; apply wrote_weaken; set_solver).
  split_and!; [|eapply wrote_held; [exact W5|set_solver|done]..|done].
  repeat (eapply wrote_trans; [eapply Hone; [|eassumption]; set_solver|]).
  eapply wrote_trans; [exact W4|]. eapply Hone; [|exact W5]. set_solver.
Qed.

Lemma initialize_performed cx ix0 acc cs c am w u w' :
  is_u64 (ih_revision_height (tcs_latest_height cs)) ->
  tm_initialize cx acc cs c am w = Ok (u, w') -> performed cx ix0 (TInitialize acc cs c am) w w'.
Proof.
  intros Hty Hr. unfold tm_initialize in Hr. minv. set (h := ih_revision_height (tcs_latest_height cs)) in *.
  assert (ti_client_state acc = tk TKClient) as Hk1 by done. rewrite Hk1 in *.
  assert (ti_app_state acc = tk TKApp) as Hk2 by done. rewrite Hk2 in *.
  assert (ti_consensus_state_store acc = tk (TKCons h)) as Hk3 by done. rewrite Hk3 in *.
  assert (tk TKClient <> tk (TKCons h) /\ tk TKClient <> tk TKApp /\ tk (TKCons h) <> tk TKApp) as (N1 & N2 & N3)
    by (split_and!; by apply tk_ne).
  repeat match goal with Hi : init_account _ _ ?k _ _ _ = Ok _ |- _ =>
    let Hw := fresh "Hi" in let Hn := fresh "Hnone" in
    apply (wrote_init _ [k]) in Hi as [Hw Hn]; [|apply list_elem_of_here] end.
  repeat match goal with
  | E : bool_decide _ = false |- _ => apply bool_decide_eq_false in E
  | E : (_ <? _) = true |- _ => apply Z.ltb_lt in E
  | E : (_ <=? _) = true |- _ => apply Z.leb_le in E
  end.
  match goal with E1 : store_account _ _ _ w9 = Ok _, E2 : store_account _ _ _ w19 = Ok _ |- _ =>
    destruct (stores3 _ _ _ _ _ _ _ _ _ _ _ _ _ _ _ _ N1 N2 N3 Hi1 Hi0 Hi E1 E2 Hr) as (Hw & Hh1 & Hh2 & Hh3) end.
  destruct Hi0 as [_ E0], Hi1 as [_ E1].
  rewrite E0, E1 in Hnone by (by intros E%list_elem_of_singleton).
  rewrite E1 in Hnone0 by (by intros E%list_elem_of_singleton).
  eapply performed_intro; [apply TS_initialize; [done..| |done|by split_and!]|exact Hw|].
  - match goal with D : as_ProgramData _ = Some _ |- _ => apply as_ProgramData_Some in D end.
    subst. exists acc0. split; [|done]. match goal with E : ti_program_data acc = _ |- _ => by rewrite <- E end.
  - intros k d [[= -> ->]|[[= -> ->]|[[= -> ->]|[]%not_elem_of_nil]%elem_of_cons]%elem_of_cons]%elem_of_cons; done.
Qed.

Lemma frozen_freeze w cs :
  tm_reachable w -> tm_stored w TKClient (DTmClientState cs) -> freezes cs (freeze cs).
Proof.
  intros Hr Hcs. destruct (tm_reachable_client w cs Hr Hcs) as ((_ & _ & _ & _ & Hh) & _).
  split_and!; try done. by apply is_frozen_freeze.
Qed.

(** The consensus state that is stored at [h], if the account was there. *)
Lemma new_store_cases w h v :
  tm_reachable w -> is_u64 h ->
  (w_accts w !! tk (TKCons h) = None /\ v = fresh_consensus_store) \/
    tm_stored w (TKCons h) (DTmConsensusStateStore v) ->
  (w_accts w !! tk (TKCons h) = None /\ is_uninitialized v = true) \/
  (tm_stored w (TKCons h) (DTmConsensusStateStore v) /\ is_uninitialized v = false).
Proof.
  intros Hr Hh [[? ->]|Hst]; [by left|right]. split; [done|].
  destruct (tm_reachable_cons w h v Hr Hh Hst) as (? & ? & _). apply Z.eqb_neq. lia.
Qed.

(** The three outcomes of an update, by the state [v] found at its height. *)
Definition verdict (cs cs' : TmClientState) (st v st' : TmConsensusStateStore) (h : Z) (c' : TmConsensusState)
    (hd : IbcHeader) (r : UpdateResult) : Prop :=
  (is_uninitialized v = true /\ r = UpdateSuccess /\ st' = mkTmConsensusStateStore h c' /\
   cs' = with_latest_height cs (IbcHeight_from (header_height hd))) \/
  (is_uninitialized v = false /\ ~ contradicts v st c' /\ r = NoOp /\ st' = v /\ cs' = cs) \/
  (is_uninitialized v = false /\ contradicts v st c' /\ r = Misbehaviour /\ st' = v /\ cs' = freeze cs).

Lemma assemble_submitted cx acc h n th w u w' :
  running cx TENDERMINT_ID -> is_u64 h -> is_u64 th -> tm_reachable w ->
  assemble_and_update_client cx acc h n th w = Ok (u, w') ->
  exists cs cs' st v st' hd c' r, submitted cx w acc h n th cs st hd c' /\
    ((w_accts w !! tk (TKCons h) = None /\ is_uninitialized v = true) \/
     (tm_stored w (TKCons h) (DTmConsensusStateStore v) /\ is_uninitialized v = false)) /\
    verdict cs cs' st v st' h c' hd r /\ wrote [tk TKClient; tk (TKCons h)] w w' /\
    tm_stored w' TKClient (DTmClientState cs') /\ tm_stored w' (TKCons h) (DTmConsensusStateStore st') /\
    w_return_data w' = Some (TENDERMINT_ID, [UpdateResult_to_u8 r]).
Proof.
  intros Hrun Hh Hth Hreach Hr. destruct (tm_reachable_inv w Hreach) as (_ & Hi & _).
  unfold assemble_and_update_client, assemble_header_chunks in Hr. minv.
  match goal with E : process_header_update _ _ _ _ _ _ _ _ _ = Ok (?p, _) |- _ =>
    destruct p as [[r st'] cs'];
    apply process_header_update_Ok in E as (-> & hd & c' & Hde & Ht & Eh & Hacc & Hcase) end.
  match goal with E : load_chunks _ _ _ _ _ = Ok _, Es : slice _ _ _ = Ok _ |- _ =>
    eapply (load_chunks_hold _ header_chunk_bytes) in E as (-> & Hch & _);
      [|by intros ? ? ? ? ?%load_header_chunk_bytes|exact Es] end.
  assert (ta_new_consensus_state_store acc = tk (TKCons h)) as Hkc by done.
  assert (ta_client_state acc = tk TKClient) as Hkl by done. tm_to_stored. rewrite Hkl, Hkc in *.
  match goal with E : init_if_needed _ _ _ _ _ _ _ _ = Ok _ |- _ =>
    pose proof (sig_rel_init_if_needed _ _ _ _ _ _ _ _ _ E) as Hsig;
    apply (wrote_init_if_needed _ _ _ [tk TKClient; tk (TKCons h)]) in E as Hw0;
      [|apply list_elem_of_further, list_elem_of_here];
    eapply (evol_init_if_needed _ _ _ _ (TKCons h) _ _ _ _ _ as_TmConsensusStateStore_Some) in E
      as (_ & _ & Hck & Hsame & _ & Hcons); [|done] end.
  tm_relayed.
  apply (holder_at_same _ _ w _ _ _ _ (tk (TKCons h)) (tk_not_am _ _) Hsame) in Hrole.
  specialize (Hacc (sig_inv_rel _ _ Hi Hsig)). rewrite Hck in Hacc. minv.
  apply (chunks_hold_same w) in Hch; [|intros i; apply Hsame, header_chunk_not_tk].
  apply new_store_cases in Hcons; [|done..].
  match goal with E : store_account _ _ _ (set_return _ _) = Ok _ |- _ =>
    destruct (stores2 [tk TKClient; tk (TKCons (revision_height (header_height hd)))] _ _ _ _ _ _ _ _ _
      (tk_ne TKClient (TKCons _) I Hh ltac:(done)) ltac:(done) E Hr) as (Hw1 & Hh1 & Hh2 & Hret) end.
  eexists _, cs', _, _, st', hd, c', r. split_and!; [|exact Hcons|exact Hcase| |exact Hh1|exact Hh2|exact Hret].
  - constructor; try done; [by eexists|]. by eexists.
  - eapply wrote_trans; [exact Hw0|exact Hw1].
Qed.

Lemma assemble_performed cx ix0 acc h n th w u w' :
  running cx TENDERMINT_ID -> is_u64 h -> is_u64 th -> tm_reachable w ->
  assemble_and_update_client cx acc h n th w = Ok (u, w') ->
  performed cx ix0 (TAssembleAndUpdateClient acc h n th) w w'.
Proof.
  intros Hrun Hh Hth Hreach (cs & cs' & st & v & st' & hd & c' & r & Hsu & Hv & Hcase & Hw & Hh1 & Hh2 & Hret)
    %assemble_submitted; [|done..].
  assert (t_spec cx ix0 w w' (TAssembleAndUpdateClient acc h n th)
    [(tk TKClient, DTmClientState cs'); (tk (TKCons h), DTmConsensusStateStore st')] []) as Ht.
  { destruct Hcase as [(Hz & -> & -> & ->)|[(Hz & Hn & -> & -> & ->)|(Hz & Hc & -> & -> & ->)]],
      Hv as [[Hno Hz']|[Hst Hz']]; try congruence.
    - by eapply TS_update.
    - by eapply TS_noop.
    - eapply TS_conflict; [done..| |done]. eapply frozen_freeze; [done|apply Hsu]. }
  eapply performed_intro; [exact Ht|exact Hw|].
  intros k d [[= -> ->]|[[= -> ->]|[]%not_elem_of_nil]%elem_of_cons]%elem_of_cons; done.
Qed.

Lemma misbehaviour_performed cx ix0 acc n h1 h2 w u w' :
  running cx TENDERMINT_ID -> is_u64 h1 -> is_u64 h2 -> tm_reachable w ->
  assemble_and_submit_misbehaviour cx acc n h1 h2 w = Ok (u, w') ->
  performed cx ix0 (TAssembleAndSubmitMisbehaviour acc n h1 h2) w w'.
Proof.
  intros Hrun Hh1 Hh2 Hreach Hr. destruct (tm_reachable_inv w Hreach) as (_ & Hi & _).
  unfold assemble_and_submit_misbehaviour in Hr. minv.
  match goal with E : process_misbehaviour _ _ _ _ _ _ = Ok _ |- _ =>
    apply process_misbehaviour_Ok in E as (-> & -> & mb & Hde & E1 & E2 & Hmb) end.
  match goal with E : load_chunks _ _ _ _ _ = Ok _, Es : slice _ _ _ = Ok _ |- _ =>
    eapply (load_chunks_hold _ misbehaviour_chunk_bytes) in E as (-> & Hch & Hin);
      [|by intros ? ? ? ? ?%load_misbehaviour_chunk_bytes|exact Es] end.
  match goal with E : cleanup_misbehaviour_chunks _ _ _ _ _ = Ok _ |- _ =>
    apply cleanup_chunks_drained in E as (ks & [[Lw Aw] Hz Hpaid] & Hks) end.
  tm_relayed. assert (tsm_client_state acc = tk TKClient) as Hkl by done. tm_to_stored. rewrite Hkl in *.
  assert (forall i, misbehaviour_key (tsm_submitter acc) i <> tk TKClient) as Hno
    by (intros i; apply misbehaviour_chunk_not_tk).
  assert (tk TKClient ∉ ks) as Hnk by (intros (i & _ & E)%Hks%Hin; by apply (Hno i)).
  assert (forall j, lam w' j = lam w18 j) as Hlam
    by (pose proof Hr as (? & _ & _ & _ & ->)%store_account_Ok; done).
  apply (wrote_store [tk TKClient]) in Hr as [[Lw' Aw'] Hh]; [|apply list_elem_of_here].
  eapply performed_intro.
  - eapply (TS_misbehaviour _ _ _ _ _ _ _ _ _ (freeze a) a1 a2 mb _ ks); try done.
    + by eexists.
    + rewrite <- E1. by apply (tm_reachable_cons w).
    + rewrite <- E2. by apply (tm_reachable_cons w).
    + by apply Hmb.
    + by eapply frozen_freeze.
    + intros k. by rewrite Hks, Hin.
    + unfold refunded in *. setoid_rewrite Hlam. done.
  - rewrite fmap_cons, zeroed_fst. split; [congruence|]. intros k [Hk Hk']%not_elem_of_cons.
    rewrite Aw', Aw; [done|done|]. by intros ->%list_elem_of_singleton.
  - intros k d [[= -> ->]|[Hk ->]%elem_of_zeroed]%elem_of_cons; [done|].
    eapply wrote_held; [exact (conj Lw' Aw')| |by apply Hz]. by intros ->%list_elem_of_singleton.
Qed.

Lemma exec_tm_performed cx ix0 ix w u w' :
  running cx TENDERMINT_ID -> tm_ix_typed ix -> tm_reachable w ->
  exec_tm cx ix0 ix w = Ok (u, w') -> performed cx ix0 ix w w'.
Proof.
  intros Hrun Hty Hreach. destruct ix; simpl in *.
  - destruct Hty. by apply initialize_performed.
  - by apply propose_performed.
  - by apply accept_performed.
  - by apply cancel_performed.
  - by apply membership_performed.
  - by apply non_membership_performed.
  - by apply upload_header_performed.
  - destruct Hty. by apply assemble_performed.
  - by apply cleanup_performed.
  - by apply upload_misbehaviour_performed.
  - destruct Hty. by apply misbehaviour_performed.
  - by apply cleanup_misbehaviour_performed.
  - destruct Hty. by apply pre_verify_performed.
  - by apply status_performed.
Qed.

(** C17: every instruction of the client meets its contract.  An instruction that
    succeeds in a reachable state does what [t_spec] says for that instruction
    and its own accounts and arguments.  An update read a header from the
    relayer's chunks that the standard verification accepts from the stored
    trusted state, and stored its state, or did nothing, or froze the client on
    a contradiction, and says which in the return data; evidence of
    misbehaviour froze the client and closed its chunks; an upload came from a
    relayer, within the size, for an active client; a clean-up closed exactly
    the submitter's live chunks and signatures among the accounts it was given
    and paid their lamports to the submitter; a signature was recorded as valid
    only if it is.  The accounts that the contract names hold what it says,
    every other account of the ledger is as it was, and the log has exactly its
    entries. *)
Theorem tm_instructions_refine_spec cx ix0 ix w w' (Hrun : running cx TENDERMINT_ID) (Hty : tm_ix_typed ix)
    (Hr : tm_reachable w) (Hx : exec_tm cx ix0 ix w = Ok ((), w')) :
  exists ch l, t_spec cx ix0 w w' ix ch l /\
    own_log TENDERMINT_ID w' = own_log TENDERMINT_ID w ++ l /\
    (forall k d, (k, d) ∈ ch -> held TENDERMINT_ID w' k d) /\
    forall k, k ∉ fst <$> ch -> w_accts w' !! k = w_accts w !! k.
Proof. by apply exec_tm_performed in Hx. Qed.

End TmPerformed.
