(* ===== verification/TendermintUpload.v ===== *)
(** * Uploading headers to the Tendermint light client

    A header that does not fit a transaction is uploaded in chunks and put
    together again by the instruction that verifies it.  [uploaded_header_read]:
    what the client reads is what was uploaded, down to the header. *)

From S2P Require Import Prelude Errors Types Runtime Cpi AccessManager AccessManagerSpec Keyed Chunking.
From S2P Require Import BorshHeader BorshHeaderSpec TmLightClient TmLightClientSpec Tendermint TendermintSpec.
From Stdlib Require Import ZArith Lia.
From Stdlib.Strings Require Import Byte.
From stdpp Require Import prelude strings gmap list sorting.

#[local] Open Scope Z_scope.

Section Upload.
Context `{Platform} `{!PlatformOk} `{TendermintLib} `{!TendermintTypesOk}.

Definition header_chunk_key (submitter : Pubkey) (height i : Z) : Pubkey :=
  pda_key (header_chunk_seeds submitter height i) TENDERMINT_ID.

(** The uploads of a submitter, one instruction for each chunk. *)
Fixpoint upload_header (cx : CallCtx) (client app am submitter : Pubkey) (height : Z) (ds : list bytes)
    (i : nat) : M unit :=
  match ds with
  | [] => mret ()
  | d :: ds =>
      _ ← upload_header_chunk cx
            (mkTmUploadAccounts (header_chunk_key submitter height (Z.of_nat i)) client app am submitter
               INSTRUCTIONS_SYSVAR_ID SYSTEM_PROGRAM_ID) (mkUploadChunkParams height (Z.of_nat i) d);
      upload_header cx client app am submitter height ds (S i)
  end.

(** What an upload leaves. *)
Lemma upload_header_chunk_Ok cx acc params w u w' :
  running cx TENDERMINT_ID -> upload_header_chunk cx acc params w = Ok (u, w') ->
  let k := header_chunk_key (tu_submitter acc) (ucp_target_height params) (ucp_chunk_index params) in
  tu_chunk acc = k /\
  held TENDERMINT_ID w' k (DHeaderChunk (mkHeaderChunk (tu_submitter acc) (ucp_chunk_data params))) /\
  seeds_ok (header_chunk_seeds (tu_submitter acc) (ucp_target_height params) (ucp_chunk_index params)) = true /\
  Z.of_nat (length (ucp_chunk_data params)) <= CHUNK_DATA_SIZE /\
  forall k', k' <> k -> w_accts w' !! k' = w_accts w !! k'.
Proof.
  intros Hrun. unfold upload_header_chunk, tm_upload_chunk. intros Hr. minv.
  match goal with E : require_role _ _ _ _ _ _ _ = Ok _ |- _ => apply require_role_Ok in E as (-> & _); [|done] end.
  match goal with E : tu_chunk acc = _ |- _ => rewrite E in * end.
  apply store_account_Ok in Hr as (a' & Ha & Ho' & _ & ->). cbv zeta. split_and!; try done.
  - eexists. simpl. rewrite lookup_insert_eq. done.
  - by apply Z.leb_le.
  - intros k' Hk'. simpl. rewrite lookup_insert_ne by done.
    match goal with Hi : init_if_needed _ _ _ _ _ _ _ _ = Ok _ |- _ =>
      by eapply init_if_needed_accts; [exact Hi|] end.
Qed.

Lemma header_chunk_key_inj s h i j :
  0 <= i < 256 -> 0 <= j < 256 -> header_chunk_key s h i = header_chunk_key s h j -> i = j.
Proof.
  intros Hi Hj [E _]%pda_inj. simpl in E. repeat (apply app_inv_head in E || injection E as E).
  by apply byte_of_Z_inj.
Qed.

Lemma upload_header_Ok cx client app am s h ds i w w' :
  running cx TENDERMINT_ID -> upload_header cx client app am s h ds i w = Ok ((), w') ->
  (i + length ds <= 256)%nat ->
  (forall j x, ds !! j = Some x -> seeds_ok (header_chunk_seeds s h (Z.of_nat (i + j))) = true /\
     held TENDERMINT_ID w' (header_chunk_key s h (Z.of_nat (i + j))) (DHeaderChunk (mkHeaderChunk s x))) /\
  (forall j, (j < i)%nat -> w_accts w' !! header_chunk_key s h (Z.of_nat j) =
                            w_accts w !! header_chunk_key s h (Z.of_nat j)).
Proof.
  intros Hrun. revert i w. induction ds as [|d ds IH]; intros i w Hr Hlen; simpl in Hr, Hlen; [by minv|].
  minv. apply upload_header_chunk_Ok in Hm as (_ & Hh & Hs & _ & Hsame); [|done]. simpl in *.
  apply IH in Hr as [Hds Hold]; [|lia]. split.
  - intros [|j] x E; simpl in E.
    + injection E as <-. rewrite Nat.add_0_r. split; [done|].
      destruct Hh as (a' & Ha' & ? & ?). exists a'. by rewrite Hold by lia.
    + rewrite <- Nat.add_succ_comm. by apply Hds.
  - intros j Hj. rewrite Hold by lia. apply Hsame. intros E. apply header_chunk_key_inj in E; lia.
Qed.

(** The loop reads the chunks back. *)
Lemma load_chunks_run s h ds i w :
  (forall j x, ds !! j = Some x -> seeds_ok (header_chunk_seeds s h (Z.of_nat (i + j))) = true /\
     held TENDERMINT_ID w (header_chunk_key s h (Z.of_nat (i + j))) (DHeaderChunk (mkHeaderChunk s x))) ->
  load_chunks load_header_chunk (header_chunk_seeds s h)
    ((fun j => header_chunk_key s h (Z.of_nat j)) <$> seq i (length ds)) i w = Ok (concat ds, w).
Proof.
  revert i. induction ds as [|d ds IH]; intros i Hds; simpl; [by apply ret_Ok|].
  destruct (Hds 0%nat d eq_refl) as [Hs (a & Ha & Ho & Hd)]. rewrite Nat.add_0_r in *.
  apply bind_Ok. exists (), w. split.
  { unfold check_tm_chunk. apply bind_Ok. eexists _, w. rewrite derive_pda_Ok. split; [done|]. cbv beta.
    mrun; [by apply bool_decide_eq_true|]. apply owner_is_Ok. unfold owner_of. by rewrite Ha. }
  apply bind_Ok. exists d, w. split.
  { unfold load_header_chunk. apply bind_Ok. exists (mkHeaderChunk s d), w. split; [|by apply ret_Ok].
    apply try_deserialize_Ok. split; [done|]. exists a. by rewrite Ha, Hd. }
  apply bind_Ok. exists (concat ds), w. split; [|by apply ret_Ok]. apply IH. intros j x E.
  rewrite Nat.add_succ_comm. by apply Hds.
Qed.

(** C36: The client reads the header that was uploaded.  When a relayer encodes
    a header, cuts the encoding into chunks anywhere and uploads them one by
    one, the instruction that is given the chunks' accounts, whatever accounts
    follow them, assembles the encoding and decodes it to the same header, with
    the commit's signatures ordered by validator address. *)
Theorem uploaded_header_read cx client app am s h hd bh ds w w' remaining
    (Hrun : running cx TENDERMINT_ID) (Hhd : header_ok hd) (Hbh : header_to_borsh hd = Some bh)
    (Hds : concat ds = borsh_header bh) (Hlen : (length ds <= 255)%nat)
    (Hup : upload_header cx client app am s h ds 0 w = Ok ((), w'))
    (Hrem : take (length ds) remaining = (fun j => header_chunk_key s h (Z.of_nat j)) <$> seq 0 (length ds)) :
  exists sigs, assemble_header_chunks s remaining h (length ds) w' = Ok (borsh_header bh, w') /\
    tm_deserialize_header (borsh_header bh) = Ok (with_signatures sigs hd) /\
    sigs ≡ₚ tc_signatures (sh_commit (hd_signed_header hd)) /\ StronglySorted by_address sigs.
Proof.
  apply upload_header_Ok in Hup as [Hheld _]; [|done|lia].
  destruct (header_reads hd Hhd) as (bh' & sigs & E & Hp & Hs & Hread). rewrite Hbh in E. injection E as <-.
  exists sigs. split_and!; [| |done|done].
  - unfold assemble_header_chunks, slice. apply bind_Ok. eexists _, w'. rewrite lift_Ok.
    assert (length ds <= length remaining)%nat as Hl.
    { apply (f_equal length) in Hrem. rewrite length_take, length_fmap, length_seq in Hrem. lia. }
    simpl. rewrite (proj2 (Nat.leb_le _ _) Hl), drop_0, Hrem. split; [done|]. rewrite <- Hds. by apply load_chunks_run.
  - apply ok_or_ok. exact (reads_try_from_slice _ _ _ Hread).
Qed.

End Upload.
