(* ===== verification/TendermintExample.v ===== *)
(** * A run of the router over the Tendermint light client

    A concrete library and a concrete ledger: the Tendermint client is
    initialized at height 10, a signature is pre-verified, headers for the
    heights 20 and 30 are uploaded in chunks and verified, a packet is received
    and one is timed out through the client, and the client is frozen, once by a
    conflicting header and once by submitted evidence.  It shows that the
    hypotheses of the theorems about the Tendermint client can hold. *)

From S2P Require Import Prelude Errors Types Runtime Toy Ics24 Cpi AccessManager AccessManagerSpec Keyed.
From S2P Require Import Chunking Router ChunkingSpec RouterSpec RouterProps LightClients.
From S2P Require Import BorshHeader BorshHeaderSpec TmLightClient TmLightClientSpec Tendermint.
From S2P Require Import TendermintSpec TendermintProps TendermintState TendermintClient.
From S2P Require Import TendermintStep TendermintUpload.
From Stdlib Require Import ZArith Lia.
From Stdlib.Strings Require Import Byte.
From stdpp Require Import prelude strings gmap list sorting.

#[local] Open Scope Z_scope.

Module TendermintExample.

(** ** A library *)

Definition nanos : Z := 1000000000.

#[local] Instance types : TendermintTypes := {|
  Height_new_ok := fun _ h => Z.ltb 0 h;
  BlockHeight_ok := fun h => Z.ltb h (2 ^ 63);
  Power_ok := fun p => Z.ltb p (2 ^ 63);
  ChainId_ok := fun id => negb (bool_decide (id = []));
  ClientId_ok := fun id => negb (bool_decide (id = []));
  AppHash_ok := fun _ => true;
  from_raw_ed25519_ok := fun k => (length k =? 32)%nat;
  PartSetHeader_ok := fun _ _ => true;
  SignedHeader_ok := fun h c => Z.eqb (th_height h) (tc_height c);
  Signature_new := fun b => if (length b =? 64)%nat then Some (Some b) else None;
  from_unix_timestamp := fun s n => if Z.leb 0 n && Z.ltb n nanos then Some (s * nanos + n) else None;
  unix_timestamp := fun t => t / nanos;
  ValidatorSet_new := fun vs p => mkTmValidatorSet vs p (foldr Z.add 0 (val_power <$> vs)) |}.

#[local] Instance types_ok : TendermintTypesOk.
Proof.
  split.
  - intros s n t. simpl. destruct (Z.leb_spec 0 n), (Z.ltb_spec n nanos); try done. intros [= <-].
    split_and!; [done|done|done|]. unfold nanos in *. rewrite Z.div_add_l by lia. rewrite Z.div_small; lia.
  - intros b Hb. simpl. by rewrite Hb.
  - done.
Qed.

Definition toy_sign (k m : bytes) : bytes := toy_digest k ++ toy_digest m.
Definition toy_ed25519 (k m g : bytes) : bool := bool_decide (g = toy_sign k m).

Definition set_hash (vs : TmValidatorSet) : bytes :=
  toy_digest (flat_map val_address (vs_validators vs)).
Definition set_matches (vs : TmValidatorSet) (h : bytes) : bool := bool_decide (set_hash vs = h).

Definition typed_vote (v : TmPublicKey * bytes * bytes) : bool :=
  match v with
  | (PkEd25519 k, _, g) => (length k =? 32)%nat && (length g =? 64)%nat
  | _ => true
  end.

(** The votes sign the root. *)
Definition votes (hd : IbcHeader) : list (TmPublicKey * bytes * bytes) :=
  List.filter typed_vote
    (omap (fun s =>
       match s with
       | BlockIdFlagCommit a _ (Some g) =>
           v ← List.find (fun v => bool_decide (val_address v = a)) (vs_validators (hd_validator_set hd));
           Some (val_pub_key v, th_app_hash (sh_header (hd_signed_header hd)), g)
       | _ => None
       end) (tc_signatures (sh_commit (hd_signed_header hd)))).

(** All validators vote; the sets have the hashes in the header and in the
    trusted state; times increase and are fresh. *)
Definition header_check (V : Verifier) (ctx : ExtContext) (hd : IbcHeader) (client chain : bytes)
    (o : Options) : Outcome :=
  let h := sh_header (hd_signed_header hd) in
  let t := hd_trusted_height hd in
  match ec_consensus_state ctx (client, revision_number t, revision_height t), ec_host_timestamp ctx with
  | Some c, Some now =>
      if bool_decide (th_chain_id h = chain) && Z.ltb 0 (th_height h) &&
         set_matches (hd_validator_set hd) (th_validators_hash h) &&
         set_matches (hd_trusted_next_validator_set hd) (ics_next_validators_hash c) &&
         validator_sets_match V (hd_validator_set hd) (th_validators_hash h) &&
         next_validators_match V (hd_trusted_next_validator_set hd) (ics_next_validators_hash c) &&
         Z.ltb (ics_timestamp c) (th_time h) && Z.ltb now (ics_timestamp c + opt_trusting_period o * nanos) &&
         Z.ltb (th_time h) (now + opt_clock_drift o * nanos) &&
         (length (votes hd) =? length (vs_validators (hd_validator_set hd)))%nat &&
         forallb (fun v => verify_signature V v.1.1 v.1.2 v.2) (votes hd)
      then Accepted else Rejected
  | _, _ => Panics
  end.

Definition both (x y : Outcome) : Outcome :=
  match x, y with Accepted, Accepted => Accepted | Panics, _ | _, Panics => Panics | _, _ => Rejected end.

Definition field (data : bytes) (i : nat) : nat := Z.to_nat (of_le (take 2 (drop i data))).

#[local] Instance lib : TendermintLib := {|
  tendermint_types := types;
  TENDERMINT_CLIENT_TYPE := bs "07-tendermint";
  ClientId_new := fun t _ => Some t;
  IbcChainId_ok := fun id => negb (bool_decide (id = []));
  TrustThreshold_ok := fun n d => Z.ltb 0 n && Z.leb n d;
  header_height := fun hd => mkHeight 0 (th_height (sh_header (hd_signed_header hd)));
  header_votes := votes;
  ConsensusState_from := fun hd => let h := sh_header (hd_signed_header hd) in
    mkIbcConsensusState (th_time h) (th_app_hash h) (th_next_validators_hash h);
  verify_header := fun V _ ctx hd client chain o => header_check V ctx hd client chain o;
  verify_misbehaviour := fun V _ ctx mb client chain o =>
    both (header_check V ctx (mb_header1 mb) client chain o) (header_check V ctx (mb_header2 mb) client chain o);
  check_for_misbehaviour_on_misbehavior := fun h1 h2 =>
    let a := sh_header (hd_signed_header h1) in let b := sh_header (hd_signed_header h2) in
    Some (Z.eqb (th_height a) (th_height b) && negb (bool_decide (th_app_hash a = th_app_hash b)));
  prod_validator_sets_match := set_matches;
  prod_next_validators_match := set_matches;
  ed25519_verify := toy_ed25519;
  brine_sig_verify := fun k g m => toy_ed25519 k m g;
  MerkleProof := bytes;
  decode_merkle_proof := fun b => Some b;
  proof_verify_membership := fun hosts p root path v _ =>
    bool_decide (p = concat path ++ v) && bool_decide (hf_sha2_256 hosts p = root);
  proof_verify_non_membership := fun hosts p root path =>
    bool_decide (p = xff :: concat path) && bool_decide (hf_sha2_256 hosts p = root);
  HostFunctionsManager := mkHostFunctions toy_digest toy_digest toy_digest toy_digest toy_digest toy_digest
    toy_digest toy_digest;
  precompile_accepts := fun data =>
    toy_ed25519 (take 32 (drop (field data 6) data)) (take (field data 12) (drop (field data 10) data))
      (take 64 (drop (field data 2) data));
  raw_data_byte := fun _ _ => None |}.

Lemma header_check_mono V V' ctx hd client chain o :
  verifier_le (votes hd) V V' -> header_check V ctx hd client chain o = Accepted ->
  header_check V' ctx hd client chain o = Accepted.
Proof.
  intros [Hs Hn Hv]. unfold header_check. destruct (ec_consensus_state _ _) as [c|]; [|done].
  destruct (ec_host_timestamp ctx) as [now|]; [|done].
  match goal with |- (if ?b then _ else _) = _ -> (if ?b' then _ else _) = _ =>
    assert (b = true -> b' = true) as Hb; [|destruct b; [by rewrite Hb|done]] end.
  rewrite !andb_true_iff. intros [[[[[[[[[[? ?] ?] ?] Hs'%Hs] Hn'%Hn] ?] ?] ?] ?] Hall]. split_and!; try done.
  rewrite forallb_forall in *. intros [[k m] g] Hin. apply Hv; [by apply list_elem_of_In|].
  by apply (Hall (k, m, g)).
Qed.

Lemma header_check_prod V ctx hd client chain o :
  header_check V ctx hd client chain o = Accepted ->
  header_check (with_prod_predicates V) ctx hd client chain o = Accepted.
Proof.
  unfold header_check. destruct (ec_consensus_state _ _) as [c|]; [|done].
  destruct (ec_host_timestamp ctx) as [now|]; [|done].
  match goal with |- (if ?b then _ else _) = _ -> (if ?b' then _ else _) = _ =>
    assert (b = true -> b' = true) as Hb; [|destruct b; [by rewrite Hb|done]] end.
  rewrite !andb_true_iff. intros [[[[[[[[[[? ?] ?] ?] ?] ?] ?] ?] ?] ?] ?]. by split_and!.
Qed.

Lemma both_Accepted x y : both x y = Accepted <-> x = Accepted /\ y = Accepted.
Proof. destruct x, y; naive_solver. Qed.

#[local] Instance lib_ok : TendermintLibOk.
Proof.
  split.
  - intros V V' f f' ctx hd client chain o Hle _. by apply header_check_mono.
  - intros V f ctx hd client chain o. apply header_check_prod.
  - intros V V' f f' ctx mb client chain o [Hs Hn Hv] _ [H1 H2]%both_Accepted. apply both_Accepted.
    split; (eapply header_check_mono; [|eassumption]); constructor; try done; intros k m g Hin;
      apply Hv; apply elem_of_app; auto.
  - intros V f ctx mb client chain o [H1 H2]%both_Accepted. apply both_Accepted. by split; apply header_check_prod.
  - intros V f ctx hd client chain o. simpl. unfold header_check.
    destruct (ec_consensus_state _ _); [|done]. destruct (ec_host_timestamp ctx); [|done].
    match goal with |- (if ?b then _ else _) = _ -> _ => destruct b eqn:E; [|done] end.
    rewrite !andb_true_iff in E. destruct E as [[[[[[[[[[_ ?%Z.ltb_lt] _] _] _] _] _] _] _] _] _]. done.
  - intros hd k m g Hin. apply list_elem_of_In, List.filter_In in Hin as [_ [Hk Hg]%andb_true_iff].
    split; by apply Nat.eqb_eq.
  - done.
  - intros data so po mo ms Hp _ _ -> -> -> -> _ _ _. exact Hp.
Qed.

(** ** The platform *)

Definition key (n : Z) : Pubkey := pubkey_of_Z (2 ^ 248 + n).
Definition admin : Pubkey := key 1.
Definition deployer : Pubkey := key 2.
Definition relayer : Pubkey := key 3.
Definition app : Pubkey := key 7.

(** The Tendermint program answers the calls of the router. *)
Definition callee (cx : CallCtx) (prog : Pubkey) (metas : list AccountMeta) (ix : CpiIx) (w : World)
    : result Error World :=
  if bool_decide (prog = TENDERMINT_ID) then
    match meta_pubkey <$> metas with
    | [state; cs] =>
        match tm_ix_of state cs ix with
        | Some tix =>
            match @exec_tm silent_platform lib cx ([], []) tix w with Ok (_, w') => Ok w' | Err e => Err e end
        | None => Err (EProgram 0)
        end
    | _ => Err (EProgram 0)
    end
  else answering (fun p _ => if bool_decide (p = app) then Some [x01] else None) cx prog metas ix w.

#[local] Instance platform : Platform := toy_platform callee.

Lemma tm_callee_return cx prog metas ix w w' :
  callee cx prog metas ix w = Ok w' -> w' = w \/ exists r, w' = set_return w r.
Proof.
  unfold callee. case_bool_decide as E.
  - destruct (meta_pubkey <$> metas) as [|state [|k [|]]]; try done.
    destruct (tm_ix_of _ _ ix) as [tix|] eqn:Ex; [|done].
    destruct (exec_tm _ _ _ _) as [[u w2]|] eqn:Hx; [|done]. intros [= ->].
    pose proof silent_platform_ok. eapply (@tm_read_Ok silent_platform); [|exact Hx].
    destruct ix; try done; injection Ex as <-; eauto.
  - unfold answering. case_bool_decide; [|done]. intros [= <-]. right. by eexists.
Qed.

#[local] Instance platform_ok : PlatformOk.
Proof.
  apply toy_platform_ok.
  - intros cx prog metas ix w w' p [->|[r ->]]%tm_callee_return _ _; split_and!; try done;
      exists []; by rewrite app_nil_r.
  - by intros cx prog metas ix w w' [->|[r ->]]%tm_callee_return.
Qed.

#[local] Instance tm_deployed : TendermintDeployed.
Proof.
  intros cx metas ix w w' state k Hp Hm. change (callee cx TENDERMINT_ID metas ix w = Ok w') in Hp.
  unfold callee in Hp. rewrite bool_decide_eq_true_2, Hm in Hp by done.
  destruct (tm_ix_of _ _ ix) as [tix|] eqn:Ex; [|done]. exists ([], []), tix. split; [done|].
  destruct (@exec_tm silent_platform lib cx ([], []) tix w) as [[[] w2]|] eqn:Hx; [|done]. injection Hp as <-.
  destruct ix; try done; injection Ex as <-; exact Hx.
Qed.

#[local] Instance router_deployed : RouterDeployed.
Proof. intros cx metas ix w _. by vm_compute. Qed.

(** ** Headers *)

Definition chain_id : bytes := bs "cosmoshub-4".
Definition validator_key (n : byte) : bytes := n :: replicate 31 x55.
Definition validator (n : byte) : TmValidator :=
  mkTmValidator (take 20 (validator_key n)) (PkEd25519 (validator_key n)) 10 0 None.
Definition validators : TmValidatorSet := mkTmValidatorSet [validator x01; validator x02] None 20.

Definition vote (n : byte) (t : Z) (root : bytes) : TmCommitSig :=
  BlockIdFlagCommit (take 20 (validator_key n)) t (Some (toy_sign (validator_key n) root)).

(** The header for the height [h], trusted at height 10. *)
Definition header (h t : Z) (root : bytes) : IbcHeader := mkIbcHeader
  (mkTmSignedHeader
     (mkTmBlockHeader (mkTmVersion 11 1) chain_id h t None None None (set_hash validators)
        (set_hash validators) (replicate 32 x07) root None None (take 20 (validator_key x01)))
     (mkTmCommit h 0 (mkTmBlockId (replicate 32 x08) (mkTmPartSetHeader 1 (replicate 32 x09)))
        [vote x01 t root; vote x02 t root]))
  validators (mkHeight 0 10) validators.

(** ** The packets *)

Definition client : bytes := bs "cosmoshub".
Definition counterparty : bytes := bs "07-svm-0".
Definition port : bytes := bs "transfer".
Definition payload : Payload := mkPayload port port (bs "v1") (bs "json") (bs "hello").
Definition received : Packet := mkPacket 1 counterparty client 1700003600 [payload].
Definition sent : Packet := mkPacket 2 client counterparty 1700001000 [payload].
Definition packet_key : bytes := packet_commitment_path counterparty 1.
Definition receipt_key : bytes := packet_receipt_commitment_path counterparty 2.
Definition present : bytes := packet_key ++ packet_commitment_bytes32 received.
Definition missing : bytes := xff :: receipt_key.

Definition header20 : IbcHeader := header 20 (1699999000 * nanos) (toy_digest present).
Definition header30 : IbcHeader := header 30 (1700002000 * nanos) (toy_digest missing).
Definition fork20 : IbcHeader := header 20 (1699999500 * nanos) (toy_digest missing).

(** ** The ledger *)

Definition am_key (program : Pubkey) : Pubkey := pda_key [AccessManager_SEED] program.
Definition data_key (program : Pubkey) : Pubkey := pda_key [program] BPF_LOADER_UPGRADEABLE_ID.
Definition app_state : Pubkey := pda_key [IBCAppState_SEED] app.

Definition registry : AccessManager := mkAccessManager
  [mkRoleData ADMIN_ROLE [admin]; mkRoleData RELAYER_ROLE [relayer];
   mkRoleData ID_CUSTOMIZER_ROLE [admin]; mkRoleData PAUSER_ROLE [admin]] [] [].

Definition w0 : World := mkWorld
  (<[data_key ROUTER_ID := mkAccount BPF_LOADER_UPGRADEABLE_ID (DProgramData (Some deployer)) 100 false]>
  (<[data_key TENDERMINT_ID := mkAccount BPF_LOADER_UPGRADEABLE_ID (DProgramData (Some deployer)) 100 false]>
  (<[am_key ACCESS_MANAGER_ID := mkAccount ACCESS_MANAGER_ID (DAccessManager registry) 1000 false]>
  (<[rk (KCommit client 2) := mkAccount ROUTER_ID (DCommitment (packet_commitment_bytes32 sent)) 100 false]>
  (<[app := mkAccount BPF_LOADER_UPGRADEABLE_ID DZeroed 100 true]>
  (<[app_state := mkAccount app DZeroed 100 false]> ∅))))))
  (<[rk (KCommit client 2) := 1000%N]>
    (<[deployer := 1000000%N]> (<[admin := 1000000%N]> {[relayer := 1000000%N]})))
  1700000000 None [].

Definition router_cx : CallCtx := mkCallCtx [ROUTER_ID] {[admin; deployer; relayer]}
  (list_to_set [rk KState; rk (KClient client); rk (KApp port); rk (KCommit client 2);
    rk (KReceipt client 1); rk (KAck client 1); admin; deployer; relayer; app_state]).

Definition setup : list RouterIx :=
  [RInitialize (mkRInitializeAccounts (rk KState) deployer SYSTEM_PROGRAM_ID (data_key ROUTER_ID)
     deployer) ACCESS_MANAGER_ID;
   RAddClient (mkAddClientAccounts admin (rk KState) (am_key ACCESS_MANAGER_ID) (rk (KClient client))
     TENDERMINT_ID SYSTEM_PROGRAM_ID INSTRUCTIONS_SYSVAR_ID) client (mkCounterpartyInfo counterparty [[]]);
   RAddIbcApp (mkAddIbcAppAccounts (rk KState) (am_key ACCESS_MANAGER_ID) (rk (KApp port)) app admin
     admin SYSTEM_PROGRAM_ID INSTRUCTIONS_SYSVAR_ID) port].

Definition w1 : World := foldl (fun w ix => run_tx (exec_router router_cx ix) w) w0 setup.

(** ** The client *)

Definition client_state : TmClientState := mkTmClientState chain_id 2 3 1209600 1814400 5000
  (mkIbcHeight 0 0) (mkIbcHeight 0 10).
Definition root_state : TmConsensusState :=
  mkTmConsensusState (1699998000 * nanos) (replicate 32 x01) (set_hash validators).

(** The encoding of a header, cut in two. *)
Definition encoding (hd : IbcHeader) : bytes :=
  match header_to_borsh hd with Some bh => borsh_header bh | None => [] end.
Definition chunks (b : bytes) : list bytes := [take 300 b; drop 300 b].

Definition header_chunks (h : Z) : list Pubkey :=
  (fun j => header_chunk_key relayer h (Z.of_nat j)) <$> seq 0 2.
Definition evidence_chunks : list Pubkey :=
  (fun j => pda_key (misbehaviour_chunk_seeds relayer (Z.of_nat j)) TENDERMINT_ID) <$> seq 0 3.

Definition vote_hash : bytes :=
  sig_hash (validator_key x01) (toy_digest present) (toy_sign (validator_key x01) (toy_digest present)).

Definition tm_cx : CallCtx := mkCallCtx [TENDERMINT_ID] {[admin; deployer; relayer]}
  (list_to_set ([tk TKClient; tk TKApp; tk (TKCons 10); tk (TKCons 20); tk (TKCons 30); deployer; relayer;
    sig_verify_key vote_hash] ++ header_chunks 20 ++ header_chunks 30 ++ evidence_chunks)).

Definition upload (h : Z) (hd : IbcHeader) : list TmIx :=
  imap (fun i d => TUploadHeaderChunk
    (mkTmUploadAccounts (header_chunk_key relayer h (Z.of_nat i)) (tk TKClient) (tk TKApp)
       (am_key ACCESS_MANAGER_ID) relayer INSTRUCTIONS_SYSVAR_ID SYSTEM_PROGRAM_ID)
    (mkUploadChunkParams h (Z.of_nat i) d)) (chunks (encoding hd)).

Definition update_to (h : Z) (sigs : list Pubkey) : TmIx := TAssembleAndUpdateClient
  (mkAssembleAndUpdateClientAccounts (tk TKClient) (tk TKApp) (am_key ACCESS_MANAGER_ID) (tk (TKCons 10))
     (tk (TKCons h)) relayer SYSTEM_PROGRAM_ID INSTRUCTIONS_SYSVAR_ID (header_chunks h ++ sigs)) h 2 10.

Definition init_ix : TmIx := TInitialize
  (mkTmInitializeAccounts (tk TKClient) (tk (TKCons 10)) (tk TKApp) deployer SYSTEM_PROGRAM_ID
     (data_key TENDERMINT_ID) deployer) client_state root_state ACCESS_MANAGER_ID.

(** The data of the Ed25519 instruction: the offsets, the key, the signature
    and the message. *)
Definition ed25519_data : bytes :=
  [x01; x00] ++ to_le 2 48 ++ [xff; xff] ++ to_le 2 16 ++ [xff; xff] ++ to_le 2 112 ++ to_le 2 32 ++ [xff; xff] ++
  validator_key x01 ++ toy_sign (validator_key x01) (toy_digest present) ++ toy_digest present.
Definition first_ix : Ix0 := (ED25519_PROGRAM_ID, ed25519_data).

Definition pre_verify : TmIx := TPreVerifySignature
  (mkPreVerifySignatureAccounts INSTRUCTIONS_SYSVAR_ID (sig_verify_key vote_hash) (tk TKApp)
     (am_key ACCESS_MANAGER_ID) relayer SYSTEM_PROGRAM_ID)
  (mkSignatureData vote_hash (validator_key x01) (toy_digest present)
     (toy_sign (validator_key x01) (toy_digest present))).

Fixpoint tm_runs (ixs : list TmIx) (w : World) : bool :=
  match ixs with
  | [] => true
  | ix :: ixs => is_ok (exec_tm tm_cx first_ix ix w) && tm_runs ixs (run_tx (exec_tm tm_cx first_ix ix) w)
  end.
Definition tm_run (ixs : list TmIx) (w : World) : World :=
  foldl (fun w ix => run_tx (exec_tm tm_cx first_ix ix) w) w ixs.

Definition life : list TmIx :=
  [init_ix; pre_verify] ++ upload 20 header20 ++ [update_to 20 [sig_verify_key vote_hash]] ++
  upload 30 header30 ++ [update_to 30 []].

Definition w2 : World := tm_run life w1.

(** A fork of the header 20 is submitted as an update, or as evidence. *)
Definition fork : list TmIx := upload 20 fork20.
Definition conflict : TmIx := update_to 20 [].

Definition evidence : bytes :=
  match misbehaviour_to_borsh (mkIbcMisbehaviour (bs "07-tendermint-0") header20 fork20) with
  | Some bm => borsh_misbehaviour bm
  | None => []
  end.
Definition evidence_upload : list TmIx :=
  imap (fun i d => TUploadMisbehaviourChunk
    (mkTmUploadAccounts (pda_key (misbehaviour_chunk_seeds relayer (Z.of_nat i)) TENDERMINT_ID) (tk TKClient)
       (tk TKApp) (am_key ACCESS_MANAGER_ID) relayer INSTRUCTIONS_SYSVAR_ID SYSTEM_PROGRAM_ID)
    (mkUploadMisbehaviourChunkParams (Z.of_nat i) d)) [take 700 evidence; take 700 (drop 700 evidence); drop 1400 evidence].
Definition submit : TmIx := TAssembleAndSubmitMisbehaviour
  (mkAssembleAndSubmitMisbehaviourAccounts (tk TKClient) (tk TKApp) (am_key ACCESS_MANAGER_ID) (tk (TKCons 10))
     (tk (TKCons 10)) relayer INSTRUCTIONS_SYSVAR_ID evidence_chunks) 3 10 10.

Definition w3 : World := tm_run fork w2.
Definition w4 : World := tm_run [conflict] w3.
Definition w5 : World := tm_run evidence_upload w2.
Definition w6 : World := tm_run [submit] w5.

Lemma tm_running : running tm_cx TENDERMINT_ID.
Proof. apply toy_running. by vm_compute. Qed.

Lemma tm_router_running : running router_cx ROUTER_ID.
Proof. apply toy_running. by vm_compute. Qed.

Lemma first_ix_ran : ix0_ran first_ix.
Proof. intros _. by vm_compute. Qed.

(** The types of the arguments, decided. *)
Definition typed (ix : TmIx) : bool :=
  match ix with
  | TInitialize _ cs c _ =>
      Z.leb 0 (ih_revision_height (tcs_latest_height cs)) && Z.leb (ih_revision_height (tcs_latest_height cs)) u64_max &&
      Z.leb 0 (tmc_timestamp c) && Z.leb (tmc_timestamp c) u64_max
  | TAssembleAndUpdateClient _ h _ th => Z.leb 0 h && Z.leb h u64_max && Z.leb 0 th && Z.leb th u64_max
  | TAssembleAndSubmitMisbehaviour _ _ h th => Z.leb 0 h && Z.leb h u64_max && Z.leb 0 th && Z.leb th u64_max
  | TPreVerifySignature _ s => (length (sd_pubkey s) =? 32)%nat && (length (sd_signature s) =? 64)%nat
  | _ => true
  end.

Lemma typed_spec ix : typed ix = true -> tm_ix_typed ix.
Proof.
  destruct ix; simpl; try done; unfold is_u64; rewrite ?andb_true_iff, ?Z.leb_le, ?Nat.eqb_eq; naive_solver.
Qed.

Lemma tm_run_reachable ixs w :
  tm_reachable w -> forallb typed ixs = true -> tm_runs ixs w = true -> tm_reachable (tm_run ixs w).
Proof.
  revert w. induction ixs as [|ix ixs IH]; intros w Hr Ht Hx; [done|]. simpl in Ht, Hx.
  apply andb_true_iff in Ht as [Ht Hts], Hx as [Hx Hxs]. apply IH; [|done|done].
  eapply reach_step; [exact Hr|]. exists tm_cx, first_ix, ix.
  split_and!; [exact tm_running|by apply typed_spec|exact first_ix_ran|by apply run_tx_Ok].
Qed.

Lemma tm_w1_reachable : tm_reachable w1.
Proof. apply reach_start; [intros K _; apply toy_no_accounts; by vm_compute|by vm_compute]. Qed.

Lemma tm_w2_reachable : tm_reachable w2.
Proof. apply tm_run_reachable; [apply tm_w1_reachable|by vm_compute|by vm_compute]. Qed.
Lemma tm_w3_reachable : tm_reachable w3.
Proof. apply tm_run_reachable; [apply tm_w2_reachable|by vm_compute|by vm_compute]. Qed.
Lemma w5_reachable : tm_reachable w5.
Proof. apply tm_run_reachable; [apply tm_w2_reachable|by vm_compute|by vm_compute]. Qed.

Lemma step_of ix w :
  typed ix = true -> is_ok (exec_tm tm_cx first_ix ix w) = true -> tm_step w (tm_run [ix] w).
Proof.
  intros Ht Hx. exists tm_cx, first_ix, ix.
  split_and!; [exact tm_running|by apply typed_spec|exact first_ix_ran|by apply run_tx_Ok].
Qed.

(** What an account of the program holds, by evaluation. *)
Definition client_at (w : World) : TmClientState :=
  match acc_data <$> w_accts w !! tk TKClient with Some (DTmClientState cs) => cs | _ => client_state end.
Definition cons_at (w : World) (h : Z) : TmConsensusStateStore :=
  match acc_data <$> w_accts w !! tk (TKCons h) with
  | Some (DTmConsensusStateStore st) => st
  | _ => fresh_consensus_store
  end.

Definition holds_client (w : World) : bool :=
  match w_accts w !! tk TKClient with
  | Some a => bool_decide (acc_owner a = TENDERMINT_ID) &&
      match acc_data a with DTmClientState _ => true | _ => false end
  | None => false
  end.
Definition holds_cons (w : World) (h : Z) : bool :=
  match w_accts w !! tk (TKCons h) with
  | Some a => bool_decide (acc_owner a = TENDERMINT_ID) &&
      match acc_data a with DTmConsensusStateStore _ => true | _ => false end
  | None => false
  end.

Lemma tm_stored_client_at w : holds_client w = true -> tm_stored w TKClient (DTmClientState (client_at w)).
Proof.
  unfold holds_client, client_at, held. destruct (w_accts w !! tk TKClient) as [a|]; [|done]. simpl.
  intros [Ho%bool_decide_eq_true Hm]%andb_true_iff. exists a. split_and!; [done|done|]. by destruct (acc_data a).
Qed.

Lemma tm_stored_cons_at w h : holds_cons w h = true -> tm_stored w (TKCons h) (DTmConsensusStateStore (cons_at w h)).
Proof.
  unfold holds_cons, cons_at, held. destruct (w_accts w !! tk (TKCons h)) as [a|]; [|done]. simpl.
  intros [Ho%bool_decide_eq_true Hm]%andb_true_iff. exists a. split_and!; [done|done|]. by destruct (acc_data a).
Qed.

(** ** Witnesses *)

(** The states at the heights 10, 20 and 30 descend from one of them. *)
Lemma tm_states_trusted_witness :
  exists rh rc, chain (client_at w2) (rh, rc) 20 (tss_consensus_state (cons_at w2 20)) /\
    chain (client_at w2) (rh, rc) 30 (tss_consensus_state (cons_at w2 30)).
Proof.
  destruct (tm_states_trusted w2 (client_at w2) tm_w2_reachable ltac:(apply tm_stored_client_at; by vm_compute))
    as (_ & _ & rh & rc & _ & _ & Hall).
  exists rh, rc. split; apply Hall; try done; apply tm_stored_cons_at; by vm_compute.
Defined.

(** The fork freezes the client. *)
Lemma tm_freezes_on_evidence_witness :
  client_at w4 = freeze (client_at w3) /\
  (conflicting_headers w3 (client_at w3) \/ proven_misbehaviour w3 (client_at w3)).
Proof.
  apply (tm_freezes_on_evidence w3 w4 (client_at w3) (client_at w4) tm_w3_reachable
    ltac:(apply step_of; by vm_compute) ltac:(apply tm_stored_client_at; by vm_compute) ltac:(by vm_compute)
    ltac:(apply tm_stored_client_at; by vm_compute) ltac:(by vm_compute)).
Defined.

Lemma w6_step : tm_step w5 w6.
Proof. apply step_of; by vm_compute. Qed.

(** Submitted evidence keeps the consensus states. *)
Lemma tm_states_final_witness :
  is_frozen (client_at w5) = false /\ is_frozen (client_at w6) = true /\
  tm_stored w6 (TKCons 20) (DTmConsensusStateStore (cons_at w5 20)).
Proof.
  split; [by vm_compute|]. split; [by vm_compute|].
  apply (tm_states_final w5 w6 (client_at w5) w5_reachable w6_step
    ltac:(apply tm_stored_client_at; by vm_compute)); [done|]. apply tm_stored_cons_at; by vm_compute.
Defined.

Definition vote_account : Account :=
  match w_accts w2 !! sig_verify_key vote_hash with Some a => a | None => mkAccount [] DZeroed 0 false end.

Lemma pre_verified_signatures_genuine_witness :
  exists k m g, vote_hash = sha256 (k ++ m ++ g) /\ ed25519_verify k m g = true.
Proof.
  destruct (pre_verified_signatures_genuine w2 vote_hash vote_account (mkSignatureVerification true relayer)
    tm_w2_reachable ltac:(by vm_compute) ltac:(by vm_compute) ltac:(by vm_compute)) as (k & m & g & ? & _ & _ & ?).
  by exists k, m, g.
Defined.

(** The conflicting header: the client is frozen, and nothing else is written. *)
Lemma tm_instructions_refine_spec_witness :
  exists ch l, t_spec tm_cx first_ix w3 w4 conflict ch l /\
    (forall k d, (k, d) ∈ ch -> held TENDERMINT_ID w4 k d) /\
    forall k, k ∉ fst <$> ch -> w_accts w4 !! k = w_accts w3 !! k.
Proof.
  destruct (tm_instructions_refine_spec tm_cx first_ix conflict w3 w4 tm_running ltac:(by apply typed_spec; vm_compute)
    tm_w3_reachable ltac:(apply run_tx_Ok; by vm_compute)) as (ch & l & Ht & _ & Hh & Hs).
  exists ch, l. exact (conj Ht (conj Hh Hs)).
Defined.

(** The Solana variant on the header 20, with the vote's account. *)
Definition tm_client : UpdateClientState := mkUpdateClientState chain_id (mkTrustThreshold 2 3) 1209600 1814400 5000
  false (mkHeight 0 10).
Definition trusted : IbcConsensusState :=
  mkIbcConsensusState (1699998000 * nanos) (replicate 32 x01) (set_hash validators).
Definition output20 : UpdateClientOutput :=
  mkUpdateClientOutput (ConsensusState_from header20) (header_height header20) (mkHeight 0 10).

Lemma solana_variant_agrees_witness :
  update_client tm_client trusted header20 (1700000000 * nanos) = Ok output20 /\
  (update_client tm_client trusted header20 (1700000000 * nanos) = Ok output20 \/
   votes_collide (header_votes header20)).
Proof.
  destruct (tm_reachable_inv w2 tm_w2_reachable) as (_ & Hi & _).
  destruct (solana_variant_agrees TENDERMINT_ID w2 tm_client (sig_inv_truthful w2 Hi)) as (Ha & _ & Hs & _).
  split.
  - refine (proj1 (Ha trusted header20 (1700000000 * nanos) output20) _). vm_compute. reflexivity.
  - refine (Hs trusted header20 (1700000000 * nanos) [sig_verify_key vote_hash] output20 _).
    vm_compute. reflexivity.
Defined.

(** The packet instructions of the router. *)
Definition packet_accs (s h : Z) : PacketAccounts := mkPacketAccounts (rk KState)
  (am_key ACCESS_MANAGER_ID) (rk (KApp port)) (rk (KReceipt client s)) (rk (KAck client s))
  (rk (KCommit client s)) app app_state relayer SYSTEM_PROGRAM_ID INSTRUCTIONS_SYSVAR_ID
  (rk (KClient client)) (mkLcAccounts TENDERMINT_ID (tk TKClient) (tk (TKCons h))) [].
Definition msg_payload : MsgPayload := mkMsgPayload port port (bs "v1") (bs "json") (Inline (bs "hello")).
Definition recv : RouterIx := RRecvPacket (packet_accs 1 20)
  (mkMsgRecvPacket (mkMsgPacket 1 counterparty client 1700003600 [msg_payload])
     (mkMsgProof 20 (Inline present))).
Definition expire : RouterIx := RTimeoutPacket (packet_accs 2 30)
  (mkMsgTimeoutPacket (mkMsgPacket 2 client counterparty 1700001000 [msg_payload])
     (mkMsgProof 30 (Inline missing))).

Definition after (ix : RouterIx) : World := run_tx (exec_router router_cx ix) w2.
Definition new_log (ix : RouterIx) : list LogEntry :=
  drop (length (own_log ROUTER_ID w2)) (own_log ROUTER_ID (after ix)).
Definition client_record : Client :=
  match acc_data <$> w_accts w2 !! rk (KClient client) with
  | Some (DClient cl) => cl
  | _ => mkClient V1 [] [] (mkCounterpartyInfo [] []) false
  end.

Lemma tm_after_Ok ix : is_ok (exec_router router_cx ix w2) = true ->
  exec_router router_cx ix w2 = Ok ((), after ix).
Proof. by apply run_tx_Ok. Qed.

Lemma tm_stored_record : stored w2 (KClient client) (DClient client_record).
Proof. eexists. split_and!; by vm_compute. Qed.

Lemma tm_reported ix e :
  last (new_log ix) = Some (LEvent ROUTER_ID e) -> LEvent ROUTER_ID e ∈ new_log ix.
Proof. apply last_Some_elem_of. Qed.

Lemma delivered_packets_proved_witness :
  exists h st path proof, tm_trusts w2 h st /\ shows st proof path (packet_commitment_bytes32 received).
Proof.
  destruct (delivered_packets_proved router_cx recv w2 (after recv) (new_log recv) client 1 received
    [[x01]] client_record tm_router_running ltac:(done) ltac:(apply tm_after_Ok; by vm_compute) ltac:(by vm_compute)
    ltac:(apply tm_reported; by vm_compute) tm_stored_record ltac:(by vm_compute) tm_w2_reachable)
    as (_ & h & st & path & proof & ? & _ & ?).
  by exists h, st, path, proof.
Defined.

Lemma timed_out_packets_proved_missing_witness :
  exists h st path proof, tm_trusts w2 h st /\ shows_absent st proof path /\
    1700001000 <= tmc_timestamp (tss_consensus_state st) / 1000000000.
Proof.
  destruct (timed_out_packets_proved_missing router_cx expire w2 (after expire) (new_log expire) client 2
    sent client_record tm_router_running ltac:(done) ltac:(apply tm_after_Ok; by vm_compute) ltac:(by vm_compute)
    ltac:(apply tm_reported; by vm_compute) tm_stored_record ltac:(by vm_compute) tm_w2_reachable)
    as (h & st & path & proof & ? & _ & ? & ?).
  by exists h, st, path, proof.
Defined.

(** ** The encoding *)

Lemma time_at s : 0 <= s < 2 ^ 62 -> time_ok (s * nanos).
Proof.
  intros Hs. split; [unfold nanos; lia|]. exists s, 0. split.
  - unfold is_sint. change (256 ^ Z.of_nat 8 / 2) with (2 ^ 63). lia.
  - simpl. by rewrite Z.add_0_r.
Qed.

Lemma validator_typed n : validator_ok (validator n).
Proof. split_and!; try done. by exists (validator_key n). Qed.

Lemma validators_ok : validator_set_ok validators.
Proof. split_and!; try done. repeat constructor; apply validator_typed. Qed.

Lemma block_ok b : block_id_ok (mkTmBlockId (replicate 32 b) (mkTmPartSetHeader 1 (replicate 32 b))).
Proof. by split_and!. Qed.

Lemma header20_ok : header_ok header20.
Proof.
  assert (time_ok (1699999000 * nanos)) as Ht by (by apply time_at).
  split_and!; [| |by vm_compute|apply validators_ok|done|done|done|apply validators_ok].
  - split_and!; try done; intros x [=].
  - split_and!; try done. apply Forall_cons; split; [|apply Forall_cons; split; [|constructor]];
      (split_and!; [done|exact Ht|by eexists]).
Qed.

Lemma header_codec_roundtrip_witness :
  exists bh sigs, header_to_borsh header20 = Some bh /\
    HeaderWrapper_try_from_slice (borsh_header bh) = Some (with_signatures sigs header20).
Proof.
  destruct (header_codec_roundtrip header20 header20_ok) as (bh & sigs & ? & _ & _ & ?). by exists bh, sigs.
Defined.

Lemma direct_decoder_agrees_witness :
  exists bh, try_from_slice read_header (encoding header20) = Some bh /\
    borsh_to_header bh = Ok (recompute header20).
Proof.
  destruct (try_from_slice read_header (encoding header20)) as [bh|] eqn:E;
    [|exfalso; vm_compute in E; discriminate E].
  exists bh. split; [reflexivity|]. apply (direct_decoder_agrees (encoding header20) bh E (recompute header20)).
  exists header20. split; [vm_compute; reflexivity|reflexivity].
Defined.

(** The uploads of the header 20 to the fresh client. *)
Definition w_init : World := tm_run [init_ix] w1.
Definition uploads : M unit := upload_header tm_cx (tk TKClient) (tk TKApp) (am_key ACCESS_MANAGER_ID) relayer 20
  (chunks (encoding header20)) 0.

Lemma uploaded_header_read_witness :
  exists bh sigs, header_to_borsh header20 = Some bh /\
    assemble_header_chunks relayer (header_chunks 20 ++ [sig_verify_key vote_hash]) 20 2 (run_tx uploads w_init) =
      Ok (borsh_header bh, run_tx uploads w_init) /\
    tm_deserialize_header (borsh_header bh) = Ok (with_signatures sigs header20).
Proof.
  destruct (header_to_borsh header20) as [bh|] eqn:E; [|exfalso; vm_compute in E; discriminate E]. exists bh.
  assert (concat (chunks (encoding header20)) = borsh_header bh) as Hc.
  { unfold encoding, chunks. rewrite E. simpl. by rewrite app_nil_r, take_drop. }
  destruct (@uploaded_header_read platform platform_ok lib types_ok tm_cx (tk TKClient) (tk TKApp) (am_key ACCESS_MANAGER_ID) relayer 20 header20 bh
    (chunks (encoding header20)) w_init (run_tx uploads w_init) (header_chunks 20 ++ [sig_verify_key vote_hash])
    tm_running header20_ok E Hc ltac:(simpl; lia) ltac:(apply run_tx_Ok; vm_compute; reflexivity)
    ltac:(reflexivity)) as (sigs & Ha & Hd & _).
  exists sigs. exact (conj eq_refl (conj Ha Hd)).
Defined.

(** ** The latest height *)

(** The heights 30 and then 20: the latest height is 20 at the end. *)
Definition backwards : list TmIx :=
  [init_ix] ++ upload 30 header30 ++ [update_to 30 []] ++ upload 20 header20 ++ [update_to 20 []].

(** An update for a lower height lowers the client's latest height, although
    the state for the higher one is kept. *)
Example tm_latest_height_regresses :
  tm_runs backwards w1 = true /\ holds_cons (tm_run backwards w1) 30 = true /\
  tcs_latest_height (client_at (tm_run (take 4 backwards) w1)) = mkIbcHeight 0 30 /\
  tcs_latest_height (client_at (tm_run backwards w1)) = mkIbcHeight 0 20.
Proof. vm_compute. split_and!; reflexivity. Qed.

End TendermintExample.
